(* ===== verification/_CoqProject ===== *)
-Q . S2P
Prelude.v
Python.v
Exceptions.v
Uuids.v
Sha256.v
Auth.v
MutationAudit.v
Dimensions.v
MasterCodes.v
Store.v
Records.v
Invariant.v
LogTables.v
Consistency.v
Pagination.v
BoundedMerge.v
AuditLogs.v
AuditLogSpecs.v
DimensionRepos.v
DimensionSpecs.v
DimensionLifecycle.v
MasterCodeRepo.v
MasterCodeSpecs.v
Transactions.v
Commands.v
CommandSpecs.v
UseCases.v
ChangeRequests.v
ChangeRequestRepo.v
ChangeRequestSpecs.v
Approvals.v
Reviews.v
ReviewErrors.v
Credentials.v
RateLimits.v
Accounts.v
Sessions.v
Registrations.v
Passwords.v
UserManagement.v
AccountInvariant.v
AccountSpecs.v
SessionSpecs.v
PasswordSpecs.v
AccountClaims.v
AccountErrors.v
IpAddresses.v
Origins.v
AccessTokens.v
AccessTokenSpecs.v
RequestProtection.v
RequestProtectionSpecs.v
Problems.v
Preconditions.v
Json.v
Cursors.v
Endpoints.v
EndpointSpecs.v
DimensionEndpoints.v
DimensionEndpointSpecs.v
MasterCodeEndpoints.v
MasterCodeEndpointSpecs.v
ChangeRequestEndpoints.v
ChangeRequestEndpointSpecs.v
ChangeRequestJourneys.v
AuthEndpoints.v
AuthEndpointSpecs.v
AuthJourneys.v
