(* ===== verification/Prelude.v ===== *)
(** * Verification of the MDM API (root file)

    The program is a master-data service in Python (FastAPI, SQLAlchemy and
    PostgreSQL): [src/src/mdm/domain] holds values and state transitions,
    [src/src/mdm/application] the use cases and their ports,
    [src/src/mdm/infrastructure] the repositories, whose transactions rely on
    the constraints and triggers that [src/alembic/versions] install, and
    [src/src/mdm/api] the HTTP endpoints.  This library models the first three
    layers and part of the fourth as executable functions and proves what they
    promise together.

    ** The program and its model

    Two families of tables, and the components over them:

    - Master data.  Eight Dimension tables (company, brand, model, category,
      year, memory, network, country), MasterCodes that reference one row per
      slot and whose code joins the codes of those rows, append-only logs
      written by triggers, and change requests that propose MasterCode changes
      for review.
    - Accounts.  Users with roles and statuses, refresh-token families,
      registration and password-reset challenges with their tokens, and
      permanent security events.

    A request reaches them through the access token that authenticates it, the
    protection of the authentication endpoints, the parsing of its
    precondition, and an endpoint that renders the result or the exception.

    A Python function becomes a function in the error monad [result] of this
    file over the exceptions of [Exceptions]; a raised exception rolls the
    transaction back, so a repository method or use case maps a database to a
    result and, when it succeeds, a new database.  What a transaction reads
    under locks is its argument [db]; what was read earlier without locks is a
    separate argument [seen], on which no hypothesis is made unless a theorem
    says so: every interleaving of committed transactions is covered.  The
    clock, fresh identifiers and random draws are explicit ([Env], [AuthEnv]).

    ** Files

    Language: [Prelude] (the error monad, tactics, hints, lists), [Python]
    (strings as code points, UUID text, datetimes, decoded JSON), [Exceptions],
    [Uuids] (the [UUID] parser, [infrastructure/uuid7.py]), [Sha256],
    [IpAddresses] ([ipaddress] of the standard library), [Json] (its [json]:
    the detection of the encoding, the scanner, the writer), [BoundedMerge]
    (sorting by several keys and cutting branches before they are merged).

    Domain: [Auth] ([domain/auth.py], [application/authorization.py]),
    [MutationAudit] ([domain/audit.py], [application/audit.py]), [Dimensions]
    ([domain/dimensions.py]), [MasterCodes] ([domain/master_codes.py]).

    Master data: [Store] (tables, constraints and triggers of
    [infrastructure/models.py] and the migrations), [Records] (rows to domain
    values), [Invariant] and [Consistency] (what holds between transactions),
    [Pagination], [DimensionRepos] and [DimensionLifecycle] (the Dimension
    repositories, one generic transaction per operation and one instance per
    class), [DimensionSpecs], [MasterCodeRepo], [MasterCodeSpecs] (the abstract
    specifications and the proof that the transactions compute them),
    [Transactions] (all repository transactions together), [Commands] (the use
    cases of [application/dimensions.py], [string_dimensions.py],
    [numeric_dimensions.py], [memory_dimensions.py], [dimension_lifecycle.py],
    [master_codes.py], [master_code_lifecycle.py], written against the class
    [DimensionRepository] of their port), [CommandSpecs], [UseCases].

    Audit log: [LogTables] (the nine log tables with their constraints, which
    the entries of [Store] satisfy), [AuditLogs] ([application/audit_logs.py],
    [repositories/audit_logs.py]: queries, cursors, the union of the tables),
    [AuditLogSpecs].

    Change requests: [ChangeRequests] ([domain/change_requests.py],
    [application/change_requests.py]), [ChangeRequestRepo] (its repository and
    table), [ChangeRequestSpecs], [Approvals] (what an approval writes),
    [Reviews] (commands, submissions and reviews as one state machine),
    [ReviewErrors] (which exceptions each of its steps can raise).

    Accounts: [Credentials] ([domain/credentials.py], [application/tokens.py]),
    [RateLimits] ([infrastructure/rate_limits.py]), [Accounts] (the tables with
    their constraints, [repositories/users.py]), [Sessions],
    [Registrations], [Passwords], [UserManagement] (the application module of
    each name with its repository; the last also bootstrap and the reads of
    administrators), [AccountInvariant] (one table at a time), [AccountSpecs]
    (the invariant of all account tables and the steps that keep it),
    [SessionSpecs] and [PasswordSpecs] (what each committed use case writes),
    [AccountClaims] (the theorems).

    Requests: [Origins] ([application/origins.py], [browser_policy.py], with
    [urlsplit]), [AccessTokens] ([infrastructure/jwt.py],
    [application/auth.py], [api/auth.py], [api/authorization.py]),
    [RequestProtection] ([application/request_protection.py],
    [infrastructure/request_protection.py], [api/session_cookies.py]), their
    [...Specs]; [Problems] (the exception handlers of [api/errors.py] and the
    other modules of [api] and their registration in [main.py]),
    [Preconditions] ([api/preconditions.py], the ETags), [Cursors] (the text of
    the cursors of Dimensions, MasterCodes and change requests, base64 around
    [Json]), [Endpoints] (a handler behind its guard, a response, a documented
    response) and [EndpointSpecs];
    [DimensionEndpoints] (the routes of [api/dimensions.py],
    [string_dimensions.py], [numeric_dimensions.py], [memory_dimensions.py] and
    [dimension_lifecycle.py] with the responses they document),
    [MasterCodeEndpoints] ([api/master_codes.py],
    [api/master_code_lifecycle.py]), [ChangeRequestEndpoints]
    ([api/change_requests.py]: the bodies, the JSON of a proposal and its
    reading in responses, the routes), [AuthEndpoints] ([api/sessions.py],
    [api/registrations.py], [api/password_lifecycle.py]: the protection of each
    route, its use case, cookies and problems), with their [...Specs];
    [ChangeRequestJourneys] (what later readers of a submission see); [AccountErrors] (which exceptions an account use case raises,
    and that it then changes nothing) and [AuthJourneys] (what a browser that
    keeps its cookies can do next).

    A Python class is the record of the same name, [__post_init__] the function
    [<Class>_init], a method [Class.method] the function [Class_method] or
    [method], a table row the record [...Row], its CHECK constraints [ck_...],
    its unique constraints [uq_...], its foreign keys [fk_...].

    ** What the theorems show

    Data: every sequence of transactions keeps the tables well-formed, logs
    replay to the rows, codes are compositions of the referenced rows, and each
    repository transaction refines its reference definition, and the code of a
    MasterCode determines its references
    ([Transactions], [Invariant], [Records], [Consistency]).  A changed
    Dimension code recomposes exactly the MasterCodes that use it.

    Use cases: who may run a command, what it logs, which errors it can raise,
    that conditional updates lose nothing, that listings return every row once
    ([UseCases], [Transactions.list_active_complete]).

    Reviews: an approval applies the approved proposal and nothing else, a
    review is final ([Reviews]).

    Accounts: all constraints and cross-table invariants under every
    interleaving, rotation of refresh tokens with reuse detection, login,
    registration, permanent revocation, the security log as a complete account
    of privileges, progress, and visibility for administrators
    ([AccountClaims]); tokens and quotas ([Credentials], [RateLimits]).

    Audit log: what triggers write satisfies every constraint of the log tables
    and reads back as written; a page is the next part of the ordered union of
    the tables; a reader that follows the cursors gets every entry once
    ([LogTables], [AuditLogSpecs]).

    Requests: which tokens are accepted and when, from a login to an authorized
    request ([AccessTokenSpecs]); the order and the outcomes of the checks
    before an authentication use case, and the round trip of the CSRF cookie
    ([RequestProtectionSpecs]); which origins are accepted and what they become
    ([Origins]); the problems of all exceptions ([Problems]); every response of
    a Dimension, MasterCode or change-request endpoint is one its route
    documents (but for the texts in [reworded]), an error changes nothing, a
    listing shows the next rows behind its cursor and hands out a cursor that
    decodes to the last of them, and ETags guard changes ([Preconditions],
    [DimensionEndpointSpecs], [MasterCodeEndpointSpecs],
    [ChangeRequestEndpointSpecs]); a submitted proposal is shown unchanged for
    ever ([ChangeRequestJourneys]); every response of an authentication endpoint is
    documented, sets only its own cookies and, but for the profile, is never
    cached
    ([AuthEndpointSpecs]); the browser that received the cookies of a session
    refreshes and ends it ([AuthJourneys]).

    Values: validation and normalization of codes, values and names, the
    ETag, UUIDv7 ([Dimensions], [MasterCodes], [Uuids], [Auth]).

    ** Bounds

    Recursion is structural but for the scanner of [Json], whose fuel is the
    length of the text and which more fuel does not change
    ([scan_value_fuel]).  The loops of the program that draw tokens take at
    most four draws ([draw_until], [issue_unique_go] with [n = 4]); the
    clean-up of the rate limiter removes at most 256 entries
    ([CLEANUP_BATCH]), which [consume_refines_quota] shows to be enough for
    exact quotas; a client that follows cursors gets fuel for one page per row,
    one more than it needs.  Stored integers are [Z] with the bounds of their
    columns as CHECK constraints; SHA-256 reduces its words explicitly.

    ** Parameters

    [UnicodeData] (the tables of [unicodedata]), [AuthServices] (the e-mail
    validator, Argon2, the JWT signer): every theorem holds for any
    implementation; the witnesses use [ascii_data] and [test_services].
    [pg_cntrl] (the control characters of the database's locale) is supposed to
    be among Unicode's.  [JwtLibrary] (PyJWT and the RSA keys of
    [cryptography]) comes with the hypothesis [jwt_documented], that a token
    decodes under the public key of its signer to the payload it was made of;
    the witnesses have an instance.  [uuid_input], the framework's reading of
    the text of a UUID in a body, is supposed to read the canonical text; the
    witnesses use the parser of [Uuids].  [fromisoformat], the reading of times
    of [datetime], is supposed to read what [isoformat] writes; the witnesses
    use [read_iso], the inverse of the calendar of [Cursors].

    ** Not modelled

    Of the HTTP layer: the framework itself (routing, the validation of bodies
    and parameters, the serialization to JSON), the routes of users and audit
    logs with the text form of their cursors, and the OpenAPI document.  A
    cursor whose time leaves the calendar when the driver converts it to UTC
    ([listing_query]).  Pure I/O and wiring: SMTP, settings, health, command
    line, Argon2 on its executor, output of operational events.  Within the
    modelled parts: the triggers that forbid DELETE and TRUNCATE; the
    translation of driver errors of an unavailable server, except for audit
    log queries; integers beyond their column, which only versions after two
    thousand million changes reach; lock order and deadlocks; the normalization
    of JSONB numbers; the general [AuditActor] constructor, which the runtime
    does not use; rounding of float clocks.
    Account transactions use one clock reading where PostgreSQL's row defaults
    give the start of the transaction. *)

From Stdlib Require Export ZArith Lia.
From stdpp Require Export base gmap strings option numbers.
From stdpp Require Export list.

#[global] Arguments reverse : simpl never.
#[global] Arguments Nat.leb : simpl never.
#[global] Arguments Nat.ltb : simpl never.
Set Default Goal Selector "!".
Set Default Proof Using "Type".

(** ** Results of fallible code

    A Python call either returns a value or raises an exception.  [result E]
    is the error monad over an exception type [E]; stdpp's notation
    [x ← m ; k] sequences calls the way Python statements do. *)

Inductive result (E A : Type) : Type :=
| Ok (value : A)
| Raise (error : E).
Arguments Ok {E A} value.
Arguments Raise {E A} error.

#[export] Instance result_ret E : MRet (result E) := λ A x, Ok x.
#[export] Instance result_bind E : MBind (result E) :=
  λ A B f m, match m with Ok x => f x | Raise e => Raise e end.
#[export] Instance result_fmap E : FMap (result E) :=
  λ A B f m, match m with Ok x => Ok (f x) | Raise e => Raise e end.
#[export] Instance result_eq_dec `{EqDecision E, EqDecision A} : EqDecision (result E A).
Proof. solve_decision. Defined.

(** [if condition: raise error] *)
Definition raise_if {E} (condition : bool) (error : E) : result E unit :=
  if condition then Raise error else Ok tt.

(** [except]: replace a raised error by another computation. *)
Definition catch {E A} (m : result E A) (handler : E → result E A) : result E A :=
  match m with Ok x => Ok x | Raise e => handler e end.

(** [x is not None] and [x is None]. *)
Definition present {A} (o : option A) : bool := match o with Some _ => true | None => false end.
Definition absent {A} (x : option A) : bool := match x with None => true | Some _ => false end.

Definition is_ok {E A} (m : result E A) : bool :=
  match m with Ok _ => true | Raise _ => false end.

(** Left to right evaluation of a comprehension whose body may raise. *)
Fixpoint mapR {E A B} (f : A → result E B) (l : list A) : result E (list B) :=
  match l with
  | [] => Ok []
  | x :: l' => y ← f x; ys ← mapR f l'; Ok (y :: ys)
  end.

(** [for x in l: f(x)] with a body that may raise. *)
Fixpoint forR {E A} (f : A → result E unit) (l : list A) : result E unit :=
  match l with
  | [] => Ok tt
  | x :: l' => _ ← f x; forR f l'
  end.

(** [for x in l: acc = f(acc, x)] with a body that may raise. *)
Fixpoint foldR {E A S} (f : S → A → result E S) (acc : S) (l : list A) : result E S :=
  match l with
  | [] => Ok acc
  | x :: l' => acc' ← f acc x; foldR f acc' l'
  end.

(** ** Inversion lemmas of the error monad *)

Section result_lemmas.
Context {E : Type}.

Lemma bind_Ok {A B} (m : result E A) (f : A → result E B) y :
  m ≫= f = Ok y ↔ ∃ x, m = Ok x ∧ f x = Ok y.
Proof. destruct m; cbn; naive_solver. Qed.

Lemma Ok_inv {A} (x y : A) : Ok (E := E) x = Ok y → x = y.
Proof. by intros [= ->]. Qed.

Lemma bind_Raise {A B} (m : result E A) (f : A → result E B) e :
  m ≫= f = Raise e ↔ m = Raise e ∨ ∃ x, m = Ok x ∧ f x = Raise e.
Proof. destruct m; cbn; naive_solver. Qed.

Lemma raise_if_Ok b (e : E) u : raise_if b e = Ok u ↔ b = false.
Proof. destruct b, u; cbn; naive_solver. Qed.

Lemma raise_if_Raise b (e e' : E) : raise_if b e = Raise e' ↔ b = true ∧ e' = e.
Proof. destruct b; cbn; naive_solver. Qed.

Lemma mapR_Ok {A B} (f : A → result E B) l ys :
  mapR f l = Ok ys ↔ Forall2 (λ x y, f x = Ok y) l ys.
Proof.
  revert ys; induction l as [|x l IH]; intros ys; cbn.
  - split; [intros [= <-]; constructor | inversion 1; done].
  - rewrite bind_Ok. setoid_rewrite bind_Ok. split.
    + intros (y & Hy & ys' & Hys & [= <-]). constructor; [done|]. by apply IH.
    + inversion 1; subst. eexists; split; [done|]. eexists; split; [by apply IH|done].
Qed.

Lemma mapR_pure {A B} (f : A → result E B) (g : A → B) l :
  (∀ x, x ∈ l → f x = Ok (g x)) → mapR f l = Ok (g <$> l).
Proof.
  induction l as [|x l IH]; intros Hf; [done|]. cbn. rewrite Hf by (by left). cbn.
  rewrite IH; [done|]. intros y Hy. apply Hf. by right.
Qed.

Lemma mapR_total {A B} (f : A → result E B) l : (∀ x, x ∈ l → ∃ y, f x = Ok y) → ∃ ys, mapR f l = Ok ys.
Proof.
  induction l as [|x l IH]; intros Hf; [by eexists|]. destruct (Hf x ltac:(by left)) as [y Hy].
  destruct IH as [ys Hys]; [intros z Hz; apply Hf; by right|]. exists (y :: ys). cbn. by rewrite Hy, Hys.
Qed.

Lemma forR_Ok {A} (f : A → result E unit) l u :
  forR f l = Ok u ↔ Forall (λ x, f x = Ok tt) l.
Proof.
  destruct u. induction l as [|x l IH]; cbn; [split; [constructor|done]|].
  rewrite bind_Ok, Forall_cons, <- IH. split; [intros ([] & ? & ?); done|].
  intros [? ?]. by exists tt.
Qed.

Lemma catch_Ok {A} (m : result E A) h x :
  catch m h = Ok x ↔ m = Ok x ∨ ∃ e, m = Raise e ∧ h e = Ok x.
Proof. destruct m; cbn; naive_solver. Qed.

(** The errors a program may raise. *)
Definition raises_only {A} (P : E → Prop) (m : result E A) : Prop := ∀ e, m = Raise e → P e.

Lemma raises_Ok {A} P (x : A) : raises_only P (Ok x).
Proof. done. Qed.
Lemma raises_Raise {A} (P : E → Prop) e : P e → raises_only (A := A) P (Raise e).
Proof. by intros ? ? [= <-]. Qed.
Lemma raises_bind {A B} P (m : result E A) (f : A → result E B) :
  raises_only P m → (∀ x, m = Ok x → raises_only P (f x)) → raises_only P (m ≫= f).
Proof. intros Hm Hf e [?|(x & ? & ?)]%bind_Raise; [by apply Hm|by eapply Hf]. Qed.
Lemma raises_if (P : E → Prop) b e : (b = true → P e) → raises_only P (raise_if b e).
Proof. by intros ? ? [? ->]%raise_if_Raise; auto. Qed.
Lemma raises_catch {A} P (m : result E A) h :
  (∀ e, m = Raise e → raises_only P (h e)) → raises_only P (catch m h).
Proof. destruct m as [x|e]; intros H; [done|by apply (H e)]. Qed.
Lemma raises_foldR {A S} P (f : S → A → result E S) st l :
  (∀ st' x, x ∈ l → raises_only P (f st' x)) → raises_only P (foldR f st l).
Proof.
  revert st. induction l as [|x l IH]; intros st H; cbn; [done|].
  apply raises_bind; [apply H; by left|]. intros st' _. apply IH. intros st1 y ?. apply H. by right.
Qed.
(** With an invariant of the accumulator. *)
Lemma raises_foldR_inv {A S} (I : S → Prop) (P : E → Prop) (f : S → A → result E S) l st :
  I st → (∀ st x, x ∈ l → I st → raises_only P (f st x) ∧ ∀ st', f st x = Ok st' → I st') →
  raises_only P (foldR f st l) ∧ ∀ st', foldR f st l = Ok st' → I st'.
Proof.
  revert st. induction l as [|x l IH]; intros st Hst Hf; cbn.
  - split; [apply raises_Ok|]. by intros st' [= <-].
  - destruct (Hf st x ltac:(by left) Hst) as [He Hok]. destruct (f st x) as [st1|e]; cbn.
    + apply IH; [by apply Hok|]. intros st2 y Hy. apply Hf. by right.
    + split; [|done]. intros ? [= <-]. by apply He.
Qed.
Lemma raises_impl {A} (P Q : E → Prop) (m : result E A) :
  raises_only P m → (∀ e, P e → Q e) → raises_only Q m.
Proof. intros H HPQ e He. by apply HPQ, H. Qed.
End result_lemmas.

(** ** Tactics shared by every component *)

(** Split a hypothesis that states that a monadic program returned, one
    statement at a time, and name nothing the proof does not need. *)
Ltac inv_ok :=
  repeat match goal with
  | H : Ok _ = Ok _ |- _ => injection H as H; subst
  | H : Raise _ = Raise _ |- _ => injection H as H; subst
  | H : Ok _ = Raise _ |- _ => discriminate H
  | H : Raise _ = Ok _ |- _ => discriminate H
  | H : mret _ = Ok _ |- _ => injection H as H; subst
  | H : raise_if _ _ = Ok _ |- _ => apply raise_if_Ok in H
  | H : (_ ≫= _) = Ok _ |- _ =>
      let x := fresh "x" in let Hx := fresh "Hx" in
      apply bind_Ok in H as (x & Hx & H)
  end.

(** Case analysis on the boolean connectives and the decisions of a guard. *)
Ltac bool_simpl :=
  repeat match goal with
  | H : negb _ = true |- _ => apply negb_true_iff in H
  | H : negb _ = false |- _ => apply negb_false_iff in H
  | H : _ || _ = false |- _ => apply orb_false_iff in H as [??]
  | H : _ && _ = true |- _ => apply andb_true_iff in H as [??]
  | H : bool_decide _ = true |- _ => apply bool_decide_eq_true in H
  | H : bool_decide _ = false |- _ => apply bool_decide_eq_false in H
  | H : (_ <? _)%Z = true |- _ => apply Z.ltb_lt in H
  | H : (_ <? _)%Z = false |- _ => apply Z.ltb_ge in H
  | H : (_ <=? _)%Z = true |- _ => apply Z.leb_le in H
  | H : (_ <=? _)%Z = false |- _ => apply Z.leb_gt in H
  | H : (_ =? _)%Z = true |- _ => apply Z.eqb_eq in H
  | H : (_ =? _)%Z = false |- _ => apply Z.eqb_neq in H
  end.

(** Prove [raises_only] by following the program; the errors themselves are left. *)
Ltac raises_step :=
  match goal with
  | |- raises_only _ (Ok _) => apply raises_Ok
  | |- raises_only _ (Raise _) => apply raises_Raise
  | |- raises_only _ (raise_if _ _) => apply raises_if; intros ?
  | |- raises_only _ (_ ≫= _) => apply raises_bind; [|intros ? ?]
  | |- raises_only _ (let _ := _ in _) => cbv zeta
  | |- raises_only _ (match ?x with _ => _ end) => destruct x eqn:?
  end.
Ltac raises := repeat raises_step.

Create HintDb mdm discriminated.
#[export] Hint Resolve Forall_nil_2 Forall_cons_2 Forall_app_2 : mdm.

(** ** Lists *)

Section list_lemmas.
Context {A : Type}.
Implicit Types l : list A.

Lemma Forall_filter_id (P : A → Prop) `{∀ x, Decision (P x)} l :
  Forall P l → filter P l = l.
Proof.
  induction 1 as [|x l Hx _ IH]; [done|]. by rewrite filter_cons_True, IH.
Qed.

Lemma forallb_Forall (f : A → bool) l : forallb f l = true ↔ Forall (λ x, f x = true) l.
Proof.
  induction l as [|x l IH]; cbn; [split; auto with mdm|].
  by rewrite andb_true_iff, IH, Forall_cons.
Qed.

Lemma existsb_false (f : A → bool) l : existsb f l = false ↔ Forall (λ x, f x = false) l.
Proof.
  induction l as [|x l IH]; cbn; [split; auto with mdm|].
  by rewrite orb_false_iff, IH, Forall_cons.
Qed.

(** Two lists split at their first separator agree when the concatenations do. *)
Lemma app_sep_inj (sep : A) l1 l2 r1 r2 :
  sep ∉ l1 → sep ∉ l2 → l1 ++ sep :: r1 = l2 ++ sep :: r2 → l1 = l2 ∧ r1 = r2.
Proof.
  revert l2; induction l1 as [|x l1 IH]; intros [|y l2] H1 H2 Heq;
    cbn in *; simplify_eq; try done.
  - by destruct H2; left.
  - by destruct H1; left.
  - destruct (IH l2) as [-> ->]; [| | done | done].
    + intros ?; apply H1; by right.
    + intros ?; apply H2; by right.
Qed.
End list_lemmas.

Lemma elem_of_filter_bool {A} (f : A → bool) l x : x ∈ List.filter f l ↔ x ∈ l ∧ f x = true.
Proof. rewrite !list_elem_of_In. apply filter_In. Qed.

Lemma NoDup_fmap_filter {A B} (f : A → B) (g : A → bool) l :
  NoDup (f <$> l) → NoDup (f <$> List.filter g l).
Proof.
  induction l as [|x l IH]; [done|]. cbn. intros [Hx Hnd]%NoDup_cons.
  destruct (g x); [|by apply IH]. cbn. apply NoDup_cons. split; [|by apply IH].
  intros (y & E & Hy)%list_elem_of_fmap. apply Hx. rewrite E.
  apply elem_of_filter_bool in Hy as [Hy _]. by apply list_elem_of_fmap_2.
Qed.
