(* ===== verification/Python.v ===== *)
(** * The Python values the program computes with

    Strings are lists of Unicode code points ([pystr]), so that [len], slices
    and comparisons are the ones of Python.  The string methods the program
    uses are defined here with the lemmas the components share: [str.strip],
    [str.upper], [re.sub] of a repeated character, [str.join], decimal and
    fixed-width hexadecimal formatting, the canonical form of a UUID.  Values
    whose type is only known at run time (decoded JSON) are [pyval].  Aware
    and naive [datetime]s carry their UTC offset as an option.

    The tables of the Unicode character database that the standard library
    reads are the operations of the class [UnicodeData]; what is proved holds
    for every such table. *)

From Stdlib Require Import DecimalN.
From S2P Require Import Prelude.

(** ** Strings *)

Abbreviation pystr := (list Z) (only parsing).

(** An ASCII literal of the source. *)
Definition py (s : string) : pystr :=
  (λ a, Z.of_N (Ascii.N_of_ascii a)) <$> String.list_ascii_of_string s.

Definition in_range (lo hi c : Z) : bool := (lo <=? c)%Z && (c <=? hi)%Z.

(** [str.isascii], one code point. *)
Definition is_ascii (c : Z) : bool := in_range 0 127 c.
Definition isascii (s : pystr) : bool := forallb is_ascii s.

(** [[\x00-\x1f\x7f]] *)
Definition is_control (c : Z) : bool := in_range 0 31 c || (c =? 127)%Z.

(** [unicodedata.category(c) == "Cc"]: the category is closed by the Unicode
    stability policy. *)
Definition is_Cc (c : Z) : bool := in_range 0 31 c || in_range 127 159 c.

(** [[A-Z0-9]] *)
Definition is_upper_alnum (c : Z) : bool := in_range 65 90 c || in_range 48 57 c.
Definition is_digit (c : Z) : bool := in_range 48 57 c.
Definition is_lower_hex (c : Z) : bool := is_digit c || in_range 97 102 c.

Definition ascii_upper (c : Z) : Z := if in_range 97 122 c then (c - 32)%Z else c.

Definition space : Z := 32.
Definition underscore : Z := 95.
Definition dash : Z := 45.
Definition letter_N : Z := 78.

(** The parts of the Unicode character database that the standard library
    consults for characters outside ASCII. *)
Class UnicodeData := {
  ucd_upper : Z → pystr;          (** [str.upper] of one character *)
  ucd_casefold : Z → pystr;       (** [str.casefold] of one character *)
  ucd_nfc : pystr → pystr;        (** [unicodedata.normalize("NFC", s)] *)
  ucd_decimal : Z → option Z;     (** [unicodedata.decimal] of one character *)
}.

(** The trivial database, at which the witnesses evaluate. *)
Definition ascii_data : UnicodeData :=
  {| ucd_upper c := [c]; ucd_casefold c := [c]; ucd_nfc s := s; ucd_decimal _ := None |}.

(** [str.upper] *)
Definition str_upper `{UnicodeData} (s : pystr) : pystr :=
  s ≫= λ c, if is_ascii c then [ascii_upper c] else ucd_upper c.

(** [str.lstrip(c)], [str.rstrip(c)] and [str.strip(c)] for one character. *)
Fixpoint lstrip (ch : Z) (s : pystr) : pystr :=
  match s with
  | [] => []
  | c :: t => if (c =? ch)%Z then lstrip ch t else s
  end.
Fixpoint rstrip (ch : Z) (s : pystr) : pystr :=
  match s with
  | [] => []
  | c :: t =>
      match rstrip ch t with
      | [] => if (c =? ch)%Z then [] else [c]
      | t' => c :: t'
      end
  end.
Definition strip (ch : Z) (s : pystr) : pystr := rstrip ch (lstrip ch s).

(** [str.isspace] of one character, and [str.strip()] without arguments. *)
Definition is_space (c : Z) : bool :=
  in_range 9 13 c || in_range 28 32 c || (c =? 133)%Z || (c =? 160)%Z || (c =? 5760)%Z ||
  in_range 8192 8202 c || in_range 8232 8233 c || (c =? 8239)%Z || (c =? 8287)%Z ||
  (c =? 12288)%Z.
Fixpoint lstrip_ws (s : pystr) : pystr :=
  match s with
  | [] => []
  | c :: t => if is_space c then lstrip_ws t else s
  end.
Definition strip_ws (s : pystr) : pystr := reverse (lstrip_ws (reverse (lstrip_ws s))).

(** [ch in s] for one character. *)
Definition str_contains (ch : Z) (s : pystr) : bool := existsb (λ c, (c =? ch)%Z) s.

(** [re.sub(r"x+", r, s)]: every maximal run of [ch] becomes one [r]. *)
Fixpoint sub_runs_go (ch r : Z) (in_run : bool) (s : pystr) : pystr :=
  match s with
  | [] => []
  | c :: t =>
      if (c =? ch)%Z
      then if in_run then sub_runs_go ch r true t else r :: sub_runs_go ch r true t
      else c :: sub_runs_go ch r false t
  end.
Definition sub_runs (ch r : Z) (s : pystr) : pystr := sub_runs_go ch r false s.

(** [sep.join(l)] *)
Fixpoint str_join (sep : pystr) (l : list pystr) : pystr :=
  match l with
  | [] => []
  | [x] => x
  | x :: l' => x ++ sep ++ str_join sep l'
  end.

(** [s.split(ch)] for one character: the pieces between its occurrences. *)
Fixpoint str_split (ch : Z) (s : pystr) : list pystr :=
  match s with
  | [] => [[]]
  | c :: t =>
      if (c =? ch)%Z then [] :: str_split ch t
      else match str_split ch t with
           | w :: ws => (c :: w) :: ws
           | [] => [[c]]
           end
  end.

(** The maximal runs of characters that are not separators. *)
Fixpoint words_go (is_sep : Z → bool) (cur : pystr) (s : pystr) : list pystr :=
  match s with
  | [] => match cur with [] => [] | _ => [reverse cur] end
  | c :: t =>
      if is_sep c
      then match cur with
           | [] => words_go is_sep [] t
           | _ => reverse cur :: words_go is_sep [] t
           end
      else words_go is_sep (c :: cur) t
  end.
Definition words (is_sep : Z → bool) (s : pystr) : list pystr := words_go is_sep [] s.

(** ** Numbers *)

(** [str(z)] *)
Fixpoint uint_digits (d : Decimal.uint) : pystr :=
  match d with
  | Decimal.Nil => []
  | Decimal.D0 d => 48%Z :: uint_digits d
  | Decimal.D1 d => 49%Z :: uint_digits d
  | Decimal.D2 d => 50%Z :: uint_digits d
  | Decimal.D3 d => 51%Z :: uint_digits d
  | Decimal.D4 d => 52%Z :: uint_digits d
  | Decimal.D5 d => 53%Z :: uint_digits d
  | Decimal.D6 d => 54%Z :: uint_digits d
  | Decimal.D7 d => 55%Z :: uint_digits d
  | Decimal.D8 d => 56%Z :: uint_digits d
  | Decimal.D9 d => 57%Z :: uint_digits d
  end.
Definition str_of_Z (z : Z) : pystr :=
  if (z <? 0)%Z then dash :: uint_digits (N.to_uint (Z.to_N (- z)))
  else uint_digits (N.to_uint (Z.to_N z)).

(** [int(s)] of ASCII digits. *)
Definition decimal_value (s : pystr) : Z := fold_left (λ acc c, 10 * acc + (c - 48))%Z s 0%Z.

Definition hex_digit (d : Z) : Z := if (d <? 10)%Z then (48 + d)%Z else (87 + d)%Z.

(** ['%0*x' % (width, n)] of a number of at most [width] hexadecimal digits. *)
Fixpoint hex_fixed (width : nat) (n : Z) : pystr :=
  match width with
  | O => []
  | S w => hex_fixed w (n / 16) ++ [hex_digit (n mod 16)]
  end.

(** ** UUIDs: the 128-bit integer of [uuid.UUID] *)

Abbreviation UUID := Z (only parsing).
Definition uuid_ok (u : UUID) : Prop := (0 ≤ u < 2 ^ 128)%Z.

(** [UUID.version]: the version nibble, for the RFC 9562 variant only. *)
Definition uuid_version (u : UUID) : option Z :=
  if Z.testbit u 63 && negb (Z.testbit u 62)
  then Some (Z.land (Z.shiftr u 76) 15)
  else None.

(** [str(uuid)]: the digits in groups of 8, 4, 4, 4 and 12. *)
Definition uuid_str (u : UUID) : pystr :=
  let h := hex_fixed 32 u in
  take 8 h ++ [dash] ++ take 4 (drop 8 h) ++ [dash] ++ take 4 (drop 12 h) ++ [dash] ++
  take 4 (drop 16 h) ++ [dash] ++ drop 20 h.

(** ** Datetimes

    [instant] counts microseconds: of UTC for an aware value, of the wall clock
    for a naive one.  Order and equality of two aware values compare instants;
    the program checks [utcoffset] before it compares. *)
Record datetime := DateTime { instant : Z; utcoffset : option Z }.
#[export] Instance datetime_eq_dec : EqDecision datetime.
Proof. solve_decision. Defined.

Definition is_naive (d : datetime) : bool :=
  match utcoffset d with None => true | Some _ => false end.
Definition dt_ltb (a b : datetime) : bool := (instant a <? instant b)%Z.
Definition dt_leb (a b : datetime) : bool := (instant a <=? instant b)%Z.
Definition dt_eqb (a b : datetime) : bool := (instant a =? instant b)%Z.
(** [d + timedelta(microseconds=us)] *)
Definition dt_add (d : datetime) (us : Z) : datetime :=
  DateTime (instant d + us) (utcoffset d).
(** An aware value of UTC, as the database driver returns a timestamp. *)
Definition utc (t : Z) : datetime := DateTime t (Some 0%Z).
Definition seconds (n : Z) : Z := n * 1000000.
Definition minutes (n : Z) : Z := seconds (60 * n).
Definition days (n : Z) : Z := seconds (86400 * n).

(** ** Values whose type is only known at run time *)

Inductive pyval :=
| VNone
| VBool (b : bool)
| VInt (z : Z)
| VFloat (literal : pystr)
| VStr (s : pystr)
| VList (l : list pyval)
| VDict (entries : list (pystr * pyval)).

(** [s <= t], by code points. *)
Fixpoint str_leb (s t : pystr) : bool :=
  match s, t with
  | [], _ => true
  | _ :: _, [] => false
  | c :: s', d :: t' => (c <? d)%Z || ((c =? d)%Z && str_leb s' t')
  end.

(** Decidable equality of JSON values, by a test that recurses through the lists. *)
Definition list_eqb {A} (eqb : A → A → bool) : list A → list A → bool :=
  fix go l k :=
    match l, k with
    | [], [] => true
    | x :: l', y :: k' => eqb x y && go l' k'
    | _, _ => false
    end.
Fixpoint pyval_eqb (x y : pyval) : bool :=
  match x, y with
  | VNone, VNone => true
  | VBool a, VBool b => Bool.eqb a b
  | VInt a, VInt b => (a =? b)%Z
  | VFloat a, VFloat b | VStr a, VStr b => bool_decide (a = b)
  | VList a, VList b => list_eqb pyval_eqb a b
  | VDict a, VDict b => list_eqb (λ p q, bool_decide (p.1 = q.1) && pyval_eqb p.2 q.2) a b
  | _, _ => false
  end.

Lemma list_eqb_spec {A} (eqb : A → A → bool) l k :
  Forall (λ x, ∀ y, eqb x y = true ↔ x = y) l → list_eqb eqb l k = true ↔ l = k.
Proof.
  intros Hl. revert k. induction Hl as [|x l Hx _ IH]; intros [|y k]; cbn; try done.
  rewrite andb_true_iff, Hx, IH. naive_solver.
Qed.

Lemma pyval_eqb_spec x y : pyval_eqb x y = true ↔ x = y.
Proof.
  revert x y. fix go 1. intros x y.
  destruct x as [|a|a|a|a|a|a], y as [|b|b|b|b|b|b]; cbn [pyval_eqb]; try done.
  - clear go. rewrite eqb_true_iff. naive_solver.
  - clear go. rewrite Z.eqb_eq. naive_solver.
  - clear go. rewrite bool_decide_eq_true. naive_solver.
  - clear go. rewrite bool_decide_eq_true. naive_solver.
  - rewrite list_eqb_spec; [split; [by intros ->|by intros [= ->]]|].
    induction a as [|v a IH]; constructor; [apply go|apply IH].
  - rewrite list_eqb_spec; [split; [by intros ->|by intros [= ->]]|].
    induction a as [|[k v] a IH]; constructor; [clear IH|apply IH]. intros [k' v']. cbn.
    rewrite andb_true_iff, bool_decide_eq_true, (go v v').
    split; [by intros [-> ->]|by intros [= -> ->]].
Qed.
#[export] Instance pyval_eq_dec : EqDecision pyval.
Proof.
  intros x y. destruct (pyval_eqb x y) eqn:E; [left; by apply pyval_eqb_spec|].
  right. intros ->. assert (pyval_eqb y y = true) by by apply pyval_eqb_spec. congruence.
Defined.

(** [s.endswith(t)] *)
Definition endswith (t s : pystr) : bool := bool_decide (drop (length s - length t) s = t).

(** [dict.get] and [set(entries) == set(names)]. *)
Definition dict_get (key : pystr) (entries : list (pystr * pyval)) : option pyval :=
  snd <$> find (λ p, bool_decide (p.1 = key)) entries.
Definition keys_are (names : list pystr) (entries : list (pystr * pyval)) : bool :=
  (length entries =? length names)%nat
  && forallb (λ k, negb (absent (dict_get k entries))) names.

(** ** Lemmas on strings *)

Section string_lemmas.
Implicit Types s t : pystr.

Lemma str_upper_ascii `{UnicodeData} s :
  isascii s = true → str_upper s = ascii_upper <$> s.
Proof.
  unfold isascii, str_upper; induction s as [|c s IH]; cbn; [done|].
  intros [Hc Hs]%andb_true_iff. rewrite Hc. cbn. by f_equal; apply IH.
Qed.

Lemma rstrip_app ch s t :
  rstrip ch (s ++ t) = match rstrip ch t with [] => rstrip ch s | t' => s ++ t' end.
Proof.
  induction s as [|c s IH]; cbn; [by destruct (rstrip ch t)|].
  rewrite IH. destruct (rstrip ch t) as [|d t'] eqn:E; [done|].
  by destruct s.
Qed.

Lemma rstrip_id ch s c : c ≠ ch → rstrip ch (s ++ [c]) = s ++ [c].
Proof. intros Hc. rewrite rstrip_app. cbn. by rewrite (proj2 (Z.eqb_neq _ _) Hc). Qed.

Lemma rstrip_nil_or_last ch s :
  rstrip ch s = [] ∨ ∃ s' c, rstrip ch s = s' ++ [c] ∧ c ≠ ch.
Proof.
  induction s as [|c s [IH|(s' & d & IH & Hd)]]; cbn; [by left| |]; rewrite IH.
  - destruct (Z.eqb_spec c ch); [by left|]. right. by exists [], c.
  - right. exists (c :: s'), d. by destruct s'.
Qed.

Lemma strip_Forall (P : Z → Prop) ch s : Forall P s → Forall P (strip ch s).
Proof.
  intros Hs. unfold strip. assert (Forall P (lstrip ch s)) as Hl.
  { induction Hs as [|c s Hc Hs IH]; cbn; [done|]. destruct (c =? ch)%Z; auto with mdm. }
  induction Hl as [|c t Hc _ IH]; cbn; [done|].
  destruct (rstrip ch t); [destruct (c =? ch)%Z|]; auto with mdm.
Qed.

Lemma isascii_strip ch s : isascii s = true → isascii (strip ch s) = true.
Proof. unfold isascii. rewrite !forallb_Forall. apply strip_Forall. Qed.

Lemma sub_runs_go_Forall (P : Z → Prop) ch r b s :
  P r → Forall (λ c, c ≠ ch → P c) s → Forall P (sub_runs_go ch r b s).
Proof.
  intros Hr Hs; revert b; induction Hs as [|c s Hc _ IH]; intros b; cbn; [done|].
  destruct (Z.eqb_spec c ch); [destruct b|]; auto with mdm.
Qed.

(** *** Words *)

Lemma words_go_ext P Q cur s :
  Forall (λ c, P c = Q c) s → words_go P cur s = words_go Q cur s.
Proof.
  intros Hs; revert cur; induction Hs as [|c s Hc _ IH]; intros cur; cbn; [done|].
  rewrite Hc, !IH. by destruct (Q c), cur; rewrite ?IH.
Qed.

(** Replacing separators by separators keeps the words. *)
Lemma words_sub_runs P ch r s :
  P ch = true → P r = true → words P (sub_runs ch r s) = words P s.
Proof.
  intros Hch Hr. unfold words, sub_runs.
  assert (∀ s, (∀ cur, words_go P cur (sub_runs_go ch r false s) = words_go P cur s) ∧
               words_go P [] (sub_runs_go ch r true s) = words_go P [] s) as H; [|apply H].
  clear s; induction s as [|c s [IHf IHt]]; [done|].
  cbn. destruct (Z.eqb_spec c ch) as [->|]; cbn; rewrite ?Hch, ?Hr; split;
    intros; rewrite ?IHf, ?IHt; try done.
  all: by destruct (P c); rewrite ?IHf.
Qed.

Lemma words_lstrip P ch s : P ch = true → words P (lstrip ch s) = words P s.
Proof.
  intros Hch; unfold words; induction s as [|c s IH]; cbn; [done|].
  destruct (Z.eqb_spec c ch) as [->|]; cbn; [|done]. by rewrite Hch.
Qed.

Lemma words_go_rstrip P ch cur s :
  P ch = true → words_go P cur (rstrip ch s) = words_go P cur s.
Proof.
  intros Hch; revert cur; induction s as [|c s IH]; intros cur; cbn; [done|].
  destruct (rstrip ch s) as [|d s'] eqn:E.
  - destruct (Z.eqb_spec c ch) as [->|]; cbn; rewrite ?Hch; rewrite <- !IH; cbn;
      by destruct cur.
  - cbn -[words_go]. cbn. by destruct (P c), cur; rewrite <- IH.
Qed.

Lemma words_strip P ch s : P ch = true → words P (strip ch s) = words P s.
Proof. intros Hch. unfold strip, words. rewrite words_go_rstrip by done. by apply words_lstrip. Qed.

Lemma words_go_fmap P (f : Z → Z) (cur s : pystr) :
  (∀ c, P (f c) = P c) →
  words_go P (f <$> cur) (f <$> s) = fmap (M:=list) f <$> words_go P cur s.
Proof.
  intros Hf; revert cur; induction s as [|c s IH]; intros cur; cbn.
  - destruct cur as [|d cur]; [done|].
    by rewrite list_fmap_singleton, fmap_reverse.
  - rewrite Hf. destruct (P c); [|by rewrite <- IH].
    destruct cur as [|d cur]; [by rewrite <- (IH [])|].
    by rewrite (fmap_cons _ (reverse (d :: cur))), fmap_reverse, <- (IH []).
Qed.

Lemma words_fmap P (f : Z → Z) (s : pystr) :
  (∀ c, P (f c) = P c) → words P (f <$> s) = fmap (M:=list) f <$> words P s.
Proof. apply words_go_fmap with (cur := []). Qed.

(** A word is nonempty and holds no separator. *)
Definition is_word (P : Z → bool) (w : pystr) : Prop :=
  w ≠ [] ∧ Forall (λ c, P c = false) w.

Lemma words_go_is_word P cur s :
  Forall (λ c, P c = false) cur → Forall (is_word P) (words_go P cur s).
Proof.
  revert cur; induction s as [|c s IH]; intros cur Hcur; cbn.
  - destruct cur; [constructor|]. apply Forall_singleton. split.
    + intros E. apply (f_equal length) in E. by rewrite length_reverse in E.
    + by apply Forall_reverse.
  - destruct (P c) eqn:Hc; [|apply IH; auto with mdm].
    destruct cur as [|d cur]; [apply IH; auto with mdm|].
    constructor; [|apply IH; auto with mdm]. split.
    + intros E. apply (f_equal length) in E. by rewrite length_reverse in E.
    + by apply Forall_reverse.
Qed.

Lemma words_is_word P s : Forall (is_word P) (words P s).
Proof. by apply words_go_is_word. Qed.

Lemma words_go_app P cur w s :
  Forall (λ c, P c = false) w → words_go P cur (w ++ s) = words_go P (reverse w ++ cur) s.
Proof.
  intros Hw; revert cur; induction Hw as [|c w Hc _ IH]; intros cur; [done|].
  cbn. rewrite Hc, IH. by rewrite reverse_cons, <- (assoc_L (++)).
Qed.

(** *** Joining *)

Lemma str_join_cons sep w ws :
  ws ≠ [] → str_join sep (w :: ws) = w ++ sep ++ str_join sep ws.
Proof. by destruct ws. Qed.

Lemma words_join P sep ws :
  P sep = true → Forall (is_word P) ws → words P (str_join [sep] ws) = ws.
Proof.
  intros Hsep; unfold words. induction 1 as [|w ws [Hne Hw] Hws IH]; [done|].
  assert (∃ c r, reverse w = c :: r) as (c & r & Hr).
  { destruct (reverse w) as [|c r] eqn:E; [|by exists c, r].
    apply (f_equal reverse) in E. by rewrite reverse_involutive in E. }
  assert (reverse (c :: r) = w) as Hcr by (by rewrite <- Hr, reverse_involutive).
  destruct ws as [|w' ws].
  - cbn [str_join]. rewrite <- (app_nil_r w), words_go_app, Hr by done.
    rewrite !app_nil_r. cbn. by rewrite Hcr.
  - rewrite str_join_cons, words_go_app, app_nil_r, Hr by done.
    cbn -[str_join]. rewrite Hsep. cbn -[str_join]. by rewrite Hcr, IH.
Qed.

Lemma str_join_inj sep ws1 ws2 :
  Forall (λ w, sep ∉ w) ws1 → Forall (λ w, sep ∉ w) ws2 → length ws1 = length ws2 →
  str_join [sep] ws1 = str_join [sep] ws2 → ws1 = ws2.
Proof.
  intros H1; revert ws2; induction H1 as [|w1 ws1 Hw1 H1 IH]; intros [|w2 ws2] H2 Hlen Heq;
    try done.
  apply Forall_cons in H2 as [Hw2 H2].
  destruct ws1 as [|v1 ws1], ws2 as [|v2 ws2]; try done; [by cbn in *; subst|].
  rewrite !str_join_cons in Heq by done.
  apply app_sep_inj in Heq as [-> Heq]; [|done..]. f_equal. apply IH; [done| |done].
  by injection Hlen as Hlen; cbn; f_equal.
Qed.

Lemma str_split_word sep (w : pystr) : sep ∉ w → str_split sep w = [w].
Proof.
  induction w as [|c w IH]; [done|]. intros [Hc Hw]%not_elem_of_cons. cbn.
  rewrite (proj2 (Z.eqb_neq c sep)) by congruence. by rewrite IH.
Qed.

Lemma str_split_app sep (w s : pystr) :
  sep ∉ w → str_split sep (w ++ sep :: s) = w :: str_split sep s.
Proof.
  induction w as [|c w IH]; cbn; [by rewrite Z.eqb_refl|].
  intros [Hc Hw]%not_elem_of_cons. rewrite (proj2 (Z.eqb_neq c sep)) by congruence.
  by rewrite IH.
Qed.

Lemma str_split_join sep ws :
  ws ≠ [] → Forall (λ w, sep ∉ w) ws → str_split sep (str_join [sep] ws) = ws.
Proof.
  intros Hne Hws; induction Hws as [|w ws Hw Hws IH]; [done|].
  destruct ws as [|w' ws]; [by apply str_split_word|].
  rewrite str_join_cons by done. cbn [app]. rewrite str_split_app by done. by rewrite IH.
Qed.

(** Collapsing the runs of a separator and stripping it joins the words. *)
Lemma strip_sub_runs ch s :
  strip ch (sub_runs ch ch s) = str_join [ch] (words (λ c, (c =? ch)%Z) s).
Proof.
  set (P := λ c, (c =? ch)%Z).
  assert (∀ s, rstrip ch (sub_runs_go ch ch true s) = str_join [ch] (words_go P [] s) ∧
    ∀ cur, cur ≠ [] → Forall (λ c, P c = false) cur →
      rstrip ch (reverse cur ++ sub_runs_go ch ch false s)
      = str_join [ch] (words_go P cur s)) as Hgo.
  { clear s; induction s as [|c s [IHt IHf]].
    - split; [done|]. intros cur Hne Hcur. destruct cur as [|d cur]; [done|].
      cbn. apply Forall_cons in Hcur as [Hd _].
      rewrite app_nil_r, reverse_cons. by apply rstrip_id, Z.eqb_neq.
    - cbn. change (c =? ch)%Z with (P c). destruct (P c) eqn:Hc.
      + split; [done|]. intros cur Hne Hcur. destruct cur as [|d cur]; [done|].
        apply Z.eqb_eq in Hc as ->.
        pose proof (words_is_word P s) as Hw. unfold words in Hw.
        rewrite rstrip_app. cbn. rewrite IHt.
        destruct (words_go P [] s) as [|w ws] eqn:E.
        * cbn. rewrite Z.eqb_refl. apply Forall_cons in Hcur as [Hd _].
          rewrite reverse_cons. by apply rstrip_id, Z.eqb_neq.
        * destruct (str_join [ch] (w :: ws)) as [|x xs] eqn:E'; [|done].
          apply Forall_cons in Hw as [[Hw _] _]. by destruct w, ws.
      + split; [|intros cur Hne Hcur].
        * by apply (IHf [c]); auto with mdm.
        * rewrite <- IHf by auto with mdm. by rewrite reverse_cons, <- (assoc_L (++)). }
  unfold strip, words, sub_runs. destruct s as [|c s]; [done|].
  cbn. destruct (c =? ch)%Z eqn:Hc.
  - cbn. rewrite Z.eqb_refl. change (P c) with (c =? ch)%Z. rewrite Hc.
    rewrite <- (proj1 (Hgo s)). f_equal.
    clear; induction s as [|c s IH]; [done|]. cbn.
    destruct (c =? ch)%Z eqn:E; [done|]. cbn. by rewrite E.
  - cbn. change (P c) with (c =? ch)%Z. rewrite Hc.
    apply (proj2 (Hgo s) [c]); [done|]. by repeat constructor.
Qed.
(** *** Order *)

Lemma str_leb_total s t : str_leb s t = true ∨ str_leb t s = true.
Proof.
  revert t. induction s as [|c s IH]; intros [|d t]; cbn; auto.
  destruct (Z.lt_total c d) as [Hlt|[->|Hlt]].
  - left. by replace (c <? d)%Z with true by lia.
  - rewrite Z.ltb_irrefl, Z.eqb_refl. cbn. apply IH.
  - right. by replace (d <? c)%Z with true by lia.
Qed.

Lemma str_leb_trans s t u : str_leb s t = true → str_leb t u = true → str_leb s u = true.
Proof.
  revert t u. induction s as [|c s IH]; intros [|d t] [|e u]; cbn; try done.
  rewrite !orb_true_iff, !andb_true_iff, !Z.ltb_lt, !Z.eqb_eq.
  intros [?|[-> ?]] [?|[-> ?]]; [left; lia|left; lia|left; lia|right; eauto].
Qed.

Lemma str_leb_antisymm s t : str_leb s t = true → str_leb t s = true → s = t.
Proof.
  revert t. induction s as [|c s IH]; intros [|d t]; cbn; try done.
  rewrite !orb_true_iff, !andb_true_iff, !Z.ltb_lt, !Z.eqb_eq.
  intros [?|[-> ?]] [?|[? ?]]; try lia. f_equal. auto.
Qed.
End string_lemmas.

(** ** Lemmas on numerals *)

Section numeral_lemmas.
Local Open Scope Z_scope.

Lemma hex_digit_lower_hex d : 0 ≤ d < 16 → is_lower_hex (hex_digit d) = true.
Proof. intros ?. unfold is_lower_hex, is_digit, hex_digit, in_range. case_match; lia. Qed.

Lemma hex_fixed_length w n : length (hex_fixed w n) = w.
Proof. revert n; induction w as [|w IH]; intros n; cbn; [done|]. rewrite length_app, IH. cbn. lia. Qed.

Lemma hex_fixed_lower_hex w n : Forall (λ c, is_lower_hex c = true) (hex_fixed w n).
Proof.
  revert n; induction w as [|w IH]; intros n; cbn; [done|].
  apply Forall_app_2; [done|]. apply Forall_singleton, hex_digit_lower_hex.
  apply Z.mod_pos_bound. lia.
Qed.

Lemma hex_digit_inj d e : 0 ≤ d < 16 → 0 ≤ e < 16 → hex_digit d = hex_digit e → d = e.
Proof. intros ??. unfold hex_digit. destruct (Z.ltb_spec d 10), (Z.ltb_spec e 10); lia. Qed.

Lemma hex_fixed_inj w n m :
  0 ≤ n < 16 ^ Z.of_nat w → 0 ≤ m < 16 ^ Z.of_nat w → hex_fixed w n = hex_fixed w m → n = m.
Proof.
  revert n m; induction w as [|w IH]; intros n m Hn Hm; cbn [hex_fixed]; [cbn in *; lia|].
  intros [Hd Hx]%app_inj_tail. rewrite Nat2Z.inj_succ, Z.pow_succ_r in * by lia.
  apply hex_digit_inj in Hx; [|apply Z.mod_pos_bound; lia..].
  assert (∀ k, 0 ≤ k < 16 * 16 ^ Z.of_nat w → 0 ≤ k / 16 < 16 ^ Z.of_nat w) as Hdiv.
  { intros k Hk. split; [apply Z.div_pos; lia | apply Z.div_lt_upper_bound; lia]. }
  apply IH in Hd; [|by apply Hdiv..].
  rewrite (Z.div_mod n 16), (Z.div_mod m 16) by lia. by rewrite Hd, Hx.
Qed.

Lemma uint_digits_digit d : Forall (λ c, is_digit c = true) (uint_digits d).
Proof. induction d; cbn; auto with mdm. Qed.

Lemma uint_digits_inj d e : uint_digits d = uint_digits e → d = e.
Proof. revert e; induction d; intros []; cbn; intros [=]; f_equal; auto. Qed.

Lemma str_of_Z_digit_or_dash z : Forall (λ c, is_digit c = true ∨ c = dash) (str_of_Z z).
Proof.
  assert (∀ d, Forall (λ c, is_digit c = true ∨ c = dash) (uint_digits d)) as H.
  { intros d. eapply Forall_impl; [apply uint_digits_digit|]. by left. }
  unfold str_of_Z. case_match; [constructor; [by right|]|]; apply H.
Qed.

Lemma str_of_Z_not_in c z : is_digit c = false → c ≠ dash → c ∉ str_of_Z z.
Proof.
  intros Hc Hd Hin. pose proof (str_of_Z_digit_or_dash z) as H.
  rewrite Forall_forall in H. destruct (H _ Hin); congruence.
Qed.

Lemma str_of_Z_digits_inj x y :
  0 ≤ x → 0 ≤ y →
  uint_digits (N.to_uint (Z.to_N x)) = uint_digits (N.to_uint (Z.to_N y)) → x = y.
Proof. intros ?? H%uint_digits_inj%DecimalN.Unsigned.to_uint_inj. lia. Qed.

Lemma decimal_value_uint d : decimal_value (uint_digits d) = Z.of_N (N.of_uint d).
Proof.
  assert (∀ d acc, fold_left (λ acc c, 10 * acc + (c - 48))%Z (uint_digits d) (Zpos acc) =
    Zpos (Pos.of_uint_acc d acc)) as Hacc.
  { clear. induction d as [|d IH|d IH|d IH|d IH|d IH|d IH|d IH|d IH|d IH|d IH]; intros acc; [done|..];
      cbn [uint_digits fold_left Pos.of_uint_acc]; rewrite <- IH; f_equal; lia. }
  unfold decimal_value.
  induction d as [|d IH|d _|d _|d _|d _|d _|d _|d _|d _|d _]; [done|exact IH|..];
    cbn [uint_digits fold_left]; exact (Hacc _ _).
Qed.

Lemma decimal_value_str z : (0 ≤ z)%Z → decimal_value (str_of_Z z) = z.
Proof.
  intros Hz. unfold str_of_Z. rewrite (proj2 (Z.ltb_ge z 0)) by done.
  rewrite decimal_value_uint, DecimalN.Unsigned.of_to. lia.
Qed.

Lemma str_of_Z_digits z : (0 ≤ z)%Z → Forall (λ c, is_digit c = true) (str_of_Z z).
Proof. intros Hz. unfold str_of_Z. rewrite (proj2 (Z.ltb_ge z 0)) by done. apply uint_digits_digit. Qed.

Lemma str_of_Z_nonempty z : str_of_Z z ≠ [].
Proof.
  unfold str_of_Z. case_match; [done|]. intros Hnil. 
  assert (N.to_uint (Z.to_N z) = Decimal.Nil) as Hd by by destruct (N.to_uint (Z.to_N z)).
  destruct (Z.to_N z) as [|p]; [done|]. cbn in Hd. 
  pose proof (DecimalPos.Unsigned.to_uint_nonnil p). done.
Qed.

Lemma str_of_Z_inj x y : str_of_Z x = str_of_Z y → x = y.
Proof.
  unfold str_of_Z. intros H; destruct (Z.ltb_spec x 0), (Z.ltb_spec y 0).
  - injection H as H. apply str_of_Z_digits_inj in H; lia.
  - pose proof (uint_digits_digit (N.to_uint (Z.to_N y))) as Hd. rewrite <- H in Hd.
    by apply Forall_cons in Hd as [].
  - pose proof (uint_digits_digit (N.to_uint (Z.to_N x))) as Hd. rewrite H in Hd.
    by apply Forall_cons in Hd as [].
  - apply str_of_Z_digits_inj in H; lia.
Qed.

Lemma uuid_str_length u : length (uuid_str u) = 36%nat.
Proof.
  unfold uuid_str. pose proof (hex_fixed_length 32 u) as H.
  repeat (rewrite length_app || rewrite length_take || rewrite length_drop || cbn [length]).
  rewrite H. reflexivity.
Qed.

Lemma uuid_str_inj u v : uuid_ok u → uuid_ok v → uuid_str u = uuid_str v → u = v.
Proof.
  unfold uuid_ok, uuid_str. intros Hu Hv Heq. apply (hex_fixed_inj 32); [cbn; lia..|].
  pose proof (hex_fixed_length 32 u) as Lu. pose proof (hex_fixed_length 32 v) as Lv.
  remember (hex_fixed 32 u) as h eqn:Eh. remember (hex_fixed 32 v) as k eqn:Ek.
  clear Eh Ek.
  assert (∀ h : pystr, h = take 8 h ++ take 4 (drop 8 h) ++ take 4 (drop 12 h) ++
    take 4 (drop 16 h) ++ drop 20 h) as Hsplit.
  { intros l. rewrite <- (take_drop 8 l) at 1. f_equal.
    rewrite <- (take_drop 4 (drop 8 l)) at 1. rewrite drop_drop. cbn [Nat.add]. f_equal.
    rewrite <- (take_drop 4 (drop 12 l)) at 1. rewrite drop_drop. cbn [Nat.add]. f_equal.
    rewrite <- (take_drop 4 (drop 16 l)) at 1. by rewrite drop_drop. }
  rewrite (Hsplit h), (Hsplit k).
  repeat (apply app_inj_1 in Heq as [?Hd Heq];
    [|rewrite ?length_take, ?length_drop, ?Lu, ?Lv; reflexivity]; try injection Heq as Heq).
  congruence.
Qed.

Lemma uuid_str_hex_or_dash u :
  Forall (λ c, is_lower_hex c = true ∨ c = dash) (uuid_str u).
Proof.
  assert (Forall (λ c, is_lower_hex c = true ∨ c = dash) (hex_fixed 32 u)) as H.
  { eapply Forall_impl; [apply hex_fixed_lower_hex|]. by left. }
  assert (Forall (λ c, is_lower_hex c = true ∨ c = dash) [dash]) as Hdash.
  { constructor; [by right|done]. }
  unfold uuid_str.
  repeat (apply Forall_app_2; [by first [apply Forall_take | exact Hdash];
    try apply Forall_drop|]).
  by apply Forall_drop.
Qed.
End numeral_lemmas.

#[global] Arguments hex_fixed : simpl never.
#[global] Arguments uuid_str : simpl never.
#[global] Arguments str_of_Z : simpl never.
