(* ===== verification/Exceptions.v ===== *)
(** * The exceptions of the program

    One constructor per exception class the modelled code raises, with the
    attributes a handler reads.  [IntegrityError] carries the constraint name
    the repositories extract with [_constraint_name]; [DatabaseError] stands for
    any other failure of the database that is re-raised. *)

From S2P Require Import Prelude.

Inductive exn :=
(* Python *)
| ValueError (message : string)
| AssertionError
| KeyError
| IndexError
| AttributeError
| TypeError
(* mdm.domain *)
| DimensionValidationError (field message : string)
| MasterCodeValidationError (message : string)
| AuthInvariantError (message : string)
| AuditInvariantError (message : string)
| ChangeRequestValidationError (message : string)
| ChangeRequestAlreadyReviewed
| InvalidOpaqueToken
(* mdm.application: authorization, preconditions *)
| AuthorizationDenied
| PreconditionRequired
| InvalidIfMatch
| PreconditionFailed
(* mdm.application: Dimensions *)
| CompanyNotFound | CompanyCodeConflict | CompanyValueConflict | CompanyMultipleConflicts
| StringDimensionNotFound (dimension_name : string)
| StringDimensionCodeConflict (dimension_name : string)
| StringDimensionValueConflict (dimension_name : string)
| StringDimensionMultipleConflicts (dimension_name : string)
| NumericDimensionNotFound (dimension_name : string)
| NumericDimensionCodeConflict (dimension_name : string)
| NumericDimensionValueConflict (dimension_name : string)
| NumericDimensionMultipleConflicts (dimension_name : string)
| MemoryDimensionNotFound | MemoryDimensionCodeConflict | MemoryDimensionValueConflict
| MemoryDimensionMultipleConflicts
| DimensionLifecycleNotFound | DimensionNotDeleted | DimensionInUse
(* mdm.application: MasterCodes *)
| MasterCodeNotFound | MasterCodeConflict | MasterCodeNotDeleted
| InvalidDimensionReference (fields : list string)
| InlineDimensionConflict (field : string) (code value : bool)
| MasterCodeReferenceInactive (fields : list string)
(* mdm.application: change requests *)
| ChangeRequestNotFound | ChangeRequestNoEffect | ChangeRequestStaleTarget
| ChangeRequestRestoreMismatch
(* mdm.application: credentials *)
| InvalidCredentials | InvalidSession | RefreshConflict | RefreshDigestConflict
| InvalidAccessToken | OpaqueTokenCollision
| InvalidRegistrationToken | EmailDomainNotAllowed | RegistrationUnavailable
| RegistrationDigestConflict
| InvalidPasswordResetToken | InvalidCurrentPassword | ResetDigestConflict
| PasswordHashUnavailable | InvalidStoredPasswordHash
| DuplicateUserEmail | UserPersistenceError | UserNotFound
| BootstrapStateConflict | BootstrapPersistenceError
| OriginNotAllowed | CsrfValidationFailed
| RateLimitExceeded (retry_after : Z)
| SessionUnavailable | PasswordLifecycleUnavailable | UserManagementUnavailable | UserQueryUnavailable
| UserQueryValidationError (field message : string)
| CompanyRepositoryUnavailable | StringDimensionRepositoryUnavailable
| NumericDimensionRepositoryUnavailable | MemoryDimensionRepositoryUnavailable
| DimensionLifecycleUnavailable | MasterCodeRepositoryUnavailable | MutationAuditContextUnavailable
| AuditLogRepositoryUnavailable | ReadinessUnavailable
(* mdm.infrastructure and the database *)
| JwtKeyConfigurationError (message : string) | PyJWTError | InvalidKeyError
| IntegrityError (constraint_name : string)
| DatabaseError.

Abbreviation res := (result exn) (only parsing).
