(* ===== verification/Uuids.v ===== *)
(** * UUIDs as text, and UUIDv7 generation
    (the [uuid.UUID] constructor; [src/src/mdm/infrastructure/uuid7.py])

    [UUID(text)] is more liberal than the canonical form: it drops [urn:] and
    [uuid:], surrounding braces and every dash, and gives the remaining 32
    characters to [int(text, 16)], which itself accepts spaces around the
    digits, a sign, a [0x] prefix, single underscores and decimal digits of
    other scripts. *)

From S2P Require Import Prelude Python Exceptions.
Local Open Scope Z_scope.

(** ** [str.replace(pattern, '')] *)

Fixpoint strip_prefix (pattern s : pystr) : option pystr :=
  match pattern, s with
  | [], _ => Some s
  | p :: pattern', c :: s' => if p =? c then strip_prefix pattern' s' else None
  | _ :: _, [] => None
  end.

(** [fuel] bounds the number of characters looked at. *)
Fixpoint remove_sub_go (fuel : nat) (pattern s : pystr) : pystr :=
  match fuel with
  | O => s
  | S n =>
      match strip_prefix pattern s, s with
      | Some rest, _ => remove_sub_go n pattern rest
      | None, c :: s' => c :: remove_sub_go n pattern s'
      | None, [] => []
      end
  end.
Definition remove_sub (pattern s : pystr) : pystr := remove_sub_go (S (length s)) pattern s.

(** [s.strip(chars)] *)
Fixpoint lstrip_chars (chars s : pystr) : pystr :=
  match s with
  | [] => []
  | c :: s' => if str_contains c chars then lstrip_chars chars s' else s
  end.
Definition strip_chars (chars s : pystr) : pystr :=
  reverse (lstrip_chars chars (reverse (lstrip_chars chars s))).

(** ** [int(s, 16)] *)

Definition hex_value (c : Z) : option Z :=
  if in_range 48 57 c then Some (c - 48)
  else if in_range 97 102 c then Some (c - 87)
  else if in_range 65 70 c then Some (c - 55)
  else None.

Section unicode.
Context `{UnicodeData}.

(** The ASCII text [int] parses: [None] is a character no numeral has. *)
Definition ascii_numeral_char (c : Z) : option Z :=
  if c <? 127 then Some c
  else if is_space c then Some space
  else d ← ucd_decimal c; Some (48 + d).

Definition is_ascii_space (c : Z) : bool := in_range 9 13 c || (c =? space).
Fixpoint skip_spaces (s : pystr) : pystr :=
  match s with
  | [] => []
  | c :: s' => if is_ascii_space c then skip_spaces s' else s
  end.

(** The digits: [previous] is whether the last character was an underscore;
    what follows them may only be spaces. *)
Fixpoint hex_digits (previous : bool) (acc : Z) (s : pystr) : option Z :=
  match s with
  | [] => if previous then None else Some acc
  | c :: s' =>
      match hex_value c with
      | Some d => hex_digits false (16 * acc + d) s'
      | None =>
          if c =? underscore then if previous then None else hex_digits true acc s'
          else if previous then None
          else if bool_decide (skip_spaces s = []) then Some acc else None
      end
  end.

Definition int_base16 (s : pystr) : option Z :=
  text ← mapM ascii_numeral_char s;
  let text := skip_spaces text in
  let '(negative, text) :=
    match text with
    | c :: t => if c =? 43 then (false, t) else if c =? dash then (true, t) else (false, text)
    | [] => (false, text)
    end in
  let text :=
    match text with
    | z :: x :: t =>
        if (z =? 48) && ((x =? 120) || (x =? 88))
        then match t with u :: t' => if u =? underscore then t' else t | [] => t end
        else text
    | _ => text
    end in
  match text with
  | c :: _ =>
      match hex_value c with
      | None => None
      | Some _ => v ← hex_digits false 0 text; Some (if negative : bool then - v else v)
      end
  | [] => None
  end.

(** [UUID(value)]: [None] stands for the [ValueError], [TypeError] or
    [AttributeError] it raises. *)
Definition parse_UUID (value : pyval) : option UUID :=
  match value with
  | VStr s =>
      let hex := remove_sub (py "uuid:") (remove_sub (py "urn:") s) in
      let hex := List.filter (λ c, negb (c =? dash)) (strip_chars (py "{}") hex) in
      if (length hex =? 32)%nat then
        n ← int_base16 hex;
        if (0 <=? n) && (n <? 2 ^ 128) then Some n else None
      else None
  | _ => None
  end.
End unicode.

(** ** [Uuid7Generator.new]

    [timestamp], [random_a] and [random_b] are what the injected clock and
    random source return. *)
Definition Uuid7_new (timestamp random_a random_b : Z) : res UUID :=
  _ ← raise_if (negb ((0 <=? timestamp) && (timestamp <? Z.shiftl 1 48)))
        (ValueError "UUIDv7 timestamp is outside its 48-bit range");
  _ ← raise_if (negb ((0 <=? random_a) && (random_a <? Z.shiftl 1 12))
                || negb ((0 <=? random_b) && (random_b <? Z.shiftl 1 62)))
        (ValueError "UUIDv7 random source returned an out-of-range value");
  Ok (Z.lor (Z.lor (Z.lor (Z.lor (Z.shiftl timestamp 80) (Z.shiftl 7 76)) (Z.shiftl random_a 64))
               (Z.shiftl 2 62)) random_b).

(** ** The canonical text of a UUID reads back *)

Lemma strip_prefix_other p pattern s : p ∉ s → strip_prefix (p :: pattern) s = None.
Proof.
  destruct s as [|c s]; [done|]. cbn. intros Hp. destruct (p =? c) eqn:E; [|done].
  apply Z.eqb_eq in E as ->. set_solver.
Qed.

Lemma remove_sub_other p pattern s : p ∉ s → remove_sub (p :: pattern) s = s.
Proof.
  unfold remove_sub. generalize (S (length s)) as n. intros n. revert s.
  induction n as [|n IH]; intros s Hp; [done|]. cbn [remove_sub_go].
  rewrite strip_prefix_other by done. destruct s as [|c s]; [done|]. rewrite IH; set_solver.
Qed.

Lemma lstrip_chars_other chars s : Forall (λ c, str_contains c chars = false) s → lstrip_chars chars s = s.
Proof. by destruct 1 as [|c s Hc _]; [|cbn; rewrite Hc]. Qed.

Lemma strip_chars_other chars s : Forall (λ c, str_contains c chars = false) s → strip_chars chars s = s.
Proof.
  intros Hs. unfold strip_chars. rewrite (lstrip_chars_other _ s) by done.
  rewrite lstrip_chars_other by by apply Forall_reverse. apply reverse_involutive.
Qed.

Definition hex_char (c : Z) : Prop := is_lower_hex c = true ∨ c = dash.

Lemma hex_char_range c : hex_char c → 48 ≤ c ≤ 57 ∨ 97 ≤ c ≤ 102 ∨ c = 45.
Proof.
  unfold hex_char, is_lower_hex, is_digit, in_range, dash. intros [Hc|Hc]; [|lia].
  apply orb_true_iff in Hc as [Hc|Hc]; bool_simpl; lia.
Qed.

Lemma hex_value_lower c : is_lower_hex c = true → is_Some (hex_value c).
Proof.
  unfold is_lower_hex, is_digit, hex_value. destruct (in_range 48 57 c); [by eexists|]. cbn.
  intros ->. by eexists.
Qed.

Lemma hex_value_digit d : 0 ≤ d < 16 → hex_value (hex_digit d) = Some d.
Proof.
  intros Hd. unfold hex_value, hex_digit, in_range. destruct (Z.ltb_spec d 10).
  - replace ((48 <=? 48 + d) && (48 + d <=? 57)) with true by lia. f_equal; lia.
  - replace ((48 <=? 87 + d) && (87 + d <=? 57)) with false by lia.
    replace ((97 <=? 87 + d) && (87 + d <=? 102)) with true by lia. f_equal; lia.
Qed.

(** Reading digits continues a number. *)
Lemma hex_digits_fixed w n acc s :
  0 ≤ n < 16 ^ Z.of_nat w →
  hex_digits false acc (hex_fixed w n ++ s) = hex_digits false (acc * 16 ^ Z.of_nat w + n) s.
Proof.
  revert n acc s. induction w as [|w IH]; intros n acc s Hn.
  - cbn in *. f_equal. lia.
  - rewrite Nat2Z.inj_succ, Z.pow_succ_r in * by lia. unfold hex_fixed; fold hex_fixed.
    rewrite <- (assoc_L (++)), IH.
    + cbn [app hex_digits]. rewrite hex_value_digit by (apply Z.mod_pos_bound; lia). f_equal.
      pose proof (Z.div_mod n 16). lia.
    + split; [apply Z.div_pos; lia|apply Z.div_lt_upper_bound; lia].
Qed.

Section roundtrip.
Context `{UnicodeData}.

Lemma ascii_numeral_hex s :
  Forall (λ c, is_lower_hex c = true) s → mapM ascii_numeral_char s = Some s.
Proof.
  intros Hs. apply mapM_Some_2, Forall_Forall2_diag. eapply Forall_impl; [exact Hs|].
  intros c Hc. unfold ascii_numeral_char. destruct (hex_char_range c (or_introl Hc)) as [?|[?|?]];
    by replace (c <? 127) with true by lia.
Qed.

Lemma int_base16_fixed w n :
  (0 < w)%nat → 0 ≤ n < 16 ^ Z.of_nat w → int_base16 (hex_fixed w n) = Some n.
Proof.
  intros Hw Hn. pose proof (hex_fixed_lower_hex w n) as Hall. pose proof (hex_fixed_length w n) as Hlen.
  pose proof (hex_digits_fixed w n 0 [] Hn) as Hdigits. rewrite app_nil_r in Hdigits.
  unfold int_base16. rewrite ascii_numeral_hex by done. cbn [mbind option_bind].
  destruct (hex_fixed w n) as [|c s] eqn:E; [cbn in Hlen; lia|].
  assert (∀ c, is_lower_hex c = true → is_ascii_space c = false ∧ (c =? 43) = false ∧ (c =? dash) = false ∧
    (c =? 120) || (c =? 88) = false) as Hchars.
  { intros x Hx. unfold is_ascii_space, in_range, space, dash.
    unfold is_lower_hex, is_digit, in_range in Hx. apply orb_true_iff in Hx as [Hx|Hx]; bool_simpl; lia. }
  apply Forall_cons in Hall as [Hc Hs]. destruct (Hchars c Hc) as (H1 & H2 & H3 & _).
  cbn [skip_spaces]. rewrite H1, H2, H3.
  assert (match s with
    | x :: t => if (c =? 48) && ((x =? 120) || (x =? 88))
                then match t with u :: t' => if u =? underscore then t' else t | [] => t end else c :: s
    | [] => c :: s end = c :: s) as Hprefix.
  { destruct s as [|x t]; [done|]. apply Forall_cons in Hs as [Hx _].
    destruct (Hchars x Hx) as (_ & _ & _ & ->). by rewrite andb_false_r. }
  assert (match c :: s with
    | z :: x :: t => if (z =? 48) && ((x =? 120) || (x =? 88))
                then match t with u :: t' => if u =? underscore then t' else t | [] => t end else c :: s
    | _ => c :: s end = c :: s) as -> by by destruct s.
  destruct (hex_value_lower c Hc) as [d Hd]. rewrite Hd, Hdigits. cbn. f_equal; lia.
Qed.

Lemma uuid_str_no_dash u : List.filter (λ c, negb (c =? dash)) (uuid_str u) = hex_fixed 32 u.
Proof.
  pose proof (hex_fixed_lower_hex 32 u) as Hall. unfold uuid_str.
  assert (∀ l, Forall (λ c, is_lower_hex c = true) l → List.filter (λ c, negb (c =? dash)) l = l) as Hid.
  { induction 1 as [|c l Hc _ IH]; [done|]. cbn. rewrite IH.
    destruct (hex_char_range c (or_introl Hc)) as [?|[?|?]].
    - by replace (c =? dash) with false by (unfold dash; lia).
    - by replace (c =? dash) with false by (unfold dash; lia).
    - subst. by vm_compute in Hc. }
  set (h := hex_fixed 32 u) in *.
  assert (∀ n m, List.filter (λ c, negb (c =? dash)) (take n (drop m h)) = take n (drop m h)) as Hmid
    by (intros; apply Hid; by apply Forall_take, Forall_drop).
  rewrite !List.filter_app, !Hmid, (Hid (take 8 h)), (Hid (drop 20 h));
    [|by apply Forall_drop|by apply Forall_take].
  change (List.filter (λ c, negb (c =? dash)) [dash]) with (@nil Z). cbn [app].
  assert (∀ m, take 4 (drop m h) ++ drop (4 + m) h = drop m h) as Hstep.
  { intros m. rewrite (Nat.add_comm 4 m), <- drop_drop. apply take_drop. }
  pose proof (Hstep 16%nat) as H16. pose proof (Hstep 12%nat) as H12. pose proof (Hstep 8%nat) as H8.
  cbn [Nat.add] in *. rewrite H16, H12, H8. apply take_drop.
Qed.

Lemma parse_UUID_str u : uuid_ok u → parse_UUID (VStr (uuid_str u)) = Some u.
Proof.
  intros Hu. unfold parse_UUID.
  pose proof (uuid_str_hex_or_dash u) as Hall.
  assert (∀ c, ¬ hex_char c → c ∉ uuid_str u) as Hno.
  { intros c Hc Hin. rewrite Forall_forall in Hall. by apply Hc, Hall. }
  assert (∀ c, c = 117 → ¬ hex_char c) as Hurn
    by (intros c -> Hc; destruct (hex_char_range _ Hc) as [?|[?|?]]; lia).
  change (py "urn:") with (117 :: py "rn:"). change (py "uuid:") with (117 :: py "uid:").
  rewrite (remove_sub_other 117 (py "rn:")), (remove_sub_other 117 (py "uid:")) by by apply Hno, Hurn.
  rewrite strip_chars_other.
  2:{ eapply Forall_impl; [exact Hall|]. intros c Hc. unfold str_contains. change (py "{}") with [123; 125]. cbn [existsb].
      destruct (hex_char_range c Hc) as [?|[?|?]]; rewrite !orb_false_iff; split_and!; lia. }
  rewrite uuid_str_no_dash, hex_fixed_length, Nat.eqb_refl.
  rewrite int_base16_fixed by (unfold uuid_ok in Hu; cbn; lia). cbn [mbind option_bind].
  by replace ((0 <=? u) && (u <? 2 ^ 128)) with true by (unfold uuid_ok in Hu; lia).
Qed.
End roundtrip.

(** ** Generated identifiers *)

Lemma lor_shiftl x k y : 0 ≤ k → 0 ≤ y < 2 ^ k → Z.lor (Z.shiftl x k) y = x * 2 ^ k + y.
Proof.
  intros Hk Hy. rewrite <- Z.shiftl_mul_pow2 by done.
  assert (Z.land (Z.shiftl x k) y = 0) as Hland.
  { apply Z.bits_inj'. intros i Hi. rewrite Z.land_spec, Z.bits_0. destruct (Z.ltb_spec i k).
    - by rewrite Z.shiftl_spec_low by done.
    - assert (Z.testbit y i = false) as ->; [|apply andb_false_r]. apply Z.testbit_false; [done|].
      rewrite Z.div_small; [done|]. pose proof (Z.pow_le_mono_r 2 k i). lia. }
  rewrite Z.add_nocarry_lxor by done. by rewrite Z.lxor_lor.
Qed.

(** Two shifted fields that do not overlap. *)
Lemma lor_fields x n y m :
  0 ≤ m ≤ n → 0 ≤ y < 2 ^ (n - m) →
  Z.lor (Z.shiftl x n) (Z.shiftl y m) = Z.shiftl (x * 2 ^ (n - m) + y) m.
Proof.
  intros Hm Hy. replace n with ((n - m) + m) at 1 by lia. rewrite <- Z.shiftl_shiftl by lia.
  rewrite <- Z.shiftl_lor, lor_shiftl by lia. done.
Qed.

Lemma Uuid7_new_value timestamp random_a random_b u :
  Uuid7_new timestamp random_a random_b = Ok u →
  0 ≤ timestamp < 2 ^ 48 ∧ 0 ≤ random_a < 2 ^ 12 ∧ 0 ≤ random_b < 2 ^ 62 ∧
  u = (((timestamp * 2 ^ 4 + 7) * 2 ^ 12 + random_a) * 2 ^ 2 + 2) * 2 ^ 62 + random_b.
Proof.
  unfold Uuid7_new. intros (_ & Ht%raise_if_Ok%negb_false_iff & Hok)%bind_Ok.
  apply bind_Ok in Hok as (_ & Hab%raise_if_Ok & [= <-]).
  apply orb_false_iff in Hab as [Ha%negb_false_iff Hb%negb_false_iff].
  change (Z.shiftl 1 48) with (2 ^ 48) in Ht. change (Z.shiftl 1 12) with (2 ^ 12) in Ha.
  change (Z.shiftl 1 62) with (2 ^ 62) in Hb.
  apply andb_true_iff in Ht as [Ht1%Z.leb_le Ht2%Z.ltb_lt], Ha as [Ha1%Z.leb_le Ha2%Z.ltb_lt],
    Hb as [Hb1%Z.leb_le Hb2%Z.ltb_lt].
  split_and!; try done.
  rewrite (lor_fields timestamp 80 7 76), (lor_fields _ 76 random_a 64), (lor_fields _ 64 2 62) by lia.
  rewrite lor_shiftl by lia. done.
Qed.

(** A generated identifier is a 128-bit UUID of version 7 (so the audit
    metadata built with it is never refused for its change set), identifiers
    order as their timestamps do, and different timestamps or random payloads
    give different identifiers. *)
Theorem Uuid7_new_spec (t1 a1 b1 t2 a2 b2 : Z) (u1 u2 : UUID) :
  Uuid7_new t1 a1 b1 = Ok u1 → Uuid7_new t2 a2 b2 = Ok u2 →
  uuid_ok u1 ∧ uuid_version u1 = Some 7 ∧ (t1 < t2 → u1 < u2) ∧
  (u1 = u2 ↔ t1 = t2 ∧ a1 = a2 ∧ b1 = b2).
Proof.
  intros (Ht1 & Ha1 & Hb1 & ->)%Uuid7_new_value (Ht2 & Ha2 & Hb2 & ->)%Uuid7_new_value.
  split_and!; [unfold uuid_ok; lia| |lia|lia].
  unfold uuid_version. rewrite !Z.testbit_eqb, Z.shiftr_div_pow2 by lia.
  change 15 with (Z.ones 4). rewrite Z.land_ones by lia.
  set (v := (((t1 * 2 ^ 4 + 7) * 2 ^ 12 + a1) * 2 ^ 2 + 2) * 2 ^ 62 + b1).
  assert (v / 2 ^ 62 = ((t1 * 2 ^ 4 + 7) * 2 ^ 12 + a1) * 2 ^ 2 + 2) as H62.
  { unfold v. rewrite Z.add_comm, Z.div_add by lia. rewrite (Z.div_small b1) by lia. lia. }
  assert (v / 2 ^ 63 = ((t1 * 2 ^ 4 + 7) * 2 ^ 12 + a1) * 2 + 1) as H63.
  { replace (2 ^ 63) with (2 ^ 62 * 2) by lia. rewrite <- Z.div_div, H62 by lia.
    symmetry. apply Z.div_unique with 0; lia. }
  assert (v / 2 ^ 76 = t1 * 2 ^ 4 + 7) as H76.
  { replace (2 ^ 76) with (2 ^ 63 * 2 ^ 13) by lia. rewrite <- Z.div_div, H63 by lia.
    symmetry. apply Z.div_unique with (a1 * 2 + 1); lia. }
  rewrite H62, H63, H76.
  replace ((((t1 * 2 ^ 4 + 7) * 2 ^ 12 + a1) * 2 + 1) mod 2) with 1.
  2:{ apply Z.mod_unique with ((t1 * 2 ^ 4 + 7) * 2 ^ 12 + a1); lia. }
  replace ((((t1 * 2 ^ 4 + 7) * 2 ^ 12 + a1) * 2 ^ 2 + 2) mod 2) with 0.
  2:{ apply Z.mod_unique with (((t1 * 2 ^ 4 + 7) * 2 ^ 12 + a1) * 2 + 1); lia. }
  cbn [Z.eqb negb andb]. f_equal. symmetry. apply Z.mod_unique with t1; lia.
Qed.

Lemma Uuid7_new_spec_witness :
  ∃ u1 u2, Uuid7_new 1760000000000 5 6 = Ok u1 ∧ Uuid7_new 1760000000001 0 0 = Ok u2 ∧ u1 < u2.
Proof.
  eexists _, _. split; [vm_compute; reflexivity|]. split; [vm_compute; reflexivity|].
  refine (proj1 (proj2 (proj2 (Uuid7_new_spec 1760000000000 5 6 1760000000001 0 0 _ _ _ _))) _);
    vm_compute; reflexivity.
Defined.
