(* ===== verification/Sha256.v ===== *)
(** * SHA-256 ([hashlib.sha256] of the standard library)

    FIPS 180-4, executable: the program derives MasterCode ETags, opaque token
    digests and security-event references from it.  Bytes are integers in
    [0, 256); words are integers in [0, 2^32), with every addition reduced. *)

From S2P Require Import Prelude Python.
Local Open Scope Z_scope.

Definition wrap32 (x : Z) : Z := x mod 2 ^ 32.
Definition add32 (x y : Z) : Z := wrap32 (x + y).
Definition rotr32 (n x : Z) : Z :=
  Z.lor (Z.shiftr x n) (wrap32 (Z.shiftl x (32 - n))).
Definition not32 (x : Z) : Z := 2 ^ 32 - 1 - x.

Definition Ch (x y z : Z) : Z := Z.lxor (Z.land x y) (Z.land (not32 x) z).
Definition Maj (x y z : Z) : Z := Z.lxor (Z.lxor (Z.land x y) (Z.land x z)) (Z.land y z).
Definition Sigma0 (x : Z) : Z := Z.lxor (Z.lxor (rotr32 2 x) (rotr32 13 x)) (rotr32 22 x).
Definition Sigma1 (x : Z) : Z := Z.lxor (Z.lxor (rotr32 6 x) (rotr32 11 x)) (rotr32 25 x).
Definition sigma0 (x : Z) : Z := Z.lxor (Z.lxor (rotr32 7 x) (rotr32 18 x)) (Z.shiftr x 3).
Definition sigma1 (x : Z) : Z := Z.lxor (Z.lxor (rotr32 17 x) (rotr32 19 x)) (Z.shiftr x 10).

(** The constants of the standard are the first 32 bits of the fractional parts
    of the roots of the first primes: cube roots for the rounds, square roots
    for the initial state. *)
Definition is_prime (n : Z) : bool :=
  forallb (λ d, negb (n mod Z.of_nat d =? 0)) (seq 2 (Z.to_nat n - 2)).
Definition first_primes : list Z :=
  Eval vm_compute in List.filter is_prime (Z.of_nat <$> seq 2 310).

(** The integer cube root, found bit by bit below [2 ^ bits]. *)
Fixpoint cube_root (bits : nat) (root n : Z) : Z :=
  match bits with
  | O => root
  | S b =>
      let candidate := root + 2 ^ Z.of_nat b in
      cube_root b (if candidate ^ 3 <=? n then candidate else root) n
  end.

Definition K256 : list Z :=
  Eval vm_compute in (λ p, wrap32 (cube_root 40 0 (p * 2 ^ 96))) <$> first_primes.

Record hash_state := HashState { ha : Z; hb : Z; hc : Z; hd : Z; he : Z; hf : Z; hg : Z; hh : Z }.

Definition H256 : hash_state :=
  Eval vm_compute in
  let root n := wrap32 (Z.sqrt (nth n first_primes 0 * 2 ^ 64)) in
  HashState (root 0%nat) (root 1%nat) (root 2%nat) (root 3%nat) (root 4%nat) (root 5%nat)
    (root 6%nat) (root 7%nat).

(** The message schedule: [window] holds the last sixteen words, oldest first. *)
Fixpoint compress_rounds (ks : list Z) (window : list Z) (s : hash_state) : hash_state :=
  match ks with
  | [] => s
  | k :: ks' =>
      let w := nth 0 window 0 in
      let next := add32 (add32 (sigma1 (nth 14 window 0)) (nth 9 window 0))
                        (add32 (sigma0 (nth 1 window 0)) w) in
      let t1 := add32 (add32 (hh s) (Sigma1 (he s)))
                      (add32 (Ch (he s) (hf s) (hg s)) (add32 k w)) in
      let t2 := add32 (Sigma0 (ha s)) (Maj (ha s) (hb s) (hc s)) in
      compress_rounds ks' (tail window ++ [next])
        (HashState (add32 t1 t2) (ha s) (hb s) (hc s) (add32 (hd s) t1) (he s) (hf s) (hg s))
  end.

Definition hash_add (s t : hash_state) : hash_state :=
  HashState (add32 (ha s) (ha t)) (add32 (hb s) (hb t)) (add32 (hc s) (hc t))
    (add32 (hd s) (hd t)) (add32 (he s) (he t)) (add32 (hf s) (hf t)) (add32 (hg s) (hg t))
    (add32 (hh s) (hh t)).

Definition compress (s : hash_state) (block : list Z) : hash_state :=
  hash_add s (compress_rounds K256 block s).

(** [be_bytes n x]: the low [n] bytes of [x], most significant first. *)
Fixpoint be_bytes (n : nat) (x : Z) : list Z :=
  match n with O => [] | S m => be_bytes m (x / 256) ++ [x mod 256] end.

Definition be_word (a b c d : Z) : Z := ((a * 256 + b) * 256 + c) * 256 + d.

Fixpoint words_of_bytes (l : list Z) : list Z :=
  match l with
  | a :: b :: c :: d :: l' => be_word a b c d :: words_of_bytes l'
  | _ => []
  end.

Definition padding (len : nat) : list Z :=
  128 :: replicate ((119 - len mod 64) mod 64) 0 ++ be_bytes 8 (8 * Z.of_nat len).

Fixpoint blocks (n : nat) (ws : list Z) : list (list Z) :=
  match n with O => [] | S m => take 16 ws :: blocks m (drop 16 ws) end.

Definition state_bytes (s : hash_state) : list Z :=
  [ha s; hb s; hc s; hd s; he s; hf s; hg s; hh s] ≫= be_bytes 4.

(** [hashlib.sha256(message).digest()] *)
Definition sha256 (message : list Z) : list Z :=
  let padded := message ++ padding (length message) in
  let ws := words_of_bytes padded in
  state_bytes (fold_left compress (blocks (length ws / 16) ws) H256).

(** [bytes.hex()] *)
Definition hex (bytes : list Z) : pystr := bytes ≫= hex_fixed 2.
(** [hashlib.sha256(message).hexdigest()] *)
Definition sha256_hexdigest (message : list Z) : pystr := hex (sha256 message).

(** ** The digest has 32 bytes, its hexadecimal form 64 lower-case digits *)

Lemma be_bytes_length n x : length (be_bytes n x) = n.
Proof. revert x; induction n as [|n IH]; intros x; cbn; [done|]. rewrite length_app, IH. cbn. lia. Qed.

Lemma be_bytes_byte n x : Forall (λ b, 0 ≤ b < 256) (be_bytes n x).
Proof.
  revert x; induction n as [|n IH]; intros x; cbn; [done|].
  apply Forall_app_2; [done|]. apply Forall_singleton. apply Z.mod_pos_bound. lia.
Qed.

Lemma sha256_length m : length (sha256 m) = 32%nat.
Proof. reflexivity. Qed.

Lemma sha256_byte m : Forall (λ b, 0 ≤ b < 256) (sha256 m).
Proof.
  unfold sha256, state_bytes. cbn [mbind list_bind].
  repeat (apply Forall_app_2; [apply be_bytes_byte|]). constructor.
Qed.

Lemma hex_length bs : length (hex bs) = (2 * length bs)%nat.
Proof.
  unfold hex; induction bs as [|b bs IH]; cbn [mbind list_bind length]; [done|].
  rewrite length_app, hex_fixed_length, IH. lia.
Qed.

Lemma hex_lower_hex bs : Forall (λ c, is_lower_hex c = true) (hex bs).
Proof.
  unfold hex; induction bs as [|b bs IH]; cbn [mbind list_bind]; [done|].
  apply Forall_app_2; [apply hex_fixed_lower_hex|done].
Qed.

Lemma sha256_hexdigest_shape m :
  length (sha256_hexdigest m) = 64%nat ∧ Forall (λ c, is_lower_hex c = true) (sha256_hexdigest m).
Proof. unfold sha256_hexdigest. rewrite hex_length, sha256_length. split; [done|apply hex_lower_hex]. Qed.

Lemma hex_inj bs cs :
  Forall (λ b, 0 ≤ b < 256) bs → Forall (λ b, 0 ≤ b < 256) cs → hex bs = hex cs → bs = cs.
Proof.
  unfold hex. intros Hb; revert cs; induction Hb as [|b bs Hb Hbs IH]; intros [|c cs] Hc;
    cbn [mbind list_bind]; try done.
  apply Forall_cons in Hc as [Hc Hcs]. intros Heq.
  apply app_inj_1 in Heq as [Hd Heq]; [|done].
  apply hex_fixed_inj in Hd; [|cbn; lia..]. f_equal; eauto.
Qed.

(** ** Test vectors of FIPS 180-4 *)

Example sha256_empty :
  sha256_hexdigest [] = py "e3b0c44298fc1c149afbf4c8996fb92427ae41e4649b934ca495991b7852b855".
Proof. vm_compute. reflexivity. Qed.

Example sha256_abc :
  sha256_hexdigest (py "abc") =
  py "ba7816bf8f01cfea414140de5dae2223b00361a396177a9cb410ff61f20015ad".
Proof. vm_compute. reflexivity. Qed.

Example sha256_two_blocks :
  sha256_hexdigest (py "abcdbcdecdefdefgefghfghighijhijkijkljklmklmnlmnomnopnopq") =
  py "248d6a61d20638b8e5c026930c3e6039a33ce45964ff2167f6ecedd419db06c1".
Proof. vm_compute. reflexivity. Qed.
