(* ===== verification/Auth.v ===== *)
(** * Authentication values, roles and authorization
    ([src/src/mdm/domain/auth.py], [src/src/mdm/application/authorization.py],
    the principal of [src/src/mdm/application/auth.py])

    Users hold one of three roles.  The authorization policy is a closed matrix
    from roles to actions plus the rule for role changes; permanent security
    events must have one of six shapes. *)

From S2P Require Import Prelude Python Exceptions.

(** ** Roles, status and security events *)

Inductive UserRole := USER | ADMIN | SUPER_ADMIN.
#[export] Instance UserRole_eq_dec : EqDecision UserRole.
Proof. solve_decision. Defined.

Inductive UserStatus := ACTIVE | DISABLED.
#[export] Instance UserStatus_eq_dec : EqDecision UserStatus.
Proof. solve_decision. Defined.

Inductive SecurityEventType :=
| INITIAL_SUPER_ADMIN_BOOTSTRAPPED | USER_ROLE_CHANGED | USER_DISABLED | USER_ENABLED
| PASSWORD_CHANGED | PASSWORD_RESET.
#[export] Instance SecurityEventType_eq_dec : EqDecision SecurityEventType.
Proof. solve_decision. Defined.

Inductive SecurityEventInitiatorType := AUTHENTICATED_USER | RESET_TOKEN | BOOTSTRAP_CLI.
#[export] Instance SecurityEventInitiatorType_eq_dec : EqDecision SecurityEventInitiatorType.
Proof. solve_decision. Defined.

(** ** Validated values *)

Section unicode.
Context `{UnicodeData}.

(** [email_validator.validate_email]: the local part and the ASCII domain of an
    accepted address. *)
Variable validate_email : pystr → option (pystr * option pystr).

Definition str_casefold (s : pystr) : pystr := s ≫= ucd_casefold.
Definition ascii_lower (c : Z) : Z := if in_range 65 90 c then (c + 32)%Z else c.
Definition at_sign : Z := 64.

(** The IDNA form of a domain is ASCII, so lower case is the ASCII one. *)
Definition normalize_email (value : pystr) : res pystr :=
  let candidate := ucd_nfc (strip_ws value) in
  match validate_email candidate with
  | None => Raise (AuthInvariantError "email format is invalid")
  | Some (local, ascii_domain) =>
      let local_part := str_casefold (ucd_nfc local) in
      match ascii_domain with
      | None => Raise (AuthInvariantError "email domain must have an IDNA representation")
      | Some domain =>
          let normalized := local_part ++ [at_sign] ++ (ascii_lower <$> domain) in
          _ ← raise_if (254 <? length normalized)%nat
                (AuthInvariantError "email must not exceed 254 characters");
          Ok normalized
      end
  end.

Definition DisplayName_init (value : pystr) : res pystr :=
  let normalized := strip_ws (ucd_nfc value) in
  _ ← raise_if (negb ((1 <=? length normalized)%nat && (length normalized <=? 100)%nat))
        (AuthInvariantError "name must contain between 1 and 100 code points");
  _ ← raise_if (existsb is_Cc normalized)
        (AuthInvariantError "name must not contain control characters");
  Ok normalized.

Definition PlainPassword_init (value : pystr) : res pystr :=
  let normalized := ucd_nfc value in
  _ ← raise_if (negb ((15 <=? length normalized)%nat && (length normalized <=? 128)%nat))
        (AuthInvariantError "password must contain between 15 and 128 code points");
  Ok normalized.
End unicode.

Record User := mkUser {
  user_id : UUID;
  user_email : pystr;
  user_name : pystr;
  user_password_hash : pystr;
  user_role : UserRole;
  user_status : UserStatus;
  user_created_at : datetime;
  user_updated_at : datetime;
}.
#[export] Instance User_eq_dec : EqDecision User.
Proof. solve_decision. Defined.

(** [User.__post_init__] *)
Definition User_init (u : User) : res User :=
  _ ← raise_if (bool_decide (user_password_hash u = []))
        (AuthInvariantError "password hash must not be empty");
  _ ← raise_if (is_naive (user_created_at u) || is_naive (user_updated_at u))
        (AuthInvariantError "user timestamps must be timezone-aware");
  _ ← raise_if (dt_ltb (user_updated_at u) (user_created_at u))
        (AuthInvariantError "updated_at must not precede created_at");
  Ok u.

(** ** Security events *)

Definition validate_security_event_contract (event_type : SecurityEventType)
    (initiator_type : SecurityEventInitiatorType) (initiator_user_id : option UUID)
    (initiator_role previous_role new_role : option UserRole)
    (previous_status new_status : option UserStatus) : res unit :=
  let authenticated := bool_decide (initiator_type = AUTHENTICATED_USER) in
  let has_identity := bool_decide (initiator_user_id ≠ None) && bool_decide (initiator_role ≠ None) in
  let lacks_identity :=
    bool_decide (initiator_user_id = None) && bool_decide (initiator_role = None) in
  _ ← raise_if ((authenticated && negb has_identity) || (negb authenticated && negb lacks_identity))
        (AuthInvariantError "security event initiator fields are inconsistent");
  let role_transition := (previous_role, new_role) in
  let status_transition := (previous_status, new_status) in
  let valid :=
    match event_type with
    | INITIAL_SUPER_ADMIN_BOOTSTRAPPED =>
        bool_decide (initiator_type = BOOTSTRAP_CLI)
        && bool_decide (role_transition = (None, Some SUPER_ADMIN))
        && bool_decide (status_transition = (None, Some ACTIVE))
    | USER_ROLE_CHANGED =>
        authenticated && bool_decide (previous_role ≠ None) && bool_decide (new_role ≠ None)
        && bool_decide (previous_role ≠ new_role) && bool_decide (status_transition = (None, None))
    | USER_DISABLED =>
        authenticated && bool_decide (role_transition = (None, None))
        && bool_decide (status_transition = (Some ACTIVE, Some DISABLED))
    | USER_ENABLED =>
        authenticated && bool_decide (role_transition = (None, None))
        && bool_decide (status_transition = (Some DISABLED, Some ACTIVE))
    | PASSWORD_CHANGED =>
        authenticated && bool_decide (role_transition = (None, None))
        && bool_decide (status_transition = (None, None))
    | PASSWORD_RESET =>
        bool_decide (initiator_type = RESET_TOKEN)
        && bool_decide (role_transition = (None, None))
        && bool_decide (status_transition = (None, None))
    end in
  raise_if (negb valid)
    (AuthInvariantError "security event transition fields are inconsistent").

Record UserSecurityEvent := mkUserSecurityEvent {
  ev_id : UUID;
  ev_type : SecurityEventType;
  ev_subject_user_id : UUID;
  ev_occurred_at : datetime;
  ev_initiator_type : SecurityEventInitiatorType;
  ev_initiator_user_id : option UUID;
  ev_initiator_role : option UserRole;
  ev_previous_role : option UserRole;
  ev_new_role : option UserRole;
  ev_previous_status : option UserStatus;
  ev_new_status : option UserStatus;
}.

Definition UserSecurityEvent_init (e : UserSecurityEvent) : res UserSecurityEvent :=
  _ ← raise_if (is_naive (ev_occurred_at e))
        (AuthInvariantError "security event timestamp must be timezone-aware");
  _ ← validate_security_event_contract (ev_type e) (ev_initiator_type e) (ev_initiator_user_id e)
        (ev_initiator_role e) (ev_previous_role e) (ev_new_role e) (ev_previous_status e)
        (ev_new_status e);
  Ok e.

(** ** Authorization *)

Record HumanPrincipal := mkHumanPrincipal { principal_id : UUID; principal_role : UserRole }.
#[export] Instance HumanPrincipal_eq_dec : EqDecision HumanPrincipal.
Proof. solve_decision. Defined.

Inductive AuthorizationAction :=
| READ_DATA | SUBMIT_CREATE_REQUEST | SUBMIT_REFERENCE_UPDATE_REQUEST | SUBMIT_DELETE_REQUEST
| MUTATE_DATA | REVIEW_CHANGE_REQUEST | READ_TOMBSTONE | READ_AUDIT_LOG | READ_USERS
| MANAGE_USER_ROLES | MANAGE_USER_STATUS.
#[export] Instance AuthorizationAction_eq_dec : EqDecision AuthorizationAction.
Proof. solve_decision. Defined.

Definition USER_ACTIONS : list AuthorizationAction :=
  [READ_DATA; SUBMIT_CREATE_REQUEST; SUBMIT_REFERENCE_UPDATE_REQUEST; SUBMIT_DELETE_REQUEST].
Definition ADMIN_ACTIONS : list AuthorizationAction :=
  [READ_DATA; MUTATE_DATA; REVIEW_CHANGE_REQUEST; READ_TOMBSTONE; READ_AUDIT_LOG; READ_USERS;
   MANAGE_USER_ROLES].
Definition ALLOWED_ACTIONS (r : UserRole) : list AuthorizationAction :=
  match r with
  | USER => USER_ACTIONS
  | ADMIN => ADMIN_ACTIONS
  | SUPER_ADMIN => ADMIN_ACTIONS ++ [MANAGE_USER_STATUS]
  end.
Definition ROLE_RANK (r : UserRole) : Z :=
  match r with USER => 0 | ADMIN => 1 | SUPER_ADMIN => 2 end.

Definition authorize (p : HumanPrincipal) (action : AuthorizationAction) : res HumanPrincipal :=
  _ ← raise_if (negb (bool_decide (action ∈ ALLOWED_ACTIONS (principal_role p)))) AuthorizationDenied;
  Ok p.

Definition authorize_role_change (p : HumanPrincipal) (target_user_id : UUID)
    (target_role new_role : UserRole) : res HumanPrincipal :=
  _ ← authorize p MANAGE_USER_ROLES;
  _ ← raise_if (bool_decide (target_user_id = principal_id p)) AuthorizationDenied;
  if bool_decide (principal_role p = SUPER_ADMIN) then Ok p
  else
    let actor_rank := ROLE_RANK (principal_role p) in
    _ ← raise_if ((actor_rank <=? ROLE_RANK target_role)%Z || (actor_rank <? ROLE_RANK new_role)%Z)
          AuthorizationDenied;
    Ok p.

(** ** The six shapes of a permanent security event *)

Inductive event_shape : SecurityEventType → SecurityEventInitiatorType → option UUID →
    option UserRole → option UserRole → option UserRole → option UserStatus →
    option UserStatus → Prop :=
| shape_bootstrap :
    event_shape INITIAL_SUPER_ADMIN_BOOTSTRAPPED BOOTSTRAP_CLI None None
      None (Some SUPER_ADMIN) None (Some ACTIVE)
| shape_role_changed actor role old new :
    old ≠ new →
    event_shape USER_ROLE_CHANGED AUTHENTICATED_USER (Some actor) (Some role)
      (Some old) (Some new) None None
| shape_disabled actor role :
    event_shape USER_DISABLED AUTHENTICATED_USER (Some actor) (Some role)
      None None (Some ACTIVE) (Some DISABLED)
| shape_enabled actor role :
    event_shape USER_ENABLED AUTHENTICATED_USER (Some actor) (Some role)
      None None (Some DISABLED) (Some ACTIVE)
| shape_password_changed actor role :
    event_shape PASSWORD_CHANGED AUTHENTICATED_USER (Some actor) (Some role)
      None None None None
| shape_password_reset :
    event_shape PASSWORD_RESET RESET_TOKEN None None None None None None.

(** The contract check accepts exactly the six shapes: an authenticated
    actor is recorded for role, status and password changes and for nothing
    else, a role change changes the role, and a status change goes between the
    two states. *)
Theorem security_event_contract_spec (ty : SecurityEventType) (ini : SecurityEventInitiatorType)
    (uid : option UUID) (irole prole nrole : option UserRole) (pst nst : option UserStatus) :
  validate_security_event_contract ty ini uid irole prole nrole pst nst = Ok tt ↔
  event_shape ty ini uid irole prole nrole pst nst.
Proof.
  split.
  - unfold validate_security_event_contract. intros Hok.
    apply bind_Ok in Hok as (_ & Hid%raise_if_Ok & Hv%raise_if_Ok%negb_false_iff).
    destruct ty, ini, uid as [uid|], irole as [irole|]; try discriminate Hid; try discriminate Hv;
      destruct prole as [[]|], nrole as [[]|], pst as [[]|], nst as [[]|];
      try (vm_compute in Hv; discriminate Hv);
      by constructor.
  - destruct 1 as [|? ? [] []| | | |]; done.
Qed.

(** ** Role changes *)

Lemma authorize_Ok p a p' :
  authorize p a = Ok p' ↔ p' = p ∧ a ∈ ALLOWED_ACTIONS (principal_role p).
Proof.
  unfold authorize. rewrite bind_Ok. split.
  - intros ([] & H%raise_if_Ok & [= <-]). by apply negb_false_iff, bool_decide_eq_true in H.
  - intros [-> H]. exists tt. split; [|done]. by rewrite bool_decide_eq_true_2.
Qed.

Lemma authorize_role_change_Ok p target trole nrole p' :
  authorize_role_change p target trole nrole = Ok p' ↔
  p' = p ∧ target ≠ principal_id p ∧
  (principal_role p = SUPER_ADMIN ∨
   principal_role p = ADMIN ∧ trole = USER ∧ nrole ≠ SUPER_ADMIN).
Proof.
  unfold authorize_role_change. rewrite bind_Ok. setoid_rewrite authorize_Ok.
  destruct p as [pid prole]; cbn. split.
  - intros (q & [-> Ha] & Hok). apply bind_Ok in Hok as ([] & Hself%raise_if_Ok & Hok).
    apply bool_decide_eq_false in Hself.
    split_and!; [by case_bool_decide; inv_ok|done|].
    destruct prole; cbn in Hok, Ha; [set_solver| |by left].
    right. apply bind_Ok in Hok as (_ & Hr%raise_if_Ok & _). by destruct trole, nrole.
  - intros (-> & Hself & Hr). eexists. split; [split; [done|]|].
    { destruct Hr as [->|(-> & _)]; unfold ALLOWED_ACTIONS, ADMIN_ACTIONS; set_solver. }
    rewrite (bool_decide_eq_false_2 (target = pid)) by done. cbn.
    destruct Hr as [->|(-> & -> & Hn)]; [done|]. by destruct nrole.
Qed.

(** The roles of all users under a sequence of role changes by principals whose
    token role is [granted] (it may be older than the stored role). *)
Inductive role_step (granted : gmap UUID UserRole → HumanPrincipal → Prop) :
    gmap UUID UserRole → gmap UUID UserRole → Prop :=
| role_step_change roles p target trole nrole p' :
    granted roles p → roles !! target = Some trole →
    authorize_role_change p target trole nrole = Ok p' →
    role_step granted roles (<[target := nrole]> roles).

(** No escalation.  Whatever sequence of role changes ADMIN principals
    perform, on whatever tokens, the set of SUPER_ADMINs is unchanged and no
    ADMIN loses the role; USER principals change nothing at all. *)
Theorem admin_role_changes_bounded (roles roles' : gmap UUID UserRole) :
  rtc (role_step (λ _ p, principal_role p ≠ SUPER_ADMIN)) roles roles' →
  (∀ u, roles' !! u = Some SUPER_ADMIN ↔ roles !! u = Some SUPER_ADMIN) ∧
  (∀ u, roles !! u = Some ADMIN → roles' !! u = Some ADMIN) ∧
  (rtc (role_step (λ _ p, principal_role p = USER)) roles roles' → roles' = roles).
Proof.
  intros Hrtc. split_and!.
  - intros u. induction Hrtc as [|r1 r2 r3 Hs _ IH]; [done|]. rewrite IH.
    destruct Hs as [roles p t tr nr p' Hg Ht (_ & _ & [?|(_ & -> & Hn)])%authorize_role_change_Ok];
      [done|]. rewrite lookup_insert_Some. naive_solver.
  - induction Hrtc as [|r1 r2 r3 Hs _ IH]; [done|]. intros u Hu. apply IH.
    destruct Hs as [roles p t tr nr p' Hg Ht (_ & _ & [?|(_ & -> & Hn)])%authorize_role_change_Ok];
      [done|]. rewrite lookup_insert_ne by naive_solver. done.
  - clear Hrtc. induction 1 as [|r1 r2 r3 Hs _ IH]; [done|]. rewrite IH.
    destruct Hs as [roles p t tr nr p' Hg Ht (_ & _ & [?|(? & _)])%authorize_role_change_Ok];
      congruence.
Qed.

(** While tokens carry the stored role, role changes never remove the last
    SUPER_ADMIN. *)
Theorem role_changes_keep_super_admin (roles roles' : gmap UUID UserRole) :
  rtc (role_step (λ roles p, roles !! principal_id p = Some (principal_role p))) roles roles' →
  (∃ u, roles !! u = Some SUPER_ADMIN) → ∃ u, roles' !! u = Some SUPER_ADMIN.
Proof.
  induction 1 as [|r1 r2 r3 Hs _ IH]; [done|]. intros [u Hu]. apply IH.
  destruct Hs as [roles p t tr nr p' Hg Ht (_ & Hne & Hr)%authorize_role_change_Ok].
  destruct Hr as [Hp|(_ & -> & _)].
  - exists (principal_id p). rewrite lookup_insert_ne by done. by rewrite Hg, Hp.
  - exists u. rewrite lookup_insert_ne by naive_solver. done.
Qed.

(** Tokens that are older than the stored roles allow two SUPER_ADMINs to
    demote each other, the outcome the role contract accepts explicitly. *)
Example stale_tokens_allow_mutual_demotion :
  ∃ roles', rtc (role_step (λ _ _, True)) {[ 1%Z := SUPER_ADMIN; 2%Z := SUPER_ADMIN ]} roles' ∧
    ∀ u, roles' !! u ≠ Some SUPER_ADMIN.
Proof.
  exists (<[1%Z := USER]> (<[2%Z := USER]> {[ 1%Z := SUPER_ADMIN; 2%Z := SUPER_ADMIN ]})). split.
  - eapply rtc_l; [by eapply (role_step_change _ _ (mkHumanPrincipal 1 SUPER_ADMIN) 2 SUPER_ADMIN)|].
    eapply rtc_l; [by eapply (role_step_change _ _ (mkHumanPrincipal 2 SUPER_ADMIN) 1 SUPER_ADMIN)|].
    done.
  - intros u. destruct (decide (u = 1%Z)) as [->|]; [by vm_compute|].
    rewrite lookup_insert_ne by done. destruct (decide (u = 2%Z)) as [->|]; [by vm_compute|].
    rewrite !lookup_insert_ne by done. by rewrite lookup_singleton_ne.
Qed.

(** Submitting and deciding are separate duties: a principal who may
    submit change requests may neither review them nor mutate data, read
    tombstones or audit logs, or manage users; everything an ADMIN may do a
    SUPER_ADMIN may do, who alone manages account status. *)
Theorem separation_of_duties (p : HumanPrincipal) (a : AuthorizationAction) :
  (is_ok (authorize p SUBMIT_CREATE_REQUEST) = true ∧ is_ok (authorize p a) = true →
     a ∈ [READ_DATA; SUBMIT_CREATE_REQUEST; SUBMIT_REFERENCE_UPDATE_REQUEST;
          SUBMIT_DELETE_REQUEST]) ∧
  (principal_role p = ADMIN → is_ok (authorize p a) = true →
     is_ok (authorize (mkHumanPrincipal (principal_id p) SUPER_ADMIN) a) = true) ∧
  (is_ok (authorize p MANAGE_USER_STATUS) = true ↔ principal_role p = SUPER_ADMIN).
Proof.
  destruct p as [pid []], a; split_and!; cbn [principal_role];
    first [ intros [H1 H2]; first [discriminate H1 | discriminate H2 | set_solver]
          | discriminate
          | intros _ H; first [discriminate H | reflexivity]
          | split; first [discriminate | reflexivity] ].
Qed.

(** *** Witnesses *)

Definition test_roles : gmap UUID UserRole := {[ 1%Z := SUPER_ADMIN; 2%Z := USER ]}.

Lemma admin_role_changes_bounded_witness :
  rtc (role_step (λ _ p, principal_role p ≠ SUPER_ADMIN)) test_roles (<[2%Z := ADMIN]> test_roles) ∧
  (<[2%Z := ADMIN]> test_roles !! 1%Z = Some SUPER_ADMIN ↔ test_roles !! 1%Z = Some SUPER_ADMIN).
Proof.
  assert (rtc (role_step (λ _ p, principal_role p ≠ SUPER_ADMIN)) test_roles
    (<[2%Z := ADMIN]> test_roles)) as H.
  { apply rtc_once. by eapply (role_step_change _ _ (mkHumanPrincipal 3 ADMIN) 2 USER ADMIN). }
  split; [exact H|]. apply (admin_role_changes_bounded _ _ H).
Defined.

Lemma role_changes_keep_super_admin_witness :
  ∃ u : UUID, <[2%Z := SUPER_ADMIN]> test_roles !! u = Some SUPER_ADMIN.
Proof.
  apply (role_changes_keep_super_admin test_roles).
  - apply rtc_once.
    by eapply (role_step_change _ test_roles (mkHumanPrincipal 1 SUPER_ADMIN) 2 USER SUPER_ADMIN).
  - by exists 1%Z.
Defined.

Lemma separation_of_duties_witness :
  is_ok (authorize (mkHumanPrincipal 1 SUPER_ADMIN) MUTATE_DATA) = true ∧
  (is_ok (authorize (mkHumanPrincipal 1 ADMIN) MANAGE_USER_STATUS) = true ↔ ADMIN = SUPER_ADMIN).
Proof.
  split.
  - by apply (separation_of_duties (mkHumanPrincipal 1 ADMIN) MUTATE_DATA).
  - apply (separation_of_duties (mkHumanPrincipal 1 ADMIN) MUTATE_DATA).
Defined.
