(* ===== verification/MutationAudit.v ===== *)
(** * Audit metadata of a mutation
    ([src/src/mdm/domain/audit.py], [src/src/mdm/application/audit.py])

    Every mutation carries one [MutationAuditMetadata]: a UUIDv7 change set,
    the acting HUMAN, the operations it may perform and a normalized reason.
    The runtime builds actors with [AuditActor.human] only; the general
    constructor, which parses an arbitrary actor id, is not modelled. *)

From S2P Require Import Prelude Python Exceptions Auth.

Inductive ActorKind := HUMAN | SYSTEM.
#[export] Instance ActorKind_eq_dec : EqDecision ActorKind.
Proof. solve_decision. Defined.

Inductive DimensionOperation := DIM_CREATE | DIM_UPDATE | DIM_DELETE | DIM_RESTORE.
#[export] Instance DimensionOperation_eq_dec : EqDecision DimensionOperation.
Proof. solve_decision. Defined.

Inductive MasterCodeOperation :=
| MC_CREATE | MC_REFERENCE_UPDATE | MC_RECOMPOSE | MC_DELETE | MC_RESTORE.
#[export] Instance MasterCodeOperation_eq_dec : EqDecision MasterCodeOperation.
Proof. solve_decision. Defined.

Record AuditActor := mkAuditActor {
  actor_kind : ActorKind;
  actor_id : pystr;
  actor_role : option UserRole;
}.
#[export] Instance AuditActor_eq_dec : EqDecision AuditActor.
Proof. solve_decision. Defined.

(** [AuditActor.human]: the canonical text of a UUID passes every check of the
    constructor. *)
Definition AuditActor_human (user_id : UUID) (role : UserRole) : AuditActor :=
  mkAuditActor HUMAN (uuid_str user_id) (Some role).

Record MutationOperations := mkMutationOperations {
  op_dimension : option DimensionOperation;
  op_master_code : option MasterCodeOperation;
}.
#[export] Instance MutationOperations_eq_dec : EqDecision MutationOperations.
Proof. solve_decision. Defined.

Definition MutationOperations_init (o : MutationOperations) : res MutationOperations :=
  _ ← raise_if (bool_decide (op_dimension o = None) && bool_decide (op_master_code o = None))
        (AuditInvariantError "at least one mutation operation is required");
  Ok o.

Definition normalize_reason (value : option pystr) : res (option pystr) :=
  match value with
  | None => Ok None
  | Some s =>
      let normalized := strip space s in
      if bool_decide (normalized = []) then Ok None
      else
        _ ← raise_if (500 <? length normalized)%nat
              (AuditInvariantError "reason must not exceed 500 characters");
        _ ← raise_if (existsb is_Cc normalized)
              (AuditInvariantError "reason must not contain control characters");
        Ok (Some normalized)
  end.

Record MutationAuditMetadata := mkMutationAuditMetadata {
  md_change_set_id : UUID;
  md_actor : AuditActor;
  md_operations : MutationOperations;
  md_reason : option pystr;
}.
#[export] Instance MutationAuditMetadata_eq_dec : EqDecision MutationAuditMetadata.
Proof. solve_decision. Defined.

(** [MutationAuditMetadata.__post_init__] *)
Definition MutationAuditMetadata_init (m : MutationAuditMetadata) : res MutationAuditMetadata :=
  _ ← raise_if (negb (bool_decide (uuid_version (md_change_set_id m) = Some 7%Z)))
        (AuditInvariantError "change set id must be a UUIDv7");
  reason ← normalize_reason (md_reason m);
  Ok (mkMutationAuditMetadata (md_change_set_id m) (md_actor m) (md_operations m) reason).

(** [HumanMutationAuditFactory.create]; [change_set_id] is what the injected
    generator returns. *)
Definition audit_create (change_set_id : UUID) (principal : HumanPrincipal)
    (dimension_operation : option DimensionOperation)
    (master_code_operation : option MasterCodeOperation) (reason : option pystr)
    : res MutationAuditMetadata :=
  let actor := AuditActor_human (principal_id principal) (principal_role principal) in
  operations ← MutationOperations_init
                 (mkMutationOperations dimension_operation master_code_operation);
  MutationAuditMetadata_init (mkMutationAuditMetadata change_set_id actor operations reason).

(** What [normalize_reason] stores. *)
Definition reason_wf (s : pystr) : Prop :=
  s ≠ [] ∧ length s ≤ 500 ∧ strip space s = s ∧ Forall (λ c, is_Cc c = false) s.

Lemma rstrip_idem ch s : rstrip ch (rstrip ch s) = rstrip ch s.
Proof.
  destruct (rstrip_nil_or_last ch s) as [->|(t & c & -> & Hc)]; [done|]. by apply rstrip_id.
Qed.

Lemma strip_idem ch s : strip ch (strip ch s) = strip ch s.
Proof.
  unfold strip. assert (∀ t, lstrip ch t = t → lstrip ch (rstrip ch t) = rstrip ch t) as H.
  { intros [|c t] Ht; [done|]. cbn in *. destruct (c =? ch)%Z eqn:E.
    - exfalso. apply (f_equal length) in Ht.
      assert (∀ u, length (lstrip ch u) ≤ length u) as Hlen.
      { clear. induction u as [|d u IH]; cbn; [lia|]. destruct (d =? ch)%Z; cbn; lia. }
      specialize (Hlen t). cbn in Ht. lia.
    - destruct (rstrip ch t); cbn; by rewrite E. }
  rewrite H, rstrip_idem; [done|].
  clear H. induction s as [|c s IH]; cbn; [done|]. destruct (c =? ch)%Z eqn:E; [done|].
  cbn. by rewrite E.
Qed.

Lemma normalize_reason_Ok v r :
  normalize_reason v = Ok r → match r with None => True | Some s => reason_wf s end.
Proof.
  destruct v as [s|]; cbn; [|by intros [= <-]]. case_bool_decide as Hne; [by intros [= <-]|].
  intros Hok. apply bind_Ok in Hok as (_ & Hl%raise_if_Ok & Hok).
  apply bind_Ok in Hok as (_ & Hc%raise_if_Ok & [= <-]). split_and!; [done| |apply strip_idem|].
  - by apply Nat.ltb_ge in Hl.
  - by apply existsb_false.
Qed.

(** What a mutation may be audited with: the factory returns metadata only
    for a UUIDv7 change set and at least one operation, records the acting
    principal in canonical form, and stores a reason that is absent or trimmed,
    control-free and 1 to 500 characters long; a stored reason normalizes to
    itself. *)
Theorem audit_create_spec (cs : UUID) (p : HumanPrincipal) (d : option DimensionOperation)
    (m : option MasterCodeOperation) (reason : option pystr) (md : MutationAuditMetadata) :
  audit_create cs p d m reason = Ok md →
  uuid_version (md_change_set_id md) = Some 7%Z ∧
  md_actor md = mkAuditActor HUMAN (uuid_str (principal_id p)) (Some (principal_role p)) ∧
  length (actor_id (md_actor md)) = 36 ∧
  md_operations md = mkMutationOperations d m ∧ (d ≠ None ∨ m ≠ None) ∧
  match md_reason md with None => True | Some s => reason_wf s end ∧
  normalize_reason (md_reason md) = Ok (md_reason md).
Proof.
  unfold audit_create, MutationOperations_init. intros Hok.
  apply bind_Ok in Hok as (ops & Hops & Hok).
  apply bind_Ok in Hops as (_ & Hnone%raise_if_Ok & [= <-]). cbn in Hnone.
  apply bind_Ok in Hok as (_ & Hv%raise_if_Ok%negb_false_iff%bool_decide_eq_true & Hok).
  apply bind_Ok in Hok as (r & Hr & [= <-]). cbn in *.
  pose proof (normalize_reason_Ok _ _ Hr) as Hwf. split_and!; try done.
  - apply andb_false_iff in Hnone as [H|H]; apply bool_decide_eq_false in H; auto.
  - destruct r as [s|]; [|done]. destruct Hwf as (Hne & Hlen & Hs & Hcc). cbn.
    rewrite Hs, bool_decide_eq_false_2 by done.
    replace (500 <? length s)%nat with false by (symmetry; by apply Nat.ltb_ge). cbn.
    by apply existsb_false in Hcc as ->.
Qed.

(** A change set id as the generator produces it. *)
Definition test_uuid7 (n : Z) : UUID := (7 * 2 ^ 76 + 2 ^ 63 + n)%Z.

Lemma audit_create_spec_witness :
  ∃ md, audit_create (test_uuid7 1) (mkHumanPrincipal 5 ADMIN) (Some DIM_CREATE) None
          (Some (py "  typo fixed ")) = Ok md ∧
    uuid_version (md_change_set_id md) = Some 7%Z ∧ md_reason md = Some (py "typo fixed").
Proof.
  eexists. split; [vm_compute; reflexivity|]. split; [|reflexivity].
  by eapply (audit_create_spec (test_uuid7 1) (mkHumanPrincipal 5 ADMIN) (Some DIM_CREATE) None
    (Some (py "  typo fixed "))).
Defined.
