(* ===== verification/Dimensions.v ===== *)
(** * Dimension values and states ([src/src/mdm/domain/dimensions.py])

    A Dimension is one entry of a master table (company, brand, model, ...):
    a normalized code, a typed value, a version and its timestamps.  Python's
    validating constructors ([__post_init__]) are the [_init] functions; the
    eight value classes are the constructors of [dim_value], which is what the
    runtime sees of [Dimension[ValueT]]. *)

From S2P Require Import Prelude Python Exceptions.

(** ** Codes *)

Record DimensionCode := mkDimensionCode { code_value : pystr }.
#[export] Instance DimensionCode_eq_dec : EqDecision DimensionCode.
Proof. solve_decision. Defined.

Definition code_format_error : exn :=
  DimensionValidationError "code" "ASCII 영문 대문자와 숫자만 사용해 1~32자로 입력해야 합니다.".

(** [_CODE_PATTERN.fullmatch] *)
Definition code_pattern (s : pystr) : bool :=
  forallb is_upper_alnum s && (1 <=? length s)%nat && (length s <=? 32)%nat.

(** [set(s) == {"N"}] *)
Definition only_N (s : pystr) : bool :=
  negb (bool_decide (s = [])) && forallb (λ c, (c =? letter_N)%Z) s.

Section unicode.
Context `{UnicodeData}.

Definition DimensionCode_init (value : pyval) : res DimensionCode :=
  match value with
  | VStr s =>
      _ ← raise_if (negb (isascii s)) code_format_error;
      _ ← raise_if (negb (bool_decide (strip space s = s)) || str_contains space s)
            (DimensionValidationError "code" "공백을 포함할 수 없습니다.");
      let normalized := str_upper s in
      _ ← raise_if (negb (code_pattern normalized)) code_format_error;
      _ ← raise_if (only_N normalized)
            (DimensionValidationError "code" "N으로만 이루어진 예약 코드는 사용할 수 없습니다.");
      Ok (mkDimensionCode normalized)
  | _ => Raise (DimensionValidationError "code" "문자열이어야 합니다.")
  end.

(** ** String values *)

Definition string_value_error : exn :=
  DimensionValidationError "value"
    "ASCII 영문 대문자, 숫자와 구분용 밑줄만 사용해 1~128자로 입력해야 합니다.".

(** [_STRING_VALUE_PATTERN.fullmatch]: [[A-Z0-9]+(?:_[A-Z0-9]+)*] as an automaton;
    [seen] says that the current word has a character. *)
Fixpoint string_value_pattern_go (seen : bool) (s : pystr) : bool :=
  match s with
  | [] => seen
  | c :: t =>
      if is_upper_alnum c then string_value_pattern_go true t
      else (c =? underscore)%Z && seen && string_value_pattern_go false t
  end.
Definition string_value_pattern (s : pystr) : bool := string_value_pattern_go false s.

Definition normalize_string_value (value : pyval) : res pystr :=
  match value with
  | VStr s =>
      _ ← raise_if (existsb is_control s)
            (DimensionValidationError "value" "제어 문자를 포함할 수 없습니다.");
      _ ← raise_if (negb (isascii s)) string_value_error;
      let normalized := str_upper (strip space s) in
      let normalized := sub_runs space underscore normalized in
      let normalized := strip underscore (sub_runs underscore underscore normalized) in
      _ ← raise_if
            (negb ((1 <=? length normalized)%nat && (length normalized <=? 128)%nat)
             || negb (string_value_pattern normalized))
            string_value_error;
      Ok normalized
  | _ => Raise (DimensionValidationError "value" "문자열이어야 합니다.")
  end.
End unicode.

(** ** Numeric values *)

(** The members of the [NetworkGeneration] enumeration. *)
Inductive network_generation :=
| GENERATION_1 | GENERATION_2 | GENERATION_3 | GENERATION_4 | GENERATION_5.
#[export] Instance network_generation_eq_dec : EqDecision network_generation.
Proof. solve_decision. Defined.

Definition network_value (g : network_generation) : Z :=
  match g with
  | GENERATION_1 => 1 | GENERATION_2 => 2 | GENERATION_3 => 3
  | GENERATION_4 => 4 | GENERATION_5 => 5
  end.

(** The members of the [MemoryUnit] enumeration. *)
Inductive memory_unit := MB | GB | TB | PB.
#[export] Instance memory_unit_eq_dec : EqDecision memory_unit.
Proof. solve_decision. Defined.

Definition unit_str (u : memory_unit) : pystr :=
  py match u with MB => "MB" | GB => "GB" | TB => "TB" | PB => "PB" end.

(** [MemoryUnit(s)]; [None] stands for the [ValueError] of the lookup. *)
Definition MemoryUnit_call (s : pystr) : option memory_unit :=
  find (λ u, bool_decide (unit_str u = s)) [MB; GB; TB; PB].

Definition MEMORY_UNIT_MULTIPLIERS (u : memory_unit) : Z :=
  match u with MB => 1 | GB => 1000 | TB => 1000000 | PB => 1000000000 end.

(** ** The eight value classes *)

Record memory_value := mkMemoryValue { amount : Z; unit_of : memory_unit }.
#[export] Instance memory_value_eq_dec : EqDecision memory_value.
Proof. solve_decision. Defined.

Inductive dim_value :=
| CompanyValue (value : pystr)
| ModelValue (value : pystr)
| BrandValue (value : pystr)
| CountryValue (value : pystr)
| CategoryValue (value : pystr)
| YearValue (value : Z)
| NetworkGeneration (value : network_generation)
| MemoryValue (value : memory_value).
#[export] Instance dim_value_eq_dec : EqDecision dim_value.
Proof. solve_decision. Defined.

Section unicode.
Context `{UnicodeData}.

Definition CompanyValue_init (v : pyval) : res dim_value :=
  s ← normalize_string_value v; Ok (CompanyValue s).
Definition ModelValue_init (v : pyval) : res dim_value :=
  s ← normalize_string_value v; Ok (ModelValue s).
Definition BrandValue_init (v : pyval) : res dim_value :=
  s ← normalize_string_value v; Ok (BrandValue s).
Definition CountryValue_init (v : pyval) : res dim_value :=
  s ← normalize_string_value v; Ok (CountryValue s).
Definition CategoryValue_init (v : pyval) : res dim_value :=
  s ← normalize_string_value v; Ok (CategoryValue s).

Definition YearValue_init (v : pyval) : res dim_value :=
  match v with
  | VInt z =>
      if (2000 <=? z)%Z && (z <=? 2999)%Z then Ok (YearValue z)
      else Raise (DimensionValidationError "value" "2000 이상 2999 이하의 정수여야 합니다.")
  | _ => Raise (DimensionValidationError "value" "2000 이상 2999 이하의 정수여야 합니다.")
  end.

(** [_StrictIntegerEnumType.__call__]: only an [int] selects a member. *)
Definition NetworkGeneration_call (v : pyval) : res dim_value :=
  let error := DimensionValidationError "value" "1 이상 5 이하의 정수여야 합니다." in
  match v with
  | VInt z =>
      match find (λ g, (network_value g =? z)%Z)
              [GENERATION_1; GENERATION_2; GENERATION_3; GENERATION_4; GENERATION_5] with
      | Some g => Ok (NetworkGeneration g)
      | None => Raise error
      end
  | _ => Raise error
  end.

(** [MemoryValue.__post_init__] *)
Definition MemoryValue_init (v : pyval) (u : memory_unit) : res memory_value :=
  let error :=
    DimensionValidationError "value.amount" "1 이상 2147483647 이하의 정수여야 합니다." in
  match v with
  | VInt z =>
      if (1 <=? z)%Z && (z <=? 2147483647)%Z then Ok (mkMemoryValue z u) else Raise error
  | _ => Raise error
  end.

Definition MemoryValue_create (amount unit : pyval) : res dim_value :=
  let error := DimensionValidationError "value.unit" "MB, GB, TB, PB 중 하나여야 합니다." in
  match unit with
  | VStr s =>
      _ ← raise_if (existsb is_control s) error;
      let normalized_unit := str_upper (strip space s) in
      match MemoryUnit_call normalized_unit with
      | Some u => m ← MemoryValue_init amount u; Ok (MemoryValue m)
      | None => Raise error
      end
  | _ => Raise error
  end.
End unicode.

Definition capacity_mb (m : memory_value) : Z := amount m * MEMORY_UNIT_MULTIPLIERS (unit_of m).

(** [_dimension_values_equal] *)
Definition dimension_values_equal (current proposed : dim_value) : bool :=
  match current, proposed with
  | MemoryValue a, MemoryValue b => (capacity_mb a =? capacity_mb b)%Z
  | _, _ => bool_decide (current = proposed)
  end.

(** ** Dimension states *)

Record Dimension := mkDimension {
  dim_id : UUID;
  dim_code : DimensionCode;
  dim_value_of : dim_value;
  dim_version : Z;
  dim_created_at : datetime;
  dim_updated_at : datetime;
  dim_deleted_at : option datetime;
}.
#[export] Instance Dimension_eq_dec : EqDecision Dimension.
Proof. solve_decision. Defined.

(** [Dimension.__post_init__] *)
Definition Dimension_init (d : Dimension) : res Dimension :=
  _ ← raise_if (dim_version d <? 1)%Z
        (DimensionValidationError "version" "1 이상의 정수여야 합니다.");
  _ ← raise_if (is_naive (dim_created_at d) || is_naive (dim_updated_at d))
        (DimensionValidationError "timestamp" "시간대가 포함된 시각이어야 합니다.");
  _ ← raise_if (dt_ltb (dim_updated_at d) (dim_created_at d))
        (DimensionValidationError "updated_at" "created_at보다 빠를 수 없습니다.");
  _ ← raise_if ((dim_version d =? 1)%Z && negb (dt_eqb (dim_updated_at d) (dim_created_at d)))
        (DimensionValidationError "updated_at" "최초 생성 시각과 같아야 합니다.");
  match dim_deleted_at d with
  | None => Ok d
  | Some t =>
      _ ← raise_if (is_naive t)
            (DimensionValidationError "deleted_at" "시간대가 포함된 시각이어야 합니다.");
      _ ← raise_if (negb (dt_leb (dim_created_at d) t && dt_leb t (dim_updated_at d)))
            (DimensionValidationError "deleted_at" "Dimension 시각 범위 안이어야 합니다.");
      Ok d
  end.

Definition is_deleted (d : Dimension) : bool :=
  match dim_deleted_at d with None => false | Some _ => true end.

Definition transition_deletion (d : Dimension) (deleted : bool) (changed_at : datetime)
    : res Dimension :=
  _ ← raise_if (is_naive changed_at)
        (DimensionValidationError "updated_at" "시간대가 포함된 시각이어야 합니다.");
  _ ← raise_if (dt_ltb changed_at (dim_updated_at d))
        (DimensionValidationError "updated_at" "현재 updated_at보다 빠를 수 없습니다.");
  Dimension_init (mkDimension (dim_id d) (dim_code d) (dim_value_of d) (dim_version d + 1)
    (dim_created_at d) changed_at (if deleted then Some changed_at else None)).

Definition Dimension_delete (d : Dimension) (changed_at : datetime) : res Dimension :=
  _ ← raise_if (is_deleted d)
        (DimensionValidationError "deleted_at" "이미 삭제된 Dimension입니다.");
  transition_deletion d true changed_at.

Definition Dimension_restore (d : Dimension) (changed_at : datetime) : res Dimension :=
  _ ← raise_if (negb (is_deleted d))
        (DimensionValidationError "deleted_at" "삭제되지 않은 Dimension입니다.");
  transition_deletion d false changed_at.

Definition Dimension_change (d : Dimension) (code : option DimensionCode)
    (value : option dim_value) (changed_at : datetime) : res Dimension :=
  let next_code := default (dim_code d) code in
  let next_value :=
    match value with
    | None => dim_value_of d
    | Some v => if dimension_values_equal (dim_value_of d) v then dim_value_of d else v
    end in
  if bool_decide (next_code = dim_code d) && dimension_values_equal (dim_value_of d) next_value
  then Ok d
  else
    _ ← raise_if (is_naive changed_at)
          (DimensionValidationError "updated_at" "시간대가 포함된 시각이어야 합니다.");
    _ ← raise_if (dt_ltb changed_at (dim_updated_at d))
          (DimensionValidationError "updated_at" "현재 updated_at보다 빠를 수 없습니다.");
    Dimension_init (mkDimension (dim_id d) next_code next_value (dim_version d + 1)
      (dim_created_at d) changed_at (dim_deleted_at d)).

Definition Dimension_change_value (d : Dimension) (value : dim_value) (changed_at : datetime)
    : res Dimension :=
  Dimension_change d None (Some value) changed_at.

(** ** Well-formed codes and values

    What a constructed [DimensionCode] or value satisfies, and what the
    constructor of a stored one accepts unchanged. *)

Definition code_wf (c : DimensionCode) : bool :=
  code_pattern (code_value c) && negb (only_N (code_value c)).

Definition value_wf (v : dim_value) : bool :=
  match v with
  | CompanyValue s | ModelValue s | BrandValue s | CountryValue s | CategoryValue s =>
      (length s <=? 128)%nat && string_value_pattern s
  | YearValue z => (2000 <=? z)%Z && (z <=? 2999)%Z
  | NetworkGeneration _ => true
  | MemoryValue m => (1 <=? amount m)%Z && (amount m <=? 2147483647)%Z
  end.

(** Separators of a string value: spaces and underscores. *)
Definition value_sep (c : Z) : bool := (c =? space)%Z || (c =? underscore)%Z.

(** The reference definition of normalization: the words between separators,
    in upper case, joined by single underscores. *)
Definition canonical_value (s : pystr) : pystr :=
  str_join [underscore] (fmap (M:=list) ascii_upper <$> words value_sep s).

(** *** Characters *)

Ltac char_solve :=
  unfold is_upper_alnum, is_control, is_ascii, is_digit, ascii_upper, value_sep, space,
    underscore, letter_N, dash, in_range in *;
  repeat case_match; lia.

Lemma ascii_upper_sep c : value_sep (ascii_upper c) = value_sep c.
Proof. char_solve. Qed.

Lemma ascii_upper_alnum c : is_upper_alnum c = true → ascii_upper c = c.
Proof. intros Hc. char_solve. Qed.

Lemma upper_alnum_ascii c : is_upper_alnum c = true → is_ascii c = true.
Proof. intros Hc. char_solve. Qed.

Lemma upper_alnum_ascii' c : is_upper_alnum (ascii_upper c) = true → is_ascii c = true.
Proof. intros Hc. char_solve. Qed.

Lemma ascii_upper_ascii c : is_ascii c = true → is_ascii (ascii_upper c) = true.
Proof. intros Hc. char_solve. Qed.

Lemma upper_alnum_not_control c : is_upper_alnum c = true → is_control c = false.
Proof. intros Hc. char_solve. Qed.

Lemma upper_alnum_not_sep c : is_upper_alnum c = true → value_sep c = false.
Proof. intros Hc. char_solve. Qed.

Lemma upper_alnum_not_space c : is_upper_alnum (ascii_upper c) = true → c ≠ space.
Proof. intros Hc ->. done. Qed.

Lemma upper_alnum_not_dash c : is_upper_alnum c = true → c ≠ dash.
Proof. intros Hc ->. done. Qed.

(** *** The patterns *)

Lemma code_pattern_spec s :
  code_pattern s = true ↔ Forall (λ c, is_upper_alnum c = true) s ∧ 1 ≤ length s ≤ 32.
Proof.
  unfold code_pattern. rewrite !andb_true_iff, forallb_Forall, !Nat.leb_le. tauto.
Qed.

Lemma string_value_pattern_go_app seen w s :
  w ≠ [] → Forall (λ c, is_upper_alnum c = true) w →
  string_value_pattern_go seen (w ++ s) = string_value_pattern_go true s.
Proof.
  intros Hne Hw; revert seen Hne; induction Hw as [|c w Hc Hw IH]; intros seen Hne; [done|].
  cbn. rewrite Hc. destruct w; [done|]. by apply IH.
Qed.

(** The automaton accepts exactly the joins of upper-case alphanumeric words. *)
Lemma string_value_pattern_join ws :
  Forall (is_word value_sep) ws →
  string_value_pattern (str_join [underscore] ws) = true ↔
  ws ≠ [] ∧ Forall (Forall (λ c, is_upper_alnum c = true)) ws.
Proof.
  unfold string_value_pattern. intros Hws.
  assert (∀ w s, w ≠ [] → Forall (λ c, value_sep c = false) w →
    string_value_pattern_go false (w ++ s) = true →
    Forall (λ c, is_upper_alnum c = true) w) as Hword.
  { intros w s _ Hw. generalize false. induction Hw as [|c w Hc _ IH]; intros b; cbn; [done|].
    destruct (is_upper_alnum c) eqn:E; [intros ?%IH; auto with mdm|].
    intros H; exfalso. revert H Hc. unfold value_sep. destruct (c =? underscore)%Z; cbn; [|done].
    by rewrite orb_true_r. }
  induction Hws as [|w ws [Hne Hw] Hws IH]; [split; [done|naive_solver]|].
  destruct ws as [|w' ws].
  - cbn [str_join]. split.
    + intros H. split; [done|]. constructor; [|done].
      apply (Hword w []); rewrite ?app_nil_r; done.
    + intros [_ [Hal _]%Forall_cons]. rewrite <- (app_nil_r w).
      by rewrite string_value_pattern_go_app.
  - rewrite str_join_cons by done. split.
    + intros H. split; [done|]. pose proof (Hword _ _ Hne Hw H) as Hal.
      rewrite string_value_pattern_go_app in H by done. constructor; [done|]. by apply IH.
    + intros [_ [Hal Hals]%Forall_cons]. rewrite string_value_pattern_go_app by done.
      cbn. by apply IH.
Qed.

Lemma value_wf_string s :
  (length s <=? 128)%nat && string_value_pattern s = true →
  1 ≤ length s ∧ Forall (λ c, is_upper_alnum c = true ∨ c = underscore) s.
Proof.
  intros [_ Hs]%andb_true_iff. split; [destruct s; cbn; [done|lia]|].
  revert Hs; unfold string_value_pattern; generalize false.
  induction s as [|c s IH]; intros b; cbn; [done|].
  destruct (is_upper_alnum c) eqn:Hc; [intros ?%IH; auto with mdm|].
  rewrite !andb_true_iff. intros [[Hu _] ?%IH]. constructor; [|done]. right. lia.
Qed.

(** *** Normalization of string values *)

Section normalization.
Context `{UnicodeData}.

(** The pipeline of [_normalize_string_value] computes the reference definition. *)
Lemma normalize_pipeline s :
  isascii s = true →
  strip underscore (sub_runs underscore underscore
    (sub_runs space underscore (str_upper (strip space s)))) = canonical_value s.
Proof.
  intros Hs. rewrite str_upper_ascii by by apply isascii_strip.
  rewrite strip_sub_runs. unfold canonical_value. f_equal.
  set (t := ascii_upper <$> strip space s).
  transitivity (words value_sep (sub_runs space underscore t)).
  - apply words_go_ext. apply sub_runs_go_Forall; [done|].
    apply Forall_true. intros c Hc. unfold value_sep.
    by rewrite (proj2 (Z.eqb_neq c space)).
  - rewrite words_sub_runs by done. subst t.
    rewrite words_fmap by apply ascii_upper_sep. by rewrite words_strip.
Qed.

Lemma canonical_words s :
  Forall (is_word value_sep) (fmap (M:=list) ascii_upper <$> words value_sep s).
Proof.
  apply Forall_fmap. eapply Forall_impl; [apply words_is_word|].
  intros w [Hne Hw]. split; [by destruct w|].
  apply Forall_fmap. eapply Forall_impl; [done|]. intros c. cbn. by rewrite ascii_upper_sep.
Qed.
End normalization.

(** ** What the constructors accept *)

Section constructors.
Context `{UnicodeData}.

Lemma alnum_string_ascii s :
  Forall (λ x, is_upper_alnum (ascii_upper x) = true) s → isascii s = true.
Proof.
  intros Hs. apply forallb_Forall. eapply Forall_impl; [exact Hs|].
  intros c. apply upper_alnum_ascii'.
Qed.

Lemma only_N_spec s : only_N s = true ↔ s ≠ [] ∧ Forall (λ x, x = letter_N) s.
Proof.
  unfold only_N. rewrite andb_true_iff, negb_true_iff, bool_decide_eq_false, forallb_Forall.
  by setoid_rewrite Z.eqb_eq.
Qed.

Lemma strip_space_id s :
  Forall (λ x, is_upper_alnum (ascii_upper x) = true) s → strip space s = s.
Proof.
  intros Hs. unfold strip.
  assert (lstrip space s = s) as ->.
  { destruct Hs as [|c s Hc _]; [done|]. cbn.
    by rewrite (proj2 (Z.eqb_neq _ _) (upper_alnum_not_space _ Hc)). }
  induction Hs as [|c s Hc _ IH]; [done|]. cbn. rewrite IH.
  by rewrite (proj2 (Z.eqb_neq _ _) (upper_alnum_not_space _ Hc)); destruct s.
Qed.

Lemma contains_space_alnum s :
  Forall (λ x, is_upper_alnum (ascii_upper x) = true) s → str_contains space s = false.
Proof.
  intros Hs. apply existsb_false. eapply Forall_impl; [exact Hs|].
  intros c Hc. cbn. by apply Z.eqb_neq, upper_alnum_not_space.
Qed.

Lemma DimensionCode_init_Ok (value : pyval) (c : DimensionCode) :
  DimensionCode_init value = Ok c ↔
  ∃ s, value = VStr s ∧ Forall (λ x, is_upper_alnum (ascii_upper x) = true) s ∧
    1 ≤ length s ≤ 32 ∧ code_value c = ascii_upper <$> s ∧
    ¬ Forall (λ x, x = letter_N) (code_value c).
Proof.
  split.
  - destruct value as [| | | |s| |]; try done. cbn. intros Hok. inv_ok. bool_simpl.
    rewrite str_upper_ascii in * by done. cbn in *.
    rename Hx1 into Hpat, Hx2 into HN.
    apply code_pattern_spec in Hpat as [Hal Hlen]. rewrite length_fmap in Hlen.
    exists s. split; [done|]. rewrite Forall_fmap in Hal.
    split; [exact Hal|]. split; [done|]. split; [done|].
    intros HF. assert (only_N (ascii_upper <$> s) = true) as E; [|congruence].
    apply only_N_spec. split; [destruct s; cbn in *; [lia|done]|done].
  - intros (s & -> & Hal & Hlen & Hc & HN). cbn.
    rewrite alnum_string_ascii, strip_space_id, contains_space_alnum by done.
    rewrite bool_decide_eq_true_2 by done. cbn.
    rewrite str_upper_ascii by by apply alnum_string_ascii.
    rewrite <- Hc. rewrite (proj2 (code_pattern_spec _)); cbn.
    + destruct (only_N (code_value c)) eqn:E; cbn; [|by destruct c].
      apply only_N_spec in E as [_ E]. by destruct HN.
    + rewrite Hc, length_fmap. split; [|done]. by apply Forall_fmap.
Qed.

(** [DimensionCode(value)] succeeds exactly on a string of 1 to 32 ASCII
    letters and digits, in either case, that is not all [N]; the code is its
    upper-case form. *)
Theorem DimensionCode_init_spec (value : pyval) (c : DimensionCode) :
  DimensionCode_init value = Ok c ↔
  ∃ s, value = VStr s ∧ Forall (λ x, is_upper_alnum (ascii_upper x) = true) s ∧
    1 ≤ length s ≤ 32 ∧ code_value c = ascii_upper <$> s ∧
    ¬ Forall (λ x, x = letter_N) (code_value c).
Proof. apply DimensionCode_init_Ok. Qed.

Lemma DimensionCode_init_wf value c : DimensionCode_init value = Ok c → code_wf c = true.
Proof.
  intros (s & _ & Hal & Hlen & Hc & HN)%DimensionCode_init_Ok.
  unfold code_wf. rewrite andb_true_iff, negb_true_iff. split.
  - apply code_pattern_spec. rewrite Hc, length_fmap. split; [by apply Forall_fmap|done].
  - destruct (only_N (code_value c)) eqn:E; [|done]. by apply only_N_spec in E as [_ ?].
Qed.

Lemma code_wf_alnum c : code_wf c = true →
  Forall (λ x, is_upper_alnum x = true) (code_value c) ∧ 1 ≤ length (code_value c) ≤ 32.
Proof. unfold code_wf. intros [Hp _]%andb_true_iff. by apply code_pattern_spec. Qed.

(** Reading back a stored code changes nothing. *)
Lemma DimensionCode_init_stored c :
  code_wf c = true → DimensionCode_init (VStr (code_value c)) = Ok c.
Proof.
  intros Hwf. pose proof (code_wf_alnum _ Hwf) as [Hal Hlen].
  assert (ascii_upper <$> code_value c = code_value c) as Hid.
  { clear -Hal. induction Hal as [|x s Hx _ IH]; [done|].
    by rewrite fmap_cons, IH, ascii_upper_alnum. }
  apply DimensionCode_init_spec. exists (code_value c). rewrite Hid.
  repeat split; try done; try lia.
  - eapply Forall_impl; [exact Hal|]. intros x Hx. cbn. by rewrite ascii_upper_alnum.
  - intros HF. unfold code_wf in Hwf. apply andb_true_iff in Hwf as [_ Hwf].
    apply negb_true_iff in Hwf. rewrite (proj2 (only_N_spec _)) in Hwf; [done|].
    split; [|done]. intros E. rewrite E in Hlen. cbn in Hlen. lia.
Qed.

(** [_normalize_string_value] is a filter followed by the reference
    definition [canonical_value]: it accepts a control-free ASCII string whose
    words are alphanumeric, not all empty, and at most 128 characters joined. *)
Theorem normalize_string_value_spec (value : pyval) (r : pystr) :
  normalize_string_value value = Ok r ↔
  ∃ s, value = VStr s ∧ Forall (λ c, is_control c = false) s ∧
    Forall (λ c, is_ascii c = true) s ∧ words value_sep s ≠ [] ∧
    Forall (Forall (λ c, is_upper_alnum (ascii_upper c) = true)) (words value_sep s) ∧
    r = canonical_value s ∧ length r ≤ 128.
Proof.
  assert (∀ s, string_value_pattern (canonical_value s) = true ↔
    words value_sep s ≠ [] ∧
    Forall (Forall (λ c, is_upper_alnum (ascii_upper c) = true)) (words value_sep s)) as Hpat.
  { intros s. unfold canonical_value. rewrite string_value_pattern_join by apply canonical_words.
    rewrite Forall_fmap.
    split; intros [Hne Hal]; (split; [by destruct (words value_sep s)|]);
      (eapply Forall_impl; [exact Hal|]); intros w; cbn; by rewrite Forall_fmap. }
  split.
  - destruct value as [| | | |s| |]; try done. cbn. intros Hok. inv_ok.
    apply existsb_false in Hx. apply negb_false_iff in Hx0.
    rewrite normalize_pipeline in * by done. apply orb_false_iff in Hx1 as [Hlen Hp].
    apply negb_false_iff in Hlen, Hp. apply Hpat in Hp as [Hne Hal].
    apply andb_true_iff in Hlen as [_ Hlen%Nat.leb_le].
    exists s. unfold isascii in Hx0. rewrite forallb_Forall in Hx0. done.
  - intros (s & -> & Hctl & Hasc & Hne & Hal & -> & Hlen). cbn.
    rewrite (proj2 (existsb_false _ _) Hctl). cbn.
    assert (isascii s = true) as Hs by by apply forallb_Forall. rewrite Hs. cbn.
    rewrite normalize_pipeline by done.
    assert (string_value_pattern (canonical_value s) = true) as Hp by by apply Hpat.
    rewrite Hp. cbn. rewrite (proj2 (Nat.leb_le _ _) Hlen).
    destruct (canonical_value s) as [|x xs] eqn:E; [done|]. by cbn.
Qed.
(** Words of a canonical value are its words again. *)
Lemma canonical_value_fixed s :
  string_value_pattern s = true → Forall (λ c, is_upper_alnum c = true ∨ c = underscore) s →
  canonical_value s = s.
Proof.
  intros Hp Hs. unfold canonical_value.
  assert (∀ seen s, string_value_pattern_go seen s = true →
    Forall (λ c, is_upper_alnum c = true ∨ c = underscore) s →
    ∀ cur, (seen = true ↔ cur ≠ []) →
    str_join [underscore] (fmap (M:=list) ascii_upper <$> words_go value_sep cur s)
    = (ascii_upper <$> reverse cur) ++ s) as Hgo.
  { clear. intros seen s; revert seen; induction s as [|c s IH]; intros seen Hp Hs cur Hcur.
    - cbn in *. destruct cur; [by rewrite Hp in Hcur; destruct Hcur as [Hcur _]; destruct Hcur|].
      by rewrite app_nil_r.
    - apply Forall_cons in Hs as [Hc Hs]. cbn in *.
      destruct (is_upper_alnum c) eqn:Hal.
      + rewrite upper_alnum_not_sep by done. rewrite (IH true Hp Hs (c :: cur)) by (split; done).
        rewrite reverse_cons, fmap_app. cbn. rewrite ascii_upper_alnum by done.
        by rewrite <- (assoc_L (++)).
      + destruct Hc as [Hc|Hc]; [congruence|subst c]. cbn in *.
        apply andb_true_iff in Hp as [Hseen Hp]. 
        destruct cur as [|d cur]; [by destruct (proj1 Hcur Hseen)|].
        assert (str_join [underscore]
          (fmap (M:=list) ascii_upper <$> words_go value_sep [] s) = s) as IH'
          by (by apply (IH false Hp Hs [])).
        rewrite fmap_cons, str_join_cons, IH'; [done|].
        intros E. rewrite E in IH'. by subst s. }
  apply (Hgo false s); [done..|]. split; done.
Qed.

(** Reading back a stored string value changes nothing. *)
Lemma normalize_stored s :
  (length s <=? 128)%nat && string_value_pattern s = true →
  normalize_string_value (VStr s) = Ok s.
Proof.
  intros Hwf. pose proof (value_wf_string _ Hwf) as [Hlen Hs].
  apply andb_true_iff in Hwf as [Hl%Nat.leb_le Hp]. cbn.
  assert (isascii s = true) as Hasc.
  { apply forallb_Forall. eapply Forall_impl; [exact Hs|].
    intros c [?| ->]; [by apply upper_alnum_ascii|done]. }
  rewrite (proj2 (existsb_false _ _)).
  - cbn. rewrite Hasc. cbn. rewrite normalize_pipeline, canonical_value_fixed by done.
    rewrite Hp, (proj2 (Nat.leb_le _ _) Hl). destruct s; cbn in *; [lia|done].
  - eapply Forall_impl; [exact Hs|].
    intros c [?| ->]; [by apply upper_alnum_not_control|done].
Qed.

Lemma normalize_string_value_wf value r :
  normalize_string_value value = Ok r → (length r <=? 128)%nat && string_value_pattern r = true.
Proof.
  destruct value as [| | | |s| |]; try done. cbn. intros Hok. inv_ok.
  apply orb_false_iff in Hx1 as [Hl Hp]. apply negb_false_iff in Hl, Hp.
  apply andb_true_iff in Hl as [_ ->]. by rewrite Hp.
Qed.

(** Normalization is idempotent, so a value read back from its row is the
    value that was stored. *)
Theorem normalize_string_value_idempotent (value : pyval) (r : pystr) :
  normalize_string_value value = Ok r → normalize_string_value (VStr r) = Ok r.
Proof. intros Hr. by eapply normalize_stored, normalize_string_value_wf. Qed.

End constructors.

(** ** Memory values *)

Section memory.
Context `{UnicodeData}.

Lemma MemoryUnit_call_Some s u : MemoryUnit_call s = Some u ↔ s = unit_str u.
Proof.
  unfold MemoryUnit_call. split.
  - cbn. repeat case_bool_decide; naive_solver.
  - intros ->. by destruct u.
Qed.

(** An accepted Memory value has a positive capacity that fits the signed
    64-bit generated column, and its stored amount and unit are accepted again
    with the same result. *)
Theorem MemoryValue_create_bounds (amount_in unit_in : pyval) (v : dim_value) :
  MemoryValue_create amount_in unit_in = Ok v →
  ∃ m, v = MemoryValue m ∧ amount_in = VInt (amount m) ∧ value_wf v = true ∧
    (1 ≤ capacity_mb m < 2 ^ 63)%Z ∧
    MemoryValue_create (VInt (amount m)) (VStr (unit_str (unit_of m))) = Ok v.
Proof.
  unfold MemoryValue_create. destruct unit_in as [| | | |s| |]; try done. intros Hok.
  apply bind_Ok in Hok as (_ & _ & Hok).
  destruct (MemoryUnit_call _) as [u|]; [|done].
  apply bind_Ok in Hok as (m & Hm & [= <-]).
  unfold MemoryValue_init in Hm. destruct amount_in as [| |a| | | |]; try done.
  case_match eqn:Ha; [|done]. injection Hm as <-.
  exists (mkMemoryValue a u). cbn. split; [done|]. split; [done|]. split; [done|]. split.
  - unfold capacity_mb. cbn. bool_simpl. destruct u; cbn; lia.
  - by destruct u; cbn; rewrite Ha.
Qed.

End memory.

(** ** Valid states and their transitions *)

(** What [Dimension.__post_init__] checks. *)
Record dim_valid (d : Dimension) : Prop := {
  dv_version : (1 ≤ dim_version d)%Z;
  dv_created_aware : is_naive (dim_created_at d) = false;
  dv_updated_aware : is_naive (dim_updated_at d) = false;
  dv_order : (instant (dim_created_at d) ≤ instant (dim_updated_at d))%Z;
  dv_first : dim_version d = 1%Z →
    instant (dim_updated_at d) = instant (dim_created_at d);
  dv_deleted : ∀ t, dim_deleted_at d = Some t → is_naive t = false ∧
    (instant (dim_created_at d) ≤ instant t ≤ instant (dim_updated_at d))%Z;
}.

Lemma Dimension_init_Ok d d' : Dimension_init d = Ok d' ↔ d' = d ∧ dim_valid d.
Proof.
  unfold Dimension_init, dt_ltb, dt_leb, dt_eqb. split.
  - intros Hok.
    apply bind_Ok in Hok as (_ & Hv%raise_if_Ok & Hok).
    apply bind_Ok in Hok as (_ & [Hc Hu]%raise_if_Ok%orb_false_iff & Hok).
    apply bind_Ok in Hok as (_ & Ho%raise_if_Ok & Hok).
    apply bind_Ok in Hok as (_ & Hf%raise_if_Ok & Hok).
    assert (d' = d) as -> by (destruct (dim_deleted_at d); by inv_ok).
    split; [done|]. split; try done; try lia.
    intros t Ht. rewrite Ht in Hok. inv_ok. split; [done|]. lia.
  - intros [-> [Hv Hc Hu Ho Hf Hd]]. rewrite Hc, Hu.
    replace (dim_version d <? 1)%Z with false by lia. cbn.
    replace (instant (dim_updated_at d) <? instant (dim_created_at d))%Z with false by lia. cbn.
    assert ((dim_version d =? 1)%Z && negb
      (instant (dim_updated_at d) =? instant (dim_created_at d))%Z = false) as ->.
    { destruct (Z.eqb_spec (dim_version d) 1) as [E|]; [|done]. cbn.
      rewrite (Hf E), Z.eqb_refl. done. }
    cbn. destruct (dim_deleted_at d) as [t|]; [|done].
    destruct (Hd t eq_refl) as [Ha [Hl Hr]]. rewrite Ha. cbn.
    by rewrite (proj2 (Z.leb_le _ _) Hl), (proj2 (Z.leb_le _ _) Hr).
Qed.

(** One business mutation of a Dimension. *)
Inductive dim_step : Dimension → Dimension → Prop :=
| dim_step_change d code value changed_at d' :
    Dimension_change d code value changed_at = Ok d' → dim_step d d'
| dim_step_delete d changed_at d' : Dimension_delete d changed_at = Ok d' → dim_step d d'
| dim_step_restore d changed_at d' : Dimension_restore d changed_at = Ok d' → dim_step d d'.

(** A transition that changes the state produces the next version. *)
Definition dim_next (d d' : Dimension) : Prop :=
  dim_valid d' ∧ dim_id d' = dim_id d ∧ dim_created_at d' = dim_created_at d ∧
  dim_version d' = (dim_version d + 1)%Z ∧
  (instant (dim_updated_at d) ≤ instant (dim_updated_at d'))%Z.

Lemma transition_deletion_next d del at_ d' :
  transition_deletion d del at_ = Ok d' →
  dim_next d d' ∧ is_deleted d' = del ∧ dim_code d' = dim_code d ∧
  dim_value_of d' = dim_value_of d.
Proof.
  unfold transition_deletion, dt_ltb. intros Hok. inv_ok. bool_simpl.
  apply Dimension_init_Ok in Hok as [-> Hv]. unfold dim_next, is_deleted; cbn.
  by destruct del.
Qed.

Lemma transition_deletion_Ok d del t :
  dim_valid d → is_naive t = false → (instant (dim_updated_at d) ≤ instant t)%Z →
  transition_deletion d del t =
    Ok (mkDimension (dim_id d) (dim_code d) (dim_value_of d) (dim_version d + 1)
          (dim_created_at d) t (if del then Some t else None)).
Proof.
  intros [Hv Hc Hu Ho Hf Hd] Ht Hle. unfold transition_deletion, dt_ltb. rewrite Ht.
  replace (instant t <? instant (dim_updated_at d))%Z with false by lia. cbn -[Dimension_init].
  apply Dimension_init_Ok. split; [done|]. split; cbn; try done; try lia.
  destruct del; [|done]. intros t' [= <-]. split; [done|lia].
Qed.

Lemma Dimension_change_cases d code value at_ d' :
  Dimension_change d code value at_ = Ok d' → d' = d ∨ dim_next d d' ∧
    dim_deleted_at d' = dim_deleted_at d.
Proof.
  unfold Dimension_change, dt_ltb. case_match; intros Hok; inv_ok; [by left|right].
  bool_simpl. by apply Dimension_init_Ok in Hok as [-> Hv].
Qed.

Lemma dim_step_next d d' : dim_step d d' → d' = d ∨ dim_next d d'.
Proof.
  destruct 1 as [d code value at_ d' Hok|d at_ d' Hok|d at_ d' Hok].
  - apply Dimension_change_cases in Hok. tauto.
  - unfold Dimension_delete in Hok. inv_ok. by apply transition_deletion_next in Hok as [Hn _]; right.
  - unfold Dimension_restore in Hok. inv_ok. by apply transition_deletion_next in Hok as [Hn _]; right.
Qed.

(** Along every history of changes, deletions and restorations the identity
    and creation time are kept, every state is valid, versions and update times
    never go back, and two states of the history with the same version are the
    same state: the version is a sound optimistic lock. *)
Theorem dim_history (d d' : Dimension) :
  dim_valid d → rtc dim_step d d' →
  dim_valid d' ∧ dim_id d' = dim_id d ∧ dim_created_at d' = dim_created_at d ∧
  (dim_version d ≤ dim_version d')%Z ∧
  (instant (dim_updated_at d) ≤ instant (dim_updated_at d'))%Z ∧
  (dim_version d' = dim_version d → d' = d).
Proof.
  intros Hv Hrtc. induction Hrtc as [d|d d1 d2 Hstep _ IH].
  { split; [done|]. by repeat split. }
  destruct (dim_step_next _ _ Hstep) as [->|(Hv1 & Hid & Hc & Hver & Hu)]; [by apply IH|].
  destruct (IH Hv1) as (? & ? & ? & ? & ? & Heq).
  repeat (split; [first [done | congruence | lia]|]). intros; exfalso; lia.
Qed.

(** A valid state at which a mutation is attempted with an aware timestamp
    not before [updated_at]: deletion succeeds exactly on an active state,
    restoration exactly on a deleted one, each keeps code and value and
    produces the next version; restoring what was deleted returns to the
    original business state two versions later. *)
Theorem dim_delete_restore (d : Dimension) (t1 t2 : datetime) :
  dim_valid d → is_naive t1 = false → is_naive t2 = false →
  (instant (dim_updated_at d) ≤ instant t1)%Z → (instant t1 ≤ instant t2)%Z →
  dim_deleted_at d = None →
  ∃ d1 d2, Dimension_delete d t1 = Ok d1 ∧ Dimension_restore d1 t2 = Ok d2 ∧
    (∃ e, Dimension_restore d t1 = Raise e) ∧ (∃ e, Dimension_delete d1 t2 = Raise e) ∧
    d1 = mkDimension (dim_id d) (dim_code d) (dim_value_of d) (dim_version d + 1)
           (dim_created_at d) t1 (Some t1) ∧
    d2 = mkDimension (dim_id d) (dim_code d) (dim_value_of d) (dim_version d + 2)
           (dim_created_at d) t2 None.
Proof.
  intros Hv Ht1 Ht2 H1 H2 Hnone.
  pose proof (transition_deletion_Ok d true t1 Hv Ht1 H1) as Hdel.
  destruct (transition_deletion_next _ _ _ _ Hdel) as [[Hv1 _] _].
  pose proof (transition_deletion_Ok _ false t2 Hv1 Ht2 H2) as Hres.
  unfold Dimension_delete, Dimension_restore, is_deleted. rewrite Hnone.
  eexists _, _. split; [exact Hdel|]. split; [exact Hres|].
  do 2 (split; [by eexists|]). split; [done|]. cbn. f_equal. lia.
Qed.

Lemma Dimension_change_Ok (d : Dimension) (code : option DimensionCode)
    (value : option dim_value) (changed_at : datetime) :
  dim_valid d → is_naive changed_at = false →
  (instant (dim_updated_at d) ≤ instant changed_at)%Z →
  let same_code := bool_decide (default (dim_code d) code = dim_code d) in
  let same_value := match value with
    | None => true | Some v => dimension_values_equal (dim_value_of d) v end in
  Dimension_change d code value changed_at =
    Ok (if same_code && same_value then d else
        mkDimension (dim_id d) (default (dim_code d) code)
          (if same_value then dim_value_of d else default (dim_value_of d) value)
          (dim_version d + 1) (dim_created_at d) changed_at (dim_deleted_at d)).
Proof.
  intros [Hv Hc Hu Ho Hf Hd] Ht Hle same_code same_value.
  assert (∀ v, dimension_values_equal v v = true) as Hrefl.
  { intros [| | | | | | |m]; cbn; try by apply bool_decide_eq_true_2. by apply Z.eqb_refl. }
  unfold Dimension_change. fold same_code.
  set (next_value := match value with None => _ | Some v => _ end).
  assert (dimension_values_equal (dim_value_of d) next_value = same_value) as ->.
  { subst next_value same_value. destruct value as [v|]; [|apply Hrefl].
    destruct (dimension_values_equal (dim_value_of d) v) eqn:E; [apply Hrefl|done]. }
  assert (next_value = if same_value then dim_value_of d else default (dim_value_of d) value) as <-.
  { subst next_value same_value. destruct value as [v|]; [|done].
    by destruct (dimension_values_equal (dim_value_of d) v). }
  destruct (same_code && same_value); [done|].
  unfold dt_ltb. rewrite Ht. replace (instant changed_at <? _)%Z with false by lia. cbn.
  apply Dimension_init_Ok. split; [done|]. split; cbn; try done; try lia.
  intros t Ht'. destruct (Hd t Ht') as [? ?]. split; [done|lia].
Qed.

(** [Dimension.change] is a no-op exactly when the code is unchanged and the
    value is equivalent (equal, or of equal capacity for Memory); otherwise a
    valid state and an admissible timestamp give the next version with the
    requested code, the requested value unless it is equivalent to the stored
    one, and the deletion state kept. *)
Theorem Dimension_change_spec (d : Dimension) (code : option DimensionCode)
    (value : option dim_value) (changed_at : datetime) :
  dim_valid d → is_naive changed_at = false →
  (instant (dim_updated_at d) ≤ instant changed_at)%Z →
  let same_code := bool_decide (default (dim_code d) code = dim_code d) in
  let same_value := match value with
    | None => true | Some v => dimension_values_equal (dim_value_of d) v end in
  Dimension_change d code value changed_at =
    Ok (if same_code && same_value then d else
        mkDimension (dim_id d) (default (dim_code d) code)
          (if same_value then dim_value_of d else default (dim_value_of d) value)
          (dim_version d + 1) (dim_created_at d) changed_at (dim_deleted_at d)).
Proof. apply Dimension_change_Ok. Qed.

(** *** Witnesses *)

Definition witness_time (us : Z) : datetime := DateTime us (Some 0%Z).
Definition witness_dim : Dimension :=
  mkDimension 7 (mkDimensionCode (py "SAM01")) (CompanyValue (py "SAMSUNG_ELECTRONICS")) 1
    (witness_time 1000) (witness_time 1000) None.

Lemma witness_dim_valid : dim_valid witness_dim.
Proof. by split. Defined.

#[local] Existing Instance ascii_data.

Lemma normalize_string_value_idempotent_witness :
  normalize_string_value (VStr (py "  samsung _ electronics ")) =
    Ok (py "SAMSUNG_ELECTRONICS") ∧
  normalize_string_value (VStr (py "SAMSUNG_ELECTRONICS")) = Ok (py "SAMSUNG_ELECTRONICS").
Proof.
  split; [reflexivity|].
  by apply (normalize_string_value_idempotent (VStr (py "  samsung _ electronics "))).
Defined.

Lemma MemoryValue_create_bounds_witness :
  MemoryValue_create (VInt 2147483647) (VStr (py " pb ")) =
    Ok (MemoryValue (mkMemoryValue 2147483647 PB)) ∧
  (capacity_mb (mkMemoryValue 2147483647 PB) < 2 ^ 63)%Z.
Proof.
  assert (MemoryValue_create (VInt 2147483647) (VStr (py " pb ")) =
    Ok (MemoryValue (mkMemoryValue 2147483647 PB))) as Hok by reflexivity.
  split; [exact Hok|].
  destruct (MemoryValue_create_bounds _ _ _ Hok) as (m & [= <-] & _ & _ & [_ Hb] & _). exact Hb.
Defined.

Lemma dim_history_witness :
  dim_step witness_dim (mkDimension 7 (mkDimensionCode (py "SAM02"))
    (CompanyValue (py "SAMSUNG_ELECTRONICS")) 2 (witness_time 1000) (witness_time 2000) None) ∧
  ∀ d', rtc dim_step witness_dim d' → dim_version d' = 1%Z → d' = witness_dim.
Proof.
  split.
  - by apply (dim_step_change _ (Some (mkDimensionCode (py "SAM02"))) None (witness_time 2000)).
  - intros d' Hd'. apply (dim_history witness_dim d' witness_dim_valid Hd').
Defined.

Lemma dim_delete_restore_witness :
  ∃ d1 d2, Dimension_delete witness_dim (witness_time 2000) = Ok d1 ∧
    Dimension_restore d1 (witness_time 3000) = Ok d2 ∧ dim_version d2 = 3%Z.
Proof.
  destruct (dim_delete_restore witness_dim (witness_time 2000) (witness_time 3000)
    witness_dim_valid eq_refl eq_refl ltac:(done) ltac:(done) eq_refl)
    as (d1 & d2 & H1 & H2 & _ & _ & _ & ->).
  by exists d1; eexists.
Defined.

Lemma Dimension_change_spec_witness :
  Dimension_change
    (mkDimension 9 (mkDimensionCode (py "M1")) (MemoryValue (mkMemoryValue 1000 GB)) 1
       (witness_time 1000) (witness_time 1000) None)
    (Some (mkDimensionCode (py "M2"))) (Some (MemoryValue (mkMemoryValue 1 TB)))
    (witness_time 2000)
  = Ok (mkDimension 9 (mkDimensionCode (py "M2")) (MemoryValue (mkMemoryValue 1000 GB)) 2
       (witness_time 1000) (witness_time 2000) None).
Proof.
  refine (eq_trans (Dimension_change_spec _ _ _ (witness_time 2000) _ eq_refl _) _).
  - by split.
  - done.
  - reflexivity.
Defined.

#[global] Arguments MemoryUnit_call : simpl never.
#[global] Arguments Dimension_init : simpl never.
#[global] Arguments DimensionCode_init {_} : simpl never.
#[global] Arguments unit_str : simpl never.
