(* ===== verification/MasterCodes.v ===== *)
(** * MasterCode composition and representation state
    ([src/src/mdm/domain/master_codes.py])

    A MasterCode references at most one Dimension in each of eight typed
    slots.  Its code joins the eight Dimension codes, its version counts its
    own changes, and its ETag hashes that version together with the identity
    and version of every referenced Dimension. *)

From S2P Require Import Prelude Python Exceptions Sha256 Dimensions.
Local Open Scope Z_scope.

(** ** The eight slots *)

Inductive slot := Company | Brand | Model | Category | Year | Memory | Network | Country.
#[export] Instance slot_eq_dec : EqDecision slot.
Proof. solve_decision. Defined.

(** [MasterCodeDimensions.ORDER], the canonical composition order. *)
Definition ORDER : list slot :=
  [Company; Brand; Model; Category; Year; Memory; Network; Country].

Definition slot_name (s : slot) : string :=
  match s with
  | Company => "company" | Brand => "brand" | Model => "model" | Category => "category"
  | Year => "year" | Memory => "memory" | Network => "network" | Country => "country"
  end.

(** [slot.title()] *)
Definition slot_title (s : slot) : string :=
  match s with
  | Company => "Company" | Brand => "Brand" | Model => "Model" | Category => "Category"
  | Year => "Year" | Memory => "Memory" | Network => "Network" | Country => "Country"
  end.

(** [MasterCodeDimensions.TYPE_NAMES] *)
Definition TYPE_NAMES (s : slot) : string :=
  match s with
  | Company => "COMPANY" | Brand => "BRAND" | Model => "MODEL" | Category => "CATEGORY"
  | Year => "YEAR" | Memory => "MEMORY" | Network => "NETWORK" | Country => "COUNTRY"
  end.

(** The slot whose entry of [_VALUE_TYPES] is the class of the value. *)
Definition slot_of_value (v : dim_value) : slot :=
  match v with
  | CompanyValue _ => Company | ModelValue _ => Model | BrandValue _ => Brand
  | CountryValue _ => Country | CategoryValue _ => Category | YearValue _ => Year
  | NetworkGeneration _ => Network | MemoryValue _ => Memory
  end.

Record MasterCodeDimensions := mkMasterCodeDimensions {
  company : option Dimension;
  brand : option Dimension;
  model : option Dimension;
  category : option Dimension;
  year : option Dimension;
  memory : option Dimension;
  network : option Dimension;
  country : option Dimension;
}.
#[export] Instance MasterCodeDimensions_eq_dec : EqDecision MasterCodeDimensions.
Proof. solve_decision. Defined.

(** [getattr(dimensions, slot)] *)
Definition get_slot (d : MasterCodeDimensions) (s : slot) : option Dimension :=
  match s with
  | Company => company d | Brand => brand d | Model => model d | Category => category d
  | Year => year d | Memory => memory d | Network => network d | Country => country d
  end.

(** The eight slots filled from a function, as the keyword arguments are, without the
    validation of [__post_init__]. *)
Definition of_slots (f : slot → option Dimension) : MasterCodeDimensions :=
  mkMasterCodeDimensions (f Company) (f Brand) (f Model) (f Category) (f Year) (f Memory)
    (f Network) (f Country).

(** [MasterCodeDimensions.__post_init__] *)
Definition MasterCodeDimensions_init (d : MasterCodeDimensions) : res MasterCodeDimensions :=
  _ ← forR (λ s,
        match get_slot d s with
        | None => Ok tt
        | Some dimension =>
            raise_if (negb (bool_decide (slot_of_value (dim_value_of dimension) = s)))
              (MasterCodeValidationError
                 (slot_name s ++ " must contain a " ++ slot_title s ++ " value"))
        end) ORDER;
  Ok d.

Definition ordered (d : MasterCodeDimensions) : list (option Dimension) := get_slot d <$> ORDER.

(** The references of the eight slots. *)
Definition slot_ids (d : MasterCodeDimensions) : list (option UUID) :=
  fmap (M:=option) dim_id <$> ordered d.

(** ** MasterCode states *)

Record MasterCode := mkMasterCode {
  mc_id : UUID;
  mc_dimensions : MasterCodeDimensions;
  mc_code : pystr;
  mc_version : Z;
  mc_created_at : datetime;
  mc_updated_at : datetime;
  mc_deleted_at : option datetime;
}.
#[export] Instance MasterCode_eq_dec : EqDecision MasterCode.
Proof. solve_decision. Defined.

Definition NOT_APPLICABLE_CODE : pystr := py "NNN".
Definition ETAG_ALGORITHM_VERSION : Z := 1.

(** The code of one slot in the composition. *)
Definition slot_code (d : option Dimension) : pystr :=
  match d with None => NOT_APPLICABLE_CODE | Some d => code_value (dim_code d) end.

Definition compose (dimensions : MasterCodeDimensions) : pystr :=
  str_join [dash] (slot_code <$> ordered dimensions).

(** [MasterCode.__post_init__] *)
Definition MasterCode_init (m : MasterCode) : res MasterCode :=
  _ ← match mc_deleted_at m with
      | None =>
          forR (λ s,
            match get_slot (mc_dimensions m) s with
            | None => Ok tt
            | Some dimension =>
                raise_if (is_deleted dimension)
                  (MasterCodeValidationError (slot_name s ++ " Dimension must be active"))
            end) ORDER
      | Some _ => Ok tt
      end;
  _ ← raise_if (negb (bool_decide (mc_code m = compose (mc_dimensions m))))
        (MasterCodeValidationError "code does not match the current Dimension references");
  _ ← raise_if (mc_version m <? 1)
        (MasterCodeValidationError "version must be a positive integer");
  _ ← raise_if (is_naive (mc_created_at m) || is_naive (mc_updated_at m))
        (MasterCodeValidationError "timestamps must be timezone-aware");
  _ ← raise_if (dt_ltb (mc_updated_at m) (mc_created_at m))
        (MasterCodeValidationError "updated_at must not precede created_at");
  _ ← raise_if ((mc_version m =? 1) && negb (dt_eqb (mc_updated_at m) (mc_created_at m)))
        (MasterCodeValidationError "initial timestamps must match");
  match mc_deleted_at m with
  | None => Ok m
  | Some t =>
      _ ← raise_if (is_naive t)
            (MasterCodeValidationError "deleted_at must be timezone-aware");
      _ ← raise_if (negb (dt_leb (mc_created_at m) t && dt_leb t (mc_updated_at m)))
            (MasterCodeValidationError "deleted_at must be within the state timestamps");
      Ok m
  end.

Definition MasterCode_create (id : UUID) (dimensions : MasterCodeDimensions)
    (created_at : datetime) : res MasterCode :=
  MasterCode_init (mkMasterCode id dimensions (compose dimensions) 1 created_at created_at None).

(** *** The aggregate ETag *)

Definition quote : Z := 34.
Definition json_string (s : pystr) : pystr := [quote] ++ s ++ [quote].

(** One element of [dimension_vector] as [json.dumps] writes it. *)
Definition json_entry (s : slot) (d : option Dimension) : pystr :=
  py "[" ++ json_string (py (TYPE_NAMES s)) ++ py "," ++
  match d with
  | None => py "null,null"
  | Some d => json_string (uuid_str (dim_id d)) ++ py "," ++ str_of_Z (dim_version d)
  end ++ py "]".

Definition etag_payload (m : MasterCode) : pystr :=
  py "[" ++ str_of_Z ETAG_ALGORITHM_VERSION ++ py "," ++ str_of_Z (mc_version m) ++ py ",[" ++
  str_join (py ",") ((λ s, json_entry s (get_slot (mc_dimensions m) s)) <$> ORDER) ++ py "]]".

Definition etag (m : MasterCode) : pystr :=
  [quote] ++ py "mc-" ++ str_of_Z ETAG_ALGORITHM_VERSION ++ [dash] ++
  sha256_hexdigest (etag_payload m) ++ [quote].

(** *** Transitions *)

Definition recompose (m : MasterCode) (dimensions : MasterCodeDimensions) (changed_at : datetime)
    : res MasterCode :=
  let current_ids := slot_ids (mc_dimensions m) in
  let next_ids := slot_ids dimensions in
  _ ← raise_if (negb (bool_decide (next_ids = current_ids)))
        (MasterCodeValidationError "recomposition must preserve Dimension references");
  let code := compose dimensions in
  if bool_decide (code = mc_code m) then Ok m
  else
    _ ← raise_if (is_naive changed_at)
          (MasterCodeValidationError "changed_at must be timezone-aware");
    _ ← raise_if (dt_ltb changed_at (mc_updated_at m))
          (MasterCodeValidationError "changed_at must not precede updated_at");
    MasterCode_init (mkMasterCode (mc_id m) dimensions code (mc_version m + 1)
      (mc_created_at m) changed_at (mc_deleted_at m)).

Definition mc_is_deleted (m : MasterCode) : bool :=
  match mc_deleted_at m with None => false | Some _ => true end.

Definition update_references (m : MasterCode) (dimensions : MasterCodeDimensions)
    (changed_at : datetime) : res MasterCode :=
  _ ← raise_if (mc_is_deleted m)
        (MasterCodeValidationError "deleted MasterCode references cannot be updated");
  let current_ids := slot_ids (mc_dimensions m) in
  let next_ids := slot_ids dimensions in
  if bool_decide (next_ids = current_ids) then Ok m
  else
    _ ← raise_if (is_naive changed_at)
          (MasterCodeValidationError "changed_at must be timezone-aware");
    _ ← raise_if (dt_ltb changed_at (mc_updated_at m))
          (MasterCodeValidationError "changed_at must not precede updated_at");
    MasterCode_init (mkMasterCode (mc_id m) dimensions (compose dimensions) (mc_version m + 1)
      (mc_created_at m) changed_at None).

Definition validate_lifecycle_timestamp (m : MasterCode) (changed_at : datetime) : res unit :=
  _ ← raise_if (is_naive changed_at)
        (MasterCodeValidationError "changed_at must be timezone-aware");
  raise_if (dt_ltb changed_at (mc_updated_at m))
    (MasterCodeValidationError "changed_at must not precede updated_at").

Definition MasterCode_delete (m : MasterCode) (changed_at : datetime) : res MasterCode :=
  _ ← raise_if (mc_is_deleted m) (MasterCodeValidationError "MasterCode is already deleted");
  _ ← validate_lifecycle_timestamp m changed_at;
  MasterCode_init (mkMasterCode (mc_id m) (mc_dimensions m) (mc_code m) (mc_version m + 1)
    (mc_created_at m) changed_at (Some changed_at)).

Definition MasterCode_restore (m : MasterCode) (changed_at : datetime) : res MasterCode :=
  _ ← raise_if (negb (mc_is_deleted m)) (MasterCodeValidationError "MasterCode is not deleted");
  _ ← validate_lifecycle_timestamp m changed_at;
  MasterCode_init (mkMasterCode (mc_id m) (mc_dimensions m) (compose (mc_dimensions m))
    (mc_version m + 1) (mc_created_at m) changed_at None).

#[global] Arguments MasterCode_init : simpl never.
#[global] Arguments compose : simpl never.
#[global] Arguments ordered : simpl never.
#[global] Arguments slot_ids : simpl never.
#[global] Arguments etag : simpl never.

(** ** Composition *)

(** Every referenced Dimension has a well-formed code, which its constructor
    guarantees. *)
Definition codes_wf (d : MasterCodeDimensions) : Prop :=
  ∀ s dim, get_slot d s = Some dim → code_wf (dim_code dim) = true.

Definition dims_codes_wf (d : MasterCodeDimensions) : bool :=
  forallb (λ o, match o with None => true | Some dim => code_wf (dim_code dim) end) (ordered d).

Lemma slot_in_ORDER s : s ∈ ORDER.
Proof. destruct s; unfold ORDER; set_solver. Qed.
Lemma ORDER_NoDup : NoDup ORDER.
Proof. apply (bool_decide_unpack _). vm_compute. exact I. Qed.

Lemma dims_codes_wf_spec d : dims_codes_wf d = true ↔ codes_wf d.
Proof.
  unfold dims_codes_wf, ordered. rewrite forallb_Forall, Forall_fmap, Forall_forall. split.
  - intros H s dim Hs. specialize (H s (slot_in_ORDER s)). cbn in H. by rewrite Hs in H.
  - intros H s _. cbn. destruct (get_slot d s) eqn:E; [by eapply H|done].
Qed.

Lemma ordered_eq d1 d2 {A} (f : option Dimension → A) :
  f <$> ordered d1 = f <$> ordered d2 ↔ ∀ s, f (get_slot d1 s) = f (get_slot d2 s).
Proof.
  unfold ordered, ORDER. cbn. split.
  - intros [=] []; done.
  - intros H. pose proof (H Company); pose proof (H Brand); pose proof (H Model);
    pose proof (H Category); pose proof (H Year); pose proof (H Memory);
    pose proof (H Network); pose proof (H Country). cbn in *. congruence.
Qed.

Lemma get_slot_ext d1 d2 : (∀ s, get_slot d1 s = get_slot d2 s) → d1 = d2.
Proof.
  destruct d1, d2. intros H. f_equal; [apply (H Company)|apply (H Brand)|apply (H Model)|
    apply (H Category)|apply (H Year)|apply (H Memory)|apply (H Network)|apply (H Country)].
Qed.

Lemma slot_code_alnum d s : codes_wf d →
  Forall (λ x, is_upper_alnum x = true) (slot_code (get_slot d s)) ∧
  (1 ≤ length (slot_code (get_slot d s)) ≤ 32)%nat.
Proof.
  intros Hwf. destruct (get_slot d s) as [dim|] eqn:E; cbn.
  - pose proof (code_wf_alnum _ (Hwf _ _ E)) as [H1 H2]. split; [done|lia].
  - split; [by repeat constructor|lia].
Qed.

Lemma slot_code_no_dash d : codes_wf d → Forall (λ w, dash ∉ w) (slot_code <$> ordered d).
Proof.
  intros Hwf. unfold ordered. rewrite <- list_fmap_compose. apply Forall_fmap, Forall_true.
  intros s. cbn. intros Hin. pose proof (slot_code_alnum d s Hwf) as [Hal _].
  rewrite Forall_forall in Hal. by apply (upper_alnum_not_dash dash); [apply Hal|].
Qed.

(** A slot's code is ["NNN"] only when the slot is empty. *)
Lemma slot_code_inj d1 d2 s : codes_wf d1 → codes_wf d2 →
  slot_code (get_slot d1 s) = slot_code (get_slot d2 s) ↔
  dim_code <$> get_slot d1 s = dim_code <$> get_slot d2 s.
Proof.
  intros H1 H2. destruct (get_slot d1 s) as [x|] eqn:E1, (get_slot d2 s) as [y|] eqn:E2; cbn.
  - destruct (dim_code x), (dim_code y); cbn. split; [by intros ->|by intros [=]].
  - apply H1 in E1. split; [|done]. unfold code_wf in E1. intros Hx.
    rewrite Hx in E1. discriminate.
  - apply H2 in E2. split; [|done]. unfold code_wf in E2. intros Hx.
    rewrite <- Hx in E2. discriminate.
  - done.
Qed.

Lemma compose_codes (d1 d2 : MasterCodeDimensions) :
  codes_wf d1 → codes_wf d2 → compose d1 = compose d2 →
  ∀ s, slot_code (get_slot d1 s) = slot_code (get_slot d2 s).
Proof.
  intros H1 H2. rewrite <- ordered_eq. unfold compose.
  apply str_join_inj; [by apply slot_code_no_dash..|]. by rewrite !length_fmap.
Qed.

(** A composed code determines the code of every slot: two references
    vectors compose to the same code exactly when they agree, slot by slot, on
    which slots are empty and on the codes of the others. *)
Theorem compose_injective (d1 d2 : MasterCodeDimensions) :
  dims_codes_wf d1 = true → dims_codes_wf d2 = true →
  compose d1 = compose d2 ↔
  ∀ s, dim_code <$> get_slot d1 s = dim_code <$> get_slot d2 s.
Proof.
  rewrite !dims_codes_wf_spec. intros H1 H2. setoid_rewrite <- slot_code_inj; [|done..].
  rewrite <- ordered_eq. unfold compose. split; [|by intros ->].
  apply str_join_inj; [by apply slot_code_no_dash..|]. by rewrite !length_fmap.
Qed.

(** A composed code fits the column that stores it ([String(263)]), and
    reading it back between dashes gives the eight slot codes in order. *)
Theorem compose_shape (d : MasterCodeDimensions) :
  dims_codes_wf d = true →
  15 ≤ Z.of_nat (length (compose d)) ≤ 263 ∧
  words (λ c, (c =? dash)) (compose d) = slot_code <$> ordered d.
Proof.
  rewrite dims_codes_wf_spec. intros Hwf. split.
  - unfold compose, ordered, ORDER. cbn. repeat (rewrite length_app || cbn [length]).
    pose proof (λ s, proj2 (slot_code_alnum d s Hwf)) as H.
    pose proof (H Company); pose proof (H Brand); pose proof (H Model); pose proof (H Category);
    pose proof (H Year); pose proof (H Memory); pose proof (H Network); pose proof (H Country).
    cbn in *. lia.
  - apply words_join; [done|]. unfold ordered. rewrite <- list_fmap_compose.
    apply Forall_fmap, Forall_true. intros s. cbn.
    pose proof (slot_code_alnum d s Hwf) as [Hal Hlen]. split.
    + intros E. rewrite E in Hlen. cbn in Hlen. lia.
    + eapply Forall_impl; [exact Hal|]. intros c Hc. by apply Z.eqb_neq, upper_alnum_not_dash.
Qed.

(** ** Valid states and their history *)

Definition all_active (d : MasterCodeDimensions) : Prop :=
  ∀ s dim, get_slot d s = Some dim → is_deleted dim = false.

(** What [__post_init__] accepts. *)
Record mc_valid (m : MasterCode) : Prop := {
  mv_active : mc_deleted_at m = None → all_active (mc_dimensions m);
  mv_code : mc_code m = compose (mc_dimensions m);
  mv_version : 1 ≤ mc_version m;
  mv_created_aware : is_naive (mc_created_at m) = false;
  mv_updated_aware : is_naive (mc_updated_at m) = false;
  mv_order : instant (mc_created_at m) ≤ instant (mc_updated_at m);
  mv_first : mc_version m = 1 → instant (mc_updated_at m) = instant (mc_created_at m);
  mv_deleted : ∀ t, mc_deleted_at m = Some t →
    is_naive t = false ∧ instant (mc_created_at m) ≤ instant t ≤ instant (mc_updated_at m);
}.

Lemma active_check_Ok d u :
  forR (λ s, match get_slot d s with
    | None => Ok tt
    | Some dim => raise_if (is_deleted dim)
        (MasterCodeValidationError (slot_name s ++ " Dimension must be active"))
    end) ORDER = Ok u ↔ all_active d.
Proof.
  rewrite forR_Ok, Forall_forall. unfold all_active. split.
  - intros H s dim Hs. specialize (H s (slot_in_ORDER s)). rewrite Hs in H.
    by apply raise_if_Ok in H.
  - intros H s _. destruct (get_slot d s) eqn:E; [|done]. apply raise_if_Ok. eauto.
Qed.

Lemma MasterCode_init_Ok m m' : MasterCode_init m = Ok m' ↔ m' = m ∧ mc_valid m.
Proof.
  unfold MasterCode_init, dt_ltb, dt_leb, dt_eqb.
  split.
  - intros Hok.
    apply bind_Ok in Hok as ([] & Hact & Hok).
    apply bind_Ok in Hok as (_ & Hcode%raise_if_Ok%negb_false_iff%bool_decide_eq_true & Hok).
    apply bind_Ok in Hok as (_ & Hv%raise_if_Ok & Hok).
    apply bind_Ok in Hok as (_ & [Hc Hu]%raise_if_Ok%orb_false_iff & Hok).
    apply bind_Ok in Hok as (_ & Ho%raise_if_Ok & Hok).
    apply bind_Ok in Hok as (_ & Hf%raise_if_Ok%andb_false_iff & Hok).
    assert (m' = m ∧ ∀ t, mc_deleted_at m = Some t → is_naive t = false ∧
      instant (mc_created_at m) ≤ instant t ≤ instant (mc_updated_at m)) as [-> Hd].
    { destruct (mc_deleted_at m) as [t|]; inv_ok; [|naive_solver].
      split; [done|]. intros ? [= <-]. apply negb_false_iff in Hx0. bool_simpl. split; [done|lia]. }
    split; [done|]. split; try done; try lia.
    intros Hdel. rewrite Hdel in Hact. by apply active_check_Ok in Hact.
  - intros [-> [Hact Hcode Hv Hc Hu Ho Hf Hd]].
    assert (match mc_deleted_at m with None => forR _ ORDER | Some _ => Ok tt end = Ok tt) as ->.
    { destruct (mc_deleted_at m); [done|]. apply active_check_Ok. by apply Hact. }
    cbn. rewrite bool_decide_eq_true_2, Hc, Hu by done.
    replace (mc_version m <? 1) with false by lia.
    replace (instant (mc_updated_at m) <? instant (mc_created_at m)) with false by lia. cbn.
    replace ((mc_version m =? 1) && _) with false by (destruct (Z.eqb_spec (mc_version m) 1); lia).
    cbn. destruct (mc_deleted_at m) as [t|]; [|done]. destruct (Hd t eq_refl) as [-> ?]. cbn.
    replace (instant (mc_created_at m) <=? instant t) with true by lia.
    by replace (instant t <=? instant (mc_updated_at m)) with true by lia.
Qed.

(** One transition of a MasterCode. *)
Inductive mc_step : MasterCode → MasterCode → Prop :=
| mc_step_recompose m dims t m' : recompose m dims t = Ok m' → mc_step m m'
| mc_step_update m dims t m' : update_references m dims t = Ok m' → mc_step m m'
| mc_step_delete m t m' : MasterCode_delete m t = Ok m' → mc_step m m'
| mc_step_restore m t m' : MasterCode_restore m t = Ok m' → mc_step m m'.

Definition mc_next (m m' : MasterCode) : Prop :=
  mc_valid m' ∧ mc_id m' = mc_id m ∧ mc_created_at m' = mc_created_at m ∧
  mc_version m' = mc_version m + 1 ∧ instant (mc_updated_at m) ≤ instant (mc_updated_at m').

Lemma recompose_changed m d t :
  slot_ids d = slot_ids (mc_dimensions m) → compose d ≠ mc_code m → is_naive t = false →
  instant (mc_updated_at m) ≤ instant t →
  recompose m d t = MasterCode_init (mkMasterCode (mc_id m) d (compose d) (mc_version m + 1)
    (mc_created_at m) t (mc_deleted_at m)).
Proof.
  intros Hids Hcode Ht Ho. unfold recompose, dt_ltb.
  rewrite (bool_decide_eq_true_2 _ Hids), (bool_decide_eq_false_2 _ Hcode), Ht. cbn.
  by replace (instant t <? instant (mc_updated_at m)) with false by lia.
Qed.

Lemma validate_lifecycle_timestamp_Ok m t u :
  validate_lifecycle_timestamp m t = Ok u ↔
  is_naive t = false ∧ instant (mc_updated_at m) ≤ instant t.
Proof.
  unfold validate_lifecycle_timestamp, dt_ltb. rewrite bind_Ok. destruct u. split.
  - intros (_ & ?%raise_if_Ok & ?%raise_if_Ok). bool_simpl. done.
  - intros [-> ?]. exists tt. split; [done|]. apply raise_if_Ok. lia.
Qed.

Lemma mc_step_cases m m' : mc_step m m' → m' = m ∨ mc_next m m'.
Proof.
  destruct 1 as [m dims t m' Hok|m dims t m' Hok|m t m' Hok|m t m' Hok].
  - unfold recompose, dt_ltb in Hok. inv_ok. case_bool_decide; inv_ok; [by left|right].
    bool_simpl. by apply MasterCode_init_Ok in Hok as [-> ?].
  - unfold update_references, dt_ltb in Hok. inv_ok. case_bool_decide; inv_ok; [by left|right].
    bool_simpl. by apply MasterCode_init_Ok in Hok as [-> ?].
  - unfold MasterCode_delete in Hok. inv_ok. apply validate_lifecycle_timestamp_Ok in Hx0 as [? ?].
    right. by apply MasterCode_init_Ok in Hok as [-> ?].
  - unfold MasterCode_restore in Hok. inv_ok. apply validate_lifecycle_timestamp_Ok in Hx0 as [? ?].
    right. by apply MasterCode_init_Ok in Hok as [-> ?].
Qed.

(** Along every sequence of recompositions, reference updates, deletions
    and restorations a valid MasterCode stays valid (its code is the
    composition of its references, and an active one references active
    Dimensions only), keeps its identity and creation time, and its version
    counts the changes: the version never decreases and an unchanged version
    means an unchanged state. *)
Theorem mc_history (m m' : MasterCode) :
  mc_valid m → rtc mc_step m m' →
  mc_valid m' ∧ mc_code m' = compose (mc_dimensions m') ∧
  (mc_deleted_at m' = None → all_active (mc_dimensions m')) ∧
  mc_id m' = mc_id m ∧ mc_created_at m' = mc_created_at m ∧ mc_version m ≤ mc_version m' ∧
  instant (mc_updated_at m) ≤ instant (mc_updated_at m') ∧
  (mc_version m' = mc_version m → m' = m).
Proof.
  intros Hv Hrtc.
  assert (mc_valid m' ∧ mc_id m' = mc_id m ∧ mc_created_at m' = mc_created_at m ∧
    mc_version m ≤ mc_version m' ∧ instant (mc_updated_at m) ≤ instant (mc_updated_at m') ∧
    (mc_version m' = mc_version m → m' = m)) as H.
  { induction Hrtc as [m|m m1 m' Hstep _ IH]; [by split_and!|].
    apply mc_step_cases in Hstep as [->|(Hv1 & Hid & Hc & Hver & Hupd)]; [by apply IH|].
    destruct (IH Hv1) as (? & Hid' & Hc' & ? & ? & Heq).
    split_and!; [done|congruence..|lia|lia|intros; lia]. }
  destruct H as (Hv' & H). do 3 (split; [by try destruct Hv'|]). exact H.
Qed.

(** An admissible reference update of an active MasterCode is a no-op when
    the eight references are the current ones; otherwise, if every referenced
    Dimension is active, it is the next version with the new references and
    their composed code; a deleted Dimension or a deleted MasterCode is
    refused. *)
Theorem update_references_spec (m : MasterCode) (dims : MasterCodeDimensions) (t : datetime) :
  mc_valid m → is_naive t = false → instant (mc_updated_at m) ≤ instant t →
  (mc_deleted_at m = None → slot_ids dims = slot_ids (mc_dimensions m) →
     update_references m dims t = Ok m) ∧
  (mc_deleted_at m = None → slot_ids dims ≠ slot_ids (mc_dimensions m) → all_active dims →
     update_references m dims t = Ok (mkMasterCode (mc_id m) dims (compose dims)
       (mc_version m + 1) (mc_created_at m) t None)) ∧
  (slot_ids dims ≠ slot_ids (mc_dimensions m) → ¬ all_active dims →
     ∃ e, update_references m dims t = Raise e) ∧
  (mc_deleted_at m ≠ None → ∃ e, update_references m dims t = Raise e).
Proof.
  intros [Hact Hcode Hv Hc Hu Ho Hf Hd] Ht Hle. unfold update_references, mc_is_deleted.
  split_and!.
  - intros -> Hids. cbn. by rewrite bool_decide_eq_true_2.
  - intros -> Hids Ha. cbn. rewrite bool_decide_eq_false_2 by done. unfold dt_ltb. rewrite Ht.
    replace (instant t <? _) with false by lia. cbn. apply MasterCode_init_Ok.
    split; [done|]. split; cbn; try done; lia.
  - intros Hids Hna. destruct (mc_deleted_at m); [by eexists|]. cbn.
    rewrite bool_decide_eq_false_2 by done. unfold dt_ltb. rewrite Ht.
    replace (instant t <? _) with false by lia. cbn.
    destruct (MasterCode_init _) as [m'|e] eqn:E; [|by exists e].
    apply MasterCode_init_Ok in E as [_ [Hna' _ _ _ _ _ _ _]]. by destruct Hna; apply Hna'.
  - intros Hdel. destruct (mc_deleted_at m); [by eexists|done].
Qed.

(** Deleting an active MasterCode and restoring it keeps its references
    and its code and counts two versions; restoring is refused while a
    referenced Dimension is deleted, and a second deletion or a restoration of
    an active MasterCode is refused. *)
Theorem mc_delete_restore (m : MasterCode) (t1 t2 : datetime) :
  mc_valid m → mc_deleted_at m = None → is_naive t1 = false → is_naive t2 = false →
  instant (mc_updated_at m) ≤ instant t1 → instant t1 ≤ instant t2 →
  ∃ m1, MasterCode_delete m t1 = Ok m1 ∧
    MasterCode_restore m1 t2 = Ok (mkMasterCode (mc_id m) (mc_dimensions m) (mc_code m)
      (mc_version m + 2) (mc_created_at m) t2 None) ∧
    (∃ e, MasterCode_delete m1 t2 = Raise e) ∧ (∃ e, MasterCode_restore m t1 = Raise e) ∧
    (∀ dims, ¬ all_active dims → ∃ e,
       MasterCode_restore (mkMasterCode (mc_id m) dims (compose dims) (mc_version m1)
         (mc_created_at m) t1 (Some t1)) t2 = Raise e).
Proof.
  intros [Hact Hcode Hv Hc Hu Ho Hf Hd] Hdel Ht1 Ht2 H1 H2.
  exists (mkMasterCode (mc_id m) (mc_dimensions m) (mc_code m) (mc_version m + 1)
    (mc_created_at m) t1 (Some t1)).
  assert (∀ m t, is_naive t = false → instant (mc_updated_at m) ≤ instant t →
    validate_lifecycle_timestamp m t = Ok tt) as Hts.
  { intros ????. by apply validate_lifecycle_timestamp_Ok. }
  split; [|split; [|split; [|split]]].
  - unfold MasterCode_delete, mc_is_deleted. rewrite Hdel, Hts by done. cbn.
    apply MasterCode_init_Ok. split; [done|]. split; cbn; try done; try lia.
    intros ? [= <-]. split; [done|lia].
  - unfold MasterCode_restore, mc_is_deleted. cbn. rewrite Hts by done. cbn.
    apply MasterCode_init_Ok. rewrite <- Hcode. split; [f_equal; lia|].
    split; cbn; try done; try lia. by intros _; apply Hact.
  - by eexists.
  - unfold MasterCode_restore, mc_is_deleted. rewrite Hdel. by eexists.
  - intros dims Hna. unfold MasterCode_restore, mc_is_deleted. cbn. rewrite Hts by done. cbn.
    destruct (MasterCode_init _) as [m'|e] eqn:E; [|by exists e].
    apply MasterCode_init_Ok in E as [_ [Hna' _ _ _ _ _ _ _]]. by destruct Hna; apply Hna'.
Qed.

(** ** The ETag *)

(** What the ETag shows of one slot. *)
Definition slot_key (d : option Dimension) : option (UUID * Z) :=
  (λ d, (dim_id d, dim_version d)) <$> d.

Definition dims_ids_ok (d : MasterCodeDimensions) : Prop :=
  ∀ s dim, get_slot d s = Some dim → uuid_ok (dim_id dim).

Definition sha256_collision (x y : list Z) : Prop := x ≠ y ∧ sha256 x = sha256 y.

Lemma json_pair_inj (u1 u2 v1 v2 r1 r2 : pystr) :
  length u1 = length u2 → 93 ∉ v1 → 93 ∉ v2 →
  (json_string u1 ++ py "," ++ v1) ++ py "]" ++ r1 =
  (json_string u2 ++ py "," ++ v2) ++ py "]" ++ r2 → u1 = u2 ∧ v1 = v2 ∧ r1 = r2.
Proof.
  intros Hlen Hv1 Hv2 Heq. unfold json_string in Heq. cbn in Heq. injection Heq as Heq.
  rewrite <- !app_assoc in Heq. apply app_inj_1 in Heq as [-> Heq]; [|done].
  cbn in Heq. injection Heq as Heq.
  apply app_sep_inj in Heq as [-> Heq]; [|done..]. done.
Qed.

Lemma json_entry_inj s d1 d2 r1 r2 :
  (∀ d, d1 = Some d → uuid_ok (dim_id d)) → (∀ d, d2 = Some d → uuid_ok (dim_id d)) →
  json_entry s d1 ++ r1 = json_entry s d2 ++ r2 → slot_key d1 = slot_key d2 ∧ r1 = r2.
Proof.
  intros H1 H2. unfold json_entry. rewrite <- !(app_assoc _ _ r1), <- !(app_assoc _ _ r2).
  intros Heq. do 3 apply app_inv_head in Heq. destruct d1 as [d1|], d2 as [d2|].
  - apply json_pair_inj in Heq as (Hid & Hver & ->);
      [|by rewrite !uuid_str_length|by apply str_of_Z_not_in..].
    apply uuid_str_inj in Hid; [|by auto..]. apply str_of_Z_inj in Hver.
    split; [cbn; congruence|done].
  - apply (f_equal head) in Heq. discriminate.
  - apply (f_equal head) in Heq. discriminate.
  - do 2 apply app_inv_head in Heq. by subst.
Qed.

Lemma json_entries_inj d1 d2 l r1 r2 :
  dims_ids_ok d1 → dims_ids_ok d2 →
  str_join (py ",") ((λ s, json_entry s (get_slot d1 s)) <$> l) ++ r1 =
  str_join (py ",") ((λ s, json_entry s (get_slot d2 s)) <$> l) ++ r2 →
  Forall (λ s, slot_key (get_slot d1 s) = slot_key (get_slot d2 s)) l ∧ r1 = r2.
Proof.
  intros H1 H2. assert (∀ s r1 r2, json_entry s (get_slot d1 s) ++ r1 =
    json_entry s (get_slot d2 s) ++ r2 →
    slot_key (get_slot d1 s) = slot_key (get_slot d2 s) ∧ r1 = r2) as Hentry.
  { intros s ??; apply json_entry_inj; [apply H1|apply H2]. }
  induction l as [|s l IH]; [done|]. intros Heq. rewrite !fmap_cons in Heq. destruct l as [|s' l].
  - apply Hentry in Heq as [Hk Hr]. auto with mdm.
  - rewrite !str_join_cons, <- !(app_assoc (json_entry _ _)) in Heq by done.
    apply Hentry in Heq as [Hk Heq]. rewrite <- !app_assoc in Heq. apply app_inv_head in Heq.
    apply IH in Heq as [? ->]. auto with mdm.
Qed.

Lemma etag_payload_inj m1 m2 :
  dims_ids_ok (mc_dimensions m1) → dims_ids_ok (mc_dimensions m2) →
  etag_payload m1 = etag_payload m2 →
  mc_version m1 = mc_version m2 ∧
  ∀ s, slot_key (get_slot (mc_dimensions m1) s) = slot_key (get_slot (mc_dimensions m2) s).
Proof.
  intros H1 H2. unfold etag_payload. intros Heq. do 3 apply app_inv_head in Heq.
  apply (app_sep_inj 44) in Heq as [Hv Heq]; [|by apply str_of_Z_not_in..].
  apply str_of_Z_inj in Hv. split; [done|].
  apply (app_inv_head (py "[")), json_entries_inj in Heq as [Hk _]; [|done..].
  rewrite Forall_forall in Hk. intros s. apply Hk, slot_in_ORDER.
Qed.

Lemma etag_payload_ext m1 m2 :
  mc_version m1 = mc_version m2 →
  (∀ s, slot_key (get_slot (mc_dimensions m1) s) = slot_key (get_slot (mc_dimensions m2) s)) →
  etag_payload m1 = etag_payload m2.
Proof.
  intros Hv Hs. unfold etag_payload. rewrite Hv. do 7 f_equal. apply list_fmap_ext.
  intros i s _. specialize (Hs s). unfold json_entry.
  destruct (get_slot (mc_dimensions m1) s), (get_slot (mc_dimensions m2) s); try done.
  by injection Hs as -> ->.
Qed.

Lemma etag_digest_inj m1 m2 :
  etag m1 = etag m2 ↔ sha256 (etag_payload m1) = sha256 (etag_payload m2).
Proof.
  unfold etag, sha256_hexdigest. split; [|by intros ->].
  intros Heq. do 4 apply app_inv_head in Heq. apply app_inv_tail in Heq.
  apply hex_inj in Heq; [done|apply sha256_byte..].
Qed.

(** The ETag identifies the representation.  Equal ETags mean the same
    MasterCode version and, slot by slot, the same Dimension at the same
    version; the one exception would be two explicit payloads on which SHA-256
    collides.  Conversely the ETag depends on nothing else. *)
Theorem etag_identifies (m1 m2 : MasterCode) :
  dims_ids_ok (mc_dimensions m1) → dims_ids_ok (mc_dimensions m2) →
  let same := mc_version m1 = mc_version m2 ∧
    ∀ s, slot_key (get_slot (mc_dimensions m1) s) = slot_key (get_slot (mc_dimensions m2) s) in
  (same → etag m1 = etag m2) ∧
  (etag m1 = etag m2 → same ∨ sha256_collision (etag_payload m1) (etag_payload m2)).
Proof.
  intros H1 H2 same. split.
  - intros [Hv Hs]. apply etag_digest_inj. by rewrite (etag_payload_ext m1 m2).
  - rewrite etag_digest_inj. intros Heq.
    destruct (decide (etag_payload m1 = etag_payload m2)) as [Hp|Hp].
    + left. by apply etag_payload_inj.
    + right. done.
Qed.

(** The ETag of the empty composition that the documentation and the unit
    tests of the program quote. *)
Example etag_empty :
  etag (mkMasterCode 9 (of_slots (λ _, None)) (py "NNN-NNN-NNN-NNN-NNN-NNN-NNN-NNN") 1
    (DateTime 0 (Some 0)) (DateTime 0 (Some 0)) None)
  = [quote] ++ py "mc-1-659320934c6987cb1e86f80832fe7248649203e6a3a1b12bb3517d97ff40642e" ++ [quote].
Proof. vm_compute. reflexivity. Qed.

(** *** Witnesses: the eight Dimensions of the unit tests *)

Definition test_dim (identifier : Z) (code : string) (v : dim_value) : Dimension :=
  mkDimension (7 * 2 ^ 76 + 2 ^ 63 + identifier) (mkDimensionCode (py code)) v 1
    (witness_time 0) (witness_time 0) None.

Definition test_dimensions : MasterCodeDimensions :=
  mkMasterCodeDimensions
    (Some (test_dim 1 "COM" (CompanyValue (py "COMPANY"))))
    (Some (test_dim 2 "BRA" (BrandValue (py "BRAND"))))
    (Some (test_dim 3 "MOD" (ModelValue (py "MODEL"))))
    (Some (test_dim 4 "CAT" (CategoryValue (py "CATEGORY"))))
    (Some (test_dim 5 "YR2026" (YearValue 2026)))
    None
    (Some (test_dim 7 "NET5" (NetworkGeneration GENERATION_5)))
    (Some (test_dim 8 "KOR" (CountryValue (py "KOREA")))).

Definition test_master_code : MasterCode :=
  mkMasterCode 9 test_dimensions (py "COM-BRA-MOD-CAT-YR2026-NNN-NET5-KOR") 1
    (witness_time 0) (witness_time 0) None.

Lemma test_master_code_valid : mc_valid test_master_code.
Proof. split; try done. by intros _ [] dim [= <-]. Defined.

Lemma test_ids_ok : dims_ids_ok test_dimensions.
Proof. intros [] dim; cbn; intros [= <-]; cbn; unfold uuid_ok; cbn; lia. Defined.

Lemma compose_injective_witness :
  compose test_dimensions ≠ compose (of_slots (λ _, None)).
Proof.
  intros Heq.
  pose proof (proj1 (compose_injective test_dimensions (of_slots (λ _, None)) eq_refl eq_refl)
    Heq Company) as H.
  discriminate H.
Defined.

Lemma compose_shape_witness :
  words (λ c, c =? dash) (compose test_dimensions) =
  [py "COM"; py "BRA"; py "MOD"; py "CAT"; py "YR2026"; py "NNN"; py "NET5"; py "KOR"].
Proof. exact (proj2 (compose_shape test_dimensions eq_refl)). Defined.

Lemma mc_history_witness :
  mc_step test_master_code (mkMasterCode 9 test_dimensions (mc_code test_master_code) 2
    (witness_time 0) (witness_time 5) (Some (witness_time 5))) ∧
  ∀ m', rtc mc_step test_master_code m' → mc_version m' = 1 → m' = test_master_code.
Proof.
  split.
  - by apply (mc_step_delete _ (witness_time 5)).
  - intros m' Hm'. apply (mc_history test_master_code m' test_master_code_valid Hm').
Defined.

Lemma update_references_spec_witness :
  update_references test_master_code (of_slots (λ _, None)) (witness_time 5) =
  Ok (mkMasterCode 9 (of_slots (λ _, None)) (py "NNN-NNN-NNN-NNN-NNN-NNN-NNN-NNN") 2
    (witness_time 0) (witness_time 5) None).
Proof.
  apply (proj1 (proj2 (update_references_spec test_master_code (of_slots (λ _, None))
    (witness_time 5) test_master_code_valid eq_refl ltac:(by vm_compute)))).
  - done.
  - done.
  - by intros [].
Defined.

Lemma mc_delete_restore_witness :
  ∃ m1, MasterCode_delete test_master_code (witness_time 5) = Ok m1 ∧
    MasterCode_restore m1 (witness_time 6) = Ok (mkMasterCode 9 test_dimensions
      (mc_code test_master_code) 3 (witness_time 0) (witness_time 6) None).
Proof.
  destruct (mc_delete_restore test_master_code (witness_time 5) (witness_time 6)
    test_master_code_valid eq_refl eq_refl eq_refl ltac:(by vm_compute) ltac:(by vm_compute))
    as (m1 & H1 & H2 & _).
  by exists m1.
Defined.

Lemma etag_identifies_witness :
  etag test_master_code = etag (mkMasterCode 10 test_dimensions (mc_code test_master_code) 1
    (witness_time 0) (witness_time 7) None).
Proof.
  apply (etag_identifies test_master_code (mkMasterCode 10 test_dimensions
    (mc_code test_master_code) 1 (witness_time 0) (witness_time 7) None)
    test_ids_ok test_ids_ok). done.
Defined.
