(* ===== verification/Store.v ===== *)
(** * The database the repositories write to
    ([src/src/mdm/infrastructure/models.py], [src/src/mdm/infrastructure/audit_context.py],
    the triggers installed by [src/alembic/versions/])

    Eight Dimension tables, the MasterCode table and their append-only logs.
    A write goes through the row triggers (which read the transaction's audit
    context), the CHECK constraints, the unique constraints and the foreign
    keys, in PostgreSQL's order, and appends to the logs; a violation is an
    [IntegrityError] carrying the constraint name the repositories look at,
    empty for a trigger.  A repository method is a function from a database to
    a result and a new database: raising rolls the transaction back.

    Timestamps are stored as UTC instants; reading one gives an aware datetime. *)

From stdpp Require Import countable.
From S2P Require Import Prelude Python Exceptions Auth MutationAudit Dimensions MasterCodes.
Local Open Scope Z_scope.

(** ** Rows *)

Definition slot_index (s : slot) : nat :=
  match s with
  | Company => 0 | Brand => 1 | Model => 2 | Category => 3
  | Year => 4 | Memory => 5 | Network => 6 | Country => 7
  end.
#[export] Instance slot_countable : Countable slot.
Proof. apply (inj_countable slot_index (λ n, ORDER !! n)). by intros []. Defined.

(** The value columns of a Dimension table. *)
Inductive row_value :=
| RString (value : pystr)
| RInt (value : Z)
| RMemory (amount : Z) (unit : pystr).
#[export] Instance row_value_eq_dec : EqDecision row_value.
Proof. solve_decision. Defined.

Record DimRow := mkDimRow {
  r_id : UUID;
  r_code : pystr;
  r_value : row_value;
  r_version : Z;
  r_created_at : Z;
  r_updated_at : Z;
  r_deleted_at : option Z;
}.
#[export] Instance DimRow_eq_dec : EqDecision DimRow.
Proof. solve_decision. Defined.

(** Eight columns, one per slot. *)
Record Slots (A : Type) := mkSlots {
  s_company : A; s_brand : A; s_model : A; s_category : A;
  s_year : A; s_memory : A; s_network : A; s_country : A;
}.
Arguments mkSlots {A}.
Arguments s_company {A}. Arguments s_brand {A}. Arguments s_model {A}. Arguments s_category {A}.
Arguments s_year {A}. Arguments s_memory {A}. Arguments s_network {A}. Arguments s_country {A}.
#[export] Instance Slots_eq_dec `{EqDecision A} : EqDecision (Slots A).
Proof. solve_decision. Defined.

Definition at_slot {A} (x : Slots A) (s : slot) : A :=
  match s with
  | Company => s_company x | Brand => s_brand x | Model => s_model x | Category => s_category x
  | Year => s_year x | Memory => s_memory x | Network => s_network x | Country => s_country x
  end.
Definition slots_of {A} (f : slot → A) : Slots A :=
  mkSlots (f Company) (f Brand) (f Model) (f Category) (f Year) (f Memory) (f Network) (f Country).

Record McRow := mkMcRow {
  m_id : UUID;
  m_refs : Slots (option UUID);
  m_code : pystr;
  m_version : Z;
  m_created_at : Z;
  m_updated_at : Z;
  m_deleted_at : option Z;
}.
#[export] Instance McRow_eq_dec : EqDecision McRow.
Proof. solve_decision. Defined.

(** ** Logs *)

Inductive log_value := LCode (code : pystr) | LValue (value : row_value) | LDeleted (deleted : bool).
#[export] Instance log_value_eq_dec : EqDecision log_value.
Proof. solve_decision. Defined.

Inductive log_field := FIELD_CODE | FIELD_VALUE | FIELD_DELETED.
#[export] Instance log_field_eq_dec : EqDecision log_field.
Proof. solve_decision. Defined.

Record DimLog := mkDimLog {
  dl_slot : slot;
  dl_dimension_id : UUID;
  dl_version : Z;
  dl_operation : DimensionOperation;
  dl_field : log_field;
  dl_old : option log_value;
  dl_new : option log_value;
  dl_metadata : MutationAuditMetadata;
  dl_changed_at : Z;
}.

(** The JSON state of a MasterCode log: references, code and deletion state. *)
Record McState := mkMcState {
  ms_refs : Slots (option UUID);
  ms_code : pystr;
  ms_deleted : bool;
}.
Definition state_of (m : McRow) : McState :=
  mkMcState (m_refs m) (m_code m) (negb (bool_decide (m_deleted_at m = None))).

Record McLog := mkMcLog {
  ml_master_code_id : UUID;
  ml_version : Z;
  ml_operation : option MasterCodeOperation;
  ml_old : option McState;
  ml_new : McState;
  ml_metadata : MutationAuditMetadata;
  ml_changed_at : Z;
}.

Record DB := mkDB {
  dims : gmap (slot * UUID) DimRow;
  mcs : gmap UUID McRow;
  dim_logs : list DimLog;
  mc_logs : list McLog;
}.

(** ** The audit context of a transaction *)

Record AuditContext := mkAuditContext {
  cx_metadata : MutationAuditMetadata;
  cx_mutation_timestamp : Z;
}.
Definition cx_dimension_operation (c : AuditContext) : option DimensionOperation :=
  op_dimension (md_operations (cx_metadata c)).
Definition cx_master_code_operation (c : AuditContext) : option MasterCodeOperation :=
  op_master_code (md_operations (cx_metadata c)).

(** [SqlAlchemyMutationAuditContextWriter.set_context]: [clock] is what
    [clock_timestamp()] returns. *)
Definition set_context (metadata : MutationAuditMetadata) (minimum_timestamp : option datetime)
    (clock : Z) : res (AuditContext * datetime) :=
  _ ← raise_if (match minimum_timestamp with Some t => is_naive t | None => false end)
        (ValueError "minimum mutation timestamp must be timezone-aware");
  let mutation_timestamp :=
    match minimum_timestamp with
    | None => clock
    | Some t => Z.max clock (instant t)
    end in
  Ok (mkAuditContext metadata mutation_timestamp, utc mutation_timestamp).

Lemma set_context_utc (metadata : MutationAuditMetadata) (minimum clock : Z) :
  set_context metadata (Some (utc minimum)) clock =
  Ok (mkAuditContext metadata (Z.max clock minimum), utc (Z.max clock minimum)).
Proof. done. Qed.

(** ** Tables and queries *)

Definition table_name (s : slot) : string :=
  match s with
  | Company => "dimension_companies" | Brand => "dimension_brands" | Model => "dimension_models"
  | Category => "dimension_categories" | Year => "dimension_years"
  | Memory => "dimension_memories" | Network => "dimension_networks"
  | Country => "dimension_countries"
  end.

Definition rows_of (s : slot) (db : DB) : list DimRow :=
  omap (λ '((s', _), r), if bool_decide (s' = s) then Some r else None) (map_to_list (dims db)).
Definition mc_rows (db : DB) : list McRow := (map_to_list (mcs db)).*2.

(** What the unique constraint on a value compares: the value column, or the
    generated column [capacity_mb]. *)
Inductive unique_key := KString (s : pystr) | KInt (z : Z).
#[export] Instance unique_key_eq_dec : EqDecision unique_key.
Proof. solve_decision. Defined.

Definition unit_multiplier (u : pystr) : Z :=
  match MemoryUnit_call u with Some m => MEMORY_UNIT_MULTIPLIERS m | None => 0 end.
Definition row_key (v : row_value) : unique_key :=
  match v with
  | RString s => KString s
  | RInt z => KInt z
  | RMemory a u => KInt (a * unit_multiplier u)
  end.

Definition value_constraint (s : slot) : string :=
  match s with
  | Memory => "uq_" ++ table_name s ++ "_capacity_mb"
  | _ => "uq_" ++ table_name s ++ "_value"
  end.
Definition code_constraint (s : slot) : string := "uq_" ++ table_name s ++ "_code".

(** ** Constraints and triggers of the Dimension tables *)

Definition trigger_error : exn := IntegrityError "".

(** The CHECK constraint on the value columns of each table. *)
Definition ck_value (s : slot) (v : row_value) : bool :=
  match s, v with
  | (Company | Brand | Model | Category | Country), RString x =>
      string_value_pattern x && (length x <=? 128)%nat
  | Year, RInt z => (2000 <=? z) && (z <=? 2999)
  | Network, RInt z => (1 <=? z) && (z <=? 5)
  | Memory, RMemory a u => (0 <? a) && (a <=? 2147483647) && bool_decide (is_Some (MemoryUnit_call u))
  | _, _ => false
  end.

Definition timestamp_order (created updated : Z) (deleted : option Z) : bool :=
  (created <=? updated) &&
  match deleted with None => true | Some t => (created <=? t) && (t <=? updated) end.

Definition ck_dimension (s : slot) (r : DimRow) : res unit :=
  _ ← raise_if (negb (code_pattern (r_code r)))
        (IntegrityError ("ck_" ++ table_name s ++ "_code"));
  _ ← raise_if (only_N (r_code r)) (IntegrityError ("ck_" ++ table_name s ++ "_code_reserved"));
  _ ← raise_if (negb (ck_value s (r_value r))) (IntegrityError ("ck_" ++ table_name s ++ "_value"));
  _ ← raise_if (r_version r <? 1) (IntegrityError ("ck_" ++ table_name s ++ "_version"));
  raise_if (negb (timestamp_order (r_created_at r) (r_updated_at r) (r_deleted_at r)))
    (IntegrityError ("ck_" ++ table_name s ++ "_timestamp_order")).

(** The unique constraints, against the rows with another identifier. *)
Definition uq_dimension (s : slot) (r : DimRow) (db : DB) : res unit :=
  let others := List.filter (λ r', negb (bool_decide (r_id r' = r_id r))) (rows_of s db) in
  _ ← raise_if (existsb (λ r', bool_decide (r_code r' = r_code r)) others)
        (IntegrityError (code_constraint s));
  raise_if (existsb (λ r', bool_decide (row_key (r_value r') = row_key (r_value r))) others)
    (IntegrityError (value_constraint s)).

(** [mdm_dimension_*_before_write], INSERT. *)
Definition dim_before_insert (c : AuditContext) (r : DimRow) : res unit :=
  _ ← raise_if (negb (bool_decide (cx_dimension_operation c = Some DIM_CREATE))) trigger_error;
  raise_if (negb (r_version r =? 1) || negb (r_created_at r =? r_updated_at r)
            || negb (bool_decide (r_deleted_at r = None))) trigger_error.

(** Whether any active MasterCode references the Dimension. *)
Definition active_reference (s : slot) (id : UUID) (db : DB) : bool :=
  existsb (λ m, bool_decide (at_slot (m_refs m) s = Some id) && bool_decide (m_deleted_at m = None))
    (mc_rows db).

Definition raw_value_changed (s : slot) (old new : DimRow) : bool :=
  negb (bool_decide (r_value new = r_value old)).
Definition key_changed (old new : DimRow) : bool :=
  negb (bool_decide (row_key (r_value new) = row_key (r_value old))).

(** The version and timestamp checks every changing update goes through. *)
Definition technical_fields (c : AuditContext) (old_version new_version old_updated new_updated : Z)
    : res unit :=
  raise_if (negb (new_version =? old_version + 1)
            || negb (new_updated =? cx_mutation_timestamp c)
            || (new_updated <? old_updated)) trigger_error.
Definition dim_technical_fields (c : AuditContext) (old new : DimRow) : res unit :=
  technical_fields c (r_version old) (r_version new) (r_updated_at old) (r_updated_at new).

(** The lifecycle branch of the trigger: [DELETE] or [RESTORE]. *)
Definition dim_lifecycle_guard (c : AuditContext) (s : slot) (deleting : bool) (old new : DimRow)
    (db : DB) : res unit :=
  _ ← raise_if (negb (r_id new =? r_id old) || negb (r_created_at new =? r_created_at old)
                || negb (bool_decide (r_code new = r_code old)) || raw_value_changed s old new)
        trigger_error;
  _ ← (if deleting then
         _ ← raise_if (negb (bool_decide (r_deleted_at old = None))
                       || negb (bool_decide (r_deleted_at new = Some (cx_mutation_timestamp c))))
               trigger_error;
         raise_if (active_reference s (r_id old) db) trigger_error
       else
         raise_if (bool_decide (r_deleted_at old = None)
                   || negb (bool_decide (r_deleted_at new = None))) trigger_error);
  dim_technical_fields c old new.

(** The code and value branch of the trigger: [UPDATE]. *)
Definition dim_update_guard (c : AuditContext) (s : slot) (old new : DimRow) : res unit :=
  _ ← raise_if (negb (r_id new =? r_id old) || negb (r_created_at new =? r_created_at old)
                || negb (bool_decide (r_deleted_at new = r_deleted_at old))) trigger_error;
  _ ← raise_if (negb (key_changed old new) && raw_value_changed s old new) trigger_error;
  let code_changed := negb (bool_decide (r_code new = r_code old)) in
  let value_changed := key_changed old new in
  _ ← raise_if (code_changed
                && negb (bool_decide (cx_master_code_operation c = Some MC_RECOMPOSE)))
        trigger_error;
  if code_changed || value_changed then dim_technical_fields c old new
  else raise_if (negb (r_version new =? r_version old)
                 || negb (r_updated_at new =? r_updated_at old)) trigger_error.

(** [mdm_dimension_*_before_write], UPDATE. *)
Definition dim_before_update (c : AuditContext) (s : slot) (old new : DimRow) (db : DB) : res unit :=
  match cx_dimension_operation c with
  | Some DIM_DELETE => dim_lifecycle_guard c s true old new db
  | Some DIM_RESTORE => dim_lifecycle_guard c s false old new db
  | op =>
      _ ← raise_if (negb (bool_decide (r_deleted_at old = None))) trigger_error;
      _ ← raise_if (negb (bool_decide (op = Some DIM_UPDATE))) trigger_error;
      dim_update_guard c s old new
  end.

(** [mdm_dimension_*_after_insert] *)
Definition dim_insert_logs (c : AuditContext) (s : slot) (r : DimRow) : list DimLog :=
  [ mkDimLog s (r_id r) (r_version r) DIM_CREATE FIELD_CODE None (Some (LCode (r_code r)))
      (cx_metadata c) (r_updated_at r);
    mkDimLog s (r_id r) (r_version r) DIM_CREATE FIELD_VALUE None (Some (LValue (r_value r)))
      (cx_metadata c) (r_updated_at r) ].

(** [mdm_dimension_*_after_update] *)
Definition dim_update_logs (c : AuditContext) (s : slot) (old new : DimRow) : list DimLog :=
  let entry op field o n :=
    mkDimLog s (r_id new) (r_version new) op field (Some o) (Some n) (cx_metadata c)
      (r_updated_at new) in
  let deleted r := negb (bool_decide (r_deleted_at r = None)) in
  (if bool_decide (deleted new = deleted old) then []
   else [entry (if deleted new then DIM_DELETE else DIM_RESTORE) FIELD_DELETED
           (LDeleted (deleted old)) (LDeleted (deleted new))]) ++
  (if bool_decide (r_code new = r_code old) then []
   else [entry DIM_UPDATE FIELD_CODE (LCode (r_code old)) (LCode (r_code new))]) ++
  (if key_changed old new
   then [entry DIM_UPDATE FIELD_VALUE (LValue (r_value old)) (LValue (r_value new))]
   else []).

(** [INSERT INTO dimension_*] *)
Definition insert_dimension (c : AuditContext) (s : slot) (r : DimRow) (db : DB) : res DB :=
  _ ← dim_before_insert c r;
  _ ← ck_dimension s r;
  _ ← raise_if (bool_decide (is_Some (dims db !! (s, r_id r))))
        (IntegrityError (table_name s ++ "_pkey"));
  _ ← uq_dimension s r db;
  Ok (mkDB (<[(s, r_id r) := r]> (dims db)) (mcs db)
        (dim_logs db ++ dim_insert_logs c s r) (mc_logs db)).

(** [UPDATE dimension_* ... WHERE id = old.id] *)
Definition update_dimension (c : AuditContext) (s : slot) (old new : DimRow) (db : DB) : res DB :=
  _ ← dim_before_update c s old new db;
  _ ← ck_dimension s new;
  _ ← uq_dimension s new db;
  Ok (mkDB (<[(s, r_id new) := new]> (dims db)) (mcs db)
        (dim_logs db ++ dim_update_logs c s old new) (mc_logs db)).

(** ** Constraints and triggers of the MasterCode table *)

(** [^[A-Z0-9]{1,32}(-[A-Z0-9]{1,32}){7}$] *)
Definition mc_code_pattern (s : pystr) : bool :=
  let parts := str_split dash s in
  (length parts =? 8)%nat && forallb code_pattern parts.

Definition ck_master_code (m : McRow) : res unit :=
  _ ← raise_if (negb (mc_code_pattern (m_code m))) (IntegrityError "ck_master_codes_code");
  _ ← raise_if (m_version m <? 1) (IntegrityError "ck_master_codes_version");
  raise_if (negb (timestamp_order (m_created_at m) (m_updated_at m) (m_deleted_at m)))
    (IntegrityError "ck_master_codes_timestamp_order").

(** The references are compared with NULLS NOT DISTINCT. *)
Definition uq_master_code (m : McRow) (db : DB) : res unit :=
  let others := List.filter (λ m', negb (bool_decide (m_id m' = m_id m))) (mc_rows db) in
  _ ← raise_if (existsb (λ m', bool_decide (m_code m' = m_code m)) others)
        (IntegrityError "uq_master_codes_code");
  raise_if (existsb (λ m', bool_decide (m_refs m' = m_refs m)) others)
    (IntegrityError "uq_master_codes_references").

Definition fk_master_code (m : McRow) (db : DB) : res unit :=
  forR (λ s, match at_slot (m_refs m) s with
             | None => Ok tt
             | Some id => raise_if (negb (bool_decide (is_Some (dims db !! (s, id)))))
                            (IntegrityError ("master_codes_" ++ slot_name s ++ "_id_fkey"))
             end) ORDER.

(** [mdm_master_code_before_write], INSERT. *)
Definition mc_before_insert (c : AuditContext) (m : McRow) : res unit :=
  _ ← raise_if (negb (bool_decide (cx_master_code_operation c = Some MC_CREATE))) trigger_error;
  raise_if (negb (m_version m =? 1) || negb (m_created_at m =? m_updated_at m)
            || negb (m_created_at m =? cx_mutation_timestamp c)
            || negb (bool_decide (m_deleted_at m = None))) trigger_error.

(** [mdm_master_code_before_write], UPDATE. *)
Definition mc_before_update (c : AuditContext) (old new : McRow) : res unit :=
  let references_changed := negb (bool_decide (m_refs new = m_refs old)) in
  let same_code := bool_decide (m_code new = m_code old) in
  _ ← match cx_master_code_operation c with
      | Some MC_RECOMPOSE =>
          raise_if (references_changed || same_code
                    || negb (bool_decide (m_deleted_at new = m_deleted_at old))) trigger_error
      | Some MC_REFERENCE_UPDATE =>
          raise_if (negb references_changed || same_code
                    || negb (bool_decide (m_deleted_at old = None))
                    || negb (bool_decide (m_deleted_at new = None))) trigger_error
      | Some MC_DELETE =>
          raise_if (references_changed || negb same_code
                    || negb (bool_decide (m_deleted_at old = None))
                    || negb (bool_decide (m_deleted_at new = Some (cx_mutation_timestamp c))))
            trigger_error
      | Some MC_RESTORE =>
          raise_if (references_changed || bool_decide (m_deleted_at old = None)
                    || negb (bool_decide (m_deleted_at new = None))) trigger_error
      | _ => Raise trigger_error
      end;
  _ ← raise_if (negb (m_id new =? m_id old) || negb (m_created_at new =? m_created_at old))
        trigger_error;
  technical_fields c (m_version old) (m_version new) (m_updated_at old) (m_updated_at new).

(** [mdm_master_code_after_insert] and [mdm_master_code_after_update] *)
Definition mc_insert_log (c : AuditContext) (m : McRow) : McLog :=
  mkMcLog (m_id m) (m_version m) (Some MC_CREATE) None (state_of m) (cx_metadata c) (m_updated_at m).
Definition mc_update_log (c : AuditContext) (old new : McRow) : McLog :=
  mkMcLog (m_id new) (m_version new) (cx_master_code_operation c) (Some (state_of old))
    (state_of new) (cx_metadata c) (m_updated_at new).

(** [INSERT INTO master_codes] *)
Definition insert_master_code (c : AuditContext) (m : McRow) (db : DB) : res DB :=
  _ ← mc_before_insert c m;
  _ ← ck_master_code m;
  _ ← raise_if (bool_decide (is_Some (mcs db !! m_id m))) (IntegrityError "master_codes_pkey");
  _ ← uq_master_code m db;
  _ ← fk_master_code m db;
  Ok (mkDB (dims db) (<[m_id m := m]> (mcs db)) (dim_logs db) (mc_logs db ++ [mc_insert_log c m])).

(** [UPDATE master_codes ... WHERE id = old.id] *)
Definition update_master_code (c : AuditContext) (old new : McRow) (db : DB) : res DB :=
  _ ← mc_before_update c old new;
  _ ← ck_master_code new;
  _ ← uq_master_code new db;
  _ ← fk_master_code new db;
  Ok (mkDB (dims db) (<[m_id new := new]> (mcs db)) (dim_logs db)
        (mc_logs db ++ [mc_update_log c old new])).

#[global] Arguments uq_dimension : simpl never.
#[global] Arguments uq_master_code : simpl never.
#[global] Arguments fk_master_code : simpl never.
#[global] Arguments ck_dimension : simpl never.
#[global] Arguments ck_master_code : simpl never.
#[global] Arguments mc_before_insert : simpl never.
#[global] Arguments mc_before_update : simpl never.
#[global] Arguments dim_before_insert : simpl never.
#[global] Arguments dim_before_update : simpl never.
#[global] Arguments insert_dimension : simpl never.
#[global] Arguments update_dimension : simpl never.
#[global] Arguments insert_master_code : simpl never.
#[global] Arguments update_master_code : simpl never.
