(* ===== verification/Records.v ===== *)
(** * From rows to domain values and back
    (the [_SLOTS] table and the joined reads of
    [src/src/mdm/infrastructure/repositories/master_codes.py], and the
    [_to_domain] functions of the Dimension repositories)

    Reading a row runs the validating constructors of the domain again.  The
    consistency invariant [db_ok] of the database says what the rows, their
    references and the logs satisfy between transactions; the lemmas here give
    what reading a consistent database returns. *)

From S2P Require Import Prelude Python Exceptions Auth MutationAudit Dimensions MasterCodes Store.
Local Open Scope Z_scope.

Section unicode.
Context `{UnicodeData}.

(** [config.to_domain(record).value]: the value class of the slot applied to the
    value columns.  A table's columns have one type, so the last case does not
    arise. *)
Definition value_to_domain (s : slot) (v : row_value) : res dim_value :=
  match s, v with
  | Company, RString x => CompanyValue_init (VStr x)
  | Brand, RString x => BrandValue_init (VStr x)
  | Model, RString x => ModelValue_init (VStr x)
  | Category, RString x => CategoryValue_init (VStr x)
  | Country, RString x => CountryValue_init (VStr x)
  | Year, RInt z => YearValue_init (VInt z)
  | Network, RInt z => NetworkGeneration_call (VInt z)
  | Memory, RMemory a u =>
      match MemoryUnit_call u with
      | Some m => v ← MemoryValue_init (VInt a) m; Ok (MemoryValue v)
      | None => Raise (ValueError "not a valid MemoryUnit")
      end
  | _, _ => Raise AssertionError
  end.

(** [_common_dimension] *)
Definition row_to_domain (s : slot) (r : DimRow) : res Dimension :=
  value ← value_to_domain s (r_value r);
  code ← DimensionCode_init (VStr (r_code r));
  Dimension_init (mkDimension (r_id r) code value (r_version r) (utc (r_created_at r))
    (utc (r_updated_at r)) (utc <$> r_deleted_at r)).

(** [config.record_values(value)] *)
Definition value_to_row (v : dim_value) : row_value :=
  match v with
  | CompanyValue x | ModelValue x | BrandValue x | CountryValue x | CategoryValue x => RString x
  | YearValue z => RInt z
  | NetworkGeneration g => RInt (network_value g)
  | MemoryValue m => RMemory (amount m) (unit_str (unit_of m))
  end.

(** ** Joined reads of a MasterCode *)

(** The LEFT OUTER JOIN of one slot. *)
Definition joined_slot (db : DB) (m : McRow) (s : slot) : option DimRow :=
  id ← at_slot (m_refs m) s; dims db !! (s, id).

(** [{slot: ... for slot in ORDER}] with a body that may raise, followed by
    [MasterCodeDimensions(...)]. *)
Definition build_dimensions (f : slot → res (option Dimension)) : res MasterCodeDimensions :=
  c ← f Company; b ← f Brand; m ← f Model; g ← f Category;
  y ← f Year; e ← f Memory; n ← f Network; k ← f Country;
  MasterCodeDimensions_init (mkMasterCodeDimensions c b m g y e n k).

(** [_master_code] *)
Definition master_code (m : McRow) (dimensions : MasterCodeDimensions) : res MasterCode :=
  MasterCode_init (mkMasterCode (m_id m) dimensions (m_code m) (m_version m)
    (utc (m_created_at m)) (utc (m_updated_at m)) (utc <$> m_deleted_at m)).

Definition slot_to_domain (s : slot) (r : option DimRow) : res (option Dimension) :=
  match r with None => Ok None | Some r => d ← row_to_domain s r; Ok (Some d) end.

(** [_joined_to_domain] *)
Definition joined_to_domain (db : DB) (m : McRow) : res MasterCode :=
  dimensions ← build_dimensions (λ s, slot_to_domain s (joined_slot db m s));
  master_code m dimensions.
End unicode.

(** ** Well-formed rows *)

(** What a row means: the value of the slot's class, for any value the columns
    can hold. *)
Definition value_dom (s : slot) (v : row_value) : option dim_value :=
  match s, v with
  | Company, RString x => Some (CompanyValue x)
  | Brand, RString x => Some (BrandValue x)
  | Model, RString x => Some (ModelValue x)
  | Category, RString x => Some (CategoryValue x)
  | Country, RString x => Some (CountryValue x)
  | Year, RInt z => Some (YearValue z)
  | Network, RInt z =>
      NetworkGeneration <$> find (λ g, network_value g =? z)
        [GENERATION_1; GENERATION_2; GENERATION_3; GENERATION_4; GENERATION_5]
  | Memory, RMemory a u => (λ m, MemoryValue (mkMemoryValue a m)) <$> MemoryUnit_call u
  | _, _ => None
  end.

Record dim_row_wf (s : slot) (r : DimRow) : Prop := {
  rw_code : code_wf (mkDimensionCode (r_code r)) = true;
  rw_value : ∃ v, value_dom s (r_value r) = Some v ∧ value_wf v = true;
  rw_version : 1 ≤ r_version r;
  rw_order : r_created_at r ≤ r_updated_at r;
  rw_first : r_version r = 1 → r_updated_at r = r_created_at r;
  rw_deleted : ∀ t, r_deleted_at r = Some t → r_created_at r ≤ t ≤ r_updated_at r;
}.

(** The Dimension a well-formed row reads as. *)
Definition row_dimension (s : slot) (r : DimRow) : option Dimension :=
  v ← value_dom s (r_value r);
  Some (mkDimension (r_id r) (mkDimensionCode (r_code r)) v (r_version r) (utc (r_created_at r))
    (utc (r_updated_at r)) (utc <$> r_deleted_at r)).

Lemma value_dom_slot s v d : value_dom s v = Some d → slot_of_value d = s.
Proof.
  destruct s, v; try discriminate; try (intros [= <-]; done);
    unfold value_dom; intros (? & _ & ->)%fmap_Some; done.
Qed.

Lemma value_dom_row s v d : value_dom s v = Some d → value_to_row d = v.
Proof.
  destruct s, v; try discriminate; try (intros [= <-]; done);
    unfold value_dom; intros (x & Hx & ->)%fmap_Some.
  - apply MemoryUnit_call_Some in Hx as ->. done.
  - apply find_some in Hx as [_ Hx%Z.eqb_eq]. cbn. by rewrite Hx.
Qed.

Lemma value_to_row_dom d : value_dom (slot_of_value d) (value_to_row d) = Some d.
Proof. destruct d as [| | | | | |g|[a u]]; cbn; try done; [by destruct g|by destruct u]. Qed.

Lemma code_wf_eta s : code_wf (mkDimensionCode s) = code_pattern s && negb (only_N s).
Proof. done. Qed.

Lemma ck_value_spec s v :
  ck_value s v = true ↔ ∃ d, value_dom s v = Some d ∧ value_wf d = true.
Proof.
  assert (∀ x, string_value_pattern x && (length x <=? 128)%nat =
    (length x <=? 128)%nat && string_value_pattern x) as Hcomm by (intros; apply andb_comm).
  destruct s, v as [x|z|a u]; try (split; [discriminate|by intros (? & ? & ?)]);
    unfold ck_value; rewrite ?Hcomm; try (split; [eauto|by intros (? & [= <-] & ?)]).
  - unfold value_dom. destruct (MemoryUnit_call u) as [m|]; cbn.
    + rewrite andb_true_r. split; [intros ?; eexists; split; [done|]; cbn; lia|].
      intros (? & [= <-] & ?). cbn in *. lia.
    + rewrite andb_false_r. split; [done|]. by intros (? & ? & ?).
  - split; [intros [? ?]%andb_true_iff|].
    + assert (z = 1 ∨ z = 2 ∨ z = 3 ∨ z = 4 ∨ z = 5) as Hz by lia.
      destruct Hz as [->|[->|[->|[->| ->]]]]; cbn; eauto.
    + intros (d & (g & Hg & ->)%fmap_Some & _). apply find_some in Hg as [_ <-%Z.eqb_eq].
      by destruct g.
Qed.

Lemma ck_dimension_Ok (s : slot) (r : DimRow) :
  ck_dimension s r = Ok tt ↔
  code_wf (mkDimensionCode (r_code r)) = true ∧
  (∃ v, value_dom s (r_value r) = Some v ∧ value_wf v = true) ∧
  1 ≤ r_version r ∧ r_created_at r ≤ r_updated_at r ∧
  (∀ t, r_deleted_at r = Some t → r_created_at r ≤ t ≤ r_updated_at r).
Proof.
  rewrite <- ck_value_spec, code_wf_eta. unfold ck_dimension, timestamp_order. split.
  - intros Hok.
    apply bind_Ok in Hok as (_ & Hc%raise_if_Ok%negb_false_iff & Hok).
    apply bind_Ok in Hok as (_ & Hn%raise_if_Ok & Hok).
    apply bind_Ok in Hok as (_ & Hv%raise_if_Ok%negb_false_iff & Hok).
    apply bind_Ok in Hok as (_ & Hver%raise_if_Ok & Ht%raise_if_Ok%negb_false_iff).
    apply andb_true_iff in Ht as [Ho Hd]. rewrite Hc, Hn. split_and!; [done|done|lia|lia|].
    intros t Ht. rewrite Ht in Hd. lia.
  - intros ([Hc Hn]%andb_true_iff & Hv & Hver & Ho & Hd). rewrite Hc, Hv. cbn.
    apply negb_true_iff in Hn as ->. cbn. replace (r_version r <? 1) with false by lia. cbn.
    replace (r_created_at r <=? r_updated_at r) with true by lia. cbn.
    destruct (r_deleted_at r) as [t|]; [|done]. specialize (Hd t eq_refl).
    by replace ((r_created_at r <=? t) && (t <=? r_updated_at r)) with true by lia.
Qed.

(** The CHECK constraints and the domain constructors agree: a row passes
    the constraints of its table exactly when its code and value are
    well-formed values of the slot's class and its timestamps are ordered. *)
Theorem ck_dimension_spec (s : slot) (r : DimRow) :
  ck_dimension s r = Ok tt ↔
  code_wf (mkDimensionCode (r_code r)) = true ∧
  (∃ v, value_dom s (r_value r) = Some v ∧ value_wf v = true) ∧
  1 ≤ r_version r ∧ r_created_at r ≤ r_updated_at r ∧
  (∀ t, r_deleted_at r = Some t → r_created_at r ≤ t ≤ r_updated_at r).
Proof. apply ck_dimension_Ok. Qed.

(** ** Reading a well-formed row *)

Section unicode.
Context `{UnicodeData}.

Lemma value_to_domain_wf s v d :
  value_dom s v = Some d → value_wf d = true → value_to_domain s v = Ok d.
Proof.
  destruct s, v as [x|z|a u]; try discriminate; unfold value_dom;
    try (intros [= <-] Hwf; unfold value_to_domain, CompanyValue_init, BrandValue_init,
           ModelValue_init, CategoryValue_init, CountryValue_init;
         by rewrite (normalize_stored x Hwf)).
  - intros [= <-] Hwf. cbn in *. by rewrite Hwf.
  - intros (m & Hm & ->)%fmap_Some Hwf. unfold value_to_domain. rewrite Hm. cbn in *.
    by rewrite Hwf.
  - intros (g & Hg & ->)%fmap_Some _. unfold value_to_domain, NetworkGeneration_call.
    by rewrite Hg.
Qed.

Lemma row_to_domain_wf s r : dim_row_wf s r →
  ∃ d, row_dimension s r = Some d ∧ row_to_domain s r = Ok d ∧ dim_valid d ∧
    code_wf (dim_code d) = true ∧ value_wf (dim_value_of d) = true ∧
    slot_of_value (dim_value_of d) = s.
Proof.
  intros [Hc (v & Hv & Hwf) Hver Ho Hf Hd]. unfold row_dimension. rewrite Hv. cbn.
  eexists. split; [done|].
  assert (dim_valid (mkDimension (r_id r) (mkDimensionCode (r_code r)) v (r_version r)
    (utc (r_created_at r)) (utc (r_updated_at r)) (utc <$> r_deleted_at r))) as Hval.
  { split; cbn; try done. intros t (t' & Ht' & ->)%fmap_Some. split; [done|]. by apply Hd. }
  split_and!; try done; cbn.
  - unfold row_to_domain. rewrite (value_to_domain_wf s _ v) by done. cbn.
    change (r_code r) with (code_value (mkDimensionCode (r_code r))) at 1.
    rewrite DimensionCode_init_stored by done. cbn. by apply Dimension_init_Ok.
  - by apply value_dom_slot in Hv.
Qed.

Lemma build_dimensions_total f d :
  (∀ s, f s = Ok (get_slot d s)) → build_dimensions f = MasterCodeDimensions_init d.
Proof.
  intros Hf. unfold build_dimensions. rewrite !Hf. by destruct d.
Qed.

Lemma MasterCodeDimensions_init_Ok d d' :
  MasterCodeDimensions_init d = Ok d' ↔
  d' = d ∧ ∀ s dim, get_slot d s = Some dim → slot_of_value (dim_value_of dim) = s.
Proof.
  unfold MasterCodeDimensions_init. rewrite bind_Ok. setoid_rewrite forR_Ok.
  setoid_rewrite Forall_forall. split.
  - intros (_ & Hall & [= <-]). split; [done|]. intros s dim Hs.
    specialize (Hall s (slot_in_ORDER s)). rewrite Hs in Hall.
    by apply raise_if_Ok, negb_false_iff, bool_decide_eq_true in Hall.
  - intros [-> Hall]. exists tt. split; [|done]. intros s _.
    destruct (get_slot d s) as [dim|] eqn:E; [|done].
    apply raise_if_Ok, negb_false_iff, bool_decide_eq_true. eauto.
Qed.
Lemma build_dimensions_Ok f d :
  build_dimensions f = Ok d →
  (∀ s, f s = Ok (get_slot d s)) ∧ MasterCodeDimensions_init d = Ok d.
Proof.
  unfold build_dimensions. intros Hok.
  do 8 (apply bind_Ok in Hok as (? & ? & Hok)).
  pose proof Hok as Hi. apply MasterCodeDimensions_init_Ok in Hok as [-> _].
  split; [|done]. by intros [].
Qed.
End unicode.

#[global] Arguments row_to_domain {_} : simpl never.
#[global] Arguments row_dimension : simpl never.
#[global] Arguments master_code : simpl never.
#[global] Arguments MasterCodeDimensions_init : simpl never.
#[global] Arguments build_dimensions : simpl never.
