(* ===== verification/Invariant.v ===== *)
(** * The invariants of the database

    [store_ok] is what the constraints and the triggers guarantee whoever
    writes: well-formed rows, unique codes, values and references, no dangling
    reference, and logs that reconstruct the current rows.  [consistent] is
    what the repositories maintain on top of it: every MasterCode's code is
    the composition of the rows it references, and an active MasterCode
    references active rows only. *)

From S2P Require Import Prelude Python Exceptions Auth MutationAudit Dimensions MasterCodes Store Records.
Local Open Scope Z_scope.

(** ** Queries *)

Lemma elem_of_rows_of s db r : r ∈ rows_of s db ↔ ∃ id, dims db !! (s, id) = Some r.
Proof.
  unfold rows_of. rewrite list_elem_of_omap. split.
  - intros ([[s' id] r'] & Hin & Hr). apply elem_of_map_to_list in Hin.
    case_bool_decide; [|done]. injection Hr as ->. subst. by exists id.
  - intros [id Hid]. exists ((s, id), r). split; [by apply elem_of_map_to_list|].
    by rewrite bool_decide_eq_true_2.
Qed.

Lemma elem_of_mc_rows db m : m ∈ mc_rows db ↔ ∃ id, mcs db !! id = Some m.
Proof.
  unfold mc_rows. rewrite list_elem_of_fmap. split.
  - intros ([id m'] & -> & Hin). apply elem_of_map_to_list in Hin. by exists id.
  - intros [id Hid]. exists (id, m). split; [done|]. by apply elem_of_map_to_list.
Qed.

Lemma existsb_elem_of {A} (f : A → bool) l : existsb f l = true ↔ ∃ x, x ∈ l ∧ f x = true.
Proof. rewrite existsb_exists. by setoid_rewrite list_elem_of_In. Qed.

Lemma existsb_elem_of_false {A} (f : A → bool) l :
  existsb f l = false ↔ ∀ x, x ∈ l → f x = false.
Proof. by rewrite existsb_false, Forall_forall. Qed.

Lemma active_reference_true s id db :
  active_reference s id db = true ↔
  ∃ k m, mcs db !! k = Some m ∧ at_slot (m_refs m) s = Some id ∧ m_deleted_at m = None.
Proof.
  unfold active_reference. rewrite existsb_elem_of. setoid_rewrite elem_of_mc_rows.
  setoid_rewrite andb_true_iff. setoid_rewrite bool_decide_eq_true. naive_solver.
Qed.

(** The conflict searches of the unique constraints: no row with another
    identifier satisfies the test. *)
Lemma no_other_row {A} (id : A → UUID) (test : A → bool) (l : list A) (i : UUID) :
  existsb test (List.filter (λ x, negb (bool_decide (id x = i))) l) = false ↔
  ∀ x, x ∈ l → id x ≠ i → test x = false.
Proof.
  rewrite existsb_elem_of_false. split.
  - intros Hall x Hx Hne. apply Hall, elem_of_filter_bool. split; [done|].
    by apply negb_true_iff, bool_decide_eq_false.
  - intros Hall x [Hx Hne%negb_true_iff%bool_decide_eq_false]%elem_of_filter_bool. by apply Hall.
Qed.

Lemma uq_dimension_Ok s r db u :
  uq_dimension s r db = Ok u ↔
  ∀ id r', dims db !! (s, id) = Some r' → r_id r' ≠ r_id r →
    r_code r' ≠ r_code r ∧ row_key (r_value r') ≠ row_key (r_value r).
Proof.
  destruct u. unfold uq_dimension. rewrite bind_Ok. setoid_rewrite raise_if_Ok.
  setoid_rewrite no_other_row. setoid_rewrite elem_of_rows_of. setoid_rewrite bool_decide_eq_false.
  split.
  - intros (_ & Hc & Hk) id r' Hr Hne. split; [apply Hc|apply Hk]; eauto.
  - intros Hall. exists tt. split; intros r' [id Hr] Hne; by eapply Hall.
Qed.

Lemma uq_master_code_Ok m db u :
  uq_master_code m db = Ok u ↔
  ∀ id m', mcs db !! id = Some m' → m_id m' ≠ m_id m →
    m_code m' ≠ m_code m ∧ m_refs m' ≠ m_refs m.
Proof.
  destruct u. unfold uq_master_code. rewrite bind_Ok. setoid_rewrite raise_if_Ok.
  setoid_rewrite no_other_row. setoid_rewrite elem_of_mc_rows. setoid_rewrite bool_decide_eq_false.
  split.
  - intros (_ & Hc & Hk) id m' Hm Hne. split; [apply Hc|apply Hk]; eauto.
  - intros Hall. exists tt. split; intros m' [id Hm] Hne; by eapply Hall.
Qed.

Lemma fk_master_code_Ok m db u :
  fk_master_code m db = Ok u ↔
  ∀ s id, at_slot (m_refs m) s = Some id → is_Some (dims db !! (s, id)).
Proof.
  unfold fk_master_code. rewrite forR_Ok, Forall_forall. split.
  - intros Hall s id Hid. specialize (Hall s (slot_in_ORDER s)). rewrite Hid in Hall.
    by apply raise_if_Ok, negb_false_iff, bool_decide_eq_true in Hall.
  - intros Hall s _. destruct (at_slot (m_refs m) s) as [id|] eqn:E; [|done].
    apply raise_if_Ok, negb_false_iff, bool_decide_eq_true. eauto.
Qed.

Lemma slots_ext {A} (x y : Slots A) : (∀ s, at_slot x s = at_slot y s) → x = y.
Proof.
  destruct x, y. intros H. f_equal; [apply (H Company)|apply (H Brand)|apply (H Model)|
    apply (H Category)|apply (H Year)|apply (H Memory)|apply (H Network)|apply (H Country)].
Qed.

Lemma at_slots_of {A} (f : slot → A) s : at_slot (slots_of f) s = f s.
Proof. by destruct s. Qed.

(** ** Logs reconstruct rows *)

Record dim_snapshot := mkSnapshot {
  sn_code : option pystr;
  sn_value : option row_value;
  sn_deleted : bool;
  sn_version : Z;
}.

Definition empty_snapshot : dim_snapshot := mkSnapshot None None false 0.
Definition row_deleted (r : DimRow) : bool := negb (bool_decide (r_deleted_at r = None)).
Definition snapshot_of (r : DimRow) : dim_snapshot :=
  mkSnapshot (Some (r_code r)) (Some (r_value r)) (row_deleted r) (r_version r).

(** Replaying one entry: its old value must be the current one. *)
Definition apply_dim_log (sn : dim_snapshot) (l : DimLog) : option dim_snapshot :=
  match dl_field l, dl_new l with
  | FIELD_CODE, Some (LCode c) =>
      if bool_decide (dl_old l = LCode <$> sn_code sn)
      then Some (mkSnapshot (Some c) (sn_value sn) (sn_deleted sn) (dl_version l)) else None
  | FIELD_VALUE, Some (LValue v) =>
      if bool_decide (dl_old l = LValue <$> sn_value sn)
      then Some (mkSnapshot (sn_code sn) (Some v) (sn_deleted sn) (dl_version l)) else None
  | FIELD_DELETED, Some (LDeleted d) =>
      if bool_decide (dl_old l = Some (LDeleted (sn_deleted sn)))
      then Some (mkSnapshot (sn_code sn) (sn_value sn) d (dl_version l)) else None
  | _, _ => None
  end.
Fixpoint replay (sn : dim_snapshot) (h : list DimLog) : option dim_snapshot :=
  match h with
  | [] => Some sn
  | l :: h' => sn' ← apply_dim_log sn l; replay sn' h'
  end.

Definition dim_history_of (s : slot) (id : UUID) (logs : list DimLog) : list DimLog :=
  List.filter (λ l, bool_decide (dl_slot l = s) && (dl_dimension_id l =? id)) logs.
Definition mc_history_of (id : UUID) (logs : list McLog) : list McLog :=
  List.filter (λ l, ml_master_code_id l =? id) logs.

(** The states a MasterCode's log goes through: it starts with the creation of
    version 1, and every later entry takes the previous state to the next
    version. *)
Inductive mc_log_chain : list McLog → McState → Z → Prop :=
| chain_create l :
    ml_old l = None → ml_operation l = Some MC_CREATE → ml_version l = 1 →
    mc_log_chain [l] (ml_new l) 1
| chain_step h st version l :
    mc_log_chain h st version → ml_old l = Some st → ml_operation l ≠ Some MC_CREATE →
    ml_version l = version + 1 → mc_log_chain (h ++ [l]) (ml_new l) (version + 1).

Lemma replay_app sn h1 h2 : replay sn (h1 ++ h2) = sn' ← replay sn h1; replay sn' h2.
Proof.
  revert sn; induction h1 as [|l h1 IH]; intros sn; cbn; [done|].
  destruct (apply_dim_log sn l); cbn; [apply IH|done].
Qed.

Lemma dim_history_app s id l1 l2 :
  dim_history_of s id (l1 ++ l2) = dim_history_of s id l1 ++ dim_history_of s id l2.
Proof. apply List.filter_app. Qed.

Lemma mc_history_app id l1 l2 :
  mc_history_of id (l1 ++ l2) = mc_history_of id l1 ++ mc_history_of id l2.
Proof. apply List.filter_app. Qed.

(** Entries that all concern one Dimension. *)
Lemma dim_history_all s id l :
  Forall (λ e, dl_slot e = s ∧ dl_dimension_id e = id) l → dim_history_of s id l = l.
Proof.
  unfold dim_history_of. induction 1 as [|e l [<- <-] _ IH]; [done|]. cbn.
  by rewrite bool_decide_eq_true_2, Z.eqb_refl, IH by done.
Qed.

Lemma dim_history_none s id s' id' l :
  Forall (λ e, dl_slot e = s ∧ dl_dimension_id e = id) l → (s, id) ≠ (s', id') →
  dim_history_of s' id' l = [].
Proof.
  unfold dim_history_of. intros Hl Hne. induction Hl as [|e l [<- <-] _ IH]; [done|]. cbn.
  destruct (bool_decide (dl_slot e = s')) eqn:Es, (Z.eqb_spec (dl_dimension_id e) id'); cbn;
    try exact IH.
  apply bool_decide_eq_true in Es. subst. done.
Qed.

Lemma insert_logs_own c s r :
  Forall (λ e, dl_slot e = s ∧ dl_dimension_id e = r_id r) (dim_insert_logs c s r).
Proof. by repeat constructor. Qed.

Lemma update_logs_own c s old new :
  Forall (λ e, dl_slot e = s ∧ dl_dimension_id e = r_id new) (dim_update_logs c s old new).
Proof.
  unfold dim_update_logs. repeat apply Forall_app_2; case_match; by repeat constructor.
Qed.

Lemma insert_logs_replay c s r :
  r_deleted_at r = None →
  replay empty_snapshot (dim_insert_logs c s r) = Some (snapshot_of r).
Proof. intros Hd. unfold snapshot_of, row_deleted. by rewrite Hd. Qed.

(** The entries of an update take the old row to the new one, when the update
    changes something or keeps the version. *)
Lemma update_logs_replay c s old new :
  (key_changed old new = false → r_value new = r_value old) →
  (row_deleted new = row_deleted old → r_code new = r_code old → key_changed old new = false →
   r_version new = r_version old) →
  replay (snapshot_of old) (dim_update_logs c s old new) = Some (snapshot_of new).
Proof.
  intros Hval Hver. unfold dim_update_logs. rewrite !replay_app. unfold snapshot_of.
  change (negb (bool_decide (r_deleted_at new = None))) with (row_deleted new).
  change (negb (bool_decide (r_deleted_at old = None))) with (row_deleted old).
  destruct (bool_decide (row_deleted new = row_deleted old)) eqn:Ed;
    [apply bool_decide_eq_true in Ed|apply bool_decide_eq_false in Ed];
    destruct (bool_decide (r_code new = r_code old)) eqn:Ec;
    [apply bool_decide_eq_true in Ec|apply bool_decide_eq_false in Ec| |];
    try (apply bool_decide_eq_true in Ec); try (apply bool_decide_eq_false in Ec);
    destruct (key_changed old new) eqn:Ek;
    cbn; unfold apply_dim_log; cbn;
    repeat (rewrite bool_decide_eq_true_2 by done; cbn);
    rewrite ?Hval by done; rewrite <- ?Ed, <- ?Ec; rewrite <- ?Hver by done; done.
Qed.

#[global] Arguments dim_history_of : simpl never.
#[global] Arguments mc_history_of : simpl never.

(** ** What constraints and triggers guarantee *)

Record mc_row_wf (m : McRow) : Prop := {
  mw_code : mc_code_pattern (m_code m) = true;
  mw_version : 1 ≤ m_version m;
  mw_order : m_created_at m ≤ m_updated_at m;
  mw_first : m_version m = 1 → m_updated_at m = m_created_at m;
  mw_deleted : ∀ t, m_deleted_at m = Some t → m_created_at m ≤ t ≤ m_updated_at m;
}.

Record store_ok (db : DB) : Prop := {
  so_dim : ∀ s id r, dims db !! (s, id) = Some r → r_id r = id ∧ dim_row_wf s r;
  so_code : ∀ s i j r q, dims db !! (s, i) = Some r → dims db !! (s, j) = Some q →
    r_code r = r_code q → i = j;
  so_key : ∀ s i j r q, dims db !! (s, i) = Some r → dims db !! (s, j) = Some q →
    row_key (r_value r) = row_key (r_value q) → i = j;
  so_mc : ∀ id m, mcs db !! id = Some m → m_id m = id ∧ mc_row_wf m;
  so_mc_code : ∀ i j m n, mcs db !! i = Some m → mcs db !! j = Some n →
    m_code m = m_code n → i = j;
  so_refs : ∀ i j m n, mcs db !! i = Some m → mcs db !! j = Some n →
    m_refs m = m_refs n → i = j;
  so_fk : ∀ id m s ref, mcs db !! id = Some m → at_slot (m_refs m) s = Some ref →
    is_Some (dims db !! (s, ref));
  so_dim_log : ∀ s id, match dims db !! (s, id) with
    | Some r => replay empty_snapshot (dim_history_of s id (dim_logs db)) = Some (snapshot_of r)
    | None => dim_history_of s id (dim_logs db) = []
    end;
  so_mc_log : ∀ id, match mcs db !! id with
    | Some m => mc_log_chain (mc_history_of id (mc_logs db)) (state_of m) (m_version m)
    | None => mc_history_of id (mc_logs db) = []
    end;
}.

Lemma mc_rows_NoDup db : store_ok db → NoDup (m_id <$> mc_rows db).
Proof.
  intros Hok. unfold mc_rows. rewrite <- list_fmap_compose.
  rewrite (list_fmap_ext _ fst); [apply NoDup_fst_map_to_list|].
  intros i [k m] Hkm. cbn. apply list_elem_of_lookup_2, elem_of_map_to_list in Hkm.
  by destruct (so_mc _ Hok _ _ Hkm).
Qed.

Lemma rows_of_NoDup s db : store_ok db → NoDup (r_id <$> rows_of s db).
Proof.
  intros Hok. unfold rows_of.
  assert (∀ l : list ((slot * UUID) * DimRow), (∀ k r, (k, r) ∈ l → r_id r = k.2) → NoDup l.*1 →
    NoDup (r_id <$> omap (λ '((s', _), r), if bool_decide (s' = s) then Some r else None) l)) as Hl.
  { induction l as [|[[s' i] r] l IH]; [constructor|]. intros Hid [Hi Hnd]%NoDup_cons.
    assert (NoDup (r_id <$> omap (λ '((s', _), r), if bool_decide (s' = s) then Some r else None) l))
      as Htail by (apply IH; [intros k q Hq; apply Hid; by right|done]).
    cbn. case_bool_decide as Es; [|exact Htail]. cbn. apply NoDup_cons. split; [|exact Htail].
    intros (q & E & Hq)%list_elem_of_fmap. apply list_elem_of_omap in Hq as ([[s2 j] q2] & Hin & Hq).
    case_bool_decide; [|done]. injection Hq as ->. apply Hi.
    pose proof (Hid (s', i) r ltac:(by left)) as E1. pose proof (Hid (s2, j) q ltac:(by right)) as E2.
    cbn in E1, E2. apply list_elem_of_fmap. exists ((s2, j), q). split; [cbn; congruence|done]. }
  apply Hl; [|apply NoDup_fst_map_to_list]. intros [s' i] r Hr%elem_of_map_to_list.
  by destruct (so_dim _ Hok _ _ _ Hr).
Qed.

(** One row write. *)
Inductive store_step : DB → DB → Prop :=
| step_insert_dimension c s r db db' : insert_dimension c s r db = Ok db' → store_step db db'
| step_update_dimension c s old new db db' :
    dims db !! (s, r_id old) = Some old → update_dimension c s old new db = Ok db' →
    store_step db db'
| step_insert_master_code c m db db' : insert_master_code c m db = Ok db' → store_step db db'
| step_update_master_code c old new db db' :
    mcs db !! m_id old = Some old → update_master_code c old new db = Ok db' →
    store_step db db'.

Definition empty_db : DB := mkDB ∅ ∅ [] [].

(** *** The triggers *)

Lemma dim_before_insert_Ok c r u :
  dim_before_insert c r = Ok u ↔
  cx_dimension_operation c = Some DIM_CREATE ∧ r_version r = 1 ∧
  r_created_at r = r_updated_at r ∧ r_deleted_at r = None.
Proof.
  destruct u. unfold dim_before_insert. split.
  - intros Hok.
    apply bind_Ok in Hok as (_ & Hop%raise_if_Ok%negb_false_iff%bool_decide_eq_true & Hok).
    apply raise_if_Ok, orb_false_iff in Hok as [Hok Hd%negb_false_iff%bool_decide_eq_true].
    apply orb_false_iff in Hok as [?%negb_false_iff%Z.eqb_eq ?%negb_false_iff%Z.eqb_eq]. done.
  - intros (Hop & Hv & Hc & Hd). by rewrite Hop, Hv, Hc, Hd, !Z.eqb_refl.
Qed.

Lemma technical_fields_Ok c ov nv ou nu u :
  technical_fields c ov nv ou nu = Ok u ↔
  nv = ov + 1 ∧ nu = cx_mutation_timestamp c ∧ ou ≤ nu.
Proof.
  destruct u. unfold technical_fields. rewrite raise_if_Ok, !orb_false_iff, !negb_false_iff.
  rewrite !Z.eqb_eq, Z.ltb_ge. tauto.
Qed.

(** What any accepted update of a Dimension row satisfies. *)
Definition dim_update_shape (old new : DimRow) : Prop :=
  r_id new = r_id old ∧ r_created_at new = r_created_at old ∧
  (r_version new = r_version old ∧ r_updated_at new = r_updated_at old ∧
   r_deleted_at new = r_deleted_at old ∨ r_version new = r_version old + 1) ∧
  (key_changed old new = false → r_value new = r_value old) ∧
  (row_deleted new = row_deleted old → r_code new = r_code old → key_changed old new = false →
   r_version new = r_version old).

Lemma dim_lifecycle_guard_shape c s del old new db u :
  dim_lifecycle_guard c s del old new db = Ok u → dim_update_shape old new.
Proof.
  unfold dim_lifecycle_guard. intros Hok.
  apply bind_Ok in Hok as (_ & Hprot%raise_if_Ok & Hok).
  apply bind_Ok in Hok as ([] & Hdel & (Hver & _)%technical_fields_Ok).
  apply orb_false_iff in Hprot as [Hprot Hraw%negb_false_iff%bool_decide_eq_true].
  apply orb_false_iff in Hprot as [Hprot _].
  apply orb_false_iff in Hprot as [?%negb_false_iff%Z.eqb_eq ?%negb_false_iff%Z.eqb_eq].
  assert (row_deleted new ≠ row_deleted old) as Hflip.
  { clear -Hdel. unfold row_deleted. destruct del.
    - apply bind_Ok in Hdel as (_ & [H1 H2]%raise_if_Ok%orb_false_iff & _).
      apply negb_false_iff, bool_decide_eq_true in H1, H2. by rewrite H1, H2.
    - apply raise_if_Ok, orb_false_iff in Hdel as [H1 H2].
      apply negb_false_iff, bool_decide_eq_true in H2. by rewrite H1, H2. }
  split_and!; try done. by right.
Qed.

Lemma dim_update_guard_shape c s old new u :
  dim_update_guard c s old new = Ok u → dim_update_shape old new.
Proof.
  unfold dim_update_guard. intros Hok.
  apply bind_Ok in Hok as (_ & Hprot%raise_if_Ok & Hok).
  apply bind_Ok in Hok as (_ & Hraw%raise_if_Ok & Hok).
  apply bind_Ok in Hok as (_ & _ & Hok).
  apply orb_false_iff in Hprot as [Hprot Hdel%negb_false_iff%bool_decide_eq_true].
  apply orb_false_iff in Hprot as [?%negb_false_iff%Z.eqb_eq ?%negb_false_iff%Z.eqb_eq].
  assert (key_changed old new = false → r_value new = r_value old) as Hval.
  { intros Hk. rewrite Hk in Hraw. by apply negb_false_iff, bool_decide_eq_true in Hraw. }
  destruct (negb (bool_decide (r_code new = r_code old)) || key_changed old new) eqn:Ech.
  - apply technical_fields_Ok in Hok as [? _]. split_and!; try done; [by right|].
    intros _ Hc Hk. exfalso. by rewrite Hk, (bool_decide_eq_true_2 _ Hc) in Ech.
  - apply raise_if_Ok, orb_false_iff in Hok as [?%negb_false_iff%Z.eqb_eq ?%negb_false_iff%Z.eqb_eq].
    split_and!; try done. by left.
Qed.

Lemma dim_before_update_shape c s old new db u :
  dim_before_update c s old new db = Ok u → dim_update_shape old new.
Proof.
  unfold dim_before_update. intros Hok.
  destruct (cx_dimension_operation c) as [[]|];
    try (by eapply dim_lifecycle_guard_shape);
    apply bind_Ok in Hok as (_ & _ & Hok); apply bind_Ok in Hok as (_ & _ & Hok);
    by eapply dim_update_guard_shape.
Qed.

Lemma mc_before_insert_Ok c m u :
  mc_before_insert c m = Ok u ↔
  cx_master_code_operation c = Some MC_CREATE ∧ m_version m = 1 ∧
  m_created_at m = m_updated_at m ∧ m_created_at m = cx_mutation_timestamp c ∧
  m_deleted_at m = None.
Proof.
  destruct u. unfold mc_before_insert. split.
  - intros Hok.
    apply bind_Ok in Hok as (_ & Hop%raise_if_Ok%negb_false_iff%bool_decide_eq_true & Hok).
    apply raise_if_Ok, orb_false_iff in Hok as [Hok Hd%negb_false_iff%bool_decide_eq_true].
    apply orb_false_iff in Hok as [Hok ?%negb_false_iff%Z.eqb_eq].
    apply orb_false_iff in Hok as [?%negb_false_iff%Z.eqb_eq ?%negb_false_iff%Z.eqb_eq]. done.
  - intros (Hop & Hv & Hc & Ht & Hd). rewrite Hop, Hv, <- Hc, Ht, Hd, !Z.eqb_refl. done.
Qed.

Lemma mc_before_update_shape c old new u :
  mc_before_update c old new = Ok u →
  m_id new = m_id old ∧ m_created_at new = m_created_at old ∧
  m_version new = m_version old + 1 ∧ m_updated_at new = cx_mutation_timestamp c ∧
  cx_master_code_operation c ≠ Some MC_CREATE.
Proof.
  unfold mc_before_update. intros Hok. apply bind_Ok in Hok as ([] & Hop & Hok).
  apply bind_Ok in Hok as (_ & Hid%raise_if_Ok & (? & ? & _)%technical_fields_Ok).
  apply orb_false_iff in Hid as [?%negb_false_iff%Z.eqb_eq ?%negb_false_iff%Z.eqb_eq].
  split_and!; try done. intros E. by rewrite E in Hop.
Qed.

Lemma ck_master_code_Ok m u :
  ck_master_code m = Ok u ↔
  mc_code_pattern (m_code m) = true ∧ 1 ≤ m_version m ∧ m_created_at m ≤ m_updated_at m ∧
  (∀ t, m_deleted_at m = Some t → m_created_at m ≤ t ≤ m_updated_at m).
Proof.
  destruct u. unfold ck_master_code, timestamp_order. split.
  - intros Hok.
    apply bind_Ok in Hok as (_ & Hc%raise_if_Ok%negb_false_iff & Hok).
    apply bind_Ok in Hok as (_ & Hv%raise_if_Ok & Ht%raise_if_Ok%negb_false_iff).
    apply andb_true_iff in Ht as [Ho Hd]. split_and!; [done|lia|lia|].
    intros t Ht. rewrite Ht in Hd. lia.
  - intros (Hc & Hv & Ho & Hd). rewrite Hc. cbn.
    replace (m_version m <? 1) with false by lia. cbn.
    replace (m_created_at m <=? m_updated_at m) with true by lia. cbn.
    destruct (m_deleted_at m) as [t|]; [|done]. specialize (Hd t eq_refl).
    by replace ((m_created_at m <=? t) && (t <=? m_updated_at m)) with true by lia.
Qed.

(** *** Every write preserves [store_ok] *)

Lemma store_ok_empty : store_ok empty_db.
Proof. split; intros; cbn in *; by simplify_map_eq. Qed.

(** Replacing or adding one Dimension row, whatever the log. *)
Lemma insert_dim_row s r logs db :
  store_ok db → dim_row_wf s r → uq_dimension s r db = Ok tt →
  (∀ s' id, (s, r_id r) ≠ (s', id) →
     dim_history_of s' id logs = dim_history_of s' id (dim_logs db)) →
  replay empty_snapshot (dim_history_of s (r_id r) logs) = Some (snapshot_of r) →
  store_ok (mkDB (<[(s, r_id r) := r]> (dims db)) (mcs db) logs (mc_logs db)).
Proof.
  intros [Hd Hc Hk Hm Hmc Hr Hfk Hdl Hml] Hwf Huq Hother Hown.
  rewrite uq_dimension_Ok in Huq.
  assert (∀ s' i j q q', <[(s, r_id r) := r]> (dims db) !! (s', i) = Some q →
    <[(s, r_id r) := r]> (dims db) !! (s', j) = Some q' →
    i = j ∨ (dims db !! (s', i) = Some q ∧ dims db !! (s', j) = Some q') ∨
    (r_code q ≠ r_code q' ∧ row_key (r_value q) ≠ row_key (r_value q'))) as Hpair.
  { intros s' i j q q' [[? <-]|[Hne Hq]]%lookup_insert_Some
      [[? <-]|[Hne' Hq']]%lookup_insert_Some; simplify_eq; [by left| | |by auto].
    - destruct (Hd _ _ _ Hq') as [Hid _]. destruct (decide (j = r_id r)) as [->|Hj]; [done|].
      right; right. destruct (Huq _ _ Hq') as [? ?]; [congruence|]. by split; apply not_eq_sym.
    - destruct (Hd _ _ _ Hq) as [Hid _]. destruct (decide (i = r_id r)) as [->|Hj]; [done|].
      right; right. apply (Huq _ _ Hq). congruence. }
  split; cbn; try done.
  - intros s' id q [[[= <- <-] <-]|[_ Hq]]%lookup_insert_Some; [done|by apply Hd].
  - intros s' i j q q' Hi Hj He. destruct (Hpair _ _ _ _ _ Hi Hj) as [?|[[? ?]|[? ?]]]; eauto; done.
  - intros s' i j q q' Hi Hj He. destruct (Hpair _ _ _ _ _ Hi Hj) as [?|[[? ?]|[? ?]]]; eauto; done.
  - intros id m s' ref Hi Href. destruct (decide ((s, r_id r) = (s', ref))) as [[= <- <-]|Hne].
    + rewrite lookup_insert_eq. by eexists.
    + rewrite lookup_insert_ne by done. by eapply Hfk.
  - intros s' id. destruct (decide ((s, r_id r) = (s', id))) as [[= <- <-]|Hne].
    + rewrite lookup_insert_eq. done.
    + rewrite lookup_insert_ne by done. rewrite Hother by done. apply Hdl.
Qed.

Lemma insert_dimension_ok c s r db db' :
  store_ok db → insert_dimension c s r db = Ok db' → store_ok db'.
Proof.
  intros Hok. pose proof Hok as [Hd _ _ _ _ _ _ Hdl _]. unfold insert_dimension. intros Hins.
  apply bind_Ok in Hins as ([] & (_ & Hv & Hc & Hdel)%dim_before_insert_Ok & Hins).
  apply bind_Ok in Hins as ([] & (Hcode & Hval & Hver & Ho & Hdt)%ck_dimension_Ok & Hins).
  apply bind_Ok in Hins as (_ & Hpk%raise_if_Ok%bool_decide_eq_false & Hins).
  apply bind_Ok in Hins as ([] & Huq & [= <-]).
  apply insert_dim_row; [done|split; auto|done| |].
  - intros s' id Hne. rewrite dim_history_app.
    by rewrite (dim_history_none _ _ _ _ _ (insert_logs_own c s r) Hne), app_nil_r.
  - rewrite dim_history_app, (dim_history_all _ _ _ (insert_logs_own c s r)).
    specialize (Hdl s (r_id r)). destruct (dims db !! (s, r_id r)); [by destruct Hpk|].
    rewrite Hdl. by apply insert_logs_replay.
Qed.

Lemma update_dimension_ok c s old new db db' :
  store_ok db → dims db !! (s, r_id old) = Some old → update_dimension c s old new db = Ok db' →
  store_ok db'.
Proof.
  intros Hok Hold. pose proof Hok as [Hd _ _ _ _ _ _ Hdl _]. unfold update_dimension. intros Hupd.
  apply bind_Ok in Hupd as ([] & (Hid & Hc & Hvu & Hval & Hnop)%dim_before_update_shape & Hupd).
  apply bind_Ok in Hupd as ([] & (Hcode & Hv & Hver & Ho & Hdt)%ck_dimension_Ok & Hupd).
  apply bind_Ok in Hupd as ([] & Huq & [= <-]).
  destruct (Hd _ _ _ Hold) as [_ [_ _ Hver1 _ Hfirst _]].
  apply insert_dim_row; [done| |done| |].
  - split; auto. intros H1. destruct Hvu as [(Hve & Hue & _)|?]; [|lia].
    rewrite Hue, Hc. apply Hfirst. lia.
  - intros s' id Hne. rewrite dim_history_app.
    by rewrite (dim_history_none _ _ _ _ _ (update_logs_own c s old new) Hne), app_nil_r.
  - rewrite dim_history_app, (dim_history_all _ _ _ (update_logs_own c s old new)), replay_app.
    specialize (Hdl s (r_id old)). rewrite Hold, <- Hid in Hdl. rewrite Hdl. cbn.
    by apply update_logs_replay.
Qed.

(** Replacing or adding one MasterCode row. *)
Lemma insert_mc_row m l db :
  store_ok db → mc_row_wf m → uq_master_code m db = Ok tt → fk_master_code m db = Ok tt →
  ml_master_code_id l = m_id m →
  mc_log_chain (mc_history_of (m_id m) (mc_logs db) ++ [l]) (state_of m) (m_version m) →
  store_ok (mkDB (dims db) (<[m_id m := m]> (mcs db)) (dim_logs db) (mc_logs db ++ [l])).
Proof.
  intros [Hd Hc Hk Hm Hmc Hr Hfk Hdl Hml] Hwf Huq Hfkm Hl Hchain.
  rewrite uq_master_code_Ok in Huq. rewrite fk_master_code_Ok in Hfkm.
  assert (∀ i j q q', <[m_id m := m]> (mcs db) !! i = Some q →
    <[m_id m := m]> (mcs db) !! j = Some q' →
    i = j ∨ (mcs db !! i = Some q ∧ mcs db !! j = Some q') ∨
    (m_code q ≠ m_code q' ∧ m_refs q ≠ m_refs q')) as Hpair.
  { intros i j q q' [[? <-]|[Hne Hq]]%lookup_insert_Some
      [[? <-]|[Hne' Hq']]%lookup_insert_Some; simplify_eq; [by left| | |by auto].
    - destruct (Hm _ _ Hq') as [Hid _]. right; right.
      destruct (Huq _ _ Hq') as [? ?]; [congruence|]. by split; apply not_eq_sym.
    - destruct (Hm _ _ Hq) as [Hid _]. right; right. apply (Huq _ _ Hq). congruence. }
  split; cbn; try done.
  - intros id q [[<- <-]|[_ Hq]]%lookup_insert_Some; [done|by apply Hm].
  - intros i j q q' Hi Hj He. destruct (Hpair _ _ _ _ Hi Hj) as [?|[[? ?]|[? ?]]]; eauto; done.
  - intros i j q q' Hi Hj He. destruct (Hpair _ _ _ _ Hi Hj) as [?|[[? ?]|[? ?]]]; eauto; done.
  - intros id q s ref [[<- <-]|[_ Hq]]%lookup_insert_Some Href; [by apply Hfkm|by eapply Hfk].
  - intros id. rewrite mc_history_app. unfold mc_history_of at 2 4. cbn. rewrite Hl.
    destruct (Z.eqb_spec (m_id m) id) as [<-|Hne].
    + by rewrite lookup_insert_eq.
    + rewrite lookup_insert_ne, app_nil_r by done. apply Hml.
Qed.

Lemma insert_master_code_ok c m db db' :
  store_ok db → insert_master_code c m db = Ok db' → store_ok db'.
Proof.
  intros Hok. pose proof Hok as [_ _ _ _ _ _ _ _ Hml]. unfold insert_master_code. intros Hins.
  apply bind_Ok in Hins as ([] & (Hop & Hv & Hc & _ & Hdel)%mc_before_insert_Ok & Hins).
  apply bind_Ok in Hins as ([] & (Hcode & Hver & Ho & Hdt)%ck_master_code_Ok & Hins).
  apply bind_Ok in Hins as (_ & Hpk%raise_if_Ok%bool_decide_eq_false & Hins).
  apply bind_Ok in Hins as ([] & Huq & Hins). apply bind_Ok in Hins as ([] & Hfk & [= <-]).
  apply insert_mc_row; [done|split; auto|done|done|done|].
  - specialize (Hml (m_id m)). destruct (mcs db !! m_id m); [by destruct Hpk|]. rewrite Hml.
    rewrite Hv. by apply (chain_create (mc_insert_log c m)).
Qed.

Lemma update_master_code_ok c old new db db' :
  store_ok db → mcs db !! m_id old = Some old → update_master_code c old new db = Ok db' →
  store_ok db'.
Proof.
  intros Hok Hold. pose proof Hok as [_ _ _ Hm _ _ _ _ Hml]. unfold update_master_code.
  intros Hupd.
  apply bind_Ok in Hupd as ([] & (Hid & Hc & Hv & _ & Hop)%mc_before_update_shape & Hupd).
  apply bind_Ok in Hupd as ([] & (Hcode & Hver & Ho & Hdt)%ck_master_code_Ok & Hupd).
  apply bind_Ok in Hupd as ([] & Huq & Hupd). apply bind_Ok in Hupd as ([] & Hfk & [= <-]).
  destruct (Hm _ _ Hold) as [_ [_ Hver1 _ _ _]].
  apply insert_mc_row; [done|split; auto; lia|done|done|done|].
  - specialize (Hml (m_id old)). rewrite Hold, <- Hid in Hml.
    rewrite Hv. by apply (chain_step _ (state_of old) _ (mc_update_log c old new)).
Qed.

Lemma store_step_ok db db' : store_ok db → store_step db db' → store_ok db'.
Proof.
  intros Hok Hs; revert Hok.
  destruct Hs as [c s r ? ? Hw|c s old new ? ? Hold Hw|c m ? ? Hw|c old new ? ? Hold Hw]; intros Hok.
  - by eapply insert_dimension_ok.
  - by eapply update_dimension_ok.
  - by eapply insert_master_code_ok.
  - by eapply update_master_code_ok.
Qed.

Lemma store_steps_ok db db' : store_ok db → rtc store_step db db' → store_ok db'.
Proof. intros Hok Hrtc. induction Hrtc; eauto using store_step_ok. Qed.

(** C16: the database keeps its history.  After any sequence of accepted row
    writes from the empty database, every stored row is well-formed, codes,
    value keys, composed codes and reference tuples are unique, no reference
    dangles, replaying the log of a Dimension yields exactly its stored code,
    value, deletion state and version, and the log of a MasterCode is a chain of
    consecutive versions from its creation to the stored state. *)
Theorem store_history (db : DB) :
  rtc store_step empty_db db →
  (∀ s id r, dims db !! (s, id) = Some r → dim_row_wf s r ∧
     replay empty_snapshot (dim_history_of s id (dim_logs db)) = Some (snapshot_of r)) ∧
  (∀ s i j r q, dims db !! (s, i) = Some r → dims db !! (s, j) = Some q →
     r_code r = r_code q ∨ row_key (r_value r) = row_key (r_value q) → i = j) ∧
  (∀ id m, mcs db !! id = Some m → mc_row_wf m ∧
     mc_log_chain (mc_history_of id (mc_logs db)) (state_of m) (m_version m)) ∧
  (∀ i j m n, mcs db !! i = Some m → mcs db !! j = Some n →
     m_code m = m_code n ∨ m_refs m = m_refs n → i = j) ∧
  (∀ id m s ref, mcs db !! id = Some m → at_slot (m_refs m) s = Some ref →
     is_Some (dims db !! (s, ref))).
Proof.
  intros Hrtc. pose proof (store_steps_ok _ _ store_ok_empty Hrtc) as
    [Hd Hc Hk Hm Hmc Hr Hfk Hdl Hml]. split_and!.
  - intros s id r Hr'. split; [by eapply Hd|]. specialize (Hdl s id). by rewrite Hr' in Hdl.
  - intros s i j r q Hi Hj [He|He]; eauto.
  - intros id m Hm'. split; [by eapply Hm|]. specialize (Hml id). by rewrite Hm' in Hml.
  - intros i j m n Hi Hj [He|He]; eauto.
  - intros id m s ref Hi Href. by eapply Hfk.
Qed.
