(* ===== verification/LogTables.v ===== *)
(** * The log tables
    (the [...LogRecord] classes of [src/src/mdm/infrastructure/models.py])

    The triggers of [Store] append entries to nine log tables, each with its
    own CHECK, UNIQUE, PRIMARY KEY and FOREIGN KEY constraints over JSONB
    columns.  This file has those constraints and proves that no entry a trigger
    writes can violate them: [Store], which appends unconditionally, is what the
    constrained tables do. *)

From stdpp Require Import sorting.
From S2P Require Import Prelude Python Exceptions Uuids Auth MutationAudit Dimensions MasterCodes Store Records Invariant.
Local Open Scope Z_scope.

(** ** JSONB columns *)

(** [to_jsonb] and [jsonb_build_object] of the triggers. *)
Definition log_value_json (v : log_value) : pyval :=
  match v with
  | LCode code => VStr code
  | LDeleted deleted => VBool deleted
  | LValue (RString x) => VStr x
  | LValue (RInt z) => VInt z
  | LValue (RMemory a u) =>
      VDict [(py "amount", VInt a); (py "unit", VStr u); (py "capacity_mb", VInt (a * unit_multiplier u))]
  end.

Definition reference_column (s : slot) : pystr := py (slot_name s) ++ py "_id".
Definition MASTER_CODE_STATE_KEYS : list pystr :=
  (reference_column <$> ORDER) ++ [py "code"; py "deleted"].
Definition reference_json (ref : option UUID) : pyval :=
  match ref with Some id => VStr (uuid_str id) | None => VNone end.
Definition master_code_state_json (st : McState) : list (pystr * pyval) :=
  ((λ s, (reference_column s, reference_json (at_slot (ms_refs st) s))) <$> ORDER) ++
  [(py "code", VStr (ms_code st)); (py "deleted", VBool (ms_deleted st))].

(** ** CHECK constraints *)

Definition log_table (s : slot) : string := "dimension_" ++ slot_name s ++ "_logs".
Definition check (condition : bool) (name : string) : res unit :=
  raise_if (negb condition) (IntegrityError name).

(** [ck_..._change_shape] *)
Definition change_shape (operation : DimensionOperation) (field : log_field) (old new : option pyval)
    : bool :=
  match operation with
  | DIM_CREATE => negb (bool_decide (field = FIELD_DELETED)) && absent old && present new
  | DIM_UPDATE =>
      negb (bool_decide (field = FIELD_DELETED)) && present old && present new
      && negb (bool_decide (old = new))
  | DIM_DELETE =>
      bool_decide (field = FIELD_DELETED) && bool_decide (old = Some (VBool false))
      && bool_decide (new = Some (VBool true))
  | DIM_RESTORE =>
      bool_decide (field = FIELD_DELETED) && bool_decide (old = Some (VBool true))
      && bool_decide (new = Some (VBool false))
  end.

Definition json_code (v : pyval) : bool :=
  match v with VStr x => code_pattern x && negb (only_N x) | _ => false end.
Definition json_string_value (v : pyval) : bool :=
  match v with VStr x => string_value_pattern x && (length x <=? 128)%nat | _ => false end.
(** [_numeric_json_constraint] *)
Definition numeric_json_constraint (minimum maximum : Z) (v : pyval) : bool :=
  match v with VInt z => (0 <=? z) && (minimum <=? z) && (z <=? maximum) | _ => false end.
(** [_memory_json_constraint] *)
Definition memory_json_constraint (v : pyval) : bool :=
  match v with
  | VDict entries =>
      keys_are [py "amount"; py "unit"; py "capacity_mb"] entries &&
      match dict_get (py "amount") entries, dict_get (py "unit") entries,
            dict_get (py "capacity_mb") entries with
      | Some (VInt a), Some (VStr u), Some (VInt capacity) =>
          (1 <=? a) && (a <=? 2147483647) && bool_decide (is_Some (MemoryUnit_call u))
          && (capacity =? a * unit_multiplier u)
      | _, _, _ => false
      end
  | _ => false
  end.
Definition json_value (s : slot) (v : pyval) : bool :=
  match s with
  | Company | Brand | Model | Category | Country => json_string_value v
  | Year => numeric_json_constraint 2000 2999 v
  | Network => numeric_json_constraint 1 5 v
  | Memory => memory_json_constraint v
  end.
Definition json_boolean (v : pyval) : bool := match v with VBool _ => true | _ => false end.

(** [ck_..._value_shape]; a comparison with NULL does not violate a CHECK. *)
Definition value_shape (s : slot) (field : log_field) (old new : option pyval) : bool :=
  let holds test v := match v with None => true | Some x => test x end in
  let test := match field with
              | FIELD_CODE => json_code | FIELD_VALUE => json_value s | FIELD_DELETED => json_boolean
              end in
  holds test old && holds test new.

(** [[0-9a-f]{8}-[0-9a-f]{4}-[0-9a-f]{4}-[0-9a-f]{4}-[0-9a-f]{12}] *)
Definition uuid_pattern (s : pystr) : bool :=
  let parts := str_split dash s in
  bool_decide (length <$> parts = [8; 4; 4; 4; 12]%nat) && forallb (forallb is_lower_hex) parts.
(** [_master_code_state_json_constraint] *)
Definition master_code_state_json_constraint (st : list (pystr * pyval)) : bool :=
  keys_are MASTER_CODE_STATE_KEYS st
  && forallb (λ s, match dict_get (reference_column s) st with
                   | Some VNone => true | Some (VStr id) => uuid_pattern id | _ => false end) ORDER
  && (match dict_get (py "code") st with Some (VStr code) => mc_code_pattern code | _ => false end)
  && (match dict_get (py "deleted") st with Some (VBool _) => true | _ => false end).

Section database.
(** [[[:cntrl:]]] in the locale of the database. *)
Variable pg_cntrl : Z → bool.

(** [ck_..._reason], [ck_..._actor] and [ck_..._actor_id] *)
Definition ck_log_metadata (table : string) (md : MutationAuditMetadata) : res unit :=
  _ ← check (match md_reason md with
             | None => true
             | Some reason => (length reason <=? 500)%nat && bool_decide (strip space reason = reason)
                              && negb (existsb pg_cntrl reason)
             end) ("ck_" ++ table ++ "_reason");
  let actor := md_actor md in
  _ ← check (match actor_kind actor with
             | HUMAN => present (actor_role actor) | SYSTEM => absent (actor_role actor) end)
        ("ck_" ++ table ++ "_actor");
  check ((1 <=? length (actor_id actor))%nat && (length (actor_id actor) <=? 255)%nat
         && bool_decide (strip space (actor_id actor) = actor_id actor)) ("ck_" ++ table ++ "_actor_id").

Definition ck_dimension_log (l : DimLog) : res unit :=
  let table := log_table (dl_slot l) in
  let old := log_value_json <$> dl_old l in
  let new := log_value_json <$> dl_new l in
  _ ← check (1 <=? dl_version l) ("ck_" ++ table ++ "_version");
  _ ← check (change_shape (dl_operation l) (dl_field l) old new) ("ck_" ++ table ++ "_change_shape");
  _ ← check (value_shape (dl_slot l) (dl_field l) old new) ("ck_" ++ table ++ "_value_shape");
  ck_log_metadata table (dl_metadata l).

Definition ck_master_code_log (l : McLog) : res unit :=
  let table : string := "master_code_logs" in
  _ ← check (1 <=? ml_version l) ("ck_" ++ table ++ "_version");
  _ ← check (present (ml_operation l)) ("ck_" ++ table ++ "_operation");
  _ ← check (Bool.eqb (bool_decide (ml_operation l = Some MC_CREATE)) (absent (ml_old l)))
        ("ck_" ++ table ++ "_old_state");
  _ ← check (match ml_old l with
             | None => true
             | Some st => master_code_state_json_constraint (master_code_state_json st)
             end) ("ck_" ++ table ++ "_old_state_shape");
  _ ← check (master_code_state_json_constraint (master_code_state_json (ml_new l)))
        ("ck_" ++ table ++ "_new_state_shape");
  ck_log_metadata table (ml_metadata l).

(** ** The tables *)

(** An entry with its primary key, the [uuidv7()] of the server. *)
Record LogTables := mkLogTables {
  lt_dims : list (UUID * DimLog);
  lt_mcs : list (UUID * McLog);
}.

(** [INSERT INTO dimension_*_logs] *)
Definition insert_dimension_log (db : DB) (tables : LogTables) (row : UUID * DimLog) : res LogTables :=
  let '(id, l) := row in
  let table := log_table (dl_slot l) in
  let same_table := λ e : UUID * DimLog, bool_decide (dl_slot e.2 = dl_slot l) in
  _ ← ck_dimension_log l;
  _ ← raise_if (existsb (λ e, same_table e && (e.1 =? id)) (lt_dims tables))
        (IntegrityError (table ++ "_pkey"));
  _ ← raise_if (existsb (λ e, same_table e && (dl_dimension_id e.2 =? dl_dimension_id l)
                && (md_change_set_id (dl_metadata e.2) =? md_change_set_id (dl_metadata l))
                && bool_decide (dl_field e.2 = dl_field l)) (lt_dims tables))
        (IntegrityError ("uq_" ++ table ++ "_change_field"));
  _ ← raise_if (bool_decide (dims db !! (dl_slot l, dl_dimension_id l) = None))
        (IntegrityError (table ++ "_dimension_id_fkey"));
  Ok (mkLogTables (lt_dims tables ++ [row]) (lt_mcs tables)).

(** [INSERT INTO master_code_logs] *)
Definition insert_master_code_log (db : DB) (tables : LogTables) (row : UUID * McLog) : res LogTables :=
  let '(id, l) := row in
  _ ← ck_master_code_log l;
  _ ← raise_if (existsb (λ e, e.1 =? id) (lt_mcs tables)) (IntegrityError "master_code_logs_pkey");
  _ ← raise_if (existsb (λ e : UUID * McLog, (ml_master_code_id e.2 =? ml_master_code_id l)
                && (ml_version e.2 =? ml_version l)) (lt_mcs tables))
        (IntegrityError "uq_master_code_logs_master_version");
  _ ← raise_if (bool_decide (mcs db !! ml_master_code_id l = None))
        (IntegrityError "master_code_logs_master_code_id_fkey");
  Ok (mkLogTables (lt_dims tables) (lt_mcs tables ++ [row])).

(** The entries of one row write, one INSERT after the other. *)
Definition write_logs (db : DB) (tables : LogTables) (dim_rows : list (UUID * DimLog))
    (mc_rows : list (UUID * McLog)) : res LogTables :=
  tables ← foldR (insert_dimension_log db) tables dim_rows;
  foldR (insert_master_code_log db) tables mc_rows.
End database.

(** The entries [Store] appends for the write of one row under a context. *)
Inductive row_write (c : AuditContext) (db db' : DB) : list DimLog → list McLog → Prop :=
| write_insert_dimension s r :
    insert_dimension c s r db = Ok db' → row_write c db db' (dim_insert_logs c s r) []
| write_update_dimension s old new :
    dims db !! (s, r_id old) = Some old → update_dimension c s old new db = Ok db' →
    row_write c db db' (dim_update_logs c s old new) []
| write_insert_master_code m :
    insert_master_code c m db = Ok db' → row_write c db db' [] [mc_insert_log c m]
| write_update_master_code old new :
    mcs db !! m_id old = Some old → update_master_code c old new db = Ok db' →
    row_write c db db' [] [mc_update_log c old new].

(** ** Entries the triggers write satisfy the CHECK constraints *)

Lemma check_Ok b name u : check b name = Ok u ↔ b = true.
Proof. unfold check. by rewrite raise_if_Ok, negb_false_iff. Qed.
Lemma check_true name : check true name = Ok tt.
Proof. done. Qed.

Lemma strip_other ch s : Forall (λ c, c ≠ ch) s → strip ch s = s.
Proof.
  intros Hs. unfold strip. assert (lstrip ch s = s) as ->.
  { destruct Hs as [|c s Hc _]; [done|]. cbn. by rewrite (proj2 (Z.eqb_neq c ch)). }
  induction Hs as [|c s Hc _ IH]; [done|]. cbn. rewrite IH. destruct s; [|done].
  by rewrite (proj2 (Z.eqb_neq c ch)).
Qed.

Lemma uuid_str_not_space u : Forall (λ c, c ≠ space) (uuid_str u).
Proof.
  eapply Forall_impl; [apply uuid_str_hex_or_dash|]. intros c Hc ->.
  destruct (hex_char_range space Hc) as [?|[?|?]]; unfold space in *; lia.
Qed.

(** Metadata as the audit factory builds it. *)
Definition audited (md : MutationAuditMetadata) : Prop :=
  ∃ cs p d m reason, audit_create cs p d m reason = Ok md.

Lemma ck_value_json s v : ck_value s v = true → json_value s (log_value_json (LValue v)) = true.
Proof.
  destruct s, v as [x|z|a u]; try discriminate; try (cbn; done); try (cbn; lia).
  assert (memory_json_constraint (log_value_json (LValue (RMemory a u))) =
    (1 <=? a) && (a <=? 2147483647) && bool_decide (is_Some (MemoryUnit_call u))
    && (a * unit_multiplier u =? a * unit_multiplier u)) as Hm by reflexivity.
  unfold ck_value, json_value. rewrite Hm. clear Hm. intros [Ha Hu]%andb_true_iff. rewrite Hu.
  apply andb_true_iff in Ha as [Ha1%Z.ltb_lt Ha2]. rewrite Ha2, Z.eqb_refl.
  by replace (1 <=? a) with true by lia.
Qed.

(** Different keys are different JSON values. *)
Lemma key_changed_json s old new :
  ck_value s (r_value old) = true → ck_value s (r_value new) = true → key_changed old new = true →
  log_value_json (LValue (r_value old)) ≠ log_value_json (LValue (r_value new)).
Proof.
  unfold key_changed. intros Ho Hn Hk%negb_true_iff%bool_decide_eq_false He. apply Hk.
  destruct s, (r_value old), (r_value new); try discriminate; cbn in *; congruence.
Qed.

Lemma str_split_uuid u :
  str_split dash (uuid_str u) =
  let h := hex_fixed 32 u in
  [take 8 h; take 4 (drop 8 h); take 4 (drop 12 h); take 4 (drop 16 h); drop 20 h].
Proof.
  pose proof (hex_fixed_lower_hex 32 u) as Hall. cbn zeta.
  assert (∀ l, Forall (λ c, is_lower_hex c = true) l → dash ∉ l) as Hno.
  { intros l Hl Hin. rewrite Forall_forall in Hl. by specialize (Hl _ Hin). }
  unfold uuid_str. cbn [app].
  rewrite !str_split_app by (apply Hno; auto using Forall_take, Forall_drop).
  rewrite str_split_word; [done|]. apply Hno. auto using Forall_drop.
Qed.

Lemma uuid_pattern_str u : uuid_pattern (uuid_str u) = true.
Proof.
  unfold uuid_pattern. rewrite str_split_uuid. cbn zeta.
  pose proof (hex_fixed_lower_hex 32 u) as Hall. pose proof (hex_fixed_length 32 u) as Hlen.
  rewrite bool_decide_eq_true_2.
  2:{ cbn [fmap list_fmap]. rewrite !length_take, !length_drop, Hlen. reflexivity. }
  cbn [forallb]. rewrite !andb_true_iff, !forallb_Forall. auto 10 using Forall_take, Forall_drop.
Qed.

Lemma state_json_ok st :
  mc_code_pattern (ms_code st) = true →
  master_code_state_json_constraint (master_code_state_json st) = true.
Proof.
  intros Hc. unfold master_code_state_json_constraint.
  assert (∀ s, dict_get (reference_column s) (master_code_state_json st) =
    Some (reference_json (at_slot (ms_refs st) s))) as Href by by intros [].
  change (dict_get (py "code") (master_code_state_json st)) with (Some (VStr (ms_code st))).
  change (dict_get (py "deleted") (master_code_state_json st)) with (Some (VBool (ms_deleted st))).
  change (keys_are MASTER_CODE_STATE_KEYS (master_code_state_json st)) with true.
  cbn iota. rewrite Hc, !andb_true_r. apply forallb_Forall, Forall_forall. intros s _. rewrite Href.
  destruct (at_slot (ms_refs st) s); [apply uuid_pattern_str|done].
Qed.

Section database_lemmas.
Variable pg_cntrl : Z → bool.
(** The locale calls no other character a control character than Unicode's
    general category does. *)
Hypothesis Hcntrl : ∀ c, pg_cntrl c = true → is_Cc c = true.

Lemma ck_log_metadata_ok table md : audited md → ck_log_metadata pg_cntrl table md = Ok tt.
Proof.
  intros (cs & p & d & m & reason & Hmd). unfold audit_create in Hmd.
  apply bind_Ok in Hmd as (ops & _ & Hmd). apply bind_Ok in Hmd as (_ & _ & Hmd).
  apply bind_Ok in Hmd as (r & Hr%normalize_reason_Ok & [= <-]).
  unfold ck_log_metadata. cbn -[strip]. rewrite uuid_str_length.
  rewrite (bool_decide_eq_true_2 (strip space (uuid_str _) = _)) by (apply strip_other, uuid_str_not_space).
  destruct r as [s|]; [|done]. cbn in Hr. destruct Hr as (_ & Hlen & Hs & Hcc).
  rewrite (bool_decide_eq_true_2 (strip space s = s)) by done.
  replace (length s <=? 500)%nat with true by (symmetry; by apply Nat.leb_le).
  assert (existsb pg_cntrl s = false) as ->; [|done].
  apply existsb_false. eapply Forall_impl; [exact Hcc|]. intros c Hc.
  destruct (pg_cntrl c) eqn:E; [|done]. apply Hcntrl in E. congruence.
Qed.

Lemma ck_log_Ok l :
  1 ≤ dl_version l → audited (dl_metadata l) →
  change_shape (dl_operation l) (dl_field l) (log_value_json <$> dl_old l) (log_value_json <$> dl_new l) = true →
  value_shape (dl_slot l) (dl_field l) (log_value_json <$> dl_old l) (log_value_json <$> dl_new l) = true →
  ck_dimension_log pg_cntrl l = Ok tt.
Proof.
  intros Hv Hmd Hc Hs. unfold ck_dimension_log. rewrite Hc, Hs.
  replace (1 <=? dl_version l) with true by lia. cbn. by apply ck_log_metadata_ok.
Qed.

Lemma insert_logs_ck c s r :
  audited (cx_metadata c) → ck_dimension s r = Ok tt →
  Forall (λ l, ck_dimension_log pg_cntrl l = Ok tt) (dim_insert_logs c s r).
Proof.
  intros Hmd (Hcode & Hval & Hver & _ & _)%ck_dimension_Ok.
  assert (json_code (VStr (r_code r)) = true) as Hcode' by exact Hcode.
  repeat constructor; apply ck_log_Ok; try done; cbn [dl_slot dl_field dl_old dl_new fmap option_fmap option_map].
  apply (ck_value_json s (r_value r)). by apply ck_value_spec.
Qed.

Lemma update_logs_ck c s old new :
  audited (cx_metadata c) → dim_row_wf s old → ck_dimension s new = Ok tt →
  Forall (λ l, ck_dimension_log pg_cntrl l = Ok tt) (dim_update_logs c s old new).
Proof.
  intros Hmd [Hco Hvo _ _ _ _] (Hcode & Hval & Hver & _ & _)%ck_dimension_Ok.
  apply ck_value_spec in Hvo, Hval.
  assert (∀ r, code_wf (mkDimensionCode (r_code r)) = true → json_code (VStr (r_code r)) = true) as Hjc by done.
  unfold dim_update_logs. repeat apply Forall_app_2.
  - case_bool_decide as E; [constructor|]. apply Forall_singleton, ck_log_Ok; try done.
    cbn. by destruct (bool_decide (r_deleted_at new = None)), (bool_decide (r_deleted_at old = None)).
  - case_bool_decide as E; [constructor|]. apply Forall_singleton, ck_log_Ok; try done; cbn.
    + rewrite (bool_decide_eq_false_2 (Some _ = Some _)) by congruence. done.
    + change (json_code (VStr (r_code old)) && json_code (VStr (r_code new)) = true). by rewrite !Hjc.
  - destruct (key_changed old new) eqn:E; [|constructor]. apply Forall_singleton, ck_log_Ok; try done.
    + change (negb (bool_decide (Some (log_value_json (LValue (r_value old))) = Some (log_value_json (LValue (r_value new))))) = true).
      rewrite bool_decide_eq_false_2; [done|]. intros He%(inj Some). by apply (key_changed_json s old new).
    + change (json_value s (log_value_json (LValue (r_value old))) && json_value s (log_value_json (LValue (r_value new))) = true).
      by rewrite !ck_value_json.
Qed.

Lemma ck_master_code_log_ok l :
  audited (ml_metadata l) → 1 ≤ ml_version l → present (ml_operation l) = true →
  (ml_operation l = Some MC_CREATE ↔ ml_old l = None) →
  mc_code_pattern (ms_code (ml_new l)) = true →
  (∀ st, ml_old l = Some st → mc_code_pattern (ms_code st) = true) →
  ck_master_code_log pg_cntrl l = Ok tt.
Proof.
  intros Hmd Hv Hop Hiff Hn Ho. unfold ck_master_code_log.
  replace (1 <=? ml_version l) with true by lia. rewrite Hop.
  assert (Bool.eqb (bool_decide (ml_operation l = Some MC_CREATE)) (absent (ml_old l)) = true) as ->.
  { case_bool_decide as E; rewrite Hiff in E; [by rewrite E|]. by destruct (ml_old l). }
  rewrite (state_json_ok (ml_new l)) by done.
  assert (match ml_old l with None => true
    | Some st => master_code_state_json_constraint (master_code_state_json st) end = true) as ->.
  { destruct (ml_old l) as [st|]; [|done]. apply state_json_ok. eauto. }
  cbn. by apply ck_log_metadata_ok.
Qed.

(** ** Entries are new *)

Definition no_conflict (e l : UUID * DimLog) : Prop :=
  e.1 ≠ l.1 ∧
  (dl_slot e.2 = dl_slot l.2 → dl_dimension_id e.2 = dl_dimension_id l.2 →
   md_change_set_id (dl_metadata e.2) = md_change_set_id (dl_metadata l.2) → dl_field e.2 ≠ dl_field l.2).

Lemma insert_dimension_log_ok db tables e :
  ck_dimension_log pg_cntrl e.2 = Ok tt → Forall (λ x, no_conflict x e) (lt_dims tables) →
  is_Some (dims db !! (dl_slot e.2, dl_dimension_id e.2)) →
  insert_dimension_log pg_cntrl db tables e = Ok (mkLogTables (lt_dims tables ++ [e]) (lt_mcs tables)).
Proof.
  destruct e as [id l]. cbn. intros Hck Hall [r Hr]. unfold insert_dimension_log. rewrite Hck, Hr. cbn.
  rewrite Forall_forall in Hall.
  rewrite !(proj2 (existsb_elem_of_false _ _)); [done|..]; intros [i x] Hx; destruct (Hall _ Hx) as [Hid Hu]; cbn in *.
  - apply not_true_is_false. rewrite andb_true_iff, Z.eqb_eq. by intros [_ ?].
  - apply not_true_is_false. rewrite !andb_true_iff, !Z.eqb_eq, !bool_decide_eq_true.
    intros [[[? ?] ?] ?]. by apply Hu.
Qed.

Lemma insert_dimension_logs_ok db tables rows :
  Forall (λ e, ck_dimension_log pg_cntrl e.2 = Ok tt ∧ Forall (λ x, no_conflict x e) (lt_dims tables) ∧
    is_Some (dims db !! (dl_slot e.2, dl_dimension_id e.2))) rows →
  StronglySorted no_conflict rows →
  foldR (insert_dimension_log pg_cntrl db) tables rows =
  Ok (mkLogTables (lt_dims tables ++ rows) (lt_mcs tables)).
Proof.
  revert tables. induction rows as [|e rows IH]; intros tables Hall Hss; cbn [foldR].
  - rewrite app_nil_r. by destruct tables.
  - apply Forall_cons in Hall as [(Hck & Hnc & Hr) Hall]. apply StronglySorted_cons in Hss as [He Hss].
    rewrite insert_dimension_log_ok by done. cbn [mbind result_bind]. rewrite IH; [|clear IH|done].
    + cbn. by rewrite <- app_assoc.
    + cbn. rewrite Forall_forall in *. intros x Hx. destruct (Hall _ Hx) as (? & ? & ?).
      split_and!; [done| |done]. apply Forall_app_2; [done|]. apply Forall_singleton. auto.
Qed.

Lemma zip_no_conflict ids ls :
  NoDup ids → NoDup (dl_field <$> ls) → StronglySorted no_conflict (zip ids ls).
Proof.
  intros Hi. revert ls. induction Hi as [|i ids Hi Hnd IH]; intros ls Hls; [destruct ls; constructor|].
  destruct ls as [|l ls]; cbn; [constructor|]. apply NoDup_cons in Hls as [Hl Hls].
  constructor; [auto|]. apply Forall_forall. intros [j x] Hx. split; cbn.
  - intros ->. apply Hi. by eapply elem_of_zip_l.
  - intros _ _ _ He. apply Hl. rewrite He. apply list_elem_of_fmap_2. by eapply elem_of_zip_r.
Qed.

Lemma update_fields_NoDup c s old new : NoDup (dl_field <$> dim_update_logs c s old new).
Proof.
  unfold dim_update_logs. rewrite !fmap_app.
  destruct (bool_decide _), (bool_decide (r_code new = r_code old)), (key_changed old new); cbn;
    repeat constructor; set_solver.
Qed.

Lemma chain_versions h st v l : mc_log_chain h st v → l ∈ h → ml_version l ≤ v.
Proof.
  induction 1 as [e _ _ Hv|h st v e _ IH _ _ Hv]; [intros ->%list_elem_of_singleton; lia|].
  intros [Hl| ->%list_elem_of_singleton]%elem_of_app; [specialize (IH Hl)|]; lia.
Qed.

Lemma insert_master_code_log_ok db tables id l :
  ck_master_code_log pg_cntrl l = Ok tt → id ∉ (lt_mcs tables).*1 →
  (∀ x, x ∈ (lt_mcs tables).*2 → ml_master_code_id x = ml_master_code_id l → ml_version x ≠ ml_version l) →
  is_Some (mcs db !! ml_master_code_id l) →
  insert_master_code_log pg_cntrl db tables (id, l) =
  Ok (mkLogTables (lt_dims tables) (lt_mcs tables ++ [(id, l)])).
Proof.
  intros Hck Hid Hv [m Hm]. unfold insert_master_code_log. rewrite Hck, Hm. cbn.
  rewrite !(proj2 (existsb_elem_of_false _ _)); [done|..]; intros [i x] Hx; apply not_true_is_false; cbn.
  - rewrite Z.eqb_eq. intros ->. apply Hid. by apply (list_elem_of_fmap_2 fst) in Hx.
  - rewrite andb_true_iff, !Z.eqb_eq. intros [? ?]. eapply Hv; [|done|done].
    by apply (list_elem_of_fmap_2 snd) in Hx.
Qed.

Lemma zip_logs_snd {A} (ids : list UUID) (logs : list A) : length ids = length logs → snd <$> zip ids logs = logs.
Proof. intros H. apply snd_zip. lia. Qed.

(** What a write leaves in the log tables. *)
Definition tables_after (tables : LogTables) (ids : list UUID) (dls : list DimLog) (mls : list McLog)
    : LogTables := mkLogTables (lt_dims tables ++ zip ids dls) (lt_mcs tables ++ zip ids mls).
Definition logs_match (tables : LogTables) (db : DB) : Prop :=
  snd <$> lt_dims tables = dim_logs db ∧ snd <$> lt_mcs tables = mc_logs db.

(** The entries of a Dimension write go in, given that they pass their CHECK
    constraints and concern a stored row. *)
Lemma write_dimension_logs_ok db db' tables ids s i logs cs :
  Forall (λ l, ck_dimension_log pg_cntrl l = Ok tt) logs →
  Forall (λ l, dl_slot l = s ∧ dl_dimension_id l = i) logs →
  Forall (λ l, md_change_set_id (dl_metadata l) = cs) logs →
  NoDup (dl_field <$> logs) → is_Some (dims db' !! (s, i)) →
  dim_logs db' = dim_logs db ++ logs → mc_logs db' = mc_logs db →
  logs_match tables db → NoDup ids → length ids = length logs →
  (∀ id, id ∈ ids → id ∉ (lt_dims tables).*1) →
  (∀ l x, l ∈ logs → x ∈ dim_history_of (dl_slot l) (dl_dimension_id l) (dim_logs db) →
     md_change_set_id (dl_metadata x) ≠ cs) →
  write_logs pg_cntrl db' tables (zip ids logs) [] = Ok (tables_after tables ids logs []) ∧
  logs_match (tables_after tables ids logs []) db'.
Proof.
  intros Hck Hown Hcs Hf Hrow Hdl Hmcl [Hdt Hmt] Hnd Hlen Hid Hfresh. unfold tables_after, logs_match.
  rewrite zip_nil_r, app_nil_r. cbn. rewrite fmap_app, Hdt, zip_logs_snd, Hdl, Hmcl by done. split; [|done].
  unfold write_logs. rewrite insert_dimension_logs_ok; [done| |by apply zip_no_conflict].
  apply Forall_forall. intros [id l] Hin. cbn.
  assert (l ∈ logs) as Hl by by eapply elem_of_zip_r.
  rewrite Forall_forall in Hck, Hown, Hcs. destruct (Hown l Hl) as [Hs Hi].
  split_and!; [by apply Hck| |by rewrite Hs, Hi].
  apply Forall_forall. intros [j x] Hx. split; cbn.
  - intros ->. apply (Hid id); [by eapply elem_of_zip_l|]. by apply (list_elem_of_fmap_2 fst) in Hx.
  - intros Es Ei Ec. exfalso. apply (Hfresh l x); [done| |rewrite Ec; by apply Hcs].
    unfold dim_history_of. apply elem_of_filter_bool. split.
    + rewrite <- Hdt. by apply (list_elem_of_fmap_2 snd) in Hx.
    + rewrite Es, Ei, Z.eqb_refl. by rewrite bool_decide_eq_true_2.
Qed.

(** The entry of a MasterCode write goes in: its version is the next one. *)
Lemma write_master_code_log_ok db db' tables ids l :
  ck_master_code_log pg_cntrl l = Ok tt → is_Some (mcs db' !! ml_master_code_id l) →
  dim_logs db' = dim_logs db → mc_logs db' = mc_logs db ++ [l] →
  logs_match tables db → length ids = 1%nat → (∀ id, id ∈ ids → id ∉ (lt_mcs tables).*1) →
  (∀ x, x ∈ mc_history_of (ml_master_code_id l) (mc_logs db) → ml_version x ≠ ml_version l) →
  write_logs pg_cntrl db' tables [] (zip ids [l]) = Ok (tables_after tables ids [] [l]) ∧
  logs_match (tables_after tables ids [] [l]) db'.
Proof.
  intros Hck Hrow Hdl Hmcl [Hdt Hmt] Hlen Hid Hv. destruct ids as [|id [|]]; try done.
  unfold tables_after, logs_match. cbn [zip zip_with]. rewrite app_nil_r. cbn [lt_dims lt_mcs].
  rewrite fmap_app, Hmt, Hdl, Hmcl. split; [|done]. unfold write_logs. cbn [foldR mbind result_bind].
  rewrite insert_master_code_log_ok; [done|done|apply Hid; by left| |done].
  intros x Hx Hxi. apply Hv. unfold mc_history_of. apply elem_of_filter_bool.
  split; [by rewrite <- Hmt|by apply Z.eqb_eq].
Qed.

(** C27: the log tables refuse nothing.  When a row write of a well-formed
    database is accepted, the entries its trigger inserts into the log tables,
    under identifiers and a change set that are new there, satisfy every
    CHECK, UNIQUE, PRIMARY KEY and FOREIGN KEY constraint of those tables, which
    then hold the old entries followed by the new ones. *)
Theorem log_inserts_succeed (c : AuditContext) (db db' : DB) (dls : list DimLog) (mls : list McLog)
    (tables : LogTables) (ids : list UUID) :
  store_ok db → audited (cx_metadata c) → row_write c db db' dls mls → logs_match tables db →
  NoDup ids → length ids = (length dls + length mls)%nat →
  (∀ id, id ∈ ids → (id ∉ (lt_dims tables).*1) ∧ (id ∉ (lt_mcs tables).*1)) →
  (∀ l l', l ∈ dls → l' ∈ dim_history_of (dl_slot l) (dl_dimension_id l) (dim_logs db) →
     md_change_set_id (dl_metadata l') ≠ md_change_set_id (cx_metadata c)) →
  write_logs pg_cntrl db' tables (zip ids dls) (zip ids mls) = Ok (tables_after tables ids dls mls) ∧
  logs_match (tables_after tables ids dls mls) db'.
Proof.
  intros Hok Hmd Hw Hmatch Hnd Hlen Hids Hfresh.
  pose proof Hok as [Hd _ _ Hm _ _ _ _ Hml].
  assert (∀ id, id ∈ ids → id ∉ (lt_dims tables).*1) as Hid1 by (intros; by apply Hids).
  assert (∀ id, id ∈ ids → id ∉ (lt_mcs tables).*1) as Hid2 by (intros; by apply Hids).
  destruct Hw as [s r Hins|s old new Hold Hupd|m Hins|old new Hold Hupd]; cbn [length] in Hlen;
    rewrite ?Nat.add_0_r in Hlen; rewrite ?zip_nil_r.
  - unfold insert_dimension in Hins. apply bind_Ok in Hins as (_ & _ & Hins).
    apply bind_Ok in Hins as ([] & Hck & Hins). do 2 apply bind_Ok in Hins as (_ & _ & Hins).
    injection Hins as <-.
    eapply (write_dimension_logs_ok _ _ _ _ s (r_id r)); [by apply insert_logs_ck|apply insert_logs_own| |..|exact Hfresh];
      try done; [by repeat constructor|cbn; repeat constructor; set_solver|].
    cbn. by rewrite lookup_insert_eq.
  - unfold update_dimension in Hupd.
    apply bind_Ok in Hupd as ([] & (Hid & _)%dim_before_update_shape & Hupd).
    apply bind_Ok in Hupd as ([] & Hck & Hupd). apply bind_Ok in Hupd as (_ & _ & [= <-]).
    destruct (Hd _ _ _ Hold) as [_ Hwf].
    eapply (write_dimension_logs_ok _ _ _ _ s (r_id new)); [by apply update_logs_ck|apply update_logs_own| |
      apply update_fields_NoDup|..|exact Hfresh]; try done.
    + unfold dim_update_logs. repeat apply Forall_app_2; case_match; by repeat constructor.
    + cbn. by rewrite lookup_insert_eq.
  - unfold insert_master_code in Hins.
    apply bind_Ok in Hins as ([] & (Hop & Hv & _)%mc_before_insert_Ok & Hins).
    apply bind_Ok in Hins as ([] & (Hcode & Hver & _ & _)%ck_master_code_Ok & Hins).
    apply bind_Ok in Hins as (_ & Hpk%raise_if_Ok%bool_decide_eq_false & Hins).
    do 2 apply bind_Ok in Hins as (_ & _ & Hins). injection Hins as <-.
    apply (write_master_code_log_ok db); try done.
    + apply ck_master_code_log_ok; try done. 
    + cbn. by rewrite lookup_insert_eq.
    + cbn. specialize (Hml (m_id m)). destruct (mcs db !! m_id m); [by destruct Hpk|]. rewrite Hml. set_solver.
  - unfold update_master_code in Hupd.
    apply bind_Ok in Hupd as ([] & Hb & Hupd). pose proof Hb as (Hid & _ & Hv & _ & Hop)%mc_before_update_shape.
    apply bind_Ok in Hupd as ([] & (Hcode & Hver & _ & _)%ck_master_code_Ok & Hupd).
    do 2 apply bind_Ok in Hupd as (_ & _ & Hupd). injection Hupd as <-.
    destruct (Hm _ _ Hold) as [_ Hwf].
    apply (write_master_code_log_ok db); try done.
    + apply ck_master_code_log_ok; try done.
      * cbn. unfold mc_before_update in Hb. by destruct (cx_master_code_operation c) as [[]|].
      * intros st Hst. assert (st = state_of old) as -> by by (cbn in Hst; congruence). apply (mw_code _ Hwf).
    + cbn. by rewrite lookup_insert_eq.
    + cbn. specialize (Hml (m_id old)). rewrite Hold in Hml. rewrite Hid. intros x Hx.
      pose proof (chain_versions _ _ _ _ Hml Hx). lia.
Qed.
End database_lemmas.

Lemma store_step_row_write db db' :
  store_step db db' → ∃ c dls mls, row_write c db db' dls mls.
Proof.
  intros [c s r ? ? Hw|c s old new ? ? Hold Hw|c m ? ? Hw|c old new ? ? Hold Hw]; do 3 eexists;
    eauto using row_write.
Qed.

(** ** Witness *)

Definition first_company : DimRow := mkDimRow 1 (py "SAM") (RString (py "SAMSUNG")) 1 100 100 None.
Definition first_audit : MutationAuditMetadata :=
  mkMutationAuditMetadata (test_uuid7 1) (AuditActor_human 5 ADMIN)
    (mkMutationOperations (Some DIM_CREATE) None) (Some (py "first row")).
Definition first_context : AuditContext := mkAuditContext first_audit 100.
Definition first_logs : list DimLog := dim_insert_logs first_context Company first_company.
Definition first_db : DB := mkDB {[(Company, 1) := first_company]} ∅ first_logs [].

Lemma log_inserts_succeed_witness :
  ∃ tables, write_logs is_Cc first_db (mkLogTables [] []) (zip [21; 22] first_logs) [] = Ok tables ∧
    fst <$> lt_dims tables = [21; 22].
Proof.
  assert (audited first_audit) as Ha.
  { exists (test_uuid7 1), (mkHumanPrincipal 5 ADMIN), (Some DIM_CREATE), None, (Some (py " first row ")).
    vm_compute. reflexivity. }
  assert (row_write first_context empty_db first_db first_logs []) as Hw.
  { apply write_insert_dimension. vm_compute. reflexivity. }
  eexists. split.
  - apply (log_inserts_succeed is_Cc (λ _ Hc, Hc) first_context empty_db first_db first_logs []
      (mkLogTables [] []) [21; 22] store_ok_empty Ha Hw).
    + split; reflexivity.
    + repeat constructor; set_solver.
    + reflexivity.
    + intros id _. split; apply not_elem_of_nil.
    + intros l l' _ Hl'. by apply not_elem_of_nil in Hl'.
  - reflexivity.
Defined.
