(* ===== verification/Consistency.v ===== *)
(** * Consistency of MasterCodes with the rows they reference

    What the repositories maintain beyond the constraints: the code of every
    MasterCode composes the codes of the rows it references now, and an active
    MasterCode references active rows only.  In a consistent database every
    read succeeds and returns a valid aggregate. *)

From S2P Require Import Prelude Python Exceptions Auth MutationAudit Dimensions MasterCodes Store Records Invariant.
Local Open Scope Z_scope.

(** The code of a slot, from the row it references. *)
Definition row_slot_code (r : option DimRow) : pystr :=
  match r with None => NOT_APPLICABLE_CODE | Some r => r_code r end.
Definition compose_row (db : DB) (m : McRow) : pystr :=
  str_join [dash] ((λ s, row_slot_code (joined_slot db m s)) <$> ORDER).

Record consistent (db : DB) : Prop := {
  cs_code : ∀ id m, mcs db !! id = Some m → m_code m = compose_row db m;
  cs_active : ∀ id m s r, mcs db !! id = Some m → m_deleted_at m = None →
    joined_slot db m s = Some r → r_deleted_at r = None;
}.

(** What holds between transactions. *)
Definition db_ok (db : DB) : Prop := store_ok db ∧ consistent db.

(** The aggregate a stored MasterCode reads as. *)
Definition joined_dims (db : DB) (m : McRow) : MasterCodeDimensions :=
  of_slots (λ s, joined_slot db m s ≫= row_dimension s).
Definition mc_of (m : McRow) (dimensions : MasterCodeDimensions) : MasterCode :=
  mkMasterCode (m_id m) dimensions (m_code m) (m_version m) (utc (m_created_at m))
    (utc (m_updated_at m)) (utc <$> m_deleted_at m).

Lemma get_of_slots f s : get_slot (of_slots f) s = f s.
Proof. by destruct s. Qed.

Lemma joined_slot_Some db m s r :
  joined_slot db m s = Some r ↔
  ∃ ref, at_slot (m_refs m) s = Some ref ∧ dims db !! (s, ref) = Some r.
Proof. unfold joined_slot. rewrite bind_Some. done. Qed.

Lemma joined_slot_None db m s :
  store_ok db → (∀ ref, at_slot (m_refs m) s = Some ref → is_Some (dims db !! (s, ref))) →
  joined_slot db m s = None → at_slot (m_refs m) s = None.
Proof.
  unfold joined_slot. intros _ Hfk. destruct (at_slot (m_refs m) s) as [ref|]; [|done]. cbn.
  destruct (Hfk ref eq_refl) as [r ->]. done.
Qed.

Lemma row_dimension_fields s r d :
  row_dimension s r = Some d →
  dim_id d = r_id r ∧ code_value (dim_code d) = r_code r ∧ dim_version d = r_version r ∧
  dim_updated_at d = utc (r_updated_at r) ∧ dim_created_at d = utc (r_created_at r) ∧
  is_deleted d = row_deleted r ∧ value_to_row (dim_value_of d) = r_value r ∧
  dim_deleted_at d = utc <$> r_deleted_at r ∧ value_dom s (r_value r) = Some (dim_value_of d).
Proof.
  unfold row_dimension. intros (v & Hv & [= <-])%bind_Some. split_and!; try done.
  - cbn. unfold is_deleted, row_deleted; cbn. by destruct (r_deleted_at r).
  - cbn. by eapply value_dom_row.
Qed.

Lemma joined_row_wf db m s r :
  store_ok db → joined_slot db m s = Some r → dim_row_wf s r.
Proof. intros Hok (ref & _ & Hr)%joined_slot_Some. by eapply so_dim in Hr as [_ ?]. Qed.

(** Rows of a slot that read as Dimensions. *)
Lemma joined_dims_slot db m s :
  store_ok db →
  match joined_slot db m s with
  | None => get_slot (joined_dims db m) s = None
  | Some r => ∃ d, get_slot (joined_dims db m) s = Some d ∧ row_dimension s r = Some d ∧
      dim_valid d ∧ code_wf (dim_code d) = true ∧ slot_of_value (dim_value_of d) = s
  end.
Proof.
  intros Hok. unfold joined_dims. rewrite get_of_slots.
  destruct (joined_slot db m s) as [r|] eqn:E; [|done]. cbn.
  pose proof (joined_row_wf _ _ _ _ Hok E) as Hwf.
  destruct (@row_to_domain_wf ascii_data s r Hwf) as (x & Hx & _ & ? & ? & _ & ?).
  exists x. by split_and!.
Qed.

Lemma joined_dims_codes_wf db m : store_ok db → codes_wf (joined_dims db m).
Proof.
  intros Hok s dim Hs. pose proof (joined_dims_slot db m s Hok) as H.
  destruct (joined_slot db m s) as [r|]; [|congruence]. destruct H as (d & Hd & _ & _ & ? & _). congruence.
Qed.

Lemma slot_code_joined db m s :
  store_ok db → slot_code (get_slot (joined_dims db m) s) = row_slot_code (joined_slot db m s).
Proof.
  intros Hok. pose proof (joined_dims_slot db m s Hok) as H.
  destruct (joined_slot db m s) as [r|]; [|by rewrite H].
  destruct H as (d & -> & Hd & _). by apply row_dimension_fields in Hd as (_ & ? & _).
Qed.

Lemma compose_joined db m : store_ok db → compose (joined_dims db m) = compose_row db m.
Proof.
  intros Hok. unfold compose, compose_row, ordered. f_equal. rewrite <- list_fmap_compose.
  apply list_fmap_ext. intros i s _. by apply slot_code_joined.
Qed.

(** A composition over rows determines the code of each slot. *)
Lemma compose_row_inj db1 m1 db2 m2 :
  store_ok db1 → store_ok db2 →
  compose_row db1 m1 = compose_row db2 m2 ↔
  ∀ s, r_code <$> joined_slot db1 m1 s = r_code <$> joined_slot db2 m2 s.
Proof.
  intros H1 H2.
  assert (∀ db m s, store_ok db →
    r_code <$> joined_slot db m s = code_value <$> (dim_code <$> get_slot (joined_dims db m) s)) as Hr.
  { intros db m s Hok. pose proof (joined_dims_slot db m s Hok) as H.
    destruct (joined_slot db m s) as [r|]; [|by rewrite H].
    destruct H as (d & -> & Hd & _). cbn. by apply row_dimension_fields in Hd as (_ & -> & _). }
  setoid_rewrite Hr; [|done..]. rewrite <- !compose_joined by done.
  pose proof (joined_dims_codes_wf db1 m1 H1) as W1.
  pose proof (joined_dims_codes_wf db2 m2 H2) as W2. split.
  - intros Heq s. f_equal. apply slot_code_inj; [done..|]. by apply compose_codes.
  - intros Heq. unfold compose. f_equal. apply ordered_eq. intros s. apply slot_code_inj; [done..|].
    specialize (Heq s). destruct (get_slot (joined_dims db1 m1) s) as [x|],
      (get_slot (joined_dims db2 m2) s) as [y|]; cbn in *; try done.
    injection Heq as Heq. destruct (dim_code x), (dim_code y). cbn in *. congruence.
Qed.

Section unicode.
Context `{UnicodeData}.

Lemma slot_to_domain_joined db m s :
  store_ok db → slot_to_domain s (joined_slot db m s) = Ok (get_slot (joined_dims db m) s).
Proof.
  intros Hok. unfold joined_dims. rewrite get_of_slots.
  destruct (joined_slot db m s) as [r|] eqn:E; [|done]. cbn.
  destruct (row_to_domain_wf s r (joined_row_wf _ _ _ _ Hok E)) as (d & -> & -> & _). done.
Qed.

Lemma build_joined db m :
  store_ok db →
  build_dimensions (λ s, slot_to_domain s (joined_slot db m s)) = Ok (joined_dims db m).
Proof.
  intros Hok. rewrite (build_dimensions_total _ (joined_dims db m)).
  - apply MasterCodeDimensions_init_Ok. split; [done|]. intros s dim Hs.
    pose proof (joined_dims_slot db m s Hok) as Hd.
    destruct (joined_slot db m s) as [r|]; [|congruence]. destruct Hd as (d & Hd & _ & _ & _ & ?). congruence.
  - intros s. by apply slot_to_domain_joined.
Qed.

Lemma mc_of_valid id m db :
  db_ok db → mcs db !! id = Some m → mc_valid (mc_of m (joined_dims db m)).
Proof.
  intros [Hok [Hcode Hact]] Hm. destruct (so_mc _ Hok _ _ Hm) as [Hid [_ Hver Ho Hf Hd]].
  split; cbn; try done.
  - intros Hdel%fmap_None s dim Hs. pose proof (joined_dims_slot db m s Hok) as Hj.
    destruct (joined_slot db m s) as [r|] eqn:E; [|congruence].
    destruct Hj as (d & Hd' & Hrow & _). rewrite Hd' in Hs. injection Hs as <-.
    apply row_dimension_fields in Hrow as (_ & _ & _ & _ & _ & -> & _).
    unfold row_deleted. by rewrite (Hact _ _ _ _ Hm Hdel E).
  - rewrite compose_joined by done. by eapply Hcode.
  - intros t (t' & Ht & ->)%fmap_Some. split; [done|]. by apply Hd.
Qed.

Lemma joined_to_domain_ok id m db :
  db_ok db → mcs db !! id = Some m → joined_to_domain db m = Ok (mc_of m (joined_dims db m)).
Proof.
  intros Hdb Hm. unfold joined_to_domain. rewrite build_joined by apply Hdb. cbn.
  apply MasterCode_init_Ok. split; [done|]. by eapply mc_of_valid.
Qed.
End unicode.

Lemma mc_code_pattern_compose d : codes_wf d → mc_code_pattern (compose d) = true.
Proof.
  intros Hwf. unfold mc_code_pattern, compose. rewrite str_split_join.
  - apply andb_true_iff. split; [done|]. apply forallb_Forall. unfold ordered.
    rewrite <- list_fmap_compose. apply Forall_fmap, Forall_true. intros s.
    apply code_pattern_spec. by apply slot_code_alnum.
  - done.
  - by apply slot_code_no_dash.
Qed.

(** ** Codes and references determine each other *)

Definition refs_exist (db : DB) (m : McRow) : Prop :=
  ∀ s ref, at_slot (m_refs m) s = Some ref → is_Some (dims db !! (s, ref)).

Lemma stored_refs_exist db id m : store_ok db → mcs db !! id = Some m → refs_exist db m.
Proof. intros Hok Hm s ref. by apply (so_fk _ Hok _ _ _ _ Hm). Qed.

Lemma refs_from_codes db m n :
  store_ok db → refs_exist db m → refs_exist db n →
  (∀ s, r_code <$> joined_slot db m s = r_code <$> joined_slot db n s) → m_refs m = m_refs n.
Proof.
  intros Hok Hm Hn Heq. apply slots_ext. intros s. specialize (Heq s).
  destruct (joined_slot db m s) as [r|] eqn:E1, (joined_slot db n s) as [q|] eqn:E2; try done.
  - apply joined_slot_Some in E1 as (i & Hi & Hr), E2 as (j & Hj & Hq). rewrite Hi, Hj. f_equal.
    injection Heq as Heq. by eapply so_code.
  - rewrite (joined_slot_None db m s Hok (Hm s) E1). by rewrite (joined_slot_None db n s Hok (Hn s) E2).
Qed.

(** Joined rows after a change of one Dimension row. *)
Lemma joined_slot_insert db m s s' r db1 :
  dims db1 = <[(s, r_id r) := r]> (dims db) →
  joined_slot db1 m s' =
    if bool_decide (s' = s ∧ at_slot (m_refs m) s = Some (r_id r)) then Some r
    else joined_slot db m s'.
Proof.
  intros Hd. unfold joined_slot. rewrite Hd. case_bool_decide as Hs.
  - destruct Hs as [-> Hs]. rewrite Hs. cbn. by rewrite lookup_insert_eq.
  - destruct (at_slot (m_refs m) s') as [ref|] eqn:E; [|done]. cbn.
    rewrite lookup_insert_ne; [done|]. intros [= -> <-]. by destruct Hs.
Qed.

Lemma joined_slot_ext db db' m s : dims db' = dims db → joined_slot db' m s = joined_slot db m s.
Proof. intros Hd. unfold joined_slot. by rewrite Hd. Qed.

Lemma joined_slot_refs db m n s :
  m_refs n = m_refs m → joined_slot db n s = joined_slot db m s.
Proof. intros Hr. unfold joined_slot. by rewrite Hr. Qed.

Lemma joined_dims_refs db m n : m_refs n = m_refs m → joined_dims db n = joined_dims db m.
Proof. intros Hr. unfold joined_dims, joined_slot. by rewrite Hr. Qed.

Lemma joined_dims_ext db db' m : dims db' = dims db → joined_dims db' m = joined_dims db m.
Proof. intros Hd. unfold joined_dims, joined_slot. by rewrite Hd. Qed.

Lemma compose_row_refs db m n : m_refs n = m_refs m → compose_row db n = compose_row db m.
Proof. intros Hr. unfold compose_row, joined_slot. by rewrite Hr. Qed.

Lemma compose_row_ext db db' m : dims db' = dims db → compose_row db' m = compose_row db m.
Proof. intros Hd. unfold compose_row, joined_slot. by rewrite Hd. Qed.

#[global] Arguments compose_row : simpl never.
#[global] Arguments joined_slot : simpl never.
#[global] Arguments joined_dims : simpl never.
#[global] Arguments compose : simpl never.
