(* ===== verification/Pagination.v ===== *)
(** * Keyset pagination

    Every list endpoint reads one page in descending [(created_at, id)] order:
    [WHERE (created_at, id) < cursor ORDER BY created_at DESC, id DESC LIMIT
    limit + 1], drops the extra row and reports whether it existed.  [page] is
    that query over any rows with such a key; [paginate] is a client that
    follows the cursor of the last item.  The repositories instantiate it. *)

From stdpp Require Import sorting.
From S2P Require Import Prelude Python.
Local Open Scope Z_scope.

(** [(created_at, id)] *)
Abbreviation page_key := (Z * Z)%type (only parsing).

(** [created_at < after.created_at OR (created_at = ... AND id < after.id)] *)
Definition key_ltb (k c : page_key) : bool :=
  (k.1 <? c.1) || ((k.1 =? c.1) && (k.2 <? c.2)).
Definition key_le (k c : page_key) : Prop := k.1 < c.1 ∨ (k.1 = c.1 ∧ k.2 ≤ c.2).
#[export] Instance key_le_dec : RelDecision key_le.
Proof. intros k c. unfold key_le. apply _. Defined.

Record Page (A : Type) := mkPage { page_items : list A; page_has_more : bool }.
Arguments mkPage {A}. Arguments page_items {A}. Arguments page_has_more {A}.

Section page.
Context {A : Type} (key : A → page_key).

Definition descending (x y : A) : Prop := key_le (key y) (key x).
#[export] Instance descending_dec : RelDecision descending.
Proof. intros x y. unfold descending. apply _. Defined.

Definition after_cursor (after : option page_key) (x : A) : bool :=
  match after with None => true | Some c => key_ltb (key x) c end.

(** The rows the query returns. *)
Definition select_page (after : option page_key) (limit : nat) (rows : list A) : list A :=
  take (S limit) (merge_sort descending (List.filter (after_cursor after) rows)).

Definition page (after : option page_key) (limit : nat) (rows : list A) : Page A :=
  let records := select_page after limit rows in
  mkPage (take limit records) (limit <? length records)%nat.

(** A client that reads every page. *)
Fixpoint paginate (fuel : nat) (after : option page_key) (limit : nat) (rows : list A) : list A :=
  match fuel with
  | O => []
  | S fuel' =>
      let p := page after limit rows in
      page_items p ++
      match page_has_more p, last (page_items p) with
      | true, Some x => paginate fuel' (Some (key x)) limit rows
      | _, _ => []
      end
  end.

(** ** Order *)

Lemma key_ltb_spec k c : key_ltb k c = true ↔ k.1 < c.1 ∨ (k.1 = c.1 ∧ k.2 < c.2).
Proof. unfold key_ltb. rewrite orb_true_iff, andb_true_iff, !Z.ltb_lt, Z.eqb_eq. done. Qed.

Lemma key_ltb_le k c : key_ltb k c = true ↔ key_le k c ∧ k ≠ c.
Proof.
  rewrite key_ltb_spec. unfold key_le. destruct k as [a b], c as [a' b']; cbn. split.
  - intros [?|[? ?]]; (split; [lia|]); intros [= ? ?]; lia.
  - intros [[?|[? ?]] Hne]; [by left|]. subst a'. right. split; [done|].
    destruct (decide (b = b')) as [->|]; [done|lia].
Qed.

#[local] Instance descending_trans : Transitive descending.
Proof. intros x y z. unfold descending, key_le. lia. Qed.
#[local] Instance descending_total : Total descending.
Proof. intros x y. unfold descending, key_le. lia. Qed.

Lemma descending_antisymm x y : descending x y → descending y x → key x = key y.
Proof.
  unfold descending, key_le. destruct (key x), (key y); cbn. intros ??. f_equal; lia.
Qed.

(** Rows with distinct keys. *)
Definition distinct_keys (rows : list A) : Prop := NoDup (key <$> rows).

Lemma distinct_keys_inj rows x y :
  distinct_keys rows → x ∈ rows → y ∈ rows → key x = key y → x = y.
Proof.
  unfold distinct_keys. intros Hnd Hx Hy He.
  apply list_elem_of_lookup in Hx as [i Hi], Hy as [j Hj].
  assert (i = j) as ->; [|congruence].
  eapply NoDup_lookup; [done| |]; rewrite list_lookup_fmap; [by rewrite Hi|].
  by rewrite Hj, He.
Qed.

(** Filtering commutes with sorting when the keys are distinct. *)
Lemma sort_filter (P : A → bool) rows :
  distinct_keys rows →
  merge_sort descending (List.filter P rows) = List.filter P (merge_sort descending rows).
Proof.
  intros Hnd.
  assert (∀ l, StronglySorted descending l → StronglySorted descending (List.filter P l)) as Hss.
  { induction 1 as [|x l Hl IH Hx]; cbn; [constructor|]. destruct (P x); [|done].
    constructor; [done|]. rewrite Forall_forall in *. intros y Hy. apply Hx.
    apply list_elem_of_In, filter_In in Hy as [Hy _]. by apply list_elem_of_In. }
  assert (∀ x, x ∈ merge_sort descending (List.filter P rows) → x ∈ rows) as Hin.
  { intros x. rewrite merge_sort_Permutation, list_elem_of_In, filter_In, list_elem_of_In. tauto. }
  apply StronglySorted_unique_strong with (R := descending).
  - intros x y Hx Hy Hxy Hyx. eapply distinct_keys_inj; [done|by apply Hin| |].
    + apply list_elem_of_In, filter_In in Hy as [Hy _]. apply list_elem_of_In in Hy.
      by rewrite merge_sort_Permutation in Hy.
    + by apply descending_antisymm.
  - apply StronglySorted_merge_sort; apply _.
  - apply Hss, StronglySorted_merge_sort; apply _.
  - rewrite merge_sort_Permutation. clear. 
    assert (∀ l l' : list A, l ≡ₚ l' → List.filter P l ≡ₚ List.filter P l') as Hp.
    { induction 1 as [|x l l' _ IH|x y l|l1 l2 l3 _ IH1 _ IH2]; cbn;
        [done|by destruct (P x); rewrite IH|by destruct (P x), (P y); try constructor|by rewrite IH1]. }
    apply Hp. by rewrite merge_sort_Permutation.
Qed.

(** The rows after the key of a member of a sorted list are those that follow it. *)
Lemma filter_after (pre suf : list A) x :
  StronglySorted descending (pre ++ x :: suf) → distinct_keys (pre ++ x :: suf) →
  List.filter (after_cursor (Some (key x))) (pre ++ x :: suf) = suf.
Proof.
  intros Hss Hnd. apply StronglySorted_app in Hss as (Hpre & _ & [Hx _]%StronglySorted_cons).
  rewrite List.filter_app. cbn.
  assert (key_ltb (key x) (key x) = false) as ->.
  { apply not_true_is_false. rewrite key_ltb_le. by intros [_ ?]. }
  assert (List.filter (after_cursor (Some (key x))) pre = []) as ->.
  { clear Hx Hnd. induction pre as [|y pre IH]; [done|]. cbn.
    assert (key_ltb (key y) (key x) = false) as ->.
    { apply not_true_is_false. rewrite key_ltb_le. intros [Hle Hne]. apply Hne.
      apply descending_antisymm; [|done]. apply Hpre; set_solver. }
    apply IH. intros y' z Hy' Hz. apply Hpre; set_solver. }
  cbn. rewrite Forall_forall in Hx.
  assert (∀ y, y ∈ suf → after_cursor (Some (key x)) y = true) as Hall.
  { intros y Hy. cbn. apply key_ltb_le. split; [by apply Hx|]. intros He.
    unfold distinct_keys in Hnd. rewrite fmap_app, fmap_cons in Hnd.
    apply NoDup_app in Hnd as (_ & _ & [Hn _]%NoDup_cons). apply Hn. rewrite <- He.
    by apply list_elem_of_fmap_2. }
  clear -Hall. induction suf as [|y suf IH]; [done|].
  assert (key_ltb (key y) (key x) = true) as Hy by (apply (Hall y); set_solver).
  cbn. rewrite Hy. f_equal. apply IH. intros z Hz. apply Hall. set_solver.
Qed.

(** ** A page is a slice of the descending order *)

Definition remaining (after : option page_key) (rows : list A) : list A :=
  List.filter (after_cursor after) (merge_sort descending rows).

Lemma page_slice after limit rows :
  distinct_keys rows →
  page_items (page after limit rows) = take limit (remaining after rows) ∧
  page_has_more (page after limit rows) = (limit <? length (remaining after rows))%nat.
Proof.
  intros Hnd. unfold page, select_page, remaining. rewrite sort_filter by done. cbn.
  split.
  - rewrite take_take. f_equal. lia.
  - rewrite length_take. destruct (Nat.ltb_spec limit (length (List.filter (after_cursor after)
      (merge_sort descending rows)))).
    + apply Nat.ltb_lt. lia.
    + apply Nat.ltb_ge. lia.
Qed.

Lemma remaining_after rows after limit x :
  distinct_keys rows → last (take limit (remaining after rows)) = Some x →
  (length (take limit (remaining after rows)) = limit)%nat →
  (∃ pre, merge_sort descending rows = pre ++ remaining after rows) →
  remaining (Some (key x)) rows = drop limit (remaining after rows).
Proof.
  intros Hnd Hlast Hlen [pre Hpre].
  apply last_Some in Hlast as [l Hl].
  assert (merge_sort descending rows = (pre ++ l) ++ x :: drop limit (remaining after rows)) as He.
  { rewrite Hpre, <- (take_drop limit (remaining after rows)) at 1. rewrite Hl.
    rewrite <- !app_assoc. done. }
  unfold remaining at 1. rewrite He. apply filter_after; rewrite <- He.
  - apply StronglySorted_merge_sort; apply _.
  - unfold distinct_keys. by rewrite merge_sort_Permutation.
Qed.

Lemma paginate_remaining fuel after limit rows :
  distinct_keys rows → (1 ≤ limit)%nat → (length (remaining after rows) < fuel)%nat →
  (∃ pre, merge_sort descending rows = pre ++ remaining after rows) →
  paginate fuel after limit rows = remaining after rows.
Proof.
  intros Hnd Hlim. revert after; induction fuel as [|fuel IH]; intros after Hfuel Hpre; [lia|].
  cbn [paginate]. destruct (page_slice after limit rows Hnd) as [-> ->].
  set (R := remaining after rows) in *.
  destruct (Nat.ltb_spec limit (length R)) as [Hlt|Hge].
  - assert (length (take limit R) = limit) as Hlen by (rewrite length_take; lia).
    destruct (last (take limit R)) as [x|] eqn:Hlast.
    + pose proof (remaining_after rows after limit x Hnd Hlast Hlen Hpre) as Hrem.
      fold R in Hrem. rewrite IH.
      * rewrite Hrem. apply take_drop.
      * rewrite Hrem, length_drop. lia.
      * destruct Hpre as [pre Hpre]. exists (pre ++ take limit R).
        by rewrite Hrem, <- app_assoc, take_drop.
    + apply last_None in Hlast. rewrite Hlast in Hlen. cbn in Hlen. lia.
  - rewrite take_ge by lia. by rewrite app_nil_r.
Qed.

Lemma paginate_all fuel limit rows :
  distinct_keys rows → (1 ≤ limit)%nat → (length rows < fuel)%nat →
  paginate fuel None limit rows = merge_sort descending rows.
Proof.
  intros Hnd Hlim Hfuel.
  assert (remaining None rows = merge_sort descending rows) as Hall.
  { unfold remaining. generalize (merge_sort descending rows). clear.
    induction l as [|x l IH]; cbn; [done|]. by rewrite IH. }
  rewrite paginate_remaining; try done.
  - rewrite Hall. by rewrite merge_sort_Permutation.
  - exists []. by rewrite Hall.
Qed.
End page.

Lemma distinct_keys_ids {A} (key : A → page_key) (id : A → UUID) l :
  (∀ x, (key x).2 = id x) → NoDup (id <$> l) → distinct_keys key l.
Proof.
  intros Hk Hnd. unfold distinct_keys. apply (NoDup_fmap_1 snd (key <$> l)). rewrite <- list_fmap_compose.
  rewrite (list_fmap_ext _ id); [done|]. intros i x _. apply Hk.
Qed.

(** ** A client of a list operation

    The operation reads its rows into domain values; the client continues from
    the cursor of the last item until no page follows. *)

Section client.
Context {A B E : Type} (key : A → page_key) (cursor : B → page_key).

Fixpoint read_all (read : option page_key → result E (Page B)) (fuel : nat)
    (after : option page_key) : result E (list B) :=
  match fuel with
  | O => Ok []
  | S fuel' =>
      p ← read after;
      match page_has_more p, last (page_items p) with
      | true, Some x => rest ← read_all read fuel' (Some (cursor x)); Ok (page_items p ++ rest)
      | _, _ => Ok (page_items p)
      end
  end.

Lemma page_items_elem after limit rows x :
  x ∈ page_items (page key after limit rows) → x ∈ rows.
Proof.
  unfold page, select_page. cbn. intros Hx. apply elem_of_take in Hx as (i & Hi & _).
  apply list_elem_of_lookup_2, elem_of_take in Hi as (j & Hj & _).
  apply list_elem_of_lookup_2 in Hj. rewrite merge_sort_Permutation in Hj.
  apply list_elem_of_In, filter_In in Hj as [Hj _]. by apply list_elem_of_In.
Qed.

Lemma read_all_paginate (read : option page_key → result E (Page B)) (f : A → result E B)
    (g : A → B) fuel after limit rows :
  (∀ x, x ∈ rows → f x = Ok (g x) ∧ cursor (g x) = key x) →
  (∀ after, read after = (items ← mapR f (page_items (page key after limit rows));
                          Ok (mkPage items (page_has_more (page key after limit rows))))) →
  read_all read fuel after = Ok (g <$> paginate key fuel after limit rows).
Proof.
  intros Hf Hread. revert after. induction fuel as [|fuel IH]; intros after; [done|].
  cbn [read_all paginate]. rewrite Hread.
  rewrite (mapR_pure f g) by (intros x Hx; apply Hf; by apply page_items_elem in Hx).
  cbn [mbind result_bind page_has_more page_items]. rewrite fmap_last, fmap_app.
  destruct (page_has_more (page key after limit rows)); [|by rewrite app_nil_r].
  destruct (last (page_items (page key after limit rows))) as [x|] eqn:Hl; cbn [fmap option_fmap option_map];
    [|by rewrite app_nil_r].
  assert (x ∈ rows) as Hx.
  { apply (page_items_elem after limit). apply last_Some in Hl as [l ->]. set_solver. }
  rewrite (proj2 (Hf x Hx)), IH. done.
Qed.
End client.
