(* ===== verification/BoundedMerge.v ===== *)
(** * ORDER BY and LIMIT

    A query orders its rows by several keys, each ascending or descending, and
    keeps the first of them.  A query over several tables may order and cut
    every table first and then order and cut the union of what is left: the
    outcome is the one of ordering the whole union.  The audit log query relies
    on this to keep each of its branches bounded. *)

From stdpp Require Import sorting.
From S2P Require Import Prelude.

(** ** ORDER BY *)

Section order_by.
Context {A : Type}.

(** [f] decides, and [g] where [f] finds two elements equal. *)
Definition then_by (f g : A → A → bool) (x y : A) : bool := f x y && (negb (f y x) || g x y).
Definition order_by (keys : list (A → A → bool)) : relation A :=
  λ x y, foldr then_by (λ _ _, true) keys x y = true.
Definition asc_by {K} (leb : K → K → bool) (key : A → K) (x y : A) : bool := leb (key x) (key y).
Definition desc_by {K} (leb : K → K → bool) (key : A → K) (x y : A) : bool := leb (key y) (key x).

#[export] Instance order_by_dec keys : RelDecision (order_by keys).
Proof. intros x y. unfold order_by. apply _. Defined.

Definition total_preorder (f : A → A → bool) : Prop :=
  (∀ x y z, f x y = true → f y z = true → f x z = true) ∧ ∀ x y, f x y = true ∨ f y x = true.

Lemma then_by_preorder f g : total_preorder f → total_preorder g → total_preorder (then_by f g).
Proof.
  intros [Tf Lf] [Tg Lg]. unfold then_by. split.
  - intros x y z [Hxy Gxy]%andb_true_iff [Hyz Gyz]%andb_true_iff.
    rewrite (Tf x y z) by done. cbn. destruct (f z x) eqn:Hzx; [cbn|done].
    rewrite (Tf y z x), (Tf z x y) in * by done. cbn in *. eauto.
  - intros x y. destruct (f x y) eqn:Hxy, (f y x) eqn:Hyx; cbn; auto.
    destruct (Lf x y); congruence.
Qed.

Lemma foldr_preorder keys : Forall total_preorder keys → total_preorder (foldr then_by (λ _ _, true) keys).
Proof. induction 1 as [|f keys Hf _ IH]; cbn; [split; auto|by apply then_by_preorder]. Qed.

Lemma order_by_transitive keys : Forall total_preorder keys → Transitive (order_by keys).
Proof. intros H%foldr_preorder. exact (proj1 H). Qed.

Lemma order_by_total keys : Forall total_preorder keys → Total (order_by keys).
Proof. intros H%foldr_preorder. exact (proj2 H). Qed.

(** Elements that come before each other agree on every key. *)
Lemma order_by_both keys x y :
  order_by keys x y → order_by keys y x → Forall (λ f, f x y = true ∧ f y x = true) keys.
Proof.
  unfold order_by. induction keys as [|f keys IH]; cbn; [done|]. unfold then_by.
  intros [Hxy Gxy]%andb_true_iff [Hyx Gyx]%andb_true_iff. rewrite Hxy, Hyx in *. cbn in *. auto.
Qed.

Section keys.
Context {K : Type} (leb : K → K → bool) (key : A → K).
Hypothesis leb_trans : ∀ x y z, leb x y = true → leb y z = true → leb x z = true.
Hypothesis leb_total : ∀ x y, leb x y = true ∨ leb y x = true.

Lemma ascending_preorder : total_preorder (asc_by leb key).
Proof. split; unfold asc_by; intros; [eauto|apply leb_total]. Qed.

Lemma descending_preorder : total_preorder (desc_by leb key).
Proof. split; unfold desc_by; intros; [eauto|apply leb_total]. Qed.
End keys.
End order_by.

(** ** LIMIT *)

Lemma elem_of_concat {A} (x : A) ls : x ∈ concat ls ↔ ∃ l, x ∈ l ∧ l ∈ ls.
Proof. induction ls as [|l ls IH]; cbn; set_solver. Qed.

Section merge.
Context {A : Type} (R : relation A) `{!RelDecision R, !Transitive R, !Total R}.

Lemma sorted_sort l : StronglySorted R (merge_sort R l).
Proof. apply StronglySorted_merge_sort; apply _. Qed.

(** The relation tells the elements of a list apart. *)
Definition antisym_on (l : list A) : Prop := ∀ x y, x ∈ l → y ∈ l → R x y → R y x → x = y.

Lemma antisym_on_subset l k : k ⊆ l → antisym_on l → antisym_on k.
Proof. intros Hs Ha x y Hx Hy. apply Ha; by apply Hs. Qed.

Lemma antisym_on_permutation l k : l ≡ₚ k → antisym_on l → antisym_on k.
Proof. intros Hp. apply antisym_on_subset. intros x. by rewrite Hp. Qed.

Lemma antisym_on_app_l l k : antisym_on (l ++ k) → antisym_on l.
Proof. apply antisym_on_subset. set_solver. Qed.

Lemma sort_unique l k : antisym_on l → StronglySorted R k → k ≡ₚ l → merge_sort R l = k.
Proof.
  intros Ha Hk Hp. apply StronglySorted_unique_strong with (R := R); [|apply sorted_sort|done|].
  - intros x y Hx Hy Hxy Hyx. apply Ha; try done; [by rewrite merge_sort_Permutation in Hx|by rewrite Hp in Hy].
  - by rewrite merge_sort_Permutation.
Qed.

(** Adding elements that come after the first [n] does not change these. *)
Lemma take_sort_app n l d :
  antisym_on (l ++ d) → (d = [] ∨ length (take n (merge_sort R l)) = n) →
  Forall (λ y, Forall (λ x, R x y) (take n (merge_sort R l))) d →
  take n (merge_sort R (l ++ d)) = take n (merge_sort R l).
Proof.
  intros Ha [->|Hlen] Hd; [by rewrite app_nil_r|].
  assert (merge_sort R (l ++ d) = take n (merge_sort R l) ++ merge_sort R (drop n (merge_sort R l) ++ d)) as ->.
  2:{ rewrite take_app_le by lia. by rewrite take_take, Nat.min_id. }
  pose proof (sorted_sort l) as Hs. rewrite <- (take_drop n (merge_sort R l)) in Hs.
  apply StronglySorted_app in Hs as (Hcross & H1 & _).
  apply sort_unique; [done| |].
  - apply StronglySorted_app. split_and!; [|done|apply sorted_sort].
    intros x y Hx Hy. rewrite merge_sort_Permutation, elem_of_app in Hy. destruct Hy as [Hy|Hy]; [by apply Hcross|].
    rewrite Forall_forall in Hd. specialize (Hd _ Hy). rewrite Forall_forall in Hd. by apply Hd.
  - rewrite (merge_sort_Permutation R (drop n _ ++ d)), app_assoc, take_drop.
    by rewrite (merge_sort_Permutation R l).
Qed.

(** If [n] elements of a list come before [y], the first [n] do. *)
Lemma take_sort_below n e f y :
  length e = n → Forall (λ x, R x y) e → Forall (λ x, R x y) (take n (merge_sort R (e ++ f))).
Proof.
  intros Hlen He. apply Forall_forall. intros x Hx. destruct (decide (R x y)) as [|Hno]; [done|exfalso].
  apply elem_of_take in Hx as (i & Hi & Hlt).
  pose proof (take_drop_middle _ _ _ Hi) as Hsplit. pose proof (sorted_sort (e ++ f)) as Hs.
  rewrite <- Hsplit in Hs. apply StronglySorted_app in Hs as (_ & _ & [Hx _]%StronglySorted_cons).
  assert (filter (λ z, R z y) (drop (S i) (merge_sort R (e ++ f))) = []) as Hnil.
  { destruct (filter _ _) as [|z zs] eqn:Ez; [done|exfalso].
    assert (z ∈ z :: zs) as Hz by set_solver. rewrite <- Ez in Hz. apply list_elem_of_filter in Hz as [Hzy Hz].
    rewrite Forall_forall in Hx. apply Hno. etrans; [by apply Hx|done]. }
  assert (length (filter (λ z, R z y) (merge_sort R (e ++ f))) ≤ i) as Hle.
  { rewrite <- Hsplit, filter_app, filter_cons_False, Hnil, app_nil_r by done.
    etrans; [apply length_filter|]. rewrite length_take. lia. }
  rewrite merge_sort_Permutation, filter_app, length_app in Hle.
  rewrite (Forall_filter_id _ e) in Hle by done. lia.
Qed.

(** ** Cutting the branches first *)

Definition cut (n : nat) (l : list A) : list A := take n (merge_sort R l).

(** What is cut off every branch. *)
Definition rest (n : nat) (l : list A) : list A := drop n (merge_sort R l).

Lemma cut_rest n l : cut n l ++ rest n l = merge_sort R l.
Proof. apply take_drop. Qed.

Lemma concat_cut_rest n branches :
  concat branches ≡ₚ concat (cut n <$> branches) ++ concat (rest n <$> branches).
Proof.
  induction branches as [|l branches IH]; [done|]. cbn. rewrite IH.
  rewrite <- (merge_sort_Permutation R l) at 1. rewrite <- (cut_rest n l), <- !app_assoc.
  apply Permutation_app_head. rewrite !app_assoc. apply Permutation_app_tail, Permutation_app_comm.
Qed.

Lemma rest_dominated n l y :
  y ∈ rest n l → length (cut n l) = n ∧ Forall (λ x, R x y) (cut n l).
Proof.
  intros Hy. split.
  - unfold cut. rewrite length_take. apply list_elem_of_lookup_1 in Hy as (i & Hi).
    apply lookup_lt_Some in Hi. unfold rest in Hi. rewrite length_drop in Hi. lia.
  - pose proof (sorted_sort l) as Hs. rewrite <- (cut_rest n l) in Hs.
    apply StronglySorted_app in Hs as (Hcross & _ & _). apply Forall_forall. intros x Hx. by apply Hcross.
Qed.

Lemma cut_permutation n l k : antisym_on k → l ≡ₚ k → cut n l = cut n k.
Proof.
  intros Ha Hp. unfold cut. f_equal. apply sort_unique; [|apply sorted_sort|].
  - by apply (antisym_on_permutation k).
  - by rewrite merge_sort_Permutation.
Qed.

(** Sorting and cutting every branch and then sorting and cutting what is left gives the
    first [n] elements of the union. *)
Lemma cut_branches n (branches : list (list A)) :
  antisym_on (concat branches) → cut n (concat (cut n <$> branches)) = cut n (concat branches).
Proof.
  intros Ha. pose proof (concat_cut_rest n branches) as Hparts.
  apply (antisym_on_permutation _ _ Hparts) in Ha. rewrite (cut_permutation n _ _ Ha Hparts).
  symmetry. assert (∀ y, y ∈ concat (rest n <$> branches) →
    length (cut n (concat (cut n <$> branches))) = n ∧
    Forall (λ x, R x y) (cut n (concat (cut n <$> branches)))) as Hrest.
  { intros y (r & Hy & (l & -> & Hl)%list_elem_of_fmap)%elem_of_concat.
    apply rest_dominated in Hy as [Hlen Hall]. apply list_elem_of_split in Hl as (l1 & l2 & ->).
    assert (concat (cut n <$> l1 ++ l :: l2) ≡ₚ cut n l ++ concat (cut n <$> l1 ++ l2)) as Hp.
    { rewrite !fmap_app, fmap_cons, !concat_app. cbn. rewrite !app_assoc.
      apply Permutation_app_tail, Permutation_app_comm. }
    apply antisym_on_app_l, (antisym_on_permutation _ _ Hp) in Ha. rewrite (cut_permutation n _ _ Ha Hp). split.
    - unfold cut at 1. rewrite length_take, merge_sort_Permutation, length_app. lia.
    - by apply take_sort_below. }
  apply take_sort_app; [done| |].
  - destruct (concat (rest n <$> branches)) as [|y d]; [by left|right]. apply (Hrest y). set_solver.
  - apply Forall_forall. intros y Hy. by apply Hrest.
Qed.
End merge.
