(* ===== verification/AuditLogs.v ===== *)
(** * Audit log queries
    ([src/src/mdm/application/audit_logs.py],
    [src/src/mdm/infrastructure/repositories/audit_logs.py])

    Administrators read the log tables of [LogTables] page by page, one table
    or, for one change set, all nine.  The query of several tables cuts every
    table to a page before it merges them.  The pages are ordered by time,
    newest first, then by source and identifier; a cursor is the position of
    the last entry of a page. *)

From stdpp Require Import sorting.
From S2P Require Import Prelude Python Exceptions Uuids Auth MutationAudit Dimensions MasterCodes Store Records Invariant LogTables BoundedMerge.
Local Open Scope Z_scope.

(** ** Sources *)

Inductive AuditSource :=
| COMPANY | MODEL | BRAND | COUNTRY | CATEGORY | YEAR | NETWORK | MEMORY | MASTER_CODE.
#[export] Instance AuditSource_eq_dec : EqDecision AuditSource.
Proof. solve_decision. Defined.

Definition AuditSources : list AuditSource :=
  [COMPANY; MODEL; BRAND; COUNTRY; CATEGORY; YEAR; NETWORK; MEMORY; MASTER_CODE].
Definition source_value (x : AuditSource) : pystr :=
  match x with
  | COMPANY => py "COMPANY" | MODEL => py "MODEL" | BRAND => py "BRAND" | COUNTRY => py "COUNTRY"
  | CATEGORY => py "CATEGORY" | YEAR => py "YEAR" | NETWORK => py "NETWORK" | MEMORY => py "MEMORY"
  | MASTER_CODE => py "MASTER_CODE"
  end.
(** [AuditSource.kind] *)
Definition source_kind (x : AuditSource) : pystr :=
  if bool_decide (x = MASTER_CODE) then py "MASTER_CODE" else py "DIMENSION".
(** [AuditSource(value)] *)
Definition AuditSource_call (value : pystr) : res AuditSource :=
  match find (λ x, bool_decide (source_value x = value)) AuditSources with
  | Some x => Ok x
  | None => Raise (ValueError "not a valid AuditSource")
  end.

(** [_RECORDS]: [None] is the table of the MasterCode logs. *)
Definition RECORDS (x : AuditSource) : option slot :=
  match x with
  | COMPANY => Some Company | MODEL => Some Model | BRAND => Some Brand | COUNTRY => Some Country
  | CATEGORY => Some Category | YEAR => Some Year | NETWORK => Some Network | MEMORY => Some Memory
  | MASTER_CODE => None
  end.

(** ** Enumerations stored as text *)

Definition DimensionOperation_value (o : DimensionOperation) : pystr :=
  match o with
  | DIM_CREATE => py "CREATE" | DIM_UPDATE => py "UPDATE" | DIM_DELETE => py "DELETE"
  | DIM_RESTORE => py "RESTORE"
  end.
Definition DimensionOperation_call (value : pystr) : res DimensionOperation :=
  match find (λ o, bool_decide (DimensionOperation_value o = value))
          [DIM_CREATE; DIM_UPDATE; DIM_DELETE; DIM_RESTORE] with
  | Some o => Ok o
  | None => Raise (ValueError "not a valid DimensionOperation")
  end.
Definition MasterCodeOperation_value (o : MasterCodeOperation) : pystr :=
  match o with
  | MC_CREATE => py "CREATE" | MC_REFERENCE_UPDATE => py "REFERENCE_UPDATE"
  | MC_RECOMPOSE => py "RECOMPOSE" | MC_DELETE => py "DELETE" | MC_RESTORE => py "RESTORE"
  end.
Definition MasterCodeOperation_call (value : pystr) : res MasterCodeOperation :=
  match find (λ o, bool_decide (MasterCodeOperation_value o = value))
          [MC_CREATE; MC_REFERENCE_UPDATE; MC_RECOMPOSE; MC_DELETE; MC_RESTORE] with
  | Some o => Ok o
  | None => Raise (ValueError "not a valid MasterCodeOperation")
  end.
(** [AuditField] *)
Definition field_value (f : log_field) : pystr :=
  match f with FIELD_CODE => py "CODE" | FIELD_VALUE => py "VALUE" | FIELD_DELETED => py "DELETED" end.

(** ** Entries *)

(** What JSON of unknown type reads as is kept as it is. *)
Inductive DimensionLogValue :=
| PlainLogValue (value : pyval)
| MemoryLogValue (amount : pyval) (unit : memory_unit) (capacity_mb : pyval).

Record MasterCodeLogState := mkMasterCodeLogState {
  ls_ids : Slots (option UUID);
  ls_code : pyval;
  ls_deleted : pyval;
}.

Record AuditLog := mkAuditLog {
  al_id : UUID;
  al_source_type : AuditSource;
  al_change_set_id : UUID;
  al_changed_at : datetime;
  al_actor_kind : ActorKind;
  al_actor_id : pystr;
  al_actor_role : option UserRole;
  al_reason : option pystr;
}.

Inductive LogEntry :=
| DimensionAuditLog (common : AuditLog) (dimension_id : UUID) (dimension_version : Z)
    (operation : DimensionOperation) (field_name : option pystr) (old_value new_value : DimensionLogValue)
| MasterCodeAuditLog (common : AuditLog) (master_code_id : UUID) (master_code_version : Z)
    (operation : MasterCodeOperation) (old_state : option MasterCodeLogState)
    (new_state : MasterCodeLogState).
Definition entry_common (e : LogEntry) : AuditLog :=
  match e with DimensionAuditLog c _ _ _ _ _ _ | MasterCodeAuditLog c _ _ _ _ _ => c end.

(** ** Queries *)

Inductive LogOperation := OnDimension (o : DimensionOperation) | OnMasterCode (o : MasterCodeOperation).
#[export] Instance LogOperation_eq_dec : EqDecision LogOperation.
Proof. solve_decision. Defined.
Definition operation_value (o : LogOperation) : pystr :=
  match o with
  | OnDimension o => DimensionOperation_value o
  | OnMasterCode o => MasterCodeOperation_value o
  end.

Record AuditLogFilters := mkAuditLogFilters {
  f_entity_id : option UUID;
  f_changed_from : option datetime;
  f_changed_before : option datetime;
  f_actor_id : option pystr;
  f_actor_kind : option ActorKind;
  f_actor_role : option UserRole;
  f_operation : option LogOperation;
  f_field_name : option log_field;
}.
#[export] Instance AuditLogFilters_eq_dec : EqDecision AuditLogFilters.
Proof. solve_decision. Defined.
Definition no_filters : AuditLogFilters := mkAuditLogFilters None None None None None None None None.

(** [datetime.min] and [datetime.max], in UTC. *)
Definition datetime_min : Z := seconds (-62135596800).
Definition datetime_max : Z := seconds 253402300800 - 1.

(** One turn of the loop of [__post_init__]. *)
Definition normalize_filter_time (field : string) (value : option datetime) : res (option datetime) :=
  match value with
  | None => Ok None
  | Some t =>
      _ ← raise_if (is_naive t) (DimensionValidationError ("query." ++ field) "시간대를 포함해야 합니다.");
      _ ← raise_if (negb ((datetime_min <=? instant t) && (instant t <=? datetime_max)))
            (DimensionValidationError ("query." ++ field)
               "UTC로 표현할 수 있는 날짜·시각을 입력해야 합니다.");
      Ok (Some (utc (instant t)))
  end.

(** [AuditLogFilters.__post_init__] *)
Definition AuditLogFilters_init (f : AuditLogFilters) : res AuditLogFilters :=
  _ ← raise_if (match f_actor_id f with Some a => str_contains 0 a | None => false end)
        (DimensionValidationError "query.actor_id" "NUL 문자를 포함할 수 없습니다.");
  changed_from ← normalize_filter_time "changed_from" (f_changed_from f);
  changed_before ← normalize_filter_time "changed_before" (f_changed_before f);
  _ ← raise_if (match changed_from, changed_before with
                | Some a, Some b => dt_leb b a
                | _, _ => false
                end)
        (DimensionValidationError "query.changed_before" "종료 시각은 시작 시각보다 늦어야 합니다.");
  Ok (mkAuditLogFilters (f_entity_id f) changed_from changed_before (f_actor_id f) (f_actor_kind f)
        (f_actor_role f) (f_operation f) (f_field_name f)).

Record AuditLogQuery := mkAuditLogQuery {
  q_source : option AuditSource;
  q_change_set_id : option UUID;
  q_filters : AuditLogFilters;
}.
(** [AuditLogQuery.__post_init__] *)
Definition AuditLogQuery_init (q : AuditLogQuery) : res AuditLogQuery :=
  _ ← raise_if (absent (q_source q)
                && (absent (q_change_set_id q) || negb (bool_decide (q_filters q = no_filters))))
        (ValueError "combined audit queries require only a change set identifier");
  Ok q.

Record AuditLogCursor := mkAuditLogCursor {
  c_changed_at : datetime;
  c_source_type : AuditSource;
  c_id : UUID;
}.
(** [AuditLogCursor.__post_init__] *)
Definition AuditLogCursor_init (c : AuditLogCursor) : res AuditLogCursor :=
  _ ← raise_if (is_naive (c_changed_at c)) (ValueError "audit cursor requires a timezone");
  Ok c.

Record AuditLogPage := mkAuditLogPage { lp_items : list LogEntry; lp_has_more : bool }.

(** ** The columns a statement selects *)

Record LogRow := mkLogRow {
  lr_source_kind : pystr;
  lr_source_type : pystr;
  lr_id : UUID;
  lr_change_set_id : UUID;
  lr_changed_at : Z;
  lr_actor_kind : ActorKind;
  lr_actor_id : pystr;
  lr_actor_role : option UserRole;
  lr_reason : option pystr;
  lr_operation : pystr;
  lr_entity_id : UUID;
  lr_version : Z;
  lr_field_name : option pystr;
  lr_old_value : pyval;
  lr_new_value : pyval;
}.

Definition dimension_log_row (source : AuditSource) (e : UUID * DimLog) : LogRow :=
  let '(id, l) := e in
  let md := dl_metadata l in
  mkLogRow (source_kind source) (source_value source) id (md_change_set_id md) (dl_changed_at l)
    (actor_kind (md_actor md)) (actor_id (md_actor md)) (actor_role (md_actor md)) (md_reason md)
    (DimensionOperation_value (dl_operation l)) (dl_dimension_id l) (dl_version l)
    (Some (field_value (dl_field l)))
    (from_option log_value_json VNone (dl_old l)) (from_option log_value_json VNone (dl_new l)).

(** The column [operation] is not null ([ck_master_code_log]). *)
Definition master_code_log_row (e : UUID * McLog) : LogRow :=
  let '(id, l) := e in
  let md := ml_metadata l in
  mkLogRow (source_kind MASTER_CODE) (source_value MASTER_CODE) id (md_change_set_id md)
    (ml_changed_at l) (actor_kind (md_actor md)) (actor_id (md_actor md)) (actor_role (md_actor md))
    (md_reason md) (from_option MasterCodeOperation_value [] (ml_operation l))
    (ml_master_code_id l) (ml_version l) None
    (from_option (λ st, VDict (master_code_state_json st)) VNone (ml_old l))
    (VDict (master_code_state_json (ml_new l))).

Definition table_rows (source : AuditSource) (tables : LogTables) : list LogRow :=
  match RECORDS source with
  | Some s => dimension_log_row source <$> filter (λ e, dl_slot e.2 = s) (lt_dims tables)
  | None => master_code_log_row <$> lt_mcs tables
  end.

(** ** The statements *)

Definition given {A} (filter : option A) (test : A → bool) : bool :=
  match filter with None => true | Some x => test x end.

(** [statement.where(...)] for the change set and the filters. *)
Definition where_matches (q : AuditLogQuery) (r : LogRow) : bool :=
  let f := q_filters q in
  given (q_change_set_id q) (λ id, lr_change_set_id r =? id)
  && given (f_entity_id f) (λ id, lr_entity_id r =? id)
  && given (f_changed_from f) (λ t, instant t <=? lr_changed_at r)
  && given (f_changed_before f) (λ t, lr_changed_at r <? instant t)
  && given (f_actor_id f) (λ a, bool_decide (lr_actor_id r = a))
  && given (f_actor_kind f) (λ k, bool_decide (lr_actor_kind r = k))
  && given (f_actor_role f) (λ role, bool_decide (lr_actor_role r = Some role))
  && given (f_operation f) (λ o, bool_decide (lr_operation r = operation_value o))
  && given (f_field_name f) (λ field, bool_decide (lr_field_name r = Some (field_value field))).

(** [a < b] of two pairs of strings. *)
Definition tuple_ltb (a b : pystr * pystr) : bool :=
  if bool_decide (a.1 = b.1) then negb (str_leb b.2 a.2) else negb (str_leb b.1 a.1).

(** The condition a cursor adds to the statement of a source. *)
Definition after_condition (source : AuditSource) (after : option AuditLogCursor) (r : LogRow) : bool :=
  match after with
  | None => true
  | Some c =>
      let source_key := (source_kind source, source_value source) in
      let cursor_key := (source_kind (c_source_type c), source_value (c_source_type c)) in
      let t := instant (c_changed_at c) in
      if bool_decide (source_key = cursor_key) then
        (lr_changed_at r <? t) || ((lr_changed_at r =? t) && (lr_id r <? c_id c))
      else if tuple_ltb cursor_key source_key then lr_changed_at r <=? t
      else lr_changed_at r <? t
  end.

Definition branch_order : relation LogRow :=
  order_by [desc_by Z.leb lr_changed_at; desc_by Z.leb lr_id].
Definition union_order : relation LogRow :=
  order_by [desc_by Z.leb lr_changed_at; asc_by str_leb lr_source_kind;
            asc_by str_leb lr_source_type; desc_by Z.leb lr_id].

(** [_source_statement], executed; the table of the MasterCodes has no column
    [field_name]. *)
Definition source_statement (source : AuditSource) (q : AuditLogQuery) (after : option AuditLogCursor)
    (limit : Z) (tables : LogTables) : res (list LogRow) :=
  _ ← raise_if (bool_decide (source = MASTER_CODE) && present (f_field_name (q_filters q))) AttributeError;
  let rows := List.filter (λ r, where_matches q r && after_condition source after r) (table_rows source tables) in
  Ok (cut branch_order (Z.to_nat (limit + 1)) rows).

(** [build_audit_log_statement], executed. *)
Definition build_audit_log_statement (q : AuditLogQuery) (after : option AuditLogCursor) (limit : Z)
    (tables : LogTables) : res (list LogRow) :=
  match q_source q with
  | Some source => source_statement source q after limit tables
  | None =>
      branches ← mapR (λ source, source_statement source q after limit tables) AuditSources;
      Ok (cut union_order (Z.to_nat (limit + 1)) (concat branches))
  end.

(** ** Reading rows *)

(** [entries[key]] *)
Definition item (key : pystr) (entries : list (pystr * pyval)) : res pyval :=
  match dict_get key entries with Some v => Ok v | None => Raise KeyError end.

(** [_memory_value] *)
Definition read_memory_value (value : pyval) : res DimensionLogValue :=
  match value with
  | VDict entries =>
      amount ← item (py "amount") entries;
      unit ← item (py "unit") entries;
      unit ← match unit with
             | VStr s => match MemoryUnit_call s with
                         | Some u => Ok u
                         | None => Raise (ValueError "not a valid MemoryUnit")
                         end
             | _ => Raise (ValueError "not a valid MemoryUnit")
             end;
      capacity_mb ← item (py "capacity_mb") entries;
      Ok (MemoryLogValue amount unit capacity_mb)
  | _ => Ok (PlainLogValue value)
  end.

Section unicode.
Context `{UnicodeData}.

(** [UUID(identifier) if identifier is not None else None] *)
Definition read_identifier (identifier : pyval) : res (option UUID) :=
  match identifier with
  | VNone => Ok None
  | _ => match parse_UUID identifier with
         | Some id => Ok (Some id)
         | None => Raise (ValueError "badly formed hexadecimal UUID string")
         end
  end.

(** [MasterCodeLogState( **fields, code=code, deleted=deleted)] takes exactly the
    eight identifiers. *)
Definition log_state (fields : list (pystr * option UUID)) (code deleted : pyval) : res MasterCodeLogState :=
  let names := reference_column <$> ORDER in
  let field name := find (λ p, bool_decide (p.1 = name)) fields in
  if (length fields =? length names)%nat && forallb (λ name, present (field name)) names then
    Ok (mkMasterCodeLogState
          (slots_of (λ s, match field (reference_column s) with Some p => p.2 | None => None end))
          code deleted)
  else Raise TypeError.

(** [_state] *)
Definition state (value : pyval) : res MasterCodeLogState :=
  match value with
  | VDict entries =>
      fields ← mapR (λ p, id ← read_identifier p.2; Ok (p.1, id))
                 (List.filter (λ p, endswith (py "_id") p.1) entries);
      code ← item (py "code") entries;
      deleted ← item (py "deleted") entries;
      log_state fields code deleted
  | _ => Raise AttributeError
  end.

(** [_entry] *)
Definition entry (r : LogRow) : res LogEntry :=
  source ← AuditSource_call (lr_source_type r);
  let common := mkAuditLog (lr_id r) source (lr_change_set_id r) (utc (lr_changed_at r)) (lr_actor_kind r)
                  (lr_actor_id r) (lr_actor_role r) (lr_reason r) in
  if bool_decide (source = MASTER_CODE) then
    operation ← MasterCodeOperation_call (lr_operation r);
    old_state ← match lr_old_value r with
                | VNone => Ok None
                | v => st ← state v; Ok (Some st)
                end;
    new_state ← state (lr_new_value r);
    Ok (MasterCodeAuditLog common (lr_entity_id r) (lr_version r) operation old_state new_state)
  else
    operation ← DimensionOperation_call (lr_operation r);
    old_value ← read_memory_value (lr_old_value r);
    new_value ← read_memory_value (lr_new_value r);
    Ok (DimensionAuditLog common (lr_entity_id r) (lr_version r) operation (lr_field_name r) old_value new_value).

(** ** Failures of the database *)

(** What the driver raised: the classes the handler asks about and, along
    [__cause__] or [orig], the attributes [sqlstate] and [pgcode]. *)
Inductive db_failure :=
| OSError
| SqlError (unavailable_class : bool) (connection_invalidated : bool)
    (chain : list (option pyval * option pyval)).

Definition transient_states : list pystr :=
  py <$> ["40001"; "40P01"; "53300"; "55P03"; "57014"; "57P01"; "57P02"; "57P03"].

(** [_transient_sqlstate] looks at the first five exceptions. *)
Definition transient_sqlstate (chain : list (option pyval * option pyval)) : bool :=
  let texts := omap (λ '(sqlstate, pgcode),
                       match sqlstate, pgcode with
                       | Some (VStr s), _ | _, Some (VStr s) => Some s
                       | _, _ => None
                       end) (take 5 chain) in
  match texts with
  | s :: _ => bool_decide (take 2 s = py "08") || bool_decide (s ∈ transient_states)
  | [] => false
  end.

Definition translate_failure (f : db_failure) : exn :=
  match f with
  | OSError => AuditLogRepositoryUnavailable
  | SqlError unavailable_class connection_invalidated chain =>
      if unavailable_class || connection_invalidated || transient_sqlstate chain
      then AuditLogRepositoryUnavailable else DatabaseError
  end.

(** ** [SqlAlchemyAuditLogRepository.list_logs]

    The snapshot of the statement, or the failure to execute it. *)
Definition list_logs (database : result db_failure LogTables) (q : AuditLogQuery)
    (after : option AuditLogCursor) (limit : Z) : res AuditLogPage :=
  match database with
  | Raise f =>
      _ ← build_audit_log_statement q after limit (mkLogTables [] []);
      Raise (translate_failure f)
  | Ok tables =>
      rows ← build_audit_log_statement q after limit tables;
      items ← mapR entry (take (Z.to_nat limit) rows);
      Ok (mkAuditLogPage items (Z.to_nat limit <? length rows)%nat)
  end.

(** [ListAuditLogs.execute] *)
Definition ListAuditLogs (database : result db_failure LogTables) (principal : HumanPrincipal)
    (q : AuditLogQuery) (after : option AuditLogCursor) (limit : pyval) : res AuditLogPage :=
  _ ← authorize principal READ_AUDIT_LOG;
  limit ← match limit with
          | VInt z => if (1 <=? z) && (z <=? 100) then Ok z
                      else Raise (DimensionValidationError "query.limit" "페이지 크기는 1~100이어야 합니다.")
          | _ => Raise (DimensionValidationError "query.limit" "페이지 크기는 1~100이어야 합니다.")
          end;
  _ ← raise_if (match after, q_source q with
                | Some c, Some source => negb (bool_decide (c_source_type c = source))
                | _, _ => false
                end)
        (DimensionValidationError "query.cursor" "조회 대상과 cursor가 일치하지 않습니다.");
  list_logs database q after limit.

(** The cursor [_page] of [api/audit_logs.py] hands out. *)
Definition entry_cursor (e : LogEntry) : AuditLogCursor :=
  let c := entry_common e in mkAuditLogCursor (al_changed_at c) (al_source_type c) (al_id c).
Definition next_cursor (p : AuditLogPage) : option AuditLogCursor :=
  if lp_has_more p then entry_cursor <$> last (lp_items p) else None.

(** A client that follows the cursors until there is none: every request sees
    the tables of its own snapshot and may ask for another page size.  The
    boolean is whether the last page was reached. *)
Fixpoint follow (principal : HumanPrincipal) (q : AuditLogQuery) (after : option AuditLogCursor)
    (requests : list (LogTables * pyval)) : res (list LogEntry * bool) :=
  match requests with
  | [] => Ok ([], false)
  | (tables, limit) :: rest =>
      p ← ListAuditLogs (Ok tables) principal q after limit;
      match next_cursor p with
      | None => Ok (lp_items p, true)
      | Some c => later ← follow principal q (Some c) rest; Ok (lp_items p ++ later.1, later.2)
      end
  end.
End unicode.
