(* ===== verification/AuditLogSpecs.v ===== *)
(** * What the audit log queries guarantee

    A page is the first part of the matching entries in the documented order,
    although every table is cut before the tables are merged; an entry reads
    back as the trigger wrote it; and a client that follows the cursors while
    other transactions append entries misses none of the entries that were
    there when it began and sees none twice. *)

From stdpp Require Import sorting.
From S2P Require Import Prelude Python Exceptions Uuids Auth MutationAudit Dimensions MasterCodes Store Records Invariant LogTables BoundedMerge AuditLogs.
Local Open Scope Z_scope.

(** ** The documented order *)

(** Time, kind, type and identifier of an entry or a cursor. *)
Record position := mkPosition { p_at : Z; p_kind : pystr; p_type : pystr; p_id : Z }.
Definition row_position (r : LogRow) : position :=
  mkPosition (lr_changed_at r) (lr_source_kind r) (lr_source_type r) (lr_id r).
Definition cursor_position (c : AuditLogCursor) : position :=
  mkPosition (instant (c_changed_at c)) (source_kind (c_source_type c)) (source_value (c_source_type c)) (c_id c).
(** Newest first; then by kind and type; then the greatest identifier first. *)
Definition position_order : relation position :=
  order_by [desc_by Z.leb p_at; asc_by str_leb p_kind; asc_by str_leb p_type; desc_by Z.leb p_id].
Definition strictly_after (c p : position) : Prop := position_order c p ∧ ¬ position_order p c.
#[export] Instance strictly_after_dec c p : Decision (strictly_after c p).
Proof. unfold strictly_after, position_order. apply _. Defined.

Lemma Zleb_preorder {A} (key : A → Z) : total_preorder (desc_by Z.leb key).
Proof. apply descending_preorder; intros *; rewrite !Z.leb_le; lia. Qed.
Lemma str_leb_preorder {A} (key : A → pystr) : total_preorder (asc_by str_leb key).
Proof. apply ascending_preorder; [intros ???; apply str_leb_trans|apply str_leb_total]. Qed.
#[local] Hint Resolve Zleb_preorder str_leb_preorder : mdm.

#[export] Instance branch_order_trans : Transitive branch_order.
Proof. apply order_by_transitive. auto with mdm. Qed.
#[export] Instance branch_order_total : Total branch_order.
Proof. apply order_by_total. auto with mdm. Qed.
#[export] Instance union_order_trans : Transitive union_order.
Proof. apply order_by_transitive. auto 10 with mdm. Qed.
#[export] Instance union_order_total : Total union_order.
Proof. apply order_by_total. auto 10 with mdm. Qed.
#[export] Instance position_order_trans : Transitive position_order.
Proof. apply order_by_transitive. auto 10 with mdm. Qed.
#[export] Instance position_order_total : Total position_order.
Proof. apply order_by_total. auto 10 with mdm. Qed.

Lemma union_order_position r r' : union_order r r' ↔ position_order (row_position r) (row_position r').
Proof. done. Qed.

Lemma position_order_antisym p p' : position_order p p' → position_order p' p → p = p'.
Proof.
  intros H1 H2. pose proof (order_by_both _ _ _ H1 H2) as Hk. destruct p as [t k s i], p' as [t' k' s' i'].
  rewrite !Forall_cons in Hk. destruct Hk as ([Ht Ht'] & [Hk Hk'] & [Hs Hs'] & [Hi Hi'] & _).
  unfold desc_by, asc_by in *. cbn in *. apply Z.leb_le in Ht, Ht', Hi, Hi'. f_equal; [lia| | |lia].
  - by apply str_leb_antisymm.
  - by apply str_leb_antisymm.
Qed.

(** The place of a source in the order of kinds and types. *)
Definition source_rank (x : AuditSource) : Z :=
  match x with
  | BRAND => 0 | CATEGORY => 1 | COMPANY => 2 | COUNTRY => 3 | MEMORY => 4 | MODEL => 5
  | NETWORK => 6 | YEAR => 7 | MASTER_CODE => 8
  end.
Lemma source_keys_rank a b last :
  str_leb (source_kind a) (source_kind b) && (negb (str_leb (source_kind b) (source_kind a)) ||
    (str_leb (source_value a) (source_value b) && (negb (str_leb (source_value b) (source_value a)) || last)))
  = (source_rank a <? source_rank b) || ((source_rank a =? source_rank b) && last).
Proof. destruct a, b; reflexivity. Qed.
Lemma source_rank_inj a b : source_rank a = source_rank b → a = b.
Proof. by destruct a, b. Qed.
Lemma source_key_ltb a b :
  tuple_ltb (source_kind a, source_value a) (source_kind b, source_value b) = (source_rank a <? source_rank b).
Proof. destruct a, b; reflexivity. Qed.
Lemma source_key_eq a b : (source_kind a, source_value a) = (source_kind b, source_value b) ↔ a = b.
Proof. destruct a, b; (split; [intros H; vm_compute in H; congruence|congruence]). Qed.

Lemma position_order_rank t a i t' b j :
  position_order (mkPosition t (source_kind a) (source_value a) i) (mkPosition t' (source_kind b) (source_value b) j) ↔
  t' < t ∨ t = t' ∧ (source_rank a < source_rank b ∨ source_rank a = source_rank b ∧ j ≤ i).
Proof.
  unfold position_order, order_by. cbn [foldr]. unfold then_by, desc_by, asc_by.
  cbn [p_at p_kind p_type p_id]. rewrite source_keys_rank, orb_true_r, andb_true_r.
  rewrite !andb_true_iff, !orb_true_iff, !negb_true_iff, !andb_true_iff, !Z.leb_le, !Z.leb_gt, Z.ltb_lt, Z.eqb_eq.
  lia.
Qed.

(** ** The rows of the tables *)

Definition all_rows (q : AuditLogQuery) (tables : LogTables) : list LogRow :=
  match q_source q with
  | Some source => table_rows source tables
  | None => concat ((λ source, table_rows source tables) <$> AuditSources)
  end.
Definition follows (after : option AuditLogCursor) (r : LogRow) : bool :=
  given after (λ c, bool_decide (strictly_after (cursor_position c) (row_position r))).
Definition selected (q : AuditLogQuery) (after : option AuditLogCursor) (tables : LogTables) : list LogRow :=
  List.filter (λ r, where_matches q r && follows after r) (all_rows q tables).
(** All matching entries after the cursor, in order. *)
Definition matching_in_order (q : AuditLogQuery) (after : option AuditLogCursor) (tables : LogTables) : list LogRow :=
  merge_sort union_order (selected q after tables).

(** The primary key of every table. *)
Definition unique_ids (tables : LogTables) : Prop :=
  ∀ source, NoDup (lr_id <$> table_rows source tables).
Definition row_of (source : AuditSource) (r : LogRow) : Prop :=
  lr_source_kind r = source_kind source ∧ lr_source_type r = source_value source.

Lemma table_rows_of source tables : Forall (row_of source) (table_rows source tables).
Proof.
  unfold table_rows. apply Forall_forall. intros r Hr.
  destruct (RECORDS source) eqn:E; apply list_elem_of_fmap in Hr as ([id l] & -> & _); [done|].
  by destruct source.
Qed.

Lemma row_of_position source r :
  row_of source r → row_position r = mkPosition (lr_changed_at r) (source_kind source) (source_value source) (lr_id r).
Proof. unfold row_position. by intros [-> ->]. Qed.

Lemma row_of_unique a b r : row_of a r → row_of b r → a = b.
Proof. intros [Hk Hv] [Hk' Hv']. apply source_key_eq. congruence. Qed.

Lemma after_condition_spec source after r :
  row_of source r → after_condition source after r = follows after r.
Proof.
  intros Hr. destruct after as [c|]; [|done]. unfold after_condition, follows, given. cbv zeta.
  apply eq_true_iff_eq. rewrite bool_decide_eq_true. unfold strictly_after, cursor_position.
  rewrite (row_of_position _ _ Hr), !position_order_rank.
  case_bool_decide as Hs.
  - apply source_key_eq in Hs as ->. rewrite orb_true_iff, andb_true_iff, !Z.ltb_lt, Z.eqb_eq. lia.
  - rewrite source_key_ltb. assert (source_rank source ≠ source_rank (c_source_type c)) as Hne.
    { intros Hr'%source_rank_inj. apply Hs. by rewrite Hr'. }
    destruct (Z.ltb_spec (source_rank (c_source_type c)) (source_rank source)); rewrite ?Z.leb_le, ?Z.ltb_lt; lia.
Qed.

Lemma NoDup_map_inj {A B} (f : A → B) l x y : NoDup (f <$> l) → x ∈ l → y ∈ l → f x = f y → x = y.
Proof.
  induction l as [|z l IH]; [by intros _ ?%elem_of_nil|]. cbn. intros [Hz Hnd]%NoDup_cons.
  intros [->|Hx]%elem_of_cons [->|Hy]%elem_of_cons He; [done| | |by apply IH].
  - destruct Hz. rewrite He. by apply list_elem_of_fmap_2.
  - destruct Hz. rewrite <- He. by apply list_elem_of_fmap_2.
Qed.

Lemma positions_NoDup source tables : unique_ids tables → NoDup (row_position <$> table_rows source tables).
Proof.
  intros Hu. apply (NoDup_fmap_1 p_id). rewrite <- list_fmap_compose. exact (Hu source).
Qed.

Lemma all_positions_NoDup q tables : unique_ids tables → NoDup (row_position <$> all_rows q tables).
Proof.
  intros Hu. unfold all_rows. destruct (q_source q) as [source|]; [by apply positions_NoDup|].
  assert (NoDup AuditSources) as Hnd by (apply (bool_decide_unpack _); vm_compute; exact I).
  induction Hnd as [|source sources Hs Hnd IH]; cbn; [constructor|]. rewrite fmap_app.
  apply NoDup_app. split_and!; [by apply positions_NoDup| |done].
  intros p (r & -> & Hr)%list_elem_of_fmap (r' & Hp & Hr')%list_elem_of_fmap.
  apply elem_of_concat in Hr' as (l & Hr' & (source' & -> & Hs')%list_elem_of_fmap).
  pose proof (table_rows_of source tables) as Hall. rewrite Forall_forall in Hall. apply Hall in Hr as [Hk Hv].
  pose proof (table_rows_of source' tables) as Hall'. rewrite Forall_forall in Hall'. apply Hall' in Hr' as [Hk' Hv'].
  unfold row_position in Hp. assert (source = source') as ->; [|done]. apply source_key_eq. congruence.
Qed.

Lemma antisym_rows rows : NoDup (row_position <$> rows) → antisym_on union_order rows.
Proof.
  intros Hnd x y Hx Hy Hxy Hyx. apply (NoDup_map_inj row_position rows); try done.
  by apply position_order_antisym.
Qed.

Lemma antisym_filter (f : LogRow → bool) rows : NoDup (row_position <$> rows) → antisym_on union_order (List.filter f rows).
Proof.
  intros Hnd%antisym_rows. eapply antisym_on_subset; [|exact Hnd]. intros x. rewrite elem_of_filter_bool. tauto.
Qed.

(** ** Pages *)

Lemma filter_after_condition q source after rows :
  Forall (row_of source) rows →
  List.filter (λ r, where_matches q r && after_condition source after r) rows =
  List.filter (λ r, where_matches q r && follows after r) rows.
Proof.
  induction 1 as [|r rows Hr _ IH]; [done|]. cbn. by rewrite (after_condition_spec source), IH.
Qed.

Lemma branch_order_union source rows :
  Forall (row_of source) rows → antisym_on union_order rows →
  merge_sort union_order rows = merge_sort branch_order rows.
Proof.
  intros Hall Ha. apply sort_unique; [apply _..|done| |apply merge_sort_Permutation].
  assert (Forall (row_of source) (merge_sort branch_order rows)) as Hall'.
  { apply Forall_forall. intros r Hr. rewrite merge_sort_Permutation in Hr. by eapply Forall_forall in Hr. }
  pose proof (sorted_sort branch_order rows) as Hs. induction Hs as [|r l Hl IH Hr]; [constructor|].
  apply Forall_cons in Hall' as [Hrow Hall']. constructor; [by apply IH|].
  rewrite Forall_forall in *. intros x Hx. specialize (Hr x Hx). specialize (Hall' x Hx).
  apply union_order_position. rewrite (row_of_position _ _ Hrow), (row_of_position _ _ Hall'), position_order_rank.
  unfold branch_order, order_by, then_by, desc_by in Hr. cbn in Hr.
  rewrite orb_true_r, andb_true_r in Hr.
  rewrite andb_true_iff, orb_true_iff, negb_true_iff, !Z.leb_le, Z.leb_gt in Hr. lia.
Qed.

Lemma branch_statement q after limit source tables :
  (source = MASTER_CODE → f_field_name (q_filters q) = None) → unique_ids tables →
  source_statement source q after limit tables =
  Ok (cut union_order (Z.to_nat (limit + 1))
        (List.filter (λ r, where_matches q r && follows after r) (table_rows source tables))).
Proof.
  intros Hf Hu. unfold source_statement.
  assert (bool_decide (source = MASTER_CODE) && present (f_field_name (q_filters q)) = false) as ->.
  { case_bool_decide as Hs; [|done]. by rewrite Hf. }
  cbn [raise_if mbind result_bind]. rewrite (filter_after_condition q source) by apply table_rows_of.
  unfold cut. rewrite branch_order_union with (source := source); [done| |].
  - apply Forall_forall. intros r [Hr _]%elem_of_filter_bool. pose proof (table_rows_of source tables) as Hall.
    by eapply Forall_forall in Hr.
  - apply antisym_filter. by apply positions_NoDup.
Qed.

(** A query the constructors accept, on columns its table has. *)
Definition query_ok (q : AuditLogQuery) : Prop :=
  AuditLogQuery_init q = Ok q ∧ (q_source q = Some MASTER_CODE → f_field_name (q_filters q) = None).

Lemma statement_in_order q after limit tables :
  query_ok q → unique_ids tables →
  build_audit_log_statement q after limit tables = Ok (take (Z.to_nat (limit + 1)) (matching_in_order q after tables)).
Proof.
  intros [Hq Hf] Hu. unfold build_audit_log_statement, matching_in_order, selected, all_rows.
  destruct (q_source q) as [source|] eqn:Hs.
  - rewrite branch_statement; [done| |done]. intros ->. by apply Hf.
  - unfold AuditLogQuery_init in Hq. apply bind_Ok in Hq as ([] & Hq%raise_if_Ok & _). rewrite Hs in Hq. cbn in Hq.
    apply orb_false_iff in Hq as [_ Hq%negb_false_iff%bool_decide_eq_true].
    rewrite (mapR_pure _ (λ source, cut union_order (Z.to_nat (limit + 1))
        (List.filter (λ r, where_matches q r && follows after r) (table_rows source tables)))).
    2:{ intros source _. apply branch_statement; [|done]. by rewrite Hq. }
    cbn [mbind result_bind]. f_equal. pose proof (all_positions_NoDup q tables Hu) as Hnd. unfold all_rows in Hnd.
    rewrite Hs in Hnd. rewrite <- concat_filter_map.
    etrans; [|apply (cut_branches union_order)].
    + unfold cut. by do 3 f_equal.
    + rewrite concat_filter_map. by apply antisym_filter.
Qed.

(** ** What an entry reads as *)

(** The typed form of a logged value; the unit of a capacity is one of four. *)
Definition read_value (v : option log_value) : option DimensionLogValue :=
  match v with
  | None => Some (PlainLogValue VNone)
  | Some (LCode x) | Some (LValue (RString x)) => Some (PlainLogValue (VStr x))
  | Some (LValue (RInt z)) => Some (PlainLogValue (VInt z))
  | Some (LDeleted b) => Some (PlainLogValue (VBool b))
  | Some (LValue (RMemory a u)) =>
      unit ← MemoryUnit_call u; Some (MemoryLogValue (VInt a) unit (VInt (a * MEMORY_UNIT_MULTIPLIERS unit)))
  end.
Definition read_state (st : McState) : MasterCodeLogState :=
  mkMasterCodeLogState (ms_refs st) (VStr (ms_code st)) (VBool (ms_deleted st)).
Definition read_common (source : AuditSource) (id : UUID) (md : MutationAuditMetadata) (changed_at : Z) : AuditLog :=
  let actor := md_actor md in
  mkAuditLog id source (md_change_set_id md) (utc changed_at) (actor_kind actor) (actor_id actor)
    (actor_role actor) (md_reason md).

Lemma memory_value_read v x :
  read_value v = Some x → read_memory_value (from_option log_value_json VNone v) = Ok x.
Proof.
  destruct v as [[code|[x'|z|a u]|b]|]; try by intros [= <-].
  cbn [read_value]. intros (m & Hm & [= <-])%bind_Some. cbn [from_option log_value_json read_memory_value].
  change (item (py "amount") _) with (Ok (VInt a) : res pyval).
  change (item (py "unit") _) with (Ok (VStr u) : res pyval).
  change (item (py "capacity_mb") _) with (Ok (VInt (a * unit_multiplier u)) : res pyval).
  cbn [mbind result_bind]. unfold unit_multiplier. by rewrite Hm.
Qed.

Lemma read_value_ok pg_cntrl l :
  ck_dimension_log pg_cntrl l = Ok tt → is_Some (read_value (dl_old l)) ∧ is_Some (read_value (dl_new l)).
Proof.
  unfold ck_dimension_log. intros H. do 2 apply bind_Ok in H as (_ & _ & H).
  apply bind_Ok in H as (u & Hs%check_Ok & _). unfold value_shape in Hs. cbv zeta in Hs.
  apply andb_true_iff in Hs as [Ho Hn].
  assert (∀ v test, test = json_value (dl_slot l) ∨ (∀ d, test (VDict d) = false) →
    match log_value_json <$> v with None => true | Some x => test x end = true → is_Some (read_value v)) as H.
  { clear. intros [[code|[x|z|a u]|b]|] test Htest Hv; try by eexists. cbn in Hv.
    destruct Htest as [->|Htest]; [|by rewrite Htest in Hv].
    destruct (dl_slot l); try discriminate Hv. cbn [json_value memory_json_constraint] in Hv.
    apply andb_true_iff in Hv as [_ Hv].
    change (dict_get (py "amount") _) with (Some (VInt a)) in Hv.
    change (dict_get (py "unit") _) with (Some (VStr u)) in Hv.
    change (dict_get (py "capacity_mb") _) with (Some (VInt (a * unit_multiplier u))) in Hv. cbv iota beta in Hv.
    apply andb_true_iff in Hv as [[_ [m Hm]%bool_decide_eq_true]%andb_true_iff _].
    cbn. rewrite Hm. by eexists. }
  split; eapply H; try eassumption; destruct (dl_field l); auto.
Qed.

Lemma mapR_fmap {E A B C} (f : B → result E C) (h : A → B) l : mapR f (h <$> l) = mapR (λ x, f (h x)) l.
Proof. induction l as [|x l IH]; [done|]. cbn. by rewrite <- IH. Qed.

Section unicode.
Context `{UnicodeData}.

Lemma state_read st :
  (∀ s id, at_slot (ms_refs st) s = Some id → uuid_ok id) →
  state (VDict (master_code_state_json st)) = Ok (read_state st).
Proof.
  intros Hids. unfold state, master_code_state_json.
  assert (List.filter (λ p : pystr * pyval, endswith (py "_id") p.1)
    (((λ s, (reference_column s, reference_json (at_slot (ms_refs st) s))) <$> ORDER)
       ++ [(py "code", VStr (ms_code st)); (py "deleted", VBool (ms_deleted st))]) =
    (λ s, (reference_column s, reference_json (at_slot (ms_refs st) s))) <$> ORDER) as ->.
  { reflexivity. }
  rewrite mapR_fmap, (mapR_pure _ (λ s, (reference_column s, at_slot (ms_refs st) s))).
  2:{ intros s _. cbn [fst snd]. destruct (at_slot (ms_refs st) s) as [id|] eqn:E; [|done].
      cbn [reference_json read_identifier]. by rewrite parse_UUID_str by eauto. }
  destruct st as [refs code deleted], refs. reflexivity.
Qed.

Lemma AuditSource_call_value x : AuditSource_call (source_value x) = Ok x.
Proof. by destruct x. Qed.

Lemma dimension_entry_read pg_cntrl source id l :
  RECORDS source = Some (dl_slot l) → ck_dimension_log pg_cntrl l = Ok tt →
  ∃ old new, read_value (dl_old l) = Some old ∧ read_value (dl_new l) = Some new ∧
    entry (dimension_log_row source (id, l)) =
    Ok (DimensionAuditLog (read_common source id (dl_metadata l) (dl_changed_at l)) (dl_dimension_id l)
          (dl_version l) (dl_operation l) (Some (field_value (dl_field l))) old new).
Proof.
  intros Hs [[old Ho] [new Hn]]%read_value_ok. exists old, new. split_and!; [done..|].
  unfold entry, dimension_log_row. cbn [lr_source_type lr_operation lr_old_value lr_new_value].
  rewrite AuditSource_call_value. cbn [mbind result_bind].
  rewrite bool_decide_eq_false_2 by by intros ->.
  assert (DimensionOperation_call (DimensionOperation_value (dl_operation l)) = Ok (dl_operation l)) as ->
    by by destruct (dl_operation l).
  cbn [mbind result_bind]. by rewrite (memory_value_read _ _ Ho), (memory_value_read _ _ Hn).
Qed.

Lemma master_code_entry_read pg_cntrl id l :
  ck_master_code_log pg_cntrl l = Ok tt →
  (∀ st s ref, (ml_old l = Some st ∨ st = ml_new l) → at_slot (ms_refs st) s = Some ref → uuid_ok ref) →
  ∃ operation, ml_operation l = Some operation ∧
    entry (master_code_log_row (id, l)) =
    Ok (MasterCodeAuditLog (read_common MASTER_CODE id (ml_metadata l) (ml_changed_at l)) (ml_master_code_id l)
          (ml_version l) operation (read_state <$> ml_old l) (read_state (ml_new l))).
Proof.
  intros Hck Hids. unfold ck_master_code_log in Hck. cbv zeta in Hck. apply bind_Ok in Hck as (_ & _ & Hck).
  apply bind_Ok in Hck as (u & Hop%check_Ok & _).
  destruct (ml_operation l) as [operation|] eqn:Eop; [|done]. exists operation. split; [done|].
  unfold entry, master_code_log_row. rewrite Eop.
  cbn [lr_source_type lr_operation lr_old_value lr_new_value from_option].
  rewrite AuditSource_call_value. cbn [mbind result_bind].
  rewrite bool_decide_eq_true_2 by done.
  assert (MasterCodeOperation_call (MasterCodeOperation_value operation) = Ok operation) as -> by by destruct operation.
  cbn [mbind result_bind]. rewrite (state_read (ml_new l)) by eauto.
  destruct (ml_old l) as [old|]; cbn [from_option]; [|done]. by rewrite (state_read old) by eauto.
Qed.

(** ** Readable tables *)

Record log_tables_ok (pg_cntrl : Z → bool) (tables : LogTables) : Prop := {
  to_unique : unique_ids tables;
  to_dims : Forall (λ e, ck_dimension_log pg_cntrl e.2 = Ok tt) (lt_dims tables);
  to_mcs : Forall (λ e, ck_master_code_log pg_cntrl e.2 = Ok tt) (lt_mcs tables);
  to_uuids : ∀ e st s ref, e ∈ lt_mcs tables → (ml_old e.2 = Some st ∨ st = ml_new e.2) →
    at_slot (ms_refs st) s = Some ref → uuid_ok ref;
}.

Definition uuids_ok (m : McLog) : Prop :=
  ∀ st s ref, (ml_old m = Some st ∨ st = ml_new m) → at_slot (ms_refs st) s = Some ref → uuid_ok ref.

Lemma existsb_true_elem {A} (f : A → bool) l x : x ∈ l → f x = true → existsb f l = true.
Proof. intros Hx Hf. apply existsb_exists. exists x. by rewrite <- list_elem_of_In. Qed.

Lemma insert_dimension_log_keeps pg_cntrl db t row t' :
  insert_dimension_log pg_cntrl db t row = Ok t' → log_tables_ok pg_cntrl t → log_tables_ok pg_cntrl t'.
Proof.
  destruct row as [id l]. unfold insert_dimension_log. cbv zeta. intros Hins [Hu Hd Hm Hids].
  apply bind_Ok in Hins as ([] & Hck & Hins). apply bind_Ok in Hins as ([] & Hpk%raise_if_Ok & Hins).
  do 2 apply bind_Ok in Hins as (_ & _ & Hins). injection Hins as <-.
  split; cbn [lt_dims lt_mcs]; [|by apply Forall_app_2; [|apply Forall_singleton]|done|done].
  intros source. specialize (Hu source). unfold table_rows in *. cbn [lt_dims lt_mcs].
  destruct (RECORDS source) as [s|]; [|done]. rewrite filter_app, !fmap_app, NoDup_app.
  split_and!; [done| |].
  - intros i (r & -> & (e & -> & [Hs He]%list_elem_of_filter)%list_elem_of_fmap)%list_elem_of_fmap.
    rewrite filter_cons, filter_nil. case_decide as Hl; [|by intros ?%elem_of_nil].
    cbn. intros Hi%list_elem_of_singleton. destruct e as [j e]. cbn in *. subst j.
    rewrite (existsb_true_elem _ _ _ He) in Hpk; [done|]. cbn.
    by rewrite bool_decide_eq_true_2, Z.eqb_refl by congruence.
  - rewrite filter_cons, filter_nil. case_decide; cbn; repeat constructor. by intros ?%elem_of_nil.
Qed.

Lemma insert_master_code_log_keeps pg_cntrl db t row t' :
  uuids_ok row.2 → insert_master_code_log pg_cntrl db t row = Ok t' →
  log_tables_ok pg_cntrl t → log_tables_ok pg_cntrl t'.
Proof.
  destruct row as [id l]. unfold insert_master_code_log. cbv zeta. intros Hl Hins [Hu Hd Hm Hids].
  apply bind_Ok in Hins as ([] & Hck & Hins). apply bind_Ok in Hins as ([] & Hpk%raise_if_Ok & Hins).
  do 2 apply bind_Ok in Hins as (_ & _ & Hins). injection Hins as <-.
  split; cbn [lt_dims lt_mcs]; [|done|by apply Forall_app_2; [|apply Forall_singleton]|].
  - intros source. specialize (Hu source). unfold table_rows in *. cbn [lt_dims lt_mcs].
    destruct (RECORDS source) as [s|]; [done|]. rewrite !fmap_app, NoDup_app. split_and!; [done| |by apply NoDup_singleton].
    intros i (r & -> & ([j e] & -> & He)%list_elem_of_fmap)%list_elem_of_fmap Hi%list_elem_of_singleton.
    cbn in Hi. subst j. rewrite (existsb_true_elem _ _ _ He) in Hpk; [done|]. cbn. apply Z.eqb_refl.
  - intros e st s ref [He|He%list_elem_of_singleton]%elem_of_app; [by eapply Hids|]. subst e. apply Hl.
Qed.

Lemma foldR_invariant {E A S} (f : S → A → result E S) (Inv : S → Prop) l s s' :
  (∀ s x s', x ∈ l → f s x = Ok s' → Inv s → Inv s') → foldR f s l = Ok s' → Inv s → Inv s'.
Proof.
  revert s. induction l as [|x l IH]; cbn; intros s Hf Hins Hs; [by injection Hins as <-|].
  apply bind_Ok in Hins as (s1 & H1 & Hins). eapply IH; [|exact Hins|].
  - intros s2 y s3 Hy. apply Hf. by right.
  - eapply Hf; [by left|done..].
Qed.

Lemma all_rows_read pg_cntrl q tables r :
  log_tables_ok pg_cntrl tables → r ∈ all_rows q tables →
  ∃ e, entry r = Ok e ∧ cursor_position (entry_cursor e) = row_position r.
Proof.
  intros [_ Hd Hm Hids] Hr.
  assert (∃ source, r ∈ table_rows source tables) as (source & Hs).
  { unfold all_rows in Hr. destruct (q_source q) as [source|]; [by exists source|].
    apply elem_of_concat in Hr as (l & Hl & (source & -> & _)%list_elem_of_fmap). by exists source. }
  unfold table_rows in Hs. destruct (RECORDS source) as [sl|] eqn:E.
  - apply list_elem_of_fmap in Hs as ([id l] & -> & [Hsl Hl]%list_elem_of_filter). cbn in Hsl. subst sl.
    rewrite Forall_forall in Hd. destruct (dimension_entry_read pg_cntrl source id l E (Hd _ Hl)) as (? & ? & _ & _ & ->).
    by eexists.
  - apply list_elem_of_fmap in Hs as ([id l] & -> & Hl). rewrite Forall_forall in Hm.
    destruct (master_code_entry_read pg_cntrl id l (Hm _ Hl)) as (? & _ & ->); [by intros; eapply Hids|].
    by eexists.
Qed.

Lemma in_order_elem q after tables r :
  r ∈ matching_in_order q after tables ↔ r ∈ all_rows q tables ∧ where_matches q r = true ∧ follows after r = true.
Proof.
  unfold matching_in_order, selected. rewrite merge_sort_Permutation, elem_of_filter_bool, andb_true_iff. done.
Qed.

(** The cursor belongs to the queried table. *)
Definition cursor_ok (q : AuditLogQuery) (after : option AuditLogCursor) : Prop :=
  match after, q_source q with Some c, Some source => c_source_type c = source | _, _ => True end.

Lemma ListAuditLogs_page pg_cntrl tables p q after limit :
  log_tables_ok pg_cntrl tables → query_ok q → cursor_ok q after →
  principal_role p ≠ USER → 1 ≤ limit ≤ 100 →
  ∃ items, mapR entry (take (Z.to_nat limit) (matching_in_order q after tables)) = Ok items ∧
    ListAuditLogs (Ok tables) p q after (VInt limit) =
    Ok (mkAuditLogPage items (Z.to_nat limit <? length (matching_in_order q after tables))%nat).
Proof.
  intros Ht Hq Hc Hp Hl.
  assert (∃ items, mapR entry (take (Z.to_nat limit) (matching_in_order q after tables)) = Ok items) as [items Hitems].
  { assert (Forall (λ r, ∃ e, entry r = Ok e) (take (Z.to_nat limit) (matching_in_order q after tables))) as Hall.
    { apply Forall_take, Forall_forall. intros r (Hr & _)%in_order_elem.
      destruct (all_rows_read _ _ _ _ Ht Hr) as (e & He & _). by exists e. }
    induction Hall as [|r rows [e He] _ [es Hes]]; [by exists []|]. exists (e :: es). cbn. by rewrite He, Hes. }
  exists items. split; [done|]. unfold ListAuditLogs.
  rewrite (proj2 (authorize_Ok p READ_AUDIT_LOG p)).
  2:{ split; [done|]. by destruct (principal_role p); [|apply (bool_decide_unpack _); vm_compute; exact I..]. }
  cbn [mbind result_bind].
  rewrite (proj2 (Z.leb_le 1 limit)), (proj2 (Z.leb_le limit 100)) by lia. cbn [andb mbind result_bind].
  assert (match after, q_source q with
          | Some c, Some source => negb (bool_decide (c_source_type c = source)) | _, _ => false end = false) as ->.
  { unfold cursor_ok in Hc. destruct after, (q_source q); try done. by rewrite bool_decide_eq_true_2. }
  cbn [raise_if mbind result_bind list_logs]. rewrite statement_in_order by first [done|apply (to_unique pg_cntrl); done].
  cbn [mbind result_bind]. rewrite take_take, Nat.min_l, Hitems by lia. cbn [mbind result_bind]. do 2 f_equal.
  rewrite length_take. apply eq_true_iff_eq. rewrite !Nat.ltb_lt. lia.
Qed.

(** ** Following the cursors *)

Definition tables_le (t t' : LogTables) : Prop := lt_dims t ⊆ lt_dims t' ∧ lt_mcs t ⊆ lt_mcs t'.

Lemma table_rows_le source t t' : tables_le t t' → table_rows source t ⊆ table_rows source t'.
Proof.
  intros [Hd Hm] r. unfold table_rows. destruct (RECORDS source) as [s|].
  - intros (e & -> & [Hs He]%list_elem_of_filter)%list_elem_of_fmap. apply list_elem_of_fmap_2.
    apply list_elem_of_filter. auto.
  - intros (e & -> & He)%list_elem_of_fmap. apply list_elem_of_fmap_2. auto.
Qed.

Lemma all_rows_le q t t' : tables_le t t' → all_rows q t ⊆ all_rows q t'.
Proof.
  intros Hle r. unfold all_rows. destruct (q_source q) as [source|]; [by apply table_rows_le|].
  rewrite !elem_of_concat. intros (l & Hr & (source & -> & Hs)%list_elem_of_fmap).
  exists (table_rows source t'). split; [by eapply table_rows_le|]. apply list_elem_of_fmap. eauto.
Qed.

Lemma strictly_after_trans_l a b c : position_order a b → strictly_after b c → strictly_after a c.
Proof. intros Hab [Hbc Hcb]. split; [by etrans|]. intros Hca. apply Hcb. by etrans. Qed.

Lemma in_order_sorted q after tables :
  unique_ids tables → StronglySorted strictly_after (row_position <$> matching_in_order q after tables).
Proof.
  intros Hu. assert (NoDup (row_position <$> matching_in_order q after tables)) as Hnd.
  { unfold matching_in_order, selected. rewrite merge_sort_Permutation.
    apply NoDup_fmap_filter, all_positions_NoDup, Hu. }
  pose proof (sorted_sort union_order (selected q after tables)) as Hs. unfold matching_in_order in *.
  induction Hs as [|r l Hl IH Hr]; [constructor|]. cbn in Hnd. apply NoDup_cons in Hnd as [Hn Hnd].
  cbn. constructor; [by apply IH|]. apply Forall_fmap, Forall_forall. intros x Hx.
  rewrite Forall_forall in Hr. specialize (Hr x Hx). split; [done|]. intros Hxr. apply Hn.
  rewrite (position_order_antisym (row_position r) (row_position x) Hr Hxr). by apply list_elem_of_fmap_2.
Qed.

Lemma elem_of_take_l {A} n (l : list A) x : x ∈ take n l → x ∈ l.
Proof. intros (i & Hi & _)%elem_of_take. by apply list_elem_of_lookup_2 in Hi. Qed.

(** What remains after the last row of a page is what follows its cursor. *)
Lemma page_split q after tables n x c :
  unique_ids tables → last (take n (matching_in_order q after tables)) = Some x → cursor_position c = row_position x →
  (∀ r, r ∈ take n (matching_in_order q after tables) → position_order (row_position r) (cursor_position c)) ∧
  (∀ r, r ∈ drop n (matching_in_order q after tables) → follows (Some c) r = true).
Proof.
  intros Hu Hlast Hc. pose proof (in_order_sorted q after tables Hu) as Hs.
  rewrite <- (take_drop n (matching_in_order q after tables)), fmap_app in Hs.
  apply StronglySorted_app in Hs as (Hcross & Hs & _). apply last_Some in Hlast as [l Hl]. rewrite Hc. split.
  - intros r Hr. rewrite Hl in Hr, Hs. apply elem_of_app in Hr as [Hr|Hr%list_elem_of_singleton]; [|subst r].
    + rewrite fmap_app in Hs. apply StronglySorted_app in Hs as (Hs & _ & _).
      apply (Hs (row_position r) (row_position x)); [by apply list_elem_of_fmap_2|cbn; set_solver].
    + destruct (position_order_total (row_position x) (row_position x)); done.
  - intros r Hr. unfold follows, given. apply bool_decide_eq_true. rewrite Hc.
    apply Hcross; apply list_elem_of_fmap_2; [|done]. rewrite Hl. set_solver.
Qed.

(** What following the cursors from [after] returned. *)
Record followed (q : AuditLogQuery) (after : option AuditLogCursor) (requests : list (LogTables * pyval))
    (rows : list LogRow) (finished : bool) : Prop := {
  fo_sorted : StronglySorted strictly_after (row_position <$> rows);
  fo_match : Forall (λ r, where_matches q r = true ∧ follows after r = true ∧
    ∃ request, request ∈ requests ∧ r ∈ all_rows q request.1) rows;
  fo_complete : finished = true → ∀ t r, Forall (λ request, tables_le t request.1) requests →
    r ∈ all_rows q t → where_matches q r = true → follows after r = true → r ∈ rows;
  fo_progress : finished = false → (length requests ≤ length rows)%nat;
}.

Definition request_ok (pg_cntrl : Z → bool) (request : LogTables * pyval) : Prop :=
  log_tables_ok pg_cntrl request.1 ∧ ∃ limit, request.2 = VInt limit ∧ 1 ≤ limit ≤ 100.

Lemma followed_last q after tables limit v requests :
  unique_ids tables → (length (matching_in_order q after tables) ≤ limit)%nat →
  followed q after ((tables, v) :: requests) (take limit (matching_in_order q after tables)) true.
Proof.
  intros Hu Hle. rewrite take_ge by done. split.
  - by apply in_order_sorted.
  - apply Forall_forall. intros r (Hr & Hm & Hf)%in_order_elem. split_and!; [done..|].
    eexists. split; [by left|done].
  - intros _ t r [Ht _]%Forall_cons Hr Hm Hf. apply in_order_elem. split_and!; [|done..]. by eapply all_rows_le.
  - done.
Qed.

Lemma followed_more q after tables limit v requests x c rows finished :
  unique_ids tables → last (take limit (matching_in_order q after tables)) = Some x → cursor_position c = row_position x →
  followed q (Some c) requests rows finished →
  followed q after ((tables, v) :: requests) (take limit (matching_in_order q after tables) ++ rows) finished.
Proof.
  intros Hu Hlast Hc [Hs Hm Hcomplete Hp]. destruct (page_split _ _ _ _ _ _ Hu Hlast Hc) as [Hbefore Hafter].
  assert (Forall (λ r, follows (Some c) r = true) rows) as Hrows by (eapply Forall_impl; [exact Hm|naive_solver]).
  assert (∀ r, follows (Some c) r = true ↔ strictly_after (cursor_position c) (row_position r)) as Hfollows
    by (intros r; apply bool_decide_eq_true).
  split.
  - rewrite fmap_app. apply StronglySorted_app. split_and!; [| |done].
    + intros ? ? (r & -> & Hr)%list_elem_of_fmap (r' & -> & Hr')%list_elem_of_fmap.
      eapply strictly_after_trans_l; [by apply Hbefore|]. apply Hfollows. rewrite Forall_forall in Hrows. by apply Hrows.
    + pose proof (in_order_sorted q after tables Hu) as Hio.
      rewrite <- (take_drop limit (matching_in_order q after tables)), fmap_app in Hio.
      by apply StronglySorted_app in Hio as (_ & ? & _).
  - apply Forall_app_2.
    + apply Forall_forall. intros r Hr%elem_of_take_l. apply in_order_elem in Hr as (Hr & ? & ?).
      split_and!; [done..|]. eexists. split; [by left|done].
    + apply Forall_forall. intros r Hr. rewrite Forall_forall in Hm. destruct (Hm r Hr) as (? & Hf & request & ? & ?).
      split_and!; [done| |exists request; split; [by right|done]].
      destruct after as [a|]; [|done]. apply bool_decide_eq_true. apply Hfollows in Hf.
      eapply strictly_after_trans_l; [|done]. rewrite Hc.
      assert (x ∈ matching_in_order q (Some a) tables) as (_ & _ & Hx%bool_decide_eq_true)%in_order_elem; [|apply Hx].
      apply last_Some in Hlast as [l Hl]. eapply elem_of_take_l. rewrite Hl. set_solver.
  - intros Hfin t r [Ht Hall]%Forall_cons Hr Hmr Hfr. apply elem_of_app.
    assert (r ∈ matching_in_order q after tables) as Hin.
    { apply in_order_elem. split_and!; [|done..]. by eapply all_rows_le. }
    rewrite <- (take_drop limit (matching_in_order q after tables)) in Hin.
    apply elem_of_app in Hin as [?|Hin]; [by left|right]. eapply Hcomplete; eauto.
  - intros Hfin. specialize (Hp Hfin). rewrite length_app. cbn [length].
    assert (length (take limit (matching_in_order q after tables)) ≠ 0)%nat; [|lia].
    by destruct (take limit (matching_in_order q after tables)).
Qed.

Lemma cursor_ok_position q tables r c :
  r ∈ all_rows q tables → cursor_position c = row_position r → cursor_ok q (Some c).
Proof.
  unfold cursor_ok, all_rows. destruct (q_source q) as [source|]; [|done]. intros Hr Hc.
  pose proof (table_rows_of source tables) as Hall. rewrite Forall_forall in Hall. apply Hall in Hr as [Hk Hv].
  unfold cursor_position, row_position in Hc. apply source_key_eq. congruence.
Qed.

Lemma mapR_app {E A B} (f : A → result E B) l k ys zs :
  mapR f l = Ok ys → mapR f k = Ok zs → mapR f (l ++ k) = Ok (ys ++ zs).
Proof. rewrite !mapR_Ok. apply Forall2_app. Qed.

Lemma mapR_last {E A B} (f : A → result E B) l ys y :
  mapR f l = Ok ys → last ys = Some y → ∃ x, last l = Some x ∧ f x = Ok y.
Proof.
  intros Hl%mapR_Ok [ys' ->]%last_Some. apply Forall2_app_inv_r in Hl as (l' & k & _ & Hk & ->).
  apply Forall2_cons_inv_r in Hk as (x & k' & Hx & ->%Forall2_nil_inv_r & ->).
  exists x. by rewrite last_snoc.
Qed.

Lemma follow_followed pg_cntrl p q after requests :
  principal_role p ≠ USER → query_ok q → cursor_ok q after → Forall (request_ok pg_cntrl) requests →
  ∃ rows es finished, follow p q after requests = Ok (es, finished) ∧ mapR entry rows = Ok es ∧
    followed q after requests rows finished.
Proof.
  intros Hp Hq. revert after. induction requests as [|[tables v] requests IH]; intros after Hc Hreq.
  { exists [], [], false. split_and!; [done..|]. split; try done; constructor. }
  apply Forall_cons in Hreq as [(Ht & limit & Hv & Hl) Hreq]. cbn in Ht, Hv. subst v.
  destruct (ListAuditLogs_page _ _ _ _ _ _ Ht Hq Hc Hp Hl) as (items & Hitems & Hpage).
  pose proof (to_unique _ _ Ht) as Hu. cbn [follow]. rewrite Hpage. cbn [mbind result_bind].
  set (n := Z.to_nat limit) in *. unfold next_cursor. cbn [lp_has_more lp_items].
  destruct (Nat.ltb_spec n (length (matching_in_order q after tables))) as [Hlt|Hge].
  2:{ exists (take n (matching_in_order q after tables)), items, true. split_and!; [done..|]. by apply followed_last. }
  destruct (last items) as [e|] eqn:Hlast.
  - destruct (mapR_last _ _ _ _ Hitems Hlast) as (x & Hx & He). cbn [fmap option_fmap option_map].
    assert (x ∈ all_rows q tables) as Hin.
    { apply last_Some in Hx as [l Hx]. assert (x ∈ take n (matching_in_order q after tables)) as Hin.
      { rewrite Hx. set_solver. }
      by apply elem_of_take_l, in_order_elem in Hin as (? & _). }
    destruct (all_rows_read _ _ _ _ Ht Hin) as (e' & He' & Hpos). assert (e' = e) as -> by congruence.
    destruct (IH (Some (entry_cursor e))) as (rows & es & finished & Hfollow & Hrows & Hdone); [|done|].
    { by eapply cursor_ok_position. }
    exists (take n (matching_in_order q after tables) ++ rows), (items ++ es), finished.
    rewrite Hfollow. split_and!; [done|by apply mapR_app|]. by apply (followed_more _ _ _ _ _ _ x (entry_cursor e)).
  - apply last_None in Hlast as ->. apply mapR_Ok, Forall2_length in Hitems. cbn in Hitems.
    rewrite length_take in Hitems. lia.
Qed.

(** ** The claims *)

(** C24: a page of the audit log.  A USER is refused whatever the request; a
    page size that is not an integer from 1 to 100 and a cursor of another
    table are rejected; a failure of the connection or a transient one is
    reported as unavailable and no other is; and otherwise the page has
    the first [limit] of all matching entries after the cursor, in the
    documented order over all queried tables, and says whether there are more,
    although every table was cut before the tables were merged. *)
Theorem audit_page_spec (pg_cntrl : Z → bool) (p : HumanPrincipal) (q : AuditLogQuery)
    (after : option AuditLogCursor) (limit : pyval) (tables : LogTables) (failure : db_failure) :
  log_tables_ok pg_cntrl tables → query_ok q →
  (∀ database, principal_role p = USER →
     ListAuditLogs database p q after limit = Raise AuthorizationDenied) ∧
  (∀ database, principal_role p ≠ USER → (∀ z, limit = VInt z → ¬ 1 ≤ z ≤ 100) →
     ListAuditLogs database p q after limit =
     Raise (DimensionValidationError "query.limit" "페이지 크기는 1~100이어야 합니다.")) ∧
  (∀ database z, principal_role p ≠ USER → limit = VInt z → 1 ≤ z ≤ 100 → ¬ cursor_ok q after →
     ListAuditLogs database p q after limit =
     Raise (DimensionValidationError "query.cursor" "조회 대상과 cursor가 일치하지 않습니다.")) ∧
  (∀ z, principal_role p ≠ USER → limit = VInt z → 1 ≤ z ≤ 100 → cursor_ok q after →
     ListAuditLogs (Raise failure) p q after limit = Raise (translate_failure failure) ∧
     ∃ items, mapR entry (take (Z.to_nat z) (matching_in_order q after tables)) = Ok items ∧
       ListAuditLogs (Ok tables) p q after limit =
       Ok (mkAuditLogPage items (Z.to_nat z <? length (matching_in_order q after tables))%nat)).
Proof.
  intros Ht Hq.
  assert (principal_role p ≠ USER → authorize p READ_AUDIT_LOG = Ok p) as Hauth.
  { intros Hp. apply authorize_Ok. split; [done|].
    by destruct (principal_role p); [|apply (bool_decide_unpack _); vm_compute; exact I..]. }
  assert (∀ z, 1 ≤ z ≤ 100 → (1 <=? z) && (z <=? 100) = true) as Hlimit.
  { intros z Hz. rewrite andb_true_iff, !Z.leb_le. lia. }
  split_and!.
  - intros database Hp. unfold ListAuditLogs, authorize. by rewrite Hp.
  - intros database Hp Hl. unfold ListAuditLogs. rewrite Hauth by done. cbn [mbind result_bind].
    destruct limit as [| |z| | | |]; try done. specialize (Hl z eq_refl).
    assert ((1 <=? z) && (z <=? 100) = false) as ->; [|done].
    apply not_true_is_false. by rewrite andb_true_iff, !Z.leb_le.
  - intros database z Hp -> Hz Hc. unfold ListAuditLogs. rewrite Hauth, (Hlimit z) by done. cbn [mbind result_bind].
    unfold cursor_ok in Hc. destruct after as [c|], (q_source q) as [source|]; [|by destruct Hc..].
    by rewrite bool_decide_eq_false_2.
  - intros z Hp -> Hz Hc. split; [|by eapply ListAuditLogs_page].
    unfold ListAuditLogs. rewrite Hauth, (Hlimit z) by done. cbn [mbind result_bind].
    assert (match after, q_source q with
            | Some c, Some source => negb (bool_decide (c_source_type c = source)) | _, _ => false end = false) as ->.
    { unfold cursor_ok in Hc. destruct after, (q_source q); try done. by rewrite bool_decide_eq_true_2. }
    cbn [raise_if mbind result_bind list_logs]. rewrite statement_in_order; [done..|].
    intros []; constructor.
Qed.

(** C25: reading the log to its end.  A reader follows the cursors, possibly
    with another page size each time, while other transactions append entries.
    Every request succeeds; what is returned comes in the documented order, so
    no entry comes twice, and matches the query; when the last page is reached,
    every matching entry that was there in all snapshots, such as one committed
    before the first request, has been returned; and the last page is reached
    before there are more requests than matching entries. *)
Theorem audit_reading_complete (pg_cntrl : Z → bool) (p : HumanPrincipal) (q : AuditLogQuery)
    (requests : list (LogTables * pyval)) :
  principal_role p ≠ USER → query_ok q → Forall (request_ok pg_cntrl) requests →
  ∃ rows es finished,
    follow p q None requests = Ok (es, finished) ∧ mapR entry rows = Ok es ∧
    StronglySorted strictly_after (row_position <$> rows) ∧ NoDup rows ∧
    (∀ r, r ∈ rows → where_matches q r = true ∧ ∃ request, request ∈ requests ∧ r ∈ all_rows q request.1) ∧
    (finished = true → ∀ start r, (∀ request, request ∈ requests → tables_le start request.1) →
       r ∈ all_rows q start → where_matches q r = true → r ∈ rows) ∧
    (∀ final, (∀ request, request ∈ requests → tables_le request.1 final) →
       (length (List.filter (where_matches q) (all_rows q final)) < length requests)%nat → finished = true).
Proof.
  intros Hp Hq Hreq. destruct (follow_followed pg_cntrl p q None requests Hp Hq I Hreq)
    as (rows & es & finished & Hf & Hr & [Hs Hm Hc Hl]).
  assert (NoDup rows) as Hnd.
  { apply (NoDup_fmap_1 row_position). clear -Hs. induction Hs as [|x l _ IH Hx]; constructor; [|done].
    intros Hin. rewrite Forall_forall in Hx. destruct (Hx _ Hin) as [H1 H2]. done. }
  exists rows, es, finished. split_and!; [done..| | |].
  - intros r Hin. rewrite Forall_forall in Hm. destruct (Hm r Hin) as (? & _ & ?). done.
  - intros Hfin start r Hle Hin Hmr. apply (Hc Hfin start); [|done..]. by apply Forall_forall.
  - intros final Hle Hlen. destruct finished; [done|]. specialize (Hl eq_refl). exfalso.
    assert (length rows ≤ length (List.filter (where_matches q) (all_rows q final)))%nat; [|lia].
    apply submseteq_length, NoDup_submseteq; [done|]. intros r Hin. rewrite Forall_forall in Hm.
    destruct (Hm r Hin) as (Hmr & _ & request & Hreq' & Hr'). apply elem_of_filter_bool.
    split; [|done]. eapply all_rows_le; [by apply Hle|done].
Qed.

(** C26: an entry of the log reads back as the trigger wrote it.  Source,
    identifiers, version, operation, field, the change set with its actor and
    reason and the time are the logged ones; a value is read in its type, a
    capacity with its unit, and the state of a MasterCode with its references. *)
Theorem audit_entry_reads_back (pg_cntrl : Z → bool) (source : AuditSource) (id : UUID) (l : DimLog) (m : McLog) :
  (RECORDS source = Some (dl_slot l) → ck_dimension_log pg_cntrl l = Ok tt →
   ∃ old new, read_value (dl_old l) = Some old ∧ read_value (dl_new l) = Some new ∧
     entry (dimension_log_row source (id, l)) =
     Ok (DimensionAuditLog (read_common source id (dl_metadata l) (dl_changed_at l)) (dl_dimension_id l)
           (dl_version l) (dl_operation l) (Some (field_value (dl_field l))) old new)) ∧
  (ck_master_code_log pg_cntrl m = Ok tt →
   (∀ st s ref, (ml_old m = Some st ∨ st = ml_new m) → at_slot (ms_refs st) s = Some ref → uuid_ok ref) →
   ∃ operation, ml_operation m = Some operation ∧
     entry (master_code_log_row (id, m)) =
     Ok (MasterCodeAuditLog (read_common MASTER_CODE id (ml_metadata m) (ml_changed_at m)) (ml_master_code_id m)
           (ml_version m) operation (read_state <$> ml_old m) (read_state (ml_new m)))).
Proof.
  split; [by apply dimension_entry_read|by apply master_code_entry_read].
Qed.

Lemma tables_le_trans t1 t2 t3 : tables_le t1 t2 → tables_le t2 t3 → tables_le t1 t3.
Proof. intros [? ?] [? ?]. split; by etrans. Qed.

Lemma insert_dimension_log_le pg_cntrl db t row t' :
  insert_dimension_log pg_cntrl db t row = Ok t' → tables_le t t'.
Proof.
  destruct row as [id l]. unfold insert_dimension_log. cbv zeta. intros Hins.
  do 4 apply bind_Ok in Hins as (_ & _ & Hins). injection Hins as <-. split; cbn; set_solver.
Qed.

Lemma insert_master_code_log_le pg_cntrl db t row t' :
  insert_master_code_log pg_cntrl db t row = Ok t' → tables_le t t'.
Proof.
  destruct row as [id l]. unfold insert_master_code_log. cbv zeta. intros Hins.
  do 4 apply bind_Ok in Hins as (_ & _ & Hins). injection Hins as <-. split; cbn; set_solver.
Qed.

(** The log tables stay readable.  Whatever a row write inserts into
    them, with identifiers of 128 bits, leaves tables of which every row, in
    every query, reads as an entry whose cursor is the place of that row. *)
Theorem log_writes_stay_readable (pg_cntrl : Z → bool) (db : DB) (t t' : LogTables)
    (dim_rows : list (UUID * DimLog)) (mc_rows : list (UUID * McLog)) :
  log_tables_ok pg_cntrl t → write_logs pg_cntrl db t dim_rows mc_rows = Ok t' →
  Forall (λ row, uuids_ok row.2) mc_rows →
  log_tables_ok pg_cntrl t' ∧ tables_le t t' ∧
  ∀ q r, r ∈ all_rows q t' → ∃ e, entry r = Ok e ∧ cursor_position (entry_cursor e) = row_position r.
Proof.
  intros Ht Hins Hids. apply bind_Ok in Hins as (t1 & H1 & H2).
  assert (log_tables_ok pg_cntrl t' ∧ tables_le t t') as [Ht' Hle].
  { eapply (foldR_invariant _ (λ x, log_tables_ok pg_cntrl x ∧ tables_le t x)); [|exact H2|].
    - intros x row x' Hrow Hx [Hok Hle]. rewrite Forall_forall in Hids. split.
      + eapply insert_master_code_log_keeps; eauto.
      + eapply tables_le_trans; [exact Hle|exact (insert_master_code_log_le _ _ _ _ _ Hx)].
    - eapply (foldR_invariant _ (λ x, log_tables_ok pg_cntrl x ∧ tables_le t x)); [|exact H1|by split; [|split; intros ?]].
      intros x row x' Hrow Hx [Hok Hle]. split; [by eapply insert_dimension_log_keeps|].
      eapply tables_le_trans; [exact Hle|exact (insert_dimension_log_le _ _ _ _ _ Hx)]. }
  split_and!; [done..|]. intros q r. by apply (all_rows_read pg_cntrl).
Qed.
End unicode.

(** ** Witnesses *)

Definition sample_memory_log : DimLog :=
  mkDimLog Memory 2 1 DIM_CREATE FIELD_VALUE None (Some (LValue (RMemory 8 (py "GB")))) first_audit 100.
Definition sample_mc_log : McLog :=
  mkMcLog 3 1 (Some MC_CREATE) None
    (mkMcState (mkSlots (Some 1) None None None None (Some 2) None None) (py "SAM-N-N-N-N-8GB-N-N") false)
    first_audit 100.
(** Before the first request, and after one more commit. *)
Definition sample_start : LogTables :=
  mkLogTables (zip [21; 22] first_logs ++ [(23, sample_memory_log)]) [(31, sample_mc_log)].
Definition sample_later : LogTables :=
  mkLogTables (lt_dims sample_start ++ [(24, mkDimLog Company 1 2 DIM_DELETE FIELD_DELETED
    (Some (LDeleted false)) (Some (LDeleted true)) first_audit 200)]) (lt_mcs sample_start).
Definition sample_query : AuditLogQuery := mkAuditLogQuery None (Some (test_uuid7 1)) no_filters.
Definition sample_admin : HumanPrincipal := mkHumanPrincipal 5 ADMIN.

Lemma sample_query_ok : query_ok sample_query.
Proof. by split. Qed.

Lemma sample_uuids_ok : uuids_ok sample_mc_log.
Proof. intros st s ref [?| ->]; [done|]. destruct s; cbn; intros [= <-]; unfold uuid_ok; lia. Qed.

Lemma sample_tables_ok tables : tables = sample_start ∨ tables = sample_later → log_tables_ok is_Cc tables.
Proof.
  intros Ht. split.
  - intros []; destruct Ht as [->| ->]; apply (bool_decide_unpack _); vm_compute; exact I.
  - destruct Ht as [->| ->]; repeat constructor.
  - destruct Ht as [->| ->]; repeat constructor.
  - assert (lt_mcs tables = [(31, sample_mc_log)]) as -> by by destruct Ht as [->| ->].
    intros e st s ref ->%list_elem_of_singleton. apply sample_uuids_ok.
Qed.

#[local] Existing Instance ascii_data.

Lemma audit_page_spec_witness :
  ∃ items, ListAuditLogs (Ok sample_start) sample_admin sample_query None (VInt 2) = Ok (mkAuditLogPage items true) ∧
    al_id ∘ entry_common <$> items = [22; 21].
Proof.
  destruct (audit_page_spec is_Cc sample_admin sample_query None (VInt 2) sample_start OSError
    (sample_tables_ok _ (or_introl eq_refl)) sample_query_ok) as (_ & _ & _ & Hpage).
  destruct (Hpage 2) as (_ & items & Hitems & Hp); [done|done|lia|exact I|].
  exists items. split; [rewrite Hp; vm_compute; reflexivity|]. vm_compute in Hitems. injection Hitems as <-. reflexivity.
Defined.

Definition sample_requests : list (LogTables * pyval) :=
  [(sample_start, VInt 2); (sample_later, VInt 1); (sample_later, VInt 100)].

Lemma audit_reading_complete_witness :
  ∃ es, follow sample_admin sample_query None sample_requests = Ok (es, true) ∧
    al_id ∘ entry_common <$> es = [22; 21; 23; 31].
Proof.
  destruct (audit_reading_complete is_Cc sample_admin sample_query sample_requests)
    as (rows & es & finished & Hf & _); [done|apply sample_query_ok| |].
  { unfold sample_requests. repeat apply Forall_cons_2; [..|apply Forall_nil_2]; split;
      solve [apply sample_tables_ok; auto|eexists; split; [reflexivity|lia]]. }
  exists es. vm_compute in Hf. injection Hf as Hes Hfin. subst es finished. split; vm_compute; reflexivity.
Defined.

Lemma audit_entry_reads_back_witness :
  (∃ e, entry (dimension_log_row MEMORY (23, sample_memory_log)) = Ok e) ∧
  (∃ e, entry (master_code_log_row (31, sample_mc_log)) = Ok e).
Proof.
  split.
  - destruct (audit_entry_reads_back is_Cc MEMORY 23 sample_memory_log sample_mc_log) as [Hd _].
    destruct Hd as (old & new & _ & _ & He); [reflexivity|reflexivity|]. eexists. exact He.
  - destruct (audit_entry_reads_back is_Cc MEMORY 31 sample_memory_log sample_mc_log) as [_ Hm].
    destruct Hm as (operation & _ & He); [reflexivity|apply sample_uuids_ok|]. eexists. exact He.
Defined.

Lemma log_writes_stay_readable_witness :
  ∃ tables, write_logs is_Cc first_db (mkLogTables [] []) (zip [21; 22] first_logs) [] = Ok tables ∧
    log_tables_ok is_Cc tables.
Proof.
  assert (log_tables_ok is_Cc (mkLogTables [] [])) as Hempty.
  { split; [intros []; constructor|constructor|constructor|]. intros e st s ref He. by apply not_elem_of_nil in He. }
  eexists. split; [vm_compute; reflexivity|].
  eapply (log_writes_stay_readable is_Cc first_db _ _ (zip [21; 22] first_logs) [] Hempty);
    [vm_compute; reflexivity|constructor].
Defined.
