(* ===== verification/DimensionRepos.v ===== *)
(** * The Dimension repositories
    ([src/src/mdm/infrastructure/repositories/companies.py],
    [string_dimensions.py], [numeric_dimensions.py], [memory_dimensions.py],
    and the locking helpers of [master_codes.py])

    The four repository classes run the same transactions over their tables;
    they differ in the exceptions they raise and in how Memory compares values.
    A [dim_config] holds those differences, the generic operations below are
    written once, and each repository method is its instance.

    A transaction reads and writes the database [db] it holds locks in.  The
    conflict search runs without locks: it may see an older committed state
    [seen], and the unique constraints have the last word. *)

From S2P Require Import Prelude Python Exceptions Auth MutationAudit Dimensions MasterCodes Store Records Pagination.
Local Open Scope Z_scope.

(** What the database server supplies to a transaction: the clock, the
    statement timestamp and the identifiers [uuidv7()] generates. *)
Record Env := mkEnv {
  env_clock : Z;
  env_statement : Z;
  env_dim_id : slot → UUID;
  env_mc_id : UUID;
}.

Record dim_config := mkDimConfig {
  cf_slot : slot;
  cf_not_found : exn;
  cf_code_conflict : exn;
  cf_value_conflict : exn;
  cf_multiple_conflicts : exn;
  cf_value_differs : dim_value → dim_value → bool;
}.

Definition value_differs (proposed current : dim_value) : bool :=
  negb (bool_decide (proposed = current)).
(** [value.capacity_mb != current.value.capacity_mb] *)
Definition capacity_differs (proposed current : dim_value) : bool :=
  match proposed, current with
  | MemoryValue a, MemoryValue b => negb (capacity_mb a =? capacity_mb b)
  | _, _ => true
  end.

Definition company_repository : dim_config :=
  mkDimConfig Company CompanyNotFound CompanyCodeConflict CompanyValueConflict
    CompanyMultipleConflicts value_differs.

Definition string_repository (dimension_name : string) (s : slot) : dim_config :=
  mkDimConfig s (StringDimensionNotFound dimension_name)
    (StringDimensionCodeConflict dimension_name) (StringDimensionValueConflict dimension_name)
    (StringDimensionMultipleConflicts dimension_name) value_differs.
Definition model_repository : dim_config := string_repository "Model" Model.
Definition brand_repository : dim_config := string_repository "Brand" Brand.
Definition country_repository : dim_config := string_repository "Country" Country.
Definition category_repository : dim_config := string_repository "Category" Category.

Definition numeric_repository (dimension_name : string) (s : slot) : dim_config :=
  mkDimConfig s (NumericDimensionNotFound dimension_name)
    (NumericDimensionCodeConflict dimension_name) (NumericDimensionValueConflict dimension_name)
    (NumericDimensionMultipleConflicts dimension_name) value_differs.
Definition year_repository : dim_config := numeric_repository "Year" Year.
Definition network_repository : dim_config := numeric_repository "Network" Network.

Definition memory_repository : dim_config :=
  mkDimConfig Memory MemoryDimensionNotFound MemoryDimensionCodeConflict
    MemoryDimensionValueConflict MemoryDimensionMultipleConflicts capacity_differs.

(** The repository of each slot. *)
Definition repository_of (s : slot) : dim_config :=
  match s with
  | Company => company_repository | Brand => brand_repository | Model => model_repository
  | Category => category_repository | Year => year_repository | Memory => memory_repository
  | Network => network_repository | Country => country_repository
  end.

(** [_raise_conflict] *)
Definition raise_conflict (cf : dim_config) (code_conflict value_conflict : bool) : res unit :=
  _ ← raise_if (code_conflict && value_conflict) (cf_multiple_conflicts cf);
  _ ← raise_if code_conflict (cf_code_conflict cf);
  raise_if value_conflict (cf_value_conflict cf).

(** [except IntegrityError] of [create] and of [update_value]. *)
Definition translate_create {A} (cf : dim_config) (e : exn) : res A :=
  match e with
  | IntegrityError name =>
      if bool_decide (name = code_constraint (cf_slot cf)) then Raise (cf_code_conflict cf)
      else if bool_decide (name = value_constraint (cf_slot cf)) then Raise (cf_value_conflict cf)
      else Raise e
  | _ => Raise e
  end.
Definition translate_update {A} (cf : dim_config) (e : exn) : res A :=
  match e with
  | IntegrityError name =>
      if bool_decide (name = code_constraint (cf_slot cf)) then Raise (cf_code_conflict cf)
      else if bool_decide (name = value_constraint (cf_slot cf)) then Raise (cf_value_conflict cf)
      else if bool_decide (name = "uq_master_codes_code"%string)
              || bool_decide (name = "uq_master_codes_references"%string)
           then Raise MasterCodeConflict
      else Raise e
  | _ => Raise e
  end.

(** ** MasterCodes that reference a Dimension *)

Record LockedMasterCode := mkLocked { locked_record : McRow; locked_current : MasterCode }.

Definition replace_slot (d : MasterCodeDimensions) (s : slot) (dim : Dimension)
    : MasterCodeDimensions :=
  of_slots (λ s', if bool_decide (s' = s) then Some dim else get_slot d s').

(** [recompose_locked_master_codes]: the rows it changes, with their next state. *)
Fixpoint recompose_locked_master_codes (locked : list LockedMasterCode) (s : slot)
    (dimension : Dimension) (changed_at : datetime) : res (list (McRow * McRow)) :=
  match locked with
  | [] => Ok []
  | item :: rest =>
      dimensions ← MasterCodeDimensions_init
                     (replace_slot (mc_dimensions (locked_current item)) s dimension);
      recomposed ← recompose (locked_current item) dimensions changed_at;
      changes ← recompose_locked_master_codes rest s dimension changed_at;
      if bool_decide (recomposed = locked_current item) then Ok changes
      else
        let record := locked_record item in
        Ok ((record, mkMcRow (m_id record) (m_refs record) (mc_code recomposed)
               (mc_version recomposed) (m_created_at record) (instant (mc_updated_at recomposed))
               (m_deleted_at record)) :: changes)
  end.

(** The flush of changed MasterCode rows. *)
Definition update_master_codes (c : AuditContext) (changes : list (McRow * McRow)) (db : DB)
    : res DB :=
  foldR (λ db '(old, new), update_master_code c old new db) db changes.

(** [ORDER BY id] *)
Definition id_order (m n : McRow) : Prop := m_id m ≤ m_id n.
#[export] Instance id_order_dec : RelDecision id_order.
Proof. intros m n. unfold id_order. apply _. Defined.

Section unicode.
Context `{UnicodeData}.

(** [lock_referencing_master_codes], in identifier order. *)
Definition referencing_rows (s : slot) (dimension_id : UUID) (db : DB) : list McRow :=
  sorting.merge_sort id_order
    (List.filter (λ m, bool_decide (at_slot (m_refs m) s = Some dimension_id)) (mc_rows db)).
Definition lock_referencing_master_codes (s : slot) (dimension_id : UUID) (db : DB)
    : res (list LockedMasterCode) :=
  mapR (λ m, current ← joined_to_domain db m; Ok (mkLocked m current))
    (referencing_rows s dimension_id db).

(** ** The generic operations *)

Definition create_dimension (cf : dim_config) (env : Env) (seen db : DB) (code : DimensionCode)
    (value : dim_value) (audit : MutationAuditMetadata) : res (Dimension * DB) :=
  let key := row_key (value_to_row value) in
  let conflicts :=
    List.filter (λ row, bool_decide (r_code row = code_value code)
                        || bool_decide (row_key (r_value row) = key)) (rows_of (cf_slot cf) seen) in
  let code_conflict := existsb (λ row, bool_decide (r_code row = code_value code)) conflicts in
  let value_conflict := existsb (λ row, bool_decide (row_key (r_value row) = key)) conflicts in
  _ ← raise_conflict cf code_conflict value_conflict;
  context ← set_context audit None (env_clock env);
  let record := mkDimRow (env_dim_id env (cf_slot cf)) (code_value code) (value_to_row value) 1
                  (env_statement env) (env_statement env) None in
  db' ← catch (insert_dimension context.1 (cf_slot cf) record db) (translate_create cf);
  created ← row_to_domain (cf_slot cf) record;
  Ok (created, db').

Definition active_row (s : slot) (id : UUID) (db : DB) : option DimRow :=
  r ← dims db !! (s, id);
  if bool_decide (r_deleted_at r = None) then Some r else None.

Definition get_active (cf : dim_config) (db : DB) (dimension_id : UUID) : res Dimension :=
  match active_row (cf_slot cf) dimension_id db with
  | None => Raise (cf_not_found cf)
  | Some record => row_to_domain (cf_slot cf) record
  end.

Definition update_value (cf : dim_config) (env : Env) (seen db : DB) (dimension_id : UUID)
    (expected_version : Z) (value : option dim_value) (audit : MutationAuditMetadata)
    (code : option DimensionCode) : res (Dimension * DB) :=
  let s := cf_slot cf in
  record ← match active_row s dimension_id db with
           | None => Raise (cf_not_found cf)
           | Some record => Ok record
           end;
  current ← row_to_domain s record;
  _ ← raise_if (negb (dim_version current =? expected_version)) PreconditionFailed;
  let code_changed :=
    match code with None => false | Some c => negb (bool_decide (c = dim_code current)) end in
  let value_changed :=
    match value with None => false | Some v => cf_value_differs cf v (dim_value_of current) end in
  if negb code_changed && negb value_changed then Ok (current, db)
  else
    let same_code row :=
      match code with
      | Some c => code_changed && bool_decide (r_code row = code_value c)
      | None => false
      end in
    let same_value row :=
      match value with
      | Some v => value_changed && bool_decide (row_key (r_value row) = row_key (value_to_row v))
      | None => false
      end in
    let conflicts :=
      List.filter (λ row, negb (bool_decide (r_id row = dimension_id))
                          && (same_code row || same_value row)) (rows_of s seen) in
    _ ← raise_conflict cf (existsb same_code conflicts) (existsb same_value conflicts);
    locked ← (if code_changed then lock_referencing_master_codes s dimension_id db else Ok []);
    let minimum_timestamp :=
      fold_left Z.max ((λ item, instant (mc_updated_at (locked_current item))) <$> locked)
        (instant (dim_updated_at current)) in
    context ← set_context audit (Some (utc minimum_timestamp)) (env_clock env);
    let changed_at := context.2 in
    changed ← Dimension_change current code value changed_at;
    changes ← (if code_changed then recompose_locked_master_codes locked s changed changed_at
               else Ok []);
    let record' :=
      mkDimRow (r_id record)
        (if code_changed then code_value (dim_code changed) else r_code record)
        (if value_changed then value_to_row (dim_value_of changed) else r_value record)
        (dim_version changed) (r_created_at record) (instant (dim_updated_at changed))
        (r_deleted_at record) in
    db' ← catch (db1 ← update_dimension context.1 s record record' db;
                 update_master_codes context.1 changes db1) (translate_update cf);
    updated ← row_to_domain s record';
    Ok (updated, db').

Definition dim_key (r : DimRow) : page_key := (r_created_at r, r_id r).
Definition active_rows (s : slot) (db : DB) : list DimRow :=
  List.filter (λ r, bool_decide (r_deleted_at r = None)) (rows_of s db).

Definition list_active (cf : dim_config) (db : DB) (after : option page_key) (limit : nat)
    : res (Page Dimension) :=
  let p := page dim_key after limit (active_rows (cf_slot cf) db) in
  items ← mapR (row_to_domain (cf_slot cf)) (page_items p);
  Ok (mkPage items (page_has_more p)).

(** ** The four repository classes

    The classes parse the stored value in their [_to_domain] (which
    [row_to_domain] does by the slot), compare and store values in the column
    types of their tables ([value_to_row], [row_key]), and are otherwise the
    generic operations at their configuration. *)

Definition company_create := create_dimension company_repository.
Definition company_get_active := get_active company_repository.
Definition company_update_value := update_value company_repository.
Definition company_list_active := list_active company_repository.

Definition string_create (dimension_name : string) (s : slot) :=
  create_dimension (string_repository dimension_name s).
Definition string_get_active (dimension_name : string) (s : slot) :=
  get_active (string_repository dimension_name s).
Definition string_update_value (dimension_name : string) (s : slot) :=
  update_value (string_repository dimension_name s).
Definition string_list_active (dimension_name : string) (s : slot) :=
  list_active (string_repository dimension_name s).

Definition numeric_create (dimension_name : string) (s : slot) :=
  create_dimension (numeric_repository dimension_name s).
Definition numeric_get_active (dimension_name : string) (s : slot) :=
  get_active (numeric_repository dimension_name s).
Definition numeric_update_value (dimension_name : string) (s : slot) :=
  update_value (numeric_repository dimension_name s).
Definition numeric_list_active (dimension_name : string) (s : slot) :=
  list_active (numeric_repository dimension_name s).

Definition memory_create := create_dimension memory_repository.
Definition memory_get_active := get_active memory_repository.
Definition memory_update_value := update_value memory_repository.
Definition memory_list_active := list_active memory_repository.
End unicode.
