(* ===== verification/DimensionSpecs.v ===== *)
(** * What the Dimension repositories guarantee

    For every branch of the repository transactions of [DimensionRepos.v]: the
    exceptions they raise and why, the state they return, and the database they
    leave, which stays consistent. *)

From stdpp Require Import sorting.
From S2P Require Import Prelude Python Exceptions Auth MutationAudit Dimensions MasterCodes Store Records Invariant Consistency Pagination DimensionRepos.
Local Open Scope Z_scope.

(** ** Recomposition of the MasterCodes that reference a Dimension *)

Definition recomposed_row (db : DB) (s : slot) (d : Dimension) (t : Z) (m : McRow) : McRow :=
  mkMcRow (m_id m) (m_refs m) (compose (replace_slot (joined_dims db m) s d)) (m_version m + 1)
    (m_created_at m) t (m_deleted_at m).

Definition locked_of (db : DB) (m : McRow) : LockedMasterCode :=
  mkLocked m (mc_of m (joined_dims db m)).

Lemma elem_of_referencing_rows s id db m :
  store_ok db → m ∈ referencing_rows s id db ↔
  mcs db !! m_id m = Some m ∧ at_slot (m_refs m) s = Some id.
Proof.
  intros Hok. unfold referencing_rows. rewrite merge_sort_Permutation.
  rewrite elem_of_filter_bool, elem_of_mc_rows, bool_decide_eq_true. split.
  - intros [[k Hk] Href]. by destruct (so_mc _ Hok _ _ Hk) as [<- _].
  - intros [Hm Href]. split; [by eexists|done].
Qed.

Lemma referencing_rows_NoDup s id db : store_ok db → NoDup (m_id <$> referencing_rows s id db).
Proof.
  intros Hok. unfold referencing_rows. rewrite merge_sort_Permutation.
  by apply NoDup_fmap_filter, mc_rows_NoDup.
Qed.

Lemma lock_referencing_ok `{UnicodeData} s id db :
  db_ok db →
  lock_referencing_master_codes s id db = Ok (locked_of db <$> referencing_rows s id db).
Proof.
  intros Hdb. unfold lock_referencing_master_codes.
  assert (∀ l, (∀ m, m ∈ l → m ∈ referencing_rows s id db) →
    mapR (λ m, current ← joined_to_domain db m; Ok (mkLocked m current)) l = Ok (locked_of db <$> l))
    as Hall.
  { induction l as [|m l IH]; intros Hl; [done|].
    assert (m ∈ referencing_rows s id db) as Hin by (apply Hl; set_solver).
    apply elem_of_referencing_rows in Hin as [Hm _]; [|apply Hdb].
    cbn [mapR]. rewrite (joined_to_domain_ok _ _ _ Hdb Hm). cbn. rewrite IH; [done|].
    intros n Hn. apply Hl. set_solver. }
  by apply Hall.
Qed.

Lemma get_replace_slot d s dim s' :
  get_slot (replace_slot d s dim) s' = if bool_decide (s' = s) then Some dim else get_slot d s'.
Proof. unfold replace_slot. by rewrite get_of_slots. Qed.

Section recompose.
Context (db : DB) (s : slot) (id : UUID) (r : DimRow) (d : Dimension) (t : Z).
Hypothesis Hdb : db_ok db.
Hypothesis Hr : dims db !! (s, id) = Some r.
Hypothesis Hid : dim_id d = id.
Hypothesis Hwf : code_wf (dim_code d) = true.
Hypothesis Hslot : slot_of_value (dim_value_of d) = s.
Hypothesis Hactive : is_deleted d = false.
Hypothesis Hcode : code_value (dim_code d) ≠ r_code r.

Lemma joined_slot_self m : at_slot (m_refs m) s = Some id → joined_slot db m s = Some r.
Proof. intros Href. apply joined_slot_Some. by exists id. Qed.

Lemma replace_codes_wf m : codes_wf (replace_slot (joined_dims db m) s d).
Proof.
  intros s' dim. rewrite get_replace_slot. case_bool_decide; [by intros [= <-]|].
  apply joined_dims_codes_wf, Hdb.
Qed.

Lemma recompose_changes_code m :
  at_slot (m_refs m) s = Some id →
  compose (replace_slot (joined_dims db m) s d) ≠ compose (joined_dims db m).
Proof.
  intros Href Heq. apply compose_codes with (s := s) in Heq;
    [|apply replace_codes_wf|apply joined_dims_codes_wf, Hdb].
  rewrite get_replace_slot, bool_decide_eq_true_2 in Heq by done.
  rewrite slot_code_joined, (joined_slot_self m Href) in Heq by apply Hdb. done.
Qed.

Lemma replace_slot_ids m :
  at_slot (m_refs m) s = Some id →
  slot_ids (replace_slot (joined_dims db m) s d) = slot_ids (joined_dims db m).
Proof.
  intros Href. unfold slot_ids. apply ordered_eq. intros s'. rewrite get_replace_slot.
  case_bool_decide as Hs; [|done]. subst s'.
  pose proof (joined_dims_slot db m s (proj1 Hdb)) as Hj. rewrite (joined_slot_self m Href) in Hj.
  destruct Hj as (x & -> & Hx & _). apply row_dimension_fields in Hx as [Hx _]. cbn.
  rewrite Hid, Hx. destruct (so_dim _ (proj1 Hdb) _ _ _ Hr) as [-> _]. done.
Qed.

Lemma recompose_ok k m :
  mcs db !! k = Some m → at_slot (m_refs m) s = Some id → m_updated_at m ≤ t →
  recompose (mc_of m (joined_dims db m)) (replace_slot (joined_dims db m) s d) (utc t) =
  Ok (mkMasterCode (m_id m) (replace_slot (joined_dims db m) s d)
    (compose (replace_slot (joined_dims db m) s d)) (m_version m + 1) (utc (m_created_at m)) (utc t)
    (utc <$> m_deleted_at m)).
Proof.
  intros Hm Href Ht. pose proof (mc_of_valid _ _ _ Hdb Hm) as [Ha Hc Hv Hca Hua Ho Hf Hd].
  rewrite recompose_changed; [|by apply replace_slot_ids| |done|done].
  2:{ rewrite Hc. by apply recompose_changes_code. }
  apply MasterCode_init_Ok. split; [done|]. cbn in *. split; cbn; try done; try lia.
  - intros Hdel s' dim. rewrite get_replace_slot. case_bool_decide; [by intros [= <-]|].
    by apply Ha.
  - intros t' Ht'. destruct (Hd _ Ht') as [? ?]. split; [done|lia].
Qed.

Lemma recompose_locked_ok l :
  (∀ m, m ∈ l → mcs db !! m_id m = Some m ∧ at_slot (m_refs m) s = Some id ∧ m_updated_at m ≤ t) →
  recompose_locked_master_codes (locked_of db <$> l) s d (utc t) =
  Ok ((λ m, (m, recomposed_row db s d t m)) <$> l).
Proof.
  induction l as [|m l IH]; intros Hl; [done|].
  destruct (Hl m) as (Hm & Href & Ht); [set_solver|].
  cbn [fmap list_fmap recompose_locked_master_codes locked_current locked_of mc_dimensions mc_of].
  assert (MasterCodeDimensions_init (replace_slot (joined_dims db m) s d) =
    Ok (replace_slot (joined_dims db m) s d)) as ->.
  { apply MasterCodeDimensions_init_Ok. split; [done|]. intros s' dim. rewrite get_replace_slot.
    case_bool_decide as Hs; [by intros [= <-]; subst|]. intros Hdim.
    pose proof (joined_dims_slot db m s' (proj1 Hdb)) as Hj.
    destruct (joined_slot db m s'); [|congruence]. destruct Hj as (x & Hx & _ & _ & _ & ?). congruence. }
  cbn [mbind result_bind].
  change (mkMasterCode (m_id m) (joined_dims db m) (m_code m) (m_version m) (utc (m_created_at m))
    (utc (m_updated_at m)) (utc <$> m_deleted_at m)) with (mc_of m (joined_dims db m)).
  rewrite (recompose_ok _ _ Hm Href Ht). cbn [mbind result_bind].
  rewrite IH by (intros n Hn; apply Hl; set_solver). cbn [mbind result_bind].
  rewrite bool_decide_eq_false_2; [done|]. intros Heq. apply (f_equal mc_version) in Heq.
  cbn in Heq. lia.
Qed.
End recompose.

(** ** Writing a set of MasterCode rows *)

Section write.
Context (c : AuditContext) (f : McRow → McRow).

Definition rewritten (l : list McRow) (n : McRow) : McRow :=
  if bool_decide (m_id n ∈ m_id <$> l) then f n else n.

(** A batch of updates of stored rows that every check accepts, and whose codes
    collide neither with a stored code nor with one another, is accepted, and
    rewrites exactly these rows. *)
Lemma update_master_codes_ok l db :
  store_ok db → NoDup (m_id <$> l) →
  (∀ m, m ∈ l → mcs db !! m_id m = Some m ∧ m_id (f m) = m_id m ∧ m_refs (f m) = m_refs m ∧
     mc_before_update c m (f m) = Ok tt ∧ ck_master_code (f m) = Ok tt) →
  (∀ m k n, m ∈ l → mcs db !! k = Some n → m_code n ≠ m_code (f m)) →
  (∀ m n, m ∈ l → n ∈ l → m_code (f m) = m_code (f n) → m_id m = m_id n) →
  update_master_codes c ((λ m, (m, f m)) <$> l) db =
  Ok (mkDB (dims db) (rewritten l <$> mcs db) (dim_logs db)
        (mc_logs db ++ ((λ m, mc_update_log c m (f m)) <$> l))).
Proof.
  unfold update_master_codes. revert db.
  induction l as [|m l IH]; intros db Hok Hnd Hall Hfresh Hinj; cbn.
  { rewrite app_nil_r. destruct db as [d x y z]. cbn. do 2 f_equal. symmetry. apply map_fmap_id. }
  apply NoDup_cons in Hnd as [Hnotin Hnd].
  destruct (Hall m) as (Hm & Hid & Hrefs & Htrig & Hck); [by left|].
  assert (update_master_code c m (f m) db = Ok (mkDB (dims db) (<[m_id m := f m]> (mcs db))
    (dim_logs db) (mc_logs db ++ [mc_update_log c m (f m)]))) as Hupd.
  { unfold update_master_code. rewrite Htrig, Hck. cbn.
    assert (uq_master_code (f m) db = Ok tt) as ->.
    { apply uq_master_code_Ok. intros k n Hn Hne. split.
      - by eapply Hfresh; [left|].
      - rewrite Hrefs. intros He. apply Hne. rewrite Hid.
        destruct (so_mc _ Hok _ _ Hn) as [-> _]. by eapply (so_refs _ Hok). }
    cbn [mbind result_bind].
    assert (fk_master_code (f m) db = Ok tt) as ->.
    { apply fk_master_code_Ok. rewrite Hrefs. intros s ref. by eapply (so_fk _ Hok). }
    cbn. by rewrite Hid. }
  rewrite Hupd. cbn [mbind result_bind].
  pose proof (update_master_code_ok _ _ _ _ _ Hok Hm Hupd) as Hok'.
  rewrite IH; cbn; [|done|done| | |].
  - rewrite <- app_assoc. do 2 f_equal. apply map_eq. intros k. rewrite !lookup_fmap.
    destruct (decide (k = m_id m)) as [->|Hk].
    + rewrite lookup_insert_eq, Hm. cbn. unfold rewritten. rewrite Hid.
      rewrite bool_decide_eq_false_2 by done. by rewrite bool_decide_eq_true_2 by (cbn; left).
    + rewrite lookup_insert_ne by done. destruct (mcs db !! k) as [n|] eqn:En; [|done]. cbn.
      f_equal. unfold rewritten. apply (so_mc _ Hok) in En as [En _].
      assert (m_id n ∈ m_id <$> m :: l ↔ m_id n ∈ m_id <$> l) as Hiff.
      { cbn. rewrite elem_of_cons. naive_solver. }
      by rewrite (bool_decide_ext _ _ Hiff).
  - intros n Hn. destruct (Hall n) as (Hn' & ?); [by right|]. split; [|done].
    rewrite lookup_insert_ne; [done|]. intros E. apply Hnotin. rewrite E. by apply list_elem_of_fmap_2.
  - intros n k q Hn [[<- <-]|[_ Hq]]%lookup_insert_Some.
    + intros E. apply Hnotin. rewrite (Hinj m n); [|by left|by right|done].
      by apply list_elem_of_fmap_2.
    + eapply Hfresh; [by right|done].
  - intros n q Hn Hq. apply Hinj; by right.
Qed.
End write.

(** ** A Dimension row and the MasterCodes that reference it, changed together *)

Lemma update_dimension_result c s old new db db1 :
  update_dimension c s old new db = Ok db1 →
  db1 = mkDB (<[(s, r_id new) := new]> (dims db)) (mcs db)
          (dim_logs db ++ dim_update_logs c s old new) (mc_logs db).
Proof.
  unfold update_dimension. intros Hok. apply bind_Ok in Hok as (_ & _ & Hok).
  apply bind_Ok in Hok as (_ & _ & Hok). by apply bind_Ok in Hok as (_ & _ & [= <-]).
Qed.

Lemma compose_row_unreferenced db db1 s r m :
  dims db1 = <[(s, r_id r) := r]> (dims db) → at_slot (m_refs m) s ≠ Some (r_id r) →
  compose_row db1 m = compose_row db m.
Proof.
  intros Hd Href. unfold compose_row. f_equal. apply list_fmap_ext. intros i s' _.
  rewrite (joined_slot_insert db m s s' r db1 Hd), bool_decide_eq_false_2; [done|]. by intros [_ ?].
Qed.

Lemma compose_row_same_code db db1 s r r' m :
  dims db1 = <[(s, r_id r') := r']> (dims db) → dims db !! (s, r_id r') = Some r →
  r_code r' = r_code r → compose_row db1 m = compose_row db m.
Proof.
  intros Hd Hr Hcode. unfold compose_row. f_equal. apply list_fmap_ext. intros i s' _.
  rewrite (joined_slot_insert db m s s' r' db1 Hd). case_bool_decide as Hs; [|done].
  destruct Hs as [-> Href]. unfold joined_slot. rewrite Href. cbn. by rewrite Hr.
Qed.

(** A consistent database after the update of one active row: consistent when
    the code is kept. *)
Lemma update_same_code_ok c s old new db db1 :
  db_ok db → dims db !! (s, r_id old) = Some old → update_dimension c s old new db = Ok db1 →
  r_id new = r_id old → r_code new = r_code old →
  (r_deleted_at new = None ∨
   ∀ k m, mcs db !! k = Some m → at_slot (m_refs m) s = Some (r_id new) → m_deleted_at m ≠ None) →
  db_ok db1.
Proof.
  intros [Hok [Hcode Hact]] Hold Hupd Hid Hsame Hdel.
  pose proof (update_dimension_ok _ _ _ _ _ _ Hok Hold Hupd) as Hok1.
  split; [done|]. apply update_dimension_result in Hupd as ->.
  split; cbn.
  - intros k m Hm. rewrite (Hcode _ _ Hm). symmetry. rewrite <- Hid in Hold.
    by eapply compose_row_same_code.
  - intros k m s' q Hm Hmd. erewrite joined_slot_insert by done. case_bool_decide as Hs.
    + intros [= <-]. destruct Hs as [_ Href]. destruct Hdel as [?|Hdel]; [done|].
      by destruct (Hdel _ _ Hm Href).
    + by apply Hact with k.
Qed.

Section recode.
Context (c : AuditContext) (s : slot) (r r' : DimRow) (d : Dimension) (db db1 : DB).
Hypothesis Hdb : db_ok db.
Hypothesis Hr : dims db !! (s, r_id r) = Some r.
Hypothesis Hupd : update_dimension c s r r' db = Ok db1.
Hypothesis Hid : r_id r' = r_id r.
Hypothesis Hdel : r_deleted_at r' = None.
Hypothesis Hcode : r_code r' ≠ r_code r.
Hypothesis Hd : code_value (dim_code d) = r_code r'.
Hypothesis Hwf : code_wf (dim_code d) = true.
Hypothesis Hop : cx_master_code_operation c = Some MC_RECOMPOSE.

Abbreviation t := (cx_mutation_timestamp c).
Abbreviation new_row := (recomposed_row db s d t).

Lemma recode_store_ok : store_ok db1.
Proof. eapply update_dimension_ok; [apply Hdb|apply Hr|apply Hupd]. Qed.

Lemma recode_dims : dims db1 = <[(s, r_id r') := r']> (dims db).
Proof. by rewrite (update_dimension_result _ _ _ _ _ _ Hupd). Qed.

Lemma compose_replace m :
  at_slot (m_refs m) s = Some (r_id r) →
  compose (replace_slot (joined_dims db m) s d) = compose_row db1 m.
Proof.
  intros Href. unfold compose, compose_row, ordered. f_equal. rewrite <- list_fmap_compose.
  apply list_fmap_ext. intros i s' _. cbn. rewrite get_replace_slot.
  rewrite (joined_slot_insert _ _ _ _ _ _ recode_dims).
  destruct (decide (s' = s)) as [->|Hs].
  - rewrite !bool_decide_eq_true_2; [done| |done]. by rewrite Hid.
  - rewrite !bool_decide_eq_false_2; [by apply slot_code_joined, Hdb| |done]. by intros [? _].
Qed.

(** The new code is not a code in use: its slot code was free. *)
Lemma recode_fresh m k n :
  at_slot (m_refs m) s = Some (r_id r) → mcs db !! k = Some n → m_code n ≠ m_code (new_row m).
Proof.
  intros Href Hn E. cbn in E. rewrite (cs_code _ (proj2 Hdb) _ _ Hn), <- compose_joined in E by apply Hdb.
  apply compose_codes with (s := s) in E; [|apply joined_dims_codes_wf, Hdb|by apply replace_codes_wf].
  rewrite get_replace_slot, (bool_decide_eq_true_2 (s = s)), slot_code_joined in E by (done || apply Hdb).
  cbn in E. destruct (joined_slot db n s) as [q|] eqn:Eq; cbn in E.
  - apply joined_slot_Some in Eq as (j & _ & Hq).
    assert (j ≠ r_id r) as Hj by (intros ->; congruence).
    apply Hj. rewrite <- Hid. apply (so_code _ recode_store_ok s _ _ q r'); [| |congruence].
    + rewrite recode_dims, lookup_insert_ne; [done|]. rewrite Hid. congruence.
    + by rewrite recode_dims, lookup_insert_eq.
  - apply andb_true_iff in Hwf as [_ Hn'%negb_true_iff]. rewrite <- E in Hn'. done.
Qed.

Lemma recode_trigger m k :
  mcs db !! k = Some m → at_slot (m_refs m) s = Some (r_id r) → m_updated_at m ≤ t →
  mc_before_update c m (new_row m) = Ok tt ∧ ck_master_code (new_row m) = Ok tt.
Proof.
  intros Hm Href Ht. split.
  - unfold mc_before_update. cbn. rewrite Hop, (bool_decide_eq_true_2 (m_refs m = _)),
      (bool_decide_eq_true_2 (m_deleted_at m = _)), (bool_decide_eq_false_2 (compose _ = _)) ; [|..|done|done].
    2:{ intros E. by destruct (recode_fresh m _ _ Href Hm). }
    cbn. rewrite !Z.eqb_refl. cbn. by apply technical_fields_Ok.
  - destruct (so_mc _ (proj1 Hdb) _ _ Hm) as [_ [_ Hv Ho _ Hdl]]. apply ck_master_code_Ok. cbn.
    split_and!; [|lia|lia|].
    + by apply mc_code_pattern_compose, replace_codes_wf.
    + intros t' Ht'. specialize (Hdl _ Ht'). lia.
Qed.

Lemma recode_result :
  (∀ m, m ∈ referencing_rows s (r_id r) db → m_updated_at m ≤ t) →
  update_master_codes c ((λ m, (m, new_row m)) <$> referencing_rows s (r_id r) db) db1 =
  Ok (mkDB (dims db1)
        ((λ n, if bool_decide (at_slot (m_refs n) s = Some (r_id r)) then new_row n else n) <$> mcs db)
        (dim_logs db1)
        (mc_logs db ++ ((λ m, mc_update_log c m (new_row m)) <$> referencing_rows s (r_id r) db))).
Proof.
  intros Ht. pose proof (proj1 Hdb) as Hok.
  assert (mcs db1 = mcs db ∧ mc_logs db1 = mc_logs db) as [Em El]
    by (by rewrite (update_dimension_result _ _ _ _ _ _ Hupd)).
  rewrite update_master_codes_ok; [|apply recode_store_ok|by apply referencing_rows_NoDup|..].
  - rewrite El. do 2 f_equal. rewrite Em. apply map_fmap_ext. intros k n Hn. unfold rewritten.
    rewrite (bool_decide_ext _ (at_slot (m_refs n) s = Some (r_id r))); [done|].
    rewrite list_elem_of_fmap. destruct (so_mc _ Hok _ _ Hn) as [Hk _]. split.
    + intros (m & E & [Hm Href]%elem_of_referencing_rows); [|done]. rewrite <- E, Hk in Hm. congruence.
    + intros Href. exists n. split; [done|]. apply elem_of_referencing_rows; [done|]. by rewrite Hk.
  - intros m Hin. pose proof (Ht _ Hin) as Htm. apply elem_of_referencing_rows in Hin as [Hm Href]; [|done].
    rewrite Em. split_and!; [done..| |]; by eapply recode_trigger.
  - intros m k n [_ Href]%elem_of_referencing_rows; [|done]. rewrite Em. by apply recode_fresh.
  - intros m n [Hm Href]%elem_of_referencing_rows [Hn Hrefn]%elem_of_referencing_rows E; try done.
    cbn in E. rewrite !compose_replace in E by done.
    eapply (so_refs _ Hok); [done..|]. apply (refs_from_codes db1).
    + apply recode_store_ok.
    + intros s' ref. rewrite <- Em in Hm. by apply (stored_refs_exist _ _ _ recode_store_ok Hm).
    + intros s' ref. rewrite <- Em in Hn. by apply (stored_refs_exist _ _ _ recode_store_ok Hn).
    + by apply compose_row_inj; [apply recode_store_ok..|].
Qed.
End recode.

(** ** The specification of the transactions, on rows

    The reference definitions say what a transaction does to the database
    without running the domain's constructors, the triggers or the
    recomposition of aggregates. *)

Definition code_taken (s : slot) (id : UUID) (code : pystr) (db : DB) : bool :=
  existsb (λ r, negb (bool_decide (r_id r = id)) && bool_decide (r_code r = code)) (rows_of s db).
Definition key_taken (s : slot) (id : UUID) (key : unique_key) (db : DB) : bool :=
  existsb (λ r, negb (bool_decide (r_id r = id)) && bool_decide (row_key (r_value r) = key))
    (rows_of s db).

(** The state after the update of a row: its MasterCodes follow a new code. *)
Definition updated_db (c : AuditContext) (s : slot) (old new : DimRow) (recode : bool) (db : DB)
    : DB :=
  let dims' := <[(s, r_id new) := new]> (dims db) in
  let db1 := mkDB dims' (mcs db) (dim_logs db) (mc_logs db) in
  let recoded m := mkMcRow (m_id m) (m_refs m) (compose_row db1 m) (m_version m + 1)
                     (m_created_at m) (r_updated_at new) (m_deleted_at m) in
  let refers m := bool_decide (at_slot (m_refs m) s = Some (r_id old)) in
  mkDB dims'
    (if recode then (λ m, if refers m then recoded m else m) <$> mcs db else mcs db)
    (dim_logs db ++ dim_update_logs c s old new)
    (mc_logs db ++ if recode then (λ m, mc_update_log c m (recoded m)) <$> referencing_rows s (r_id old) db
                   else []).

Definition code_changes (r : DimRow) (code : option DimensionCode) : bool :=
  match code with Some c => negb (bool_decide (code_value c = r_code r)) | None => false end.
Definition value_changes (r : DimRow) (value : option dim_value) : bool :=
  match value with
  | Some v => negb (bool_decide (row_key (value_to_row v) = row_key (r_value r)))
  | None => false
  end.

(** The mutation time: not before any row the transaction changes. *)
Definition update_time (env : Env) (s : slot) (r : DimRow) (recode : bool) (db : DB) : Z :=
  Z.max (env_clock env)
    (fold_left Z.max (if recode then m_updated_at <$> referencing_rows s (r_id r) db else [])
       (r_updated_at r)).

Definition update_spec (cf : dim_config) (env : Env) (seen db : DB) (dimension_id : UUID)
    (expected_version : Z) (value : option dim_value) (audit : MutationAuditMetadata)
    (code : option DimensionCode) : res (DimRow * DB) :=
  let s := cf_slot cf in
  match active_row s dimension_id db with
  | None => Raise (cf_not_found cf)
  | Some r =>
      let recode := code_changes r code in
      let revalue := value_changes r value in
      let new_code := match code with Some c => if recode then code_value c else r_code r
                                 | None => r_code r end in
      let new_value := match value with Some v => if revalue then value_to_row v else r_value r
                                   | None => r_value r end in
      let t := update_time env s r recode db in
      let new := mkDimRow (r_id r) new_code new_value (r_version r + 1) (r_created_at r) t None in
      _ ← raise_if (negb (r_version r =? expected_version)) PreconditionFailed;
      if negb recode && negb revalue then Ok (r, db)
      else
        _ ← raise_conflict cf (recode && code_taken s dimension_id new_code seen)
              (revalue && key_taken s dimension_id (row_key new_value) seen);
        _ ← raise_if (recode && code_taken s dimension_id new_code db) (cf_code_conflict cf);
        _ ← raise_if (revalue && key_taken s dimension_id (row_key new_value) db)
              (cf_value_conflict cf);
        Ok (new, updated_db (mkAuditContext audit t) s r new recode db)
  end.

(** Searches over filtered rows. *)
Lemma existsb_filter {A} (f g : A → bool) l :
  existsb f (List.filter g l) = existsb (λ x, g x && f x) l.
Proof. induction l as [|x l IH]; cbn; [done|]. destruct (g x); cbn; by rewrite IH. Qed.

Lemma existsb_ext' {A} (f g : A → bool) l :
  (∀ x, x ∈ l → f x = g x) → existsb f l = existsb g l.
Proof.
  induction l as [|x l IH]; intros Hfg; cbn; [done|]. rewrite (Hfg x), IH; [done| |by left].
  intros y Hy. apply Hfg. by right.
Qed.

Lemma uq_dimension_taken s r db :
  uq_dimension s r db =
  (_ ← raise_if (code_taken s (r_id r) (r_code r) db) (IntegrityError (code_constraint s));
   raise_if (key_taken s (r_id r) (row_key (r_value r)) db) (IntegrityError (value_constraint s))).
Proof. unfold uq_dimension, code_taken, key_taken. by rewrite !existsb_filter. Qed.

Lemma code_taken_own s id r db :
  store_ok db → dims db !! (s, id) = Some r → code_taken s id (r_code r) db = false.
Proof.
  intros Hok Hr. apply existsb_elem_of_false. intros q [j Hq]%elem_of_rows_of.
  destruct (bool_decide (r_code q = r_code r)) eqn:E; [|by rewrite andb_false_r].
  apply bool_decide_eq_true in E. rewrite andb_true_r.
  apply negb_false_iff, bool_decide_eq_true.
  destruct (so_dim _ Hok _ _ _ Hq) as [-> _]. by eapply so_code.
Qed.

Lemma key_taken_own s id r db :
  store_ok db → dims db !! (s, id) = Some r → key_taken s id (row_key (r_value r)) db = false.
Proof.
  intros Hok Hr. apply existsb_elem_of_false. intros q [j Hq]%elem_of_rows_of.
  destruct (bool_decide (row_key (r_value q) = row_key (r_value r))) eqn:E; [|by rewrite andb_false_r].
  apply bool_decide_eq_true in E. rewrite andb_true_r.
  apply negb_false_iff, bool_decide_eq_true.
  destruct (so_dim _ Hok _ _ _ Hq) as [-> _]. by eapply so_key.
Qed.

(** Each repository compares values as the unique constraint of its table does. *)
Lemma row_key_unit a u : row_key (RMemory a (unit_str u)) = KInt (capacity_mb (mkMemoryValue a u)).
Proof. destruct u; done. Qed.

Lemma values_equal_key v w :
  slot_of_value v = slot_of_value w →
  dimension_values_equal v w = bool_decide (row_key (value_to_row w) = row_key (value_to_row v)).
Proof.
  destruct v as [x|x|x|x|x|z|g|a], w as [y|y|y|y|y|z'|g'|b]; try discriminate; intros _;
    unfold dimension_values_equal; try (apply bool_decide_ext; cbn; naive_solver).
  - destruct g, g'; done.
  - destruct a as [m u], b as [n u']. cbn [value_to_row amount unit_of]. rewrite !row_key_unit.
    apply eq_true_iff_eq. rewrite Z.eqb_eq, bool_decide_eq_true.
    split; [by intros ->|by intros [=]].
Qed.

Lemma value_differs_key s v w :
  slot_of_value v = s → slot_of_value w = s →
  cf_value_differs (repository_of s) v w =
  negb (bool_decide (row_key (value_to_row v) = row_key (value_to_row w))).
Proof.
  intros Hv Hw. rewrite <- values_equal_key by congruence. subst s.
  destruct v as [x|x|x|x|x|z|g|a], w as [y|y|y|y|y|z'|g'|b]; try discriminate Hw;
    clear Hw; unfold dimension_values_equal;
    cbn [repository_of slot_of_value cf_value_differs company_repository model_repository
      brand_repository country_repository category_repository year_repository network_repository
      memory_repository string_repository numeric_repository capacity_differs];
    unfold value_differs; f_equal; try (apply bool_decide_ext; split; by intros ->).
  apply Z.eqb_sym.
Qed.

Lemma fold_max_ge l (a : Z) : a ≤ fold_left Z.max l a ∧ ∀ x, x ∈ l → x ≤ fold_left Z.max l a.
Proof.
  revert a; induction l as [|y l IH]; intros a; cbn.
  - split; [done|]. intros x Hx. by apply not_elem_of_nil in Hx.
  - destruct (IH (Z.max a y)) as [H1 H2]. split; [lia|]. intros x [->|Hx]%elem_of_cons; [lia|by apply H2].
Qed.

Lemma update_time_ge env s r recode db :
  r_updated_at r ≤ update_time env s r recode db ∧
  (recode = true → ∀ m, m ∈ referencing_rows s (r_id r) db → m_updated_at m ≤ update_time env s r recode db).
Proof.
  unfold update_time.
  pose proof (fold_max_ge (if recode then m_updated_at <$> referencing_rows s (r_id r) db else [])
    (r_updated_at r)) as [H1 H2]. split; [lia|]. intros -> m Hm.
  specialize (H2 _ (list_elem_of_fmap_2 m_updated_at _ _ Hm)). lia.
Qed.

Lemma constraint_names s : value_constraint s ≠ code_constraint s.
Proof. by destruct s. Qed.

Lemma active_row_Some s id db r :
  active_row s id db = Some r ↔ dims db !! (s, id) = Some r ∧ r_deleted_at r = None.
Proof.
  unfold active_row. rewrite bind_Some. split.
  - intros (q & Hq & Hd). case_bool_decide; naive_solver.
  - intros [Hr Hd]. exists r. split; [done|]. by rewrite bool_decide_eq_true_2.
Qed.

(** The row update of an active Dimension: accepted unless the code or the value
    key is taken. *)
Lemma update_dimension_checks c s r code' value' t db :
  store_ok db → dims db !! (s, r_id r) = Some r → r_deleted_at r = None →
  cx_dimension_operation c = Some DIM_UPDATE → t = cx_mutation_timestamp c →
  r_updated_at r ≤ t → code_wf (mkDimensionCode code') = true →
  (∃ v, value_dom s value' = Some v ∧ value_wf v = true) →
  (row_key value' = row_key (r_value r) → value' = r_value r) →
  (code' ≠ r_code r → cx_master_code_operation c = Some MC_RECOMPOSE) →
  code' ≠ r_code r ∨ row_key value' ≠ row_key (r_value r) →
  let new := mkDimRow (r_id r) code' value' (r_version r + 1) (r_created_at r) t None in
  update_dimension c s r new db =
  (_ ← raise_if (code_taken s (r_id r) code' db) (IntegrityError (code_constraint s));
   _ ← raise_if (key_taken s (r_id r) (row_key value') db) (IntegrityError (value_constraint s));
   Ok (mkDB (<[(s, r_id r) := new]> (dims db)) (mcs db)
         (dim_logs db ++ dim_update_logs c s r new) (mc_logs db))).
Proof.
  intros Hok Hr Hdel Hop Ht Hle Hcode Hval Hraw Hmc Hch new.
  destruct (so_dim _ Hok _ _ _ Hr) as [_ [_ _ Hv Ho _ _]].
  assert (dim_before_update c s r new db = Ok tt) as Htrig.
  { unfold dim_before_update. rewrite Hop. rewrite Hdel. cbn. unfold dim_update_guard.
    cbn. rewrite !Z.eqb_refl, Hdel. cbn.
    assert (negb (key_changed r new) && raw_value_changed s r new = false) as ->.
    { unfold key_changed, raw_value_changed. cbn.
      destruct (bool_decide (row_key value' = row_key (r_value r))) eqn:E; [|done].
      apply bool_decide_eq_true in E. by rewrite Hraw, bool_decide_eq_true_2. }
    cbn. destruct (decide (code' = r_code r)) as [Ec|Ec].
    - rewrite (bool_decide_eq_true_2 _ Ec). cbn. unfold key_changed. cbn.
      rewrite bool_decide_eq_false_2 by tauto. cbn. by apply technical_fields_Ok.
    - rewrite (bool_decide_eq_false_2 _ Ec), (Hmc Ec). cbn. by apply technical_fields_Ok. }
  assert (ck_dimension s new = Ok tt) as Hck.
  { apply ck_dimension_Ok. cbn. split_and!; [done|done|lia|lia|done]. }
  unfold update_dimension. rewrite Htrig, Hck, uq_dimension_taken. cbn [mbind result_bind].
  cbn. destruct (code_taken _ _ _ _); [done|]. cbn. by destruct (key_taken _ _ _ _).
Qed.

(** ** What an update preserves *)

Lemma update_master_codes_store c changes db db' :
  store_ok db → NoDup ((λ p, m_id p.1) <$> changes) →
  (∀ p, p ∈ changes → mcs db !! m_id p.1 = Some p.1) →
  update_master_codes c changes db = Ok db' → store_ok db'.
Proof.
  unfold update_master_codes. revert db.
  induction changes as [|[old new] l IH]; intros db Hok Hnd Hall Hupd; cbn in *; [by inv_ok|].
  apply bind_Ok in Hupd as (db1 & Hold & Hupd). apply NoDup_cons in Hnd as [Hnotin Hnd].
  pose proof (Hall (old, new) ltac:(by left)) as Hstored. cbn in Hstored.
  apply (IH db1); [by eapply update_master_code_ok|done| |done].
  intros p Hp. unfold update_master_code in Hold.
  apply bind_Ok in Hold as ([] & (Hid & _)%mc_before_update_shape & Hold).
  do 3 (apply bind_Ok in Hold as (_ & _ & Hold)). injection Hold as <-. cbn.
  rewrite lookup_insert_ne; [apply Hall; by right|]. rewrite Hid. intros E. apply Hnotin.
  rewrite E. by apply (list_elem_of_fmap_2 (λ p : McRow * McRow, m_id p.1)).
Qed.

Lemma updated_db_consistent c s old new recode db :
  consistent db → dims db !! (s, r_id old) = Some old → r_id new = r_id old →
  r_deleted_at new = None → (recode = false → r_code new = r_code old) →
  consistent (updated_db c s old new recode db).
Proof.
  intros [Hcode Hact] Hold Hid Hdel Hsame.
  assert (∀ k m', mcs (updated_db c s old new recode db) !! k = Some m' →
    ∃ m, mcs db !! k = Some m ∧ m_refs m' = m_refs m ∧ m_deleted_at m' = m_deleted_at m ∧
      m_code m' = compose_row (updated_db c s old new recode db) m) as Hrows.
  { intros k m'. unfold updated_db. cbn. destruct recode.
    - rewrite lookup_fmap. intros (m & Hm & ->)%fmap_Some. exists m. split; [done|].
      case_bool_decide as Href; [done|]. split_and!; [done..|]. rewrite (Hcode _ _ Hm).
      symmetry. eapply compose_row_unreferenced; [done|]. by rewrite Hid.
    - intros Hm. exists m'. split_and!; [done..|]. rewrite (Hcode _ _ Hm). symmetry.
      rewrite <- Hid in Hold. eapply compose_row_same_code; [done|done|]. by apply Hsame. }
  split.
  - intros k m' (m & _ & Hrefs & _ & ->)%Hrows. symmetry. by apply compose_row_refs.
  - intros k m' s' q (m & Hm & Hrefs & -> & _)%Hrows Hmd.
    rewrite (joined_slot_refs _ m) by done.
    rewrite (joined_slot_insert db m s s' new) by done. case_bool_decide; [by intros [= <-]|].
    by eapply Hact.
Qed.

(** Inputs a client of a repository can build. *)
Definition value_for (s : slot) (v : dim_value) : Prop := value_wf v = true ∧ slot_of_value v = s.

Section update.
Context `{UnicodeData} (env : Env) (seen db : DB) (s : slot) (id : UUID).
Context (audit : MutationAuditMetadata) (code : option DimensionCode) (value : option dim_value).
Hypothesis Hdb : db_ok db.
Hypothesis Hop : op_dimension (md_operations audit) = Some DIM_UPDATE.
Hypothesis Hmc : code ≠ None → op_master_code (md_operations audit) = Some MC_RECOMPOSE.
Hypothesis Hcode : ∀ c, code = Some c → code_wf c = true.
Hypothesis Hvalue : ∀ v, value = Some v → value_for s v.

Section row.
Context (r : DimRow) (cur : Dimension).
Hypothesis Hr : dims db !! (s, id) = Some r.
Hypothesis Hdel : r_deleted_at r = None.
Hypothesis Hcur : row_dimension s r = Some cur.

Abbreviation recode := (code_changes r code).
Abbreviation revalue := (value_changes r value).
Abbreviation t := (update_time env s r recode db).
Definition next_code : pystr :=
  match code with Some c => if recode then code_value c else r_code r | None => r_code r end.
Definition next_value : row_value :=
  match value with Some v => if revalue then value_to_row v else r_value r | None => r_value r end.
Definition next_row : DimRow :=
  mkDimRow (r_id r) next_code next_value (r_version r + 1) (r_created_at r) t None.

Lemma code_changes_current :
  match code with None => false | Some c => negb (bool_decide (c = dim_code cur)) end = recode.
Proof.
  apply row_dimension_fields in Hcur as (_ & Hc & _). unfold code_changes. destruct code as [c|]; [|done].
  f_equal. apply bool_decide_ext. rewrite <- Hc. destruct c as [x], (dim_code cur) as [y]. cbn.
  split; [by intros [= ->]|by intros ->].
Qed.

Lemma value_changes_current :
  match value with
  | None => false
  | Some v => cf_value_differs (repository_of s) v (dim_value_of cur)
  end = revalue.
Proof.
  apply row_dimension_fields in Hcur as (_ & _ & _ & _ & _ & _ & Hv & _ & Hdom).
  unfold value_changes. destruct value as [v|] eqn:E; [|done].
  rewrite value_differs_key with (s := s); [by rewrite Hv|by apply Hvalue|by apply value_dom_slot in Hdom].
Qed.

Lemma next_changes :
  (next_code ≠ r_code r ↔ recode = true) ∧
  (row_key next_value ≠ row_key (r_value r) ↔ revalue = true) ∧
  (row_key next_value = row_key (r_value r) → next_value = r_value r).
Proof.
  unfold next_code, next_value, code_changes, value_changes. split; [|split].
  - destruct code; [|naive_solver]. case_bool_decide; naive_solver.
  - destruct value; [|naive_solver]. case_bool_decide; naive_solver.
  - destruct value; [|naive_solver]. case_bool_decide; naive_solver.
Qed.

Lemma next_code_wf : code_wf (mkDimensionCode next_code) = true.
Proof.
  destruct (so_dim _ (proj1 Hdb) _ _ _ Hr) as [_ [Hc _ _ _ _ _]]. unfold next_code.
  destruct code as [c|] eqn:E; [|done]. destruct (code_changes _ _); [|done].
  pose proof (Hcode c eq_refl). by destruct c.
Qed.

Lemma next_value_wf : ∃ v, value_dom s next_value = Some v ∧ value_wf v = true.
Proof.
  destruct (so_dim _ (proj1 Hdb) _ _ _ Hr) as [_ [_ Hv _ _ _ _]]. unfold next_value.
  destruct value as [v|] eqn:E; [|done]. destruct (value_changes _ _); [|done].
  destruct (Hvalue v eq_refl) as [Hwf <-]. exists v. split; [apply value_to_row_dom|done].
Qed.

(** What the domain computes: a Dimension whose code and version are those of
    the next row, and whose value is, when it changes. *)
Lemma change_current :
  negb recode && negb revalue = false →
  ∃ d, Dimension_change cur code value (utc t) = Ok d ∧
    dim_id d = id ∧ code_value (dim_code d) = next_code ∧ dim_version d = r_version r + 1 ∧
    instant (dim_updated_at d) = t ∧ (revalue = true → value_to_row (dim_value_of d) = next_value) ∧
    code_wf (dim_code d) = true ∧ slot_of_value (dim_value_of d) = s ∧ is_deleted d = false.
Proof.
  intros Hch. destruct (so_dim _ (proj1 Hdb) _ _ _ Hr) as [Hid Hrow].
  destruct (row_to_domain_wf s r Hrow) as (cur' & Hcur' & _ & Hvalid & Hwf & _ & Hs).
  assert (cur' = cur) as -> by congruence. clear Hcur'.
  pose proof code_changes_current as Ec. pose proof value_changes_current as Ev.
  pose proof next_code_wf as Hnwf.
  apply row_dimension_fields in Hcur as (Hi & Hc & Hver & Hu & _ & Hisdel & Hv & _ & _).
  rewrite Dimension_change_Ok; [|done|done|].
  2:{ rewrite Hu. apply update_time_ge. }
  assert (bool_decide (default (dim_code cur) code = dim_code cur) = negb recode) as Eb.
  { rewrite <- Ec. destruct code; cbn; [by rewrite negb_involutive|by apply bool_decide_eq_true_2]. }
  assert (match value with None => true | Some v => dimension_values_equal (dim_value_of cur) v end
    = negb revalue) as Ebv.
  { unfold value_changes. destruct value as [v|] eqn:E; [|done].
    rewrite values_equal_key, negb_involutive, Hv; [done|].
    destruct (Hvalue v) as [_ ?]; [done|]. congruence. }
  rewrite Eb, Ebv, Hch. eexists. split; [done|]. cbn.
  assert (code_value (default (dim_code cur) code) = next_code) as Hnc.
  { clear -Hc. unfold next_code, code_changes. destruct code as [c|]; [|done]. cbn.
    case_bool_decide; cbn; congruence. }
  split_and!; [congruence|done|congruence|done| | | |].
  - intros Hrv. rewrite Hrv. cbn. unfold next_value. destruct value as [v|]; [|done]. by rewrite Hrv.
  - unfold code_wf. rewrite Hnc. by apply Hnwf.
  - destruct (negb revalue) eqn:En; [done|]. destruct value as [v|] eqn:E; [|done]. by apply Hvalue.
  - cbn in Hisdel. unfold is_deleted in *. cbn. rewrite Hisdel. unfold row_deleted. by rewrite Hdel.
Qed.

(** The conflict search sees exactly the taken codes and keys. *)
Definition same_code (row : DimRow) : bool :=
  match code with
  | Some c => recode && bool_decide (r_code row = code_value c)
  | None => false
  end.
Definition same_value (row : DimRow) : bool :=
  match value with
  | Some v => revalue && bool_decide (row_key (r_value row) = row_key (value_to_row v))
  | None => false
  end.
Abbreviation found := (List.filter (λ row, negb (bool_decide (r_id row = id)) &&
  (same_code row || same_value row)) (rows_of s seen)).

Lemma found_codes : existsb same_code found = recode && code_taken s id next_code seen.
Proof.
  rewrite existsb_filter. unfold code_taken, next_code, same_code.
  destruct code as [c|]; [|by apply existsb_elem_of_false; intros; rewrite andb_false_r].
  destruct (code_changes r (Some c)); [|by apply existsb_elem_of_false; intros; rewrite andb_false_r].
  cbn. apply existsb_ext'. intros row _.
  destruct (bool_decide (r_id row = id)); [done|].
  by destruct (bool_decide (r_code row = code_value c)); [|rewrite andb_false_r].
Qed.

Lemma found_keys : existsb same_value found = revalue && key_taken s id (row_key next_value) seen.
Proof.
  rewrite existsb_filter. unfold key_taken, next_value, same_value.
  destruct value as [v|]; [|by apply existsb_elem_of_false; intros; rewrite andb_false_r].
  destruct (value_changes r (Some v)); [|by apply existsb_elem_of_false; intros; rewrite andb_false_r].
  cbn. apply existsb_ext'. intros row _.
  destruct (bool_decide (r_id row = id)); [done|].
  destruct (bool_decide (row_key (r_value row) = row_key (value_to_row v))); [|by rewrite andb_false_r].
  by rewrite orb_true_r.
Qed.

(** An unchanged code or key is not taken. *)
Lemma next_code_taken : code_taken s id next_code db = recode && code_taken s id next_code db.
Proof.
  destruct next_changes as ((_ & Hc) & _). destruct (code_changes r code) eqn:E; [done|]. cbn.
  unfold next_code. rewrite E.
  assert (match code with Some _ | _ => r_code r end = r_code r) as -> by by destruct code.
  apply code_taken_own; [apply Hdb|done].
Qed.
Lemma next_key_taken :
  key_taken s id (row_key next_value) db = revalue && key_taken s id (row_key next_value) db.
Proof.
  destruct next_changes as (_ & (_ & Hc) & _). destruct (value_changes r value) eqn:E; [done|]. cbn.
  unfold next_value. rewrite E.
  assert (match value with Some _ | _ => r_value r end = r_value r) as -> by by destruct value.
  apply key_taken_own; [apply Hdb|done].
Qed.

(** The write: what the triggers and constraints make of it. *)
Abbreviation cx := (mkAuditContext audit t).

Lemma update_row_result :
  negb recode && negb revalue = false →
  update_dimension cx s r next_row db =
  (_ ← raise_if (recode && code_taken s id next_code db) (IntegrityError (code_constraint s));
   _ ← raise_if (revalue && key_taken s id (row_key next_value) db)
         (IntegrityError (value_constraint s));
   Ok (mkDB (<[(s, r_id r) := next_row]> (dims db)) (mcs db)
         (dim_logs db ++ dim_update_logs cx s r next_row) (mc_logs db))).
Proof.
  intros Hch. pose proof Hdb as [Hok _]. destruct (so_dim _ Hok _ _ _ Hr) as [Hid _].
  destruct next_changes as (Hc & Hk & Hraw).
  assert (dims db !! (s, r_id r) = Some r) as Hr' by by rewrite Hid.
  unfold next_row. rewrite update_dimension_checks; [|done|done|done|done|done|..|done| |].
  - by rewrite Hid, <- next_code_taken, <- next_key_taken.
  - apply update_time_ge.
  - apply next_code_wf.
  - apply next_value_wf.
  - intros Hne. apply Hmc. intros E. apply Hne. unfold next_code. by rewrite E.
  - destruct (code_changes r code); [left; by apply Hc|]. destruct (value_changes r value); [|done].
    right. by apply Hk.
Qed.

Lemma bind_raise_if {A} b (e : exn) (m n : res A) :
  (b = false → m = n) → (_ ← raise_if b e; m) = (_ ← raise_if b e; n).
Proof. destruct b; cbn; auto. Qed.

(** The whole write, recomposition included. *)
Lemma update_write d :
  negb recode && negb revalue = false →
  Dimension_change cur code value (utc t) = Ok d →
  (db1 ← update_dimension cx s r next_row db;
   update_master_codes cx
     (if recode then (λ m, (m, recomposed_row db s d t m)) <$> referencing_rows s id db else []) db1) =
  (_ ← raise_if (recode && code_taken s id next_code db) (IntegrityError (code_constraint s));
   _ ← raise_if (revalue && key_taken s id (row_key next_value) db)
         (IntegrityError (value_constraint s));
   Ok (updated_db cx s r next_row recode db)).
Proof.
  intros Hch Hd. pose proof (update_row_result Hch) as Hupd.
  destruct (change_current Hch) as (d' & Hd' & _ & Hdc & _ & _ & _ & Hdwf & _).
  assert (d' = d) as -> by congruence. clear Hd'.
  destruct (recode && code_taken s id next_code db); [by rewrite Hupd|].
  destruct (revalue && key_taken s id (row_key next_value) db); [by rewrite Hupd|].
  cbn [raise_if mbind result_bind] in Hupd |- *. pose proof Hupd as Hupd'. rewrite Hupd.
  destruct (so_dim _ (proj1 Hdb) _ _ _ Hr) as [Hid _].
  unfold updated_db. destruct (code_changes r code) eqn:Er; cbn [mbind result_bind].
  2:{ cbn. by rewrite app_nil_r. }
  assert (next_row.(r_code) ≠ r_code r) as Hne by by apply next_changes.
  rewrite <- Hid. rewrite <- Hid in Hr.
  set (u := update_time env s r true db) in *.
  assert (r_updated_at next_row = u) as Hu by (cbn; by rewrite Er).
  assert (cx_master_code_operation (mkAuditContext audit u) = Some MC_RECOMPOSE) as Hrec.
  { apply Hmc. intros E. by rewrite E in Er. }
  assert (∀ m, at_slot (m_refs m) s = Some (r_id r) →
    recomposed_row db s d u m = mkMcRow (m_id m) (m_refs m)
      (compose_row (mkDB (<[(s, r_id next_row) := next_row]> (dims db)) (mcs db) (dim_logs db)
         (mc_logs db)) m) (m_version m + 1) (m_created_at m) (r_updated_at next_row) (m_deleted_at m))
    as Hrow.
  { intros m Href. rewrite Hu. unfold recomposed_row. f_equal.
    rewrite (compose_replace _ _ _ _ d _ _ Hdb Hupd' eq_refl Hdc m Href). by apply compose_row_ext. }
  pose proof (recode_result _ _ _ _ d _ _ Hdb Hr Hupd' eq_refl Hne Hdc Hdwf Hrec) as Hres.
  cbn [cx_mutation_timestamp] in Hres. rewrite Hres.
  - cbn [dims mcs dim_logs mc_logs]. do 2 f_equal.
    + apply map_fmap_ext. intros k n _. case_bool_decide as Href; [|done]. by rewrite Hrow.
    + f_equal. apply list_fmap_ext. intros i m Hm%list_elem_of_lookup_2.
      apply elem_of_referencing_rows in Hm as [_ Href]; [|apply Hdb]. by rewrite Hrow.
  - by apply (update_time_ge env s r true db).
Qed.

Lemma next_row_wf : dim_row_wf s next_row.
Proof.
  destruct (so_dim _ (proj1 Hdb) _ _ _ Hr) as [_ [_ _ Hv Ho _ _]].
  pose proof (proj1 (update_time_ge env s r recode db)).
  split; cbn; [apply next_code_wf|apply next_value_wf|lia|lia|intros; lia|done].
Qed.
End row.

Lemma cf_slot_repository s' : cf_slot (repository_of s') = s'.
Proof. by destruct s'. Qed.

Lemma translate_update_constraint {A} s' :
  translate_update (A := A) (repository_of s') (IntegrityError (code_constraint s')) =
    Raise (cf_code_conflict (repository_of s')) ∧
  translate_update (A := A) (repository_of s') (IntegrityError (value_constraint s')) =
    Raise (cf_value_conflict (repository_of s')).
Proof. by destruct s'. Qed.

Lemma update_value_rows (expected_version : Z) :
  update_value (repository_of s) env seen db id expected_version value audit code =
  ('(row, db') ← update_spec (repository_of s) env seen db id expected_version value audit code;
   d ← row_to_domain s row; Ok (d, db')).
Proof.
  unfold update_value, update_spec. rewrite !cf_slot_repository.
  destruct (active_row s id db) as [r|] eqn:Er; [|done].
  apply active_row_Some in Er as [Hr Hdel]. cbn [mbind result_bind].
  destruct (so_dim _ (proj1 Hdb) _ _ _ Hr) as [Hid Hrow].
  destruct (row_to_domain_wf s r Hrow) as (cur & Hcur & Hdom & _).
  rewrite Hdom. cbn [mbind result_bind].
  pose proof (row_dimension_fields _ _ _ Hcur) as (_ & _ & -> & Hupd & _).
  rewrite (code_changes_current r cur Hcur), (value_changes_current r cur Hcur).
  destruct (r_version r =? expected_version); [|done]. cbn [negb raise_if mbind result_bind].
  destruct (negb (code_changes r code) && negb (value_changes r value)) eqn:Hch.
  { cbn. by rewrite Hdom. }
  change (match code with Some c => _ | None => r_code r end) with (next_code r).
  change (match value with Some v => _ | None => r_value r end) with (next_value r).
  pose proof (found_codes r) as Hfc. pose proof (found_keys r) as Hfk.
  unfold same_code, same_value in Hfc, Hfk. rewrite Hfc, Hfk. clear Hfc Hfk.
  destruct (raise_conflict _ _ _) as [[]|e]; [|done]. cbn [mbind result_bind].
  assert ((if code_changes r code then lock_referencing_master_codes s id db else Ok []) =
    Ok (locked_of db <$> (if code_changes r code then referencing_rows s id db else []))) as ->.
  { destruct (code_changes r code); [by apply lock_referencing_ok|done]. }
  cbn [mbind result_bind]. rewrite <- list_fmap_compose. rewrite Hupd.
  set (t := update_time env s r (code_changes r code) db).
  assert (∀ l, l = (if code_changes r code then referencing_rows s id db else []) →
    set_context audit (Some (utc (fold_left Z.max
      (((λ item, instant (mc_updated_at (locked_current item))) ∘ locked_of db) <$> l)
      (instant (utc (r_updated_at r)))))) (env_clock env) = Ok (mkAuditContext audit t, utc t)) as Hctx.
  { intros l ->. subst t. unfold set_context, update_time. cbn. rewrite Hid.
    by destruct (code_changes r code). }
  rewrite Hctx by done. cbn [mbind result_bind fst snd].
  destruct (change_current r cur Hr Hdel Hcur Hch) as
    (d & Hd & Hdid & Hdc & Hdv & Hdu & Hdval & Hdwf & Hdslot & Hdact).
  fold t in Hd, Hdu. rewrite Hd. cbn [mbind result_bind].
  assert ((if code_changes r code
     then recompose_locked_master_codes
       (locked_of db <$> (if code_changes r code then referencing_rows s id db else [])) s d (utc t)
     else Ok []) =
    Ok (if code_changes r code then (λ m, (m, recomposed_row db s d t m)) <$> referencing_rows s id db
        else [])) as ->.
  { destruct (code_changes r code) eqn:Ec; [|done].
    apply (recompose_locked_ok db s id r); try done.
    - rewrite Hdc. unfold next_code. by apply (next_changes r).
    - intros m Hm. rewrite <- Hid in Hm. pose proof (proj2 (update_time_ge env s r true db) eq_refl m Hm).
      apply elem_of_referencing_rows in Hm as [? ?]; [|apply Hdb]. rewrite <- Hid. done. }
  cbn [mbind result_bind]. rewrite Hdv, Hdu, Hdel, Hdc.
  assert ((if code_changes r code then next_code r else r_code r) = next_code r) as ->.
  { unfold next_code. destruct code as [c|]; [|done]. by destruct (code_changes r (Some c)). }
  assert ((if value_changes r value then value_to_row (dim_value_of d) else r_value r) = next_value r) as ->.
  { destruct (value_changes r value) eqn:Ev; [by apply Hdval|]. unfold next_value. rewrite Ev.
    by destruct value. }
  change (mkDimRow (r_id r) (next_code r) (next_value r) (r_version r + 1) (r_created_at r) t None)
    with (next_row r).
  pose proof (update_write r cur Hr Hdel Hcur d Hch Hd) as Hw. fold t in Hw. rewrite Hw.
  destruct (code_changes r code && code_taken s id (next_code r) db).
  { cbn [raise_if mbind result_bind catch]. by rewrite (proj1 (translate_update_constraint s)). }
  destruct (value_changes r value && key_taken s id (row_key (next_value r)) db).
  { cbn [raise_if mbind result_bind catch]. by rewrite (proj2 (translate_update_constraint s)). }
  cbn [raise_if mbind result_bind catch]. done.
Qed.

Lemma update_spec_ok (expected_version : Z) row db' :
  update_spec (repository_of s) env seen db id expected_version value audit code = Ok (row, db') →
  db_ok db' ∧ dims db' = <[(s, id) := row]> (dims db) ∧ r_deleted_at row = None ∧
  ∃ r, dims db !! (s, id) = Some r ∧ r_version r = expected_version ∧ (row = r ∧ db' = db ∨
    r_version row = expected_version + 1).
Proof.
  unfold update_spec. rewrite cf_slot_repository. intros Hok.
  destruct (active_row s id db) as [r|] eqn:Er; [|done].
  apply active_row_Some in Er as [Hr Hdel].
  destruct (so_dim _ (proj1 Hdb) _ _ _ Hr) as [Hid Hrow].
  destruct (row_to_domain_wf s r Hrow) as (cur & Hcur & _).
  apply bind_Ok in Hok as (_ & Hver%raise_if_Ok%negb_false_iff%Z.eqb_eq & Hok).
  destruct (negb (code_changes r code) && negb (value_changes r value)) eqn:Hch.
  { injection Hok as <- <-. split_and!; [done| |done|eauto 6]. by rewrite insert_id. }
  change (match code with Some c => _ | None => r_code r end) with (next_code r) in Hok.
  change (match value with Some v => _ | None => r_value r end) with (next_value r) in Hok.
  apply bind_Ok in Hok as (_ & _ & Hok). apply bind_Ok in Hok as (? & Hc & Hok).
  apply bind_Ok in Hok as (? & Hv & [= <- <-]). apply raise_if_Ok in Hc, Hv.
  fold (next_row r).
  destruct (change_current r cur Hr Hdel Hcur Hch) as (d & Hd & _).
  pose proof (update_write r cur Hr Hdel Hcur d Hch Hd) as Hw. rewrite Hc, Hv in Hw.
  cbn [raise_if mbind result_bind] in Hw. apply bind_Ok in Hw as (db1 & Hupd & Hw).
  rewrite <- Hid in Hr.
  pose proof (update_dimension_ok _ _ _ _ _ _ (proj1 Hdb) Hr Hupd) as Hok1.
  apply update_dimension_result in Hupd.
  split_and!; [split| | |].
  - eapply update_master_codes_store; [exact Hok1| | |exact Hw].
    + destruct (code_changes r code); [|constructor]. rewrite <- list_fmap_compose.
      apply referencing_rows_NoDup, Hdb.
    + intros p Hp. destruct (code_changes r code); [|by apply not_elem_of_nil in Hp].
      apply list_elem_of_fmap in Hp as (m & -> & Hm). apply elem_of_referencing_rows in Hm; [|apply Hdb].
      rewrite Hupd. apply Hm.
  - apply updated_db_consistent; [apply Hdb|done|done|done|]. intros Hf.
    destruct (decide (next_code r = r_code r)) as [|Hne]; [done|].
    apply (next_changes r) in Hne. congruence.
  - by rewrite <- Hid.
  - done.
  - exists r. split_and!; [by rewrite <- Hid|done|]. right. cbn. lia.
Qed.
End update.

(** ** Creation *)

Definition code_used (s : slot) (code : pystr) (db : DB) : bool :=
  existsb (λ r, bool_decide (r_code r = code)) (rows_of s db).
Definition key_used (s : slot) (key : unique_key) (db : DB) : bool :=
  existsb (λ r, bool_decide (row_key (r_value r) = key)) (rows_of s db).

Definition create_spec (cf : dim_config) (env : Env) (seen db : DB) (code : DimensionCode)
    (value : dim_value) (audit : MutationAuditMetadata) : res (DimRow * DB) :=
  let s := cf_slot cf in
  let key := row_key (value_to_row value) in
  let row := mkDimRow (env_dim_id env s) (code_value code) (value_to_row value) 1
               (env_statement env) (env_statement env) None in
  _ ← raise_conflict cf (code_used s (code_value code) seen) (key_used s key seen);
  _ ← raise_if (code_used s (code_value code) db) (cf_code_conflict cf);
  _ ← raise_if (key_used s key db) (cf_value_conflict cf);
  Ok (row, mkDB (<[(s, r_id row) := row]> (dims db)) (mcs db)
             (dim_logs db ++ dim_insert_logs (mkAuditContext audit (env_clock env)) s row)
             (mc_logs db)).

(** An insertion of a row no MasterCode can reference yet. *)
Lemma insert_dimension_db_ok c s r db db' :
  db_ok db → insert_dimension c s r db = Ok db' → db_ok db'.
Proof.
  intros [Hok [Hcode Hact]] Hins. pose proof (insert_dimension_ok _ _ _ _ _ Hok Hins) as Hok'.
  unfold insert_dimension in Hins.
  do 2 (apply bind_Ok in Hins as (_ & _ & Hins)).
  apply bind_Ok in Hins as (_ & Hnew%raise_if_Ok%bool_decide_eq_false & Hins).
  apply bind_Ok in Hins as (_ & _ & [= <-]).
  assert (∀ k m, mcs db !! k = Some m → at_slot (m_refs m) s ≠ Some (r_id r)) as Hun.
  { intros k m Hm Href. destruct Hnew. by eapply (so_fk _ Hok). }
  split; [done|]. split; cbn.
  - intros k m Hm. rewrite (Hcode _ _ Hm). symmetry. eapply compose_row_unreferenced; [done|eauto].
  - intros k m s' q Hm Hmd. erewrite joined_slot_insert by done.
    case_bool_decide as Hs; [by intros [= <-]; destruct (Hun _ _ Hm (proj2 Hs))|by eapply Hact].
Qed.

Section create.
Context `{UnicodeData} (env : Env) (seen db : DB) (s : slot).
Context (audit : MutationAuditMetadata) (code : DimensionCode) (value : dim_value).
Hypothesis Hdb : db_ok db.
Hypothesis Hop : op_dimension (md_operations audit) = Some DIM_CREATE.
Hypothesis Hcode : code_wf code = true.
Hypothesis Hvalue : value_for s value.
Hypothesis Hfresh : dims db !! (s, env_dim_id env s) = None.

Definition created_row : DimRow :=
  mkDimRow (env_dim_id env s) (code_value code) (value_to_row value) 1
    (env_statement env) (env_statement env) None.

Lemma created_row_wf : dim_row_wf s created_row.
Proof.
  destruct Hvalue as [? Hs]. clear Hfresh.
  split; cbn; try done. exists value. split; [rewrite <- Hs; apply value_to_row_dom|done].
Qed.

Lemma taken_fresh :
  code_taken s (env_dim_id env s) (code_value code) db = code_used s (code_value code) db ∧
  key_taken s (env_dim_id env s) (row_key (value_to_row value)) db =
    key_used s (row_key (value_to_row value)) db.
Proof.
  assert (∀ r, r ∈ rows_of s db → bool_decide (r_id r = env_dim_id env s) = false) as Hne.
  { intros r [j Hr]%elem_of_rows_of. apply bool_decide_eq_false. intros E.
    destruct (so_dim _ (proj1 Hdb) _ _ _ Hr) as [Hid _]. congruence. }
  split; apply existsb_ext'; intros r Hr; by rewrite Hne.
Qed.

Lemma insert_created c :
  cx_metadata c = audit →
  insert_dimension c s created_row db =
  (_ ← raise_if (code_used s (code_value code) db) (IntegrityError (code_constraint s));
   _ ← raise_if (key_used s (row_key (value_to_row value)) db) (IntegrityError (value_constraint s));
   Ok (mkDB (<[(s, r_id created_row) := created_row]> (dims db)) (mcs db)
         (dim_logs db ++ dim_insert_logs c s created_row) (mc_logs db))).
Proof.
  intros Hc. pose proof created_row_wf as [Hwf Hv Hver Ho _ Hd].
  assert (dim_before_insert c created_row = Ok tt) as Htrig.
  { apply dim_before_insert_Ok. unfold cx_dimension_operation. by rewrite Hc. }
  assert (ck_dimension s created_row = Ok tt) as Hck by by apply ck_dimension_Ok.
  unfold insert_dimension. rewrite Htrig, Hck, uq_dimension_taken. cbn [mbind result_bind].
  rewrite bool_decide_eq_false_2 by (cbn; rewrite Hfresh; by intros []).
  destruct taken_fresh as [<- <-]. cbn.
  destruct (code_taken _ _ _ _); [done|]. cbn. by destruct (key_taken _ _ _ _).
Qed.

Lemma translate_create_constraint {A} s' :
  translate_create (A := A) (repository_of s') (IntegrityError (code_constraint s')) =
    Raise (cf_code_conflict (repository_of s')) ∧
  translate_create (A := A) (repository_of s') (IntegrityError (value_constraint s')) =
    Raise (cf_value_conflict (repository_of s')).
Proof. by destruct s'. Qed.

Lemma create_dimension_rows :
  create_dimension (repository_of s) env seen db code value audit =
  ('(row, db') ← create_spec (repository_of s) env seen db code value audit;
   d ← row_to_domain s row; Ok (d, db')).
Proof.
  unfold create_dimension, create_spec. rewrite !cf_slot_repository, !existsb_filter.
  rewrite (existsb_ext' _ (λ r, bool_decide (r_code r = code_value code))).
  2:{ intros r _. by destruct (bool_decide (r_code r = code_value code)); [|rewrite andb_false_r]. }
  rewrite (existsb_ext' (λ x, _ && bool_decide (row_key _ = _))
    (λ r, bool_decide (row_key (r_value r) = row_key (value_to_row value)))).
  2:{ intros r _. destruct (bool_decide (row_key (r_value r) = _)); [|by rewrite andb_false_r].
      by rewrite orb_true_r. }
  fold (code_used s (code_value code) seen). fold (key_used s (row_key (value_to_row value)) seen).
  destruct (raise_conflict _ _ _) as [[]|e]; [|done]. cbn [mbind result_bind set_context raise_if fst].
  fold created_row. rewrite insert_created by done.
  destruct (code_used s (code_value code) db).
  { cbn [raise_if mbind result_bind catch]. by rewrite (proj1 (translate_create_constraint s)). }
  destruct (key_used s (row_key (value_to_row value)) db).
  { cbn [raise_if mbind result_bind catch]. by rewrite (proj2 (translate_create_constraint s)). }
  done.
Qed.

Lemma create_spec_ok row db' :
  create_spec (repository_of s) env seen db code value audit = Ok (row, db') →
  db_ok db' ∧ row = created_row ∧ dims db' = <[(s, env_dim_id env s) := row]> (dims db).
Proof.
  unfold create_spec. rewrite cf_slot_repository. intros Hok.
  apply bind_Ok in Hok as (? & _ & Hok). apply bind_Ok in Hok as (? & Hc%raise_if_Ok & Hok).
  apply bind_Ok in Hok as (? & Hv%raise_if_Ok & [= <- <-]). split_and!; [|done|done].
  pose proof (insert_created (mkAuditContext audit (env_clock env)) eq_refl) as Hins.
  rewrite Hc, Hv in Hins. by eapply insert_dimension_db_ok.
Qed.
End create.
