(* ===== verification/DimensionLifecycle.v ===== *)
(** * Deletion and restoration of Dimensions
    ([src/src/mdm/infrastructure/repositories/dimension_lifecycle.py])

    One class parameterised by table; its slot is the parameter here.  The
    transaction locks the row, so it reads what it writes over. *)

From S2P Require Import Prelude Python Exceptions Auth MutationAudit Dimensions MasterCodes Store Records Invariant Consistency DimensionRepos DimensionSpecs.
Local Open Scope Z_scope.

Section unicode.
Context `{UnicodeData}.

Definition get_tombstone (s : slot) (db : DB) (dimension_id : UUID) : res Dimension :=
  match dims db !! (s, dimension_id) with
  | None => Raise DimensionLifecycleNotFound
  | Some record =>
      if bool_decide (r_deleted_at record = None) then Raise DimensionNotDeleted
      else row_to_domain s record
  end.

Definition mutate_lifecycle (s : slot) (env : Env) (db : DB) (dimension_id : UUID)
    (expected_version : Z) (audit : MutationAuditMetadata) (deleting : bool)
    : res (Dimension * DB) :=
  match dims db !! (s, dimension_id) with
  | None => Raise DimensionLifecycleNotFound
  | Some record =>
      _ ← raise_if (deleting && negb (bool_decide (r_deleted_at record = None)))
            DimensionLifecycleNotFound;
      _ ← raise_if (negb deleting && bool_decide (r_deleted_at record = None)) DimensionNotDeleted;
      current ← row_to_domain s record;
      _ ← raise_if (negb (dim_version current =? expected_version)) PreconditionFailed;
      _ ← raise_if (deleting && active_reference s dimension_id db) DimensionInUse;
      context ← set_context audit (Some (dim_updated_at current)) (env_clock env);
      changed ← (if deleting then Dimension_delete current context.2
                 else Dimension_restore current context.2);
      (* UPDATE ... WHERE version = expected_version RETURNING *)
      if negb (r_version record =? expected_version) then Raise PreconditionFailed
      else
        let result :=
          mkDimRow (r_id record) (r_code record) (r_value record) (dim_version changed)
            (r_created_at record) (instant (dim_updated_at changed))
            (instant <$> dim_deleted_at changed) in
        db' ← update_dimension context.1 s record result db;
        updated ← row_to_domain s result;
        Ok (updated, db')
  end.

Definition delete_dimension s env db id version audit :=
  mutate_lifecycle s env db id version audit true.
Definition restore_dimension s env db id version audit :=
  mutate_lifecycle s env db id version audit false.
End unicode.

(** ** The specification, on rows *)

Definition lifecycle_row (env : Env) (r : DimRow) (deleting : bool) : DimRow :=
  let t := Z.max (env_clock env) (r_updated_at r) in
  mkDimRow (r_id r) (r_code r) (r_value r) (r_version r + 1) (r_created_at r) t
    (if deleting then Some t else None).

Definition lifecycle_spec (s : slot) (env : Env) (db : DB) (dimension_id : UUID)
    (expected_version : Z) (audit : MutationAuditMetadata) (deleting : bool) : res (DimRow * DB) :=
  match dims db !! (s, dimension_id) with
  | None => Raise DimensionLifecycleNotFound
  | Some r =>
      _ ← raise_if (deleting && row_deleted r) DimensionLifecycleNotFound;
      _ ← raise_if (negb deleting && negb (row_deleted r)) DimensionNotDeleted;
      _ ← raise_if (negb (r_version r =? expected_version)) PreconditionFailed;
      _ ← raise_if (deleting && active_reference s dimension_id db) DimensionInUse;
      let new := lifecycle_row env r deleting in
      Ok (new, mkDB (<[(s, dimension_id) := new]> (dims db)) (mcs db)
                 (dim_logs db ++ dim_update_logs (mkAuditContext audit (r_updated_at new)) s r new)
                 (mc_logs db))
  end.

Section lifecycle.
Context `{UnicodeData} (env : Env) (db : DB) (s : slot) (id : UUID).
Context (audit : MutationAuditMetadata) (deleting : bool).
Hypothesis Hdb : db_ok db.
Hypothesis Hop :
  op_dimension (md_operations audit) = Some (if deleting then DIM_DELETE else DIM_RESTORE).

Section row.
Context (r : DimRow).
Hypothesis Hr : dims db !! (s, id) = Some r.
Hypothesis Hdel : row_deleted r = negb deleting.
Hypothesis Hfree : deleting && active_reference s id db = false.

Abbreviation t := (Z.max (env_clock env) (r_updated_at r)).
Abbreviation cx := (mkAuditContext audit t).
Abbreviation new := (lifecycle_row env r deleting).

Lemma lifecycle_trigger : dim_before_update cx s r new db = Ok tt.
Proof.
  assert (dim_before_update cx s r new db = dim_lifecycle_guard cx s deleting r new db) as ->.
  { unfold dim_before_update. replace (cx_dimension_operation cx) with
      (Some (if deleting then DIM_DELETE else DIM_RESTORE)) by by rewrite <- Hop.
    by destruct deleting. }
  destruct (so_dim _ (proj1 Hdb) _ _ _ Hr) as [Hid _].
  unfold dim_lifecycle_guard, raw_value_changed. cbn.
  rewrite !Z.eqb_refl, (bool_decide_eq_true_2 (r_code r = _)),
    (bool_decide_eq_true_2 (r_value r = _)) by done. cbn.
  unfold row_deleted in Hdel. destruct deleting; cbn in *.
  - apply negb_false_iff in Hdel. rewrite Hdel. rewrite bool_decide_eq_true_2 by done. cbn.
    rewrite Hid, Hfree. cbn. apply technical_fields_Ok. cbn. lia.
  - apply negb_true_iff in Hdel. rewrite Hdel. cbn. apply technical_fields_Ok. cbn. lia.
Qed.

Lemma lifecycle_ck : ck_dimension s new = Ok tt.
Proof.
  destruct (so_dim _ (proj1 Hdb) _ _ _ Hr) as [_ [Hc Hv Hver Ho _ _]].
  apply ck_dimension_Ok. cbn. split_and!; [done|done|lia|lia|].
  intros t' Ht. destruct deleting; [|done]. injection Ht as <-. lia.
Qed.

Lemma lifecycle_update :
  update_dimension cx s r new db =
  Ok (mkDB (<[(s, id) := new]> (dims db)) (mcs db) (dim_logs db ++ dim_update_logs cx s r new)
        (mc_logs db)).
Proof.
  destruct (so_dim _ (proj1 Hdb) _ _ _ Hr) as [Hid _].
  unfold update_dimension. rewrite lifecycle_trigger, lifecycle_ck. cbn [mbind result_bind].
  rewrite uq_dimension_taken. cbn [r_id r_code r_value lifecycle_row]. rewrite Hid.
  rewrite (code_taken_own _ _ _ _ (proj1 Hdb) Hr), (key_taken_own _ _ _ _ (proj1 Hdb) Hr). done.
Qed.

Lemma lifecycle_change cur :
  row_dimension s r = Some cur → dim_valid cur →
  ∃ d, (if deleting then Dimension_delete cur (utc t) else Dimension_restore cur (utc t)) = Ok d ∧
    dim_version d = r_version r + 1 ∧ instant (dim_updated_at d) = t ∧
    instant <$> dim_deleted_at d = if deleting then Some t else None.
Proof.
  clear Hfree. intros Hcur Hvalid. apply row_dimension_fields in Hcur as (_ & _ & Hver & Hu & _ & Hd & _).
  rewrite Hdel in Hd. unfold Dimension_delete, Dimension_restore. rewrite Hd.
  assert (∀ del, ∃ d, transition_deletion cur del (utc t) = Ok d ∧
    dim_version d = r_version r + 1 ∧ instant (dim_updated_at d) = t ∧
    instant <$> dim_deleted_at d = if del then Some t else None) as Htr.
  { intros del. rewrite transition_deletion_Ok; [|done|done|rewrite Hu; cbn; lia].
    eexists. split; [done|]. cbn. rewrite Hver. by destruct del. }
  destruct deleting; apply Htr.
Qed.
End row.

Lemma lifecycle_rows (expected_version : Z) :
  mutate_lifecycle s env db id expected_version audit deleting =
  ('(row, db') ← lifecycle_spec s env db id expected_version audit deleting;
   d ← row_to_domain s row; Ok (d, db')).
Proof.
  unfold mutate_lifecycle, lifecycle_spec. destruct (dims db !! (s, id)) as [r|] eqn:Hr; [|done].
  change (negb (bool_decide (r_deleted_at r = None))) with (row_deleted r).
  assert (bool_decide (r_deleted_at r = None) = negb (row_deleted r)) as ->
    by (unfold row_deleted; by rewrite negb_involutive).
  destruct (deleting && row_deleted r) eqn:E1; [done|].
  destruct (negb deleting && negb (row_deleted r)) eqn:E2; [done|]. cbn [raise_if mbind result_bind].
  assert (row_deleted r = negb deleting) as Hdel by by destruct deleting, (row_deleted r).
  destruct (so_dim _ (proj1 Hdb) _ _ _ Hr) as [_ Hrow].
  destruct (row_to_domain_wf s r Hrow) as (cur & Hcur & -> & Hvalid & _).
  cbn [mbind result_bind].
  pose proof (row_dimension_fields _ _ _ Hcur) as (_ & _ & -> & -> & _).
  destruct (r_version r =? expected_version); [|done]. cbn [negb raise_if mbind result_bind].
  destruct (deleting && active_reference s id db) eqn:Hfree; [done|]. cbn [raise_if mbind result_bind].
  rewrite set_context_utc. cbn [mbind result_bind fst snd].
  destruct (lifecycle_change r Hdel cur Hcur Hvalid) as (d & Hd & Hdv & Hu & Hdd).
  rewrite Hd. cbn [mbind result_bind]. rewrite Hdv, Hu, Hdd.
  fold (lifecycle_row env r deleting). rewrite (lifecycle_update r Hr Hdel Hfree). done.
Qed.

Lemma lifecycle_spec_ok (expected_version : Z) row db' :
  lifecycle_spec s env db id expected_version audit deleting = Ok (row, db') →
  db_ok db' ∧ dims db' = <[(s, id) := row]> (dims db) ∧ row_deleted row = deleting ∧
  ∃ r, dims db !! (s, id) = Some r ∧ r_version r = expected_version ∧
    r_version row = expected_version + 1.
Proof.
  unfold lifecycle_spec. intros Hok. destruct (dims db !! (s, id)) as [r|] eqn:Hr; [|done].
  apply bind_Ok in Hok as (? & E1%raise_if_Ok & Hok).
  apply bind_Ok in Hok as (? & E2%raise_if_Ok & Hok).
  apply bind_Ok in Hok as (? & Hver%raise_if_Ok%negb_false_iff%Z.eqb_eq & Hok).
  apply bind_Ok in Hok as (? & Hfree%raise_if_Ok & [= <- <-]).
  assert (row_deleted r = negb deleting) as Hdel by by destruct deleting, (row_deleted r).
  pose proof (lifecycle_update r Hr Hdel Hfree) as Hupd.
  destruct (so_dim _ (proj1 Hdb) _ _ _ Hr) as [Hid _].
  split_and!.
  - pose proof Hr as Hr'. rewrite <- Hid in Hr'.
    eapply update_same_code_ok; [done|exact Hr'|exact Hupd|done|done|].
    destruct deleting; [right|by left]. cbn in Hfree. intros k m Hm Href Hmd.
    assert (active_reference s id db = true); [|congruence].
    apply active_reference_true. exists k, m. split_and!; [done| |done]. rewrite Href. cbn. by rewrite Hid.
  - done.
  - unfold row_deleted. cbn. by destruct deleting.
  - exists r. split_and!; [done|done|]. cbn. lia.
Qed.
End lifecycle.
