(* ===== verification/MasterCodeRepo.v ===== *)
(** * The MasterCode repository
    ([src/src/mdm/infrastructure/repositories/master_codes.py])

    Creation resolves eight selections, in slot order, inside one transaction;
    reference updates and lifecycle changes first read the aggregate without
    locks, then lock its Dimensions and its row and compare.  [seen] is the
    committed state an unlocked read returns, [db] the state under locks. *)

From S2P Require Import Prelude Python Exceptions Auth MutationAudit Dimensions MasterCodes Store Records Pagination DimensionRepos.
Local Open Scope Z_scope.

(** ** Selections ([src/src/mdm/application/master_codes.py]) *)

Inductive DimensionSelection :=
| ExistingDimension (id : UUID)
| InlineDimension (code : DimensionCode) (value : dim_value)
| NotApplicable.

(** [MasterCodeCreatePlan]: one selection per slot. *)
Abbreviation MasterCodeCreatePlan := (Slots DimensionSelection).

Inductive ReferenceSelection := RefExisting (id : UUID) | RefNotApplicable.
(** [MasterCodeReferenceUpdate] *)
Abbreviation MasterCodeReferenceUpdate := (Slots (option ReferenceSelection)).
Definition MasterCodeReferenceUpdate_init (u : MasterCodeReferenceUpdate)
    : res MasterCodeReferenceUpdate :=
  _ ← raise_if (forallb (λ s, match at_slot u s with None => true | Some _ => false end) ORDER)
        (ValueError "at least one MasterCode reference update is required");
  Ok u.

(** [f'dimensions.{slot}.id'] *)
Definition reference_field (s : slot) : string := "dimensions." ++ slot_name s ++ ".id".
(** [f'{slot}_id'] *)
Definition id_field (s : slot) : string := slot_name s ++ "_id".

Definition no_dimensions : MasterCodeDimensions := of_slots (λ _, None).
Definition set_slot (d : MasterCodeDimensions) (s : slot) (x : option Dimension)
    : MasterCodeDimensions :=
  of_slots (λ s', if bool_decide (s' = s) then x else get_slot d s').
Definition dimension_ids (d : MasterCodeDimensions) : Slots (option UUID) :=
  slots_of (λ s, dim_id <$> get_slot d s).

(** [_same_persisted_state] *)
Definition same_persisted_state (record : McRow) (initial : MasterCode) : bool :=
  (m_version record =? mc_version initial) &&
  bool_decide (m_refs record = dimension_ids (mc_dimensions initial)).

(** [_resolve_reference_update_slot]: the lookup is [locked[change.id]]. *)
Definition assoc {A} (id : UUID) (l : list (UUID * A)) : option A :=
  snd <$> find (λ p, p.1 =? id) l.
Definition resolve_reference_update_slot (current : option Dimension)
    (change : option ReferenceSelection) (locked : list (UUID * Dimension))
    : res (option Dimension) :=
  match change with
  | None => Ok current
  | Some RefNotApplicable => Ok None
  | Some (RefExisting id) =>
      match assoc id locked with Some d => Ok (Some d) | None => Raise KeyError end
  end.

(** [sorted({...})] of the identifiers to lock in one slot. *)
Definition lock_identifiers (current : option Dimension) (change : option ReferenceSelection)
    : list UUID :=
  let wanted := match change with Some (RefExisting id) => Some id | _ => None end in
  match dim_id <$> current, wanted with
  | None, None => []
  | Some a, None => [a]
  | None, Some b => [b]
  | Some a, Some b => if a =? b then [a] else if a <? b then [a; b] else [b; a]
  end.

Definition active_mc (db : DB) (id : UUID) : option McRow :=
  m ← mcs db !! id; if bool_decide (m_deleted_at m = None) then Some m else None.
Definition mc_key (m : McRow) : page_key := (m_created_at m, m_id m).
Definition active_mc_rows (db : DB) : list McRow :=
  List.filter (λ m, bool_decide (m_deleted_at m = None)) (mc_rows db).

(** ** [_find_inline_conflicts] and [_translate_integrity_error] *)

Definition find_inline_conflicts (s : slot) (code : DimensionCode) (value : dim_value) (seen : DB)
    : bool * bool :=
  let key := row_key (value_to_row value) in
  let conflicts :=
    List.filter (λ row, bool_decide (r_code row = code_value code)
                        || bool_decide (row_key (r_value row) = key)) (rows_of s seen) in
  (existsb (λ row, bool_decide (r_code row = code_value code)) conflicts,
   existsb (λ row, bool_decide (row_key (r_value row) = key)) conflicts).

(** The constraint names of the slots, in the order of [_SLOTS]; [requery] is
    the committed state after the rollback. *)
Fixpoint translate_slots {A} (slots : list slot) (constraint : string) (e : exn)
    (plan : MasterCodeCreatePlan) (requery : DB) : res A :=
  match slots with
  | [] => Raise e
  | s :: rest =>
      if bool_decide (constraint = code_constraint s) || bool_decide (constraint = value_constraint s)
      then
        let conflict :=
          Raise (InlineDimensionConflict (slot_name s) (bool_decide (constraint = code_constraint s))
                   (bool_decide (constraint = value_constraint s))) in
        match at_slot plan s with
        | InlineDimension code value =>
            let '(code_conflict, value_conflict) := find_inline_conflicts s code value requery in
            if code_conflict || value_conflict
            then Raise (InlineDimensionConflict (slot_name s) code_conflict value_conflict)
            else conflict
        | _ => conflict
        end
      else translate_slots rest constraint e plan requery
  end.
Definition translate_integrity_error {A} (plan : MasterCodeCreatePlan) (requery : DB) (e : exn)
    : res A :=
  match e with
  | IntegrityError name =>
      if bool_decide (name = "uq_master_codes_code"%string)
         || bool_decide (name = "uq_master_codes_references"%string)
      then Raise MasterCodeConflict
      else translate_slots ORDER name e plan requery
  | _ => Raise e
  end.
Definition translate_reference_error {A} (e : exn) : res A :=
  match e with
  | IntegrityError name =>
      if bool_decide (name = "uq_master_codes_code"%string)
         || bool_decide (name = "uq_master_codes_references"%string)
      then Raise MasterCodeConflict
      else Raise e
  | _ => Raise e
  end.

Section unicode.
Context `{UnicodeData}.

(** ** Creation *)

(** [_lock_reference] *)
Definition lock_reference (s : slot) (db : DB) (dimension_id : UUID) : res (option Dimension) :=
  match active_row s dimension_id db with
  | None => Ok None
  | Some record => d ← row_to_domain s record; Ok (Some d)
  end.

(** [_create_inline] *)
Definition create_inline (env : Env) (c : AuditContext) (seen : DB) (s : slot)
    (code : DimensionCode) (value : dim_value) (mutation_timestamp : datetime) (db : DB)
    : res (Dimension * DB) :=
  let '(code_conflict, value_conflict) := find_inline_conflicts s code value seen in
  _ ← raise_if (code_conflict || value_conflict)
        (InlineDimensionConflict (slot_name s) code_conflict value_conflict);
  let record := mkDimRow (env_dim_id env s) (code_value code) (value_to_row value) 1
                  (instant mutation_timestamp) (instant mutation_timestamp) None in
  db' ← insert_dimension c s record db;
  d ← row_to_domain s record;
  Ok (d, db').

Record CreateState := mkCreateState {
  st_db : DB;
  st_resolved : MasterCodeDimensions;
  st_invalid : list string;
}.

(** The body of [for slot in MasterCodeDimensions.ORDER]. *)
Definition create_slot (env : Env) (c : AuditContext) (seen : DB) (plan : MasterCodeCreatePlan)
    (mutation_timestamp : datetime) (st : CreateState) (s : slot) : res CreateState :=
  match at_slot plan s with
  | NotApplicable =>
      Ok (mkCreateState (st_db st) (set_slot (st_resolved st) s None) (st_invalid st))
  | ExistingDimension id =>
      dimension ← lock_reference s (st_db st) id;
      match dimension with
      | None => Ok (mkCreateState (st_db st) (st_resolved st) (st_invalid st ++ [reference_field s]))
      | Some d =>
          Ok (mkCreateState (st_db st) (set_slot (st_resolved st) s (Some d)) (st_invalid st))
      end
  | InlineDimension code value =>
      '(d, db') ← create_inline env c seen s code value mutation_timestamp (st_db st);
      Ok (mkCreateState db' (set_slot (st_resolved st) s (Some d)) (st_invalid st))
  end.

Definition create (env : Env) (seen requery db : DB) (plan : MasterCodeCreatePlan)
    (audit : MutationAuditMetadata) : res (MasterCode * DB) :=
  catch
    (context ← set_context audit None (env_clock env);
     let mutation_timestamp := context.2 in
     st ← foldR (create_slot env context.1 seen plan mutation_timestamp)
            (mkCreateState db no_dimensions []) ORDER;
     _ ← raise_if (negb (bool_decide (st_invalid st = [])))
           (InvalidDimensionReference (st_invalid st));
     dimensions ← MasterCodeDimensions_init (st_resolved st);
     let record := mkMcRow (env_mc_id env) (dimension_ids (st_resolved st)) (compose dimensions) 1
                     (instant mutation_timestamp) (instant mutation_timestamp) None in
     db' ← insert_master_code context.1 record (st_db st);
     mc ← master_code record dimensions;
     Ok (mc, db'))
    (translate_integrity_error plan requery).

(** ** Reads *)

Definition get_active (db : DB) (id : UUID) : res MasterCode :=
  match active_mc db id with
  | None => Raise MasterCodeNotFound
  | Some m => joined_to_domain db m
  end.

Definition get_tombstone (db : DB) (id : UUID) : res MasterCode :=
  match mcs db !! id with
  | None => Raise MasterCodeNotFound
  | Some m =>
      current ← joined_to_domain db m;
      _ ← raise_if (negb (mc_is_deleted current)) MasterCodeNotDeleted;
      Ok current
  end.

Definition list_active (db : DB) (after : option page_key) (limit : nat) : res (Page MasterCode) :=
  let p := page mc_key after limit (active_mc_rows db) in
  items ← mapR (joined_to_domain db) (page_items p);
  Ok (mkPage items (page_has_more p)).

(** ** Deletion and restoration *)

(** The loop that locks the referenced Dimensions, deleted ones included. *)
Definition lock_references (initial : MasterCode) (db : DB) : res MasterCodeDimensions :=
  build_dimensions (λ s,
    match get_slot (mc_dimensions initial) s with
    | None => Ok None
    | Some reference =>
        match dims db !! (s, dim_id reference) with
        | None => Raise PreconditionFailed
        | Some dimension => d ← row_to_domain s dimension; Ok (Some d)
        end
    end).

Definition change_lifecycle (env : Env) (seen db : DB) (id : UUID) (expected_etag : pystr)
    (audit : MutationAuditMetadata) (restore : bool) : res (MasterCode * DB) :=
  initial_row ← match mcs seen !! id with None => Raise MasterCodeNotFound | Some m => Ok m end;
  initial ← joined_to_domain seen initial_row;
  _ ← raise_if (restore && negb (mc_is_deleted initial)) MasterCodeNotDeleted;
  _ ← raise_if (negb restore && mc_is_deleted initial) MasterCodeNotFound;
  locked ← lock_references initial db;
  record ← match mcs db !! id with
           | None => Raise PreconditionFailed
           | Some record =>
               _ ← raise_if (negb (same_persisted_state record initial)) PreconditionFailed;
               Ok record
           end;
  current ← master_code record locked;
  _ ← raise_if (negb (bool_decide (etag current = expected_etag))) PreconditionFailed;
  let inactive :=
    List.filter (λ s, match get_slot locked s with Some d => is_deleted d | None => false end) ORDER in
  _ ← raise_if (restore && negb (bool_decide (inactive = [])))
        (MasterCodeReferenceInactive (id_field <$> inactive));
  context ← set_context audit (Some (mc_updated_at current)) (env_clock env);
  updated ← (if restore then MasterCode_restore current context.2
             else MasterCode_delete current context.2);
  let record' := mkMcRow (m_id record) (m_refs record) (mc_code updated) (mc_version updated)
                   (m_created_at record) (instant (mc_updated_at updated))
                   (instant <$> mc_deleted_at updated) in
  db' ← update_master_code context.1 record record' db;
  Ok (updated, db').

(** ** Reference updates *)

(** One slot of [_lock_reference_update_dimensions]. *)
Definition lock_slot (initial : MasterCode) (changes : MasterCodeReferenceUpdate) (db : DB)
    (s : slot) : res (list (UUID * Dimension)) :=
  let current := get_slot (mc_dimensions initial) s in
  let records := omap (λ i, active_row s i db) (lock_identifiers current (at_slot changes s)) in
  mapR (λ r, d ← row_to_domain s r; Ok (r_id r, d)) records.

(** The state of the loop: the locked Dimensions of each slot and [invalid]. *)
Definition lock_update_slot (initial : MasterCode) (changes : MasterCodeReferenceUpdate) (db : DB)
    (st : Slots (list (UUID * Dimension)) * list string) (s : slot)
    : res (Slots (list (UUID * Dimension)) * list string) :=
  locked ← lock_slot initial changes db s;
  _ ← match get_slot (mc_dimensions initial) s with
      | None => Ok tt
      | Some d => raise_if (bool_decide (assoc (dim_id d) locked = None)) PreconditionFailed
      end;
  let invalid :=
    match at_slot changes s with
    | Some (RefExisting id) => if bool_decide (assoc id locked = None) then [reference_field s] else []
    | _ => []
    end in
  Ok (slots_of (λ s', if bool_decide (s' = s) then locked else at_slot st.1 s'), st.2 ++ invalid).

Definition lock_reference_update_dimensions (initial : MasterCode)
    (changes : MasterCodeReferenceUpdate) (db : DB)
    : res (Slots (list (UUID * Dimension)) * list string) :=
  foldR (lock_update_slot initial changes db) (slots_of (λ _, []), []) ORDER.

Definition update_references (env : Env) (seen db : DB) (id : UUID)
    (changes : MasterCodeReferenceUpdate) (expected_etag : pystr) (audit : MutationAuditMetadata)
    : res (MasterCode * DB) :=
  catch
    (initial_row ← match active_mc seen id with
                   | None => Raise MasterCodeNotFound | Some m => Ok m end;
     initial ← joined_to_domain seen initial_row;
     locking ← lock_reference_update_dimensions initial changes db;
     let locked := locking.1 in
     _ ← raise_if (negb (bool_decide (locking.2 = []))) (InvalidDimensionReference locking.2);
     record ← match active_mc db id with
              | None => Raise PreconditionFailed
              | Some record =>
                  _ ← raise_if (negb (same_persisted_state record initial)) PreconditionFailed;
                  Ok record
              end;
     current_dimensions ← build_dimensions (λ s,
       match at_slot (m_refs record) s with
       | None => Ok None
       | Some dimension_id =>
           match assoc dimension_id (at_slot locked s) with
           | Some d => Ok (Some d) | None => Raise KeyError
           end
       end);
     current ← master_code record current_dimensions;
     _ ← raise_if (negb (bool_decide (etag current = expected_etag))) PreconditionFailed;
     next_dimensions ← build_dimensions (λ s,
       resolve_reference_update_slot (get_slot current_dimensions s) (at_slot changes s)
         (at_slot locked s));
     if bool_decide (dimension_ids next_dimensions = dimension_ids current_dimensions)
     then Ok (current, db)
     else
       context ← set_context audit (Some (mc_updated_at current)) (env_clock env);
       updated ← MasterCodes.update_references current next_dimensions context.2;
       let record' := mkMcRow (m_id record) (dimension_ids next_dimensions) (mc_code updated)
                        (mc_version updated) (m_created_at record)
                        (instant (mc_updated_at updated)) (m_deleted_at record) in
       db' ← update_master_code context.1 record record' db;
       Ok (updated, db'))
    translate_reference_error.
End unicode.
