(* ===== verification/MasterCodeSpecs.v ===== *)
(** * What the MasterCode repository guarantees

    The reference definitions, on rows, of creation, reference updates and
    lifecycle changes, and the proofs that the transactions of
    [MasterCodeRepo.v] compute them on a consistent database and keep it
    consistent. *)

From S2P Require Import Prelude Python Exceptions Auth MutationAudit Dimensions MasterCodes Store Records Invariant Consistency Pagination DimensionRepos DimensionSpecs MasterCodeRepo.
Local Open Scope Z_scope.

(** ** An unlocked read sees an earlier state

    Rows are never removed and every write of a MasterCode advances its
    version, so an equal version means an unchanged row. *)

Lemma insert_dimension_result c s r db db' :
  insert_dimension c s r db = Ok db' →
  dims db !! (s, r_id r) = None ∧
  db' = mkDB (<[(s, r_id r) := r]> (dims db)) (mcs db) (dim_logs db ++ dim_insert_logs c s r)
          (mc_logs db).
Proof.
  unfold insert_dimension. intros Hok. do 2 (apply bind_Ok in Hok as (_ & _ & Hok)).
  apply bind_Ok in Hok as (_ & Hpk%raise_if_Ok%bool_decide_eq_false & Hok).
  apply bind_Ok in Hok as (_ & _ & [= <-]). split; [|done]. by apply eq_None_not_Some.
Qed.

Lemma insert_master_code_result c m db db' :
  insert_master_code c m db = Ok db' →
  mcs db !! m_id m = None ∧
  db' = mkDB (dims db) (<[m_id m := m]> (mcs db)) (dim_logs db) (mc_logs db ++ [mc_insert_log c m]).
Proof.
  unfold insert_master_code. intros Hok. do 2 (apply bind_Ok in Hok as (_ & _ & Hok)).
  apply bind_Ok in Hok as (_ & Hpk%raise_if_Ok%bool_decide_eq_false & Hok).
  do 2 (apply bind_Ok in Hok as (_ & _ & Hok)). injection Hok as <-. split; [|done].
  by apply eq_None_not_Some.
Qed.

Lemma update_master_code_result c old new db db' :
  update_master_code c old new db = Ok db' →
  m_id new = m_id old ∧ m_version new = m_version old + 1 ∧
  db' = mkDB (dims db) (<[m_id new := new]> (mcs db)) (dim_logs db)
          (mc_logs db ++ [mc_update_log c old new]).
Proof.
  unfold update_master_code. intros Hok.
  apply bind_Ok in Hok as ([] & (Hid & _ & Hv & _)%mc_before_update_shape & Hok).
  do 3 (apply bind_Ok in Hok as (_ & _ & Hok)). by injection Hok as <-.
Qed.

Definition mc_progress (m m' : McRow) : Prop :=
  m_version m ≤ m_version m' ∧ (m_version m' = m_version m → m' = m).

Lemma store_step_progress db db' :
  store_step db db' →
  (∀ id m, mcs db !! id = Some m → ∃ m', mcs db' !! id = Some m' ∧ mc_progress m m') ∧
  (∀ k, is_Some (dims db !! k) → is_Some (dims db' !! k)).
Proof.
  assert (∀ k1 k2 (r : DimRow) db, is_Some (dims db !! k2) → is_Some (<[k1 := r]> (dims db) !! k2))
    as Hins.
  { intros k1 k2 r d Hs. destruct (decide (k1 = k2)) as [->|Hne]; [rewrite lookup_insert_eq; by eexists|].
    by rewrite lookup_insert_ne. }
  assert (∀ m, mc_progress m m) as Hrefl by (by split).
  destruct 1 as [c s r db db' Hw|c s old new db db' Hold Hw|c m db db' Hw|c old new db db' Hold Hw].
  - apply insert_dimension_result in Hw as [_ ->]. cbn. split; [eauto|intros k; apply Hins].
  - apply update_dimension_result in Hw as ->. cbn. split; [eauto|intros k; apply Hins].
  - apply insert_master_code_result in Hw as [Hnew ->]. cbn. split; [|done].
    intros id n Hn. exists n. split; [|done]. rewrite lookup_insert_ne; [done|congruence].
  - apply update_master_code_result in Hw as (Hid & Hv & ->). cbn. split; [|done].
    intros id n Hn. destruct (decide (id = m_id new)) as [->|Hne].
    + rewrite lookup_insert_eq. exists new. split; [done|]. assert (n = old) as -> by congruence.
      split; [lia|]. intros; exfalso; lia.
    + exists n. rewrite lookup_insert_ne by done. done.
Qed.

Lemma store_steps_progress db db' :
  rtc store_step db db' →
  (∀ id m, mcs db !! id = Some m → ∃ m', mcs db' !! id = Some m' ∧ mc_progress m m') ∧
  (∀ k, is_Some (dims db !! k) → is_Some (dims db' !! k)).
Proof.
  induction 1 as [db|db db1 db2 Hstep _ [IHm IHd]]; [split; [|done]; intros id m Hm; exists m; by split|].
  destruct (store_step_progress _ _ Hstep) as [Hm Hd]. split; [|eauto].
  intros id m Hid. destruct (Hm _ _ Hid) as (m1 & Hm1 & Hle1 & Heq1).
  destruct (IHm _ _ Hm1) as (m2 & Hm2 & Hle2 & Heq2). exists m2. split; [done|].
  split; [lia|]. intros Hv. rewrite Heq2, Heq1 by lia. done.
Qed.

(** ** Rows and their aggregates *)

Lemma dimension_ids_joined db m :
  store_ok db → refs_exist db m → dimension_ids (joined_dims db m) = m_refs m.
Proof.
  intros Hok Hex. apply slots_ext. intros s. unfold dimension_ids. rewrite at_slots_of.
  pose proof (joined_dims_slot db m s Hok) as Hj. destruct (joined_slot db m s) as [r|] eqn:E.
  - destruct Hj as (d & -> & Hd & _). apply row_dimension_fields in Hd as [Hid _]. cbn. rewrite Hid.
    apply joined_slot_Some in E as (ref & -> & Hr). by destruct (so_dim _ Hok _ _ _ Hr) as [-> _].
  - rewrite Hj. cbn. symmetry. by apply (joined_slot_None db m s Hok (Hex s)).
Qed.

Lemma build_dimensions_ext f g : (∀ s, f s = g s) → build_dimensions f = build_dimensions g.
Proof. intros Hfg. unfold build_dimensions. by rewrite !Hfg. Qed.

(** A write of one MasterCode row that keeps the database consistent. *)
Lemma mc_row_consistent m logs db :
  consistent db → m_code m = compose_row db m →
  (m_deleted_at m = None → ∀ s r, joined_slot db m s = Some r → r_deleted_at r = None) →
  consistent (mkDB (dims db) (<[m_id m := m]> (mcs db)) (dim_logs db) logs).
Proof.
  intros [Hcode Hact] Hm Hma. split; cbn.
  - intros k n [[<- <-]|[_ Hn]]%lookup_insert_Some; [|rewrite (Hcode _ _ Hn)];
      rewrite ?Hm; symmetry; by apply compose_row_ext.
  - intros k n s r Hn Hd. rewrite (joined_slot_ext db) by done. revert Hn Hd.
    intros [[<- <-]|[_ Hn]]%lookup_insert_Some Hd; [by apply Hma|by eapply Hact].
Qed.

Lemma update_mc_db_ok c old new db db' :
  db_ok db → mcs db !! m_id old = Some old → update_master_code c old new db = Ok db' →
  m_code new = compose_row db new →
  (m_deleted_at new = None → ∀ s r, joined_slot db new s = Some r → r_deleted_at r = None) →
  db_ok db'.
Proof.
  intros [Hok Hcons] Hold Hupd Hcode Hact. split; [by eapply update_master_code_ok|].
  apply update_master_code_result in Hupd as (_ & _ & ->). by apply mc_row_consistent.
Qed.

Lemma insert_mc_db_ok c m db db' :
  db_ok db → insert_master_code c m db = Ok db' → m_code m = compose_row db m →
  (m_deleted_at m = None → ∀ s r, joined_slot db m s = Some r → r_deleted_at r = None) →
  db_ok db'.
Proof.
  intros [Hok Hcons] Hins Hcode Hact. split; [by eapply insert_master_code_ok|].
  apply insert_master_code_result in Hins as [_ ->]. by apply mc_row_consistent.
Qed.

(** The unique constraints on a row whose code composes its references. *)
Definition refs_used (refs : Slots (option UUID)) (id : UUID) (db : DB) : bool :=
  existsb (λ m, negb (bool_decide (m_id m = id)) && bool_decide (m_refs m = refs)) (mc_rows db).

Lemma uq_master_code_refs m db :
  db_ok db → refs_exist db m → m_code m = compose_row db m →
  uq_master_code m db = if refs_used (m_refs m) (m_id m) db
                        then Raise (IntegrityError "uq_master_codes_code") else Ok tt.
Proof.
  intros [Hok Hcons] Hex Hcode.
  assert (existsb (λ n, bool_decide (m_code n = m_code m))
    (List.filter (λ n, negb (bool_decide (m_id n = m_id m))) (mc_rows db)) =
    refs_used (m_refs m) (m_id m) db) as Hc.
  { rewrite existsb_filter. apply existsb_ext'. intros n [k Hn]%elem_of_mc_rows. f_equal.
    apply bool_decide_ext. rewrite (cs_code _ Hcons _ _ Hn), Hcode. split.
    - intros E. apply (refs_from_codes db); [done|by eapply stored_refs_exist|done|].
      by apply compose_row_inj.
    - intros E. by apply compose_row_refs. }
  unfold uq_master_code. rewrite Hc, existsb_filter. fold (refs_used (m_refs m) (m_id m) db).
  by destruct (refs_used _ _ _).
Qed.

Lemma refs_used_own m id db :
  store_ok db → mcs db !! id = Some m → refs_used (m_refs m) id db = false.
Proof.
  intros Hok Hm. apply existsb_elem_of_false. intros n [k Hn]%elem_of_mc_rows.
  destruct (bool_decide (m_refs n = m_refs m)) eqn:E; [|by rewrite andb_false_r].
  apply bool_decide_eq_true in E. rewrite andb_true_r. apply negb_false_iff, bool_decide_eq_true.
  destruct (so_mc _ Hok _ _ Hn) as [-> _]. by eapply so_refs.
Qed.

(** ** Deletion and restoration *)

Definition mc_lifecycle_row (env : Env) (m : McRow) (restore : bool) : McRow :=
  let t := Z.max (env_clock env) (m_updated_at m) in
  mkMcRow (m_id m) (m_refs m) (m_code m) (m_version m + 1) (m_created_at m) t
    (if restore then None else Some t).

Definition deleted_slots (db : DB) (m : McRow) : list slot :=
  List.filter (λ s, match joined_slot db m s with Some r => row_deleted r | None => false end) ORDER.

Definition mc_lifecycle_spec (env : Env) (seen db : DB) (id : UUID) (expected_etag : pystr)
    (audit : MutationAuditMetadata) (restore : bool) : res (McRow * DB) :=
  match mcs seen !! id, mcs db !! id with
  | Some m0, Some m =>
      let deleted := negb (bool_decide (m_deleted_at m0 = None)) in
      _ ← raise_if (restore && negb deleted) MasterCodeNotDeleted;
      _ ← raise_if (negb restore && deleted) MasterCodeNotFound;
      _ ← raise_if (negb (m_version m =? m_version m0)) PreconditionFailed;
      _ ← raise_if (negb (bool_decide (etag (mc_of m (joined_dims db m)) = expected_etag)))
            PreconditionFailed;
      _ ← raise_if (restore && negb (bool_decide (deleted_slots db m = [])))
            (MasterCodeReferenceInactive (id_field <$> deleted_slots db m));
      let new := mc_lifecycle_row env m restore in
      Ok (new, mkDB (dims db) (<[id := new]> (mcs db)) (dim_logs db)
                 (mc_logs db ++ [mc_update_log (mkAuditContext audit (m_updated_at new)) m new]))
  | _, _ => Raise MasterCodeNotFound
  end.

Section lifecycle.
Context `{UnicodeData} (env : Env) (seen db : DB) (id : UUID).
Context (audit : MutationAuditMetadata) (restore : bool).
Hypothesis Hdb : db_ok db.
Hypothesis Hseen : db_ok seen.
Hypothesis Hbefore : rtc store_step seen db.
Hypothesis Hop :
  op_master_code (md_operations audit) = Some (if restore then MC_RESTORE else MC_DELETE).

Section row.
Context (m : McRow).
Hypothesis Hm : mcs db !! id = Some m.
Hypothesis Hdel : bool_decide (m_deleted_at m = None) = negb restore.
Hypothesis Hact : restore = true → deleted_slots db m = [].

Abbreviation t := (Z.max (env_clock env) (m_updated_at m)).
Abbreviation cx := (mkAuditContext audit t).
Abbreviation cur := (mc_of m (joined_dims db m)).
Abbreviation new := (mc_lifecycle_row env m restore).

Lemma lifecycle_active_refs :
  restore = true → ∀ s r, joined_slot db m s = Some r → row_deleted r = false.
Proof.
  intros Hres s r Hr. specialize (Hact Hres). apply not_true_is_false. intros Hd.
  assert (s ∈ deleted_slots db m) as Hin.
  { apply elem_of_filter_bool. split; [apply slot_in_ORDER|]. by rewrite Hr. }
  rewrite Hact in Hin. by apply not_elem_of_nil in Hin.
Qed.

Lemma lifecycle_all_active : restore = true → all_active (joined_dims db m).
Proof.
  intros Hres s d Hd. pose proof (joined_dims_slot db m s (proj1 Hdb)) as Hj.
  destruct (joined_slot db m s) as [r|] eqn:Er; [|congruence].
  destruct Hj as (d' & Hd' & Hrow & _). assert (d' = d) as -> by congruence.
  apply row_dimension_fields in Hrow as (_ & _ & _ & _ & _ & -> & _).
  by eapply lifecycle_active_refs.
Qed.

Lemma lifecycle_domain :
  (if restore then MasterCode_restore cur (utc t) else MasterCode_delete cur (utc t)) =
  Ok (mc_of new (joined_dims db m)).
Proof.
  pose proof (mc_of_valid _ _ _ Hdb Hm) as [Ha Hc Hv Hca Hua Ho Hf Hd]. cbn in *.
  pose proof lifecycle_all_active as Hall.
  assert (validate_lifecycle_timestamp cur (utc t) = Ok tt) as Hts.
  { apply validate_lifecycle_timestamp_Ok. split; [done|]. cbn. lia. }
  assert (mc_is_deleted cur = restore) as Hmd.
  { unfold mc_is_deleted. cbn. clear -Hdel. by destruct (m_deleted_at m), restore. }
  unfold MasterCode_restore, MasterCode_delete. rewrite Hmd, Hts.
  destruct restore; cbn [negb raise_if mbind result_bind]; apply MasterCode_init_Ok.
  - unfold mc_of, mc_lifecycle_row; cbn. rewrite <- Hc. split; [done|].
    split; cbn; try done; try lia. intros _. by apply Hall.
  - unfold mc_of, mc_lifecycle_row; cbn. split; [done|]. split; cbn; try done; try lia.
    intros t' [= <-]. cbn. split; [done|lia].
Qed.

Lemma lifecycle_write :
  update_master_code cx m new db =
  Ok (mkDB (dims db) (<[id := new]> (mcs db)) (dim_logs db) (mc_logs db ++ [mc_update_log cx m new])).
Proof.
  destruct (so_mc _ (proj1 Hdb) _ _ Hm) as [Hid [Hc Hv Ho _ _]].
  assert (mc_before_update cx m new = Ok tt) as Htrig.
  { unfold mc_before_update. cbn [cx_master_code_operation cx_metadata].
    change (cx_master_code_operation cx) with (op_master_code (md_operations audit)). rewrite Hop.
    cbn. rewrite (bool_decide_eq_true_2 (m_refs m = _)), (bool_decide_eq_true_2 (m_code m = _)) by done.
    destruct restore; cbn in *; rewrite Hdel; cbn; rewrite ?(bool_decide_eq_true_2 (_ = Some _)) by done;
      cbn; rewrite !Z.eqb_refl; apply technical_fields_Ok; cbn; lia. }
  assert (ck_master_code new = Ok tt) as Hck.
  { apply ck_master_code_Ok. cbn. split_and!; [done|lia|lia|]. destruct restore; [done|].
    intros t' [= <-]. lia. }
  unfold update_master_code. rewrite Htrig, Hck. cbn [mbind result_bind].
  rewrite uq_master_code_refs; [|done|by apply (stored_refs_exist db id m (proj1 Hdb) Hm)|].
  2:{ rewrite compose_row_refs with (m := m) by done. by apply (cs_code _ (proj2 Hdb) _ _ Hm). }
  cbn [mc_lifecycle_row m_refs m_id]. rewrite Hid, (refs_used_own _ _ _ (proj1 Hdb) Hm). cbn [mbind result_bind].
  assert (fk_master_code new db = Ok tt) as Hfk.
  { apply fk_master_code_Ok. intros s ref Href. by apply (so_fk _ (proj1 Hdb) _ _ _ _ Hm Href). }
  by rewrite Hfk.
Qed.
End row.

Lemma same_state_spec m0 m :
  mcs seen !! id = Some m0 → mcs db !! id = Some m →
  same_persisted_state m (mc_of m0 (joined_dims seen m0)) = (m_version m =? m_version m0) ∧
  ((m_version m =? m_version m0) = true → m = m0).
Proof.
  intros Hm0 Hm. destruct (store_steps_progress _ _ Hbefore) as [Hp _].
  destruct (Hp _ _ Hm0) as (m' & Hm' & _ & Heq). assert (m' = m) as -> by congruence.
  rewrite <- Z.eqb_eq in Heq. split; [|done]. unfold same_persisted_state. cbn.
  destruct (m_version m =? m_version m0) eqn:E; [|done]. rewrite Heq by done. cbn.
  apply bool_decide_eq_true. symmetry. apply dimension_ids_joined; [apply Hseen|].
  by eapply stored_refs_exist; [apply Hseen|].
Qed.

(** The references of an aggregate read earlier, read again. *)
Lemma lock_references_ok m0 :
  mcs seen !! id = Some m0 →
  lock_references (mc_of m0 (joined_dims seen m0)) db = Ok (joined_dims db m0).
Proof.
  intros Hm0. rewrite <- build_joined by apply Hdb. apply build_dimensions_ext. intros s. cbn.
  pose proof (joined_dims_slot seen m0 s (proj1 Hseen)) as Hj.
  destruct (joined_slot seen m0 s) as [r0|] eqn:E.
  - destruct Hj as (d & -> & Hd & _). apply row_dimension_fields in Hd as [-> _].
    apply joined_slot_Some in E as (ref & Href & Hr0).
    destruct (so_dim _ (proj1 Hseen) _ _ _ Hr0) as [-> _].
    destruct (store_steps_progress _ _ Hbefore) as [_ Hdims].
    destruct (Hdims (s, ref)) as [r Hr]; [by eexists|].
    unfold joined_slot. rewrite Href. cbn. by rewrite Hr.
  - rewrite Hj. apply joined_slot_None in E; [|apply Hseen|].
    + unfold joined_slot. by rewrite E.
    + by apply (stored_refs_exist _ _ _ (proj1 Hseen) Hm0).
Qed.

Lemma change_lifecycle_rows (expected_etag : pystr) :
  change_lifecycle env seen db id expected_etag audit restore =
  ('(row, db') ← mc_lifecycle_spec env seen db id expected_etag audit restore;
   Ok (mc_of row (joined_dims db row), db')).
Proof.
  unfold change_lifecycle, mc_lifecycle_spec.
  destruct (mcs seen !! id) as [m0|] eqn:Hm0; [|done]. cbn [mbind result_bind].
  destruct (store_steps_progress _ _ Hbefore) as [Hp _].
  destruct (Hp _ _ Hm0) as (m & Hm & _). clear Hp. rewrite Hm.
  rewrite (joined_to_domain_ok _ _ _ Hseen Hm0). cbn [mbind result_bind].
  assert (mc_is_deleted (mc_of m0 (joined_dims seen m0)) = negb (bool_decide (m_deleted_at m0 = None)))
    as -> by (unfold mc_is_deleted; cbn; by destruct (m_deleted_at m0)).
  destruct (restore && negb (negb (bool_decide (m_deleted_at m0 = None)))) eqn:E1; [done|].
  destruct (negb restore && negb (bool_decide (m_deleted_at m0 = None))) eqn:E2; [done|].
  cbn [raise_if mbind result_bind]. rewrite (lock_references_ok _ Hm0). cbn [mbind result_bind].
  destruct (same_state_spec _ _ Hm0 Hm) as [-> Hsame].
  destruct (m_version m =? m_version m0) eqn:Ev; [|done]. cbn [negb raise_if mbind result_bind].
  specialize (Hsame eq_refl). subst m0.
  assert (master_code m (joined_dims db m) = Ok (mc_of m (joined_dims db m))) as ->.
  { apply MasterCode_init_Ok. split; [done|]. by eapply mc_of_valid. }
  cbn [mbind result_bind].
  destruct (bool_decide (etag (mc_of m (joined_dims db m)) = expected_etag)); [|done].
  cbn [negb raise_if mbind result_bind].
  assert (List.filter (λ s, match get_slot (joined_dims db m) s with
    | Some d => is_deleted d | None => false end) ORDER = deleted_slots db m) as ->.
  { unfold deleted_slots. apply List.filter_ext. intros s.
    pose proof (joined_dims_slot db m s (proj1 Hdb)) as Hj.
    destruct (joined_slot db m s) as [r|]; [|by rewrite Hj]. destruct Hj as (d & -> & Hd & _).
    by apply row_dimension_fields in Hd as (_ & _ & _ & _ & _ & -> & _). }
  destruct (restore && negb (bool_decide (deleted_slots db m = []))) eqn:E3; [done|].
  cbn [raise_if mbind result_bind mc_updated_at mc_of]. rewrite set_context_utc.
  cbn [mbind result_bind fst snd].
  assert (bool_decide (m_deleted_at m = None) = negb restore) as Hdel
    by (by destruct restore, (bool_decide (m_deleted_at m = None))).
  assert (restore = true → deleted_slots db m = []) as Hact.
  { intros Hr. rewrite Hr in E3. by apply negb_false_iff, bool_decide_eq_true in E3. }
  change (mkMasterCode (m_id m) (joined_dims db m) (m_code m) (m_version m) (utc (m_created_at m))
    (utc (m_updated_at m)) (utc <$> m_deleted_at m)) with (mc_of m (joined_dims db m)).
  rewrite (lifecycle_domain m Hm Hdel Hact). cbn [mbind result_bind].
  match goal with |- update_master_code _ m ?row db ≫= _ = _ =>
    replace row with (mc_lifecycle_row env m restore) by (clear; by destruct restore) end.
  rewrite (lifecycle_write m Hm Hdel Hact). cbn [mbind result_bind].
  by rewrite (joined_dims_refs db m (mc_lifecycle_row env m restore)).
Qed.

Lemma mc_lifecycle_spec_ok (expected_etag : pystr) row db' :
  mc_lifecycle_spec env seen db id expected_etag audit restore = Ok (row, db') →
  db_ok db' ∧ ∃ m, mcs db !! id = Some m ∧ etag (mc_of m (joined_dims db m)) = expected_etag ∧
    row = mc_lifecycle_row env m restore ∧ dims db' = dims db ∧ mcs db' = <[id := row]> (mcs db).
Proof.
  unfold mc_lifecycle_spec. intros Hok.
  destruct (mcs seen !! id) as [m0|] eqn:Hm0; [|done].
  destruct (mcs db !! id) as [m|] eqn:Hm; [|done].
  apply bind_Ok in Hok as (? & E1%raise_if_Ok & Hok).
  apply bind_Ok in Hok as (? & E2%raise_if_Ok & Hok).
  apply bind_Ok in Hok as (? & Hver%raise_if_Ok%negb_false_iff & Hok).
  apply bind_Ok in Hok as (? & Het%raise_if_Ok%negb_false_iff%bool_decide_eq_true & Hok).
  apply bind_Ok in Hok as (? & E3%raise_if_Ok & [= <- <-]).
  apply (same_state_spec _ _ Hm0 Hm) in Hver. subst m0.
  assert (bool_decide (m_deleted_at m = None) = negb restore) as Hdel
    by (by destruct restore, (bool_decide (m_deleted_at m = None))).
  assert (restore = true → deleted_slots db m = []) as Hact.
  { intros Hr. rewrite Hr in E3. by apply negb_false_iff, bool_decide_eq_true in E3. }
  split; [|by exists m].
  destruct (so_mc _ (proj1 Hdb) _ _ Hm) as [Hid _]. pose proof Hm as Hm'. rewrite <- Hid in Hm'.
  eapply update_mc_db_ok; [exact Hdb|exact Hm'|by apply lifecycle_write| |].
  - rewrite compose_row_refs with (m := m) by done. by apply (cs_code _ (proj2 Hdb) _ _ Hm).
  - intros Hnew s r Hr. rewrite (joined_slot_refs db m) in Hr by done.
    assert (restore = true) as Hres by (clear -Hnew; cbn in Hnew; by destruct restore).
    pose proof (lifecycle_active_refs m Hact Hres s r Hr) as Hrd.
    unfold row_deleted in Hrd. by apply negb_false_iff, bool_decide_eq_true in Hrd.
Qed.
End lifecycle.

(** ** Reference updates *)

Definition slot_ref_change (current : option UUID) (change : option ReferenceSelection)
    : option UUID :=
  match change with
  | None => current
  | Some RefNotApplicable => None
  | Some (RefExisting i) => Some i
  end.
Definition next_refs (m : McRow) (changes : MasterCodeReferenceUpdate) : Slots (option UUID) :=
  slots_of (λ s, slot_ref_change (at_slot (m_refs m) s) (at_slot changes s)).

Definition inactive_row (s : slot) (id : UUID) (db : DB) : bool :=
  bool_decide (active_row s id db = None).
Definition stale_reference (db : DB) (m0 : McRow) (s : slot) : bool :=
  match at_slot (m_refs m0) s with Some i => inactive_row s i db | None => false end.
Definition invalid_change (db : DB) (changes : MasterCodeReferenceUpdate) (s : slot) : bool :=
  match at_slot changes s with Some (RefExisting i) => inactive_row s i db | _ => false end.

Definition reference_row (env : Env) (db : DB) (m : McRow) (changes : MasterCodeReferenceUpdate)
    : McRow :=
  let with_code code :=
    mkMcRow (m_id m) (next_refs m changes) code (m_version m + 1) (m_created_at m)
      (Z.max (env_clock env) (m_updated_at m)) None in
  with_code (compose_row db (with_code [])).

Definition reference_spec (env : Env) (seen db : DB) (id : UUID)
    (changes : MasterCodeReferenceUpdate) (expected_etag : pystr) (audit : MutationAuditMetadata)
    : res (McRow * DB) :=
  match active_mc seen id, mcs db !! id with
  | Some m0, Some m =>
      let invalid := List.filter (invalid_change db changes) ORDER in
      let new := reference_row env db m changes in
      _ ← raise_if (existsb (stale_reference db m0) ORDER) PreconditionFailed;
      _ ← raise_if (negb (bool_decide (invalid = [])))
            (InvalidDimensionReference (reference_field <$> invalid));
      _ ← raise_if (negb (m_version m =? m_version m0)) PreconditionFailed;
      _ ← raise_if (negb (bool_decide (etag (mc_of m (joined_dims db m)) = expected_etag)))
            PreconditionFailed;
      if bool_decide (next_refs m changes = m_refs m) then Ok (m, db)
      else
        _ ← raise_if (refs_used (next_refs m changes) id db) MasterCodeConflict;
        Ok (new, mkDB (dims db) (<[id := new]> (mcs db)) (dim_logs db)
                   (mc_logs db ++ [mc_update_log (mkAuditContext audit (m_updated_at new)) m new]))
  | _, _ => Raise MasterCodeNotFound
  end.

(** Looking up one identifier among the locked ones. *)
Lemma assoc_omap {A} (g : UUID → option A) (L : list UUID) i :
  assoc i (omap (λ j, x ← g j; Some (j, x)) L) = if bool_decide (i ∈ L) then g i else None.
Proof.
  set (f := λ j, x ← g j; Some (j, x)) in *.
  induction L as [|j L IH]; [done|].
  assert (i ∈ j :: L ↔ i = j ∨ i ∈ L) as Hiff by apply elem_of_cons.
  rewrite (bool_decide_ext _ _ Hiff).
  change (omap f (j :: L)) with (match f j with Some y => y :: omap f L | None => omap f L end).
  destruct (decide (i = j)) as [->|Hne].
  - rewrite (bool_decide_eq_true_2 (j = j ∨ _)) by by left.
    change (f j) with (x ← g j; Some (j, x)). destruct (g j) as [x|] eqn:Eg; cbn [mbind option_bind].
    { unfold assoc; cbn. by rewrite Z.eqb_refl. }
    rewrite IH. case_bool_decide; congruence.
  - assert (i = j ∨ i ∈ L ↔ i ∈ L) as Hiff2 by naive_solver. rewrite (bool_decide_ext _ _ Hiff2), <- IH.
    change (f j) with (x ← g j; Some (j, x)). destruct (g j) as [x|]; cbn [mbind option_bind]; [|done].
    unfold assoc. cbn.
    by rewrite (proj2 (Z.eqb_neq j i)) by done.
Qed.

Lemma lock_identifiers_current d change : dim_id d ∈ lock_identifiers (Some d) change.
Proof.
  unfold lock_identifiers. destruct change as [[i|]|]; cbn; repeat case_match; set_solver.
Qed.
Lemma lock_identifiers_change current i : i ∈ lock_identifiers current (Some (RefExisting i)).
Proof.
  unfold lock_identifiers. destruct current as [d|]; cbn; [|set_solver].
  destruct (Z.eqb_spec (dim_id d) i); [|case_match]; set_solver.
Qed.

(** The Dimension an active row reads as. *)
Definition active_dimension (db : DB) (s : slot) (i : UUID) : option Dimension :=
  r ← active_row s i db; row_dimension s r.

Lemma active_dimension_None db s i :
  store_ok db → active_dimension db s i = None ↔ active_row s i db = None.
Proof.
  intros Hok. unfold active_dimension. destruct (active_row s i db) as [r|] eqn:E; [|done]. cbn.
  apply active_row_Some in E as [Hr _]. destruct (so_dim _ Hok _ _ _ Hr) as [_ Hwf].
  destruct (@row_to_domain_wf ascii_data s r Hwf) as (d & -> & _). done.
Qed.

Lemma joined_active db m s i d :
  at_slot (m_refs m) s = Some i → active_dimension db s i = Some d →
  get_slot (joined_dims db m) s = Some d.
Proof.
  intros Href Hd. unfold joined_dims. rewrite get_of_slots. unfold joined_slot. rewrite Href. cbn.
  unfold active_dimension in Hd. apply bind_Some in Hd as (r & Hr & Hd).
  apply active_row_Some in Hr as [-> _]. done.
Qed.

Lemma joined_dims_at db m n s :
  at_slot (m_refs m) s = at_slot (m_refs n) s →
  get_slot (joined_dims db m) s = get_slot (joined_dims db n) s.
Proof.
  intros Href. unfold joined_dims. rewrite !get_of_slots. unfold joined_slot. by rewrite Href.
Qed.

Section references.
Context `{UnicodeData} (env : Env) (seen db : DB) (id : UUID).
Context (audit : MutationAuditMetadata) (changes : MasterCodeReferenceUpdate).
Hypothesis Hdb : db_ok db.
Hypothesis Hseen : db_ok seen.
Hypothesis Hbefore : rtc store_step seen db.
Hypothesis Hop : op_master_code (md_operations audit) = Some MC_REFERENCE_UPDATE.

(** *** The locking loop *)

Section loop.
Context (m0 : McRow).
Hypothesis Hm0 : mcs seen !! id = Some m0.

Abbreviation initial := (mc_of m0 (joined_dims seen m0)).
Definition identifiers (s : slot) : list UUID :=
  lock_identifiers (get_slot (joined_dims seen m0) s) (at_slot changes s).
Definition locked_dims (s : slot) : list (UUID * Dimension) :=
  omap (λ j, d ← active_dimension db s j; Some (j, d)) (identifiers s).

Lemma initial_ref s : dim_id <$> get_slot (joined_dims seen m0) s = at_slot (m_refs m0) s.
Proof.
  rewrite <- (dimension_ids_joined seen m0); [|apply Hseen|by eapply stored_refs_exist; [apply Hseen|]].
  unfold dimension_ids. by rewrite at_slots_of.
Qed.

Lemma lock_slot_ok s : lock_slot initial changes db s = Ok (locked_dims s).
Proof.
  unfold lock_slot, locked_dims. cbn. fold (identifiers s). induction (identifiers s) as [|j L IH]; [done|].
  cbn. unfold active_dimension. destruct (active_row s j db) as [r|] eqn:Er; cbn; [|exact IH].
  apply active_row_Some in Er as [Hr _]. destruct (so_dim _ (proj1 Hdb) _ _ _ Hr) as [Hid Hwf].
  destruct (row_to_domain_wf s r Hwf) as (d & -> & -> & _). cbn. rewrite Hid.
  unfold lock_slot in IH. by rewrite IH.
Qed.

Lemma locked_current s i : at_slot (m_refs m0) s = Some i → assoc i (locked_dims s) = active_dimension db s i.
Proof.
  rewrite <- initial_ref. intros (d & Hd & ->)%fmap_Some. unfold locked_dims, identifiers. rewrite Hd.
  rewrite assoc_omap. by rewrite bool_decide_eq_true_2 by apply lock_identifiers_current.
Qed.

Lemma locked_change s i :
  at_slot changes s = Some (RefExisting i) → assoc i (locked_dims s) = active_dimension db s i.
Proof.
  intros Hc. unfold locked_dims, identifiers. rewrite Hc, assoc_omap.
  by rewrite bool_decide_eq_true_2 by apply lock_identifiers_change.
Qed.

Lemma inactive_dimension s i :
  bool_decide (active_dimension db s i = None) = inactive_row s i db.
Proof. apply bool_decide_ext, active_dimension_None, Hdb. Qed.

Lemma lock_update_slot_ok st s :
  lock_update_slot initial changes db st s =
  (_ ← raise_if (stale_reference db m0 s) PreconditionFailed;
   Ok (slots_of (λ s', if bool_decide (s' = s) then locked_dims s else at_slot st.1 s'),
       st.2 ++ if invalid_change db changes s then [reference_field s] else [])).
Proof.
  unfold lock_update_slot. rewrite lock_slot_ok. cbn [mbind result_bind].
  assert (match get_slot (mc_dimensions initial) s with
    | None => Ok tt
    | Some d => raise_if (bool_decide (assoc (dim_id d) (locked_dims s) = None)) PreconditionFailed
    end = raise_if (stale_reference db m0 s) PreconditionFailed) as ->.
  { unfold stale_reference. cbn. pose proof (initial_ref s) as Hi.
    destruct (get_slot (joined_dims seen m0) s) as [d|]; cbn in Hi; rewrite <- Hi; [|done].
    by rewrite locked_current, inactive_dimension by done. }
  assert (match at_slot changes s with
    | Some (RefExisting i) =>
        if bool_decide (assoc i (locked_dims s) = None) then [reference_field s] else []
    | _ => []
    end = if invalid_change db changes s then [reference_field s] else []) as ->.
  { unfold invalid_change. destruct (at_slot changes s) as [[i|]|] eqn:E; [|done|done].
    by rewrite locked_change, inactive_dimension by done. }
  done.
Qed.

Lemma lock_loop l st :
  foldR (lock_update_slot initial changes db) st l =
  (_ ← raise_if (existsb (stale_reference db m0) l) PreconditionFailed;
   Ok (slots_of (λ s', if bool_decide (s' ∈ l) then locked_dims s' else at_slot st.1 s'),
       st.2 ++ (reference_field <$> List.filter (invalid_change db changes) l))).
Proof.
  revert st. induction l as [|s l IH]; intros st; cbn [foldR].
  { cbn. rewrite app_nil_r. destruct st as [st inv]. do 2 f_equal. apply slots_ext. intros s.
    by rewrite at_slots_of. }
  rewrite lock_update_slot_ok. cbn [existsb].
  destruct (stale_reference db m0 s); [done|]. cbn [raise_if mbind result_bind orb].
  rewrite IH. destruct (existsb (stale_reference db m0) l); [done|].
  cbn [raise_if mbind result_bind fst snd]. do 2 f_equal.
  - apply slots_ext. intros s'. rewrite !at_slots_of.
    assert (s' ∈ s :: l ↔ s' = s ∨ s' ∈ l) as Hiff by apply elem_of_cons.
    rewrite (bool_decide_ext _ _ Hiff). repeat case_bool_decide; naive_solver.
  - cbn [List.filter]. rewrite <- app_assoc. by destruct (invalid_change db changes s).
Qed.

Lemma lock_loop_ORDER :
  lock_reference_update_dimensions initial changes db =
  (_ ← raise_if (existsb (stale_reference db m0) ORDER) PreconditionFailed;
   Ok (slots_of locked_dims, reference_field <$> List.filter (invalid_change db changes) ORDER)).
Proof.
  unfold lock_reference_update_dimensions. rewrite lock_loop.
  destruct (existsb (stale_reference db m0) ORDER); [done|]. cbn [raise_if mbind result_bind fst snd app].
  assert (∀ f, slots_of (λ s', if bool_decide (s' ∈ ORDER) then locked_dims s' else at_slot f s') =
    slots_of locked_dims) as Hall; [|by rewrite Hall].
  intros f. apply slots_ext. intros s. rewrite !at_slots_of.
  by rewrite bool_decide_eq_true_2 by apply slot_in_ORDER.
Qed.
End loop.

(** *** The locked row *)

Section row.
Context (m : McRow).
Hypothesis Hm0 : mcs seen !! id = Some m.
Hypothesis Hm : mcs db !! id = Some m.
Hypothesis Hactive : m_deleted_at m = None.
Hypothesis Hstale : existsb (stale_reference db m) ORDER = false.
Hypothesis Hinvalid : List.filter (invalid_change db changes) ORDER = [].

Abbreviation cur := (mc_of m (joined_dims db m)).
Abbreviation new := (reference_row env db m changes).
Abbreviation t := (Z.max (env_clock env) (m_updated_at m)).
Abbreviation cx := (mkAuditContext audit t).

Lemma not_invalid s i : at_slot changes s = Some (RefExisting i) → is_Some (active_row s i db).
Proof.
  intros Hc. destruct (active_row s i db) eqn:E; [by eexists|]. exfalso.
  assert (s ∈ List.filter (invalid_change db changes) ORDER) as Hin.
  { apply elem_of_filter_bool. split; [apply slot_in_ORDER|]. unfold invalid_change, inactive_row.
    by rewrite Hc, E. }
  rewrite Hinvalid in Hin. by apply not_elem_of_nil in Hin.
Qed.

Lemma not_stale s i : at_slot (m_refs m) s = Some i → is_Some (active_row s i db).
Proof.
  intros Href. rewrite existsb_elem_of_false in Hstale. specialize (Hstale s (slot_in_ORDER s)).
  unfold stale_reference, inactive_row in Hstale. rewrite Href in Hstale.
  by destruct (active_row s i db); [eexists|].
Qed.

Lemma next_ref_active s i : at_slot (m_refs new) s = Some i → is_Some (active_row s i db).
Proof.
  cbn. unfold next_refs. rewrite at_slots_of. unfold slot_ref_change.
  destruct (at_slot changes s) as [[j|]|] eqn:Ec; [intros [= ->]|done|].
  - by apply not_invalid.
  - by apply not_stale.
Qed.

Lemma active_dimension_Some s i :
  is_Some (active_row s i db) → is_Some (active_dimension db s i).
Proof.
  rewrite <- !not_eq_None_Some. intros Hr Hd. apply Hr. by apply active_dimension_None in Hd; [|apply Hdb].
Qed.

Lemma new_refs_exist : refs_exist db new.
Proof.
  intros s i Href. destruct (next_ref_active s i Href) as [r Hr].
  apply active_row_Some in Hr as [Hr _]. by eexists.
Qed.

Lemma current_built :
  build_dimensions (λ s,
    match at_slot (m_refs m) s with
    | None => Ok None
    | Some i => match assoc i (at_slot (slots_of (locked_dims m)) s) with
                | Some d => Ok (Some d) | None => Raise KeyError end
    end) = Ok (joined_dims db m).
Proof.
  rewrite <- build_joined by apply Hdb. apply build_dimensions_ext. intros s.
  rewrite slot_to_domain_joined by apply Hdb. rewrite at_slots_of.
  destruct (at_slot (m_refs m) s) as [i|] eqn:Href.
  - rewrite (locked_current m Hm0 s i Href).
    destruct (active_dimension_Some s i (not_stale s i Href)) as [d Hd]. rewrite Hd. f_equal.
    symmetry. by eapply joined_active.
  - f_equal. symmetry. unfold joined_dims. rewrite get_of_slots. unfold joined_slot. by rewrite Href.
Qed.

Lemma next_built :
  build_dimensions (λ s, resolve_reference_update_slot (get_slot (joined_dims db m) s)
    (at_slot changes s) (at_slot (slots_of (locked_dims m)) s)) = Ok (joined_dims db new).
Proof.
  rewrite <- build_joined by apply Hdb. apply build_dimensions_ext. intros s.
  rewrite slot_to_domain_joined by apply Hdb. rewrite at_slots_of.
  assert (at_slot (m_refs new) s = slot_ref_change (at_slot (m_refs m) s) (at_slot changes s)) as Hnew.
  { cbn. unfold next_refs. by rewrite at_slots_of. }
  unfold resolve_reference_update_slot. destruct (at_slot changes s) as [[i|]|] eqn:Ec; cbn [slot_ref_change] in Hnew.
  - rewrite (locked_change m s i Ec).
    destruct (active_dimension_Some s i (not_invalid s i Ec)) as [d Hd]. rewrite Hd. f_equal.
    symmetry. by eapply joined_active.
  - f_equal. symmetry. unfold joined_dims. rewrite get_of_slots. unfold joined_slot. by rewrite Hnew.
  - f_equal. by apply joined_dims_at.
Qed.

Lemma new_code : m_code new = compose_row db new.
Proof. cbn. by apply compose_row_refs. Qed.

Lemma new_active s r : joined_slot db new s = Some r → r_deleted_at r = None.
Proof.
  intros (i & Href & Hr)%joined_slot_Some. destruct (next_ref_active s i Href) as [q Hq].
  apply active_row_Some in Hq as [Hq Hd]. congruence.
Qed.

Lemma same_ids_refs :
  bool_decide (dimension_ids (joined_dims db new) = dimension_ids (joined_dims db m)) =
    bool_decide (next_refs m changes = m_refs m) ∧
  (slot_ids (joined_dims db new) = slot_ids (joined_dims db m) → next_refs m changes = m_refs m).
Proof.
  assert (dimension_ids (joined_dims db new) = next_refs m changes) as Hn
    by (apply dimension_ids_joined; [apply Hdb|apply new_refs_exist]).
  assert (dimension_ids (joined_dims db m) = m_refs m) as Ho
    by (apply dimension_ids_joined; [apply Hdb|by eapply stored_refs_exist; [apply Hdb|]]).
  split; [by rewrite Hn, Ho|]. rewrite <- Hn, <- Ho. intros Hids.
  apply slots_ext. intros s. unfold dimension_ids. rewrite !at_slots_of.
  by apply (ordered_eq _ _ (fmap dim_id)).
Qed.

Lemma reference_domain :
  next_refs m changes ≠ m_refs m →
  MasterCodes.update_references cur (joined_dims db new) (utc t) = Ok (mc_of new (joined_dims db new)).
Proof.
  intros Hne. pose proof (mc_of_valid _ _ _ Hdb Hm) as [_ _ Hv _ _ Ho _ _]. cbn in Hv, Ho.
  unfold MasterCodes.update_references, mc_is_deleted, dt_ltb. cbn. rewrite Hactive. cbn.
  rewrite bool_decide_eq_false_2 by (intros E; by apply Hne, same_ids_refs).
  replace (_ <? _) with false by lia. cbn. apply MasterCode_init_Ok. unfold mc_of. cbn.
  rewrite compose_joined by apply Hdb. rewrite (compose_row_refs db new) by done. split; [done|].
  split; cbn; try done; try lia.
  - intros _ s d Hd. pose proof (joined_dims_slot db new s (proj1 Hdb)) as Hj.
    destruct (joined_slot db new s) as [r|] eqn:Er; [|congruence].
    destruct Hj as (d' & Hd' & Hrow & _). assert (d' = d) as -> by congruence.
    apply row_dimension_fields in Hrow as (_ & _ & _ & _ & _ & -> & _).
    unfold row_deleted. by rewrite (new_active s r Er).
  - symmetry. rewrite compose_joined by apply Hdb. by apply compose_row_refs.
Qed.

Lemma reference_write :
  next_refs m changes ≠ m_refs m →
  update_master_code cx m new db =
  (_ ← raise_if (refs_used (next_refs m changes) id db) (IntegrityError "uq_master_codes_code");
   Ok (mkDB (dims db) (<[id := new]> (mcs db)) (dim_logs db)
         (mc_logs db ++ [mc_update_log cx m new]))).
Proof.
  intros Hne. destruct (so_mc _ (proj1 Hdb) _ _ Hm) as [Hid [_ Hv Ho _ _]].
  assert (m_code new ≠ m_code m) as Hcode.
  { rewrite new_code, (cs_code _ (proj2 Hdb) _ _ Hm). intros E. apply Hne.
    apply (refs_from_codes db new m); [apply Hdb|apply new_refs_exist| |].
    - by eapply stored_refs_exist; [apply Hdb|].
    - by apply compose_row_inj; [apply Hdb..|]. }
  assert (mc_before_update cx m new = Ok tt) as Htrig.
  { unfold mc_before_update.
    change (cx_master_code_operation cx) with (op_master_code (md_operations audit)). rewrite Hop.
    rewrite (bool_decide_eq_false_2 _ Hcode). cbn.
    rewrite (bool_decide_eq_false_2 _ Hne), Hactive. cbn. rewrite !Z.eqb_refl. cbn.
    apply technical_fields_Ok. cbn. lia. }
  assert (ck_master_code new = Ok tt) as Hck.
  { apply ck_master_code_Ok. split_and!; cbn; [|lia|lia|done].
    rewrite <- compose_joined by apply Hdb. apply mc_code_pattern_compose, joined_dims_codes_wf, Hdb. }
  unfold update_master_code. rewrite Htrig, Hck. cbn [mbind result_bind].
  rewrite uq_master_code_refs by (done || apply new_refs_exist || apply new_code).
  assert (m_id new = id) as -> by done.
  change (m_refs new) with (next_refs m changes).
  destruct (refs_used (next_refs m changes) id db); [done|]. cbn [raise_if mbind result_bind].
  assert (fk_master_code new db = Ok tt) as ->; [|done].
  apply fk_master_code_Ok. apply new_refs_exist.
Qed.
End row.

Lemma active_mc_Some d i m : active_mc d i = Some m ↔ mcs d !! i = Some m ∧ m_deleted_at m = None.
Proof.
  unfold active_mc. rewrite bind_Some. split.
  - intros (n & Hn & Hd). case_bool_decide; naive_solver.
  - intros [Hn Hd]. exists m. split; [done|]. by rewrite bool_decide_eq_true_2.
Qed.

(** What the comparison of the locked row with the earlier read decides. *)
Lemma reference_lock_row m0 m :
  mcs seen !! id = Some m0 → m_deleted_at m0 = None → mcs db !! id = Some m →
  match active_mc db id with
  | None => Raise PreconditionFailed
  | Some record =>
      _ ← raise_if (negb (same_persisted_state record (mc_of m0 (joined_dims seen m0))))
            PreconditionFailed;
      Ok record
  end = (_ ← raise_if (negb (m_version m =? m_version m0)) PreconditionFailed; Ok m : res McRow).
Proof.
  intros Hm0 Hd0 Hm. destruct (same_state_spec seen db id Hseen Hbefore _ _ Hm0 Hm) as [Hs Heq].
  unfold active_mc. rewrite Hm. cbn. case_bool_decide as Hd; [by rewrite Hs|].
  destruct (m_version m =? m_version m0); [|done]. rewrite Heq in Hd; done.
Qed.

Lemma update_references_rows (expected_etag : pystr) :
  update_references env seen db id changes expected_etag audit =
  ('(row, db') ← reference_spec env seen db id changes expected_etag audit;
   Ok (mc_of row (joined_dims db row), db')).
Proof.
  unfold update_references, reference_spec.
  destruct (active_mc seen id) as [m0|] eqn:Ea; [|done].
  apply active_mc_Some in Ea as [Hm0 Hd0].
  destruct (store_steps_progress _ _ Hbefore) as [Hp _].
  destruct (Hp _ _ Hm0) as (m & Hm & _). clear Hp. rewrite Hm. cbn [mbind result_bind].
  rewrite (joined_to_domain_ok _ _ _ Hseen Hm0). cbn [mbind result_bind].
  rewrite lock_loop_ORDER by done.
  destruct (existsb (stale_reference db m0) ORDER) eqn:Hstale; [done|].
  cbn [raise_if mbind result_bind fst snd].
  assert (bool_decide (reference_field <$> List.filter (invalid_change db changes) ORDER = []) =
    bool_decide (List.filter (invalid_change db changes) ORDER = [])) as ->.
  { apply bool_decide_ext. by destruct (List.filter _ _). }
  case_bool_decide as Hinv; [|done]. cbn [negb raise_if mbind result_bind].
  rewrite (reference_lock_row _ _ Hm0 Hd0 Hm).
  destruct (same_state_spec seen db id Hseen Hbefore _ _ Hm0 Hm) as [_ Hsame].
  destruct (m_version m =? m_version m0); [|done]. specialize (Hsame eq_refl). subst m0.
  cbn [negb raise_if mbind result_bind]. rewrite (current_built m Hm0 Hstale). cbn [mbind result_bind].
  assert (master_code m (joined_dims db m) = Ok (mc_of m (joined_dims db m))) as ->.
  { apply MasterCode_init_Ok. split; [done|]. by eapply mc_of_valid. }
  cbn [mbind result_bind].
  destruct (bool_decide (etag (mc_of m (joined_dims db m)) = expected_etag)); [|done].
  cbn [negb raise_if mbind result_bind]. rewrite (next_built m Hinv).
  cbn [mbind result_bind]. rewrite (proj1 (same_ids_refs m Hm Hstale Hinv)).
  case_bool_decide as Hids; [done|].
  cbn [mc_of mc_updated_at]. rewrite set_context_utc. cbn [mbind result_bind fst snd].
  change (mkMasterCode (m_id m) (joined_dims db m) (m_code m) (m_version m) (utc (m_created_at m))
    (utc (m_updated_at m)) (utc <$> m_deleted_at m)) with (mc_of m (joined_dims db m)).
  rewrite (reference_domain m Hm Hd0 Hstale Hinv Hids). cbn [mbind result_bind].
  match goal with |- catch (update_master_code _ m ?row db ≫= _) _ = _ =>
    replace row with (reference_row env db m changes) end.
  2:{ unfold reference_row at 1. cbn. rewrite Hd0. f_equal.
      symmetry. apply dimension_ids_joined; [apply Hdb|by apply new_refs_exist]. }
  rewrite (reference_write m Hm Hd0 Hstale Hinv Hids).
  by destruct (refs_used (next_refs m changes) id db).
Qed.

Lemma reference_spec_ok (expected_etag : pystr) row db' :
  reference_spec env seen db id changes expected_etag audit = Ok (row, db') →
  db_ok db' ∧ ∃ m, mcs db !! id = Some m ∧ m_deleted_at m = None ∧
    etag (mc_of m (joined_dims db m)) = expected_etag ∧ dims db' = dims db ∧
    mcs db' = <[id := row]> (mcs db) ∧ m_refs row = next_refs m changes ∧
    (∀ s r, joined_slot db' row s = Some r → r_deleted_at r = None) ∧
    (row = m ∧ db' = db ∨ m_version row = m_version m + 1).
Proof.
  unfold reference_spec. intros Hok.
  destruct (active_mc seen id) as [m0|] eqn:Ea; [|done]. apply active_mc_Some in Ea as [Hm0 Hd0].
  destruct (mcs db !! id) as [m|] eqn:Hm; [|done].
  apply bind_Ok in Hok as (? & Hstale%raise_if_Ok & Hok).
  apply bind_Ok in Hok as (? & Hinv%raise_if_Ok%negb_false_iff%bool_decide_eq_true & Hok).
  apply bind_Ok in Hok as (? & Hver%raise_if_Ok%negb_false_iff & Hok).
  apply bind_Ok in Hok as (? & Het%raise_if_Ok%negb_false_iff%bool_decide_eq_true & Hok).
  apply (same_state_spec seen db id Hseen Hbefore _ _ Hm0 Hm) in Hver. subst m0.
  case_bool_decide as Hids.
  { injection Hok as <- <-. split; [done|]. exists m. split_and!; try done; [by rewrite insert_id| |by left].
    intros s r Hr. by apply (cs_active _ (proj2 Hdb) _ _ _ _ Hm Hd0 Hr). }
  apply bind_Ok in Hok as (? & Hused%raise_if_Ok & [= <- <-]).
  destruct (so_mc _ (proj1 Hdb) _ _ Hm) as [Hid _]. pose proof Hm as Hm'. rewrite <- Hid in Hm'.
  pose proof (reference_write m Hm Hd0 Hstale Hinv Hids) as Hw. rewrite Hused in Hw.
  split.
  - eapply update_mc_db_ok; [exact Hdb|exact Hm'|exact Hw|apply new_code|].
    intros _ s r. by apply (new_active m).
  - exists m. split_and!; try done; [|by right]. intros s r. rewrite (joined_slot_ext db) by done.
    by apply (new_active m).
Qed.
End references.

(** ** Creation *)

Definition plan_refs (env : Env) (plan : MasterCodeCreatePlan) : Slots (option UUID) :=
  slots_of (λ s, match at_slot plan s with
                 | NotApplicable => None
                 | ExistingDimension i => Some i
                 | InlineDimension _ _ => Some (env_dim_id env s)
                 end).

Definition inline_row (env : Env) (s : slot) (code : DimensionCode) (value : dim_value) : DimRow :=
  mkDimRow (env_dim_id env s) (code_value code) (value_to_row value) 1 (env_clock env)
    (env_clock env) None.

(** The conflict an inline Dimension is reported with: what the search finds,
    or the violated constraint when the conflicting row is gone. *)
Definition inline_conflict (s : slot) (code : DimensionCode) (value : dim_value) (seen : DB)
    (violated : option bool) : option exn :=
  let code_conflict := code_used s (code_value code) seen in
  let value_conflict := key_used s (row_key (value_to_row value)) seen in
  if code_conflict || value_conflict
  then Some (InlineDimensionConflict (slot_name s) code_conflict value_conflict)
  else (λ by_code : bool, InlineDimensionConflict (slot_name s) by_code (negb by_code)) <$> violated.

Definition raise_some {A} (e : option exn) (k : res A) : res A :=
  match e with Some e => Raise e | None => k end.

Definition create_slot_spec (env : Env) (c : AuditContext) (seen requery : DB)
    (plan : MasterCodeCreatePlan) (st : DB * list string) (s : slot) : res (DB * list string) :=
  match at_slot plan s with
  | NotApplicable => Ok st
  | ExistingDimension i =>
      Ok (st.1, st.2 ++ if inactive_row s i st.1 then [reference_field s] else [])
  | InlineDimension code value =>
      let row := inline_row env s code value in
      raise_some (inline_conflict s code value seen None)
      (if code_used s (code_value code) st.1
       then raise_some (inline_conflict s code value requery (Some true)) (Ok st)
       else if key_used s (row_key (value_to_row value)) st.1
       then raise_some (inline_conflict s code value requery (Some false)) (Ok st)
       else Ok (mkDB (<[(s, r_id row) := row]> (dims st.1)) (mcs st.1)
                  (dim_logs st.1 ++ dim_insert_logs c s row) (mc_logs st.1), st.2))
  end.

Definition created_mc_row (env : Env) (db : DB) (plan : MasterCodeCreatePlan) : McRow :=
  let with_code code :=
    mkMcRow (env_mc_id env) (plan_refs env plan) code 1 (env_clock env) (env_clock env) None in
  with_code (compose_row db (with_code [])).

Definition create_mc_spec (env : Env) (seen requery db : DB) (plan : MasterCodeCreatePlan)
    (audit : MutationAuditMetadata) : res (McRow * DB) :=
  let c := mkAuditContext audit (env_clock env) in
  '(db1, invalid) ← foldR (create_slot_spec env c seen requery plan) (db, []) ORDER;
  _ ← raise_if (negb (bool_decide (invalid = []))) (InvalidDimensionReference invalid);
  let row := created_mc_row env db1 plan in
  _ ← raise_if (refs_used (plan_refs env plan) (env_mc_id env) db1) MasterCodeConflict;
  Ok (row, mkDB (dims db1) (<[m_id row := row]> (mcs db1)) (dim_logs db1)
             (mc_logs db1 ++ [mc_insert_log c row])).

Lemma find_inline_conflicts_used s code value seen :
  find_inline_conflicts s code value seen =
  (code_used s (code_value code) seen, key_used s (row_key (value_to_row value)) seen).
Proof.
  unfold find_inline_conflicts. rewrite !existsb_filter. f_equal; apply existsb_ext'; intros r _.
  - by destruct (bool_decide (r_code r = code_value code)); [|rewrite andb_false_r].
  - destruct (bool_decide (row_key (r_value r) = _)); [|by rewrite andb_false_r].
    by rewrite orb_true_r.
Qed.

Lemma translate_inline {A} (plan : MasterCodeCreatePlan) requery s (by_code : bool) code value :
  at_slot plan s = InlineDimension code value →
  translate_integrity_error (A := A) plan requery
    (IntegrityError (if by_code then code_constraint s else value_constraint s)) =
  raise_some (inline_conflict s code value requery (Some by_code)) (Raise AssertionError).
Proof.
  intros Hplan.
  assert (translate_integrity_error (A := A) plan requery
    (IntegrityError (if by_code then code_constraint s else value_constraint s)) =
    match at_slot plan s with
    | InlineDimension code value =>
        let '(cc, vc) := find_inline_conflicts s code value requery in
        if cc || vc then Raise (InlineDimensionConflict (slot_name s) cc vc)
        else Raise (InlineDimensionConflict (slot_name s) by_code (negb by_code))
    | _ => Raise (InlineDimensionConflict (slot_name s) by_code (negb by_code))
    end) as -> by by destruct s, by_code.
  rewrite Hplan, find_inline_conflicts_used. unfold inline_conflict.
  by destruct (code_used _ _ _ || key_used _ _ _).
Qed.

Section create.
Context `{UnicodeData} (env : Env) (seen requery db : DB).
Context (audit : MutationAuditMetadata) (plan : MasterCodeCreatePlan).
Hypothesis Hdb : db_ok db.
Hypothesis Hop : op_master_code (md_operations audit) = Some MC_CREATE.
Hypothesis Hfresh : mcs db !! env_mc_id env = None.
Hypothesis Hplan : ∀ s code value, at_slot plan s = InlineDimension code value →
  op_dimension (md_operations audit) = Some DIM_CREATE ∧
  code_wf code = true ∧ value_for s value ∧ dims db !! (s, env_dim_id env s) = None.

Abbreviation t := (env_clock env).
Abbreviation cx := (mkAuditContext audit t).

Record create_inv (processed : list slot) (st : CreateState) : Prop := {
  ci_db : db_ok (st_db st);
  ci_mcs : mcs (st_db st) = mcs db;
  ci_fresh : ∀ s code value, s ∉ processed → at_slot plan s = InlineDimension code value →
    dims (st_db st) !! (s, env_dim_id env s) = None;
  ci_active : st_invalid st = [] → ∀ s i, s ∈ processed → at_slot (plan_refs env plan) s = Some i →
    is_Some (active_row s i (st_db st));
  ci_resolved : st_invalid st = [] → ∀ s, s ∈ processed →
    get_slot (st_resolved st) s =
      (i ← at_slot (plan_refs env plan) s; active_dimension (st_db st) s i);
}.

Lemma get_set_slot d s x s' :
  get_slot (set_slot d s x) s' = if bool_decide (s' = s) then x else get_slot d s'.
Proof. unfold set_slot. by rewrite get_of_slots. Qed.

Lemma lock_reference_ok d s i : store_ok d → lock_reference s d i = Ok (active_dimension d s i).
Proof.
  intros Hok. unfold lock_reference, active_dimension.
  destruct (active_row s i d) as [r|] eqn:E; [|done]. cbn. apply active_row_Some in E as [Hr _].
  destruct (so_dim _ Hok _ _ _ Hr) as [_ Hwf].
  by destruct (row_to_domain_wf s r Hwf) as (x & -> & -> & _).
Qed.

Lemma plan_ref_at s : at_slot (plan_refs env plan) s =
  match at_slot plan s with
  | NotApplicable => None | ExistingDimension i => Some i
  | InlineDimension _ _ => Some (env_dim_id env s)
  end.
Proof. unfold plan_refs. by rewrite at_slots_of. Qed.

(** A slot resolved without touching the database. *)
Lemma create_inv_keep processed st s x inv :
  create_inv processed st → s ∉ processed → (inv = [] → st_invalid st = []) →
  (inv = [] → x = (i ← at_slot (plan_refs env plan) s; active_dimension (st_db st) s i) ∧
     ∀ i, at_slot (plan_refs env plan) s = Some i → is_Some (active_row s i (st_db st))) →
  create_inv (s :: processed) (mkCreateState (st_db st) (set_slot (st_resolved st) s x) inv).
Proof.
  intros [Hd Hm Hf Ha Hr] Hs Hinv Hx. split; cbn; [done|done| | |].
  - intros s' code value Hs'. apply Hf. set_solver.
  - intros Hi s' i [->|Hs']%elem_of_cons Hi'; [by apply Hx|by apply Ha; auto].
  - intros Hi s' Hs'. rewrite get_set_slot. case_bool_decide as E; [subst; by apply Hx|].
    apply Hr; [auto|set_solver].
Qed.

Lemma create_inv_ext processed st st' :
  create_inv processed st → st_db st' = st_db st → st_invalid st' = st_invalid st →
  (∀ s, get_slot (st_resolved st') s = get_slot (st_resolved st) s) → create_inv processed st'.
Proof.
  intros [Hd Hm Hf Ha Hr] E1 E2 E3. split; rewrite ?E1, ?E2; try done. intros Hi s Hs.
  rewrite E3. by apply Hr.
Qed.

(** A slot resolved by inserting its row. *)
Lemma create_inv_insert processed st s code value db' d :
  create_inv processed st → s ∉ processed → at_slot plan s = InlineDimension code value →
  insert_dimension cx s (inline_row env s code value) (st_db st) = Ok db' →
  row_dimension s (inline_row env s code value) = Some d →
  create_inv (s :: processed) (mkCreateState db' (set_slot (st_resolved st) s (Some d)) (st_invalid st)).
Proof.
  intros [Hd Hm Hf Ha Hr] Hs Hp Hins Hrow.
  pose proof (insert_dimension_db_ok _ _ _ _ _ Hd Hins) as Hd'.
  apply insert_dimension_result in Hins as [Hnew Hdb'].
  assert (∀ s' i, s' ≠ s → active_row s' i db' = active_row s' i (st_db st)) as Hsame.
  { intros s' i Hne. rewrite Hdb'. unfold active_row. cbn. rewrite lookup_insert_ne; [done|congruence]. }
  assert (active_row s (env_dim_id env s) db' = Some (inline_row env s code value)) as Hown.
  { apply active_row_Some. rewrite Hdb'. cbn. by rewrite lookup_insert_eq. }
  split; cbn; [done|by rewrite Hdb'| | |].
  - intros s' c v Hs' Hp'. rewrite Hdb'. cbn. rewrite lookup_insert_ne by (intros [= -> _]; set_solver).
    eapply Hf; [set_solver|done].
  - intros Hi s' i [->|Hs']%elem_of_cons Href.
    + rewrite plan_ref_at, Hp in Href. injection Href as <-. rewrite Hown. by eexists.
    + rewrite Hsame by (intros ->; done). by apply Ha.
  - intros Hi s' Hs'. rewrite get_set_slot. case_bool_decide as E.
    + rewrite E, plan_ref_at, Hp. cbn. unfold active_dimension. rewrite Hown. cbn. by rewrite Hrow.
    + rewrite Hr by (done || set_solver). unfold active_dimension.
      destruct (at_slot (plan_refs env plan) s') as [i|]; [|done]. cbn. by rewrite Hsame.
Qed.

Lemma create_step processed st s :
  create_inv processed st → s ∉ processed →
  match create_slot env cx seen plan (utc t) st s,
        create_slot_spec env cx seen requery plan (st_db st, st_invalid st) s with
  | Ok st', Ok p => p = (st_db st', st_invalid st') ∧ create_inv (s :: processed) st'
  | Raise e, Raise e' =>
      translate_integrity_error (A := MasterCode * DB) plan requery e = Raise e'
  | _, _ => False
  end.
Proof.
  intros Hinv Hs. pose proof Hinv as [Hd Hm Hf Ha Hr]. unfold create_slot, create_slot_spec.
  pose proof (plan_ref_at s) as Href.
  destruct (at_slot plan s) as [i|code value|] eqn:Hp; cbn [st_db st_invalid fst snd].
  - rewrite lock_reference_ok by apply Hd. cbn [mbind result_bind].
    assert (inactive_row s i (st_db st) = bool_decide (active_dimension (st_db st) s i = None)) as ->.
    { apply bool_decide_ext. symmetry. apply active_dimension_None, Hd. }
    destruct (active_dimension (st_db st) s i) as [d|] eqn:Ed; cbn; (split; [by rewrite ?app_nil_r|]).
    + apply create_inv_keep; try done. intros _. rewrite Href. cbn. split; [done|].
      intros j [= <-]. apply not_eq_None_Some. intros E. apply active_dimension_None in E; [|apply Hd].
      congruence.
    + apply create_inv_ext with (mkCreateState (st_db st)
        (set_slot (st_resolved st) s (get_slot (st_resolved st) s)) (st_invalid st ++ [reference_field s]));
        [|done|done|].
      * apply create_inv_keep; try done; intros E; by apply app_nil in E as [_ ?].
      * intros s'. cbn. rewrite get_set_slot. by case_bool_decide; [subst|].
  - destruct (Hplan s code value Hp) as (Hopd & Hcw & Hvf & _).
    pose proof (Hf s code value Hs Hp) as Hfr.
    unfold create_inline. rewrite find_inline_conflicts_used. cbv beta iota zeta.
    assert (inline_conflict s code value seen None =
      if code_used s (code_value code) seen || key_used s (row_key (value_to_row value)) seen
      then Some (InlineDimensionConflict (slot_name s) (code_used s (code_value code) seen)
             (key_used s (row_key (value_to_row value)) seen)) else None) as -> by done.
    destruct (code_used s (code_value code) seen || key_used s (row_key (value_to_row value)) seen);
      [done|]. cbn [raise_if raise_some mbind result_bind].
    change (mkDimRow (env_dim_id env s) (code_value code) (value_to_row value) 1
      (instant (utc t)) (instant (utc t)) None) with (inline_row env s code value).
    pose proof (insert_created (mkEnv t t (env_dim_id env) (env_mc_id env)) (st_db st) s audit code value
      Hd Hopd Hcw Hvf Hfr cx eq_refl) as Hins.
    change (created_row (mkEnv t t (env_dim_id env) (env_mc_id env)) s code value) with
      (inline_row env s code value) in Hins.
    pose proof (created_row_wf (mkEnv t t (env_dim_id env) (env_mc_id env)) s code value Hcw Hvf) as Hwf.
    change (created_row (mkEnv t t (env_dim_id env) (env_mc_id env)) s code value) with
      (inline_row env s code value) in Hwf.
    destruct (row_to_domain_wf s _ Hwf) as (d & Hrow & Hdom & _).
    destruct (code_used s (code_value code) (st_db st)).
    { rewrite Hins. cbn [raise_if mbind result_bind].
      pose proof (translate_inline (A := MasterCode * DB) plan requery s true code value Hp) as Ht.
      unfold inline_conflict in *. cbn [negb fmap option_fmap option_map] in *.
      by destruct (code_used _ _ requery || key_used _ _ requery). }
    destruct (key_used s (row_key (value_to_row value)) (st_db st)).
    { rewrite Hins. cbn [raise_if mbind result_bind].
      pose proof (translate_inline (A := MasterCode * DB) plan requery s false code value Hp) as Ht.
      unfold inline_conflict in *. cbn [negb fmap option_fmap option_map] in *.
      by destruct (code_used _ _ requery || key_used _ _ requery). }
    cbn [raise_if mbind result_bind] in Hins. pose proof Hins as Hins'. rewrite Hins.
    cbn [mbind result_bind]. rewrite Hdom. cbn [mbind result_bind]. split; [done|].
    by eapply create_inv_insert.
  - split; [done|]. apply create_inv_keep; try done. intros _. by rewrite Href.
Qed.

Lemma create_loop l processed st :
  create_inv processed st → NoDup l → (∀ s, s ∈ l → s ∉ processed) →
  match foldR (create_slot env cx seen plan (utc t)) st l,
        foldR (create_slot_spec env cx seen requery plan) (st_db st, st_invalid st) l with
  | Ok st', Ok p => p = (st_db st', st_invalid st') ∧ create_inv (reverse l ++ processed) st'
  | Raise e, Raise e' =>
      translate_integrity_error (A := MasterCode * DB) plan requery e = Raise e'
  | _, _ => False
  end.
Proof.
  revert processed st. induction l as [|s l IH]; intros processed st Hinv Hnd Hl.
  { cbn [foldR]. split; [done|]. by rewrite reverse_nil. }
  cbn [foldR]. apply NoDup_cons in Hnd as [Hs Hnd].
  pose proof (create_step processed st s Hinv (Hl s ltac:(by left))) as Hstep.
  destruct (create_slot env cx seen plan (utc t) st s) as [st1|e],
    (create_slot_spec env cx seen requery plan (st_db st, st_invalid st) s) as [p|e'];
    cbn [mbind result_bind]; try done.
  destruct Hstep as [-> Hinv1]. rewrite reverse_cons, <- app_assoc. apply IH; [done|done|].
  intros s' Hs' [->|Hs'']%elem_of_cons; [done|]. eapply Hl; [by right|done].
Qed.


Lemma create_inv_ORDER st : create_inv (reverse ORDER) st → create_inv ORDER st.
Proof.
  intros [Hd Hm Hf Ha Hr]. split; [done|done| | |].
  - intros s code value Hs. apply Hf. by rewrite elem_of_reverse.
  - intros Hi s i Hs. apply Ha; [done|by rewrite elem_of_reverse].
  - intros Hi s Hs. apply Hr; [done|by rewrite elem_of_reverse].
Qed.

Lemma create_inv_start : create_inv [] (mkCreateState db no_dimensions []).
Proof.
  split; cbn; try done.
  - intros s code value _ Hp. by apply Hplan in Hp as (_ & _ & _ & ?).
  - intros _ s i Hs. by apply not_elem_of_nil in Hs.
  - intros _ s Hs. by apply not_elem_of_nil in Hs.
Qed.

(** The row written after the loop. *)
Section finish.
Context (st : CreateState).
Hypothesis Hinv : create_inv ORDER st.
Hypothesis Hvalid : st_invalid st = [].

Abbreviation row := (created_mc_row env (st_db st) plan).

Lemma created_refs_active s i : at_slot (m_refs row) s = Some i → is_Some (active_row s i (st_db st)).
Proof. intros Href. apply (ci_active _ _ Hinv Hvalid); [apply slot_in_ORDER|done]. Qed.

Lemma created_refs_exist : refs_exist (st_db st) row.
Proof.
  intros s i Href. destruct (created_refs_active s i Href) as [r Hr].
  apply active_row_Some in Hr as [Hr _]. by eexists.
Qed.

Lemma created_joined : st_resolved st = joined_dims (st_db st) row.
Proof.
  apply get_slot_ext. intros s. rewrite (ci_resolved _ _ Hinv Hvalid) by apply slot_in_ORDER.
  unfold joined_dims. rewrite get_of_slots. unfold joined_slot, active_dimension. cbn [created_mc_row m_refs].
  destruct (at_slot (plan_refs env plan) s) as [i|] eqn:Href; [|done]. cbn.
  destruct (created_refs_active s i Href) as [r Hr]. rewrite Hr.
  by apply active_row_Some in Hr as [-> _].
Qed.

Lemma created_active s r : joined_slot (st_db st) row s = Some r → r_deleted_at r = None.
Proof.
  intros (i & Href & Hr)%joined_slot_Some. destruct (created_refs_active s i Href) as [q Hq].
  apply active_row_Some in Hq as [Hq Hd]. congruence.
Qed.

Lemma created_code : m_code row = compose_row (st_db st) row.
Proof. cbn. by apply compose_row_refs. Qed.

Lemma created_insert :
  insert_master_code cx row (st_db st) =
  (_ ← raise_if (refs_used (plan_refs env plan) (env_mc_id env) (st_db st))
         (IntegrityError "uq_master_codes_code");
   Ok (mkDB (dims (st_db st)) (<[m_id row := row]> (mcs (st_db st))) (dim_logs (st_db st))
         (mc_logs (st_db st) ++ [mc_insert_log cx row]))).
Proof.
  pose proof (ci_db _ _ Hinv) as Hd.
  assert (mc_before_insert cx row = Ok tt) as Htrig by by apply mc_before_insert_Ok.
  assert (ck_master_code row = Ok tt) as Hck.
  { apply ck_master_code_Ok. rewrite created_code. cbn. split_and!; [|done|done|done].
    rewrite <- compose_joined by apply Hd. apply mc_code_pattern_compose, joined_dims_codes_wf, Hd. }
  unfold insert_master_code. rewrite Htrig, Hck. cbn [mbind result_bind].
  rewrite bool_decide_eq_false_2; [|rewrite (ci_mcs _ _ Hinv); cbn; rewrite Hfresh; by intros []].
  cbn [raise_if mbind result_bind].
  rewrite uq_master_code_refs; [|done|apply created_refs_exist|apply created_code].
  change (m_refs row) with (plan_refs env plan). change (m_id row) with (env_mc_id env).
  destruct (refs_used (plan_refs env plan) (env_mc_id env) (st_db st)); [done|].
  cbn [raise_if mbind result_bind].
  assert (fk_master_code row (st_db st) = Ok tt) as ->; [|done].
  apply fk_master_code_Ok, created_refs_exist.
Qed.

Lemma created_master_code :
  master_code row (joined_dims (st_db st) row) = Ok (mc_of row (joined_dims (st_db st) row)).
Proof.
  pose proof (proj1 (ci_db _ _ Hinv)) as Hok. unfold master_code, mc_of.
  apply MasterCode_init_Ok. split; [done|]. split; cbn; try done.
  - intros _ s d Hs. pose proof (joined_dims_slot (st_db st) row s Hok) as Hj.
    destruct (joined_slot (st_db st) row s) as [r|] eqn:Er; [|congruence].
    destruct Hj as (d' & Hd' & Hrow & _). assert (d' = d) as -> by congruence.
    apply row_dimension_fields in Hrow as (_ & _ & _ & _ & _ & -> & _).
    unfold row_deleted. by rewrite (created_active s r Er).
  - rewrite compose_joined by done. by apply compose_row_refs.
Qed.
End finish.

Lemma create_rows :
  create env seen requery db plan audit =
  ('(row, db') ← create_mc_spec env seen requery db plan audit;
   Ok (mc_of row (joined_dims db' row), db')).
Proof.
  unfold create, create_mc_spec. cbn [set_context raise_if mbind result_bind fst snd].
  pose proof (create_loop ORDER [] _ create_inv_start ORDER_NoDup ltac:(set_solver)) as Hloop. cbn [st_db st_invalid] in Hloop.
  change (DateTime t (Some 0)) with (utc t).
  destruct (foldR (create_slot env cx seen plan (utc t)) (mkCreateState db no_dimensions []) ORDER)
    as [st|e], (foldR (create_slot_spec env cx seen requery plan) (db, []) ORDER) as [p|e'];
    cbn [mbind result_bind catch]; try done.
  destruct Hloop as [-> Hinv]. rewrite app_nil_r in Hinv.
  pose proof (create_inv_ORDER _ Hinv) as Hinv'.
  case_bool_decide as Hvalid; [|done]. cbn [negb raise_if mbind result_bind].
  pose proof (ci_db _ _ Hinv') as Hd. rewrite (created_joined st Hinv' Hvalid).
  assert (MasterCodeDimensions_init (joined_dims (st_db st) (created_mc_row env (st_db st) plan)) =
    Ok (joined_dims (st_db st) (created_mc_row env (st_db st) plan))) as ->.
  { exact (proj2 (build_dimensions_Ok _ _ (build_joined _ _ (proj1 Hd)))). }
  cbn [mbind result_bind].
  set (row := created_mc_row env (st_db st) plan).
  assert (mkMcRow (env_mc_id env) (dimension_ids (joined_dims (st_db st) row))
    (compose (joined_dims (st_db st) row)) 1 (instant (utc t)) (instant (utc t)) None = row) as ->.
  { assert (dimension_ids (joined_dims (st_db st) row) = m_refs row) as ->
      by exact (dimension_ids_joined _ _ (proj1 Hd) (created_refs_exist st Hinv' Hvalid)).
    rewrite compose_joined by apply Hd.
    assert (compose_row (st_db st) row = m_code row) as -> by (symmetry; apply created_code). done. }
  unfold row. rewrite (created_insert st Hinv' Hvalid).
  destruct (refs_used (plan_refs env plan) (env_mc_id env) (st_db st)); [done|].
  cbn [raise_if mbind result_bind catch]. rewrite (created_master_code st Hinv' Hvalid).
  cbn [mbind result_bind catch]. done.
Qed.

Lemma create_mc_spec_ok row db' :
  create_mc_spec env seen requery db plan audit = Ok (row, db') →
  db_ok db' ∧ mcs db' = <[env_mc_id env := row]> (mcs db) ∧ m_id row = env_mc_id env ∧
  m_refs row = plan_refs env plan ∧ m_version row = 1 ∧ m_deleted_at row = None ∧
  (∀ s r, joined_slot db' row s = Some r → r_deleted_at r = None).
Proof.
  unfold create_mc_spec. intros Hok.
  pose proof (create_loop ORDER [] _ create_inv_start ORDER_NoDup ltac:(set_solver)) as Hloop.
  cbn [st_db st_invalid] in Hloop. apply bind_Ok in Hok as ([db1 invalid] & Hfold & Hok).
  rewrite Hfold in Hloop.
  destruct (foldR (create_slot env cx seen plan (utc t)) (mkCreateState db no_dimensions []) ORDER)
    as [st|e]; [|done].
  destruct Hloop as [[= -> ->] Hinv]. rewrite app_nil_r in Hinv. apply create_inv_ORDER in Hinv.
  apply bind_Ok in Hok as (? & Hvalid%raise_if_Ok%negb_false_iff%bool_decide_eq_true & Hok).
  apply bind_Ok in Hok as (? & Hused%raise_if_Ok & [= <- <-]).
  pose proof (created_insert st Hinv Hvalid) as Hins. rewrite Hused in Hins.
  split.
  - eapply insert_mc_db_ok; [apply (ci_db _ _ Hinv)|exact Hins|apply created_code|].
    intros _. by apply created_active.
  - split_and!; [cbn; by rewrite (ci_mcs _ _ Hinv)|done|done|done|done|].
    intros s r. rewrite (joined_slot_ext (st_db st)) by done. by apply created_active.
Qed.
End create.
