(* ===== verification/Transactions.v ===== *)
(** * The repository transactions, together

    The claims about the repositories: each transaction computes its reference
    definition, raises documented exceptions only, and keeps the database
    consistent; and what a client reads back from any database the
    transactions can produce. *)

From S2P Require Import Prelude Python Exceptions Auth MutationAudit Dimensions MasterCodes Store Records Invariant Consistency Pagination DimensionRepos DimensionSpecs DimensionLifecycle MasterCodeRepo MasterCodeSpecs.
Local Open Scope Z_scope.

(** ** A sample database

    Two companies and a MasterCode that references the first, as the
    repositories leave them. *)

Definition sample_audit (d : option DimensionOperation) (m : option MasterCodeOperation)
    : MutationAuditMetadata :=
  mkMutationAuditMetadata (test_uuid7 1) (AuditActor_human 5 ADMIN) (mkMutationOperations d m) None.
Definition sample_context (d : option DimensionOperation) (m : option MasterCodeOperation) (t : Z)
    : AuditContext := mkAuditContext (sample_audit d m) t.
Definition sample_env (t : Z) (dim_id mc_id : UUID) : Env := mkEnv t t (λ _, dim_id) mc_id.
Definition no_refs : Slots (option UUID) := slots_of (λ _, None).

Definition sample_company1 : DimRow :=
  mkDimRow 1 (py "SAM") (RString (py "SAMSUNG")) 1 100 100 None.
Definition sample_company2 : DimRow :=
  mkDimRow 2 (py "LG") (RString (py "LG")) 1 110 110 None.
Definition sample_refs : Slots (option UUID) :=
  mkSlots (Some 1) None None None None None None None.
Definition sample_mc : McRow :=
  mkMcRow 9 sample_refs (py "SAM-NNN-NNN-NNN-NNN-NNN-NNN-NNN") 1 120 120 None.

Definition sample_steps : res DB :=
  db1 ← insert_dimension (sample_context (Some DIM_CREATE) None 100) Company sample_company1 empty_db;
  db2 ← insert_dimension (sample_context (Some DIM_CREATE) None 110) Company sample_company2 db1;
  insert_master_code (sample_context None (Some MC_CREATE) 120) sample_mc db2.
Definition sample_db : DB := match sample_steps with Ok db => db | Raise _ => empty_db end.

Lemma empty_db_ok : db_ok empty_db.
Proof.
  split; [apply store_ok_empty|]. split; intros ???; cbn; by rewrite ?lookup_empty.
Qed.

Lemma sample_steps_Ok : sample_steps = Ok sample_db.
Proof. vm_compute. reflexivity. Qed.

Lemma sample_db_ok : db_ok sample_db.
Proof.
  pose proof sample_steps_Ok as Hs. unfold sample_steps in Hs.
  apply bind_Ok in Hs as (db1 & H1 & Hs). apply bind_Ok in Hs as (db2 & H2 & H3).
  pose proof (insert_dimension_db_ok _ _ _ _ _ empty_db_ok H1) as Hdb1.
  pose proof (insert_dimension_db_ok _ _ _ _ _ Hdb1 H2) as Hdb2.
  apply insert_dimension_result in H1 as [_ ->]. apply insert_dimension_result in H2 as [_ ->].
  eapply insert_mc_db_ok; [exact Hdb2|exact H3|vm_compute; reflexivity|].
  intros _ s r. destruct s; vm_compute; by intros [= <-].
Qed.

(** ** Each transaction computes its reference definition *)

Section unicode.
Context `{UnicodeData}.

(** C3: updating a Dimension.  On a consistent database, whatever earlier state
    the conflict search saw, [update_value] with an audit context for it
    returns exactly what the reference definition on rows returns: the row is
    missing or stale, nothing changes, a code or value is taken, or the row,
    its log and every MasterCode that references it advance together.  No
    other outcome (trigger error, MasterCode conflict, failed validation or
    recomposition) is possible. *)
Theorem update_value_refines (env : Env) (seen db : DB) (s : slot) (id : UUID) (version : Z)
    (value : option dim_value) (audit : MutationAuditMetadata) (code : option DimensionCode) :
  db_ok db → op_dimension (md_operations audit) = Some DIM_UPDATE →
  (code ≠ None → op_master_code (md_operations audit) = Some MC_RECOMPOSE) →
  (∀ c, code = Some c → code_wf c = true) → (∀ v, value = Some v → value_for s v) →
  update_value (repository_of s) env seen db id version value audit code =
  ('(row, db') ← update_spec (repository_of s) env seen db id version value audit code;
   d ← row_to_domain s row; Ok (d, db')).
Proof. intros. by apply update_value_rows. Qed.

(** C2: recomposition.  A successful update of a Dimension changes no other
    Dimension, and each MasterCode either is unchanged or references the
    Dimension and advances to its next version with its references and
    deletion state kept; in either case its code is the composition of the
    codes its references have now. *)
Theorem update_value_recomposes (env : Env) (seen db db' : DB) (s : slot) (id : UUID) (version : Z)
    (value : option dim_value) (audit : MutationAuditMetadata) (code : option DimensionCode)
    (d : Dimension) :
  db_ok db → op_dimension (md_operations audit) = Some DIM_UPDATE →
  (code ≠ None → op_master_code (md_operations audit) = Some MC_RECOMPOSE) →
  (∀ c, code = Some c → code_wf c = true) → (∀ v, value = Some v → value_for s v) →
  update_value (repository_of s) env seen db id version value audit code = Ok (d, db') →
  (∀ s' id', (s', id') ≠ (s, id) → dims db' !! (s', id') = dims db !! (s', id')) ∧
  ∀ k, match mcs db !! k with
       | None => mcs db' !! k = None
       | Some m => ∃ m', mcs db' !! k = Some m' ∧ m_code m' = compose_row db' m' ∧
           (m' = m ∨ at_slot (m_refs m) s = Some id ∧ m_refs m' = m_refs m ∧
            m_deleted_at m' = m_deleted_at m ∧ m_version m' = m_version m + 1)
       end.
Proof.
  intros Hdb Hop Hmc Hcode Hvalue Hok. rewrite update_value_rows in Hok by done.
  apply bind_Ok in Hok as ([row db1] & Hspec & Hok). apply bind_Ok in Hok as (? & _ & [= -> ->]).
  pose proof Hspec as Hspec'. apply update_spec_ok in Hspec' as (Hdb' & Hdims & _ & _); [|done..].
  split; [intros s' id' Hne; by rewrite Hdims, lookup_insert_ne|].
  intros k. assert (match mcs db !! k with
    | None => mcs db' !! k = None
    | Some m => ∃ m', mcs db' !! k = Some m' ∧ (m' = m ∨ at_slot (m_refs m) s = Some id ∧
        m_refs m' = m_refs m ∧ m_deleted_at m' = m_deleted_at m ∧ m_version m' = m_version m + 1)
    end) as Hk.
  { clear -Hspec Hdb. unfold update_spec in Hspec. rewrite cf_slot_repository in Hspec.
    destruct (active_row s id db) as [r|] eqn:Er; [|done]. apply active_row_Some in Er as [Hr _].
    destruct (so_dim _ (proj1 Hdb) _ _ _ Hr) as [Hid _].
    apply bind_Ok in Hspec as (_ & _ & Hspec).
    destruct (negb (code_changes r code) && negb (value_changes r value)).
    { injection Hspec as <- <-. destruct (mcs db !! k); eauto. }
    do 3 (apply bind_Ok in Hspec as (_ & _ & Hspec)). injection Hspec as _ <-. cbn.
    destruct (code_changes r code); [|destruct (mcs db !! k); eauto].
    rewrite lookup_fmap. destruct (mcs db !! k) as [m|]; [|done]. cbn. eexists. split; [done|].
    rewrite Hid. case_bool_decide; [right|by left]. done. }
  destruct (mcs db !! k) as [m|]; [|done]. destruct Hk as (m' & Hm' & Hk). exists m'. split; [done|].
  split; [by apply (cs_code _ (proj2 Hdb') k)|done].
Qed.

(** Creating a Dimension: version 1 with both timestamps the statement
    time and two log entries, refused exactly when the code or the value key is
    used by any row of the table, deleted rows included. *)
Theorem create_dimension_refines (env : Env) (seen db : DB) (s : slot) (code : DimensionCode)
    (value : dim_value) (audit : MutationAuditMetadata) :
  db_ok db → op_dimension (md_operations audit) = Some DIM_CREATE → code_wf code = true →
  value_for s value → dims db !! (s, env_dim_id env s) = None →
  create_dimension (repository_of s) env seen db code value audit =
  ('(row, db') ← create_spec (repository_of s) env seen db code value audit;
   d ← row_to_domain s row; Ok (d, db')).
Proof. intros. by apply create_dimension_rows. Qed.

(** Deleting and restoring a Dimension: hidden or absent rows are not found,
    a stale version is refused before an active reference is reported, and
    otherwise exactly the deletion state, version and update time change, with
    one log entry. *)
Theorem dimension_lifecycle_refines (env : Env) (db : DB) (s : slot) (id : UUID) (version : Z)
    (audit : MutationAuditMetadata) (deleting : bool) :
  db_ok db →
  op_dimension (md_operations audit) = Some (if deleting then DIM_DELETE else DIM_RESTORE) →
  mutate_lifecycle s env db id version audit deleting =
  ('(row, db') ← lifecycle_spec s env db id version audit deleting;
   d ← row_to_domain s row; Ok (d, db')).
Proof. intros. by apply lifecycle_rows. Qed.

(** C4: creating a MasterCode: the eight selections are resolved in slot order,
    each inline Dimension is reported with its own conflicts, all inactive
    references are reported together, a used reference vector is a conflict,
    and otherwise the returned aggregate is what reading the new row from the
    new database gives. *)
Theorem create_master_code_refines (env : Env) (seen requery db : DB) (plan : MasterCodeCreatePlan)
    (audit : MutationAuditMetadata) :
  db_ok db → op_master_code (md_operations audit) = Some MC_CREATE →
  mcs db !! env_mc_id env = None →
  (∀ s code value, at_slot plan s = InlineDimension code value →
     op_dimension (md_operations audit) = Some DIM_CREATE ∧
     code_wf code = true ∧ value_for s value ∧ dims db !! (s, env_dim_id env s) = None) →
  create env seen requery db plan audit =
  ('(row, db') ← create_mc_spec env seen requery db plan audit;
   Ok (mc_of row (joined_dims db' row), db')).
Proof. intros. by apply create_rows. Qed.

(** Changing the references of a MasterCode, with the initial read from any
    earlier state: a reference that is gone, a changed row or another ETag is
    a failed precondition, inactive new references are reported together, equal
    references change nothing, a used reference vector is a conflict, and
    otherwise the row advances with the composition of its new references. *)
Theorem update_references_refines (env : Env) (seen db : DB) (id : UUID)
    (changes : MasterCodeReferenceUpdate) (expected_etag : pystr) (audit : MutationAuditMetadata) :
  db_ok db → db_ok seen → rtc store_step seen db →
  op_master_code (md_operations audit) = Some MC_REFERENCE_UPDATE →
  update_references env seen db id changes expected_etag audit =
  ('(row, db') ← reference_spec env seen db id changes expected_etag audit;
   Ok (mc_of row (joined_dims db row), db')).
Proof. intros. by apply update_references_rows. Qed.

(** Deleting and restoring a MasterCode: the ETag is compared with the state
    under locks, restoration reports every deleted reference, and otherwise
    exactly the deletion state, version and update time change. *)
Theorem master_code_lifecycle_refines (env : Env) (seen db : DB) (id : UUID) (expected_etag : pystr)
    (audit : MutationAuditMetadata) (restore : bool) :
  db_ok db → db_ok seen → rtc store_step seen db →
  op_master_code (md_operations audit) = Some (if restore then MC_RESTORE else MC_DELETE) →
  change_lifecycle env seen db id expected_etag audit restore =
  ('(row, db') ← mc_lifecycle_spec env seen db id expected_etag audit restore;
   Ok (mc_of row (joined_dims db row), db')).
Proof. intros. by apply change_lifecycle_rows. Qed.

(** ** Every reachable database is consistent *)

(** One committed transaction.  The inputs are what the use cases pass: values
    their constructors built, an audit context for the operation, identifiers
    not in use, and an unlocked read of some earlier state. *)
Inductive repo_step (db db' : DB) : Prop :=
| step_create_dimension s env seen code value audit d :
    op_dimension (md_operations audit) = Some DIM_CREATE → code_wf code = true →
    value_for s value → dims db !! (s, env_dim_id env s) = None →
    create_dimension (repository_of s) env seen db code value audit = Ok (d, db') →
    repo_step db db'
| step_update_value s env seen id version value audit code d :
    op_dimension (md_operations audit) = Some DIM_UPDATE →
    (code ≠ None → op_master_code (md_operations audit) = Some MC_RECOMPOSE) →
    (∀ c, code = Some c → code_wf c = true) → (∀ v, value = Some v → value_for s v) →
    update_value (repository_of s) env seen db id version value audit code = Ok (d, db') →
    repo_step db db'
| step_dimension_lifecycle s env id version audit (deleting : bool) d :
    op_dimension (md_operations audit) = Some (if deleting then DIM_DELETE else DIM_RESTORE) →
    mutate_lifecycle s env db id version audit deleting = Ok (d, db') → repo_step db db'
| step_create_master_code env seen requery plan audit mc :
    op_master_code (md_operations audit) = Some MC_CREATE → mcs db !! env_mc_id env = None →
    (∀ s code value, at_slot plan s = InlineDimension code value →
       op_dimension (md_operations audit) = Some DIM_CREATE ∧
       code_wf code = true ∧ value_for s value ∧ dims db !! (s, env_dim_id env s) = None) →
    create env seen requery db plan audit = Ok (mc, db') → repo_step db db'
| step_update_references env seen id changes expected_etag audit mc :
    db_ok seen → rtc store_step seen db →
    op_master_code (md_operations audit) = Some MC_REFERENCE_UPDATE →
    update_references env seen db id changes expected_etag audit = Ok (mc, db') → repo_step db db'
| step_master_code_lifecycle env seen id expected_etag audit (restore : bool) mc :
    db_ok seen → rtc store_step seen db →
    op_master_code (md_operations audit) = Some (if restore then MC_RESTORE else MC_DELETE) →
    change_lifecycle env seen db id expected_etag audit restore = Ok (mc, db') → repo_step db db'.

Lemma repo_step_ok db db' : db_ok db → repo_step db db' → db_ok db'.
Proof.
  intros Hdb [s env seen code value audit d Hop Hc Hv Hf Hok
             |s env seen id version value audit code d Hop Hmc Hc Hv Hok
             |s env id version audit deleting d Hop Hok
             |env seen requery plan audit mc Hop Hf Hp Hok
             |env seen id changes et audit mc Hs Hb Hop Hok
             |env seen id et audit restore mc Hs Hb Hop Hok].
  - rewrite create_dimension_rows in Hok by done. apply bind_Ok in Hok as ([row db1] & Hspec & Hok).
    apply bind_Ok in Hok as (? & _ & [= _ ->]). by apply create_spec_ok in Hspec as [? _].
  - rewrite update_value_rows in Hok by done. apply bind_Ok in Hok as ([row db1] & Hspec & Hok).
    apply bind_Ok in Hok as (? & _ & [= _ ->]). by apply update_spec_ok in Hspec as [? _].
  - rewrite lifecycle_rows in Hok by done. apply bind_Ok in Hok as ([row db1] & Hspec & Hok).
    apply bind_Ok in Hok as (? & _ & [= _ ->]). by apply lifecycle_spec_ok in Hspec as [? _].
  - rewrite create_rows in Hok by done. apply bind_Ok in Hok as ([row db1] & Hspec & [= _ ->]).
    by apply create_mc_spec_ok in Hspec as [? _].
  - rewrite update_references_rows in Hok by done.
    apply bind_Ok in Hok as ([row db1] & Hspec & [= _ ->]).
    by apply reference_spec_ok in Hspec as [? _].
  - rewrite change_lifecycle_rows in Hok by done.
    apply bind_Ok in Hok as ([row db1] & Hspec & [= _ ->]).
    by apply mc_lifecycle_spec_ok in Hspec as [? _].
Qed.

Lemma repo_steps_ok db db' : db_ok db → rtc repo_step db db' → db_ok db'.
Proof. intros Hdb Hrtc. induction Hrtc; eauto using repo_step_ok. Qed.

(** No transaction removes a MasterCode or rewrites one under its version. *)
Definition mcs_progress (db db' : DB) : Prop :=
  ∀ id m, mcs db !! id = Some m → ∃ m', mcs db' !! id = Some m' ∧ mc_progress m m'.

Lemma mcs_progress_same db db' : mcs db' = mcs db → mcs_progress db db'.
Proof. intros E id m Hm. exists m. rewrite E. by split. Qed.

Lemma mcs_progress_trans db1 db2 db3 : mcs_progress db1 db2 → mcs_progress db2 db3 → mcs_progress db1 db3.
Proof.
  intros H12 H23 id m Hm. destruct (H12 _ _ Hm) as (m2 & Hm2 & Hle & Heq).
  destruct (H23 _ _ Hm2) as (m3 & Hm3 & Hle3 & Heq3). exists m3. split; [done|]. split; [lia|].
  intros Hv. rewrite Heq3, Heq by lia. done.
Qed.

Lemma mcs_progress_insert id row db db' :
  mcs db' = <[id := row]> (mcs db) →
  (∀ m, mcs db !! id = Some m → row = m ∨ m_version row = m_version m + 1) → mcs_progress db db'.
Proof.
  intros E Hrow i m Hm. rewrite E. destruct (decide (i = id)) as [->|Hne].
  - exists row. rewrite lookup_insert_eq. split; [done|]. destruct (Hrow m Hm) as [->|Hv]; split; (done || lia).
  - exists m. rewrite lookup_insert_ne by done. by split.
Qed.

Lemma updated_mcs_progress c s old new recode db : mcs_progress db (updated_db c s old new recode db).
Proof.
  intros i m Hm. unfold updated_db. cbn. destruct recode; [|exists m; by split].
  rewrite lookup_fmap, Hm. eexists. split; [reflexivity|]. case_bool_decide; split; cbn; (done || lia).
Qed.

Lemma repo_step_mcs_progress db db' : db_ok db → repo_step db db' → mcs_progress db db'.
Proof.
  intros Hdb [s env seen code value audit d Hop Hc Hv Hf Hok
             |s env seen id version value audit code d Hop Hmc Hc Hv Hok
             |s env id version audit deleting d Hop Hok
             |env seen requery plan audit mc Hop Hf Hp Hok
             |env seen id changes et audit mc Hs Hb Hop Hok
             |env seen id et audit restore mc Hs Hb Hop Hok].
  - rewrite create_dimension_rows in Hok by done. apply bind_Ok in Hok as ([row db1] & Hspec & Hok).
    apply bind_Ok in Hok as (? & _ & [= _ ->]). unfold create_spec in Hspec.
    do 3 apply bind_Ok in Hspec as (_ & _ & Hspec). injection Hspec as _ <-. by apply mcs_progress_same.
  - rewrite update_value_rows in Hok by done. apply bind_Ok in Hok as ([row db1] & Hspec & Hok).
    apply bind_Ok in Hok as (? & _ & [= _ ->]). unfold update_spec in Hspec.
    destruct (active_row _ _ _) as [r|]; [|done]. apply bind_Ok in Hspec as (_ & _ & Hspec).
    destruct (_ && _); [injection Hspec as _ <-; by apply mcs_progress_same|].
    do 3 apply bind_Ok in Hspec as (_ & _ & Hspec). injection Hspec as _ <-. apply updated_mcs_progress.
  - rewrite lifecycle_rows in Hok by done. apply bind_Ok in Hok as ([row db1] & Hspec & Hok).
    apply bind_Ok in Hok as (? & _ & [= _ ->]). unfold lifecycle_spec in Hspec. destruct (dims db !! _); [|done].
    do 4 apply bind_Ok in Hspec as (_ & _ & Hspec). injection Hspec as _ <-. by apply mcs_progress_same.
  - rewrite create_rows in Hok by done. apply bind_Ok in Hok as ([row db1] & Hspec & [= _ ->]).
    apply create_mc_spec_ok in Hspec as (_ & Hmcs & _); [|done..]. eapply mcs_progress_insert; [exact Hmcs|]. congruence.
  - rewrite update_references_rows in Hok by done.
    apply bind_Ok in Hok as ([row db1] & Hspec & [= _ ->]).
    apply reference_spec_ok in Hspec as (_ & m & Hm & _ & _ & _ & Hmcs & _ & _ & Hcase); [|done..].
    eapply mcs_progress_insert; [exact Hmcs|]. intros m' Hm'. assert (m' = m) as -> by congruence.
    destruct Hcase as [[-> _]|?]; auto.
  - rewrite change_lifecycle_rows in Hok by done.
    apply bind_Ok in Hok as ([row db1] & Hspec & [= _ ->]).
    apply mc_lifecycle_spec_ok in Hspec as (_ & m & Hm & _ & -> & _ & Hmcs); [|done..].
    eapply mcs_progress_insert; [exact Hmcs|]. intros m' Hm'. assert (m' = m) as -> by congruence. by right.
Qed.

(** C1: whatever sequence of transactions ran, every stored MasterCode reads
    as a valid aggregate (its code composes the codes its references have now,
    and it references active Dimensions only when it is active), every stored
    Dimension reads as a valid state of its slot, and no two MasterCodes share
    a code or a reference vector, no two Dimensions of a slot a code or a value
    key. *)
Theorem repositories_keep_consistency (db : DB) :
  rtc repo_step empty_db db →
  (∀ id m, mcs db !! id = Some m → ∃ mc, joined_to_domain db m = Ok mc ∧ mc_valid mc ∧
     mc_id mc = id ∧ mc_version mc = m_version m ∧
     ∀ s, dim_id <$> get_slot (mc_dimensions mc) s = at_slot (m_refs m) s) ∧
  (∀ s id r, dims db !! (s, id) = Some r → ∃ d, row_to_domain s r = Ok d ∧ dim_valid d ∧
     dim_id d = id ∧ slot_of_value (dim_value_of d) = s) ∧
  (∀ i j m n, mcs db !! i = Some m → mcs db !! j = Some n →
     m_code m = m_code n ∨ m_refs m = m_refs n → i = j) ∧
  (∀ s i j r q, dims db !! (s, i) = Some r → dims db !! (s, j) = Some q →
     r_code r = r_code q ∨ row_key (r_value r) = row_key (r_value q) → i = j).
Proof.
  intros Hrtc. pose proof (repo_steps_ok _ _ empty_db_ok Hrtc) as Hdb. pose proof (proj1 Hdb) as Hok.
  split_and!.
  - intros id m Hm. exists (mc_of m (joined_dims db m)).
    split_and!; [by eapply joined_to_domain_ok|by eapply mc_of_valid| |done|].
    + by destruct (so_mc _ Hok _ _ Hm) as [<- _].
    + intros s. cbn. rewrite <- (dimension_ids_joined db m Hok).
      * unfold dimension_ids. by rewrite at_slots_of.
      * by eapply stored_refs_exist.
  - intros s id r Hr. destruct (so_dim _ Hok _ _ _ Hr) as [Hid Hwf].
    destruct (row_to_domain_wf s r Hwf) as (d & Hd & ? & ? & _ & _ & ?).
    exists d. apply row_dimension_fields in Hd as [? _]. split_and!; try done. congruence.
  - intros i j m n Hi Hj [He|He]; [by eapply so_mc_code|by eapply so_refs].
  - intros s i j r q Hi Hj [He|He]; [by eapply so_code|by eapply so_key].
Qed.

(** ** Errors *)

Lemma foldR_Raise {A S} (f : S → A → res S) l st e :
  foldR f st l = Raise e → ∃ st' x, x ∈ l ∧ f st' x = Raise e.
Proof.
  revert st. induction l as [|x l IH]; intros st; [done|]. cbn.
  intros [Hx|(st' & _ & Hl)]%bind_Raise; [exists st, x; by split; [left|]|].
  apply IH in Hl as (st1 & y & Hy & Hf). exists st1, y. split; [by right|done].
Qed.

Lemma raise_conflict_Raise cf c v e :
  raise_conflict cf c v = Raise e →
  e = cf_multiple_conflicts cf ∨ e = cf_code_conflict cf ∨ e = cf_value_conflict cf.
Proof. unfold raise_conflict. destruct c, v; cbn; naive_solver. Qed.

(** What a failed Dimension transaction reports: one of the documented
    errors of its repository. *)
Theorem dimension_errors (env : Env) (seen db : DB) (s : slot) (id : UUID) (version : Z)
    (value : option dim_value) (audit : MutationAuditMetadata) (code : option DimensionCode) (e : exn) :
  db_ok db → op_dimension (md_operations audit) = Some DIM_UPDATE →
  (code ≠ None → op_master_code (md_operations audit) = Some MC_RECOMPOSE) →
  (∀ c, code = Some c → code_wf c = true) → (∀ v, value = Some v → value_for s v) →
  update_value (repository_of s) env seen db id version value audit code = Raise e →
  let cf := repository_of s in
  e = cf_not_found cf ∧ active_row s id db = None ∨
  e = PreconditionFailed ∧ (∃ r, active_row s id db = Some r ∧ r_version r ≠ version) ∨
  (e = cf_multiple_conflicts cf ∨ e = cf_code_conflict cf ∨ e = cf_value_conflict cf) ∧
  (∃ r, active_row s id db = Some r ∧ r_version r = version).
Proof.
  intros Hdb Hop Hmc Hcode Hvalue Hok cf. rewrite update_value_rows in Hok by done.
  apply bind_Raise in Hok as [Hspec|([row db1] & Hspec & Hok)].
  - unfold update_spec in Hspec. rewrite cf_slot_repository in Hspec. fold cf in Hspec.
    destruct (active_row s id db) as [r|]; [|injection Hspec as <-; by left].
    right. apply bind_Raise in Hspec as [[Hv ->]%raise_if_Raise|(_ & Hv%raise_if_Ok & Hspec)].
    { left. split; [done|]. exists r. split; [done|]. by apply negb_true_iff, Z.eqb_neq in Hv. }
    right. apply negb_false_iff, Z.eqb_eq in Hv.
    split; [|by exists r]. destruct (negb _ && negb _); [done|].
    apply bind_Raise in Hspec as [Hc|(_ & _ & Hspec)]; [by apply raise_conflict_Raise in Hc|].
    apply bind_Raise in Hspec as [[_ ->]%raise_if_Raise|(_ & _ & Hspec)]; [naive_solver|].
    apply bind_Raise in Hspec as [[_ ->]%raise_if_Raise|(_ & _ & Hspec)]; [naive_solver|done].
  - exfalso. apply bind_Raise in Hok as [Hrow|(? & _ & Hok)]; [|done].
    apply update_spec_ok in Hspec as (Hdb1 & Hdims & _); [|done..].
    assert (dims db1 !! (s, id) = Some row) as Hr by by rewrite Hdims, lookup_insert_eq.
    destruct (so_dim _ (proj1 Hdb1) _ _ _ Hr) as [_ Hwf].
    destruct (row_to_domain_wf s row Hwf) as (? & _ & Hd & _). congruence.
Qed.

(** What a failed MasterCode creation reports: a nonempty list of inactive
    references, the conflicts of one inline Dimension of the plan, or a
    conflicting MasterCode; never a trigger, constraint or validation error. *)
Theorem create_master_code_errors (env : Env) (seen requery db : DB) (plan : MasterCodeCreatePlan)
    (audit : MutationAuditMetadata) (e : exn) :
  db_ok db → op_master_code (md_operations audit) = Some MC_CREATE →
  mcs db !! env_mc_id env = None →
  (∀ s code value, at_slot plan s = InlineDimension code value →
     op_dimension (md_operations audit) = Some DIM_CREATE ∧
     code_wf code = true ∧ value_for s value ∧ dims db !! (s, env_dim_id env s) = None) →
  create env seen requery db plan audit = Raise e →
  (∃ fields, e = InvalidDimensionReference fields ∧ fields ≠ []) ∨
  (∃ s code value c v, at_slot plan s = InlineDimension code value ∧
     e = InlineDimensionConflict (slot_name s) c v ∧ c || v = true) ∨
  e = MasterCodeConflict.
Proof.
  intros Hdb Hop Hf Hp Hok. rewrite create_rows in Hok by done.
  apply bind_Raise in Hok as [Hspec|([row db1] & _ & Hok)]; [|done].
  unfold create_mc_spec in Hspec.
  apply bind_Raise in Hspec as [Hloop|([db1 invalid] & _ & Hspec)].
  - right; left. apply foldR_Raise in Hloop as ([d inv] & s & _ & Hs). unfold create_slot_spec in Hs.
    destruct (at_slot plan s) as [i|code value|] eqn:Hplan; [done| |done].
    assert (∀ d0 b e0, inline_conflict s code value d0 b = Some e0 →
      ∃ c v, e0 = InlineDimensionConflict (slot_name s) c v ∧ c || v = true) as Hic.
    { intros d0 b e0. unfold inline_conflict.
      destruct (code_used s (code_value code) d0 || key_used s (row_key (value_to_row value)) d0) eqn:E;
        [intros [= <-]; eauto|]. destruct b as [[]|]; cbn; intros [= <-]; eauto. }
    exists s, code, value. destruct (inline_conflict s code value seen None) eqn:E1; cbn in Hs.
    { injection Hs as <-. apply Hic in E1 as (c & v & ? & ?). by exists c, v. }
    destruct (code_used s (code_value code) d);
      [|destruct (key_used s (row_key (value_to_row value)) d); [|done]].
    + destruct (inline_conflict s code value requery (Some true)) eqn:E2; [|done].
      injection Hs as <-. apply Hic in E2 as (c & v & ? & ?). by exists c, v.
    + destruct (inline_conflict s code value requery (Some false)) eqn:E2; [|done].
      injection Hs as <-. apply Hic in E2 as (c & v & ? & ?). by exists c, v.
  - apply bind_Raise in Hspec as [[Hne ->]%raise_if_Raise|(_ & _ & Hspec)].
    + left. exists invalid. split; [done|]. by apply negb_true_iff, bool_decide_eq_false in Hne.
    + apply bind_Raise in Hspec as [[_ ->]%raise_if_Raise|(_ & _ & ?)]; [|done]. by right; right.
Qed.

(** ** Codes and references *)

(** The identifier of a slot of an aggregate. *)
Definition slot_id (mc : MasterCode) (s : slot) : option UUID := dim_id <$> get_slot (mc_dimensions mc) s.

Lemma joined_slot_id db m s : store_ok db → refs_exist db m → dim_id <$> get_slot (joined_dims db m) s = at_slot (m_refs m) s.
Proof.
  intros Hok Hex. pose proof (joined_dims_slot db m s Hok) as Hd. destruct (joined_slot db m s) as [r|] eqn:E.
  - destruct Hd as (d & -> & Hd & _). apply row_dimension_fields in Hd as (Hid & _). cbn. rewrite Hid.
    apply joined_slot_Some in E as (ref & -> & Hr). f_equal. by destruct (so_dim _ Hok _ _ _ Hr) as [? _].
  - rewrite Hd. by rewrite (joined_slot_None db m s Hok (Hex s) E).
Qed.

(** A row whose foreign keys hold reads as an aggregate over the rows it references. *)
Lemma joined_read db r x :
  db_ok db → joined_to_domain db r = Ok x →
  x = mc_of r (joined_dims db r) ∧ m_code r = compose_row db r.
Proof.
  intros [Hok _] Hx. unfold joined_to_domain in Hx. rewrite build_joined in Hx by done. cbn [mbind result_bind] in Hx.
  apply MasterCode_init_Ok in Hx as [-> Hv]. split; [done|]. rewrite <- compose_joined by done. apply Hv.
Qed.

(** C20: codes and references of MasterCodes determine each other.  A row of
    the table or one about to be written, whose foreign keys hold and which the
    repository reads as a MasterCode, has the code its Dimensions compose;
    against every stored MasterCode, which always reads, the codes are equal
    exactly when the same Dimension or none is in every slot.  So the unique
    constraint on the code alone refuses the row exactly when another row has
    its references, and the one on the references refuses no other row. *)
Theorem code_iff_references db r x :
  db_ok db → fk_master_code r db = Ok tt → joined_to_domain db r = Ok x →
  mc_code x = compose (mc_dimensions x) ∧
  (∀ id m, mcs db !! id = Some m → ∃ y, joined_to_domain db m = Ok y ∧
     (compose (mc_dimensions x) = mc_code y ↔ ∀ s, slot_id x s = slot_id y s)) ∧
  ((∀ id m, mcs db !! id = Some m → id ≠ m_id r → m_refs m ≠ m_refs r) ∧ uq_master_code r db = Ok tt ∨
   (∃ id m, mcs db !! id = Some m ∧ id ≠ m_id r ∧ m_refs m = m_refs r) ∧
     uq_master_code r db = Raise (IntegrityError "uq_master_codes_code")).
Proof.
  intros Hdb Hfk Hx. pose proof (proj1 Hdb) as Hok. rewrite fk_master_code_Ok in Hfk.
  destruct (joined_read db r x Hdb Hx) as [-> Hcode]. cbn [mc_code mc_dimensions mc_of].
  split; [by rewrite compose_joined|]. split.
  - intros id m Hm. exists (mc_of m (joined_dims db m)). split; [by eapply joined_to_domain_ok|].
    assert (refs_exist db m) as Hex by by eapply stored_refs_exist. cbn [mc_code mc_of].
    rewrite compose_joined, (cs_code _ (proj2 Hdb) _ _ Hm) by done. unfold slot_id. cbn [mc_dimensions mc_of].
    setoid_rewrite joined_slot_id; [|done..]. split.
    + intros Heq s. f_equal. apply (refs_from_codes db); try done. by apply compose_row_inj.
    + intros Heq. apply compose_row_refs. by apply slots_ext.
  - rewrite uq_master_code_refs by done. destruct (refs_used (m_refs r) (m_id r) db) eqn:E; [right|left]; (split; [|done]).
    + apply existsb_exists in E as (m & Hm & [Hid Hrefs]%andb_true_iff). apply list_elem_of_In, elem_of_mc_rows in Hm as [k Hm].
      bool_simpl. destruct (so_mc _ Hok _ _ Hm) as [Hk _]. exists k, m. split_and!; [done|congruence|done].
    + intros id m Hm Hne Hrefs. apply (proj1 (existsb_elem_of_false _ _)) with (x := m) in E; [|apply elem_of_mc_rows; eauto].
      destruct (so_mc _ Hok _ _ Hm) as [Hk _]. rewrite !(bool_decide_eq_true_2 (m_refs m = _)) in E by done.
      rewrite bool_decide_eq_false_2 in E by congruence. done.
Qed.

(** ** Listing *)

Definition mc_cursor (mc : MasterCode) : page_key := (instant (mc_created_at mc), mc_id mc).
Definition dim_cursor (d : Dimension) : page_key := (instant (dim_created_at d), dim_id d).

(** A client that follows the cursors reads every active row exactly once,
    newest first, whatever page size it asks for: for MasterCodes and for the
    Dimensions of each slot the pages concatenate to the sorted active rows. *)
Theorem list_active_complete (db : DB) (s : slot) (limit fuel : nat) :
  db_ok db → (1 ≤ limit)%nat → (length (active_mc_rows db) < fuel)%nat →
  (length (active_rows s db) < fuel)%nat →
  read_all mc_cursor (λ after, MasterCodeRepo.list_active db after limit) fuel None =
    Ok ((λ m, mc_of m (joined_dims db m)) <$> sorting.merge_sort (descending mc_key) (active_mc_rows db)) ∧
  ∃ ds, read_all dim_cursor (λ after, DimensionRepos.list_active (repository_of s) db after limit)
      fuel None = Ok ds ∧
    Forall2 (λ r d, row_dimension s r = Some d)
      (sorting.merge_sort (descending dim_key) (active_rows s db)) ds.
Proof.
  intros Hdb Hlim Hf1 Hf2. pose proof (proj1 Hdb) as Hok. split.
  - rewrite (read_all_paginate mc_key mc_cursor _ (joined_to_domain db)
      (λ m, mc_of m (joined_dims db m)) fuel None limit (active_mc_rows db)); [|..|done].
    + rewrite paginate_all; [done| |done|done]. apply (distinct_keys_ids _ m_id); [done|].
      by apply NoDup_fmap_filter, mc_rows_NoDup.
    + intros m [[k Hm]%elem_of_mc_rows _]%elem_of_filter_bool. split; [by eapply joined_to_domain_ok|done].
  - assert (∀ r, r ∈ active_rows s db → ∃ d, row_to_domain s r = Ok d ∧ row_dimension s r = Some d) as Hr.
    { intros r [[k Hr]%elem_of_rows_of _]%elem_of_filter_bool.
      destruct (so_dim _ Hok _ _ _ Hr) as [_ Hwf].
      destruct (row_to_domain_wf s r Hwf) as (d & ? & ? & _). by exists d. }
    set (g := λ r, default witness_dim (row_dimension s r)).
    exists (g <$> sorting.merge_sort (descending dim_key) (active_rows s db)). split.
    + rewrite (read_all_paginate dim_key dim_cursor _ (row_to_domain s) g fuel None limit (active_rows s db)).
      * rewrite paginate_all; [done| |done|done]. apply (distinct_keys_ids _ r_id); [done|].
        by apply NoDup_fmap_filter, rows_of_NoDup.
      * intros r Hin. destruct (Hr r Hin) as (d & Hd & Hrow). unfold g. rewrite Hrow. split; [done|].
        apply row_dimension_fields in Hrow as (Hid & _ & _ & _ & Hc & _). cbn.
        unfold dim_cursor, dim_key. by rewrite Hid, Hc.
      * intros after. unfold DimensionRepos.list_active. by rewrite cf_slot_repository.
    + apply Forall2_fmap_r, Forall_Forall2_diag, Forall_forall. intros r Hin.
      rewrite sorting.merge_sort_Permutation in Hin. destruct (Hr r Hin) as (d & _ & Hrow).
      cbn. unfold g. by rewrite Hrow.
Qed.
End unicode.

(** ** Witnesses *)

#[local] Existing Instance ascii_data.

Definition sample_recode : option DimensionCode := Some (mkDimensionCode (py "SSG")).
Definition sample_update_audit : MutationAuditMetadata :=
  sample_audit (Some DIM_UPDATE) (Some MC_RECOMPOSE).
Definition sample_update : res (Dimension * DB) :=
  update_value company_repository (sample_env 200 0 0) sample_db sample_db 1 1 None
    sample_update_audit sample_recode.

Lemma sample_recode_wf c : sample_recode = Some c → code_wf c = true.
Proof. by intros [= <-]. Qed.

Lemma update_value_refines_witness :
  is_ok sample_update = true ∧
  sample_update =
  ('(row, db') ← update_spec company_repository (sample_env 200 0 0) sample_db sample_db 1 1 None
                   sample_update_audit sample_recode;
   d ← row_to_domain Company row; Ok (d, db')).
Proof.
  split; [vm_compute; reflexivity|].
  apply (update_value_refines _ _ _ Company 1 1 None sample_update_audit sample_recode sample_db_ok);
    [reflexivity|reflexivity|exact sample_recode_wf|discriminate].
Defined.

Lemma update_value_recomposes_witness :
  ∃ d db', sample_update = Ok (d, db') ∧
    ∃ m', mcs db' !! (9 : UUID) = Some m' ∧ m_code m' = compose_row db' m' ∧
      m_code m' = py "SSG-NNN-NNN-NNN-NNN-NNN-NNN-NNN".
Proof.
  destruct sample_update as [[d db']|e] eqn:E; [|vm_compute in E; discriminate E].
  exists d, db'. split; [reflexivity|].
  pose proof (update_value_recomposes _ _ _ _ Company 1 1 None sample_update_audit sample_recode d
    sample_db_ok eq_refl (λ _, eq_refl) sample_recode_wf ltac:(discriminate) E) as [_ Hk].
  specialize (Hk 9). assert (mcs sample_db !! (9 : UUID) = Some sample_mc) as Hm by reflexivity.
  rewrite Hm in Hk. destruct Hk as (m' & Hm' & Hc & _). exists m'. split; [exact Hm'|].
  split; [exact Hc|].
  assert (∀ d1 db1, sample_update = Ok (d1, db1) → m_code <$> mcs db1 !! (9 : UUID) =
    Some (py "SSG-NNN-NNN-NNN-NNN-NNN-NNN-NNN")) as Hcode.
  { intros d1 db1 E1. vm_compute in E1. injection E1 as _ <-. reflexivity. }
  specialize (Hcode _ _ E). rewrite Hm' in Hcode. by injection Hcode.
Defined.

Lemma create_dimension_refines_witness :
  let audit := sample_audit (Some DIM_CREATE) None in
  create_dimension memory_repository (sample_env 200 7 0) sample_db sample_db
    (mkDimensionCode (py "1T")) (MemoryValue (mkMemoryValue 1 TB)) audit =
  ('(row, db') ← create_spec memory_repository (sample_env 200 7 0) sample_db sample_db
     (mkDimensionCode (py "1T")) (MemoryValue (mkMemoryValue 1 TB)) audit;
   d ← row_to_domain Memory row; Ok (d, db')).
Proof.
  apply (create_dimension_refines _ _ _ Memory); [exact sample_db_ok|reflexivity..|by split|reflexivity].
Defined.

Lemma dimension_lifecycle_refines_witness :
  let audit := sample_audit (Some DIM_DELETE) None in
  mutate_lifecycle Company (sample_env 200 0 0) sample_db 1 1 audit true = Raise DimensionInUse ∧
  is_ok (mutate_lifecycle Company (sample_env 200 0 0) sample_db 2 1 audit true) = true ∧
  mutate_lifecycle Company (sample_env 200 0 0) sample_db 2 1 audit true =
  ('(row, db') ← lifecycle_spec Company (sample_env 200 0 0) sample_db 2 1 audit true;
   d ← row_to_domain Company row; Ok (d, db')).
Proof.
  split; [vm_compute; reflexivity|]. split; [vm_compute; reflexivity|].
  apply (dimension_lifecycle_refines _ _ Company 2 1 _ true); [exact sample_db_ok|reflexivity].
Defined.

(** The second company, an inline memory, six slots not applicable. *)
Definition sample_plan : MasterCodeCreatePlan :=
  mkSlots (ExistingDimension 2) NotApplicable NotApplicable NotApplicable NotApplicable
    (InlineDimension (mkDimensionCode (py "1T")) (MemoryValue (mkMemoryValue 1 TB)))
    NotApplicable NotApplicable.
Definition sample_create_audit : MutationAuditMetadata :=
  sample_audit (Some DIM_CREATE) (Some MC_CREATE).

Lemma sample_plan_ok s code value :
  at_slot sample_plan s = InlineDimension code value →
  op_dimension (md_operations sample_create_audit) = Some DIM_CREATE ∧
  code_wf code = true ∧ value_for s value ∧
  dims sample_db !! (s, env_dim_id (sample_env 200 7 10) s) = None.
Proof. destruct s; try discriminate. intros [= <- <-]. by vm_compute. Qed.

Lemma create_master_code_refines_witness :
  is_ok (create (sample_env 200 7 10) sample_db sample_db sample_db sample_plan sample_create_audit)
    = true ∧
  create (sample_env 200 7 10) sample_db sample_db sample_db sample_plan sample_create_audit =
  ('(row, db') ← create_mc_spec (sample_env 200 7 10) sample_db sample_db sample_db sample_plan
                   sample_create_audit;
   Ok (mc_of row (joined_dims db' row), db')).
Proof.
  split; [vm_compute; reflexivity|].
  apply create_master_code_refines; [exact sample_db_ok|reflexivity|reflexivity|exact sample_plan_ok].
Defined.

Definition sample_etag : pystr := etag (mc_of sample_mc (joined_dims sample_db sample_mc)).
Definition sample_change : MasterCodeReferenceUpdate :=
  mkSlots (Some (RefExisting 2)) None None None None None None None.

Lemma update_references_refines_witness :
  let audit := sample_audit None (Some MC_REFERENCE_UPDATE) in
  is_ok (update_references (sample_env 200 0 0) sample_db sample_db 9 sample_change sample_etag audit)
    = true ∧
  update_references (sample_env 200 0 0) sample_db sample_db 9 sample_change sample_etag audit =
  ('(row, db') ← reference_spec (sample_env 200 0 0) sample_db sample_db 9 sample_change sample_etag
                   audit;
   Ok (mc_of row (joined_dims sample_db row), db')).
Proof.
  split; [vm_compute; reflexivity|].
  apply update_references_refines; [exact sample_db_ok|exact sample_db_ok|apply rtc_refl|reflexivity].
Defined.

Lemma master_code_lifecycle_refines_witness :
  let audit := sample_audit None (Some MC_DELETE) in
  is_ok (change_lifecycle (sample_env 200 0 0) sample_db sample_db 9 sample_etag audit false) = true ∧
  change_lifecycle (sample_env 200 0 0) sample_db sample_db 9 sample_etag audit false =
  ('(row, db') ← mc_lifecycle_spec (sample_env 200 0 0) sample_db sample_db 9 sample_etag audit false;
   Ok (mc_of row (joined_dims sample_db row), db')).
Proof.
  split; [vm_compute; reflexivity|].
  apply master_code_lifecycle_refines; [exact sample_db_ok|exact sample_db_ok|apply rtc_refl|reflexivity].
Defined.

(** A run of two transactions from the empty database. *)
Definition run_create_dimension : res (Dimension * DB) :=
  create_dimension company_repository (sample_env 100 1 0) empty_db empty_db
    (mkDimensionCode (py "SAM")) (CompanyValue (py "SAMSUNG")) (sample_audit (Some DIM_CREATE) None).
Definition run_plan : MasterCodeCreatePlan :=
  mkSlots (ExistingDimension 1) NotApplicable NotApplicable NotApplicable NotApplicable
    NotApplicable NotApplicable NotApplicable.
Definition run_create_master_code (db : DB) : res (MasterCode * DB) :=
  create (sample_env 120 0 9) db db db run_plan (sample_audit None (Some MC_CREATE)).

Lemma repositories_keep_consistency_witness :
  ∃ db, rtc repo_step empty_db db ∧ is_Some (mcs db !! (9 : UUID)) ∧
    ∀ m, mcs db !! (9 : UUID) = Some m → ∃ mc, joined_to_domain db m = Ok mc ∧ mc_valid mc.
Proof.
  destruct run_create_dimension as [[d db1]|e] eqn:E1; [|vm_compute in E1; discriminate E1].
  destruct (run_create_master_code db1) as [[mc db2]|e] eqn:E2.
  2:{ vm_compute in E1. injection E1 as _ <-. vm_compute in E2. discriminate E2. }
  assert (rtc repo_step empty_db db2) as Hrtc.
  { apply rtc_l with db1.
    - eapply (step_create_dimension _ _ Company); [..|exact E1]; reflexivity || by split.
    - apply rtc_once. eapply step_create_master_code; [..|exact E2].
      + reflexivity.
      + vm_compute in E1. injection E1 as _ <-. reflexivity.
      + intros [] code value; discriminate. }
  exists db2. split; [exact Hrtc|]. split.
  - vm_compute in E1. injection E1 as _ <-. vm_compute in E2. injection E2 as _ <-.
    eexists. reflexivity.
  - intros m Hm. destruct (repositories_keep_consistency db2 Hrtc) as [Hmc _].
    destruct (Hmc _ _ Hm) as (mc' & H1 & H2 & _). exists mc'. by split.
Defined.

Lemma store_history_witness :
  ∃ db, rtc store_step empty_db db ∧
    ∀ r, dims db !! (Company, 1 : UUID) = Some r →
      replay empty_snapshot (dim_history_of Company 1 (dim_logs db)) = Some (snapshot_of r).
Proof.
  destruct (insert_dimension (sample_context (Some DIM_CREATE) None 100) Company sample_company1 empty_db)
    as [db|e] eqn:E; [|vm_compute in E; discriminate E].
  assert (rtc store_step empty_db db) as Hrtc by (eapply rtc_once, step_insert_dimension, E).
  exists db. split; [exact Hrtc|]. intros r Hr. by apply (proj1 (store_history db Hrtc) Company 1).
Defined.

(** The stored MasterCode and a second one with its references. *)
Definition twin_mc : McRow :=
  mkMcRow 10 (m_refs sample_mc) (m_code sample_mc) 1 (m_created_at sample_mc) (m_created_at sample_mc) None.

Lemma code_iff_references_witness :
  fk_master_code twin_mc sample_db = Ok tt ∧
  uq_master_code twin_mc sample_db = Raise (IntegrityError "uq_master_codes_code").
Proof.
  assert (fk_master_code twin_mc sample_db = Ok tt) as Hfk by (vm_compute; reflexivity). split; [exact Hfk|].
  destruct (joined_to_domain sample_db twin_mc) as [x|e] eqn:Hx; [|vm_compute in Hx; discriminate Hx].
  destruct (code_iff_references sample_db twin_mc x sample_db_ok Hfk Hx) as (_ & _ & [[Hno _]|[_ Hu]]); [|exact Hu].
  exfalso. refine (Hno 9 sample_mc _ _ eq_refl); [reflexivity|discriminate].
Defined.

Lemma dimension_errors_witness :
  update_value company_repository (sample_env 200 0 0) sample_db sample_db 1 7 None
    sample_update_audit sample_recode = Raise PreconditionFailed ∧
  ∃ r, active_row Company 1 sample_db = Some r ∧ r_version r ≠ 7.
Proof.
  assert (update_value company_repository (sample_env 200 0 0) sample_db sample_db 1 7 None
    sample_update_audit sample_recode = Raise PreconditionFailed) as E by (vm_compute; reflexivity).
  split; [exact E|].
  destruct (dimension_errors _ _ _ Company 1 7 None sample_update_audit sample_recode _ sample_db_ok eq_refl
    (λ _, eq_refl) sample_recode_wf ltac:(discriminate) E) as [[? _]|[[_ Hr]|[[?|[?|?]] _]]];
    [discriminate|exact Hr|discriminate..].
Defined.

Definition bad_plan : MasterCodeCreatePlan :=
  mkSlots (ExistingDimension 99) NotApplicable NotApplicable NotApplicable NotApplicable
    NotApplicable NotApplicable NotApplicable.

Lemma create_master_code_errors_witness :
  ∃ e, create (sample_env 200 7 10) sample_db sample_db sample_db bad_plan sample_create_audit = Raise e ∧
    ((∃ fields, e = InvalidDimensionReference fields ∧ fields ≠ []) ∨ e = MasterCodeConflict).
Proof.
  destruct (create (sample_env 200 7 10) sample_db sample_db sample_db bad_plan sample_create_audit)
    as [p|e] eqn:E; [vm_compute in E; discriminate E|]. exists e. split; [reflexivity|].
  destruct (create_master_code_errors (sample_env 200 7 10) _ _ _ bad_plan sample_create_audit e sample_db_ok eq_refl eq_refl
    ltac:(intros [] code value; discriminate) E) as [He|[(s & code & value & _ & _ & Hp & _)|He]].
  - by left.
  - by destruct s.
  - by right.
Defined.

Lemma list_active_complete_witness :
  ∃ ds, read_all dim_cursor (λ after, DimensionRepos.list_active company_repository sample_db after 1)
      3 None = Ok ds ∧ dim_id <$> ds = [2; 1].
Proof.
  destruct (list_active_complete sample_db Company 1 3 sample_db_ok ltac:(lia) ltac:(vm_compute; lia)
    ltac:(vm_compute; lia)) as [_ (ds & Hds & _)].
  exists ds. split; [exact Hds|]. vm_compute in Hds. by injection Hds as <-.
Defined.
