(* ===== verification/Commands.v ===== *)
(** * The use cases
    ([src/src/mdm/application/dimensions.py], [string_dimensions.py],
    [numeric_dimensions.py], [memory_dimensions.py], [dimension_lifecycle.py],
    [master_codes.py], [master_code_lifecycle.py])

    A use case authorizes the principal, validates untrusted input, builds the
    audit metadata and calls its persistence port.  The Dimension use cases are
    written against the port, a class of operations; [sql_repository] is its
    implementation.  Untrusted arguments are [pyval]s, because the constructors
    and the use cases test their types; an omitted argument is [VNone]. *)

From S2P Require Import Prelude Python Exceptions Auth MutationAudit Dimensions MasterCodes Store Records Pagination DimensionRepos DimensionLifecycle MasterCodeRepo.
Local Open Scope Z_scope.

(** ** The persistence port of one Dimension type *)

Class DimensionRepository (St : Type) := {
  repo_create : DimensionCode → dim_value → MutationAuditMetadata → St → res (Dimension * St);
  repo_get_active : UUID → St → res Dimension;
  repo_list_active : option page_key → nat → St → res (Page Dimension);
  repo_update_value : UUID → Z → option dim_value → MutationAuditMetadata →
    option DimensionCode → St → res (Dimension * St);
}.

(** [CompanyCursor], [StringDimensionCursor], ..., [MasterCodeCursor]: the
    message names the resource. *)
Definition Cursor_init (resource : string) (created_at : datetime) (id : UUID) : res page_key :=
  _ ← raise_if (is_naive created_at)
        (ValueError (resource ++ " cursor timestamp must be timezone-aware"));
  Ok (instant created_at, id).

(** [type(x) is int and x >= 1] *)
Definition positive_version (v : pyval) : res Z :=
  match v with
  | VInt z => if z <? 1 then Raise (ValueError "expected version must be a positive integer")
              else Ok z
  | _ => Raise (ValueError "expected version must be a positive integer")
  end.
(** [type(limit) is int and 1 <= limit <= 100] *)
Definition page_limit (resource : string) (v : pyval) : res nat :=
  let error := ValueError (resource ++ " page limit must be between 1 and 100") in
  match v with
  | VInt z => if (1 <=? z) && (z <=? 100) then Ok (Z.to_nat z) else Raise error
  | _ => Raise error
  end.

Definition provided (v : pyval) : bool := match v with VNone => false | _ => true end.
(** [None if x is None else parse(x)] *)
Definition optional {A} (parse : pyval → res A) (v : pyval) : res (option A) :=
  if provided v then x ← parse v; Ok (Some x) else Ok None.

(** [audit_factory.create(...)] under [except AuditInvariantError]. *)
Definition reason_message : string := "유효한 변경 사유를 입력해야 합니다.".
Definition create_audit (message : string) (change_set_id : UUID) (p : HumanPrincipal)
    (d : option DimensionOperation) (m : option MasterCodeOperation) (reason : option pystr)
    : res MutationAuditMetadata :=
  catch (audit_create change_set_id p d m reason)
    (λ e, match e with
          | AuditInvariantError _ => Raise (DimensionValidationError "reason" message)
          | _ => Raise e
          end).

Section dimension_use_cases.
Context `{UnicodeData} {St : Type} (R : DimensionRepository St).

(** [CreateCompany.execute], and the generic [execute] of the String and
    Numeric use cases. *)
Definition CreateDimension (value_type : pyval → res dim_value) (change_set_id : UUID)
    (p : HumanPrincipal) (code value : pyval) (reason : option pystr) (st : St)
    : res (Dimension * St) :=
  _ ← authorize p MUTATE_DATA;
  normalized_code ← DimensionCode_init code;
  normalized_value ← value_type value;
  audit ← create_audit reason_message change_set_id p (Some DIM_CREATE) None reason;
  repo_create normalized_code normalized_value audit st.

Definition UpdateDimensionValue (value_type : pyval → res dim_value) (change_set_id : UUID)
    (p : HumanPrincipal) (dimension_id : UUID) (expected_version value code : pyval)
    (reason : option pystr) (st : St) : res (Dimension * St) :=
  _ ← authorize p MUTATE_DATA;
  version ← positive_version expected_version;
  _ ← raise_if (negb (provided code) && negb (provided value))
        (ValueError "code or value is required");
  normalized_code ← optional DimensionCode_init code;
  normalized_value ← optional value_type value;
  audit ← create_audit reason_message change_set_id p (Some DIM_UPDATE)
            (match normalized_code with Some _ => Some MC_RECOMPOSE | None => None end) reason;
  repo_update_value dimension_id version normalized_value audit normalized_code st.

Definition GetDimension (p : HumanPrincipal) (dimension_id : UUID) (st : St) : res Dimension :=
  _ ← authorize p READ_DATA;
  repo_get_active dimension_id st.

Definition ListDimensions (resource : string) (p : HumanPrincipal) (after : option page_key)
    (limit : pyval) (st : St) : res (Page Dimension) :=
  _ ← authorize p READ_DATA;
  n ← page_limit resource limit;
  repo_list_active after n st.

(** The classes of each Dimension type. *)
Definition CreateCompany := CreateDimension CompanyValue_init.
Definition CreateStringDimension (value_type : pyval → res dim_value) := CreateDimension value_type.
Definition CreateModel := CreateStringDimension ModelValue_init.
Definition CreateBrand := CreateStringDimension BrandValue_init.
Definition CreateCountry := CreateStringDimension CountryValue_init.
Definition CreateCategory := CreateStringDimension CategoryValue_init.
Definition CreateNumericDimension (value_type : pyval → res dim_value) := CreateDimension value_type.
Definition CreateYear := CreateNumericDimension YearValue_init.
Definition CreateNetwork := CreateNumericDimension NetworkGeneration_call.

Definition UpdateCompanyValue := UpdateDimensionValue CompanyValue_init.
Definition UpdateStringDimensionValue (value_type : pyval → res dim_value) :=
  UpdateDimensionValue value_type.
Definition UpdateModelValue := UpdateStringDimensionValue ModelValue_init.
Definition UpdateBrandValue := UpdateStringDimensionValue BrandValue_init.
Definition UpdateCountryValue := UpdateStringDimensionValue CountryValue_init.
Definition UpdateCategoryValue := UpdateStringDimensionValue CategoryValue_init.
Definition UpdateNumericDimensionValue (value_type : pyval → res dim_value) :=
  UpdateDimensionValue value_type.
Definition UpdateYearValue := UpdateNumericDimensionValue YearValue_init.
Definition UpdateNetworkValue := UpdateNumericDimensionValue NetworkGeneration_call.

Definition GetCompany := GetDimension.
Definition GetStringDimension := GetDimension.
Definition GetNumericDimension := GetDimension.
Definition GetMemory := GetDimension.
Definition ListCompanies := ListDimensions "company".
Definition ListStringDimensions := ListDimensions "string Dimension".
Definition ListNumericDimensions := ListDimensions "numeric Dimension".
Definition ListMemories := ListDimensions "Memory Dimension".

(** Memory takes an amount and a unit. *)
Definition CreateMemory (change_set_id : UUID) (p : HumanPrincipal) (code amount unit : pyval)
    (reason : option pystr) (st : St) : res (Dimension * St) :=
  _ ← authorize p MUTATE_DATA;
  normalized_code ← DimensionCode_init code;
  normalized_value ← MemoryValue_create amount unit;
  audit ← create_audit reason_message change_set_id p (Some DIM_CREATE) None reason;
  repo_create normalized_code normalized_value audit st.

Definition UpdateMemoryValue (change_set_id : UUID) (p : HumanPrincipal) (dimension_id : UUID)
    (expected_version amount unit code : pyval) (reason : option pystr) (st : St)
    : res (Dimension * St) :=
  _ ← authorize p MUTATE_DATA;
  version ← positive_version expected_version;
  _ ← raise_if (negb (provided code) && negb (provided amount) && negb (provided unit))
        (ValueError "code or value is required");
  _ ← raise_if (negb (eqb (provided amount) (provided unit)))
        (ValueError "memory amount and unit must be provided together");
  normalized_code ← optional DimensionCode_init code;
  normalized_value ← optional (λ a, MemoryValue_create a unit) amount;
  audit ← create_audit reason_message change_set_id p (Some DIM_UPDATE)
            (match normalized_code with Some _ => Some MC_RECOMPOSE | None => None end) reason;
  repo_update_value dimension_id version normalized_value audit normalized_code st.
End dimension_use_cases.

(** The implementation of the port by the repository of a slot, for one
    execution: what the server supplies, and what its conflict search sees. *)
Definition sql_repository `{UnicodeData} (s : slot) (env : Env) (seen : DB) : DimensionRepository DB :=
  {| repo_create code value audit db := create_dimension (repository_of s) env seen db code value audit;
     repo_get_active id db := DimensionRepos.get_active (repository_of s) db id;
     repo_list_active after limit db := DimensionRepos.list_active (repository_of s) db after limit;
     repo_update_value id version value audit code db :=
       update_value (repository_of s) env seen db id version value audit code |}.

(** ** Creation input of a MasterCode *)

(** The value of an inline selection: what the request carried, or
    [MemoryCreateValue]. *)
Inductive inline_value :=
| PlainValue (v : pyval)
| MemoryCreateValue (amount unit : pyval).

(** A slot of [MasterCodeCreateInput]; the code of an inline selection is raw
    or already a [DimensionCode]. *)
Inductive SelectionInput :=
| ExistingInput (id : UUID)
| InlineInput (code : pyval + DimensionCode) (value : inline_value)
| NotApplicableInput
| OtherInput.
Abbreviation MasterCodeCreateInput := (Slots SelectionInput).

(** ** Deletion and restoration of Dimensions *)

Section lifecycle_use_cases.
Context `{UnicodeData}.

Definition GetDimensionTombstone (s : slot) (p : HumanPrincipal) (dimension_id : UUID) (db : DB)
    : res Dimension :=
  _ ← authorize p READ_TOMBSTONE;
  DimensionLifecycle.get_tombstone s db dimension_id.

Definition MutateDimensionLifecycle (operation : DimensionOperation) (s : slot) (env : Env)
    (change_set_id : UUID) (p : HumanPrincipal) (dimension_id : UUID) (expected_version : pyval)
    (reason : option pystr) (db : DB) : res (Dimension * DB) :=
  _ ← authorize p MUTATE_DATA;
  version ← positive_version expected_version;
  audit ← create_audit reason_message change_set_id p (Some operation) None reason;
  if bool_decide (operation = DIM_DELETE) then delete_dimension s env db dimension_id version audit
  else restore_dimension s env db dimension_id version audit.
Definition DeleteDimension := MutateDimensionLifecycle DIM_DELETE.
Definition RestoreDimension := MutateDimensionLifecycle DIM_RESTORE.

(** ** MasterCodes *)

(** To the value classes of the other slots a [MemoryCreateValue] is an object
    that is neither a [str] nor an [int]. *)
Definition as_object (v : inline_value) : pyval :=
  match v with PlainValue v => v | MemoryCreateValue a u => VList [a; u] end.

Definition string_value_type (s : slot) : option (pyval → res dim_value) :=
  match s with
  | Company => Some CompanyValue_init | Brand => Some BrandValue_init
  | Model => Some ModelValue_init | Category => Some CategoryValue_init
  | Country => Some CountryValue_init | _ => None
  end.

Definition normalize_inline_value (s : slot) (value : inline_value) : res dim_value :=
  match string_value_type s with
  | Some string_type => string_type (as_object value)
  | None =>
      match s with
      | Year => YearValue_init (as_object value)
      | Network => NetworkGeneration_call (as_object value)
      | Memory =>
          match value with
          | MemoryCreateValue amount unit => MemoryValue_create amount unit
          | PlainValue _ =>
              Raise (DimensionValidationError "value" "amount와 unit을 입력해야 합니다.")
          end
      | _ => Raise (ValueError ("unsupported MasterCode Dimension slot: " ++ slot_name s))
      end
  end.

Definition normalize_selection (input : MasterCodeCreateInput) (s : slot)
    : res DimensionSelection :=
  let prefix := ("dimensions." ++ slot_name s)%string in
  match at_slot input s with
  | ExistingInput id => Ok (ExistingDimension id)
  | NotApplicableInput => Ok NotApplicable
  | OtherInput => Raise (DimensionValidationError prefix "유효한 mode를 입력해야 합니다.")
  | InlineInput code value =>
      '(c, v) ← catch (c ← match code with inl raw => DimensionCode_init raw | inr c => Ok c end;
                       v ← normalize_inline_value s value; Ok (c, v))
                  (λ e, match e with
                        | DimensionValidationError field message =>
                            Raise (DimensionValidationError (prefix ++ "." ++ field) message)
                        | _ => Raise e
                        end);
      Ok (InlineDimension c v)
  end.

(** A dictionary filled slot by slot, then passed as keyword arguments. *)
Definition build_slots {A} (f : slot → res A) : res (Slots A) :=
  c ← f Company; b ← f Brand; m ← f Model; g ← f Category;
  y ← f Year; e ← f Memory; n ← f Network; k ← f Country;
  Ok (mkSlots c b m g y e n k).

Definition normalize_plan (input : MasterCodeCreateInput) : res MasterCodeCreatePlan :=
  build_slots (normalize_selection input).

Definition is_inline (x : DimensionSelection) : bool :=
  match x with InlineDimension _ _ => true | _ => false end.

Definition CreateMasterCode (env : Env) (seen requery : DB) (change_set_id : UUID)
    (p : HumanPrincipal) (dimensions : MasterCodeCreateInput) (reason : option pystr) (db : DB)
    : res (MasterCode * DB) :=
  _ ← authorize p MUTATE_DATA;
  plan ← normalize_plan dimensions;
  let has_inline := existsb (λ s, is_inline (at_slot plan s)) ORDER in
  audit ← create_audit "유효한 생성 이유를 입력해야 합니다." change_set_id p
            (if has_inline then Some DIM_CREATE else None) (Some MC_CREATE) reason;
  create env seen requery db plan audit.

Definition UpdateMasterCodeReferences (env : Env) (seen : DB) (change_set_id : UUID)
    (p : HumanPrincipal) (master_code_id : UUID) (changes : MasterCodeReferenceUpdate)
    (expected_etag : pystr) (reason : option pystr) (db : DB) : res (MasterCode * DB) :=
  _ ← authorize p MUTATE_DATA;
  audit ← create_audit "유효한 참조 수정 이유를 입력해야 합니다." change_set_id p None
            (Some MC_REFERENCE_UPDATE) reason;
  update_references env seen db master_code_id changes expected_etag audit.

Definition GetMasterCode (p : HumanPrincipal) (master_code_id : UUID) (db : DB) : res MasterCode :=
  _ ← authorize p READ_DATA;
  MasterCodeRepo.get_active db master_code_id.

Definition ListMasterCodes (p : HumanPrincipal) (after : option page_key) (limit : pyval) (db : DB)
    : res (Page MasterCode) :=
  _ ← authorize p READ_DATA;
  n ← page_limit "MasterCode" limit;
  MasterCodeRepo.list_active db after n.

Definition GetMasterCodeTombstone (p : HumanPrincipal) (master_code_id : UUID) (db : DB)
    : res MasterCode :=
  _ ← authorize p READ_TOMBSTONE;
  MasterCodeRepo.get_tombstone db master_code_id.

(** [SqlAlchemyMasterCodeRepository.delete] and [restore] *)
Definition delete_master_code env seen db id expected_etag audit :=
  change_lifecycle env seen db id expected_etag audit false.
Definition restore_master_code env seen db id expected_etag audit :=
  change_lifecycle env seen db id expected_etag audit true.

Definition MutateMasterCodeLifecycle (operation : MasterCodeOperation) (env : Env) (seen : DB)
    (change_set_id : UUID) (p : HumanPrincipal) (master_code_id : UUID) (expected_etag : pystr)
    (reason : option pystr) (db : DB) : res (MasterCode * DB) :=
  _ ← authorize p MUTATE_DATA;
  audit ← create_audit reason_message change_set_id p None (Some operation) reason;
  if bool_decide (operation = MC_DELETE)
  then delete_master_code env seen db master_code_id expected_etag audit
  else restore_master_code env seen db master_code_id expected_etag audit.
Definition DeleteMasterCode := MutateMasterCodeLifecycle MC_DELETE.
Definition RestoreMasterCode := MutateMasterCodeLifecycle MC_RESTORE.

(** ** Every command of the two catalogues

    What a caller may ask for, and the use case that serves it.  Memory reads
    its value as an amount and a unit, the other slots ignore [unit]. *)

Inductive command :=
| CmdCreateDimension (s : slot) (code value unit : pyval)
| CmdUpdateDimension (s : slot) (id : UUID) (expected_version value unit code : pyval)
| CmdDeleteDimension (s : slot) (id : UUID) (expected_version : pyval)
| CmdRestoreDimension (s : slot) (id : UUID) (expected_version : pyval)
| CmdCreateMasterCode (dimensions : MasterCodeCreateInput)
| CmdUpdateReferences (id : UUID) (changes : MasterCodeReferenceUpdate) (expected_etag : pystr)
| CmdDeleteMasterCode (id : UUID) (expected_etag : pystr)
| CmdRestoreMasterCode (id : UUID) (expected_etag : pystr).

Inductive reply := DimensionReply (d : Dimension) | MasterCodeReply (mc : MasterCode).

(** One execution: what the server supplies and what unlocked reads see. *)
Record Request := mkRequest {
  rq_env : Env;
  rq_seen : DB;
  rq_requery : DB;
  rq_change_set_id : UUID;
  rq_principal : HumanPrincipal;
  rq_reason : option pystr;
}.

Definition create_dimension_command (s : slot) :=
  match s with
  | Company => λ R cs p code value (_ : pyval), CreateCompany R cs p code value
  | Brand => λ R cs p code value _, CreateBrand R cs p code value
  | Model => λ R cs p code value _, CreateModel R cs p code value
  | Category => λ R cs p code value _, CreateCategory R cs p code value
  | Year => λ R cs p code value _, CreateYear R cs p code value
  | Memory => λ R cs p code value unit, CreateMemory R cs p code value unit
  | Network => λ R cs p code value _, CreateNetwork R cs p code value
  | Country => λ R cs p code value _, CreateCountry (St := DB) R cs p code value
  end.

Definition update_dimension_command (s : slot) :=
  match s with
  | Company => λ R cs p id version value (_ : pyval) code, UpdateCompanyValue R cs p id version value code
  | Brand => λ R cs p id version value _ code, UpdateBrandValue R cs p id version value code
  | Model => λ R cs p id version value _ code, UpdateModelValue R cs p id version value code
  | Category => λ R cs p id version value _ code, UpdateCategoryValue R cs p id version value code
  | Year => λ R cs p id version value _ code, UpdateYearValue R cs p id version value code
  | Memory => λ R cs p id version value unit code, UpdateMemoryValue R cs p id version value unit code
  | Network => λ R cs p id version value _ code, UpdateNetworkValue R cs p id version value code
  | Country => λ R cs p id version value _ code,
      UpdateCountryValue (St := DB) R cs p id version value code
  end.

Definition execute (rq : Request) (c : command) (db : DB) : res (reply * DB) :=
  let env := rq_env rq in let seen := rq_seen rq in let cs := rq_change_set_id rq in
  let p := rq_principal rq in let reason := rq_reason rq in
  let dimension (m : res (Dimension * DB)) := '(d, db') ← m; Ok (DimensionReply d, db') in
  let master_code (m : res (MasterCode * DB)) := '(mc, db') ← m; Ok (MasterCodeReply mc, db') in
  match c with
  | CmdCreateDimension s code value unit =>
      dimension (create_dimension_command s (sql_repository s env seen) cs p code value unit reason db)
  | CmdUpdateDimension s id version value unit code =>
      dimension (update_dimension_command s (sql_repository s env seen) cs p id version value unit
                   code reason db)
  | CmdDeleteDimension s id version => dimension (DeleteDimension s env cs p id version reason db)
  | CmdRestoreDimension s id version => dimension (RestoreDimension s env cs p id version reason db)
  | CmdCreateMasterCode dimensions =>
      master_code (CreateMasterCode env seen (rq_requery rq) cs p dimensions reason db)
  | CmdUpdateReferences id changes expected_etag =>
      master_code (UpdateMasterCodeReferences env seen cs p id changes expected_etag reason db)
  | CmdDeleteMasterCode id expected_etag =>
      master_code (DeleteMasterCode env seen cs p id expected_etag reason db)
  | CmdRestoreMasterCode id expected_etag =>
      master_code (RestoreMasterCode env seen cs p id expected_etag reason db)
  end.
End lifecycle_use_cases.
