(* ===== verification/CommandSpecs.v ===== *)
(** * What the use cases promise

    Validation builds only well-formed arguments, so every command is one
    transaction whose hypotheses hold; every log entry it appends names its
    principal; the errors it raises are documented ones; and the Dimension use
    cases, proved against the laws of their port, read back what they wrote. *)

From S2P Require Import Prelude Python Exceptions Auth MutationAudit Dimensions MasterCodes Store Records Invariant Consistency Pagination DimensionRepos DimensionSpecs DimensionLifecycle MasterCodeRepo MasterCodeSpecs Transactions Commands.
Local Open Scope Z_scope.

(** ** Validation *)

Definition invalid_argument (e : exn) : Prop := ∃ field message, e = DimensionValidationError field message.

(** A value constructor of a slot. *)
Record value_parser (s : slot) (parse : pyval → res dim_value) : Prop := {
  vp_value : ∀ v d, parse v = Ok d → value_for s d;
  vp_raises : ∀ v, raises_only invalid_argument (parse v);
}.

Section validation.
Context `{UnicodeData}.

Ltac invalid := repeat (raises_step || (eexists _, _; reflexivity)).

Lemma DimensionCode_raises v : raises_only invalid_argument (DimensionCode_init v).
Proof. unfold DimensionCode_init. invalid. Qed.

Lemma normalize_string_raises v : raises_only invalid_argument (normalize_string_value v).
Proof. unfold normalize_string_value. invalid. Qed.

Lemma string_value_parser s (make : pystr → dim_value) :
  (∀ r, value_wf (make r) = (length r <=? 128)%nat && string_value_pattern r) →
  (∀ r, slot_of_value (make r) = s) →
  value_parser s (λ v, r ← normalize_string_value v; Ok (make r)).
Proof.
  intros Hwf Hs. split.
  - intros v d (r & Hr%normalize_string_value_wf & [= <-])%bind_Ok. by split; rewrite ?Hwf.
  - intros v. apply raises_bind; [apply normalize_string_raises|]. intros r _. apply raises_Ok.
Qed.

Lemma year_value_parser : value_parser Year YearValue_init.
Proof.
  split.
  - intros [| |z| | | |] d; try done. cbn. destruct (_ && _) eqn:E; [|done]. by intros [= <-].
  - intros v. unfold YearValue_init. invalid.
Qed.

Lemma network_value_parser : value_parser Network NetworkGeneration_call.
Proof.
  split.
  - intros [| |z| | | |] d; try done. unfold NetworkGeneration_call. destruct (find _ _); [|done].
    by intros [= <-].
  - intros v. unfold NetworkGeneration_call. invalid.
Qed.

Lemma memory_value_parser unit : value_parser Memory (λ a, MemoryValue_create a unit).
Proof.
  split.
  - intros a d. unfold MemoryValue_create. destruct unit as [| | | |u| |]; try done.
    intros (_ & _ & Hok)%bind_Ok. destruct (MemoryUnit_call _) as [mu|]; [|done].
    apply bind_Ok in Hok as (m & Hm & [= <-]). destruct a as [| |z| | | |]; try done. cbn in Hm.
    destruct (_ && _) eqn:E; [|done]. injection Hm as <-. split; [|done].
    cbn in *. by rewrite E.
  - intros a. unfold MemoryValue_create, MemoryValue_init. invalid.
Qed.

Lemma positive_version_raises v : raises_only (λ e, ∃ m, e = ValueError m) (positive_version v).
Proof. unfold positive_version. repeat (raises_step || (eexists; reflexivity)). Qed.

Lemma optional_Ok {A} (parse : pyval → res A) v x :
  optional parse v = Ok x →
  match x with None => v = VNone | Some y => v ≠ VNone ∧ parse v = Ok y end.
Proof.
  unfold optional. destruct (provided v) eqn:E.
  - intros (y & Hy & [= <-])%bind_Ok. split; [by destruct v|done].
  - intros [= <-]. by destruct v.
Qed.

Lemma optional_raises {A} P (parse : pyval → res A) v :
  (∀ v, raises_only P (parse v)) → raises_only P (optional parse v).
Proof. intros Hp. unfold optional. raises. apply Hp. Qed.

(** The parser each slot has. *)
Definition slot_parser (s : slot) (unit : pyval) : pyval → res dim_value :=
  match s with
  | Company => CompanyValue_init | Brand => BrandValue_init | Model => ModelValue_init
  | Category => CategoryValue_init | Year => YearValue_init
  | Memory => λ a, MemoryValue_create a unit
  | Network => NetworkGeneration_call | Country => CountryValue_init
  end.
Lemma slot_parser_ok s unit : value_parser s (slot_parser s unit).
Proof.
  destruct s; try (by apply string_value_parser);
    [apply year_value_parser|apply memory_value_parser|apply network_value_parser].
Qed.
End validation.

(** ** Audit metadata *)

(** What the metadata of an execution says. *)
Definition names_principal (cs : UUID) (p : HumanPrincipal) (reason : option pystr)
    (md : MutationAuditMetadata) : Prop :=
  md_change_set_id md = cs ∧ uuid_version cs = Some 7 ∧
  md_actor md = AuditActor_human (principal_id p) (principal_role p) ∧
  normalize_reason reason = Ok (md_reason md).

Lemma create_audit_Ok message cs p d m reason md :
  create_audit message cs p d m reason = Ok md →
  md_operations md = mkMutationOperations d m ∧ names_principal cs p reason md.
Proof.
  unfold create_audit, audit_create, MutationOperations_init, MutationAuditMetadata_init. intros Hok.
  apply catch_Ok in Hok as [Hok|(e & _ & He)]; [|by destruct e].
  apply bind_Ok in Hok as (ops & (_ & _ & [= <-])%bind_Ok & Hok).
  apply bind_Ok in Hok as (_ & Hv%raise_if_Ok%negb_false_iff%bool_decide_eq_true & Hok).
  by apply bind_Ok in Hok as (r & Hr & [= <-]).
Qed.

Lemma create_audit_raises message cs p d m reason :
  raises_only invalid_argument (create_audit message cs p d m reason).
Proof.
  apply raises_catch. intros e He.
  assert (raises_only (λ e, ∃ text, e = AuditInvariantError text) (audit_create cs p d m reason))
    as Hraises.
  { unfold audit_create, MutationOperations_init, MutationAuditMetadata_init, normalize_reason.
    repeat (raises_step || (eexists; reflexivity)). }
  destruct (Hraises e He) as [text ->]. apply raises_Raise. by eexists _, _.
Qed.

(** ** The log entries a transaction appends *)

Definition logged (md : MutationAuditMetadata) (db db' : DB) : Prop :=
  ∃ dl ml, dim_logs db' = dim_logs db ++ dl ∧ mc_logs db' = mc_logs db ++ ml ∧
    Forall (λ l, dl_metadata l = md) dl ∧ Forall (λ l, ml_metadata l = md) ml.

Lemma logged_refl md db : logged md db db.
Proof. exists [], []. by rewrite !app_nil_r. Qed.

Lemma logged_trans md db1 db2 db3 : logged md db1 db2 → logged md db2 db3 → logged md db1 db3.
Proof.
  intros (dl & ml & Hd & Hm & ? & ?) (dl' & ml' & Hd' & Hm' & ? & ?).
  exists (dl ++ dl'), (ml ++ ml'). rewrite Hd', Hm', Hd, Hm, !app_assoc. split_and!; auto with mdm.
Qed.

Lemma insert_logs_metadata md t s r :
  Forall (λ l, dl_metadata l = md) (dim_insert_logs (mkAuditContext md t) s r).
Proof. by repeat constructor. Qed.

Lemma update_logs_metadata md t s old new :
  Forall (λ l, dl_metadata l = md) (dim_update_logs (mkAuditContext md t) s old new).
Proof.
  unfold dim_update_logs. repeat apply Forall_app_2; repeat case_match; by repeat constructor.
Qed.

(** A transition of rows whose database is spelled out. *)
Lemma logged_by md db db' dl ml :
  dim_logs db' = dim_logs db ++ dl → mc_logs db' = mc_logs db ++ ml →
  Forall (λ l, dl_metadata l = md) dl → Forall (λ l, ml_metadata l = md) ml → logged md db db'.
Proof. by exists dl, ml. Qed.

(** A Dimension keeps its row or its version grows. *)
Definition dim_progress (db db' : DB) : Prop :=
  ∀ s id r, dims db !! (s, id) = Some r →
  ∃ r', dims db' !! (s, id) = Some r' ∧ (r' = r ∨ r_version r < r_version r').

Lemma dim_progress_refl db : dim_progress db db.
Proof. intros s id r Hr. exists r. auto. Qed.

Lemma dim_progress_trans db1 db2 db3 :
  dim_progress db1 db2 → dim_progress db2 db3 → dim_progress db1 db3.
Proof.
  intros H12 H23 s id r Hr. destruct (H12 _ _ _ Hr) as (r2 & Hr2 & H2).
  destruct (H23 _ _ _ Hr2) as (r3 & Hr3 & H3). exists r3. split; [done|].
  destruct H2 as [->|?], H3 as [->|?]; auto; right; lia.
Qed.

(** A stored row, written over by its next version or inserted. *)
Lemma dim_progress_insert s id row db db' :
  dims db' = <[(s, id) := row]> (dims db) →
  (∀ r, dims db !! (s, id) = Some r → row = r ∨ r_version r < r_version row) → dim_progress db db'.
Proof.
  intros Hdims Hrow s' id' r Hr. rewrite Hdims.
  destruct (decide ((s', id') = (s, id))) as [[= -> ->]|Hne].
  - rewrite lookup_insert_eq. eauto.
  - rewrite lookup_insert_ne by done. eauto.
Qed.

(** What one transaction does, whoever asked for it. *)
Record commits `{UnicodeData} (md : MutationAuditMetadata) (db db' : DB) : Prop := {
  cm_step : repo_step db db';
  cm_logged : logged md db db';
  cm_progress : dim_progress db db';
}.

Section commits.
Context `{UnicodeData} (env : Env) (seen db : DB).
Hypothesis Hdb : db_ok db.

Lemma stored_domain d0 s id r :
  db_ok d0 → dims d0 !! (s, id) = Some r →
  ∃ d, row_to_domain s r = Ok d ∧ row_dimension s r = Some d.
Proof.
  intros Hd0 Hr. destruct (so_dim _ (proj1 Hd0) _ _ _ Hr) as [_ Hwf].
  destruct (row_to_domain_wf s r Hwf) as (d & ? & ? & _). eauto.
Qed.

Lemma create_dimension_commits s code value audit d db' :
  op_dimension (md_operations audit) = Some DIM_CREATE → code_wf code = true → value_for s value →
  dims db !! (s, env_dim_id env s) = None →
  create_dimension (repository_of s) env seen db code value audit = Ok (d, db') →
  commits audit db db'.
Proof.
  intros Hop Hc Hv Hf Hok. split.
  - by eapply step_create_dimension.
  - rewrite create_dimension_rows in Hok by done. apply bind_Ok in Hok as ([row db1] & Hspec & Hok).
    apply bind_Ok in Hok as (? & _ & [= _ ->]). unfold create_spec in Hspec.
    do 3 apply bind_Ok in Hspec as (_ & _ & Hspec). injection Hspec as _ <-.
    eapply (logged_by _ _ _ _ []); [done|by rewrite app_nil_r|apply insert_logs_metadata|done].
  - rewrite create_dimension_rows in Hok by done. apply bind_Ok in Hok as ([row db1] & Hspec & Hok).
    apply bind_Ok in Hok as (? & _ & [= _ ->]).
    apply create_spec_ok in Hspec as (_ & _ & Hdims); [|done..].
    eapply dim_progress_insert; [done|]. intros r Hr. congruence.
Qed.

Lemma update_value_commits s id version value audit code d db' :
  op_dimension (md_operations audit) = Some DIM_UPDATE →
  (code ≠ None → op_master_code (md_operations audit) = Some MC_RECOMPOSE) →
  (∀ c, code = Some c → code_wf c = true) → (∀ v, value = Some v → value_for s v) →
  update_value (repository_of s) env seen db id version value audit code = Ok (d, db') →
  commits audit db db'.
Proof.
  intros Hop Hmc Hc Hv Hok. split.
  - by eapply step_update_value.
  - rewrite update_value_rows in Hok by done. apply bind_Ok in Hok as ([row db1] & Hspec & Hok).
    apply bind_Ok in Hok as (? & _ & [= _ ->]). unfold update_spec in Hspec.
    destruct (active_row _ id db) as [r|]; [|done]. apply bind_Ok in Hspec as (_ & _ & Hspec).
    destruct (negb _ && negb _); [injection Hspec as _ <-; apply logged_refl|].
    do 3 apply bind_Ok in Hspec as (_ & _ & Hspec). injection Hspec as _ <-.
    eapply logged_by; [done..|apply update_logs_metadata|]. destruct (code_changes r code); [|done].
    by apply Forall_fmap, Forall_true.
  - rewrite update_value_rows in Hok by done. apply bind_Ok in Hok as ([row db1] & Hspec & Hok).
    apply bind_Ok in Hok as (? & _ & [= _ ->]).
    apply update_spec_ok in Hspec as (_ & Hdims & _ & r & Hr & Hver & Hrow); [|done..].
    eapply dim_progress_insert; [done|]. intros r' Hr'. assert (r' = r) as -> by congruence.
    destruct Hrow as [[-> _]|Hrow]; [by left|right; lia].
Qed.

Lemma lifecycle_commits s id version audit deleting d db' :
  op_dimension (md_operations audit) = Some (if deleting : bool then DIM_DELETE else DIM_RESTORE) →
  mutate_lifecycle s env db id version audit deleting = Ok (d, db') → commits audit db db'.
Proof.
  intros Hop Hok. split.
  - by eapply step_dimension_lifecycle.
  - rewrite lifecycle_rows in Hok by done. apply bind_Ok in Hok as ([row db1] & Hspec & Hok).
    apply bind_Ok in Hok as (? & _ & [= _ ->]). unfold lifecycle_spec in Hspec.
    destruct (dims db !! (s, id)) as [r|]; [|done].
    do 4 apply bind_Ok in Hspec as (_ & _ & Hspec). injection Hspec as _ <-.
    eapply (logged_by _ _ _ _ []); [done|by rewrite app_nil_r|apply update_logs_metadata|done].
  - rewrite lifecycle_rows in Hok by done. apply bind_Ok in Hok as ([row db1] & Hspec & Hok).
    apply bind_Ok in Hok as (? & _ & [= _ ->]).
    apply lifecycle_spec_ok in Hspec as (_ & Hdims & _ & r & Hr & Hver & Hrow); [|done..].
    eapply dim_progress_insert; [done|]. intros r' Hr'. assert (r' = r) as -> by congruence.
    right. lia.
Qed.

Lemma update_references_commits id changes expected_etag audit mc db' :
  db_ok seen → rtc store_step seen db →
  op_master_code (md_operations audit) = Some MC_REFERENCE_UPDATE →
  update_references env seen db id changes expected_etag audit = Ok (mc, db') →
  commits audit db db'.
Proof.
  intros Hs Hb Hop Hok. split.
  - by eapply step_update_references.
  - rewrite update_references_rows in Hok by done.
    apply bind_Ok in Hok as ([row db1] & Hspec & [= _ ->]). unfold reference_spec in Hspec.
    destruct (active_mc seen id), (mcs db !! id); try done.
    do 4 apply bind_Ok in Hspec as (_ & _ & Hspec).
    destruct (bool_decide _); [injection Hspec as _ <-; apply logged_refl|].
    apply bind_Ok in Hspec as (_ & _ & [= _ <-]).
    eapply (logged_by _ _ _ []); [by rewrite app_nil_r|done..|by repeat constructor].
  - rewrite update_references_rows in Hok by done.
    apply bind_Ok in Hok as ([row db1] & Hspec & [= _ ->]).
    apply reference_spec_ok in Hspec as (_ & m & _ & _ & _ & Hdims & _); [|done..].
    intros s i r. rewrite Hdims. eauto.
Qed.

Lemma change_lifecycle_commits id expected_etag audit restore mc db' :
  db_ok seen → rtc store_step seen db →
  op_master_code (md_operations audit) = Some (if restore : bool then MC_RESTORE else MC_DELETE) →
  change_lifecycle env seen db id expected_etag audit restore = Ok (mc, db') →
  commits audit db db'.
Proof.
  intros Hs Hb Hop Hok. split.
  - by eapply step_master_code_lifecycle.
  - rewrite change_lifecycle_rows in Hok by done.
    apply bind_Ok in Hok as ([row db1] & Hspec & [= _ ->]). unfold mc_lifecycle_spec in Hspec.
    destruct (mcs seen !! id), (mcs db !! id); try done.
    do 5 apply bind_Ok in Hspec as (_ & _ & Hspec). injection Hspec as _ <-.
    eapply (logged_by _ _ _ []); [by rewrite app_nil_r|done..|by repeat constructor].
  - rewrite change_lifecycle_rows in Hok by done.
    apply bind_Ok in Hok as ([row db1] & Hspec & [= _ ->]).
    apply mc_lifecycle_spec_ok in Hspec as (_ & m & _ & _ & _ & Hdims & _); [|done..].
    intros s i r. rewrite Hdims. eauto.
Qed.

(** The loop of MasterCode creation inserts new rows and their logs. *)
Lemma create_slots_logged c requery plan l st st' :
  foldR (create_slot_spec env c seen requery plan) st l = Ok st' →
  logged (cx_metadata c) st.1 st'.1 ∧
  ∀ k, (∀ s, k ≠ (s, env_dim_id env s)) → dims st'.1 !! k = dims st.1 !! k.
Proof.
  revert st. induction l as [|s l IH]; intros st; cbn.
  - intros [= <-]. split; [apply logged_refl|done].
  - intros (st1 & Hs & Hl)%bind_Ok. destruct (IH _ Hl) as [Hlog Hkeep].
    enough (logged (cx_metadata c) st.1 st1.1 ∧
      ∀ k, (∀ s, k ≠ (s, env_dim_id env s)) → dims st1.1 !! k = dims st.1 !! k) as [H1 H2].
    { split; [by eapply logged_trans|]. intros k Hk. by rewrite Hkeep, H2. }
    clear IH Hl Hlog Hkeep. unfold create_slot_spec, raise_some in Hs.
    destruct (at_slot plan s) as [i|code value|];
      [injection Hs as <-; split; [apply logged_refl|done]| |
       injection Hs as <-; split; [apply logged_refl|done]].
    destruct (inline_conflict s code value seen None); [done|].
    destruct (code_used _ _ _); [destruct (inline_conflict _ _ _ _ _); [done|]|
      destruct (key_used _ _ _); [destruct (inline_conflict _ _ _ _ _); [done|]|]];
      injection Hs as <-; try (split; [apply logged_refl|done]).
    split.
    + destruct c. eapply (logged_by _ _ _ _ []); [done|by rewrite app_nil_r|apply insert_logs_metadata|done].
    + intros k Hk. cbn. by rewrite lookup_insert_ne by congruence.
Qed.

Lemma create_master_code_commits requery plan audit mc db' :
  op_master_code (md_operations audit) = Some MC_CREATE → mcs db !! env_mc_id env = None →
  (∀ s, dims db !! (s, env_dim_id env s) = None) →
  (∀ s code value, at_slot plan s = InlineDimension code value →
     op_dimension (md_operations audit) = Some DIM_CREATE ∧ code_wf code = true ∧ value_for s value) →
  create env seen requery db plan audit = Ok (mc, db') → commits audit db db'.
Proof.
  intros Hop Hf Hfs Hp Hok.
  assert (∀ s code value, at_slot plan s = InlineDimension code value →
    op_dimension (md_operations audit) = Some DIM_CREATE ∧ code_wf code = true ∧ value_for s value ∧
    dims db !! (s, env_dim_id env s) = None) as Hp'.
  { intros s code value Hs. destruct (Hp _ _ _ Hs) as (? & ? & ?). auto. }
  assert (logged audit db db' ∧ ∀ k, (∀ s, k ≠ (s, env_dim_id env s)) → dims db' !! k = dims db !! k)
    as [Hlog Hkeep].
  { rewrite create_rows in Hok by done. apply bind_Ok in Hok as ([row db1] & Hspec & [= _ ->]).
    unfold create_mc_spec in Hspec. apply bind_Ok in Hspec as ([db1 invalid] & Hloop & Hspec).
    apply create_slots_logged in Hloop as [Hlog Hkeep].
    do 2 apply bind_Ok in Hspec as (_ & _ & Hspec). injection Hspec as _ <-.
    split; [eapply logged_trans; [exact Hlog|]|exact Hkeep].
    eapply (logged_by _ _ _ []); [by rewrite app_nil_r|done..|by repeat constructor]. }
  split; [by eapply step_create_master_code|done|].
  intros s i r Hr. exists r. rewrite Hkeep; [by auto|]. intros s' [= -> ->]. congruence.
Qed.
End commits.

(** ** Errors of the repositories *)

(** The exceptions the API maps to responses of their own. *)
Definition repository_error (e : exn) : bool :=
  match e with
  | PreconditionFailed
  | CompanyNotFound | CompanyCodeConflict | CompanyValueConflict | CompanyMultipleConflicts
  | StringDimensionNotFound _ | StringDimensionCodeConflict _ | StringDimensionValueConflict _
  | StringDimensionMultipleConflicts _
  | NumericDimensionNotFound _ | NumericDimensionCodeConflict _ | NumericDimensionValueConflict _
  | NumericDimensionMultipleConflicts _
  | MemoryDimensionNotFound | MemoryDimensionCodeConflict | MemoryDimensionValueConflict
  | MemoryDimensionMultipleConflicts
  | DimensionLifecycleNotFound | DimensionNotDeleted | DimensionInUse
  | MasterCodeNotFound | MasterCodeConflict | MasterCodeNotDeleted
  | InvalidDimensionReference _ | InlineDimensionConflict _ _ _ | MasterCodeReferenceInactive _ => true
  | _ => false
  end.
Abbreviation repository_errors := (raises_only (λ e, repository_error e = true)).

Lemma config_errors s :
  repository_error (cf_not_found (repository_of s)) = true ∧
  repository_error (cf_code_conflict (repository_of s)) = true ∧
  repository_error (cf_value_conflict (repository_of s)) = true ∧
  repository_error (cf_multiple_conflicts (repository_of s)) = true.
Proof. by destruct s. Qed.

Section errors.
Context `{UnicodeData} (env : Env) (seen db : DB).
Hypothesis Hdb : db_ok db.

(** Which exceptions each transaction can raise, for any class [P] of them. *)
Lemma raise_conflict_raises (P : exn → Prop) s c v :
  P (cf_code_conflict (repository_of s)) → P (cf_value_conflict (repository_of s)) →
  P (cf_multiple_conflicts (repository_of s)) → raises_only P (raise_conflict (repository_of s) c v).
Proof. intros. unfold raise_conflict. by raises. Qed.

Lemma create_dimension_raises (P : exn → Prop) s code value audit :
  op_dimension (md_operations audit) = Some DIM_CREATE → code_wf code = true → value_for s value →
  dims db !! (s, env_dim_id env s) = None →
  P (cf_code_conflict (repository_of s)) → P (cf_value_conflict (repository_of s)) →
  P (cf_multiple_conflicts (repository_of s)) →
  raises_only P (create_dimension (repository_of s) env seen db code value audit).
Proof.
  intros Hop Hc Hv Hf ???. rewrite create_dimension_rows by done.
  apply raises_bind; [unfold create_spec; raises; (by apply raise_conflict_raises) || done|].
  intros [row db'] (Hdb' & _ & Hdims)%create_spec_ok; [|done..].
  destruct (stored_domain db' s (env_dim_id env s) row) as (d & -> & _);
    [done|by rewrite Hdims, lookup_insert_eq|apply raises_Ok].
Qed.

Lemma update_value_raises (P : exn → Prop) s id version value audit code :
  op_dimension (md_operations audit) = Some DIM_UPDATE →
  (code ≠ None → op_master_code (md_operations audit) = Some MC_RECOMPOSE) →
  (∀ c, code = Some c → code_wf c = true) → (∀ v, value = Some v → value_for s v) →
  P (cf_not_found (repository_of s)) →
  (∀ r, active_row s id db = Some r → r_version r ≠ version → P PreconditionFailed) →
  P (cf_code_conflict (repository_of s)) → P (cf_value_conflict (repository_of s)) →
  P (cf_multiple_conflicts (repository_of s)) →
  raises_only P (update_value (repository_of s) env seen db id version value audit code).
Proof.
  intros Hop Hmc Hc Hv ? Hpre ???. rewrite update_value_rows by done. apply raises_bind.
  - unfold update_spec. rewrite cf_slot_repository. destruct (active_row s id db) as [r|]; [|by apply raises_Raise].
    raises; first [by apply raise_conflict_raises | done | apply (Hpre r); [done|lia]].
  - intros [row db'] (Hdb' & Hdims & _)%update_spec_ok; [|done..].
    destruct (stored_domain db' s id row) as (d & -> & _);
      [done|by rewrite Hdims, lookup_insert_eq|apply raises_Ok].
Qed.

Lemma lifecycle_raises (P : exn → Prop) s id version audit deleting :
  op_dimension (md_operations audit) = Some (if deleting : bool then DIM_DELETE else DIM_RESTORE) →
  P DimensionLifecycleNotFound → (deleting = false → P DimensionNotDeleted) →
  (∀ r, dims db !! (s, id) = Some r → r_version r ≠ version → P PreconditionFailed) →
  (deleting = true → P DimensionInUse) → raises_only P (mutate_lifecycle s env db id version audit deleting).
Proof.
  intros Hop ?? Hpre ?. rewrite lifecycle_rows by done. apply raises_bind.
  - unfold lifecycle_spec. destruct (dims db !! (s, id)) as [r|]; [|by apply raises_Raise].
    raises; first [apply (Hpre r); [done|lia] | destruct deleting; auto].
  - intros [row db'] (Hdb' & Hdims & _)%lifecycle_spec_ok; [|done..].
    destruct (stored_domain db' s id row) as (d & -> & _);
      [done|by rewrite Hdims, lookup_insert_eq|apply raises_Ok].
Qed.

Lemma create_dimension_errors s code value audit :
  op_dimension (md_operations audit) = Some DIM_CREATE → code_wf code = true → value_for s value →
  dims db !! (s, env_dim_id env s) = None →
  repository_errors (create_dimension (repository_of s) env seen db code value audit).
Proof. intros. apply create_dimension_raises; try done; apply config_errors. Qed.

Lemma update_value_errors s id version value audit code :
  op_dimension (md_operations audit) = Some DIM_UPDATE →
  (code ≠ None → op_master_code (md_operations audit) = Some MC_RECOMPOSE) →
  (∀ c, code = Some c → code_wf c = true) → (∀ v, value = Some v → value_for s v) →
  repository_errors (update_value (repository_of s) env seen db id version value audit code).
Proof. intros. apply update_value_raises; try done; apply config_errors. Qed.

Lemma lifecycle_errors s id version audit deleting :
  op_dimension (md_operations audit) = Some (if deleting : bool then DIM_DELETE else DIM_RESTORE) →
  repository_errors (mutate_lifecycle s env db id version audit deleting).
Proof. intros. by apply lifecycle_raises. Qed.

(** The MasterCode a precondition names: the row the unlocked read found, in the
    representation with that ETag. *)
Definition etag_current (id : UUID) (expected_etag : pystr) : Prop :=
  ∃ m, mcs seen !! id = Some m ∧ mcs db !! id = Some m ∧ etag (mc_of m (joined_dims db m)) = expected_etag.

(** An active MasterCode has active references. *)
Lemma active_not_stale id m : mcs db !! id = Some m → m_deleted_at m = None → existsb (stale_reference db m) ORDER = false.
Proof.
  intros Hm Hd. apply not_true_is_false. intros (s & _ & Hst)%existsb_elem_of.
  unfold stale_reference, inactive_row in Hst.
  destruct (at_slot (m_refs m) s) as [i|] eqn:Href; [|done]. apply bool_decide_eq_true in Hst.
  destruct (stored_refs_exist db id m (proj1 Hdb) Hm s i Href) as [r Hr].
  assert (joined_slot db m s = Some r) as Hj by (unfold joined_slot; by rewrite Href).
  pose proof (cs_active _ (proj2 Hdb) _ _ _ _ Hm Hd Hj) as Hact.
  by rewrite (proj2 (active_row_Some s i db r)) in Hst.
Qed.

Lemma update_references_raises (P : exn → Prop) id changes expected_etag audit :
  db_ok seen → rtc store_step seen db →
  op_master_code (md_operations audit) = Some MC_REFERENCE_UPDATE →
  P MasterCodeNotFound → P MasterCodeConflict → (∀ fields, P (InvalidDimensionReference fields)) →
  (¬ etag_current id expected_etag → P PreconditionFailed) →
  raises_only P (update_references env seen db id changes expected_etag audit).
Proof.
  intros Hs Hb Hop ??? Hpre. rewrite update_references_rows by done. unfold reference_spec.
  destruct (active_mc seen id) as [m0|] eqn:Ea; [|by raises].
  apply active_mc_Some in Ea as [Hm0 Hd0]. destruct (mcs db !! id) as [m|] eqn:Hm; [|by raises].
  raises; first [done | solve [auto] | apply Hpre; intros (m' & ? & ? & He); simplify_eq].
  - by rewrite active_not_stale with (id := id) in *.
  - lia.
  - by rewrite bool_decide_eq_true_2 in *.
Qed.

Lemma change_lifecycle_raises (P : exn → Prop) id expected_etag audit restore :
  db_ok seen → rtc store_step seen db →
  op_master_code (md_operations audit) = Some (if restore : bool then MC_RESTORE else MC_DELETE) →
  P MasterCodeNotFound → (restore = true → P MasterCodeNotDeleted) →
  (restore = true → ∀ fields, P (MasterCodeReferenceInactive fields)) →
  (¬ etag_current id expected_etag → P PreconditionFailed) →
  raises_only P (change_lifecycle env seen db id expected_etag audit restore).
Proof.
  intros Hs Hb Hop ? Hn Hi Hpre. rewrite change_lifecycle_rows by done. unfold mc_lifecycle_spec.
  destruct (mcs seen !! id) as [m0|] eqn:Hm0; [|by raises]. destruct (mcs db !! id) as [m|] eqn:Hm; [|by raises].
  raises; first [done | by apply Hn; destruct restore | by apply Hi; destruct restore
    | apply Hpre; intros (m' & ? & ? & He); simplify_eq].
  - lia.
  - by rewrite bool_decide_eq_true_2 in *.
Qed.

Lemma inline_conflict_raised s code value d violated e :
  inline_conflict s code value d violated = Some e → ∃ f c v, e = InlineDimensionConflict f c v.
Proof.
  unfold inline_conflict. destruct (_ || _); [intros [= <-]; by eexists _, _, _|].
  destruct violated; intros [= <-]. by eexists _, _, _.
Qed.

Lemma create_raises (P : exn → Prop) requery plan audit :
  op_master_code (md_operations audit) = Some MC_CREATE → mcs db !! env_mc_id env = None →
  (∀ s, dims db !! (s, env_dim_id env s) = None) →
  (∀ s code value, at_slot plan s = InlineDimension code value →
     op_dimension (md_operations audit) = Some DIM_CREATE ∧ code_wf code = true ∧ value_for s value) →
  P MasterCodeConflict → (∀ fields, P (InvalidDimensionReference fields)) →
  (∀ f c v, P (InlineDimensionConflict f c v)) →
  raises_only P (create env seen requery db plan audit).
Proof.
  intros Hop Hf Hfs Hp ?? Hinline. rewrite create_rows; [|done..|].
  - unfold create_mc_spec. raises; auto.
    apply raises_foldR. intros st s _. unfold create_slot_spec, raise_some. raises.
    all: match goal with Heq : inline_conflict _ _ _ _ _ = Some _ |- _ =>
           apply inline_conflict_raised in Heq as (? & ? & ? & ->) end; apply Hinline.
  - intros s code value Hs. destruct (Hp _ _ _ Hs) as (? & ? & ?). auto.
Qed.

Lemma update_references_errors id changes expected_etag audit :
  db_ok seen → rtc store_step seen db →
  op_master_code (md_operations audit) = Some MC_REFERENCE_UPDATE →
  repository_errors (update_references env seen db id changes expected_etag audit).
Proof. intros. by apply update_references_raises. Qed.

Lemma change_lifecycle_errors id expected_etag audit restore :
  db_ok seen → rtc store_step seen db →
  op_master_code (md_operations audit) = Some (if restore : bool then MC_RESTORE else MC_DELETE) →
  repository_errors (change_lifecycle env seen db id expected_etag audit restore).
Proof. intros. by apply change_lifecycle_raises. Qed.

Lemma create_errors requery plan audit :
  op_master_code (md_operations audit) = Some MC_CREATE → mcs db !! env_mc_id env = None →
  (∀ s, dims db !! (s, env_dim_id env s) = None) →
  (∀ s code value, at_slot plan s = InlineDimension code value →
     op_dimension (md_operations audit) = Some DIM_CREATE ∧ code_wf code = true ∧ value_for s value) →
  repository_errors (create env seen requery db plan audit).
Proof. intros. by apply create_raises. Qed.
End errors.

(** ** The laws of the port *)

(** What a repository promises to the use cases: in a state it is ready to
    write in, a creation or an update commits, and reading the Dimension back
    gives what was returned; or it raises one of its documented errors. *)
Class DimensionRepositoryLaws `{UnicodeData} (s : slot) {St} (R : DimensionRepository St) := {
  rl_ready : St → Prop;
  rl_committed : MutationAuditMetadata → St → St → Prop;
  rl_create st code value audit :
    rl_ready st → op_dimension (md_operations audit) = Some DIM_CREATE →
    code_wf code = true → value_for s value →
    match repo_create code value audit st with
    | Ok (d, st') =>
        rl_committed audit st st' ∧ dim_code d = code ∧ dim_value_of d = value ∧
        dim_version d = 1 ∧ repo_get_active (dim_id d) st' = Ok d
    | Raise e => repository_error e = true
    end;
  rl_update st id version value audit code :
    rl_ready st → op_dimension (md_operations audit) = Some DIM_UPDATE →
    (code ≠ None → op_master_code (md_operations audit) = Some MC_RECOMPOSE) →
    (∀ c, code = Some c → code_wf c = true) → (∀ v, value = Some v → value_for s v) →
    match repo_update_value id version value audit code st with
    | Ok (d, st') =>
        rl_committed audit st st' ∧ dim_id d = id ∧ repo_get_active id st' = Ok d ∧
        (dim_version d = version ∨ dim_version d = version + 1) ∧
        (∀ c, code = Some c → dim_code d = c) ∧
        (∀ v, value = Some v → dimension_values_equal (dim_value_of d) v = true)
    | Raise e => repository_error e = true
    end;
}.

(** What the server supplies to one execution: new identifiers, and unlocked
    reads of some earlier committed state. *)
Record served (env : Env) (seen db : DB) : Prop := {
  sv_seen : db_ok seen;
  sv_before : rtc store_step seen db;
  sv_dimension_ids : ∀ s, dims db !! (s, env_dim_id env s) = None;
  sv_master_code_id : mcs db !! env_mc_id env = None;
}.

Section sql_laws.
Context `{UnicodeData} (env : Env) (seen : DB).

Lemma get_active_stored s db id r d :
  dims db !! (s, id) = Some r → r_deleted_at r = None → row_to_domain s r = Ok d →
  DimensionRepos.get_active (repository_of s) db id = Ok d.
Proof.
  intros Hr Hdel Hd. unfold DimensionRepos.get_active, active_row. rewrite cf_slot_repository, Hr. cbn.
  by rewrite bool_decide_eq_true_2 by done.
Qed.

Lemma update_spec_fields s db id version value audit code row db' :
  update_spec (repository_of s) env seen db id version value audit code = Ok (row, db') →
  (∀ c, code = Some c → r_code row = code_value c) ∧
  (∀ v, value = Some v → row_key (r_value row) = row_key (value_to_row v)).
Proof.
  unfold update_spec. destruct (active_row _ id db) as [r|]; [|done].
  intros (_ & _ & Hok)%bind_Ok.
  destruct (negb (code_changes r code) && negb (value_changes r value)) eqn:E.
  - injection Hok as <- _. apply andb_true_iff in E as [Ec Ev]. split.
    + intros c ->. cbn in Ec. by rewrite negb_involutive in Ec; apply bool_decide_eq_true in Ec.
    + intros v ->. cbn in Ev. by rewrite negb_involutive in Ev; apply bool_decide_eq_true in Ev.
  - do 3 apply bind_Ok in Hok as (_ & _ & Hok). injection Hok as <- _. cbn. split.
    + intros c ->. cbn. case_bool_decide; [by cbn|done].
    + intros v ->. cbn. case_bool_decide; [by cbn|done].
Qed.

Lemma domain_of_row s r d v :
  row_dimension s r = Some d → value_for s v → row_key (r_value r) = row_key (value_to_row v) →
  dimension_values_equal (dim_value_of d) v = true.
Proof.
  intros Hd [_ Hs] Hk.
  apply row_dimension_fields in Hd as (_ & _ & _ & _ & _ & _ & Hval & _ & Hdom).
  rewrite values_equal_key.
  - apply bool_decide_eq_true_2. by rewrite Hval.
  - rewrite Hs. by eapply value_dom_slot.
Qed.

#[export] Program Instance sql_repository_laws s :
    DimensionRepositoryLaws s (sql_repository s env seen) := {|
  rl_ready db := db_ok db ∧ dims db !! (s, env_dim_id env s) = None;
  rl_committed := commits;
|}.
Next Obligation.
  intros s db code value audit [Hdb Hf] Hop Hc Hv. cbn.
  destruct (create_dimension _ _ _ _ _ _ _) as [[d db']|e] eqn:Hok;
    [|by eapply create_dimension_errors].
  split; [by eapply create_dimension_commits|].
  rewrite create_dimension_rows in Hok by done. apply bind_Ok in Hok as ([row db1] & Hspec & Hok).
  apply bind_Ok in Hok as (d' & Hd & [= <- ->]).
  apply create_spec_ok in Hspec as (Hdb' & Hrow & Hdims); [|done..].
  assert (dims db' !! (s, env_dim_id env s) = Some row) as Hr by by rewrite Hdims, lookup_insert_eq.
  destruct (stored_domain _ _ _ _ Hdb' Hr) as (d1 & Hd1 & Hfields).
  assert (d1 = d') as -> by congruence. pose proof Hfields as Hall.
  apply row_dimension_fields in Hall as (Hid & Hcode & Hver & _ & _ & _ & _ & _ & Hdom).
  rewrite Hrow in *. cbn in *. destruct Hv as [_ Hs]. subst s. rewrite value_to_row_dom in Hdom.
  split_and!; [by destruct (dim_code d'), code; cbn in *; subst|congruence|done|].
  rewrite Hid. by eapply get_active_stored.
Qed.
Next Obligation.
  intros s db id version value audit code [Hdb _] Hop Hmc Hc Hv. cbn.
  destruct (update_value _ _ _ _ _ _ _ _ _) as [[d db']|e] eqn:Hok; [|by eapply update_value_errors].
  split; [by eapply update_value_commits|].
  rewrite update_value_rows in Hok by done. apply bind_Ok in Hok as ([row db1] & Hspec & Hok).
  apply bind_Ok in Hok as (d' & Hd & [= <- ->]).
  destruct (update_spec_fields _ _ _ _ _ _ _ _ _ Hspec) as [Hrc Hrv].
  apply update_spec_ok in Hspec as (Hdb' & Hdims & Hdel & r & _ & Hver & Hrow); [|done..].
  assert (dims db' !! (s, id) = Some row) as Hr by by rewrite Hdims, lookup_insert_eq.
  destruct (stored_domain _ _ _ _ Hdb' Hr) as (d1 & Hd1 & Hfields).
  assert (d1 = d') as -> by congruence. pose proof Hfields as Hall.
  apply row_dimension_fields in Hall as (Hid & Hcode & Hversion & _).
  destruct (so_dim _ (proj1 Hdb') _ _ _ Hr) as [Hrid _].
  split_and!; [congruence|by eapply get_active_stored| | |].
  - rewrite Hversion. destruct Hrow as [[-> _]|?]; auto.
  - intros c Hcc. specialize (Hrc c Hcc). destruct (dim_code d'), c; cbn in *; congruence.
  - intros v Hvv. eapply domain_of_row; [done|by apply Hv|by apply Hrv].
Qed.
End sql_laws.

(** ** The Dimension use cases, against the laws *)

(** The errors of a use case. *)
Definition command_error (p : HumanPrincipal) (e : exn) : Prop :=
  e = AuthorizationDenied ∧ principal_role p = USER ∨
  principal_role p ≠ USER ∧
    (invalid_argument e ∨ (∃ message, e = ValueError message) ∨ repository_error e = true).

Lemma authorize_mutation p : authorize p MUTATE_DATA = if bool_decide (principal_role p = USER)
                                                        then Raise AuthorizationDenied else Ok p.
Proof. by destruct p as [i []]. Qed.

Lemma authorize_read p : authorize p READ_DATA = Ok p.
Proof. by destruct p as [i []]. Qed.

Lemma command_bind {A} p (m : res A) :
  (principal_role p ≠ USER → raises_only (λ e, invalid_argument e ∨ (∃ message, e = ValueError message) ∨
     repository_error e = true) m) →
  raises_only (command_error p) (_ ← authorize p MUTATE_DATA; m).
Proof.
  rewrite authorize_mutation. case_bool_decide as Hr; intros Hm e; cbn.
  - intros [= <-]. by left.
  - intros He. right. split; [done|]. by apply Hm.
Qed.

Lemma command_allowed {A} p (k : HumanPrincipal → res A) x :
  (authorize p MUTATE_DATA ≫= k) = Ok x → principal_role p ≠ USER ∧ k p = Ok x.
Proof. rewrite authorize_mutation. by case_bool_decide. Qed.

Section port_clients.
Context `{UnicodeData} {St : Type} (s : slot) (R : DimensionRepository St).
Context `{!DimensionRepositoryLaws s R}.
Context (parse : pyval → res dim_value) (Hparse : value_parser s parse).
Context (cs : UUID) (p : HumanPrincipal) (reason : option pystr).

Ltac argument := intros ? ?; left.

Lemma CreateDimension_spec code value st :
  rl_ready st →
  raises_only (command_error p) (CreateDimension R parse cs p code value reason st) ∧
  ∀ d st', CreateDimension R parse cs p code value reason st = Ok (d, st') →
    principal_role p ≠ USER ∧ DimensionCode_init code = Ok (dim_code d) ∧
    parse value = Ok (dim_value_of d) ∧ dim_version d = 1 ∧
    (∀ q, GetDimension R q (dim_id d) st' = Ok d) ∧
    ∃ md, names_principal cs p reason md ∧ rl_committed md st st'.
Proof.
  intros Hready. split.
  - apply command_bind. intros _.
    apply raises_bind; [apply (raises_impl invalid_argument); [apply DimensionCode_raises|auto]|intros c Hc].
    apply raises_bind; [apply (raises_impl invalid_argument); [apply Hparse|auto]|intros v Hv].
    apply raises_bind; [apply (raises_impl invalid_argument); [apply create_audit_raises|auto]|].
    intros md [Hops _]%create_audit_Ok e He.
    pose proof (rl_create st c v md Hready) as Hlaw. rewrite He in Hlaw. right; right.
    apply Hlaw; [by rewrite Hops|by eapply DimensionCode_init_wf|by eapply Hparse].
  - intros d st' [Hrole Hok]%command_allowed. split; [done|].
    apply bind_Ok in Hok as (c & Hc & Hok). apply bind_Ok in Hok as (v & Hv & Hok).
    apply bind_Ok in Hok as (md & Hmd & Hok). apply create_audit_Ok in Hmd as [Hops Hnames].
    pose proof (rl_create st c v md Hready) as Hlaw. rewrite Hok in Hlaw.
    destruct Hlaw as (Hcom & -> & -> & Hver & Hget);
      [by rewrite Hops|by eapply DimensionCode_init_wf|by eapply Hparse|].
    split_and!; try done; [|by exists md]. intros q. unfold GetDimension. by rewrite authorize_read.
Qed.

Lemma UpdateDimensionValue_spec id expected_version value code st :
  rl_ready st →
  raises_only (command_error p)
    (UpdateDimensionValue R parse cs p id expected_version value code reason st) ∧
  ∀ d st', UpdateDimensionValue R parse cs p id expected_version value code reason st = Ok (d, st') →
    principal_role p ≠ USER ∧ dim_id d = id ∧
    (∃ version, expected_version = VInt version ∧ 1 ≤ version ∧
       (dim_version d = version ∨ dim_version d = version + 1)) ∧
    (code ≠ VNone → DimensionCode_init code = Ok (dim_code d)) ∧
    (value ≠ VNone → ∃ v, parse value = Ok v ∧ dimension_values_equal (dim_value_of d) v = true) ∧
    (∀ q, GetDimension R q id st' = Ok d) ∧
    ∃ md, names_principal cs p reason md ∧ rl_committed md st st'.
Proof.
  intros Hready.
  assert (∀ version c v md, positive_version expected_version = Ok version →
    optional DimensionCode_init code = Ok c → optional parse value = Ok v →
    md_operations md = mkMutationOperations (Some DIM_UPDATE)
      (match c with Some _ => Some MC_RECOMPOSE | None => None end) →
    op_dimension (md_operations md) = Some DIM_UPDATE ∧
    (c ≠ None → op_master_code (md_operations md) = Some MC_RECOMPOSE) ∧
    (∀ c', c = Some c' → code_wf c' = true) ∧ (∀ v', v = Some v' → value_for s v')) as Hpre.
  { intros version c v md _ Hc%optional_Ok Hv%optional_Ok ->. cbn. split_and!; [done|by destruct c|..].
    - intros c' ->. by eapply DimensionCode_init_wf, Hc.
    - intros v' ->. by eapply Hparse, Hv. }
  split.
  - apply command_bind. intros _.
    apply raises_bind; [eapply raises_impl; [apply positive_version_raises|auto]|intros version Hversion].
    apply raises_bind; [apply raises_if; eauto|intros _ _].
    apply raises_bind; [apply (raises_impl invalid_argument);
      [apply optional_raises, DimensionCode_raises|auto]|intros c Hc].
    apply raises_bind; [apply (raises_impl invalid_argument);
      [apply optional_raises; intros; apply Hparse|auto]|intros v Hv].
    apply raises_bind; [apply (raises_impl invalid_argument); [apply create_audit_raises|auto]|].
    intros md [Hops _]%create_audit_Ok e He.
    destruct (Hpre _ _ _ _ Hversion Hc Hv Hops) as (H1 & H2 & H3 & H4).
    pose proof (rl_update st id version v md c Hready H1 H2 H3 H4) as Hlaw. rewrite He in Hlaw. auto.
  - intros d st' [Hrole Hok]%command_allowed. split; [done|].
    apply bind_Ok in Hok as (version & Hversion & Hok). apply bind_Ok in Hok as (_ & _ & Hok).
    apply bind_Ok in Hok as (c & Hc & Hok). apply bind_Ok in Hok as (v & Hv & Hok).
    apply bind_Ok in Hok as (md & Hmd & Hok). apply create_audit_Ok in Hmd as [Hops Hnames].
    destruct (Hpre _ _ _ _ Hversion Hc Hv Hops) as (H1 & H2 & H3 & H4).
    pose proof (rl_update st id version v md c Hready H1 H2 H3 H4) as Hlaw. rewrite Hok in Hlaw.
    destruct Hlaw as (Hcom & Hid & Hget & Hver & Hcode & Hval).
    apply optional_Ok in Hc, Hv. split_and!; [done| | | | |by exists md].
    + destruct expected_version as [| |z| | | |]; try done. cbn in Hversion.
      destruct (z <? 1) eqn:E; [done|]. injection Hversion as <-. exists z. split_and!; auto. lia.
    + intros Hne. destruct c as [c|]; [|done]. destruct Hc as [_ Hc]. by rewrite (Hcode c).
    + intros Hne. destruct v as [v|]; [|done]. destruct Hv as [_ Hv]. exists v. auto.
    + intros q. unfold GetDimension. by rewrite authorize_read.
Qed.
End port_clients.

(** ** Every command *)

Section commands.
Context `{UnicodeData}.

Lemma create_dimension_command_parse s R cs p code value unit reason db :
  create_dimension_command s R cs p code value unit reason db =
  CreateDimension R (slot_parser s unit) cs p code value reason db.
Proof. by destruct s. Qed.

(** Memory adds one guard to the update. *)
Lemma UpdateMemoryValue_guard {St} (R : DimensionRepository St) cs p id version amount unit code reason st :
  UpdateMemoryValue R cs p id version amount unit code reason st =
    (_ ← authorize p MUTATE_DATA; _ ← positive_version version;
     _ ← raise_if (negb (provided code) && negb (provided amount) && negb (provided unit))
           (ValueError "code or value is required");
     Raise (ValueError "memory amount and unit must be provided together")) ∨
  UpdateMemoryValue R cs p id version amount unit code reason st =
    UpdateDimensionValue R (λ a, MemoryValue_create a unit) cs p id version amount code reason st.
Proof.
  unfold UpdateMemoryValue, UpdateDimensionValue.
  destruct (authorize p MUTATE_DATA); [|by right]. cbn [mbind result_bind].
  destruct (positive_version version); [|by right]. cbn [mbind result_bind].
  destruct (provided code), (provided amount) eqn:Ea, (provided unit) eqn:Eu; cbn; auto.
Qed.

Lemma update_dimension_command_parse s R cs p id version value unit code reason db :
  (raises_only (command_error p) (update_dimension_command s R cs p id version value unit code reason db) ∧
   is_ok (update_dimension_command s R cs p id version value unit code reason db) = false) ∨
  update_dimension_command s R cs p id version value unit code reason db =
    UpdateDimensionValue R (slot_parser s unit) cs p id version value code reason db.
Proof.
  destruct (decide (s = Memory)) as [->|Hs]; [|right; by destruct s].
  cbn [update_dimension_command slot_parser].
  destruct (UpdateMemoryValue_guard R cs p id version value unit code reason db) as [-> | ->]; [left|by right].
  split.
  - apply command_bind. intros _. apply raises_bind.
    { eapply raises_impl; [apply positive_version_raises|auto]. }
    intros _ _. repeat (raises_step || (right; left; eexists; reflexivity)).
  - destruct (authorize p MUTATE_DATA); [|done]. cbn [mbind result_bind].
    destruct (positive_version version); [|done]. cbn. by destruct (_ && _).
Qed.

Lemma build_slots_Ok {A} (f : slot → res A) x : build_slots f = Ok x → ∀ s, f s = Ok (at_slot x s).
Proof.
  unfold build_slots. intros Hok. repeat (apply bind_Ok in Hok as (? & ? & Hok)).
  injection Hok as <-. by intros [].
Qed.

Lemma build_slots_raises {A} (P : exn → Prop) (f : slot → res A) :
  (∀ s, raises_only P (f s)) → raises_only P (build_slots f).
Proof. intros Hf. unfold build_slots. by raises. Qed.

(** The inline codes already given as [DimensionCode] were validated by its
    constructor. *)
Definition input_wf (input : MasterCodeCreateInput) : Prop :=
  ∀ s c v, at_slot input s = InlineInput (inr c) v → code_wf c = true.

Lemma normalize_inline_value_cases s v :
  (∃ x unit, normalize_inline_value s v = slot_parser s unit x) ∨
  ∃ e, normalize_inline_value s v = Raise e ∧ invalid_argument e.
Proof.
  destruct s; try (left; exists (as_object v), VNone; reflexivity).
  destruct v as [v|a u]; [right|left; by exists a, u].
  eexists. split; [done|]. by eexists _, _.
Qed.

Lemma normalize_inline_value_for s v d : normalize_inline_value s v = Ok d → value_for s d.
Proof.
  destruct (normalize_inline_value_cases s v) as [(x & unit & ->)|(e & -> & _)]; [|done].
  apply slot_parser_ok.
Qed.

Lemma normalize_inline_value_raises s v : raises_only invalid_argument (normalize_inline_value s v).
Proof.
  destruct (normalize_inline_value_cases s v) as [(x & unit & ->)|(e & -> & He)];
    [apply slot_parser_ok|by apply raises_Raise].
Qed.

Lemma normalize_selection_Ok input s x :
  input_wf input → normalize_selection input s = Ok x →
  ∀ code value, x = InlineDimension code value → code_wf code = true ∧ value_for s value.
Proof.
  intros Hwf Hok code value ->. unfold normalize_selection in Hok.
  destruct (at_slot input s) as [i|raw v| |] eqn:Hs; try done.
  apply bind_Ok in Hok as ([c d] & [Hok|(e & _ & Hbad)]%catch_Ok & [= -> ->]); [|by destruct e].
  apply bind_Ok in Hok as (c' & Hc & Hok). apply bind_Ok in Hok as (d' & Hd & [= <- <-]).
  split; [|by eapply normalize_inline_value_for].
  destruct raw as [raw|c]; [by eapply DimensionCode_init_wf|injection Hc as <-; by eapply Hwf].
Qed.

Lemma normalize_selection_raises input s : raises_only invalid_argument (normalize_selection input s).
Proof.
  unfold normalize_selection. destruct (at_slot input s) as [i|raw v| |].
  - apply raises_Ok.
  - apply raises_bind; [|intros [c d] _; apply raises_Ok]. apply raises_catch. intros e He.
    assert (invalid_argument e) as (field & message & ->).
    { revert e He. change (raises_only invalid_argument
        (c ← match raw with inl raw => DimensionCode_init raw | inr c => Ok c end;
         v ← normalize_inline_value s v; Ok (c, v))).
      apply raises_bind; [destruct raw; [apply DimensionCode_raises|apply raises_Ok]|]. intros c _.
      apply raises_bind; [apply normalize_inline_value_raises|]. intros d _. apply raises_Ok. }
    apply raises_Raise. by eexists _, _.
  - apply raises_Ok.
  - apply raises_Raise. by eexists _, _.
Qed.

(** The operations the metadata of a creation declares, and what its plan holds. *)
Lemma plan_operations input plan md :
  input_wf input → normalize_plan input = Ok plan →
  md_operations md = mkMutationOperations
    (if existsb (λ s, is_inline (at_slot plan s)) ORDER then Some DIM_CREATE else None) (Some MC_CREATE) →
  op_master_code (md_operations md) = Some MC_CREATE ∧
  ∀ s code value, at_slot plan s = InlineDimension code value →
    op_dimension (md_operations md) = Some DIM_CREATE ∧ code_wf code = true ∧ value_for s value.
Proof.
  intros Hwf Hplan ->. split; [done|]. intros s code value Hs. split.
  - cbn [op_dimension]. assert (existsb (λ s, is_inline (at_slot plan s)) ORDER = true) as ->; [|done].
    apply existsb_elem_of. exists s. split; [apply slot_in_ORDER|by rewrite Hs].
  - eapply normalize_selection_Ok; [done|by apply build_slots_Ok|done].
Qed.

(** A creation: the plan it normalizes its input to, then the transaction. *)
Lemma CreateMasterCode_raises (P : exn → Prop) env seen requery cs p input reason db :
  db_ok db → served env seen db → input_wf input → (principal_role p = USER → P AuthorizationDenied) →
  P MasterCodeConflict → (∀ fields, P (InvalidDimensionReference fields)) →
  (∀ f c v, P (InlineDimensionConflict f c v)) →
  raises_only (λ e, invalid_argument e ∨ P e) (CreateMasterCode env seen requery cs p input reason db).
Proof.
  intros Hdb Hserved Hwf ????. unfold CreateMasterCode. rewrite authorize_mutation.
  case_bool_decide; [apply raises_Raise; by right; auto|]. cbn [mbind result_bind].
  apply raises_bind; [eapply (raises_impl invalid_argument); [apply build_slots_raises, normalize_selection_raises|by left]|].
  intros plan Hplan. apply raises_bind; [eapply (raises_impl invalid_argument); [apply create_audit_raises|by left]|].
  intros md [Hops _]%create_audit_Ok. destruct (plan_operations _ _ _ Hwf Hplan Hops) as [Hop Hinline].
  apply create_raises; try apply Hserved; auto.
Qed.

Lemma CreateMasterCode_Ok env seen requery cs p input reason db mc db' :
  input_wf input → CreateMasterCode env seen requery cs p input reason db = Ok (mc, db') →
  principal_role p ≠ USER ∧ ∃ plan md, names_principal cs p reason md ∧
    op_master_code (md_operations md) = Some MC_CREATE ∧
    (∀ s code value, at_slot plan s = InlineDimension code value →
       op_dimension (md_operations md) = Some DIM_CREATE ∧ code_wf code = true ∧ value_for s value) ∧
    create env seen requery db plan md = Ok (mc, db').
Proof.
  intros Hwf [Hrole Hok]%command_allowed. split; [done|].
  apply bind_Ok in Hok as (plan & Hplan & Hok).
  apply bind_Ok in Hok as (md & [Hops Hnames]%create_audit_Ok & Hok).
  destruct (plan_operations _ _ _ Hwf Hplan Hops) as [Hop Hinline]. exists plan, md. by split_and!.
Qed.

Lemma CreateMasterCode_spec env seen requery cs p input reason db :
  db_ok db → served env seen db → input_wf input →
  raises_only (command_error p) (CreateMasterCode env seen requery cs p input reason db) ∧
  ∀ mc db', CreateMasterCode env seen requery cs p input reason db = Ok (mc, db') →
    principal_role p ≠ USER ∧ ∃ md, names_principal cs p reason md ∧ commits md db db'.
Proof.
  intros Hdb Hserved Hwf. split.
  - apply command_bind. intros Hrole.
    assert (raises_only (λ e, invalid_argument e ∨ (principal_role p = USER ∨ repository_error e = true))
      (CreateMasterCode env seen requery cs p input reason db)) as Hr.
    { apply CreateMasterCode_raises; auto. }
    intros e He. unfold CreateMasterCode in Hr. rewrite authorize_mutation, bool_decide_eq_false_2 in Hr by done.
    cbn [mbind result_bind] in Hr. destruct (Hr e He) as [?|[?|?]]; [by left|done|by right; right].
  - intros mc db' (Hrole & plan & md & Hnames & Hop & Hinline & Hok)%CreateMasterCode_Ok; [|done].
    split; [done|]. exists md. split; [done|]. eapply create_master_code_commits; try done; apply Hserved.
Qed.

(** The use cases without untrusted values: an audited transaction. *)
Lemma audited_spec {A} message cs p d m reason (k : MutationAuditMetadata → res (A * DB)) db :
  (∀ md, md_operations md = mkMutationOperations d m →
    repository_errors (k md) ∧ ∀ x db', k md = Ok (x, db') → commits md db db') →
  raises_only (command_error p)
    (_ ← authorize p MUTATE_DATA; md ← create_audit message cs p d m reason; k md) ∧
  ∀ x db', (_ ← authorize p MUTATE_DATA; md ← create_audit message cs p d m reason; k md) = Ok (x, db') →
    principal_role p ≠ USER ∧ ∃ md, names_principal cs p reason md ∧ commits md db db'.
Proof.
  intros Hk. split.
  - apply command_bind. intros _. apply raises_bind.
    { apply (raises_impl invalid_argument); [apply create_audit_raises|auto]. }
    intros md [Hops _]%create_audit_Ok e He. right; right. by eapply Hk.
  - intros x db' [Hrole Hok]%command_allowed. split; [done|].
    apply bind_Ok in Hok as (md & [Hops Hnames]%create_audit_Ok & Hok).
    exists md. split; [done|]. by eapply Hk.
Qed.

Lemma reply_spec {A} (f : A → reply) p cs reason (m : res (A * DB)) db :
  raises_only (command_error p) m ∧
  (∀ x db', m = Ok (x, db') → principal_role p ≠ USER ∧
     ∃ md, names_principal cs p reason md ∧ commits md db db') →
  raises_only (command_error p) ('(x, db') ← m; Ok (f x, db')) ∧
  ∀ r db', ('(x, db') ← m; Ok (f x, db')) = Ok (r, db') →
    principal_role p ≠ USER ∧ ∃ md, names_principal cs p reason md ∧ commits md db db'.
Proof.
  intros [He Hok]. split.
  - apply raises_bind; [done|]. intros [x db'] _. apply raises_Ok.
  - intros r db' ([x db1] & Hm & [= _ <-])%bind_Ok. by eapply Hok.
Qed.

Definition command_wf (c : command) : Prop :=
  match c with CmdCreateMasterCode input => input_wf input | _ => True end.

Lemma MutateDimensionLifecycle_spec (deleting : bool) s env cs p id version reason db :
  db_ok db →
  let m := MutateDimensionLifecycle (if deleting then DIM_DELETE else DIM_RESTORE) s env cs p id version
             reason db in
  raises_only (command_error p) m ∧
  ∀ d db', m = Ok (d, db') →
    principal_role p ≠ USER ∧ (∃ md, names_principal cs p reason md ∧ commits md db db') ∧
    ∃ v md, version = VInt v ∧ mutate_lifecycle s env db id v md deleting = Ok (d, db') ∧
      op_dimension (md_operations md) = Some (if deleting then DIM_DELETE else DIM_RESTORE).
Proof.
  intros Hdb. cbv zeta. split.
  - unfold MutateDimensionLifecycle. apply command_bind. intros _.
    apply raises_bind; [eapply raises_impl; [apply positive_version_raises|auto]|intros v _].
    apply raises_bind; [apply (raises_impl invalid_argument); [apply create_audit_raises|auto]|].
    intros md [Hops _]%create_audit_Ok e He. right; right. revert e He.
    destruct deleting; apply lifecycle_errors; by rewrite ?Hops.
  - intros d db' [Hrole Hok]%command_allowed. split; [done|].
    apply bind_Ok in Hok as (v & Hv & Hok).
    apply bind_Ok in Hok as (md & [Hops Hnames]%create_audit_Ok & Hok).
    assert (mutate_lifecycle s env db id v md deleting = Ok (d, db')) as Hm by by destruct deleting.
    assert (op_dimension (md_operations md) = Some (if deleting then DIM_DELETE else DIM_RESTORE)) as Hop
      by by rewrite Hops.
    split; [exists md; split; [done|by eapply lifecycle_commits]|]. exists v, md. split_and!; try done.
    destruct version as [| |z| | | |]; try done. cbn in Hv. destruct (z <? 1); [done|].
    by injection Hv as ->.
Qed.

Lemma execute_spec rq c db :
  db_ok db → served (rq_env rq) (rq_seen rq) db → command_wf c →
  raises_only (command_error (rq_principal rq)) (execute rq c db) ∧
  ∀ r db', execute rq c db = Ok (r, db') →
    principal_role (rq_principal rq) ≠ USER ∧
    ∃ md, names_principal (rq_change_set_id rq) (rq_principal rq) (rq_reason rq) md ∧ commits md db db'.
Proof.
  intros Hdb Hserved Hwf.
  assert (∀ s, rl_ready (R := sql_repository s (rq_env rq) (rq_seen rq)) db) as Hready.
  { intros s. split; [done|apply Hserved]. }
  destruct c as [s code value unit|s id v value unit code|s id v|s id v|input|id changes et|id et|id et];
    unfold execute; cbv zeta; apply reply_spec.
  - rewrite create_dimension_command_parse.
    destruct (CreateDimension_spec s _ _ (slot_parser_ok s unit) (rq_change_set_id rq) (rq_principal rq)
      (rq_reason rq) code value db (Hready s)) as [He Hok]. split; [done|].
    intros d db' (? & _ & _ & _ & _ & ?)%Hok. done.
  - destruct (update_dimension_command_parse s (sql_repository s (rq_env rq) (rq_seen rq))
      (rq_change_set_id rq) (rq_principal rq) id v value unit code (rq_reason rq) db)
      as [[He Hno] | ->].
    { split; [done|]. intros d db' Hok. by rewrite Hok in Hno. }
    destruct (UpdateDimensionValue_spec s _ _ (slot_parser_ok s unit) (rq_change_set_id rq)
      (rq_principal rq) (rq_reason rq) id v value code db (Hready s)) as [He Hok]. split; [done|].
    intros d db' (? & _ & _ & _ & _ & _ & ?)%Hok. done.
  - destruct (MutateDimensionLifecycle_spec true s (rq_env rq) (rq_change_set_id rq) (rq_principal rq)
      id v (rq_reason rq) db Hdb) as [He Hok]. split; [done|]. by intros d db' (? & ? & _)%Hok.
  - destruct (MutateDimensionLifecycle_spec false s (rq_env rq) (rq_change_set_id rq) (rq_principal rq)
      id v (rq_reason rq) db Hdb) as [He Hok]. split; [done|]. by intros d db' (? & ? & _)%Hok.
  - by apply CreateMasterCode_spec.
  - apply audited_spec. intros md Hops. split; [|intros mc db'];
      [apply update_references_errors|apply update_references_commits]; try apply Hserved; try done;
      by rewrite Hops.
  - apply audited_spec. intros md Hops. split; [|intros mc db'];
      [apply change_lifecycle_errors|apply change_lifecycle_commits]; try apply Hserved; try done;
      by rewrite Hops.
  - apply audited_spec. intros md Hops. split; [|intros mc db'];
      [apply change_lifecycle_errors|apply change_lifecycle_commits]; try apply Hserved; try done;
      by rewrite Hops.
Qed.
End commands.
