(* ===== verification/UseCases.v ===== *)
(** * The claims about the use cases

    One execution of any command (its effects, its errors, who may run it),
    what the Dimension use cases return through their port, and the guarantee
    of optimistic concurrency over any later sequence of commands. *)

From S2P Require Import Prelude Python Exceptions Auth MutationAudit Dimensions MasterCodes Store Records Invariant Consistency Pagination DimensionRepos DimensionSpecs DimensionLifecycle MasterCodeRepo MasterCodeSpecs Transactions Commands CommandSpecs.
Local Open Scope Z_scope.

Section unicode.
Context `{UnicodeData}.

(** C5: a command that succeeds was asked for by an ADMIN or SUPER_ADMIN, keeps
    the database consistent, removes or rewrites no log entry and no version,
    and every entry it appends carries one and the same audit metadata: the
    UUIDv7 change set of the execution, the principal as a HUMAN actor with
    its role, and the normalized reason.  The inputs are arbitrary. *)
Theorem command_effects (rq : Request) (c : command) (db db' : DB) (r : reply) :
  db_ok db → served (rq_env rq) (rq_seen rq) db → command_wf c →
  execute rq c db = Ok (r, db') →
  principal_role (rq_principal rq) ≠ USER ∧ db_ok db' ∧ dim_progress db db' ∧
  ∃ md, names_principal (rq_change_set_id rq) (rq_principal rq) (rq_reason rq) md ∧
    logged md db db'.
Proof.
  intros Hdb Hserved Hwf Hok. apply execute_spec in Hok as (Hrole & md & Hnames & [Hstep Hlog Hprog]);
    [|done..].
  split_and!; [done|by eapply repo_step_ok|done|by exists md].
Qed.

(** C6: a USER is denied every command on every database, before anything else
    is looked at; for anyone else a command fails only with an argument error
    (a field and a message, or a [ValueError] of the calling convention) or
    with a documented repository error, never with a database or trigger
    error, a failed assertion or a domain invariant. *)
Theorem command_errors (rq : Request) (c : command) (db : DB) (e : exn) :
  db_ok db → served (rq_env rq) (rq_seen rq) db → command_wf c →
  (principal_role (rq_principal rq) = USER → execute rq c db = Raise AuthorizationDenied) ∧
  (execute rq c db = Raise e → principal_role (rq_principal rq) ≠ USER →
     invalid_argument e ∨ (∃ message, e = ValueError message) ∨ repository_error e = true).
Proof.
  intros Hdb Hserved Hwf. destruct (execute_spec rq c db Hdb Hserved Hwf) as [Herr Hok]. split.
  - intros Hrole. destruct (execute rq c db) as [[r db']|e'] eqn:E.
    + by destruct (Hok _ _ eq_refl).
    + destruct (Herr e' eq_refl) as [[-> _]|[? _]]; done.
  - intros He Hrole. destruct (Herr e He) as [[_ ?]|[_ ?]]; done.
Qed.

(** Through any port that keeps its promise, creating a Dimension from
    untrusted input returns version 1 of what the validated code and value
    are, updating one returns its next version or the unchanged one with the
    requested code and an equal value, and in both cases whoever reads it
    next reads exactly what was returned. *)
Theorem dimension_use_cases_read_back (s : slot) {St : Type} (R : DimensionRepository St)
    `{!DimensionRepositoryLaws s R} (unit : pyval) (cs : UUID) (p q : HumanPrincipal)
    (reason : option pystr) (code value : pyval) (id : UUID) (version : pyval) (st st' : St)
    (d : Dimension) :
  rl_ready st →
  (CreateDimension R (slot_parser s unit) cs p code value reason st = Ok (d, st') →
     DimensionCode_init code = Ok (dim_code d) ∧ slot_parser s unit value = Ok (dim_value_of d) ∧
     dim_version d = 1 ∧ GetDimension R q (dim_id d) st' = Ok d) ∧
  (UpdateDimensionValue R (slot_parser s unit) cs p id version value code reason st = Ok (d, st') →
     (version = VInt (dim_version d) ∨ version = VInt (dim_version d - 1)) ∧
     (code ≠ VNone → DimensionCode_init code = Ok (dim_code d)) ∧
     (value ≠ VNone → ∃ v, slot_parser s unit value = Ok v ∧
        dimension_values_equal (dim_value_of d) v = true) ∧
     GetDimension R q id st' = Ok d).
Proof.
  intros Hready. split.
  - intros Hok. destruct (CreateDimension_spec s R _ (slot_parser_ok s unit) cs p reason code value st Hready)
      as [_ Hspec]. apply Hspec in Hok as (_ & ? & ? & ? & Hget & _). by rewrite Hget.
  - intros Hok. destruct (UpdateDimensionValue_spec s R _ (slot_parser_ok s unit) cs p reason id version
      value code st Hready) as [_ Hspec].
    apply Hspec in Hok as (_ & _ & (v & -> & _ & Hver) & ? & ? & Hget & _). split_and!; [|done..].
    destruct Hver as [-> | ->]; [by left|right; f_equal; lia].
Qed.

(** ** Optimistic concurrency *)

(** One successful command. *)
Definition command_step (db db' : DB) : Prop :=
  ∃ rq c r, served (rq_env rq) (rq_seen rq) db ∧ command_wf c ∧ execute rq c db = Ok (r, db').

Lemma command_steps_keep db db' :
  db_ok db → rtc command_step db db' → db_ok db' ∧ dim_progress db db'.
Proof.
  intros Hdb Hrtc. induction Hrtc as [db|db1 db2 db3 (rq & c & r & Hs & Hwf & Hok) _ IH].
  - split; [done|apply dim_progress_refl].
  - apply execute_spec in Hok as (_ & md & _ & [Hstep _ Hprog]); [|done..].
    destruct IH as [? ?]; [by eapply repo_step_ok|]. split; [done|by eapply dim_progress_trans].
Qed.

Lemma command_steps_mcs db db' : db_ok db → rtc command_step db db' → mcs_progress db db'.
Proof.
  intros Hdb Hrtc. induction Hrtc as [db|db1 db2 db3 (rq & c & r & Hs & Hwf & Hok) _ IH]; [by apply mcs_progress_same|].
  apply execute_spec in Hok as (_ & md & _ & [Hstep _ _]); [|done..].
  eapply mcs_progress_trans; [by apply repo_step_mcs_progress|]. apply IH. by eapply repo_step_ok.
Qed.

(** The Dimension and version a command is conditional on. *)
Definition expects (c : command) : option (slot * UUID * pyval) :=
  match c with
  | CmdUpdateDimension s id version _ _ _ | CmdDeleteDimension s id version
  | CmdRestoreDimension s id version => Some (s, id, version)
  | _ => None
  end.

(** What a conditional transition of a Dimension found and left. *)
Definition transition (s : slot) (id : UUID) (version : pyval) (d : Dimension) (db db' : DB) : Prop :=
  ∃ row row', version = VInt (r_version row) ∧ dims db !! (s, id) = Some row ∧
    dims db' !! (s, id) = Some row' ∧ dim_version d = r_version row'.

Lemma transition_rows s id v d db db' row row' :
  db_ok db' → dims db !! (s, id) = Some row → r_version row = v →
  dims db' = <[(s, id) := row']> (dims db) → row_to_domain s row' = Ok d →
  transition s id (VInt v) d db db'.
Proof.
  intros Hdb' Hrow <- Hdims Hd.
  assert (dims db' !! (s, id) = Some row') as Hrow' by by rewrite Hdims, lookup_insert_eq.
  exists row, row'. split_and!; [done..|].
  destruct (stored_domain _ _ _ _ Hdb' Hrow') as (d1 & Hd1 & Hf).
  apply row_dimension_fields in Hf as (_ & _ & ? & _). congruence.
Qed.

Lemma update_transition s unit env seen cs p id version value code reason db d db' :
  db_ok db →
  UpdateDimensionValue (sql_repository s env seen) (slot_parser s unit) cs p id version value code reason db =
    Ok (d, db') →
  transition s id version d db db'.
Proof.
  intros Hdb [_ Hm]%command_allowed. apply bind_Ok in Hm as (v & Hv & Hm).
  apply bind_Ok in Hm as (_ & _ & Hm). apply bind_Ok in Hm as (c & Hc%optional_Ok & Hm).
  apply bind_Ok in Hm as (w & Hw%optional_Ok & Hm).
  apply bind_Ok in Hm as (md & [Hops _]%create_audit_Ok & Hm). cbn [repo_update_value sql_repository] in Hm.
  assert (op_dimension (md_operations md) = Some DIM_UPDATE) as Hop by by rewrite Hops.
  assert (c ≠ None → op_master_code (md_operations md) = Some MC_RECOMPOSE) as Hmc
    by (rewrite Hops; by destruct c).
  assert (∀ c', c = Some c' → code_wf c' = true) as Hcode
    by (intros c' ->; by eapply DimensionCode_init_wf, Hc).
  assert (∀ w', w = Some w' → value_for s w') as Hvalue
    by (intros w' ->; by eapply slot_parser_ok, Hw).
  rewrite update_value_rows in Hm by done.
  apply bind_Ok in Hm as ([row db1] & Hspec & Hm). apply bind_Ok in Hm as (d' & Hd & [= -> ->]).
  apply update_spec_ok in Hspec as (Hdb' & Hdims & _ & r0 & Hr0 & Hver & _); [|done..].
  replace version with (VInt v); [by eapply transition_rows|].
  destruct version as [| |z| | | |]; try done. cbn in Hv. destruct (z <? 1); [done|].
  by injection Hv as ->.
Qed.

Lemma lifecycle_transition (deleting : bool) s env cs p id version reason db d db' :
  db_ok db →
  MutateDimensionLifecycle (if deleting then DIM_DELETE else DIM_RESTORE) s env cs p id version reason db =
    Ok (d, db') →
  transition s id version d db db'.
Proof.
  intros Hdb Hm. eapply MutateDimensionLifecycle_spec in Hm as (_ & _ & v & md & -> & Hm & Hop); [|done].
  rewrite lifecycle_rows in Hm by done.
  apply bind_Ok in Hm as ([row db1] & Hspec & Hm). apply bind_Ok in Hm as (d' & Hd & [= -> ->]).
  apply lifecycle_spec_ok in Hspec as (Hdb' & Hdims & _ & r0 & Hr0 & Hver & _); [|done..].
  by eapply transition_rows.
Qed.

Lemma expected_version rq c db r db' s id version :
  db_ok db → expects c = Some (s, id, version) → execute rq c db = Ok (r, db') →
  ∃ d, r = DimensionReply d ∧ transition s id version d db db'.
Proof.
  intros Hdb Hex Hok.
  destruct c as [|s' id' w value unit code|s' id' w|s' id' w| | | |]; try discriminate Hex;
    injection Hex as -> -> ->; apply bind_Ok in Hok as ([d db1] & Hm & [= <- ->]);
    exists d; (split; [done|]).
  - destruct (update_dimension_command_parse s (sql_repository s (rq_env rq) (rq_seen rq))
      (rq_change_set_id rq) (rq_principal rq) id version value unit code (rq_reason rq) db)
      as [[_ Hno]|Heq]; [by rewrite Hm in Hno|]. rewrite Heq in Hm. by eapply update_transition.
  - by eapply (lifecycle_transition true).
  - by eapply (lifecycle_transition false).
Qed.

(** No lost update: once a command conditional on a version of a Dimension
    returned another version, no command conditional on that version succeeds
    again, whatever commands run in between. *)
Theorem no_lost_update (rq1 rq2 : Request) (c1 c2 : command) (s : slot) (id : UUID) (version : Z)
    (db1 db2 db3 : DB) (d : Dimension) :
  db_ok db1 → served (rq_env rq1) (rq_seen rq1) db1 → command_wf c1 →
  expects c1 = Some (s, id, VInt version) → expects c2 = Some (s, id, VInt version) →
  execute rq1 c1 db1 = Ok (DimensionReply d, db2) → dim_version d ≠ version →
  rtc command_step db2 db3 →
  is_ok (execute rq2 c2 db3) = false.
Proof.
  intros Hdb1 Hserved Hwf Hex1 Hex2 Hok1 Hchanged Hrtc.
  pose proof Hok1 as Hstep. apply execute_spec in Hstep as (_ & md & _ & [Hstep _ Hprog]); [|done..].
  pose proof (repo_step_ok _ _ Hdb1 Hstep) as Hdb2.
  destruct (command_steps_keep _ _ Hdb2 Hrtc) as [Hdb3 Hprog3].
  destruct (expected_version _ _ _ _ _ _ _ _ Hdb1 Hex1 Hok1)
    as (d1 & [= <-] & row & row' & [= ->] & Hrow & Hrow' & Hver).
  destruct (execute rq2 c2 db3) as [[r2 db4]|] eqn:Hok2; [exfalso|done].
  destruct (expected_version _ _ _ _ _ _ _ _ Hdb3 Hex2 Hok2)
    as (d2 & -> & row2 & row2' & [= Hv2] & Hrow2 & _).
  destruct (Hprog _ _ _ Hrow) as (r' & Hr' & Hlt). destruct (Hprog3 _ _ _ Hr') as (r3 & Hr3 & Hlt3).
  simplify_eq. destruct Hlt as [->|Hlt], Hlt3 as [->|Hlt3]; lia.
Qed.
End unicode.

(** ** Witnesses *)

#[local] Existing Instance ascii_data.

Definition sample_request (t : Z) : Request :=
  mkRequest (sample_env t 77 88) sample_db sample_db (test_uuid7 2) (mkHumanPrincipal 5 ADMIN)
    (Some (py " rename ")).
Definition sample_rename : command :=
  CmdUpdateDimension Company 1 (VInt 1) VNone VNone (VStr (py "ssg")).
Definition renamed : res (reply * DB) := execute (sample_request 200) sample_rename sample_db.
Definition renamed_db : DB := match renamed with Ok (_, db) => db | Raise _ => sample_db end.
Definition renamed_company : Dimension :=
  match renamed with Ok (DimensionReply d, _) => d | _ => witness_dim end.

Lemma renamed_Ok : renamed = Ok (DimensionReply renamed_company, renamed_db).
Proof. vm_compute. reflexivity. Qed.

Lemma sample_served t : served (rq_env (sample_request t)) (rq_seen (sample_request t)) sample_db.
Proof. split; [apply sample_db_ok|reflexivity|intros []; vm_compute; reflexivity|vm_compute; reflexivity]. Qed.

Lemma command_effects_witness :
  dim_version renamed_company = 2 ∧
  ∃ md, md_reason md = Some (py "rename") ∧ logged md sample_db renamed_db.
Proof.
  split; [vm_compute; reflexivity|].
  destruct (command_effects (sample_request 200) sample_rename sample_db renamed_db
    (DimensionReply renamed_company) sample_db_ok (sample_served 200) I renamed_Ok)
    as (_ & _ & _ & md & (_ & _ & _ & Hreason) & Hlog).
  assert (normalize_reason (rq_reason (sample_request 200)) = Ok (Some (py "rename"))) as Hr
    by (vm_compute; reflexivity).
  exists md. split; [congruence|exact Hlog].
Defined.

Lemma command_errors_witness :
  repository_error PreconditionFailed = true ∧
  (invalid_argument PreconditionFailed ∨ (∃ message, PreconditionFailed = ValueError message) ∨
   repository_error PreconditionFailed = true).
Proof.
  split; [reflexivity|].
  apply (command_errors (sample_request 200) (CmdDeleteDimension Company 1 (VInt 9)) sample_db
    PreconditionFailed sample_db_ok (sample_served 200) I); [vm_compute; reflexivity|discriminate].
Defined.

Lemma dimension_use_cases_read_back_witness :
  GetDimension (sql_repository Company (sample_env 200 77 88) sample_db) (mkHumanPrincipal 6 USER) 1
    renamed_db = Ok renamed_company.
Proof.
  refine (proj2 (proj2 (proj2 (proj2 (dimension_use_cases_read_back Company
    (sql_repository Company (sample_env 200 77 88) sample_db) VNone (test_uuid7 2)
    (mkHumanPrincipal 5 ADMIN) (mkHumanPrincipal 6 USER) (Some (py " rename ")) (VStr (py "ssg")) VNone 1
    (VInt 1) sample_db renamed_db renamed_company _) _)))).
  - split; [apply sample_db_ok|vm_compute; reflexivity].
  - vm_compute. reflexivity.
Defined.

Lemma no_lost_update_witness :
  is_ok (execute (sample_request 300) (CmdDeleteDimension Company 1 (VInt 1)) renamed_db) = false.
Proof.
  apply (no_lost_update (sample_request 200) (sample_request 300) sample_rename
    (CmdDeleteDimension Company 1 (VInt 1)) Company 1 1 sample_db renamed_db renamed_db renamed_company
    sample_db_ok (sample_served 200) I eq_refl eq_refl renamed_Ok); [vm_compute; discriminate|reflexivity].
Defined.
