(* ===== verification/ChangeRequests.v ===== *)
(** * Change requests
    ([src/src/mdm/domain/change_requests.py],
    [src/src/mdm/application/change_requests.py])

    A USER submits a proposal to create, change or delete a MasterCode; an
    ADMIN approves it, possibly modified, or rejects it, once.  This file has
    the request and its review transitions, and the validation that turns a
    JSON proposal into normalized selections. *)

From S2P Require Import Prelude Python Exceptions Uuids Auth MutationAudit Dimensions MasterCodes Store MasterCodeRepo Commands.
Local Open Scope Z_scope.

Inductive ChangeOperation := OP_CREATE | OP_REFERENCE_UPDATE | OP_DELETE | OP_RESTORE.
#[export] Instance ChangeOperation_eq_dec : EqDecision ChangeOperation.
Proof. solve_decision. Defined.

Inductive ChangeRequestStatus := PENDING | APPROVED | REJECTED | MODIFIED_AND_APPROVED.
#[export] Instance ChangeRequestStatus_eq_dec : EqDecision ChangeRequestStatus.
Proof. solve_decision. Defined.

(** ** Proposals *)

(** [json.dumps(..., sort_keys=True)] of a JSON value, as the value it
    denotes: the entries of every object in the order of their keys.  Equal
    texts are equal canonical values. *)

(** A stable sort by key. *)
Fixpoint insert_entry (p : pystr * pyval) (l : list (pystr * pyval)) : list (pystr * pyval) :=
  match l with
  | [] => [p]
  | q :: l' => if str_leb p.1 q.1 then p :: l else q :: insert_entry p l'
  end.
Definition sort_entries (l : list (pystr * pyval)) : list (pystr * pyval) := foldr insert_entry [] l.

Fixpoint canonical (v : pyval) : pyval :=
  match v with
  | VList l => VList (map canonical l)
  | VDict entries => VDict (sort_entries (map (λ p, (p.1, canonical p.2)) entries))
  | _ => v
  end.

(** [ProposalPayload]: a JSON object in canonical form. *)
Record ProposalPayload := mkProposalPayload { encoded : list (pystr * pyval) }.

#[export] Instance ProposalPayload_eq_dec : EqDecision ProposalPayload.
Proof. solve_decision. Defined.

(** [ProposalPayload.from_dict] and [to_dict], of a JSON object. *)
Definition ProposalPayload_from_dict (value : list (pystr * pyval)) : ProposalPayload :=
  mkProposalPayload
    (match canonical (VDict value) with VDict entries => entries | _ => [] end).
Definition ProposalPayload_to_dict (p : ProposalPayload) : list (pystr * pyval) := encoded p.

(** [ReviewMessage.__post_init__] *)
Definition ReviewMessage_init (value : pystr) : res pystr :=
  normalized ← catch (normalize_reason (Some value))
    (λ e, match e with
          | AuditInvariantError _ =>
              Raise (ChangeRequestValidationError "유효한 검토 메시지를 입력해야 합니다.")
          | _ => Raise e
          end);
  match normalized with
  | None => Raise (ChangeRequestValidationError "검토 메시지는 비어 있을 수 없습니다.")
  | Some text => Ok text
  end.

Record ChangeProposal := mkChangeProposal {
  cp_operation : ChangeOperation;
  cp_target_id : option UUID;
  cp_payload : option ProposalPayload;
  cp_expected_etag : option pystr;
}.
#[export] Instance ChangeProposal_eq_dec : EqDecision ChangeProposal.
Proof. solve_decision. Defined.


(** [ChangeProposal.__post_init__] *)
Definition ChangeProposal_init (p : ChangeProposal) : res ChangeProposal :=
  _ ← (if bool_decide (cp_operation p = OP_CREATE) then
         raise_if (negb (absent (cp_target_id p)) || negb (absent (cp_expected_etag p)))
           (ChangeRequestValidationError "CREATE에는 대상과 expected ETag가 없습니다.")
       else
         raise_if (absent (cp_target_id p)
                   || match cp_expected_etag p with None | Some [] => true | _ => false end)
           (ChangeRequestValidationError "대상 UUID와 expected ETag가 필요합니다."));
  _ ← (if bool_decide (cp_operation p = OP_DELETE) then
         raise_if (negb (absent (cp_payload p)))
           (ChangeRequestValidationError "DELETE에는 Dimension 입력이 없습니다.")
       else
         raise_if (absent (cp_payload p))
           (ChangeRequestValidationError "Dimension 입력이 필요합니다."));
  Ok p.

(** ** Requests and their review *)

Record ChangeRequest := mkChangeRequest {
  cr_id : UUID;
  cr_original : ChangeProposal;
  cr_requester_id : UUID;
  cr_created_at : datetime;
  cr_reason : option pystr;
  cr_status : ChangeRequestStatus;
  cr_approved : option ChangeProposal;
  cr_reviewer_id : option UUID;
  cr_review_message : option pystr;
  cr_reviewed_at : option datetime;
  cr_applied_change_set_id : option UUID;
}.
#[export] Instance ChangeRequest_eq_dec : EqDecision ChangeRequest.
Proof. solve_decision. Defined.

Definition classify_approval (r : ChangeRequest) (proposal : ChangeProposal)
    (message : option pystr) : res ChangeRequestStatus :=
  let restore_exception :=
    bool_decide (cp_operation (cr_original r) = OP_CREATE)
    && bool_decide (cp_operation proposal = OP_RESTORE) in
  _ ← raise_if (negb restore_exception
                && (negb (bool_decide (cp_operation proposal = cp_operation (cr_original r)))
                    || negb (bool_decide (cp_target_id proposal = cp_target_id (cr_original r)))))
        (ChangeRequestValidationError "승인 시 operation과 대상을 바꿀 수 없습니다.");
  if bool_decide (proposal = cr_original r) then Ok APPROVED
  else
    _ ← raise_if (absent message)
          (ChangeRequestValidationError "수정 승인에는 검토 메시지가 필요합니다.");
    Ok MODIFIED_AND_APPROVED.

(** [ChangeRequest.__post_init__] *)
Definition ChangeRequest_init (r : ChangeRequest) : res ChangeRequest :=
  _ ← raise_if (bool_decide (cp_operation (cr_original r) = OP_RESTORE))
        (ChangeRequestValidationError "사용자는 RESTORE 요청을 제출할 수 없습니다.");
  _ ← raise_if (is_naive (cr_created_at r))
        (ChangeRequestValidationError "제출 시각에는 시간대가 필요합니다.");
  if bool_decide (cr_status r = PENDING) then
    _ ← raise_if (negb (absent (cr_approved r)) || negb (absent (cr_reviewer_id r))
                  || negb (absent (cr_review_message r)) || negb (absent (cr_reviewed_at r))
                  || negb (absent (cr_applied_change_set_id r)))
          (ChangeRequestValidationError "PENDING 요청에는 검토 결과가 없습니다.");
    Ok r
  else
    _ ← raise_if (absent (cr_reviewer_id r)
                  || match cr_reviewed_at r with
                     | None => true
                     | Some t => is_naive t || dt_ltb t (cr_created_at r)
                     end)
          (ChangeRequestValidationError "검토자와 제출 이후의 검토 시각이 필요합니다.");
    if bool_decide (cr_status r = REJECTED) then
      _ ← raise_if (absent (cr_review_message r) || negb (absent (cr_approved r))
                    || negb (absent (cr_applied_change_set_id r)))
            (ChangeRequestValidationError "거절에는 메시지만 기록하며 변경을 적용하지 않습니다.");
      Ok r
    else
      match cr_approved r, cr_applied_change_set_id r with
      | Some approved, Some change_set_id =>
          _ ← raise_if (negb (bool_decide (uuid_version change_set_id = Some 7)))
                (ChangeRequestValidationError "승인에는 적용안과 UUIDv7 change set이 필요합니다.");
          expected_status ← classify_approval r approved (cr_review_message r);
          _ ← raise_if (negb (bool_decide (cr_status r = expected_status)))
                (ChangeRequestValidationError "승인 상태가 원안과 적용안의 차이와 일치하지 않습니다.");
          Ok r
      | _, _ =>
          Raise (ChangeRequestValidationError "승인에는 적용안과 UUIDv7 change set이 필요합니다.")
      end.

Definition require_pending (r : ChangeRequest) : res unit :=
  raise_if (negb (bool_decide (cr_status r = PENDING))) ChangeRequestAlreadyReviewed.

(** [dataclasses.replace] runs [__post_init__] again. *)
Definition ChangeRequest_approve (r : ChangeRequest) (proposal : ChangeProposal)
    (reviewer_id : UUID) (reviewed_at : datetime) (change_set_id : UUID) (message : option pystr)
    : res ChangeRequest :=
  _ ← require_pending r;
  status ← classify_approval r proposal message;
  ChangeRequest_init (mkChangeRequest (cr_id r) (cr_original r) (cr_requester_id r)
    (cr_created_at r) (cr_reason r) status (Some proposal) (Some reviewer_id) message
    (Some reviewed_at) (Some change_set_id)).

Definition ChangeRequest_reject (r : ChangeRequest) (reviewer_id : UUID) (reviewed_at : datetime)
    (message : pystr) : res ChangeRequest :=
  _ ← require_pending r;
  ChangeRequest_init (mkChangeRequest (cr_id r) (cr_original r) (cr_requester_id r)
    (cr_created_at r) (cr_reason r) REJECTED (cr_approved r) (Some reviewer_id) (Some message)
    (Some reviewed_at) (cr_applied_change_set_id r)).

(** ** Validation of a proposal *)

(** Longest prefix of digits. *)
Fixpoint span_digits (s : pystr) : pystr * pystr :=
  match s with
  | c :: t => if is_digit c then let '(d, r) := span_digits t in (c :: d, r) else ([], s)
  | [] => ([], [])
  end.
(** A quote, mc-[1-9][0-9]*-[0-9a-f]{64} and a quote, matched in full. *)
Definition etag_pattern (s : pystr) : bool :=
  match strip_prefix (quote :: py "mc-") s with
  | None => false
  | Some rest =>
      let '(digits, rest) := span_digits rest in
      match digits, rest with
      | d :: _, c :: rest =>
          negb (d =? 48) && (c =? dash) && (length (take 64 rest) =? 64)%nat
          && forallb is_lower_hex (take 64 rest) && bool_decide (drop 64 rest = [quote])
      | _, _ => false
      end
  end.

Definition slot_of_name (name : pystr) : option slot :=
  find (λ s, bool_decide (py (slot_name s) = name)) ORDER.
Definition is_text (v : option pyval) (text : string) : bool :=
  bool_decide (v = Some (VStr (py text))).

Section unicode.
Context `{UnicodeData}.

(** The selection one slot of the payload asks for. *)
Definition proposed_selection (operation : ChangeOperation) (s : slot) (value : pyval)
    : res SelectionInput :=
  match value with
  | VDict entries =>
      let mode := dict_get (py "mode") entries in
      if is_text mode "NOT_APPLICABLE" && keys_are [py "mode"] entries then Ok NotApplicableInput
      else if is_text mode "REFERENCE" && keys_are [py "mode"; py "id"] entries then
        match dict_get (py "id") entries ≫= parse_UUID with
        | Some id => Ok (ExistingInput id)
        | None => Raise (ChangeRequestValidationError "참조 id에는 UUID가 필요합니다.")
        end
      else if is_text mode "CREATE" && keys_are [py "mode"; py "code"; py "value"] entries then
        _ ← raise_if (bool_decide (operation = OP_RESTORE))
              (ChangeRequestValidationError "복원 적용안에는 신규 Dimension을 생성할 수 없습니다.");
        match dict_get (py "code") entries, dict_get (py "value") entries with
        | Some code, Some raw_value =>
            if bool_decide (s = Memory) then
              match raw_value with
              | VDict memory_entries =>
                  match dict_get (py "amount") memory_entries, dict_get (py "unit") memory_entries with
                  | Some amount, Some unit =>
                      if keys_are [py "amount"; py "unit"] memory_entries
                      then Ok (InlineInput (inl code) (MemoryCreateValue amount unit))
                      else Raise (ChangeRequestValidationError
                                    "Memory value에는 amount와 unit이 필요합니다.")
                  | _, _ => Raise (ChangeRequestValidationError
                                     "Memory value에는 amount와 unit이 필요합니다.")
                  end
              | _ => Raise (ChangeRequestValidationError
                              "Memory value에는 amount와 unit이 필요합니다.")
              end
            else Ok (InlineInput (inl code) (PlainValue raw_value))
        | _, _ => Raise KeyError
        end
      else Raise (ChangeRequestValidationError "mode별 필수 필드만 입력해야 합니다.")
  | _ => Raise (ChangeRequestValidationError "각 자리에는 mode를 포함한 객체가 필요합니다.")
  end.

(** [ValidatedProposal.dimensions] *)
Abbreviation ValidatedProposal := (list (slot * DimensionSelection)).

Definition validate_proposal (proposal : ChangeProposal) : res ValidatedProposal :=
  _ ← raise_if (match cp_expected_etag proposal with
                | None => false | Some tag => negb (etag_pattern tag) end)
        (ChangeRequestValidationError "expected_etag에는 강한 MasterCode ETag가 필요합니다.");
  if bool_decide (cp_operation proposal = OP_DELETE) then Ok []
  else
    payload ← match cp_payload proposal with
              | None => Raise AssertionError
              | Some p => Ok (ProposalPayload_to_dict p)
              end;
    dimensions ← match payload with
                 | [(key, VDict dimensions)] =>
                     if bool_decide (key = py "dimensions") then Ok dimensions
                     else Raise (ChangeRequestValidationError "payload에는 dimensions 객체가 필요합니다.")
                 | _ => Raise (ChangeRequestValidationError "payload에는 dimensions 객체가 필요합니다.")
                 end;
    _ ← raise_if (bool_decide (dimensions = [])
                  || existsb (λ p, absent (slot_of_name p.1)) dimensions)
          (ChangeRequestValidationError "변경할 Dimension 자리를 입력해야 합니다.");
    _ ← raise_if ((bool_decide (cp_operation proposal = OP_CREATE)
                   || bool_decide (cp_operation proposal = OP_RESTORE))
                  && negb (forallb (λ s, negb (absent (dict_get (py (slot_name s)) dimensions))) ORDER))
          (ChangeRequestValidationError "8개 Dimension 자리를 모두 입력해야 합니다.");
    selections ← foldR (λ selections '(name, value),
        match slot_of_name name with
        | None => Raise KeyError
        | Some s =>
            selection ← proposed_selection (cp_operation proposal) s value;
            Ok (slots_of (λ s', if bool_decide (s' = s) then selection else at_slot selections s'))
        end) (slots_of (λ _, NotApplicableInput)) dimensions;
    plan ← normalize_plan selections;
    Ok (omap (λ s, if absent (dict_get (py (slot_name s)) dimensions) then None
                   else Some (s, at_slot plan s)) ORDER).

(** ** The use cases, up to the repository *)

Record ApprovalPlan := mkApprovalPlan {
  ap_proposal : ChangeProposal;
  ap_validated : ValidatedProposal;
  ap_audit : MutationAuditMetadata;
  ap_message : option pystr;
}.

(** [MasterCodeOperation(proposal.operation.value)] *)
Definition master_code_operation (o : ChangeOperation) : MasterCodeOperation :=
  match o with
  | OP_CREATE => MC_CREATE | OP_REFERENCE_UPDATE => MC_REFERENCE_UPDATE
  | OP_DELETE => MC_DELETE | OP_RESTORE => MC_RESTORE
  end.

(** The checks of [ChangeRequestUseCases.submit] and the arguments it passes on. *)
Definition prepare_submission (p : HumanPrincipal) (proposal : ChangeProposal)
    (reason : option pystr) : res (option pystr) :=
  action ← match cp_operation proposal with
           | OP_CREATE => Ok SUBMIT_CREATE_REQUEST
           | OP_REFERENCE_UPDATE => Ok SUBMIT_REFERENCE_UPDATE_REQUEST
           | OP_DELETE => Ok SUBMIT_DELETE_REQUEST
           | OP_RESTORE =>
               Raise (ChangeRequestValidationError "사용자는 RESTORE 요청을 제출할 수 없습니다.")
           end;
  _ ← authorize p action;
  _ ← validate_proposal proposal;
  catch (normalize_reason reason)
    (λ e, match e with
          | AuditInvariantError _ =>
              Raise (ChangeRequestValidationError "유효한 요청 사유를 입력해야 합니다.")
          | _ => Raise e
          end).

(** The closure [prepare] of [ChangeRequestUseCases.approve]. *)
Definition prepare_approval (change_set_id : UUID) (p : HumanPrincipal)
    (approved_proposal : option ChangeProposal) (message : option pystr) (request : ChangeRequest)
    : res ApprovalPlan :=
  _ ← require_pending request;
  let proposal := default (cr_original request) approved_proposal in
  _ ← classify_approval request proposal message;
  validated ← validate_proposal proposal;
  let has_inline := existsb (λ '(_, selection), is_inline selection) validated in
  audit ← audit_create change_set_id p (if has_inline then Some DIM_CREATE else None)
            (Some (master_code_operation (cp_operation proposal))) message;
  Ok (mkApprovalPlan proposal validated audit message).
End unicode.
