(* ===== verification/ChangeRequestRepo.v ===== *)
(** * The change request repository
    ([src/src/mdm/infrastructure/repositories/change_requests.py],
    [src/alembic/versions/20260915_0013_master_code_change_requests.py])

    Requests live in a table of their own, beside the tables of [Store]; an
    approval changes both in one transaction.  [seen] is the committed state
    that reads without locks return. *)

From S2P Require Import Prelude Python Exceptions Uuids Auth MutationAudit Dimensions MasterCodes Store Records Pagination DimensionRepos MasterCodeRepo Commands ChangeRequests.
Local Open Scope Z_scope.

(** ** The table *)

(** The four columns with one prefix. *)
Record ProposalColumns := mkProposalColumns {
  pc_operation : option ChangeOperation;
  pc_target_id : option UUID;
  pc_payload : option (list (pystr * pyval));
  pc_expected_etag : option pystr;
}.
#[export] Instance ProposalColumns_eq_dec : EqDecision ProposalColumns.
Proof. solve_decision. Defined.
Definition no_proposal : ProposalColumns := mkProposalColumns None None None None.

Record CrRow := mkCrRow {
  rw_id : UUID;
  rw_original : ProposalColumns;
  rw_requester_id : UUID;
  rw_reason : option pystr;
  rw_created_at : Z;
  rw_status : ChangeRequestStatus;
  rw_approved : ProposalColumns;
  rw_reviewer_id : option UUID;
  rw_reviewed_at : option Z;
  rw_review_message : option pystr;
  rw_applied_change_set_id : option UUID;
}.
#[export] Instance CrRow_eq_dec : EqDecision CrRow.
Proof. solve_decision. Defined.

(** [_proposal_columns] and [_proposal] *)
Definition proposal_columns (p : ChangeProposal) : ProposalColumns :=
  mkProposalColumns (Some (cp_operation p)) (cp_target_id p)
    (ProposalPayload_to_dict <$> cp_payload p) (cp_expected_etag p).
Definition proposal_of (c : ProposalColumns) : res ChangeProposal :=
  match pc_operation c with
  | None => Raise (ValueError "None is not a valid ChangeOperation")
  | Some operation =>
      ChangeProposal_init (mkChangeProposal operation (pc_target_id c)
        (ProposalPayload_from_dict <$> pc_payload c) (pc_expected_etag c))
  end.

(** [_request] *)
Definition request_of (r : CrRow) : res ChangeRequest :=
  original ← proposal_of (rw_original r);
  approved ← match pc_operation (rw_approved r) with
             | None => Ok None
             | Some _ => p ← proposal_of (rw_approved r); Ok (Some p)
             end;
  review_message ← match rw_review_message r with
                   | None => Ok None
                   | Some text => m ← ReviewMessage_init text; Ok (Some m)
                   end;
  ChangeRequest_init (mkChangeRequest (rw_id r) original (rw_requester_id r) (utc (rw_created_at r))
    (rw_reason r) (rw_status r) approved (rw_reviewer_id r) review_message (utc <$> rw_reviewed_at r)
    (rw_applied_change_set_id r)).

(** [_set_review] *)
Definition set_review (r : CrRow) (reviewed : ChangeRequest) : CrRow :=
  mkCrRow (rw_id r) (rw_original r) (rw_requester_id r) (rw_reason r) (rw_created_at r)
    (cr_status reviewed)
    (match cr_approved reviewed with None => rw_approved r | Some p => proposal_columns p end)
    (cr_reviewer_id reviewed) (instant <$> cr_reviewed_at reviewed) (cr_review_message reviewed)
    (cr_applied_change_set_id reviewed).

(** *** Constraints and trigger *)

Definition strong_etag (e : option pystr) : bool :=
  match e with None => false | Some tag => etag_pattern tag end.

(** A proposal with a target, and one without. *)
Definition ck_creation (c : ProposalColumns) : bool :=
  absent (pc_target_id c) && absent (pc_expected_etag c) && negb (absent (pc_payload c)).
Definition ck_targeted (with_payload : bool) (c : ProposalColumns) : bool :=
  negb (absent (pc_target_id c)) && strong_etag (pc_expected_etag c)
  && eqb (negb (absent (pc_payload c))) with_payload.

Definition ck_original (r : CrRow) : bool :=
  let c := rw_original r in
  match pc_operation c with
  | Some OP_CREATE => ck_creation c
  | Some OP_REFERENCE_UPDATE => ck_targeted true c
  | Some OP_DELETE => ck_targeted false c
  | _ => false
  end.
Definition ck_approved (c : ProposalColumns) : bool :=
  match pc_operation c with
  | Some OP_CREATE => ck_creation c
  | Some OP_DELETE => ck_targeted false c
  | Some OP_REFERENCE_UPDATE | Some OP_RESTORE => ck_targeted true c
  | None => false
  end.

Definition ck_reason (r : CrRow) : bool :=
  match rw_reason r with
  | None => true
  | Some s => (length (strip space s) <=? 500)%nat && negb (existsb is_control s)
  end.
Definition ck_message (r : CrRow) : bool :=
  match rw_review_message r with
  | None => true
  | Some s => (1 <=? length s)%nat && (length s <=? 500)%nat && bool_decide (s = strip space s)
              && negb (existsb is_control s)
  end.

Definition reviewed_in_time (r : CrRow) : bool :=
  negb (absent (rw_reviewer_id r))
  && match rw_reviewed_at r with None => false | Some t => rw_created_at r <=? t end.
Definition ck_review (r : CrRow) : bool :=
  let o := rw_original r in
  let a := rw_approved r in
  match rw_status r with
  | PENDING => absent (rw_reviewer_id r) && absent (rw_reviewed_at r) && absent (rw_review_message r)
               && bool_decide (a = no_proposal) && absent (rw_applied_change_set_id r)
  | REJECTED => reviewed_in_time r && negb (absent (rw_review_message r))
                && bool_decide (a = no_proposal) && absent (rw_applied_change_set_id r)
  | (APPROVED | MODIFIED_AND_APPROVED) as status =>
      reviewed_in_time r
      && match rw_applied_change_set_id r with
         | None => false | Some u => bool_decide (uuid_version u = Some 7)
         end
      && ck_approved a
      && (bool_decide (pc_operation a = pc_operation o) && bool_decide (pc_target_id a = pc_target_id o)
          || bool_decide (pc_operation o = Some OP_CREATE) && bool_decide (pc_operation a = Some OP_RESTORE))
      && if bool_decide (status = APPROVED) then bool_decide (a = o)
         else negb (absent (rw_review_message r)) && negb (bool_decide (a = o))
  end.

Definition ck_request (r : CrRow) : res unit :=
  _ ← raise_if (negb (ck_original r)) (IntegrityError "ck_change_requests_original");
  _ ← raise_if (negb (ck_reason r)) (IntegrityError "ck_change_requests_reason");
  _ ← raise_if (negb (ck_message r)) (IntegrityError "ck_change_requests_message");
  raise_if (negb (ck_review r)) (IntegrityError "ck_change_requests_review").

Abbreviation Requests := (gmap UUID CrRow).

Definition uq_request (r : CrRow) (t : Requests) : res unit :=
  raise_if (existsb (λ r', negb (bool_decide (rw_id r' = rw_id r))
                           && negb (absent (rw_applied_change_set_id r'))
                           && bool_decide (rw_applied_change_set_id r' = rw_applied_change_set_id r))
              (map_to_list t).*2)
    (IntegrityError "uq_change_requests_applied_change_set").

(** [mdm_change_request_before_write] *)
Definition cr_before_insert (r : CrRow) : res unit :=
  raise_if (negb (bool_decide (rw_status r = PENDING))) trigger_error.
Definition cr_before_update (old new : CrRow) : res unit :=
  raise_if (negb (bool_decide (rw_status old = PENDING)) || bool_decide (rw_status new = PENDING)
            || negb (rw_id new =? rw_id old) || negb (bool_decide (rw_original new = rw_original old))
            || negb (rw_requester_id new =? rw_requester_id old)
            || negb (bool_decide (rw_reason new = rw_reason old))
            || negb (rw_created_at new =? rw_created_at old)) trigger_error.

Definition insert_request (r : CrRow) (t : Requests) : res Requests :=
  _ ← cr_before_insert r;
  _ ← ck_request r;
  _ ← raise_if (bool_decide (is_Some (t !! rw_id r)))
        (IntegrityError "master_code_change_requests_pkey");
  _ ← uq_request r t;
  Ok (<[rw_id r := r]> t).
Definition update_request (old new : CrRow) (t : Requests) : res Requests :=
  _ ← cr_before_update old new;
  _ ← ck_request new;
  _ ← uq_request new t;
  Ok (<[rw_id new := new]> t).

(** ** Submission and reads *)

Record RDB := mkRDB { rd_db : DB; rd_requests : Requests }.

(** [id] and [now] are what [uuidv7()] and [clock_timestamp()] return. *)
Definition submit_request (id : UUID) (now : Z) (proposal : ChangeProposal) (requester_id : UUID)
    (reason : option pystr) (t : Requests) : res (ChangeRequest * Requests) :=
  let record := mkCrRow id (proposal_columns proposal) requester_id reason now PENDING no_proposal
                  None None None None in
  t' ← insert_request record t;
  request ← request_of record;
  Ok (request, t').

Definition get_request (request_id : UUID) (requester_id : option UUID) (t : Requests)
    : res ChangeRequest :=
  match t !! request_id with
  | Some record =>
      if match requester_id with None => true | Some u => rw_requester_id record =? u end
      then request_of record else Raise ChangeRequestNotFound
  | None => Raise ChangeRequestNotFound
  end.

Definition cr_key (r : CrRow) : page_key := (rw_created_at r, rw_id r).
Definition list_requests (requester_id : option UUID) (status : option ChangeRequestStatus)
    (operation : option ChangeOperation) (after : option page_key) (limit : nat) (t : Requests)
    : res (Page ChangeRequest) :=
  let matches r :=
    match requester_id with None => true | Some u => rw_requester_id r =? u end
    && match status with None => true | Some s => bool_decide (rw_status r = s) end
    && match operation with
       | None => true | Some o => bool_decide (pc_operation (rw_original r) = Some o)
       end in
  let p := page cr_key after limit (List.filter matches (map_to_list t).*2) in
  items ← mapR request_of (page_items p);
  Ok (mkPage items (page_has_more p)).

(** ** Review *)

(** [_lock_request] *)
Definition lock_request (request_id : UUID) (t : Requests) : res CrRow :=
  match t !! request_id with
  | None => Raise ChangeRequestNotFound
  | Some record =>
      request ← request_of record;
      _ ← require_pending request;
      Ok record
  end.

Definition reject_request (clock : Z) (request_id reviewer_id : UUID) (message : pystr) (t : Requests)
    : res (ChangeRequest * Requests) :=
  record ← lock_request request_id t;
  original ← request_of record;
  let reviewed_at := utc (Z.max clock (instant (cr_created_at original))) in
  reviewed ← ChangeRequest_reject original reviewer_id reviewed_at message;
  t' ← update_request record (set_review record reviewed) t;
  Ok (reviewed, t').

Section unicode.
Context `{UnicodeData}.

(** [f'payload.dimensions.{slot}.id'] *)
Definition payload_field (s : slot) : string := "payload.dimensions." ++ slot_name s ++ ".id".

(** *** Applying a creation *)

Definition apply_create_slot (env : Env) (c : AuditContext) (seen : DB) (timestamp : datetime)
    (st : CreateState) (entry : slot * DimensionSelection) : res CreateState :=
  let '(s, selection) := entry in
  match selection with
  | NotApplicable =>
      Ok (mkCreateState (st_db st) (set_slot (st_resolved st) s None) (st_invalid st))
  | ExistingDimension id =>
      dimension ← lock_reference s (st_db st) id;
      Ok (mkCreateState (st_db st) (set_slot (st_resolved st) s dimension)
            (st_invalid st ++ if absent dimension then [payload_field s] else []))
  | InlineDimension code value =>
      '(d, db') ← create_inline env c seen s code value timestamp (st_db st);
      Ok (mkCreateState db' (set_slot (st_resolved st) s (Some d)) (st_invalid st))
  end.

(** The creation branch of [_apply].  Validation gives a creation all eight
    slots. *)
Definition apply_create (env : Env) (seen db : DB) (plan : ApprovalPlan) : res (MasterCode * DB) :=
  context ← set_context (ap_audit plan) None (env_clock env);
  let timestamp := context.2 in
  st ← foldR (apply_create_slot env context.1 seen timestamp) (mkCreateState db no_dimensions [])
         (ap_validated plan);
  _ ← raise_if (negb (bool_decide (st_invalid st = []))) (InvalidDimensionReference (st_invalid st));
  dimensions ← MasterCodeDimensions_init (st_resolved st);
  let code := compose dimensions in
  _ ← raise_if (existsb (λ m, bool_decide (m_code m = code) && bool_decide (m_deleted_at m = None))
                  (mc_rows (st_db st))) ChangeRequestNoEffect;
  let record := mkMcRow (env_mc_id env) (dimension_ids (st_resolved st)) code 1 (instant timestamp)
                  (instant timestamp) None in
  db' ← insert_master_code context.1 record (st_db st);
  mc ← master_code record dimensions;
  Ok (mc, db').

(** *** Locking the target of the other operations *)

Definition change_of (plan : ApprovalPlan) (s : slot) : option DimensionSelection :=
  snd <$> find (λ p, bool_decide (p.1 = s)) (ap_validated plan).

Record TargetState := mkTargetState {
  ts_db : DB;
  ts_current : MasterCodeDimensions;
  ts_resolved : MasterCodeDimensions;
  ts_invalid : list string;
}.

(** The rows with the wanted identifiers, deleted ones included. *)
Definition lock_rows (s : slot) (current : option Dimension) (change : option DimensionSelection)
    (db : DB) : res (list (UUID * Dimension)) :=
  let wanted := match change with Some (ExistingDimension id) => Some (RefExisting id) | _ => None end in
  let records := omap (λ i, dims db !! (s, i)) (lock_identifiers current wanted) in
  mapR (λ r, d ← row_to_domain s r; Ok (r_id r, d)) records.

(** The body of the loop; [context] is set when the plan has an inline
    Dimension. *)
Definition lock_target_slot (env : Env) (context : option (AuditContext * datetime)) (seen : DB)
    (initial : MasterCode) (plan : ApprovalPlan) (st : TargetState) (s : slot) : res TargetState :=
  let current := get_slot (mc_dimensions initial) s in
  let change := change_of plan s in
  locked ← lock_rows s current change (ts_db st);
  let current_dimension := match current with None => None | Some d => assoc (dim_id d) locked end in
  _ ← raise_if (negb (absent current) && absent current_dimension) ChangeRequestStaleTarget;
  let advance db resolved invalid :=
    mkTargetState db (set_slot (ts_current st) s current_dimension)
      (set_slot (ts_resolved st) s resolved) (ts_invalid st ++ invalid) in
  match change with
  | None => Ok (advance (ts_db st) current_dimension [])
  | Some NotApplicable => Ok (advance (ts_db st) None [])
  | Some (ExistingDimension id) =>
      let dimension := assoc id locked in
      let invalid :=
        match dimension with
        | None => true
        | Some d => is_deleted d && negb (bool_decide (cp_operation (ap_proposal plan) = OP_RESTORE))
        end in
      Ok (advance (ts_db st) dimension (if invalid then [payload_field s] else []))
  | Some (InlineDimension code value) =>
      match context with
      | None => Raise AssertionError
      | Some (c, timestamp) =>
          '(d, db') ← create_inline env c seen s code value timestamp (ts_db st);
          Ok (advance db' (Some d) [])
      end
  end.

Record LockedTarget := mkLockedTarget {
  lt_record : McRow;
  lt_current : MasterCode;
  lt_next : MasterCodeDimensions;
  lt_context : option (AuditContext * datetime);
  lt_db : DB;
}.

(** [_lock_target] *)
Definition lock_target (env : Env) (seen db : DB) (plan : ApprovalPlan) : res LockedTarget :=
  initial_row ← match cp_target_id (ap_proposal plan) ≫= λ id, mcs seen !! id with
                | None => Raise MasterCodeNotFound | Some m => Ok m end;
  initial ← joined_to_domain seen initial_row;
  context ← (if existsb (λ p, is_inline p.2) (ap_validated plan) then
               x ← set_context (ap_audit plan) (Some (mc_updated_at initial)) (env_clock env);
               Ok (Some x)
             else Ok None);
  st ← foldR (lock_target_slot env context seen initial plan)
         (mkTargetState db no_dimensions no_dimensions []) ORDER;
  _ ← raise_if (negb (bool_decide (ts_invalid st = []))) (InvalidDimensionReference (ts_invalid st));
  record ← match mcs (ts_db st) !! m_id initial_row with
           | None => Raise ChangeRequestStaleTarget
           | Some record =>
               _ ← raise_if (negb (same_persisted_state record initial)) ChangeRequestStaleTarget;
               Ok record
           end;
  current_dimensions ← MasterCodeDimensions_init (ts_current st);
  current ← master_code record current_dimensions;
  _ ← raise_if (negb (bool_decide (Some (etag current) = cp_expected_etag (ap_proposal plan))))
        ChangeRequestStaleTarget;
  next_dimensions ← MasterCodeDimensions_init (ts_resolved st);
  Ok (mkLockedTarget record current next_dimensions context (ts_db st)).

(** The branches of [_apply] for an existing MasterCode. *)
Definition check_target (operation : ChangeOperation) (current : MasterCode)
    (next_dimensions : MasterCodeDimensions) : res unit :=
  let same := bool_decide (dimension_ids next_dimensions = dimension_ids (mc_dimensions current)) in
  match operation with
  | OP_DELETE => raise_if (mc_is_deleted current) ChangeRequestNoEffect
  | OP_RESTORE =>
      let inactive :=
        List.filter (λ s, match get_slot (mc_dimensions current) s with
                          | Some d => is_deleted d | None => false end) ORDER in
      _ ← raise_if (negb (mc_is_deleted current)) MasterCodeNotDeleted;
      _ ← raise_if (negb same) ChangeRequestRestoreMismatch;
      raise_if (negb (bool_decide (inactive = []))) (MasterCodeReferenceInactive (id_field <$> inactive))
  | _ =>
      _ ← raise_if (mc_is_deleted current) MasterCodeNotFound;
      raise_if same ChangeRequestNoEffect
  end.

Definition apply_target (env : Env) (seen db : DB) (plan : ApprovalPlan) : res (MasterCode * DB) :=
  target ← lock_target env seen db plan;
  let operation := cp_operation (ap_proposal plan) in
  let record := lt_record target in
  let current := lt_current target in
  _ ← check_target operation current (lt_next target);
  context ← match lt_context target with
            | Some x => Ok x
            | None => set_context (ap_audit plan) (Some (mc_updated_at current)) (env_clock env)
            end;
  updated ← match operation with
            | OP_DELETE => MasterCode_delete current context.2
            | OP_RESTORE => MasterCode_restore current context.2
            | _ => MasterCodes.update_references current (lt_next target) context.2
            end;
  let references :=
    match operation with
    | OP_DELETE | OP_RESTORE => m_refs record
    | _ => dimension_ids (lt_next target)
    end in
  let record' := mkMcRow (m_id record) references (mc_code updated) (mc_version updated)
                   (m_created_at record) (instant (mc_updated_at updated))
                   (instant <$> mc_deleted_at updated) in
  db' ← update_master_code context.1 record record' (lt_db target);
  Ok (updated, db').

Definition apply_plan (env : Env) (seen db : DB) (plan : ApprovalPlan) : res (MasterCode * DB) :=
  if bool_decide (cp_operation (ap_proposal plan) = OP_CREATE) then apply_create env seen db plan
  else apply_target env seen db plan.

(** [UUID(plan.audit.actor.actor_id)] *)
Definition actor_uuid (audit : MutationAuditMetadata) : res UUID :=
  match parse_UUID (VStr (actor_id (md_actor audit))) with
  | Some u => Ok u
  | None => Raise (ValueError "badly formed hexadecimal UUID string")
  end.

(** The selections an integrity error is translated with. *)
Definition plan_selections (plan : ApprovalPlan) : MasterCodeCreatePlan :=
  slots_of (λ s, default NotApplicable (change_of plan s)).

(** [clock] is the [clock_timestamp()] of the review. *)
Definition approve_request (env : Env) (seen requery : DB) (clock : Z)
    (prepare : ChangeRequest → res ApprovalPlan) (request_id : UUID) (st : RDB)
    : res (ChangeRequest * RDB) :=
  record ← lock_request request_id (rd_requests st);
  original ← request_of record;
  plan ← prepare original;
  catch
    ('(result, db') ← apply_plan env seen (rd_db st) plan;
     let reviewed_at :=
       utc (Z.max (Z.max clock (instant (cr_created_at original))) (instant (mc_updated_at result))) in
     reviewer_id ← actor_uuid (ap_audit plan);
     reviewed ← ChangeRequest_approve original (ap_proposal plan) reviewer_id reviewed_at
                  (md_change_set_id (ap_audit plan)) (ap_message plan);
     requests' ← update_request record (set_review record reviewed) (rd_requests st);
     Ok (reviewed, mkRDB db' requests'))
    (translate_integrity_error (plan_selections plan) requery).

(** ** The use cases of [ChangeRequestUseCases] *)

Definition submit (id : UUID) (now : Z) (p : HumanPrincipal) (proposal : ChangeProposal)
    (reason : option pystr) (st : RDB) : res (ChangeRequest * RDB) :=
  normalized_reason ← prepare_submission p proposal reason;
  '(request, t') ← submit_request id now proposal (principal_id p) normalized_reason (rd_requests st);
  Ok (request, mkRDB (rd_db st) t').

Definition get_own (p : HumanPrincipal) (request_id : UUID) (st : RDB) : res ChangeRequest :=
  _ ← authorize p READ_DATA;
  get_request request_id (Some (principal_id p)) (rd_requests st).
Definition get_for_review (p : HumanPrincipal) (request_id : UUID) (st : RDB) : res ChangeRequest :=
  _ ← authorize p REVIEW_CHANGE_REQUEST;
  get_request request_id None (rd_requests st).

Definition list_change_requests (p : HumanPrincipal) (for_review : bool)
    (status : option ChangeRequestStatus) (operation : option ChangeOperation)
    (after : option page_key) (limit : pyval) (st : RDB) : res (Page ChangeRequest) :=
  _ ← authorize p (if for_review then REVIEW_CHANGE_REQUEST else READ_DATA);
  n ← match limit with
      | VInt z => if (1 <=? z) && (z <=? 100) then Ok (Z.to_nat z)
                  else Raise (ChangeRequestValidationError "limit은 1~100 정수여야 합니다.")
      | _ => Raise (ChangeRequestValidationError "limit은 1~100 정수여야 합니다.")
      end;
  _ ← raise_if (bool_decide (operation = Some OP_RESTORE))
        (ChangeRequestValidationError "원본 operation 필터에는 RESTORE가 없습니다.");
  list_requests (if for_review then None else Some (principal_id p)) status operation after n
    (rd_requests st).

Definition approve (env : Env) (seen requery : DB) (clock : Z) (change_set_id : UUID)
    (p : HumanPrincipal) (request_id : UUID) (approved_proposal : option ChangeProposal)
    (message : option pystr) (st : RDB) : res (ChangeRequest * RDB) :=
  _ ← authorize p REVIEW_CHANGE_REQUEST;
  approve_request env seen requery clock (prepare_approval change_set_id p approved_proposal message)
    request_id st.

Definition reject (clock : Z) (p : HumanPrincipal) (request_id : UUID) (message : pystr) (st : RDB)
    : res (ChangeRequest * RDB) :=
  _ ← authorize p REVIEW_CHANGE_REQUEST;
  '(reviewed, t') ← reject_request clock request_id (principal_id p) message (rd_requests st);
  Ok (reviewed, mkRDB (rd_db st) t').
End unicode.
