(* ===== verification/ChangeRequestSpecs.v ===== *)
(** * What a review promises

    Proposals and requests read back from their columns as they were written;
    a review happens once and its status says how the approved proposal differs
    from the original; an approval applies exactly the approved proposal, keeps
    the database consistent and names the reviewer in every log entry. *)

From Stdlib Require Import Sorted.
From S2P Require Import Prelude Python Exceptions Uuids Auth MutationAudit Dimensions MasterCodes Store Records Invariant Consistency Pagination DimensionRepos DimensionSpecs DimensionLifecycle MasterCodeRepo MasterCodeSpecs Transactions Commands CommandSpecs UseCases ChangeRequests ChangeRequestRepo.
Local Open Scope Z_scope.

(** ** Canonical JSON *)

Definition entry_le (p q : pystr * pyval) : Prop := str_leb p.1 q.1 = true.

Lemma insert_entry_elem p l : ∀ x, x ∈ insert_entry p l ↔ x = p ∨ x ∈ l.
Proof.
  induction l as [|q l IH]; intros x; cbn; [set_solver|].
  destruct (str_leb p.1 q.1); [set_solver|]. rewrite elem_of_cons, IH. set_solver.
Qed.

Lemma insert_entry_sorted p l : StronglySorted entry_le l → StronglySorted entry_le (insert_entry p l).
Proof.
  induction 1 as [|q l Hl IH Hq]; cbn; [by repeat constructor|].
  destruct (str_leb p.1 q.1) eqn:E.
  - constructor; [by constructor|]. constructor; [done|]. eapply Forall_impl; [exact Hq|].
    intros x Hx. by eapply str_leb_trans.
  - constructor; [done|]. apply Forall_forall. intros x [->|Hx]%insert_entry_elem.
    + destruct (str_leb_total p.1 q.1) as [H|H]; [congruence|exact H].
    + rewrite Forall_forall in Hq. by apply Hq.
Qed.

Lemma sort_entries_sorted l : StronglySorted entry_le (sort_entries l).
Proof. induction l as [|p l IH]; [constructor|]. by apply insert_entry_sorted. Qed.

Lemma sort_entries_id l : StronglySorted entry_le l → sort_entries l = l.
Proof.
  induction 1 as [|p l _ IH Hp]; [done|]. cbn. fold (sort_entries l). rewrite IH.
  destruct Hp as [|q l Hpq _]; [done|]. cbn. unfold entry_le in Hpq. by rewrite Hpq.
Qed.

Lemma sort_entries_map (f : pyval → pyval) l :
  sort_entries (map (λ p, (p.1, f p.2)) l) = map (λ p, (p.1, f p.2)) (sort_entries l).
Proof.
  induction l as [|p l IH]; [done|]. cbn. fold (sort_entries l).
  fold (sort_entries (map (λ p, (p.1, f p.2)) l)). rewrite IH.
  generalize (sort_entries l) as k. intros k. induction k as [|q k IHk]; [done|]. cbn.
  destruct (str_leb p.1 q.1); [done|]. cbn. by rewrite IHk.
Qed.

Lemma canonical_idem v : canonical (canonical v) = canonical v.
Proof.
  revert v. fix go 1. intros [|b|z|x|x|l|entries]; try reflexivity; cbn [canonical]; f_equal.
  - rewrite map_map. induction l as [|v l IH]; [reflexivity|]. cbn [map]. rewrite go, IH. reflexivity.
  - rewrite <- (sort_entries_map canonical), map_map. cbn [fst snd].
    assert (map (λ p, (p.1, canonical (canonical p.2))) entries = map (λ p, (p.1, canonical p.2)) entries)
      as ->.
    { induction entries as [|[k v] entries IH]; [reflexivity|]. cbn [map fst snd]. rewrite go, IH.
      reflexivity. }
    apply sort_entries_id, sort_entries_sorted.
Qed.

Definition payload_wf (p : ProposalPayload) : Prop := canonical (VDict (encoded p)) = VDict (encoded p).

Lemma payload_from_dict_wf l : payload_wf (ProposalPayload_from_dict l).
Proof.
  unfold payload_wf, ProposalPayload_from_dict. cbn [canonical encoded].
  pose proof (canonical_idem (VDict l)) as H. cbn [canonical] in H. exact H.
Qed.

Lemma payload_round_trip p : payload_wf p → ProposalPayload_from_dict (encoded p) = p.
Proof. unfold payload_wf, ProposalPayload_from_dict. intros ->. by destruct p. Qed.

(** ** Proposals and requests read back *)

(** What the constructors built. *)
Definition proposal_wf (p : ChangeProposal) : Prop :=
  ChangeProposal_init p = Ok p ∧ ∀ payload, cp_payload p = Some payload → payload_wf payload.
Definition message_wf (m : option pystr) : Prop := ∀ text, m = Some text → ReviewMessage_init text = Ok text.

Lemma ChangeProposal_init_same p q : ChangeProposal_init p = Ok q → q = p.
Proof. unfold ChangeProposal_init. intros Hok. do 2 apply bind_Ok in Hok as (_ & _ & Hok). by injection Hok. Qed.

Lemma proposal_columns_read p : proposal_wf p → proposal_of (proposal_columns p) = Ok p.
Proof.
  intros [Hinit Hpay]. unfold proposal_of. cbn [pc_operation proposal_columns pc_target_id pc_payload pc_expected_etag].
  rewrite <- Hinit. destruct p as [o t pay e]. cbn in *. do 2 f_equal.
  destruct pay as [payload|]; [|done]. cbn. f_equal. by apply payload_round_trip, Hpay.
Qed.

Lemma proposal_of_wf c p :
  proposal_of c = Ok p → proposal_wf p ∧ pc_operation c = Some (cp_operation p).
Proof.
  unfold proposal_of. destruct (pc_operation c) as [o|]; [|done]. intros Hok.
  pose proof (ChangeProposal_init_same _ _ Hok) as ->. split; [split; [done|]|done].
  cbn. intros payload (l & _ & ->)%fmap_Some. apply payload_from_dict_wf.
Qed.

Lemma ReviewMessage_init_Ok m text : ReviewMessage_init m = Ok text → ReviewMessage_init text = Ok text.
Proof.
  unfold ReviewMessage_init. intros (n & Hn & Hok)%bind_Ok.
  apply catch_Ok in Hn as [Hn|(e & _ & He)]; [|by destruct e].
  destruct n as [t|]; [|done]. injection Hok as <-. apply normalize_reason_Ok in Hn as (Hne & Hlen & Hs & Hcc).
  cbn. rewrite Hs, bool_decide_eq_false_2 by done.
  replace (500 <? length t)%nat with false by (symmetry; by apply Nat.ltb_ge).
  apply existsb_false in Hcc. by rewrite Hcc.
Qed.

Lemma ChangeRequest_init_same x y : ChangeRequest_init x = Ok y → y = x.
Proof.
  unfold ChangeRequest_init. intros H. do 2 apply bind_Ok in H as (_ & _ & H).
  case_bool_decide; [by apply bind_Ok in H as (_ & _ & [= <-])|].
  apply bind_Ok in H as (_ & _ & H). case_bool_decide; [by apply bind_Ok in H as (_ & _ & [= <-])|].
  destruct (cr_approved x), (cr_applied_change_set_id x); try done.
  apply bind_Ok in H as (_ & _ & H). apply bind_Ok in H as (status & _ & H).
  apply bind_Ok in H as (_ & _ & H). by injection H.
Qed.

(** What a stored request reads as. *)
Lemma request_of_fields r req :
  request_of r = Ok req →
  ChangeRequest_init req = Ok req ∧ proposal_of (rw_original r) = Ok (cr_original req) ∧
  cr_id req = rw_id r ∧ cr_requester_id req = rw_requester_id r ∧ cr_reason req = rw_reason r ∧
  cr_created_at req = utc (rw_created_at r) ∧ cr_status req = rw_status r ∧
  (cr_approved req = None → pc_operation (rw_approved r) = None).
Proof.
  unfold request_of. intros (o & Ho & Hok)%bind_Ok. apply bind_Ok in Hok as (a & Ha & Hok).
  apply bind_Ok in Hok as (m & Hm & Hok).
  pose proof (ChangeRequest_init_same _ _ Hok) as ->. split_and!; try done.
  cbn. intros ->. destruct (pc_operation (rw_approved r)); [|done].
  by apply bind_Ok in Ha as (? & _ & ?).
Qed.

(** Writing a review and reading the row again. *)
Lemma set_review_read r original reviewed :
  request_of r = Ok original → ChangeRequest_init reviewed = Ok reviewed →
  cr_id reviewed = cr_id original → cr_original reviewed = cr_original original →
  cr_requester_id reviewed = cr_requester_id original → cr_reason reviewed = cr_reason original →
  cr_created_at reviewed = cr_created_at original →
  (∀ p, cr_approved reviewed = Some p → proposal_wf p) →
  (cr_approved reviewed = None → cr_approved original = None) →
  message_wf (cr_review_message reviewed) →
  (∀ t, cr_reviewed_at reviewed = Some t → t = utc (instant t)) →
  request_of (set_review r reviewed) = Ok reviewed.
Proof.
  intros Hr Hinit Hid Ho Hq Hre Hc Hp Hnone Hm Ht.
  apply request_of_fields in Hr as (_ & Horig & Hid' & Hq' & Hre' & Hc' & _ & Happ).
  unfold request_of, set_review. cbn [rw_original rw_approved rw_review_message rw_id rw_requester_id
    rw_created_at rw_reason rw_status rw_reviewer_id rw_reviewed_at rw_applied_change_set_id].
  rewrite Horig. cbn [mbind result_bind].
  assert (match pc_operation (match cr_approved reviewed with
      | None => rw_approved r | Some p => proposal_columns p end) with
    | None => Ok None
    | Some _ => p ← proposal_of (match cr_approved reviewed with
        | None => rw_approved r | Some p => proposal_columns p end); Ok (Some p)
    end = Ok (cr_approved reviewed)) as ->.
  { destruct (cr_approved reviewed) as [p|] eqn:E.
    - cbn [pc_operation proposal_columns]. by rewrite proposal_columns_read by by apply Hp.
    - by rewrite Happ by by apply Hnone. }
  cbn [mbind result_bind].
  assert (match cr_review_message reviewed with
    | None => Ok None | Some text => m ← ReviewMessage_init text; Ok (Some m) end =
    Ok (cr_review_message reviewed)) as ->.
  { destruct (cr_review_message reviewed) as [text|]; [|done]. by rewrite (Hm text). }
  cbn [mbind result_bind].
  rewrite <- Hinit. f_equal. destruct reviewed; cbn in *. subst. f_equal; [congruence..|].
  destruct cr_reviewed_at as [t|]; [|done]. cbn. f_equal. by rewrite <- (Ht t).
Qed.

(** ** One review *)

Lemma require_pending_Ok r u : require_pending r = Ok u ↔ cr_status r = PENDING.
Proof.
  unfold require_pending. rewrite raise_if_Ok, negb_false_iff, bool_decide_eq_true. done.
Qed.

(** A pending request has no review columns. *)
Lemma pending_unreviewed r :
  ChangeRequest_init r = Ok r → cr_status r = PENDING →
  cr_approved r = None ∧ cr_applied_change_set_id r = None.
Proof.
  intros Hinit Hs. unfold ChangeRequest_init in Hinit. do 2 apply bind_Ok in Hinit as (_ & _ & Hinit).
  rewrite bool_decide_eq_true_2 in Hinit by done. apply bind_Ok in Hinit as (_ & Hnone%raise_if_Ok & _).
  destruct (cr_approved r), (cr_applied_change_set_id r); cbn in Hnone; rewrite ?orb_true_r in Hnone; done.
Qed.

Lemma reviewed_after r :
  ChangeRequest_init r = Ok r → cr_status r ≠ PENDING →
  ∃ t, cr_reviewed_at r = Some t ∧ instant (cr_created_at r) ≤ instant t.
Proof.
  intros Hinit Hs. unfold ChangeRequest_init in Hinit. do 2 apply bind_Ok in Hinit as (_ & _ & Hinit).
  rewrite bool_decide_eq_false_2 in Hinit by done. apply bind_Ok in Hinit as (_ & Ht%raise_if_Ok & _).
  apply orb_false_iff in Ht as [_ Ht]. destruct (cr_reviewed_at r) as [t|]; [|done].
  apply orb_false_iff in Ht as [_ Ht]. exists t. split; [done|]. unfold dt_ltb in Ht. lia.
Qed.

(** The status an approval gets. *)
Definition approval_allowed (original proposal : ChangeProposal) : Prop :=
  (cp_operation proposal = cp_operation original ∧ cp_target_id proposal = cp_target_id original) ∨
  (cp_operation original = OP_CREATE ∧ cp_operation proposal = OP_RESTORE).

Lemma classify_approval_Ok r proposal message status :
  classify_approval r proposal message = Ok status →
  approval_allowed (cr_original r) proposal ∧
  (status = APPROVED ∧ proposal = cr_original r ∨
   status = MODIFIED_AND_APPROVED ∧ proposal ≠ cr_original r ∧ message ≠ None).
Proof.
  unfold classify_approval. intros (_ & Hallowed%raise_if_Ok & Hok)%bind_Ok. split.
  - unfold approval_allowed. destruct (bool_decide (cp_operation (cr_original r) = OP_CREATE)) eqn:E1;
      [destruct (bool_decide (cp_operation proposal = OP_RESTORE)) eqn:E2|]; bool_simpl; [by right|..];
      cbn in Hallowed; apply orb_false_iff in Hallowed as [H1 H2]; bool_simpl; by left.
  - case_bool_decide as Heq; [injection Hok as <-; by left|].
    apply bind_Ok in Hok as (_ & Hm%raise_if_Ok & [= <-]). right. split_and!; [done..|].
    by destruct message.
Qed.

(** A transition of a request, and its row. *)
Record review (original reviewed : ChangeRequest) : Prop := {
  rv_pending : cr_status original = PENDING;
  rv_final : cr_status reviewed ≠ PENDING;
  rv_id : cr_id reviewed = cr_id original;
  rv_original : cr_original reviewed = cr_original original;
  rv_requester : cr_requester_id reviewed = cr_requester_id original;
  rv_reason : cr_reason reviewed = cr_reason original;
  rv_created : cr_created_at reviewed = cr_created_at original;
  rv_after : ∃ t, cr_reviewed_at reviewed = Some t ∧ instant (cr_created_at original) ≤ instant t;
}.

Lemma approve_review r original proposal reviewer now cs message reviewed :
  request_of r = Ok original →
  ChangeRequest_approve original proposal reviewer (utc now) cs message = Ok reviewed →
  proposal_wf proposal → message_wf message →
  request_of (set_review r reviewed) = Ok reviewed ∧ review original reviewed ∧
  cr_approved reviewed = Some proposal ∧ cr_reviewer_id reviewed = Some reviewer ∧
  cr_applied_change_set_id reviewed = Some cs ∧ cr_review_message reviewed = message ∧
  approval_allowed (cr_original original) proposal ∧
  (cr_status reviewed = APPROVED ∧ proposal = cr_original original ∨
   cr_status reviewed = MODIFIED_AND_APPROVED ∧ proposal ≠ cr_original original ∧ message ≠ None).
Proof.
  intros Hr Hok Hp Hm. unfold ChangeRequest_approve in Hok.
  apply bind_Ok in Hok as ([] & Hpend%require_pending_Ok & Hok).
  apply bind_Ok in Hok as (status & Hstatus & Hinit).
  pose proof (ChangeRequest_init_same _ _ Hinit) as Hrev. rewrite <- Hrev in Hinit.
  apply classify_approval_Ok in Hstatus as [Hallowed Hstatus].
  assert (cr_status reviewed ≠ PENDING) as Hfinal
    by (rewrite Hrev; cbn; destruct Hstatus as [[-> _]|[-> _]]; done).
  pose proof (reviewed_after _ Hinit Hfinal) as Hafter. rewrite Hrev in Hafter. cbn in Hafter.
  split; [|split; [split; rewrite ?Hrev; try done; by rewrite Hrev in Hfinal|by rewrite Hrev]].
  eapply set_review_read; [done|done|rewrite Hrev; cbn; try done..].
  - by intros ? [= <-].
  - by intros t [= <-].
Qed.

Lemma reject_review r original reviewer now message reviewed :
  request_of r = Ok original →
  ChangeRequest_reject original reviewer (utc now) message = Ok reviewed →
  ReviewMessage_init message = Ok message →
  request_of (set_review r reviewed) = Ok reviewed ∧ review original reviewed ∧
  cr_status reviewed = REJECTED ∧ cr_reviewer_id reviewed = Some reviewer ∧
  cr_review_message reviewed = Some message ∧ cr_approved reviewed = None ∧
  cr_applied_change_set_id reviewed = None.
Proof.
  intros Hr Hok Hm. unfold ChangeRequest_reject in Hok.
  apply bind_Ok in Hok as ([] & Hpend%require_pending_Ok & Hinit).
  pose proof (ChangeRequest_init_same _ _ Hinit) as Hrev. rewrite <- Hrev in Hinit.
  pose proof (request_of_fields _ _ Hr) as (Horig & _).
  destruct (pending_unreviewed _ Horig Hpend) as [Hna Hnc].
  assert (cr_status reviewed ≠ PENDING) as Hfinal by by rewrite Hrev.
  pose proof (reviewed_after _ Hinit Hfinal) as Hafter. rewrite Hrev in Hafter. cbn in Hafter.
  split; [|split; [split; rewrite ?Hrev; done|by rewrite Hrev]].
  eapply set_review_read; [done|done|rewrite Hrev; cbn; try done..].
  - intros p Hap. congruence.
  - by intros text [= <-].
  - by intros t [= <-].
Qed.

(** ** The table of requests *)

Definition requests_ok (t : Requests) : Prop :=
  ∀ id r, t !! id = Some r → rw_id r = id ∧ ∃ req, request_of r = Ok req.

(** A row stays as it is, or is reviewed once. *)
Definition row_progress (r r' : CrRow) : Prop :=
  r' = r ∨ rw_status r = PENDING ∧ rw_status r' ≠ PENDING ∧ rw_id r' = rw_id r ∧
    rw_original r' = rw_original r ∧ rw_requester_id r' = rw_requester_id r ∧
    rw_reason r' = rw_reason r ∧ rw_created_at r' = rw_created_at r.
Definition requests_progress (t t' : Requests) : Prop :=
  ∀ id r, t !! id = Some r → ∃ r', t' !! id = Some r' ∧ row_progress r r'.

Lemma requests_progress_refl t : requests_progress t t.
Proof. intros id r Hr. exists r. split; [done|by left]. Qed.

Lemma requests_progress_trans t1 t2 t3 :
  requests_progress t1 t2 → requests_progress t2 t3 → requests_progress t1 t3.
Proof.
  intros H12 H23 id r Hr. destruct (H12 _ _ Hr) as (r2 & Hr2 & H2).
  destruct (H23 _ _ Hr2) as (r3 & Hr3 & H3). exists r3. split; [done|].
  destruct H2 as [->|(? & ? & ? & ? & ? & ? & ?)]; [done|].
  destruct H3 as [->|(? & _)]; [by right|congruence].
Qed.

Lemma lock_request_Ok id t r :
  lock_request id t = Ok r ↔
  t !! id = Some r ∧ ∃ req, request_of r = Ok req ∧ cr_status req = PENDING.
Proof.
  unfold lock_request. destruct (t !! id) as [r0|]; [|naive_solver]. rewrite bind_Ok. split.
  - intros (req & Hreq & (u & Hp%require_pending_Ok & [= <-])%bind_Ok). naive_solver.
  - intros [[= ->] (req & Hreq & Hp)]. exists req. split; [done|].
    apply bind_Ok. exists tt. split; [by apply require_pending_Ok|done].
Qed.

Lemma insert_request_Ok r t t' :
  insert_request r t = Ok t' → t !! rw_id r = None ∧ t' = <[rw_id r := r]> t.
Proof.
  unfold insert_request. intros Hok. do 2 apply bind_Ok in Hok as (_ & _ & Hok).
  apply bind_Ok in Hok as (_ & Hf%raise_if_Ok%bool_decide_eq_false & Hok).
  apply bind_Ok in Hok as (_ & _ & [= <-]). split; [by apply eq_None_not_Some|done].
Qed.

Lemma update_request_Ok old new t t' :
  update_request old new t = Ok t' → row_progress old new ∧ new ≠ old ∧ t' = <[rw_id new := new]> t.
Proof.
  unfold update_request, cr_before_update. intros Hok.
  apply bind_Ok in Hok as (_ & Hg%raise_if_Ok & Hok). do 2 apply bind_Ok in Hok as (_ & _ & Hok).
  injection Hok as <-. repeat (apply orb_false_iff in Hg as [Hg ?]). bool_simpl.
  split; [right; by split_and!|]. split; [intros ->; congruence|done].
Qed.

(** The effect of a review on the table. *)
Lemma review_row id t r reviewed new t' :
  requests_ok t → t !! id = Some r → update_request r new t = Ok t' → request_of new = Ok reviewed →
  requests_ok t' ∧ requests_progress t t' ∧ t' !! id = Some new ∧ (∀ k, k ≠ id → t' !! k = t !! k) ∧
  get_request id None t' = Ok reviewed.
Proof.
  intros Hok Hr Hupd Hread. destruct (Hok _ _ Hr) as [Hid _].
  pose proof (update_request_Ok _ _ _ _ Hupd) as (Hprog & Hne & ->).
  assert (rw_id new = id) as Hnew by (destruct Hprog as [->|(_ & _ & -> & _)]; done).
  rewrite Hnew. split_and!.
  - intros k r' [[<- <-]|[_ Hk]]%lookup_insert_Some; [by eauto|by apply Hok].
  - intros k r' Hk. destruct (decide (k = id)) as [->|Hne'].
    + rewrite lookup_insert_eq. assert (r' = r) as -> by congruence. eauto.
    + rewrite lookup_insert_ne by done. exists r'. split; [done|by left].
  - by rewrite lookup_insert_eq.
  - intros k Hk. by rewrite lookup_insert_ne.
  - unfold get_request. by rewrite lookup_insert_eq.
Qed.

Lemma reviewed_is_locked id t r reviewed :
  t !! id = Some r → request_of r = Ok reviewed → cr_status reviewed ≠ PENDING →
  lock_request id t = Raise ChangeRequestAlreadyReviewed.
Proof.
  intros Hr Hreq Hs. unfold lock_request. rewrite Hr, Hreq. cbn [mbind result_bind].
  unfold require_pending. by rewrite bool_decide_eq_false_2.
Qed.

Lemma submit_request_row id now proposal requester reason t req t' :
  requests_ok t → submit_request id now proposal requester reason t = Ok (req, t') →
  t !! id = None ∧ requests_ok t' ∧ requests_progress t t' ∧ get_request id None t' = Ok req ∧
  (∀ k, k ≠ id → t' !! k = t !! k).
Proof.
  intros Hok Hsub. unfold submit_request in Hsub.
  apply bind_Ok in Hsub as (t1 & [Hnew ->]%insert_request_Ok & Hsub).
  apply bind_Ok in Hsub as (r1 & Hreq & [= <- <-]). cbn [rw_id] in *. split_and!; [done| | | |].
  - intros k r' [[<- <-]|[_ Hk]]%lookup_insert_Some; [split; [done|by eauto]|by apply Hok].
  - intros k r' Hk. exists r'. rewrite lookup_insert_ne by congruence. split; [done|by left].
  - unfold get_request. by rewrite lookup_insert_eq.
  - intros k Hk. by rewrite lookup_insert_ne.
Qed.

Lemma reject_request_row clock id reviewer message t reviewed t' :
  requests_ok t → ReviewMessage_init message = Ok message →
  reject_request clock id reviewer message t = Ok (reviewed, t') →
  ∃ r original, t !! id = Some r ∧ request_of r = Ok original ∧ review original reviewed ∧
    cr_status reviewed = REJECTED ∧ cr_reviewer_id reviewed = Some reviewer ∧
    cr_review_message reviewed = Some message ∧ cr_approved reviewed = None ∧
    requests_ok t' ∧ requests_progress t t' ∧ (∀ k, k ≠ id → t' !! k = t !! k) ∧
    get_request id None t' = Ok reviewed ∧ lock_request id t' = Raise ChangeRequestAlreadyReviewed.
Proof.
  intros Hok Hm Hrej. unfold reject_request in Hrej.
  apply bind_Ok in Hrej as (r & Hlock & Hrej). apply lock_request_Ok in Hlock as (Hr & _).
  apply bind_Ok in Hrej as (original & Horig & Hrej). apply bind_Ok in Hrej as (rev & Hrev & Hrej).
  apply bind_Ok in Hrej as (t1 & Hupd & [= -> ->]).
  destruct (reject_review _ _ _ _ _ _ Horig Hrev Hm) as (Hread & Hreview & Hs & Hv & Hmsg & Ha & _).
  destruct (review_row _ _ _ _ _ _ Hok Hr Hupd Hread) as (? & ? & Hnew & ? & ?).
  exists r, original. split_and!; try done. eapply reviewed_is_locked; [done..|by destruct Hreview].
Qed.
