(* ===== verification/Approvals.v ===== *)
(** * What an approval does to the data

    Whatever the operation, an approval that commits writes one MasterCode
    row, whose references are the ones the approved proposal selects, after
    inserting the Dimensions the proposal asks for; the claims about change
    requests follow. *)

From S2P Require Import Prelude Python Exceptions Uuids Auth MutationAudit Dimensions MasterCodes Store Records Invariant Consistency Pagination DimensionRepos DimensionSpecs DimensionLifecycle MasterCodeRepo MasterCodeSpecs Transactions Commands CommandSpecs UseCases ChangeRequests ChangeRequestRepo ChangeRequestSpecs.
Local Open Scope Z_scope.

(** A Dimension as its row reads, if there is one. *)
Definition reads_as (db : DB) (s : slot) (o : option Dimension) : Prop :=
  match o with
  | None => True
  | Some d => ∃ r, dims db !! (s, dim_id d) = Some r ∧ row_dimension s r = Some d
  end.

(** Rows a transaction has not touched. *)
Definition extends (db db' : DB) : Prop :=
  mcs db' = mcs db ∧ ∀ k r, dims db !! k = Some r → dims db' !! k = Some r.

Lemma reads_as_extends db db' s o : extends db db' → reads_as db s o → reads_as db' s o.
Proof. intros [_ Hd]. destruct o as [d|]; [|done]. intros (r & ? & ?). exists r. auto. Qed.

Lemma extends_refl db : extends db db.
Proof. by split. Qed.
Lemma extends_trans db1 db2 db3 : extends db1 db2 → extends db2 db3 → extends db1 db3.
Proof. intros [H1 H2] [H3 H4]. split; [congruence|auto]. Qed.

(** Dimensions read from their rows are the join of a row that references them. *)
Lemma reads_joined db dims0 m :
  (∀ s, reads_as db s (get_slot dims0 s)) → m_refs m = dimension_ids dims0 → joined_dims db m = dims0.
Proof.
  intros Hreads Hrefs. apply get_slot_ext. intros s. unfold joined_dims. rewrite get_of_slots.
  unfold joined_slot. rewrite Hrefs. unfold dimension_ids. rewrite at_slots_of.
  specialize (Hreads s). destruct (get_slot dims0 s) as [d|]; [|done].
  destruct Hreads as (r & Hr & Hd). cbn. by rewrite Hr.
Qed.

(** A row whose aggregate is valid keeps the database consistent. *)
Lemma valid_row_consistent db m mc :
  db_ok db → (∀ s, reads_as db s (get_slot (mc_dimensions mc) s)) →
  m_refs m = dimension_ids (mc_dimensions mc) → mc_valid mc → m_code m = mc_code mc →
  (m_deleted_at m = None → mc_deleted_at mc = None) →
  m_code m = compose_row db m ∧
  (m_deleted_at m = None → ∀ s r, joined_slot db m s = Some r → r_deleted_at r = None).
Proof.
  intros Hdb Hreads Hrefs Hvalid Hcode Hdel. pose proof (reads_joined db _ m Hreads Hrefs) as Hj.
  split.
  - rewrite Hcode, (mv_code _ Hvalid), <- Hj. apply compose_joined, Hdb.
  - intros Hd s r Hr. pose proof (joined_dims_slot db m s (proj1 Hdb)) as Hs. rewrite Hr in Hs.
    destruct Hs as (d & Hget & Hrow & _). rewrite Hj in Hget.
    pose proof (mv_active _ Hvalid (Hdel Hd) s d Hget) as Hact.
    apply row_dimension_fields in Hrow as (_ & _ & _ & _ & _ & Hdeleted & _).
    unfold row_deleted in Hdeleted. rewrite Hact in Hdeleted. symmetry in Hdeleted.
    by apply negb_false_iff, bool_decide_eq_true in Hdeleted.
Qed.

Section unicode.
Context `{UnicodeData}.

Lemma row_to_domain_reads db s id r d :
  db_ok db → dims db !! (s, id) = Some r → row_to_domain s r = Ok d →
  dim_id d = id ∧ reads_as db s (Some d).
Proof.
  intros Hdb Hr Hd. destruct (stored_domain _ _ _ _ Hdb Hr) as (d' & Hd' & Hrow).
  assert (d' = d) as -> by congruence. pose proof Hrow as Hf. apply row_dimension_fields in Hf as [Hid _].
  destruct (so_dim _ (proj1 Hdb) _ _ _ Hr) as [Hrid _].
  assert (dim_id d = id) as Hdid by congruence. split; [done|]. exists r. by rewrite Hdid.
Qed.

(** *** Inserting a Dimension *)

Lemma create_inline_result env c seen s code value ts db d db' :
  db_ok db → create_inline env c seen s code value ts db = Ok (d, db') →
  db_ok db' ∧ extends db db' ∧ dim_id d = env_dim_id env s ∧ reads_as db' s (Some d) ∧
  logged (cx_metadata c) db db' ∧ dims db !! (s, env_dim_id env s) = None.
Proof.
  intros Hdb Hok. unfold create_inline in Hok. destruct (find_inline_conflicts s code value seen).
  apply bind_Ok in Hok as (_ & _ & Hok). cbv zeta in Hok.
  apply bind_Ok in Hok as (db1 & Hins & Hok). apply bind_Ok in Hok as (d1 & Hd & [= -> ->]).
  pose proof (insert_dimension_db_ok _ _ _ _ _ Hdb Hins) as Hdb'.
  apply insert_dimension_result in Hins as [Hnew Heq]. cbn [r_id] in *.
  assert (extends db db') as Hext.
  { rewrite Heq. split; [done|]. intros k r Hr. cbn. rewrite lookup_insert_ne; [done|congruence]. }
  assert (dims db' !! (s, env_dim_id env s) = Some
    (mkDimRow (env_dim_id env s) (code_value code) (value_to_row value) 1 (instant ts) (instant ts) None))
    as Hr by by rewrite Heq; cbn; rewrite lookup_insert_eq.
  destruct (row_to_domain_reads _ _ _ _ _ Hdb' Hr Hd) as [Hid Hreads].
  split_and!; try done. destruct c. eapply (logged_by _ _ _ _ []);
    [by rewrite Heq|by rewrite Heq, app_nil_r|apply insert_logs_metadata|done].
Qed.

Lemma lock_reference_reads s db id o :
  db_ok db → lock_reference s db id = Ok o →
  reads_as db s o ∧ (∀ d, o = Some d → dim_id d = id).
Proof.
  intros Hdb Hok. unfold lock_reference in Hok. destruct (active_row s id db) as [r|] eqn:E.
  - apply active_row_Some in E as [Hr _]. apply bind_Ok in Hok as (d & Hd & [= <-]).
    destruct (row_to_domain_reads _ _ _ _ _ Hdb Hr Hd) as [Hid Hreads]. split; [done|]. by intros ? [= <-].
  - injection Hok as <-. done.
Qed.

(** The identifier a selection stands for. *)
Definition selected_id (env : Env) (s : slot) (x : DimensionSelection) : option UUID :=
  match x with
  | NotApplicable => None
  | ExistingDimension id => Some id
  | InlineDimension _ _ => Some (env_dim_id env s)
  end.

(** *** Creations *)

(** The selection bound to a slot. *)
Definition bound (l : list (slot * DimensionSelection)) (s : slot) : option DimensionSelection :=
  snd <$> find (λ p, bool_decide (p.1 = s)) l.

Lemma bound_cons p l s :
  bound (p :: l) s = if bool_decide (p.1 = s) then Some p.2 else bound l s.
Proof. unfold bound. cbn. by case_bool_decide. Qed.

Lemma bound_None l s : s ∉ l.*1 → bound l s = None.
Proof.
  induction l as [|p l IH]; [done|]. rewrite fmap_cons, not_elem_of_cons. intros [Hne Hs].
  rewrite bound_cons, bool_decide_eq_false_2 by congruence. auto.
Qed.

Lemma apply_create_slot_result env c seen ts st s x st' :
  db_ok (st_db st) → (∀ s, reads_as (st_db st) s (get_slot (st_resolved st) s)) →
  apply_create_slot env c seen ts st (s, x) = Ok st' →
  db_ok (st_db st') ∧ extends (st_db st) (st_db st') ∧ logged (cx_metadata c) (st_db st) (st_db st') ∧
  (∀ s, reads_as (st_db st') s (get_slot (st_resolved st') s)) ∧
  (st_invalid st' = [] → st_invalid st = [] ∧
   ∀ s', dim_id <$> get_slot (st_resolved st') s' =
     if bool_decide (s = s') then selected_id env s x else dim_id <$> get_slot (st_resolved st) s').
Proof.
  intros Hdb Hreads Hok. cbn in Hok.
  assert (∀ d o, extends (st_db st) d → reads_as d s o →
    ∀ s', reads_as d s' (get_slot (set_slot (st_resolved st) s o) s')) as Hset.
  { intros d o Hext Ho s'. rewrite get_set_slot. case_bool_decide as E; [by subst|].
    by eapply reads_as_extends. }
  assert (∀ o i, dim_id <$> o = i → ∀ s', dim_id <$> get_slot (set_slot (st_resolved st) s o) s' =
    if bool_decide (s = s') then i else dim_id <$> get_slot (st_resolved st) s') as Hids.
  { intros o i <- s'. rewrite get_set_slot. by do 2 case_bool_decide; subst. }
  destruct x as [id|code value|].
  - apply bind_Ok in Hok as (o & Ho & [= <-]). cbn.
    destruct (lock_reference_reads _ _ _ _ Hdb Ho) as [Hr Hid].
    split_and!; [done|apply extends_refl|apply logged_refl|apply Hset; [apply extends_refl|done]|].
    intros [Hi Hno]%app_nil. split; [done|]. apply Hids. destruct o as [d|]; [|done]. cbn.
    by rewrite (Hid d).
  - apply bind_Ok in Hok as ([d db'] & Hc & [= <-]). cbn.
    destruct (create_inline_result _ _ _ _ _ _ _ _ _ _ Hdb Hc) as (? & Hext & Hid & Hr & ? & _).
    split_and!; [done..|by apply Hset|]. intros Hi. split; [done|]. apply Hids. cbn. by rewrite Hid.
  - injection Hok as <-. cbn.
    split_and!; [done|apply extends_refl|apply logged_refl|apply Hset; [apply extends_refl|done]|].
    intros Hi. split; [done|]. by apply Hids.
Qed.

Lemma apply_create_loop env c seen ts l st st' :
  NoDup l.*1 → db_ok (st_db st) → (∀ s, reads_as (st_db st) s (get_slot (st_resolved st) s)) →
  foldR (apply_create_slot env c seen ts) st l = Ok st' →
  db_ok (st_db st') ∧ extends (st_db st) (st_db st') ∧ logged (cx_metadata c) (st_db st) (st_db st') ∧
  (∀ s, reads_as (st_db st') s (get_slot (st_resolved st') s)) ∧
  (st_invalid st' = [] → st_invalid st = [] ∧
   ∀ s, dim_id <$> get_slot (st_resolved st') s =
     match bound l s with
     | Some x => selected_id env s x
     | None => dim_id <$> get_slot (st_resolved st) s
     end).
Proof.
  revert st. induction l as [|[s x] l IH]; intros st Hnd Hdb Hreads Hok; cbn in Hok.
  - injection Hok as <-. split_and!; [done|apply extends_refl|apply logged_refl|done|done].
  - apply bind_Ok in Hok as (st1 & H1 & Hok). apply NoDup_cons in Hnd as [Hs Hnd].
    destruct (apply_create_slot_result _ _ _ _ _ _ _ _ Hdb Hreads H1) as (Hdb1 & He1 & Hl1 & Hr1 & Hi1).
    destruct (IH st1 Hnd Hdb1 Hr1 Hok) as (Hdb' & He & Hl & Hr & Hi).
    split_and!; [done|by eapply extends_trans|by eapply logged_trans|done|].
    intros Hinv. destruct (Hi Hinv) as [Hinv1 Hids]. destruct (Hi1 Hinv1) as [Hinv0 Hids1].
    split; [done|]. intros s'. rewrite Hids, Hids1, bound_cons. cbn [fst snd].
    case_bool_decide as E; [|done]. subst s'. by rewrite bound_None.
Qed.

(** What the operations have in common: one MasterCode row is written. *)
Record applied (env : Env) (md : MutationAuditMetadata) (plan : ApprovalPlan) (db db' : DB) (id : UUID)
    (before : option McRow) (row : McRow) : Prop := {
  ad_db : db_ok db';
  ad_logged : logged md db db';
  ad_dims : ∀ k r, dims db !! k = Some r → dims db' !! k = Some r;
  ad_before : mcs db !! id = before;
  ad_row : mcs db' = <[id := row]> (mcs db);
  ad_deleted : m_deleted_at row = None ↔ cp_operation (ap_proposal plan) ≠ OP_DELETE;
  ad_refs : ∀ s, at_slot (m_refs row) s =
    match change_of plan s with
    | Some x => selected_id env s x
    | None => before ≫= λ m, at_slot (m_refs m) s
    end;
}.

Lemma apply_create_result env seen db plan mc db' :
  db_ok db → NoDup (ap_validated plan).*1 → cp_operation (ap_proposal plan) = OP_CREATE →
  apply_create env seen db plan = Ok (mc, db') →
  ∃ row, applied env (ap_audit plan) plan db db' (env_mc_id env) None row ∧ m_version row = 1 ∧
    mc = mc_of row (joined_dims db' row).
Proof.
  intros Hdb Hnd Hop Hok. unfold apply_create in Hok. cbn [set_context raise_if mbind result_bind] in Hok.
  cbv zeta in Hok. cbn [fst snd] in Hok.
  apply bind_Ok in Hok as (st & Hloop & Hok).
  apply apply_create_loop in Hloop as (Hdb1 & [Hmcs Hdims] & Hlog & Hreads & Hids);
    [|done|done|intros []; done].
  apply bind_Ok in Hok as (_ & Hinv%raise_if_Ok%negb_false_iff%bool_decide_eq_true & Hok).
  destruct (Hids Hinv) as [_ Hrefs]. clear Hids. cbn [st_db] in *.
  apply bind_Ok in Hok as (dims0 & [-> _]%MasterCodeDimensions_init_Ok & Hok).
  apply bind_Ok in Hok as (_ & _ & Hok). apply bind_Ok in Hok as (db2 & Hins & Hok).
  apply bind_Ok in Hok as (mc' & [-> Hvalid]%MasterCode_init_Ok & [= <- <-]).
  set (row := mkMcRow (env_mc_id env) _ _ 1 _ _ None) in *.
  destruct (valid_row_consistent (st_db st) row (mc_of row (st_resolved st)) Hdb1 Hreads eq_refl Hvalid eq_refl)
    as [Hcode Hact]; [done|].
  pose proof (insert_mc_db_ok _ _ _ _ Hdb1 Hins Hcode Hact) as Hdb2.
  apply insert_master_code_result in Hins as [Hnew Heq]. cbn [m_id row] in Hnew.
  exists row. split; [|split; [done|]].
  - split; [done| |by rewrite Heq|by rewrite <- Hmcs|by rewrite Heq, Hmcs| |].
    + eapply logged_trans; [exact Hlog|]. eapply (logged_by _ _ _ []);
        [by rewrite Heq, app_nil_r|by rewrite Heq|done|by repeat constructor].
    + by rewrite Hop.
    + intros s. cbn [row m_refs]. unfold dimension_ids. rewrite at_slots_of, Hrefs.
      unfold change_of, bound. by destruct (find _ _); [|destruct s].
  - rewrite (joined_dims_ext (st_db st) db2) by by rewrite Heq.
    by rewrite (reads_joined (st_db st) (st_resolved st) row).
Qed.

(** *** Locking a target *)

Lemma assoc_elem {A} i (l : list (UUID * A)) x : assoc i l = Some x → (i, x) ∈ l.
Proof.
  unfold assoc. intros ([j y] & Hf & ->)%fmap_Some. apply find_some in Hf as [Hin Hj].
  apply Z.eqb_eq in Hj. cbn in Hj. subst j. by apply list_elem_of_In.
Qed.

Lemma lock_rows_read s current change db locked i d :
  db_ok db → lock_rows s current change db = Ok locked → assoc i locked = Some d →
  dim_id d = i ∧ reads_as db s (Some d).
Proof.
  intros Hdb Hok Hi%assoc_elem. unfold lock_rows in Hok. apply mapR_Ok in Hok.
  apply list_elem_of_lookup_1 in Hi as [n Hn].
  destruct (Forall2_lookup_r _ _ _ _ _ Hok Hn) as (r & Hr & Hd).
  apply bind_Ok in Hd as (d' & Hd & [= <- <-]).
  apply list_elem_of_lookup_2, list_elem_of_omap in Hr as (j & _ & Hj).
  destruct (so_dim _ (proj1 Hdb) _ _ _ Hj) as [<- _]. by eapply row_to_domain_reads.
Qed.

(** Where the loop stands: the processed slots are read from their rows. *)
Record target_reads (env : Env) (md : MutationAuditMetadata) (initial : MasterCode) (plan : ApprovalPlan)
    (db : DB) (processed : list slot) (st : TargetState) : Prop := {
  tr_db : db_ok (ts_db st);
  tr_extends : extends db (ts_db st);
  tr_logged : logged md db (ts_db st);
  tr_current : ∀ s, reads_as (ts_db st) s (get_slot (ts_current st) s);
  tr_resolved : ∀ s, reads_as (ts_db st) s (get_slot (ts_resolved st) s);
  tr_current_ids : ∀ s, s ∈ processed →
    dim_id <$> get_slot (ts_current st) s = dim_id <$> get_slot (mc_dimensions initial) s;
  tr_resolved_ids : ts_invalid st = [] → ∀ s, s ∈ processed →
    dim_id <$> get_slot (ts_resolved st) s =
      match change_of plan s with
      | Some x => selected_id env s x
      | None => dim_id <$> get_slot (mc_dimensions initial) s
      end;
}.

Lemma target_reads_advance env md initial plan db processed st s db' current resolved invalid :
  target_reads env md initial plan db processed st →
  db_ok db' → extends (ts_db st) db' → logged md (ts_db st) db' →
  reads_as db' s current → reads_as db' s resolved →
  dim_id <$> current = dim_id <$> get_slot (mc_dimensions initial) s →
  (invalid = [] → dim_id <$> resolved =
     match change_of plan s with
     | Some x => selected_id env s x
     | None => dim_id <$> get_slot (mc_dimensions initial) s
     end) →
  target_reads env md initial plan db (s :: processed)
    (mkTargetState db' (set_slot (ts_current st) s current) (set_slot (ts_resolved st) s resolved)
       (ts_invalid st ++ invalid)).
Proof.
  intros [Hd He Hl Hc Hr Hci Hri] Hdb' Hext Hlog Hcur Hres Hcid Hrid.
  split; cbn; [done|by eapply extends_trans|by eapply logged_trans| | | |].
  - intros s'. rewrite get_set_slot. case_bool_decide as E; [by subst|]. by eapply reads_as_extends.
  - intros s'. rewrite get_set_slot. case_bool_decide as E; [by subst|]. by eapply reads_as_extends.
  - intros s' Hs'. rewrite get_set_slot. case_bool_decide as E; [by subst|]. apply Hci. set_solver.
  - intros [Hi1 Hi2]%app_nil s' Hs'. rewrite get_set_slot. case_bool_decide as E; [subst; auto|].
    apply Hri; [done|set_solver].
Qed.

Lemma lock_target_slot_reads env md initial plan db context seen processed st s st' :
  (∀ c ts, context = Some (c, ts) → cx_metadata c = md) →
  target_reads env md initial plan db processed st →
  lock_target_slot env context seen initial plan st s = Ok st' →
  target_reads env md initial plan db (s :: processed) st'.
Proof.
  intros Hcx Hinv Hok. pose proof (tr_db _ _ _ _ _ _ _ Hinv) as Hdb. unfold lock_target_slot in Hok.
  apply bind_Ok in Hok as (locked & Hlocked & Hok). cbv zeta in Hok.
  set (current_dimension := match get_slot (mc_dimensions initial) s with
    | Some d => assoc (dim_id d) locked | None => None end) in *.
  apply bind_Ok in Hok as (_ & Hstale%raise_if_Ok & Hok).
  assert (reads_as (ts_db st) s current_dimension ∧
    dim_id <$> current_dimension = dim_id <$> get_slot (mc_dimensions initial) s) as [Hcr Hcid].
  { unfold current_dimension in *. destruct (get_slot (mc_dimensions initial) s) as [d0|]; [|done].
    destruct (assoc (dim_id d0) locked) as [d|] eqn:E; [|done].
    destruct (lock_rows_read _ _ _ _ _ _ _ Hdb Hlocked E) as [Hid Hr]. split; [done|].
    cbn [fmap option_fmap option_map]. by rewrite Hid. }
  destruct (change_of plan s) as [[id|code value|]|] eqn:Hchange.
  - injection Hok as <-. eapply target_reads_advance; try done; try apply logged_refl.
    + destruct (assoc id locked) as [d|] eqn:E; [|done].
      by destruct (lock_rows_read _ _ _ _ _ _ _ Hdb Hlocked E).
    + rewrite Hchange. destruct (assoc id locked) as [d|] eqn:E; [|done].
      intros _. cbn. by destruct (lock_rows_read _ _ _ _ _ _ _ Hdb Hlocked E) as [-> _].
  - destruct context as [[c ts]|]; [|done]. apply bind_Ok in Hok as ([d db'] & Hc & [= <-]).
    destruct (create_inline_result _ _ _ _ _ _ _ _ _ _ Hdb Hc) as (? & Hext & Hid & Hr & Hlog & _).
    rewrite (Hcx _ _ eq_refl) in Hlog.
    eapply target_reads_advance; try done; [by eapply reads_as_extends|].
    intros _. rewrite Hchange. cbn. by rewrite Hid.
  - injection Hok as <-. eapply target_reads_advance; try done; [apply logged_refl|].
    by rewrite Hchange.
  - injection Hok as <-. eapply target_reads_advance; try done; [apply logged_refl|].
    by rewrite Hchange.
Qed.

Lemma lock_target_loop env md initial plan db context seen l processed st st' :
  (∀ c ts, context = Some (c, ts) → cx_metadata c = md) →
  target_reads env md initial plan db processed st →
  foldR (lock_target_slot env context seen initial plan) st l = Ok st' →
  target_reads env md initial plan db (rev l ++ processed) st'.
Proof.
  intros Hcx. revert processed st. induction l as [|s l IH]; intros processed st Hinv Hok; cbn in Hok.
  - by injection Hok as <-.
  - apply bind_Ok in Hok as (st1 & H1 & Hok). cbn. rewrite <- (assoc_L (++)).
    eapply IH; [|exact Hok]. by eapply lock_target_slot_reads.
Qed.

(** Every slot has been processed after the loop. *)
Lemma ORDER_processed s : s ∈ rev ORDER ++ [].
Proof. apply elem_of_app. left. apply list_elem_of_In, in_rev. rewrite rev_involutive. destruct s; cbn; tauto. Qed.

Lemma joined_dims_extends db db' id m :
  store_ok db → mcs db !! id = Some m → extends db db' → joined_dims db' m = joined_dims db m.
Proof.
  intros Hok Hm [_ Hd]. apply get_slot_ext. intros s. unfold joined_dims. rewrite !get_of_slots.
  unfold joined_slot. destruct (at_slot (m_refs m) s) as [ref|] eqn:E; [|done].
  destruct (so_fk _ Hok _ _ _ _ Hm E) as [r Hr]. cbn. by rewrite Hr, (Hd _ _ Hr).
Qed.

(** What the locked target is. *)
Record target_locked (env : Env) (db : DB) (plan : ApprovalPlan) (t : LockedTarget) : Prop := {
  tl_db : db_ok (lt_db t);
  tl_extends : extends db (lt_db t);
  tl_logged : logged (ap_audit plan) db (lt_db t);
  tl_target : cp_target_id (ap_proposal plan) = Some (m_id (lt_record t));
  tl_record : mcs db !! m_id (lt_record t) = Some (lt_record t);
  tl_current : lt_current t = mc_of (lt_record t) (joined_dims db (lt_record t));
  tl_valid : mc_valid (lt_current t);
  tl_etag : Some (etag (lt_current t)) = cp_expected_etag (ap_proposal plan);
  tl_refs : m_refs (lt_record t) = dimension_ids (mc_dimensions (lt_current t));
  tl_reads : ∀ s, reads_as (lt_db t) s (get_slot (mc_dimensions (lt_current t)) s);
  tl_next : ∀ s, reads_as (lt_db t) s (get_slot (lt_next t) s);
  tl_next_ids : ∀ s, dim_id <$> get_slot (lt_next t) s =
    match change_of plan s with
    | Some x => selected_id env s x
    | None => at_slot (m_refs (lt_record t)) s
    end;
  tl_context : ∀ c ts, lt_context t = Some (c, ts) → cx_metadata c = ap_audit plan;
}.

Lemma lock_target_result env seen db plan t :
  store_ok seen → db_ok db → lock_target env seen db plan = Ok t → target_locked env db plan t.
Proof.
  intros Hseen Hdb Hok. unfold lock_target in Hok.
  apply bind_Ok in Hok as (initial_row & Hrow & Hok). apply bind_Ok in Hok as (initial & _ & Hok).
  apply bind_Ok in Hok as (context & Hctx & Hok). apply bind_Ok in Hok as (st & Hloop & Hok).
  apply bind_Ok in Hok as (_ & Hinv%raise_if_Ok%negb_false_iff%bool_decide_eq_true & Hok).
  apply bind_Ok in Hok as (record & Hrecord & Hok).
  apply bind_Ok in Hok as (cur & [-> _]%MasterCodeDimensions_init_Ok & Hok).
  apply bind_Ok in Hok as (current & [-> Hvalid]%MasterCode_init_Ok & Hok).
  apply bind_Ok in Hok as (_ & Htag%raise_if_Ok%negb_false_iff%bool_decide_eq_true & Hok).
  apply bind_Ok in Hok as (next & [-> _]%MasterCodeDimensions_init_Ok & [= <-]).
  assert (∀ c ts, context = Some (c, ts) → cx_metadata c = ap_audit plan) as Hcx.
  { intros c ts ->. destruct (existsb _ _); [|done]. apply bind_Ok in Hctx as (x & Hx & [= ->]).
    apply bind_Ok in Hx as (_ & _ & [= <- _]). done. }
  apply (lock_target_loop env (ap_audit plan) initial plan db context seen ORDER []) in Hloop
    as [Hdb' Hext Hlog Hcr Hnr Hcids Hnids]; [|done|].
  2: { split; cbn; try done; [apply logged_refl|by intros []|by intros []|set_solver..]. }
  specialize (Hnids Hinv). cbn [ts_db] in *.
  destruct (mcs (ts_db st) !! m_id initial_row) as [record'|] eqn:Er; [|done].
  apply bind_Ok in Hrecord as (_ & Hsame%raise_if_Ok%negb_false_iff & [= ->]).
  apply andb_true_iff in Hsame as [_ Hrefs%bool_decide_eq_true].
  assert (m_id record = m_id initial_row) as Hid by by destruct (so_mc _ (proj1 Hdb') _ _ Er).
  rewrite <- Hid in Er.
  assert (m_refs record = dimension_ids (ts_current st)) as Hcur.
  { rewrite Hrefs. unfold dimension_ids, slots_of.
    f_equal; symmetry; (apply (Hcids _); apply ORDER_processed). }
  assert (mcs db !! m_id record = Some record) as Hmc by by rewrite <- (proj1 Hext).
  split; cbn; try done.
  - destruct (cp_target_id (ap_proposal plan)) as [u|]; [|done]. cbn in Hrow.
    destruct (mcs seen !! u) as [m|] eqn:E; [|done]. injection Hrow as ->.
    destruct (so_mc _ Hseen _ _ E) as [<- _]. by rewrite Hid.
  - rewrite <- (joined_dims_extends db (ts_db st) (m_id record) record (proj1 Hdb) Hmc Hext).
    by rewrite (reads_joined _ _ _ Hcr Hcur).
  - intros s. rewrite (Hnids s) by apply ORDER_processed. destruct (change_of plan s); [done|].
    by rewrite Hrefs; unfold dimension_ids; rewrite at_slots_of.
Qed.

(** What the aggregate's operations give an approval. *)
Lemma target_updated operation current next ts updated :
  mc_valid current →
  match operation with
  | OP_DELETE => MasterCode_delete current ts
  | OP_RESTORE => MasterCode_restore current ts
  | _ => MasterCodes.update_references current next ts
  end = Ok updated →
  mc_version updated = mc_version current ∨
  mc_valid updated ∧ (mc_deleted_at updated = None ↔ operation ≠ OP_DELETE) ∧
  mc_dimensions updated =
    match operation with OP_DELETE | OP_RESTORE => mc_dimensions current | _ => next end.
Proof.
  intros Hvalid Hok.
  assert (operation ≠ OP_DELETE → operation ≠ OP_RESTORE →
    MasterCodes.update_references current next ts = Ok updated →
    mc_version updated = mc_version current ∨
    mc_valid updated ∧ mc_deleted_at updated = None ∧ mc_dimensions updated = next) as Hupd.
  { intros _ _ H1. unfold MasterCodes.update_references in H1. apply bind_Ok in H1 as (_ & _ & H1).
    destruct (bool_decide _); [left; congruence|right].
    do 2 apply bind_Ok in H1 as (_ & _ & H1). by apply MasterCode_init_Ok in H1 as [-> ?]. }
  destruct operation; [destruct Hupd as [?|(? & ? & ?)]; auto; naive_solver
    |destruct Hupd as [?|(? & ? & ?)]; auto; naive_solver|right..].
  - do 2 apply bind_Ok in Hok as (_ & _ & Hok). by apply MasterCode_init_Ok in Hok as [-> ?].
  - do 2 apply bind_Ok in Hok as (_ & _ & Hok). by apply MasterCode_init_Ok in Hok as [-> ?].
Qed.

(** *** Applying the proposal *)

Lemma apply_target_result env seen db plan mc db' :
  store_ok seen → db_ok db → cp_operation (ap_proposal plan) ≠ OP_CREATE →
  (cp_operation (ap_proposal plan) = OP_DELETE → ap_validated plan = []) →
  apply_target env seen db plan = Ok (mc, db') →
  ∃ old row, applied env (ap_audit plan) plan db db' (m_id old) (Some old) row ∧
    cp_target_id (ap_proposal plan) = Some (m_id old) ∧ m_version row = m_version old + 1 ∧
    Some (etag (mc_of old (joined_dims db old))) = cp_expected_etag (ap_proposal plan).
Proof.
  intros Hseen Hdb Hop Hdelete Hok. unfold apply_target in Hok.
  apply bind_Ok in Hok as (t & Ht & Hok). cbv zeta in Hok.
  apply lock_target_result in Ht as [Hdb1 Hext Hlog Htarget Hold Hcur Hval Htag Hrefs Hreads Hnext Hids Hcx];
    [|done|done].
  apply bind_Ok in Hok as ([] & Hcheck & Hok). apply bind_Ok in Hok as ([c ts] & Hctx & Hok).
  apply bind_Ok in Hok as (updated & Hupd & Hok). apply bind_Ok in Hok as (db2 & Hwrite & [= <- <-]).
  cbn [fst snd] in *.
  assert (cx_metadata c = ap_audit plan) as Hc.
  { destruct (lt_context t) as [[c' ts']|]; [injection Hctx as -> ->; by eapply Hcx|].
    by apply bind_Ok in Hctx as (_ & _ & [= <- _]). }
  set (operation := cp_operation (ap_proposal plan)) in *.
  set (row := mkMcRow _ _ _ _ _ _ _) in *.
  pose proof Hwrite as Hres. apply update_master_code_result in Hres as (_ & Hv & Heq).
  destruct (target_updated _ _ _ _ _ Hval Hupd) as [Hbad|(Hvalid & Hdel & Hdims)].
  { cbn [row m_version] in Hv. rewrite Hbad, Hcur in Hv. cbn in Hv. lia. }
  assert (m_refs row = dimension_ids (mc_dimensions updated)) as Hrow.
  { cbn [row m_refs]. rewrite Hdims. by destruct operation. }
  assert (∀ s, reads_as (lt_db t) s (get_slot (mc_dimensions updated) s)) as Hur.
  { intros s. rewrite Hdims. by destruct operation. }
  destruct (valid_row_consistent (lt_db t) row updated Hdb1 Hur Hrow Hvalid eq_refl) as [Hcode Hact].
  { cbn [row m_deleted_at]. by destruct (mc_deleted_at updated). }
  destruct Hext as [Hmcs Hext].
  pose proof (update_mc_db_ok _ _ _ _ _ Hdb1 ltac:(by rewrite Hmcs) Hwrite Hcode Hact) as Hdb2.
  exists (lt_record t), row. split; [|by rewrite <- Hcur].
  split; [done| |rewrite Heq; exact Hext|done|by rewrite Heq; cbn; rewrite Hmcs| |].
  - eapply logged_trans; [exact Hlog|]. eapply (logged_by _ _ _ []);
      [by rewrite Heq, app_nil_r|by rewrite Heq|done|by repeat constructor].
  - transitivity (mc_deleted_at updated = None); [|exact Hdel]. cbn [row m_deleted_at]. by destruct (mc_deleted_at updated).
  - intros s. specialize (Hids s). cbn [option_bind mbind]. rewrite Hrow, Hdims. unfold dimension_ids.
    rewrite at_slots_of. unfold check_target in Hcheck.
    destruct operation; [done|by rewrite Hids| |].
    + unfold change_of. rewrite (Hdelete eq_refl). cbn. rewrite Hrefs. unfold dimension_ids.
      by rewrite at_slots_of.
    + apply bind_Ok in Hcheck as (_ & _ & Hcheck).
      apply bind_Ok in Hcheck as (_ & Hsame%raise_if_Ok%negb_false_iff%bool_decide_eq_true & _).
      rewrite <- Hids. apply (f_equal (λ x, at_slot x s)) in Hsame. unfold dimension_ids in Hsame.
      by rewrite !at_slots_of in Hsame.
Qed.

Lemma apply_plan_result env seen db plan mc db' :
  store_ok seen → db_ok db → NoDup (ap_validated plan).*1 →
  (cp_operation (ap_proposal plan) = OP_DELETE → ap_validated plan = []) →
  apply_plan env seen db plan = Ok (mc, db') →
  ∃ id before row, applied env (ap_audit plan) plan db db' id before row ∧
    match before with
    | None => cp_operation (ap_proposal plan) = OP_CREATE ∧ id = env_mc_id env ∧ m_version row = 1
    | Some old => cp_operation (ap_proposal plan) ≠ OP_CREATE ∧
        cp_target_id (ap_proposal plan) = Some id ∧ m_id old = id ∧
        m_version row = m_version old + 1 ∧
        Some (etag (mc_of old (joined_dims db old))) = cp_expected_etag (ap_proposal plan)
    end.
Proof.
  intros Hseen Hdb Hnd Hdelete Hok. unfold apply_plan in Hok.
  case_bool_decide as Hop.
  - destruct (apply_create_result _ _ _ _ _ _ Hdb Hnd Hop Hok) as (row & ? & ? & _).
    by exists (env_mc_id env), None, row.
  - destruct (apply_target_result _ _ _ _ _ _ Hseen Hdb Hop Hdelete Hok) as (old & row & ? & ? & ? & ?).
    by exists (m_id old), (Some old), row.
Qed.

(** *** One approval *)

Lemma slots_bound_NoDup {A} (present : slot → bool) (f : slot → A) (l : list slot) :
  NoDup l → NoDup (omap (λ s, if present s then None else Some (s, f s)) l).*1.
Proof.
  intros Hl.
  induction l as [|s l IH]; [constructor|]. apply NoDup_cons in Hl as [Hs Hl]. cbn.
  assert (∀ s, s ∈ (omap (λ s, if present s then None else Some (s, f s)) l).*1 → s ∈ l) as Hin'.
  { clear. intros s ([s' x] & -> & (s0 & Hs & H0)%list_elem_of_omap)%list_elem_of_fmap.
    destruct (present s0); [done|]. by injection H0 as -> _. }
  destruct (present s); [by apply IH|]. rewrite fmap_cons. constructor; [|by apply IH].
  intros Hbad. apply Hs. by apply Hin'.
Qed.

Lemma validate_proposal_slots proposal v :
  validate_proposal proposal = Ok v →
  NoDup v.*1 ∧ (cp_operation proposal = OP_DELETE → v = []).
Proof.
  unfold validate_proposal. intros (_ & _ & Hok)%bind_Ok. case_bool_decide as Hop.
  - injection Hok as <-. split; [constructor|done].
  - do 2 apply bind_Ok in Hok as (? & _ & Hok). do 2 apply bind_Ok in Hok as (_ & _ & Hok).
    apply bind_Ok in Hok as (? & _ & Hok). apply bind_Ok in Hok as (p & _ & Hok).
    apply (f_equal (λ r, match r with Ok x => x | Raise _ => v end)) in Hok. cbv beta iota in Hok.
    rewrite <- Hok. split; [|done]. apply (slots_bound_NoDup (λ s, absent (dict_get (py (slot_name s)) _)) (at_slot p)), ORDER_NoDup.
Qed.

Lemma authorize_review p q :
  authorize p REVIEW_CHANGE_REQUEST = Ok q → q = p ∧ principal_role p ≠ USER.
Proof. intros [-> Ha]%authorize_Ok. split; [done|]. intros Hr. rewrite Hr in Ha. cbn in Ha. set_solver. Qed.

Lemma prepare_approval_Ok cs p approved message request plan :
  prepare_approval cs p approved message request = Ok plan →
  ap_proposal plan = default (cr_original request) approved ∧ ap_message plan = message ∧
  NoDup (ap_validated plan).*1 ∧
  (cp_operation (ap_proposal plan) = OP_DELETE → ap_validated plan = []) ∧
  validate_proposal (ap_proposal plan) = Ok (ap_validated plan) ∧
  names_principal cs p message (ap_audit plan).
Proof.
  unfold prepare_approval. intros (_ & _ & Hok)%bind_Ok. cbv zeta in Hok.
  apply bind_Ok in Hok as (_ & _ & Hok). apply bind_Ok in Hok as (v & Hv & Hok).
  apply bind_Ok in Hok as (audit & Ha & [= <-]). cbn. split_and!; try done.
  1,2: by apply validate_proposal_slots in Hv as [? ?].
  unfold audit_create, MutationOperations_init, MutationAuditMetadata_init in Ha.
  apply bind_Ok in Ha as (ops & (_ & _ & [= <-])%bind_Ok & Ha).
  apply bind_Ok in Ha as (_ & Hv7%raise_if_Ok%negb_false_iff%bool_decide_eq_true & Ha).
  by apply bind_Ok in Ha as (r & Hr & [= <-]).
Qed.

(** Everything a committed approval did. *)
Record approval (env : Env) (cs : UUID) (p : HumanPrincipal) (id : UUID) (message : option pystr)
    (proposal : ChangeProposal) (st st' : RDB) (original reviewed : ChangeRequest) (plan : ApprovalPlan)
    (mc_id : UUID) (before : option McRow) (row : McRow) : Prop := {
  apv_original : lock_request id (rd_requests st) ≫= request_of = Ok original;
  apv_proposal : ap_proposal plan = proposal;
  apv_validated : validate_proposal proposal = Ok (ap_validated plan);
  apv_metadata : names_principal cs p message (ap_audit plan);
  apv_applied : applied env (ap_audit plan) plan (rd_db st) (rd_db st') mc_id before row;
  apv_target :
    match before with
    | None => cp_operation proposal = OP_CREATE ∧ mc_id = env_mc_id env ∧ m_version row = 1
    | Some old => cp_operation proposal ≠ OP_CREATE ∧ cp_target_id proposal = Some mc_id ∧ m_id old = mc_id ∧
        m_version row = m_version old + 1 ∧
        Some (etag (mc_of old (joined_dims (rd_db st) old))) = cp_expected_etag proposal
    end;
  apv_review : review original reviewed;
  apv_allowed : approval_allowed (cr_original original) proposal;
  apv_status : cr_status reviewed = APPROVED ∧ proposal = cr_original original ∨
    cr_status reviewed = MODIFIED_AND_APPROVED ∧ proposal ≠ cr_original original ∧ message ≠ None;
  apv_reviewed : cr_approved reviewed = Some proposal ∧ cr_reviewer_id reviewed = Some (principal_id p) ∧
    cr_applied_change_set_id reviewed = Some cs ∧ cr_review_message reviewed = message;
  apv_requests : requests_ok (rd_requests st') ∧ requests_progress (rd_requests st) (rd_requests st') ∧
    (∀ k, k ≠ id → rd_requests st' !! k = rd_requests st !! k) ∧
    get_request id None (rd_requests st') = Ok reviewed ∧
    lock_request id (rd_requests st') = Raise ChangeRequestAlreadyReviewed;
}.

Lemma translate_slots_raises {A} slots constraint e plan requery (x : A) :
  translate_slots slots constraint e plan requery ≠ Ok x.
Proof. induction slots as [|s slots IH]; cbn; [done|]. by repeat case_match. Qed.

Lemma translated_Ok {A} (m : res A) plan requery x :
  catch m (translate_integrity_error plan requery) = Ok x → m = Ok x.
Proof.
  intros [Hok|(e & _ & He)]%catch_Ok; [done|]. unfold translate_integrity_error in He.
  destruct e; try done. destruct (_ || _); [done|]. by apply translate_slots_raises in He.
Qed.

Lemma approve_result env seen requery clock cs p id approved message st reviewed st' :
  store_ok seen → db_ok (rd_db st) → requests_ok (rd_requests st) → uuid_ok (principal_id p) →
  message_wf message → (∀ proposal, approved = Some proposal → proposal_wf proposal) →
  approve env seen requery clock cs p id approved message st = Ok (reviewed, st') →
  principal_role p ≠ USER ∧
  ∃ original plan mc_id before row,
    approval env cs p id message (default (cr_original original) approved) st st' original reviewed plan
      mc_id before row.
Proof.
  intros Hseen Hdb Hreq Hu Hm Hwf Hok. unfold approve in Hok.
  apply bind_Ok in Hok as (q & [-> Hrole]%authorize_review & Hok). split; [done|].
  unfold approve_request in Hok. apply bind_Ok in Hok as (r & Hlock & Hok).
  pose proof Hlock as (Hr & _)%lock_request_Ok.
  apply bind_Ok in Hok as (original & Horig & Hok). apply bind_Ok in Hok as (plan & Hplan & Hok).
  apply prepare_approval_Ok in Hplan as (Hprop & Hmsg & Hnd & Hdel & Hval & Hmd).
  apply translated_Ok in Hok. apply bind_Ok in Hok as ([mc db'] & Happly & Hok).
  apply bind_Ok in Hok as (rid & Hrid & Hok). apply bind_Ok in Hok as (rev & Hrev & Hok).
  apply bind_Ok in Hok as (t' & Hupd & [= -> <-]). cbn [rd_db rd_requests].
  assert (rid = principal_id p) as ->.
  { destruct Hmd as (_ & _ & Hactor & _). unfold actor_uuid in Hrid. rewrite Hactor in Hrid.
    cbn [AuditActor_human actor_id] in Hrid. rewrite (parse_UUID_str _ Hu) in Hrid. by injection Hrid. }
  pose proof (request_of_fields _ _ Horig) as (_ & Hpo & _).
  assert (proposal_wf (ap_proposal plan)) as Hpwf.
  { rewrite Hprop. destruct approved as [a|]; [by apply Hwf|]. by eapply proposal_of_wf. }
  rewrite Hmsg in Hrev.
  destruct (approve_review _ _ _ _ _ _ _ _ Horig Hrev Hpwf Hm)
    as (Hread & Hreview & Ha & Hrv & Hcs & Hrm & Hallow & Hstatus).
  destruct (review_row _ _ _ _ _ _ Hreq Hr Hupd Hread) as (? & ? & Hnew & ? & ?).
  destruct (apply_plan_result _ _ _ _ _ _ Hseen Hdb Hnd Hdel Happly) as (mid & before & row & Happlied & Hbefore).
  exists original, plan, mid, before, row. rewrite <- Hprop.
  split; try done.
  - rewrite Hlock. done.
  - destruct Hmd as (<- & _). done.
  - split_and!; try done. eapply reviewed_is_locked; [done..|by destruct Hreview].
Qed.
End unicode.
