(* ===== verification/Reviews.v ===== *)
(** * The claims about change requests

    The whole data side as one state machine: commands, submissions, approvals
    and rejections over the tables of [Store] and the table of requests.  Its
    invariant, what an approval applies, and that a review is final. *)

From S2P Require Import Prelude Python Exceptions Uuids Auth MutationAudit Dimensions MasterCodes Store Records Invariant Consistency Pagination DimensionRepos DimensionSpecs DimensionLifecycle MasterCodeRepo MasterCodeSpecs Transactions Commands CommandSpecs UseCases ChangeRequests ChangeRequestRepo ChangeRequestSpecs Approvals.
Local Open Scope Z_scope.

(** The tables a consistent history leaves. *)
Definition system_ok (st : RDB) : Prop := db_ok (rd_db st) ∧ requests_ok (rd_requests st).

(** Log entries are appended only. *)
Definition logs_extend (db db' : DB) : Prop :=
  dim_logs db `prefix_of` dim_logs db' ∧ mc_logs db `prefix_of` mc_logs db'.

Lemma logged_extend md db db' : logged md db db' → logs_extend db db'.
Proof. intros (dl & ml & Hd & Hm & _). split; by eexists. Qed.

Lemma logs_extend_refl db : logs_extend db db.
Proof. by split. Qed.
Lemma logs_extend_trans db1 db2 db3 : logs_extend db1 db2 → logs_extend db2 db3 → logs_extend db1 db3.
Proof. intros [? ?] [? ?]. split; by etrans. Qed.

(** The proposal and the message of a review come from their constructors. *)
Record review_input (p : HumanPrincipal) (proposal : option ChangeProposal) (message : option pystr)
    : Prop := {
  ri_reviewer : uuid_ok (principal_id p);
  ri_proposal : ∀ x, proposal = Some x → proposal_wf x;
  ri_message : message_wf message;
}.

Section unicode.
Context `{UnicodeData}.

(** One transaction of the system. *)
Inductive system_step (st : RDB) : RDB → Prop :=
| step_command rq c r db' :
    served (rq_env rq) (rq_seen rq) (rd_db st) → command_wf c →
    execute rq c (rd_db st) = Ok (r, db') →
    system_step st (mkRDB db' (rd_requests st))
| step_submit id now p proposal reason request st' :
    submit id now p proposal reason st = Ok (request, st') → system_step st st'
| step_approve env seen requery clock cs p id proposal message reviewed st' :
    db_ok seen → review_input p proposal message →
    approve env seen requery clock cs p id proposal message st = Ok (reviewed, st') →
    system_step st st'
| step_reject clock p id message reviewed st' :
    review_input p None (Some message) →
    reject clock p id message st = Ok (reviewed, st') → system_step st st'.

Lemma submit_result id now p proposal reason st request st' :
  requests_ok (rd_requests st) → submit id now p proposal reason st = Ok (request, st') →
  rd_db st' = rd_db st ∧ requests_ok (rd_requests st') ∧
  requests_progress (rd_requests st) (rd_requests st').
Proof.
  intros Hok Hsub. unfold submit in Hsub. apply bind_Ok in Hsub as (r & _ & Hsub).
  apply bind_Ok in Hsub as ([req t'] & Hrow & [= <- <-]).
  by apply submit_request_row in Hrow as (_ & ? & ? & _).
Qed.

Lemma reject_result clock p id message st reviewed st' :
  requests_ok (rd_requests st) → message_wf (Some message) →
  reject clock p id message st = Ok (reviewed, st') →
  rd_db st' = rd_db st ∧ requests_ok (rd_requests st') ∧
  requests_progress (rd_requests st) (rd_requests st') ∧ principal_role p ≠ USER ∧
  cr_status reviewed = REJECTED ∧ cr_reviewer_id reviewed = Some (principal_id p) ∧
  cr_review_message reviewed = Some message ∧
  get_request id None (rd_requests st') = Ok reviewed.
Proof.
  intros Hok Hm Hrej. unfold reject in Hrej. apply bind_Ok in Hrej as (q & [-> Hrole]%authorize_review & Hrej).
  apply bind_Ok in Hrej as ([req t'] & Hrow & [= <- <-]).
  apply reject_request_row in Hrow as (r & o & ? & ? & ? & ? & ? & ? & ? & ? & ? & ? & ? & ?);
    [done|done|by apply Hm].
Qed.

Lemma system_step_keeps st st' :
  system_ok st → system_step st st' →
  system_ok st' ∧ requests_progress (rd_requests st) (rd_requests st') ∧
  logs_extend (rd_db st) (rd_db st').
Proof.
  intros [Hdb Hreq]. destruct 1 as [rq c r db' Hs Hwf Hok|id now p prop reason request st' Hok
    |env seen requery clock cs p id prop message reviewed st' Hseen [Hu Hp Hm] Hok
    |clock p id message reviewed st' [_ _ Hm] Hok].
  - apply execute_spec in Hok as (_ & md & _ & [Hstep Hlog _]); [|done..]. cbn.
    split; [split; [by eapply repo_step_ok|done]|].
    split; [apply requests_progress_refl|by eapply logged_extend].
  - apply submit_result in Hok as (Heq & ? & ?); [|done]. unfold system_ok; rewrite Heq.
    split; [done|]. split; [done|apply logs_extend_refl].
  - eapply approve_result in Hok as (_ & o & plan & mid & before & row & Ha); [|apply Hseen|done..].
    pose proof (apv_applied _ _ _ _ _ _ _ _ _ _ _ _ _ _ Ha) as [Hdb' Hlog _ _ _ _ _].
    destruct (apv_requests _ _ _ _ _ _ _ _ _ _ _ _ _ _ Ha) as (? & ? & _).
    split; [done|]. split; [done|by eapply logged_extend].
  - apply reject_result in Hok as (Heq & ? & ? & _); [|done..]. unfold system_ok; rewrite Heq.
    split; [done|]. split; [done|apply logs_extend_refl].
Qed.

Lemma system_steps_keep st st' :
  system_ok st → rtc system_step st st' →
  system_ok st' ∧ requests_progress (rd_requests st) (rd_requests st') ∧
  logs_extend (rd_db st) (rd_db st').
Proof.
  intros Hok Hrtc. induction Hrtc as [st|st1 st2 st3 Hstep _ IH].
  - split_and!; [done|apply requests_progress_refl|apply logs_extend_refl].
  - destruct (system_step_keeps _ _ Hok Hstep) as (H2 & ? & ?). destruct (IH H2) as (? & ? & ?).
    split_and!; [done|by eapply requests_progress_trans|by eapply logs_extend_trans].
Qed.

(** C7: whatever commands, submissions, approvals and rejections commit, in any
    order, the data stays consistent (every constraint, every code the
    composition of its references, no active MasterCode with a deleted
    Dimension, the logs replaying to the tables), every stored request still
    reads back as a valid domain object, no log entry is lost, and no request
    disappears, changes what was asked, or changes at all once reviewed. *)
Theorem system_invariant (st st' : RDB) :
  system_ok st → rtc system_step st st' →
  db_ok (rd_db st') ∧ requests_ok (rd_requests st') ∧ logs_extend (rd_db st) (rd_db st') ∧
  ∀ id r, rd_requests st !! id = Some r →
    ∃ r', rd_requests st' !! id = Some r' ∧ rw_original r' = rw_original r ∧
      rw_requester_id r' = rw_requester_id r ∧ rw_reason r' = rw_reason r ∧
      (rw_status r ≠ PENDING → r' = r).
Proof.
  intros Hok Hrtc. destruct (system_steps_keep _ _ Hok Hrtc) as ([Hdb Hreq] & Hprog & Hlogs).
  split_and!; [done..|]. intros id r Hr. destruct (Hprog _ _ Hr) as (r' & Hr' & Hp).
  exists r'. split; [done|].
  destruct Hp as [->|(Hpend & _ & _ & ? & ? & ? & _)]; [done|]. by split_and!.
Qed.

(** C8: an approval that commits was given by an ADMIN or SUPER_ADMIN; the
    proposal it applies is the modified one or else the original, of the same
    operation and target or a restoration in place of a creation, and valid;
    it writes exactly one MasterCode row, whose references are what the
    proposal selects (an existing Dimension, the one just created, none) and
    otherwise what they were, at the next version of the row whose ETag the
    proposal expected, or at version 1 for a creation; all log entries carry
    the reviewer, the review message and the change set the request records. *)
Theorem approve_applies (env : Env) (seen requery : DB) (clock : Z) (cs : UUID) (p : HumanPrincipal)
    (id : UUID) (approved : option ChangeProposal) (message : option pystr) (st st' : RDB)
    (reviewed : ChangeRequest) :
  db_ok seen → system_ok st → review_input p approved message →
  approve env seen requery clock cs p id approved message st = Ok (reviewed, st') →
  principal_role p ≠ USER ∧
  ∃ original plan mc_id before row,
    let proposal := default (cr_original original) approved in
    lock_request id (rd_requests st) ≫= request_of = Ok original ∧
    approval_allowed (cr_original original) proposal ∧
    validate_proposal proposal = Ok (ap_validated plan) ∧ ap_proposal plan = proposal ∧
    cr_applied_change_set_id reviewed = Some cs ∧
    names_principal cs p message (ap_audit plan) ∧ logged (ap_audit plan) (rd_db st) (rd_db st') ∧
    db_ok (rd_db st') ∧
    mcs (rd_db st) !! mc_id = before ∧ mcs (rd_db st') = <[mc_id := row]> (mcs (rd_db st)) ∧
    (m_deleted_at row = None ↔ cp_operation proposal ≠ OP_DELETE) ∧
    (∀ s, at_slot (m_refs row) s =
       match change_of plan s with
       | Some x => selected_id env s x
       | None => before ≫= λ m, at_slot (m_refs m) s
       end) ∧
    match before with
    | None => cp_operation proposal = OP_CREATE ∧ mc_id = env_mc_id env ∧ m_version row = 1
    | Some old => cp_operation proposal ≠ OP_CREATE ∧ cp_target_id proposal = Some mc_id ∧
        m_version row = m_version old + 1 ∧
        Some (etag (mc_of old (joined_dims (rd_db st) old))) = cp_expected_etag proposal
    end.
Proof.
  intros Hseen [Hdb Hreq] [Hu Hp Hm] Hok.
  eapply approve_result in Hok as (Hrole & o & plan & mid & before & row & Ha); [|apply Hseen|done..].
  destruct Ha as [? Hprop ? ? [? ? ? ? ? Hdeleted ?] Htarget _ ? _ (_ & _ & ? & _) _].
  split; [done|]. exists o, plan, mid, before, row. cbv zeta. rewrite Hprop in Hdeleted.
  split_and!; try done. destruct before; naive_solver.
Qed.

(** C9: a review is final: the request an approval or a rejection returns is
    what everyone reads from then on, whatever the system does later, and any
    later approval or rejection of it is refused; an approval records APPROVED
    exactly when it applied the original proposal, and otherwise
    MODIFIED_AND_APPROVED with a message. *)
Theorem review_final (clock : Z) (p : HumanPrincipal) (id : UUID) (proposal : option ChangeProposal)
    (message : option pystr) (st st1 st2 : RDB) (reviewed : ChangeRequest) :
  system_ok st → review_input p proposal message →
  (∃ env seen requery cs, db_ok seen ∧
     approve env seen requery clock cs p id proposal message st = Ok (reviewed, st1)) ∨
  (∃ text, message = Some text ∧ reject clock p id text st = Ok (reviewed, st1)) →
  rtc system_step st1 st2 →
  get_request id None (rd_requests st2) = Ok reviewed ∧
  cr_reviewer_id reviewed = Some (principal_id p) ∧ cr_review_message reviewed = message ∧
  (cr_status reviewed = REJECTED ∨
   cr_status reviewed = APPROVED ∧ cr_approved reviewed = Some (cr_original reviewed) ∨
   cr_status reviewed = MODIFIED_AND_APPROVED ∧ cr_approved reviewed ≠ Some (cr_original reviewed) ∧
   message ≠ None) ∧
  (∀ env' seen' requery' clock' cs' q proposal' message',
     is_ok (approve env' seen' requery' clock' cs' q id proposal' message' st2) = false) ∧
  (∀ clock' q text, is_ok (reject clock' q id text st2) = false).
Proof.
  intros [Hdb Hreq] [Hu Hp Hm] Hreview Hrtc.
  assert (∃ r, rd_requests st1 !! id = Some r ∧ request_of r = Ok reviewed ∧ rw_status r ≠ PENDING ∧
    system_ok st1 ∧ cr_reviewer_id reviewed = Some (principal_id p) ∧ cr_review_message reviewed = message ∧
    (cr_status reviewed = REJECTED ∨
     cr_status reviewed = APPROVED ∧ cr_approved reviewed = Some (cr_original reviewed) ∨
     cr_status reviewed = MODIFIED_AND_APPROVED ∧ cr_approved reviewed ≠ Some (cr_original reviewed) ∧
     message ≠ None)) as (r & Hr & Hread & Hstatus & Hok1 & Hrev & Hmsg & Hkind).
  { assert (∀ st', get_request id None (rd_requests st') = Ok reviewed → cr_status reviewed ≠ PENDING →
      ∃ r, rd_requests st' !! id = Some r ∧ request_of r = Ok reviewed ∧ rw_status r ≠ PENDING) as Hrow.
    { intros st'. unfold get_request. destruct (rd_requests st' !! id) as [r|]; [|done]. intros Hget Hs.
      exists r. split_and!; [done..|]. apply request_of_fields in Hget as (_ & _ & _ & _ & _ & _ & <- & _). done. }
    destruct Hreview as [(env & seen & requery & cs & Hseen & Hok)|(text & -> & Hok)].
    - eapply approve_result in Hok as (_ & o & plan & mid & before & row & Ha); [|apply Hseen|done..].
      destruct Ha as [_ _ _ _ [Hdb' _ _ _ _ _ _] _ Hrv _ Hst (Happ & Hvid & _ & Hmess) (Hreq' & _ & _ & Hget & _)].
      destruct (Hrow st1 Hget) as (r & ? & ? & ?); [by destruct Hrv|].
      exists r. split_and!; try done. right. rewrite (rv_original _ _ Hrv), Happ.
      destruct Hst as [[-> ->]|(-> & Hne & ?)]; [by left|right]. split_and!; [done|congruence|done].
    - apply reject_result in Hok as (Heq & ? & ? & _ & Hst & ? & ? & Hget); [|done..].
      destruct (Hrow st1 Hget) as (r & ? & ? & ?); [by rewrite Hst|].
      exists r. unfold system_ok. rewrite Heq. split_and!; try done. by left. }
  destruct (system_steps_keep _ _ Hok1 Hrtc) as (_ & Hprog & _).
  destruct (Hprog _ _ Hr) as (r' & Hr2 & [->|[Hpend _]]); [|done].
  assert (cr_status reviewed ≠ PENDING) as Hs
    by (apply request_of_fields in Hread as (_ & _ & _ & _ & _ & _ & -> & _); done).
  pose proof (reviewed_is_locked _ _ _ _ Hr2 Hread Hs) as Hlock.
  split_and!; try done.
  - unfold get_request. by rewrite Hr2.
  - intros. unfold approve, approve_request. rewrite Hlock. by destruct (authorize _ _).
  - intros. unfold reject, reject_request. rewrite Hlock. by destruct (authorize _ _).
Qed.
End unicode.

(** ** Witnesses *)

#[local] Existing Instance ascii_data.

(** A user asks to replace the company of the sample MasterCode. *)
Definition sample_proposal : ChangeProposal :=
  mkChangeProposal OP_REFERENCE_UPDATE (Some 9)
    (Some (ProposalPayload_from_dict
       [(py "dimensions", VDict [(py "company",
           VDict [(py "mode", VStr (py "REFERENCE")); (py "id", VStr (uuid_str 2))])])]))
    (Some sample_etag).
Definition sample_submitted : res (ChangeRequest * RDB) :=
  submit 40 130 (mkHumanPrincipal 6 USER) sample_proposal (Some (py " wrong maker ")) (mkRDB sample_db ∅).
Definition submitted_state : RDB :=
  match sample_submitted with Ok (_, st) => st | Raise _ => mkRDB sample_db ∅ end.
Definition sample_reviewer : HumanPrincipal := mkHumanPrincipal 5 ADMIN.
Definition sample_approval (id : UUID) : res (ChangeRequest * RDB) :=
  approve (sample_env 300 77 88) sample_db sample_db 310 (test_uuid7 3) sample_reviewer id None
    (Some (py "agreed")) submitted_state.
Definition approved_request : ChangeRequest :=
  match sample_approval 40 with
  | Ok (r, _) => r
  | Raise _ => mkChangeRequest 0 sample_proposal 0 (utc 0) None PENDING None None None None None
  end.
Definition approved_state : RDB :=
  match sample_approval 40 with Ok (_, st) => st | Raise _ => submitted_state end.

Lemma sample_approval_Ok :
  approve (sample_env 300 77 88) sample_db sample_db 310 (test_uuid7 3) sample_reviewer 40 None
    (Some (py "agreed")) submitted_state = Ok (approved_request, approved_state).
Proof. vm_compute. reflexivity. Qed.

Lemma system_start_ok : system_ok (mkRDB sample_db ∅).
Proof. split; [apply sample_db_ok|]. intros id r. cbn. by rewrite lookup_empty. Qed.

Lemma sample_submitted_step : system_step (mkRDB sample_db ∅) submitted_state.
Proof.
  assert (∀ m : res (ChangeRequest * RDB), is_ok m = true → ∃ r,
    m = Ok (r, match m with Ok (_, st) => st | Raise _ => mkRDB sample_db ∅ end)) as Hm
    by (intros [[r st]|e]; [by exists r|done]).
  destruct (Hm sample_submitted) as [r Hr]; [vm_compute; reflexivity|].
  fold submitted_state in Hr. unfold sample_submitted in Hr.
  exact (step_submit (mkRDB sample_db ∅) _ _ _ _ _ r _ Hr).
Qed.

Lemma submitted_ok : system_ok submitted_state.
Proof. by apply (system_step_keeps _ _ system_start_ok), sample_submitted_step. Qed.

Lemma sample_review_input : review_input sample_reviewer None (Some (py "agreed")).
Proof. split; [split; vm_compute; congruence|done|]. intros text [= <-]. vm_compute. reflexivity. Qed.

Lemma system_invariant_witness :
  is_Some (rd_requests submitted_state !! (40 : UUID)) ∧
  logs_extend sample_db (rd_db approved_state) ∧ db_ok (rd_db approved_state).
Proof.
  split; [by vm_compute; eexists|].
  destruct (system_invariant (mkRDB sample_db ∅) approved_state system_start_ok)
    as (Hdb & _ & Hlogs & _); [|exact (conj Hlogs Hdb)].
  eapply rtc_l; [apply sample_submitted_step|apply rtc_once].
  exact (step_approve submitted_state _ _ _ _ _ _ _ _ _ _ _ sample_db_ok sample_review_input sample_approval_Ok).
Defined.

Lemma approve_applies_witness :
  cr_status approved_request = APPROVED ∧
  ∃ row, mcs (rd_db approved_state) = <[(9 : UUID) := row]> (mcs sample_db) ∧ m_version row = 2.
Proof.
  split; [vm_compute; reflexivity|].
  destruct (approve_applies (sample_env 300 77 88) sample_db sample_db 310 (test_uuid7 3) sample_reviewer 40
    None (Some (py "agreed")) submitted_state approved_state approved_request sample_db_ok submitted_ok
    sample_review_input sample_approval_Ok) as (_ & o & plan & mc & before & row & Ho & _ & _ & _ & _ & _ & _ &
      _ & Hb & Hmcs & _ & _ & Ht).
  assert (lock_request 40 (rd_requests submitted_state) ≫= request_of = sample_submitted ≫= λ x, Ok x.1) as Hs
    by (vm_compute; reflexivity).
  rewrite Hs in Ho. assert (∀ o', (sample_submitted ≫= λ x, Ok x.1) = Ok o' → cr_original o' = sample_proposal) as Horig
    by (intros o' E; vm_compute in E; injection E as <-; vm_compute; reflexivity).
  rewrite (Horig _ Ho) in Ht. exists row. cbn [default] in Ht.
  destruct before as [old|]; [|destruct Ht as [Ht _]; discriminate Ht].
  destruct Ht as (_ & Htarget & Hv & _). injection Htarget as <-. split; [exact Hmcs|].
  assert (mcs (rd_db submitted_state) !! (9 : UUID) = Some sample_mc) as Hold by (vm_compute; reflexivity).
  rewrite Hold in Hb. injection Hb as <-. exact Hv.
Defined.

Lemma review_final_witness :
  get_request 40 None (rd_requests approved_state) = Ok approved_request ∧
  is_ok (reject 400 sample_reviewer 40 (py "too late") approved_state) = false.
Proof.
  destruct (review_final 310 sample_reviewer 40 None (Some (py "agreed")) submitted_state approved_state
    approved_state approved_request submitted_ok sample_review_input) as (Hget & _ & _ & _ & _ & Hrej);
    [left|apply rtc_refl|exact (conj Hget (Hrej 400 sample_reviewer (py "too late")))].
  exists (sample_env 300 77 88), sample_db, sample_db, (test_uuid7 3).
  split; [exact sample_db_ok|exact sample_approval_Ok].
Defined.
