(* ===== verification/ReviewErrors.v ===== *)
(** * Which exceptions a change request can end in
    ([src/src/mdm/application/change_requests.py],
    [src/src/mdm/infrastructure/repositories/change_requests.py])

    A submission, a read, an approval or a rejection raises one of the
    exceptions that the endpoints translate.  For an approval this means that
    nothing the transaction writes violates a trigger or a constraint other
    than the unique ones, whose violations are translated. *)

From S2P Require Import Prelude Python Exceptions Uuids Auth MutationAudit Dimensions MasterCodes Store Records Invariant Consistency Pagination DimensionRepos DimensionSpecs DimensionLifecycle MasterCodeRepo MasterCodeSpecs Transactions Commands CommandSpecs UseCases ChangeRequests ChangeRequestRepo ChangeRequestSpecs Approvals Reviews.
Local Open Scope Z_scope.

(** ** The exceptions *)

Definition review_error (e : exn) : bool :=
  match e with
  | AuthorizationDenied | ChangeRequestNotFound | ChangeRequestAlreadyReviewed | ChangeRequestNoEffect
  | ChangeRequestStaleTarget | ChangeRequestRestoreMismatch | ChangeRequestValidationError _
  | DimensionValidationError _ _ | MasterCodeNotFound | MasterCodeConflict | MasterCodeNotDeleted
  | MasterCodeReferenceInactive _ | InvalidDimensionReference _ | InlineDimensionConflict _ _ _ => true
  | _ => false
  end.
Abbreviation review_errors := (raises_only (λ e, review_error e = true)).

(** Of a proposal; of a submission; of a request that is read or locked. *)
Definition proposal_error (e : exn) : bool :=
  match e with ChangeRequestValidationError _ | DimensionValidationError _ _ => true | _ => false end.
Definition submission_error (e : exn) : bool :=
  match e with AuthorizationDenied => true | _ => proposal_error e end.
Definition rejection_error (e : exn) : bool :=
  match e with AuthorizationDenied | ChangeRequestNotFound | ChangeRequestAlreadyReviewed => true | _ => false end.
Abbreviation proposal_errors := (raises_only (λ e, proposal_error e = true)).

Lemma proposal_errors_review {A} (m : res A) : proposal_errors m → review_errors m.
Proof. intros Hm. eapply raises_impl; [exact Hm|]. by intros []. Qed.

(** What a transaction raises before its integrity errors are translated. *)
Definition applied_error (e : exn) : Prop :=
  review_error e = true ∨ e = IntegrityError "uq_master_codes_code" ∨
  ∃ s, e = IntegrityError (code_constraint s) ∨ e = IntegrityError (value_constraint s).
Abbreviation applied_errors := (raises_only applied_error).

Lemma review_errors_applied {A} (m : res A) : review_errors m → applied_errors m.
Proof. intros Hm e He. left. by apply Hm. Qed.

Lemma translated_errors {A} (m : res A) plan requery :
  applied_errors m → review_errors (catch m (translate_integrity_error plan requery)).
Proof.
  intros Hm. apply raises_catch. intros e He. destruct (Hm e He) as [Hr|[->|(s & Hs)]].
  - assert (translate_integrity_error (A := A) plan requery e = Raise e) as -> by by destruct e.
    by apply raises_Raise.
  - by apply raises_Raise.
  - assert (∃ by_code : bool, e = IntegrityError (if by_code then code_constraint s else value_constraint s))
      as (b & ->) by (destruct Hs as [->| ->]; [by exists true|by exists false]).
    assert (∀ code_conflict value_conflict,
      review_errors (Raise (InlineDimensionConflict (slot_name s) code_conflict value_conflict) : res A)) as Hc
      by (intros; by apply raises_Raise).
    assert (translate_integrity_error (A := A) plan requery
      (IntegrityError (if b then code_constraint s else value_constraint s)) =
      match at_slot plan s with
      | InlineDimension code value =>
          let '(cc, vc) := find_inline_conflicts s code value requery in
          if cc || vc then Raise (InlineDimensionConflict (slot_name s) cc vc)
          else Raise (InlineDimensionConflict (slot_name s) b (negb b))
      | _ => Raise (InlineDimensionConflict (slot_name s) b (negb b))
      end) as -> by by destruct s, b.
    raises; done.
Qed.

Section unicode.
Context `{UnicodeData}.

(** ** Validation of a proposal *)

Lemma keys_are_get names entries key :
  keys_are names entries = true → key ∈ names → ∃ v, dict_get key entries = Some v.
Proof.
  unfold keys_are. intros [_ Hall%forallb_Forall]%andb_true_iff Hin. rewrite Forall_forall in Hall.
  specialize (Hall key Hin). cbv beta in Hall. destruct (dict_get key entries) as [v|]; [by exists v|done].
Qed.

Lemma proposed_selection_raises operation s value : proposal_errors (proposed_selection operation s value).
Proof.
  unfold proposed_selection. destruct value as [| | | | | |entries]; try by apply raises_Raise.
  cbv zeta. raises; try done.
  all: repeat match goal with Hk : _ && _ = true |- _ => apply andb_true_iff in Hk as [_ Hk] end.
  all: match goal with Hk : keys_are [py "mode"; py "code"; py "value"] _ = true |- _ =>
    destruct (keys_are_get _ _ (py "code") Hk) as [? ?]; [set_solver|];
    destruct (keys_are_get _ _ (py "value") Hk) as [? ?]; [set_solver|] end.
  all: congruence.
Qed.

(** A payload is there unless the proposal deletes. *)
Lemma proposal_wf_payload p : proposal_wf p → cp_operation p ≠ OP_DELETE → ∃ payload, cp_payload p = Some payload.
Proof.
  intros [Hinit _] Hop. unfold ChangeProposal_init in Hinit. apply bind_Ok in Hinit as (_ & _ & Hinit).
  rewrite (bool_decide_eq_false_2 (cp_operation p = OP_DELETE)) in Hinit by done.
  apply bind_Ok in Hinit as (_ & Hpay%raise_if_Ok & _). destruct (cp_payload p) as [payload|]; [by exists payload|done].
Qed.

(** The codes of the inputs are still to be validated. *)
Lemma proposed_selection_wf operation s value x :
  proposed_selection operation s value = Ok x → ∀ c v, x ≠ InlineInput (inr c) v.
Proof.
  unfold proposed_selection. intros Hok c v ->. destruct value as [| | | | | |entries]; try discriminate Hok.
  cbv zeta in Hok. repeat (case_match; try discriminate Hok).
  all: destruct (raise_if _ _); discriminate Hok.
Qed.

(** The selections of a payload, before their normalization. *)
Abbreviation select operation := (λ (selections : MasterCodeCreateInput) '(name, value),
  match slot_of_name name with
  | None => Raise KeyError
  | Some s =>
      selection ← proposed_selection operation s value;
      Ok (slots_of (λ s', if bool_decide (s' = s) then selection else at_slot selections s'))
  end).

Lemma select_spec operation dimensions :
  existsb (λ p : pystr * pyval, absent (slot_of_name p.1)) dimensions = false →
  let m := foldR (select operation) (slots_of (λ _, NotApplicableInput)) dimensions in
  proposal_errors m ∧ ∀ selections, m = Ok selections → input_wf selections.
Proof.
  intros Hknown. apply (raises_foldR_inv input_wf).
  - intros s c v. by rewrite at_slots_of.
  - intros selections [name value] Hin Hwf. rewrite existsb_elem_of_false in Hknown. specialize (Hknown _ Hin).
    cbn [fst] in Hknown. destruct (slot_of_name name) as [s|]; [|done]. split.
    + apply raises_bind; [apply proposed_selection_raises|intros; apply raises_Ok].
    + intros st' (x & Hx & [= <-])%bind_Ok s' c v. rewrite at_slots_of. case_bool_decide; [|by apply Hwf].
      intros Hbad. by apply (proposed_selection_wf _ _ _ _ Hx c v) in Hbad.
Qed.

Lemma normalize_plan_errors selections : proposal_errors (normalize_plan selections).
Proof.
  eapply (raises_impl invalid_argument); [apply build_slots_raises, normalize_selection_raises|]. by intros e (f & m & ->).
Qed.

Lemma validate_proposal_errors proposal : proposal_wf proposal → proposal_errors (validate_proposal proposal).
Proof.
  intros Hwf. unfold validate_proposal. apply raises_bind; [by apply raises_if|intros _ _].
  case_bool_decide as Hop; [apply raises_Ok|]. destruct (proposal_wf_payload _ Hwf Hop) as [payload ->].
  cbn [mbind result_bind]. apply raises_bind; [raises; done|intros dimensions _].
  apply raises_bind; [by apply raises_if|intros _ [_ Hknown]%raise_if_Ok%orb_false_iff].
  apply raises_bind; [by apply raises_if|intros _ _]. apply raises_bind; [by apply select_spec|intros selections _].
  apply raises_bind; [apply normalize_plan_errors|intros; apply raises_Ok].
Qed.

(** The selections of a validated proposal. *)
Lemma validate_proposal_selections proposal v :
  validate_proposal proposal = Ok v →
  (∀ s code value, (s, InlineDimension code value) ∈ v → code_wf code = true ∧ value_for s value) ∧
  (cp_operation proposal = OP_CREATE → v.*1 = ORDER).
Proof.
  unfold validate_proposal. intros (_ & _ & Hok)%bind_Ok. case_bool_decide as Hop.
  { injection Hok as <-. rewrite Hop. split; [|done]. by intros ??? ?%elem_of_nil. }
  apply bind_Ok in Hok as (payload & _ & Hok). apply bind_Ok in Hok as (dimensions & _ & Hok).
  apply bind_Ok in Hok as (_ & [_ Hknown]%raise_if_Ok%orb_false_iff & Hok).
  apply bind_Ok in Hok as (_ & Hall%raise_if_Ok & Hok). apply bind_Ok in Hok as (selections & Hsel & Hok).
  apply bind_Ok in Hok as (plan & Hplan & Hok). apply (Ok_inv (E := exn)) in Hok as <-.
  pose proof (proj2 (select_spec _ _ Hknown) _ Hsel) as Hwf. split.
  - intros s code value (s' & _ & Hs)%list_elem_of_omap. destruct (absent _); [done|]. injection Hs as -> Hx.
    eapply normalize_selection_Ok; [exact Hwf|by apply build_slots_Ok|done].
  - intros Hcreate. rewrite Hcreate in Hall. cbn [orb] in Hall.
    rewrite bool_decide_eq_true_2 in Hall by done. apply negb_false_iff, forallb_Forall in Hall.
    clear - Hall. induction Hall as [|s l Hs _ IH]; [done|]. cbn. destruct (absent _); [done|]. cbn. by rewrite IH.
Qed.

(** ** The plan of an approval *)

Record plan_wf (plan : ApprovalPlan) : Prop := {
  pw_slots : NoDup (ap_validated plan).*1;
  pw_inline : ∀ s code value, (s, InlineDimension code value) ∈ ap_validated plan →
    op_dimension (md_operations (ap_audit plan)) = Some DIM_CREATE ∧ code_wf code = true ∧ value_for s value;
  pw_create : cp_operation (ap_proposal plan) = OP_CREATE → (ap_validated plan).*1 = ORDER;
  pw_delete : cp_operation (ap_proposal plan) = OP_DELETE → ap_validated plan = [];
  pw_operation : op_master_code (md_operations (ap_audit plan)) = Some (master_code_operation (cp_operation (ap_proposal plan)));
}.

Lemma message_normalizes message : message_wf message → normalize_reason message = Ok message.
Proof.
  destruct message as [text|]; [|done]. intros Hm. specialize (Hm text eq_refl). unfold ReviewMessage_init in Hm.
  apply bind_Ok in Hm as (n & Hn & Hm). apply catch_Ok in Hn as [Hn|(e & _ & He)]; [|by destruct e].
  destruct n as [text'|]; [|done]. by injection Hm as ->.
Qed.

Lemma ReviewMessage_errors text : proposal_errors (ReviewMessage_init text).
Proof.
  unfold ReviewMessage_init. apply raises_bind; [|intros; raises; done].
  apply raises_catch. intros e He. unfold normalize_reason in He. cbv zeta in He. case_bool_decide; [done|].
  apply bind_Raise in He as [[_ ->]%raise_if_Raise|(? & _ & He)]; [by apply raises_Raise|].
  apply bind_Raise in He as [[_ ->]%raise_if_Raise|(? & _ & He)]; [by apply raises_Raise|done].
Qed.

Lemma prepare_approval_spec cs p approved message request :
  uuid_version cs = Some 7 → message_wf message → proposal_wf (default (cr_original request) approved) →
  review_errors (prepare_approval cs p approved message request) ∧
  ∀ plan, prepare_approval cs p approved message request = Ok plan → plan_wf plan.
Proof.
  intros Hcs Hm Hwf. unfold prepare_approval. set (proposal := default (cr_original request) approved) in *. split.
  - apply raises_bind; [by apply raises_if|intros _ _]. apply raises_bind.
    { unfold classify_approval. raises; done. }
    intros _ _. apply raises_bind; [by apply proposal_errors_review, validate_proposal_errors|intros v _].
    apply raises_bind; [|intros; apply raises_Ok].
    unfold audit_create, MutationOperations_init, MutationAuditMetadata_init. cbn [md_change_set_id md_reason].
    rewrite Hcs, message_normalizes by done. by destruct (existsb _ v).
  - intros plan (_ & _ & Hok)%bind_Ok. apply bind_Ok in Hok as (_ & _ & Hok).
    apply bind_Ok in Hok as (v & Hv & Hok). apply bind_Ok in Hok as (audit & Ha & Hok).
    apply audit_create_spec in Ha as (_ & _ & _ & Hops & _). apply (Ok_inv (E := exn)) in Hok as <-.
    destruct (validate_proposal_selections _ _ Hv) as [Hinline Hcreate].
    destruct (validate_proposal_slots _ _ Hv) as [Hnd Hdelete].
    split; cbn [ap_validated ap_proposal ap_audit]; try done; [|by rewrite Hops].
    intros s code value Hs. rewrite Hops. cbn [op_dimension].
    assert (existsb (λ '(_, selection), is_inline selection) v = true) as ->; [|split; [done|by eapply Hinline]].
    apply existsb_elem_of. by exists (s, InlineDimension code value).
Qed.

(** ** Inserting a Dimension *)

Definition inserted_row (env : Env) (s : slot) (code : DimensionCode) (value : dim_value) (t : Z) : DimRow :=
  mkDimRow (env_dim_id env s) (code_value code) (value_to_row value) 1 t t None.

Lemma create_inline_spec env audit seen s code value t db :
  db_ok db → op_dimension (md_operations audit) = Some DIM_CREATE → code_wf code = true → value_for s value →
  dims db !! (s, env_dim_id env s) = None →
  applied_errors (create_inline env (mkAuditContext audit t) seen s code value (utc t) db) ∧
  ∀ d db', create_inline env (mkAuditContext audit t) seen s code value (utc t) db = Ok (d, db') →
    insert_dimension (mkAuditContext audit t) s (inserted_row env s code value t) db = Ok db' ∧
    row_dimension s (inserted_row env s code value t) = Some d.
Proof.
  intros Hdb Hop Hcw Hvf Hfresh. set (env' := mkEnv t t (env_dim_id env) (env_mc_id env)).
  pose proof (insert_created env' db s audit code value Hdb Hop Hcw Hvf Hfresh (mkAuditContext audit t) eq_refl) as Hins.
  destruct (row_to_domain_wf s _ (created_row_wf env' s code value Hcw Hvf)) as (d & Hrow & Hdom & _).
  change (created_row env' s code value) with (inserted_row env s code value t) in *.
  unfold create_inline. destruct (find_inline_conflicts s code value seen) as [cc vc]. cbv zeta.
  change (mkDimRow (env_dim_id env s) (code_value code) (value_to_row value) 1 (instant (utc t)) (instant (utc t)) None)
    with (inserted_row env s code value t). split.
  - apply raises_bind; [apply raises_if; intros _; by left|intros _ _]. apply raises_bind.
    + rewrite Hins. raises; right; right; exists s; auto.
    + intros db' _. rewrite Hdom. apply raises_Ok.
  - intros d' db' (_ & _ & Hok)%bind_Ok. apply bind_Ok in Hok as (db1 & Hdb1 & Hok).
    rewrite Hdom in Hok. by injection Hok as <- <-.
Qed.

(** ** Creations *)

Section create.
Context (env : Env) (seen db : DB) (plan : ApprovalPlan).
Hypothesis Hdb : db_ok db.
Hypothesis Hserved : served env seen db.
Hypothesis Hwf : plan_wf plan.
Hypothesis Hcreate : cp_operation (ap_proposal plan) = OP_CREATE.

Abbreviation audit := (ap_audit plan).
Abbreviation t := (env_clock env).
Abbreviation cx := (mkAuditContext audit t).
Definition creation : MasterCodeCreatePlan := slots_of (λ s, default NotApplicable (bound (ap_validated plan) s)).

Lemma creation_operation : op_master_code (md_operations audit) = Some MC_CREATE.
Proof. rewrite (pw_operation _ Hwf), Hcreate. done. Qed.

Lemma bound_elem l s x : bound l s = Some x → (s, x) ∈ l.
Proof.
  unfold bound. intros ([s' y] & Hf & ->)%fmap_Some. apply find_some in Hf as [Hin Hs%bool_decide_eq_true].
  cbn in Hs. subst s'. by apply list_elem_of_In.
Qed.

Lemma creation_inline s code value :
  at_slot creation s = InlineDimension code value →
  op_dimension (md_operations audit) = Some DIM_CREATE ∧ code_wf code = true ∧ value_for s value ∧
  dims db !! (s, env_dim_id env s) = None.
Proof.
  unfold creation. rewrite at_slots_of. destruct (bound _ s) as [x|] eqn:Hx; [|done]. cbn. intros ->.
  destruct (pw_inline _ Hwf s code value (bound_elem _ _ _ Hx)) as (? & ? & ?). split_and!; try done. apply Hserved.
Qed.

(** A creation selects every slot. *)
Lemma validated_creation : ap_validated plan = (λ s, (s, at_slot creation s)) <$> ORDER.
Proof.
  rewrite <- (pw_create _ Hwf Hcreate). pose proof (pw_slots _ Hwf) as Hnd. unfold creation.
  induction (ap_validated plan) as [|[s x] l IH]; [done|]. rewrite fmap_cons in Hnd.
  apply NoDup_cons in Hnd as [Hs Hnd]. cbn [fmap list_fmap fst]. rewrite at_slots_of, bound_cons, bool_decide_eq_true_2 by done.
  cbn [fst snd default]. f_equal. rewrite (IH Hnd) at 1. apply list_fmap_ext. intros i s' Hi.
  rewrite !at_slots_of, bound_cons, bool_decide_eq_false_2; [done|]. cbn. intros ->.
  apply Hs. by eapply list_elem_of_lookup_2.
Qed.

Abbreviation inv := (create_inv env db creation).

Lemma apply_create_step processed st s :
  inv processed st → s ∉ processed →
  applied_errors (apply_create_slot env cx seen (utc t) st (s, at_slot creation s)) ∧
  ∀ st', apply_create_slot env cx seen (utc t) st (s, at_slot creation s) = Ok st' → inv (s :: processed) st'.
Proof.
  intros Hinv Hs. pose proof Hinv as [Hd _ Hf _ _]. unfold apply_create_slot.
  assert (∀ x fields, (fields = [] → st_invalid st = []) →
    (fields = [] → x = (i ← at_slot (plan_refs env creation) s; active_dimension (st_db st) s i) ∧
       ∀ i, at_slot (plan_refs env creation) s = Some i → is_Some (active_row s i (st_db st))) →
    inv (s :: processed) (mkCreateState (st_db st) (set_slot (st_resolved st) s x) fields)) as Hkeep.
  { intros. by apply (create_inv_keep env db audit creation Hdb creation_operation (sv_master_code_id _ _ _ Hserved) creation_inline). }
  pose proof (plan_ref_at env creation s) as Href.
  destruct (at_slot creation s) as [i|code value|] eqn:Hp.
  - rewrite lock_reference_ok by apply Hd. split; [apply raises_Ok|]. cbn [mbind result_bind]. intros st' [= <-].
    apply Hkeep; [by intros [? _]%app_nil|]. rewrite Href. cbn. intros [_ Hi]%app_nil. split; [done|].
    intros j [= <-]. apply not_eq_None_Some. intros E. apply active_dimension_None in E; [|apply Hd]. by rewrite E in Hi.
  - destruct (creation_inline s code value Hp) as (Hop & Hcw & Hvf & _).
    destruct (create_inline_spec env audit seen s code value t (st_db st) Hd Hop Hcw Hvf (Hf s code value Hs Hp))
      as [He Hok].
    split; [apply raises_bind; [done|intros [] _; apply raises_Ok]|].
    intros st' ([d db'] & Hc & [= <-])%bind_Ok. destruct (Hok d db' Hc) as [Hins Hrow].
    by eapply (create_inv_insert env db audit creation Hdb creation_operation (sv_master_code_id _ _ _ Hserved) creation_inline).
  - split; [apply raises_Ok|]. intros st' [= <-]. apply Hkeep; [done|]. by rewrite Href.
Qed.
Lemma apply_create_loop_spec l processed st :
  inv processed st → NoDup l → (∀ s, s ∈ l → s ∉ processed) →
  let m := foldR (apply_create_slot env cx seen (utc t)) st ((λ s, (s, at_slot creation s)) <$> l) in
  applied_errors m ∧ ∀ st', m = Ok st' → inv (reverse l ++ processed) st'.
Proof.
  revert processed st. induction l as [|s l IH]; intros processed st Hinv Hnd Hl.
  { split; [apply raises_Ok|]. intros st' [= <-]. by rewrite reverse_nil. }
  cbn [fmap list_fmap foldR]. apply NoDup_cons in Hnd as [Hs Hnd].
  destruct (apply_create_step processed st s Hinv (Hl s ltac:(by left))) as [He Hok].
  destruct (apply_create_slot env cx seen (utc t) st (s, at_slot creation s)) as [st1|e]; cbn [mbind result_bind].
  - rewrite reverse_cons, <- app_assoc. apply IH; [by apply Hok|done|].
    intros s' Hs' [->|Hs'']%elem_of_cons; [done|]. eapply Hl; [by right|done].
  - split; [|done]. intros ? [= <-]. by apply He.
Qed.

Lemma apply_create_errors : applied_errors (apply_create env seen db plan).
Proof.
  unfold apply_create. cbn [set_context raise_if mbind result_bind]. cbv zeta. cbn [fst snd].
  rewrite validated_creation. change (DateTime t (Some 0)) with (utc t).
  destruct (apply_create_loop_spec ORDER [] (mkCreateState db no_dimensions [])) as [He Hok];
    [by apply (create_inv_start env db audit creation Hdb creation_inline)|apply ORDER_NoDup|set_solver|].
  apply raises_bind; [done|]. intros st Hst. apply Hok in Hst. rewrite app_nil_r in Hst.
  pose proof (create_inv_ORDER _ _ _ _ Hst) as Hinv. clear He Hok Hst.
  apply raises_bind; [apply raises_if; intros _; by left|]. intros _ Hvalid%raise_if_Ok%negb_false_iff%bool_decide_eq_true.
  pose proof (ci_db _ _ _ _ _ Hinv) as Hd. rewrite (created_joined env db creation st Hinv Hvalid).
  assert (MasterCodeDimensions_init (joined_dims (st_db st) (created_mc_row env (st_db st) creation)) =
    Ok (joined_dims (st_db st) (created_mc_row env (st_db st) creation))) as ->
    by exact (proj2 (build_dimensions_Ok _ _ (build_joined _ _ (proj1 Hd)))).
  cbn [mbind result_bind]. set (row := created_mc_row env (st_db st) creation).
  assert (mkMcRow (env_mc_id env) (dimension_ids (joined_dims (st_db st) row))
    (compose (joined_dims (st_db st) row)) 1 (instant (utc t)) (instant (utc t)) None = row) as ->.
  { assert (dimension_ids (joined_dims (st_db st) row) = m_refs row) as ->
      by exact (dimension_ids_joined _ _ (proj1 Hd) (created_refs_exist _ _ _ st Hinv Hvalid)).
    rewrite compose_joined by apply Hd.
    assert (compose_row (st_db st) row = m_code row) as -> by (symmetry; apply created_code). done. }
  apply raises_bind; [apply raises_if; intros _; by left|intros _ _].
  unfold row. rewrite (created_insert env db audit creation creation_operation (sv_master_code_id _ _ _ Hserved) st Hinv Hvalid).
  rewrite (created_master_code env db creation st Hinv Hvalid). raises. right. by left.
Qed.
End create.

(** ** Locking the target *)

Lemma lock_rows_total s current change db : db_ok db → ∃ locked, lock_rows s current change db = Ok locked.
Proof.
  intros Hdb. apply mapR_total. intros r (i & _ & Hr)%list_elem_of_omap.
  destruct (stored_domain _ _ _ _ Hdb Hr) as (d & -> & _). by eexists.
Qed.

Section target.
Context (env : Env) (seen db : DB) (plan : ApprovalPlan).
Hypothesis Hdb : db_ok db.
Hypothesis Hserved : served env seen db.
Hypothesis Hwf : plan_wf plan.

Abbreviation audit := (ap_audit plan).
Abbreviation operation := (cp_operation (ap_proposal plan)).

Record lock_inv (initial : MasterCode) (processed : list slot) (st : TargetState) : Prop := {
  li_reads : target_reads env audit initial plan db processed st;
  li_same : ∀ s i, s ∉ processed → dims (ts_db st) !! (s, i) = dims db !! (s, i);
  li_active : ts_invalid st = [] → operation ≠ OP_RESTORE → ∀ s d, s ∈ processed → change_of plan s ≠ None →
    get_slot (ts_resolved st) s = Some d → is_deleted d = false;
}.

Lemma lock_inv_advance initial processed st s db' current resolved invalid :
  lock_inv initial processed st → s ∉ processed →
  target_reads env audit initial plan db (s :: processed)
    (mkTargetState db' (set_slot (ts_current st) s current) (set_slot (ts_resolved st) s resolved) (ts_invalid st ++ invalid)) →
  (∀ s' i, s' ≠ s → dims db' !! (s', i) = dims (ts_db st) !! (s', i)) →
  (invalid = [] → operation ≠ OP_RESTORE → change_of plan s ≠ None → ∀ d, resolved = Some d → is_deleted d = false) →
  lock_inv initial (s :: processed)
    (mkTargetState db' (set_slot (ts_current st) s current) (set_slot (ts_resolved st) s resolved) (ts_invalid st ++ invalid)).
Proof.
  intros [_ Hsame Hact] Hs Hreads Hdims Hres. split; [done| |]; cbn.
  - intros s' i [Hne Hs']%not_elem_of_cons. rewrite Hdims by done. by apply Hsame.
  - intros [Hi1 Hi2]%app_nil Hop s' d Hs' Hc. rewrite get_set_slot. case_bool_decide as E.
    + subst s'. by apply Hres.
    + apply Hact; [done..| |done]. by apply elem_of_cons in Hs' as [?|?].
Qed.

Context (context : option (AuditContext * datetime)) (t : Z).
Hypothesis Hcontext : context = if existsb (λ p, is_inline p.2) (ap_validated plan)
                                then Some (mkAuditContext audit t, utc t) else None.

Lemma context_audit c ts : context = Some (c, ts) → c = mkAuditContext audit t ∧ ts = utc t.
Proof. rewrite Hcontext. destruct (existsb _ _); [|done]. by intros [= <- <-]. Qed.

Lemma lock_target_step initial processed st s :
  lock_inv initial processed st → s ∉ processed →
  applied_errors (lock_target_slot env context seen initial plan st s) ∧
  ∀ st', lock_target_slot env context seen initial plan st s = Ok st' → lock_inv initial (s :: processed) st'.
Proof.
  intros Hinv Hs. pose proof Hinv as [Hreads Hsame _]. pose proof (tr_db _ _ _ _ _ _ _ Hreads) as Hd.
  assert (∀ st', lock_target_slot env context seen initial plan st s = Ok st' →
    target_reads env audit initial plan db (s :: processed) st') as Hnext.
  { intros st'. apply lock_target_slot_reads; [|done]. by intros c ts [-> _]%context_audit. }
  unfold lock_target_slot in *.
  destruct (lock_rows_total s (get_slot (mc_dimensions initial) s) (change_of plan s) (ts_db st) Hd) as [locked Hl].
  rewrite Hl in Hnext |- *. cbn [mbind result_bind] in *. cbv zeta in *.
  destruct (raise_if _ ChangeRequestStaleTarget) as [[]|e] eqn:Estale; cbn [mbind result_bind] in *.
  2: { apply raise_if_Raise in Estale as [_ ->]. split; [apply raises_Raise; by left|done]. }
  destruct (change_of plan s) as [[id|code value|]|] eqn:Hc.
  - split; [apply raises_Ok|]. intros st' [= <-]. apply lock_inv_advance; [done..|by apply Hnext|done|].
    intros Hi Hop _ d Ha. rewrite Ha, (bool_decide_eq_false_2 _ Hop) in Hi. by destruct (is_deleted d).
  - assert ((s, InlineDimension code value) ∈ ap_validated plan) as Hin by by apply bound_elem.
    destruct (pw_inline _ Hwf s code value Hin) as (Hop & Hcw & Hvf).
    assert (context = Some (mkAuditContext audit t, utc t)) as Hctx.
    { rewrite Hcontext. assert (existsb (λ p, is_inline p.2) (ap_validated plan) = true) as ->; [|done].
      apply existsb_elem_of. by exists (s, InlineDimension code value). }
    rewrite Hctx in Hnext |- *.
    destruct (create_inline_spec env audit seen s code value t (ts_db st) Hd Hop Hcw Hvf) as [He Hok].
    { rewrite Hsame by done. apply Hserved. }
    split; [apply raises_bind; [done|intros [] _; apply raises_Ok]|].
    intros st' ([d db'] & Hcr & [= <-])%bind_Ok. destruct (Hok d db' Hcr) as [Hins Hrow].
    apply insert_dimension_result in Hins as [_ Hdb']. apply lock_inv_advance; [done..| | |].
    + apply Hnext. by rewrite Hcr.
    + intros s' i Hne. rewrite Hdb'. cbn. rewrite lookup_insert_ne; [done|congruence].
    + intros _ _ _ d' [= <-]. by apply row_dimension_fields in Hrow as (_ & _ & _ & _ & _ & -> & _).
  - split; [apply raises_Ok|]. intros st' [= <-]. apply lock_inv_advance; [done..|by apply Hnext|done|done].
  - split; [apply raises_Ok|]. intros st' [= <-]. apply lock_inv_advance; [done..|by apply Hnext|done|].
    by rewrite Hc.
Qed.
Lemma lock_target_loop_spec initial l processed st :
  lock_inv initial processed st → NoDup l → (∀ s, s ∈ l → s ∉ processed) →
  let m := foldR (lock_target_slot env context seen initial plan) st l in
  applied_errors m ∧ ∀ st', m = Ok st' → lock_inv initial (reverse l ++ processed) st'.
Proof.
  revert processed st. induction l as [|s l IH]; intros processed st Hinv Hnd Hl.
  { split; [apply raises_Ok|]. intros st' [= <-]. by rewrite reverse_nil. }
  cbn [foldR]. apply NoDup_cons in Hnd as [Hs Hnd].
  destruct (lock_target_step initial processed st s Hinv (Hl s ltac:(by left))) as [He Hok].
  destruct (lock_target_slot env context seen initial plan st s) as [st1|e]; cbn [mbind result_bind].
  - rewrite reverse_cons, <- app_assoc. apply IH; [by apply Hok|done|].
    intros s' Hs' [->|Hs'']%elem_of_cons; [done|]. eapply Hl; [by right|done].
  - split; [|done]. intros ? [= <-]. by apply He.
Qed.

Lemma lock_inv_start initial : lock_inv initial [] (mkTargetState db no_dimensions no_dimensions []).
Proof.
  split; cbn; [|done|by intros _ _ s d ?%elem_of_nil].
  split; cbn; try done; [apply logged_refl|by intros []|by intros []|set_solver..].
Qed.

Lemma lock_target_loop_ORDER initial :
  let m := foldR (lock_target_slot env context seen initial plan) (mkTargetState db no_dimensions no_dimensions []) ORDER in
  applied_errors m ∧ ∀ st', m = Ok st' → lock_inv initial (reverse ORDER ++ []) st'.
Proof. apply lock_target_loop_spec; [apply lock_inv_start|apply ORDER_NoDup|set_solver]. Qed.
End target.

Lemma ORDER_locked s : s ∈ reverse ORDER ++ [].
Proof. rewrite app_nil_r, elem_of_reverse. apply slot_in_ORDER. Qed.

(** Dimensions read from their rows are one per slot. *)
Lemma reads_dimensions db dims0 :
  db_ok db → (∀ s, reads_as db s (get_slot dims0 s)) → MasterCodeDimensions_init dims0 = Ok dims0.
Proof.
  intros Hdb Hreads. apply MasterCodeDimensions_init_Ok. split; [done|]. intros s d Hd.
  specialize (Hreads s). rewrite Hd in Hreads. destruct Hreads as (r & Hr & Hrow).
  destruct (so_dim _ (proj1 Hdb) _ _ _ Hr) as [_ Hwf]. destruct (row_to_domain_wf s r Hwf) as (d' & Hrow' & _ & _ & _ & _ & Hs).
  by assert (d' = d) as <- by congruence.
Qed.

Section locked.
Context (env : Env) (seen db : DB) (plan : ApprovalPlan).
Hypothesis Hdb : db_ok db.
Hypothesis Hserved : served env seen db.
Hypothesis Hwf : plan_wf plan.

(** The time of the mutation. *)
Definition mutated_at (m : McRow) : Z := Z.max (env_clock env) (m_updated_at m).

Record target_ready (t : LockedTarget) : Prop := {
  ty_locked : target_locked env db plan t;
  ty_context : ∀ x, lt_context t = Some x →
    x = (mkAuditContext (ap_audit plan) (mutated_at (lt_record t)), utc (mutated_at (lt_record t)));
  ty_active : cp_operation (ap_proposal plan) ≠ OP_RESTORE → ∀ s d, change_of plan s ≠ None →
    get_slot (lt_next t) s = Some d → is_deleted d = false;
}.

(** The record locked after the loop is the row read before it. *)
Lemma locked_record m0 st record :
  mcs seen !! m_id m0 = Some m0 → lock_inv env db plan (mc_of m0 (joined_dims seen m0)) (reverse ORDER ++ []) st →
  mcs (ts_db st) !! m_id m0 = Some record → same_persisted_state record (mc_of m0 (joined_dims seen m0)) = true →
  record = m0 ∧ ts_current st = joined_dims (ts_db st) record.
Proof.
  intros Hm0 [Hreads _ _] Hrecord Hsame. pose proof (tr_extends _ _ _ _ _ _ _ Hreads) as [Hmcs _].
  assert (mcs db !! m_id m0 = Some record) as Hm by by rewrite <- Hmcs. split.
  - destruct (same_state_spec seen db (m_id m0) (sv_seen _ _ _ Hserved) (sv_before _ _ _ Hserved) _ _ Hm0 Hm) as [Hs Heq].
    apply Heq. by rewrite <- Hs.
  - symmetry. apply reads_joined; [apply Hreads|]. apply andb_true_iff in Hsame as [_ Hrefs%bool_decide_eq_true].
    rewrite Hrefs. unfold dimension_ids, slots_of.
    f_equal; symmetry; apply (tr_current_ids _ _ _ _ _ _ _ Hreads); apply ORDER_locked.
Qed.

Lemma locked_context m0 context :
  (if existsb (λ p, is_inline p.2) (ap_validated plan) then
     x ← set_context (ap_audit plan) (Some (mc_updated_at (mc_of m0 (joined_dims seen m0)))) (env_clock env); Ok (Some x)
   else Ok None) = Ok context →
  context = if existsb (λ p, is_inline p.2) (ap_validated plan)
            then Some (mkAuditContext (ap_audit plan) (mutated_at m0), utc (mutated_at m0)) else None.
Proof.
  cbn [mc_of mc_updated_at]. rewrite set_context_utc. cbn [mbind result_bind]. destruct (existsb _ _); by intros [= <-].
Qed.

Lemma lock_target_errors : applied_errors (lock_target env seen db plan).
Proof.
  assert (db_ok seen) as Hseen by apply Hserved. unfold lock_target.
  destruct (cp_target_id (ap_proposal plan) ≫= λ id, mcs seen !! id) as [m0|] eqn:Hm0; cbn [mbind result_bind].
  2: { apply raises_Raise. by left. }
  assert (mcs seen !! m_id m0 = Some m0) as Hrow0.
  { apply bind_Some in Hm0 as (id & _ & Hm). by destruct (so_mc _ (proj1 Hseen) _ _ Hm) as [-> _]. }
  rewrite (joined_to_domain_ok _ _ _ Hseen Hrow0). cbn [mbind result_bind]. apply raises_bind.
  { cbn [mc_of mc_updated_at]. rewrite set_context_utc. cbn [mbind result_bind]. raises. }
  intros context Hctx%locked_context.
  destruct (lock_target_loop_ORDER env seen db plan Hdb Hserved Hwf context _ Hctx (mc_of m0 (joined_dims seen m0)))
    as [He Hok].
  apply raises_bind; [done|]. intros st Hinv%Hok. apply raises_bind; [apply raises_if; intros _; by left|intros _ _].
  apply raises_bind; [raises; by left|]. intros record Hrecord.
  destruct (mcs (ts_db st) !! m_id m0) as [record'|] eqn:Er; [|done].
  apply bind_Ok in Hrecord as (_ & Hsame%raise_if_Ok%negb_false_iff & [= ->]).
  destruct (locked_record m0 st record Hrow0 Hinv Er Hsame) as [-> Hcur].
  pose proof (li_reads _ _ _ _ _ _ Hinv) as Hreads. pose proof (tr_db _ _ _ _ _ _ _ Hreads) as Hd.
  rewrite (reads_dimensions (ts_db st) (ts_current st)); [|done|apply Hreads]. cbn [mbind result_bind].
  rewrite Hcur. assert (master_code m0 (joined_dims (ts_db st) m0) = Ok (mc_of m0 (joined_dims (ts_db st) m0))) as ->.
  { apply MasterCode_init_Ok. split; [done|]. by eapply mc_of_valid. }
  cbn [mbind result_bind]. apply raises_bind; [apply raises_if; intros _; by left|intros _ _].
  rewrite (reads_dimensions (ts_db st) (ts_resolved st)); [|done|apply Hreads]. apply raises_Ok.
Qed.

Lemma lock_target_Ok t : lock_target env seen db plan = Ok t → target_ready t.
Proof.
  assert (db_ok seen) as Hseen by apply Hserved. intros Hok.
  pose proof (lock_target_result _ _ _ _ _ (proj1 Hseen) Hdb Hok) as Hlocked. unfold lock_target in Hok.
  destruct (cp_target_id (ap_proposal plan) ≫= λ id, mcs seen !! id) as [m0|] eqn:Hm0; [|done]. cbn [mbind result_bind] in Hok.
  assert (mcs seen !! m_id m0 = Some m0) as Hrow0.
  { apply bind_Some in Hm0 as (id & _ & Hm). by destruct (so_mc _ (proj1 Hseen) _ _ Hm) as [-> _]. }
  rewrite (joined_to_domain_ok _ _ _ Hseen Hrow0) in Hok. cbn [mbind result_bind] in Hok.
  apply bind_Ok in Hok as (context & Hctx%locked_context & Hok).
  destruct (lock_target_loop_ORDER env seen db plan Hdb Hserved Hwf context _ Hctx (mc_of m0 (joined_dims seen m0)))
    as [_ Hloop].
  apply bind_Ok in Hok as (st & Hinv%Hloop & Hok).
  apply bind_Ok in Hok as (_ & Hvalid%raise_if_Ok%negb_false_iff%bool_decide_eq_true & Hok).
  apply bind_Ok in Hok as (record & Hrecord & Hok). apply bind_Ok in Hok as (cur & _ & Hok).
  apply bind_Ok in Hok as (current & _ & Hok). apply bind_Ok in Hok as (_ & _ & Hok).
  apply bind_Ok in Hok as (next & [-> _]%MasterCodeDimensions_init_Ok & [= <-]).
  destruct (mcs (ts_db st) !! m_id m0) as [record'|] eqn:Er; [|done].
  apply bind_Ok in Hrecord as (_ & Hsame%raise_if_Ok%negb_false_iff & [= ->]).
  destruct (locked_record m0 st record Hrow0 Hinv Er Hsame) as [-> _].
  split; [done| |]; cbn.
  - intros x ->. destruct (existsb _ _); [|done]. by injection Hctx as ->.
  - intros Hop s d Hc Hd. by eapply (li_active _ _ _ _ _ _ Hinv Hvalid Hop s d); [apply ORDER_locked|..].
Qed.
End locked.

(** ** Applying a proposal to its target *)

Section apply.
Context (env : Env) (db : DB) (plan : ApprovalPlan) (t : LockedTarget).
Hypothesis Hwf : plan_wf plan.
Hypothesis Hdb : db_ok db.
Hypothesis Hready : target_ready env db plan t.

Abbreviation m := (lt_record t).
Abbreviation db1 := (lt_db t).
Abbreviation operation := (cp_operation (ap_proposal plan)).
Abbreviation now := (mutated_at env m).
Abbreviation cx := (mkAuditContext (ap_audit plan) now).

Lemma locked_db : db_ok db1.
Proof. apply (ty_locked _ _ _ _ Hready). Qed.

Lemma target_row : mcs db1 !! m_id m = Some m.
Proof. destruct (ty_locked _ _ _ _ Hready) as [_ [-> _] _ _ Hm]. done. Qed.

Lemma target_current : lt_current t = mc_of m (joined_dims db1 m).
Proof.
  destruct (ty_locked _ _ _ _ Hready) as [_ Hext _ _ Hm -> _ _ _ _ _ _ _].
  by rewrite (joined_dims_extends db db1 (m_id m) m (proj1 Hdb) Hm Hext).
Qed.

Lemma locked_deleted : mc_is_deleted (lt_current t) = negb (bool_decide (m_deleted_at m = None)).
Proof. rewrite target_current. unfold mc_is_deleted. cbn. by destruct (m_deleted_at m). Qed.

(** *** Deletion and restoration *)

Lemma locked_lifecycle (restore : bool) :
  operation = (if restore then OP_RESTORE else OP_DELETE) →
  bool_decide (m_deleted_at m = None) = negb restore → (restore = true → deleted_slots db1 m = []) →
  let new := mc_lifecycle_row env m restore in
  (if restore then MasterCode_restore (lt_current t) (utc now) else MasterCode_delete (lt_current t) (utc now)) =
    Ok (mc_of new (joined_dims db1 m)) ∧
  ∃ db', update_master_code cx m new db1 = Ok db'.
Proof.
  intros Hop Hdel Hact new.
  assert (op_master_code (md_operations (ap_audit plan)) = Some (if restore then MC_RESTORE else MC_DELETE)) as Hmc
    by (rewrite (pw_operation _ Hwf), Hop; by destruct restore).
  rewrite target_current. split.
  - exact (lifecycle_domain env db1 (m_id m) _ restore locked_db Hmc m target_row Hdel Hact).
  - unfold mutated_at, new. rewrite (lifecycle_write env db1 (m_id m) _ restore locked_db Hmc m target_row Hdel Hact). by eexists.
Qed.

Lemma locked_inactive :
  List.filter (λ s, match get_slot (mc_dimensions (lt_current t)) s with Some d => is_deleted d | None => false end) ORDER
    = deleted_slots db1 m.
Proof.
  rewrite target_current. unfold deleted_slots. apply List.filter_ext. intros s. cbn [mc_of mc_dimensions].
  pose proof (joined_dims_slot db1 m s (proj1 locked_db)) as Hj.
  destruct (joined_slot db1 m s) as [r|]; [|by rewrite Hj]. destruct Hj as (d & -> & Hd & _).
  by apply row_dimension_fields in Hd as (_ & _ & _ & _ & _ & -> & _).
Qed.

(** *** Reference updates *)

(** The proposal as the changes of a direct update, its new Dimensions by
    their identifiers. *)
Definition applied_changes : MasterCodeReferenceUpdate :=
  slots_of (λ s, match change_of plan s with
                 | None => None
                 | Some NotApplicable => Some RefNotApplicable
                 | Some (ExistingDimension i) => Some (RefExisting i)
                 | Some (InlineDimension _ _) => Some (RefExisting (env_dim_id env s))
                 end).
Abbreviation new := (reference_row env db1 m applied_changes).

Lemma applied_refs : next_refs m applied_changes = dimension_ids (lt_next t).
Proof.
  apply slots_ext. intros s. unfold next_refs, dimension_ids, applied_changes. rewrite !at_slots_of.
  rewrite (tl_next_ids _ _ _ _ (ty_locked _ _ _ _ Hready) s). by destruct (change_of plan s) as [[]|].
Qed.

Lemma next_joined : joined_dims db1 new = lt_next t.
Proof. apply reads_joined; [apply (ty_locked _ _ _ _ Hready)|]. cbn. apply applied_refs. Qed.

Lemma not_stale_reference : m_deleted_at m = None → existsb (stale_reference db1 m) ORDER = false.
Proof.
  intros Hdel. apply existsb_elem_of_false. intros s _. unfold stale_reference, inactive_row.
  destruct (at_slot (m_refs m) s) as [i|] eqn:Hi; [|done]. apply bool_decide_eq_false. intros Hnone.
  destruct (so_fk _ (proj1 locked_db) _ _ _ _ target_row Hi) as [r Hr].
  assert (joined_slot db1 m s = Some r) as Hj by (apply joined_slot_Some; by exists i).
  pose proof (cs_active _ (proj2 locked_db) _ _ _ _ target_row Hdel Hj) as Hact.
  assert (active_row s i db1 = Some r) by by apply active_row_Some. congruence.
Qed.

Lemma not_invalid_change : operation ≠ OP_RESTORE → List.filter (invalid_change db1 applied_changes) ORDER = [].
Proof.
  intros Hop. destruct (List.filter _ ORDER) as [|s l] eqn:E; [done|]. exfalso.
  assert (s ∈ List.filter (invalid_change db1 applied_changes) ORDER) as [_ Hs]%elem_of_filter_bool
    by (rewrite E; by left).
  unfold invalid_change, applied_changes, inactive_row in Hs. rewrite at_slots_of in Hs.
  assert (∃ i, dim_id <$> get_slot (lt_next t) s = Some i ∧ active_row s i db1 = None ∧ change_of plan s ≠ None)
    as (i & Hid & Hnone & Hc).
  { rewrite (tl_next_ids _ _ _ _ (ty_locked _ _ _ _ Hready) s).
    destruct (change_of plan s) as [[i|code value|]|]; try done; apply bool_decide_eq_true in Hs; by eexists. }
  destruct (get_slot (lt_next t) s) as [d|] eqn:Hd; [|done]. injection Hid as <-.
  pose proof (tl_next _ _ _ _ (ty_locked _ _ _ _ Hready) s) as Hreads. rewrite Hd in Hreads.
  destruct Hreads as (r & Hr & Hrow). pose proof (ty_active _ _ _ _ Hready Hop s d Hc Hd) as Hact.
  apply row_dimension_fields in Hrow as (_ & _ & _ & _ & _ & Hrd & _). rewrite Hact in Hrd. unfold row_deleted in Hrd.
  assert (active_row s (dim_id d) db1 = Some r); [|congruence]. apply active_row_Some. split; [done|].
  symmetry in Hrd. by apply negb_false_iff, bool_decide_eq_true in Hrd.
Qed.

Lemma locked_update :
  operation = OP_REFERENCE_UPDATE → m_deleted_at m = None →
  dimension_ids (lt_next t) ≠ dimension_ids (mc_dimensions (lt_current t)) →
  MasterCodes.update_references (lt_current t) (lt_next t) (utc now) = Ok (mc_of new (lt_next t)) ∧
  applied_errors (update_master_code cx m new db1).
Proof.
  intros Hop Hdel Hne.
  assert (op_master_code (md_operations (ap_audit plan)) = Some MC_REFERENCE_UPDATE) as Hmc
    by by rewrite (pw_operation _ Hwf), Hop.
  assert (next_refs m applied_changes ≠ m_refs m) as Hrefs.
  { by rewrite applied_refs, (tl_refs _ _ _ _ (ty_locked _ _ _ _ Hready)). }
  pose proof (not_stale_reference Hdel) as Hstale.
  pose proof (not_invalid_change ltac:(by rewrite Hop)) as Hinvalid. split.
  - pose proof (reference_domain env db1 (m_id m) applied_changes locked_db m target_row Hdel Hstale Hinvalid Hrefs) as Hd.
    rewrite next_joined in Hd. by rewrite target_current.
  - unfold mutated_at. rewrite (reference_write env db1 (m_id m) _ applied_changes locked_db Hmc m target_row Hdel Hstale Hinvalid Hrefs).
    raises. right. by left.
Qed.
End apply.

Lemma check_target_errors operation current next : applied_errors (check_target operation current next).
Proof. unfold check_target. destruct operation; raises; by left. Qed.

Lemma apply_target_errors env seen db plan :
  db_ok db → served env seen db → plan_wf plan → cp_operation (ap_proposal plan) ≠ OP_CREATE →
  applied_errors (apply_target env seen db plan).
Proof.
  intros Hdb Hserved Hwf Hop. unfold apply_target.
  apply raises_bind; [by apply lock_target_errors|]. intros t Hready%lock_target_Ok; [|done..]. cbv zeta.
  apply raises_bind; [apply check_target_errors|]. intros [] Hcheck.
  assert (match lt_context t with
    | Some x => Ok x
    | None => set_context (ap_audit plan) (Some (mc_updated_at (lt_current t))) (env_clock env)
    end = Ok (mkAuditContext (ap_audit plan) (mutated_at env (lt_record t)), utc (mutated_at env (lt_record t)))) as ->.
  { destruct (lt_context t) as [x|] eqn:Hx; [by rewrite (ty_context _ _ _ _ Hready x Hx)|].
    by rewrite (target_current env db plan t Hdb Hready). }
  cbn [mbind result_bind fst snd].
  pose proof (locked_deleted env db plan t Hdb Hready) as Hdel.
  destruct (cp_operation (ap_proposal plan)) eqn:Hoperation; [done| | |]; cbn [check_target] in Hcheck.
  - apply bind_Ok in Hcheck as (_ & Hactive%raise_if_Ok & Hsame%raise_if_Ok%bool_decide_eq_false).
    rewrite Hdel in Hactive. apply negb_false_iff, bool_decide_eq_true in Hactive.
    destruct (locked_update env db plan t Hwf Hdb Hready Hoperation Hactive Hsame) as [-> Hwrite].
    cbn [mbind result_bind]. apply raises_bind; [|intros; apply raises_Ok].
    match goal with |- applied_errors (update_master_code _ _ ?row _) =>
      replace row with (reference_row env (lt_db t) (lt_record t) (applied_changes env plan)) end; [exact Hwrite|].
    unfold reference_row. cbn. rewrite (applied_refs env db plan t Hready). done.
  - rewrite Hdel in Hcheck. apply raise_if_Ok in Hcheck.
    destruct (locked_lifecycle env db plan t Hwf Hdb Hready false Hoperation) as [-> [db' Hwrite]];
      [by apply negb_false_iff in Hcheck|done|]. cbn [mbind result_bind] in *.
    change (applied_errors (update_master_code (mkAuditContext (ap_audit plan) (mutated_at env (lt_record t)))
      (lt_record t) (mc_lifecycle_row env (lt_record t) false) (lt_db t) ≫= λ db', Ok (mc_of (mc_lifecycle_row env (lt_record t) false) (joined_dims (lt_db t) (lt_record t)), db'))).
    rewrite Hwrite. apply raises_Ok.
  - rewrite Hdel in Hcheck. apply bind_Ok in Hcheck as (_ & Hdeleted%raise_if_Ok & Hcheck).
    apply bind_Ok in Hcheck as (_ & _ & Hact%raise_if_Ok%negb_false_iff%bool_decide_eq_true).
    destruct (locked_lifecycle env db plan t Hwf Hdb Hready true Hoperation) as [-> [db' Hwrite]];
      [by apply negb_false_iff, negb_true_iff in Hdeleted|by rewrite <- (locked_inactive env db plan t Hdb Hready)|].
    cbn [mbind result_bind] in *.
    change (applied_errors (update_master_code (mkAuditContext (ap_audit plan) (mutated_at env (lt_record t)))
      (lt_record t) (mc_lifecycle_row env (lt_record t) true) (lt_db t) ≫= λ db', Ok (mc_of (mc_lifecycle_row env (lt_record t) true) (joined_dims (lt_db t) (lt_record t)), db'))).
    rewrite Hwrite. apply raises_Ok.
Qed.

Lemma apply_plan_errors env seen db plan :
  db_ok db → served env seen db → plan_wf plan → applied_errors (apply_plan env seen db plan).
Proof.
  intros. unfold apply_plan. case_bool_decide; [by apply apply_create_errors|by apply apply_target_errors].
Qed.

(** ** The table of requests *)

(** What the constraints keep of a row, and the proposal it was written from. *)
Definition request_valid (r : CrRow) : Prop :=
  ck_request r = Ok tt ∧ ∃ original, proposal_wf original ∧ rw_original r = proposal_columns original.
Definition requests_valid (t : Requests) : Prop := ∀ id r, t !! id = Some r → request_valid r.

Lemma validated_columns p v : proposal_wf p → validate_proposal p = Ok v → ck_approved (proposal_columns p) = true.
Proof.
  intros [Hinit _]. unfold validate_proposal. intros (_ & Htag%raise_if_Ok & _)%bind_Ok.
  unfold ChangeProposal_init in Hinit. apply bind_Ok in Hinit as ([] & Htarget & Hinit).
  apply bind_Ok in Hinit as ([] & Hpay & _).
  destruct p as [operation target payload tag]. cbn in *. unfold ck_approved. cbn [pc_operation proposal_columns cp_operation].
  unfold ck_creation, ck_targeted, strong_etag. cbn.
  destruct operation, target, payload, tag as [[|]|]; cbn in *; try done; by apply negb_false_iff in Htag as ->.
Qed.

Lemma proposal_columns_inj p q : proposal_wf p → proposal_wf q → proposal_columns p = proposal_columns q → p = q.
Proof.
  intros Hp%proposal_columns_read Hq%proposal_columns_read E. rewrite E in Hp. rewrite Hq in Hp. by injection Hp.
Qed.

Lemma message_checked r : message_wf (rw_review_message r) → ck_message r = true.
Proof.
  unfold ck_message. destruct (rw_review_message r) as [s|]; [|done]. intros Hm%message_normalizes.
  apply normalize_reason_Ok in Hm as (Hne & Hlen & Hstrip & Hcc).
  assert ((1 <=? length s)%nat = true) as -> by (destruct s; [done|by apply Nat.leb_le; cbn; lia]).
  apply Nat.leb_le in Hlen as ->. rewrite Hstrip, bool_decide_eq_true_2 by done. cbn.
  apply negb_true_iff, existsb_false. eapply Forall_impl; [exact Hcc|]. intros c. unfold is_Cc, is_control, in_range. lia.
Qed.

Lemma ck_request_Ok r :
  ck_request r = Ok tt ↔ ck_original r = true ∧ ck_reason r = true ∧ ck_message r = true ∧ ck_review r = true.
Proof.
  unfold ck_request. destruct (ck_original r), (ck_reason r), (ck_message r), (ck_review r); cbn; naive_solver.
Qed.

Lemma fresh_change_set r t :
  (∀ id r', t !! id = Some r' → rw_applied_change_set_id r' ≠ rw_applied_change_set_id r) ∨ rw_applied_change_set_id r = None →
  uq_request r t = Ok tt.
Proof.
  intros Hfresh. unfold uq_request. apply raise_if_Ok, existsb_elem_of_false.
  intros r' ([id r''] & -> & Hr%elem_of_map_to_list)%list_elem_of_fmap. cbn.
  destruct Hfresh as [Hfresh|Hnone].
  - rewrite (bool_decide_eq_false_2 (rw_applied_change_set_id r'' = _)) by by eapply Hfresh. by rewrite andb_false_r.
  - destruct (rw_applied_change_set_id r'') eqn:E; cbn; [|by rewrite andb_false_r].
    rewrite (bool_decide_eq_false_2 (Some _ = _)) by (by rewrite Hnone). by rewrite andb_false_r.
Qed.

(** *** Submissions *)

Lemma prepare_submission_spec p proposal reason :
  proposal_wf proposal →
  raises_only (λ e, submission_error e = true) (prepare_submission p proposal reason) ∧
  ∀ text, prepare_submission p proposal reason = Ok text →
    cp_operation proposal ≠ OP_RESTORE ∧ (∃ v, validate_proposal proposal = Ok v) ∧
    match text with None => True | Some s => reason_wf s end.
Proof.
  intros Hwf. unfold prepare_submission. split.
  - apply raises_bind; [raises; done|intros action _]. apply raises_bind; [unfold authorize; raises; done|intros _ _].
    apply raises_bind; [eapply raises_impl; [by apply validate_proposal_errors|by intros []]|intros _ _].
    apply raises_catch. intros e He.
    unfold normalize_reason in He. destruct reason as [s|]; [|done]. cbv zeta in He. case_bool_decide; [done|].
    apply bind_Raise in He as [[_ ->]%raise_if_Raise|(? & _ & He)]; [by apply raises_Raise|].
    apply bind_Raise in He as [[_ ->]%raise_if_Raise|(? & _ & He)]; [by apply raises_Raise|done].
  - intros text (action & Hop & Hok)%bind_Ok. apply bind_Ok in Hok as (_ & _ & Hok).
    apply bind_Ok in Hok as (v & Hv & Hok). split; [by destruct (cp_operation proposal)|]. split; [by exists v|].
    apply catch_Ok in Hok as [Hok|(e & _ & He)]; [by eapply normalize_reason_Ok|by destruct e].
Qed.

Lemma submitted_row_valid id now proposal requester reason :
  proposal_wf proposal → cp_operation proposal ≠ OP_RESTORE → (∃ v, validate_proposal proposal = Ok v) →
  match reason with None => True | Some s => reason_wf s end →
  let row := mkCrRow id (proposal_columns proposal) requester reason now PENDING no_proposal None None None None in
  request_valid row ∧ request_of row = Ok (mkChangeRequest id proposal requester (utc now) reason PENDING None None None None None).
Proof.
  intros Hwf Hop [v Hv] Hreason row. split; [split; [|by exists proposal]|].
  - apply ck_request_Ok. split_and!; try done.
    + pose proof (validated_columns proposal v Hwf Hv) as Hc. unfold ck_original, ck_approved in *.
      cbn [row rw_original pc_operation proposal_columns] in *. by destruct (cp_operation proposal).
    + unfold ck_reason. cbn [row rw_reason]. destruct reason as [s|]; [|done].
      destruct Hreason as (_ & Hlen & Hstrip & Hcc). rewrite Hstrip. apply andb_true_iff. split; [by apply Nat.leb_le|].
      apply negb_true_iff, existsb_false. eapply Forall_impl; [exact Hcc|]. intros c. unfold is_Cc, is_control, in_range. lia.
  - unfold request_of. cbn [row rw_original]. rewrite proposal_columns_read by done. cbn.
    unfold ChangeRequest_init. cbn [cr_original]. by rewrite (bool_decide_eq_false_2 _ Hop).
Qed.

Lemma submit_spec id now p proposal reason st :
  proposal_wf proposal → rd_requests st !! id = None →
  raises_only (λ e, submission_error e = true) (submit id now p proposal reason st) ∧
  ∀ request st', submit id now p proposal reason st = Ok (request, st') →
    (requests_valid (rd_requests st) → requests_valid (rd_requests st')) ∧
    ∃ text, prepare_submission p proposal reason = Ok text ∧
      request = mkChangeRequest id proposal (principal_id p) (utc now) text PENDING None None None None None.
Proof.
  intros Hwf Hfresh. destruct (prepare_submission_spec p proposal reason Hwf) as [He Hprep]. unfold submit.
  destruct (prepare_submission p proposal reason) as [text|e]; cbn [mbind result_bind].
  2: { split; [|done]. intros ? [= <-]. by apply He. }
  destruct (Hprep text eq_refl) as (Hop & Hv & Hreason).
  pose proof (submitted_row_valid id now proposal (principal_id p) text Hwf Hop Hv Hreason) as Hrow. cbv zeta in Hrow.
  unfold submit_request. cbv zeta. set (row := mkCrRow id _ _ _ _ _ _ _ _ _ _) in *.
  destruct Hrow as [[Hck Ho] Hread].
  assert (insert_request row (rd_requests st) = Ok (<[id := row]> (rd_requests st))) as ->.
  { unfold insert_request. cbn [cr_before_insert row rw_status]. rewrite Hck. cbn [raise_if mbind result_bind rw_id row].
    rewrite (bool_decide_eq_false_2 (is_Some _)) by (rewrite Hfresh; by intros []).
    cbn [raise_if mbind result_bind]. by rewrite fresh_change_set by by right. }
  cbn [mbind result_bind]. rewrite Hread. cbn [mbind result_bind]. split; [apply raises_Ok|].
  intros request st' [= <- <-]. split; [|by exists text]. cbn [rd_requests].
  intros Hvalid k r [[<- <-]|[_ Hk]]%lookup_insert_Some; [by split|by eapply Hvalid].
Qed.

(** *** Reads *)

Lemma get_request_errors id requester t : requests_ok t → raises_only (eq ChangeRequestNotFound) (get_request id requester t).
Proof.
  intros Hok. unfold get_request. destruct (t !! id) as [r|] eqn:Hr; [|by apply raises_Raise].
  destruct (Hok _ _ Hr) as [_ [req ->]]. raises. done.
Qed.

Lemma lock_request_errors id t : requests_ok t → raises_only (λ e, rejection_error e = true) (lock_request id t).
Proof.
  intros Hok. unfold lock_request. destruct (t !! id) as [r|] eqn:Hr; [|by apply raises_Raise].
  destruct (Hok _ _ Hr) as [_ [req ->]]. cbn [mbind result_bind]. unfold require_pending. raises. done.
Qed.

(** *** Writing a review *)

Lemma update_request_ready r new t :
  requests_ok t → request_valid r → rw_status r = PENDING → rw_status new ≠ PENDING → rw_id new = rw_id r →
  rw_original new = rw_original r → rw_requester_id new = rw_requester_id r → rw_reason new = rw_reason r →
  rw_created_at new = rw_created_at r → message_wf (rw_review_message new) → ck_review new = true →
  (∀ id r', t !! id = Some r' → rw_applied_change_set_id r' ≠ rw_applied_change_set_id new) ∨ rw_applied_change_set_id new = None →
  update_request r new t = Ok (<[rw_id new := new]> t) ∧ request_valid new.
Proof.
  intros Hok [Hck Ho] Hpending Hfinal Hid Horig Hreq Hreason Hcreated Hm Hreview Hfresh.
  apply ck_request_Ok in Hck as (Hco & Hcr & _ & _).
  assert (ck_request new = Ok tt) as Hnew.
  { apply ck_request_Ok. split_and!; [unfold ck_original; by rewrite Horig|unfold ck_reason; by rewrite Hreason
      |by apply message_checked|done]. }
  split; [|split; [done|by rewrite Horig]]. unfold update_request, cr_before_update.
  rewrite Hid, Horig, Hreq, Hreason, Hcreated, !Z.eqb_refl, Hpending, (bool_decide_eq_false_2 _ Hfinal),
    (bool_decide_eq_true_2 (PENDING = PENDING)), (bool_decide_eq_true_2 (rw_original r = _)),
    (bool_decide_eq_true_2 (rw_reason r = _)) by done.
  cbn [negb orb raise_if mbind result_bind]. by rewrite Hnew, fresh_change_set.
Qed.

(** The review of a locked request is within the constraints. *)
Lemma locked_pending id t r original :
  requests_ok t → requests_valid t → lock_request id t = Ok r → request_of r = Ok original →
  request_valid r ∧ t !! id = Some r ∧ rw_status r = PENDING ∧ cr_status original = PENDING ∧
  ChangeRequest_init original = Ok original ∧ rw_original r = proposal_columns (cr_original original) ∧
  proposal_wf (cr_original original) ∧ cr_created_at original = utc (rw_created_at r) ∧ rw_approved r = no_proposal ∧
  rw_applied_change_set_id r = None.
Proof.
  intros Hok Hvalid (Hr & req & Hreq & Hpending)%lock_request_Ok Ho. assert (req = original) as -> by congruence.
  pose proof (request_of_fields _ _ Ho) as (Hinit & Horig & _ & _ & _ & Hcreated & Hstatus & _).
  destruct (Hvalid _ _ Hr) as [Hck (p & Hp & Hcols)]. pose proof (Hvalid _ _ Hr) as Hrv.
  rewrite Hcols, (proposal_columns_read p Hp) in Horig. injection Horig as <-.
  assert (rw_status r = PENDING) as Hs by congruence.
  apply ck_request_Ok in Hck as (_ & _ & _ & Hreview). unfold ck_review in Hreview. rewrite Hs in Hreview.
  apply andb_true_iff in Hreview as [Hreview Hcs]. apply andb_true_iff in Hreview as [_ Ha%bool_decide_eq_true].
  split_and!; try done. by destruct (rw_applied_change_set_id r).
Qed.

Lemma ChangeRequest_review_init r :
  cp_operation (cr_original r) ≠ OP_RESTORE → is_naive (cr_created_at r) = false → cr_status r ≠ PENDING →
  (∃ u, cr_reviewer_id r = Some u) → (∃ t, cr_reviewed_at r = Some t ∧ is_naive t = false ∧ instant (cr_created_at r) ≤ instant t) →
  (cr_status r = REJECTED ∧ cr_review_message r ≠ None ∧ cr_approved r = None ∧ cr_applied_change_set_id r = None ∨
   cr_status r ≠ REJECTED ∧ ∃ p cs, cr_approved r = Some p ∧ cr_applied_change_set_id r = Some cs ∧ uuid_version cs = Some 7 ∧
     classify_approval r p (cr_review_message r) = Ok (cr_status r)) →
  ChangeRequest_init r = Ok r.
Proof.
  intros Ho Hc Hs [u Hu] (t & Ht & Hnaive & Hafter) Hcase. unfold ChangeRequest_init, dt_ltb.
  rewrite (bool_decide_eq_false_2 _ Ho), Hc, (bool_decide_eq_false_2 _ Hs), Hu, Ht, Hnaive.
  assert ((instant t <? instant (cr_created_at r)) = false) as -> by (by apply Z.ltb_ge). cbn [orb raise_if mbind result_bind absent].
  destruct Hcase as [(Hr & Hm & Ha & Hcs)|(Hr & p & cs & Ha & Hcs & Hv & Hclass)].
  - rewrite (bool_decide_eq_true_2 _ Hr), Ha, Hcs. by destruct (cr_review_message r).
  - rewrite (bool_decide_eq_false_2 _ Hr), Ha, Hcs, (bool_decide_eq_true_2 _ Hv). cbn [negb raise_if mbind result_bind].
    rewrite Hclass. cbn [mbind result_bind]. by rewrite bool_decide_eq_true_2.
Qed.

Lemma original_not_restore original : ChangeRequest_init original = Ok original → cp_operation (cr_original original) ≠ OP_RESTORE.
Proof. unfold ChangeRequest_init. by intros (_ & H1%raise_if_Ok%bool_decide_eq_false & _)%bind_Ok. Qed.

(** *** Rejections *)

Lemma reject_spec clock p id message st :
  requests_ok (rd_requests st) → requests_valid (rd_requests st) → ReviewMessage_init message = Ok message →
  raises_only (λ e, rejection_error e = true) (reject clock p id message st) ∧
  ∀ reviewed st', reject clock p id message st = Ok (reviewed, st') → requests_valid (rd_requests st').
Proof.
  intros Hok Hvalid Hm. unfold reject, reject_request.
  destruct (authorize p REVIEW_CHANGE_REQUEST) as [q|e] eqn:Ha; cbn [mbind result_bind].
  2: { split; [|done]. intros ? [= <-]. unfold authorize in Ha. destruct (negb _); [by injection Ha as <-|done]. }
  destruct (lock_request id (rd_requests st)) as [r|e] eqn:Hlock; cbn [mbind result_bind].
  2: { split; [|done]. intros ? [= <-]. by apply (lock_request_errors id _ Hok). }
  destruct (proj1 (lock_request_Ok _ _ _) Hlock) as [_ (original & Ho & _)]. rewrite Ho. cbn [mbind result_bind].
  destruct (locked_pending _ _ _ _ Hok Hvalid Hlock Ho)
    as (Hrv & Hr & Hstatus & Hpending & Hinit & Hcols & Hpwf & Hcreated & Happ & Hcs).
  pose proof (pending_unreviewed _ Hinit Hpending) as [Hna Hnc]. set (now := Z.max clock _).
  unfold ChangeRequest_reject, require_pending. rewrite (bool_decide_eq_true_2 _ Hpending).
  cbn [negb raise_if mbind result_bind]. set (reviewed := mkChangeRequest _ _ _ _ _ REJECTED _ _ _ _ _).
  rewrite (ChangeRequest_review_init reviewed); cbn; try done.
  2: by apply original_not_restore.
  2: by rewrite Hcreated.
  2: by eexists.
  2: { eexists. split_and!; [done|done|]. unfold now. cbn. lia. }
  2: { left. by rewrite Hna, Hnc. }
  destruct (update_request_ready r (set_review r reviewed) (rd_requests st) Hok Hrv Hstatus) as [-> Hnew]; try done.
  - by intros text [= <-].
  - unfold ck_review, reviewed_in_time. cbn. rewrite Hna, Happ, Hnc. cbn.
    assert ((rw_created_at r <=? now) = true) as -> by (apply Z.leb_le; unfold now; rewrite Hcreated; cbn; lia). done.
  - right. cbn. done.
  - cbn. split; [apply raises_Ok|]. intros ? st' [= <- <-]. cbn.
    intros k r' [[<- <-]|[_ Hk]]%lookup_insert_Some; [done|by eapply Hvalid].
Qed.

(** *** Approvals *)

(** What the review of an approval writes. *)
Lemma approve_review_row cs p message now r id t original proposal v :
  requests_ok t → requests_valid t → lock_request id t = Ok r → request_of r = Ok original →
  proposal_wf proposal → validate_proposal proposal = Ok v → message_wf message → uuid_version cs = Some 7 →
  (∀ k r', t !! k = Some r' → rw_applied_change_set_id r' ≠ Some cs) → rw_created_at r ≤ now →
  (∃ status, classify_approval original proposal message = Ok status) →
  ∃ reviewed, ChangeRequest_approve original proposal (principal_id p) (utc now) cs message = Ok reviewed ∧
    let new := set_review r reviewed in
    update_request r new t = Ok (<[rw_id new := new]> t) ∧ request_valid new.
Proof.
  intros Hok Hvalid Hlock Ho Hwf Hv Hm Hcs Hfresh Hnow [status Hclass].
  destruct (locked_pending _ _ _ _ Hok Hvalid Hlock Ho)
    as (Hrv & Hr & Hstatus & Hpending & Hinit & Hcols & Hpwf & Hcreated & Happ & Hnone).
  pose proof (classify_approval_Ok _ _ _ _ Hclass) as [Hallowed Hcase].
  unfold ChangeRequest_approve, require_pending. rewrite (bool_decide_eq_true_2 _ Hpending).
  cbn [negb raise_if mbind result_bind]. rewrite Hclass. cbn [mbind result_bind].
  set (reviewed := mkChangeRequest _ _ _ _ _ status _ _ _ _ _). exists reviewed.
  assert (status ≠ PENDING ∧ status ≠ REJECTED) as [Hnp Hnr] by (destruct Hcase as [[-> _]|[-> _]]; done).
  split.
  { apply ChangeRequest_review_init; cbn; try done.
    - by apply original_not_restore.
    - by rewrite Hcreated.
    - by eexists.
    - exists (utc now). split_and!; [done|done|]. by rewrite Hcreated.
    - right. split; [done|]. exists proposal, cs. split_and!; try done. }
  set (new := set_review r reviewed).
  apply (update_request_ready r new t Hok Hrv Hstatus); try done; [|by left].
  unfold ck_review, reviewed_in_time. cbn [new set_review reviewed rw_original rw_approved rw_status rw_reviewer_id rw_reviewed_at
    rw_created_at rw_applied_change_set_id rw_review_message cr_status cr_approved cr_reviewer_id cr_reviewed_at
    cr_applied_change_set_id cr_review_message fmap option_fmap option_map instant utc absent negb andb].
  apply Z.leb_le in Hnow. change (instant (utc now)) with now.
  rewrite Hnow, (bool_decide_eq_true_2 _ Hcs), (validated_columns _ _ Hwf Hv), Hcols.
  cbn [proposal_columns pc_operation pc_target_id].
  assert (bool_decide (Some (cp_operation proposal) = Some (cp_operation (cr_original original)))
    && bool_decide (cp_target_id proposal = cp_target_id (cr_original original))
    || bool_decide (Some (cp_operation (cr_original original)) = Some OP_CREATE)
       && bool_decide (Some (cp_operation proposal) = Some OP_RESTORE) = true) as Hal.
  { destruct Hallowed as [[-> ->]|[-> ->]]; apply orb_true_iff; [left|right]; apply andb_true_iff; by rewrite !bool_decide_eq_true. }
  change (pc_operation (proposal_columns ?p)) with (Some (cp_operation p)).
  destruct Hcase as [[-> Heq]|(-> & Hne & Hmsg)]; cbn [andb].
  - rewrite Hal, (bool_decide_eq_true_2 (APPROVED = APPROVED)) by done. cbn [andb].
    apply bool_decide_eq_true. by rewrite Heq.
  - rewrite Hal, (bool_decide_eq_false_2 (MODIFIED_AND_APPROVED = APPROVED)) by done. cbn [andb].
    destruct message as [text|]; [|done]. cbn. apply negb_true_iff, bool_decide_eq_false. intros E. apply Hne.
    by apply proposal_columns_inj.
Qed.

Lemma prepare_approval_classified cs p approved message request plan :
  prepare_approval cs p approved message request = Ok plan →
  ∃ status, classify_approval request (ap_proposal plan) message = Ok status.
Proof.
  intros Hok. pose proof (prepare_approval_Ok _ _ _ _ _ _ Hok) as [-> _]. unfold prepare_approval in Hok.
  apply bind_Ok in Hok as (_ & _ & Hok). cbv zeta in Hok. apply bind_Ok in Hok as (status & Hs & _). by exists status.
Qed.

Lemma approve_spec env seen requery clock cs p id approved message st :
  db_ok (rd_db st) → served env seen (rd_db st) → requests_ok (rd_requests st) → requests_valid (rd_requests st) →
  review_input p approved message → uuid_version cs = Some 7 →
  (∀ k r, rd_requests st !! k = Some r → rw_applied_change_set_id r ≠ Some cs) →
  review_errors (approve env seen requery clock cs p id approved message st) ∧
  ∀ reviewed st', approve env seen requery clock cs p id approved message st = Ok (reviewed, st') →
    requests_valid (rd_requests st').
Proof.
  intros Hdb Hserved Hok Hvalid [Hu Hap Hm] Hcs Hfresh. unfold approve, approve_request.
  destruct (authorize p REVIEW_CHANGE_REQUEST) as [q|e] eqn:Ha; cbn [mbind result_bind].
  2: { split; [|done]. intros ? [= <-]. unfold authorize in Ha. destruct (negb _); [by injection Ha as <-|done]. }
  destruct (lock_request id (rd_requests st)) as [r|e] eqn:Hlock; cbn [mbind result_bind].
  2: { split; [|done]. intros ? [= <-]. pose proof (lock_request_errors id _ Hok e Hlock) as He. by destruct e. }
  destruct (proj1 (lock_request_Ok _ _ _) Hlock) as [_ (original & Ho & _)]. rewrite Ho. cbn [mbind result_bind].
  destruct (locked_pending _ _ _ _ Hok Hvalid Hlock Ho) as (_ & _ & _ & _ & _ & _ & Hpwf & Hcreated & _).
  assert (proposal_wf (default (cr_original original) approved)) as Hwf by (destruct approved; [by apply Hap|done]).
  destruct (prepare_approval_spec cs p approved message original Hcs Hm Hwf) as [Hpe Hpo].
  destruct (prepare_approval cs p approved message original) as [plan|e] eqn:Hplan; cbn [mbind result_bind].
  2: { split; [|done]. intros ? [= <-]. by apply Hpe. }
  specialize (Hpo plan eq_refl). destruct (prepare_approval_classified _ _ _ _ _ _ Hplan) as [status Hclass].
  apply prepare_approval_Ok in Hplan as (Hprop & Hmsg & _ & _ & Hval & Hnames).
  assert (actor_uuid (ap_audit plan) = Ok (principal_id p)) as Hactor.
  { destruct Hnames as (_ & _ & Hactor & _). unfold actor_uuid. rewrite Hactor. cbn [AuditActor_human actor_id].
    by rewrite (parse_UUID_str _ Hu). }
  assert (md_change_set_id (ap_audit plan) = cs) as Hset by apply Hnames.
  rewrite <- Hprop in Hwf. rewrite Hmsg.
  assert (∀ result : MasterCode, ∃ reviewed,
    ChangeRequest_approve original (ap_proposal plan) (principal_id p)
      (utc (Z.max (Z.max clock (instant (cr_created_at original))) (instant (mc_updated_at result)))) cs message = Ok reviewed ∧
    let new := set_review r reviewed in
    update_request r new (rd_requests st) = Ok (<[rw_id new := new]> (rd_requests st)) ∧ request_valid new) as Hreview.
  { intros result. eapply approve_review_row; try done; [|by exists status]. rewrite Hcreated. cbn. lia. }
  split.
  - apply translated_errors. apply raises_bind; [by apply apply_plan_errors|]. intros [result db'] _. cbv zeta.
    rewrite Hactor, Hset. cbn [mbind result_bind]. destruct (Hreview result) as (reviewed & -> & Hupd & _).
    cbn [mbind result_bind]. cbv zeta in Hupd. rewrite Hupd. apply raises_Ok.
  - intros reviewed st' Happly%translated_Ok. apply bind_Ok in Happly as ([result db'] & _ & Happly). cbv zeta in Happly.
    rewrite Hactor, Hset in Happly. cbn [mbind result_bind] in Happly.
    destruct (Hreview result) as (reviewed' & Hr' & Hupd & Hnew). rewrite Hr' in Happly. cbn [mbind result_bind] in Happly.
    cbv zeta in Hupd. rewrite Hupd in Happly. injection Happly as _ <-. cbn [rd_requests].
    intros k r' [[<- <-]|[_ Hk]]%lookup_insert_Some; [done|by eapply Hvalid].
Qed.
End unicode.
