(* ===== verification/Credentials.v ===== *)
(** * Opaque credentials
    ([src/src/mdm/domain/credentials.py], [src/src/mdm/application/tokens.py])

    Refresh, registration, password reset and CSRF tokens are the canonical
    unpadded base64url text of 256 random bits; only the SHA-256 digest of the
    bits is ever stored. *)

From S2P Require Import Prelude Python Exceptions Sha256.
Local Open Scope Z_scope.

(** ** base64url *)

(** The character of a 6-bit value, and back. *)
Definition b64_char (v : Z) : Z :=
  if v <? 26 then 65 + v else if v <? 52 then 97 + (v - 26) else if v <? 62 then 48 + (v - 52)
  else if v =? 62 then dash else underscore.
Definition b64_value (c : Z) : option Z :=
  if in_range 65 90 c then Some (c - 65) else if in_range 97 122 c then Some (c - 97 + 26)
  else if in_range 48 57 c then Some (c - 48 + 52) else if c =? dash then Some 62
  else if c =? underscore then Some 63 else None.
Definition pad : Z := 61.

(** [base64.urlsafe_b64encode(raw).rstrip(b'=')] *)
Fixpoint b64encode (raw : list Z) : pystr :=
  match raw with
  | a :: b :: c :: rest =>
      b64_char (a / 4) :: b64_char (a mod 4 * 16 + b / 16) :: b64_char (b mod 16 * 4 + c / 64)
        :: b64_char (c mod 64) :: b64encode rest
  | [a; b] => [b64_char (a / 4); b64_char (a mod 4 * 16 + b / 16); b64_char (b mod 16 * 4)]
  | [a] => [b64_char (a / 4); b64_char (a mod 4 * 16)]
  | [] => []
  end.

(** [base64.urlsafe_b64decode] of characters of the alphabet with their
    padding: the excess bits of the last group are dropped.  Characters outside
    the alphabet, which the decoder would skip, never reach it. *)
Fixpoint urlsafe_b64decode (s : pystr) : res (list Z) :=
  match s with
  | [] => Ok []
  | c1 :: c2 :: c3 :: c4 :: rest =>
      match b64_value c1, b64_value c2, b64_value c3, b64_value c4, rest with
      | Some v1, Some v2, Some v3, Some v4, _ =>
          tail ← urlsafe_b64decode rest;
          Ok (v1 * 4 + v2 / 16 :: v2 mod 16 * 16 + v3 / 4 :: v3 mod 4 * 64 + v4 :: tail)
      | Some v1, Some v2, Some v3, None, [] =>
          if c4 =? pad then Ok [v1 * 4 + v2 / 16; v2 mod 16 * 16 + v3 / 4]
          else Raise (ValueError "Incorrect padding")
      | Some v1, Some v2, None, None, [] =>
          if (c3 =? pad) && (c4 =? pad) then Ok [v1 * 4 + v2 / 16]
          else Raise (ValueError "Incorrect padding")
      | _, _, _, _, _ => Raise (ValueError "Incorrect padding")
      end
  | _ => Raise (ValueError "Incorrect padding")
  end.

(** ** Tokens *)

(** [_TOKEN_PATTERN.fullmatch] *)
Definition token_pattern (s : pystr) : bool :=
  (length s =? 43)%nat && forallb (λ c, bool_decide (is_Some (b64_value c))) s.

(** [OpaqueToken.__post_init__]; a token is its wire value. *)
Definition OpaqueToken_init (value : pystr) : res pystr :=
  _ ← raise_if (negb (token_pattern value)) InvalidOpaqueToken;
  raw ← catch (urlsafe_b64decode (value ++ [pad]))
          (λ e, match e with ValueError _ => Raise InvalidOpaqueToken | _ => Raise e end);
  _ ← raise_if (negb (length raw =? 32)%nat || negb (bool_decide (b64encode raw = value)))
        InvalidOpaqueToken;
  Ok value.

(** [OpaqueToken.digest]; the decoding of a token succeeds. *)
Definition token_digest (token : pystr) : list Z :=
  match urlsafe_b64decode (token ++ [pad]) with Ok raw => sha256 raw | Raise _ => [] end.

(** [csrf_tokens_match]: [hmac.compare_digest] of the wire values. *)
Definition csrf_tokens_match (cookie_token header_token : pystr) : bool :=
  bool_decide (cookie_token = header_token).

(** [generate_opaque_token]; [raw] is what the random source returns. *)
Definition generate_opaque_token (raw : list Z) : res pystr :=
  _ ← raise_if (negb (length raw =? 32)%nat)
        (ValueError "random source must return exactly 32 bytes");
  OpaqueToken_init (b64encode raw).

(** A loop that draws until a draw is accepted, at most [n] times: the shape of
    every issuing loop of the program, with [n = 4]. *)
Fixpoint draw_until {T X} (attempt : T → res X) (collides : exn → bool) (draw : nat → T)
    (n k : nat) : res (T * X) :=
  match n with
  | O => Raise OpaqueTokenCollision
  | S n =>
      match attempt (draw k) with
      | Ok x => Ok (draw k, x)
      | Raise e => if collides e then draw_until attempt collides draw n (S k) else Raise e
      end
  end.

(** [issue_unique_opaque_token]; [random_bytes k] is the k-th sample. *)
Fixpoint issue_unique_go (digest_exists : list Z → bool) (random_bytes : nat → list Z) (n k : nat)
    : res pystr :=
  match n with
  | O => Raise OpaqueTokenCollision
  | S n =>
      token ← generate_opaque_token (random_bytes k);
      if digest_exists (token_digest token) then issue_unique_go digest_exists random_bytes n (S k)
      else Ok token
  end.
Definition issue_unique_opaque_token (digest_exists : list Z → bool) (random_bytes : nat → list Z)
    : res pystr := issue_unique_go digest_exists random_bytes 4 0.

(** ** Encoding and decoding *)

Definition is_byte (b : Z) : Prop := 0 ≤ b < 256.

Lemma b64_value_char v : 0 ≤ v < 64 → b64_value (b64_char v) = Some v.
Proof.
  intros Hv. assert (∀ n, (n < 64)%nat → b64_value (b64_char (Z.of_nat n)) = Some (Z.of_nat n)) as Hall.
  { intros n Hn. do 64 (destruct n as [|n]; [vm_compute; reflexivity|]). lia. }
  rewrite <- (Z2Nat.id v) by lia. apply Hall. lia.
Qed.

Lemma b64_char_not_pad v : 0 ≤ v < 64 → b64_char v ≠ pad.
Proof. intros Hv Hc. pose proof (b64_value_char v Hv) as H. by rewrite Hc in H. Qed.

Lemma b64_value_range c v : b64_value c = Some v → 0 ≤ v < 64.
Proof.
  unfold b64_value, in_range, dash, underscore. intros H.
  repeat (destruct (_ && _) eqn:E in H; [apply andb_true_iff in E as [?%Z.leb_le ?%Z.leb_le]; injection H; lia|clear E]).
  destruct (c =? 45); [injection H; lia|]. destruct (c =? 95); [injection H; lia|done].
Qed.

(** Lists of bytes, three at a time. *)
Lemma triples_ind (P : list Z → Prop) :
  P [] → (∀ a, P [a]) → (∀ a b, P [a; b]) → (∀ a b c l, P l → P (a :: b :: c :: l)) → ∀ l, P l.
Proof.
  intros H0 H1 H2 H3. assert (∀ l, P l ∧ (∀ a, P (a :: l)) ∧ ∀ a b, P (a :: b :: l)) as H; [|by intros l; apply H].
  induction l as [|c l (IH & IH1 & IH2)]; [done|]. split_and!; auto.
Qed.

Lemma sextets a b c :
  is_byte a → is_byte b → is_byte c →
  0 ≤ a / 4 < 64 ∧ 0 ≤ a mod 4 * 16 + b / 16 < 64 ∧ 0 ≤ b mod 16 * 4 + c / 64 < 64 ∧ 0 ≤ c mod 64 < 64 ∧
  a / 4 * 4 + (a mod 4 * 16 + b / 16) / 16 = a ∧
  (a mod 4 * 16 + b / 16) mod 16 * 16 + (b mod 16 * 4 + c / 64) / 4 = b ∧
  (b mod 16 * 4 + c / 64) mod 4 * 64 + c mod 64 = c.
Proof. unfold is_byte. intros. split_and!; Z.to_euclidean_division_equations; lia. Qed.

Lemma b64decode_encode raw :
  Forall is_byte raw → (length raw mod 3 = 2)%nat → urlsafe_b64decode (b64encode raw ++ [pad]) = Ok raw.
Proof.
  induction raw as [|a|a b|a b c raw IH] using triples_ind; intros Hb Hlen; [done|done| |].
  - repeat (apply Forall_cons in Hb as [? Hb]).
    destruct (sextets a b 0) as (? & ? & ? & _ & Ha & Hb2 & _); [done|done|unfold is_byte; lia|].
    rewrite Z.div_0_l, Z.add_0_r in * by lia.
    cbn. rewrite !b64_value_char by done. cbn. do 3 f_equal; [done|]. by f_equal.
  - repeat (apply Forall_cons in Hb as [? Hb]).
    destruct (sextets a b c) as (? & ? & ? & ? & Ha & Hb2 & Hc); [done..|].
    cbn [b64encode app urlsafe_b64decode]. rewrite !b64_value_char by done.
    rewrite IH; [|done|].
    + cbn. by rewrite Ha, Hb2, Hc.
    + cbn [length] in Hlen. replace (S (S (S (length raw)))) with (length raw + 1 * 3)%nat in Hlen by lia.
      by rewrite Nat.Div0.mod_add in Hlen.
Qed.

Lemma b64decode_bytes s raw : urlsafe_b64decode s = Ok raw → Forall is_byte raw.
Proof.
  assert (∀ v1 v2 v3 v4, 0 ≤ v1 < 64 → 0 ≤ v2 < 64 → 0 ≤ v3 < 64 → 0 ≤ v4 < 64 →
    is_byte (v1 * 4 + v2 / 16) ∧ is_byte (v2 mod 16 * 16 + v3 / 4) ∧ is_byte (v3 mod 4 * 64 + v4)) as Hr
    by (unfold is_byte; intros; split_and!; Z.to_euclidean_division_equations; lia).
  revert raw. induction s as [s IH] using (induction_ltof1 _ (@length Z)).
  intros raw Hs. destruct s as [|c1 [|c2 [|c3 [|c4 rest]]]]; try done; [by injection Hs as <-|].
  cbn in Hs.
  destruct (b64_value c1) as [v1|] eqn:E1, (b64_value c2) as [v2|] eqn:E2; try done.
  apply b64_value_range in E1, E2.
  destruct (b64_value c3) as [v3|] eqn:E3, (b64_value c4) as [v4|] eqn:E4;
    repeat match goal with E : b64_value _ = Some _ |- _ => apply b64_value_range in E end.
  - apply bind_Ok in Hs as (tail & Ht & [= <-]). destruct (Hr v1 v2 v3 v4) as (? & ? & ?); [done..|].
    do 3 (apply Forall_cons_2; [done|]). eapply IH; [|exact Ht]. unfold ltof. cbn. lia.
  - destruct rest; [|done]. destruct (c4 =? pad); [|done]. injection Hs as <-.
    destruct (Hr v1 v2 v3 0) as (? & ? & _); [lia..|]. by do 2 (apply Forall_cons_2; [done|]).
  - by destruct rest.
  - destruct rest; [|done]. destruct (_ && _); [|done]. injection Hs as <-.
    destruct (Hr v1 v2 0 0) as (? & _); [lia..|]. by apply Forall_singleton.
Qed.

Lemma b64encode_shape raw :
  Forall is_byte raw → (length raw mod 3 = 2)%nat →
  length (b64encode raw) = (length raw / 3 * 4 + 3)%nat ∧
  forallb (λ c, bool_decide (is_Some (b64_value c))) (b64encode raw) = true.
Proof.
  assert (∀ v, 0 ≤ v < 64 → bool_decide (is_Some (b64_value (b64_char v))) = true) as Hv
    by (intros v Hv; apply bool_decide_eq_true; rewrite b64_value_char by done; by eexists).
  induction raw as [|a|a b|a b c raw IH] using triples_ind; intros Hb Hlen; [done|done| |].
  - repeat (apply Forall_cons in Hb as [? Hb]).
    destruct (sextets a b 0) as (? & ? & ? & _); [done|done|unfold is_byte; lia|].
    rewrite Z.div_0_l, Z.add_0_r in * by lia. split; [done|]. cbn. by rewrite !Hv.
  - repeat (apply Forall_cons in Hb as [? Hb]).
    destruct (sextets a b c) as (? & ? & ? & ? & _); [done..|]. cbn [length] in Hlen |- *.
    replace (S (S (S (length raw)))) with (length raw + 1 * 3)%nat in * by lia.
    rewrite Nat.Div0.mod_add in Hlen. destruct IH as [IHl IHa]; [done..|].
    rewrite Nat.div_add by lia. cbn [b64encode length forallb]. rewrite !Hv by done. split; [lia|done].
Qed.

(** A token is the text of 32 bytes. *)
Definition token_of (raw : list Z) (token : pystr) : Prop :=
  Forall is_byte raw ∧ length raw = 32%nat ∧ token = b64encode raw.

Lemma OpaqueToken_init_Ok value token :
  OpaqueToken_init value = Ok token ↔ token = value ∧ ∃ raw, token_of raw value.
Proof.
  unfold OpaqueToken_init. split.
  - intros (_ & _ & Hok)%bind_Ok. apply bind_Ok in Hok as (raw & Hraw & Hok).
    apply catch_Ok in Hraw as [Hraw|(e & _ & He)]; [|by destruct e].
    apply bind_Ok in Hok as (_ & Hc%raise_if_Ok & [= <-]).
    apply orb_false_iff in Hc as [Hl%negb_false_iff%Nat.eqb_eq He%negb_false_iff%bool_decide_eq_true].
    split; [done|]. exists raw. split; [by eapply b64decode_bytes|done].
  - intros [-> (raw & Hb & Hl & ->)].
    assert (length raw mod 3 = 2)%nat as Hm by by rewrite Hl.
    destruct (b64encode_shape raw Hb Hm) as [Hlen Hall].
    unfold token_pattern. rewrite Hlen, Hall, Hl. cbn [Nat.div Nat.divmod fst Nat.mul Nat.add Nat.eqb andb negb raise_if mbind result_bind].
    change (32 / 3 * 4 + 3 =? 43)%nat with true. cbn [andb negb raise_if mbind result_bind].
    rewrite b64decode_encode by done. cbn [catch mbind result_bind]. rewrite Hl, bool_decide_eq_true_2 by done. done.
Qed.

Lemma token_digest_of raw token : token_of raw token → token_digest token = sha256 raw.
Proof. intros (Hb & Hl & ->). unfold token_digest. by rewrite b64decode_encode by (done || by rewrite Hl). Qed.

Lemma generate_opaque_token_Ok raw :
  Forall is_byte raw → length raw = 32%nat →
  generate_opaque_token raw = Ok (b64encode raw) ∧ token_of raw (b64encode raw).
Proof.
  intros Hb Hl. assert (token_of raw (b64encode raw)) as Ht by done. split; [|done].
  unfold generate_opaque_token. rewrite Hl. cbn [Nat.eqb negb raise_if mbind result_bind].
  apply OpaqueToken_init_Ok. by split; [|exists raw].
Qed.

(** ** Drawing until a draw is accepted *)

(** The first accepted draw, if one of the next [n] is; a draw that fails
    otherwise ends the loop. *)
Lemma draw_until_spec {T X} (attempt : T → res X) collides draw n k :
  match draw_until attempt collides draw n k with
  | Ok (t, x) => ∃ i, (k ≤ i < k + n)%nat ∧ t = draw i ∧ attempt (draw i) = Ok x ∧
      ∀ j, (k ≤ j < i)%nat → ∃ e, attempt (draw j) = Raise e ∧ collides e = true
  | Raise e =>
      (e = OpaqueTokenCollision ∧
         ∀ j, (k ≤ j < k + n)%nat → ∃ e, attempt (draw j) = Raise e ∧ collides e = true) ∨
      ∃ i, (k ≤ i < k + n)%nat ∧ attempt (draw i) = Raise e ∧ collides e = false
  end.
Proof.
  revert k. induction n as [|n IH]; intros k; cbn; [left; split; [done|lia]|].
  destruct (attempt (draw k)) as [x|e] eqn:E; [exists k; split_and!; [lia|lia|done|done|lia]|].
  destruct (collides e) eqn:Hc; [|right; exists k; split_and!; [lia|lia|done|done]].
  assert (∀ m : nat, (∀ j, (S k ≤ j < m)%nat → ∃ e, attempt (draw j) = Raise e ∧ collides e = true) →
    ∀ j, (k ≤ j < m)%nat → ∃ e, attempt (draw j) = Raise e ∧ collides e = true) as Hall.
  { intros m Hm j Hj. destruct (decide (j = k)) as [->|]; [by exists e|]. apply Hm. lia. }
  specialize (IH (S k)). destruct (draw_until attempt collides draw n (S k)) as [[t x]|e'].
  - destruct IH as (i & Hi & -> & ? & Hj). exists i. split_and!; [lia|lia|done|done|by apply Hall].
  - destruct IH as [[-> Hj]|(i & Hi & ? & ?)].
    + left. split; [done|]. apply Hall. intros j ?. apply Hj. lia.
    + right. exists i. split_and!; [lia|lia|done|done].
Qed.

(** C18: the tokens are exactly the encodings of 256 random bits: a value is
    accepted precisely when it is the canonical text of 32 bytes, every sample
    generates a token, different samples different tokens, and the stored
    digest is the SHA-256 of the sample. *)
Theorem opaque_tokens (raw raw' : list Z) (value token : pystr) :
  (OpaqueToken_init value = Ok token ↔
     token = value ∧ ∃ raw, Forall is_byte raw ∧ length raw = 32%nat ∧
       generate_opaque_token raw = Ok value) ∧
  (Forall is_byte raw → length raw = 32%nat → Forall is_byte raw' → length raw' = 32%nat →
     ∃ t t', generate_opaque_token raw = Ok t ∧ generate_opaque_token raw' = Ok t' ∧
       OpaqueToken_init t = Ok t ∧ length t = 43%nat ∧ urlsafe_b64decode (t ++ [pad]) = Ok raw ∧
       token_digest t = sha256 raw ∧ (csrf_tokens_match t t' = true ↔ raw = raw')).
Proof.
  split.
  - rewrite OpaqueToken_init_Ok. split; intros [-> (r & Hr)]; (split; [done|]); exists r.
    + destruct Hr as (Hb & Hl & ->). split_and!; [done..|]. by apply generate_opaque_token_Ok.
    + destruct Hr as (Hb & Hl & Hg). destruct (generate_opaque_token_Ok r Hb Hl) as [Hg' Ht].
      rewrite Hg in Hg'. by injection Hg' as ->.
  - intros Hb Hl Hb' Hl'. destruct (generate_opaque_token_Ok raw Hb Hl) as [Hg Ht].
    destruct (generate_opaque_token_Ok raw' Hb' Hl') as [Hg' Ht'].
    assert (∀ r : list Z, length r = 32%nat → (length r mod 3 = 2)%nat) as Hm by by intros r ->.
    exists (b64encode raw), (b64encode raw'). split_and!; try done.
    + apply OpaqueToken_init_Ok. by split; [|exists raw].
    + rewrite (proj1 (b64encode_shape raw Hb (Hm _ Hl))). by rewrite Hl.
    + by apply b64decode_encode; [|apply Hm].
    + by apply token_digest_of.
    + unfold csrf_tokens_match. rewrite bool_decide_eq_true. split; [|by intros ->].
      intros Heq. pose proof (b64decode_encode raw Hb (Hm _ Hl)) as H1.
      rewrite Heq, (b64decode_encode raw' Hb' (Hm _ Hl')) in H1. by injection H1.
Qed.

(** C19: issuing a token stops after at most four samples: with the first sample
    whose digest is free, or with OpaqueTokenCollision when the digests of all
    four are taken. *)
Theorem issue_unique_terminates (digest_exists : list Z → bool) (random_bytes : nat → list Z) :
  (∀ k, Forall is_byte (random_bytes k) ∧ length (random_bytes k) = 32%nat) →
  (∀ token, issue_unique_opaque_token digest_exists random_bytes = Ok token ↔
     ∃ k, (k < 4)%nat ∧ token = b64encode (random_bytes k) ∧ digest_exists (sha256 (random_bytes k)) = false ∧
       ∀ j, (j < k)%nat → digest_exists (sha256 (random_bytes j)) = true) ∧
  (∀ e, issue_unique_opaque_token digest_exists random_bytes = Raise e ↔
     e = OpaqueTokenCollision ∧ ∀ j, (j < 4)%nat → digest_exists (sha256 (random_bytes j)) = true).
Proof.
  intros Hrandom.
  assert (∀ n k, match issue_unique_go digest_exists random_bytes n k with
    | Ok token => ∃ i, (k ≤ i < k + n)%nat ∧ token = b64encode (random_bytes i) ∧
        digest_exists (sha256 (random_bytes i)) = false ∧
        ∀ j, (k ≤ j < i)%nat → digest_exists (sha256 (random_bytes j)) = true
    | Raise e => e = OpaqueTokenCollision ∧
        ∀ j, (k ≤ j < k + n)%nat → digest_exists (sha256 (random_bytes j)) = true
    end) as Hgo.
  { induction n as [|n IH]; intros k; cbn; [split; [done|lia]|].
    destruct (Hrandom k) as [Hb Hl]. destruct (generate_opaque_token_Ok _ Hb Hl) as [-> Ht].
    cbn [mbind result_bind]. rewrite (token_digest_of _ _ Ht).
    destruct (digest_exists _) eqn:E; [|exists k; split_and!; [lia|lia|done|done|lia]].
    specialize (IH (S k)). destruct (issue_unique_go _ _ n (S k)) as [t|e].
    - destruct IH as (i & ? & -> & ? & Hj). exists i. split_and!; [lia|lia|done|done|].
      intros j Hk. destruct (decide (j = k)) as [->|]; [done|]. apply Hj. lia.
    - destruct IH as [-> Hj]. split; [done|]. intros j Hk.
      destruct (decide (j = k)) as [->|]; [done|]. apply Hj. lia. }
  specialize (Hgo 4%nat 0%nat). unfold issue_unique_opaque_token.
  destruct (issue_unique_go _ _ 4 0) as [t|e].
  - destruct Hgo as (i & Hi & -> & Hf & Hj). split.
    + intros token. split.
      * intros [= <-]. exists i. split_and!; [lia|done|done|]. intros j ?. apply Hj. lia.
      * intros (k & Hk & -> & Hkf & Hkj). f_equal. f_equal. f_equal.
        destruct (Nat.lt_trichotomy i k) as [Hlt|[->|Hlt]]; [|done|].
        -- by rewrite Hkj in Hf.
        -- rewrite Hj in Hkf; [done|lia].
    + intros e. split; [done|]. intros [_ Hall]. rewrite Hall in Hf; [done|lia].
  - destruct Hgo as [-> Hj]. split.
    + intros token. split; [done|]. intros (k & Hk & _ & Hf & _). rewrite Hj in Hf; [done|lia].
    + intros e. split; [intros [= <-]; split; [done|intros; apply Hj; lia]|]. by intros [-> _].
Qed.

(** ** Witnesses *)

Lemma opaque_tokens_witness :
  ∃ t, generate_opaque_token (repeat 7 32) = Ok t ∧ OpaqueToken_init t = Ok t ∧
    token_digest t = sha256 (repeat 7 32).
Proof.
  assert (∀ b, is_byte b → Forall is_byte (repeat b 32)) as Hb
    by (intros b Hb; apply Forall_forall; intros x Hx%list_elem_of_In%repeat_spec; by subst).
  assert (is_byte 7) as H7 by (unfold is_byte; lia).
  destruct (proj2 (opaque_tokens (repeat 7 32) (repeat 7 32) [] []) (Hb 7 H7) eq_refl (Hb 7 H7) eq_refl)
    as (t & _ & Hg & _ & Hi & _ & _ & Hd & _).
  exists t. exact (conj Hg (conj Hi Hd)).
Defined.

Lemma issue_unique_terminates_witness :
  issue_unique_opaque_token (λ d, bool_decide (d = sha256 (repeat 0 32))) (λ k, repeat (Z.of_nat k mod 256) 32) =
  Ok (b64encode (repeat 1 32)).
Proof.
  apply issue_unique_terminates.
  - intros k. split; [|by rewrite repeat_length].
    apply Forall_forall. intros x Hx%list_elem_of_In%repeat_spec. subst x. unfold is_byte. apply Z.mod_pos_bound. lia.
  - exists 1%nat. split; [lia|]. split; [reflexivity|]. split; [vm_compute; reflexivity|].
    intros [|j] Hj; [vm_compute; reflexivity|lia].
Defined.
