(* ===== verification/RateLimits.v ===== *)
(** * The in-memory rate limiter
    ([src/src/mdm/infrastructure/rate_limits.py],
    [src/src/mdm/application/rate_limits.py])

    Fixed windows of thirty requests in sixty seconds per key, kept in an
    ordered dictionary whose entries stand in expiry order.  The monotonic
    clock is counted in nanoseconds, so the rounding of its floats is not
    modelled. *)

From Stdlib Require Import Sorting.Sorted.
From S2P Require Import Prelude Python Exceptions.
Local Open Scope Z_scope.

Definition second : Z := 1000000000.

Record Window := mkWindow { expires_at : Z; count : Z }.
Record RateLimitDecision := mkRateLimitDecision {
  allowed : bool; retry_after : Z; capacity_exceeded : bool }.

(** The ordered dictionary, oldest entry first. *)
Abbreviation Windows := (list (pystr * Window)).

Definition KEY_PREFIX : pystr := py "mdm:rate-limit:auth:".
(** [_KEY_PATTERN.fullmatch] *)
Definition key_pattern (key : pystr) : bool :=
  bool_decide (take (length KEY_PREFIX) key = KEY_PREFIX)
  && (length key =? length KEY_PREFIX + 64)%nat && forallb is_lower_hex (drop (length KEY_PREFIX) key).
Definition CLEANUP_BATCH : nat := 256.

(** The clean-up loop of [consume]. *)
Fixpoint cleanup (batch : nat) (now : Z) (windows : Windows) : Windows :=
  match batch, windows with
  | S batch, (key, oldest) :: rest =>
      if now <? expires_at oldest then windows else cleanup batch now rest
  | _, _ => windows
  end.

(** [dict.get], [del] and the in-place update of an entry. *)
Definition get (key : pystr) (windows : Windows) : option Window :=
  snd <$> find (λ p, bool_decide (p.1 = key)) windows.
Definition del (key : pystr) (windows : Windows) : Windows :=
  List.filter (λ p, negb (bool_decide (p.1 = key))) windows.
Definition increment (key : pystr) (windows : Windows) : Windows :=
  (λ p, if bool_decide (p.1 = key) then (p.1, mkWindow (expires_at p.2) (count p.2 + 1)) else p) <$> windows.

(** [math.ceil] of a duration, in seconds. *)
Definition ceil_seconds (d : Z) : Z := - (- d / second).

(** [InMemoryRateLimitStore.consume] *)
Definition consume (capacity : nat) (now : Z) (key : pystr) (windows : Windows)
    : res (RateLimitDecision * Windows) :=
  _ ← raise_if (negb (key_pattern key))
        (ValueError "rate limit key must contain only the namespaced IP digest");
  let windows := cleanup CLEANUP_BATCH now windows in
  let found := get key windows in
  let expired := match found with Some w => expires_at w <=? now | None => false end in
  let windows := if expired then del key windows else windows in
  let window := if expired then None else found in
  match window with
  | Some w =>
      if 30 <=? count w
      then Ok (mkRateLimitDecision false (Z.max 1 (ceil_seconds (expires_at w - now))) false, windows)
      else Ok (mkRateLimitDecision true 0 false, increment key windows)
  | None =>
      if (capacity <=? length windows)%nat then Ok (mkRateLimitDecision true 0 true, windows)
      else Ok (mkRateLimitDecision true 0 false, windows ++ [(key, mkWindow (now + 60 * second) 1)])
  end.

(** ** The invariant of the dictionary *)

Definition by_expiry (p q : pystr * Window) : Prop := expires_at p.2 ≤ expires_at q.2.

(** [now] is the latest reading of the clock. *)
Record windows_ok (capacity : nat) (now : Z) (windows : Windows) : Prop := {
  wo_keys : NoDup windows.*1;
  wo_order : StronglySorted by_expiry windows;
  wo_count : ∀ key w, (key, w) ∈ windows → 1 ≤ count w ≤ 30 ∧ expires_at w ≤ now + 60 * second;
  wo_capacity : (length windows ≤ capacity)%nat;
}.

Lemma get_elem key windows w : get key windows = Some w → (key, w) ∈ windows.
Proof.
  unfold get. intros ([k w'] & Hf & ->)%fmap_Some. apply find_some in Hf as [Hin Hk].
  apply bool_decide_eq_true in Hk. cbn in Hk. subst. by apply list_elem_of_In.
Qed.

Lemma get_cons key p windows : get key (p :: windows) = if bool_decide (p.1 = key) then Some p.2 else get key windows.
Proof. unfold get. cbn. by case_bool_decide. Qed.

Lemma get_None key windows : key ∉ windows.*1 → get key windows = None.
Proof.
  induction windows as [|p l IH]; [done|]. rewrite fmap_cons, not_elem_of_cons. intros [? ?].
  rewrite get_cons, bool_decide_eq_false_2 by congruence. auto.
Qed.

Lemma get_app key l1 l2 : get key (l1 ++ l2) = match get key l1 with Some w => Some w | None => get key l2 end.
Proof. induction l1 as [|p l IH]; [done|]. cbn [app]. rewrite !get_cons. by case_bool_decide. Qed.

Lemma get_increment key k windows :
  get k (increment key windows) =
  if bool_decide (k = key) then (λ w, mkWindow (expires_at w) (count w + 1)) <$> get k windows else get k windows.
Proof.
  induction windows as [|p l IH]; [by case_bool_decide|]. unfold increment in *.
  rewrite fmap_cons, !get_cons, IH. repeat case_bool_decide; subst; cbn in *; congruence.
Qed.

Lemma get_del key k windows : get k (del key windows) = if bool_decide (k = key) then None else get k windows.
Proof.
  induction windows as [|p l IH]; [by case_bool_decide|]. unfold del in *. cbn [List.filter].
  destruct (decide (p.1 = key)) as [E|E].
  - rewrite (bool_decide_eq_true_2 (p.1 = key)) by done. cbn [negb]. rewrite IH, get_cons.
    repeat case_bool_decide; congruence.
  - rewrite (bool_decide_eq_false_2 (p.1 = key)) by done. cbn [negb]. rewrite !get_cons, IH.
    repeat case_bool_decide; congruence.
Qed.

(** What clean-up drops is a prefix of expired entries. *)
Lemma cleanup_suffix batch now windows :
  ∃ dropped, windows = dropped ++ cleanup batch now windows ∧ Forall (λ p, expires_at p.2 ≤ now) dropped.
Proof.
  revert windows. induction batch as [|batch IH]; intros windows; [by exists []|].
  destruct windows as [|[k w] l]; [by exists []|]. cbn. destruct (now <? expires_at w) eqn:E; [by exists []|].
  destruct (IH l) as (d & Hl & Hd). exists ((k, w) :: d). split; [cbn; by f_equal|].
  constructor; [cbn; lia|done].
Qed.

(** An entry that has not expired. *)
Definition live (key : pystr) (now : Z) (windows : Windows) : option Window :=
  match get key windows with Some w => if expires_at w <=? now then None else Some w | None => None end.

Lemma live_later key t now windows : t ≤ now → live key t windows = None → live key now windows = None.
Proof. unfold live. destruct (get key windows) as [w|]; [|done]. repeat case_match; try done; lia. Qed.

Lemma live_cleanup batch key now windows :
  NoDup windows.*1 → live key now (cleanup batch now windows) = live key now windows.
Proof.
  intros Hnd. destruct (cleanup_suffix batch now windows) as (d & Hw & Hd).
  remember (cleanup batch now windows) as rest eqn:E. clear E. subst windows.
  rewrite fmap_app, NoDup_app in Hnd. destruct Hnd as (_ & Hdis & _). unfold live.
  rewrite get_app. destruct (get key d) as [w|] eqn:Eg; [|done].
  apply get_elem in Eg. rewrite (get_None key rest).
  - rewrite Forall_forall in Hd. specialize (Hd _ Eg). cbn in Hd. destruct (expires_at w <=? now) eqn:E; [done|lia].
  - apply Hdis. apply list_elem_of_fmap. by exists (key, w).
Qed.

Lemma elem_cleanup batch now p windows : p ∈ cleanup batch now windows → p ∈ windows.
Proof.
  destruct (cleanup_suffix batch now windows) as (d & Hw & _). rewrite Hw at 2. intros ?.
  apply elem_of_app. by right.
Qed.

Lemma elem_del key p windows : p ∈ del key windows ↔ p ∈ windows ∧ p.1 ≠ key.
Proof.
  unfold del. by rewrite !list_elem_of_In, filter_In, negb_true_iff, bool_decide_eq_false.
Qed.

Lemma filter_fmap_sublist {A B} (f : A → bool) (g : A → B) l : g <$> List.filter f l `sublist_of` g <$> l.
Proof. induction l as [|x l IH]; cbn; [constructor|]. by destruct (f x); cbn; constructor. Qed.

Lemma StronglySorted_filter' {A} (R : A → A → Prop) (f : A → bool) l :
  StronglySorted R l → StronglySorted R (List.filter f l).
Proof.
  induction 1 as [|x l Hs IH Hall]; cbn; [constructor|]. destruct (f x); [|done]. constructor; [done|].
  rewrite Forall_forall in *. intros y Hy. apply Hall. rewrite list_elem_of_In, filter_In, <- list_elem_of_In in Hy.
  by destruct Hy.
Qed.

Lemma StronglySorted_suffix {A} (R : A → A → Prop) (d l : list A) : StronglySorted R (d ++ l) → StronglySorted R l.
Proof. induction d as [|x d IH]; [done|]. cbn. intros [? ?]%StronglySorted_inv. auto. Qed.

(** Clean-up and deletion keep the invariant. *)
Lemma cleanup_ok capacity batch t now windows :
  t ≤ now → windows_ok capacity t windows → windows_ok capacity now (cleanup batch now windows).
Proof.
  intros Ht [Hnd Hs Hc Hl]. pose proof (cleanup_suffix batch now windows) as (d & Hw & _).
  split.
  - rewrite Hw, fmap_app, NoDup_app in Hnd. tauto.
  - rewrite Hw in Hs. by eapply StronglySorted_suffix.
  - intros key w Hin%elem_cleanup. destruct (Hc _ _ Hin). lia.
  - rewrite Hw, length_app in Hl. lia.
Qed.

Lemma del_ok capacity now key windows : windows_ok capacity now windows → windows_ok capacity now (del key windows).
Proof.
  intros [Hnd Hs Hc Hl]. split.
  - eapply sublist_NoDup; [exact Hnd|apply filter_fmap_sublist].
  - by apply StronglySorted_filter'.
  - intros k w [Hin _]%elem_del. by eapply Hc.
  - unfold del. pose proof (filter_length_le (λ p, negb (bool_decide (p.1 = key))) windows). lia.
Qed.

Lemma increment_ok capacity now key windows w :
  windows_ok capacity now windows → get key windows = Some w → count w < 30 →
  windows_ok capacity now (increment key windows).
Proof.
  intros [Hnd Hs Hc Hl] Hget Hlt. unfold increment. split.
  - rewrite <- list_fmap_compose. rewrite (list_fmap_ext _ fst); [done|]. intros i p _. cbn. by case_bool_decide.
  - clear -Hs. induction Hs as [|p l Hs IH Hall]; cbn; [constructor|]. constructor; [done|].
    apply Forall_fmap. eapply Forall_impl; [exact Hall|]. intros q Hq. unfold by_expiry in *. cbn.
    by repeat case_bool_decide.
  - intros k v ([k0 w0] & Heq & Hin)%list_elem_of_fmap. cbn in Heq. destruct (Hc _ _ Hin).
    case_bool_decide as E; injection Heq as -> ->; [|done]. subst k0.
    assert (w0 = w) as ->; [|cbn; lia].
    apply get_elem in Hget. clear -Hnd Hin Hget. induction windows as [|p l IH]; [by apply not_elem_of_nil in Hin|].
    rewrite fmap_cons in Hnd. apply NoDup_cons in Hnd as [Hp Hnd].
    apply elem_of_cons in Hin as [<-|Hin], Hget as [Hg|Hget]; [congruence|..|by apply IH].
    + destruct Hp. apply list_elem_of_fmap. by exists (key, w).
    + subst p. destruct Hp. apply list_elem_of_fmap. by exists (key, w0).
  - by rewrite length_fmap.
Qed.

Lemma append_ok capacity now key windows :
  windows_ok capacity now windows → key ∉ windows.*1 → (length windows < capacity)%nat →
  windows_ok capacity now (windows ++ [(key, mkWindow (now + 60 * second) 1)]).
Proof.
  intros [Hnd Hs Hc Hl] Hk Hlen. split.
  - rewrite fmap_app, NoDup_app. split_and!; [done| |by apply NoDup_singleton].
    intros x Hx Hx2%list_elem_of_singleton. by subst.
  - clear Hnd Hl Hk Hlen. induction Hs as [|p l Hs IH Hall]; cbn; [by repeat constructor|]. constructor.
    + apply IH. intros k w Hin. eapply Hc. by right.
    + apply Forall_app_2; [done|]. apply Forall_singleton. destruct p as [k w].
      destruct (Hc k w) as [_ ?]; [by left|]. done.
  - intros k w [Hin|Hin]%elem_of_app; [by eapply Hc|].
    apply list_elem_of_singleton in Hin. injection Hin as -> ->. cbn. lia.
  - rewrite length_app. cbn. lia.
Qed.

(** ** One request against the reference quota *)

(** The quota without capacity: one window per key. *)
Definition quota (now : Z) (window : option Window) : RateLimitDecision * Window :=
  match window with
  | Some w =>
      if 30 <=? count w then (mkRateLimitDecision false (Z.max 1 (ceil_seconds (expires_at w - now))) false, w)
      else (mkRateLimitDecision true 0 false, mkWindow (expires_at w) (count w + 1))
  | None => (mkRateLimitDecision true 0 false, mkWindow (now + 60 * second) 1)
  end.

Lemma get_Some_key key windows w : get key windows = Some w → key ∈ windows.*1.
Proof. intros H%get_elem. apply list_elem_of_fmap. by exists (key, w). Qed.

Lemma get_None_key key windows : get key windows = None → key ∉ windows.*1.
Proof.
  intros Hg ([k w] & -> & Hin)%list_elem_of_fmap. induction windows as [|p l IH]; [by apply not_elem_of_nil in Hin|].
  rewrite get_cons in Hg. case_bool_decide as E; [done|].
  apply elem_of_cons in Hin as [<-|Hin]; [done|auto].
Qed.

Lemma consume_spec capacity t now key windows :
  windows_ok capacity t windows → t ≤ now → key_pattern key = true →
  ∃ d windows', consume capacity now key windows = Ok (d, windows') ∧ windows_ok capacity now windows' ∧
    (∀ k, k ≠ key → live k now windows' = live k now windows) ∧
    ((d, live key now windows') = (λ p, (p.1, Some p.2)) (quota now (live key now windows)) ∨
     d = mkRateLimitDecision true 0 true ∧ live key now windows = None ∧ live key now windows' = None ∧
     ∃ kept, length kept = capacity ∧ kept ⊆ windows).
Proof.
  intros Hok Ht Hkey. unfold consume. rewrite Hkey. cbn [negb raise_if mbind result_bind].
  pose proof (cleanup_ok capacity CLEANUP_BATCH t now windows Ht Hok) as Hok1.
  assert (∀ k, live k now (cleanup CLEANUP_BATCH now windows) = live k now windows) as Hlive
    by (intros k; apply live_cleanup, Hok).
  assert (cleanup CLEANUP_BATCH now windows ⊆ windows) as Hsub by (intros p; apply elem_cleanup).
  set (l := cleanup CLEANUP_BATCH now windows) in *. clearbody l.
  assert (∀ l', windows_ok capacity now l' → l' ⊆ windows → get key l' = None →
    (∀ k, k ≠ key → live k now l' = live k now windows) → live key now windows = None →
    ∃ d windows', (if (capacity <=? length l')%nat then Ok (E := exn) (mkRateLimitDecision true 0 true, l')
      else Ok (mkRateLimitDecision true 0 false, l' ++ [(key, mkWindow (now + 60 * second) 1)])) = Ok (d, windows') ∧
      windows_ok capacity now windows' ∧ (∀ k, k ≠ key → live k now windows' = live k now windows) ∧
      ((d, live key now windows') = (λ p, (p.1, Some p.2)) (quota now (live key now windows)) ∨
       d = mkRateLimitDecision true 0 true ∧ live key now windows = None ∧ live key now windows' = None ∧
       ∃ kept, length kept = capacity ∧ kept ⊆ windows)) as Hnew.
  { intros l' Hl' Hs' Hg Hother Hnone. destruct (capacity <=? length l')%nat eqn:Hcap.
    - eexists _, _. split_and!; [done..|]. right. split_and!; [done..|by unfold live; rewrite Hg|].
      exists l'. split; [|done]. apply Nat.leb_le in Hcap. destruct Hl'. lia.
    - apply Nat.leb_gt in Hcap. eexists _, _. split; [done|]. split_and!.
      + apply append_ok; [done|by apply get_None_key|done].
      + intros k Hk. rewrite <- Hother by done. unfold live. rewrite get_app.
        destruct (get k l'); [done|]. by rewrite get_cons, bool_decide_eq_false_2 by done.
      + left. rewrite Hnone. unfold live. rewrite get_app, Hg, get_cons, bool_decide_eq_true_2 by done. cbn.
        unfold second. by replace (now + 60 * 1000000000 <=? now) with false by lia. }
  destruct (get key l) as [w|] eqn:Hg; cbn [negb].
  - destruct (expires_at w <=? now) eqn:He.
    + apply Hnew; [by apply del_ok|intros p [? _]%elem_del; auto|by rewrite get_del, bool_decide_eq_true_2| |].
      * intros k Hk. rewrite <- Hlive. unfold live. by rewrite get_del, bool_decide_eq_false_2.
      * rewrite <- Hlive. unfold live. by rewrite Hg, He.
    + assert (live key now windows = Some w) as Hw by (rewrite <- Hlive; unfold live; by rewrite Hg, He).
      rewrite Hw. cbn [quota]. destruct (30 <=? count w) eqn:Hcount.
      * eexists _, _. split_and!; [done..|]. left. cbn. by rewrite Hlive, Hw.
      * eexists _, _. split; [done|]. split_and!.
        -- eapply increment_ok; [done|done|lia].
        -- intros k Hk. rewrite <- Hlive. unfold live. by rewrite get_increment, bool_decide_eq_false_2.
        -- left. cbn. unfold live. rewrite get_increment, bool_decide_eq_true_2, Hg by done. cbn. by rewrite He.
  - apply Hnew; [done|done|done|by intros|]. rewrite <- Hlive. unfold live. by rewrite Hg.
Qed.

(** ** Sequences of requests *)

(** The decisions for requests at the given times. *)
Fixpoint run (capacity : nat) (requests : list (Z * pystr)) (windows : Windows)
    : res (list (pystr * RateLimitDecision) * Windows) :=
  match requests with
  | [] => Ok ([], windows)
  | (now, key) :: rest =>
      '(d, windows) ← consume capacity now key windows;
      '(ds, windows) ← run capacity rest windows;
      Ok ((key, d) :: ds, windows)
  end.

(** Times that do not go backwards, of well-formed keys. *)
Fixpoint in_order (t : Z) (requests : list (Z * pystr)) : Prop :=
  match requests with
  | [] => True
  | (now, key) :: rest => t ≤ now ∧ key_pattern key = true ∧ in_order now rest
  end.

Definition requests_of (key : pystr) (requests : list (Z * pystr)) : nat :=
  length (List.filter (λ r, bool_decide (r.2 = key)) requests).
Definition admitted (key : pystr) (decisions : list (pystr * RateLimitDecision)) : nat :=
  length (List.filter (λ p, bool_decide (p.1 = key) && allowed p.2) decisions).

Lemma ceil_seconds_bounds d : 0 < d ≤ 60 * second → 1 ≤ Z.max 1 (ceil_seconds d) ≤ 60 ∧ d ≤ Z.max 1 (ceil_seconds d) * second.
Proof. unfold ceil_seconds, second. intros Hd. Z.to_euclidean_division_equations. lia. Qed.

Lemma run_window capacity key requests t windows w :
  windows_ok capacity t windows → in_order t requests → Forall (λ r, r.1 < expires_at w) requests →
  live key t windows = Some w →
  ∃ ds windows', run capacity requests windows = Ok (ds, windows') ∧
    Z.of_nat (admitted key ds) = Z.min (30 - count w) (Z.of_nat (requests_of key requests)) ∧
    Forall2 (λ r p, p.1 = r.2 ∧ (r.2 = key → allowed p.2 = false →
      1 ≤ retry_after p.2 ≤ 60 ∧ expires_at w ≤ r.1 + retry_after p.2 * second)) requests ds.
Proof.
  revert t windows w. induction requests as [|[now k] rest IH]; intros t windows w Hok Hord Hexp Hlive; cbn.
  - eexists _, _. split_and!; [done| |constructor]. cbn. assert (1 ≤ count w ≤ 30); [|lia].
    unfold live in Hlive. destruct (get key windows) as [w'|] eqn:E; [|done].
    destruct (expires_at w' <=? t); [done|]. injection Hlive as ->. eapply wo_count; [done|by apply get_elem].
  - destruct Hord as (Ht & Hkey & Hord). apply Forall_cons in Hexp as [Hnow Hexp]. cbn in Hnow.
    destruct (consume_spec capacity t now k windows Hok Ht Hkey) as (d & windows' & -> & Hok' & Hother & Hd).
    cbn [mbind result_bind].
    assert (live key now windows = Some w) as Hlive'.
    { unfold live in *. destruct (get key windows) as [w'|]; [|done].
      destruct (expires_at w' <=? t); [done|]. injection Hlive as ->.
      by replace (expires_at w <=? now) with false by lia. }
    assert (1 ≤ count w ≤ 30 ∧ expires_at w ≤ now + 60 * second) as [Hcount Hmax].
    { unfold live in Hlive. destruct (get key windows) as [w'|] eqn:E; [|done].
      destruct (expires_at w' <=? t); [done|]. injection Hlive as ->.
      destruct (wo_count _ _ _ Hok key w) as [? ?]; [by apply get_elem|]. lia. }
    destruct (decide (k = key)) as [->|Hk].
    + rewrite Hlive' in Hd. destruct Hd as [Hd|(_ & ? & _)]; [|done]. cbn [quota] in Hd.
      destruct (30 <=? count w) eqn:Hfull; injection Hd as -> Hw.
      * destruct (IH now windows' w Hok' Hord Hexp Hw) as (ds & w2 & -> & Hadm & Hall).
        eexists _, _. split; [done|]. split.
        -- unfold admitted, requests_of in *. cbn [List.filter fst snd allowed]. rewrite !bool_decide_eq_true_2 by done.
           cbn [andb length]. lia.
        -- constructor; [|done]. split; [done|]. intros _ _. cbn [retry_after snd fst].
           destruct (ceil_seconds_bounds (expires_at w - now)); lia.
      * destruct (IH now windows' (mkWindow (expires_at w) (count w + 1)) Hok' Hord Hexp Hw) as (ds & w2 & -> & Hadm & Hall).
        eexists _, _. split; [done|]. split; [|constructor; [done|exact Hall]].
        unfold admitted, requests_of in *. cbn [List.filter fst snd allowed]. rewrite !bool_decide_eq_true_2 by done.
        cbn [andb length count] in *. lia.
    + destruct (IH now windows' w Hok' Hord Hexp) as (ds & w2 & -> & Hadm & Hall); [by rewrite Hother|].
      eexists _, _. split; [done|]. split; [|by constructor].
      unfold admitted, requests_of in *. cbn [List.filter fst snd]. rewrite !bool_decide_eq_false_2 by done. done.
Qed.

(** C17: every request with a well-formed key gets a decision, and unless the
    store is full of other keys it is the decision of the plain quota (one
    window of thirty requests in sixty seconds per key, nothing ever cleaned
    up); a request of one key never changes the window of another, entries
    stay in expiry order, and the store never outgrows its capacity. *)
Theorem consume_refines_quota (capacity : nat) (t now : Z) (key : pystr) (windows : Windows) :
  windows_ok capacity t windows → t ≤ now → key_pattern key = true →
  ∃ d windows', consume capacity now key windows = Ok (d, windows') ∧ windows_ok capacity now windows' ∧
    (∀ k, k ≠ key → live k now windows' = live k now windows) ∧
    ((d, live key now windows') = (λ p, (p.1, Some p.2)) (quota now (live key now windows)) ∨
     d = mkRateLimitDecision true 0 true ∧ live key now windows = None ∧ live key now windows' = None ∧
     ∃ kept, length kept = capacity ∧ kept ⊆ windows).
Proof. apply consume_spec. Qed.

(** While a window with [count] requests is open, whatever other keys do,
    exactly the next [30 - count] requests of its key are admitted; all others
    are refused with a delay of 1 to 60 seconds after which the window has
    ended. *)
Theorem window_quota (capacity : nat) (key : pystr) (requests : list (Z * pystr)) (t : Z)
    (windows : Windows) (w : Window) :
  windows_ok capacity t windows → in_order t requests → Forall (λ r, r.1 < expires_at w) requests →
  live key t windows = Some w →
  ∃ ds windows', run capacity requests windows = Ok (ds, windows') ∧
    Z.of_nat (admitted key ds) = Z.min (30 - count w) (Z.of_nat (requests_of key requests)) ∧
    Forall2 (λ r p, p.1 = r.2 ∧ (r.2 = key → allowed p.2 = false →
      1 ≤ retry_after p.2 ≤ 60 ∧ expires_at w ≤ r.1 + retry_after p.2 * second)) requests ds.
Proof. apply run_window. Qed.

(** ** Witnesses *)

Definition sample_key (c : Z) : pystr := KEY_PREFIX ++ repeat c 64.
Definition sample_windows : Windows := [(sample_key 48, mkWindow (70 * second) 29)].

Lemma sample_windows_ok : windows_ok 2 (10 * second) sample_windows.
Proof.
  split; [by apply NoDup_singleton|by repeat constructor| |cbn; lia].
  intros key w Hin%list_elem_of_singleton. injection Hin as -> ->. cbn. unfold second. lia.
Qed.

Lemma consume_refines_quota_witness :
  ∃ d windows', consume 2 (20 * second) (sample_key 49) sample_windows = Ok (d, windows') ∧
    windows_ok 2 (20 * second) windows' ∧ allowed d = true.
Proof.
  destruct (consume_refines_quota 2 (10 * second) (20 * second) (sample_key 49) sample_windows sample_windows_ok)
    as (d & w' & Hc & Hok & _ & Hd); [unfold second; lia|vm_compute; reflexivity|].
  exists d, w'. split; [exact Hc|]. split; [exact Hok|].
  destruct Hd as [Hd|(-> & _)]; [|reflexivity]. apply (f_equal fst) in Hd. cbn [fst] in Hd. rewrite Hd. vm_compute. reflexivity.
Defined.

Lemma window_quota_witness :
  ∃ ds windows', run 2 [(20 * second, sample_key 48); (30 * second, sample_key 48)] sample_windows =
    Ok (ds, windows') ∧ Z.of_nat (admitted (sample_key 48) ds) = 1.
Proof.
  destruct (window_quota 2 (sample_key 48) [(20 * second, sample_key 48); (30 * second, sample_key 48)]
    (10 * second) sample_windows (mkWindow (70 * second) 29) sample_windows_ok) as (ds & w' & Hr & Ha & _).
  - vm_compute. repeat split; discriminate.
  - repeat constructor; vm_compute; reflexivity.
  - vm_compute. reflexivity.
  - exists ds, w'. split; [exact Hr|exact Ha].
Defined.
