(* ===== verification/Accounts.v ===== *)
(** * The account tables
    (the authentication tables of [src/src/mdm/infrastructure/models.py], the
    records of [src/src/mdm/infrastructure/repositories/users.py])

    Users, refresh families and their tokens, registration and password reset
    challenges and theirs, and the permanent security events, with the
    constraints PostgreSQL checks on every write.  No code deletes a row.
    Timestamps are microseconds. *)

From stdpp Require Import sorting.
From S2P Require Import Prelude Python Exceptions Auth.
Local Open Scope Z_scope.

(** ** What the program does not implement itself *)

(** The e-mail validator, the bounded password hasher and the signer of access
    tokens.  A hash is salted, so [password_hash] is what one call returns. *)
Class AuthServices := {
  validate_email : pystr → option (pystr * option pystr);
  password_hash : pystr → res pystr;
  password_verify : pystr → pystr → res bool;
  issue_access : UUID → UserRole → Z → res pystr;
}.

(** ** Rows *)

Record UserRow := mkUserRow {
  us_id : UUID;
  us_email : pystr;
  us_name : pystr;
  us_password_hash : pystr;
  us_role : UserRole;
  us_status : UserStatus;
  us_created_at : Z;
  us_updated_at : Z;
}.

Inductive FamilyStatus := FAMILY_ACTIVE | FAMILY_REVOKED.
#[export] Instance FamilyStatus_eq_dec : EqDecision FamilyStatus.
Proof. solve_decision. Defined.

Record FamilyRow := mkFamilyRow {
  fr_id : UUID;
  fr_user_id : UUID;
  fr_status : FamilyStatus;
  fr_expires_at : Z;
  fr_revoked_at : option Z;
  fr_created_at : Z;
  fr_updated_at : Z;
}.

Record RefreshRow := mkRefreshRow {
  rt_id : UUID;
  rt_family_id : UUID;
  rt_digest : list Z;
  rt_issued_at : Z;
  rt_used_at : option Z;
  rt_replaced_by_id : option UUID;
}.

Inductive ChallengeStatus := CH_ACTIVE | CH_EXPIRED | CH_COMPLETED | CH_REVOKED.
#[export] Instance ChallengeStatus_eq_dec : EqDecision ChallengeStatus.
Proof. solve_decision. Defined.

Record RegistrationRow := mkRegistrationRow {
  rc_id : UUID;
  rc_email : pystr;
  rc_status : ChallengeStatus;
  rc_created_at : Z;
  rc_expires_at : Z;
  rc_completed_at : option Z;
}.

Record ResetRow := mkResetRow {
  rs_id : UUID;
  rs_user_id : UUID;
  rs_status : ChallengeStatus;
  rs_created_at : Z;
  rs_expires_at : Z;
  rs_completed_at : option Z;
  rs_revoked_at : option Z;
}.

(** [registration_tokens] and [password_reset_tokens] have the same columns. *)
Record TokenRow := mkTokenRow {
  tk_id : UUID;
  tk_challenge_id : UUID;
  tk_digest : list Z;
  tk_issued_at : Z;
  tk_used_at : option Z;
}.

Record ADB := mkADB {
  users : gmap UUID UserRow;
  families : gmap UUID FamilyRow;
  refresh_tokens : gmap UUID RefreshRow;
  registrations : gmap UUID RegistrationRow;
  registration_tokens : gmap UUID TokenRow;
  resets : gmap UUID ResetRow;
  reset_tokens : gmap UUID TokenRow;
  security_events : list UserSecurityEvent;
}.
Definition empty_adb : ADB := mkADB ∅ ∅ ∅ ∅ ∅ ∅ ∅ [].

(** Replacing one table. *)
Definition set_users t db := mkADB t (families db) (refresh_tokens db) (registrations db)
  (registration_tokens db) (resets db) (reset_tokens db) (security_events db).
Definition set_families t db := mkADB (users db) t (refresh_tokens db) (registrations db)
  (registration_tokens db) (resets db) (reset_tokens db) (security_events db).
Definition set_refresh_tokens t db := mkADB (users db) (families db) t (registrations db)
  (registration_tokens db) (resets db) (reset_tokens db) (security_events db).
Definition set_registrations t db := mkADB (users db) (families db) (refresh_tokens db) t
  (registration_tokens db) (resets db) (reset_tokens db) (security_events db).
Definition set_registration_tokens t db := mkADB (users db) (families db) (refresh_tokens db)
  (registrations db) t (resets db) (reset_tokens db) (security_events db).
Definition set_resets t db := mkADB (users db) (families db) (refresh_tokens db) (registrations db)
  (registration_tokens db) t (reset_tokens db) (security_events db).
Definition set_reset_tokens t db := mkADB (users db) (families db) (refresh_tokens db) (registrations db)
  (registration_tokens db) (resets db) t (security_events db).
Definition set_security_events l db := mkADB (users db) (families db) (refresh_tokens db) (registrations db)
  (registration_tokens db) (resets db) (reset_tokens db) l.

(** ** Writing one row *)

Section tables.
Context {R : Type} (key : R → UUID).

Definition rows (t : gmap UUID R) : list R := (map_to_list t).*2.
(** Another row than [id] satisfies [p]. *)
Definition other (id : UUID) (p : R → bool) (t : gmap UUID R) : bool :=
  existsb (λ r, negb (key r =? id) && p r) (rows t).

Definition insert_row (pkey : string) (ck : R → res unit) (uq : R → gmap UUID R → res unit)
    (fk : R → res unit) (r : R) (t : gmap UUID R) : res (gmap UUID R) :=
  _ ← ck r;
  _ ← raise_if (bool_decide (is_Some (t !! key r))) (IntegrityError pkey);
  _ ← uq r t;
  _ ← fk r;
  Ok (<[key r := r]> t).

(** [UPDATE ... WHERE id = ... AND guard]; no matching row is no error. *)
Definition update_row (ck : R → res unit) (uq : R → gmap UUID R → res unit) (fk : R → res unit)
    (id : UUID) (guard : R → bool) (f : R → R) (t : gmap UUID R) : res (gmap UUID R) :=
  match t !! id with
  | Some r =>
      if guard r then _ ← ck (f r); _ ← uq (f r) t; _ ← fk (f r); Ok (<[id := f r]> t) else Ok t
  | None => Ok t
  end.

(** [ORDER BY id] *)
Definition by_id (r q : R) : Prop := key r ≤ key q.
#[global] Instance by_id_dec : RelDecision by_id.
Proof. intros r q. unfold by_id. apply _. Defined.
Definition select (p : R → bool) (t : gmap UUID R) : list R :=
  merge_sort by_id (List.filter p (rows t)).
End tables.

Definition integrity (violated : bool) (name : string) : res unit := raise_if violated (IntegrityError name).
Definition not_before (o : option Z) (t : Z) : bool := match o with None => true | Some x => t <=? x end.
Definition references {R} (id : UUID) (t : gmap UUID R) (name : string) : res unit :=
  integrity (negb (bool_decide (is_Some (t !! id)))) name.

(** *** users *)

Definition ck_user (r : UserRow) : res unit :=
  _ ← integrity (negb ((3 <=? length (us_email r))%nat && (length (us_email r) <=? 254)%nat))
        "ck_users_normalized_email_length";
  _ ← integrity (negb ((1 <=? length (us_name r))%nat && (length (us_name r) <=? 100)%nat))
        "ck_users_name_length";
  _ ← integrity (bool_decide (us_password_hash r = [])) "ck_users_password_hash_present";
  integrity (us_updated_at r <? us_created_at r) "ck_users_timestamp_order".
Definition uq_user (r : UserRow) (t : gmap UUID UserRow) : res unit :=
  integrity (other us_id (us_id r) (λ q, bool_decide (us_email q = us_email r)) t)
    "uq_users_normalized_email".
Definition insert_user (r : UserRow) (db : ADB) : res ADB :=
  t ← insert_row us_id "users_pkey" ck_user uq_user (λ _, Ok tt) r (users db);
  Ok (set_users t db).
Definition update_user (id : UUID) (f : UserRow → UserRow) (db : ADB) : res ADB :=
  t ← update_row ck_user uq_user (λ _, Ok tt) id (λ _, true) f (users db);
  Ok (set_users t db).

(** *** refresh_families and refresh_tokens *)

Definition family_active (r : FamilyRow) : bool := bool_decide (fr_status r = FAMILY_ACTIVE).

Definition ck_family (r : FamilyRow) : res unit :=
  _ ← integrity (negb (eqb (family_active r) (negb (present (fr_revoked_at r))))) "ck_refresh_family_state";
  integrity (negb ((fr_created_at r <? fr_expires_at r) && (fr_created_at r <=? fr_updated_at r)
                   && not_before (fr_revoked_at r) (fr_created_at r))) "ck_refresh_family_times".
Definition uq_family (r : FamilyRow) (t : gmap UUID FamilyRow) : res unit :=
  integrity (family_active r
             && other fr_id (fr_id r) (λ q, family_active q && (fr_user_id q =? fr_user_id r)) t)
    "uq_refresh_families_active_user".
Definition fk_family (db : ADB) (r : FamilyRow) : res unit :=
  references (fr_user_id r) (users db) "refresh_families_user_id_fkey".
Definition insert_family (r : FamilyRow) (db : ADB) : res ADB :=
  t ← insert_row fr_id "refresh_families_pkey" ck_family uq_family (fk_family db) r (families db);
  Ok (set_families t db).
Definition update_family (id : UUID) (guard : FamilyRow → bool) (f : FamilyRow → FamilyRow) (db : ADB)
    : res ADB :=
  t ← update_row ck_family uq_family (fk_family db) id guard f (families db);
  Ok (set_families t db).

Definition ck_refresh_token (r : RefreshRow) : res unit :=
  _ ← integrity (negb (length (rt_digest r) =? 32)%nat) "ck_refresh_token_digest";
  integrity (negb (match rt_used_at r, rt_replaced_by_id r with
                   | None, None => true
                   | Some used, Some next => (rt_issued_at r <=? used) && negb (next =? rt_id r)
                   | _, _ => false
                   end)) "ck_refresh_token_used".
Definition uq_refresh_token (r : RefreshRow) (t : gmap UUID RefreshRow) : res unit :=
  integrity (other rt_id (rt_id r) (λ q, bool_decide (rt_digest q = rt_digest r)) t)
    "uq_refresh_tokens_digest".
(** The reference to the replacement is checked at commit; no code changes the
    rows it depends on in between. *)
Definition fk_refresh_token (db : ADB) (r : RefreshRow) : res unit :=
  _ ← references (rt_family_id r) (families db) "refresh_tokens_family_id_fkey";
  integrity (match rt_replaced_by_id r with
             | None => false
             | Some next => negb (bool_decide (rt_family_id <$> refresh_tokens db !! next
                                               = Some (rt_family_id r)))
             end) "fk_refresh_tokens_replacement".
Definition insert_refresh_token (r : RefreshRow) (db : ADB) : res ADB :=
  t ← insert_row rt_id "refresh_tokens_pkey" ck_refresh_token uq_refresh_token (fk_refresh_token db) r
        (refresh_tokens db);
  Ok (set_refresh_tokens t db).
Definition update_refresh_token (id : UUID) (f : RefreshRow → RefreshRow) (db : ADB) : res ADB :=
  t ← update_row ck_refresh_token uq_refresh_token (fk_refresh_token db) id (λ _, true) f
        (refresh_tokens db);
  Ok (set_refresh_tokens t db).

(** *** registration_challenges, password_reset_challenges and their tokens *)

Definition completed_in (created expires : Z) (completed : option Z) : bool :=
  match completed with None => true | Some t => (created <=? t) && (t <? expires) end.

Definition registration_active (r : RegistrationRow) : bool := bool_decide (rc_status r = CH_ACTIVE).
Definition ck_registration (r : RegistrationRow) : res unit :=
  _ ← integrity (negb ((3 <=? length (rc_email r))%nat && (length (rc_email r) <=? 254)%nat))
        "ck_registration_challenge_email";
  _ ← integrity (negb (match rc_status r with
                       | CH_ACTIVE | CH_EXPIRED => negb (present (rc_completed_at r))
                       | CH_COMPLETED => present (rc_completed_at r)
                       | CH_REVOKED => false
                       end)) "ck_registration_challenge_state";
  integrity (negb ((rc_created_at r <? rc_expires_at r)
                   && completed_in (rc_created_at r) (rc_expires_at r) (rc_completed_at r)))
    "ck_registration_challenge_times".
Definition uq_registration (r : RegistrationRow) (t : gmap UUID RegistrationRow) : res unit :=
  integrity (registration_active r
             && other rc_id (rc_id r) (λ q, registration_active q && bool_decide (rc_email q = rc_email r)) t)
    "uq_registration_challenges_active_email".
Definition insert_registration (r : RegistrationRow) (db : ADB) : res ADB :=
  t ← insert_row rc_id "registration_challenges_pkey" ck_registration uq_registration (λ _, Ok tt) r
        (registrations db);
  Ok (set_registrations t db).
Definition update_registration (id : UUID) (f : RegistrationRow → RegistrationRow) (db : ADB) : res ADB :=
  t ← update_row ck_registration uq_registration (λ _, Ok tt) id (λ _, true) f (registrations db);
  Ok (set_registrations t db).

Definition reset_active (r : ResetRow) : bool := bool_decide (rs_status r = CH_ACTIVE).
Definition ck_reset (r : ResetRow) : res unit :=
  _ ← integrity (negb (match rs_status r with
                       | CH_ACTIVE | CH_EXPIRED => negb (present (rs_completed_at r)) && negb (present (rs_revoked_at r))
                       | CH_COMPLETED => present (rs_completed_at r) && negb (present (rs_revoked_at r))
                       | CH_REVOKED => negb (present (rs_completed_at r)) && present (rs_revoked_at r)
                       end)) "ck_password_reset_challenge_state";
  integrity (negb ((rs_created_at r <? rs_expires_at r)
                   && completed_in (rs_created_at r) (rs_expires_at r) (rs_completed_at r)
                   && not_before (rs_revoked_at r) (rs_created_at r)))
    "ck_password_reset_challenge_times".
Definition uq_reset (r : ResetRow) (t : gmap UUID ResetRow) : res unit :=
  integrity (reset_active r
             && other rs_id (rs_id r) (λ q, reset_active q && (rs_user_id q =? rs_user_id r)) t)
    "uq_password_reset_challenges_active_user".
Definition fk_reset (db : ADB) (r : ResetRow) : res unit :=
  references (rs_user_id r) (users db) "password_reset_challenges_user_id_fkey".
Definition insert_reset (r : ResetRow) (db : ADB) : res ADB :=
  t ← insert_row rs_id "password_reset_challenges_pkey" ck_reset uq_reset (fk_reset db) r (resets db);
  Ok (set_resets t db).
Definition update_reset (id : UUID) (guard : ResetRow → bool) (f : ResetRow → ResetRow) (db : ADB) : res ADB :=
  t ← update_row ck_reset uq_reset (fk_reset db) id guard f (resets db);
  Ok (set_resets t db).

(** The constraints of a token table, by the prefix of its names. *)
Definition ck_token (table : string) (r : TokenRow) : res unit :=
  _ ← integrity (negb (length (tk_digest r) =? 32)%nat) ("ck_" ++ table ++ "_token_digest");
  integrity (negb (not_before (tk_used_at r) (tk_issued_at r))) ("ck_" ++ table ++ "_token_used").
Definition uq_token (table : string) (r : TokenRow) (t : gmap UUID TokenRow) : res unit :=
  integrity (other tk_id (tk_id r) (λ q, bool_decide (tk_digest q = tk_digest r)) t)
    ("uq_" ++ table ++ "_tokens_digest").
Definition insert_registration_token (r : TokenRow) (db : ADB) : res ADB :=
  t ← insert_row tk_id "registration_tokens_pkey" (ck_token "registration") (uq_token "registration")
        (λ r, references (tk_challenge_id r) (registrations db) "registration_tokens_challenge_id_fkey") r
        (registration_tokens db);
  Ok (set_registration_tokens t db).
Definition update_registration_token (id : UUID) (guard : TokenRow → bool) (f : TokenRow → TokenRow) (db : ADB)
    : res ADB :=
  t ← update_row (ck_token "registration") (uq_token "registration") (λ _, Ok tt) id guard f
        (registration_tokens db);
  Ok (set_registration_tokens t db).
Definition insert_reset_token (r : TokenRow) (db : ADB) : res ADB :=
  t ← insert_row tk_id "password_reset_tokens_pkey" (ck_token "password_reset") (uq_token "password_reset")
        (λ r, references (tk_challenge_id r) (resets db) "password_reset_tokens_challenge_id_fkey") r
        (reset_tokens db);
  Ok (set_reset_tokens t db).
Definition update_reset_token (id : UUID) (guard : TokenRow → bool) (f : TokenRow → TokenRow) (db : ADB)
    : res ADB :=
  t ← update_row (ck_token "password_reset") (uq_token "password_reset") (λ _, Ok tt) id guard f
        (reset_tokens db);
  Ok (set_reset_tokens t db).

(** *** user_security_events *)

(** The two CHECK constraints; an initiator has a role exactly when it has an
    identity. *)
Definition ck_security_event (e : UserSecurityEvent) : res unit :=
  let authenticated := bool_decide (ev_initiator_type e = AUTHENTICATED_USER) in
  let no_roles := negb (present (ev_previous_role e)) && negb (present (ev_new_role e)) in
  let no_statuses := negb (present (ev_previous_status e)) && negb (present (ev_new_status e)) in
  _ ← integrity (negb (if authenticated then present (ev_initiator_user_id e) && present (ev_initiator_role e)
                       else negb (present (ev_initiator_user_id e)) && negb (present (ev_initiator_role e))))
        "ck_user_security_events_initiator";
  integrity (negb
    match ev_type e with
    | INITIAL_SUPER_ADMIN_BOOTSTRAPPED =>
        bool_decide (ev_initiator_type e = BOOTSTRAP_CLI)
        && negb (present (ev_previous_role e)) && bool_decide (ev_new_role e = Some SUPER_ADMIN)
        && negb (present (ev_previous_status e)) && bool_decide (ev_new_status e = Some ACTIVE)
    | USER_ROLE_CHANGED =>
        authenticated && present (ev_previous_role e) && present (ev_new_role e)
        && negb (bool_decide (ev_previous_role e = ev_new_role e)) && no_statuses
    | USER_DISABLED =>
        authenticated && no_roles && bool_decide (ev_previous_status e = Some ACTIVE)
        && bool_decide (ev_new_status e = Some DISABLED)
    | USER_ENABLED =>
        authenticated && no_roles && bool_decide (ev_previous_status e = Some DISABLED)
        && bool_decide (ev_new_status e = Some ACTIVE)
    | PASSWORD_CHANGED => authenticated && no_roles && no_statuses
    | PASSWORD_RESET => bool_decide (ev_initiator_type e = RESET_TOKEN) && no_roles && no_statuses
    end) "ck_user_security_events_shape".
Definition insert_security_event (e : UserSecurityEvent) (db : ADB) : res ADB :=
  _ ← ck_security_event e;
  _ ← integrity (existsb (λ q, ev_id q =? ev_id e) (security_events db)) "user_security_events_pkey";
  _ ← references (ev_subject_user_id e) (users db) "user_security_events_subject_user_id_fkey";
  _ ← match ev_initiator_user_id e with
      | None => Ok tt
      | Some u => references u (users db) "user_security_events_initiator_user_id_fkey"
      end;
  Ok (set_security_events (security_events db ++ [e]) db).

(** ** Records and domain objects *)

Section domain.
Context `{UnicodeData} `{AuthServices}.

(** [EmailAddress] *)
Definition EmailAddress_init (value : pystr) : res pystr := normalize_email validate_email value.

(** [_user_from_record] *)
Definition user_from_record (r : UserRow) : res User :=
  email ← EmailAddress_init (us_email r);
  name ← DisplayName_init (us_name r);
  User_init (mkUser (us_id r) email name (us_password_hash r) (us_role r) (us_status r)
    (utc (us_created_at r)) (utc (us_updated_at r))).

Definition user_of (r : option UserRow) : res (option User) :=
  match r with None => Ok None | Some r => u ← user_from_record r; Ok (Some u) end.

(** [SqlAlchemyUserRepository.get_by_id] and [get_by_email] *)
Definition get_by_id (id : UUID) (db : ADB) : res (option User) := user_of (users db !! id).
Definition row_by_email (email : pystr) (db : ADB) : option UserRow :=
  find (λ r, bool_decide (us_email r = email)) (rows (users db)).
Definition get_by_email (email : pystr) (db : ADB) : res (option User) := user_of (row_by_email email db).

(** [NewUser] and [SqlAlchemyUserRepository.add] *)
Record NewUser := mkNewUser {
  nu_email : pystr; nu_name : pystr; nu_password_hash : pystr; nu_role : UserRole; nu_status : UserStatus }.
Definition NewUser_init (u : NewUser) : res NewUser :=
  _ ← raise_if (bool_decide (nu_password_hash u = [])) (ValueError "password hash must not be empty");
  Ok u.
Definition add_user (id : UUID) (now : Z) (u : NewUser) (db : ADB) : res (User * ADB) :=
  let record := mkUserRow id (nu_email u) (nu_name u) (nu_password_hash u) (nu_role u) (nu_status u) now now in
  db' ← catch (insert_user record db)
          (λ e, match e with
                | IntegrityError name =>
                    if bool_decide (name = "uq_users_normalized_email"%string) then Raise DuplicateUserEmail
                    else Raise UserPersistenceError
                | _ => Raise e
                end);
  user ← user_from_record record;
  Ok (user, db').

(** [NewUserSecurityEvent] *)
Record NewUserSecurityEvent := mkNewUserSecurityEvent {
  ne_type : SecurityEventType;
  ne_subject_user_id : UUID;
  ne_initiator_type : SecurityEventInitiatorType;
  ne_initiator_user_id : option UUID;
  ne_initiator_role : option UserRole;
  ne_previous_role : option UserRole;
  ne_new_role : option UserRole;
  ne_previous_status : option UserStatus;
  ne_new_status : option UserStatus;
}.
Definition NewUserSecurityEvent_init (e : NewUserSecurityEvent) : res NewUserSecurityEvent :=
  _ ← validate_security_event_contract (ne_type e) (ne_initiator_type e) (ne_initiator_user_id e)
        (ne_initiator_role e) (ne_previous_role e) (ne_new_role e) (ne_previous_status e) (ne_new_status e);
  Ok e.
Definition event_record (id : UUID) (now : Z) (e : NewUserSecurityEvent) : UserSecurityEvent :=
  mkUserSecurityEvent id (ne_type e) (ne_subject_user_id e) (utc now) (ne_initiator_type e)
    (ne_initiator_user_id e) (ne_initiator_role e) (ne_previous_role e) (ne_new_role e)
    (ne_previous_status e) (ne_new_status e).
End domain.
