(* ===== verification/Sessions.v ===== *)
(** * Browser sessions
    ([src/src/mdm/application/sessions.py],
    [src/src/mdm/infrastructure/repositories/sessions.py])

    Login, rotation of refresh tokens, logout.  A use case reads without locks
    in the committed state [seen], then runs one transaction on [db], which
    locks the user first.  It returns the state it leaves, the operational
    events it emits and its result: a failed rotation can commit a revocation. *)

From S2P Require Import Prelude Python Exceptions Auth Credentials Accounts.
Local Open Scope Z_scope.

Inductive OperationalEventName :=
| INVALID_ACCESS_TOKEN | LOGIN_FAILED | REFRESH_CONFLICT | EMAIL_DELIVERY_FAILED | SESSION_PRINCIPAL_MISMATCH
| ORIGIN_VALIDATION_FAILED | CSRF_VALIDATION_FAILED | RATE_LIMIT_EXCEEDED
| RATE_LIMIT_CAPACITY_EXCEEDED | CLIENT_IP_UNRESOLVED.

Record outcome (A : Type) := mkOutcome {
  oc_db : ADB;
  oc_events : list OperationalEventName;
  oc_result : res A;
}.
#[global] Arguments mkOutcome {_} _ _ _.
#[global] Arguments oc_db {_} _.
#[global] Arguments oc_events {_} _.
#[global] Arguments oc_result {_} _.

(** A transaction commits its writes with its result, or nothing. *)
Definition finish {A} (events : exn → list OperationalEventName) (db : ADB) (m : res (A * ADB)) : outcome A :=
  match m with
  | Ok (x, db') => mkOutcome db' [] (Ok x)
  | Raise e => mkOutcome db (events e) (Raise e)
  end.

(** What the server and the random source supply to one execution: the clock,
    the identifiers of new rows, and the draws of each token factory together
    with the identifier a row of that token gets. *)
Record AuthEnv := mkAuthEnv {
  ae_now : Z;
  ae_user_id : UUID;
  ae_family_id : UUID;
  ae_challenge_id : UUID;
  ae_event_id : UUID;
  ae_refresh : nat → pystr * UUID;
  ae_challenge_token : nat → pystr * UUID;
}.

Record RefreshTarget := mkRefreshTarget { tg_user_id : UUID; tg_family_id : UUID; tg_token_id : UUID }.
Record SessionGrant := mkSessionGrant {
  sg_access_token : pystr; sg_refresh_token : pystr; sg_expires_at : Z; sg_issued_at : Z }.
Record CurrentProfile := mkCurrentProfile {
  cp_id : UUID; cp_email : pystr; cp_name : pystr; cp_effective_role : UserRole }.

(** [int(now.timestamp())] *)
Definition unix_seconds (now : Z) : Z := Z.quot now (seconds 1).

(** ** The transaction ([SqlAlchemySessionTransaction]) *)

Definition lock_families (user_id : UUID) (family_id : option UUID) (db : ADB) : list FamilyRow :=
  select fr_id (λ r, (fr_user_id r =? user_id)
                     && match family_id with None => family_active r | Some id => fr_id r =? id end)
    (families db).
Definition lock_tokens (family_id token_id : UUID) (db : ADB) : list RefreshRow :=
  select rt_id (λ r, (rt_family_id r =? family_id) && (rt_id r =? token_id)) (refresh_tokens db).

Definition mark_used (token_id replacement_id family_id : UUID) (now : Z) (db : ADB) : res ADB :=
  db' ← update_refresh_token token_id
          (λ r, mkRefreshRow (rt_id r) (rt_family_id r) (rt_digest r) (rt_issued_at r) (Some now)
                  (Some replacement_id)) db;
  update_family family_id (λ _, true)
    (λ r, mkFamilyRow (fr_id r) (fr_user_id r) (fr_status r) (fr_expires_at r) (fr_revoked_at r)
            (fr_created_at r) now) db'.
Definition revoke (now : Z) (family_id : UUID) (db : ADB) : res ADB :=
  update_family family_id family_active
    (λ r, mkFamilyRow (fr_id r) (fr_user_id r) FAMILY_REVOKED (fr_expires_at r) (Some now)
            (fr_created_at r) now) db.
Definition create_family (env : AuthEnv) (user_id : UUID) (now expires_at : Z) (db : ADB) : res ADB :=
  insert_family (mkFamilyRow (ae_family_id env) user_id FAMILY_ACTIVE expires_at None now now) db.

(** [add_token]: the savepoint drops the row of a digest collision. *)
Definition add_token (family_id : UUID) (now : Z) (db : ADB) (draw : pystr * UUID) : res ADB :=
  catch (insert_refresh_token (mkRefreshRow draw.2 family_id (token_digest draw.1) now None None) db)
    (λ e, match e with
          | IntegrityError name =>
              if bool_decide (name = "uq_refresh_tokens_digest"%string) then Raise RefreshDigestConflict
              else Raise e
          | _ => Raise e
          end).
(** [_add_token]: the token, the identifier of its row and the new state. *)
Definition issue_refresh (env : AuthEnv) (family_id : UUID) (now : Z) (db : ADB)
    : res ((pystr * UUID) * ADB) :=
  draw_until (add_token family_id now db)
    (λ e, match e with RefreshDigestConflict => true | _ => false end) (ae_refresh env) 4 0.

(** ** The repository *)

Definition find_refresh (digest : list Z) (db : ADB) : option RefreshTarget :=
  token ← find (λ r, bool_decide (rt_digest r = digest)) (rows (refresh_tokens db));
  family ← families db !! rt_family_id token;
  Some (mkRefreshTarget (fr_user_id family) (rt_family_id token) (rt_id token)).

Section services.
Context `{UnicodeData} `{AuthServices}.

(** [SqlAlchemySessionRepository.transaction] *)
Definition session_transaction {A} (user_id : UUID) (body : option User → ADB → res (A * ADB)) (db : ADB)
    : res (A * ADB) :=
  catch (user ← get_by_id user_id db; body user db)
    (λ e, match e with IntegrityError _ => Raise SessionUnavailable | _ => Raise e end).

(** ** Login *)

(** [for family in families: await tx.revoke(family.id, now)] *)
Definition revoke_all (now : Z) (locked : list FamilyRow) (db : ADB) : res ADB :=
  foldR (λ db family, revoke now (fr_id family) db) db locked.

Definition login_transaction (env : AuthEnv) (snapshot : User) (tx_user : option User) (db : ADB)
    : res (SessionGrant * ADB) :=
  match tx_user with
  | None => Raise InvalidCredentials
  | Some current =>
      _ ← raise_if (negb (bool_decide (user_status current = ACTIVE))
                    || negb (bool_decide (user_password_hash current = user_password_hash snapshot)))
            InvalidCredentials;
      let locked := lock_families (user_id current) None db in
      let now := ae_now env in
      db ← foldR (λ db family, if family_active family then revoke now (fr_id family) db else Ok db) db locked;
      let expires_at := now + days 7 in
      db ← create_family env (user_id current) now expires_at db;
      '((refresh, _), db) ← issue_refresh env (ae_family_id env) now db;
      access ← issue_access (user_id current) (user_role current) (unix_seconds now);
      Ok (mkSessionGrant access refresh expires_at now, db)
  end.

(** [_login]; [fake] is the hash verified for an unknown address. *)
Definition login_attempt (env : AuthEnv) (seen : ADB) (fake email password : pystr) (db : ADB)
    : res (SessionGrant * ADB) :=
  snapshot ← get_by_email email seen;
  password_matches ← password_verify password
                       (match snapshot with None => fake | Some u => user_password_hash u end);
  match snapshot with
  | Some snapshot =>
      _ ← raise_if (negb password_matches || negb (bool_decide (user_status snapshot = ACTIVE)))
            InvalidCredentials;
      session_transaction (user_id snapshot) (login_transaction env snapshot) db
  | None => Raise InvalidCredentials
  end.

(** [login]; failures of the event sink are swallowed. *)
Definition login (env : AuthEnv) (seen : ADB) (fake email password : pystr) (db : ADB)
    : outcome SessionGrant :=
  finish (λ e, match e with InvalidCredentials => [LOGIN_FAILED] | _ => [] end) db
    (login_attempt env seen fake email password db).

(** ** Rotation *)

(** [_locked_refresh] *)
Definition locked_refresh (user : User) (target : RefreshTarget) (token : pystr) (db : ADB)
    : res (FamilyRow * RefreshRow) :=
  match find (λ f, fr_id f =? tg_family_id target)
          (lock_families (user_id user) (Some (tg_family_id target)) db) with
  | None => Raise InvalidSession
  | Some family =>
      _ ← raise_if (negb (fr_user_id family =? tg_user_id target)) InvalidSession;
      match find (λ t, rt_id t =? tg_token_id target) (lock_tokens (fr_id family) (tg_token_id target) db) with
      | None => Raise InvalidSession
      | Some stored =>
          _ ← raise_if (negb (rt_family_id stored =? fr_id family)
                        || negb (bool_decide (rt_digest stored = token_digest token))) InvalidSession;
          Ok (family, stored)
      end
  end.

Definition refresh_transaction (env : AuthEnv) (target : RefreshTarget) (token : pystr)
    (tx_user : option User) (db : ADB) : res (option SessionGrant * ADB) :=
  match tx_user with
  | None => Raise InvalidSession
  | Some current =>
      _ ← raise_if (negb (bool_decide (user_status current = ACTIVE))) InvalidSession;
      '(family, stored) ← locked_refresh current target token db;
      let now := ae_now env in
      _ ← raise_if (negb (family_active family) || (fr_expires_at family <=? now)) InvalidSession;
      match rt_used_at stored with
      | Some used =>
          _ ← raise_if (now <=? used + seconds 10) RefreshConflict;
          db ← revoke now (fr_id family) db;
          Ok (None, db)
      | None =>
          '((refresh, replacement_id), db) ← issue_refresh env (fr_id family) now db;
          db ← mark_used (rt_id stored) replacement_id (fr_id family) now db;
          access ← issue_access (user_id current) (user_role current) (unix_seconds now);
          Ok (Some (mkSessionGrant access refresh (fr_expires_at family) now), db)
      end
  end.

(** [refresh]: without a grant the transaction has committed a revocation. *)
Definition refresh (env : AuthEnv) (seen : ADB) (token : pystr) (db : ADB) : outcome SessionGrant :=
  match find_refresh (token_digest token) seen with
  | None => mkOutcome db [] (Raise InvalidSession)
  | Some target =>
      let committed :=
        finish (λ e, match e with RefreshConflict => [REFRESH_CONFLICT] | _ => [] end) db
          (session_transaction (tg_user_id target) (refresh_transaction env target token) db) in
      mkOutcome (oc_db committed) (oc_events committed)
        (grant ← oc_result committed;
         match grant with None => Raise InvalidSession | Some grant => Ok grant end)
  end.

(** ** Logout *)

Definition logout_transaction (env : AuthEnv) (target : RefreshTarget) (token : pystr)
    (tx_user : option User) (db : ADB) : res (unit * ADB) :=
  match tx_user with
  | None => Ok (tt, db)
  | Some user =>
      match locked_refresh user target token db with
      | Raise InvalidSession => Ok (tt, db)
      | Raise e => Raise e
      | Ok (family, stored) =>
          let now := ae_now env in
          if family_active family && (now <? fr_expires_at family) && negb (present (rt_used_at stored))
          then db' ← revoke now (fr_id family) db; Ok (tt, db')
          else Ok (tt, db)
      end
  end.

Definition logout (env : AuthEnv) (seen : ADB) (token : pystr) (db : ADB) : outcome unit :=
  match find_refresh (token_digest token) seen with
  | None => mkOutcome db [] (Ok tt)
  | Some target =>
      finish (λ _, []) db (session_transaction (tg_user_id target) (logout_transaction env target token) db)
  end.

(** [GetCurrentProfile.execute] *)
Definition get_current_profile (p : HumanPrincipal) (seen : ADB) : res CurrentProfile :=
  user ← get_by_id (principal_id p) seen;
  match user with
  | None => Raise InvalidAccessToken
  | Some user => Ok (mkCurrentProfile (user_id user) (user_email user) (user_name user) (principal_role p))
  end.
End services.
