(* ===== verification/Registrations.v ===== *)
(** * Registration by e-mail
    ([src/src/mdm/application/registrations.py],
    [src/src/mdm/infrastructure/repositories/registrations.py],
    [src/src/mdm/application/email_delivery.py])

    A request opens or reuses a challenge for an address and mails one token;
    presenting the token creates the user, who is logged in.  The transactions
    of one address are serialized by an advisory lock. *)

From S2P Require Import Prelude Python Exceptions Auth Credentials Accounts Sessions.
Local Open Scope Z_scope.

(** ** Mail *)

Inductive EmailMessageType := REGISTRATION_MESSAGE | PASSWORD_RESET_MESSAGE.
Inductive EmailDeliveryStatus := SENT | REJECTED | TIMED_OUT.
#[export] Instance EmailDeliveryStatus_eq_dec : EqDecision EmailDeliveryStatus.
Proof. solve_decision. Defined.

(** A token of one of the two purposes a message can carry. *)
Inductive email_token := RegistrationToken (value : pystr) | PasswordResetToken (value : pystr).

Record EmailDeliveryMessage := mkEmailDeliveryMessage {
  em_type : EmailMessageType;
  em_recipient : pystr;
  em_token : email_token;
}.
Definition EmailDeliveryMessage_init (m : EmailDeliveryMessage) : res EmailDeliveryMessage :=
  _ ← raise_if (match em_type m, em_token m with
                | REGISTRATION_MESSAGE, RegistrationToken _ => false
                | PASSWORD_RESET_MESSAGE, PasswordResetToken _ => false
                | _, _ => true
                end) (ValueError "email token purpose does not match message type");
  Ok m.

(** What follows the commit of a request: [None] when it returned early. *)
Definition deliver (send : EmailDeliveryMessage → EmailDeliveryStatus) (message : option EmailDeliveryMessage)
    : res (list OperationalEventName) :=
  match message with
  | None => Ok []
  | Some message =>
      message ← EmailDeliveryMessage_init message;
      Ok (if bool_decide (send message = SENT) then [] else [EMAIL_DELIVERY_FAILED])
  end.
Definition then_deliver (send : EmailDeliveryMessage → EmailDeliveryStatus)
    (committed : outcome (option EmailDeliveryMessage)) : outcome unit :=
  match message ← oc_result committed; deliver send message with
  | Ok events => mkOutcome (oc_db committed) (oc_events committed ++ events) (Ok tt)
  | Raise e => mkOutcome (oc_db committed) (oc_events committed) (Raise e)
  end.

(** ** Policy *)

(** [value.rsplit("@", 1)[1]] *)
Definition rsplit_at (value : pystr) : res pystr :=
  match list_find (λ c, c = at_sign) (reverse value) with
  | Some (n, _) => Ok (drop (length value - n) value)
  | None => Raise IndexError
  end.
Definition require_allowed_domain (email : pystr) (allowed_domains : list pystr) : res unit :=
  domain ← rsplit_at email;
  raise_if (negb (bool_decide (domain ∈ allowed_domains))) EmailDomainNotAllowed.

(** ** Data *)

Record RegistrationChallenge := mkRegistrationChallenge {
  rch_id : UUID; rch_email : pystr; rch_status : ChallengeStatus; rch_expires_at : Z }.
Record RegistrationTarget := mkRegistrationTarget {
  rg_challenge_id : UUID; rg_token_id : UUID; rg_email : pystr }.

(** ** The transaction ([SqlAlchemyRegistrationTransaction]) *)

Definition user_exists (email : pystr) (db : ADB) : bool := present (row_by_email email db).
Definition expire (challenge_id : UUID) (db : ADB) : res ADB :=
  update_registration challenge_id
    (λ r, mkRegistrationRow (rc_id r) (rc_email r) CH_EXPIRED (rc_created_at r) (rc_expires_at r)
            (rc_completed_at r)) db.
Definition create_challenge (env : AuthEnv) (email : pystr) (now expires_at : Z) (db : ADB)
    : res (RegistrationChallenge * ADB) :=
  let row := mkRegistrationRow (ae_challenge_id env) email CH_ACTIVE now expires_at None in
  db ← insert_registration row db;
  Ok (mkRegistrationChallenge (rc_id row) email (rc_status row) (rc_expires_at row), db).

Definition add_registration_token (challenge_id : UUID) (now : Z) (db : ADB) (draw : pystr * UUID) : res ADB :=
  catch (insert_registration_token (mkTokenRow draw.2 challenge_id (token_digest draw.1) now None) db)
    (λ e, match e with
          | IntegrityError name =>
              if bool_decide (name = "uq_registration_tokens_digest"%string)
              then Raise RegistrationDigestConflict else Raise e
          | _ => Raise e
          end).
(** [RequestRegistration._add_token] *)
Definition issue_registration_token (env : AuthEnv) (challenge_id : UUID) (now : Z) (db : ADB)
    : res ((pystr * UUID) * ADB) :=
  draw_until (add_registration_token challenge_id now db)
    (λ e, match e with RegistrationDigestConflict => true | _ => false end) (ae_challenge_token env) 4 0.

Definition lock_registration_token (challenge_id token_id : UUID) (db : ADB) : option TokenRow :=
  match registration_tokens db !! token_id with
  | Some r => if tk_challenge_id r =? challenge_id then Some r else None
  | None => None
  end.
Definition complete (challenge_id token_id : UUID) (now : Z) (db : ADB) : res ADB :=
  db ← update_registration_token token_id (λ r, tk_challenge_id r =? challenge_id)
         (λ r, mkTokenRow (tk_id r) (tk_challenge_id r) (tk_digest r) (tk_issued_at r) (Some now)) db;
  update_registration challenge_id
    (λ r, mkRegistrationRow (rc_id r) (rc_email r) CH_COMPLETED (rc_created_at r) (rc_expires_at r)
            (Some now)) db.

Section services.
Context `{UnicodeData} `{AuthServices}.

(** [_challenge] *)
Definition challenge_of (row : option RegistrationRow) : res (option RegistrationChallenge) :=
  match row with
  | None => Ok None
  | Some r =>
      email ← EmailAddress_init (rc_email r);
      Ok (Some (mkRegistrationChallenge (rc_id r) email (rc_status r) (rc_expires_at r)))
  end.
Definition lock_active_challenge (email : pystr) (db : ADB) : res (option RegistrationChallenge) :=
  challenge_of (find (λ r, bool_decide (rc_email r = email) && registration_active r)
                  (rows (registrations db))).
Definition lock_challenge (email : pystr) (challenge_id : UUID) (db : ADB) : res (option RegistrationChallenge) :=
  challenge_of (match registrations db !! challenge_id with
                | Some r => if bool_decide (rc_email r = email) then Some r else None
                | None => None
                end).

(** [SqlAlchemyRegistrationRepository] *)
Definition find_token (digest : list Z) (db : ADB) : res (option RegistrationTarget) :=
  match find (λ r, bool_decide (tk_digest r = digest)) (rows (registration_tokens db)) with
  | None => Ok None
  | Some token =>
      match registrations db !! tk_challenge_id token with
      | None => Ok None
      | Some challenge =>
          email ← EmailAddress_init (rc_email challenge);
          Ok (Some (mkRegistrationTarget (tk_challenge_id token) (tk_id token) email))
      end
  end.
Definition registration_transaction {A} (body : ADB → res (A * ADB)) (db : ADB) : res (A * ADB) :=
  catch (body db)
    (λ e, match e with
          | IntegrityError _ | UserPersistenceError => Raise RegistrationUnavailable
          | _ => Raise e
          end).

(** ** Completing a registration *)

Definition completable (target : RegistrationTarget) (token : pystr) (now : Z)
    (challenge : RegistrationChallenge) (stored : TokenRow) : bool :=
  (rch_id challenge =? rg_challenge_id target)
  && bool_decide (rch_email challenge = rg_email target)
  && bool_decide (rch_status challenge = CH_ACTIVE)
  && (now <? rch_expires_at challenge)
  && (tk_id stored =? rg_token_id target)
  && (tk_challenge_id stored =? rch_id challenge)
  && bool_decide (tk_digest stored = token_digest token)
  && negb (present (tk_used_at stored)).

Definition complete_registration_transaction (env : AuthEnv) (allowed_domains : list pystr)
    (target : RegistrationTarget) (token name password_hash : pystr) (db : ADB) : res (SessionGrant * ADB) :=
  challenge ← lock_challenge (rg_email target) (rg_challenge_id target) db;
  let stored := lock_registration_token (rg_challenge_id target) (rg_token_id target) db in
  let now := ae_now env in
  match challenge, stored with
  | Some challenge, Some stored =>
      _ ← raise_if (negb (completable target token now challenge stored)) InvalidRegistrationToken;
      _ ← require_allowed_domain (rch_email challenge) allowed_domains;
      '(user, db) ← catch (new ← NewUser_init (mkNewUser (rch_email challenge) name password_hash USER ACTIVE);
                           add_user (ae_user_id env) now new db)
                      (λ e, match e with DuplicateUserEmail => Raise InvalidRegistrationToken | _ => Raise e end);
      let expires_at := now + days 7 in
      db ← create_family env (user_id user) now expires_at db;
      '((refresh, _), db) ← issue_refresh env (ae_family_id env) now db;
      db ← complete (rch_id challenge) (tk_id stored) now db;
      access ← catch (issue_access (user_id user) (user_role user) (unix_seconds now))
                 (λ _, Raise RegistrationUnavailable);
      Ok (mkSessionGrant access refresh expires_at now, db)
  | _, _ => Raise InvalidRegistrationToken
  end.

(** [CompleteRegistration.execute]; [name] and [password] are validated values. *)
Definition complete_registration (env : AuthEnv) (allowed_domains : list pystr) (seen : ADB)
    (token name password : pystr) (db : ADB) : outcome SessionGrant :=
  finish (λ _, []) db
    (target ← find_token (token_digest token) seen;
     match target with
     | None => Raise InvalidRegistrationToken
     | Some target =>
         _ ← require_allowed_domain (rg_email target) allowed_domains;
         hash ← password_hash password;
         registration_transaction
           (complete_registration_transaction env allowed_domains target token name hash) db
     end).

(** ** Requesting a registration *)

Definition request_registration_transaction (env : AuthEnv) (email : pystr) (db : ADB)
    : res (option EmailDeliveryMessage * ADB) :=
  if user_exists email db then Ok (None, db) else
  challenge ← lock_active_challenge email db;
  let now := ae_now env in
  '(challenge, db) ← match challenge with
                     | Some c => if rch_expires_at c <=? now then db ← expire (rch_id c) db; Ok (None, db)
                                 else Ok (Some c, db)
                     | None => Ok (None, db)
                     end;
  '(challenge, db) ← match challenge with
                     | Some c => Ok (c, db)
                     | None => create_challenge env email now (now + days 1) db
                     end;
  '((token, _), db) ← issue_registration_token env (rch_id challenge) now db;
  Ok (Some (mkEmailDeliveryMessage REGISTRATION_MESSAGE email (RegistrationToken token)), db).

(** [RequestRegistration.execute] *)
Definition request_registration (env : AuthEnv) (send : EmailDeliveryMessage → EmailDeliveryStatus)
    (allowed_domains : list pystr) (email : pystr) (db : ADB) : outcome unit :=
  then_deliver send
    (finish (λ _, []) db
       (_ ← require_allowed_domain email allowed_domains;
        registration_transaction (request_registration_transaction env email) db)).
End services.
