(* ===== verification/Passwords.v ===== *)
(** * Password reset and password change
    ([src/src/mdm/application/password_lifecycle.py],
    [src/src/mdm/infrastructure/repositories/password_lifecycle.py])

    Both replace the hash and end every session in one transaction that locks
    the user first.  A reset needs a mailed token; a change needs the refresh
    token of a live session and the current password, and starts a session. *)

From S2P Require Import Prelude Python Exceptions Auth Credentials Accounts Sessions Registrations.
Local Open Scope Z_scope.

Record ResetChallenge := mkResetChallenge {
  rsc_id : UUID; rsc_user_id : UUID; rsc_status : ChallengeStatus; rsc_expires_at : Z }.
Record ResetTarget := mkResetTarget { rx_user_id : UUID; rx_challenge_id : UUID; rx_token_id : UUID }.
Record PasswordChangeGrant := mkPasswordChangeGrant {
  pg_refresh_token : pystr; pg_expires_at : Z; pg_issued_at : Z }.

(** ** The transaction ([SqlAlchemyPasswordTransaction]) *)

Definition lock_refresh_tokens (family_ids : list UUID) (db : ADB) : list RefreshRow :=
  select rt_id (λ r, bool_decide (rt_family_id r ∈ family_ids)) (refresh_tokens db).

Definition reset_challenge_of (r : ResetRow) : ResetChallenge :=
  mkResetChallenge (rs_id r) (rs_user_id r) (rs_status r) (rs_expires_at r).
Definition lock_challenges (user_id : UUID) (challenge_id : option UUID) (db : ADB) : list ResetChallenge :=
  reset_challenge_of <$>
  select rs_id (λ r, (rs_user_id r =? user_id)
                     && match challenge_id with None => reset_active r | Some id => rs_id r =? id end)
    (resets db).
Definition lock_reset_tokens (challenge_ids : list UUID) (db : ADB) : list TokenRow :=
  select tk_id (λ r, bool_decide (tk_challenge_id r ∈ challenge_ids)) (reset_tokens db).

Definition expire_challenge (challenge_id : UUID) (db : ADB) : res ADB :=
  update_reset challenge_id (λ _, true)
    (λ r, mkResetRow (rs_id r) (rs_user_id r) CH_EXPIRED (rs_created_at r) (rs_expires_at r)
            (rs_completed_at r) (rs_revoked_at r)) db.
Definition create_reset_challenge (env : AuthEnv) (user_id : UUID) (now expires_at : Z) (db : ADB)
    : res (ResetChallenge * ADB) :=
  let row := mkResetRow (ae_challenge_id env) user_id CH_ACTIVE now expires_at None None in
  db ← insert_reset row db;
  Ok (reset_challenge_of row, db).

Definition add_reset_token (challenge_id : UUID) (now : Z) (db : ADB) (draw : pystr * UUID) : res ADB :=
  catch (insert_reset_token (mkTokenRow draw.2 challenge_id (token_digest draw.1) now None) db)
    (λ e, match e with
          | IntegrityError name =>
              if bool_decide (name = "uq_password_reset_tokens_digest"%string)
              then Raise ResetDigestConflict else Raise e
          | _ => Raise e
          end).
(** [RequestPasswordReset._add_token] *)
Definition issue_reset_token (env : AuthEnv) (challenge_id : UUID) (now : Z) (db : ADB)
    : res ((pystr * UUID) * ADB) :=
  draw_until (add_reset_token challenge_id now db)
    (λ e, match e with ResetDigestConflict => true | _ => false end) (ae_challenge_token env) 4 0.

Definition change_hash (user_id : UUID) (password_hash : pystr) (now : Z) (db : ADB) : res ADB :=
  update_user user_id
    (λ r, mkUserRow (us_id r) (us_email r) (us_name r) password_hash (us_role r) (us_status r)
            (us_created_at r) now) db.
(** [complete_reset] of the transaction *)
Definition complete_challenge (challenge_id token_id : UUID) (now : Z) (db : ADB) : res ADB :=
  db ← update_reset_token token_id (λ r, tk_challenge_id r =? challenge_id)
         (λ r, mkTokenRow (tk_id r) (tk_challenge_id r) (tk_digest r) (tk_issued_at r) (Some now)) db;
  update_reset challenge_id (λ _, true)
    (λ r, mkResetRow (rs_id r) (rs_user_id r) CH_COMPLETED (rs_created_at r) (rs_expires_at r)
            (Some now) (rs_revoked_at r)) db.
Definition revoke_challenge (now : Z) (challenge_id : UUID) (db : ADB) : res ADB :=
  update_reset challenge_id reset_active
    (λ r, mkResetRow (rs_id r) (rs_user_id r) CH_REVOKED (rs_created_at r) (rs_expires_at r)
            (rs_completed_at r) (Some now)) db.

(** [audit_password]: the row is written without the value object's check. *)
Definition audit_password (env : AuthEnv) (user_id : UUID) (principal : option HumanPrincipal) (now : Z)
    (db : ADB) : res ADB :=
  insert_security_event
    (event_record (ae_event_id env) now
       (mkNewUserSecurityEvent
          (if present principal then PASSWORD_CHANGED else PASSWORD_RESET) user_id
          (if present principal then AUTHENTICATED_USER else RESET_TOKEN)
          (principal_id <$> principal) (principal_role <$> principal) None None None None)) db.

(** [find_reset] *)
Definition find_reset (digest : list Z) (db : ADB) : option ResetTarget :=
  token ← find (λ r, bool_decide (tk_digest r = digest)) (rows (reset_tokens db));
  challenge ← resets db !! tk_challenge_id token;
  Some (mkResetTarget (rs_user_id challenge) (tk_challenge_id token) (tk_id token)).

(** [for challenge in challenges: await tx.revoke_challenge(challenge.id, now)] *)
Definition revoke_challenges (now : Z) (challenges : list ResetChallenge) (db : ADB) : res ADB :=
  foldR (λ db c, revoke_challenge now (rsc_id c) db) db challenges.

Section services.
Context `{UnicodeData} `{AuthServices}.

(** [SqlAlchemyPasswordRepository.transaction] *)
Definition password_transaction {A} (user_id : UUID) (body : option User → ADB → res (A * ADB)) (db : ADB)
    : res (A * ADB) :=
  catch (user ← get_by_id user_id db; body user db)
    (λ e, match e with IntegrityError _ => Raise PasswordLifecycleUnavailable | _ => Raise e end).

(** ** Completing a reset *)

Definition resettable (target : ResetTarget) (token : pystr) (user_id : UUID) (now : Z)
    (challenge : ResetChallenge) (stored : TokenRow) : bool :=
  (rsc_user_id challenge =? user_id)
  && bool_decide (rsc_status challenge = CH_ACTIVE)
  && (now <? rsc_expires_at challenge)
  && (tk_challenge_id stored =? rsc_id challenge)
  && bool_decide (tk_digest stored = token_digest token)
  && negb (present (tk_used_at stored)).

Definition complete_reset_transaction (env : AuthEnv) (target : ResetTarget) (snapshot : User)
    (token password_hash : pystr) (tx_user : option User) (db : ADB) : res (unit * ADB) :=
  match tx_user with
  | None => Raise InvalidPasswordResetToken
  | Some user =>
      _ ← raise_if (negb (user_id user =? rx_user_id target)
                    || negb (bool_decide (user_status user = ACTIVE))
                    || negb (bool_decide (user_password_hash user = user_password_hash snapshot)))
            InvalidPasswordResetToken;
      let locked := lock_families (user_id user) None db in
      let challenges := lock_challenges (user_id user) (Some (rx_challenge_id target)) db in
      let tokens := lock_reset_tokens (rsc_id <$> challenges) db in
      let now := ae_now env in
      match find (λ c, rsc_id c =? rx_challenge_id target) challenges,
            find (λ t, tk_id t =? rx_token_id target) tokens with
      | Some challenge, Some stored =>
          _ ← raise_if (negb (resettable target token (user_id user) now challenge stored))
                InvalidPasswordResetToken;
          db ← change_hash (user_id user) password_hash now db;
          db ← revoke_all now locked db;
          db ← complete_challenge (rsc_id challenge) (tk_id stored) now db;
          db ← audit_password env (user_id user) None now db;
          Ok (tt, db)
      | _, _ => Raise InvalidPasswordResetToken
      end
  end.

(** [PasswordLifecycle.complete_reset]; the password is hashed between the
    reads and the transaction. *)
Definition complete_reset (env : AuthEnv) (seen : ADB) (token password : pystr) (db : ADB) : outcome unit :=
  finish (λ _, []) db
    (match find_reset (token_digest token) seen with
     | None => Raise InvalidPasswordResetToken
     | Some target =>
         snapshot ← get_by_id (rx_user_id target) seen;
         match snapshot with
         | None => Raise InvalidPasswordResetToken
         | Some snapshot =>
             _ ← raise_if (negb (bool_decide (user_status snapshot = ACTIVE))) InvalidPasswordResetToken;
             hash ← password_hash password;
             password_transaction (rx_user_id target)
               (complete_reset_transaction env target snapshot token hash) db
         end
     end).

(** ** Changing a password *)

(** [_require_refresh] *)
Definition require_refresh (target : RefreshTarget) (token : pystr) (locked : list FamilyRow)
    (tokens : list RefreshRow) (now : Z) : res unit :=
  match find (λ f, fr_id f =? tg_family_id target) locked, find (λ t, rt_id t =? tg_token_id target) tokens with
  | Some family, Some stored =>
      raise_if (negb ((fr_user_id family =? tg_user_id target)
                      && family_active family
                      && (now <? fr_expires_at family)
                      && (rt_family_id stored =? fr_id family)
                      && bool_decide (rt_digest stored = token_digest token)
                      && negb (present (rt_used_at stored)))) InvalidSession
  | _, _ => Raise InvalidSession
  end.

(** The validation transaction, which writes nothing. *)
Definition validate_change (now : Z) (p : HumanPrincipal) (target : RefreshTarget) (token : pystr)
    (tx_user : option User) (db : ADB) : res (User * ADB) :=
  match tx_user with
  | None => Raise InvalidSession
  | Some snapshot =>
      _ ← raise_if (negb (user_id snapshot =? principal_id p)
                    || negb (bool_decide (user_status snapshot = ACTIVE))) InvalidSession;
      let locked := lock_families (user_id snapshot) None db in
      _ ← require_refresh target token locked (lock_refresh_tokens (fr_id <$> locked) db) now;
      Ok (snapshot, db)
  end.

Definition change_password_transaction (env : AuthEnv) (p : HumanPrincipal) (target : RefreshTarget)
    (snapshot : User) (token password_hash : pystr) (tx_user : option User) (db : ADB)
    : res (PasswordChangeGrant * ADB) :=
  match tx_user with
  | None => Raise InvalidSession
  | Some user =>
      _ ← raise_if (negb (user_id user =? principal_id p)
                    || negb (bool_decide (user_status user = ACTIVE))
                    || negb (bool_decide (user_password_hash user = user_password_hash snapshot)))
            InvalidSession;
      let locked := lock_families (user_id user) None db in
      let tokens := lock_refresh_tokens (fr_id <$> locked) db in
      let challenges := lock_challenges (user_id user) None db in
      let now := ae_now env in
      _ ← require_refresh target token locked tokens now;
      db ← change_hash (user_id user) password_hash now db;
      db ← revoke_all now locked db;
      let expires_at := now + days 7 in
      db ← create_family env (user_id user) now expires_at db;
      '((refresh, _), db) ← issue_refresh env (ae_family_id env) now db;
      db ← revoke_challenges now challenges db;
      db ← audit_password env (user_id user) (Some p) now db;
      Ok (mkPasswordChangeGrant refresh expires_at now, db)
  end.

(** [change_password]: [seen] is what the token is looked up in, [validated]
    and [db] what the two transactions find, [validated_at] the clock of the
    first. *)
Definition change_password (env : AuthEnv) (validated_at : Z) (seen validated : ADB) (p : HumanPrincipal)
    (token current_password new_password : pystr) (db : ADB) : outcome PasswordChangeGrant :=
  match find_refresh (token_digest token) seen with
  | None => mkOutcome db [] (Raise InvalidSession)
  | Some target =>
      if negb (tg_user_id target =? principal_id p)
      then mkOutcome db [SESSION_PRINCIPAL_MISMATCH] (Raise InvalidSession)
      else finish (λ _, []) db
        ('(snapshot, _) ← password_transaction (tg_user_id target) (validate_change validated_at p target token)
                            validated;
         matches ← password_verify current_password (user_password_hash snapshot);
         _ ← raise_if (negb matches) InvalidCurrentPassword;
         hash ← password_hash new_password;
         password_transaction (tg_user_id target)
           (change_password_transaction env p target snapshot token hash) db)
  end.

(** ** Requesting a reset *)

Definition request_reset_transaction (env : AuthEnv) (email : pystr) (tx_user : option User) (db : ADB)
    : res (option EmailDeliveryMessage * ADB) :=
  match tx_user with
  | None => Ok (None, db)
  | Some user =>
      if negb (bool_decide (user_status user = ACTIVE)) || negb (bool_decide (user_email user = email))
      then Ok (None, db) else
      let challenges := lock_challenges (user_id user) None db in
      let now := ae_now env in
      '(challenge, db) ← match find (λ c, bool_decide (rsc_status c = CH_ACTIVE)) challenges with
                         | Some c => if rsc_expires_at c <=? now
                                     then db ← expire_challenge (rsc_id c) db; Ok (None, db)
                                     else Ok (Some c, db)
                         | None => Ok (None, db)
                         end;
      '(challenge, db) ← match challenge with
                         | Some c => Ok (c, db)
                         | None => create_reset_challenge env (user_id user) now (now + minutes 30) db
                         end;
      '((token, _), db) ← issue_reset_token env (rsc_id challenge) now db;
      Ok (Some (mkEmailDeliveryMessage PASSWORD_RESET_MESSAGE email (PasswordResetToken token)), db)
  end.

(** [RequestPasswordReset.execute] *)
Definition request_password_reset (env : AuthEnv) (send : EmailDeliveryMessage → EmailDeliveryStatus)
    (seen : ADB) (email : pystr) (db : ADB) : outcome unit :=
  then_deliver send
    (finish (λ _, []) db
       (snapshot ← get_by_email email seen;
        match snapshot with
        | None => Ok (None, db)
        | Some snapshot =>
            if negb (bool_decide (user_status snapshot = ACTIVE)) then Ok (None, db)
            else password_transaction (user_id snapshot) (request_reset_transaction env email) db
        end)).
End services.
