(* ===== verification/UserManagement.v ===== *)
(** * User administration and bootstrap
    ([src/src/mdm/application/user_management.py],
    [src/src/mdm/application/admin_users.py],
    [src/src/mdm/application/bootstrap.py] and their repositories)

    Role and status changes of one locked user, each with one security event;
    disabling a user also ends its sessions and reset challenges.  Bootstrap
    creates the first SUPER_ADMIN.  Administrators read users page by page,
    within the scope their role can see. *)

From S2P Require Import Prelude Python Exceptions Auth Pagination Credentials Accounts Sessions Registrations Passwords.
Local Open Scope Z_scope.

(** ** The transaction ([SqlAlchemyUserManagementTransaction]) *)

Definition set_role (user_id : UUID) (role : UserRole) (now : Z) (db : ADB) : res ADB :=
  update_user user_id
    (λ r, mkUserRow (us_id r) (us_email r) (us_name r) (us_password_hash r) role (us_status r)
            (us_created_at r) now) db.
Definition set_status (user_id : UUID) (status : UserStatus) (now : Z) (db : ADB) : res ADB :=
  update_user user_id
    (λ r, mkUserRow (us_id r) (us_email r) (us_name r) (us_password_hash r) (us_role r) status
            (us_created_at r) now) db.
Definition audit (env : AuthEnv) (event : NewUserSecurityEvent) (now : Z) (db : ADB) : res ADB :=
  insert_security_event (event_record (ae_event_id env) now event) db.

(** ** Reading users ([SqlAlchemyAdminUserRepository]) *)

Record UserSummary := mkUserSummary {
  su_id : UUID;
  su_email : pystr;
  su_name : pystr;
  su_role : UserRole;
  su_status : UserStatus;
  su_created_at : Z;
  su_updated_at : Z;
}.
Record UserFilters := mkUserFilters {
  uf_email : option pystr; uf_role : option UserRole; uf_status : option UserStatus }.

Definition summary (r : UserRow) : UserSummary :=
  mkUserSummary (us_id r) (us_email r) (us_name r) (us_role r) (us_status r) (us_created_at r) (us_updated_at r).
Definition visible (visible_role : option UserRole) (r : UserRow) : bool :=
  match visible_role with None => true | Some role => bool_decide (us_role r = role) end.
Definition matches (f : UserFilters) (r : UserRow) : bool :=
  match uf_email f with None => true | Some e => bool_decide (us_email r = e) end
  && visible (uf_role f) r
  && match uf_status f with None => true | Some s => bool_decide (us_status r = s) end.
Definition user_key (r : UserRow) : Z * Z := (us_created_at r, us_id r).

Definition query_users (visible_role : option UserRole) (filters : UserFilters)
    (after : option (Z * Z)) (limit : nat) (db : ADB) : Page UserSummary :=
  let p := page user_key after limit
             (List.filter (λ r, visible visible_role r && matches filters r) (rows (users db))) in
  mkPage (summary <$> page_items p) (page_has_more p).
Definition query_user (user_id : UUID) (visible_role : option UserRole) (db : ADB) : option UserSummary :=
  match users db !! user_id with
  | Some r => if visible visible_role r then Some (summary r) else None
  | None => None
  end.

(** [AdminUserQueries] *)
Definition visible_role_of (p : HumanPrincipal) : res (option UserRole) :=
  _ ← authorize p READ_USERS;
  Ok (if bool_decide (principal_role p = ADMIN) then Some USER else None).
Definition list_users (p : HumanPrincipal) (filters : UserFilters) (after : option (Z * Z)) (limit : Z)
    (db : ADB) : res (Page UserSummary) :=
  visible_role ← visible_role_of p;
  _ ← raise_if (negb ((1 <=? limit) && (limit <=? 100)))
        (UserQueryValidationError "query.limit" "페이지 크기는 1~100이어야 합니다.");
  Ok (query_users visible_role filters after (Z.to_nat limit) db).
Definition get_user (p : HumanPrincipal) (user_id : UUID) (db : ADB) : res UserSummary :=
  visible_role ← visible_role_of p;
  match query_user user_id visible_role db with None => Raise UserNotFound | Some user => Ok user end.

Section services.
Context `{UnicodeData} `{AuthServices}.

(** [SqlAlchemyUserManagementRepository.transaction] *)
Definition management_transaction {A} (user_id : UUID) (body : option User → ADB → res (A * ADB)) (db : ADB)
    : res (A * ADB) :=
  catch (user ← get_by_id user_id db; body user db)
    (λ e, match e with IntegrityError _ => Raise UserManagementUnavailable | _ => Raise e end).

(** ** Changing roles and statuses *)

Definition change_role_transaction (env : AuthEnv) (p : HumanPrincipal) (role : UserRole)
    (tx_user : option User) (db : ADB) : res (unit * ADB) :=
  match tx_user with
  | None => Raise UserNotFound
  | Some user =>
      _ ← authorize_role_change p (user_id user) (user_role user) role;
      if bool_decide (user_role user = role) then Ok (tt, db) else
      let now := ae_now env in
      db ← set_role (user_id user) role now db;
      event ← NewUserSecurityEvent_init
                (mkNewUserSecurityEvent USER_ROLE_CHANGED (user_id user) AUTHENTICATED_USER
                   (Some (principal_id p)) (Some (principal_role p)) (Some (user_role user)) (Some role)
                   None None);
      db ← audit env event now db;
      Ok (tt, db)
  end.
Definition change_role (env : AuthEnv) (p : HumanPrincipal) (target : UUID) (role : UserRole) (db : ADB)
    : outcome unit :=
  finish (λ _, []) db
    (_ ← authorize p MANAGE_USER_ROLES;
     management_transaction target (change_role_transaction env p role) db).

Definition change_status_transaction (env : AuthEnv) (p : HumanPrincipal) (status : UserStatus)
    (tx_user : option User) (db : ADB) : res (unit * ADB) :=
  match tx_user with
  | None => Raise UserNotFound
  | Some user =>
      if bool_decide (user_status user = status) then Ok (tt, db) else
      let disable := bool_decide (status = DISABLED) in
      let locked := if disable then lock_families (user_id user) None db else [] in
      let challenges := if disable then lock_challenges (user_id user) None db else [] in
      let now := ae_now env in
      db ← revoke_all now locked db;
      db ← revoke_challenges now challenges db;
      db ← set_status (user_id user) status now db;
      event ← NewUserSecurityEvent_init
                (mkNewUserSecurityEvent (if disable then USER_DISABLED else USER_ENABLED) (user_id user)
                   AUTHENTICATED_USER (Some (principal_id p)) (Some (principal_role p)) None None
                   (Some (user_status user)) (Some status));
      db ← audit env event now db;
      Ok (tt, db)
  end.
Definition change_status (env : AuthEnv) (p : HumanPrincipal) (target : UUID) (status : UserStatus) (db : ADB)
    : outcome unit :=
  finish (λ _, []) db
    (_ ← authorize p MANAGE_USER_STATUS;
     _ ← raise_if (principal_id p =? target) AuthorizationDenied;
     management_transaction target (change_status_transaction env p status) db).

(** ** Bootstrap *)

Inductive BootstrapOutcome := CREATED | NO_OP.

(** [create_with_security_event]; the event's timestamp is the row's default. *)
Definition create_with_security_event (env : AuthEnv) (new_user : NewUser) (db : ADB) : res (User * ADB) :=
  '(user, db) ← add_user (ae_user_id env) (ae_now env) new_user db;
  event ← NewUserSecurityEvent_init
            (mkNewUserSecurityEvent INITIAL_SUPER_ADMIN_BOOTSTRAPPED (user_id user) BOOTSTRAP_CLI
               None None None (Some SUPER_ADMIN) None (Some ACTIVE));
  db ← catch (insert_security_event (event_record (ae_event_id env) (ae_now env) event) db)
         (λ e, match e with IntegrityError _ => Raise UserPersistenceError | _ => Raise e end);
  _ ← UserSecurityEvent_init (event_record (ae_event_id env) (ae_now env) event);
  Ok (user, db).

(** What follows when the identity exists: [current] is what the last read
    finds. *)
Definition verify_bootstrap (existing : User) (plain_password email : pystr) (last : ADB) : res BootstrapOutcome :=
  password_matches ← catch (password_verify plain_password (user_password_hash existing))
                       (λ e, match e with
                             | InvalidStoredPasswordHash => Raise BootstrapStateConflict
                             | _ => Raise e
                             end);
  current ← get_by_email email last;
  match current with
  | None => Raise BootstrapStateConflict
  | Some current =>
      _ ← raise_if (negb (user_id current =? user_id existing)
                    || negb (bool_decide (user_password_hash current = user_password_hash existing))
                    || negb (bool_decide (user_role current = user_role existing))
                    || negb (bool_decide (user_status current = user_status existing))
                    || negb password_matches
                    || negb (bool_decide (user_role current = SUPER_ADMIN))
                    || negb (bool_decide (user_status current = ACTIVE)))
            BootstrapStateConflict;
      Ok NO_OP
  end.

(** [BootstrapSuperAdmin.execute]: [seen], [again] and [last] are what its
    reads find, [db] what its transaction finds. *)
Definition bootstrap (env : AuthEnv) (seen again last : ADB) (email name password : pystr) (db : ADB)
    : outcome BootstrapOutcome :=
  let verify (existing : option User) (normalized plain : pystr) : outcome BootstrapOutcome :=
    match existing with
    | None => mkOutcome db [] (Raise BootstrapPersistenceError)
    | Some existing => mkOutcome db [] (verify_bootstrap existing plain normalized last)
    end in
  match
    normalized ← EmailAddress_init email;
    display ← DisplayName_init name;
    plain ← PlainPassword_init password;
    existing ← get_by_email normalized seen;
    Ok (normalized, display, plain, existing)
  with
  | Raise e => mkOutcome db [] (Raise e)
  | Ok (normalized, _, plain, Some existing) => verify (Some existing) normalized plain
  | Ok (normalized, display, plain, None) =>
      match
        hash ← password_hash plain;
        NewUser_init (mkNewUser normalized display hash SUPER_ADMIN ACTIVE)
      with
      | Raise e => mkOutcome db [] (Raise e)
      | Ok new =>
          match create_with_security_event env new db with
          | Ok (_, db') => mkOutcome db' [] (Ok CREATED)
          | Raise DuplicateUserEmail =>
              match get_by_email normalized again with
              | Raise e => mkOutcome db [] (Raise e)
              | Ok existing => verify existing normalized plain
              end
          | Raise e => mkOutcome db [] (Raise e)
          end
      end
  end.
End services.
