(* ===== verification/AccountInvariant.v ===== *)
(** * Invariant and history of the account tables

    [accounts_ok]: every constraint holds, every user reads back, only active
    users have active refresh families or reset challenges, and a family has at
    most one unused token.  [progress]: what no later transaction can undo. *)

From S2P Require Import Prelude Python Exceptions Auth Credentials Accounts Sessions.
Local Open Scope Z_scope.

(** ** One table *)

Section table.
Context {R : Type} (key : R → UUID) (ck : R → res unit) (clash : R → R → Prop).

Record table_ok (t : gmap UUID R) : Prop := {
  tb_row : ∀ id r, t !! id = Some r → key r = id ∧ ck r = Ok tt;
  tb_clash : ∀ i j r q, t !! i = Some r → t !! j = Some q → clash r q → i = j;
}.

Lemma elem_of_rows (r : R) (t : gmap UUID R) : r ∈ rows t ↔ ∃ id, t !! id = Some r.
Proof.
  unfold rows. rewrite list_elem_of_fmap. split.
  - intros ([id q] & -> & Hin%elem_of_map_to_list). by exists id.
  - intros [id Hid]. exists (id, r). split; [done|]. by apply elem_of_map_to_list.
Qed.

Lemma other_false id p (t : gmap UUID R) :
  other key id p t = false ↔ ∀ r, r ∈ rows t → key r ≠ id → p r = false.
Proof.
  unfold other. split.
  - intros Hf r Hr Hk. destruct (p r) eqn:E; [|done]. rewrite <- Hf. symmetry. apply existsb_exists.
    exists r. split; [by apply list_elem_of_In|]. rewrite E. by apply Z.eqb_neq in Hk as ->.
  - intros Hall. apply not_true_is_false. intros (r & Hr & Hb)%existsb_exists.
    apply andb_true_iff in Hb as [Hk%negb_true_iff%Z.eqb_neq Hp]. rewrite Hall in Hp; [done| |done].
    by apply list_elem_of_In.
Qed.

Lemma table_ok_insert t r :
  table_ok t → ck r = Ok tt →
  (∀ q, q ∈ rows t → key q ≠ key r → ¬ clash r q ∧ ¬ clash q r) → table_ok (<[key r := r]> t).
Proof.
  intros [Hrow Hcl] Hck Hno. split.
  - intros id q [[<- <-]|[_ Hq]]%lookup_insert_Some; auto.
  - assert (∀ j q, key r ≠ j → t !! j = Some q → ¬ clash r q ∧ ¬ clash q r) as Hno'.
    { intros j q Hj Hq. apply Hno; [apply elem_of_rows; eauto|]. destruct (Hrow _ _ Hq) as [-> _]. done. }
    intros i j a b [[<- <-]|[Hi Ha]]%lookup_insert_Some [[<- <-]|[Hj Hb]]%lookup_insert_Some Hab;
      [done|by destruct (Hno' _ _ Hj Hb)|by destruct (Hno' _ _ Hi Ha)|eauto].
Qed.

Lemma insert_row_Ok pkey uq fk r t t' :
  insert_row key pkey ck uq fk r t = Ok t' →
  ck r = Ok tt ∧ t !! key r = None ∧ uq r t = Ok tt ∧ fk r = Ok tt ∧ t' = <[key r := r]> t.
Proof.
  unfold insert_row. intros ([] & ? & Hok)%bind_Ok.
  apply bind_Ok in Hok as (_ & Hnew%raise_if_Ok%bool_decide_eq_false & Hok).
  apply bind_Ok in Hok as ([] & ? & Hok). apply bind_Ok in Hok as ([] & ? & [= <-]).
  split_and!; try done. by apply eq_None_not_Some.
Qed.

Lemma update_row_Ok uq fk id guard f t t' :
  update_row ck uq fk id guard f t = Ok t' →
  (t' = t ∧ ∀ r, t !! id = Some r → guard r = false) ∨
  ∃ r, t !! id = Some r ∧ guard r = true ∧ ck (f r) = Ok tt ∧ uq (f r) t = Ok tt ∧ fk (f r) = Ok tt ∧
    t' = <[id := f r]> t.
Proof.
  clear key clash. unfold update_row. destruct (t !! id) as [r|]; [|intros [= <-]; left; naive_solver].
  destruct (guard r) eqn:Hg; [|intros [= <-]; left; naive_solver].
  intros ([] & ? & Hok)%bind_Ok. apply bind_Ok in Hok as ([] & ? & Hok).
  apply bind_Ok in Hok as ([] & ? & [= <-]). right. by exists r.
Qed.

End table.

Lemma elem_of_select {R} (key : R → UUID) p t (r : R) : r ∈ select key p t ↔ p r = true ∧ ∃ id, t !! id = Some r.
Proof.
  unfold select. rewrite sorting.merge_sort_Permutation, list_elem_of_In, filter_In, <- list_elem_of_In.
  rewrite elem_of_rows. tauto.
Qed.
Lemma integrity_Ok b name u : integrity b name = Ok u ↔ b = false.
Proof. apply raise_if_Ok. Qed.

Lemma references_Ok {R} id (t : gmap UUID R) name u : references id t name = Ok u ↔ is_Some (t !! id).
Proof. unfold references. by rewrite integrity_Ok, negb_false_iff, bool_decide_eq_true. Qed.

(** ** Every constraint *)

Definition same_email (r q : UserRow) : Prop := us_email r = us_email q.
Definition both_active (r q : FamilyRow) : Prop :=
  fr_status r = FAMILY_ACTIVE ∧ fr_status q = FAMILY_ACTIVE ∧ fr_user_id r = fr_user_id q.
Definition same_digest (r q : RefreshRow) : Prop := rt_digest r = rt_digest q.
Definition both_open (r q : RegistrationRow) : Prop :=
  rc_status r = CH_ACTIVE ∧ rc_status q = CH_ACTIVE ∧ rc_email r = rc_email q.
Definition both_resets (r q : ResetRow) : Prop :=
  rs_status r = CH_ACTIVE ∧ rs_status q = CH_ACTIVE ∧ rs_user_id r = rs_user_id q.
Definition same_token (r q : TokenRow) : Prop := tk_digest r = tk_digest q.

Record tables_ok (db : ADB) : Prop := {
  to_users : table_ok us_id ck_user same_email (users db);
  to_families : table_ok fr_id ck_family both_active (families db);
  to_family_user : ∀ id r, families db !! id = Some r → is_Some (users db !! fr_user_id r);
  to_refresh : table_ok rt_id ck_refresh_token same_digest (refresh_tokens db);
  to_refresh_family : ∀ id r, refresh_tokens db !! id = Some r → is_Some (families db !! rt_family_id r);
  to_replacement : ∀ id r next, refresh_tokens db !! id = Some r → rt_replaced_by_id r = Some next →
    ∃ q, refresh_tokens db !! next = Some q ∧ rt_family_id q = rt_family_id r;
  to_registrations : table_ok rc_id ck_registration both_open (registrations db);
  to_registration_tokens :
    table_ok tk_id (ck_token "registration") same_token (registration_tokens db);
  to_registration_fk : ∀ id r, registration_tokens db !! id = Some r →
    is_Some (registrations db !! tk_challenge_id r);
  to_resets : table_ok rs_id ck_reset both_resets (resets db);
  to_reset_user : ∀ id r, resets db !! id = Some r → is_Some (users db !! rs_user_id r);
  to_reset_tokens : table_ok tk_id (ck_token "password_reset") same_token (reset_tokens db);
  to_reset_fk : ∀ id r, reset_tokens db !! id = Some r → is_Some (resets db !! tk_challenge_id r);
  to_events : Forall (λ e, ck_security_event e = Ok tt ∧ is_Some (users db !! ev_subject_user_id e))
    (security_events db);
}.

(** The clashes the unique indexes reject. *)
Lemma uq_user_Ok r t : uq_user r t = Ok tt ↔ ∀ q, q ∈ rows t → us_id q ≠ us_id r → ¬ same_email r q ∧ ¬ same_email q r.
Proof.
  unfold uq_user, same_email. rewrite integrity_Ok, (other_false us_id).
  setoid_rewrite bool_decide_eq_false. naive_solver.
Qed.
Lemma uq_family_Ok r t :
  uq_family r t = Ok tt → ∀ q, q ∈ rows t → fr_id q ≠ fr_id r → ¬ both_active r q ∧ ¬ both_active q r.
Proof.
  unfold uq_family, both_active. rewrite integrity_Ok, andb_false_iff, (other_false fr_id).
  intros [Hr|Hall] q Hq Hk; [unfold family_active in Hr; apply bool_decide_eq_false in Hr; naive_solver|].
  specialize (Hall q Hq Hk). unfold family_active in Hall.
  apply andb_false_iff in Hall as [?%bool_decide_eq_false|?%Z.eqb_neq]; naive_solver.
Qed.
Lemma uq_refresh_token_Ok r t :
  uq_refresh_token r t = Ok tt ↔ ∀ q, q ∈ rows t → rt_id q ≠ rt_id r → ¬ same_digest r q ∧ ¬ same_digest q r.
Proof.
  unfold uq_refresh_token, same_digest. rewrite integrity_Ok, (other_false rt_id).
  setoid_rewrite bool_decide_eq_false. naive_solver.
Qed.
Lemma uq_registration_Ok r t :
  uq_registration r t = Ok tt → ∀ q, q ∈ rows t → rc_id q ≠ rc_id r → ¬ both_open r q ∧ ¬ both_open q r.
Proof.
  unfold uq_registration, both_open. rewrite integrity_Ok, andb_false_iff, (other_false rc_id).
  intros [Hr|Hall] q Hq Hk; [unfold registration_active in Hr; apply bool_decide_eq_false in Hr; naive_solver|].
  specialize (Hall q Hq Hk). unfold registration_active in Hall.
  apply andb_false_iff in Hall as [?%bool_decide_eq_false|?%bool_decide_eq_false]; naive_solver.
Qed.
Lemma uq_reset_Ok r t :
  uq_reset r t = Ok tt → ∀ q, q ∈ rows t → rs_id q ≠ rs_id r → ¬ both_resets r q ∧ ¬ both_resets q r.
Proof.
  unfold uq_reset, both_resets. rewrite integrity_Ok, andb_false_iff, (other_false rs_id).
  intros [Hr|Hall] q Hq Hk; [unfold reset_active in Hr; apply bool_decide_eq_false in Hr; naive_solver|].
  specialize (Hall q Hq Hk). unfold reset_active in Hall.
  apply andb_false_iff in Hall as [?%bool_decide_eq_false|?%Z.eqb_neq]; naive_solver.
Qed.
Lemma uq_token_Ok table r t :
  uq_token table r t = Ok tt ↔ ∀ q, q ∈ rows t → tk_id q ≠ tk_id r → ¬ same_token r q ∧ ¬ same_token q r.
Proof.
  unfold uq_token, same_token. rewrite integrity_Ok, (other_false tk_id).
  setoid_rewrite bool_decide_eq_false. naive_solver.
Qed.

(** ** What no transaction undoes *)

Section moves.
Context {R : Type} (keeps : R → R → Prop).

(** Every row is still there, related to what it was. *)
Definition moves (t t' : gmap UUID R) : Prop :=
  ∀ id r, t !! id = Some r → ∃ r', t' !! id = Some r' ∧ keeps r r'.

Lemma moves_refl `{!Reflexive keeps} t : moves t t.
Proof. intros id r Hr. by exists r. Qed.
Lemma moves_trans `{!Transitive keeps} t1 t2 t3 : moves t1 t2 → moves t2 t3 → moves t1 t3.
Proof.
  intros H12 H23 id r Hr. destruct (H12 _ _ Hr) as (r2 & Hr2 & ?). destruct (H23 _ _ Hr2) as (r3 & ? & ?).
  exists r3. split; [done|]. by etrans.
Qed.
Lemma moves_new `{!Reflexive keeps} t id r : t !! id = None → moves t (<[id := r]> t).
Proof. intros Hnew k q Hq. exists q. rewrite lookup_insert_ne by congruence. done. Qed.
Lemma moves_row `{!Reflexive keeps} t id r r' : t !! id = Some r → keeps r r' → moves t (<[id := r']> t).
Proof.
  intros Hr Hk k q Hq. destruct (decide (k = id)) as [->|Hne].
  - rewrite lookup_insert_eq. simplify_eq. by exists r'.
  - rewrite lookup_insert_ne by done. by exists q.
Qed.
Lemma moves_is_Some t t' id : moves t t' → is_Some (t !! id) → is_Some (t' !! id).
Proof. intros Hm [r Hr]. destruct (Hm _ _ Hr) as (r' & -> & _). by eexists. Qed.
End moves.

Definition user_keeps (r r' : UserRow) : Prop :=
  us_id r' = us_id r ∧ us_email r' = us_email r ∧ us_created_at r' = us_created_at r.
Definition family_keeps (r r' : FamilyRow) : Prop :=
  fr_id r' = fr_id r ∧ fr_user_id r' = fr_user_id r ∧ fr_expires_at r' = fr_expires_at r ∧
  fr_created_at r' = fr_created_at r ∧ (fr_status r = FAMILY_REVOKED → fr_status r' = FAMILY_REVOKED).
Definition refresh_keeps (r r' : RefreshRow) : Prop :=
  r' = r ∨ rt_used_at r = None ∧ rt_used_at r' ≠ None ∧ rt_id r' = rt_id r ∧
    rt_family_id r' = rt_family_id r ∧ rt_digest r' = rt_digest r ∧ rt_issued_at r' = rt_issued_at r.
Definition registration_keeps (r r' : RegistrationRow) : Prop :=
  r' = r ∨ rc_status r = CH_ACTIVE ∧ rc_status r' ≠ CH_ACTIVE ∧ rc_id r' = rc_id r ∧
    rc_email r' = rc_email r ∧ rc_created_at r' = rc_created_at r ∧ rc_expires_at r' = rc_expires_at r.
Definition reset_keeps (r r' : ResetRow) : Prop :=
  r' = r ∨ rs_status r = CH_ACTIVE ∧ rs_status r' ≠ CH_ACTIVE ∧ rs_id r' = rs_id r ∧
    rs_user_id r' = rs_user_id r ∧ rs_created_at r' = rs_created_at r ∧ rs_expires_at r' = rs_expires_at r.
Definition token_keeps (r r' : TokenRow) : Prop :=
  r' = r ∨ tk_used_at r = None ∧ tk_used_at r' ≠ None ∧ tk_id r' = tk_id r ∧
    tk_challenge_id r' = tk_challenge_id r ∧ tk_digest r' = tk_digest r ∧ tk_issued_at r' = tk_issued_at r.

#[export] Instance user_keeps_preorder : PreOrder user_keeps.
Proof. split; [by intros r|]. intros r1 r2 r3 (? & ? & ?) (? & ? & ?). unfold user_keeps. split_and!; congruence. Qed.
#[export] Instance family_keeps_preorder : PreOrder family_keeps.
Proof.
  split; [by intros r|]. intros r1 r2 r3 (? & ? & ? & ? & ?) (? & ? & ? & ? & ?). unfold family_keeps.
  split_and!; try congruence. auto.
Qed.
#[export] Instance refresh_keeps_preorder : PreOrder refresh_keeps.
Proof.
  split; [by left|]. intros r1 r2 r3 [->|(? & ? & ? & ? & ? & ?)] [->|(? & ? & ? & ? & ? & ?)]; unfold refresh_keeps;
    [by left|right; by split_and!|right; by split_and!|done].
Qed.
#[export] Instance registration_keeps_preorder : PreOrder registration_keeps.
Proof.
  split; [by left|]. intros r1 r2 r3 [->|(? & ? & ? & ? & ? & ?)] [->|(? & ? & ? & ? & ? & ?)];
    unfold registration_keeps; [by left|right; by split_and!|right; by split_and!|done].
Qed.
#[export] Instance reset_keeps_preorder : PreOrder reset_keeps.
Proof.
  split; [by left|]. intros r1 r2 r3 [->|(? & ? & ? & ? & ? & ?)] [->|(? & ? & ? & ? & ? & ?)];
    unfold reset_keeps; [by left|right; by split_and!|right; by split_and!|done].
Qed.
#[export] Instance token_keeps_preorder : PreOrder token_keeps.
Proof.
  split; [by left|]. intros r1 r2 r3 [->|(? & ? & ? & ? & ? & ?)] [->|(? & ? & ? & ? & ? & ?)];
    unfold token_keeps; [by left|right; by split_and!|right; by split_and!|done].
Qed.

Record progress (db db' : ADB) : Prop := {
  pg_users : moves user_keeps (users db) (users db');
  pg_families : moves family_keeps (families db) (families db');
  pg_refresh : moves refresh_keeps (refresh_tokens db) (refresh_tokens db');
  pg_registrations : moves registration_keeps (registrations db) (registrations db');
  pg_registration_tokens : moves token_keeps (registration_tokens db) (registration_tokens db');
  pg_resets : moves reset_keeps (resets db) (resets db');
  pg_reset_tokens : moves token_keeps (reset_tokens db) (reset_tokens db');
  pg_events : security_events db `prefix_of` security_events db';
}.

#[export] Instance progress_preorder : PreOrder progress.
Proof.
  split.
  - intros db. split; try apply moves_refl; apply _ || done.
  - intros db1 db2 db3 [] []. split; (eapply moves_trans; [apply _|done|done]) || by etrans.
Qed.
#[export] Hint Resolve moves_refl : core.

(** A write: the constraints it keeps and the history it respects. *)
Definition writes (db db' : ADB) : Prop := tables_ok db' ∧ progress db db'.

Lemma writes_refl db : tables_ok db → writes db db.
Proof. by split. Qed.
Lemma writes_trans db1 db2 db3 : writes db1 db2 → (tables_ok db2 → writes db2 db3) → writes db1 db3.
Proof. intros [Hok H12] H23. destruct (H23 Hok) as [? H3]. split; [done|by etrans]. Qed.

Ltac keep_tables := split; cbn; (apply moves_refl; apply _) || done || idtac.

(** *** Users *)

Lemma insert_user_writes r db db' :
  tables_ok db → insert_user r db = Ok db' →
  writes db db' ∧ users db !! us_id r = None ∧ db' = set_users (<[us_id r := r]> (users db)) db.
Proof.
  intros Hok (t & Hins & [= <-])%bind_Ok. apply insert_row_Ok in Hins as (Hck & Hnew & Huq & _ & ->).
  assert (moves user_keeps (users db) (<[us_id r := r]> (users db))) as Hm by by apply moves_new; [apply _|].
  split; [|done]. split; [|by keep_tables]. destruct Hok. split; cbn; try done.
  - apply table_ok_insert; [done|done|]. by apply uq_user_Ok.
  - intros id f Hf. eapply moves_is_Some; [done|eauto].
  - intros id f Hf. eapply moves_is_Some; [done|eauto].
  - eapply Forall_impl; [done|]. intros e [? ?]. split; [done|]. by eapply moves_is_Some.
Qed.

Lemma update_user_writes id f db db' :
  tables_ok db → update_user id f db = Ok db' → (∀ r, user_keeps r (f r)) →
  writes db db' ∧
  match users db !! id with
  | Some r => ck_user (f r) = Ok tt ∧ db' = set_users (<[id := f r]> (users db)) db
  | None => db' = db
  end.
Proof.
  intros Hok (t & Hupd & [= <-])%bind_Ok Hkeeps.
  apply update_row_Ok in Hupd as [[-> Hno]|(r & Hr & _ & Hck & Huq & _ & ->)].
  - destruct (users db !! id) as [r|] eqn:E; [by specialize (Hno r eq_refl)|].
    destruct db. split; [by apply writes_refl|done].
  - rewrite Hr. destruct (Hkeeps r) as (Hid & _).
    destruct (tb_row _ _ _ _ (to_users _ Hok) _ _ Hr) as [Hk _].
    assert (moves user_keeps (users db) (<[id := f r]> (users db))) as Hm by by eapply moves_row; [apply _|..].
    split; [|done]. split; [|by keep_tables]. destruct Hok. split; cbn; try done.
    + replace id with (us_id (f r)) by congruence. apply table_ok_insert; [done|done|]. by apply uq_user_Ok.
    + intros i g Hg. eapply moves_is_Some; [done|eauto].
    + intros i g Hg. eapply moves_is_Some; [done|eauto].
    + eapply Forall_impl; [done|]. intros e [? ?]. split; [done|]. by eapply moves_is_Some.
Qed.

(** *** Refresh families and tokens *)

(** A write to one row of [families]. *)
Lemma family_row_writes db r :
  tables_ok db → ck_family r = Ok tt → uq_family r (families db) = Ok tt →
  is_Some (users db !! fr_user_id r) → moves family_keeps (families db) (<[fr_id r := r]> (families db)) →
  writes db (set_families (<[fr_id r := r]> (families db)) db).
Proof.
  intros Hok Hck Huq Hfk Hm. split; [|by keep_tables]. destruct Hok. split; cbn; try done.
  - apply table_ok_insert; [done|done|]. by apply uq_family_Ok.
  - intros id q [[<- <-]|[_ Hq]]%lookup_insert_Some; [done|by eauto].
  - intros id q Hq. eapply moves_is_Some; [done|eauto].
Qed.

Lemma insert_family_writes r db db' :
  tables_ok db → insert_family r db = Ok db' →
  writes db db' ∧ families db !! fr_id r = None ∧ db' = set_families (<[fr_id r := r]> (families db)) db.
Proof.
  intros Hok (t & Hins & [= <-])%bind_Ok.
  apply insert_row_Ok in Hins as (Hck & Hnew & Huq & Hfk%references_Ok & ->).
  split; [|done]. apply family_row_writes; try done. by apply moves_new; [apply _|].
Qed.

(** What [revoke] leaves of a family. *)
Definition revoked (now : Z) (f : FamilyRow) : FamilyRow :=
  mkFamilyRow (fr_id f) (fr_user_id f) FAMILY_REVOKED (fr_expires_at f) (Some now) (fr_created_at f) now.

Lemma revoke_writes now id db db' :
  tables_ok db → revoke now id db = Ok db' →
  writes db db' ∧
  ((db' = db ∧ ∀ f, families db !! id = Some f → fr_status f = FAMILY_REVOKED) ∨
   ∃ f, families db !! id = Some f ∧ fr_status f = FAMILY_ACTIVE ∧
     db' = set_families (<[id := revoked now f]> (families db)) db).
Proof.
  intros Hok (t & Hupd & [= <-])%bind_Ok.
  apply update_row_Ok in Hupd as [[-> Hno]|(f & Hf & Hact & Hck & Huq & Hfk%references_Ok & ->)].
  - destruct db. split; [by apply writes_refl|]. left. split; [done|]. cbn in *. intros f Hf.
    specialize (Hno f Hf). unfold family_active in Hno. apply bool_decide_eq_false in Hno. by destruct (fr_status f).
  - destruct (tb_row _ _ _ _ (to_families _ Hok) _ _ Hf) as [Hid _].
    apply bool_decide_eq_true in Hact. split; [|right; by exists f].
    pose proof (family_row_writes db (revoked now f) Hok Hck Huq Hfk) as Hw. cbn [revoked fr_id] in Hw.
    rewrite Hid in Hw. apply Hw. eapply moves_row; [apply _|done|]. by repeat split.
Qed.

Lemma insert_refresh_token_writes r db db' :
  tables_ok db → insert_refresh_token r db = Ok db' →
  writes db db' ∧ refresh_tokens db !! rt_id r = None ∧ ck_refresh_token r = Ok tt ∧
  db' = set_refresh_tokens (<[rt_id r := r]> (refresh_tokens db)) db.
Proof.
  intros Hok (t & Hins & [= <-])%bind_Ok. apply insert_row_Ok in Hins as (Hck & Hnew & Huq & Hfk & ->).
  apply bind_Ok in Hfk as ([] & Hfam%references_Ok & Hrep%integrity_Ok).
  assert (moves refresh_keeps (refresh_tokens db) (<[rt_id r := r]> (refresh_tokens db))) as Hm
    by by apply moves_new; [apply _|].
  split; [|done]. split; [|by keep_tables]. destruct Hok as [? ? ? ? ? Hrepl]. split; cbn; try done.
  - apply table_ok_insert; [done|done|]. by apply uq_refresh_token_Ok.
  - intros id q [[<- <-]|[_ Hq]]%lookup_insert_Some; [done|by eauto].
  - assert (∀ next q, refresh_tokens db !! next = Some q → <[rt_id r := r]> (refresh_tokens db) !! next = Some q)
      as Hkeep by (intros next q Hq; rewrite lookup_insert_ne by congruence; done).
    intros id q next [[<- <-]|[_ Hq]]%lookup_insert_Some Hnext.
    + rewrite Hnext in Hrep. apply negb_false_iff, bool_decide_eq_true in Hrep.
      apply fmap_Some in Hrep as (q & Hq & Heq). exists q. split; [by apply Hkeep|done].
    + destruct (Hrepl _ _ _ Hq Hnext) as (q' & Hq' & ?). exists q'. split; [by apply Hkeep|done].
Qed.

(** Marking an unused token: what is left of it and of its family. *)
Definition used (now : Z) (next : UUID) (r : RefreshRow) : RefreshRow :=
  mkRefreshRow (rt_id r) (rt_family_id r) (rt_digest r) (rt_issued_at r) (Some now) (Some next).
Definition touched (now : Z) (f : FamilyRow) : FamilyRow :=
  mkFamilyRow (fr_id f) (fr_user_id f) (fr_status f) (fr_expires_at f) (fr_revoked_at f) (fr_created_at f) now.

Lemma mark_used_writes id next family now db db' r f :
  tables_ok db → mark_used id next family now db = Ok db' →
  refresh_tokens db !! id = Some r → rt_used_at r = None → families db !! family = Some f →
  writes db db' ∧
  db' = set_families (<[family := touched now f]> (families db))
          (set_refresh_tokens (<[id := used now next r]> (refresh_tokens db)) db).
Proof.
  intros Hok (db1 & Htok & Hfam)%bind_Ok Hr Hunused Hf.
  assert (writes db db1 ∧ db1 = set_refresh_tokens (<[id := used now next r]> (refresh_tokens db)) db)
    as [Hw ->].
  { apply bind_Ok in Htok as (t & Hupd & [= <-]).
    apply update_row_Ok in Hupd as [[_ Hno]|(r' & Hr' & _ & Hck & Huq & Hfk & ->)]; [by specialize (Hno _ Hr)|].
    assert (r' = r) as -> by congruence. fold (used now next r) in *. split; [|done].
    destruct (tb_row _ _ _ _ (to_refresh _ Hok) _ _ Hr) as [Hid _].
    apply bind_Ok in Hfk as ([] & Hff%references_Ok & Hrep%integrity_Ok).
    cbn [used rt_replaced_by_id rt_family_id] in Hrep. apply negb_false_iff, bool_decide_eq_true in Hrep.
    assert (moves refresh_keeps (refresh_tokens db) (<[id := used now next r]> (refresh_tokens db))) as Hm
      by (eapply moves_row; [apply _|done|]; right; by split_and!).
    split; [|by keep_tables]. destruct Hok as [? ? ? ? ? Hrepl]. split; cbn; try done.
    - replace id with (rt_id (used now next r)) by done. apply table_ok_insert; [done|done|].
      by apply uq_refresh_token_Ok.
    - intros i q [[<- <-]|[_ Hq]]%lookup_insert_Some; [done|by eauto].
    - assert (∀ n q, refresh_tokens db !! n = Some q → ∃ q', <[id := used now next r]> (refresh_tokens db) !! n = Some q'
        ∧ rt_family_id q' = rt_family_id q) as Hkeep.
      { intros n q Hq. destruct (Hm _ _ Hq) as (q' & Hq' & Hk). exists q'. split; [done|].
        destruct Hk as [->|(_ & _ & _ & ? & _)]; done. }
      intros i q n [[<- <-]|[_ Hq]]%lookup_insert_Some Hnext.
      + injection Hnext as <-. apply fmap_Some in Hrep as (q & Hq & Heq).
        destruct (Hkeep _ _ Hq) as (q' & ? & ?). exists q'. split; [done|]. cbn. congruence.
      + destruct (Hrepl _ _ _ Hq Hnext) as (q1 & Hq1 & ?). destruct (Hkeep _ _ Hq1) as (q' & ? & ?).
        exists q'. split; [done|congruence]. }
  apply bind_Ok in Hfam as (t & Hupd & [= <-]). cbn [families set_refresh_tokens] in Hupd.
  apply update_row_Ok in Hupd as [[_ Hno]|(f' & Hf' & _ & Hck & Huq & Hfk%references_Ok & ->)]; [by specialize (Hno _ Hf)|].
  assert (f' = f) as -> by congruence. fold (touched now f) in *. split; [|done].
  destruct (tb_row _ _ _ _ (to_families _ Hok) _ _ Hf) as [Hid _].
  eapply writes_trans; [exact Hw|]. intros Hok1.
  pose proof (family_row_writes _ (touched now f) Hok1 Hck Huq Hfk) as Hw1. cbn [touched fr_id] in Hw1.
  rewrite Hid in Hw1. apply Hw1. cbn [families set_refresh_tokens].
  eapply moves_row; [apply _|done|]. by repeat split.
Qed.


(** *** Challenges and their tokens *)

Lemma registration_row_writes db r :
  tables_ok db → ck_registration r = Ok tt → uq_registration r (registrations db) = Ok tt →
  moves registration_keeps (registrations db) (<[rc_id r := r]> (registrations db)) →
  writes db (set_registrations (<[rc_id r := r]> (registrations db)) db).
Proof.
  intros Hok Hck Huq Hm. split; [|by keep_tables]. destruct Hok. split; cbn; try done.
  - apply table_ok_insert; [done|done|]. by apply uq_registration_Ok.
  - intros id q Hq. eapply moves_is_Some; [done|eauto].
Qed.

Lemma insert_registration_writes r db db' :
  tables_ok db → insert_registration r db = Ok db' →
  writes db db' ∧ registrations db !! rc_id r = None ∧
  db' = set_registrations (<[rc_id r := r]> (registrations db)) db.
Proof.
  intros Hok (t & Hins & [= <-])%bind_Ok. apply insert_row_Ok in Hins as (Hck & Hnew & Huq & _ & ->).
  split; [|done]. apply registration_row_writes; try done. by apply moves_new; [apply _|].
Qed.

(** Closing an active challenge. *)
Lemma update_registration_writes id f db db' r :
  tables_ok db → update_registration id f db = Ok db' → registrations db !! id = Some r →
  registration_keeps r (f r) → rc_id (f r) = rc_id r →
  writes db db' ∧ db' = set_registrations (<[id := f r]> (registrations db)) db.
Proof.
  intros Hok (t & Hupd & [= <-])%bind_Ok Hr Hkeeps Hid.
  apply update_row_Ok in Hupd as [[_ Hno]|(r' & Hr' & _ & Hck & Huq & _ & ->)]; [by specialize (Hno _ Hr)|].
  assert (r' = r) as -> by congruence. split; [|done].
  destruct (tb_row _ _ _ _ (to_registrations _ Hok) _ _ Hr) as [Hk _].
  assert (id = rc_id (f r)) as Hkey by congruence. rewrite Hkey. apply registration_row_writes; try done.
  rewrite <- Hkey. eapply moves_row; [apply _|done|done].
Qed.

Lemma reset_row_writes db r :
  tables_ok db → ck_reset r = Ok tt → uq_reset r (resets db) = Ok tt → is_Some (users db !! rs_user_id r) →
  moves reset_keeps (resets db) (<[rs_id r := r]> (resets db)) →
  writes db (set_resets (<[rs_id r := r]> (resets db)) db).
Proof.
  intros Hok Hck Huq Hfk Hm. split; [|by keep_tables]. destruct Hok. split; cbn; try done.
  - apply table_ok_insert; [done|done|]. by apply uq_reset_Ok.
  - intros id q [[<- <-]|[_ Hq]]%lookup_insert_Some; [done|by eauto].
  - intros id q Hq. eapply moves_is_Some; [done|eauto].
Qed.

Lemma insert_reset_writes r db db' :
  tables_ok db → insert_reset r db = Ok db' →
  writes db db' ∧ resets db !! rs_id r = None ∧ db' = set_resets (<[rs_id r := r]> (resets db)) db.
Proof.
  intros Hok (t & Hins & [= <-])%bind_Ok.
  apply insert_row_Ok in Hins as (Hck & Hnew & Huq & Hfk%references_Ok & ->).
  split; [|done]. apply reset_row_writes; try done. by apply moves_new; [apply _|].
Qed.

Lemma update_reset_writes id guard f db db' :
  tables_ok db → update_reset id guard f db = Ok db' →
  (∀ r, resets db !! id = Some r → guard r = true → reset_keeps r (f r) ∧ rs_id (f r) = rs_id r) →
  writes db db' ∧
  ((db' = db ∧ ∀ r, resets db !! id = Some r → guard r = false) ∨
   ∃ r, resets db !! id = Some r ∧ guard r = true ∧ db' = set_resets (<[id := f r]> (resets db)) db).
Proof.
  intros Hok (t & Hupd & [= <-])%bind_Ok Hkeeps.
  apply update_row_Ok in Hupd as [[-> Hno]|(r & Hr & Hg & Hck & Huq & Hfk%references_Ok & ->)].
  - destruct db. split; [by apply writes_refl|by left].
  - destruct (Hkeeps r Hr Hg) as [Hk Hid]. split; [|right; by exists r].
    destruct (tb_row _ _ _ _ (to_resets _ Hok) _ _ Hr) as [Hrow _].
    assert (id = rs_id (f r)) as Hkey by congruence. rewrite Hkey. apply reset_row_writes; try done.
    rewrite <- Hkey. eapply moves_row; [apply _|done|done].
Qed.

Lemma registration_token_row_writes db r :
  tables_ok db → ck_token "registration" r = Ok tt →
  uq_token "registration" r (registration_tokens db) = Ok tt → is_Some (registrations db !! tk_challenge_id r) →
  moves token_keeps (registration_tokens db) (<[tk_id r := r]> (registration_tokens db)) →
  writes db (set_registration_tokens (<[tk_id r := r]> (registration_tokens db)) db).
Proof.
  intros Hok Hck Huq Hfk Hm. split; [|by keep_tables]. destruct Hok. split; cbn; try done.
  - apply table_ok_insert; [done|done|]. by eapply uq_token_Ok.
  - intros id q [[<- <-]|[_ Hq]]%lookup_insert_Some; [done|by eauto].
Qed.
Lemma reset_token_row_writes db r :
  tables_ok db → ck_token "password_reset" r = Ok tt →
  uq_token "password_reset" r (reset_tokens db) = Ok tt → is_Some (resets db !! tk_challenge_id r) →
  moves token_keeps (reset_tokens db) (<[tk_id r := r]> (reset_tokens db)) →
  writes db (set_reset_tokens (<[tk_id r := r]> (reset_tokens db)) db).
Proof.
  intros Hok Hck Huq Hfk Hm. split; [|by keep_tables]. destruct Hok. split; cbn; try done.
  - apply table_ok_insert; [done|done|]. by eapply uq_token_Ok.
  - intros id q [[<- <-]|[_ Hq]]%lookup_insert_Some; [done|by eauto].
Qed.

Lemma insert_registration_token_writes r db db' :
  tables_ok db → insert_registration_token r db = Ok db' →
  writes db db' ∧ registration_tokens db !! tk_id r = None ∧ is_Some (registrations db !! tk_challenge_id r) ∧
  db' = set_registration_tokens (<[tk_id r := r]> (registration_tokens db)) db.
Proof.
  intros Hok (t & Hins & [= <-])%bind_Ok.
  apply insert_row_Ok in Hins as (Hck & Hnew & Huq & Hfk%references_Ok & ->).
  split; [|done]. apply registration_token_row_writes; try done. by apply moves_new; [apply _|].
Qed.
Lemma insert_reset_token_writes r db db' :
  tables_ok db → insert_reset_token r db = Ok db' →
  writes db db' ∧ reset_tokens db !! tk_id r = None ∧ is_Some (resets db !! tk_challenge_id r) ∧
  db' = set_reset_tokens (<[tk_id r := r]> (reset_tokens db)) db.
Proof.
  intros Hok (t & Hins & [= <-])%bind_Ok.
  apply insert_row_Ok in Hins as (Hck & Hnew & Huq & Hfk%references_Ok & ->).
  split; [|done]. apply reset_token_row_writes; try done. by apply moves_new; [apply _|].
Qed.

(** Spending a token. *)
Definition spent (now : Z) (r : TokenRow) : TokenRow :=
  mkTokenRow (tk_id r) (tk_challenge_id r) (tk_digest r) (tk_issued_at r) (Some now).

Lemma spend_registration_token_writes now id c db db' r :
  tables_ok db →
  update_registration_token id (λ r, tk_challenge_id r =? c) (spent now) db = Ok db' →
  registration_tokens db !! id = Some r → tk_challenge_id r = c → tk_used_at r = None →
  writes db db' ∧ db' = set_registration_tokens (<[id := spent now r]> (registration_tokens db)) db.
Proof.
  intros Hok (t & Hupd & [= <-])%bind_Ok Hr Hc Hunused.
  apply update_row_Ok in Hupd as [[_ Hno]|(r' & Hr' & _ & Hck & Huq & _ & ->)].
  { specialize (Hno _ Hr). apply Z.eqb_neq in Hno. done. }
  assert (r' = r) as -> by congruence. split; [|done].
  destruct (tb_row _ _ _ _ (to_registration_tokens _ Hok) _ _ Hr) as [Hk _].
  pose proof (registration_token_row_writes db (spent now r) Hok Hck Huq) as Hw. cbn [spent tk_id tk_challenge_id] in Hw.
  rewrite Hk in Hw. apply Hw; [by eapply (to_registration_fk _ Hok)|].
  eapply moves_row; [apply _|done|]. right. by split_and!.
Qed.
Lemma spend_reset_token_writes now id c db db' r :
  tables_ok db →
  update_reset_token id (λ r, tk_challenge_id r =? c) (spent now) db = Ok db' →
  reset_tokens db !! id = Some r → tk_challenge_id r = c → tk_used_at r = None →
  writes db db' ∧ db' = set_reset_tokens (<[id := spent now r]> (reset_tokens db)) db.
Proof.
  intros Hok (t & Hupd & [= <-])%bind_Ok Hr Hc Hunused.
  apply update_row_Ok in Hupd as [[_ Hno]|(r' & Hr' & _ & Hck & Huq & _ & ->)].
  { specialize (Hno _ Hr). apply Z.eqb_neq in Hno. done. }
  assert (r' = r) as -> by congruence. split; [|done].
  destruct (tb_row _ _ _ _ (to_reset_tokens _ Hok) _ _ Hr) as [Hk _].
  pose proof (reset_token_row_writes db (spent now r) Hok Hck Huq) as Hw. cbn [spent tk_id tk_challenge_id] in Hw.
  rewrite Hk in Hw. apply Hw; [by eapply (to_reset_fk _ Hok)|].
  eapply moves_row; [apply _|done|]. right. by split_and!.
Qed.

(** *** Security events *)

Lemma insert_security_event_writes e db db' :
  tables_ok db → insert_security_event e db = Ok db' →
  writes db db' ∧ db' = set_security_events (security_events db ++ [e]) db.
Proof.
  intros Hok ([] & Hck & Hins)%bind_Ok. apply bind_Ok in Hins as ([] & _ & Hins).
  apply bind_Ok in Hins as ([] & Hfk%references_Ok & Hins). apply bind_Ok in Hins as ([] & _ & [= <-]).
  split; [|done]. split; [|keep_tables; by exists [e]]. destruct Hok. split; cbn; try done.
  apply Forall_app. split; [done|]. by constructor.
Qed.
