(* ===== verification/AccountSpecs.v ===== *)
(** * What the account transactions write

    The invariant of all account tables, [accounts_ok], and the steps the
    transactions are made of: ending sessions, starting one, rotating a token,
    closing challenges, changing a user together with its security event.
    Each step keeps the invariant. *)

From stdpp Require Import sorting.
From S2P Require Import Prelude Python Exceptions Auth Credentials Accounts Sessions Registrations Passwords UserManagement AccountInvariant.
Local Open Scope Z_scope.

(** ** Users as the log tells *)

Definition log_step (s : option (UserRole * UserStatus)) (e : UserSecurityEvent)
    : option (UserRole * UserStatus) :=
  '(role, status) ← s;
  match ev_type e with
  | INITIAL_SUPER_ADMIN_BOOTSTRAPPED => None
  | USER_ROLE_CHANGED =>
      if bool_decide (ev_previous_role e = Some role) then new ← ev_new_role e; Some (new, status) else None
  | USER_DISABLED | USER_ENABLED =>
      if bool_decide (ev_previous_status e = Some status) then new ← ev_new_status e; Some (role, new) else None
  | PASSWORD_CHANGED | PASSWORD_RESET => Some (role, status)
  end.

(** The role and status the events of one user lead to: a registered user
    starts as an active USER, a bootstrapped one with its first event. *)
Definition replay_security (events : list UserSecurityEvent) : option (UserRole * UserStatus) :=
  match events with
  | e :: rest =>
      if bool_decide (ev_type e = INITIAL_SUPER_ADMIN_BOOTSTRAPPED)
      then foldl log_step (role ← ev_new_role e; status ← ev_new_status e; Some (role, status)) rest
      else foldl log_step (Some (USER, ACTIVE)) events
  | [] => Some (USER, ACTIVE)
  end.

Definition events_of (id : UUID) (events : list UserSecurityEvent) : list UserSecurityEvent :=
  filter (λ e, ev_subject_user_id e = id) events.

Lemma replay_snoc events e :
  ev_type e ≠ INITIAL_SUPER_ADMIN_BOOTSTRAPPED → replay_security (events ++ [e]) = log_step (replay_security events) e.
Proof.
  intros He. destruct events as [|e0 events]; cbn.
  - rewrite bool_decide_eq_false_2 by done. done.
  - case_bool_decide; by rewrite foldl_app.
Qed.
Lemma replay_password events e s :
  ev_type e = PASSWORD_CHANGED ∨ ev_type e = PASSWORD_RESET → replay_security events = Some s →
  replay_security (events ++ [e]) = Some s.
Proof.
  intros He Hs. rewrite replay_snoc by (destruct He; congruence). rewrite Hs.
  destruct s. cbn. by destruct He as [-> | ->].
Qed.
Lemma events_of_same id k es :
  Forall (λ e, ev_subject_user_id e = id) es → events_of k es = if bool_decide (k = id) then es else [].
Proof.
  induction 1 as [|e es He _ IH]; [by case_bool_decide|]. unfold events_of in *. rewrite filter_cons, IH.
  case_bool_decide; [by rewrite decide_True by congruence|by rewrite decide_False by congruence].
Qed.

(** Who may bring an event about. *)
Definition event_authorized (e : UserSecurityEvent) : Prop :=
  match ev_type e with
  | INITIAL_SUPER_ADMIN_BOOTSTRAPPED => ev_initiator_type e = BOOTSTRAP_CLI
  | USER_ROLE_CHANGED =>
      ∃ actor role old new, ev_initiator_user_id e = Some actor ∧ ev_initiator_role e = Some role ∧
        ev_previous_role e = Some old ∧ ev_new_role e = Some new ∧ actor ≠ ev_subject_user_id e ∧
        (role = SUPER_ADMIN ∨ role = ADMIN ∧ old = USER ∧ new ≠ SUPER_ADMIN)
  | USER_DISABLED | USER_ENABLED =>
      ∃ actor, ev_initiator_user_id e = Some actor ∧ ev_initiator_role e = Some SUPER_ADMIN ∧
        actor ≠ ev_subject_user_id e
  | PASSWORD_CHANGED => ev_initiator_user_id e = Some (ev_subject_user_id e)
  | PASSWORD_RESET => ev_initiator_type e = RESET_TOKEN
  end.

(** ** The invariant *)

Definition user_active (id : UUID) (db : ADB) : Prop :=
  ∃ r, users db !! id = Some r ∧ us_status r = ACTIVE.
(** An unused token of a family. *)
Definition live_token (family t : UUID) (db : ADB) : Prop :=
  ∃ r, refresh_tokens db !! t = Some r ∧ rt_family_id r = family ∧ rt_used_at r = None.

Section services.
Context `{UnicodeData} `{AuthServices}.

Record accounts_ok (db : ADB) : Prop := {
  ac_tables : tables_ok db;
  ac_family_user : ∀ id f, families db !! id = Some f → fr_status f = FAMILY_ACTIVE →
    user_active (fr_user_id f) db;
  ac_reset_user : ∀ id c, resets db !! id = Some c → rs_status c = CH_ACTIVE →
    user_active (rs_user_id c) db;
  ac_live : ∀ family, is_Some (families db !! family) →
    ∃ t, live_token family t db ∧ ∀ t', live_token family t' db → t' = t;
  ac_spent_registration : ∀ id t, registration_tokens db !! id = Some t → tk_used_at t ≠ None →
    ∃ c, registrations db !! tk_challenge_id t = Some c ∧ rc_status c = CH_COMPLETED;
  ac_registered : ∀ id c, registrations db !! id = Some c → rc_status c = CH_COMPLETED →
    ∃ u r, users db !! u = Some r ∧ us_email r = rc_email c;
  ac_spent_reset : ∀ id t, reset_tokens db !! id = Some t → tk_used_at t ≠ None →
    ∃ c, resets db !! tk_challenge_id t = Some c ∧ rs_status c = CH_COMPLETED;
  ac_readable : ∀ id r, users db !! id = Some r → ∃ u, user_from_record r = Ok u;
  ac_log : ∀ id r, users db !! id = Some r →
    replay_security (events_of id (security_events db)) = Some (us_role r, us_status r);
  ac_authorized : Forall event_authorized (security_events db);
}.

(** A step keeps the invariant and undoes nothing. *)
Definition keeps (db db' : ADB) : Prop := accounts_ok db' ∧ progress db db'.

Lemma keeps_refl db : accounts_ok db → keeps db db.
Proof. by split. Qed.
Lemma keeps_trans db1 db2 db3 : keeps db1 db2 → (accounts_ok db2 → keeps db2 db3) → keeps db1 db3.
Proof. intros [Hok ?] H23. destruct (H23 Hok). split; [done|by etrans]. Qed.

Lemma empty_accounts_ok : accounts_ok empty_adb.
Proof.
  split; cbn; try (intros *; rewrite lookup_empty; done); try done.
Qed.
End services.

(** ** Ending the sessions and resets of a user *)

Definition end_sessions (now : Z) (user_id : UUID) (t : gmap UUID FamilyRow) : gmap UUID FamilyRow :=
  (λ f, if bool_decide (fr_user_id f = user_id ∧ fr_status f = FAMILY_ACTIVE) then revoked now f else f) <$> t.
Definition closed (now : Z) (c : ResetRow) : ResetRow :=
  mkResetRow (rs_id c) (rs_user_id c) CH_REVOKED (rs_created_at c) (rs_expires_at c) (rs_completed_at c) (Some now).
Definition end_resets (now : Z) (user_id : UUID) (t : gmap UUID ResetRow) : gmap UUID ResetRow :=
  (λ c, if bool_decide (rs_user_id c = user_id ∧ rs_status c = CH_ACTIVE) then closed now c else c) <$> t.

(** Changing, among the rows named by a list, those that satisfy [p]. *)
Section change.
Context {R : Type} (p : R → bool) (f : R → R).

Definition change_in (ids : list UUID) (t : gmap UUID R) : gmap UUID R :=
  map_imap (λ id r, Some (if bool_decide (id ∈ ids) && p r then f r else r)) t.

Lemma lookup_change_in ids t id :
  change_in ids t !! id = (λ r, if bool_decide (id ∈ ids) && p r then f r else r) <$> t !! id.
Proof. unfold change_in. rewrite map_lookup_imap. by destruct (t !! id). Qed.
Lemma change_in_nil t : change_in [] t = t.
Proof.
  apply map_eq. intros id. rewrite lookup_change_in. rewrite bool_decide_eq_false_2 by set_solver.
  by destruct (t !! id).
Qed.
Lemma change_in_cons id ids t t1 :
  (∀ r, p (f r) = false) →
  (t1 = t ∧ (∀ r, t !! id = Some r → p r = false) ∨
   ∃ r, t !! id = Some r ∧ p r = true ∧ t1 = <[id := f r]> t) →
  change_in ids t1 = change_in (id :: ids) t.
Proof.
  intros Hf Ht. apply map_eq. intros k. rewrite !lookup_change_in.
  destruct Ht as [[-> Hno]|(r & Hr & Hp & ->)].
  - destruct (t !! k) as [q|] eqn:E; cbn; [|done]. f_equal. destruct (p q) eqn:Hq; [|by rewrite !andb_false_r].
    rewrite !andb_true_r. assert (k ≠ id) by (intros ->; rewrite (Hno _ E) in Hq; done).
    erewrite bool_decide_ext; [done|]. set_solver.
  - destruct (decide (k = id)) as [->|Hk].
    + rewrite lookup_insert_eq, Hr. cbn. rewrite Hf, Hp, andb_false_r, bool_decide_eq_true_2 by set_solver. done.
    + rewrite lookup_insert_ne by done. destruct (t !! k); cbn; [|done]. f_equal.
      erewrite (bool_decide_ext (k ∈ id :: ids)); [done|]. set_solver.
Qed.
End change.

Lemma revoke_all_writes now locked db db' :
  tables_ok db → revoke_all now locked db = Ok db' →
  writes db db' ∧
  db' = set_families (change_in family_active (revoked now) (fr_id <$> locked) (families db)) db.
Proof.
  revert db. induction locked as [|f locked IH]; intros db Hok.
  - intros [= <-]. split; [by apply writes_refl|]. cbn. rewrite change_in_nil. by destruct db.
  - intros (db1 & Hrev & Hrest)%bind_Ok. apply revoke_writes in Hrev as [Hw Hcases]; [|done].
    apply IH in Hrest as [Hw1 ->]; [|by destruct Hw]. split; [by eapply writes_trans|].
    rewrite fmap_cons, <- (change_in_cons _ _ (fr_id f) _ (families db) (families db1)); [by destruct Hcases as [[-> _]|(? & _ & _ & ->)]|done|].
    destruct Hcases as [[-> Hno]|(g & Hg & Hact & ->)]; [left|right; exists g].
    + split; [done|]. intros r Hr. unfold family_active. rewrite (Hno _ Hr). done.
    + split_and!; [done| |done]. unfold family_active. by rewrite Hact.
Qed.

Lemma end_sessions_writes now user_id db0 db db' :
  tables_ok db → families db0 = families db →
  revoke_all now (lock_families user_id None db0) db = Ok db' →
  writes db db' ∧ db' = set_families (end_sessions now user_id (families db)) db.
Proof.
  intros Hok Heq [Hw ->]%revoke_all_writes; [|done]. split; [done|]. f_equal.
  apply map_eq. intros id. unfold end_sessions. rewrite lookup_change_in, lookup_fmap.
  destruct (families db !! id) as [f|] eqn:E; [|done]. cbn. f_equal.
  destruct (tb_row _ _ _ _ (to_families _ Hok) _ _ E) as [Hid _].
  unfold family_active. destruct (decide (fr_status f = FAMILY_ACTIVE)) as [Hact|Hact].
  - rewrite Hact, (bool_decide_eq_true_2 (FAMILY_ACTIVE = _)), andb_true_r by done.
    erewrite bool_decide_ext; [done|]. rewrite list_elem_of_fmap. setoid_rewrite elem_of_select.
    rewrite Heq. split.
    + intros (g & Hg & Hp & k & Hk). apply andb_true_iff in Hp as [Hu%Z.eqb_eq _].
      destruct (tb_row _ _ _ _ (to_families _ Hok) _ _ Hk) as [Hkid _].
      assert (g = f) as -> by congruence. done.
    + intros [Hu _]. exists f. split; [done|]. split; [|by exists id].
      rewrite Hu, Z.eqb_refl. unfold family_active. by rewrite Hact.
  - rewrite (bool_decide_eq_false_2 (fr_status f = _)), andb_false_r by done.
    rewrite bool_decide_eq_false_2; [done|naive_solver].
Qed.

Lemma revoke_challenge_writes now id db db' :
  tables_ok db → revoke_challenge now id db = Ok db' →
  writes db db' ∧
  ((db' = db ∧ ∀ c, resets db !! id = Some c → reset_active c = false) ∨
   ∃ c, resets db !! id = Some c ∧ reset_active c = true ∧
     db' = set_resets (<[id := closed now c]> (resets db)) db).
Proof.
  intros Hok Hupd. apply update_reset_writes in Hupd; [exact Hupd|done|].
  intros c _ Hact%bool_decide_eq_true. split; [right; by split_and!|done].
Qed.

Lemma revoke_challenges_writes now challenges db db' :
  tables_ok db → revoke_challenges now challenges db = Ok db' →
  writes db db' ∧
  db' = set_resets (change_in reset_active (closed now) (rsc_id <$> challenges) (resets db)) db.
Proof.
  revert db. induction challenges as [|c challenges IH]; intros db Hok.
  - intros [= <-]. split; [by apply writes_refl|]. cbn. rewrite change_in_nil. by destruct db.
  - intros (db1 & Hrev & Hrest)%bind_Ok. apply revoke_challenge_writes in Hrev as [Hw Hcases]; [|done].
    apply IH in Hrest as [Hw1 ->]; [|by destruct Hw]. split; [by eapply writes_trans|].
    rewrite fmap_cons, <- (change_in_cons _ _ (rsc_id c) _ (resets db) (resets db1)); [by destruct Hcases as [[-> _]|(? & _ & _ & ->)]|done|].
    destruct Hcases as [[-> Hno]|(g & Hg & Hact & ->)]; [by left|right; by exists g].
Qed.

Lemma end_resets_writes now user_id db0 db db' :
  tables_ok db → resets db0 = resets db →
  revoke_challenges now (lock_challenges user_id None db0) db = Ok db' →
  writes db db' ∧ db' = set_resets (end_resets now user_id (resets db)) db.
Proof.
  intros Hok Heq [Hw ->]%revoke_challenges_writes; [|done]. split; [done|]. f_equal.
  apply map_eq. intros id. unfold end_resets. rewrite lookup_change_in, lookup_fmap.
  destruct (resets db !! id) as [c|] eqn:E; [|done]. cbn. f_equal.
  destruct (tb_row _ _ _ _ (to_resets _ Hok) _ _ E) as [Hid _].
  unfold reset_active. destruct (decide (rs_status c = CH_ACTIVE)) as [Hact|Hact].
  - rewrite Hact, (bool_decide_eq_true_2 (CH_ACTIVE = _)), andb_true_r by done.
    erewrite bool_decide_ext; [done|]. unfold lock_challenges. rewrite <- list_fmap_compose, list_elem_of_fmap.
    setoid_rewrite elem_of_select. rewrite Heq. split.
    + intros (g & Hg & Hp & k & Hk). apply andb_true_iff in Hp as [Hu%Z.eqb_eq _].
      destruct (tb_row _ _ _ _ (to_resets _ Hok) _ _ Hk) as [Hkid _]. cbn in Hg.
      assert (g = c) as -> by congruence. done.
    + intros [Hu _]. exists c. split; [done|]. split; [|by exists id].
      rewrite Hu, Z.eqb_refl. unfold reset_active. by rewrite Hact.
  - rewrite (bool_decide_eq_false_2 (rs_status c = _)), andb_false_r by done.
    rewrite bool_decide_eq_false_2; [done|naive_solver].
Qed.

(** ** Issuing a token *)

(** The accepted draw inserted its row. *)
Lemma issue_refresh_writes env family now db db' token id :
  tables_ok db → issue_refresh env family now db = Ok ((token, id), db') →
  writes db db' ∧ refresh_tokens db !! id = None ∧ (∃ k, ae_refresh env k = (token, id)) ∧
  db' = set_refresh_tokens
          (<[id := mkRefreshRow id family (token_digest token) now None None]> (refresh_tokens db)) db.
Proof.
  intros Hok Hiss. unfold issue_refresh in Hiss.
  pose proof (draw_until_spec (add_token family now db)
    (λ e, match e with RefreshDigestConflict => true | _ => false end) (ae_refresh env) 4 0) as Hd.
  rewrite Hiss in Hd. destruct Hd as (k & _ & Hk & Hadd & _).
  apply catch_Ok in Hadd as [Hadd|(e & _ & He)]; [|by destruct e; try done; case_bool_decide].
  apply insert_refresh_token_writes in Hadd as (Hw & Hnew & _ & ->); [|done].
  rewrite <- Hk in *. cbn in *. split_and!; [done|done|by exists k|done].
Qed.

(** ** Users *)

Section users.
Context `{UnicodeData} `{AuthServices}.

Lemma user_from_record_Ok r u :
  user_from_record r = Ok u →
  user_id u = us_id r ∧ user_role u = us_role r ∧ user_status u = us_status r ∧
  user_password_hash u = us_password_hash r ∧ EmailAddress_init (us_email r) = Ok (user_email u).
Proof.
  intros (email & Hemail & Hok)%bind_Ok. apply bind_Ok in Hok as (name & _ & Hok).
  apply bind_Ok in Hok as ([] & _ & Hok). apply bind_Ok in Hok as ([] & _ & Hok).
  apply bind_Ok in Hok as ([] & _ & [= <-]). by split_and!.
Qed.

(** A row with the same identity that satisfies the CHECK constraints reads
    back as well. *)
Lemma readable_update r r' :
  (∃ u, user_from_record r = Ok u) → us_email r' = us_email r → us_name r' = us_name r → ck_user r' = Ok tt →
  ∃ u, user_from_record r' = Ok u.
Proof.
  intros [u Hu] He Hn Hck. unfold user_from_record in *. rewrite He, Hn.
  apply bind_Ok in Hu as (email & -> & Hu). apply bind_Ok in Hu as (name & -> & Hu).
  cbn [mbind result_bind].
  apply bind_Ok in Hck as ([] & _ & Hck). apply bind_Ok in Hck as ([] & _ & Hck).
  apply bind_Ok in Hck as ([] & Hh%integrity_Ok & Ht%integrity_Ok).
  unfold User_init, dt_ltb, utc. cbn. rewrite Hh. cbn. rewrite Ht. cbn. by eexists.
Qed.

Lemma get_by_id_Ok id db u :
  get_by_id id db = Ok (Some u) → ∃ r, users db !! id = Some r ∧ user_from_record r = Ok u.
Proof.
  unfold get_by_id, user_of. destruct (users db !! id) as [r|]; [|done].
  intros (v & Hv & [= <-])%bind_Ok. by exists r.
Qed.
(** With readable users a lookup by identity never fails. *)
Lemma get_by_id_total id db :
  accounts_ok db →
  match users db !! id with
  | Some r => ∃ u, get_by_id id db = Ok (Some u) ∧ user_from_record r = Ok u
  | None => get_by_id id db = Ok None
  end.
Proof.
  intros Hok. unfold get_by_id, user_of. destruct (users db !! id) as [r|] eqn:E; [|done].
  destruct (ac_readable _ Hok _ _ E) as [u Hu]. exists u. by rewrite Hu.
Qed.

Lemma row_by_email_Some email db r :
  row_by_email email db = Some r → us_email r = email ∧ ∃ id, users db !! id = Some r.
Proof.
  unfold row_by_email. intros [Hin He]%find_some. apply bool_decide_eq_true in He.
  split; [done|]. apply elem_of_rows. by apply list_elem_of_In.
Qed.
Lemma get_by_email_Ok email db u :
  get_by_email email db = Ok (Some u) →
  ∃ id r, users db !! id = Some r ∧ us_email r = email ∧ user_from_record r = Ok u.
Proof.
  unfold get_by_email, user_of. destruct (row_by_email email db) as [r|] eqn:E; [|done].
  intros (v & Hv & [= <-])%bind_Ok. apply row_by_email_Some in E as (? & id & ?). by exists id, r.
Qed.
End users.

(** ** Steps that keep the invariant *)

Section keeps.
Context `{UnicodeData} `{AuthServices}.
Implicit Types db : ADB.

(** Writing one table: what the rows of the new table owe the others. *)
Lemma set_families_keeps db t :
  accounts_ok db → writes db (set_families t db) →
  (∀ id f, t !! id = Some f → is_Some (families db !! id) ∧
     (fr_status f = FAMILY_ACTIVE → user_active (fr_user_id f) db)) →
  keeps db (set_families t db).
Proof.
  intros Hok [Ht Hp] Hrows. split; [|done]. destruct Hok. split; cbn; try done.
  - intros id f Hf. by apply Hrows with id.
  - intros family [f Hf]. apply ac_live0. by destruct (Hrows _ _ Hf).
Qed.

Lemma set_resets_keeps db t :
  accounts_ok db → writes db (set_resets t db) →
  (∀ id c, t !! id = Some c → rs_status c = CH_ACTIVE → user_active (rs_user_id c) db) →
  keeps db (set_resets t db).
Proof.
  intros Hok [Ht Hp] Hrows. split; [|done]. destruct Hok. split; cbn; try done.
  intros id r Hr Hu. destruct (ac_spent_reset0 _ _ Hr Hu) as (c & Hc & Hs).
  destruct (pg_resets _ _ Hp _ _ Hc) as (c' & Hc' & [->|[? _]]); [by exists c|congruence].
Qed.

Lemma set_registrations_keeps db t :
  accounts_ok db → writes db (set_registrations t db) →
  (∀ id c, t !! id = Some c → rc_status c = CH_COMPLETED → ∃ u r, users db !! u = Some r ∧ us_email r = rc_email c) →
  keeps db (set_registrations t db).
Proof.
  intros Hok [Ht Hp] Hrows. split; [|done]. destruct Hok. split; cbn; try done.
  intros id r Hr Hu. destruct (ac_spent_registration0 _ _ Hr Hu) as (c & Hc & Hs).
  destruct (pg_registrations _ _ Hp _ _ Hc) as (c' & Hc' & [->|[? _]]); [by exists c|congruence].
Qed.

(** A user whose identity stays, with the events that account for the change. *)
Lemma set_user_keeps db id r f es :
  accounts_ok db → users db !! id = Some r →
  writes db (set_security_events (security_events db ++ es) (set_users (<[id := f r]> (users db)) db)) →
  us_email (f r) = us_email r →
  (us_status r = ACTIVE → us_status (f r) = ACTIVE ∨
     (∀ k g, families db !! k = Some g → fr_user_id g = id → fr_status g ≠ FAMILY_ACTIVE) ∧
     (∀ k c, resets db !! k = Some c → rs_user_id c = id → rs_status c ≠ CH_ACTIVE)) →
  (∃ u, user_from_record (f r) = Ok u) →
  Forall (λ e, ev_subject_user_id e = id) es → Forall event_authorized es →
  replay_security (events_of id (security_events db) ++ es) = Some (us_role (f r), us_status (f r)) →
  keeps db (set_security_events (security_events db ++ es) (set_users (<[id := f r]> (users db)) db)).
Proof.
  intros Hok Hr [Ht Hp] Hemail Hactive Hread Hsubj Hauth Hlog. split; [|done].
  assert (∀ k, user_active k db → user_active k
    (set_security_events (security_events db ++ es) (set_users (<[id := f r]> (users db)) db)) ∨
    (k = id ∧ us_status r = ACTIVE ∧ us_status (f r) ≠ ACTIVE)) as Hact.
  { intros k (q & Hq & Hs). unfold user_active. cbn. destruct (decide (k = id)) as [->|].
    - rewrite Hr in Hq. injection Hq as <-. destruct (decide (us_status (f r) = ACTIVE)) as [Hn|Hn]; [|by right].
      left. exists (f r). by rewrite lookup_insert_eq.
    - left. exists q. by rewrite lookup_insert_ne. }
  pose proof (λ k, events_of_same id k es Hsubj) as Hes.
  destruct Hok. split; cbn; try done.
  - intros k g Hg Hs. destruct (Hact _ (ac_family_user0 _ _ Hg Hs)) as [?|(Hk & Hrs & Hn)]; [done|].
    destruct (Hactive Hrs) as [?|[Hfam _]]; [done|]. by destruct (Hfam _ _ Hg Hk).
  - intros k g Hg Hs. destruct (Hact _ (ac_reset_user0 _ _ Hg Hs)) as [?|(Hk & Hrs & Hn)]; [done|].
    destruct (Hactive Hrs) as [?|[_ Hres]]; [done|]. by destruct (Hres _ _ Hg Hk).
  - intros k c Hc Hs. destruct (ac_registered0 _ _ Hc Hs) as (u & q & Hq & He).
    destruct (decide (u = id)) as [->|]; [|exists u, q; by rewrite lookup_insert_ne].
    exists id, (f r). rewrite lookup_insert_eq. split; [done|congruence].
  - intros k q [[<- <-]|[_ Hq]]%lookup_insert_Some; [done|by eauto].
  - intros k q [[<- <-]|[Hk Hq]]%lookup_insert_Some.
    + unfold events_of in *. rewrite filter_app, Hes, bool_decide_eq_true_2 by done. exact Hlog.
    + unfold events_of in *. rewrite filter_app, Hes, bool_decide_eq_false_2, app_nil_r by done.
      by apply ac_log0.
  - by apply Forall_app.
Qed.
End keeps.

(** ** Sessions *)

Section sessions.
Context `{UnicodeData} `{AuthServices}.
Implicit Types db : ADB.

Lemma lookup_end_sessions now u t id f :
  end_sessions now u t !! id = Some f →
  ∃ f0, t !! id = Some f0 ∧
    (f = f0 ∧ ¬ (fr_user_id f0 = u ∧ fr_status f0 = FAMILY_ACTIVE) ∨
     f = revoked now f0 ∧ fr_user_id f0 = u ∧ fr_status f0 = FAMILY_ACTIVE).
Proof.
  clear. unfold end_sessions. rewrite lookup_fmap. intros (f0 & -> & Hf0)%fmap_Some. exists f0. split; [done|].
  case_bool_decide; naive_solver.
Qed.
Lemma lookup_end_resets now u t id c :
  end_resets now u t !! id = Some c →
  ∃ c0, t !! id = Some c0 ∧
    (c = c0 ∧ ¬ (rs_user_id c0 = u ∧ rs_status c0 = CH_ACTIVE) ∨
     c = closed now c0 ∧ rs_user_id c0 = u ∧ rs_status c0 = CH_ACTIVE).
Proof.
  clear. unfold end_resets. rewrite lookup_fmap. intros (c0 & -> & Hc0)%fmap_Some. exists c0. split; [done|].
  case_bool_decide; naive_solver.
Qed.

Lemma end_sessions_keeps now u db0 db db' :
  accounts_ok db → families db0 = families db →
  revoke_all now (lock_families u None db0) db = Ok db' →
  keeps db db' ∧ db' = set_families (end_sessions now u (families db)) db.
Proof.
  intros Hok Heq [Hw ->]%end_sessions_writes; [|apply Hok|done]. split; [|done].
  apply set_families_keeps; [done|done|]. intros id f Hf.
  apply lookup_end_sessions in Hf as (f0 & Hf0 & [[-> _]|(-> & _)]); (split; [done|]); [|done].
  by apply (ac_family_user _ Hok) with id.
Qed.
Lemma end_resets_keeps now u db0 db db' :
  accounts_ok db → resets db0 = resets db →
  revoke_challenges now (lock_challenges u None db0) db = Ok db' →
  keeps db db' ∧ db' = set_resets (end_resets now u (resets db)) db.
Proof.
  intros Hok Heq [Hw ->]%end_resets_writes; [|apply Hok|done]. split; [|done].
  apply set_resets_keeps; [done|done|]. intros id c Hc.
  apply lookup_end_resets in Hc as (c0 & Hc0 & [[-> _]|(-> & _)]); [|done].
  by apply (ac_reset_user _ Hok) with id.
Qed.
Lemma revoke_keeps now id db db' :
  accounts_ok db → revoke now id db = Ok db' →
  keeps db db' ∧ ∀ f, families db' !! id = Some f → fr_status f = FAMILY_REVOKED.
Proof.
  intros Hok Hrev. apply revoke_writes in Hrev as [Hw [[-> Hno]|(f & Hf & Hact & ->)]]; [| |apply Hok].
  - split; [by apply keeps_refl|done].
  - split; [|cbn; rewrite lookup_insert_eq; by intros ? [= <-]].
    apply set_families_keeps; [done|done|].
    intros k g [[<- <-]|[_ Hg]]%lookup_insert_Some; [by split|].
    split; [done|]. by apply (ac_family_user _ Hok) with k.
Qed.

(** A new family with its first token. *)
Definition open_session (env : AuthEnv) (u : UUID) (now expires_at : Z) (token : pystr) (id : UUID) db : ADB :=
  set_refresh_tokens
    (<[id := mkRefreshRow id (ae_family_id env) (token_digest token) now None None]> (refresh_tokens db))
    (set_families (<[ae_family_id env := mkFamilyRow (ae_family_id env) u FAMILY_ACTIVE expires_at None now now]>
                     (families db)) db).

Lemma start_session_keeps env u now expires_at db db1 db2 token id :
  accounts_ok db → user_active u db → create_family env u now expires_at db = Ok db1 →
  issue_refresh env (ae_family_id env) now db1 = Ok ((token, id), db2) →
  keeps db db2 ∧ families db !! ae_family_id env = None ∧ refresh_tokens db !! id = None ∧
  db2 = open_session env u now expires_at token id db.
Proof.
  intros Hok Hu Hfam Hiss. apply insert_family_writes in Hfam as (Hw & Hnew & ->); [|apply Hok].
  apply issue_refresh_writes in Hiss as (Hw2 & Hnewt & _ & ->); [|apply Hw].
  split; [|done]. destruct (writes_trans _ _ _ Hw (λ _, Hw2)) as [Ht Hp]. split; [|done].
  assert (∀ t q, refresh_tokens db !! t = Some q → rt_family_id q ≠ ae_family_id env) as Hold.
  { intros t q Hq Heq. destruct (to_refresh_family _ (ac_tables _ Hok) _ _ Hq) as [f Hf]. cbn in *. congruence. }
  cbn in *. destruct Hok. split; cbn; try done.
  - intros k f [[<- <-]|[_ Hf]]%lookup_insert_Some; [done|by eauto].
  - intros family Hfam. unfold live_token. cbn. destruct (decide (family = ae_family_id env)) as [->|Hne].
    + exists id. split; [eexists; by rewrite lookup_insert_eq|].
      intros t' (q & [[<- _]|[_ Hq]]%lookup_insert_Some & Hqf & _); [done|]. by destruct (Hold _ _ Hq).
    + rewrite lookup_insert_ne in Hfam by done. destruct (ac_live0 _ Hfam) as (t & (q & Hq & ? & ?) & Huniq).
      exists t. split; [exists q; by rewrite lookup_insert_ne by congruence|].
      intros t' (q' & [[<- <-]|[_ Hq']]%lookup_insert_Some & Hqf & ?); [by destruct Hne|].
      apply Huniq. by exists q'.
Qed.

(** Replacing the unused token of a family. *)
Lemma rotate_keeps env family now db db1 db2 token next id r f :
  accounts_ok db → issue_refresh env family now db = Ok ((token, next), db1) →
  mark_used id next family now db1 = Ok db2 →
  refresh_tokens db !! id = Some r → rt_used_at r = None → rt_family_id r = family → families db !! family = Some f →
  keeps db db2 ∧ refresh_tokens db !! next = None ∧
  db2 = set_families (<[family := touched now f]> (families db))
          (set_refresh_tokens
             (<[id := used now next r]>
                (<[next := mkRefreshRow next family (token_digest token) now None None]> (refresh_tokens db))) db).
Proof.
  intros Hok Hiss Hmark Hr Hunused Hfam Hf.
  apply issue_refresh_writes in Hiss as (Hw & Hnew & _ & ->); [|apply Hok].
  assert (id ≠ next) as Hne by congruence.
  eapply mark_used_writes in Hmark as [Hw2 Heq]; [|apply Hw|cbn; by rewrite lookup_insert_ne|done|done].
  subst db2. split; [|done]. destruct (writes_trans _ _ _ Hw (λ _, Hw2)) as [Ht Hp]. split; [|exact Hp].
  cbn in *. pose proof (ac_family_user _ Hok _ _ Hf) as Hact. destruct Hok. split; cbn; try done.
  - intros k g [[<- <-]|[_ Hg]]%lookup_insert_Some; [done|by eauto].
  - intros k Hk. unfold live_token. cbn. destruct (decide (k = family)) as [->|Hkf].
    + exists next. split; [eexists; by rewrite lookup_insert_ne, lookup_insert_eq by done|].
      intros t' (q & Hq & Hqf & Hqu). destruct (ac_live0 family) as (t & _ & Huniq); [by exists f|].
      apply lookup_insert_Some in Hq as [[<- <-]|[Hnt Hq]]; [done|].
      apply lookup_insert_Some in Hq as [[<- _]|[_ Hq]]; [done|]. destruct Hnt.
      transitivity t; [|symmetry]; apply Huniq; [by exists r|by exists q].
    + assert (is_Some (families db !! k)) as Hk' by (by rewrite lookup_insert_ne in Hk).
      destruct (ac_live0 _ Hk') as (t & (q & Hq & Hqf & Hqu) & Huniq). exists t. split.
      * exists q. rewrite !lookup_insert_ne by congruence. done.
      * intros t' (q' & Hq' & Hqf' & Hqu'). apply lookup_insert_Some in Hq' as [[<- <-]|[_ Hq']]; [done|].
        apply lookup_insert_Some in Hq' as [[<- <-]|[_ Hq']]; [by destruct Hkf|]. apply Huniq. by exists q'.
Qed.
End sessions.

(** ** Users and their events *)

Section user_steps.
Context `{UnicodeData} `{AuthServices}.
Implicit Types db : ADB.

(** The event of a change, written as a [UserSecurityEvent] by [event_record]. *)
Lemma audit_event_Ok env e now db db' :
  tables_ok db → audit env e now db = Ok db' →
  writes db db' ∧
  db' = set_security_events (security_events db ++ [event_record (ae_event_id env) now e]) db.
Proof. apply insert_security_event_writes. Qed.

Lemma update_user_row id f db db' r :
  accounts_ok db → users db !! id = Some r → update_user id f db = Ok db' → (∀ r, user_keeps r (f r)) →
  us_name (f r) = us_name r →
  writes db db' ∧ (∃ u, user_from_record (f r) = Ok u) ∧ db' = set_users (<[id := f r]> (users db)) db.
Proof.
  intros Hok Hr Hupd Hk Hn. apply update_user_writes in Hupd as [Hw Heq]; [|apply Hok|done].
  rewrite Hr in Heq. destruct Heq as [Hck ->]. split_and!; [done| |done].
  eapply readable_update; [by eapply ac_readable|by apply Hk|done|done].
Qed.

(** Changing a user and recording the event. *)
Lemma change_user_keeps env id f e now db db1 db2 r :
  accounts_ok db → users db !! id = Some r → (∀ r, user_keeps r (f r)) → us_name (f r) = us_name r →
  (us_status r = ACTIVE → us_status (f r) = ACTIVE ∨
     (∀ k g, families db !! k = Some g → fr_user_id g = id → fr_status g ≠ FAMILY_ACTIVE) ∧
     (∀ k c, resets db !! k = Some c → rs_user_id c = id → rs_status c ≠ CH_ACTIVE)) →
  update_user id f db = Ok db1 → audit env e now db1 = Ok db2 →
  ne_subject_user_id e = id → event_authorized (event_record (ae_event_id env) now e) →
  log_step (Some (us_role r, us_status r)) (event_record (ae_event_id env) now e) =
    Some (us_role (f r), us_status (f r)) →
  keeps db db2 ∧
  db2 = set_security_events (security_events db ++ [event_record (ae_event_id env) now e])
          (set_users (<[id := f r]> (users db)) db).
Proof.
  intros Hok Hr Hk Hn Hact Hupd Haud Hsubj Hauth Hlog.
  destruct (update_user_row _ _ _ _ _ Hok Hr Hupd Hk Hn) as (Hw & Hread & ->).
  apply audit_event_Ok in Haud as [Hw2 ->]; [|apply Hw]. cbn in *.
  destruct (Hk r) as (_ & He & _).
  split; [|done]. apply (set_user_keeps db id r f); try done.
  - exact (writes_trans _ _ _ Hw (λ _, Hw2)).
  - by constructor.
  - by constructor.
  - rewrite replay_snoc.
    + by rewrite (ac_log _ Hok _ _ Hr).
    + intros Hty. unfold log_step in Hlog. cbn in Hlog, Hty. rewrite Hty in Hlog. done.
Qed.

(** Changing only the password hash; the event follows later. *)
Lemma change_hash_keeps id hash now db db' r :
  accounts_ok db → users db !! id = Some r → change_hash id hash now db = Ok db' →
  keeps db db' ∧
  db' = set_users (<[id := mkUserRow (us_id r) (us_email r) (us_name r) hash (us_role r) (us_status r)
                             (us_created_at r) now]> (users db)) db.
Proof.
  intros Hok Hr Hupd. destruct (update_user_row _ _ _ _ _ Hok Hr Hupd) as (Hw & Hread & ->); [by intros q|done|].
  split; [|done].
  pose proof (set_user_keeps db id r (λ r, mkUserRow (us_id r) (us_email r) (us_name r) hash (us_role r)
    (us_status r) (us_created_at r) now) [] Hok Hr) as Hset.
  rewrite !app_nil_r in Hset. destruct db; cbn in *. apply Hset; try done; [by left|].
  exact (ac_log _ Hok _ _ Hr).
Qed.

(** Recording a password event of a known user. *)
Lemma audit_password_keeps env id p now db db' r :
  accounts_ok db → users db !! id = Some r → audit_password env id p now db = Ok db' →
  (∀ q, p = Some q → principal_id q = id) →
  keeps db db' ∧ ∃ e, db' = set_security_events (security_events db ++ [e]) db ∧ ev_subject_user_id e = id ∧
    ev_type e = (if present p then PASSWORD_CHANGED else PASSWORD_RESET) ∧
    ev_initiator_user_id e = principal_id <$> p.
Proof.
  intros Hok Hr Haud Hp. apply insert_security_event_writes in Haud as [Hw ->]; [|apply Hok].
  split; [|eexists; split; [done|]; by split_and!].
  set (e := event_record _ _ _) in *.
  pose proof (set_user_keeps db id r (λ r, r) [e] Hok Hr) as Hset. rewrite insert_id in Hset by done.
  destruct db; cbn in *. apply Hset; try done.
  - by left.
  - by apply (ac_readable _ Hok) with id.
  - by constructor.
  - constructor; [|done]. unfold event_authorized, e. cbn. destruct p as [q|]; [|done].
    cbn. by rewrite (Hp q).
  - apply replay_password; [unfold e; cbn; destruct p; auto|]. exact (ac_log _ Hok _ _ Hr).
Qed.

(** A new user, with the event of its creation if it has one. *)
Lemma add_user_keeps db r es :
  accounts_ok db → users db !! us_id r = None →
  writes db (set_security_events (security_events db ++ es) (set_users (<[us_id r := r]> (users db)) db)) →
  (∃ u, user_from_record r = Ok u) →
  Forall (λ e, ev_subject_user_id e = us_id r) es → Forall event_authorized es →
  replay_security es = Some (us_role r, us_status r) →
  keeps db (set_security_events (security_events db ++ es) (set_users (<[us_id r := r]> (users db)) db)).
Proof.
  intros Hok Hnew [Ht Hp] Hread Hsubj Hauth Hlog. split; [|done].
  assert (∀ k, user_active k db → user_active k
    (set_security_events (security_events db ++ es) (set_users (<[us_id r := r]> (users db)) db))) as Hact.
  { intros k (q & Hq & Hs). exists q. cbn. by rewrite lookup_insert_ne by congruence. }
  pose proof (λ k, events_of_same (us_id r) k es Hsubj) as Hes.
  assert (events_of (us_id r) (security_events db) = []) as Hnone.
  { pose proof (to_events _ (ac_tables _ Hok)) as Hev. unfold events_of.
    destruct (filter _ (security_events db)) as [|e l] eqn:E; [done|exfalso].
    assert (e ∈ filter (λ e, ev_subject_user_id e = us_id r) (security_events db)) as Hin
      by (rewrite E; set_solver).
    apply list_elem_of_filter in Hin as [Heq Hin]. rewrite Forall_forall in Hev.
    destruct (Hev _ Hin) as [_ [q Hq]]. congruence. }
  destruct Hok. split; cbn; try done.
  - intros k g Hg Hs. eauto.
  - intros k g Hg Hs. eauto.
  - intros k c Hc Hs. destruct (ac_registered0 _ _ Hc Hs) as (u & q & Hq & He).
    exists u, q. by rewrite lookup_insert_ne by congruence.
  - intros k q [[<- <-]|[_ Hq]]%lookup_insert_Some; [done|by eauto].
  - intros k q [[<- <-]|[Hk Hq]]%lookup_insert_Some; unfold events_of in *; rewrite filter_app, Hes.
    + rewrite bool_decide_eq_true_2 by done. rewrite Hnone. exact Hlog.
    + rewrite bool_decide_eq_false_2, app_nil_r by done. by apply ac_log0.
  - by apply Forall_app.
Qed.

(** [SqlAlchemyUserRepository.add] *)
Lemma add_user_Ok id now new db u db' :
  tables_ok db → add_user id now new db = Ok (u, db') →
  let r := mkUserRow id (nu_email new) (nu_name new) (nu_password_hash new) (nu_role new) (nu_status new) now now in
  writes db db' ∧ users db !! id = None ∧ user_from_record r = Ok u ∧ db' = set_users (<[id := r]> (users db)) db.
Proof.
  intros Hok (db1 & Hins & Hu)%bind_Ok. apply bind_Ok in Hu as (v & Hv & [= <- <-]).
  apply catch_Ok in Hins as [Hins|(e & _ & He)]; [|destruct e; try done; by case_bool_decide].
  apply insert_user_writes in Hins as (Hw & Hnew & ->); [|done]. by split_and!.
Qed.
End user_steps.

(** ** Challenges *)

Section challenges.
Context `{UnicodeData} `{AuthServices}.
Implicit Types db : ADB.

(** Closing a registration challenge without completing it. *)
Lemma expire_keeps id db db' c :
  accounts_ok db → registrations db !! id = Some c → rc_status c = CH_ACTIVE → expire id db = Ok db' →
  keeps db db' ∧ users db' = users db.
Proof.
  intros Hok Hc Hact Hexp. destruct (update_registration_writes _ _ _ _ c (ac_tables _ Hok) Hexp Hc) as [Hw ->]; [right; by split_and!|done|].
  split; [|done]. apply set_registrations_keeps; [done|done|].
  intros k q [[<- <-]|[_ Hq]]%lookup_insert_Some; [done|]. by apply (ac_registered _ Hok) with k.
Qed.

Lemma create_challenge_keeps env email now expires_at db c db' :
  accounts_ok db → create_challenge env email now expires_at db = Ok (c, db') →
  keeps db db' ∧ rch_id c = ae_challenge_id env ∧
  registrations db' !! rch_id c = Some (mkRegistrationRow (ae_challenge_id env) email CH_ACTIVE now expires_at None).
Proof.
  intros Hok (db1 & Hins & [= <- <-])%bind_Ok. apply insert_registration_writes in Hins as (Hw & Hnew & ->); [|apply Hok].
  split_and!; [|done|by cbn; rewrite lookup_insert_eq]. apply set_registrations_keeps; [done|done|].
  intros k q [[<- <-]|[_ Hq]]%lookup_insert_Some; [done|]. by apply (ac_registered _ Hok) with k.
Qed.

Lemma issue_registration_token_keeps env c now db db' token id :
  accounts_ok db → issue_registration_token env c now db = Ok ((token, id), db') →
  keeps db db' ∧ registration_tokens db !! id = None ∧
  db' = set_registration_tokens (<[id := mkTokenRow id c (token_digest token) now None]> (registration_tokens db)) db.
Proof.
  intros Hok Hiss. unfold issue_registration_token in Hiss.
  pose proof (draw_until_spec (add_registration_token c now db)
    (λ e, match e with RegistrationDigestConflict => true | _ => false end) (ae_challenge_token env) 4 0) as Hd.
  rewrite Hiss in Hd. destruct Hd as (k & _ & Hk & Hadd & _).
  apply catch_Ok in Hadd as [Hadd|(e & _ & He)]; [|destruct e; try done; by case_bool_decide].
  rewrite <- Hk in Hadd. cbn in Hadd.
  apply insert_registration_token_writes in Hadd as (Hw & Hnew & _ & ->); [|apply Hok].
  split; [|done]. destruct Hw as [Ht Hp]. split; [|done]. destruct Hok. split; cbn; try done.
  intros k' t [[<- <-]|[_ Hq]]%lookup_insert_Some; [done|by eauto].
Qed.

(** Spending a token and completing its challenge, once its user exists. *)
Lemma complete_keeps c t now db db' row token :
  accounts_ok db → registrations db !! c = Some row → rc_status row = CH_ACTIVE →
  registration_tokens db !! t = Some token → tk_challenge_id token = c → tk_used_at token = None →
  (∃ u r, users db !! u = Some r ∧ us_email r = rc_email row) →
  complete c t now db = Ok db' →
  keeps db db' ∧ (∃ row', registrations db' !! c = Some row' ∧ rc_status row' = CH_COMPLETED) ∧
  ∃ tt rr, db' = set_registrations rr (set_registration_tokens tt db).
Proof.
  intros Hok Hrow Hact Ht Htc Hunused Huser (db1 & Hspend & Hclose)%bind_Ok.
  destruct (spend_registration_token_writes _ _ _ _ _ _ (ac_tables _ Hok) Hspend Ht Htc Hunused) as [Hw ->].
  destruct (update_registration_writes _ _ _ _ row (proj1 Hw) Hclose Hrow) as [Hw2 ->]; [right; by split_and!|done|].
  destruct (writes_trans _ _ _ Hw (λ _, Hw2)) as [Htb Hp]. cbn in *. split_and!.
  - split; [|done]. destruct Hok. split; cbn; try done.
    + intros k q [[<- <-]|[_ Hq]]%lookup_insert_Some Hu.
      * cbn. eexists. by rewrite Htc, lookup_insert_eq.
      * destruct (ac_spent_registration0 _ _ Hq Hu) as (d & Hd & Hds).
        destruct (decide (tk_challenge_id q = c)) as [Heq|]; [rewrite Heq in Hd; congruence|].
        exists d. by rewrite lookup_insert_ne.
    + intros k q [[<- <-]|[_ Hq]]%lookup_insert_Some Hs; [done|by eauto].
  - eexists. by rewrite lookup_insert_eq.
  - by eexists _, _.
Qed.

Lemma expire_challenge_keeps id db db' c :
  accounts_ok db → resets db !! id = Some c → rs_status c = CH_ACTIVE → expire_challenge id db = Ok db' →
  keeps db db' ∧ users db' = users db.
Proof.
  intros Hok Hc Hact Hexp. apply update_reset_writes in Hexp as [Hw [[_ Hno]|(q & Hq & _ & ->)]]; [by specialize (Hno _ Hc)| |apply Hok|].
  - split; [|done]. apply set_resets_keeps; [done|done|].
    intros k q' [[<- <-]|[_ Hq']]%lookup_insert_Some; [done|]. by apply (ac_reset_user _ Hok) with k.
  - intros q Hq _. assert (q = c) as -> by congruence. split; [right; by split_and!|done].
Qed.

Lemma create_reset_challenge_keeps env u now expires_at db c db' :
  accounts_ok db → user_active u db → create_reset_challenge env u now expires_at db = Ok (c, db') →
  keeps db db' ∧ users db' = users db ∧ rsc_id c = ae_challenge_id env ∧
  resets db' !! rsc_id c = Some (mkResetRow (ae_challenge_id env) u CH_ACTIVE now expires_at None None).
Proof.
  intros Hok Hu (db1 & Hins & [= <- <-])%bind_Ok. apply insert_reset_writes in Hins as (Hw & Hnew & ->); [|apply Hok].
  split_and!; [|done|done|by cbn; rewrite lookup_insert_eq]. apply set_resets_keeps; [done|done|].
  intros k q [[<- <-]|[_ Hq]]%lookup_insert_Some; [done|]. by apply (ac_reset_user _ Hok) with k.
Qed.

Lemma issue_reset_token_keeps env c now db db' token id :
  accounts_ok db → issue_reset_token env c now db = Ok ((token, id), db') →
  keeps db db' ∧ reset_tokens db !! id = None ∧
  db' = set_reset_tokens (<[id := mkTokenRow id c (token_digest token) now None]> (reset_tokens db)) db.
Proof.
  intros Hok Hiss. unfold issue_reset_token in Hiss.
  pose proof (draw_until_spec (add_reset_token c now db)
    (λ e, match e with ResetDigestConflict => true | _ => false end) (ae_challenge_token env) 4 0) as Hd.
  rewrite Hiss in Hd. destruct Hd as (k & _ & Hk & Hadd & _).
  apply catch_Ok in Hadd as [Hadd|(e & _ & He)]; [|destruct e; try done; by case_bool_decide].
  rewrite <- Hk in Hadd. cbn in Hadd.
  apply insert_reset_token_writes in Hadd as (Hw & Hnew & _ & ->); [|apply Hok].
  split; [|done]. destruct Hw as [Ht Hp]. split; [|done]. destruct Hok. split; cbn; try done.
  intros k' t [[<- <-]|[_ Hq]]%lookup_insert_Some; [done|by eauto].
Qed.

Lemma complete_challenge_keeps c t now db db' row token :
  accounts_ok db → resets db !! c = Some row → rs_status row = CH_ACTIVE →
  reset_tokens db !! t = Some token → tk_challenge_id token = c → tk_used_at token = None →
  complete_challenge c t now db = Ok db' →
  keeps db db' ∧ (∃ row', resets db' !! c = Some row' ∧ rs_status row' = CH_COMPLETED) ∧
  ∃ tt rr, db' = set_resets rr (set_reset_tokens tt db).
Proof.
  intros Hok Hrow Hact Ht Htc Hunused (db1 & Hspend & Hclose)%bind_Ok.
  destruct (spend_reset_token_writes _ _ _ _ _ _ (ac_tables _ Hok) Hspend Ht Htc Hunused) as [Hw ->].
  apply update_reset_writes in Hclose as [Hw2 Hcases]; [|apply Hw|].
  2: { intros q Hq _. cbn in Hq. assert (q = row) as -> by congruence. split; [right; by split_and!|done]. }
  destruct (writes_trans _ _ _ Hw (λ _, Hw2)) as [Htb Hp]. cbn in *.
  destruct Hcases as [[_ Hno]|(q & Hq & _ & ->)]; [by specialize (Hno _ Hrow)|].
  assert (q = row) as -> by congruence. cbn in *. split_and!.
  - split; [|done]. destruct Hok. split; cbn; try done.
    + intros k q [[<- <-]|[_ Hq']]%lookup_insert_Some Hs; [done|by eauto].
    + intros k q [[<- <-]|[_ Hq']]%lookup_insert_Some Hu.
      * cbn. eexists. by rewrite Htc, lookup_insert_eq.
      * destruct (ac_spent_reset0 _ _ Hq' Hu) as (d & Hd & Hds).
        destruct (decide (tk_challenge_id q = c)) as [Heq|]; [rewrite Heq in Hd; congruence|].
        exists d. by rewrite lookup_insert_ne.
  - eexists. by rewrite lookup_insert_eq.
  - by eexists _, _.
Qed.
End challenges.
