(* ===== verification/SessionSpecs.v ===== *)
(** * What the account use cases do

    Each committed use case, as the steps of [AccountSpecs]: all of them keep
    the invariant of the account tables, whatever its earlier reads returned. *)

From S2P Require Import Prelude Python Exceptions Auth Credentials Accounts Sessions Registrations Passwords UserManagement AccountInvariant AccountSpecs.
Local Open Scope Z_scope.

Section services.
Context `{UnicodeData} `{AuthServices}.
Implicit Types db : ADB.

Lemma finish_keeps {A} events db (m : res (A * ADB)) :
  accounts_ok db → (∀ x db', m = Ok (x, db') → keeps db db') → keeps db (oc_db (finish events db m)).
Proof. intros Hok Hm. destruct m as [[x db']|e]; cbn; [by apply (Hm x)|by apply keeps_refl]. Qed.
Lemma finish_Ok {A} events db (m : res (A * ADB)) x :
  oc_result (finish events db m) = Ok x →
  ∃ db', m = Ok (x, db') ∧ oc_db (finish events db m) = db' ∧ oc_events (finish events db m) = [].
Proof. destruct m as [[y db']|e]; cbn; [|done]. intros [= <-]. by exists db'. Qed.

(** The three ways to open a transaction on a user only differ in the error
    they turn a constraint violation into. *)
Lemma on_user_Ok {A} (m : res (option User)) (body : option User → res (A * ADB)) (e' : exn) r :
  catch (user ← m; body user) (λ e, match e with IntegrityError _ => Raise e' | _ => Raise e end) = Ok r →
  ∃ user, m = Ok user ∧ body user = Ok r.
Proof. intros [Hok|(e & _ & He)]%catch_Ok; [by apply bind_Ok in Hok|by destruct e]. Qed.

(** ** Login *)

(** The families a login revokes are exactly the active ones of the user. *)
Lemma login_revokes now locked db :
  (∀ f, f ∈ locked → family_active f = true) →
  foldR (λ db family, if family_active family then revoke now (fr_id family) db else Ok db) db locked =
  revoke_all now locked db.
Proof.
  clear. unfold revoke_all. revert db. induction locked as [|f locked IH]; intros db Hall; [done|]. cbn.
  rewrite Hall by set_solver. destruct (revoke now (fr_id f) db); cbn; [|done]. apply IH. set_solver.
Qed.
Lemma lock_families_active u db f :
  f ∈ lock_families u None db → fr_user_id f = u ∧ family_active f = true.
Proof. clear. unfold lock_families. rewrite elem_of_select. intros [[Hu%Z.eqb_eq Ha]%andb_true_iff _]. done. Qed.

Lemma login_transaction_Ok env snapshot r u db g db' :
  accounts_ok db → users db !! us_id r = Some r → user_from_record r = Ok u →
  login_transaction env snapshot (Some u) db = Ok (g, db') →
  us_status r = ACTIVE ∧ us_password_hash r = user_password_hash snapshot ∧
  keeps db db' ∧
  ∃ access refresh id, g = mkSessionGrant access refresh (ae_now env + days 7) (ae_now env) ∧
    issue_access (us_id r) (us_role r) (unix_seconds (ae_now env)) = Ok access ∧
    families db !! ae_family_id env = None ∧ refresh_tokens db !! id = None ∧
    db' = open_session env (us_id r) (ae_now env) (ae_now env + days 7) refresh id
            (set_families (end_sessions (ae_now env) (us_id r) (families db)) db).
Proof.
  intros Hok Hr Hu Hlogin. destruct (user_from_record_Ok _ _ Hu) as (Hid & Hrole & Hstatus & Hhash & _).
  apply bind_Ok in Hlogin as ([] & Hg%raise_if_Ok & Hlogin).
  apply orb_false_iff in Hg as [Ha%negb_false_iff%bool_decide_eq_true Hh%negb_false_iff%bool_decide_eq_true].
  apply bind_Ok in Hlogin as (db1 & Hrev & Hlogin).
  rewrite login_revokes in Hrev by (intros f Hf; by apply (lock_families_active (user_id u) db)).
  apply bind_Ok in Hlogin as (db2 & Hfam & Hlogin).
  apply bind_Ok in Hlogin as ([[refresh id] db3] & Hiss & Hlogin).
  apply bind_Ok in Hlogin as (access & Hacc & [= <- <-]).
  rewrite Hid in *. apply end_sessions_keeps in Hrev as [Hk1 ->]; [|done|done].
  assert (user_active (us_id r) db) as Hact by (exists r; split; [done|congruence]).
  destruct (start_session_keeps _ _ _ _ _ _ _ _ _ (proj1 Hk1) Hact Hfam Hiss) as (Hk2 & Hnf & Hnt & ->).
  split_and!; [congruence|congruence|by apply (keeps_trans _ _ _ Hk1)|].
  exists access, refresh, id. split_and!; [done|by rewrite <- Hrole| |done|done].
  cbn in Hnf. unfold end_sessions in Hnf. rewrite lookup_fmap in Hnf. by apply fmap_None in Hnf.
Qed.

(** The row a transaction on a user locks. *)
Lemma locked_row id db u :
  accounts_ok db → get_by_id id db = Ok (Some u) →
  ∃ r, users db !! id = Some r ∧ us_id r = id ∧ user_from_record r = Ok u.
Proof.
  intros Hok (r & Hr & Hu)%get_by_id_Ok. exists r. split_and!; [done| |done].
  by destruct (tb_row _ _ _ _ (to_users _ (ac_tables _ Hok)) _ _ Hr).
Qed.

(** A successful login: the snapshot's credentials were checked, and its row is
    still the active user with that hash. *)
Lemma login_Ok env seen fake email password db g :
  accounts_ok db → oc_result (login env seen fake email password db) = Ok g →
  ∃ id0 row0 r access refresh id,
    users seen !! id0 = Some row0 ∧ us_email row0 = email ∧
    password_verify password (us_password_hash row0) = Ok true ∧ us_status row0 = ACTIVE ∧
    users db !! us_id row0 = Some r ∧ us_id r = us_id row0 ∧ us_status r = ACTIVE ∧
    us_password_hash r = us_password_hash row0 ∧
    g = mkSessionGrant access refresh (ae_now env + days 7) (ae_now env) ∧
    issue_access (us_id r) (us_role r) (unix_seconds (ae_now env)) = Ok access ∧
    families db !! ae_family_id env = None ∧ refresh_tokens db !! id = None ∧
    keeps db (oc_db (login env seen fake email password db)) ∧
    oc_db (login env seen fake email password db) =
      open_session env (us_id r) (ae_now env) (ae_now env + days 7) refresh id
        (set_families (end_sessions (ae_now env) (us_id r) (families db)) db).
Proof.
  unfold login. intros Hok (db' & Hatt & -> & _)%finish_Ok.
  apply bind_Ok in Hatt as (snapshot & Hsnap & Hatt). apply bind_Ok in Hatt as (matches & Hver & Hatt).
  destruct snapshot as [s|]; [|done]. apply bind_Ok in Hatt as ([] & Hg%raise_if_Ok & Htx).
  apply orb_false_iff in Hg as [->%negb_false_iff Ha%negb_false_iff%bool_decide_eq_true].
  apply get_by_email_Ok in Hsnap as (id0 & row0 & Hrow0 & Hemail & Hu0).
  destruct (user_from_record_Ok _ _ Hu0) as (Hid0 & _ & Hst0 & Hh0 & _).
  apply on_user_Ok in Htx as (cur & Hcur & Htx). destruct cur as [u|]; [|done].
  apply locked_row in Hcur as (r & Hr & Hid & Hu); [|done]. rewrite Hid0 in *.
  rewrite <- Hid in Hr.
  destruct (login_transaction_Ok _ _ _ _ _ _ _ Hok Hr Hu Htx)
    as (Hact & Hhash & Hk & access & refresh & id & -> & Hacc & Hnf & Hnt & ->).
  exists id0, row0, r, access, refresh, id. rewrite Hid in Hr.
  split_and!; try done; congruence.
Qed.

Lemma login_keeps env seen fake email password db :
  accounts_ok db → keeps db (oc_db (login env seen fake email password db)).
Proof.
  intros Hok. destruct (oc_result (login env seen fake email password db)) as [g|e] eqn:E.
  - by apply login_Ok in E as (? & ? & ? & ? & ? & ? & ? & ? & ? & ? & ? & ? & ? & ? & ? & ? & ? & ? & ? & ?).
  - unfold login in *. destruct (login_attempt _ _ _ _ _ _) as [[? ?]|]; [done|]. by apply keeps_refl.
Qed.

(** ** Rotation *)

Lemma find_unique {A} (p : A → bool) l x :
  x ∈ l → p x = true → (∀ y, y ∈ l → p y = true → y = x) → find p l = Some x.
Proof.
  clear. intros Hx Hp Huniq. destruct (find p l) as [y|] eqn:E.
  - apply find_some in E as [Hy Hpy]. f_equal. apply Huniq; [by apply list_elem_of_In|done].
  - apply list_elem_of_In in Hx. by rewrite (find_none _ _ E _ Hx) in Hp.
Qed.

Lemma find_refresh_spec t r db :
  tables_ok db → refresh_tokens db !! t = Some r →
  ∃ f, families db !! rt_family_id r = Some f ∧
    find_refresh (rt_digest r) db = Some (mkRefreshTarget (fr_user_id f) (rt_family_id r) t).
Proof.
  clear. intros Hok Hr. destruct (to_refresh_family _ Hok _ _ Hr) as [f Hf]. exists f. split; [done|].
  unfold find_refresh. rewrite (find_unique _ _ r).
  - cbn. rewrite Hf. cbn. by destruct (tb_row _ _ _ _ (to_refresh _ Hok) _ _ Hr) as [-> _].
  - apply elem_of_rows. by exists t.
  - by apply bool_decide_eq_true.
  - intros q [k Hk]%elem_of_rows Hd%bool_decide_eq_true.
    assert (k = t) as -> by by eapply (tb_clash _ _ _ _ (to_refresh _ Hok)).
    congruence.
Qed.

Lemma lock_family_row db u id f :
  tables_ok db →
  find (λ f, fr_id f =? id) (lock_families u (Some id) db) = Some f ↔ families db !! id = Some f ∧ fr_user_id f = u.
Proof.
  clear. intros Hok. assert (∀ k g, families db !! k = Some g → fr_id g = k) as Hkey
    by (intros k g Hg; by destruct (tb_row _ _ _ _ (to_families _ Hok) _ _ Hg)).
  unfold lock_families. split.
  - intros [Hin Hid%Z.eqb_eq]%find_some. apply list_elem_of_In, elem_of_select in Hin as [Hp [k Hk]].
    apply andb_true_iff in Hp as [Hu%Z.eqb_eq _]. rewrite <- (Hkey _ _ Hk), Hid in Hk. done.
  - intros [Hf Hu]. pose proof (Hkey _ _ Hf) as Hid. apply find_unique.
    + apply elem_of_select. split; [by rewrite Hu, Hid, !Z.eqb_refl|by exists id].
    + by apply Z.eqb_eq.
    + intros g Hg%elem_of_select Hgid%Z.eqb_eq. destruct Hg as [_ [k Hk]].
      rewrite <- (Hkey _ _ Hk), Hgid in Hk. congruence.
Qed.

Lemma lock_token_row db family id t :
  tables_ok db →
  find (λ t, rt_id t =? id) (lock_tokens family id db) = Some t ↔
  refresh_tokens db !! id = Some t ∧ rt_family_id t = family.
Proof.
  clear. intros Hok. assert (∀ k g, refresh_tokens db !! k = Some g → rt_id g = k) as Hkey
    by (intros k g Hg; by destruct (tb_row _ _ _ _ (to_refresh _ Hok) _ _ Hg)).
  unfold lock_tokens. split.
  - intros [Hin Hid%Z.eqb_eq]%find_some. apply list_elem_of_In, elem_of_select in Hin as [Hp [k Hk]].
    apply andb_true_iff in Hp as [Hu%Z.eqb_eq _]. rewrite <- (Hkey _ _ Hk), Hid in Hk. done.
  - intros [Hf Hu]. pose proof (Hkey _ _ Hf) as Hid. apply find_unique.
    + apply elem_of_select. split; [by rewrite Hu, Hid, !Z.eqb_refl|by exists id].
    + by apply Z.eqb_eq.
    + intros g Hg%elem_of_select Hgid%Z.eqb_eq. destruct Hg as [_ [k Hk]].
      rewrite <- (Hkey _ _ Hk), Hgid in Hk. congruence.
Qed.

(** Locking finds the family and the token exactly when they still belong
    together. *)
Lemma locked_refresh_Ok user target token db f t :
  tables_ok db →
  locked_refresh user target token db = Ok (f, t) ↔
  families db !! tg_family_id target = Some f ∧ refresh_tokens db !! tg_token_id target = Some t ∧
  fr_user_id f = user_id user ∧ fr_user_id f = tg_user_id target ∧
  rt_family_id t = tg_family_id target ∧ rt_digest t = token_digest token.
Proof.
  clear. intros Hok. assert (∀ k g, families db !! k = Some g → fr_id g = k) as Hkey
    by (intros k g Hg; by destruct (tb_row _ _ _ _ (to_families _ Hok) _ _ Hg)).
  unfold locked_refresh. split.
  - destruct (find _ (lock_families _ _ _)) as [g|] eqn:E; [|done]. apply lock_family_row in E as [Hg Hgu]; [|done].
    intros ([] & Hu%raise_if_Ok%negb_false_iff%Z.eqb_eq & Hl)%bind_Ok.
    destruct (find _ (lock_tokens _ _ _)) as [s|] eqn:E; [|done]. apply lock_token_row in E as [Hs Hsf]; [|done].
    apply bind_Ok in Hl as ([] & Hd%raise_if_Ok & [= <- <-]).
    apply orb_false_iff in Hd as [_ Hd%negb_false_iff%bool_decide_eq_true].
    pose proof (Hkey _ _ Hg). by split_and!; [| | | |congruence|].
  - intros (Hf & Ht & Hu & Htu & Htf & Hd). rewrite (proj2 (lock_family_row _ _ _ _ Hok) (conj Hf Hu)).
    rewrite Htu, Z.eqb_refl. cbn.
    rewrite (Hkey _ _ Hf), (proj2 (lock_token_row _ _ _ _ Hok) (conj Ht Htf)).
    by rewrite Htf, Z.eqb_refl, bool_decide_eq_true_2 by done.
Qed.

Lemma locked_refresh_error user target token db e :
  locked_refresh user target token db = Raise e → e = InvalidSession.
Proof.
  clear. unfold locked_refresh. destruct (find _ _) as [g|]; [|by intros [= <-]].
  destruct (fr_user_id g =? _); [|by intros [= <-]]. cbn. destruct (find _ _) as [s|]; [|by intros [= <-]].
  destruct (negb _ || _); by intros [= <-].
Qed.

(** A committed rotation, and a committed detection of reuse. *)
Lemma refresh_transaction_Ok env target token u db grant db' :
  accounts_ok db → refresh_transaction env target token (Some u) db = Ok (grant, db') →
  ∃ f t, families db !! tg_family_id target = Some f ∧ refresh_tokens db !! tg_token_id target = Some t ∧
    user_status u = ACTIVE ∧ fr_user_id f = user_id u ∧ rt_family_id t = tg_family_id target ∧
    rt_digest t = token_digest token ∧ fr_status f = FAMILY_ACTIVE ∧ ae_now env < fr_expires_at f ∧
    keeps db db' ∧
    match grant with
    | Some g =>
        rt_used_at t = None ∧
        ∃ access refresh next, g = mkSessionGrant access refresh (fr_expires_at f) (ae_now env) ∧
          issue_access (user_id u) (user_role u) (unix_seconds (ae_now env)) = Ok access ∧
          refresh_tokens db !! next = None ∧
          db' = set_families (<[tg_family_id target := touched (ae_now env) f]> (families db))
                  (set_refresh_tokens
                     (<[tg_token_id target := used (ae_now env) next t]>
                        (<[next := mkRefreshRow next (tg_family_id target) (token_digest refresh) (ae_now env) None None]>
                           (refresh_tokens db))) db)
    | None =>
        (∃ time, rt_used_at t = Some time ∧ time + seconds 10 < ae_now env) ∧
        ∀ f', families db' !! tg_family_id target = Some f' → fr_status f' = FAMILY_REVOKED
    end.
Proof.
  intros Hok Htx.
  apply bind_Ok in Htx as ([] & Ha%raise_if_Ok%negb_false_iff%bool_decide_eq_true & Htx).
  apply bind_Ok in Htx as ([f t] & Hlock & Htx).
  apply locked_refresh_Ok in Hlock as (Hf & Ht & Hu & Htu & Htf & Hd); [|apply Hok].
  destruct (tb_row _ _ _ _ (to_families _ (ac_tables _ Hok)) _ _ Hf) as [Hfid _].
  destruct (tb_row _ _ _ _ (to_refresh _ (ac_tables _ Hok)) _ _ Ht) as [Htid _].
  apply bind_Ok in Htx as ([] & Hlive%raise_if_Ok & Htx).
  apply orb_false_iff in Hlive as [Hfa%negb_false_iff%bool_decide_eq_true Hexp%Z.leb_gt].
  exists f, t. rewrite Hfid, Htid in *.
  destruct (rt_used_at t) as [time|] eqn:Hused.
  - apply bind_Ok in Htx as ([] & Hgrace%raise_if_Ok%Z.leb_gt & Htx). apply bind_Ok in Htx as (db1 & Hrev & [= <- <-]).
    apply revoke_keeps in Hrev as [Hk Hrevd]; [|done]. split_and!; try done. by exists time.
  - apply bind_Ok in Htx as ([[refresh next] db1] & Hiss & Htx). apply bind_Ok in Htx as (db2 & Hmark & Htx).
    apply bind_Ok in Htx as (access & Hacc & [= <- <-]).
    destruct (rotate_keeps _ _ _ _ _ _ _ _ _ t f Hok Hiss Hmark Ht Hused Htf Hf) as (Hk & Hn & Hdb2).
    split_and!; try done. by exists access, refresh, next.
Qed.

(** A token used more than ten seconds ago was presented, and the family it is
    of was revoked. *)
Definition reuse_revoked (env : AuthEnv) (token : pystr) (db db' : ADB) : Prop :=
  ∃ id t f time, refresh_tokens db !! id = Some t ∧ rt_digest t = token_digest token ∧ rt_used_at t = Some time ∧
    time + seconds 10 < ae_now env ∧ families db !! rt_family_id t = Some f ∧ fr_status f = FAMILY_ACTIVE ∧
    revoke (ae_now env) (rt_family_id t) db = Ok db'.

Lemma refresh_reuse env target token u db db' :
  accounts_ok db → refresh_transaction env target token (Some u) db = Ok (None, db') → reuse_revoked env token db db'.
Proof.
  intros Hok Htx. destruct (refresh_transaction_Ok _ _ _ _ _ _ _ Hok Htx) as
    (f & t & Hf & Ht & _ & _ & Htf & Hd & Hfa & _ & _ & (time & Hused & Htime) & _).
  exists (tg_token_id target), t, f, time. rewrite Htf. split_and!; try done.
  apply bind_Ok in Htx as ([] & _ & Htx). apply bind_Ok in Htx as ([f' t'] & Hlock & Htx).
  apply locked_refresh_Ok in Hlock as (Hf' & Ht' & _); [|apply Hok]. rewrite Hf in Hf'. rewrite Ht in Ht'. injection Hf' as <-. injection Ht' as <-.
  destruct (tb_row _ _ _ _ (to_families _ (ac_tables _ Hok)) _ _ Hf) as [Hfid _].
  apply bind_Ok in Htx as ([] & _ & Htx). rewrite Hused in Htx. apply bind_Ok in Htx as ([] & _ & Htx).
  apply bind_Ok in Htx as (db1 & Hrev & [= <-]). by rewrite Hfid in Hrev.
Qed.

Lemma refresh_Ok env seen token db g :
  accounts_ok db → oc_result (refresh env seen token db) = Ok g →
  ∃ target u, find_refresh (token_digest token) seen = Some target ∧
    get_by_id (tg_user_id target) db = Ok (Some u) ∧
    refresh_transaction env target token (Some u) db = Ok (Some g, oc_db (refresh env seen token db)).
Proof.
  intros Hok. unfold refresh. destruct (find_refresh _ seen) as [target|]; [|done]. cbn.
  destruct (session_transaction _ _ _) as [[grant db']|e] eqn:E; [|done]. cbn. destruct grant as [g'|]; [|done].
  intros [= <-]. apply on_user_Ok in E as ([u|] & Hu & E); [|done]. by exists target, u.
Qed.

Lemma refresh_keeps env seen token db :
  accounts_ok db → keeps db (oc_db (refresh env seen token db)).
Proof.
  intros Hok. unfold refresh. destruct (find_refresh _ seen) as [target|]; [|by apply keeps_refl].
  apply finish_keeps; [done|]. intros grant db' ([u|] & _ & Htx)%on_user_Ok; [|done].
  by apply refresh_transaction_Ok in Htx as (? & ? & ? & ? & ? & ? & ? & ? & ? & ? & ? & _).
Qed.

(** ** Logout *)

Lemma logout_keeps env seen token db :
  accounts_ok db → keeps db (oc_db (logout env seen token db)).
Proof.
  intros Hok. unfold logout. destruct (find_refresh _ seen) as [target|]; [|by apply keeps_refl].
  apply finish_keeps; [done|]. intros x db' ([u|] & _ & Htx)%on_user_Ok; cbn in Htx.
  2: { injection Htx as _ <-. by apply keeps_refl. }
  destruct (locked_refresh _ _ _ _) as [[f t]|e] eqn:E.
  - destruct (_ && _); [|injection Htx as _ <-; by apply keeps_refl].
    apply bind_Ok in Htx as (db1 & Hrev & [= _ <-]). by apply revoke_keeps in Hrev as [? _].
  - apply locked_refresh_error in E as ->. injection Htx as _ <-. by apply keeps_refl.
Qed.

(** ** Registration *)

Lemma challenge_of_Ok row c :
  challenge_of row = Ok (Some c) →
  ∃ r, row = Some r ∧ EmailAddress_init (rc_email r) = Ok (rch_email c) ∧ rch_id c = rc_id r ∧
    rch_status c = rc_status r ∧ rch_expires_at c = rc_expires_at r.
Proof. destruct row as [r|]; [|done]. intros (e & He & [= <-])%bind_Ok. by exists r. Qed.

Lemma lock_challenge_Ok email id db c :
  lock_challenge email id db = Ok (Some c) →
  ∃ r, registrations db !! id = Some r ∧ rc_email r = email ∧ EmailAddress_init email = Ok (rch_email c) ∧
    rch_id c = rc_id r ∧ rch_status c = rc_status r ∧ rch_expires_at c = rc_expires_at r.
Proof.
  intros (r & Hr & He & ? & ? & ?)%challenge_of_Ok. exists r.
  destruct (registrations db !! id) as [q|]; [|done]. case_bool_decide; [|done]. injection Hr as ->.
  split_and!; congruence.
Qed.
Lemma lock_active_challenge_Ok email db c :
  lock_active_challenge email db = Ok (Some c) →
  ∃ id r, registrations db !! id = Some r ∧ rc_email r = email ∧ rc_status r = CH_ACTIVE ∧ rch_id c = rc_id r ∧
    rch_expires_at c = rc_expires_at r.
Proof.
  intros (r & Hr & He & ? & ? & ?)%challenge_of_Ok.
  apply find_some in Hr as [Hin Hp]. apply andb_true_iff in Hp as [Hemail%bool_decide_eq_true Ha%bool_decide_eq_true].
  apply list_elem_of_In, elem_of_rows in Hin as [id Hid]. by exists id, r.
Qed.

Lemma registration_transaction_Ok {A} (body : ADB → res (A * ADB)) db r :
  registration_transaction body db = Ok r → body db = Ok r.
Proof. clear. intros [Hok|(e & _ & He)]%catch_Ok; [done|by destruct e]. Qed.

(** A registered user starts as an active USER. *)
Lemma register_user_keeps id now email name hash db u db' :
  accounts_ok db → add_user id now (mkNewUser email name hash USER ACTIVE) db = Ok (u, db') →
  keeps db db' ∧ users db !! id = None ∧ user_id u = id ∧ user_role u = USER ∧
  db' = set_users (<[id := mkUserRow id email name hash USER ACTIVE now now]> (users db)) db.
Proof.
  intros Hok Hadd. apply add_user_Ok in Hadd as (Hw & Hnew & Hu & ->); [|apply Hok]. cbn in *.
  destruct (user_from_record_Ok _ _ Hu) as (Hid & Hrole & _). split_and!; try done.
  pose proof (add_user_keeps db (mkUserRow id email name hash USER ACTIVE now now) [] Hok Hnew) as Hk.
  rewrite app_nil_r in Hk. apply Hk; try done. by exists u.
Qed.

Lemma complete_registration_transaction_Ok env domains target token name hash db g db' :
  accounts_ok db → complete_registration_transaction env domains target token name hash db = Ok (g, db') →
  ∃ c t, registrations db !! rg_challenge_id target = Some c ∧ registration_tokens db !! rg_token_id target = Some t ∧
    rc_email c = rg_email target ∧ rc_status c = CH_ACTIVE ∧ ae_now env < rc_expires_at c ∧
    tk_challenge_id t = rg_challenge_id target ∧ tk_digest t = token_digest token ∧ tk_used_at t = None ∧
    require_allowed_domain (rc_email c) domains = Ok tt ∧
    keeps db db' ∧ users db !! ae_user_id env = None ∧
    users db' = <[ae_user_id env := mkUserRow (ae_user_id env) (rc_email c) name hash USER ACTIVE (ae_now env) (ae_now env)]>
                  (users db) ∧
    (∃ c', registrations db' !! rg_challenge_id target = Some c' ∧ rc_status c' = CH_COMPLETED) ∧
    ∃ access refresh id, g = mkSessionGrant access refresh (ae_now env + days 7) (ae_now env) ∧
      issue_access (ae_user_id env) USER (unix_seconds (ae_now env)) = Ok access ∧
      refresh_tokens db' = <[id := mkRefreshRow id (ae_family_id env) (token_digest refresh) (ae_now env) None None]>
                             (refresh_tokens db) ∧
      families db' = <[ae_family_id env := mkFamilyRow (ae_family_id env) (ae_user_id env) FAMILY_ACTIVE
                                             (ae_now env + days 7) None (ae_now env) (ae_now env)]> (families db).
Proof.
  intros Hok Htx. apply bind_Ok in Htx as (challenge & Hlock & Htx).
  destruct challenge as [c|]; [|done].
  apply lock_challenge_Ok in Hlock as (row & Hrow & Hemail & _ & Hcid & Hcst & Hcexp).
  destruct (lock_registration_token _ _ _) as [t|] eqn:Hlt; [|done].
  unfold lock_registration_token in Hlt. destruct (registration_tokens db !! _) as [t'|] eqn:Ht; [|done].
  destruct (Z.eqb_spec (tk_challenge_id t') (rg_challenge_id target)) as [Htc|]; [|done]. injection Hlt as ->.
  apply bind_Ok in Htx as ([] & Hc%raise_if_Ok%negb_false_iff & Htx). unfold completable in Hc.
  rewrite !andb_true_iff in Hc. destruct Hc as [[[[[[[Hc1 Hc2] Hc3] Hc4] Hc5] Hc6] Hc7] Hc8].
  apply Z.eqb_eq in Hc1, Hc5, Hc6. apply bool_decide_eq_true in Hc2, Hc3, Hc7. apply Z.ltb_lt in Hc4.
  apply bind_Ok in Htx as ([] & Hdom & Htx). apply bind_Ok in Htx as ([u db1] & Hadd & Htx).
  apply catch_Ok in Hadd as [Hadd|(e & _ & He)]; [|by destruct e].
  apply bind_Ok in Hadd as (new & Hnew & Hadd). apply bind_Ok in Hnew as ([] & _ & [= <-]).
  apply register_user_keeps in Hadd as (Hk1 & Hnone & Huid & Hurole & ->); [|done].
  apply bind_Ok in Htx as (db2 & Hfam & Htx). apply bind_Ok in Htx as ([[refresh id] db3] & Hiss & Htx).
  apply bind_Ok in Htx as (db4 & Hcomp & Htx). apply bind_Ok in Htx as (access & Hacc & [= <- <-]).
  apply catch_Ok in Hacc as [Hacc|(e & _ & He)]; [|done]. rewrite Huid, Hurole, Hcid in *.
  assert (rc_id row = rg_challenge_id target) as Hrid by congruence. rewrite Hrid in *.
  assert (user_active (ae_user_id env) (set_users (<[ae_user_id env := mkUserRow (ae_user_id env) (rch_email c) name hash
    USER ACTIVE (ae_now env) (ae_now env)]> (users db)) db)) as Hua
    by (eexists; split; [cbn; by rewrite lookup_insert_eq|done]).
  destruct (start_session_keeps _ _ _ _ _ _ _ _ _ (proj1 Hk1) Hua Hfam Hiss) as (Hk2 & Hnf & Hnt & ->).
  assert (rch_email c = rc_email row) as Hce by congruence. rewrite Hce, Hc5 in *.
  edestruct (complete_keeps (rg_challenge_id target) (rg_token_id target) (ae_now env)
    (open_session env (ae_user_id env) (ae_now env) (ae_now env + days 7) refresh id
       (set_users (<[ae_user_id env := mkUserRow (ae_user_id env) (rc_email row) name hash USER ACTIVE (ae_now env)
          (ae_now env)]> (users db)) db)) db4 row t (proj1 Hk2)) as (Hk3 & Hcompleted & tt' & rr & ->);
    [done|congruence|done|done|by destruct (tk_used_at t)| |done|].
  { exists (ae_user_id env). eexists. split; [cbn; by rewrite lookup_insert_eq|done]. }
  exists row, t. split_and!; try done; [congruence|congruence|by destruct (tk_used_at t)|..].
  - eapply keeps_trans; [exact Hk1|]. intros _. eapply keeps_trans; [exact Hk2|]. by intros _.
  - by exists access, refresh, id.
Qed.

Lemma complete_registration_Ok env domains seen token name password db g :
  accounts_ok db → oc_result (complete_registration env domains seen token name password db) = Ok g →
  ∃ target hash, find_token (token_digest token) seen = Ok (Some target) ∧ password_hash password = Ok hash ∧
    complete_registration_transaction env domains target token name hash db =
      Ok (g, oc_db (complete_registration env domains seen token name password db)).
Proof.
  unfold complete_registration. intros Hok (db' & Hrun & -> & _)%finish_Ok.
  apply bind_Ok in Hrun as ([target|] & Hfind & Hrun); [|done]. apply bind_Ok in Hrun as ([] & _ & Hrun).
  apply bind_Ok in Hrun as (hash & Hh & Hrun%registration_transaction_Ok). by exists target, hash.
Qed.

Lemma complete_registration_keeps env domains seen token name password db :
  accounts_ok db → keeps db (oc_db (complete_registration env domains seen token name password db)).
Proof.
  intros Hok. apply finish_keeps; [done|]. intros g db' Hrun.
  apply bind_Ok in Hrun as ([target|] & Hfind & Hrun); [|done]. apply bind_Ok in Hrun as ([] & _ & Hrun).
  apply bind_Ok in Hrun as (hash & Hh & Hrun%registration_transaction_Ok).
  by apply complete_registration_transaction_Ok in Hrun as (? & ? & ? & ? & ? & ? & ? & ? & ? & ? & ? & ? & _).
Qed.

(** Mail goes out after the commit. *)
Lemma then_deliver_db send committed : oc_db (then_deliver send committed) = oc_db committed.
Proof. clear. unfold then_deliver. by destruct (_ ← _; _). Qed.

Lemma request_registration_transaction_Ok env email db m db' :
  accounts_ok db → request_registration_transaction env email db = Ok (m, db') →
  keeps db db' ∧ users db' = users db ∧
  match m with
  | None => user_exists email db = true ∧ db' = db
  | Some m => user_exists email db = false ∧
      ∃ token id t c, m = mkEmailDeliveryMessage REGISTRATION_MESSAGE email (RegistrationToken token) ∧
        registration_tokens db !! id = None ∧ registration_tokens db' !! id = Some t ∧
        tk_digest t = token_digest token ∧ tk_used_at t = None ∧
        registrations db' !! tk_challenge_id t = Some c ∧ rc_email c = email ∧ rc_status c = CH_ACTIVE ∧
        ae_now env < rc_expires_at c
  end.
Proof.
  intros Hok. unfold request_registration_transaction.
  destruct (user_exists email db) eqn:Hexists; [intros [= <- <-]; split; [by apply keeps_refl|done]|].
  intros (challenge & Hlock & Htx)%bind_Ok. apply bind_Ok in Htx as ([current db1] & Hexp & Htx).
  assert (keeps db db1 ∧ users db1 = users db ∧ registration_tokens db1 = registration_tokens db ∧
    match current with
    | Some c => ∃ r, registrations db1 !! rch_id c = Some r ∧ rc_email r = email ∧ rc_status r = CH_ACTIVE ∧
        ae_now env < rc_expires_at r
    | None => True
    end) as (Hk1 & Hu1 & Hrt1 & Hcur).
  { destruct challenge as [c|]; [|injection Hexp as <- <-; split; [by apply keeps_refl|done]].
    apply lock_active_challenge_Ok in Hlock as (k & r & Hr & Hemail & Hact & Hid & Hexpires).
    destruct (tb_row _ _ _ _ (to_registrations _ (ac_tables _ Hok)) _ _ Hr) as [Hkey _].
    destruct (Z.leb_spec (rch_expires_at c) (ae_now env)) as [Hle|Hlt].
    - apply bind_Ok in Hexp as (db2 & Hexp & [= <- <-]).
      assert (registrations db !! rch_id c = Some r) as Hr' by congruence.
      pose proof (expire_keeps _ _ _ _ Hok Hr' Hact Hexp) as [Hk Hu]. split_and!; try done.
      by apply bind_Ok in Hexp as (? & _ & [= <-]).
    - injection Hexp as <- <-. split_and!; [by apply keeps_refl|done|done|]. exists r. split_and!; congruence. }
  apply bind_Ok in Htx as ([c db2] & Hcreate & Htx).
  assert (keeps db1 db2 ∧ users db2 = users db1 ∧ registration_tokens db2 = registration_tokens db1 ∧
    ∃ r, registrations db2 !! rch_id c = Some r ∧ rc_email r = email ∧ rc_status r = CH_ACTIVE ∧
        ae_now env < rc_expires_at r) as (Hk2 & Hu2 & Hrt2 & r & Hr & Hemail & Hact & Hlive).
  { destruct current as [c'|]; [injection Hcreate as -> ->; split; [apply keeps_refl, Hk1|done]|].
    pose proof (create_challenge_keeps _ _ _ _ _ _ _ (proj1 Hk1) Hcreate) as (Hk & Hid & Hr).
    apply bind_Ok in Hcreate as (? & Hins & [= <- <-]). apply bind_Ok in Hins as (? & _ & [= <-]).
    split_and!; try done. eexists. split_and!; [exact Hr|done|done|]. cbn. unfold days, seconds. lia. }
  apply bind_Ok in Htx as ([[token id] db3] & Hiss & [= <- <-]).
  apply issue_registration_token_keeps in Hiss as (Hk3 & Hnew & ->); [|apply Hk2].
  split_and!; [|cbn; congruence|done|].
  - eapply keeps_trans; [exact Hk1|]. intros _. eapply keeps_trans; [exact Hk2|]. by intros _.
  - exists token, id. eexists _, r. split_and!; try done; [congruence|cbn; by rewrite lookup_insert_eq|..]; done.
Qed.

Lemma request_registration_keeps env send domains email db :
  accounts_ok db → keeps db (oc_db (request_registration env send domains email db)).
Proof.
  intros Hok. unfold request_registration. rewrite then_deliver_db. apply finish_keeps; [done|]. intros m db' Hrun.
  apply bind_Ok in Hrun as ([] & _ & Hrun%registration_transaction_Ok).
  by apply request_registration_transaction_Ok in Hrun as [? _].
Qed.
End services.
