(* ===== verification/PasswordSpecs.v ===== *)
(** * What password, administration and bootstrap use cases do

    The remaining account use cases as steps of [AccountSpecs], and
    [account_step], the relation of all of them. *)

From S2P Require Import Prelude Python Exceptions Auth Credentials Accounts Sessions Registrations Passwords UserManagement AccountInvariant AccountSpecs SessionSpecs.
Local Open Scope Z_scope.

Section services.
Context `{UnicodeData} `{AuthServices}.
Implicit Types db : ADB.

Definition with_hash (hash : pystr) (now : Z) (r : UserRow) : UserRow :=
  mkUserRow (us_id r) (us_email r) (us_name r) hash (us_role r) (us_status r) (us_created_at r) now.

(** ** Reset *)

Lemma lock_challenges_row u id db c :
  tables_ok db → c ∈ lock_challenges u id db →
  ∃ r, resets db !! rsc_id c = Some r ∧ c = reset_challenge_of r ∧ rs_user_id r = u ∧
    match id with None => rs_status r = CH_ACTIVE | Some id => rsc_id c = id end.
Proof.
  clear. intros Hok. unfold lock_challenges. rewrite list_elem_of_fmap. intros (r & -> & Hr).
  apply elem_of_select in Hr as [Hp [k Hk]]. apply andb_true_iff in Hp as [Hu%Z.eqb_eq Hid].
  destruct (tb_row _ _ _ _ (to_resets _ Hok) _ _ Hk) as [Hkey _]. exists r. cbn.
  split_and!; [congruence|done|done|]. destruct id; [by apply Z.eqb_eq|by apply bool_decide_eq_true in Hid].
Qed.
Lemma lock_reset_tokens_row ids db t :
  tables_ok db → t ∈ lock_reset_tokens ids db → reset_tokens db !! tk_id t = Some t.
Proof.
  clear. intros Hok. unfold lock_reset_tokens. rewrite elem_of_select. intros [_ [k Hk]].
  destruct (tb_row _ _ _ _ (to_reset_tokens _ Hok) _ _ Hk) as [Hkey _]. congruence.
Qed.
Lemma find_elem {A} (p : A → bool) l x : find p l = Some x → x ∈ l ∧ p x = true.
Proof. clear. intros [Hin ?]%find_some. split; [by apply list_elem_of_In|done]. Qed.

Lemma complete_reset_transaction_Ok env target snapshot token hash r u db db' x :
  accounts_ok db → users db !! us_id r = Some r → user_from_record r = Ok u →
  complete_reset_transaction env target snapshot token hash (Some u) db = Ok (x, db') →
  ∃ c t, us_id r = rx_user_id target ∧ us_status r = ACTIVE ∧ us_password_hash r = user_password_hash snapshot ∧
    resets db !! rx_challenge_id target = Some c ∧ rs_user_id c = us_id r ∧ rs_status c = CH_ACTIVE ∧
    ae_now env < rs_expires_at c ∧ reset_tokens db !! rx_token_id target = Some t ∧
    tk_challenge_id t = rx_challenge_id target ∧ tk_digest t = token_digest token ∧ tk_used_at t = None ∧
    keeps db db' ∧ users db' = <[us_id r := with_hash hash (ae_now env) r]> (users db) ∧
    families db' = end_sessions (ae_now env) (us_id r) (families db) ∧
    (∃ c', resets db' !! rx_challenge_id target = Some c' ∧ rs_status c' = CH_COMPLETED) ∧
    ∃ e, security_events db' = security_events db ++ [e] ∧ ev_subject_user_id e = us_id r ∧ ev_type e = PASSWORD_RESET.
Proof.
  intros Hok Hr Hu Htx. destruct (user_from_record_Ok _ _ Hu) as (Hid & Hrole & Hstatus & Hhash & _).
  apply bind_Ok in Htx as ([] & Hg%raise_if_Ok & Htx). rewrite !orb_false_iff, !negb_false_iff in Hg.
  destruct Hg as [[Huid%Z.eqb_eq Ha%bool_decide_eq_true] Hh%bool_decide_eq_true].
  cbv zeta in Htx. destruct (find _ (lock_challenges _ _ _)) as [c|] eqn:Hc; [|done].
  destruct (find _ (lock_reset_tokens _ _)) as [t|] eqn:Ht; [|done].
  apply find_elem in Hc as [Hc Hcid%Z.eqb_eq], Ht as [Ht Htid%Z.eqb_eq].
  apply lock_challenges_row in Hc as (row & Hrow & -> & Hrowu & _); [|apply Hok].
  apply lock_reset_tokens_row in Ht; [|apply Hok]. cbn in Hcid, Hrow. rewrite Hcid in Hrow. rewrite Htid in Ht.
  apply bind_Ok in Htx as ([] & Hv%raise_if_Ok%negb_false_iff & Htx). unfold resettable in Hv. cbn in Hv.
  rewrite !andb_true_iff in Hv. destruct Hv as [[[[[_ Hv1%bool_decide_eq_true] Hv2%Z.ltb_lt] Hv3%Z.eqb_eq] Hv4%bool_decide_eq_true] Hv5].
  assert (tk_used_at t = None) as Hunused by by destruct (tk_used_at t).
  apply bind_Ok in Htx as (db1 & Hhashed & Htx). apply bind_Ok in Htx as (db2 & Hrev & Htx).
  apply bind_Ok in Htx as (db3 & Hcomp & Htx). apply bind_Ok in Htx as (db4 & Haud & [= _ <-]).
  cbn in Hcomp. rewrite Hid, Hcid, Htid in *.
  destruct (change_hash_keeps _ _ _ _ _ _ Hok Hr Hhashed) as [Hk1 ->]. fold (with_hash hash (ae_now env) r) in *.
  destruct (end_sessions_keeps (ae_now env) (us_id r) db _ db2 (proj1 Hk1) eq_refl Hrev) as [Hk2 ->].
  destruct (complete_challenge_keeps _ _ _ _ _ row t (proj1 Hk2) Hrow Hv1 Ht ltac:(congruence) Hunused Hcomp)
    as (Hk3 & Hdone & tt' & rr & ->).
  destruct (audit_password_keeps env (us_id r) None (ae_now env) _ db4 (with_hash hash (ae_now env) r) (proj1 Hk3))
    as (Hk4 & e & -> & He1 & He2 & _); [cbn; by rewrite lookup_insert_eq|done|done|].
  exists row, t. split_and!; try done; try congruence.
  - eapply keeps_trans; [exact Hk1|intros _]. eapply keeps_trans; [exact Hk2|intros _].
    eapply keeps_trans; [exact Hk3|by intros _].
  - by exists e.
Qed.

Lemma complete_reset_Ok env seen token password db :
  accounts_ok db → oc_result (complete_reset env seen token password db) = Ok tt →
  ∃ target hash id0 row0 snapshot r u, find_reset (token_digest token) seen = Some target ∧
    password_hash password = Ok hash ∧ users seen !! id0 = Some row0 ∧ user_from_record row0 = Ok snapshot ∧
    users db !! rx_user_id target = Some r ∧ us_id r = rx_user_id target ∧ user_from_record r = Ok u ∧
    complete_reset_transaction env target snapshot token hash (Some u) db =
      Ok (tt, oc_db (complete_reset env seen token password db)).
Proof.
  unfold complete_reset. intros Hok (db' & Hrun & -> & _)%finish_Ok.
  destruct (find_reset _ seen) as [target|]; [|done]. apply bind_Ok in Hrun as (snap & Hsnap & Hrun).
  destruct snap as [snap|]; [|done]. apply bind_Ok in Hrun as ([] & _ & Hrun).
  apply bind_Ok in Hrun as (hash & Hh & Hrun). apply on_user_Ok in Hrun as ([u|] & Hu & Hrun); [|done].
  apply locked_row in Hu as (r & Hr & Hid & Hu); [|done].
  apply get_by_id_Ok in Hsnap as (row0 & Hrow0 & Hsnap).
  exists target, hash, (rx_user_id target), row0, snap, r, u. by split_and!.
Qed.

Lemma complete_reset_keeps env seen token password db :
  accounts_ok db → keeps db (oc_db (complete_reset env seen token password db)).
Proof.
  intros Hok. destruct (oc_result (complete_reset env seen token password db)) as [[]|e] eqn:E.
  - apply complete_reset_Ok in E as (target & hash & id0 & row0 & snap & r & u & _ & _ & _ & _ & Hr & Hid & Hu & Htx); [|done].
    rewrite <- Hid in Hr.
    by apply complete_reset_transaction_Ok with (r := r) in Htx as (? & ? & ? & ? & ? & ? & ? & ? & ? & ? & ? & ? & ? & ? & _).
  - unfold complete_reset in *. by destruct (match find_reset _ _ with None => _ | Some _ => _ end) as [[]|];
      [|apply keeps_refl].
Qed.

(** ** Change *)

Lemma require_refresh_Ok target token u db db0 now :
  tables_ok db → families db0 = families db → refresh_tokens db0 = refresh_tokens db →
  require_refresh target token (lock_families u None db0)
    (lock_refresh_tokens (fr_id <$> lock_families u None db0) db0) now = Ok tt →
  ∃ f t, families db !! tg_family_id target = Some f ∧ fr_user_id f = u ∧ fr_status f = FAMILY_ACTIVE ∧
    now < fr_expires_at f ∧ refresh_tokens db !! tg_token_id target = Some t ∧
    rt_family_id t = tg_family_id target ∧ rt_digest t = token_digest token ∧ rt_used_at t = None.
Proof.
  clear. intros Hok Hf Ht Hreq. unfold require_refresh in Hreq.
  destruct (find _ (lock_families _ _ _)) as [f|] eqn:E1; [|done].
  destruct (find _ (lock_refresh_tokens _ _)) as [t|] eqn:E2; [|done].
  apply find_elem in E1 as [Hin1 Hid1%Z.eqb_eq], E2 as [Hin2 Hid2%Z.eqb_eq].
  apply raise_if_Ok, negb_false_iff in Hreq. rewrite !andb_true_iff in Hreq.
  destruct Hreq as [[[[[_ Ha%bool_decide_eq_true] Hexp%Z.ltb_lt] Htf%Z.eqb_eq] Hd%bool_decide_eq_true] Hunused].
  destruct (lock_families_active _ _ _ Hin1) as [Hu _].
  unfold lock_families in Hin1. unfold lock_refresh_tokens in Hin2.
  apply elem_of_select in Hin1 as [_ [k Hk]], Hin2 as [_ [k2 Hk2]]. rewrite Hf in Hk. rewrite Ht in Hk2.
  destruct (tb_row _ _ _ _ (to_families _ Hok) _ _ Hk) as [Hkey _].
  destruct (tb_row _ _ _ _ (to_refresh _ Hok) _ _ Hk2) as [Hkey2 _].
  exists f, t. split_and!; try congruence. by destruct (rt_used_at t).
Qed.

Lemma change_password_transaction_Ok env p target snapshot token hash r u db g db' :
  accounts_ok db → users db !! us_id r = Some r → user_from_record r = Ok u →
  change_password_transaction env p target snapshot token hash (Some u) db = Ok (g, db') →
  us_id r = principal_id p ∧ us_status r = ACTIVE ∧ us_password_hash r = user_password_hash snapshot ∧
  (∃ f t, families db !! tg_family_id target = Some f ∧ fr_user_id f = us_id r ∧ fr_status f = FAMILY_ACTIVE ∧
    ae_now env < fr_expires_at f ∧ refresh_tokens db !! tg_token_id target = Some t ∧
    rt_family_id t = tg_family_id target ∧ rt_digest t = token_digest token ∧ rt_used_at t = None) ∧
  keeps db db' ∧ users db' = <[us_id r := with_hash hash (ae_now env) r]> (users db) ∧
  resets db' = end_resets (ae_now env) (us_id r) (resets db) ∧
  (∃ e, security_events db' = security_events db ++ [e] ∧ ev_subject_user_id e = us_id r ∧ ev_type e = PASSWORD_CHANGED) ∧
  ∃ refresh id, g = mkPasswordChangeGrant refresh (ae_now env + days 7) (ae_now env) ∧
    families db !! ae_family_id env = None ∧
    refresh_tokens db' = <[id := mkRefreshRow id (ae_family_id env) (token_digest refresh) (ae_now env) None None]>
                           (refresh_tokens db) ∧
    families db' = <[ae_family_id env := mkFamilyRow (ae_family_id env) (us_id r) FAMILY_ACTIVE
                                           (ae_now env + days 7) None (ae_now env) (ae_now env)]>
                     (end_sessions (ae_now env) (us_id r) (families db)).
Proof.
  intros Hok Hr Hu Htx. destruct (user_from_record_Ok _ _ Hu) as (Hid & Hrole & Hstatus & Hhash & _).
  apply bind_Ok in Htx as ([] & Hg%raise_if_Ok & Htx). rewrite !orb_false_iff, !negb_false_iff in Hg.
  destruct Hg as [[Huid%Z.eqb_eq Ha%bool_decide_eq_true] Hh%bool_decide_eq_true].
  apply bind_Ok in Htx as ([] & Hreq & Htx). rewrite Hid in *.
  apply (require_refresh_Ok _ _ _ db) in Hreq; [|apply Hok|done|done].
  apply bind_Ok in Htx as (db1 & Hhashed & Htx). apply bind_Ok in Htx as (db2 & Hrev & Htx).
  apply bind_Ok in Htx as (db3 & Hfam & Htx). apply bind_Ok in Htx as ([[refresh id] db4] & Hiss & Htx).
  apply bind_Ok in Htx as (db5 & Hres & Htx). apply bind_Ok in Htx as (db6 & Haud & [= <- <-]).
  destruct (change_hash_keeps _ _ _ _ _ _ Hok Hr Hhashed) as [Hk1 ->]. fold (with_hash hash (ae_now env) r) in *.
  destruct (end_sessions_keeps (ae_now env) (us_id r) db _ db2 (proj1 Hk1) eq_refl Hrev) as [Hk2 ->].
  assert (user_active (us_id r) (set_families (end_sessions (ae_now env) (us_id r) (families db))
    (set_users (<[us_id r := with_hash hash (ae_now env) r]> (users db)) db))) as Hua.
  { exists (with_hash hash (ae_now env) r). cbn. rewrite lookup_insert_eq. split; [done|]. cbn. congruence. }
  destruct (start_session_keeps _ _ _ _ _ _ _ _ _ (proj1 Hk2) Hua Hfam Hiss) as (Hk3 & Hnf & Hnt & ->).
  destruct (end_resets_keeps (ae_now env) (us_id r) db _ db5 (proj1 Hk3) eq_refl Hres) as [Hk4 ->].
  destruct (audit_password_keeps env (us_id r) (Some p) (ae_now env) _ db6 (with_hash hash (ae_now env) r) (proj1 Hk4))
    as (Hk5 & e & -> & He1 & He2 & _); [cbn; by rewrite lookup_insert_eq|done|by intros q [= <-]|].
  split_and!; try done; try congruence.
  - eapply keeps_trans; [exact Hk1|intros _]. eapply keeps_trans; [exact Hk2|intros _].
    eapply keeps_trans; [exact Hk3|intros _]. eapply keeps_trans; [exact Hk4|by intros _].
  - by exists e.
  - exists refresh, id. split_and!; try done. cbn in Hnf. unfold end_sessions in Hnf.
    rewrite lookup_fmap in Hnf. by apply fmap_None in Hnf.
Qed.

Lemma change_password_Ok env at_ seen validated p token current new db g :
  accounts_ok db → oc_result (change_password env at_ seen validated p token current new db) = Ok g →
  ∃ target snapshot hash r u, find_refresh (token_digest token) seen = Some target ∧
    tg_user_id target = principal_id p ∧
    password_verify current (user_password_hash snapshot) = Ok true ∧ password_hash new = Ok hash ∧
    users db !! tg_user_id target = Some r ∧ us_id r = tg_user_id target ∧ user_from_record r = Ok u ∧
    change_password_transaction env p target snapshot token hash (Some u) db =
      Ok (g, oc_db (change_password env at_ seen validated p token current new db)).
Proof.
  unfold change_password. intros Hok. destruct (find_refresh _ seen) as [target|]; [|done].
  destruct (Z.eqb_spec (tg_user_id target) (principal_id p)) as [Heq|]; [|done]. cbn [negb].
  intros (db' & Hrun & -> & _)%finish_Ok. apply bind_Ok in Hrun as ([snapshot db0] & _ & Hrun).
  apply bind_Ok in Hrun as (matches & Hver & Hrun). apply bind_Ok in Hrun as ([] & Hm%raise_if_Ok%negb_false_iff & Hrun).
  apply bind_Ok in Hrun as (hash & Hh & Hrun). apply on_user_Ok in Hrun as ([u|] & Hu & Hrun); [|done].
  apply locked_row in Hu as (r & Hr & Hid & Hu); [|done].
  exists target, snapshot, hash, r, u. split_and!; try done. by rewrite Hm in Hver.
Qed.

Lemma change_password_keeps env at_ seen validated p token current new db :
  accounts_ok db → keeps db (oc_db (change_password env at_ seen validated p token current new db)).
Proof.
  intros Hok. destruct (oc_result (change_password env at_ seen validated p token current new db)) as [g|e] eqn:E.
  - apply change_password_Ok in E as (target & snap & hash & r & u & _ & _ & _ & _ & Hr & Hid & Hu & Htx); [|done].
    rewrite <- Hid in Hr.
    by apply change_password_transaction_Ok with (r := r) in Htx as (_ & _ & _ & _ & ? & _).
  - unfold change_password in *. destruct (find_refresh _ _); [|by apply keeps_refl].
    destruct (negb _); [by apply keeps_refl|].
    match type of E with oc_result (finish _ _ ?m) = _ => by destruct m as [[]|]; [|apply keeps_refl] end.
Qed.

(** ** Requesting a reset *)

Lemma request_reset_transaction_Ok env email r u db m db' :
  accounts_ok db → users db !! us_id r = Some r → user_from_record r = Ok u →
  request_reset_transaction env email (Some u) db = Ok (m, db') →
  keeps db db' ∧ users db' = users db ∧
  match m with
  | None => db' = db
  | Some m => us_status r = ACTIVE ∧
      ∃ token id t c, m = mkEmailDeliveryMessage PASSWORD_RESET_MESSAGE email (PasswordResetToken token) ∧
        user_email u = email ∧ reset_tokens db !! id = None ∧ reset_tokens db' !! id = Some t ∧
        tk_digest t = token_digest token ∧ tk_used_at t = None ∧
        resets db' !! tk_challenge_id t = Some c ∧ rs_user_id c = us_id r ∧ rs_status c = CH_ACTIVE ∧
        ae_now env < rs_expires_at c
  end.
Proof.
  intros Hok Hr Hu. destruct (user_from_record_Ok _ _ Hu) as (Hid & Hrole & Hstatus & Hhash & _).
  unfold request_reset_transaction. rewrite Hid, Hstatus.
  destruct (_ || _) eqn:Hg; [intros [= <- <-]; by split; [apply keeps_refl|]|].
  apply orb_false_iff in Hg as [Ha%negb_false_iff%bool_decide_eq_true He%negb_false_iff%bool_decide_eq_true].
  cbv zeta. intros ([current db1] & Hexp & Htx)%bind_Ok.
  assert (keeps db db1 ∧ users db1 = users db ∧ reset_tokens db1 = reset_tokens db ∧
    match current with
    | Some c => ∃ q, resets db1 !! rsc_id c = Some q ∧ rs_user_id q = us_id r ∧ rs_status q = CH_ACTIVE ∧
        ae_now env < rs_expires_at q
    | None => True
    end) as (Hk1 & Hu1 & Hrt1 & Hcur).
  { destruct (find _ _) as [c|] eqn:Hc; [|injection Hexp as <- <-; split; [by apply keeps_refl|done]].
    apply find_elem in Hc as [Hc _]. apply lock_challenges_row in Hc as (q & Hq & -> & Hqu & Hact); [|apply Hok].
    cbn in Hexp, Hq. destruct (Z.leb_spec (rs_expires_at q) (ae_now env)) as [Hle|Hlt].
    - apply bind_Ok in Hexp as (db2 & Hexp & [= <- <-]).
      pose proof (expire_challenge_keeps _ _ _ _ Hok Hq Hact Hexp) as [Hk Hus]. split_and!; try done.
      by apply bind_Ok in Hexp as (? & _ & [= <-]).
    - injection Hexp as <- <-. split_and!; [by apply keeps_refl|done|done|]. by exists q. }
  apply bind_Ok in Htx as ([c db2] & Hcreate & Htx).
  assert (keeps db1 db2 ∧ users db2 = users db1 ∧ reset_tokens db2 = reset_tokens db1 ∧
    ∃ q, resets db2 !! rsc_id c = Some q ∧ rs_user_id q = us_id r ∧ rs_status q = CH_ACTIVE ∧
        ae_now env < rs_expires_at q) as (Hk2 & Hu2 & Hrt2 & q & Hq & Hqu & Hact & Hlive).
  { destruct current as [c'|]; [injection Hcreate as -> ->; split; [apply keeps_refl, Hk1|done]|].
    assert (user_active (us_id r) db1) as Hua by (exists r; by rewrite Hu1).
    pose proof (create_reset_challenge_keeps _ _ _ _ _ _ _ (proj1 Hk1) Hua Hcreate) as (Hk & Hus & Hid' & Hq).
    apply bind_Ok in Hcreate as (? & Hins & [= <- <-]). apply bind_Ok in Hins as (? & _ & [= <-]).
    split_and!; try done. eexists. split_and!; [exact Hq|done|done|]. cbn. unfold minutes, seconds. lia. }
  apply bind_Ok in Htx as ([[token id] db3] & Hiss & [= <- <-]).
  apply issue_reset_token_keeps in Hiss as (Hk3 & Hnew & ->); [|apply Hk2].
  split_and!; [|cbn; congruence|done|].
  - eapply keeps_trans; [exact Hk1|]. intros _. eapply keeps_trans; [exact Hk2|]. by intros _.
  - exists token, id. eexists _, q. split_and!; try done; [congruence|cbn; by rewrite lookup_insert_eq|..]; done.
Qed.

Lemma request_password_reset_keeps env send seen email db :
  accounts_ok db → keeps db (oc_db (request_password_reset env send seen email db)).
Proof.
  intros Hok. unfold request_password_reset. rewrite then_deliver_db. apply finish_keeps; [done|]. intros m db' Hrun.
  apply bind_Ok in Hrun as ([s|] & _ & Hrun); [|injection Hrun as _ <-; by apply keeps_refl].
  destruct (negb _); [injection Hrun as _ <-; by apply keeps_refl|].
  apply on_user_Ok in Hrun as ([u|] & Hu & Hrun); [|injection Hrun as _ <-; by apply keeps_refl].
  apply locked_row in Hu as (r & Hr & Hid & Hu); [|done]. rewrite <- Hid in Hr.
  by apply (request_reset_transaction_Ok _ _ r) in Hrun as [? _].
Qed.

(** ** Administration *)

Definition with_role (role : UserRole) (now : Z) (r : UserRow) : UserRow :=
  mkUserRow (us_id r) (us_email r) (us_name r) (us_password_hash r) role (us_status r) (us_created_at r) now.
Definition with_status (status : UserStatus) (now : Z) (r : UserRow) : UserRow :=
  mkUserRow (us_id r) (us_email r) (us_name r) (us_password_hash r) (us_role r) status (us_created_at r) now.

Lemma NewUserSecurityEvent_init_Ok e e' : NewUserSecurityEvent_init e = Ok e' → e' = e.
Proof. clear. by intros ([] & _ & [= <-])%bind_Ok. Qed.

Lemma change_role_transaction_Ok env p role r u db x db' :
  accounts_ok db → users db !! us_id r = Some r → user_from_record r = Ok u →
  change_role_transaction env p role (Some u) db = Ok (x, db') →
  us_id r ≠ principal_id p ∧
  (principal_role p = SUPER_ADMIN ∨ principal_role p = ADMIN ∧ us_role r = USER ∧ role ≠ SUPER_ADMIN) ∧
  keeps db db' ∧
  (us_role r = role ∧ db' = db ∨
   us_role r ≠ role ∧ ∃ e, db' = set_security_events (security_events db ++ [e])
     (set_users (<[us_id r := with_role role (ae_now env) r]> (users db)) db) ∧
     ev_type e = USER_ROLE_CHANGED ∧ ev_subject_user_id e = us_id r ∧ ev_initiator_user_id e = Some (principal_id p) ∧
     ev_initiator_role e = Some (principal_role p) ∧ ev_previous_role e = Some (us_role r) ∧ ev_new_role e = Some role).
Proof.
  intros Hok Hr Hu. destruct (user_from_record_Ok _ _ Hu) as (Hid & Hrole & Hstatus & Hhash & _).
  unfold change_role_transaction. rewrite Hid, Hrole. intros (p' & Hauth & Htx)%bind_Ok.
  apply authorize_role_change_Ok in Hauth as (-> & Hself & Hrank).
  case_bool_decide as Hsame; [injection Htx as _ <-; split_and!; [done|done|by apply keeps_refl|by left]|].
  apply bind_Ok in Htx as (db1 & Hset & Htx). apply bind_Ok in Htx as (e & He%NewUserSecurityEvent_init_Ok & Htx).
  apply bind_Ok in Htx as (db2 & Haud & [= _ <-]). subst e.
  destruct (change_user_keeps env (us_id r) (with_role role (ae_now env)) _ _ db db1 db2 r Hok Hr
    (λ q, conj eq_refl (conj eq_refl eq_refl)) eq_refl (λ Ha, or_introl Ha) Hset Haud eq_refl) as [Hk ->].
  - exists (principal_id p), (principal_role p), (us_role r), role. by split_and!.
  - cbn. by rewrite bool_decide_eq_true_2.
  - split_and!; [done|done|done|]. right. split; [done|]. eexists. by split_and!.
Qed.

Lemma change_role_keeps env p target role db :
  accounts_ok db → keeps db (oc_db (change_role env p target role db)).
Proof.
  intros Hok. apply finish_keeps; [done|]. intros x db' (q & _ & Hrun)%bind_Ok.
  apply on_user_Ok in Hrun as ([u|] & Hu & Hrun); [|done].
  apply locked_row in Hu as (r & Hr & Hid & Hu); [|done]. rewrite <- Hid in Hr.
  by apply (change_role_transaction_Ok _ _ _ r) in Hrun as (_ & _ & ? & _).
Qed.

Lemma change_status_transaction_Ok env p status r u db x db' :
  accounts_ok db → users db !! us_id r = Some r → user_from_record r = Ok u →
  us_id r ≠ principal_id p → principal_role p = SUPER_ADMIN →
  change_status_transaction env p status (Some u) db = Ok (x, db') →
  keeps db db' ∧
  (us_status r = status ∧ db' = db ∨
   us_status r ≠ status ∧ users db' = <[us_id r := with_status status (ae_now env) r]> (users db) ∧
     refresh_tokens db' = refresh_tokens db ∧
     families db' = (if bool_decide (status = DISABLED) then end_sessions (ae_now env) (us_id r) (families db)
                     else families db) ∧
     resets db' = (if bool_decide (status = DISABLED) then end_resets (ae_now env) (us_id r) (resets db)
                   else resets db) ∧
     ∃ e, security_events db' = security_events db ++ [e] ∧
       ev_type e = (if bool_decide (status = DISABLED) then USER_DISABLED else USER_ENABLED) ∧
       ev_subject_user_id e = us_id r ∧ ev_initiator_user_id e = Some (principal_id p)).
Proof.
  intros Hok Hr Hu Hself Hsuper. destruct (user_from_record_Ok _ _ Hu) as (Hid & Hrole & Hstatus & Hhash & _).
  unfold change_status_transaction. rewrite Hid, Hstatus.
  case_bool_decide as Hsame; [intros [= _ <-]; split; [by apply keeps_refl|by left]|]. cbv zeta.
  intros (db1 & Hrev & Htx)%bind_Ok. apply bind_Ok in Htx as (db2 & Hres & Htx).
  assert (keeps db db1 ∧ db1 = set_families (if bool_decide (status = DISABLED)
    then end_sessions (ae_now env) (us_id r) (families db) else families db) db) as [Hk1 ->].
  { case_bool_decide; [by eapply end_sessions_keeps|]. injection Hrev as <-. split; [by apply keeps_refl|by destruct db]. }
  assert (∀ d, d = set_families (if bool_decide (status = DISABLED) then end_sessions (ae_now env) (us_id r) (families db)
    else families db) db → keeps d db2 ∧ db2 = set_resets (if bool_decide (status = DISABLED)
    then end_resets (ae_now env) (us_id r) (resets db) else resets db) d) as Hres2.
  { intros d Hd. rewrite <- Hd in Hres, Hk1. assert (resets db = resets d) as Heq by by rewrite Hd.
    rewrite Heq. case_bool_decide; [by eapply end_resets_keeps; [apply Hk1| |]|].
    injection Hres as <-. split; [apply keeps_refl, Hk1|by destruct d]. }
  destruct (Hres2 _ eq_refl) as [Hk2 ->].
  apply bind_Ok in Htx as (db3 & Hset & Htx). apply bind_Ok in Htx as (e & He%NewUserSecurityEvent_init_Ok & Htx).
  apply bind_Ok in Htx as (db4 & Haud & [= _ <-]). subst e.
  match type of Haud with audit _ ?e _ _ = _ =>
    edestruct (change_user_keeps env (us_id r) (with_status status (ae_now env)) e (ae_now env) _ db3 db4 r (proj1 Hk2)
      Hr (λ q, conj eq_refl (conj eq_refl eq_refl)) eq_refl) as [Hk3 ->]; [|exact Hset|exact Haud|done|..]
  end.
  - intros _. destruct status; [by left|]. right. rewrite bool_decide_eq_true_2 by done. split.
    + cbn. intros k g Hg Hgu Hact. apply lookup_end_sessions in Hg as (f0 & _ & [[-> Hno]|(-> & _)]); [by apply Hno|done].
    + cbn. intros k c Hc Hcu Hact. apply lookup_end_resets in Hc as (c0 & _ & [[-> Hno]|(-> & _)]); [by apply Hno|done].
  - unfold event_authorized. cbn. rewrite Hsuper. case_bool_decide; by exists (principal_id p).
  - cbn. case_bool_decide; by rewrite bool_decide_eq_true_2.
  - split.
    + eapply keeps_trans; [exact Hk1|intros _]. eapply keeps_trans; [exact Hk2|by intros _].
    + right. split_and!; try done. eexists. by split_and!.
Qed.

Lemma change_status_Ok env p target status db :
  accounts_ok db → oc_result (change_status env p target status db) = Ok tt →
  principal_role p = SUPER_ADMIN ∧ principal_id p ≠ target ∧
  ∃ r u, users db !! target = Some r ∧ us_id r = target ∧ user_from_record r = Ok u ∧
    change_status_transaction env p status (Some u) db = Ok (tt, oc_db (change_status env p target status db)).
Proof.
  unfold change_status. intros Hok (db' & Hrun & -> & _)%finish_Ok.
  apply bind_Ok in Hrun as (q & Hauth & Hrun). apply authorize_Ok in Hauth as [-> Hauth].
  apply bind_Ok in Hrun as ([] & Hself%raise_if_Ok%Z.eqb_neq & Hrun).
  apply on_user_Ok in Hrun as ([u|] & Hu & Hrun); [|done].
  apply locked_row in Hu as (r & Hr & Hid & Hu); [|done]. split_and!; [|done|by exists r, u].
  destruct p as [pid []]; unfold ALLOWED_ACTIONS, USER_ACTIONS, ADMIN_ACTIONS in Hauth; cbn in *; set_solver.
Qed.

Lemma change_status_keeps env p target status db :
  accounts_ok db → keeps db (oc_db (change_status env p target status db)).
Proof.
  intros Hok. destruct (oc_result (change_status env p target status db)) as [[]|e] eqn:E.
  - apply change_status_Ok in E as (Hsuper & Hself & r & u & Hr & Hid & Hu & Htx); [|done]. rewrite <- Hid in Hr.
    apply (change_status_transaction_Ok _ _ _ r) in Htx as [? _]; [done..|congruence|done].
  - unfold change_status in *. match type of E with oc_result (finish _ _ ?m) = _ => by destruct m as [[]|]; [|apply keeps_refl] end.
Qed.

(** ** Bootstrap *)

Lemma create_with_security_event_keeps env email name hash db u db' :
  accounts_ok db →
  create_with_security_event env (mkNewUser email name hash SUPER_ADMIN ACTIVE) db = Ok (u, db') →
  keeps db db' ∧ users db !! ae_user_id env = None ∧
  users db' = <[ae_user_id env := mkUserRow (ae_user_id env) email name hash SUPER_ADMIN ACTIVE (ae_now env) (ae_now env)]>
                (users db).
Proof.
  intros Hok Htx. apply bind_Ok in Htx as ([v db1] & Hadd & Htx).
  apply add_user_Ok in Hadd as (Hw & Hnew & Hu & ->); [|apply Hok].
  destruct (user_from_record_Ok _ _ Hu) as (Hid & _).
  apply bind_Ok in Htx as (e & He%NewUserSecurityEvent_init_Ok & Htx). subst e.
  apply bind_Ok in Htx as (db2 & Hins & Htx). apply bind_Ok in Htx as (? & _ & [= _ <-]).
  apply catch_Ok in Hins as [Hins|(e & _ & He)]; [|by destruct e].
  apply insert_security_event_writes in Hins as [Hw2 ->]; [|apply Hw]. cbn in *. rewrite Hid in *.
  split_and!; [|done|done].
  refine (add_user_keeps db (mkUserRow (ae_user_id env) email name hash SUPER_ADMIN ACTIVE (ae_now env) (ae_now env))
    [_] Hok Hnew (writes_trans _ _ _ Hw (λ _, Hw2)) _ _ _ _).
  - by exists v.
  - by constructor.
  - by constructor.
  - done.
Qed.

Lemma bootstrap_keeps env seen again last email name password db :
  accounts_ok db → keeps db (oc_db (bootstrap env seen again last email name password db)).
Proof.
  intros Hok. unfold bootstrap. cbv zeta.
  destruct (normalized ← EmailAddress_init email; _) as [[[[normalized display] plain] [existing|]]|e];
    [by apply keeps_refl| |by apply keeps_refl].
  destruct (hash ← password_hash plain; _) as [new|e] eqn:Hnew; [|by apply keeps_refl].
  apply bind_Ok in Hnew as (hash & _ & Hnew). apply bind_Ok in Hnew as ([] & _ & [= <-]).
  destruct (create_with_security_event _ _ _) as [[u db']|e] eqn:E.
  - by apply create_with_security_event_keeps in E as [? _].
  - destruct e; try by apply keeps_refl. destruct (get_by_email _ _) as [[]|]; by apply keeps_refl.
Qed.

(** ** Every account use case *)

(** One execution of a use case on the committed state; the states its earlier
    reads saw are arbitrary. *)
Inductive account_step : ADB → ADB → Prop :=
| step_login env seen fake email password db :
    account_step db (oc_db (login env seen fake email password db))
| step_refresh env seen token db : account_step db (oc_db (refresh env seen token db))
| step_logout env seen token db : account_step db (oc_db (logout env seen token db))
| step_request_registration env send domains email db :
    account_step db (oc_db (request_registration env send domains email db))
| step_complete_registration env domains seen token name password db :
    account_step db (oc_db (complete_registration env domains seen token name password db))
| step_request_reset env send seen email db :
    account_step db (oc_db (request_password_reset env send seen email db))
| step_complete_reset env seen token password db :
    account_step db (oc_db (complete_reset env seen token password db))
| step_change_password env at_ seen validated p token current new db :
    account_step db (oc_db (change_password env at_ seen validated p token current new db))
| step_change_role env p target role db : account_step db (oc_db (change_role env p target role db))
| step_change_status env p target status db : account_step db (oc_db (change_status env p target status db))
| step_bootstrap env seen again last email name password db :
    account_step db (oc_db (bootstrap env seen again last email name password db)).

Lemma account_step_keeps db db' : accounts_ok db → account_step db db' → keeps db db'.
Proof.
  intros Hok Hstep. destruct Hstep; auto using login_keeps, refresh_keeps, logout_keeps, request_registration_keeps,
    complete_registration_keeps, request_password_reset_keeps, complete_reset_keeps, change_password_keeps,
    change_role_keeps, change_status_keeps, bootstrap_keeps.
Qed.
Lemma account_steps_keep db db' : accounts_ok db → rtc account_step db db' → keeps db db'.
Proof.
  intros Hok Hsteps. revert Hok. induction Hsteps as [db|db1 db2 db3 Hs _ IH]; intros Hok; [by apply keeps_refl|].
  eapply keeps_trans; [by apply account_step_keeps|done].
Qed.
End services.
