(* ===== verification/AccountClaims.v ===== *)
(** * Accounts and sessions: what the use cases guarantee

    The theorems about registration, login, rotation, revocation, passwords and
    administration, over every interleaving of committed use cases. *)

From Stdlib Require Import Sorting.Sorted.
From S2P Require Import Prelude Python Exceptions Auth Pagination Credentials Accounts Sessions Registrations Passwords UserManagement AccountInvariant AccountSpecs SessionSpecs PasswordSpecs.
Local Open Scope Z_scope.

Section services.
Context `{UnicodeData} `{AuthServices}.
Implicit Types db : ADB.

(** C10: in every state the use cases reach from an empty database, whatever the
    stale reads that preceded each transaction, all constraints of the account
    tables hold; only ACTIVE users have ACTIVE refresh families or reset
    challenges; every family has exactly one unused token; a spent token belongs
    to a COMPLETED challenge and a COMPLETED registration to a user; every user
    row reads back.  And nothing is undone: users, families, tokens, challenges
    and events stay, a REVOKED family, a used token and a closed challenge stay
    so. *)
Theorem account_invariant db db' :
  rtc account_step empty_adb db → rtc account_step db db' → accounts_ok db' ∧ progress db db'.
Proof.
  intros H1 H2. apply account_steps_keep; [|done]. by apply (account_steps_keep empty_adb db empty_accounts_ok).
Qed.

(** ** Rotation *)

Lemma ck_family_Ok f :
  ck_family f = Ok tt →
  fr_created_at f < fr_expires_at f ∧ fr_created_at f ≤ fr_updated_at f.
Proof.
  clear. intros ([] & _ & Hc%integrity_Ok%negb_false_iff)%bind_Ok.
  apply andb_true_iff in Hc as [[?%Z.ltb_lt ?%Z.leb_le]%andb_true_iff _]. done.
Qed.

Lemma revoke_succeeds now id f db :
  tables_ok db → families db !! id = Some f → fr_created_at f ≤ now → ∃ db', revoke now id db = Ok db'.
Proof.
  clear. intros Hok Hf Hle. unfold revoke, update_family, update_row. rewrite Hf.
  destruct (family_active f); cbn [mbind result_bind]; [|by eexists].
  destruct (tb_row _ _ _ _ (to_families _ Hok) _ _ Hf) as [_ [Hexp _]%ck_family_Ok].
  assert (ck_family (revoked now f) = Ok tt) as Hck.
  { unfold ck_family, integrity. cbn. apply Z.ltb_lt in Hexp. apply Z.leb_le in Hle. by rewrite Hexp, Hle. }
  unfold revoked in Hck. rewrite Hck. cbn. unfold fk_family, references. cbn.
  rewrite bool_decide_eq_true_2 by by eapply (to_family_user _ Hok). cbn. by eexists.
Qed.

(** What a token that was used at [time] does later. *)
Lemma refresh_used env seen token db t r time f :
  accounts_ok db → accounts_ok seen → progress seen db →
  refresh_tokens seen !! t = Some r → rt_digest r = token_digest token → rt_used_at r = Some time →
  families db !! rt_family_id r = Some f → fr_created_at f ≤ time →
  let o := refresh env seen token db in
  oc_result o = Raise RefreshConflict ∧ oc_db o = db ∧ oc_events o = [REFRESH_CONFLICT] ∧
    ae_now env ≤ time + seconds 10 ∨
  oc_result o = Raise InvalidSession ∧
    ∃ f', families (oc_db o) !! rt_family_id r = Some f' ∧
      (fr_status f' = FAMILY_REVOKED ∨ fr_expires_at f' ≤ ae_now env).
Proof.
  intros Hok Hseen Hp Hr Hd Hused Hf Hcreated.
  destruct (find_refresh_spec _ _ _ (ac_tables _ Hseen) Hr) as (f0 & Hf0 & Hfind). rewrite Hd in Hfind.
  destruct (pg_families _ _ Hp _ _ Hf0) as (f1 & Hf1 & _ & Hfu & _). assert (f1 = f) as -> by congruence.
  destruct (pg_refresh _ _ Hp _ _ Hr) as (r1 & Hr1 & [->|[? _]]); [|congruence].
  unfold refresh. rewrite Hfind. cbv zeta. cbn [tg_user_id]. rewrite <- Hfu.
  destruct (to_family_user _ (ac_tables _ Hok) _ _ Hf) as [row Hrow].
  pose proof (get_by_id_total (fr_user_id f) db Hok) as Hget. rewrite Hrow in Hget.
  destruct Hget as (u & Hu & Hread). destruct (user_from_record_Ok _ _ Hread) as (Huid & _ & Hst & _).
  destruct (tb_row _ _ _ _ (to_users _ (ac_tables _ Hok)) _ _ Hrow) as [Hkey _].
  unfold session_transaction. rewrite Hu. cbn [mbind result_bind refresh_transaction].
  destruct (bool_decide (user_status u = ACTIVE)) eqn:Hact; cbn [negb raise_if mbind result_bind catch].
  2: { right. split; [done|]. exists f. split; [done|]. left. destruct (fr_status f) eqn:Hs; [|done].
       apply bool_decide_eq_false in Hact. destruct (ac_family_user _ Hok _ _ Hf Hs) as (q & Hq & Hqs).
       destruct Hact. rewrite Hst. congruence. }
  rewrite (proj2 (locked_refresh_Ok u (mkRefreshTarget (fr_user_id f) (rt_family_id r) t) token db f r (ac_tables _ Hok)))
    by (cbn; split_and!; [done|done|congruence|done|done|done]).
  cbn [mbind result_bind]. destruct (negb (family_active f) || _) eqn:Hlive; cbn [raise_if mbind result_bind catch].
  { right. split; [done|]. exists f. split; [done|]. apply orb_true_iff in Hlive as [Hn|Hn%Z.leb_le]; [left|by right].
    apply negb_true_iff, bool_decide_eq_false in Hn. by destruct (fr_status f). }
  rewrite Hused. destruct (Z.leb_spec (ae_now env) (time + seconds 10)) as [Hle|Hgt]; cbn [raise_if mbind result_bind catch].
  { left. done. }
  destruct (tb_row _ _ _ _ (to_families _ (ac_tables _ Hok)) _ _ Hf) as [Hfid _]. rewrite Hfid.
  destruct (revoke_succeeds (ae_now env) (rt_family_id r) f db (ac_tables _ Hok) Hf) as [db' Hrev];
    [unfold seconds in Hgt; lia|].
  rewrite Hrev. cbn. right. split; [done|]. apply revoke_keeps in Hrev as [[_ Hp'] Hrevd]; [|done].
  destruct (pg_families _ _ Hp' _ _ Hf) as (f' & Hf' & _). exists f'. split; [done|]. left. by apply Hrevd.
Qed.

(** A token of a family that is not ACTIVE is never accepted. *)
Lemma dead_token env seen token db g t r f :
  accounts_ok db → refresh_tokens db !! t = Some r → rt_digest r = token_digest token →
  families db !! rt_family_id r = Some f → fr_status f = FAMILY_REVOKED →
  oc_result (refresh env seen token db) ≠ Ok g.
Proof.
  intros Hok Hr Hd Hf Hrev Href. apply refresh_Ok in Href as (target & u & _ & _ & Htx); [|done].
  apply refresh_transaction_Ok in Htx as (f' & t' & Hf' & Ht' & _ & _ & Htf & Htd & Hact & _); [|done].
  assert (tg_token_id target = t) as Heq.
  { eapply (tb_clash _ _ _ _ (to_refresh _ (ac_tables _ Hok))); [done|done|]. unfold same_digest. congruence. }
  congruence.
Qed.

(** C11: a refresh token works once.  A rotation hands out a new token of the
    same family with the family's expiry and an access token for the user's
    current role.  From then on, in every later state, presenting the old token
    yields RefreshConflict with nothing changed during the ten seconds of grace,
    and otherwise InvalidSession with the family revoked or expired, and then
    the new token is dead as well. *)
Theorem refresh_rotation env seen token db g :
  accounts_ok db → oc_result (refresh env seen token db) = Ok g →
  ∃ family f r next, families db !! family = Some f ∧ sg_expires_at g = fr_expires_at f ∧
    users db !! fr_user_id f = Some r ∧ us_status r = ACTIVE ∧
    issue_access (us_id r) (us_role r) (unix_seconds (ae_now env)) = Ok (sg_access_token g) ∧
    refresh_tokens (oc_db (refresh env seen token db)) !! next =
      Some (mkRefreshRow next family (token_digest (sg_refresh_token g)) (ae_now env) None None) ∧
    ∀ seen' db2 env', rtc account_step (oc_db (refresh env seen token db)) seen' → rtc account_step seen' db2 →
      let o := refresh env' seen' token db2 in
      oc_result o = Raise RefreshConflict ∧ oc_db o = db2 ∧ oc_events o = [REFRESH_CONFLICT] ∧
        ae_now env' ≤ ae_now env + seconds 10 ∨
      oc_result o = Raise InvalidSession ∧
        ∃ f', families (oc_db o) !! family = Some f' ∧
          (fr_status f' = FAMILY_REVOKED ∨ fr_expires_at f' ≤ ae_now env').
Proof.
  intros Hok Href. apply refresh_Ok in Href as (target & u & _ & Hu & Htx); [|done].
  apply locked_row in Hu as (r & Hr & Hid & Hread); [|done].
  destruct (user_from_record_Ok _ _ Hread) as (Huid & Hrole & Hst & _).
  apply refresh_transaction_Ok in Htx as (f & t & Hf & Ht & Hact & Hfu & Htf & Htd & Hfa & Hexp & Hk & Hunused &
    access & refresh' & next & -> & Hacc & Hnext & Hdb'); [|done].
  assert (tg_token_id target ≠ next) as Hne by congruence.
  set (db' := oc_db (refresh env seen token db)) in *.
  exists (tg_family_id target), f, r, next.
  assert (refresh_tokens db' !! tg_token_id target = Some (used (ae_now env) next t)) as Hold
    by (rewrite Hdb'; cbn; by rewrite lookup_insert_eq).
  split_and!; [done|done|congruence|congruence|cbn; congruence| |].
  { rewrite Hdb'. cbn. by rewrite lookup_insert_ne, lookup_insert_eq. }
  intros seen' db2 env' Hs1 Hs2.
  destruct (account_steps_keep _ _ (proj1 Hk) Hs1) as [Hok1 Hp1].
  destruct (account_steps_keep _ _ Hok1 Hs2) as [Hok2 Hp2].
  destruct (pg_refresh _ _ Hp1 _ _ Hold) as (q & Hq & [->|[Hn _]]); [|done].
  assert (families db' !! tg_family_id target = Some (touched (ae_now env) f)) as Hft
    by (rewrite Hdb'; cbn; by rewrite lookup_insert_eq).
  assert (fr_created_at f ≤ ae_now env) as Hle.
  { destruct (tb_row _ _ _ _ (to_families _ (ac_tables _ (proj1 Hk))) _ _ Hft) as [_ [_ Hle]%ck_family_Ok]. done. }
  destruct (pg_families _ _ (transitivity Hp1 Hp2) _ _ Hft) as (f2 & Hf2 & _ & _ & _ & Hcr & _).
  rewrite <- Htf. rewrite <- Htf in Hf2.
  apply (refresh_used env' seen' token db2 (tg_token_id target) (used (ae_now env) next t) (ae_now env) f2); try done.
  rewrite Hcr. done.
Qed.

(** ** Login *)

(** C14: login.  It succeeds only for an ACTIVE user whose stored hash, unchanged
    since it was read, verifies the password; then the user has exactly one
    ACTIVE family, which is new, expires in seven days and whose one unused token
    is the one returned, and the access token carries the stored role.  A failure
    changes nothing and is reported as LOGIN_FAILED exactly when it is
    InvalidCredentials, which an unknown address and a wrong password both are. *)
Theorem login_contract env seen fake email password db :
  accounts_ok db →
  let o := login env seen fake email password db in
  match oc_result o with
  | Ok g =>
      oc_events o = [] ∧
      ∃ r id t, users db !! id = Some r ∧ us_id r = id ∧ us_status r = ACTIVE ∧
        password_verify password (us_password_hash r) = Ok true ∧
        issue_access id (us_role r) (unix_seconds (ae_now env)) = Ok (sg_access_token g) ∧
        users (oc_db o) = users db ∧ sg_expires_at g = ae_now env + days 7 ∧ families db !! ae_family_id env = None ∧
        (∀ k f, families (oc_db o) !! k = Some f → fr_user_id f = id → fr_status f = FAMILY_ACTIVE →
           k = ae_family_id env ∧ fr_expires_at f = sg_expires_at g) ∧
        (∀ k, live_token (ae_family_id env) k (oc_db o) ↔ k = t) ∧
        rt_digest <$> refresh_tokens (oc_db o) !! t = Some (token_digest (sg_refresh_token g))
  | Raise e => oc_db o = db ∧ (oc_events o = [LOGIN_FAILED] ↔ e = InvalidCredentials)
  end ∧
  (get_by_email email seen = Ok None → is_ok (password_verify password fake) = true →
     oc_result o = Raise InvalidCredentials) ∧
  (∀ u, get_by_email email seen = Ok (Some u) → password_verify password (user_password_hash u) = Ok false →
     oc_result o = Raise InvalidCredentials).
Proof.
  intros Hok o. split_and!.
  - destruct (oc_result o) as [g|e] eqn:E.
    + destruct (finish_Ok _ _ _ _ E) as (_ & _ & _ & Hev). split; [exact Hev|].
      apply login_Ok in E as (id0 & row0 & r & access & refresh' & t & _ & _ & Hver & _ & Hr & Hid & Hact & Hhash &
        -> & Hacc & Hnf & Hnt & Hk & Hdb); [|done].
      exists r, (us_id row0), t. fold o in Hk, Hdb. rewrite Hid in *.
      assert (live_token (ae_family_id env) t (oc_db o)) as Hlive
        by (rewrite Hdb; eexists; split; [cbn; by rewrite lookup_insert_eq|done]).
      split_and!; try done.
      * by rewrite Hhash.
      * by rewrite Hdb.
      * intros k f Hf Hfu Hfa. rewrite Hdb in Hf. cbn in Hf.
        apply lookup_insert_Some in Hf as [[<- <-]|[_ Hf]]; [done|].
        apply lookup_end_sessions in Hf as (f0 & _ & [[-> Hno]|(-> & _)]); [by destruct Hno|done].
      * intros k. split; [|by intros ->]. intros Hk'.
        destruct (ac_live _ (proj1 Hk) (ae_family_id env)) as (t0 & _ & Huniq).
        { rewrite Hdb. cbn. by rewrite lookup_insert_eq. }
        by rewrite (Huniq _ Hk'), (Huniq _ Hlive).
      * rewrite Hdb. cbn. by rewrite lookup_insert_eq.
    + unfold o, login in *. destruct (login_attempt _ _ _ _ _ _) as [[? ?]|e']; [done|].
      cbn in *. injection E as ->. split; [done|]. by destruct e.
  - intros Hnone Hver. unfold o, login, login_attempt. rewrite Hnone. cbn.
    by destruct (password_verify _ _) as [[]|].
  - intros u Hu Hver. unfold o, login, login_attempt. rewrite Hu. cbn. by rewrite Hver.
Qed.

(** ** Revocation *)

(** The use cases that end all credentials of a user. *)
Inductive ends_credentials (u : UUID) : ADB → ADB → Prop :=
| ends_by_change env at_ seen validated p token current new db g :
    oc_result (change_password env at_ seen validated p token current new db) = Ok g → principal_id p = u →
    ends_credentials u db (oc_db (change_password env at_ seen validated p token current new db))
| ends_by_reset env seen target token password db :
    oc_result (complete_reset env seen token password db) = Ok tt →
    find_reset (token_digest token) seen = Some target → rx_user_id target = u →
    ends_credentials u db (oc_db (complete_reset env seen token password db))
| ends_by_disable env p db :
    oc_result (change_status env p u DISABLED db) = Ok tt →
    ends_credentials u db (oc_db (change_status env p u DISABLED db)).

Lemma end_sessions_revoked now u t id f :
  t !! id = Some f → fr_user_id f = u →
  ∃ f', end_sessions now u t !! id = Some f' ∧ fr_status f' = FAMILY_REVOKED.
Proof.
  clear. intros Hf Hu. unfold end_sessions. rewrite lookup_fmap, Hf. cbn. eexists. split; [done|].
  case_bool_decide as Hb; [done|]. destruct (fr_status f) eqn:Hs; [|done]. by destruct Hb.
Qed.
Lemma end_resets_closed now u t id c :
  t !! id = Some c → rs_user_id c = u → ∃ c', end_resets now u t !! id = Some c' ∧ rs_status c' ≠ CH_ACTIVE.
Proof.
  clear. intros Hc Hu. unfold end_resets. rewrite lookup_fmap, Hc. cbn. eexists. split; [done|].
  case_bool_decide as Hb; [done|]. intros Hs. by destruct Hb.
Qed.

Lemma ends_credentials_spec u db db' :
  accounts_ok db → ends_credentials u db db' →
  keeps db db' ∧
  (∀ id f, families db !! id = Some f → fr_user_id f = u →
     ∃ f', families db' !! id = Some f' ∧ fr_status f' = FAMILY_REVOKED) ∧
  (∀ id c, resets db !! id = Some c → rs_user_id c = u →
     ∃ c', resets db' !! id = Some c' ∧ rs_status c' ≠ CH_ACTIVE).
Proof.
  intros Hok Hends. destruct Hends as [env at_ seen validated p token current new db g Hres Hp
    |env seen target token password db Hres Hfind Htu|env p db Hres].
  - apply change_password_Ok in Hres as (target & snap & hash & r & cur & _ & Htu & _ & _ & Hr & Hid & Hu & Htx); [|done].
    rewrite <- Hid in Hr.
    destruct (change_password_transaction_Ok _ _ _ _ _ _ _ _ _ _ _ Hok Hr Hu Htx)
      as (Hrp & _ & _ & _ & Hk & _ & Hresets & _ & refresh' & id' & _ & Hnf & _ & Hfams).
    rewrite Hrp, Hp in *. split_and!; [done| |].
    + intros id f Hf Hfu. rewrite Hfams. rewrite lookup_insert_ne by congruence. by eapply end_sessions_revoked.
    + intros id c Hc Hcu. rewrite Hresets. by eapply end_resets_closed.
  - apply complete_reset_Ok in Hres as (target' & hash & id0 & row0 & snap & r & cur & Hfind' & _ & _ & _ & Hr & Hid & Hu & Htx);
      [|done].
    assert (target' = target) as -> by congruence. rewrite <- Hid in Hr.
    destruct (complete_reset_transaction_Ok _ _ _ _ _ _ _ _ _ _ Hok Hr Hu Htx)
      as (c & t & Hrt & _ & _ & Hc & Hcu & Hca & _ & _ & _ & _ & _ & Hk & _ & Hfams & (c' & Hc' & Hdone) & _).
    rewrite Hid, Htu in *. split_and!; [done| |].
    + intros id f Hf Hfu. rewrite Hfams. by eapply end_sessions_revoked.
    + intros id d Hd Hdu. destruct (decide (id = rx_challenge_id target)) as [->|Hne]; [exists c'; split; [done|congruence]|].
      destruct (pg_resets _ _ (proj2 Hk) _ _ Hd) as (d' & Hd' & [->|(_ & ? & _)]); [|by exists d'].
      exists d. split; [done|]. intros Ha. destruct Hne.
      by eapply (tb_clash _ _ _ _ (to_resets _ (ac_tables _ Hok))); [exact Hd|exact Hc|split_and!; [done|done|congruence]].
  - destruct (change_status_Ok _ _ _ _ _ Hok Hres) as (Hsuper & Hself & r & cur & Hr & Hid & Hu & Htx).
    pose proof Hr as Hr'. rewrite <- Hid in Hr'.
    apply (change_status_transaction_Ok _ _ _ r) in Htx as [Hk [[Hst Hdb]|(_ & _ & _ & Hfams & Hresets & _)]];
      [| |done|done|done|congruence|done].
    + split; [done|]. rewrite Hdb. split.
      * intros id f Hf Hfu. exists f. split; [done|]. destruct (fr_status f) eqn:Hs; [|done].
        destruct (ac_family_user _ Hok _ _ Hf Hs) as (q & Hq & Hqs). congruence.
      * intros id c Hc Hcu. exists c. split; [done|]. intros Hs.
        destruct (ac_reset_user _ Hok _ _ Hc Hs) as (q & Hq & Hqs). congruence.
    + rewrite bool_decide_eq_true_2, Hid in Hfams, Hresets by done. split_and!; [done| |].
      * intros id f Hf Hfu. rewrite Hfams. by eapply end_sessions_revoked.
      * intros id c Hc Hcu. rewrite Hresets. by eapply end_resets_closed.
Qed.

(** C12: when a password is changed or reset, or a user disabled, every refresh
    token and every reset token the user had is dead in all later states: no
    rotation, no password change and no reset with it ever succeeds. *)
Theorem ended_credentials u db db1 db2 :
  accounts_ok db → ends_credentials u db db1 → rtc account_step db1 db2 →
  (∀ t r f token, refresh_tokens db !! t = Some r → families db !! rt_family_id r = Some f → fr_user_id f = u →
     rt_digest r = token_digest token →
     (∀ env seen g, oc_result (refresh env seen token db2) ≠ Ok g) ∧
     (∀ env at_ seen validated p current new g,
        oc_result (change_password env at_ seen validated p token current new db2) ≠ Ok g)) ∧
  (∀ t r c token, reset_tokens db !! t = Some r → resets db !! tk_challenge_id r = Some c → rs_user_id c = u →
     tk_digest r = token_digest token →
     ∀ env seen password, oc_result (complete_reset env seen token password db2) ≠ Ok tt).
Proof.
  intros Hok Hends Hsteps. destruct (ends_credentials_spec _ _ _ Hok Hends) as (Hk1 & Hfams & Hresets).
  destruct (account_steps_keep _ _ (proj1 Hk1) Hsteps) as [Hok2 Hp2].
  pose proof (transitivity (proj2 Hk1) Hp2) as Hp. split.
  - intros t r f token Hr Hf Hfu Hd. destruct (Hfams _ _ Hf Hfu) as (f1 & Hf1 & Hrev1).
    destruct (pg_families _ _ Hp2 _ _ Hf1) as (f2 & Hf2 & _ & _ & _ & _ & Hrev2).
    destruct (pg_refresh _ _ Hp _ _ Hr) as (r2 & Hr2 & Hkr).
    assert (rt_family_id r2 = rt_family_id r ∧ rt_digest r2 = token_digest token) as [Hrf Hrd]
      by (destruct Hkr as [->|(_ & _ & _ & ? & ? & _)]; split; congruence).
    rewrite <- Hrf in Hf2. specialize (Hrev2 Hrev1). split.
    + intros env seen g. by eapply dead_token.
    + intros env at_ seen validated p current new g Hres.
      apply change_password_Ok in Hres as (target & snap & hash & row & cur & _ & _ & _ & _ & Hrow & Hid & Hu & Htx); [|done].
      rewrite <- Hid in Hrow. apply (change_password_transaction_Ok _ _ _ _ _ _ row) in Htx
        as (_ & _ & _ & (f' & t' & Hf' & _ & Hact & _ & Ht' & Htf & Htd & _) & _); [|done..].
      assert (tg_token_id target = t) as Heq.
      { eapply (tb_clash _ _ _ _ (to_refresh _ (ac_tables _ Hok2))); [done|done|]. unfold same_digest. congruence. }
      congruence.
  - intros t r c token Hr Hc Hcu Hd env seen password Hres. destruct (Hresets _ _ Hc Hcu) as (c1 & Hc1 & Hna1).
    apply complete_reset_Ok in Hres as (target & hash & id0 & row0 & snap & row & cur & _ & _ & _ & _ & Hrow & Hid & Hu & Htx);
      [|done].
    rewrite <- Hid in Hrow. apply (complete_reset_transaction_Ok _ _ _ _ _ row) in Htx
      as (c' & t' & _ & _ & _ & Hc' & _ & Hca & _ & Ht' & Htc & Htd & _); [|done..].
    destruct (pg_reset_tokens _ _ Hp _ _ Hr) as (r2 & Hr2 & Hkr).
    assert (tk_challenge_id r2 = tk_challenge_id r ∧ tk_digest r2 = token_digest token) as [Hrc Hrd]
      by (destruct Hkr as [->|(_ & _ & _ & ? & ? & _)]; split; congruence).
    assert (rx_token_id target = t) as Heq.
    { eapply (tb_clash _ _ _ _ (to_reset_tokens _ (ac_tables _ Hok2))); [done|done|]. unfold same_token. congruence. }
    destruct (pg_resets _ _ Hp2 _ _ Hc1) as (c2 & Hc2 & [->|(? & _)]); [|done].
    congruence.
Qed.

(** ** Registration *)

Lemma ae_user_email env domains seen token name password db g :
  accounts_ok db → oc_result (complete_registration env domains seen token name password db) = Ok g →
  ∃ r, users (oc_db (complete_registration env domains seen token name password db)) !! ae_user_id env = Some r ∧
    ∀ id q, users db !! id = Some q → us_email q ≠ us_email r.
Proof.
  intros Hok Hres. apply complete_registration_Ok in Hres as (target & hash & _ & _ & Htx); [|done].
  apply complete_registration_transaction_Ok in Htx
    as (c & t & _ & _ & _ & _ & _ & _ & _ & _ & _ & Hk & Hnew & Husers & _); [|done].
  set (db' := oc_db _) in *. eexists. split; [rewrite Husers; by rewrite lookup_insert_eq|].
  intros id q Hq Heq. assert (id ≠ ae_user_id env) as Hne by congruence. apply Hne.
  eapply (tb_clash _ _ _ _ (to_users _ (ac_tables _ (proj1 Hk)))); [|by rewrite Husers, lookup_insert_eq|exact Heq].
  by rewrite Husers, lookup_insert_ne.
Qed.

(** C15: completing a registration.  It needs an unused mailed token of an ACTIVE,
    unexpired challenge for an address in an allowed domain that no user has; it
    creates exactly one user, an ACTIVE USER with that address, with one session,
    and completes the challenge.  In every later state neither that token nor
    any other one registers the address again. *)
Theorem registration_contract env domains seen token name password db g :
  accounts_ok db → oc_result (complete_registration env domains seen token name password db) = Ok g →
  let db' := oc_db (complete_registration env domains seen token name password db) in
  ∃ id c t hash, registrations db !! tk_challenge_id t = Some c ∧ registration_tokens db !! id = Some t ∧
    tk_digest t = token_digest token ∧ tk_used_at t = None ∧ rc_status c = CH_ACTIVE ∧
    ae_now env < rc_expires_at c ∧ require_allowed_domain (rc_email c) domains = Ok tt ∧
    (∀ k q, users db !! k = Some q → us_email q ≠ rc_email c) ∧ password_hash password = Ok hash ∧
    users db !! ae_user_id env = None ∧
    users db' = <[ae_user_id env := mkUserRow (ae_user_id env) (rc_email c) name hash USER ACTIVE (ae_now env) (ae_now env)]>
                  (users db) ∧
    rc_status <$> registrations db' !! tk_challenge_id t = Some CH_COMPLETED ∧
    issue_access (ae_user_id env) USER (unix_seconds (ae_now env)) = Ok (sg_access_token g) ∧
    families db' = <[ae_family_id env := mkFamilyRow (ae_family_id env) (ae_user_id env) FAMILY_ACTIVE
                                           (sg_expires_at g) None (ae_now env) (ae_now env)]> (families db) ∧
    ∀ db2, rtc account_step db' db2 → ∀ env' domains' seen' token' name' password' g',
      let o := complete_registration env' domains' seen' token' name' password' db2 in
      oc_result o = Ok g' →
      token_digest token' ≠ token_digest token ∧
      ∃ r', users (oc_db o) !! ae_user_id env' = Some r' ∧ us_email r' ≠ rc_email c.
Proof.
  intros Hok Hres db'. destruct (ae_user_email _ _ _ _ _ _ _ _ Hok Hres) as (r & Hr & Hfresh).
  apply complete_registration_Ok in Hres as (target & hash & _ & Hhash & Htx); [|done].
  apply complete_registration_transaction_Ok in Htx
    as (c & t & Hc & Ht & _ & Hact & Hlive & Htc & Htd & Hunused & Hdom & Hk & Hnew & Husers & (c' & Hc' & Hdone) &
        access & refresh' & rid & -> & Hacc & _ & Hfams); [|done].
  fold db' in Hk, Husers, Hc', Hfams, Hr.
  assert (us_email r = rc_email c) as Hre by (rewrite Husers, lookup_insert_eq in Hr; by injection Hr as <-).
  exists (rg_token_id target), c, t, hash. rewrite Htc.
  split_and!; try done; [by rewrite <- Hre|by rewrite Hc'; cbn; rewrite Hdone|].
  intros db2 Hsteps env' domains' seen' token' name' password' g' o Hres'.
  destruct (account_steps_keep _ _ (proj1 Hk) Hsteps) as [Hok2 Hp2]. split.
  - intros Heq. apply complete_registration_Ok in Hres' as (target' & hash' & _ & _ & Htx'); [|done].
    apply complete_registration_transaction_Ok in Htx' as (c2 & t2 & Hc2 & Ht2 & _ & Hact2 & _ & Htc2 & Htd2 & _); [|done].
    destruct (pg_registration_tokens _ _ (transitivity (proj2 Hk) Hp2) _ _ Ht) as (t3 & Ht3 & Hkt).
    assert (tk_challenge_id t3 = rg_challenge_id target ∧ tk_digest t3 = token_digest token) as [Ht3c Ht3d]
      by (destruct Hkt as [->|(_ & _ & _ & ? & ? & _)]; split; congruence).
    assert (rg_token_id target' = rg_token_id target) as Hid.
    { eapply (tb_clash _ _ _ _ (to_registration_tokens _ (ac_tables _ Hok2))); [done|done|]. unfold same_token. congruence. }
    assert (t3 = t2) as -> by congruence.
    destruct (pg_registrations _ _ Hp2 _ _ Hc') as (c3 & Hc3 & [->|(? & _)]); congruence.
  - destruct (ae_user_email _ _ _ _ _ _ _ _ Hok2 Hres') as (r' & Hr' & Hfresh'). exists r'. split; [done|].
    destruct (pg_users _ _ Hp2 _ _ Hr) as (r2 & Hr2 & _ & He2 & _). intros Heq.
    apply (Hfresh' _ _ Hr2). congruence.
Qed.

(** ** The security log *)

Lemma replay_super events status :
  replay_security events = Some (SUPER_ADMIN, status) →
  ∃ e, e ∈ events ∧ ev_new_role e = Some SUPER_ADMIN ∧
    (ev_type e = INITIAL_SUPER_ADMIN_BOOTSTRAPPED ∨ ev_type e = USER_ROLE_CHANGED).
Proof.
  clear. revert status. induction events as [|e events IH] using rev_ind; intros status Hrep; [done|].
  destruct (decide (ev_type e = INITIAL_SUPER_ADMIN_BOOTSTRAPPED)) as [Hini|Hini].
  - destruct events as [|e0 events]; cbn in Hrep.
    + rewrite Hini, bool_decide_eq_true_2 in Hrep by done. cbn in Hrep. exists e. split; [set_solver|].
      destruct (ev_new_role e) as [[]|], (ev_new_status e); cbn in Hrep; try done. by split; [|left].
    + exfalso. assert (∀ s, log_step s e = None) as Hnone by (intros [[? ?]|]; [cbn; by rewrite Hini|done]).
      case_bool_decide; rewrite ?app_comm_cons, foldl_app in Hrep; cbn in Hrep; by rewrite Hnone in Hrep.
  - rewrite replay_snoc in Hrep by done. unfold log_step in Hrep.
    destruct (replay_security events) as [[role st]|]; [|done]. cbn in Hrep.
    assert ((role = SUPER_ADMIN ∧ ∃ st', Some (SUPER_ADMIN, st') = Some (role, st)) ∨
      ev_type e = USER_ROLE_CHANGED ∧ ev_new_role e = Some SUPER_ADMIN) as [[-> _]|[Hty Hnew]].
    { destruct (ev_type e) eqn:Hty; try done.
      - case_bool_decide; [|done]. destruct (ev_new_role e) as [n|] eqn:Hn; [|done]. cbn in Hrep.
        injection Hrep as -> <-. by right.
      - case_bool_decide; [|done]. destruct (ev_new_status e) as [n|]; [|done]. cbn in Hrep.
        injection Hrep as -> <-. left. split; [done|by exists st].
      - case_bool_decide; [|done]. destruct (ev_new_status e) as [n|]; [|done]. cbn in Hrep.
        injection Hrep as -> <-. left. split; [done|by exists st].
      - injection Hrep as -> <-. left. split; [done|by exists st].
      - injection Hrep as -> <-. left. split; [done|by exists st]. }
    + destruct (IH st eq_refl) as (e' & Hin & ?). exists e'. split; [set_solver|done].
    + exists e. split; [set_solver|]. by split; [|right].
Qed.

(** C13: the permanent security events tell the truth and the whole truth about
    privileges: in every reachable state, replaying a user's events from an
    active USER (or the bootstrap event) gives the stored role and status; every
    recorded change was made by someone allowed to make it; so every
    SUPER_ADMIN was bootstrapped or appointed by another SUPER_ADMIN, and every
    disabled user was disabled by one. *)
Theorem security_log_complete db :
  rtc account_step empty_adb db →
  Forall event_authorized (security_events db) ∧
  ∀ id r, users db !! id = Some r →
    replay_security (events_of id (security_events db)) = Some (us_role r, us_status r) ∧
    (us_role r = SUPER_ADMIN → ∃ e, e ∈ security_events db ∧ ev_subject_user_id e = id ∧
       ev_new_role e = Some SUPER_ADMIN ∧
       (ev_type e = INITIAL_SUPER_ADMIN_BOOTSTRAPPED ∧ ev_initiator_type e = BOOTSTRAP_CLI ∨
        ∃ actor, ev_initiator_user_id e = Some actor ∧ ev_initiator_role e = Some SUPER_ADMIN ∧ actor ≠ id)).
Proof.
  intros Hreach. destruct (account_steps_keep _ _ empty_accounts_ok Hreach) as [Hok _].
  split; [apply Hok|]. intros id r Hr. pose proof (ac_log _ Hok _ _ Hr) as Hlog. split; [done|].
  intros Hsuper. rewrite Hsuper in Hlog. apply replay_super in Hlog as (e & Hin & Hnew & Hty).
  unfold events_of in Hin. apply list_elem_of_filter in Hin as [Hsubj Hin]. exists e. split_and!; try done.
  pose proof (ac_authorized _ Hok) as Hauth. rewrite Forall_forall in Hauth. specialize (Hauth e Hin).
  unfold event_authorized in Hauth. destruct Hty as [Hty|Hty]; rewrite Hty in Hauth; [by left|right].
  destruct Hauth as (actor & role & old & new & Ha & Hrole & _ & Hn & Hne & Hauth).
  exists actor. split_and!; [done| |congruence].
  destruct Hauth as [->|(_ & _ & Hns)]; [done|congruence].
Qed.

(** ** Administrator reads *)

Lemma rows_keys db : tables_ok db → NoDup (us_id <$> rows (users db)).
Proof.
  clear. intros Hok. unfold rows. rewrite <- list_fmap_compose.
  rewrite (list_fmap_ext _ fst); [apply NoDup_fst_map_to_list|].
  intros i [id r] Hi. cbn. apply list_elem_of_lookup_2, elem_of_map_to_list in Hi.
  by destruct (tb_row _ _ _ _ (to_users _ Hok) _ _ Hi).
Qed.

Definition summary_key (s : UserSummary) : Z * Z := (su_created_at s, su_id s).
(** The users an administrator of a role may see. *)
Definition in_scope (p : HumanPrincipal) (r : UserRow) : bool :=
  negb (bool_decide (principal_role p = ADMIN)) || bool_decide (us_role r = USER).

Lemma visible_role_of_Ok p v :
  visible_role_of p = Ok v ↔ principal_role p ≠ USER ∧ v = (if bool_decide (principal_role p = ADMIN) then Some USER else None).
Proof.
  clear. unfold visible_role_of. rewrite bind_Ok. setoid_rewrite authorize_Ok.
  assert (READ_USERS ∈ ALLOWED_ACTIONS (principal_role p) ↔ principal_role p ≠ USER) as Ha.
  { destruct (principal_role p); unfold ALLOWED_ACTIONS, USER_ACTIONS, ADMIN_ACTIONS; set_solver. }
  split.
  - intros (x & [_ Hx%Ha] & [= <-]). done.
  - intros [Hx%Ha ->]. by exists p.
Qed.
Lemma visible_scope p r : visible (if bool_decide (principal_role p = ADMIN) then Some USER else None) r = in_scope p r.
Proof. clear. unfold in_scope. by case_bool_decide. Qed.

(** What administrators read.  A USER is denied; a page size outside 1 to 100
    is rejected; a client that follows the cursors reads every user that matches
    the filters and that the role may see, ADMINs only USERs, exactly once,
    newest first; and [get_user] finds precisely those users. *)
Theorem admin_reads (p : HumanPrincipal) (filters : UserFilters) (limit : Z) (fuel : nat) db :
  tables_ok db →
  (principal_role p = USER →
     (∀ after, list_users p filters after limit db = Raise AuthorizationDenied) ∧
     ∀ id, get_user p id db = Raise AuthorizationDenied) ∧
  (principal_role p ≠ USER →
     (is_ok (list_users p filters None limit db) = true ↔ 1 ≤ limit ≤ 100) ∧
     (1 ≤ limit ≤ 100 → (length (rows (users db)) < fuel)%nat →
        read_all summary_key (λ after, list_users p filters after limit db) fuel None =
          Ok (summary <$> sorting.merge_sort (descending user_key)
                (List.filter (λ r, in_scope p r && matches filters r) (rows (users db))))) ∧
     ∀ id, get_user p id db =
       match users db !! id with
       | Some r => if in_scope p r then Ok (summary r) else Raise UserNotFound
       | None => Raise UserNotFound
       end).
Proof.
  clear. intros Hok. split.
  - intros Hp. assert (visible_role_of p = Raise AuthorizationDenied) as Hv.
    { unfold visible_role_of, authorize. rewrite Hp. by vm_compute. }
    unfold list_users, get_user. by rewrite Hv.
  - intros Hp. pose proof (proj2 (visible_role_of_Ok p _) (conj Hp eq_refl)) as Hv.
    assert (∀ r, (negb ((1 <=? limit) && (limit <=? 100)) = r) → 1 ≤ limit ≤ 100 ↔ r = false) as Hl.
    { intros r <-. rewrite negb_false_iff, andb_true_iff, !Z.leb_le. done. }
    specialize (Hl _ eq_refl). split_and!.
    + rewrite Hl. unfold list_users. rewrite Hv. cbn. by destruct (negb _).
    + intros Hlim Hfuel. rewrite Hl in Hlim.
      erewrite (read_all_paginate user_key summary_key _ (λ r, Ok (summary r)) summary fuel None (Z.to_nat limit)
        (List.filter (λ r, in_scope p r && matches filters r) (rows (users db)))); [|done|].
      * rewrite paginate_all; [done| | |].
        -- apply (distinct_keys_ids _ us_id); [done|]. by apply NoDup_fmap_filter, rows_keys.
        -- apply negb_false_iff, andb_true_iff in Hlim as [?%Z.leb_le _]. lia.
        -- eapply Nat.le_lt_trans; [apply List.filter_length_le|done].
      * intros after. unfold list_users. rewrite Hv. cbn [mbind result_bind]. rewrite Hlim. cbn [raise_if mbind result_bind].
        unfold query_users. rewrite (mapR_pure _ summary) by done. cbn [mbind result_bind].
        rewrite (List.filter_ext _ (λ r, in_scope p r && matches filters r)); [done|].
        intros r. by rewrite visible_scope.
    + intros id. unfold get_user, query_user. rewrite Hv. cbn. destruct (users db !! id) as [r|]; [|done].
      rewrite visible_scope. by destruct (in_scope p r).
Qed.
End services.

(** ** Progress *)

Section progress.
Context `{UnicodeData} `{AuthServices}.
Implicit Types db : ADB.

(** The random source gave identifiers and a token that are not in use. *)
Definition fresh_session (env : AuthEnv) db : Prop :=
  families db !! ae_family_id env = None ∧ refresh_tokens db !! (ae_refresh env 0).2 = None ∧
  length (token_digest (ae_refresh env 0).1) = 32%nat ∧
  ∀ id r, refresh_tokens db !! id = Some r → rt_digest r ≠ token_digest (ae_refresh env 0).1.

Lemma other_false_all {R} (key : R → UUID) id (p : R → bool) t :
  (∀ k r, t !! k = Some r → p r = false) → other key id p t = false.
Proof. clear. intros Hall. apply (other_false key). intros r [k Hk]%elem_of_rows _. by apply (Hall k). Qed.

Lemma issue_refresh_succeeds env family now db :
  is_Some (families db !! family) → refresh_tokens db !! (ae_refresh env 0).2 = None →
  length (token_digest (ae_refresh env 0).1) = 32%nat →
  (∀ id r, refresh_tokens db !! id = Some r → rt_digest r ≠ token_digest (ae_refresh env 0).1) →
  issue_refresh env family now db =
    Ok (ae_refresh env 0,
        set_refresh_tokens
          (<[(ae_refresh env 0).2 := mkRefreshRow (ae_refresh env 0).2 family (token_digest (ae_refresh env 0).1) now None None]>
             (refresh_tokens db)) db).
Proof.
  clear. intros Hf Hid Hlen Hfresh. unfold issue_refresh. cbn [draw_until].
  assert (add_token family now db (ae_refresh env 0) = Ok (set_refresh_tokens
    (<[(ae_refresh env 0).2 := mkRefreshRow (ae_refresh env 0).2 family (token_digest (ae_refresh env 0).1) now None None]>
       (refresh_tokens db)) db)) as ->; [|by destruct (ae_refresh env 0)].
  unfold add_token, insert_refresh_token, insert_row, ck_refresh_token, uq_refresh_token, fk_refresh_token, integrity,
    references. cbn [rt_id rt_digest rt_used_at rt_replaced_by_id rt_family_id]. rewrite Hlen, Hid.
  rewrite other_false_all by (intros k r Hr; apply bool_decide_eq_false; by eapply Hfresh).
  rewrite (bool_decide_eq_true_2 (is_Some (families db !! family))) by done. done.
Qed.

(** Starting a session of an active user without one. *)
Lemma start_session_succeeds env u now db :
  user_active u db → fresh_session env db →
  (∀ k f, families db !! k = Some f → fr_user_id f = u → fr_status f ≠ FAMILY_ACTIVE) →
  ∃ db1, create_family env u now (now + days 7) db = Ok db1 ∧ refresh_tokens db1 = refresh_tokens db ∧
    is_Some (families db1 !! ae_family_id env) ∧ registrations db1 = registrations db ∧
    registration_tokens db1 = registration_tokens db.
Proof.
  clear. intros (r & Hr & _) (Hnf & _) Hno. unfold create_family, insert_family, insert_row, ck_family, uq_family, fk_family,
    integrity, references, family_active. cbn [fr_id fr_user_id fr_status fr_revoked_at fr_created_at fr_updated_at fr_expires_at].
  rewrite Hnf. rewrite other_false_all.
  2: { intros k f Hf. destruct (Z.eqb_spec (fr_user_id f) u) as [Hu|]; [|by rewrite andb_false_r].
       rewrite andb_true_r. apply bool_decide_eq_false. by eapply Hno. }
  rewrite (bool_decide_eq_true_2 (is_Some (users db !! u))) by (by exists r).
  assert ((now <? now + days 7) = true) as -> by (apply Z.ltb_lt; unfold days, seconds; lia).
  rewrite Z.leb_refl. cbn. eexists. split; [done|]. cbn. by rewrite lookup_insert_eq.
Qed.

Lemma revoke_all_succeeds now locked db :
  tables_ok db → (∀ f, f ∈ locked → ∃ g, families db !! fr_id f = Some g ∧ fr_created_at g ≤ now) →
  ∃ db', revoke_all now locked db = Ok db'.
Proof.
  clear. revert db. induction locked as [|f locked IH]; intros db Hok Hall; [by exists db|].
  destruct (Hall f) as (g & Hg & Hle); [set_solver|].
  destruct (revoke_succeeds now _ g db Hok Hg Hle) as [db1 Hrev]. unfold revoke_all. cbn. rewrite Hrev. cbn.
  apply revoke_writes in Hrev as [[Hok1 Hp1] _]; [|done]. apply IH; [done|].
  intros f' Hf'. destruct (Hall f') as (g' & Hg' & Hle'); [set_solver|].
  destruct (pg_families _ _ Hp1 _ _ Hg') as (g2 & Hg2 & _ & _ & _ & Hc & _). exists g2. split; [done|lia].
Qed.

(** Marking succeeds once the replacement is in the family. *)
Lemma mark_used_succeeds t tid family now r f row db :
  accounts_ok db → refresh_tokens db !! t = Some r → families db !! family = Some f → refresh_tokens db !! tid = None →
  rt_family_id row = family → rt_id row = tid → (∀ id q, refresh_tokens db !! id = Some q → rt_digest q ≠ rt_digest row) →
  rt_issued_at r ≤ now → fr_created_at f ≤ now → fr_status f = FAMILY_ACTIVE → rt_family_id r = family →
  ∃ db2, mark_used t tid family now (set_refresh_tokens (<[tid := row]> (refresh_tokens db)) db) = Ok db2.
Proof.
  intros Hok Hr Hf Hnt Hrowf Hrowid Hdig Hissued Hc Hact Hrf. assert (t ≠ tid) as Hne by congruence.
  destruct (tb_row _ _ _ _ (to_refresh _ (ac_tables _ Hok)) _ _ Hr) as [Htid Hckr].
  destruct (tb_row _ _ _ _ (to_families _ (ac_tables _ Hok)) _ _ Hf) as [Hfid Hck].
  assert (update_refresh_token t (used now tid) (set_refresh_tokens (<[tid := row]> (refresh_tokens db)) db) =
    Ok (set_refresh_tokens (<[t := used now tid r]> (<[tid := row]> (refresh_tokens db))) db)) as Htok.
  { unfold update_refresh_token, update_row. cbn [refresh_tokens set_refresh_tokens]. rewrite lookup_insert_ne, Hr by done.
    assert (ck_refresh_token (used now tid r) = Ok tt) as ->.
    { apply bind_Ok in Hckr as ([] & Hl%integrity_Ok & _). unfold ck_refresh_token, integrity. cbn.
      apply Z.leb_le in Hissued. rewrite Hl, Hissued. assert ((tid =? rt_id r) = false) as -> by (apply Z.eqb_neq; congruence).
      done. }
    assert (uq_refresh_token (used now tid r) (<[tid := row]> (refresh_tokens db)) = Ok tt) as ->.
    { unfold uq_refresh_token. rewrite integrity_Ok, (other_false rt_id). cbn.
      intros q [k Hk]%elem_of_rows Hq. apply bool_decide_eq_false. intros Heq.
      apply lookup_insert_Some in Hk as [[<- <-]|[_ Hk]]; [by eapply Hdig|]. apply Hq.
      destruct (tb_row _ _ _ _ (to_refresh _ (ac_tables _ Hok)) _ _ Hk) as [-> _]. rewrite Htid.
      by eapply (tb_clash _ _ _ _ (to_refresh _ (ac_tables _ Hok))). }
    unfold fk_refresh_token, references, integrity. cbn. rewrite lookup_insert_eq. cbn. rewrite Hrf, Hrowf.
    rewrite (bool_decide_eq_true_2 (is_Some _)) by (by exists f). by rewrite bool_decide_eq_true_2. }
  unfold mark_used. unfold used in Htok. rewrite Htok. cbn [mbind result_bind].
  unfold update_family, update_row. cbn [families set_refresh_tokens]. rewrite Hf. cbn [mbind result_bind].
  fold (touched now f).
  assert (ck_family (touched now f) = Ok tt) as ->.
  { apply bind_Ok in Hck as ([] & Hs%integrity_Ok & Ht%integrity_Ok%negb_false_iff). unfold ck_family, integrity, family_active in *.
    cbn. rewrite Hs. rewrite !andb_true_iff in Ht. destruct Ht as [[-> _] ->]. apply Z.leb_le in Hc. by rewrite Hc. }
  assert (uq_family (touched now f) (families db) = Ok tt) as ->.
  { unfold uq_family. rewrite integrity_Ok, andb_false_iff, (other_false fr_id). right. cbn.
    intros g [k Hk]%elem_of_rows Hg. apply andb_false_iff.
    destruct (decide (fr_status g = FAMILY_ACTIVE)) as [Hga|Hga]; [right|left; by apply bool_decide_eq_false].
    apply Z.eqb_neq. intros Hgu. apply Hg.
    destruct (tb_row _ _ _ _ (to_families _ (ac_tables _ Hok)) _ _ Hk) as [-> _]. rewrite Hfid.
    by eapply (tb_clash _ _ _ _ (to_families _ (ac_tables _ Hok))); [exact Hk|exact Hf|]. }
  unfold fk_family, references, integrity. cbn. rewrite bool_decide_eq_true_2 by by eapply (to_family_user _ (ac_tables _ Hok)).
  cbn. by eexists.
Qed.

Section working.
Context (env : AuthEnv) (db : ADB) (Hok : accounts_ok db) (Hfresh : fresh_session env db).
Context (Hclock : ∀ k f, families db !! k = Some f → fr_created_at f ≤ ae_now env).
Context (Hsign : ∀ id role now, is_ok (issue_access id role now) = true).

Lemma login_succeeds fake email password u :
  get_by_email email db = Ok (Some u) → user_status u = ACTIVE →
  password_verify password (user_password_hash u) = Ok true →
  is_ok (oc_result (login env db fake email password db)) = true.
Proof using All.
  intros Hu Ha Hver. destruct (get_by_email_Ok _ _ _ Hu) as (id & row & Hrow & He & Hread).
  destruct (user_from_record_Ok _ _ Hread) as (Hid & Hrole & Hst & Hh & _).
  destruct (tb_row _ _ _ _ (to_users _ (ac_tables _ Hok)) _ _ Hrow) as [Hkey _].
  unfold login, login_attempt. rewrite Hu. cbn [mbind result_bind]. rewrite Hver. cbn [mbind result_bind].
  rewrite Ha. cbn [negb orb raise_if mbind result_bind]. rewrite bool_decide_eq_true_2 by done. cbn [negb].
  unfold session_transaction. pose proof (get_by_id_total (user_id u) db Hok) as Hget.
  rewrite Hid, Hkey, Hrow in Hget. destruct Hget as (u' & Hu' & Hread'). assert (u' = u) as -> by congruence.
  rewrite Hid, Hkey, Hu'. cbn [mbind result_bind catch]. unfold login_transaction.
  rewrite Ha, !bool_decide_eq_true_2 by done. cbn [negb orb raise_if mbind result_bind]. cbv zeta.
  rewrite login_revokes by (intros f Hf; by apply (lock_families_active (user_id u) db)). rewrite Hid, Hkey.
  destruct (revoke_all_succeeds (ae_now env) (lock_families id None db) db (ac_tables _ Hok)) as [db1 Hrev].
  { intros f Hf. unfold lock_families in Hf. apply elem_of_select in Hf as [_ [k Hk]]. exists f.
    destruct (tb_row _ _ _ _ (to_families _ (ac_tables _ Hok)) _ _ Hk) as [-> _]. eauto. }
  rewrite Hrev. cbn [mbind result_bind].
  destruct (end_sessions_keeps _ _ _ _ _ Hok eq_refl Hrev) as [Hk ->].
  destruct Hfresh as (Hnf & Hnt & Hlen & Hdig).
  destruct (start_session_succeeds env id (ae_now env) (set_families (end_sessions (ae_now env) id (families db)) db))
    as (db2 & Hfam & Hrt & Hsome & _).
  { exists row. split; [done|]. congruence. }
  { split_and!; try done. cbn. unfold end_sessions. by rewrite lookup_fmap, Hnf. }
  { cbn. intros k f Hf Hfu Hact. apply lookup_end_sessions in Hf as (f0 & _ & [[-> Hno]|(-> & _)]); [by apply Hno|done]. }
  rewrite Hfam. cbn [mbind result_bind].
  rewrite (issue_refresh_succeeds env (ae_family_id env) (ae_now env) db2) by (rewrite ?Hrt; done).
  destruct (ae_refresh env 0) as [token' tid]. cbn [mbind result_bind].
  pose proof (Hsign id (user_role u) (unix_seconds (ae_now env))) as Hs. by destruct (issue_access _ _ _).
Qed.

Lemma refresh_succeeds token t r f :
  refresh_tokens db !! t = Some r → rt_digest r = token_digest token → rt_used_at r = None →
  rt_issued_at r ≤ ae_now env → families db !! rt_family_id r = Some f → fr_status f = FAMILY_ACTIVE →
  ae_now env < fr_expires_at f →
  is_ok (oc_result (refresh env db token db)) = true.
Proof using All.
  intros Hr Hd Hunused Hissued Hf Hact Hexp.
  destruct (find_refresh_spec _ _ _ (ac_tables _ Hok) Hr) as (f' & Hf' & Hfind). rewrite Hd in Hfind.
  assert (f' = f) as -> by congruence. unfold refresh. rewrite Hfind. cbv zeta. cbn [tg_user_id].
  destruct (ac_family_user _ Hok _ _ Hf Hact) as (row & Hrow & Hrs).
  pose proof (get_by_id_total (fr_user_id f) db Hok) as Hget. rewrite Hrow in Hget.
  destruct Hget as (v & Hv & Hread). destruct (user_from_record_Ok _ _ Hread) as (Hid & Hrole & Hst & _).
  destruct (tb_row _ _ _ _ (to_users _ (ac_tables _ Hok)) _ _ Hrow) as [Hkey _].
  destruct (tb_row _ _ _ _ (to_families _ (ac_tables _ Hok)) _ _ Hf) as [Hfid Hck].
  destruct (tb_row _ _ _ _ (to_refresh _ (ac_tables _ Hok)) _ _ Hr) as [Htid Hckr].
  unfold session_transaction. rewrite Hv. cbn [mbind result_bind refresh_transaction].
  rewrite bool_decide_eq_true_2 by congruence. cbn [negb raise_if mbind result_bind].
  rewrite (proj2 (locked_refresh_Ok v (mkRefreshTarget (fr_user_id f) (rt_family_id r) t) token db f r (ac_tables _ Hok)))
    by (cbn; split_and!; [done|done|congruence|done|done|done]).
  cbn [mbind result_bind]. unfold family_active. rewrite Hact, bool_decide_eq_true_2 by done.
  apply Z.leb_gt in Hexp as Hexp'. rewrite Hexp'. cbn [negb orb raise_if mbind result_bind]. rewrite Hunused, Hfid, Htid.
  destruct Hfresh as (Hnf & Hnt & Hlen & Hdig).
  rewrite (issue_refresh_succeeds env (rt_family_id r) (ae_now env) db) by done.
  destruct (ae_refresh env 0) as [token' tid] eqn:Hdraw. cbn [mbind result_bind fst snd] in *.
  assert (t ≠ tid) as Hne by congruence.
  destruct (mark_used_succeeds t tid (rt_family_id r) (ae_now env) r f (mkRefreshRow tid (rt_family_id r)
    (token_digest token') (ae_now env) None None) db Hok Hr Hf Hnt eq_refl eq_refl Hdig Hissued (Hclock _ _ Hf) Hact eq_refl)
    as [db2 Hmark]. cbn [rt_id] in Hmark. rewrite Hmark.
  cbn [mbind result_bind].
  pose proof (Hsign (user_id v) (user_role v) (unix_seconds (ae_now env))) as Hsg. by destruct (issue_access _ _ _).
Qed.
End working.

(** Nobody is locked out.  An ACTIVE user whose hash verifies the password can
    log in, and an unused token of an ACTIVE, unexpired family rotates, provided
    the clock does not run backwards, identifiers are fresh and the signer works. *)
Theorem session_progress env fake email password token u db :
  accounts_ok db → fresh_session env db → (∀ k f, families db !! k = Some f → fr_created_at f ≤ ae_now env) →
  (∀ id role now, is_ok (issue_access id role now) = true) →
  (get_by_email email db = Ok (Some u) → user_status u = ACTIVE →
     password_verify password (user_password_hash u) = Ok true →
     is_ok (oc_result (login env db fake email password db)) = true) ∧
  (∀ t r f, refresh_tokens db !! t = Some r → rt_digest r = token_digest token → rt_used_at r = None →
     rt_issued_at r ≤ ae_now env → families db !! rt_family_id r = Some f → fr_status f = FAMILY_ACTIVE →
     ae_now env < fr_expires_at f →
     is_ok (oc_result (refresh env db token db)) = true).
Proof.
  intros Hok Hfresh Hclock Hsign. split.
  - by apply login_succeeds.
  - intros t r f. by apply refresh_succeeds.
Qed.
End progress.

(** ** Witnesses *)

#[local] Existing Instance ascii_data.

(** A validator that splits at the first [@], a hash that only marks the text
    and an access token that names its user. *)
Definition test_services : AuthServices := {|
  validate_email s := '(n, _) ← list_find (λ c, c = at_sign) s; Some (take n s, Some (drop (S n) s));
  password_hash p := Ok (py "H" ++ p);
  password_verify p h := Ok (bool_decide (h = py "H" ++ p));
  issue_access id role now := Ok (py "A" ++ str_of_Z id);
|}.
#[local] Existing Instance test_services.

Definition test_token (k : Z) : pystr := b64encode (repeat k 32).
(** The [n]-th execution: its clock, identifiers and draws. *)
Definition test_env (n : Z) : AuthEnv :=
  mkAuthEnv (seconds n) (100 + n) (200 + n) (300 + n) (400 + n)
    (λ k, (test_token (n + Z.of_nat k), 1000 + 10 * n + Z.of_nat k))
    (λ k, (test_token (100 + n + Z.of_nat k), 2000 + 10 * n + Z.of_nat k)).
Definition test_send (m : EmailDeliveryMessage) : EmailDeliveryStatus := SENT.

Definition test_bootstrapped : ADB :=
  oc_db (bootstrap (test_env 1) empty_adb empty_adb empty_adb (py "root@x.io") (py "Root") (py "correct horse battery") empty_adb).
Definition test_requested : ADB :=
  oc_db (request_registration (test_env 2) test_send [py "x.io"] (py "ann@x.io") test_bootstrapped).
Definition test_completion :=
  complete_registration (test_env 3) [py "x.io"] test_requested (test_token 102) (py "Ann") (py "staple staple staple")
    test_requested.
Definition test_rotation := refresh (test_env 4) (oc_db test_completion) (test_token 3) (oc_db test_completion).
Definition test_login :=
  login (test_env 30) (oc_db test_rotation) (py "") (py "ann@x.io") (py "staple staple staple") (oc_db test_rotation).
Definition test_disable :=
  change_status (test_env 31) (mkHumanPrincipal 101 SUPER_ADMIN) 103 DISABLED (oc_db test_login).
Definition grant_of (o : outcome SessionGrant) : SessionGrant :=
  match oc_result o with Ok g => g | Raise _ => mkSessionGrant [] [] 0 0 end.

Lemma test_bootstrap_step : account_step empty_adb test_bootstrapped.
Proof. exact (step_bootstrap (test_env 1) empty_adb empty_adb empty_adb _ _ _ empty_adb). Qed.
Lemma test_request_step : account_step test_bootstrapped test_requested.
Proof. exact (step_request_registration (test_env 2) test_send _ _ test_bootstrapped). Qed.
Lemma test_completion_step : account_step test_requested (oc_db test_completion).
Proof. exact (step_complete_registration (test_env 3) _ test_requested _ _ _ test_requested). Qed.
Lemma test_rotation_step : account_step (oc_db test_completion) (oc_db test_rotation).
Proof. exact (step_refresh (test_env 4) (oc_db test_completion) _ (oc_db test_completion)). Qed.
Lemma test_login_step : account_step (oc_db test_rotation) (oc_db test_login).
Proof. exact (step_login (test_env 30) (oc_db test_rotation) _ _ _ (oc_db test_rotation)). Qed.

Lemma test_request_steps : rtc account_step empty_adb test_requested.
Proof. exact (rtc_l _ _ _ _ test_bootstrap_step (rtc_once _ _ test_request_step)). Qed.
Lemma test_completion_steps : rtc account_step empty_adb (oc_db test_completion).
Proof. exact (rtc_r _ _ _ test_request_steps test_completion_step). Qed.
Lemma test_login_steps : rtc account_step (oc_db test_completion) (oc_db test_login).
Proof. exact (rtc_l _ _ _ _ test_rotation_step (rtc_once _ _ test_login_step)). Qed.

Lemma test_requested_ok : accounts_ok test_requested.
Proof. exact (proj1 (account_steps_keep _ _ empty_accounts_ok test_request_steps)). Qed.
Lemma test_completion_ok : accounts_ok (oc_db test_completion).
Proof. exact (proj1 (account_steps_keep _ _ empty_accounts_ok test_completion_steps)). Qed.
Lemma test_rotation_ok : accounts_ok (oc_db test_rotation).
Proof. exact (proj1 (account_step_keeps _ _ test_completion_ok test_rotation_step)). Qed.
Lemma test_login_ok : accounts_ok (oc_db test_login).
Proof. exact (proj1 (account_steps_keep _ _ test_completion_ok test_login_steps)). Qed.

Lemma account_invariant_witness :
  accounts_ok (oc_db test_login) ∧ progress (oc_db test_completion) (oc_db test_login) ∧
  is_ok (oc_result test_login) = true.
Proof.
  destruct (account_invariant (oc_db test_completion) (oc_db test_login) test_completion_steps test_login_steps) as [H1 H2].
  split; [exact H1|]. split; [exact H2|]. vm_compute. reflexivity.
Defined.

Lemma refresh_rotation_witness :
  oc_result test_rotation = Ok (grant_of test_rotation) ∧
  oc_result (refresh (test_env 5) (oc_db test_rotation) (test_token 3) (oc_db test_rotation)) = Raise RefreshConflict ∧
  oc_result (refresh (test_env 30) (oc_db test_rotation) (test_token 3) (oc_db test_rotation)) = Raise InvalidSession.
Proof.
  assert (oc_result test_rotation = Ok (grant_of test_rotation)) as Hg by (vm_compute; reflexivity).
  split; [exact Hg|].
  destruct (refresh_rotation (test_env 4) (oc_db test_completion) (test_token 3) (oc_db test_completion)
    (grant_of test_rotation) test_completion_ok Hg) as (family & f & r & next & _ & _ & _ & _ & _ & _ & Hlater).
  split.
  - destruct (Hlater (oc_db test_rotation) (oc_db test_rotation) (test_env 5) (rtc_refl _ _) (rtc_refl _ _))
      as [(Hc & _)|(Hc & _)]; [exact Hc|]. exfalso. revert Hc. vm_compute. discriminate.
  - destruct (Hlater (oc_db test_rotation) (oc_db test_rotation) (test_env 30) (rtc_refl _ _) (rtc_refl _ _))
      as [(_ & _ & _ & Hc)|(Hc & _)]; [|exact Hc]. exfalso. revert Hc. vm_compute. tauto.
Defined.

Lemma login_contract_witness :
  oc_result test_login = Ok (grant_of test_login) ∧ oc_events test_login = [].
Proof.
  assert (oc_result test_login = Ok (grant_of test_login)) as Hg by (vm_compute; reflexivity).
  split; [exact Hg|].
  destruct (login_contract (test_env 30) (oc_db test_rotation) (py "") (py "ann@x.io") (py "staple staple staple")
    (oc_db test_rotation) test_rotation_ok) as [Hl _].
  fold test_login in Hl. rewrite Hg in Hl. exact (proj1 Hl).
Defined.

Lemma ended_credentials_witness :
  oc_result test_disable = Ok tt ∧
  ∀ env seen g, oc_result (refresh env seen (test_token 30) (oc_db test_disable)) ≠ Ok g.
Proof.
  assert (oc_result test_disable = Ok tt) as Hd by (vm_compute; reflexivity).
  split; [exact Hd|]. unfold test_disable in *. intros env seen g.
  assert (∃ r f, refresh_tokens (oc_db test_login) !! (1300 : Z) = Some r ∧ rt_digest r = token_digest (test_token 30) ∧
    families (oc_db test_login) !! rt_family_id r = Some f ∧ fr_user_id f = 103) as (r & f & Hr & Hdig & Hf & Hu).
  { eexists _, _. split; [vm_compute; reflexivity|]. split; [vm_compute; reflexivity|].
    split; [vm_compute; reflexivity|reflexivity]. }
  exact (proj1 (proj1 (ended_credentials 103 (oc_db test_login) _ _ test_login_ok
    (ends_by_disable 103 (test_env 31) (mkHumanPrincipal 101 SUPER_ADMIN) (oc_db test_login) Hd) (rtc_refl _ _))
    1300 r f (test_token 30) Hr Hf Hu Hdig) env seen g).
Defined.

Lemma registration_contract_witness :
  oc_result test_completion = Ok (grant_of test_completion) ∧
  ∃ r, users (oc_db test_completion) !! (103 : Z) = Some r ∧ us_role r = USER.
Proof.
  assert (oc_result test_completion = Ok (grant_of test_completion)) as Hg by (vm_compute; reflexivity).
  split; [exact Hg|]. unfold test_completion at 1 in Hg.
  destruct (registration_contract (test_env 3) [py "x.io"] test_requested (test_token 102) (py "Ann")
    (py "staple staple staple") test_requested (grant_of test_completion) test_requested_ok Hg)
    as (id & c & t & hash & _ & _ & _ & _ & _ & _ & _ & _ & _ & _ & Husers & _).
  eexists. split; [unfold test_completion; rewrite Husers; apply lookup_insert_eq|reflexivity].
Defined.

Lemma security_log_complete_witness :
  ∃ e, e ∈ security_events (oc_db test_completion) ∧ ev_subject_user_id e = 101 ∧ ev_new_role e = Some SUPER_ADMIN.
Proof.
  destruct (security_log_complete (oc_db test_completion) test_completion_steps) as [_ Hlog].
  assert (∃ r, users (oc_db test_completion) !! (101 : Z) = Some r ∧ us_role r = SUPER_ADMIN) as (r & Hr & Hrole).
  { eexists. split; vm_compute; reflexivity. }
  destruct (Hlog _ _ Hr) as [_ Hs]. destruct (Hs Hrole) as (e & H1 & H2 & H3 & _). exists e. exact (conj H1 (conj H2 H3)).
Defined.

Lemma admin_reads_witness :
  ∃ s, get_user (mkHumanPrincipal 1 ADMIN) 103 (oc_db test_completion) = Ok s ∧
    get_user (mkHumanPrincipal 1 ADMIN) 101 (oc_db test_completion) = Raise UserNotFound ∧
    read_all summary_key (λ after, list_users (mkHumanPrincipal 1 ADMIN) (mkUserFilters None None None) after 1
      (oc_db test_completion)) 5 None = Ok [s].
Proof.
  destruct (proj2 (admin_reads (mkHumanPrincipal 1 ADMIN) (mkUserFilters None None None) 1 5 (oc_db test_completion)
    (ac_tables _ test_completion_ok)) ltac:(discriminate)) as (_ & Hlist & Hget).
  eexists. split; [rewrite Hget; vm_compute; reflexivity|]. split; [rewrite Hget; vm_compute; reflexivity|].
  rewrite Hlist; [vm_compute; reflexivity|lia|vm_compute; lia].
Defined.

Lemma session_progress_witness :
  is_ok (oc_result (login (test_env 30) (oc_db test_rotation) (py "") (py "ann@x.io") (py "staple staple staple")
    (oc_db test_rotation))) = true.
Proof.
  assert (∃ u, get_by_email (py "ann@x.io") (oc_db test_rotation) = Ok (Some u) ∧ user_status u = ACTIVE ∧
    password_verify (py "staple staple staple") (user_password_hash u) = Ok true) as (u & Hu & Ha & Hv).
  { eexists. split; [vm_compute; reflexivity|]. split; vm_compute; reflexivity. }
  assert (fresh_session (test_env 30) (oc_db test_rotation)) as Hf.
  { split; [vm_compute; reflexivity|]. split; [vm_compute; reflexivity|]. split; [vm_compute; reflexivity|].
    apply map_Forall_to_list. vm_compute. repeat constructor; discriminate. }
  assert (map_Forall (λ _ f, fr_created_at f ≤ ae_now (test_env 30)) (families (oc_db test_rotation))) as Hc.
  { apply (bool_decide_unpack _). vm_compute. exact I. }
  exact (proj1 (session_progress (test_env 30) (py "") (py "ann@x.io") (py "staple staple staple") (test_token 4) u
    (oc_db test_rotation) test_rotation_ok Hf Hc (λ id role now, eq_refl)) Hu Ha Hv).
Defined.
