(* ===== verification/AccountErrors.v ===== *)
(** * The errors of the account use cases

    Which exceptions each use case of sessions, registrations and passwords
    raises on a state whose rows the program can read: those its endpoint
    knows, and the failure to draw a new token. *)

From S2P Require Import Prelude Python Exceptions Auth Credentials Accounts Sessions Registrations Passwords AccountInvariant AccountSpecs SessionSpecs PasswordSpecs.
Local Open Scope Z_scope.

Definition is_integrity (e : exn) : Prop := ∃ name, e = IntegrityError name.

Create HintDb account_errors discriminated.
Ltac integrity_error := unfold integrity; raises; by eexists.

(** ** Writing a row raises the violation of a constraint only *)

Lemma integrity_raises b name : raises_only is_integrity (integrity b name).
Proof. integrity_error. Qed.
Lemma references_raises {R} id (t : gmap UUID R) name : raises_only is_integrity (references id t name).
Proof. apply integrity_raises. Qed.
Lemma insert_row_raises {R} (key : R → UUID) pkey ck uq fk r t :
  raises_only is_integrity (ck r) → raises_only is_integrity (uq r t) → raises_only is_integrity (fk r) →
  raises_only is_integrity (insert_row key pkey ck uq fk r t).
Proof. intros ???. unfold insert_row. raises; [done|by eexists|done|done]. Qed.
Lemma update_row_raises {R} (ck : R → res unit) uq fk id guard f t :
  (∀ r, raises_only is_integrity (ck r)) → (∀ r, raises_only is_integrity (uq r t)) →
  (∀ r, raises_only is_integrity (fk r)) → raises_only is_integrity (update_row ck uq fk id guard f t).
Proof. intros ???. unfold update_row. raises; auto. Qed.

Ltac row_error :=
  repeat first [apply raises_bind; [|intros ? ?] | apply raises_Ok | apply integrity_raises | apply references_raises
    | apply insert_row_raises | apply update_row_raises; intros ? | case_match].

Lemma insert_user_raises r db : raises_only is_integrity (insert_user r db).
Proof. unfold insert_user, ck_user, uq_user. row_error. Qed.
Lemma update_user_raises id f db : raises_only is_integrity (update_user id f db).
Proof. unfold update_user, ck_user, uq_user. row_error. Qed.
Lemma insert_family_raises r db : raises_only is_integrity (insert_family r db).
Proof. unfold insert_family, ck_family, uq_family, fk_family. row_error. Qed.
Lemma update_family_raises id guard f db : raises_only is_integrity (update_family id guard f db).
Proof. unfold update_family, ck_family, uq_family, fk_family. row_error. Qed.
Lemma insert_refresh_token_raises r db : raises_only is_integrity (insert_refresh_token r db).
Proof. unfold insert_refresh_token, ck_refresh_token, uq_refresh_token, fk_refresh_token. row_error. Qed.
Lemma update_refresh_token_raises id f db : raises_only is_integrity (update_refresh_token id f db).
Proof. unfold update_refresh_token, ck_refresh_token, uq_refresh_token, fk_refresh_token. row_error. Qed.
Lemma insert_registration_raises r db : raises_only is_integrity (insert_registration r db).
Proof. unfold insert_registration, ck_registration, uq_registration. row_error. Qed.
Lemma update_registration_raises id f db : raises_only is_integrity (update_registration id f db).
Proof. unfold update_registration, ck_registration, uq_registration. row_error. Qed.
Lemma insert_reset_raises r db : raises_only is_integrity (insert_reset r db).
Proof. unfold insert_reset, ck_reset, uq_reset, fk_reset. row_error. Qed.
Lemma update_reset_raises id guard f db : raises_only is_integrity (update_reset id guard f db).
Proof. unfold update_reset, ck_reset, uq_reset, fk_reset. row_error. Qed.
Lemma insert_registration_token_raises r db : raises_only is_integrity (insert_registration_token r db).
Proof. unfold insert_registration_token, ck_token, uq_token. row_error. Qed.
Lemma update_registration_token_raises id guard f db : raises_only is_integrity (update_registration_token id guard f db).
Proof. unfold update_registration_token, ck_token, uq_token. row_error. Qed.
Lemma insert_reset_token_raises r db : raises_only is_integrity (insert_reset_token r db).
Proof. unfold insert_reset_token, ck_token, uq_token. row_error. Qed.
Lemma update_reset_token_raises id guard f db : raises_only is_integrity (update_reset_token id guard f db).
Proof. unfold update_reset_token, ck_token, uq_token. row_error. Qed.
Lemma insert_security_event_raises e db : raises_only is_integrity (insert_security_event e db).
Proof. unfold insert_security_event, ck_security_event. row_error. Qed.

(** *** The writes of the use cases *)

Lemma revoke_raises now id db : raises_only is_integrity (revoke now id db).
Proof. apply update_family_raises. Qed.
Lemma revoke_all_raises now locked db : raises_only is_integrity (revoke_all now locked db).
Proof. apply raises_foldR. intros. apply revoke_raises. Qed.
Lemma create_family_raises env u now e db : raises_only is_integrity (create_family env u now e db).
Proof. apply insert_family_raises. Qed.
Lemma mark_used_raises t next family now db : raises_only is_integrity (mark_used t next family now db).
Proof. unfold mark_used. apply raises_bind; [apply update_refresh_token_raises|intros; apply update_family_raises]. Qed.
Lemma expire_raises id db : raises_only is_integrity (expire id db).
Proof. apply update_registration_raises. Qed.
Lemma create_challenge_raises env email now e db : raises_only is_integrity (create_challenge env email now e db).
Proof. unfold create_challenge. raises. apply insert_registration_raises. Qed.
Lemma complete_raises c t now db : raises_only is_integrity (complete c t now db).
Proof. unfold complete. raises; [apply update_registration_token_raises|apply update_registration_raises]. Qed.
Lemma expire_challenge_raises id db : raises_only is_integrity (expire_challenge id db).
Proof. apply update_reset_raises. Qed.
Lemma create_reset_challenge_raises env u now e db : raises_only is_integrity (create_reset_challenge env u now e db).
Proof. unfold create_reset_challenge. raises. apply insert_reset_raises. Qed.
Lemma change_hash_raises u hash now db : raises_only is_integrity (change_hash u hash now db).
Proof. apply update_user_raises. Qed.
Lemma complete_challenge_raises c t now db : raises_only is_integrity (complete_challenge c t now db).
Proof. unfold complete_challenge. raises; [apply update_reset_token_raises|apply update_reset_raises]. Qed.
Lemma revoke_challenges_raises now cs db : raises_only is_integrity (revoke_challenges now cs db).
Proof. apply raises_foldR. intros. apply update_reset_raises. Qed.
Lemma audit_password_raises env u p now db : raises_only is_integrity (audit_password env u p now db).
Proof. apply insert_security_event_raises. Qed.

#[export] Hint Resolve revoke_raises revoke_all_raises create_family_raises mark_used_raises expire_raises
  create_challenge_raises complete_raises expire_challenge_raises create_reset_challenge_raises change_hash_raises
  complete_challenge_raises revoke_challenges_raises audit_password_raises insert_user_raises : account_errors.

(** A token is drawn again after a collision, at most three times. *)
Definition draw_error (e : exn) : Prop := is_integrity e ∨ e = OpaqueTokenCollision.
Lemma draw_raises {T X} (attempt : T → res X) collides draw :
  (∀ t e, attempt t = Raise e → collides e = false → is_integrity e) →
  raises_only draw_error (draw_until attempt collides draw 4 0).
Proof.
  intros Ha e He. pose proof (draw_until_spec attempt collides draw 4 0) as Hs. rewrite He in Hs.
  destruct Hs as [[-> _]|(i & _ & Hi & Hc)]; [by right|left; by eapply Ha].
Qed.
Lemma issue_refresh_raises env family now db : raises_only draw_error (issue_refresh env family now db).
Proof.
  apply draw_raises. intros t e He Hc. unfold add_token, catch in He.
  destruct (insert_refresh_token _ db) as [|e0] eqn:E; [done|]. apply insert_refresh_token_raises in E as [name ->].
  destruct (bool_decide _); injection He as <-; [done|by eexists].
Qed.
Lemma issue_registration_token_raises env c now db : raises_only draw_error (issue_registration_token env c now db).
Proof.
  apply draw_raises. intros t e He Hc. unfold add_registration_token, catch in He.
  destruct (insert_registration_token _ db) as [|e0] eqn:E; [done|]. apply insert_registration_token_raises in E as [name ->].
  destruct (bool_decide _); injection He as <-; [done|by eexists].
Qed.
Lemma issue_reset_token_raises env c now db : raises_only draw_error (issue_reset_token env c now db).
Proof.
  apply draw_raises. intros t e He Hc. unfold add_reset_token, catch in He.
  destruct (insert_reset_token _ db) as [|e0] eqn:E; [done|]. apply insert_reset_token_raises in E as [name ->].
  destruct (bool_decide _); injection He as <-; [done|by eexists].
Qed.
#[export] Hint Resolve issue_refresh_raises issue_registration_token_raises issue_reset_token_raises : account_errors.

(** ** The use cases *)

Section services.
Context `{UnicodeData} `{AuthServices}.

(** A hash the hasher can verify, and what the program relies on of the
    libraries: what a value object accepted it accepts again as it is, the
    hasher only fails for want of capacity, its hashes verify, and the
    configured signer signs. *)
Definition verifiable (hash : pystr) : Prop := ∀ password, raises_only (eq PasswordHashUnavailable) (password_verify password hash).
Record services_ok : Prop := {
  sv_email : ∀ v e, EmailAddress_init v = Ok e → EmailAddress_init e = Ok e;
  sv_name : ∀ v n, DisplayName_init v = Ok n → DisplayName_init n = Ok n;
  sv_password : ∀ v p, PlainPassword_init v = Ok p → PlainPassword_init p = Ok p;
  sv_hash : ∀ p, raises_only (eq PasswordHashUnavailable) (password_hash p);
  sv_hashed : ∀ p h, password_hash p = Ok h → h ≠ [] ∧ verifiable h;
  sv_access : ∀ id role now, ∃ token, issue_access id role now = Ok token;
}.
(** A state all of whose rows the program can read. *)
Record accounts_served (db : ADB) : Prop := {
  as_ok : accounts_ok db;
  as_hash : ∀ id r, users db !! id = Some r → verifiable (us_password_hash r);
  as_registration : ∀ id r, registrations db !! id = Some r → ∃ e, EmailAddress_init (rc_email r) = Ok e;
}.

Context (Hsv : services_ok).
Implicit Types db : ADB.

Lemma issue_access_raises P id role now : raises_only P (issue_access id role now).
Proof. destruct (sv_access Hsv id role now) as [t ->]. apply raises_Ok. Qed.
Lemma get_by_id_raises P id db : accounts_ok db → raises_only P (get_by_id id db).
Proof.
  intros Hok. pose proof (get_by_id_total id db Hok) as Hg. destruct (users db !! id); [destruct Hg as (? & -> & _)|rewrite Hg];
    apply raises_Ok.
Qed.
Lemma get_by_email_raises P email db : accounts_ok db → raises_only P (get_by_email email db).
Proof.
  intros Hok. unfold get_by_email, user_of. destruct (row_by_email email db) as [r|] eqn:E; [|apply raises_Ok].
  apply row_by_email_Some in E as (_ & id & Hr). destruct (ac_readable _ Hok _ _ Hr) as [u ->]. apply raises_Ok.
Qed.
Lemma verify_raises (P : exn → Prop) password hash :
  verifiable hash → P PasswordHashUnavailable → raises_only P (password_verify password hash).
Proof. intros Hv HP. eapply raises_impl; [apply Hv|by intros e <-]. Qed.
Lemma hash_raises (P : exn → Prop) password : P PasswordHashUnavailable → raises_only P (password_hash password).
Proof. intros HP. eapply raises_impl; [apply (sv_hash Hsv)|by intros e <-]. Qed.

(** A transaction on a user reports a violated constraint as [e']. *)
Lemma on_user_raises {A} (P : exn → Prop) id (body : option User → ADB → res (A * ADB)) db e' :
  accounts_ok db → P e' → (∀ user, get_by_id id db = Ok user → raises_only (λ e, is_integrity e ∨ P e) (body user db)) →
  raises_only P (catch (user ← get_by_id id db; body user db)
    (λ e, match e with IntegrityError _ => Raise e' | _ => Raise e end)).
Proof.
  intros Hok He' Hbody. apply raises_catch. intros e He. apply bind_Raise in He as [He|(user & Hu & He)].
  - by destruct (get_by_id_raises (λ _, False) id db Hok e He).
  - destruct (Hbody user Hu e He) as [[name ->]|HP]; [by apply raises_Raise|]. destruct e; by apply raises_Raise.
Qed.
(** What a locked user's row is. *)
Lemma found_user id db u : accounts_ok db → get_by_id id db = Ok (Some u) →
  ∃ r, users db !! us_id r = Some r ∧ us_id r = id ∧ user_from_record r = Ok u.
Proof. intros Hok Hg. apply locked_row in Hg as (r & Hr & Hid & Hu); [|done]. exists r. split_and!; congruence. Qed.

Lemma finish_raises {A} (P : exn → Prop) events db (m : res (A * ADB)) :
  raises_only P m → raises_only P (oc_result (finish events db m)).
Proof. intros Hm. destruct m as [[x db']|e]; [apply raises_Ok|by apply raises_Raise, Hm]. Qed.

(** Follow a program, leaving the errors it raises itself. *)
Ltac account_error :=
  repeat first
    [ raises_step
    | match goal with
      | |- raises_only _ (get_by_id _ _) => by apply get_by_id_raises
      | |- raises_only _ (issue_access _ _ _) => apply issue_access_raises
      | |- raises_only _ (password_hash _) => apply hash_raises
      | |- raises_only _ (foldR _ _ _) => apply raises_foldR; intros
      | |- raises_only _ _ => eapply raises_impl; [solve [eauto with account_errors]|intros ? ?]
      end ].

(** *** Sessions *)

Definition login_error (e : exn) : Prop :=
  e = InvalidCredentials ∨ e = PasswordHashUnavailable ∨ e = SessionUnavailable ∨ e = OpaqueTokenCollision.
Lemma login_raises env seen fake email password db :
  accounts_served seen → accounts_ok db → verifiable fake →
  raises_only login_error (oc_result (login env seen fake email password db)).
Proof.
  intros Hseen Hok Hfake. assert (raises_only login_error (login_attempt env seen fake email password db)) as Hr.
  { unfold login_attempt. apply raises_bind; [apply get_by_email_raises, Hseen|]. intros snapshot Hsnap.
    apply raises_bind.
    - apply verify_raises; [|unfold login_error; auto]. destruct snapshot as [u|]; [|done].
      apply get_by_email_Ok in Hsnap as (id & r & Hr & _ & Hu). apply user_from_record_Ok in Hu as (_ & _ & _ & -> & _).
      by eapply as_hash.
    - intros matches _. destruct snapshot as [u|]; [|apply raises_Raise; by left].
      apply raises_bind; [apply raises_if; by left|]. intros _ _.
      apply on_user_raises; [done|unfold login_error; auto|]. intros cur _. unfold login_transaction.
      account_error; unfold login_error, draw_error in *; naive_solver. }
  by apply finish_raises.
Qed.

(** The failure of a rotation; only the presented token decides. *)
Definition refresh_error (e : exn) : Prop :=
  e = InvalidSession ∨ e = RefreshConflict ∨ e = SessionUnavailable ∨ e = OpaqueTokenCollision.
Lemma locked_refresh_raises (P : exn → Prop) user target token db :
  P InvalidSession → raises_only P (locked_refresh user target token db).
Proof. intros HP e He. by apply locked_refresh_error in He as ->. Qed.
Lemma refresh_raises env seen token db :
  accounts_ok db → raises_only refresh_error (oc_result (refresh env seen token db)).
Proof.
  intros Hok. unfold refresh. destruct (find_refresh _ _) as [target|]; [|apply raises_Raise; by left].
  cbv zeta. cbn [oc_result]. apply raises_bind.
  - apply finish_raises, on_user_raises; [done|unfold refresh_error; auto|]. intros user _. unfold refresh_transaction.
    account_error; try (apply locked_refresh_raises); unfold refresh_error, draw_error in *; naive_solver.
  - intros grant _. destruct grant; [apply raises_Ok|apply raises_Raise; by left].
Qed.

Lemma logout_raises env seen token db :
  accounts_ok db → raises_only (eq SessionUnavailable) (oc_result (logout env seen token db)).
Proof.
  intros Hok. unfold logout. destruct (find_refresh _ _) as [target|]; [|apply raises_Ok].
  apply finish_raises, on_user_raises; [done|done|]. intros user _. unfold logout_transaction.
  destruct user as [user|]; [|apply raises_Ok].
  destruct (locked_refresh user target token db) as [[f t]|e] eqn:E; [|apply locked_refresh_error in E as ->; apply raises_Ok].
  account_error. by left.
Qed.

Lemma profile_raises p seen :
  accounts_ok seen → raises_only (eq InvalidAccessToken) (get_current_profile p seen).
Proof. intros Hok. unfold get_current_profile. account_error. done. Qed.

(** *** Registration *)

Definition registration_error (e : exn) : Prop :=
  e = EmailDomainNotAllowed ∨ e = RegistrationUnavailable ∨ e = OpaqueTokenCollision.

Lemma rsplit_raises P value : at_sign ∈ value → raises_only P (rsplit_at value).
Proof.
  intros Hin. unfold rsplit_at. destruct (list_find _ (reverse value)) as [[n c]|] eqn:E; [apply raises_Ok|].
  exfalso. apply list_find_None in E. rewrite Forall_forall in E. by apply (E at_sign); [apply elem_of_reverse|].
Qed.
Lemma email_at_sign v e : EmailAddress_init v = Ok e → at_sign ∈ e.
Proof.
  unfold EmailAddress_init, normalize_email. destruct (validate_email _) as [[local [domain|]]|]; [|done|done].
  intros ([] & _ & [= <-])%bind_Ok. apply elem_of_app. right. by left.
Qed.
Lemma domain_raises (P : exn → Prop) v email allowed_domains :
  EmailAddress_init v = Ok email → P EmailDomainNotAllowed → raises_only P (require_allowed_domain email allowed_domains).
Proof.
  intros He HP. unfold require_allowed_domain. apply raises_bind; [by eapply rsplit_raises, email_at_sign|].
  intros. by apply raises_if.
Qed.
Lemma challenge_raises P r :
  (∀ q, r = Some q → ∃ e, EmailAddress_init (rc_email q) = Ok e) → raises_only P (challenge_of r).
Proof.
  intros Hr. unfold challenge_of. destruct r as [q|]; [|apply raises_Ok]. destruct (Hr q eq_refl) as [e ->]. apply raises_Ok.
Qed.
Lemma challenge_of_email r c : challenge_of r = Ok (Some c) → ∃ v, EmailAddress_init v = Ok (rch_email c).
Proof.
  unfold challenge_of. destruct r as [r|]; [|done]. intros (e & He & [= <-])%bind_Ok. by exists (rc_email r).
Qed.
Lemma find_token_raises P digest db : accounts_served db → raises_only P (find_token digest db).
Proof.
  intros Hs. unfold find_token. destruct (find _ _) as [t|]; [|apply raises_Ok].
  destruct (registrations db !! _) as [c|] eqn:Hc; [|apply raises_Ok].
  destruct (as_registration _ Hs _ _ Hc) as [e ->]. apply raises_Ok.
Qed.
Lemma find_token_email digest db target :
  find_token digest db = Ok (Some target) → ∃ v, EmailAddress_init v = Ok (rg_email target).
Proof.
  unfold find_token. destruct (find _ _) as [t|]; [|done]. destruct (registrations db !! _) as [c|]; [|done].
  intros (e & He & [= <-])%bind_Ok. by exists (rc_email c).
Qed.

Lemma add_user_raises (P : exn → Prop) id now new db :
  EmailAddress_init (nu_email new) = Ok (nu_email new) → DisplayName_init (nu_name new) = Ok (nu_name new) →
  nu_password_hash new ≠ [] → P DuplicateUserEmail → P UserPersistenceError →
  raises_only P (add_user id now new db).
Proof.
  intros He Hn Hh ??. unfold add_user. apply raises_bind.
  - apply raises_catch. intros e He'. apply insert_user_raises in He' as [name ->]. case_bool_decide; by apply raises_Raise.
  - intros db' _. apply raises_bind; [|intros; apply raises_Ok].
    unfold user_from_record, User_init, utc, dt_ltb. cbn. rewrite He, Hn. cbn. rewrite bool_decide_eq_false_2 by done. cbn.
    rewrite Z.ltb_irrefl. cbn. apply raises_Ok.
Qed.

(** A registration reports a violated constraint as unavailable. *)
Lemma registration_transaction_raises {A} (P : exn → Prop) (body : ADB → res (A * ADB)) db :
  P RegistrationUnavailable → raises_only (λ e, is_integrity e ∨ e = UserPersistenceError ∨ P e) (body db) →
  raises_only P (registration_transaction body db).
Proof.
  intros HP Hb. apply raises_catch. intros e He. destruct (Hb e He) as [[name ->]|[->|HPe]]; [by apply raises_Raise..|].
  destruct e; by apply raises_Raise.
Qed.

Definition completion_error (e : exn) : Prop :=
  registration_error e ∨ e = InvalidRegistrationToken ∨ e = PasswordHashUnavailable.
Lemma complete_registration_transaction_raises env domains target token name hash db :
  accounts_served db → DisplayName_init name = Ok name → hash ≠ [] →
  raises_only (λ e, is_integrity e ∨ e = UserPersistenceError ∨ completion_error e)
    (complete_registration_transaction env domains target token name hash db).
Proof.
  intros Hs Hname Hhash. unfold complete_registration_transaction, lock_challenge. apply raises_bind.
  { apply challenge_raises. intros q Hq. repeat case_match; try done. injection Hq as <-. by eapply as_registration. }
  intros challenge Hch. cbv zeta. destruct challenge as [c|]; [|apply raises_Raise; unfold completion_error; auto].
  apply challenge_of_email in Hch as [v Hv].
  destruct (lock_registration_token _ _ _) as [stored|]; [|apply raises_Raise; unfold completion_error; auto].
  apply raises_bind; [apply raises_if; unfold completion_error; auto|]. intros _ _.
  apply raises_bind; [eapply domain_raises; [done|unfold completion_error, registration_error; auto]|]. intros _ _.
  apply raises_bind.
  - apply raises_catch. intros e He.
    assert (raises_only (λ e, e = DuplicateUserEmail ∨ e = UserPersistenceError)
      (new ← NewUser_init (mkNewUser (rch_email c) name hash USER ACTIVE); add_user (ae_user_id env) (ae_now env) new db)) as Hr.
    { unfold NewUser_init. cbn. rewrite bool_decide_eq_false_2 by done. cbn.
      apply add_user_raises; cbn; eauto. by eapply sv_email. }
    destruct (Hr e He) as [->| ->]; apply raises_Raise; unfold completion_error; auto.
  - intros [user db1] _. account_error; unfold completion_error, registration_error, draw_error in *;
      try (apply raises_catch; intros; apply raises_Raise); naive_solver.
Qed.

Lemma complete_registration_raises env domains seen token name password db :
  accounts_served seen → accounts_served db → DisplayName_init name = Ok name →
  raises_only completion_error (oc_result (complete_registration env domains seen token name password db)).
Proof.
  intros Hseen Hs Hname. unfold complete_registration. apply finish_raises, raises_bind; [by apply find_token_raises|].
  intros target Htarget. destruct target as [target|]; [|apply raises_Raise; unfold completion_error; auto].
  apply find_token_email in Htarget as [v Hv].
  apply raises_bind; [eapply domain_raises; [done|unfold completion_error, registration_error; auto]|]. intros _ _.
  apply raises_bind; [apply hash_raises; unfold completion_error; auto|]. intros hash Hhash.
  apply registration_transaction_raises; [unfold completion_error, registration_error; auto|].
  apply complete_registration_transaction_raises; [done|done|]. by eapply sv_hashed.
Qed.

Lemma request_registration_transaction_raises env email db :
  accounts_served db →
  raises_only (λ e, is_integrity e ∨ e = UserPersistenceError ∨ registration_error e)
    (request_registration_transaction env email db).
Proof.
  intros Hs. unfold request_registration_transaction. destruct (user_exists _ _); [apply raises_Ok|].
  apply raises_bind.
  { apply challenge_raises. intros q Hq. apply find_some in Hq as [Hq _].
    apply list_elem_of_In, elem_of_rows in Hq as [id Hq]. by eapply as_registration. }
  intros challenge _. account_error; unfold registration_error, draw_error in *; naive_solver.
Qed.

(** The messages of the two requests have a token of their purpose. *)
Lemma then_deliver_raises P send (committed : outcome (option EmailDeliveryMessage)) :
  raises_only P (oc_result committed) →
  (∀ m, oc_result committed = Ok (Some m) → EmailDeliveryMessage_init m = Ok m) →
  raises_only P (oc_result (then_deliver send committed)).
Proof.
  intros Hr Hm. unfold then_deliver. destruct (oc_result committed) as [[m|]|e]; cbn; [|apply raises_Ok|by apply raises_Raise, Hr].
  rewrite Hm by done. apply raises_Ok.
Qed.
Lemma request_registration_message env domains email db m :
  accounts_served db →
  oc_result (finish (λ _, []) db (_ ← require_allowed_domain email domains;
    registration_transaction (request_registration_transaction env email) db)) = Ok (Some m) →
  EmailDeliveryMessage_init m = Ok m.
Proof.
  intros Hs (? & Hm & _)%finish_Ok. apply bind_Ok in Hm as ([] & _ & Hm).
  apply registration_transaction_Ok in Hm. apply request_registration_transaction_Ok in Hm as (_ & _ & _ & ? & ? & ? & ? & -> & _);
    [done|apply Hs].
Qed.
Lemma request_registration_raises env send domains email db :
  accounts_served db → EmailAddress_init email = Ok email →
  raises_only registration_error (oc_result (request_registration env send domains email db)).
Proof.
  intros Hs He. apply then_deliver_raises.
  - apply finish_raises, raises_bind; [eapply domain_raises; [done|unfold registration_error; auto]|]. intros _ _.
    apply registration_transaction_raises; [unfold registration_error; auto|]. by apply request_registration_transaction_raises.
  - intros m. by apply request_registration_message.
Qed.

(** *** Passwords *)

Definition reset_request_error (e : exn) : Prop := e = PasswordLifecycleUnavailable ∨ e = OpaqueTokenCollision.
Lemma request_reset_message env seen email db m :
  accounts_ok db →
  oc_result (finish (λ _, []) db (snapshot ← get_by_email email seen;
    match snapshot with
    | None => Ok (None, db)
    | Some snapshot =>
        if negb (bool_decide (user_status snapshot = ACTIVE)) then Ok (None, db)
        else password_transaction (user_id snapshot) (request_reset_transaction env email) db
    end)) = Ok (Some m) →
  EmailDeliveryMessage_init m = Ok m.
Proof.
  intros Hok (? & Hm & _)%finish_Ok. apply bind_Ok in Hm as ([s|] & _ & Hm); [|done].
  destruct (negb _); [done|]. apply on_user_Ok in Hm as ([u|] & Hu & Hm); [|done].
  apply found_user in Hu as (r & Hr & _ & Hu); [|done].
  by apply (request_reset_transaction_Ok _ _ r) in Hm as (_ & _ & _ & ? & ? & ? & ? & -> & _).
Qed.
Lemma request_password_reset_raises env send seen email db :
  accounts_ok seen → accounts_ok db →
  raises_only reset_request_error (oc_result (request_password_reset env send seen email db)).
Proof.
  intros Hseen Hok. apply then_deliver_raises.
  - apply finish_raises, raises_bind; [by apply get_by_email_raises|]. intros [s|] _; [|apply raises_Ok].
    destruct (negb _); [apply raises_Ok|]. apply on_user_raises; [done|by left|]. intros user _.
    unfold request_reset_transaction. account_error; unfold reset_request_error, draw_error in *; naive_solver.
  - intros m. by apply request_reset_message.
Qed.

Definition reset_error (e : exn) : Prop :=
  e = InvalidPasswordResetToken ∨ e = PasswordHashUnavailable ∨ e = PasswordLifecycleUnavailable.
Lemma complete_reset_raises env seen token password db :
  accounts_ok seen → accounts_ok db → raises_only reset_error (oc_result (complete_reset env seen token password db)).
Proof.
  intros Hseen Hok. unfold complete_reset. apply finish_raises. destruct (find_reset _ _) as [target|]; [|apply raises_Raise; by left].
  apply raises_bind; [by apply get_by_id_raises|]. intros [s|] _; [|apply raises_Raise; by left].
  apply raises_bind; [apply raises_if; by left|]. intros _ _.
  apply raises_bind; [apply hash_raises; unfold reset_error; auto|]. intros hash _.
  apply on_user_raises; [done|unfold reset_error; auto|]. intros user _. unfold complete_reset_transaction.
  account_error; unfold reset_error in *; naive_solver.
Qed.

Definition change_error (e : exn) : Prop :=
  e = InvalidSession ∨ e = InvalidCurrentPassword ∨ e = PasswordHashUnavailable ∨ e = PasswordLifecycleUnavailable ∨
  e = OpaqueTokenCollision.
Lemma require_refresh_raises (P : exn → Prop) target token locked tokens now :
  P InvalidSession → raises_only P (require_refresh target token locked tokens now).
Proof. intros HP. unfold require_refresh. raises; done. Qed.
Lemma change_password_raises env at_ seen validated p token current new db :
  accounts_served validated → accounts_ok db →
  raises_only change_error (oc_result (change_password env at_ seen validated p token current new db)).
Proof.
  intros Hval Hok. unfold change_password. destruct (find_refresh _ _) as [target|]; [|apply raises_Raise; by left].
  destruct (negb _); [apply raises_Raise; by left|]. apply finish_raises, raises_bind.
  { apply on_user_raises; [apply Hval|unfold change_error; auto|]. intros user _. unfold validate_change.
    account_error; try apply require_refresh_raises; unfold change_error; auto. }
  intros [snapshot ?] Hsnap. apply raises_bind.
  { apply verify_raises; [|unfold change_error; auto]. apply on_user_Ok in Hsnap as ([u|] & Hu & Hv); [|done].
    apply bind_Ok in Hv as ([] & _ & Hv). apply bind_Ok in Hv as ([] & _ & [= <- _]).
    apply found_user in Hu as (r & Hr & _ & Hu); [|apply Hval].
    apply user_from_record_Ok in Hu as (_ & _ & _ & -> & _). by eapply as_hash. }
  intros matches _. apply raises_bind; [apply raises_if; unfold change_error; auto|]. intros _ _.
  apply raises_bind; [apply hash_raises; unfold change_error; auto|]. intros hash _.
  apply on_user_raises; [done|unfold change_error; auto|]. intros user _. unfold change_password_transaction.
  account_error; try apply require_refresh_raises; unfold change_error, draw_error in *; naive_solver.
Qed.

(** *** An error leaves the state as it was, except that a reused token ends its family *)

Lemma finish_Raise {A} events db (m : res (A * ADB)) e :
  oc_result (finish events db m) = Raise e → oc_db (finish events db m) = db.
Proof. by destruct m as [[x db']|e']. Qed.
Lemma then_deliver_Raise send (committed : outcome (option EmailDeliveryMessage)) e :
  (∀ m, oc_result committed = Ok (Some m) → EmailDeliveryMessage_init m = Ok m) →
  oc_result (then_deliver send committed) = Raise e → oc_result committed = Raise e.
Proof.
  intros Hm. unfold then_deliver. destruct (oc_result committed) as [[m|]|e']; cbn; [|done|by intros [= ->]]. by rewrite Hm.
Qed.

Lemma login_error_keeps env seen fake email password db e :
  oc_result (login env seen fake email password db) = Raise e → oc_db (login env seen fake email password db) = db.
Proof. apply finish_Raise. Qed.
Lemma refresh_error_keeps env seen token db e :
  oc_result (refresh env seen token db) = Raise e → e ≠ InvalidSession → oc_db (refresh env seen token db) = db.
Proof.
  unfold refresh. destruct (find_refresh _ _); [|done]. cbv zeta. cbn [oc_result oc_db].
  destruct (session_transaction _ _ _) as [[[g|] db']|e']; cbn; [done|by intros [= <-]|done].
Qed.
Lemma invalid_refresh_keeps env seen token db :
  accounts_ok db → oc_result (refresh env seen token db) = Raise InvalidSession →
  oc_db (refresh env seen token db) = db ∨ reuse_revoked env token db (oc_db (refresh env seen token db)).
Proof.
  intros Hok. unfold refresh. destruct (find_refresh _ _) as [target|]; [|by left]. cbv zeta. cbn [oc_result oc_db].
  destruct (session_transaction _ _ _) as [[[g|] db']|e'] eqn:E; cbn; [done| |by left].
  intros _. right. apply on_user_Ok in E as ([u|] & _ & E); [|done]. by eapply refresh_reuse.
Qed.
Lemma logout_error_keeps env seen token db e :
  oc_result (logout env seen token db) = Raise e → oc_db (logout env seen token db) = db.
Proof. unfold logout. destruct (find_refresh _ _); [apply finish_Raise|done]. Qed.
Lemma request_registration_error_keeps env send domains email db e :
  accounts_served db → oc_result (request_registration env send domains email db) = Raise e →
  oc_db (request_registration env send domains email db) = db.
Proof.
  intros Hs He. unfold request_registration. rewrite then_deliver_db. eapply finish_Raise, then_deliver_Raise, He.
  intros m. by apply request_registration_message.
Qed.
Lemma complete_registration_error_keeps env domains seen token name password db e :
  oc_result (complete_registration env domains seen token name password db) = Raise e →
  oc_db (complete_registration env domains seen token name password db) = db.
Proof. apply finish_Raise. Qed.
Lemma request_password_reset_error_keeps env send seen email db e :
  accounts_ok db → oc_result (request_password_reset env send seen email db) = Raise e →
  oc_db (request_password_reset env send seen email db) = db.
Proof.
  intros Hok He. unfold request_password_reset. rewrite then_deliver_db. eapply finish_Raise, then_deliver_Raise, He.
  intros m. by apply request_reset_message.
Qed.
Lemma complete_reset_error_keeps env seen token password db e :
  oc_result (complete_reset env seen token password db) = Raise e → oc_db (complete_reset env seen token password db) = db.
Proof. apply finish_Raise. Qed.
Lemma change_password_error_keeps env at_ seen validated p token current new db e :
  oc_result (change_password env at_ seen validated p token current new db) = Raise e →
  oc_db (change_password env at_ seen validated p token current new db) = db.
Proof. unfold change_password. destruct (find_refresh _ _); [|done]. destruct (negb _); [done|apply finish_Raise]. Qed.
End services.
