(* ===== verification/IpAddresses.v ===== *)
(** * IP addresses as text
    (the standard library's [ipaddress], which [src/src/mdm/application/origins.py]
    and [src/src/mdm/infrastructure/request_protection.py] use)

    Parsing and printing of IPv4 and IPv6 addresses: printing picks the first
    longest run of zero hextets to abbreviate and writes IPv4-mapped addresses
    with a dotted tail; what is printed parses back. *)

From S2P Require Import Prelude Python Exceptions Uuids.
Local Open Scope Z_scope.

Inductive ip_address := IPv4Address (n : Z) | IPv6Address (n : Z) (scope_id : option pystr).
#[export] Instance ip_address_eq_dec : EqDecision ip_address.
Proof. solve_decision. Defined.

Definition colon : Z := 58.
Definition dot : Z := 46.
Definition percent : Z := 37.
Definition slash : Z := 47.

(** ** IPv4 *)

(** [_parse_octet] *)
Definition parse_octet (s : pystr) : option Z :=
  if (1 <=? length s)%nat && (length s <=? 3)%nat && forallb is_digit s
     && (bool_decide (s = py "0") || negb (bool_decide (head s = Some 48)))
     && (decimal_value s <=? 255)
  then Some (decimal_value s) else None.
(** [IPv4Address(s)] *)
Definition parse_ipv4 (s : pystr) : option Z :=
  octets ← mapM parse_octet (str_split dot s);
  match octets with
  | [a; b; c; d] => Some (((a * 256 + b) * 256 + c) * 256 + d)
  | _ => None
  end.
Definition ipv4_str (n : Z) : pystr :=
  str_join [dot] (str_of_Z <$> [n / 2 ^ 24 mod 256; n / 2 ^ 16 mod 256; n / 2 ^ 8 mod 256; n mod 256]).

(** ** IPv6 *)

(** [_parse_hextet] *)
Definition parse_hextet (s : pystr) : option Z :=
  digits ← mapM hex_value s;
  if (1 <=? length s)%nat && (length s <=? 4)%nat
  then Some (fold_left (λ acc d, 16 * acc + d) digits 0) else None.
(** ['%x' % h] of a hextet *)
Definition hextet_str (h : Z) : pystr :=
  match lstrip 48 (hex_fixed 4 h) with [] => [48] | s => s end.
Definition append_hextet (acc : option Z) (s : pystr) : option Z :=
  acc ← acc; h ← parse_hextet s; Some (Z.lor (Z.shiftl acc 16) h).

Definition is_empty (s : pystr) : bool := match s with [] => true | _ => false end.
Definition last_part (parts : list pystr) : pystr := from_option id [] (last parts).

(** The parts between the first and the last that are empty, by position. *)
Definition skip_indices (parts : list pystr) : list nat :=
  List.filter (λ i, is_empty (nth i parts [])) (seq 1 (length parts - 2)).

(** [_ip_int_from_string] after the dotted tail is replaced. *)
Definition parse_parts (parts : list pystr) : option Z :=
  if (length parts <? 3)%nat || (9 <? length parts)%nat then None
  else
    match skip_indices parts with
    | [] =>
        if negb (length parts =? 8)%nat || is_empty (nth 0 parts []) || is_empty (last_part parts) then None
        else fold_left append_hextet parts (Some 0)
    | [i] =>
        let hi := if is_empty (nth 0 parts []) then (i - 1)%nat else i in
        let lo := if is_empty (last_part parts) then (length parts - i - 2)%nat else (length parts - i - 1)%nat in
        if is_empty (nth 0 parts []) && negb (hi =? 0)%nat then None
        else if is_empty (last_part parts) && negb (lo =? 0)%nat then None
        else if (8 - (hi + lo) <? 1)%nat then None
        else
          high ← fold_left append_hextet (take hi parts) (Some 0);
          fold_left append_hextet (drop (length parts - lo) parts)
            (Some (Z.shiftl high (16 * Z.of_nat (8 - (hi + lo)))))
    | _ => None
    end.

(** A last part with a dot is an IPv4 address, written as two hextets. *)
Definition replace_dotted (parts : list pystr) : option (list pystr) :=
  if str_contains dot (last_part parts) then
    n ← parse_ipv4 (last_part parts);
    Some (removelast parts ++ [hextet_str (n / 2 ^ 16); hextet_str (n mod 2 ^ 16)])
  else Some parts.
Definition parse_ipv6_int (s : pystr) : option Z :=
  let parts := str_split colon s in
  if (length parts <? 3)%nat then None else parts ← replace_dotted parts; parse_parts parts.

(** [IPv6Address(s)] *)
Definition parse_ipv6 (s : pystr) : option ip_address :=
  if str_contains slash s then None
  else
    match str_split percent s with
    | [addr] => n ← parse_ipv6_int addr; Some (IPv6Address n None)
    | [addr; scope] =>
        if is_empty scope then None
        else (n ← parse_ipv6_int addr; Some (IPv6Address n (Some scope)))
    | _ => None
    end.

(** [ipaddress.ip_address(s)]; [None] stands for the [ValueError].  An octet
    holds no slash. *)
Definition parse_ip_address (s : pystr) : option ip_address :=
  match parse_ipv4 s with
  | Some n => Some (IPv4Address n)
  | None => parse_ipv6 s
  end.

Definition hextets (n : Z) : list Z :=
  (λ i, n / 2 ^ (16 * i) mod 65536) <$> [7; 6; 5; 4; 3; 2; 1; 0].

(** The loop of [_compress_hextets]: where the first longest run of zeros
    starts and how long it is. *)
Fixpoint best_run (zeros : list bool) (index start len best_start best_len : nat) : nat * nat :=
  match zeros with
  | [] => (best_start, best_len)
  | true :: zeros' =>
      let len := S len in
      let start := if (len =? 1)%nat then index else start in
      if (best_len <? len)%nat then best_run zeros' (S index) start len start len
      else best_run zeros' (S index) start len best_start best_len
  | false :: zeros' => best_run zeros' (S index) 0 0 best_start best_len
  end.
Definition compress_parts (words : list pystr) (start len : nat) : list pystr :=
  (if (start =? 0)%nat then [[]] else []) ++ take start words ++ [[]] ++ drop (start + len) words
  ++ (if (start + len =? length words)%nat then [[]] else []).
Definition compress_hextets (words : list pystr) : list pystr :=
  let '(start, len) := best_run ((λ w, bool_decide (w = [48])) <$> words) 0 0 0 0 0 in
  if (1 <? len)%nat then compress_parts words start len else words.

(** [_string_from_ip_int] *)
Definition ipv6_int_str (n : Z) : pystr := str_join [colon] (compress_hextets (hextet_str <$> hextets n)).
Definition ipv6_str (n : Z) : pystr :=
  if Z.shiftr n 32 =? 65535 then ipv6_int_str (Z.shiftr n 32) ++ [colon] ++ ipv4_str (Z.land n (2 ^ 32 - 1))
  else ipv6_int_str n.
(** [str(address)] *)
Definition ip_str (a : ip_address) : pystr :=
  match a with
  | IPv4Address n => ipv4_str n
  | IPv6Address n None => ipv6_str n
  | IPv6Address n (Some scope) => ipv6_str n ++ [percent] ++ scope
  end.

(** The values of the classes. *)
Definition ip_ok (a : ip_address) : Prop :=
  match a with
  | IPv4Address n => 0 ≤ n < 2 ^ 32
  | IPv6Address n None => 0 ≤ n < 2 ^ 128
  | IPv6Address n (Some scope) => 0 ≤ n < 2 ^ 128 ∧ scope ≠ [] ∧ (percent ∉ scope) ∧ (slash ∉ scope)
  end.

Example ip_str_1 : ip_str (IPv6Address 1 None) = py "::1".
Proof. vm_compute. reflexivity. Qed.
Example ip_str_2 : ip_str (IPv6Address (2 ^ 125 + 2 ^ 64) None) = py "2000:0:0:1::".
Proof. vm_compute. reflexivity. Qed.
Example ip_str_3 : ip_str (IPv6Address (65535 * 2 ^ 32 + 2130706433) None) = py "::ffff:127.0.0.1".
Proof. vm_compute. reflexivity. Qed.
Example ip_parse_4 : parse_ip_address (py "1:2:0:0:5::8") = Some (IPv6Address 5192455314859856158613058300674056 None).
Proof. vm_compute. reflexivity. Qed.

(** ** Words *)

Lemma seqZ_forall n (f : Z → bool) : forallb f (seqZ 0 n) = true → ∀ z, 0 ≤ z < n → f z = true.
Proof. intros Hf z Hz. rewrite forallb_forall in Hf. apply Hf, list_elem_of_In, elem_of_seqZ. lia. Qed.

Definition hextet_word (s : pystr) : bool := negb (is_empty s) && forallb is_lower_hex s.
Lemma hex_digit_zero d : 0 ≤ d < 16 → (hex_digit d =? 48) = (d =? 0).
Proof. unfold hex_digit. intros Hd. apply eq_true_iff_eq. rewrite !Z.eqb_eq. destruct (d <? 10) eqn:E; lia. Qed.

Lemma hextet_str_ok h :
  0 ≤ h < 65536 →
  parse_hextet (hextet_str h) = Some h ∧ hextet_word (hextet_str h) = true ∧ (hextet_str h = [48] ↔ h = 0).
Proof.
  intros Hh. unfold hextet_str. change (hex_fixed 4 h) with [hex_digit (h / 16 / 16 / 16 mod 16);
    hex_digit (h / 16 / 16 mod 16); hex_digit (h / 16 mod 16); hex_digit (h mod 16)].
  assert (0 ≤ h / 16 / 16 / 16 mod 16 < 16 ∧ 0 ≤ h / 16 / 16 mod 16 < 16 ∧ 0 ≤ h / 16 mod 16 < 16 ∧
    0 ≤ h mod 16 < 16) as (H3 & H2 & H1 & H0) by (split_and!; apply Z.mod_pos_bound; lia).
  assert (h = ((h / 16 / 16 / 16 mod 16 * 16 + h / 16 / 16 mod 16) * 16 + h / 16 mod 16) * 16 + h mod 16) as Hsum.
  { pose proof (Z.div_mod h 16). pose proof (Z.div_mod (h / 16) 16). pose proof (Z.div_mod (h / 16 / 16) 16).
    rewrite (Z.mod_small (h / 16 / 16 / 16)); [lia|]. rewrite !Z.div_div by lia.
    split; [apply Z.div_pos; lia|apply Z.div_lt_upper_bound; lia]. }
  revert Hsum H3 H2 H1 H0. generalize (h / 16 / 16 / 16 mod 16) as d3, (h / 16 / 16 mod 16) as d2,
    (h / 16 mod 16) as d1, (h mod 16) as d0. intros d3 d2 d1 d0 -> H3 H2 H1 H0.
  cbn [lstrip]. rewrite !hex_digit_zero by done.
  destruct (Z.eqb_spec d3 0) as [->|Hd3]; [destruct (Z.eqb_spec d2 0) as [->|Hd2];
    [destruct (Z.eqb_spec d1 0) as [->|Hd1]; [destruct (Z.eqb_spec d0 0) as [->|Hd0]|]|]|]; [by vm_compute|..];
    unfold parse_hextet, hextet_word; cbn [mapM option_bind mbind option_ret mret is_empty forallb negb];
    rewrite ?hex_value_digit, ?hex_digit_lower_hex by done; cbn; (split_and!; [f_equal; lia|done|]);
    (split; [intros [=]|lia]).
  all: match goal with H : hex_digit _ = 48 |- _ => apply Z.eqb_eq in H; rewrite hex_digit_zero in H by done end; lia.
Qed.

Definition octet_word (s : pystr) : bool := negb (is_empty s) && forallb is_digit s.
Lemma octet_str_ok a : 0 ≤ a < 256 → parse_octet (str_of_Z a) = Some a ∧ octet_word (str_of_Z a) = true.
Proof.
  intros Ha.
  pose proof (seqZ_forall 256 (λ a, bool_decide (parse_octet (str_of_Z a) = Some a) && octet_word (str_of_Z a))) as Hall.
  cbv beta in Hall. specialize (Hall ltac:(vm_compute; reflexivity) a Ha).
  by rewrite andb_true_iff, bool_decide_eq_true in Hall.
Qed.

(** ** Hextets *)

Definition hextets_value (acc : Z) (hs : list Z) : Z := fold_left (λ acc h, acc * 65536 + h) hs acc.
Definition is_hextet (h : Z) : Prop := 0 ≤ h < 65536.

Lemma hextets_value_nonneg acc hs : 0 ≤ acc → Forall is_hextet hs → 0 ≤ hextets_value acc hs.
Proof.
  intros Hacc Hhs. revert acc Hacc. induction Hhs as [|h hs Hh _ IH]; intros acc Hacc; [done|].
  cbn. apply IH. unfold is_hextet in Hh. lia.
Qed.

Lemma append_hextets acc hs :
  0 ≤ acc → Forall is_hextet hs →
  fold_left append_hextet (hextet_str <$> hs) (Some acc) = Some (hextets_value acc hs).
Proof.
  intros Hacc Hhs. revert acc Hacc. induction Hhs as [|h hs Hh Hhs IH]; intros acc Hacc; [done|].
  cbn [fmap list_fmap fold_left]. assert (append_hextet (Some acc) (hextet_str h) = Some (acc * 65536 + h)) as ->.
  { unfold append_hextet. cbn [mbind option_bind]. rewrite (proj1 (hextet_str_ok h Hh)).
    cbn [mbind option_bind]. unfold is_hextet in Hh. by rewrite lor_shiftl by (cbn; lia). }
  rewrite IH; [done|]. unfold is_hextet in Hh. lia.
Qed.

Lemma shiftl_zeros acc k : Z.shiftl acc (16 * Z.of_nat k) = hextets_value acc (replicate k 0).
Proof.
  rewrite Z.shiftl_mul_pow2 by lia. revert acc. induction k as [|k IH]; intros acc; [cbn; lia|].
  cbn [replicate hextets_value fold_left]. unfold hextets_value in IH. rewrite <- IH.
  replace (16 * Z.of_nat (S k)) with (16 + 16 * Z.of_nat k) by lia. rewrite Z.pow_add_r by lia. lia.
Qed.

Lemma hextet_str_nonempty h : is_hextet h → ∃ c s, hextet_str h = c :: s.
Proof.
  intros (_ & Hw & _)%hextet_str_ok. destruct (hextet_str h) as [|c s]; [done|]. by exists c, s.
Qed.

#[local] Arguments append_hextet : simpl never.
#[local] Arguments hextet_str : simpl never.

Lemma parse_compressed hs start len :
  length hs = 8%nat → Forall is_hextet hs → (1 < len)%nat → (start + len ≤ 8)%nat →
  take len (drop start hs) = replicate len 0 →
  parse_parts (compress_parts (hextet_str <$> hs) start len) = Some (hextets_value 0 hs).
Proof.
  intros Hlen Hhs Hl Hsl Hz.
  assert (parse_parts (compress_parts (hextet_str <$> hs) start len) =
    high ← fold_left append_hextet (hextet_str <$> take start hs) (Some 0);
    fold_left append_hextet (hextet_str <$> drop (start + len) hs) (Some (Z.shiftl high (16 * Z.of_nat len)))) as ->.
  { destruct hs as [|h0 [|h1 [|h2 [|h3 [|h4 [|h5 [|h6 [|h7 [|]]]]]]]]]; try discriminate Hlen. clear Hz Hlen.
    rewrite !Forall_cons in Hhs. destruct Hhs as (H0 & H1 & H2 & H3 & H4 & H5 & H6 & H7 & _).
    cbn [fmap list_fmap].
    destruct (hextet_str_nonempty h0 H0) as (c0 & s0 & E0), (hextet_str_nonempty h1 H1) as (c1 & s1 & E1),
      (hextet_str_nonempty h2 H2) as (c2 & s2 & E2), (hextet_str_nonempty h3 H3) as (c3 & s3 & E3),
      (hextet_str_nonempty h4 H4) as (c4 & s4 & E4), (hextet_str_nonempty h5 H5) as (c5 & s5 & E5),
      (hextet_str_nonempty h6 H6) as (c6 & s6 & E6), (hextet_str_nonempty h7 H7) as (c7 & s7 & E7).
    rewrite E0, E1, E2, E3, E4, E5, E6, E7.
    do 7 (destruct start as [|start]; [do 9 (destruct len as [|len]; [try lia; cbn; rewrite ?E0, ?E1, ?E2, ?E3, ?E4, ?E5, ?E6, ?E7; reflexivity|]); lia|]).
    lia. }
  assert (Forall is_hextet (take start hs) ∧ Forall is_hextet (drop (start + len) hs)) as [Ht Hd]
    by (split; [by apply Forall_take|by apply Forall_drop]).
  rewrite append_hextets by (done || lia). cbn [mbind option_bind].
  rewrite shiftl_zeros, append_hextets; [| |done].
  - unfold hextets_value. rewrite <- !fold_left_app. do 2 f_equal. rewrite <- Hz.
    by rewrite <- drop_drop, take_drop, take_drop.
  - apply hextets_value_nonneg; [apply hextets_value_nonneg; [lia|done]|].
    apply Forall_replicate. unfold is_hextet. lia.
Qed.

Lemma best_run_ok zeros :
  length zeros = 8%nat →
  let '(start, len) := best_run zeros 0 0 0 0 0 in
  (1 < len)%nat → (start + len ≤ 8)%nat ∧ take len (drop start zeros) = replicate len true.
Proof.
  intros Hlen. destruct zeros as [|b0 [|b1 [|b2 [|b3 [|b4 [|b5 [|b6 [|b7 [|]]]]]]]]]; try discriminate Hlen.
  clear Hlen. destruct b0, b1, b2, b3, b4, b5, b6, b7; vm_compute; (intros ?; split; [lia|reflexivity]).
Qed.

Lemma zeros_hextets hs : Forall is_hextet hs →
  (λ w, bool_decide (w = [48])) <$> (hextet_str <$> hs) = (λ h, bool_decide (h = 0)) <$> hs.
Proof.
  induction 1 as [|h hs Hh _ IH]; [done|]. cbn. f_equal; [|exact IH].
  apply bool_decide_ext, hextet_str_ok, Hh.
Qed.

Lemma parse_hextet_parts hs :
  length hs = 8%nat → Forall is_hextet hs →
  parse_parts (compress_hextets (hextet_str <$> hs)) = Some (hextets_value 0 hs).
Proof.
  intros Hlen Hhs. unfold compress_hextets. rewrite zeros_hextets by done.
  pose proof (best_run_ok ((λ h, bool_decide (h = 0)) <$> hs)) as Hrun. rewrite length_fmap in Hrun.
  specialize (Hrun Hlen). destruct (best_run _ 0 0 0 0 0) as [start len].
  destruct (Nat.ltb_spec 1 len) as [Hl|_].
  - destruct (Hrun Hl) as [Hsl Hz]. apply parse_compressed; try done.
    rewrite <- fmap_drop, <- fmap_take in Hz. clear -Hz.
    revert Hz. generalize (take len (drop start hs)) as l. clear. intros l. revert len.
    induction l as [|h l IH]; intros [|len] Hz; try discriminate Hz; [done|]. cbn in *.
    injection Hz as Hh%bool_decide_eq_true Hz. f_equal; [done|]. by apply IH.
  - clear Hrun. rewrite <- append_hextets by (done || lia).
    destruct hs as [|h0 [|h1 [|h2 [|h3 [|h4 [|h5 [|h6 [|h7 [|]]]]]]]]]; try discriminate Hlen.
    rewrite !Forall_cons in Hhs. destruct Hhs as (H0 & H1 & H2 & H3 & H4 & H5 & H6 & H7 & _).
    cbn [fmap list_fmap].
    destruct (hextet_str_nonempty h0 H0) as (c0 & s0 & E0), (hextet_str_nonempty h1 H1) as (c1 & s1 & E1),
      (hextet_str_nonempty h2 H2) as (c2 & s2 & E2), (hextet_str_nonempty h3 H3) as (c3 & s3 & E3),
      (hextet_str_nonempty h4 H4) as (c4 & s4 & E4), (hextet_str_nonempty h5 H5) as (c5 & s5 & E5),
      (hextet_str_nonempty h6 H6) as (c6 & s6 & E6), (hextet_str_nonempty h7 H7) as (c7 & s7 & E7).
    rewrite E0, E1, E2, E3, E4, E5, E6, E7. reflexivity.
Qed.

(** ** The text of an address *)

(** A word of hexadecimal digits, or nothing. *)
Definition hex_word (s : pystr) : Prop := Forall (λ c, is_lower_hex c = true) s.

Lemma hex_word_no c s : is_lower_hex c = false → hex_word s → c ∉ s.
Proof. unfold hex_word. intros Hc Hs Hin. rewrite Forall_forall in Hs. specialize (Hs _ Hin). congruence. Qed.

Lemma hextet_words hs : Forall is_hextet hs → Forall hex_word (hextet_str <$> hs).
Proof.
  intros Hhs. apply Forall_fmap. eapply Forall_impl; [exact Hhs|]. intros h (_ & Hw & _)%hextet_str_ok.
  apply andb_true_iff in Hw as [_ Hw]. by apply forallb_Forall.
Qed.

Lemma compressed_words words : Forall hex_word words → Forall hex_word (compress_hextets words).
Proof.
  intros Hw. unfold compress_hextets, compress_parts. destruct (best_run _ 0 0 0 0 0) as [start len].
  case_match; [|done]. repeat apply Forall_app_2; try (case_match; by repeat constructor).
  - by apply Forall_take.
  - by repeat constructor.
  - by apply Forall_drop.
Qed.

Lemma str_contains_elem c s : str_contains c s = true ↔ c ∈ s.
Proof.
  unfold str_contains. rewrite existsb_exists. setoid_rewrite Z.eqb_eq. split.
  - intros (x & Hx & ->). by apply list_elem_of_In.
  - intros Hc. exists c. split; [by apply list_elem_of_In|done].
Qed.

Lemma parse_ipv6_int_join parts v :
  Forall hex_word parts → parse_parts parts = Some v → parse_ipv6_int (str_join [colon] parts) = Some v.
Proof.
  intros Hw Hp. unfold parse_ipv6_int.
  assert ((length parts <? 3)%nat = false) as Hlen.
  { unfold parse_parts in Hp. by destruct (length parts <? 3)%nat. }
  rewrite str_split_join.
  2:{ by intros ->. }
  2:{ eapply Forall_impl; [exact Hw|]. intros s. by apply hex_word_no. }
  rewrite Hlen. unfold replace_dotted. destruct (str_contains dot (last_part parts)) eqn:E; [exfalso|done].
  apply str_contains_elem in E. unfold last_part in E. destruct (last parts) as [s|] eqn:El; [|set_solver].
  cbn in E. revert E. apply hex_word_no; [done|]. apply last_Some in El as [l ->].
  apply Forall_app in Hw as [_ Hw]. by apply Forall_cons in Hw as [? _].
Qed.

Lemma hextets_shape n : length (hextets n) = 8%nat ∧ Forall is_hextet (hextets n).
Proof.
  split; [done|]. unfold hextets. apply Forall_fmap, Forall_forall. intros i _. cbn. apply Z.mod_pos_bound. lia.
Qed.

(** Digits of base [2 ^ k]. *)
Lemma div_step n a b k : 0 ≤ a → 0 ≤ k → b = a + k → n / 2 ^ b * 2 ^ k + n / 2 ^ a mod 2 ^ k = n / 2 ^ a.
Proof.
  intros Ha Hk ->. rewrite Z.pow_add_r, <- Z.div_div by lia.
  pose proof (Z.div_mod (n / 2 ^ a) (2 ^ k)). lia.
Qed.
Lemma div_top n a b k : 0 ≤ n < 2 ^ b → 0 ≤ a → 0 ≤ k → b = a + k → n / 2 ^ a mod 2 ^ k = n / 2 ^ a.
Proof.
  intros Hn Ha Hk ->. rewrite Z.pow_add_r in Hn by lia. apply Z.mod_small.
  split; [apply Z.div_pos; lia|apply Z.div_lt_upper_bound; lia].
Qed.

Lemma hextets_value_of n : 0 ≤ n < 2 ^ 128 → hextets_value 0 (hextets n) = n.
Proof.
  intros Hn. unfold hextets_value, hextets. cbn [fmap list_fmap fold_left].
  change 65536 with (2 ^ 16).
  rewrite Z.mul_0_l, Z.add_0_l, (div_top n (16 * 7) 128 16), !div_step by lia. apply Z.div_1_r.
Qed.

Lemma parse_ipv6_int_str n : 0 ≤ n < 2 ^ 128 → parse_ipv6_int (ipv6_int_str n) = Some n.
Proof.
  intros Hn. destruct (hextets_shape n) as [Hlen Hhs]. apply parse_ipv6_int_join.
  - by apply compressed_words, hextet_words.
  - rewrite parse_hextet_parts by done. by rewrite hextets_value_of.
Qed.

Lemma ipv4_octets n : 0 ≤ n < 2 ^ 32 →
  Forall (λ a, 0 ≤ a < 256) [n / 2 ^ 24 mod 256; n / 2 ^ 16 mod 256; n / 2 ^ 8 mod 256; n mod 256] ∧
  ((n / 2 ^ 24 mod 256 * 256 + n / 2 ^ 16 mod 256) * 256 + n / 2 ^ 8 mod 256) * 256 + n mod 256 = n.
Proof.
  intros Hn. split; [repeat constructor; apply Z.mod_pos_bound; lia|].
  change 256 with (2 ^ 8). rewrite (div_top n 24 32 8), (div_step n 16 24 8), (div_step n 8 16 8) by lia.
  replace (n mod 2 ^ 8) with (n / 2 ^ 0 mod 2 ^ 8) by by rewrite Z.div_1_r.
  rewrite div_step by lia. apply Z.div_1_r.
Qed.

Lemma octet_words ns : Forall (λ a, 0 ≤ a < 256) ns → Forall (Forall (λ c, is_digit c = true)) (str_of_Z <$> ns).
Proof.
  intros Hns. apply Forall_fmap. eapply Forall_impl; [exact Hns|]. intros a (_ & Hw)%octet_str_ok.
  apply andb_true_iff in Hw as [_ Hw]. by apply forallb_Forall.
Qed.

Lemma digits_no c (s : pystr) : is_digit c = false → Forall (λ c, is_digit c = true) s → c ∉ s.
Proof. intros Hc Hs Hin. rewrite Forall_forall in Hs. specialize (Hs _ Hin). congruence. Qed.

Lemma parse_ipv4_str n : 0 ≤ n < 2 ^ 32 → parse_ipv4 (ipv4_str n) = Some n.
Proof.
  intros Hn. destruct (ipv4_octets n Hn) as [Hoct Hval]. unfold parse_ipv4, ipv4_str.
  rewrite str_split_join; [|done|].
  2:{ eapply Forall_impl; [by apply octet_words|]. intros s. by apply digits_no. }
  rewrite !Forall_cons in Hoct. destruct Hoct as (H3 & H2 & H1 & H0 & _).
  cbn [fmap list_fmap mapM mbind option_bind].
  rewrite (proj1 (octet_str_ok _ H3)), (proj1 (octet_str_ok _ H2)), (proj1 (octet_str_ok _ H1)), (proj1 (octet_str_ok _ H0)).
  cbn [mbind option_bind mret option_ret]. by rewrite Hval.
Qed.

(** The characters of a printed address. *)
Lemma str_join_Forall (P : Z → Prop) sep ws : P sep → Forall (Forall P) ws → Forall P (str_join [sep] ws).
Proof.
  intros Hsep. induction 1 as [|w ws Hw Hws IH]; [constructor|]. destruct ws as [|w' ws]; [done|].
  change (Forall P (w ++ [sep] ++ str_join [sep] (w' :: ws))). auto with mdm.
Qed.

Lemma ipv4_str_chars n : 0 ≤ n < 2 ^ 32 → Forall (λ c, is_digit c = true ∨ c = dot) (ipv4_str n).
Proof.
  intros Hn. apply str_join_Forall; [by right|]. destruct (ipv4_octets n Hn) as [Hoct _].
  eapply Forall_impl; [by apply octet_words|]. intros s Hs. eapply Forall_impl; [exact Hs|]. auto.
Qed.

Lemma ipv6_int_str_chars n : Forall (λ c, is_lower_hex c = true ∨ c = colon) (ipv6_int_str n).
Proof.
  apply str_join_Forall; [by right|]. eapply Forall_impl; [by apply compressed_words, hextet_words, hextets_shape|].
  intros s Hs. eapply Forall_impl; [exact Hs|]. auto.
Qed.

Definition ip_char (c : Z) : Prop := is_lower_hex c = true ∨ c = colon ∨ c = dot.
Lemma ip_char_range c : ip_char c → 46 ≤ c ≤ 58 ∧ c ≠ 47 ∨ 97 ≤ c ≤ 102.
Proof. unfold ip_char, is_lower_hex, is_digit, in_range, colon, dot. lia. Qed.

Lemma land_ones_32 n : Z.land n (2 ^ 32 - 1) = n mod 2 ^ 32.
Proof. replace (2 ^ 32 - 1) with (Z.ones 32) by done. apply Z.land_ones. lia. Qed.

Lemma ipv6_str_chars n : 0 ≤ n < 2 ^ 128 → Forall ip_char (ipv6_str n).
Proof.
  intros Hn. unfold ipv6_str, ip_char. assert (∀ m, Forall ip_char (ipv6_int_str m)) as Hint.
  { intros m. eapply Forall_impl; [apply ipv6_int_str_chars|]. unfold ip_char. tauto. }
  case_match; [|apply Hint]. apply Forall_app_2; [apply Hint|].
  apply Forall_app_2; [apply Forall_singleton; auto|]. rewrite land_ones_32.
  eapply Forall_impl; [apply ipv4_str_chars, Z.mod_pos_bound; lia|].
  unfold is_lower_hex. intros c [Hc| ->]; [left; by rewrite Hc|auto].
Qed.

Lemma parse_ipv6_int_mapped n :
  0 ≤ n < 2 ^ 128 → Z.shiftr n 32 = 65535 → parse_ipv6_int (ipv6_str n) = Some n.
Proof.
  intros Hn Hm. unfold ipv6_str. rewrite Hm, Z.eqb_refl, land_ones_32.
  set (m := n mod 2 ^ 32). assert (0 ≤ m < 2 ^ 32) as Hm' by (apply Z.mod_pos_bound; lia).
  change (ipv6_int_str 65535) with (py "::ffff"). unfold parse_ipv6_int.
  assert (str_split colon (py "::ffff" ++ [colon] ++ ipv4_str m) = [[]; []; py "ffff"; ipv4_str m]) as ->.
  { assert (colon ∉ ipv4_str m) as Hc.
    { intros Hin. pose proof (ipv4_str_chars m Hm') as Hall. rewrite Forall_forall in Hall.
      by destruct (Hall _ Hin). }
    change (py "::ffff" ++ [colon] ++ ipv4_str m) with
      ([] ++ colon :: ([] ++ colon :: (py "ffff" ++ colon :: ipv4_str m))).
    rewrite !str_split_app by (apply (bool_decide_unpack _); vm_compute; exact I). by rewrite str_split_word. }
  cbn [length Nat.ltb Nat.leb]. unfold replace_dotted, last_part. cbn [last from_option id removelast app].
  assert (str_contains dot (ipv4_str m) = true) as ->.
  { apply str_contains_elem. unfold ipv4_str. cbn [fmap list_fmap str_join]. set_solver. }
  rewrite parse_ipv4_str by done. cbn [mbind option_bind].
  assert (is_hextet (m / 2 ^ 16) ∧ is_hextet (m mod 2 ^ 16)) as [Ha Hb].
  { split; [split; [apply Z.div_pos; lia|apply Z.div_lt_upper_bound; lia]|apply Z.mod_pos_bound; lia]. }
  destruct (hextet_str_nonempty _ Ha) as (c & s & E), (hextet_str_nonempty _ Hb) as (c' & s' & E').
  assert (parse_parts [[]; []; py "ffff"; hextet_str (m / 2 ^ 16); hextet_str (m mod 2 ^ 16)] =
    fold_left append_hextet (hextet_str <$> [65535; m / 2 ^ 16; m mod 2 ^ 16]) (Some 0)) as ->.
  { cbn [fmap list_fmap]. rewrite E, E'. reflexivity. }
  assert (is_hextet 65535) by (unfold is_hextet; lia).
  rewrite append_hextets; [|lia|auto with mdm].
  unfold hextets_value. cbn [fold_left]. f_equal.
  rewrite Z.shiftr_div_pow2 in Hm by lia. pose proof (Z.div_mod n (2 ^ 32)). pose proof (Z.div_mod m (2 ^ 16)).
  fold m in H0. change (2 ^ 16) with 65536 in *. change (2 ^ 32) with 4294967296 in *. lia.
Qed.

Lemma parse_ipv6_str n : 0 ≤ n < 2 ^ 128 → parse_ipv6_int (ipv6_str n) = Some n.
Proof.
  intros Hn. destruct (Z.eqb_spec (Z.shiftr n 32) 65535) as [Hm|Hm]; [by apply parse_ipv6_int_mapped|].
  unfold ipv6_str. rewrite (proj2 (Z.eqb_neq _ _) Hm). by apply parse_ipv6_int_str.
Qed.

(** An IPv4 address holds no colon, a printed IPv6 address does. *)
Lemma mapM_Some_Forall {A B} (f : A → option B) l k : mapM f l = Some k → Forall (λ x, is_Some (f x)) l.
Proof. intros Hm%mapM_Some. induction Hm; constructor; [by eexists|done]. Qed.

Lemma str_split_elem sep c (s : pystr) : c ∈ s → c ≠ sep → ∃ w, w ∈ str_split sep s ∧ c ∈ w.
Proof.
  induction s as [|d s IH]; [set_solver|]. intros [->|Hc]%elem_of_cons Hne; cbn.
  - rewrite (proj2 (Z.eqb_neq d sep)) by done. destruct (str_split sep s) as [|w ws]; eexists; (split; [by left|by left]).
  - destruct (IH Hc Hne) as (w & Hw & Hcw). destruct (d =? sep); [exists w; split; [by right|done]|].
    destruct (str_split sep s) as [|w' ws]; [set_solver|]. apply elem_of_cons in Hw as [->|Hw].
    + exists (d :: w'). split; [by left|by right].
    + exists w. split; [by right|done].
Qed.

Lemma parse_ipv4_colon s : colon ∈ s → parse_ipv4 s = None.
Proof.
  intros Hc. unfold parse_ipv4. destruct (mapM parse_octet (str_split dot s)) as [octets|] eqn:E; [exfalso|done].
  apply mapM_Some_Forall in E. destruct (str_split_elem dot colon s Hc) as (w & Hw & Hcw); [done|].
  rewrite Forall_forall in E. destruct (E w Hw) as [n Hn]. unfold parse_octet in Hn.
  assert (forallb is_digit w = true) as Hd by (destruct (forallb is_digit w); [done|]; by rewrite !andb_false_r in Hn).
  rewrite forallb_forall in Hd. apply list_elem_of_In in Hcw. by specialize (Hd _ Hcw).
Qed.

Lemma ipv6_str_colon n : 0 ≤ n < 2 ^ 128 → colon ∈ ipv6_str n.
Proof.
  intros Hn. destruct (decide (colon ∈ ipv6_str n)) as [|Hno]; [done|exfalso].
  pose proof (parse_ipv6_str n Hn) as Hp. unfold parse_ipv6_int in Hp.
  by rewrite str_split_word in Hp.
Qed.

Lemma ip_char_no n c : 0 ≤ n < 2 ^ 128 → c = percent ∨ c = slash → c ∉ ipv6_str n.
Proof.
  intros Hn Hc Hin. pose proof (ipv6_str_chars n Hn) as Hall. rewrite Forall_forall in Hall.
  apply Hall, ip_char_range in Hin. unfold percent, slash in Hc. lia.
Qed.

(** What is printed parses back. *)
Lemma parse_ip_str a : ip_ok a → parse_ip_address (ip_str a) = Some a.
Proof.
  intros Ha. unfold parse_ip_address. destruct a as [n|n [scope|]]; cbn [ip_str ip_ok] in *.
  - by rewrite parse_ipv4_str.
  - destruct Ha as (Hn & Hscope & Hp & Hs).
    rewrite parse_ipv4_colon by (apply elem_of_app; left; by apply ipv6_str_colon). unfold parse_ipv6.
    assert (str_contains slash (ipv6_str n ++ [percent] ++ scope) = false) as ->.
    { apply not_true_is_false. rewrite str_contains_elem, !elem_of_app, list_elem_of_singleton.
      intros [Hin|[Hin|Hin]]; [|done|done]. revert Hin. apply ip_char_no; auto. }
    cbn [app]. rewrite str_split_app by (apply ip_char_no; auto). rewrite str_split_word by done.
    destruct scope as [|c scope]; [done|]. cbn [is_empty]. by rewrite parse_ipv6_str.
  - rewrite parse_ipv4_colon by by apply ipv6_str_colon. unfold parse_ipv6.
    assert (str_contains slash (ipv6_str n) = false) as ->.
    { apply not_true_is_false. rewrite str_contains_elem. apply ip_char_no; auto. }
    rewrite str_split_word by (apply ip_char_no; auto). by rewrite parse_ipv6_str.
Qed.

Lemma ip_str_inj a b : ip_ok a → ip_ok b → ip_str a = ip_str b → a = b.
Proof. intros Ha Hb He. apply (f_equal parse_ip_address) in He. rewrite !parse_ip_str in He by done. congruence. Qed.

(** ** Parsed addresses are in range *)

Lemma append_hextet_range acc k s v :
  0 ≤ acc < 2 ^ (16 * Z.of_nat k) → append_hextet (Some acc) s = Some v → 0 ≤ v < 2 ^ (16 * Z.of_nat (S k)).
Proof.
  intros Hacc. unfold append_hextet. cbn [mbind option_bind]. intros (h & Hh & [= <-])%bind_Some.
  assert (0 ≤ h < 2 ^ 16) as Hr.
  { unfold parse_hextet in Hh. apply bind_Some in Hh as (ds & Hds & Hh). case_match eqn:E; [|done]. injection Hh as <-.
    apply andb_true_iff in E as [_ E%Nat.leb_le].
    assert (Forall (λ d, 0 ≤ d < 16) ds) as Hd.
    { apply mapM_Some in Hds. clear E. induction Hds as [|c d s ds Hc _ IH]; constructor; [|done].
      unfold hex_value, in_range in Hc. repeat case_match; naive_solver lia. }
    apply mapM_Some, Forall2_length in Hds. rewrite Hds in E. clear Hds.
    destruct Hd as [|d0 ? H0 [|d1 ? H1 [|d2 ? H2 [|d3 ? H3 [|]]]]]; cbn in *; lia. }
  rewrite lor_shiftl by (done || lia). replace (16 * Z.of_nat (S k)) with (16 * Z.of_nat k + 16) by lia.
  rewrite Z.pow_add_r by lia. nia.
Qed.

Lemma append_hextets_range l : ∀ acc k v,
  0 ≤ acc < 2 ^ (16 * Z.of_nat k) → fold_left append_hextet l (Some acc) = Some v →
  0 ≤ v < 2 ^ (16 * Z.of_nat (length l + k)).
Proof.
  assert (∀ m, fold_left append_hextet m None = None) as Hnone by (intros m; induction m as [|s m IH]; [done|exact IH]).
  induction l as [|s l IH]; intros acc k v Hacc Hv; [by injection Hv as <-|]. cbn [fold_left] in Hv.
  destruct (append_hextet (Some acc) s) as [acc'|] eqn:E; [|by rewrite Hnone in Hv].
  apply (append_hextet_range _ k) in E; [|done]. replace (length (s :: l) + k)%nat with (length l + S k)%nat by (cbn; lia).
  by eapply IH.
Qed.

Lemma parse_parts_range parts v : parse_parts parts = Some v → 0 ≤ v < 2 ^ 128.
Proof.
  unfold parse_parts. case_match; [done|]. destruct (skip_indices parts) as [|i [|]]; [| |done].
  - case_match eqn:E; [done|]. intros Hv. apply (append_hextets_range _ 0 0) in Hv; [|cbn; lia].
    apply orb_false_iff in E as [[E%negb_false_iff%Nat.eqb_eq _]%orb_false_iff _]. rewrite E in Hv. exact Hv.
  - cbv zeta. set (hi := if is_empty (nth 0 parts []) then (i - 1)%nat else i).
    set (lo := if is_empty (last_part parts) then _ else _).
    do 2 (case_match; [done|]). destruct (Nat.ltb_spec (8 - (hi + lo)) 1) as [|Hk]; [done|].
    intros (high & Hhigh & Hv)%bind_Some. apply (append_hextets_range _ 0 0) in Hhigh; [|cbn; lia].
    assert (length (take hi parts) ≤ hi)%nat as Hth by (rewrite length_take; lia).
    assert (length (drop (length parts - lo) parts) ≤ lo)%nat as Hdl by (rewrite length_drop; lia).
    assert (0 ≤ Z.shiftl high (16 * Z.of_nat (8 - (hi + lo))) < 2 ^ (16 * Z.of_nat (hi + (8 - (hi + lo))))) as Hs.
    { rewrite Z.shiftl_mul_pow2 by lia. rewrite Nat2Z.inj_add, Z.mul_add_distr_l, Z.pow_add_r by lia.
      assert (high < 2 ^ (16 * Z.of_nat hi)).
      { eapply Z.lt_le_trans; [apply Hhigh|]. apply Z.pow_le_mono_r; lia. }
      split; [apply Z.mul_nonneg_nonneg; [lia|apply Z.pow_nonneg; lia]|].
      apply Z.mul_lt_mono_pos_r; [apply Z.pow_pos_nonneg; lia|done]. }
    apply (append_hextets_range _ _ _ _ Hs) in Hv. split; [lia|]. eapply Z.lt_le_trans; [apply Hv|].
    apply Z.pow_le_mono_r; lia.
Qed.

Lemma parse_ipv4_range s v : parse_ipv4 s = Some v → 0 ≤ v < 2 ^ 32.
Proof.
  unfold parse_ipv4. intros (ns & Hns & Hv)%bind_Some.
  assert (Forall (λ n, 0 ≤ n ≤ 255) ns) as Hr.
  { apply mapM_Some in Hns. clear Hv. induction Hns as [|w n ws ns Hw _ IH]; constructor; [|done].
    unfold parse_octet in Hw. case_match eqn:E; [|done]. injection Hw as <-.
    apply andb_true_iff in E as [E Hle%Z.leb_le]. split; [|done].
    apply andb_true_iff in E as [[_ Hd]%andb_true_iff _]. unfold decimal_value.
    assert (∀ acc, 0 ≤ acc → 0 ≤ fold_left (λ acc c, 10 * acc + (c - 48)) w acc) as H; [|by apply H].
    apply forallb_Forall in Hd. clear -Hd. induction Hd as [|c w Hc _ IH]; intros acc Hacc; [done|].
    cbn. apply IH. unfold is_digit, in_range in Hc. lia. }
  destruct ns as [|a [|b [|c [|d [|]]]]]; try done. injection Hv as <-.
  rewrite !Forall_cons in Hr. destruct Hr as (? & ? & ? & ? & _). lia.
Qed.

Lemma parse_ip_ok s a : parse_ip_address s = Some a → percent ∉ s → ip_ok a ∧ ∀ n scope, a = IPv6Address n scope → scope = None.
Proof.
  unfold parse_ip_address. destruct (parse_ipv4 s) as [n|] eqn:E.
  - intros [= <-] _. split; [by apply parse_ipv4_range in E|done].
  - unfold parse_ipv6. intros Ha Hp. case_match; [done|]. rewrite str_split_word in Ha by done.
    apply bind_Some in Ha as (n & Hn & [= <-]). split; [|by intros ? ? [= _ <-]].
    unfold parse_ipv6_int in Hn. case_match; [done|]. apply bind_Some in Hn as (parts & _ & Hn). by apply parse_parts_range in Hn.
Qed.
