(* ===== verification/Origins.v ===== *)
(** * Browser origins
    ([src/src/mdm/application/origins.py], [src/src/mdm/application/browser_policy.py])

    An origin is compared in a canonical form: scheme, host and explicit port.
    The parsing is [urllib.parse.urlsplit] of Python 3.13, for the values that
    pass the program's first test: ASCII without spaces, control characters and
    any of [\ % ? # , @], so that there is no user, query or fragment. *)

From S2P Require Import Prelude Python Exceptions Uuids Auth IpAddresses.
Local Open Scope Z_scope.

Definition open_bracket : Z := 91.
Definition close_bracket : Z := 93.

(** ** [urlsplit] *)

(** [s.partition(ch)]; without the separator there is no second part. *)
Fixpoint partition (ch : Z) (s : pystr) : pystr * option pystr :=
  match s with
  | [] => ([], None)
  | c :: s' => if c =? ch then ([], Some s') else let '(before, after) := partition ch s' in (c :: before, after)
  end.
Definition after_or_empty (p : pystr * option pystr) : pystr := from_option id [] p.2.

Definition is_alpha (c : Z) : bool := in_range 65 90 c || in_range 97 122 c.
Definition scheme_char (c : Z) : bool := is_alpha c || is_digit c || str_contains c (py "+-.").

(** [_splitnetloc] *)
Fixpoint split_netloc (s : pystr) : pystr * pystr :=
  match s with
  | [] => ([], [])
  | c :: s' =>
      if str_contains c (py "/?#") then ([], s)
      else let '(netloc, rest) := split_netloc s' in (c :: netloc, rest)
  end.

(** [_check_bracketed_host] *)
Definition check_bracketed_host (hostname : pystr) : res unit :=
  match hostname with
  | 118 :: version =>
      let '(digits, address) := partition dot version in
      raise_if (is_empty digits || negb (forallb (λ c, present (hex_value c)) digits)
                || match address with Some (_ :: _) => false | _ => true end)
        (ValueError "IPvFuture address is invalid")
  | _ =>
      match parse_ip_address hostname with
      | None => Raise (ValueError "not an IPv4 or IPv6 address")
      | Some (IPv4Address _) => Raise (ValueError "An IPv4 address cannot be in brackets")
      | Some (IPv6Address _ _) => Ok tt
      end
  end.
(** [_check_bracketed_netloc] *)
Definition check_bracketed_netloc (netloc : pystr) : res unit :=
  match partition open_bracket netloc with
  | (before, Some bracketed) =>
      _ ← raise_if (negb (is_empty before)) (ValueError "Invalid IPv6 URL");
      let '(hostname, port) := partition close_bracket bracketed in
      _ ← raise_if (match port with Some (c :: _) => negb (c =? colon) | _ => false end)
            (ValueError "Invalid IPv6 URL");
      check_bracketed_host hostname
  | (before, None) => check_bracketed_host (partition colon before).1
  end.

(** What precedes the first colon, when it can be a scheme, in lower case. *)
Definition split_scheme (url : pystr) : pystr * pystr :=
  match partition colon url with
  | (c :: before, Some after) =>
      if is_alpha c && forallb scheme_char (c :: before) then (ascii_lower <$> c :: before, after) else ([], url)
  | _ => ([], url)
  end.
(** The scheme, the network location and the path. *)
Definition urlsplit (url : pystr) : res (pystr * pystr * pystr) :=
  let '(scheme, rest) := split_scheme url in
  match strip_prefix (py "//") rest with
  | Some location =>
      let '(netloc, path) := split_netloc location in
      let opens := str_contains open_bracket netloc in
      let closes := str_contains close_bracket netloc in
      _ ← raise_if (negb (Bool.eqb opens closes)) (ValueError "Invalid IPv6 URL");
      _ ← (if opens && closes then check_bracketed_netloc netloc else Ok tt);
      Ok (scheme, netloc, path)
  | None => Ok (scheme, [], rest)
  end.

(** [_hostinfo]: the host and the text of the port. *)
Definition hostinfo (netloc : pystr) : pystr * pystr :=
  match partition open_bracket netloc with
  | (_, Some bracketed) =>
      let p := partition close_bracket bracketed in
      (p.1, after_or_empty (partition colon (after_or_empty p)))
  | (_, None) => let p := partition colon netloc in (p.1, after_or_empty p)
  end.
(** The property [hostname], empty for [None]. *)
Definition hostname (netloc : pystr) : pystr := ascii_lower <$> (hostinfo netloc).1.
(** The property [port]. *)
Definition port (netloc : pystr) : res (option Z) :=
  match (hostinfo netloc).2 with
  | [] => Ok None
  | text =>
      if forallb is_digit text then
        if decimal_value text <=? 65535 then Ok (Some (decimal_value text))
        else Raise (ValueError "Port out of range 0-65535")
      else Raise (ValueError "Port could not be cast to integer value")
  end.

(** ** [canonical_origin] *)

Definition lower_alnum (c : Z) : bool := in_range 97 122 c || is_digit c.
(** [_DNS_LABEL.fullmatch] *)
Definition dns_label (s : pystr) : bool :=
  (1 <=? length s)%nat && (length s <=? 63)%nat && forallb (λ c, lower_alnum c || (c =? dash)) s
  && from_option lower_alnum false (head s) && from_option lower_alnum false (last s).
Definition removesuffix (suffix s : pystr) : pystr :=
  if endswith suffix s then take (length s - length suffix) s else s.

(** The first test of [canonical_origin]. *)
Definition origin_char (c : Z) : bool :=
  is_ascii c && negb (c <=? 32) && negb (c =? 127) && negb (str_contains c (py "\%?#,@")).

Definition origin_error : exn := ValueError "expected one HTTP(S) origin".
Definition HTTP : pystr := py "http".
Definition HTTPS : pystr := py "https".

(** The host as it is written in the canonical form. *)
Definition canonical_host (host : pystr) : res pystr :=
  match parse_ip_address host with
  | Some (IPv6Address _ _ as address) => Ok ([open_bracket] ++ ip_str address ++ [close_bracket])
  | Some (IPv4Address _ as address) => Ok (ip_str address)
  | None =>
      _ ← raise_if ((254 <? length host)%nat
                    || negb (forallb dns_label (str_split dot (removesuffix [dot] host)))) origin_error;
      Ok host
  end.

Definition canonical_origin (value : pystr) : res pystr :=
  _ ← raise_if (is_empty value || negb (forallb origin_char value)) origin_error;
  '((scheme, netloc, path), port) ←
    catch ('(scheme, netloc, path) ← urlsplit value; port ← port netloc; Ok ((scheme, netloc, path), port))
      (λ e, match e with ValueError _ => Raise origin_error | _ => Raise e end);
  let host := hostname netloc in
  _ ← raise_if (negb (bool_decide (scheme = HTTP) || bool_decide (scheme = HTTPS)) || is_empty host
                || negb (is_empty path) || endswith [colon] netloc
                || match port with Some p => negb ((1 <=? p) && (p <=? 65535)) | None => false end) origin_error;
  host ← canonical_host host;
  let port := match port with Some p => p | None => if bool_decide (scheme = HTTPS) then 443 else 80 end in
  Ok (scheme ++ py "://" ++ host ++ [colon] ++ str_of_Z port).

(** ** [BrowserProtectionPolicy] *)

Record BrowserProtectionPolicy := mkBrowserProtectionPolicy {
  allowed_origins : list pystr;
  allow_insecure_local_cookies : bool;
}.
(** [urlsplit(value).scheme] and [.hostname] of a canonical origin. *)
Definition origin_scheme (origin : pystr) : res pystr := '(scheme, _, _) ← urlsplit origin; Ok scheme.
Definition origin_hostname (origin : pystr) : res pystr := '(_, netloc, _) ← urlsplit origin; Ok (hostname netloc).

(** [BrowserProtectionPolicy.__post_init__] *)
Definition BrowserProtectionPolicy_init (p : BrowserProtectionPolicy) : res BrowserProtectionPolicy :=
  origins ← mapR canonical_origin (allowed_origins p);
  schemes ← mapR origin_scheme origins;
  hosts ← mapR origin_hostname origins;
  _ ← (if allow_insecure_local_cookies p then
         raise_if (bool_decide (origins = [])
                   || existsb (λ '(scheme, host), negb (bool_decide (scheme = HTTP))
                        || negb (bool_decide (host ∈ [py "localhost"; py "127.0.0.1"; py "::1"])))
                        (zip schemes hosts))
           (ValueError "insecure cookies require only explicit loopback HTTP origins")
       else raise_if (existsb (λ scheme, negb (bool_decide (scheme = HTTPS))) schemes)
              (ValueError "authentication origins must use HTTPS"));
  Ok (mkBrowserProtectionPolicy origins (allow_insecure_local_cookies p)).
(** [BrowserProtectionPolicy.secure] *)
Definition secure (p : BrowserProtectionPolicy) : bool := negb (allow_insecure_local_cookies p).

Example origin_1 : canonical_origin (py "HTTPS://Example.COM") = Ok (py "https://example.com:443").
Proof. vm_compute. reflexivity. Qed.
Example origin_2 : canonical_origin (py "http://[::FFFF:127.0.0.1]:0080") = Ok (py "http://[::ffff:127.0.0.1]:80").
Proof. vm_compute. reflexivity. Qed.
Example origin_3 : canonical_origin (py "http://[v1.a]") = Ok (py "http://v1.a:80").
Proof. vm_compute. reflexivity. Qed.
Example origin_4 : canonical_origin (py "https://example.com/") = Raise origin_error.
Proof. vm_compute. reflexivity. Qed.

(** ** Lemmas on the parsing *)

Lemma partition_app ch (w s : pystr) : ch ∉ w → partition ch (w ++ ch :: s) = (w, Some s).
Proof.
  intros Hw. induction w as [|c w IH]; cbn; [by rewrite Z.eqb_refl|].
  rewrite (proj2 (Z.eqb_neq c ch)) by set_solver. rewrite IH; [done|]. set_solver.
Qed.
Lemma partition_none ch (w : pystr) : ch ∉ w → partition ch w = (w, None).
Proof.
  intros Hw. induction w as [|c w IH]; [done|]. cbn. rewrite (proj2 (Z.eqb_neq c ch)) by set_solver.
  rewrite IH; [done|]. set_solver.
Qed.

Lemma split_netloc_all s : Forall (λ c, str_contains c (py "/?#") = false) s → split_netloc s = (s, []).
Proof.
  induction 1 as [|c s Hc _ IH]; [done|].
  change (split_netloc (c :: s)) with
    (if str_contains c (py "/?#") then ([], c :: s) else let '(netloc, rest) := split_netloc s in (c :: netloc, rest)).
  by rewrite Hc, IH.
Qed.

Lemma ascii_lower_id (s : pystr) : Forall (λ c, in_range 65 90 c = false) s → ascii_lower <$> s = s.
Proof. induction 1 as [|c s Hc _ IH]; [done|]. cbn. by rewrite IH; unfold ascii_lower; rewrite Hc. Qed.

(** Characters of a canonical host, without its brackets. *)
Definition host_char (c : Z) : Prop := lower_alnum c = true ∨ c = dash ∨ c = dot.

Lemma host_char_range c : host_char c → c = 45 ∨ c = 46 ∨ 48 ≤ c ≤ 57 ∨ 97 ≤ c ≤ 122.
Proof. unfold host_char, lower_alnum, is_digit, in_range, dash, dot. lia. Qed.

Lemma str_contains_false c s : str_contains c s = false ↔ c ∉ s.
Proof. rewrite <- not_true_iff_false, str_contains_elem. done. Qed.

(** A location with a port, whose host is a name or an IPv4 address. *)
Section location.
Variables (host digits : pystr).
Hypothesis Hdigits : Forall (λ c, is_digit c = true) digits.

Lemma digit_range c : c ∈ digits → 48 ≤ c ≤ 57.
Proof. intros Hc. rewrite Forall_forall in Hdigits. specialize (Hdigits c Hc). unfold is_digit, in_range in Hdigits. lia. Qed.

Lemma plain_location :
  Forall host_char host →
  let netloc := host ++ [colon] ++ digits in
  split_netloc netloc = (netloc, []) ∧ str_contains open_bracket netloc = false ∧
  str_contains close_bracket netloc = false ∧ hostinfo netloc = (host, digits).
Proof.
  intros Hhost netloc.
  assert (∀ c, c ∈ netloc → c = 45 ∨ c = 46 ∨ 48 ≤ c ≤ 58 ∨ 97 ≤ c ≤ 122) as Hchars.
  { intros c. unfold netloc. rewrite !elem_of_app, list_elem_of_singleton. intros [Hc|[->|Hc]].
    - rewrite Forall_forall in Hhost. apply Hhost, host_char_range in Hc. lia.
    - unfold colon. lia.
    - apply digit_range in Hc. lia. }
  assert (colon ∉ host) as Hcolon.
  { intros Hc. rewrite Forall_forall in Hhost. apply Hhost, host_char_range in Hc. unfold colon in Hc. lia. }
  assert (open_bracket ∉ netloc) as Ho by (intros Hc%Hchars; unfold open_bracket in Hc; lia).
  split_and!.
  - apply split_netloc_all, Forall_forall. intros c Hc%Hchars. apply str_contains_false. cbn.
    rewrite !not_elem_of_cons. pose proof (not_elem_of_nil c). split_and!; [lia|lia|lia|done].
  - by apply str_contains_false.
  - apply str_contains_false. intros Hc%Hchars. unfold close_bracket in Hc. lia.
  - unfold hostinfo. rewrite partition_none by done. unfold netloc. cbn [app]. by rewrite partition_app.
Qed.

Lemma bracketed_location n :
  0 ≤ n < 2 ^ 128 →
  let netloc := [open_bracket] ++ ipv6_str n ++ [close_bracket] ++ [colon] ++ digits in
  split_netloc netloc = (netloc, []) ∧ str_contains open_bracket netloc = true ∧
  str_contains close_bracket netloc = true ∧ check_bracketed_netloc netloc = Ok tt ∧
  hostinfo netloc = (ipv6_str n, digits).
Proof.
  intros Hn netloc. pose proof (ipv6_str_chars n Hn) as Hv6. rewrite Forall_forall in Hv6.
  assert (∀ c, c ∈ netloc → 46 ≤ c ≤ 58 ∧ c ≠ 47 ∨ 97 ≤ c ≤ 102 ∨ c = 91 ∨ c = 93) as Hchars.
  { intros c. unfold netloc. rewrite !elem_of_app, !list_elem_of_singleton. unfold open_bracket, close_bracket, colon.
    intros [->|[Hc|[->|[->|Hc]]]]; try lia; [apply Hv6, ip_char_range in Hc; lia|apply digit_range in Hc; lia]. }
  assert (close_bracket ∉ ipv6_str n) as Hclose.
  { intros Hc%Hv6%ip_char_range. unfold close_bracket in Hc. lia. }
  split_and!.
  - apply split_netloc_all, Forall_forall. intros c Hc%Hchars. apply str_contains_false. cbn.
    rewrite !not_elem_of_cons. pose proof (not_elem_of_nil c). split_and!; [lia|lia|lia|done].
  - apply str_contains_elem. unfold netloc. by left.
  - apply str_contains_elem. unfold netloc. rewrite !elem_of_app, !list_elem_of_singleton. auto.
  - unfold check_bracketed_netloc, netloc. cbn [app partition]. rewrite Z.eqb_refl. cbn [is_empty negb raise_if mbind result_bind].
    rewrite partition_app by done. cbn [colon Z.eqb Pos.eqb negb raise_if mbind result_bind].
    assert (parse_ip_address (ipv6_str n) = Some (IPv6Address n None)) as Hp by apply (parse_ip_str (IPv6Address n None) Hn).
    unfold check_bracketed_host. destruct (ipv6_str n) as [|c rest] eqn:E; [by rewrite Hp|].
    assert (c ≠ 118) as Hc by (pose proof (Hv6 c ltac:(by left)) as Hr; apply ip_char_range in Hr; lia).
    rewrite Hp. by repeat (case_match; try done).
  - unfold hostinfo, netloc. cbn [app partition]. rewrite Z.eqb_refl. by rewrite partition_app.
Qed.
End location.

(** ** Canonical origins *)

(** The hosts a canonical origin can have, and how they are written. *)
Inductive host_form : pystr → pystr → Prop :=
| host_name host : canonical_host host = Ok host → parse_ip_address host = None → host ≠ [] →
    Forall host_char host → host_form host host
| host_ipv4 n : 0 ≤ n < 2 ^ 32 → host_form (ipv4_str n) (ipv4_str n)
| host_ipv6 n : 0 ≤ n < 2 ^ 128 → host_form (ipv6_str n) ([open_bracket] ++ ipv6_str n ++ [close_bracket]).

Lemma dns_chars (host : pystr) :
  forallb dns_label (str_split dot (removesuffix [dot] host)) = true → Forall host_char host.
Proof.
  intros Hl. assert (Forall host_char (removesuffix [dot] host)) as Hrest.
  { apply Forall_forall. intros c Hc. destruct (decide (c = dot)) as [->|Hne]; [right; by right|].
    destruct (str_split_elem dot c _ Hc Hne) as (w & Hw & Hcw).
    rewrite forallb_forall in Hl. apply list_elem_of_In, Hl in Hw. unfold dns_label in Hw.
    rewrite !andb_true_iff in Hw. destruct Hw as [[[_ Hall] _] _]. rewrite forallb_forall in Hall.
    apply list_elem_of_In, Hall, orb_true_iff in Hcw as [?|Hd%Z.eqb_eq]; [by left|right; by left]. }
  unfold removesuffix, endswith in Hrest. destruct (bool_decide _) eqn:E; [|done].
  apply bool_decide_eq_true in E. rewrite <- (take_drop (length host - length [dot]) host), E.
  apply Forall_app_2; [done|]. apply Forall_singleton. right; by right.
Qed.

Lemma canonical_host_form host host' :
  host ≠ [] → percent ∉ host → canonical_host host = Ok host' → ∃ h, host_form h host'.
Proof.
  intros Hne Hp Hc. pose proof Hc as Hc'. unfold canonical_host in Hc'.
  destruct (parse_ip_address host) as [a|] eqn:E.
  - destruct (parse_ip_ok host a E Hp) as [Hok Hscope]. destruct a as [n|n scope]; apply Ok_inv in Hc'; subst host'.
    + exists (ipv4_str n). by constructor.
    + rewrite (Hscope n scope eq_refl) in Hok |- *. exists (ipv6_str n). by constructor.
  - apply bind_Ok in Hc' as ([] & Hl%raise_if_Ok & [= <-]). exists host. constructor; try done.
    apply orb_false_iff in Hl as [_ Hl%negb_false_iff]. by apply dns_chars.
Qed.

Lemma origin_char_ok c : 45 ≤ c ≤ 58 ∨ c = 91 ∨ c = 93 ∨ 97 ≤ c ≤ 122 → origin_char c = true.
Proof.
  intros Hc. unfold origin_char. rewrite !andb_true_iff, !negb_true_iff. split_and!.
  - unfold is_ascii, in_range. lia.
  - lia.
  - lia.
  - apply str_contains_false. cbn. rewrite !not_elem_of_cons. pose proof (not_elem_of_nil c). split_and!; lia || done.
Qed.

Lemma split_scheme_written (scheme rest : pystr) :
  scheme = HTTP ∨ scheme = HTTPS → split_scheme (scheme ++ py "://" ++ rest) = (scheme, py "//" ++ rest).
Proof.
  intros Hs. unfold split_scheme.
  change (scheme ++ py "://" ++ rest) with (scheme ++ colon :: (py "//" ++ rest)).
  rewrite partition_app by (destruct Hs as [->| ->]; apply (bool_decide_unpack _); vm_compute; exact I).
  destruct Hs as [->| ->]; reflexivity.
Qed.

Section canonical.
Variables (scheme h host' : pystr) (p : Z).
Hypothesis Hscheme : scheme = HTTP ∨ scheme = HTTPS.
Hypothesis Hform : host_form h host'.
Hypothesis Hport : 1 ≤ p ≤ 65535.
Definition written : pystr := scheme ++ py "://" ++ host' ++ [colon] ++ str_of_Z p.
Definition location : pystr := host' ++ [colon] ++ str_of_Z p.

Lemma port_digits : Forall (λ c, is_digit c = true) (str_of_Z p).
Proof. apply str_of_Z_digits. lia. Qed.

Lemma written_chars : forallb origin_char written = true.
Proof.
  apply forallb_Forall. unfold written. apply Forall_app_2; [by destruct Hscheme as [->| ->]; repeat constructor|].
  apply Forall_app_2; [by repeat constructor|]. apply Forall_app_2; [|apply Forall_app_2; [by repeat constructor|]].
  - destruct Hform as [host _ _ _ Hchars|n Hn|n Hn].
    + eapply Forall_impl; [exact Hchars|]. intros c Hc%host_char_range. apply origin_char_ok. lia.
    + eapply Forall_impl; [by apply ipv4_str_chars|]. intros c [Hc| ->]; apply origin_char_ok; [|unfold dot; lia].
      unfold is_digit, in_range in Hc. lia.
    + apply Forall_app_2; [by repeat constructor|]. apply Forall_app_2; [|by repeat constructor].
      eapply Forall_impl; [by apply ipv6_str_chars|]. intros c Hc%ip_char_range. apply origin_char_ok. lia.
  - eapply Forall_impl; [apply port_digits|]. intros c Hc. apply origin_char_ok. unfold is_digit, in_range in Hc. lia.
Qed.

Lemma ipv4_host_chars n : 0 ≤ n < 2 ^ 32 → Forall host_char (ipv4_str n).
Proof.
  intros Hn. eapply Forall_impl; [by apply ipv4_str_chars|]. intros c [Hc| ->]; [left|right; by right].
  unfold lower_alnum. by rewrite Hc, orb_true_r.
Qed.

Lemma urlsplit_written : urlsplit written = Ok (scheme, location, []) ∧ hostinfo location = (h, str_of_Z p).
Proof.
  assert (∃ opens, split_netloc location = (location, []) ∧ str_contains open_bracket location = opens ∧
    str_contains close_bracket location = opens ∧ (opens = true → check_bracketed_netloc location = Ok tt) ∧
    hostinfo location = (h, str_of_Z p)) as (opens & Hsplit & Ho & Hcl & Hcheck & Hinfo).
  { unfold location. destruct Hform as [host _ _ _ Hchars|n Hn|n Hn].
    - exists false. destruct (plain_location host (str_of_Z p) port_digits Hchars) as (? & ? & ? & ?). done.
    - exists false. destruct (plain_location (ipv4_str n) (str_of_Z p) port_digits (ipv4_host_chars n Hn)) as (? & ? & ? & ?).
      done.
    - exists true. destruct (bracketed_location (str_of_Z p) port_digits n Hn) as (? & ? & ? & ? & ?).
      rewrite <- !app_assoc. done. }
  split; [|done]. change written with (scheme ++ py "://" ++ location). unfold urlsplit.
  rewrite split_scheme_written by done.
  change (strip_prefix (py "//") (py "//" ++ location)) with (Some location). cbv iota beta. rewrite Hsplit. cbv iota beta zeta.
  rewrite Ho, Hcl, eqb_reflx. cbn [negb raise_if mbind result_bind].
  destruct opens; cbn [andb]; [by rewrite Hcheck|done].
Qed.

Lemma host_form_lower : Forall (λ c, in_range 65 90 c = false) h ∧ h ≠ [] ∧ canonical_host h = Ok host'.
Proof.
  destruct Hform as [host Hcanon Hnone Hne Hchars|n Hn|n Hn].
  - split_and!; [|done|done]. eapply Forall_impl; [exact Hchars|]. intros c Hc%host_char_range. unfold in_range. lia.
  - pose proof (parse_ip_str (IPv4Address n) Hn) as Hp. cbn [ip_str] in Hp. split_and!.
    + eapply Forall_impl; [by apply ipv4_str_chars|]. intros c [Hc| ->]; [|done]. unfold is_digit, in_range in *. lia.
    + intros E. by rewrite E in Hp.
    + unfold canonical_host. by rewrite Hp.
  - pose proof (parse_ip_str (IPv6Address n None) Hn) as Hp. cbn [ip_str] in Hp. split_and!.
    + eapply Forall_impl; [by apply ipv6_str_chars|]. intros c Hc%ip_char_range. unfold in_range. lia.
    + intros E. by rewrite E in Hp.
    + unfold canonical_host. by rewrite Hp.
Qed.

Lemma canonical_written : canonical_origin written = Ok written.
Proof.
  destruct urlsplit_written as [Hsplit Hinfo]. destruct host_form_lower as (Hlower & Hne & Hhost).
  unfold canonical_origin. rewrite written_chars.
  assert (is_empty written = false) as -> by (unfold written; by destruct Hscheme as [->| ->]).
  cbn [orb negb raise_if mbind result_bind]. rewrite Hsplit. cbn [mbind result_bind].
  assert (port location = Ok (Some p)) as ->.
  { unfold port. rewrite Hinfo. cbn [snd]. pose proof port_digits as Hd. pose proof (decimal_value_str p ltac:(lia)) as Hv.
    pose proof (str_of_Z_nonempty p) as Hn. destruct (str_of_Z p) as [|c rest] eqn:E; [done|].
    rewrite (proj2 (forallb_Forall _ _)) by done. rewrite Hv. by rewrite (proj2 (Z.leb_le p 65535)) by lia. }
  cbn [mbind result_bind catch]. unfold hostname. rewrite Hinfo. cbn [fst]. rewrite ascii_lower_id by done.
  assert (endswith [colon] location = false) as ->.
  { apply bool_decide_eq_false. intros E.
    assert (∃ w d, str_of_Z p = w ++ [d] ∧ is_digit d = true) as (w & d & Ed & Hd).
    { destruct (exists_last (str_of_Z_nonempty p)) as (w & d & Ed). exists w, d. split; [exact Ed|].
      pose proof port_digits as Hd. rewrite Ed in Hd. rewrite Forall_app, Forall_singleton in Hd. apply Hd. }
    unfold location in E. rewrite Ed in E. rewrite !app_assoc in E. rewrite length_app in E. cbn [length] in E.
    rewrite Nat.add_sub, drop_app_length in E. by injection E as ->. }
  assert (bool_decide (scheme = HTTP) || bool_decide (scheme = HTTPS) = true) as ->.
  { apply orb_true_iff. by destruct Hscheme as [->| ->]; [left|right]; apply bool_decide_eq_true. }
  destruct h as [|c h'] eqn:Eh; [done|]. rewrite <- Eh in *. 
  assert (is_empty h = false) as -> by by rewrite Eh.
  rewrite (proj2 (Z.leb_le 1 p)), (proj2 (Z.leb_le p 65535)) by lia. cbn [negb orb andb is_empty raise_if mbind result_bind].
  by rewrite Hhost.
Qed.
End canonical.

Lemma partition_subset ch s : (partition ch s).1 ⊆ s ∧ after_or_empty (partition ch s) ⊆ s.
Proof.
  unfold after_or_empty. induction s as [|c s IH]; [done|]. cbn.
  destruct (c =? ch); [cbn; split; [apply list_subseteq_nil|by apply list_subseteq_cons]|].
  destruct (partition ch s) as [before after]. cbn in *. destruct IH as [H1 H2].
  split; [by apply list_subseteq_skip|by apply list_subseteq_cons].
Qed.

Lemma split_netloc_subset s : (split_netloc s).1 ⊆ s.
Proof.
  induction s as [|c s IH]; [done|].
  change (split_netloc (c :: s)) with
    (if str_contains c (py "/?#") then ([], c :: s) else let '(netloc, rest) := split_netloc s in (c :: netloc, rest)).
  case_match; [apply list_subseteq_nil|]. destruct (split_netloc s) as [netloc rest]. by apply list_subseteq_skip.
Qed.

Lemma split_scheme_subset url : (split_scheme url).2 ⊆ url.
Proof.
  unfold split_scheme. destruct (partition_subset colon url) as [_ Ha]. unfold after_or_empty in Ha.
  destruct (partition colon url) as [[|c before] [after|]]; try done. cbn in Ha. by case_match.
Qed.

Lemma urlsplit_subset url scheme netloc path : urlsplit url = Ok (scheme, netloc, path) → netloc ⊆ url.
Proof.
  unfold urlsplit. pose proof (split_scheme_subset url) as Hrest. destruct (split_scheme url) as [sch rest]. cbn in Hrest.
  destruct (strip_prefix (py "//") rest) as [location|] eqn:E; [|intros [= _ <- _]; apply list_subseteq_nil].
  pose proof (split_netloc_subset location) as Hn. destruct (split_netloc location) as [n' p']. cbn in Hn.
  intros Hu. do 2 apply bind_Ok in Hu as (_ & _ & Hu). injection Hu as <- <- <-.
  etrans; [exact Hn|]. etrans; [|exact Hrest]. intros c Hc. change (py "//") with [47; 47] in E.
  destruct rest as [|a [|b rest]]; cbn in E; [done|by case_match|].
  do 2 (case_match; [|done]). injection E as ->. by do 2 right.
Qed.

Lemma hostinfo_subset netloc : (hostinfo netloc).1 ⊆ netloc.
Proof.
  unfold hostinfo. destruct (partition_subset open_bracket netloc) as [_ Ha]. unfold after_or_empty in Ha.
  destruct (partition open_bracket netloc) as [before [bracketed|]]; cbn in *.
  - etrans; [apply partition_subset|done].
  - apply partition_subset.
Qed.

Lemma canonical_origin_written value origin :
  canonical_origin value = Ok origin →
  ∃ scheme h host' p, (scheme = HTTP ∨ scheme = HTTPS) ∧ host_form h host' ∧ 1 ≤ p ≤ 65535 ∧
    origin = written scheme host' p.
Proof.
  unfold canonical_origin. intros Ho. apply bind_Ok in Ho as ([] & Hguard%raise_if_Ok & Ho).
  apply bind_Ok in Ho as ([[[scheme netloc] path] pt] & Hsplit & Ho).
  apply bind_Ok in Ho as ([] & Hok%raise_if_Ok & Ho). apply bind_Ok in Ho as (host' & Hhost & Ho). apply Ok_inv in Ho. subst origin.
  rewrite !orb_false_iff, !negb_false_iff in Hok. destruct Hok as [[[[Hs Hne] _] _] Hp].
  assert (scheme = HTTP ∨ scheme = HTTPS) as Hscheme.
  { by apply orb_true_iff in Hs as [?%bool_decide_eq_true|?%bool_decide_eq_true]; [left|right]. }
  assert (percent ∉ hostname netloc) as Hpercent.
  { unfold hostname. intros (c & Hc & Hin%hostinfo_subset)%list_elem_of_fmap.
    apply orb_false_iff in Hguard as [_ Hguard%negb_false_iff].
    apply catch_Ok in Hsplit as [Hsplit|(e & _ & Hsplit)]; [|by destruct e].
    apply bind_Ok in Hsplit as ([[sch' net'] path'] & Hu & Hsplit). apply bind_Ok in Hsplit as (pt' & _ & Hsplit).
    injection Hsplit as -> -> -> ->. apply urlsplit_subset in Hu. rewrite forallb_forall in Hguard.
    apply Hu, list_elem_of_In, Hguard in Hin.
    assert (c = percent) as ->; [|done]. unfold ascii_lower, percent in *. destruct (in_range 65 90 c) eqn:E; [|done].
    unfold in_range in E. lia. }
  destruct (canonical_host_form (hostname netloc) host') as [h Hform]; [|done|done|].
  { by destruct (hostname netloc). }
  exists scheme, h, host', (match pt with Some q => q | None => if bool_decide (scheme = HTTPS) then 443 else 80 end).
  split_and!; [done|done| |..|done].
  - destruct pt as [q|]; [apply negb_false_iff in Hp|case_match]; lia.
  - destruct pt as [q|]; [apply negb_false_iff in Hp|case_match]; lia.
Qed.

(** ** Which texts are accepted

    The grammar of accepted values, with the origin each stands for. *)

(** A host as the value writes it: a name or an IPv4 address, or, in brackets,
    what [urlsplit] lets pass there; [host] is its canonical text. *)
Definition host_written (host_text host : pystr) : Prop :=
  ∃ raw, (close_bracket ∉ raw) ∧ str_contains 47 raw = false ∧ canonical_host (ascii_lower <$> raw) = Ok host ∧
    (host_text = raw ∧ (open_bracket ∉ raw) ∧ (colon ∉ raw) ∨
     host_text = [open_bracket] ++ raw ++ [close_bracket] ∧ check_bracketed_host raw = Ok tt).
(** No port, for the default of the scheme, or digits behind a colon. *)
Definition port_written (scheme port_text : pystr) (p : Z) : Prop :=
  1 ≤ p ≤ 65535 ∧
  (port_text = [] ∧ (scheme = HTTP ∧ p = 80 ∨ scheme = HTTPS ∧ p = 443) ∨
   ∃ digits, port_text = colon :: digits ∧ digits ≠ [] ∧ forallb is_digit digits = true ∧ decimal_value digits = p).
(** The value is a scheme in any case, a host and a port, and nothing else. *)
Definition origin_parts (value scheme host_text port_text host : pystr) (p : Z) : Prop :=
  (∃ scheme_text, value = scheme_text ++ py "://" ++ host_text ++ port_text ∧ (ascii_lower <$> scheme_text) = scheme) ∧
  (scheme = HTTP ∨ scheme = HTTPS) ∧ host_written host_text host ∧ port_written scheme port_text p.

Lemma partition_inv ch s w o :
  partition ch s = (w, o) → (ch ∉ w) ∧ s = w ++ match o with Some t => ch :: t | None => [] end.
Proof.
  revert w o. induction s as [|c s IH]; intros w o; cbn.
  - intros [= <- <-]. split; [apply not_elem_of_nil|done].
  - destruct (c =? ch) eqn:E; [apply Z.eqb_eq in E as ->; intros [= <- <-]; split; [apply not_elem_of_nil|done]|].
    apply Z.eqb_neq in E. destruct (partition ch s) as [before after]. destruct (IH _ _ eq_refl) as [Hn Hs].
    intros [= <- <-]. split; [by apply not_elem_of_cons|by rewrite Hs at 1].
Qed.

Lemma split_netloc_whole s netloc : split_netloc s = (netloc, []) → netloc = s ∧ Forall (λ c, str_contains c (py "/?#") = false) s.
Proof.
  revert netloc. induction s as [|c s IH]; intros netloc; [by intros [= <-]|].
  change (split_netloc (c :: s)) with
    (if str_contains c (py "/?#") then ([], c :: s) else let '(netloc, rest) := split_netloc s in (c :: netloc, rest)).
  destruct (str_contains c (py "/?#")) eqn:E; [done|]. destruct (split_netloc s) as [n r]. intros [= <- ->].
  destruct (IH n eq_refl) as [-> ?]. split; [done|by constructor].
Qed.

Lemma split_scheme_inv url scheme rest :
  split_scheme url = (scheme, rest) → scheme ≠ [] → ∃ text, url = text ++ colon :: rest ∧ (ascii_lower <$> text) = scheme.
Proof.
  unfold split_scheme. destruct (partition colon url) as [before after] eqn:E. apply partition_inv in E as [_ Hurl].
  destruct before as [|c before], after as [after|]; try (intros [= <- _]; done).
  destruct (_ && _); [|intros [= <- _]; done]. intros [= <- <-] _. by exists (c :: before).
Qed.

Lemma strip_prefix_inv pattern s rest : strip_prefix pattern s = Some rest → s = pattern ++ rest.
Proof.
  revert s. induction pattern as [|q pattern IH]; intros s; cbn; [by intros [= ->]|].
  destruct s as [|c s]; [done|]. destruct (q =? c) eqn:E; [|done]. apply Z.eqb_eq in E as ->. by intros ->%IH.
Qed.

Lemma no_slash s : Forall (λ c, str_contains c (py "/?#") = false) s → str_contains 47 s = false.
Proof.
  intros Hs. apply str_contains_false. intros Hin. rewrite Forall_forall in Hs. by specialize (Hs _ Hin).
Qed.

Lemma port_text_inv scheme text pt :
  (scheme = HTTP ∨ scheme = HTTPS) → text ≠ [] →
  match text with
  | [] => Ok None
  | _ => if forallb is_digit text then
           if decimal_value text <=? 65535 then Ok (Some (decimal_value text))
           else Raise (ValueError "Port out of range 0-65535")
         else Raise (ValueError "Port could not be cast to integer value")
  end = Ok pt →
  match pt with Some q => negb ((1 <=? q) && (q <=? 65535)) | None => false end = false →
  port_written scheme (colon :: text) (from_option id (if bool_decide (scheme = HTTPS) then 443 else 80) pt).
Proof.
  intros Hs Hne Hpt Hr. destruct text as [|c text]; [done|]. destruct (forallb is_digit (c :: text)) eqn:Hd; [|done].
  destruct (_ <=? 65535) eqn:Hmax; [|done]. injection Hpt as <-. cbn [from_option id].
  apply negb_false_iff, andb_true_iff in Hr as [H1%Z.leb_le H2%Z.leb_le]. split; [done|]. right. by exists (c :: text).
Qed.

Lemma endswith_colon s : endswith [colon] (s ++ [colon]) = true.
Proof.
  apply bool_decide_eq_true. rewrite length_app. cbn [length]. by rewrite Nat.add_sub, drop_app_length.
Qed.

Lemma not_contains_app c (s t : pystr) : str_contains c (s ++ t) = false ↔ str_contains c s = false ∧ str_contains c t = false.
Proof. rewrite !str_contains_false, not_elem_of_app. done. Qed.

(** The port of an accepted location, after its host. *)
Lemma location_port scheme host_text after pt netloc :
  (scheme = HTTP ∨ scheme = HTTPS) → netloc = host_text ++ match after with Some ds => colon :: ds | None => [] end →
  (hostinfo netloc).2 = from_option id [] after → port netloc = Ok pt → endswith [colon] netloc = false →
  match pt with Some q => negb ((1 <=? q) && (q <=? 65535)) | None => false end = false →
  ∃ port_text, netloc = host_text ++ port_text ∧
    port_written scheme port_text (from_option id (if bool_decide (scheme = HTTPS) then 443 else 80) pt).
Proof.
  intros Hs Hnet Hinfo Hport Hend Hr. unfold port in Hport. rewrite Hinfo in Hport.
  destruct after as [[|d ds]|]; cbn [from_option id] in Hport.
  - by rewrite Hnet, endswith_colon in Hend.
  - exists (colon :: d :: ds). split; [done|]. by apply (port_text_inv scheme (d :: ds)).
  - apply Ok_inv in Hport. subst pt. exists []. split; [done|]. cbn [from_option id].
    destruct Hs as [-> | ->].
    + rewrite bool_decide_eq_false_2 by discriminate. split; [lia|]. left. auto.
    + rewrite bool_decide_eq_true_2 by done. split; [lia|]. left. auto.
Qed.

Lemma location_inv scheme netloc pt host :
  (scheme = HTTP ∨ scheme = HTTPS) → str_contains 47 netloc = false →
  negb (Bool.eqb (str_contains open_bracket netloc) (str_contains close_bracket netloc)) = false →
  (if str_contains open_bracket netloc && str_contains close_bracket netloc then check_bracketed_netloc netloc else Ok tt) = Ok tt →
  port netloc = Ok pt → endswith [colon] netloc = false →
  match pt with Some q => negb ((1 <=? q) && (q <=? 65535)) | None => false end = false →
  canonical_host (hostname netloc) = Ok host →
  ∃ host_text port_text, netloc = host_text ++ port_text ∧ host_written host_text host ∧
    port_written scheme port_text (from_option id (if bool_decide (scheme = HTTPS) then 443 else 80) pt).
Proof.
  intros Hs Hslash Hpair%negb_false_iff%eqb_prop Hcheck Hport Hend Hr Hhost.
  unfold hostname in Hhost. pose proof Hslash as Hslash'. 
  destruct (partition open_bracket netloc) as [before [bracketed|]] eqn:Eo; pose proof (partition_inv _ _ _ _ Eo) as [Hno Hnet].
  - assert (str_contains open_bracket netloc = true) as Ho by (rewrite Hnet; apply str_contains_elem; set_solver).
    rewrite <- Hpair, Ho in Hcheck. cbn [andb] in Hcheck. rewrite Ho in Hpair.
    unfold check_bracketed_netloc in Hcheck. rewrite Eo in Hcheck.
    apply bind_Ok in Hcheck as ([] & Hbefore%raise_if_Ok & Hcheck). destruct before; [|done]. cbn [app] in Hnet.
    destruct (partition close_bracket bracketed) as [raw after] eqn:Ec. pose proof (partition_inv _ _ _ _ Ec) as [Hnc Hbr].
    apply bind_Ok in Hcheck as ([] & Hafter%raise_if_Ok & Hcheck).
    assert (hostinfo netloc = (raw, after_or_empty (partition colon (from_option id [] after)))) as Hinfo.
    { unfold hostinfo. rewrite Eo. cbv zeta. by rewrite Ec. }
    rewrite Hinfo in Hhost. cbn [fst] in Hhost.
    destruct after as [rest|].
    2: { rewrite app_nil_r in Hbr. symmetry in Hpair. apply str_contains_elem in Hpair. rewrite Hnet, Hbr in Hpair.
         apply elem_of_cons in Hpair as [?|?]; [discriminate|done]. }
    rewrite Hnet, Hbr in Hslash'. change (open_bracket :: raw ++ close_bracket :: rest) with
      ([open_bracket] ++ raw ++ [close_bracket] ++ rest) in Hslash'. rewrite !not_contains_app in Hslash'.
    destruct (location_port scheme ([open_bracket] ++ raw ++ [close_bracket])
      (match rest with c :: ds => Some ds | [] => None end) pt netloc Hs) as (port_text & Hn & Hw); try done.
    + rewrite Hnet, Hbr. cbn [app]. rewrite <- !app_assoc. cbn [app]. destruct rest as [|c ds]; [done|].
      cbn [negb] in Hafter. apply negb_false_iff, Z.eqb_eq in Hafter as ->. done.
    + rewrite Hinfo. destruct rest as [|c ds]; [done|]. apply negb_false_iff, Z.eqb_eq in Hafter as ->. cbn. done.
    + exists ([open_bracket] ++ raw ++ [close_bracket]), port_text. split; [done|]. split; [|done].
      exists raw. split_and!; [done|apply Hslash'|done|by right].
  - rewrite app_nil_r in Hnet. subst before. destruct (partition colon netloc) as [raw after] eqn:Ec.
    pose proof (partition_inv _ _ _ _ Ec) as [Hnc Hraw].
    assert (hostinfo netloc = (raw, from_option id [] after)) as Hinfo by (unfold hostinfo; by rewrite Eo; cbv zeta; rewrite Ec).
    rewrite Hinfo in Hhost. cbn [fst] in Hhost.
    destruct (location_port scheme raw after pt netloc Hs) as (port_text & Hn & Hw); try done; [by rewrite Hinfo|].
    assert (str_contains open_bracket netloc = false) as Ho by by apply str_contains_false.
    rewrite Ho in Hpair. symmetry in Hpair. apply str_contains_false in Hpair.
    rewrite Hn, not_contains_app in Hslash. rewrite Hn, not_elem_of_app in Hno, Hpair.
    exists raw, port_text. split; [done|]. split; [|done]. exists raw.
    split_and!; [apply Hpair|apply Hslash|done|left; split_and!; [done|apply Hno|done]].
Qed.

Lemma canonical_origin_inv value origin :
  canonical_origin value = Ok origin →
  forallb origin_char value = true ∧ ∃ scheme host_text port_text host p,
    origin_parts value scheme host_text port_text host p ∧ origin = written scheme host p.
Proof.
  unfold canonical_origin. intros Ho. apply bind_Ok in Ho as ([] & Hguard%raise_if_Ok & Ho).
  apply orb_false_iff in Hguard as [_ Hguard%negb_false_iff]. split; [done|].
  apply bind_Ok in Ho as ([[[scheme netloc] path] pt] & Hsplit & Ho).
  apply bind_Ok in Ho as ([] & Hok%raise_if_Ok & Ho). apply bind_Ok in Ho as (host & Hhost & Ho). apply Ok_inv in Ho. subst origin.
  rewrite !orb_false_iff, !negb_false_iff in Hok. destruct Hok as [[[[Hs Hne%negb_true_iff] Hpath] Hend] Hp].
  assert (scheme = HTTP ∨ scheme = HTTPS) as Hscheme.
  { by apply orb_true_iff in Hs as [?%bool_decide_eq_true|?%bool_decide_eq_true]; [left|right]. }
  destruct path; [|done]. apply catch_Ok in Hsplit as [Hsplit|(e & _ & Hsplit)]; [|by destruct e].
  apply bind_Ok in Hsplit as ([[sch' net'] path'] & Hu & Hsplit). apply bind_Ok in Hsplit as (pt' & Hport & Hsplit).
  injection Hsplit as -> -> -> ->. unfold urlsplit in Hu.
  destruct (split_scheme value) as [sch rest] eqn:Esch.
  destruct (strip_prefix (py "//") rest) as [location|] eqn:Eloc.
  2: { injection Hu as <- <- _. done. }
  destruct (split_netloc location) as [n' p'] eqn:En. apply bind_Ok in Hu as ([] & Hpair%raise_if_Ok & Hu).
  apply bind_Ok in Hu as ([] & Hcheck & Hu). injection Hu as -> -> ->.
  apply split_netloc_whole in En as [-> Hchars%no_slash].
  apply split_scheme_inv in Esch as (scheme_text & Hvalue & Hlower); [|by destruct Hscheme as [->| ->]].
  apply strip_prefix_inv in Eloc as ->.
  destruct (location_inv scheme location pt host) as (host_text & port_text & Hloc & Hh & Hpt); try done.
  exists scheme, host_text, port_text, host, (from_option id (if bool_decide (scheme = HTTPS) then 443 else 80) pt).
  split; [|by destruct pt]. split_and!; try done. exists scheme_text. split; [|done].
  by rewrite Hvalue, Hloc.
Qed.

Lemma ascii_lower_alpha c : in_range 97 122 (ascii_lower c) = true → is_alpha c = true.
Proof. unfold ascii_lower, is_alpha. destruct (in_range 65 90 c) eqn:E; [done|]. by intros ->. Qed.

Lemma scheme_text_alpha scheme (text : pystr) :
  scheme = HTTP ∨ scheme = HTTPS → (ascii_lower <$> text) = scheme → text ≠ [] ∧ Forall (λ c, is_alpha c = true) text.
Proof.
  intros Hs Hl. assert (Forall (λ c, in_range 97 122 c = true) (ascii_lower <$> text)) as Hall.
  { rewrite Hl. destruct Hs as [->| ->]; apply (bool_decide_unpack _); vm_compute; exact I. }
  split; [intros ->; by destruct Hs as [->| ->]|]. apply Forall_fmap in Hall. eapply Forall_impl; [exact Hall|].
  intros c. apply ascii_lower_alpha.
Qed.

Lemma split_scheme_text scheme (text rest : pystr) :
  scheme = HTTP ∨ scheme = HTTPS → (ascii_lower <$> text) = scheme → split_scheme (text ++ colon :: rest) = (scheme, rest).
Proof.
  intros Hs Hl. destruct (scheme_text_alpha scheme text Hs Hl) as [Hne Hall]. unfold split_scheme.
  rewrite partition_app.
  - destruct text as [|c text]; [done|].
    assert (is_alpha c && forallb scheme_char (c :: text) = true) as ->; [|by rewrite Hl].
    apply andb_true_iff. split; [by apply Forall_cons in Hall as [? _]|]. apply forallb_Forall.
    eapply Forall_impl; [exact Hall|]. intros d Hd. unfold scheme_char. cbv beta in Hd. by rewrite Hd.
  - intros Hc. rewrite Forall_forall in Hall. by specialize (Hall _ Hc).
Qed.

Lemma origin_char_path c : origin_char c = true → c ≠ 47 → str_contains c (py "/?#") = false.
Proof.
  unfold origin_char. intros [_ H%negb_true_iff]%andb_true_iff Hne. apply str_contains_false. apply str_contains_false in H.
  cbn in H |- *. rewrite !not_elem_of_cons in *. pose proof (not_elem_of_nil c). split_and!; [done|apply H|apply H|done].
Qed.

(** A location of the grammar, as [urlsplit] takes it apart. *)
Lemma location_parts scheme host_text host port_text p :
  host_written host_text host → port_written scheme port_text p →
  let netloc := host_text ++ port_text in
  ∃ raw opens, str_contains open_bracket netloc = opens ∧ str_contains close_bracket netloc = opens ∧
    (opens = true → check_bracketed_netloc netloc = Ok tt) ∧ str_contains 47 netloc = false ∧
    hostinfo netloc = (raw, drop 1 port_text) ∧ canonical_host (ascii_lower <$> raw) = Ok host ∧
    endswith [colon] netloc = false.
Proof.
  intros (raw & Hclose & Hslash & Hhost & Hform) [_ Hport] netloc.
  assert (port_text = [] ∨ ∃ ds, port_text = colon :: ds ∧ ds ≠ [] ∧ Forall (λ c, is_digit c = true) ds) as Hp.
  { destruct Hport as [[-> _]|(ds & -> & Hne & Hd & _)]; [by left|right]. exists ds. by rewrite <- forallb_Forall. }
  assert (∀ c, in_range 48 58 c = false → c ∉ port_text) as Hpc.
  { intros c Hc Hin. destruct Hp as [-> |(ds & -> & _ & Hd)]; [by apply elem_of_nil in Hin|].
    apply elem_of_cons in Hin as [->|Hin]; [done|]. rewrite Forall_forall in Hd. apply Hd in Hin.
    unfold is_digit, in_range in *. lia. }
  assert (raw ≠ []) as Hne.
  { intros ->. vm_compute in Hhost. discriminate. }
  assert (∀ w c, netloc = w ++ [c] → c ≠ colon → endswith [colon] netloc = false) as Hends.
  { intros w c -> Hc. apply bool_decide_eq_false. rewrite length_app. cbn [length]. rewrite Nat.add_sub, drop_app_length.
    by intros [= ->]. }
  assert (∀ w c, host_text = w ++ [c] → c ≠ colon → endswith [colon] netloc = false) as Hend.
  { intros w c Hw Hc. destruct Hp as [Hp|(ds & Hp & Hds & Hd)]; unfold netloc in *.
    - apply (Hends w c); [|done]. by rewrite Hw, Hp, app_nil_r.
    - destruct (exists_last Hds) as (v & d & ->). apply (Hends (host_text ++ colon :: v) d).
      + rewrite Hp, <- app_assoc. done.
      + apply Forall_app in Hd as [_ [Hd _]%Forall_cons]. intros ->. done. }
  destruct Hform as [(-> & Hopen & Hcolon)|[-> Hcheck]].
  - exists raw, false. split_and!.
    + apply str_contains_false. unfold netloc. rewrite not_elem_of_app. split; [done|by apply Hpc].
    + apply str_contains_false. unfold netloc. rewrite not_elem_of_app. split; [done|by apply Hpc].
    + done.
    + apply not_contains_app. split; [done|]. apply str_contains_false. by apply Hpc.
    + unfold hostinfo, netloc. rewrite partition_none by (rewrite not_elem_of_app; split; [done|by apply Hpc]). cbv zeta.
      destruct Hp as [-> |(ds & -> & _)].
      * rewrite app_nil_r, partition_none by done. done.
      * by rewrite partition_app.
    + done.
    + destruct (exists_last Hne) as (w & c & Hw). apply (Hend w c); [done|]. intros ->. apply Hcolon. rewrite Hw. set_solver.
  - exists raw, true. split_and!.
    + apply str_contains_elem. unfold netloc. cbn. left.
    + apply str_contains_elem. unfold netloc. rewrite !elem_of_app. left. right. right. left.
    + intros _. unfold check_bracketed_netloc, netloc. cbn [app partition]. rewrite Z.eqb_refl. cbn [is_empty negb raise_if mbind result_bind].
      rewrite <- app_assoc. cbn [app]. rewrite partition_app by done.
      destruct Hp as [-> |(ds & -> & _)]; done.
    + unfold netloc. rewrite !not_contains_app. split_and!; [done|done|done|]. apply str_contains_false. by apply Hpc.
    + unfold hostinfo, netloc. cbn [app partition]. rewrite Z.eqb_refl. cbv zeta. rewrite <- app_assoc. cbn [app].
      rewrite partition_app by done. destruct Hp as [-> |(ds & -> & _)]; [done|]. cbn [fst after_or_empty snd from_option id partition].
      by rewrite Z.eqb_refl.
    + done.
    + apply (Hend ([open_bracket] ++ raw) close_bracket); [by rewrite <- app_assoc|done].
Qed.

Lemma canonical_origin_accepts value scheme host_text port_text host p :
  forallb origin_char value = true → origin_parts value scheme host_text port_text host p →
  canonical_origin value = Ok (written scheme host p).
Proof.
  intros Hchars ((text & Hvalue & Hlower) & Hs & Hhost & Hport).
  destruct (location_parts scheme host_text host port_text p Hhost Hport)
    as (raw & opens & Ho & Hc & Hcheck & Hslash & Hinfo & Hcanon & Hend).
  set (netloc := host_text ++ port_text) in *. destruct (scheme_text_alpha scheme text Hs Hlower) as [Hne _].
  assert (urlsplit value = Ok (scheme, netloc, [])) as Hsplit.
  { rewrite Hvalue. change (py "://" ++ netloc) with (colon :: py "//" ++ netloc). unfold urlsplit.
    change (text ++ py "://" ++ host_text ++ port_text) with (text ++ colon :: (py "//" ++ netloc)).
    rewrite (split_scheme_text scheme) by done. cbv iota beta.
    change (strip_prefix (py "//") (py "//" ++ netloc)) with (Some netloc). cbv iota beta.
    rewrite split_netloc_all.
    - cbv iota beta zeta. rewrite Ho, Hc, eqb_reflx. cbn [negb raise_if mbind result_bind].
      destruct opens; cbn [andb]; [by rewrite Hcheck|done].
    - apply Forall_forall. intros c Hin. apply origin_char_path.
      + rewrite Hvalue in Hchars. rewrite forallb_forall in Hchars. apply Hchars, list_elem_of_In.
        apply elem_of_app. right. apply elem_of_app. right. exact Hin.
      + intros ->. apply str_contains_false in Hslash. done. }
  assert (port netloc = Ok (match port_text with [] => None | _ => Some p end)) as Hpt.
  { unfold port. rewrite Hinfo. cbn [snd]. destruct Hport as [Hr [[-> _]|(ds & -> & Hds & Hd & Hv)]]; [done|].
    change (drop 1 (colon :: ds)) with ds. destruct ds as [|d ds]; [done|]. cbv iota. rewrite Hd, Hv. by rewrite (proj2 (Z.leb_le p 65535)) by lia. }
  unfold canonical_origin. rewrite Hchars.
  assert (is_empty value = false) as -> by (rewrite Hvalue; by destruct text).
  cbn [orb negb raise_if mbind result_bind]. rewrite Hsplit. cbn [mbind result_bind]. rewrite Hpt. cbn [mbind result_bind catch].
  assert (bool_decide (scheme = HTTP) || bool_decide (scheme = HTTPS) = true) as ->.
  { apply orb_true_iff. by destruct Hs as [->| ->]; [left|right]; apply bool_decide_eq_true. }
  unfold hostname. rewrite Hinfo, Hend. cbn [fst]. 
  assert (is_empty (ascii_lower <$> raw) = false) as ->.
  { destruct raw; [|done]. vm_compute in Hcanon. discriminate. }
  rewrite Hcanon. destruct Hport as [Hr Hport].
  assert (match (match port_text with [] => None | _ :: _ => Some p end) with
          | Some q => negb ((1 <=? q) && (q <=? 65535)) | None => false end = false) as ->.
  { destruct port_text; [done|]. by rewrite (proj2 (Z.leb_le 1 p)), (proj2 (Z.leb_le p 65535)) by lia. }
  cbn [negb orb is_empty raise_if mbind result_bind].
  assert (match (match port_text with [] => None | _ :: _ => Some p end) with
          | Some q => q | None => if bool_decide (scheme = HTTPS) then 443 else 80 end = p) as ->; [|done].
  destruct Hport as [[-> Hd]|(ds & -> & _)]; [|done].
  destruct Hd as [[-> ->]|[-> ->]]; [by rewrite bool_decide_eq_false_2|by rewrite bool_decide_eq_true_2].
Qed.

(** ** The claims *)

(** C33: what [canonical_origin] accepts and what it makes of it.  It accepts
    exactly the values of clean ASCII that are a scheme [http] or [https] in
    any case, [://], a host and an optional decimal port from 1 to 65535, with
    nothing behind them; the result is the scheme in lower case, the canonical
    host, and that port, or the default 80 or 443 of the scheme.  The host in
    the result is a name of DNS labels, an IPv4 address or a bracketed IPv6
    address in the text the standard library prints, and the result is its own
    canonical form, so the configured origins and the header of a request are
    compared alike. *)
Theorem canonical_origin_spec (value origin : pystr) :
  (canonical_origin value = Ok origin ↔
   forallb origin_char value = true ∧ ∃ scheme host_text port_text host p,
     origin_parts value scheme host_text port_text host p ∧
     origin = scheme ++ py "://" ++ host ++ [colon] ++ str_of_Z p) ∧
  (canonical_origin value = Ok origin →
   canonical_origin origin = Ok origin ∧
   ∃ scheme h host p, (scheme = HTTP ∨ scheme = HTTPS) ∧ host_form h host ∧ 1 ≤ p ≤ 65535 ∧
     origin = scheme ++ py "://" ++ host ++ [colon] ++ str_of_Z p).
Proof.
  split; [split; [apply canonical_origin_inv|]|].
  - intros (Hchars & scheme & host_text & port_text & host & p & Hparts & ->). by eapply canonical_origin_accepts.
  - intros (scheme & h & host' & p & Hs & Hf & Hp & ->)%canonical_origin_written.
    split; [by apply (canonical_written scheme h)|]. by exists scheme, h, host', p.
Qed.

Lemma canonical_origin_spec_witness :
  canonical_origin (py "http://[::FFFF:127.0.0.1]:0080") = Ok (py "http://[::ffff:127.0.0.1]:80") ∧
  canonical_origin (py "http://[::ffff:127.0.0.1]:80") = Ok (py "http://[::ffff:127.0.0.1]:80").
Proof.
  assert (canonical_origin (py "http://[::FFFF:127.0.0.1]:0080") = Ok (py "http://[::ffff:127.0.0.1]:80")) as Ho
    by (vm_compute; reflexivity).
  split; [exact Ho|]. exact (proj1 (proj2 (canonical_origin_spec _ _) Ho)).
Defined.
