(* ===== verification/AccessTokens.v ===== *)
(** * Access tokens
    ([src/src/mdm/infrastructure/jwt.py], [src/src/mdm/application/auth.py],
    [src/src/mdm/api/auth.py], [src/src/mdm/api/authorization.py])

    A signed token of a fixed profile carries the user, the role and a window
    of fifteen minutes; a request is authenticated from it alone, without the
    database, with thirty seconds of tolerance for the clock.  Every reason to
    refuse a token is reported alike. *)

From S2P Require Import Prelude Python Exceptions Uuids Auth IpAddresses Accounts Sessions.
Local Open Scope Z_scope.

Abbreviation dict := (list (pystr * pyval)) (only parsing).

(** ** The libraries

    PyJWT with the RSA keys of [cryptography]; the options the program passes
    are fixed: RS256, the required claims, the issuer and the audience. *)
Class JwtLibrary := {
  PrivateKey : Type;
  PublicKey : Type;
  public_key : PrivateKey → PublicKey;
  private_key_size : PrivateKey → Z;
  public_key_size : PublicKey → Z;
  public_numbers : PublicKey → Z * Z;
  jwt_encode : dict → PrivateKey → dict → pystr;                  (** payload, key, headers *)
  jwt_get_unverified_header : pystr → res dict;
  jwt_decode : pystr → PublicKey → res dict;
  RSAAlgorithm_from_jwk : dict → res (PublicKey + PrivateKey);
}.

(** What [verify] and [_load_verification_keys] catch; [InvalidKeyError] is a
    [PyJWTError]. *)
Definition token_error (e : exn) : bool :=
  match e with PyJWTError | InvalidKeyError | KeyError | TypeError | ValueError _ => true | _ => false end.
Definition jwk_error (e : exn) : bool :=
  match e with InvalidKeyError | TypeError | ValueError _ => true | _ => false end.

Definition ISSUER : pystr := py "mdm-api".
Definition AUDIENCE : pystr := py "mdm-api".
Definition LIFETIME_SECONDS : Z := 900.
Definition CLOCK_SKEW_SECONDS : Z := 30.
Definition CLAIM_NAMES : list pystr :=
  py <$> ["iss"; "sub"; "aud"; "roles"; "iat"; "exp"; "jti"].
Definition HEADER_NAMES : list pystr := py <$> ["alg"; "kid"; "typ"].
Definition PRIVATE_JWK_PARAMETERS : list pystr := py <$> ["d"; "p"; "q"; "dp"; "dq"; "qi"; "oth"].

(** [set(entries) == names] *)
Definition key_set_is (names : list pystr) (entries : dict) : bool :=
  forallb (λ k, present (dict_get k entries)) names && forallb (λ p, bool_decide (p.1 ∈ names)) entries.
(** [entries.get(key) == value] for a string. *)
Definition get_is (key value : pystr) (entries : dict) : bool :=
  match dict_get key entries with Some (VStr s) => bool_decide (s = value) | _ => false end.
(** [entries[key]] *)
Definition getitem (key : pystr) (entries : dict) : res pyval :=
  match dict_get key entries with Some v => Ok v | None => Raise KeyError end.

Definition UserRole_value (role : UserRole) : pystr :=
  match role with USER => py "USER" | ADMIN => py "ADMIN" | SUPER_ADMIN => py "SUPER_ADMIN" end.
(** [UserRole(value)]; [None] stands for the [ValueError]. *)
Definition UserRole_call (value : pystr) : option UserRole :=
  find (λ r, bool_decide (UserRole_value r = value)) [USER; ADMIN; SUPER_ADMIN].

Record AccessTokenClaims := mkAccessTokenClaims {
  tc_user_id : UUID;
  tc_role : UserRole;
  tc_issued_at : Z;
  tc_expires_at : Z;
  tc_jti : UUID;
}.

Section library.
Context `{UnicodeData} `{JwtLibrary}.

(** ** Keys *)

Record JwtKeyPair := mkJwtKeyPair { kp_kid : pystr; kp_private_key : PrivateKey }.
Definition JwtKeyPair_from_private_key (kid : pystr) (private_key : PrivateKey) : res JwtKeyPair :=
  _ ← raise_if (bool_decide (kid = []) || negb (isascii kid))
        (ValueError "kid must be a non-empty ASCII identifier");
  _ ← raise_if (private_key_size private_key <? 2048)
        (ValueError "RSA keys must contain at least 2048 bits");
  Ok (mkJwtKeyPair kid private_key).

(** The verification keys are a [dict] from [kid]s. *)
Definition key_of (kid : pystr) (keys : list (pystr * PublicKey)) : option PublicKey :=
  snd <$> find (λ p, bool_decide (p.1 = kid)) keys.

Record AccessJwtCodec := mkAccessJwtCodec {
  active_key : JwtKeyPair;
  verification_keys : list (pystr * PublicKey);
}.
(** [AccessJwtCodec.__init__] *)
Definition AccessJwtCodec_init (active : JwtKeyPair) (keys : list (pystr * PublicKey)) : res AccessJwtCodec :=
  _ ← raise_if (existsb (λ p, public_key_size p.2 <? 2048) keys)
        (ValueError "RSA keys must contain at least 2048 bits");
  match key_of (kp_kid active) keys with
  | None => Raise (ValueError "active kid must be registered in the verification key ring")
  | Some registered =>
      _ ← raise_if (negb (bool_decide
                            (public_numbers registered = public_numbers (public_key (kp_private_key active)))))
            (ValueError "active kid must identify the active key pair");
      Ok (mkAccessJwtCodec active keys)
  end.

(** ** Issuing *)

Definition access_payload (user_id : UUID) (role : UserRole) (issued_at : Z) (jti : UUID) : dict :=
  [(py "iss", VStr ISSUER);
   (py "sub", VStr (uuid_str user_id));
   (py "aud", VStr AUDIENCE);
   (py "roles", VList [VStr (UserRole_value role)]);
   (py "iat", VInt issued_at);
   (py "exp", VInt (issued_at + LIFETIME_SECONDS));
   (py "jti", VStr (uuid_str jti))].

(** [AccessJwtCodec.issue]; [jti] is what the injected factory returns. *)
Definition AccessJwtCodec_issue (codec : AccessJwtCodec) (jti : UUID) (user_id : UUID) (role : UserRole)
    (issued_at : pyval) : res pystr :=
  match issued_at with
  | VInt issued_at =>
      _ ← raise_if (negb (bool_decide (uuid_version jti = Some 4)))
            (ValueError "jti factory must return a UUIDv4 value");
      Ok (jwt_encode (access_payload user_id role issued_at jti) (kp_private_key (active_key codec))
            [(py "kid", VStr (kp_kid (active_key codec))); (py "typ", VStr (py "JWT"))])
  | _ => Raise (ValueError "issued_at must be an integer NumericDate")
  end.

(** ** Verifying *)

(** [AccessJwtCodec._validate_claims] *)
Definition validate_claims (payload : dict) (now : Z) : res AccessTokenClaims :=
  _ ← raise_if (negb (key_set_is CLAIM_NAMES payload)) InvalidAccessToken;
  _ ← raise_if (negb (get_is (py "iss") ISSUER payload) || negb (get_is (py "aud") AUDIENCE payload))
        InvalidAccessToken;
  roles ← getitem (py "roles") payload;
  issued_at ← getitem (py "iat") payload;
  expires_at ← getitem (py "exp") payload;
  role_name ← match roles with VList [VStr r] => Ok r | _ => Raise InvalidAccessToken end;
  '(issued_at, expires_at) ← match issued_at, expires_at with
                             | VInt i, VInt e => Ok (i, e)
                             | _, _ => Raise InvalidAccessToken
                             end;
  _ ← raise_if (negb (expires_at =? issued_at + LIFETIME_SECONDS)) InvalidAccessToken;
  _ ← raise_if (expires_at + CLOCK_SKEW_SECONDS <=? now) InvalidAccessToken;
  _ ← raise_if (now + CLOCK_SKEW_SECONDS <? issued_at) InvalidAccessToken;
  sub ← getitem (py "sub") payload;
  jti_text ← getitem (py "jti") payload;
  match parse_UUID sub, parse_UUID jti_text, UserRole_call role_name with
  | Some user_id, Some jti, Some role =>
      _ ← raise_if (negb (bool_decide (VStr (uuid_str user_id) = sub))
                    || negb (bool_decide (VStr (uuid_str jti) = jti_text))
                    || negb (bool_decide (uuid_version jti = Some 4))) InvalidAccessToken;
      Ok (mkAccessTokenClaims user_id role issued_at expires_at jti)
  | _, _, _ => Raise InvalidAccessToken
  end.

Definition verify_token (codec : AccessJwtCodec) (token : pystr) (now : Z) : res AccessTokenClaims :=
  header ← jwt_get_unverified_header token;
  _ ← raise_if (negb (key_set_is HEADER_NAMES header)) InvalidAccessToken;
  _ ← raise_if (negb (get_is (py "alg") (py "RS256") header) || negb (get_is (py "typ") (py "JWT") header))
        InvalidAccessToken;
  key ← match dict_get (py "kid") header with
        | Some (VStr kid) =>
            match key_of kid (verification_keys codec) with
            | Some key => Ok key
            | None => Raise InvalidAccessToken
            end
        | _ => Raise InvalidAccessToken
        end;
  payload ← jwt_decode token key;
  validate_claims payload now.
(** [AccessJwtCodec.verify] *)
Definition AccessJwtCodec_verify (codec : AccessJwtCodec) (token : pystr) (now : Z) : res AccessTokenClaims :=
  catch (verify_token codec token now) (λ e, Raise (if token_error e then InvalidAccessToken else e)).

(** [RejectingAccessTokenVerifier.verify] *)
Definition Rejecting_verify (token : pystr) (now : Z) : res AccessTokenClaims := Raise InvalidAccessToken.

(** ** Key files *)

(** One key of the document. *)
Definition load_verification_key (keys : list (pystr * PublicKey)) (jwk : pyval) : res (list (pystr * PublicKey)) :=
  let error := JwtKeyConfigurationError "JWT public keyring file is invalid" in
  match jwk with
  | VDict jwk =>
      match dict_get (py "kid") jwk with
      | Some (VStr kid) =>
          _ ← raise_if (bool_decide (kid = []) || negb (isascii kid) || present (key_of kid keys)
                        || negb (get_is (py "kty") (py "RSA") jwk) || negb (get_is (py "alg") (py "RS256") jwk)
                        || negb (get_is (py "use") (py "sig") jwk)
                        || existsb (λ name, present (dict_get name jwk)) PRIVATE_JWK_PARAMETERS) error;
          match RSAAlgorithm_from_jwk jwk with
          | Ok (inl public) => Ok (keys ++ [(kid, public)])
          | Ok (inr _) => Raise error
          | Raise e => Raise (if jwk_error e then error else e)
          end
      | _ => Raise error
      end
  | _ => Raise error
  end.
(** [_load_verification_keys]; [document] is what [json.loads] of the file
    returns, if it can be read and parsed. *)
Definition load_verification_keys (document : option pyval) : res (list (pystr * PublicKey)) :=
  let error := JwtKeyConfigurationError "JWT public keyring file is invalid" in
  match document with
  | Some (VDict entries) =>
      match dict_get (py "keys") entries with
      | Some (VList jwks) => foldR load_verification_key [] jwks
      | _ => Raise error
      end
  | _ => Raise error
  end.

(** [build_access_jwt_codec]; the settings name a [kid] and two files, of which
    the first holds a private key if it can be loaded as RSA. *)
Definition build_access_jwt_codec (active_kid : option pystr) (private_key_file : option (option PrivateKey))
    (jwks_file : option (option pyval)) : res AccessJwtCodec :=
  match active_kid, private_key_file, jwks_file with
  | Some kid, Some private_key, Some document =>
      private_key ← match private_key with
                    | Some k => Ok k
                    | None => Raise (JwtKeyConfigurationError "JWT private key file is invalid")
                    end;
      keys ← load_verification_keys document;
      catch (active ← JwtKeyPair_from_private_key kid private_key; AccessJwtCodec_init active keys)
        (λ e, match e with
              | ValueError _ => Raise (JwtKeyConfigurationError "JWT key configuration is invalid")
              | _ => Raise e
              end)
  | _, _, _ => Raise (JwtKeyConfigurationError "JWT file settings are required")
  end.
End library.

(** ** Operational events *)

Record OperationalEvent := mkOperationalEvent {
  oe_name : OperationalEventName;
  oe_occurred_at : datetime;
  oe_request_id : option pystr;
  oe_client_ip : option ip_address;
}.
(** [OperationalEvent.__post_init__]; an ASCII character is printable from the
    space on, except DEL. *)
Definition OperationalEvent_init (e : OperationalEvent) : res OperationalEvent :=
  _ ← raise_if (match oe_client_ip e with Some (IPv6Address _ (Some _)) => true | _ => false end)
        (ValueError "client IP must be a validated address without a scope identifier");
  _ ← raise_if (is_naive (oe_occurred_at e)) (ValueError "operational event timestamp must be timezone-aware");
  _ ← raise_if (match oe_request_id e with
                | None => false
                | Some id => bool_decide (id = []) || (128 <? length id)%nat || negb (forallb (in_range 32 126) id)
                end) (ValueError "request_id must be a non-empty printable ASCII value");
  Ok e.

(** ** Principals *)

Section authenticate.
Context `{UnicodeData}.
Variable verify : pystr → Z → res AccessTokenClaims.

(** [_reject]: the events the sink is given; what the sink or the event raises
    is swallowed. *)
Definition reject_events (occurred_at : datetime) (request_id : option pystr) : list OperationalEvent :=
  match OperationalEvent_init (mkOperationalEvent INVALID_ACCESS_TOKEN occurred_at request_id None) with
  | Ok e => [e]
  | Raise _ => []
  end.

(** [AuthenticateHumanPrincipal.execute]: the events and the result.
    [int(timestamp())] is exact while the float of the clock has microseconds. *)
Definition AuthenticateHumanPrincipal (occurred_at : datetime) (token : option pystr)
    (request_id : option pystr) : list OperationalEvent * res HumanPrincipal :=
  if is_naive occurred_at then
    ([], Raise (ValueError "authentication clock must return a timezone-aware datetime"))
  else
    let rejected := (reject_events occurred_at request_id, Raise InvalidAccessToken) in
    match token with
    | None | Some [] => rejected
    | Some token =>
        match verify token (unix_seconds (instant occurred_at)) with
        | Ok claims => ([], Ok (mkHumanPrincipal (tc_user_id claims) (tc_role claims)))
        | Raise InvalidAccessToken => rejected
        | Raise e => ([], Raise e)
        end
    end.

(** [require_human_principal]; [HTTPBearer] has split the Authorization header
    into a scheme and credentials. *)
Definition require_human_principal (occurred_at : datetime) (credentials : option (pystr * pystr))
    : list OperationalEvent * res HumanPrincipal :=
  let token := match credentials with
               | Some (scheme, token) => if bool_decide (str_casefold scheme = py "bearer") then Some token else None
               | None => None
               end in
  AuthenticateHumanPrincipal occurred_at token None.

(** [require_authorized_principal] *)
Definition require_authorized_principal (occurred_at : datetime) (credentials : option (pystr * pystr))
    (action : AuthorizationAction) : list OperationalEvent * res HumanPrincipal :=
  let '(events, principal) := require_human_principal occurred_at credentials in
  (events, p ← principal; authorize p action).
End authenticate.
