(* ===== verification/AccessTokenSpecs.v ===== *)
(** * What access tokens guarantee

    A token the codec issues is accepted in a window of 960 seconds and returns
    exactly its user and role; whatever is accepted has the fixed profile, under
    a registered key; and a browser session's token authenticates its user at
    every guarded operation its role permits. *)

From S2P Require Import Prelude Python Exceptions Uuids Auth MutationAudit Accounts Credentials Sessions AccountInvariant AccountSpecs SessionSpecs AccountClaims AccessTokens.
Local Open Scope Z_scope.

(** ** Membership of the payload *)

Lemma key_set_is_spec names entries :
  key_set_is names entries = true ↔
  (∀ k, k ∈ names → is_Some (dict_get k entries)) ∧ (∀ p, p ∈ entries → p.1 ∈ names).
Proof.
  unfold key_set_is. rewrite andb_true_iff, !forallb_forall. split; intros [H1 H2]; split; intros x Hx.
  - specialize (H1 x (proj1 (list_elem_of_In _ _) Hx)). destruct (dict_get x entries); [by eexists|done].
  - specialize (H2 x (proj1 (list_elem_of_In _ _) Hx)). by apply bool_decide_eq_true in H2.
  - apply list_elem_of_In in Hx. destruct (H1 x Hx) as [? ->]. done.
  - apply list_elem_of_In in Hx. by apply bool_decide_eq_true, H2.
Qed.

Lemma get_is_spec key value entries : get_is key value entries = true ↔ dict_get key entries = Some (VStr value).
Proof.
  unfold get_is. destruct (dict_get key entries) as [[| | | |s| |]|]; try (split; [done|by intros [=]]).
  rewrite bool_decide_eq_true. split; [by intros ->|by intros [= ->]].
Qed.

Lemma getitem_Ok key entries v : getitem key entries = Ok v ↔ dict_get key entries = Some v.
Proof. unfold getitem. destruct (dict_get key entries); split; congruence. Qed.

Lemma UserRole_call_value r : UserRole_call (UserRole_value r) = Some r.
Proof. by destruct r. Qed.
Lemma UserRole_call_Some s r : UserRole_call s = Some r → s = UserRole_value r.
Proof. unfold UserRole_call. by intros [_ Hs%bool_decide_eq_true]%find_some. Qed.

Section library.
Context `{UnicodeData} `{JwtLibrary}.

(** ** The claims *)

(** What a payload has to be. *)
Record claims_of (payload : dict) (c : AccessTokenClaims) : Prop := {
  co_keys : key_set_is CLAIM_NAMES payload = true;
  co_iss : dict_get (py "iss") payload = Some (VStr ISSUER);
  co_aud : dict_get (py "aud") payload = Some (VStr AUDIENCE);
  co_sub : dict_get (py "sub") payload = Some (VStr (uuid_str (tc_user_id c)));
  co_roles : dict_get (py "roles") payload = Some (VList [VStr (UserRole_value (tc_role c))]);
  co_iat : dict_get (py "iat") payload = Some (VInt (tc_issued_at c));
  co_exp : dict_get (py "exp") payload = Some (VInt (tc_expires_at c));
  co_jti : dict_get (py "jti") payload = Some (VStr (uuid_str (tc_jti c)));
  co_lifetime : tc_expires_at c = tc_issued_at c + LIFETIME_SECONDS;
  co_version : uuid_version (tc_jti c) = Some 4;
}.
(** When a token is accepted: up to 30 seconds before and after its lifetime. *)
Definition in_window (issued_at now : Z) : Prop :=
  issued_at - CLOCK_SKEW_SECONDS ≤ now < issued_at + LIFETIME_SECONDS + CLOCK_SKEW_SECONDS.
#[export] Instance in_window_dec issued_at now : Decision (in_window issued_at now).
Proof. unfold in_window. apply _. Defined.

Lemma parse_UUID_ok v u : parse_UUID v = Some u → uuid_ok u.
Proof.
  unfold parse_UUID. destruct v; try done. cbv zeta. case_match; [|done].
  intros (n & _ & Hn)%bind_Some. case_match eqn:E; [|done]. injection Hn as <-. unfold uuid_ok. lia.
Qed.

Lemma validate_claims_spec payload now c :
  validate_claims payload now = Ok c ↔
  claims_of payload c ∧ in_window (tc_issued_at c) now ∧ uuid_ok (tc_user_id c) ∧ uuid_ok (tc_jti c).
Proof.
  unfold in_window. split.
  - unfold validate_claims. intros Hv.
    apply bind_Ok in Hv as ([] & Hkeys%raise_if_Ok%negb_false_iff & Hv).
    apply bind_Ok in Hv as ([] & Hia%raise_if_Ok & Hv).
    apply orb_false_iff in Hia as [Hiss%negb_false_iff%get_is_spec Haud%negb_false_iff%get_is_spec].
    apply bind_Ok in Hv as (roles & Hroles%getitem_Ok & Hv). apply bind_Ok in Hv as (iat & Hiat%getitem_Ok & Hv).
    apply bind_Ok in Hv as (exp & Hexp%getitem_Ok & Hv). apply bind_Ok in Hv as (role_name & Hname & Hv).
    apply bind_Ok in Hv as ([issued_at expires_at] & Htimes & Hv).
    destruct roles as [| | | | |[|[| | | |name| |] [|]]|]; try done. injection Hname as ->.
    destruct iat, exp; try done. injection Htimes as -> ->.
    apply bind_Ok in Hv as ([] & Hlife%raise_if_Ok%negb_false_iff%Z.eqb_eq & Hv).
    apply bind_Ok in Hv as ([] & Hnow%raise_if_Ok%Z.leb_gt & Hv).
    apply bind_Ok in Hv as ([] & Hfuture%raise_if_Ok%Z.ltb_ge & Hv).
    apply bind_Ok in Hv as (sub & Hsub%getitem_Ok & Hv). apply bind_Ok in Hv as (jti & Hjti%getitem_Ok & Hv).
    destruct (parse_UUID sub) as [user_id|] eqn:Eu; [|done]. destruct (parse_UUID jti) as [j|] eqn:Ej; [|done].
    destruct (UserRole_call role_name) as [role|] eqn:Er; [|done].
    apply bind_Ok in Hv as ([] & Hc%raise_if_Ok & Hv). injection Hv as <-.
    apply orb_false_iff in Hc as [[Hs%negb_false_iff%bool_decide_eq_true Hj%negb_false_iff%bool_decide_eq_true]%orb_false_iff
      Hver%negb_false_iff%bool_decide_eq_true].
    apply UserRole_call_Some in Er as ->. cbn. split_and!; [|unfold CLOCK_SKEW_SECONDS, LIFETIME_SECONDS in *; lia..| |].
    + by split; cbn; rewrite ?Hs, ?Hj.
    + by apply parse_UUID_ok in Eu.
    + by apply parse_UUID_ok in Ej.
  - intros ([Hkeys Hiss Haud Hsub Hroles Hiat Hexp Hjti Hlife Hver] & Hw & Hu & Hj). unfold validate_claims.
    rewrite Hkeys, (proj2 (get_is_spec _ _ _) Hiss), (proj2 (get_is_spec _ _ _) Haud).
    rewrite (proj2 (getitem_Ok _ _ _) Hroles), (proj2 (getitem_Ok _ _ _) Hiat), (proj2 (getitem_Ok _ _ _) Hexp).
    rewrite (proj2 (getitem_Ok _ _ _) Hsub), (proj2 (getitem_Ok _ _ _) Hjti).
    cbn [negb orb raise_if mbind result_bind]. rewrite (proj2 (Z.eqb_eq _ _) Hlife).
    rewrite (proj2 (Z.leb_gt _ _)), (proj2 (Z.ltb_ge _ _)) by lia.
    cbn [negb raise_if mbind result_bind]. rewrite !parse_UUID_str, UserRole_call_value, Hver by done.
    rewrite !bool_decide_eq_true_2 by done. by destruct c.
Qed.

Lemma validate_claims_raises payload now :
  raises_only (λ e, e = InvalidAccessToken ∨ e = KeyError) (validate_claims payload now).
Proof. unfold validate_claims, getitem. raises; auto. Qed.

(** ** Verification *)

(** The registered key a token names. *)
Definition token_key (codec : AccessJwtCodec) (token : pystr) (key : PublicKey) : Prop :=
  ∃ header kid, jwt_get_unverified_header token = Ok header ∧ key_set_is HEADER_NAMES header = true ∧
    dict_get (py "alg") header = Some (VStr (py "RS256")) ∧ dict_get (py "typ") header = Some (VStr (py "JWT")) ∧
    dict_get (py "kid") header = Some (VStr kid) ∧ key_of kid (verification_keys codec) = Some key.

Lemma verify_token_Ok codec token now c :
  verify_token codec token now = Ok c ↔
  ∃ key payload, token_key codec token key ∧ jwt_decode token key = Ok payload ∧ validate_claims payload now = Ok c.
Proof.
  unfold verify_token, token_key. split.
  - intros Hv. apply bind_Ok in Hv as (header & Hh & Hv).
    apply bind_Ok in Hv as ([] & Hkeys%raise_if_Ok%negb_false_iff & Hv).
    apply bind_Ok in Hv as ([] & Hat%raise_if_Ok & Hv).
    apply orb_false_iff in Hat as [Halg%negb_false_iff%get_is_spec Htyp%negb_false_iff%get_is_spec].
    apply bind_Ok in Hv as (key & Hkey & Hv). apply bind_Ok in Hv as (payload & Hp & Hv).
    destruct (dict_get (py "kid") header) as [[| | | |kid| |]|] eqn:Ek; try done.
    destruct (key_of kid (verification_keys codec)) as [key'|] eqn:E; [|done]. injection Hkey as ->.
    exists key, payload. split_and!; [|done..]. exists header, kid. done.
  - intros (key & payload & (header & kid & Hh & Hkeys & Halg & Htyp & Hk & Hkey) & Hp & Hv).
    rewrite Hh. cbn [mbind result_bind]. rewrite ?Hk.
    rewrite Hkeys, (proj2 (get_is_spec _ _ _) Halg), (proj2 (get_is_spec _ _ _) Htyp), Hkey.
    cbn [negb orb raise_if mbind result_bind]. by rewrite Hp.
Qed.

(** What the codec relies on: what the library raises, and the round trip of a
    payload whose registered claims it checks. *)
Definition checked_payload (payload : dict) : Prop :=
  (∀ name, name ∈ CLAIM_NAMES → is_Some (dict_get name payload)) ∧
  dict_get (py "iss") payload = Some (VStr ISSUER) ∧ dict_get (py "aud") payload = Some (VStr AUDIENCE) ∧
  (∃ sub, dict_get (py "sub") payload = Some (VStr sub)) ∧ (∃ jti, dict_get (py "jti") payload = Some (VStr jti)).
Record jwt_documented : Prop := {
  jd_header_errors : ∀ token, raises_only (λ e, token_error e = true) (jwt_get_unverified_header token);
  jd_decode_errors : ∀ token key, raises_only (λ e, token_error e = true) (jwt_decode token key);
  jd_header : ∀ payload key kid,
    jwt_get_unverified_header (jwt_encode payload key [(py "kid", VStr kid); (py "typ", VStr (py "JWT"))]) =
    Ok [(py "typ", VStr (py "JWT")); (py "alg", VStr (py "RS256")); (py "kid", VStr kid)];
  jd_nonempty : ∀ payload key headers, jwt_encode payload key headers ≠ [];
  jd_decode : ∀ payload private headers public,
    public_numbers public = public_numbers (public_key private) → checked_payload payload →
    jwt_decode (jwt_encode payload private headers) public = Ok payload;
}.
Hypothesis library : jwt_documented.

Lemma verify_token_raises codec token now :
  raises_only (λ e, e = InvalidAccessToken ∨ token_error e = true) (verify_token codec token now).
Proof.
  unfold verify_token. apply raises_bind.
  { eapply raises_impl; [apply (jd_header_errors library)|auto]. }
  intros header _. do 3 (apply raises_bind; [raises; auto|intros ? _]).
  apply raises_bind; [eapply raises_impl; [apply (jd_decode_errors library)|auto]|].
  intros payload _. eapply raises_impl; [apply validate_claims_raises|]. intros e [->| ->]; auto.
Qed.

Lemma AccessJwtCodec_verify_spec codec token now c :
  (AccessJwtCodec_verify codec token now = Ok c ↔ verify_token codec token now = Ok c) ∧
  (∀ e, AccessJwtCodec_verify codec token now = Raise e → e = InvalidAccessToken).
Proof.
  unfold AccessJwtCodec_verify. pose proof (verify_token_raises codec token now) as Hr.
  destruct (verify_token codec token now) as [c'|e]; cbn; [by split|].
  destruct (Hr e eq_refl) as [->|He]; cbn; [|rewrite He]; (split; [done|by intros e' [= <-]]).
Qed.

(** ** Issuing *)

Lemma issue_Ok codec jti user_id role issued_at token :
  AccessJwtCodec_issue codec jti user_id role issued_at = Ok token ↔
  ∃ t, issued_at = VInt t ∧ uuid_version jti = Some 4 ∧
    token = jwt_encode (access_payload user_id role t jti) (kp_private_key (active_key codec))
              [(py "kid", VStr (kp_kid (active_key codec))); (py "typ", VStr (py "JWT"))].
Proof.
  unfold AccessJwtCodec_issue. split.
  - destruct issued_at as [| |t| | | |]; try done. intros Hi.
    apply bind_Ok in Hi as ([] & Hv%raise_if_Ok%negb_false_iff%bool_decide_eq_true & [= <-]). by exists t.
  - intros (t & -> & Hv & ->). by rewrite bool_decide_eq_true_2.
Qed.

Lemma AccessJwtCodec_init_Ok active keys codec :
  AccessJwtCodec_init active keys = Ok codec →
  codec = mkAccessJwtCodec active keys ∧ Forall (λ p, 2048 ≤ public_key_size p.2) keys ∧
  ∃ registered, key_of (kp_kid active) keys = Some registered ∧
    public_numbers registered = public_numbers (public_key (kp_private_key active)).
Proof.
  unfold AccessJwtCodec_init. intros Hi. apply bind_Ok in Hi as ([] & Hsize%raise_if_Ok & Hi).
  destruct (key_of (kp_kid active) keys) as [registered|]; [|done].
  apply bind_Ok in Hi as ([] & Hn%raise_if_Ok%negb_false_iff%bool_decide_eq_true & [= <-]).
  split_and!; [done| |by exists registered].
  apply existsb_false in Hsize. eapply Forall_impl; [exact Hsize|]. intros p Hp. by apply Z.ltb_ge in Hp.
Qed.

Lemma issued_claims user_id role t jti :
  uuid_version jti = Some 4 →
  claims_of (access_payload user_id role t jti) (mkAccessTokenClaims user_id role t (t + LIFETIME_SECONDS) jti).
Proof. by split. Qed.

Lemma claims_unique payload c c' :
  claims_of payload c → claims_of payload c' → uuid_ok (tc_user_id c) → uuid_ok (tc_jti c) →
  uuid_ok (tc_user_id c') → uuid_ok (tc_jti c') → c = c'.
Proof.
  intros [_ _ _ Hs Hr Hi He Hj _ _] [_ _ _ Hs' Hr' Hi' He' Hj' _ _] Hu Hv Hu' Hv'.
  destruct c as [u r i e j], c' as [u' r' i' e' j']. cbn in *.
  assert (u = u') as ->.
  { apply (f_equal (λ v, from_option parse_UUID None v)) in Hs. rewrite Hs' in Hs. cbn [from_option] in Hs.
    rewrite !parse_UUID_str in Hs by done. congruence. }
  assert (j = j') as ->.
  { apply (f_equal (λ v, from_option parse_UUID None v)) in Hj. rewrite Hj' in Hj. cbn [from_option] in Hj.
    rewrite !parse_UUID_str in Hj by done. congruence. }
  f_equal; [|congruence..]. rewrite Hr in Hr'. injection Hr' as Hr'. by destruct r, r'.
Qed.

Lemma issued_verifies active keys codec jti user_id role t token now :
  AccessJwtCodec_init active keys = Ok codec → uuid_ok user_id → uuid_ok jti →
  AccessJwtCodec_issue codec jti user_id role (VInt t) = Ok token →
  AccessJwtCodec_verify codec token now =
  if bool_decide (in_window t now) then Ok (mkAccessTokenClaims user_id role t (t + LIFETIME_SECONDS) jti)
  else Raise InvalidAccessToken.
Proof.
  intros (-> & _ & registered & Hkey & Hnum)%AccessJwtCodec_init_Ok Hu Hj
    (t' & [= <-] & Hver & ->)%issue_Ok. cbn [active_key].
  set (token := jwt_encode _ _ _). set (codec := mkAccessJwtCodec active keys).
  assert (token_key codec token registered) as Htk.
  { exists [(py "typ", VStr (py "JWT")); (py "alg", VStr (py "RS256")); (py "kid", VStr (kp_kid active))], (kp_kid active).
    split_and!; [apply (jd_header library)|reflexivity..|done]. }
  assert (jwt_decode token registered = Ok (access_payload user_id role t jti)) as Hdec.
  { apply (jd_decode library); [done|]. split_and!; [|reflexivity|reflexivity|eexists; reflexivity..].
    exact (proj1 (proj1 (key_set_is_spec CLAIM_NAMES (access_payload user_id role t jti)) eq_refl)). }
  destruct (AccessJwtCodec_verify_spec codec token now (mkAccessTokenClaims user_id role t (t + LIFETIME_SECONDS) jti))
    as [Hiff Herr].
  case_bool_decide as Hw.
  - apply Hiff, verify_token_Ok. exists registered, (access_payload user_id role t jti). split_and!; [done..|].
    apply validate_claims_spec. split_and!; [by apply issued_claims|done..].
  - destruct (AccessJwtCodec_verify codec token now) as [c|e] eqn:E; [|by rewrite (Herr e)]. exfalso.
    apply (AccessJwtCodec_verify_spec codec token now c), verify_token_Ok in E as (key & payload & Htk' & Hdec' & Hv).
    assert (key = registered) as ->.
    { destruct Htk as (h & k & Hh & _ & _ & _ & Hk & Hkey'), Htk' as (h' & k' & Hh' & _ & _ & _ & Hk' & Hkey''). congruence. }
    rewrite Hdec in Hdec'. injection Hdec' as <-. apply validate_claims_spec in Hv as (Hc & Hwin & Huc & Hjc).
    assert (c = mkAccessTokenClaims user_id role t (t + LIFETIME_SECONDS) jti) as ->; [|done].
    by apply (claims_unique (access_payload user_id role t jti)); [|apply issued_claims|..].
Qed.

(** ** The claims *)

(** C29: the window of an access token.  A token the codec issues for a user and
    a role verifies under the same codec from 30 seconds before the moment of issue
    until 930 seconds after it, then and only then, and gives back that user, that
    role and a lifetime of 900 seconds. *)
Theorem access_token_window (active : JwtKeyPair) (keys : list (pystr * PublicKey)) (codec : AccessJwtCodec)
    (jti user_id : UUID) (role : UserRole) (t now : Z) (token : pystr) :
  AccessJwtCodec_init active keys = Ok codec → uuid_ok user_id → uuid_ok jti →
  AccessJwtCodec_issue codec jti user_id role (VInt t) = Ok token →
  AccessJwtCodec_verify codec token now =
  (if (t - 30 <=? now) && (now <? t + 930) then Ok (mkAccessTokenClaims user_id role t (t + 900) jti)
   else Raise InvalidAccessToken).
Proof.
  intros Hi Hu Hj Ht. rewrite (issued_verifies _ _ _ _ _ _ _ _ _ Hi Hu Hj Ht).
  assert (bool_decide (in_window t now) = (t - 30 <=? now) && (now <? t + 930)) as ->; [|done].
  apply eq_true_iff_eq. rewrite bool_decide_eq_true, andb_true_iff, Z.leb_le, Z.ltb_lt.
  unfold in_window, LIFETIME_SECONDS, CLOCK_SKEW_SECONDS. lia.
Qed.

(** C28: what the verifier accepts.  Exactly the tokens whose header has the
    fixed profile and names a registered key, under which the library decodes a
    payload with the seven claims, issuer, audience and one role, canonical
    identifiers with a UUIDv4 jti and a lifetime of 900 seconds that contains the
    present up to 30 seconds; everything else is refused with the same error,
    which also is all the fallback verifier says. *)
Theorem verify_accepts_exactly (codec : AccessJwtCodec) (token : pystr) (now : Z) (c : AccessTokenClaims) :
  (AccessJwtCodec_verify codec token now = Ok c ↔
   ∃ key payload, token_key codec token key ∧ jwt_decode token key = Ok payload ∧ claims_of payload c ∧
     in_window (tc_issued_at c) now ∧ uuid_ok (tc_user_id c) ∧ uuid_ok (tc_jti c)) ∧
  (∀ e, AccessJwtCodec_verify codec token now = Raise e → e = InvalidAccessToken) ∧
  Rejecting_verify token now = Raise InvalidAccessToken.
Proof.
  destruct (AccessJwtCodec_verify_spec codec token now c) as [Hiff Herr]. split_and!; [|done|done].
  rewrite Hiff, verify_token_Ok. by setoid_rewrite validate_claims_spec.
Qed.
End library.

Section sessions.
Context `{UnicodeData} `{AuthServices} `{JwtLibrary}.
Hypothesis library : jwt_documented.

(** The signer of the sessions is the codec. *)
Definition signs_with (codec : AccessJwtCodec) (jti : UUID → UserRole → Z → UUID) : Prop :=
  (∀ id role t, uuid_ok (jti id role t)) ∧
  ∀ id role t, issue_access id role t = AccessJwtCodec_issue codec (jti id role t) id role (VInt t).

Lemma grant_access env seen fake email password token db g :
  accounts_ok db →
  oc_result (login env seen fake email password db) = Ok g ∨ oc_result (refresh env seen token db) = Ok g →
  ∃ r, users db !! us_id r = Some r ∧ us_status r = ACTIVE ∧
    issue_access (us_id r) (us_role r) (unix_seconds (ae_now env)) = Ok (sg_access_token g).
Proof.
  intros Hok [Hg|Hg].
  - apply login_Ok in Hg as (id0 & row0 & r & access & refresh' & id & _ & _ & _ & _ & Hr & Hid & Hst & _ & -> & Hacc & _);
      [|done]. exists r. by rewrite Hid in *.
  - apply refresh_Ok in Hg as (target & u & _ & Hu & Htx); [|done].
    apply locked_row in Hu as (r & Hr & Hid & Hu); [|done].
    destruct (user_from_record_Ok _ _ Hu) as (Huid & Hrole & Hst & _).
    apply refresh_transaction_Ok in Htx as (f & t & _ & _ & Hact & _ & _ & _ & _ & _ & _ & _ & access & refresh' & next &
      -> & Hacc & _); [|done].
    exists r. rewrite Huid, Hrole in Hacc. rewrite Hid. split_and!; [done| |by rewrite <- Hid]. congruence.
Qed.

(** C30: from a session to an authorized request.  The access token a login or a
    rotation returns authenticates as an ACTIVE user of the database, with the role
    stored there: sent with the scheme Bearer in any case, at a time in its window,
    it passes the guard of every operation that role permits and of no other,
    without an event; outside the window it is refused and the refusal is logged.
    No state is read: disabling the user takes effect when the window ends. *)
Theorem session_token_authorizes (active : JwtKeyPair) (keys : list (pystr * PublicKey)) (codec : AccessJwtCodec)
    (jti : UUID → UserRole → Z → UUID) (env : AuthEnv) (seen : ADB) (fake email password token : pystr) (db : ADB)
    (g : SessionGrant) :
  AccessJwtCodec_init active keys = Ok codec → signs_with codec jti →
  accounts_ok db → (∀ id r, users db !! id = Some r → uuid_ok id) →
  oc_result (login env seen fake email password db) = Ok g ∨ oc_result (refresh env seen token db) = Ok g →
  ∃ r, users db !! us_id r = Some r ∧ us_status r = ACTIVE ∧
    ∀ clock scheme action, is_naive clock = false → str_casefold scheme = py "bearer" →
      require_authorized_principal (AccessJwtCodec_verify codec) clock (Some (scheme, sg_access_token g)) action =
      if bool_decide (in_window (unix_seconds (ae_now env)) (unix_seconds (instant clock))) then
        ([], if bool_decide (action ∈ ALLOWED_ACTIONS (us_role r)) then Ok (mkHumanPrincipal (us_id r) (us_role r))
             else Raise AuthorizationDenied)
      else ([mkOperationalEvent INVALID_ACCESS_TOKEN clock None None], Raise InvalidAccessToken).
Proof.
  intros Hi [Hj Hsign] Hok Hids Hg. destruct (grant_access _ _ _ _ _ _ _ _ Hok Hg) as (r & Hr & Hact & Hacc).
  rewrite Hsign in Hacc. exists r. split_and!; [done..|]. intros clock scheme action Hclock Hscheme.
  unfold require_authorized_principal, require_human_principal. rewrite bool_decide_eq_true_2 by done.
  unfold AuthenticateHumanPrincipal. rewrite Hclock.
  destruct (sg_access_token g) as [|ch rest] eqn:Etoken.
  { exfalso. apply issue_Ok in Hacc as (? & _ & _ & Hnil). symmetry in Hnil. by apply (jd_nonempty library) in Hnil. }
  rewrite <- Etoken in *. rewrite (issued_verifies library _ _ _ _ _ _ _ _ _ Hi (Hids _ _ Hr) (Hj _ _ _) Hacc).
  unfold reject_events, OperationalEvent_init. cbn [oe_client_ip oe_occurred_at oe_request_id]. rewrite Hclock.
  case_bool_decide as Hw; [|done]. cbn [mbind result_bind tc_user_id tc_role]. unfold authorize. cbn [principal_role].
  by case_bool_decide.
Qed.
End sessions.

(** ** Witnesses

    A library that writes the payload, the key and the headers into the token
    as a number and reads them back, checking the key. *)

Fixpoint pyval_tree (v : pyval) : gen_tree (pystr + Z) :=
  match v with
  | VNone => GenNode 0 []
  | VBool b => GenNode (if b then 1 else 2)%nat []
  | VInt z => GenNode 3 [GenLeaf (inr z)]
  | VFloat s => GenNode 4 [GenLeaf (inl s)]
  | VStr s => GenNode 5 [GenLeaf (inl s)]
  | VList l => GenNode 6 (map pyval_tree l)
  | VDict l => GenNode 7 (map (λ p, GenNode 8 [GenLeaf (inl p.1); pyval_tree p.2]) l)
  end.
Fixpoint tree_pyval (t : gen_tree (pystr + Z)) : pyval :=
  match t with
  | GenNode 1 [] => VBool true
  | GenNode 2 [] => VBool false
  | GenNode 3 [GenLeaf (inr z)] => VInt z
  | GenNode 4 [GenLeaf (inl s)] => VFloat s
  | GenNode 5 [GenLeaf (inl s)] => VStr s
  | GenNode 6 l => VList (map tree_pyval l)
  | GenNode 7 l => VDict (map (λ t, match t with
                                     | GenNode 8 [GenLeaf (inl k); t] => (k, tree_pyval t)
                                     | _ => ([], VNone)
                                     end) l)
  | _ => VNone
  end.
Lemma tree_pyval_tree v : tree_pyval (pyval_tree v) = v.
Proof.
  revert v. fix go 1. intros [| [|] | | | |l|l]; try reflexivity; cbn [pyval_tree tree_pyval]; apply f_equal.
  - induction l as [|v l IH]; cbn; [reflexivity|]. apply f_equal2; [apply go|exact IH].
  - induction l as [|[k v] l IH]; cbn; [reflexivity|]. apply f_equal2; [apply f_equal, go|exact IH].
Qed.
#[local] Instance pyval_countable : Countable pyval.
Proof. apply (inj_countable' pyval_tree tree_pyval), tree_pyval_tree. Defined.

Definition encoded (token : pystr) : option (dict * Z * dict) :=
  match token with [Zpos p] => decode p | _ => None end.
Definition checked (payload : dict) : bool :=
  forallb (λ name, present (dict_get name payload)) CLAIM_NAMES
  && get_is (py "iss") ISSUER payload && get_is (py "aud") AUDIENCE payload.
#[local] Instance test_jwt : JwtLibrary := {|
  PrivateKey := Z; PublicKey := Z; public_key k := k; private_key_size _ := 2048; public_key_size _ := 2048;
  public_numbers k := (k, 65537);
  jwt_encode payload key headers := [Zpos (encode (payload, key, headers))];
  jwt_get_unverified_header token :=
    match encoded token with
    | Some (_, _, [kid; typ]) => Ok [typ; (py "alg", VStr (py "RS256")); kid]
    | _ => Raise PyJWTError
    end;
  jwt_decode token key :=
    match encoded token with
    | Some (payload, key', _) => if (key' =? key) && checked payload then Ok payload else Raise PyJWTError
    | None => Raise PyJWTError
    end;
  RSAAlgorithm_from_jwk jwk := Raise InvalidKeyError;
|}.

Lemma test_jwt_documented : jwt_documented.
Proof.
  split.
  - intros token e. cbn. destruct (encoded token) as [[[? ?] [|? [|? [|]]]]|]; by intros [= <-].
  - intros token key e. cbn. destruct (encoded token) as [[[? ?] ?]|]; [|by intros [= <-]].
    case_match; [done|]. by intros [= <-].
  - intros payload key kid. cbn -[encode]. by rewrite decode_encode.
  - done.
  - intros payload private headers public Hk (Hn & Hi & Ha & _). cbn -[encode]. rewrite decode_encode.
    injection Hk as ->. rewrite Z.eqb_refl. unfold checked.
    rewrite (proj2 (get_is_spec _ _ _) Hi), (proj2 (get_is_spec _ _ _) Ha).
    assert (forallb (λ name, present (dict_get name payload)) CLAIM_NAMES = true) as ->; [|done].
    apply forallb_forall. intros name Hname%list_elem_of_In. by destruct (Hn name Hname) as [? ->].
Qed.

#[local] Existing Instance ascii_data.
Definition test_private : @PrivateKey test_jwt := 7.
Definition test_public (k : Z) : @PublicKey test_jwt := k.
Definition test_active : JwtKeyPair := mkJwtKeyPair (py "k1") test_private.
Definition test_keys : list (pystr * PublicKey) := [(py "k0", test_public 5); (py "k1", test_public 7)].
Definition test_codec : AccessJwtCodec := mkAccessJwtCodec test_active test_keys.
Definition test_jti : UUID := 4 * 2 ^ 76 + 2 ^ 63 + 9.

Lemma access_token_window_witness :
  ∃ token, AccessJwtCodec_issue test_codec test_jti 5 ADMIN (VInt 1000) = Ok token ∧
    AccessJwtCodec_verify test_codec token 969 = Raise InvalidAccessToken ∧
    AccessJwtCodec_verify test_codec token 970 = Ok (mkAccessTokenClaims 5 ADMIN 1000 1900 test_jti) ∧
    AccessJwtCodec_verify test_codec token 1929 = Ok (mkAccessTokenClaims 5 ADMIN 1000 1900 test_jti) ∧
    AccessJwtCodec_verify test_codec token 1930 = Raise InvalidAccessToken.
Proof.
  eexists. split; [reflexivity|].
  split_and!; rewrite (access_token_window test_jwt_documented test_active test_keys test_codec test_jti 5 ADMIN 1000);
    first [reflexivity|by vm_compute].
Defined.

Lemma verify_accepts_exactly_witness :
  ∃ token, AccessJwtCodec_verify test_codec token 1000 = Ok (mkAccessTokenClaims 5 ADMIN 1000 1900 test_jti) ∧
    AccessJwtCodec_verify test_codec (py "x") 1000 = Raise InvalidAccessToken.
Proof.
  exists (jwt_encode (access_payload 5 ADMIN 1000 test_jti) test_private [(py "kid", VStr (py "k1")); (py "typ", VStr (py "JWT"))]).
  split; [|reflexivity].
  destruct (verify_accepts_exactly test_jwt_documented test_codec
    (jwt_encode (access_payload 5 ADMIN 1000 test_jti) test_private [(py "kid", VStr (py "k1")); (py "typ", VStr (py "JWT"))])
    1000 (mkAccessTokenClaims 5 ADMIN 1000 1900 test_jti)) as [Hiff _].
  apply Hiff. exists (test_public 7), (access_payload 5 ADMIN 1000 test_jti). split_and!.
  - exists [(py "typ", VStr (py "JWT")); (py "alg", VStr (py "RS256")); (py "kid", VStr (py "k1"))], (py "k1").
    split_and!; [apply (jd_header test_jwt_documented)|reflexivity..].
  - apply (jd_decode test_jwt_documented); [reflexivity|].
    split_and!; [exact (proj1 (proj1 (key_set_is_spec _ _) (eq_refl : key_set_is CLAIM_NAMES (access_payload 5 ADMIN 1000 test_jti) = true)))|reflexivity..|eexists; reflexivity|eexists; reflexivity].
  - by apply issued_claims.
  - vm_compute. split; [discriminate|reflexivity].
  - by vm_compute.
  - by vm_compute.
Defined.

(** The services of the sessions, signing with the codec. *)
#[local] Instance signing_services : AuthServices := {|
  validate_email := @validate_email test_services;
  password_hash := @password_hash test_services;
  password_verify := @password_verify test_services;
  issue_access id role now := AccessJwtCodec_issue test_codec test_jti id role (VInt now);
|}.
Definition signed_login : outcome SessionGrant :=
  login (test_env 30) (oc_db test_rotation) (py "") (py "ann@x.io") (py "staple staple staple") (oc_db test_rotation).

Lemma signed_login_ok : accounts_ok (oc_db test_rotation) ∧ ∃ g, oc_result signed_login = Ok g.
Proof.
  assert (accounts_ok (oc_db test_rotation)) as Hok by (destruct test_rotation_ok; split; assumption). split; [exact Hok|].
  assert (∃ u, get_by_email (py "ann@x.io") (oc_db test_rotation) = Ok (Some u) ∧ user_status u = ACTIVE ∧
    password_verify (py "staple staple staple") (user_password_hash u) = Ok true) as (u & Hu & Ha & Hv).
  { eexists. split; [vm_compute; reflexivity|]. split; vm_compute; reflexivity. }
  assert (fresh_session (test_env 30) (oc_db test_rotation)) as Hf.
  { split; [vm_compute; reflexivity|]. split; [vm_compute; reflexivity|]. split; [vm_compute; reflexivity|].
    apply map_Forall_to_list. vm_compute. repeat constructor; discriminate. }
  assert (map_Forall (λ _ f, fr_created_at f ≤ ae_now (test_env 30)) (families (oc_db test_rotation))) as Hc.
  { apply (bool_decide_unpack _). vm_compute. exact I. }
  pose proof (login_succeeds (test_env 30) (oc_db test_rotation) Hok Hf Hc (λ id role now, eq_refl)
    (py "") (py "ann@x.io") (py "staple staple staple") u Hu Ha Hv) as Hlogin. fold signed_login in Hlogin.
  destruct (oc_result signed_login) as [g|e]; [by exists g|done].
Qed.

Lemma session_token_authorizes_witness :
  ∃ g r, oc_result signed_login = Ok g ∧ users (oc_db test_rotation) !! us_id r = Some r ∧
    require_authorized_principal (AccessJwtCodec_verify test_codec) (utc (seconds 900))
      (Some (py "bearer", sg_access_token g)) READ_DATA = ([], Ok (mkHumanPrincipal (us_id r) (us_role r))).
Proof.
  destruct signed_login_ok as [Hok [g Hg]].
  destruct (session_token_authorizes test_jwt_documented test_active test_keys test_codec (λ _ _ _, test_jti) (test_env 30)
    (oc_db test_rotation) (py "") (py "ann@x.io") (py "staple staple staple") [] (oc_db test_rotation) g)
    as (r & Hr & _ & Hrequest); [reflexivity| |exact Hok| |by left|].
  - split; [intros; vm_compute; split; [discriminate|reflexivity]|reflexivity].
  - assert (map_Forall (λ id _, 0 ≤ id < 2 ^ 128) (users (oc_db test_rotation))) as Hids; [|exact Hids].
    apply (bool_decide_unpack _). vm_compute. exact I.
  - exists g, r. split_and!; [exact Hg|exact Hr|]. rewrite Hrequest; [|reflexivity..].
    rewrite bool_decide_eq_true_2 by (vm_compute; split; [discriminate|reflexivity]).
    rewrite bool_decide_eq_true_2; [reflexivity|]. destruct (us_role r); apply (bool_decide_unpack _); vm_compute; exact I.
Defined.
