(* ===== verification/RequestProtection.v ===== *)
(** * Protection of the authentication requests
    ([src/src/mdm/application/request_protection.py],
    [src/src/mdm/infrastructure/request_protection.py],
    [src/src/mdm/api/session_cookies.py], the cookie parsing of
    [src/src/mdm/api/request_protection.py])

    Before an authentication use case runs, its request passes three tests in
    order, as far as the action asks for them: one allowed origin, a CSRF token
    sent both as cookie and header, and the quota of its client's address, which
    is only known by a keyed digest. *)

From S2P Require Import Prelude Python Exceptions Uuids Sha256 Auth MasterCodes Credentials RateLimits IpAddresses Origins Accounts Sessions AccessTokens.
Local Open Scope Z_scope.

(** ** Actions and policies *)

Inductive AuthAction :=
| LOGIN | REGISTRATION_REQUEST | REGISTRATION_COMPLETE | REFRESH | LOGOUT | PASSWORD_CHANGE
| PASSWORD_RESET_REQUEST | PASSWORD_RESET_COMPLETE | ME.

Record ProtectionPolicy := mkProtectionPolicy { pp_origin : bool; pp_csrf : bool; pp_rate_limit : bool }.
Definition policy_for (action : AuthAction) : ProtectionPolicy :=
  match action with
  | LOGIN | REGISTRATION_COMPLETE => mkProtectionPolicy true false true
  | REFRESH | PASSWORD_CHANGE => mkProtectionPolicy true true true
  | LOGOUT => mkProtectionPolicy true true false
  | ME => mkProtectionPolicy false false false
  | REGISTRATION_REQUEST | PASSWORD_RESET_REQUEST | PASSWORD_RESET_COMPLETE =>
      mkProtectionPolicy false false true
  end.

(** ** The key of a client *)

(** [hmac.new(key, message, hashlib.sha256).digest()] *)
Definition hmac_key (key : list Z) : list Z :=
  let key := if (64 <? length key)%nat then sha256 key else key in
  key ++ replicate (64 - length key) 0.
Definition hmac_inner (key message : list Z) : list Z := ((λ b, Z.lxor b 54) <$> hmac_key key) ++ message.
Definition hmac_outer (key message : list Z) : list Z :=
  ((λ b, Z.lxor b 92) <$> hmac_key key) ++ sha256 (hmac_inner key message).
Definition hmac_sha256 (key message : list Z) : list Z := sha256 (hmac_outer key message).

(** [decode_ip_hmac_secret] *)
Definition decode_ip_hmac_secret (secret : pystr) : res (list Z) :=
  value ← catch (OpaqueToken_init secret)
            (λ e, match e with
                  | InvalidOpaqueToken =>
                      Raise (ValueError "IP-HMAC secret must encode exactly 32 bytes in canonical base64url")
                  | _ => Raise e
                  end);
  urlsafe_b64decode (value ++ [pad]).

(** [HmacClientIpKey.__call__]; encoding a scope outside ASCII raises a
    [UnicodeEncodeError]. *)
Definition HmacClientIpKey (key : list Z) (address : ip_address) : res pystr :=
  _ ← raise_if (negb (isascii (ip_str address))) (ValueError "ordinal not in range(128)");
  Ok (KEY_PREFIX ++ hex (hmac_sha256 key (ip_str address))).

(** [UnresolvedClientIpResolver.resolve] *)
Definition UnresolvedClientIpResolver_resolve (peer_host : option pystr) (headers : list (list Z * list Z))
    : option ip_address := None.

(** ** [AuthRequestProtection] *)

(** The instance: its origins in canonical form and the key of [ip_key]. *)
Record AuthRequestProtection := mkAuthRequestProtection {
  ap_origins : list pystr;
  ap_ip_key : list Z;
}.
Definition AuthRequestProtection_init (origins : list pystr) (ip_key : list Z) : res AuthRequestProtection :=
  origins ← mapR canonical_origin origins;
  Ok (mkAuthRequestProtection origins ip_key).

(** [_emit]: the events the sink is given; what fails is swallowed. *)
Definition emit (clock : datetime) (name : OperationalEventName) (client_ip : option ip_address)
    : list OperationalEvent :=
  match OperationalEvent_init (mkOperationalEvent name clock None client_ip) with
  | Ok e => [e]
  | Raise _ => []
  end.

(** The first [try] of [check]. *)
Definition check_origin (allowed : list pystr) (origins : list pystr) : res unit :=
  catch (match origins with
         | [origin] =>
             origin ← canonical_origin origin;
             raise_if (negb (bool_decide (origin ∈ allowed))) (ValueError "")
         | _ => Raise (ValueError "")
         end) (λ e, match e with ValueError _ => Raise OriginNotAllowed | _ => Raise e end).
(** The second [try] of [check]. *)
Definition check_csrf (cookies headers : list pystr) : res unit :=
  catch (match cookies, headers with
         | [cookie], [header] =>
             cookie ← OpaqueToken_init cookie;
             header ← OpaqueToken_init header;
             raise_if (negb (csrf_tokens_match cookie header)) InvalidOpaqueToken
         | _, _ => Raise InvalidOpaqueToken
         end) (λ e, match e with InvalidOpaqueToken => Raise CsrfValidationFailed | _ => Raise e end).

(** [AuthRequestProtection.check]: the emitted events, the windows of the rate
    limiter afterwards and the result.  [now] is its monotonic clock. *)
Definition check (protection : AuthRequestProtection) (capacity : nat) (now : Z) (clock : datetime)
    (action : AuthAction) (origins csrf_cookies csrf_headers : list pystr) (client_ip : option ip_address)
    (windows : Windows) : list OperationalEvent * Windows * res unit :=
  let policy := policy_for action in
  match (if pp_origin policy then check_origin (ap_origins protection) origins else Ok tt) with
  | Raise OriginNotAllowed => (emit clock ORIGIN_VALIDATION_FAILED client_ip, windows, Raise OriginNotAllowed)
  | Raise e => ([], windows, Raise e)
  | Ok _ =>
      match (if pp_csrf policy then check_csrf csrf_cookies csrf_headers else Ok tt) with
      | Raise CsrfValidationFailed =>
          (emit clock CSRF_VALIDATION_FAILED client_ip, windows, Raise CsrfValidationFailed)
      | Raise e => ([], windows, Raise e)
      | Ok _ =>
          if negb (pp_rate_limit policy) then ([], windows, Ok tt)
          else
            match client_ip with
            | None => (emit clock CLIENT_IP_UNRESOLVED None, windows, Ok tt)
            | Some address =>
                match (key ← HmacClientIpKey (ap_ip_key protection) address; consume capacity now key windows) with
                | Raise e => ([], windows, Raise e)
                | Ok (decision, windows) =>
                    if negb (allowed decision) then
                      (emit clock RATE_LIMIT_EXCEEDED client_ip, windows, Raise (RateLimitExceeded (retry_after decision)))
                    else
                      (if capacity_exceeded decision then emit clock RATE_LIMIT_CAPACITY_EXCEEDED client_ip else [],
                       windows, Ok tt)
                end
            end
      end
  end.

(** ** Cookies *)

Definition semicolon : Z := 59.
Definition equals : Z := 61.

(** The values the Cookie headers carry under a name, every occurrence in order. *)
Definition cookie_value (name part : pystr) : list pystr :=
  let '(n, value) := partition equals (strip_ws part) in
  if bool_decide (n = name) then [from_option id [] value] else [].
Definition cookie_values (name : pystr) (headers : list pystr) : list pystr :=
  headers ≫= λ header, str_split semicolon header ≫= cookie_value name.
Definition CSRF_COOKIE : pystr := py "mdm_csrf".
Definition REFRESH_COOKIE : pystr := py "mdm_refresh".

(** [_csrf_cookie_values], and the reading of the other cookie in [_refresh_cookie] *)
Definition csrf_cookie_values : list pystr → list pystr := cookie_values CSRF_COOKIE.
Definition _refresh_cookie (headers : list pystr) : res (option pystr) :=
  match cookie_values REFRESH_COOKIE headers with
  | [value] => catch (token ← OpaqueToken_init value; Ok (Some token))
                 (λ e, match e with InvalidOpaqueToken => Ok None | _ => Raise e end)
  | _ => Ok None
  end.

(** The calls on the response; the framework writes their Set-Cookie headers. *)
Inductive Cookie :=
| set_cookie (name value : pystr) (max_age : Z) (expires : datetime) (path : pystr) (secure httponly : bool)
    (samesite : pystr)
| delete_cookie (name path : pystr) (secure httponly : bool) (samesite : pystr).

Definition SESSION_COOKIES : list (pystr * bool) := [(REFRESH_COOKIE, true); (CSRF_COOKIE, false)].

(** [SessionCookies.issue]: the cookies it sets; [random] is the draw of the CSRF token. *)
Definition SessionCookies_issue (secure : bool) (refresh_token : pystr) (expires_at now : datetime) (random : list Z)
    : res (list Cookie) :=
  _ ← raise_if (is_naive expires_at || is_naive now)
        (ValueError "session cookie timestamps must be timezone-aware");
  let max_age := Z.max 0 ((instant expires_at - instant now) / seconds 1) in
  csrf ← generate_opaque_token random;
  Ok (zip_with (λ value '(name, http_only),
         set_cookie name value max_age (utc (instant expires_at)) (py "/") secure http_only (py "strict"))
        [refresh_token; csrf] SESSION_COOKIES).

(** [SessionCookies.clear] *)
Definition SessionCookies_clear (secure : bool) : list Cookie :=
  (λ '(name, http_only), delete_cookie name (py "/") secure http_only (py "strict")) <$> SESSION_COOKIES.

(** What a browser that follows the calls keeps: its cookies by name, where all
    of the program's have the path of the site. *)
Definition store_cookie (jar : list (pystr * pystr)) (c : Cookie) : list (pystr * pystr) :=
  match c with
  | set_cookie name value max_age _ _ _ _ _ =>
      if max_age <=? 0 then List.filter (λ p, negb (bool_decide (p.1 = name))) jar
      else List.filter (λ p, negb (bool_decide (p.1 = name))) jar ++ [(name, value)]
  | delete_cookie name _ _ _ _ => List.filter (λ p, negb (bool_decide (p.1 = name))) jar
  end.

(** The Cookie header of a browser that stored the cookies. *)
Definition cookie_header (cookies : list (pystr * pystr)) : pystr :=
  str_join (py "; ") ((λ p, p.1 ++ [equals] ++ p.2) <$> cookies).
