(* ===== verification/RequestProtectionSpecs.v ===== *)
(** * What the protection of authentication requests promises

    Which test rejects a request and what each outcome leaves in the rate
    limiter and in the event log, that the windows of different clients are
    separate, and that a browser which echoes the CSRF cookie it was given
    passes. *)

From S2P Require Import Prelude Python Exceptions Uuids Sha256 Auth MasterCodes Credentials RateLimits IpAddresses Origins Accounts Sessions AccessTokens RequestProtection.
Local Open Scope Z_scope.

(** ** The tests of origin and CSRF token *)

Definition origin_passes (allowed origins : list pystr) : Prop :=
  ∃ value origin, origins = [value] ∧ canonical_origin value = Ok origin ∧ origin ∈ allowed.
Definition csrf_passes (cookies headers : list pystr) : Prop :=
  ∃ raw token, token_of raw token ∧ cookies = [token] ∧ headers = [token].

Definition is_value_error (e : exn) : Prop := ∃ m, e = ValueError m.
Lemma value_error m : is_value_error (ValueError m).
Proof. by exists m. Qed.

Lemma urlsplit_raises url : raises_only is_value_error (urlsplit url).
Proof.
  unfold urlsplit, check_bracketed_netloc, check_bracketed_host. raises; try apply value_error.
Qed.
Lemma port_raises netloc : raises_only is_value_error (port netloc).
Proof. unfold port. raises; apply value_error. Qed.
Lemma canonical_origin_raises value : raises_only is_value_error (canonical_origin value).
Proof.
  unfold canonical_origin, canonical_host. raises; try apply value_error.
  apply raises_catch. intros e He. assert (is_value_error e) as [m ->]; [|apply raises_Raise, value_error].
  revert e He. apply raises_bind; [apply urlsplit_raises|]. intros [[? ?] ?] _.
  apply raises_bind; [apply port_raises|]. intros. apply raises_Ok.
Qed.

Lemma check_origin_spec allowed origins :
  (origin_passes allowed origins ∧ check_origin allowed origins = Ok tt) ∨
  (¬ origin_passes allowed origins ∧ check_origin allowed origins = Raise OriginNotAllowed).
Proof.
  unfold check_origin. destruct origins as [|value [|v2 l]];
    [right; split; [by intros (? & ? & ? & _)|done]| |right; split; [by intros (? & ? & ? & _)|done]].
  destruct (canonical_origin value) as [origin|e] eqn:E.
  - cbn [mbind result_bind]. case_bool_decide as Hin.
    + left. split; [by exists value, origin|done].
    + right. split; [|done]. intros (v & o & [= <-] & Ho & Hin'). rewrite E in Ho. injection Ho as <-. done.
  - right. destruct (canonical_origin_raises value e E) as [m ->]. split; [|done].
    intros (v & o & [= <-] & Ho & _). by rewrite E in Ho.
Qed.

Lemma urlsafe_b64decode_raises s : raises_only is_value_error (urlsafe_b64decode s).
Proof.
  induction s as [s IH] using (induction_ltof1 _ (@length Z)).
  destruct s as [|c1 [|c2 [|c3 [|c4 rest]]]]; cbn [urlsafe_b64decode]; raises; try apply value_error.
  all: apply IH; unfold ltof; cbn; lia.
Qed.

Lemma OpaqueToken_init_raises value : raises_only (eq InvalidOpaqueToken) (OpaqueToken_init value).
Proof.
  unfold OpaqueToken_init. raises; try done. apply raises_catch. intros e He.
  destruct (urlsafe_b64decode_raises _ _ He) as [m ->]. by raises.
Qed.

(** A value is a token or refused. *)
Lemma OpaqueToken_init_cases value :
  (OpaqueToken_init value = Ok value ∧ ∃ raw, token_of raw value) ∨
  (OpaqueToken_init value = Raise InvalidOpaqueToken ∧ ¬ ∃ raw, token_of raw value).
Proof.
  destruct (OpaqueToken_init value) as [t|e] eqn:E.
  - apply OpaqueToken_init_Ok in E as [-> Ht]. by left.
  - right. split; [by rewrite <- (OpaqueToken_init_raises _ _ E)|]. intros Ht.
    by rewrite (proj2 (OpaqueToken_init_Ok value value)) in E.
Qed.

Lemma check_csrf_spec cookies headers :
  (csrf_passes cookies headers ∧ check_csrf cookies headers = Ok tt) ∨
  (¬ csrf_passes cookies headers ∧ check_csrf cookies headers = Raise CsrfValidationFailed).
Proof.
  destruct cookies as [|c [|c2 cs]], headers as [|h [|h2 hs]];
    try (right; split; [by intros (? & ? & _ & [=] & [=])|done]).
  unfold check_csrf. destruct (OpaqueToken_init_cases c) as [[-> [raw Hc]]|[-> Hc]].
  2: { right. split; [|done]. intros (raw & t & Ht & [= ->] & _). destruct Hc. by exists raw. }
  destruct (OpaqueToken_init_cases h) as [[-> Hh]|[-> Hh]].
  2: { right. split; [|done]. intros (r & t & Ht & _ & [= ->]). destruct Hh. by exists r. }
  cbn [mbind result_bind]. unfold csrf_tokens_match. case_bool_decide as E.
  - left. subst h. split; [by exists raw, c|done].
  - right. split; [|done]. by intros (r & t & _ & [= ->] & [= ->]).
Qed.

(** ** The key of a client *)

(** [OperationalEvent] and the resolvers admit no scope identifier. *)
Definition client_address (a : ip_address) : Prop := ip_ok a ∧ ∀ n scope, a ≠ IPv6Address n (Some scope).

Lemma ip_str_ascii a : client_address a → isascii (ip_str a) = true.
Proof.
  intros [Ha Hs]. unfold isascii. rewrite forallb_forall. intros c Hc%list_elem_of_In. unfold is_ascii, in_range.
  assert (∀ s, Forall ip_char s → c ∈ s → (0 <=? c) && (c <=? 127) = true) as Hchars.
  { intros s Hall Hin. rewrite Forall_forall in Hall. pose proof (ip_char_range c (Hall c Hin)). lia. }
  destruct a as [n|n [scope|]]; [|by destruct (Hs n scope)|].
  - cbn [ip_ok ip_str] in Ha, Hc. pose proof (ipv4_str_chars n Ha) as Hall. rewrite Forall_forall in Hall.
    destruct (Hall c Hc) as [Hd| ->]; [unfold is_digit, in_range in Hd; lia|done].
  - cbn [ip_ok ip_str] in Ha, Hc. exact (Hchars _ (ipv6_str_chars n Ha) Hc).
Qed.

Lemma HmacClientIpKey_Ok key a :
  client_address a →
  HmacClientIpKey key a = Ok (KEY_PREFIX ++ hex (hmac_sha256 key (ip_str a))) ∧
  key_pattern (KEY_PREFIX ++ hex (hmac_sha256 key (ip_str a))) = true.
Proof.
  intros Ha. split; [unfold HmacClientIpKey; by rewrite ip_str_ascii|].
  unfold key_pattern. rewrite take_app_length, drop_app_length, bool_decide_eq_true_2 by done.
  unfold hmac_sha256. rewrite length_app, hex_length, sha256_length, Nat.eqb_refl. cbn [andb].
  apply forallb_forall. intros c Hc%list_elem_of_In.
  pose proof (hex_lower_hex (sha256 (hmac_outer key (ip_str a)))) as Hall. rewrite Forall_forall in Hall. auto.
Qed.

(** Two addresses with one key exhibit a collision of SHA-256. *)
Definition key_collision (key : list Z) (a b : ip_address) : Prop :=
  sha256_collision (hmac_outer key (ip_str a)) (hmac_outer key (ip_str b)) ∨
  sha256_collision (hmac_inner key (ip_str a)) (hmac_inner key (ip_str b)).

Lemma client_key_inj key a b client :
  client_address a → client_address b → HmacClientIpKey key a = Ok client → HmacClientIpKey key b = Ok client →
  a = b ∨ key_collision key a b.
Proof.
  intros Ha Hb Hka Hkb.
  rewrite (proj1 (HmacClientIpKey_Ok key a Ha)) in Hka. rewrite (proj1 (HmacClientIpKey_Ok key b Hb)) in Hkb.
  apply Ok_inv in Hka, Hkb. rewrite <- Hkb in Hka. apply app_inv_head, hex_inj in Hka; try apply sha256_byte.
  destruct (decide (hmac_outer key (ip_str a) = hmac_outer key (ip_str b))) as [E|E]; [|right; by left].
  unfold hmac_outer in E. apply app_inv_head in E.
  destruct (decide (hmac_inner key (ip_str a) = hmac_inner key (ip_str b))) as [E2|E2]; [|right; by right].
  unfold hmac_inner in E2. apply app_inv_head in E2. left.
  exact (ip_str_inj a b (proj1 Ha) (proj1 Hb) E2).
Qed.

(** ** [check] *)

(** What the quota of a client answers, given its window and a free place. *)
Definition quota_outcome (clock : datetime) (client_ip : option ip_address) (d : RateLimitDecision)
    : list OperationalEvent * res unit :=
  if allowed d then ([], Ok tt)
  else (emit clock RATE_LIMIT_EXCEEDED client_ip, Raise (RateLimitExceeded (retry_after d))).

Section check.
Context (protection : AuthRequestProtection) (capacity : nat) (t now : Z) (clock : datetime) (action : AuthAction).
Context (origins cookies headers : list pystr) (client_ip : option ip_address) (windows : Windows).
Abbreviation policy := (policy_for action).
Abbreviation outcome := (check protection capacity now clock action origins cookies headers client_ip windows).

Definition origin_granted : Prop := pp_origin policy = true → origin_passes (ap_origins protection) origins.
Definition csrf_granted : Prop := pp_csrf policy = true → csrf_passes cookies headers.

Lemma check_refused_origin :
  pp_origin policy = true → ¬ origin_passes (ap_origins protection) origins →
  outcome = (emit clock ORIGIN_VALIDATION_FAILED client_ip, windows, Raise OriginNotAllowed).
Proof.
  intros Hp Hn. unfold check. rewrite Hp. by destruct (check_origin_spec (ap_origins protection) origins) as [[? _]|[_ ->]].
Qed.

Lemma granted_origin :
  origin_granted → (if pp_origin policy then check_origin (ap_origins protection) origins else Ok tt) = Ok tt.
Proof.
  unfold origin_granted. destruct (pp_origin policy); [|done]. intros Hg.
  destruct (check_origin_spec (ap_origins protection) origins) as [[_ ->]|[Hn _]]; [done|]. by destruct Hn; apply Hg.
Qed.
Lemma granted_csrf : csrf_granted → (if pp_csrf policy then check_csrf cookies headers else Ok tt) = Ok tt.
Proof.
  unfold csrf_granted. destruct (pp_csrf policy); [|done]. intros Hg.
  destruct (check_csrf_spec cookies headers) as [[_ ->]|[Hn _]]; [done|]. by destruct Hn; apply Hg.
Qed.

Lemma check_refused_csrf :
  origin_granted → pp_csrf policy = true → ¬ csrf_passes cookies headers →
  outcome = (emit clock CSRF_VALIDATION_FAILED client_ip, windows, Raise CsrfValidationFailed).
Proof.
  intros Hg Hp Hn. unfold check. rewrite granted_origin, Hp by done.
  by destruct (check_csrf_spec cookies headers) as [[? _]|[_ ->]].
Qed.

Lemma check_quota address client :
  origin_granted → csrf_granted → pp_rate_limit policy = true → client_ip = Some address →
  client_address address → HmacClientIpKey (ap_ip_key protection) address = Ok client →
  windows_ok capacity t windows → t ≤ now →
  ∃ events windows' result, outcome = (events, windows', result) ∧ windows_ok capacity now windows' ∧
    (∀ k, k ≠ client → live k now windows' = live k now windows) ∧
    (((events, result), live client now windows') =
       (λ p, (quota_outcome clock client_ip p.1, Some p.2)) (quota now (live client now windows)) ∨
     events = emit clock RATE_LIMIT_CAPACITY_EXCEEDED client_ip ∧ result = Ok tt ∧
       live client now windows = None ∧ live client now windows' = None ∧
       ∃ kept, length kept = capacity ∧ kept ⊆ windows).
Proof.
  intros Ho Hc Hr Hip Ha Hk Hok Ht. destruct (HmacClientIpKey_Ok (ap_ip_key protection) address Ha) as [Hk' Hpat].
  rewrite Hk in Hk'. apply Ok_inv in Hk'. rewrite <- Hk' in Hpat.
  destruct (consume_spec capacity t now client windows Hok Ht Hpat) as (d & w' & Hcons & Hok' & Hother & Hd).
  unfold check. rewrite granted_origin, granted_csrf, Hr by done. cbn [negb]. rewrite Hip, Hk.
  cbn [mbind result_bind]. rewrite Hcons.
  destruct Hd as [Hd|(-> & ? & ? & ?)].
  - assert (capacity_exceeded d = false) as Hce.
    { apply (f_equal (λ p, capacity_exceeded p.1)) in Hd. cbn in Hd. rewrite Hd. unfold quota. by repeat case_match. }
    apply (f_equal (λ p, (quota_outcome clock (Some address) p.1, p.2))) in Hd. cbn [fst snd] in Hd.
    unfold quota_outcome in Hd at 1. rewrite Hce.
    destruct (allowed d); cbn [negb]; eexists _, _, _; (split_and!; [done..|]); left; exact Hd.
  - cbn [allowed negb capacity_exceeded]. eexists _, _, _. split_and!; [done..|]. right. by split_and!.
Qed.

(** The windows stay well-formed, and a request is refused only for what its
    policy asks; a client that exceeded its quota is told to wait for between one
    second and the length of a window. *)
Lemma refusal_retry client d w :
  windows_ok capacity t windows → t ≤ now → quota now (live client now windows) = (d, w) → allowed d = false →
  1 ≤ retry_after d ≤ 60.
Proof.
  intros Hok Ht. unfold live. destruct (get client windows) as [w0|] eqn:Hg; [|by intros [= <- <-]].
  destruct (expires_at w0 <=? now) eqn:He; [by intros [= <- <-]|]. unfold quota.
  destruct (30 <=? count w0); intros [= <- <-]; [|done]. intros _. cbn [retry_after].
  apply get_elem, (wo_count _ _ _ Hok) in Hg. apply (ceil_seconds_bounds (expires_at w0 - now)). lia.
Qed.
Lemma check_result :
  windows_ok capacity t windows → t ≤ now → (∀ a, client_ip = Some a → client_address a) →
  ∃ events windows' result, outcome = (events, windows', result) ∧ windows_ok capacity now windows' ∧
    (result = Ok tt ∧ origin_granted ∧ csrf_granted ∨
     result = Raise OriginNotAllowed ∧ pp_origin policy = true ∧ ¬ origin_passes (ap_origins protection) origins ∨
     result = Raise CsrfValidationFailed ∧ pp_csrf policy = true ∧ ¬ csrf_passes cookies headers ∨
     pp_rate_limit policy = true ∧ ∃ n, result = Raise (RateLimitExceeded n) ∧ 1 ≤ n ≤ 60).
Proof.
  intros Hok Ht Hip. assert (windows_ok capacity now windows) as Hnow.
  { pose proof (cleanup_ok capacity 0 t now windows Ht Hok) as Hc. by destruct windows. }
  assert (origin_granted ∨ pp_origin policy = true ∧ ¬ origin_passes (ap_origins protection) origins) as [Ho|[Hp Hn]].
  { unfold origin_granted. destruct (pp_origin policy); [|by left].
    destruct (check_origin_spec (ap_origins protection) origins) as [[? _]|[? _]]; [by left|by right]. }
  2: { rewrite check_refused_origin by done. eexists _, _, _. split; [done|]. split; [done|]. right. by left. }
  assert (csrf_granted ∨ pp_csrf policy = true ∧ ¬ csrf_passes cookies headers) as [Hc|[Hp Hn]].
  { unfold csrf_granted. destruct (pp_csrf policy); [|by left].
    destruct (check_csrf_spec cookies headers) as [[? _]|[? _]]; [by left|by right]. }
  2: { rewrite check_refused_csrf by done. eexists _, _, _. split; [done|]. split; [done|]. right. right. by left. }
  destruct (pp_rate_limit policy) eqn:Hr.
  2: { unfold check. rewrite granted_origin, granted_csrf, Hr by done. eexists _, _, _. split; [done|]. split; [done|]. by left. }
  destruct client_ip as [address|] eqn:Ha.
  2: { unfold check. rewrite granted_origin, granted_csrf, Hr by done. eexists _, _, _. split; [done|]. split; [done|]. by left. }
  destruct (HmacClientIpKey_Ok (ap_ip_key protection) address (Hip _ eq_refl)) as [Hk _].
  destruct (check_quota address _ Ho Hc Hr Ha (Hip _ eq_refl) Hk Hok Ht) as (ev & w' & r & Hout & Hw & _ & Hd).
  rewrite Ha in Hout.
  exists ev, w', r. split; [exact Hout|]. split; [exact Hw|]. destruct Hd as [Hd|(_ & -> & _)]; [|by left].
  destruct (quota now _) as [d w] eqn:Hq. cbn [fst snd] in Hd. unfold quota_outcome in Hd. destruct (allowed d) eqn:Hall;
    injection Hd as -> -> _; [by left|]. right. right. right. split; [done|]. exists (retry_after d). split; [done|].
  by eapply refusal_retry.
Qed.

(** C31: [check] tests in order the one allowed origin, the CSRF token sent
    twice and the quota of the client's address, each only where the policy of
    the action asks for it.  A refused origin or token emits its event and
    charges no quota; without a resolved address the request passes, with an
    event; with one, only the window of its client changes and the answer is
    that of the reference quota, except that a full limiter admits a client
    without a window and emits that. *)
Theorem auth_check_outcomes :
  windows_ok capacity t windows → t ≤ now → (∀ a, client_ip = Some a → client_address a) →
  (pp_origin policy = true → ¬ origin_passes (ap_origins protection) origins →
     outcome = (emit clock ORIGIN_VALIDATION_FAILED client_ip, windows, Raise OriginNotAllowed)) ∧
  (origin_granted → pp_csrf policy = true → ¬ csrf_passes cookies headers →
     outcome = (emit clock CSRF_VALIDATION_FAILED client_ip, windows, Raise CsrfValidationFailed)) ∧
  (origin_granted → csrf_granted → pp_rate_limit policy = false → outcome = ([], windows, Ok tt)) ∧
  (origin_granted → csrf_granted → pp_rate_limit policy = true → client_ip = None →
     outcome = (emit clock CLIENT_IP_UNRESOLVED None, windows, Ok tt)) ∧
  ∀ address, origin_granted → csrf_granted → pp_rate_limit policy = true → client_ip = Some address →
    ∃ client events windows' result,
      HmacClientIpKey (ap_ip_key protection) address = Ok client ∧ outcome = (events, windows', result) ∧
      windows_ok capacity now windows' ∧ (∀ k, k ≠ client → live k now windows' = live k now windows) ∧
      (((events, result), live client now windows') =
         (λ p, (quota_outcome clock client_ip p.1, Some p.2)) (quota now (live client now windows)) ∨
       events = emit clock RATE_LIMIT_CAPACITY_EXCEEDED client_ip ∧ result = Ok tt ∧
         live client now windows = None ∧ live client now windows' = None ∧
         ∃ kept, length kept = capacity ∧ kept ⊆ windows).
Proof.
  intros Hok Ht Hip. split_and!.
  - exact check_refused_origin.
  - exact check_refused_csrf.
  - intros Ho Hc Hr. unfold check. by rewrite granted_origin, granted_csrf, Hr.
  - intros Ho Hc Hr Hn. unfold check. rewrite granted_origin, granted_csrf, Hr by done. by rewrite Hn.
  - intros address Ho Hc Hr Ha. destruct (HmacClientIpKey_Ok (ap_ip_key protection) address (Hip _ Ha)) as [Hk _].
    destruct (check_quota address _ Ho Hc Hr Ha (Hip _ Ha) Hk Hok Ht) as (ev & w' & r & H).
    by eexists _, ev, w', r.
Qed.
End check.

(** One client's requests leave the window of another client's address as
    it is, whatever their outcome, unless the two addresses exhibit an explicit
    collision of SHA-256; a client's key is a well-formed key of the limiter. *)
Theorem clients_have_their_own_quota protection capacity t now clock action origins cookies headers a b client windows :
  windows_ok capacity t windows → t ≤ now → client_address a → client_address b → a ≠ b →
  HmacClientIpKey (ap_ip_key protection) a = Ok client →
  key_pattern client = true ∧
  (live client now (check protection capacity now clock action origins cookies headers (Some b) windows).1.2 =
     live client now windows ∨ key_collision (ap_ip_key protection) a b).
Proof.
  intros Hok Ht Ha Hb Hne Hka. destruct (HmacClientIpKey_Ok (ap_ip_key protection) a Ha) as [Hk Hpat].
  rewrite Hka in Hk. apply Ok_inv in Hk. rewrite <- Hk in Hpat. split; [exact Hpat|]. clear Hk Hpat.
  destruct (HmacClientIpKey_Ok (ap_ip_key protection) b Hb) as [Hkb Hpat].
  set (other := KEY_PREFIX ++ _) in *. clearbody other.
  destruct (decide (client = other)) as [<-|Hd].
  { right. destruct (client_key_inj _ a b client Ha Hb Hka Hkb); [done|]. assumption. }
  left. unfold check. destruct (if pp_origin _ then _ else _) as [_|e]; [|by destruct e].
  destruct (if pp_csrf _ then _ else _) as [_|e]; [|by destruct e].
  destruct (pp_rate_limit _); [|done]. cbn [negb]. rewrite Hkb. cbn [mbind result_bind].
  destruct (consume_spec capacity t now other windows Hok Ht Hpat) as (d & w' & -> & _ & Hother & _).
  destruct (allowed d); cbn [negb fst snd]; exact (Hother client Hd).
Qed.

(** ** The CSRF cookie *)

(** A cookie another program may have set: a name without white space and
    separators, a value without a semicolon. *)
Definition plain_cookie (p : pystr * pystr) : Prop :=
  Forall (λ c, is_space c = false) p.1 ∧ (semicolon ∉ p.1) ∧ (equals ∉ p.1) ∧ (semicolon ∉ p.2).

Lemma lstrip_ws_id c s : is_space c = false → lstrip_ws (c :: s) = c :: s.
Proof. cbn. by intros ->. Qed.

Lemma lstrip_ws_skip c s : is_space c = true → lstrip_ws (c :: s) = lstrip_ws s.
Proof. cbn. by intros ->. Qed.

(** Stripping on the right stops at a character that is not white space. *)
Lemma rstrip_ws_app (s : pystr) c u :
  is_space c = false → ∃ u', reverse (lstrip_ws (reverse (s ++ c :: u))) = s ++ c :: u' ∧
    (Forall (λ c, is_space c = false) u → u' = u).
Proof.
  intros Hc.
  assert (∀ w r : pystr, ∃ w', lstrip_ws (w ++ c :: r) = w' ++ c :: r ∧ (Forall (λ c, is_space c = false) w → w' = w)) as H.
  { induction w as [|x w IH]; intros r; [exists []; split; [by apply lstrip_ws_id|done]|]. cbn [app].
    destruct (is_space x) eqn:E.
    - rewrite lstrip_ws_skip by done. destruct (IH r) as (w' & -> & _). exists w'. split; [done|].
      intros [? _]%Forall_cons. congruence.
    - rewrite lstrip_ws_id by done. by exists (x :: w). }
  destruct (H (reverse u) (reverse s)) as (w' & Hw & Hid). exists (reverse w'). split.
  - rewrite reverse_app, reverse_cons, <- app_assoc. cbn [app]. rewrite Hw, reverse_app, reverse_cons.
    by rewrite reverse_involutive, <- app_assoc.
  - intros Hu. rewrite Hid; [apply reverse_involutive|]. by apply Forall_reverse.
Qed.

Section reading.
Context (wanted : pystr).
Abbreviation value_of := (cookie_value wanted).

Lemma cookie_value_part (lead name value : pystr) :
  lead = [] ∨ lead = [space] → Forall (λ c, is_space c = false) name → equals ∉ name →
  (name ≠ wanted → value_of (lead ++ name ++ equals :: value) = []) ∧
  (name = wanted → Forall (λ c, is_space c = false) value → value_of (lead ++ name ++ equals :: value) = [value]).
Proof.
  intros Hlead Hname Heq.
  assert (lstrip_ws (lead ++ name ++ equals :: value) = name ++ equals :: value) as Hl.
  { assert (lstrip_ws (name ++ equals :: value) = name ++ equals :: value) as Hl.
    { destruct name as [|c name]; [by apply lstrip_ws_id|]. apply Forall_cons in Hname as [? _]. by apply lstrip_ws_id. }
    destruct Hlead as [->| ->]; [exact Hl|]. cbn [app]. by rewrite lstrip_ws_skip. }
  destruct (rstrip_ws_app name equals value) as (u' & Hu & Hid); [done|].
  unfold cookie_value, strip_ws. rewrite Hl, Hu, partition_app by done. split.
  - intros Hn. by rewrite bool_decide_eq_false_2.
  - intros -> Hv. rewrite bool_decide_eq_true_2 by done. cbn. by rewrite Hid.
Qed.

(** What a header carries for the cookie; its value must survive stripping. *)
Definition cookie_of (p : pystr * pystr) : list pystr := if bool_decide (p.1 = wanted) then [p.2] else [].
Definition sent_cookie (p : pystr * pystr) : Prop :=
  plain_cookie p ∧ (p.1 = wanted → Forall (λ c, is_space c = false) p.2).

Lemma cookie_value_sent (lead : pystr) p :
  lead = [] ∨ lead = [space] → sent_cookie p → value_of (lead ++ p.1 ++ [equals] ++ p.2) = cookie_of p.
Proof.
  intros Hlead [(Hn & _ & He & _) Hv]. destruct (cookie_value_part lead p.1 p.2 Hlead Hn He) as [Hno Hyes].
  unfold cookie_of. case_bool_decide as E; [by apply Hyes; [|apply Hv]|by apply Hno].
Qed.

Lemma split_cookie_header (parts : list (pystr * pystr)) (lead : pystr) :
  parts ≠ [] → Forall sent_cookie parts → lead = [] ∨ lead = [space] →
  str_split semicolon (lead ++ cookie_header parts) ≫= value_of = parts ≫= cookie_of.
Proof.
  intros Hne Hall. revert lead Hne. induction Hall as [|p parts Hp Hall IH]; intros lead Hne Hlead; [done|].
  assert (semicolon ∉ lead ++ p.1 ++ [equals] ++ p.2) as Hns.
  { destruct Hp as [(_ & ? & _ & ?) _]. rewrite !not_elem_of_app. split_and!; [|done| |done].
    - destruct Hlead as [->| ->]; [by apply not_elem_of_nil|]. by intros ?%list_elem_of_singleton.
    - by intros ?%list_elem_of_singleton. }
  unfold cookie_header in *. destruct parts as [|q parts].
  - cbn [fmap list_fmap str_join]. rewrite str_split_word by done. cbn [mbind list_bind].
    by rewrite cookie_value_sent.
  - rewrite fmap_cons, str_join_cons by done. specialize (IH [space] ltac:(done) ltac:(by right)).
    set (rest := str_join _ _) in *. change (py "; ") with ([semicolon] ++ [space]).
    replace (lead ++ (p.1 ++ [equals] ++ p.2) ++ ([semicolon] ++ [space]) ++ rest)
      with ((lead ++ p.1 ++ [equals] ++ p.2) ++ semicolon :: ([space] ++ rest))
      by (rewrite <- !app_assoc; reflexivity).
    rewrite str_split_app by done. cbn [mbind list_bind]. rewrite cookie_value_sent by done. f_equal. exact IH.
Qed.

Lemma cookie_values_sent parts :
  wanted ≠ [] → Forall sent_cookie parts → cookie_values wanted [cookie_header parts] = parts ≫= cookie_of.
Proof.
  intros Hne Hall. unfold cookie_values. cbn [mbind list_bind]. rewrite app_nil_r.
  destruct parts as [|p parts].
  - change (cookie_value wanted [] ++ [] = []). unfold cookie_value.
    change (partition equals (strip_ws [])) with ([] : pystr, None : option pystr). cbv beta iota zeta. case_bool_decide; [by subst|done].
  - rewrite <- (split_cookie_header (p :: parts) []) by auto. reflexivity.
Qed.

Lemma cookie_values_app h1 h2 : cookie_values wanted (h1 ++ h2) = cookie_values wanted h1 ++ cookie_values wanted h2.
Proof. apply bind_app. Qed.

Lemma cookie_of_others others : Forall (λ p, p.1 ≠ wanted) others → others ≫= cookie_of = [].
Proof.
  induction 1 as [|p l Hp _ IH]; [done|]. cbn [mbind list_bind]. unfold cookie_of at 1.
  by rewrite bool_decide_eq_false_2.
Qed.
End reading.

(** The characters of a token. *)
Lemma token_chars raw token : token_of raw token → Forall (λ c, is_space c = false ∧ c ≠ semicolon) token.
Proof.
  intros (Hb & Hl & ->). destruct (b64encode_shape raw Hb) as [_ Hall]; [by rewrite Hl|].
  rewrite forallb_forall in Hall. apply Forall_forall. intros c Hc%list_elem_of_In.
  specialize (Hall c Hc). apply bool_decide_eq_true in Hall as [v Hv]. clear Hc.
  assert (32 < c < 128 ∧ c ≠ 59) as [Hr Hn].
  { unfold b64_value, in_range, dash, underscore in Hv. repeat case_match; try lia; done. }
  split; [|done]. unfold is_space, in_range. lia.
Qed.

Lemma filter_cookies P name jar :
  Forall P jar → Forall P (List.filter (λ p : pystr * pystr, negb (bool_decide (p.1 = name))) jar).
Proof. rewrite !Forall_forall. intros H p Hp%list_elem_of_In%filter_In. apply H, list_elem_of_In, Hp. Qed.

Lemma drop_cookie name jar :
  Forall (λ p : pystr * pystr, p.1 ≠ name) (List.filter (λ p, negb (bool_decide (p.1 = name))) jar).
Proof.
  apply Forall_forall. intros p Hp%list_elem_of_In%filter_In. destruct Hp as [_ Hp].
  by apply negb_true_iff, bool_decide_eq_false in Hp.
Qed.

Lemma check_csrf_echo raw csrf :
  token_of raw csrf →
  check_csrf [csrf] [csrf] = Ok tt ∧
  (∀ token, token ≠ csrf → check_csrf [csrf] [token] = Raise CsrfValidationFailed) ∧
  check_csrf ([csrf] ++ [csrf]) [csrf] = Raise CsrfValidationFailed.
Proof.
  intros Ht. split_and!.
  - destruct (check_csrf_spec [csrf] [csrf]) as [[_ H]|[H _]]; [exact H|]. destruct H. by exists raw, csrf.
  - intros token Hne. destruct (check_csrf_spec [csrf] [token]) as [[H _]|[_ H]]; [|exact H].
    by destruct H as (r & t & _ & [= ->] & [= ->]).
  - destruct (check_csrf_spec ([csrf] ++ [csrf]) [csrf]) as [[H _]|[_ H]]; [|exact H].
    by destruct H as (r & t & _ & [=] & _).
Qed.

(** A token is a plain value under either name. *)
Lemma token_plain raw name token :
  Forall (λ c, is_space c = false) name → semicolon ∉ name → equals ∉ name → token_of raw token → plain_cookie (name, token).
Proof.
  intros H1 H2 H3 Ht. pose proof (token_chars _ _ Ht) as Hchars. split_and!; [done..|].
  rewrite Forall_forall in Hchars. intros Hin. by destruct (Hchars _ Hin).
Qed.
Ltac computed_name := first [apply Forall_forall; intros ? ?; apply (bool_decide_unpack _); revert select (_ ∈ _); revert select Z; apply Forall_forall; vm_compute; repeat constructor
  | apply (bool_decide_unpack _); vm_compute; exact I].
Lemma csrf_plain raw token : token_of raw token → plain_cookie (CSRF_COOKIE, token).
Proof. apply token_plain; computed_name. Qed.
Lemma refresh_plain raw token : token_of raw token → plain_cookie (REFRESH_COOKIE, token).
Proof. apply token_plain; computed_name. Qed.

(** The cookies of a session in a browser: it reads both back from whatever it
    sends of its jar. *)
Definition keeps_session (refresh_token csrf : pystr) (jar : list (pystr * pystr)) : Prop :=
  Forall plain_cookie jar ∧
  ∀ sent, sent ≡ₚ jar →
    csrf_cookie_values [cookie_header sent] = [csrf] ∧ _refresh_cookie [cookie_header sent] = Ok (Some refresh_token).
Definition no_session (jar : list (pystr * pystr)) : Prop :=
  Forall plain_cookie jar ∧ Forall (λ p, p.1 ≠ CSRF_COOKIE ∧ p.1 ≠ REFRESH_COOKIE) jar.

(** A jar with one plain cookie of a name gives its value. *)
Lemma cookie_values_jar wanted value jar sent :
  wanted ≠ [] → Forall plain_cookie jar → jar ≫= cookie_of wanted = [value] → Forall (λ c, is_space c = false) value →
  sent ≡ₚ jar → cookie_values wanted [cookie_header sent] = [value].
Proof.
  intros Hne Hplain Hone Hv Hperm. rewrite cookie_values_sent; [|done|].
  - apply Permutation_singleton_r. rewrite <- Hone. by rewrite Hperm.
  - rewrite Hperm. rewrite Forall_forall in Hplain. apply Forall_forall. intros p Hp. split; [auto|]. intros Hw.
    assert (p.2 ∈ jar ≫= cookie_of wanted) as Hin.
    { apply list_elem_of_bind. exists p. split; [|done]. unfold cookie_of. rewrite bool_decide_eq_true_2 by done. by left. }
    rewrite Hone in Hin. by apply list_elem_of_singleton in Hin as ->.
Qed.

Lemma token_spaces raw token : token_of raw token → Forall (λ c, is_space c = false) token.
Proof. intros Ht%token_chars. eapply Forall_impl; [exact Ht|]. by intros c [? _]. Qed.

Lemma keeps_session_jar raw refresh_token raw' csrf jar :
  token_of raw refresh_token → token_of raw' csrf → Forall plain_cookie jar →
  jar ≫= cookie_of REFRESH_COOKIE = [refresh_token] → jar ≫= cookie_of CSRF_COOKIE = [csrf] →
  keeps_session refresh_token csrf jar.
Proof.
  intros Hr Hc Hplain H1 H2. split; [done|]. intros sent Hperm.
  pose proof (token_spaces _ _ Hr). pose proof (token_spaces _ _ Hc). split.
  - by apply (cookie_values_jar CSRF_COOKIE csrf jar).
  - unfold _refresh_cookie. rewrite (cookie_values_jar REFRESH_COOKIE refresh_token jar) by done.
    by rewrite (proj2 (OpaqueToken_init_Ok refresh_token refresh_token)) by eauto.
Qed.

(** What [issue] sets, and how long the cookies live. *)
Definition session_cookies (secure : bool) (refresh_token csrf : pystr) (max_age : Z) (expires_at : datetime) : list Cookie :=
  [set_cookie REFRESH_COOKIE refresh_token max_age (utc (instant expires_at)) (py "/") secure true (py "strict");
   set_cookie CSRF_COOKIE csrf max_age (utc (instant expires_at)) (py "/") secure false (py "strict")].
Lemma SessionCookies_issue_Ok secure refresh_token expires_at now random :
  is_naive expires_at = false → is_naive now = false → Forall is_byte random → length random = 32%nat →
  token_of random (b64encode random) ∧
  SessionCookies_issue secure refresh_token expires_at now random =
    Ok (session_cookies secure refresh_token (b64encode random)
          (Z.max 0 ((instant expires_at - instant now) / seconds 1)) expires_at).
Proof.
  intros He Hn Hb Hl. destruct (generate_opaque_token_Ok random Hb Hl) as [Hg Ht]. split; [done|].
  unfold SessionCookies_issue. rewrite He, Hn, Hg. reflexivity.
Qed.

(** A browser keeps the cookies issued to it, if they live at all, and drops
    them when it is told to; any other cookie it had stays. *)
Lemma jar_keeps_session secure raw refresh_token raw' csrf max_age expires_at others :
  token_of raw refresh_token → token_of raw' csrf → 1 ≤ max_age → Forall plain_cookie others →
  keeps_session refresh_token csrf (foldl store_cookie others (session_cookies secure refresh_token csrf max_age expires_at)).
Proof.
  intros Hr Hc Hage Hplain. unfold session_cookies. cbn [foldl store_cookie].
  replace (max_age <=? 0) with false by lia.
  eapply keeps_session_jar; [exact Hr|exact Hc| | |].
  - apply Forall_app. split; [|by apply Forall_singleton, (csrf_plain raw')].
    apply filter_cookies, Forall_app. split; [by apply filter_cookies|]. by apply Forall_singleton, (refresh_plain raw).
  - rewrite List.filter_app, !bind_app. rewrite cookie_of_others by apply filter_cookies, drop_cookie. reflexivity.
  - rewrite bind_app, cookie_of_others by apply drop_cookie. reflexivity.
Qed.
Lemma clear_no_session secure jar :
  Forall plain_cookie jar → no_session (foldl store_cookie jar (SessionCookies_clear secure)).
Proof.
  intros Hplain. cbn [SESSION_COOKIES foldl store_cookie SessionCookies_clear fmap list_fmap]. split.
  - by apply filter_cookies, filter_cookies.
  - apply Forall_and. split; [apply drop_cookie|]. apply filter_cookies, drop_cookie.
Qed.
Lemma no_session_values jar :
  no_session jar → csrf_cookie_values [cookie_header jar] = [] ∧ _refresh_cookie [cookie_header jar] = Ok None.
Proof.
  intros [Hplain [Hc Hr]%Forall_and].
  assert (∀ wanted, wanted ≠ [] → Forall (λ p, p.1 ≠ wanted) jar → cookie_values wanted [cookie_header jar] = []) as Hv.
  { intros wanted Hne Hall. rewrite cookie_values_sent; [by apply cookie_of_others|done|].
    rewrite Forall_forall in Hplain, Hall. apply Forall_forall. intros p Hp. split; [auto|]. by intros ?%Hall. }
  split; [by apply Hv|]. unfold _refresh_cookie. by rewrite Hv.
Qed.

(** C32: a browser that keeps the cookies of a session next to any others and
    echoes the CSRF cookie in the header passes the CSRF test and presents its
    refresh token, in whatever order it sends them; another token or two copies
    of the cookie are refused.  Once the session is cleared neither cookie is
    left and the old token is refused. *)
Theorem issued_csrf_cookie_passes secure raw refresh_token expires_at now random others :
  Forall plain_cookie others → token_of raw refresh_token →
  is_naive expires_at = false → is_naive now = false → instant now + seconds 1 ≤ instant expires_at →
  Forall is_byte random → length random = 32%nat →
  ∃ cookies csrf,
    SessionCookies_issue secure refresh_token expires_at now random = Ok cookies ∧ token_of random csrf ∧
    let jar := foldl store_cookie others cookies in
    let cleared := foldl store_cookie jar (SessionCookies_clear secure) in
    (∀ sent, sent ≡ₚ jar →
       let header := cookie_header sent in
       _refresh_cookie [header] = Ok (Some refresh_token) ∧
       check_csrf (csrf_cookie_values [header]) [csrf] = Ok tt ∧
       (∀ token, token ≠ csrf → check_csrf (csrf_cookie_values [header]) [token] = Raise CsrfValidationFailed) ∧
       check_csrf (csrf_cookie_values [header; header]) [csrf] = Raise CsrfValidationFailed) ∧
    Forall (λ p, p.1 ≠ CSRF_COOKIE ∧ p.1 ≠ REFRESH_COOKIE) cleared ∧
    _refresh_cookie [cookie_header cleared] = Ok None ∧
    check_csrf (csrf_cookie_values [cookie_header cleared]) [csrf] = Raise CsrfValidationFailed.
Proof.
  intros Hplain Hr He Hn Hage Hb Hl.
  destruct (SessionCookies_issue_Ok secure refresh_token expires_at now random He Hn Hb Hl) as [Ht Hi].
  set (csrf := b64encode random) in *. clearbody csrf. set (max_age := Z.max 0 _) in *.
  assert (1 ≤ max_age) as Hlive by (unfold max_age, seconds in *; Z.to_euclidean_division_equations; lia).
  clearbody max_age. eexists _, csrf. split; [exact Hi|]. split; [exact Ht|]. cbv zeta.
  pose proof (jar_keeps_session secure raw refresh_token random csrf max_age expires_at others Hr Ht Hlive Hplain) as [Hjar Hk].
  pose proof (clear_no_session secure _ Hjar) as Hcl. destruct (no_session_values _ Hcl) as [Hv Hnone].
  split; [|split; [exact (proj2 Hcl)|split; [exact Hnone|by rewrite Hv]]].
  intros sent Hperm. destruct (Hk sent Hperm) as [Hc Href]. split; [exact Href|].
  change [cookie_header sent; cookie_header sent] with ([cookie_header sent] ++ [cookie_header sent]).
  unfold csrf_cookie_values in *. rewrite cookie_values_app, Hc. exact (check_csrf_echo random csrf Ht).
Qed.

(** ** Witnesses *)

Definition test_protection : AuthRequestProtection :=
  mkAuthRequestProtection [py "https://mdm.example.com:443"] (replicate 32 7).
Definition loopback : ip_address := IPv4Address 2130706433.
Definition full_window : Windows :=
  match HmacClientIpKey (replicate 32 7) loopback with
  | Ok client => [(client, mkWindow (60 * second) 30)]
  | Raise _ => []
  end.

Lemma loopback_client : client_address loopback.
Proof. split; [cbn; lia|done]. Defined.

Lemma full_window_ok : windows_ok 1 0 full_window.
Proof.
  unfold full_window. destruct (HmacClientIpKey_Ok (replicate 32 7) loopback loopback_client) as [-> _].
  set (client := KEY_PREFIX ++ _). clearbody client. split; cbn.
  - apply NoDup_singleton.
  - repeat constructor.
  - intros k w Hin%list_elem_of_singleton. injection Hin as _ ->. unfold second. cbn. lia.
  - lia.
Qed.

(** A login from an exhausted address is told when to come back. *)
Lemma auth_check_outcomes_witness :
  (check test_protection 1 second (utc 0) LOGIN [py "https://MDM.example.com"] [] [] (Some loopback) full_window).2 =
    Raise (RateLimitExceeded 59).
Proof.
  assert (windows_ok 1 0 full_window) as Hok by exact full_window_ok.
  destruct (auth_check_outcomes test_protection 1 0 second (utc 0) LOGIN [py "https://MDM.example.com"] [] []
    (Some loopback) full_window Hok ltac:(done) ltac:(intros a [= <-]; exact loopback_client))
    as (_ & _ & _ & _ & H).
  destruct (H loopback) as (client & events & windows' & result & Hk & -> & _ & _ & Hq); [|done|done|done|].
  - intros _. exists (py "https://MDM.example.com"), (py "https://mdm.example.com:443").
    split; [done|]. split; [vm_compute; reflexivity|by left].
  - assert (live client second full_window = Some (mkWindow (60 * second) 30)) as Hlive.
    { change (ap_ip_key test_protection) with (replicate 32 7 : list Z) in Hk. unfold full_window. rewrite Hk. unfold live. rewrite get_cons, bool_decide_eq_true_2 by done. reflexivity. }
    rewrite Hlive in Hq. destruct Hq as [Hq|(_ & _ & [=] & _)]. cbn in Hq. injection Hq as _ -> _. reflexivity.
Defined.

Lemma clients_have_their_own_quota_witness :
  ∃ client, HmacClientIpKey (replicate 32 7) loopback = Ok client ∧
    live client second
      (check test_protection 1 second (utc 0) PASSWORD_RESET_REQUEST [] [] [] (Some (IPv4Address 2130706434)) full_window).1.2 =
      Some (mkWindow (60 * second) 30).
Proof.
  destruct (HmacClientIpKey (replicate 32 7) loopback) as [client|] eqn:Hk;
    [|by destruct (HmacClientIpKey_Ok (replicate 32 7) loopback loopback_client) as [H _]; rewrite Hk in H].
  exists client. split; [done|].
  destruct (clients_have_their_own_quota test_protection 1 0 second (utc 0) PASSWORD_RESET_REQUEST [] [] [] loopback
    (IPv4Address 2130706434) client full_window full_window_ok ltac:(done) loopback_client) as [_ [->|[Hc|Hc]]].
  - split; [cbn; lia|done].
  - done.
  - exact Hk.
  - unfold full_window. rewrite Hk. unfold live. rewrite get_cons, bool_decide_eq_true_2 by done. reflexivity.
  - exfalso. destruct Hc as [_ Hc]. revert Hc. apply (bool_decide_unpack _). vm_compute. exact I.
  - exfalso. destruct Hc as [_ Hc]. revert Hc. apply (bool_decide_unpack _). vm_compute. exact I.
Defined.

(** The session's cookies, sent by a browser in the order it got them. *)
Lemma issued_csrf_cookie_passes_witness :
  let refresh_token := b64encode (repeat 5 32) in
  let csrf := b64encode (repeat 9 32) in
  let header := py "theme=dark mode; mdm_refresh=" ++ refresh_token ++ py "; mdm_csrf=" ++ csrf in
  _refresh_cookie [header] = Ok (Some refresh_token) ∧ check_csrf (csrf_cookie_values [header]) [csrf] = Ok tt.
Proof.
  intros refresh_token csrf header.
  assert (∀ s v, bool_decide (Forall (λ c, is_space c = false) s ∧ (semicolon ∉ s) ∧ (equals ∉ s) ∧ (semicolon ∉ v)) →
    plain_cookie (s, v)) as Hp by (intros s v H%bool_decide_unpack; exact H).
  assert (∀ n, is_byte n → Forall is_byte (repeat n 32)) as Hb.
  { intros n Hn. apply Forall_forall. intros x Hx%list_elem_of_In%repeat_spec. by subst x. }
  destruct (issued_csrf_cookie_passes true (repeat 5 32) refresh_token (utc (seconds 60)) (utc 0) (repeat 9 32)
    [(py "theme", py "dark mode")]) as (cookies & csrf' & Hi & Ht & Hs & _).
  - apply Forall_singleton, Hp. vm_compute. exact I.
  - split; [apply Hb; unfold is_byte; lia|]. split; reflexivity.
  - reflexivity.
  - reflexivity.
  - vm_compute. discriminate.
  - apply Hb. unfold is_byte. lia.
  - reflexivity.
  - destruct Ht as (_ & _ & ->).
    assert (cookies = session_cookies true refresh_token csrf 60 (utc (seconds 60))) as ->
      by (apply (Ok_inv (E := exn)); rewrite <- Hi; vm_compute; reflexivity).
    destruct (Hs _ (Permutation_refl _)) as (H1 & H2 & _). split; [exact H1|exact H2].
Defined.
