(* ===== verification/Problems.v ===== *)
(** * Errors as problem details
    ([src/src/mdm/api/errors.py], [api/schemas.py], the handlers of
    [api/change_requests.py], [api/admin_users.py], [api/user_management.py] and
    [api/audit_logs.py], and their registration in [src/src/mdm/main.py])

    Every exception that leaves an endpoint becomes one RFC 9457 problem.
    Texts are UTF-8 strings. *)

From Stdlib Require Import Ascii String.
From S2P Require Import Prelude Python Exceptions.
Local Open Scope Z_scope.

(** ** Problems and responses *)

Record FieldViolation := mkFieldViolation { fv_field : string; fv_message : string }.

Record ProblemDetails := mkProblemDetails {
  pd_type : string; pd_title : string; pd_status : Z; pd_detail : string; pd_code : string;
  pd_instance : option pystr; pd_violations : option (list FieldViolation);
}.
Definition problem (type title : string) (status : Z) (detail code : string) (instance : pystr) : ProblemDetails :=
  mkProblemDetails type title status detail code (Some instance) None.
Definition with_violations (vs : list FieldViolation) (p : ProblemDetails) : ProblemDetails :=
  mkProblemDetails (pd_type p) (pd_title p) (pd_status p) (pd_detail p) (pd_code p) (pd_instance p) (Some vs).

(** [problem_response]: the body and the further headers. *)
Record JSONResponse := mkJSONResponse { jr_problem : ProblemDetails; jr_headers : list (string * string) }.
Definition problem_response (p : ProblemDetails) (hs : list (string * string)) : JSONResponse := mkJSONResponse p hs.

(** What a handler reads of the request. *)
Record HttpRequest := mkHttpRequest {
  hr_path : pystr;
  hr_method : string;
  hr_if_match : list pystr;
  hr_auth_no_store : bool;
}.

(** [code.lower().replace("_", "-")] *)
Definition slug_char (a : ascii) : ascii :=
  let n := Ascii.nat_of_ascii a in
  if ((65 <=? n) && (n <=? 90))%nat then Ascii.ascii_of_nat (n + 32)
  else if (n =? 95)%nat then "-"%char else a.
Fixpoint slug (code : string) : string :=
  match code with EmptyString => EmptyString | String a s => String (slug_char a) (slug s) end.
Definition problem_type (code : string) : string := ("/problems/" ++ slug code)%string.

Definition startswith (prefix s : pystr) : bool := bool_decide (take (length prefix) s = prefix).
Definition is_master_code (path : pystr) : bool := startswith (py "/api/v1/master-codes/") path.

(** ** The handlers of [errors.py] *)

Section handlers.
Context (request : HttpRequest).
Abbreviation path := (hr_path request).

Definition invalid_access_token_handler : JSONResponse :=
  problem_response
    (problem "/problems/invalid-access-token" "유효하지 않은 액세스 토큰" 401
       "유효한 Bearer 액세스 토큰이 필요합니다." "INVALID_ACCESS_TOKEN" path)
    [("WWW-Authenticate", "Bearer")].

Definition authorization_denied_handler : JSONResponse :=
  problem_response
    (problem "/problems/authorization-denied" "권한 없음" 403
       "현재 역할로는 이 작업을 수행할 수 없습니다." "AUTHORIZATION_DENIED" path) [].

Definition readiness_unavailable_handler : JSONResponse :=
  problem_response
    (problem "/problems/service-unavailable" "서비스를 사용할 수 없음" 503
       "데이터베이스 연결을 확인할 수 없어 현재 요청을 처리할 수 없습니다." "SERVICE_UNAVAILABLE" path) [].

Definition validation_problem (vs : list FieldViolation) : JSONResponse :=
  problem_response
    (with_violations vs
       (problem "/problems/validation-error" "유효하지 않은 요청" 422
          "하나 이상의 요청 필드가 유효하지 않습니다." "VALIDATION_ERROR" path)) [].
Definition dimension_validation_error_handler (field message : string) : JSONResponse :=
  validation_problem [mkFieldViolation field message].

Definition precondition_required_handler : JSONResponse :=
  let resource := (if is_master_code path then "MasterCode" else "Dimension")%string in
  problem_response
    (problem "/problems/precondition-required" "사전 조건 필요" 428
       (resource ++ "를 변경하려면 직전 단건 응답의 ETag를 If-Match로 제공해야 합니다.") "PRECONDITION_REQUIRED" path) [].

Definition invalid_if_match_handler : JSONResponse :=
  problem_response
    (problem "/problems/invalid-if-match" "유효하지 않은 If-Match" 400
       (if is_master_code path
        then "If-Match에는 직전 MasterCode 응답에서 받은, 문서에 제시된 형식의 강한 ETag 하나를 입력해야 합니다."
        else "If-Match에는 따옴표로 감싼 강한 정수 ETag 하나를 입력해야 합니다.")
       "INVALID_IF_MATCH" path) [].

Definition precondition_failed_handler : JSONResponse :=
  problem_response
    (problem "/problems/precondition-failed" "사전 조건 불일치" 412
       (if is_master_code path
        then "MasterCode 또는 참조 Dimension이 조회 이후 변경되었습니다. 최신 상태와 ETag를 다시 조회해 주세요."
        else "Dimension이 조회 이후 변경되었습니다. 최신 상태와 ETag를 다시 조회해 주세요.")
       "PRECONDITION_FAILED" path) [].

(** The [*_not_found_handler]s of the Dimensions. *)
Definition dimension_not_found (name : string) : JSONResponse :=
  problem_response
    (problem "/problems/dimension-not-found" "Dimension을 찾을 수 없음" 404
       ("요청한 활성 " ++ name ++ " Dimension을 찾을 수 없습니다.") "DIMENSION_NOT_FOUND" path) [].
Definition company_not_found_handler : JSONResponse := dimension_not_found "Company".
Definition string_dimension_not_found_handler (name : string) : JSONResponse := dimension_not_found name.
Definition numeric_dimension_not_found_handler (name : string) : JSONResponse := dimension_not_found name.
Definition memory_dimension_not_found_handler : JSONResponse := dimension_not_found "Memory".

(** The [*_repository_unavailable_handler]s. *)
Definition repository_unavailable : JSONResponse :=
  problem_response
    (problem "/problems/service-unavailable" "서비스를 사용할 수 없음" 503
       "요청을 일시적으로 처리할 수 없습니다. 잠시 후 다시 시도해 주세요." "SERVICE_UNAVAILABLE" path) [].
Definition company_repository_unavailable_handler : JSONResponse := repository_unavailable.
Definition string_dimension_repository_unavailable_handler : JSONResponse := repository_unavailable.
Definition numeric_dimension_repository_unavailable_handler : JSONResponse := repository_unavailable.
Definition memory_dimension_repository_unavailable_handler : JSONResponse := repository_unavailable.
Definition master_code_repository_unavailable_handler : JSONResponse := repository_unavailable.

(** The [*_conflict_handler]s of the Dimensions: which fields collide. *)
Inductive conflict := CodeConflict | ValueConflict | MultipleConflicts.
Definition conflict_problem (c : conflict) (code_detail value_detail multiple_detail : string) : JSONResponse :=
  let used field := mkFieldViolation field "이미 사용 중인 값입니다." in
  let '(type, title, detail, code, violations) :=
    match c with
    | CodeConflict =>
        ("dimension-code-conflict", "Dimension 대표 코드 충돌", code_detail, "DIMENSION_CODE_CONFLICT",
         [used "body.code"])
    | ValueConflict =>
        ("dimension-value-conflict", "Dimension 값 충돌", value_detail, "DIMENSION_VALUE_CONFLICT",
         [used "body.value"])
    | MultipleConflicts =>
        ("dimension-multiple-conflicts", "여러 Dimension 필드 충돌", multiple_detail, "DIMENSION_MULTIPLE_CONFLICTS",
         [used "body.code"; used "body.value"])
    end%string in
  problem_response (with_violations violations (problem ("/problems/" ++ type) title 409 detail code path)) [].

Definition string_dimension_conflict_handler (name : string) (c : conflict) : JSONResponse :=
  conflict_problem c
    ("정규화된 " ++ name ++ " 대표 코드가 이미 사용 중입니다.")
    ("정규화된 " ++ name ++ " 값이 이미 사용 중입니다.")
    ("정규화된 " ++ name ++ " 대표 코드와 값이 모두 이미 사용 중입니다.").
Definition company_conflict_handler (c : conflict) : JSONResponse :=
  conflict_problem c
    "정규화된 Company 대표 코드가 이미 사용 중입니다." "정규화된 Company 값이 이미 사용 중입니다."
    "정규화된 Company 대표 코드와 값이 모두 이미 사용 중입니다.".
Definition numeric_dimension_conflict_handler (name : string) (c : conflict) : JSONResponse :=
  conflict_problem c
    ("정규화된 " ++ name ++ " 대표 코드가 이미 사용 중입니다.")
    (name ++ " 값이 이미 사용 중입니다.") (name ++ " 대표 코드와 값이 모두 이미 사용 중입니다.").
Definition memory_dimension_conflict_handler (c : conflict) : JSONResponse :=
  conflict_problem c
    "정규화된 Memory 대표 코드가 이미 사용 중입니다." "동등한 Memory 용량이 이미 사용 중입니다."
    "Memory 대표 코드와 동등한 용량이 모두 이미 사용 중입니다.".

Definition master_code_not_found_handler : JSONResponse :=
  problem_response
    (problem "/problems/master-code-not-found" "MasterCode를 찾을 수 없음" 404
       "요청한 MasterCode를 찾을 수 없습니다." "MASTER_CODE_NOT_FOUND" path) [].

Definition invalid_dimension_reference_handler (fields : list string) : JSONResponse :=
  problem_response
    (with_violations
       ((λ field, mkFieldViolation ("body." ++ field) "활성 Dimension을 참조해야 합니다.") <$> fields)
       (problem "/problems/invalid-dimension-reference" "유효하지 않은 Dimension 참조" 422
          "하나 이상의 Dimension 참조가 없거나 활성 상태가 아닙니다." "INVALID_DIMENSION_REFERENCE" path)) [].

Definition master_code_conflict_handler : JSONResponse :=
  problem_response
    (problem "/problems/master-code-conflict" "MasterCode 충돌" 409
       "같은 참조 조합 또는 합성 코드의 MasterCode가 이미 존재합니다." "MASTER_CODE_CONFLICT" path) [].

Definition inline_dimension_conflict_handler (field : string) (in_code in_value : bool) : JSONResponse :=
  let '(type, title, code, detail, names) :=
    if in_code && in_value then
      ("dimension-multiple-conflicts", "여러 Dimension 필드 충돌", "DIMENSION_MULTIPLE_CONFLICTS",
       "mode: CREATE로 생성하려는 Dimension의 대표 코드와 값이 모두 이미 사용 중입니다.", ["code"; "value"])
    else if in_code then
      ("dimension-code-conflict", "Dimension 대표 코드 충돌", "DIMENSION_CODE_CONFLICT",
       "mode: CREATE로 생성하려는 Dimension의 대표 코드가 이미 사용 중입니다.", ["code"])
    else
      ("dimension-value-conflict", "Dimension 값 충돌", "DIMENSION_VALUE_CONFLICT",
       "mode: CREATE로 생성하려는 Dimension의 값이 이미 사용 중입니다.", ["value"])%string in
  problem_response
    (with_violations
       ((λ name, mkFieldViolation ("body.dimensions." ++ field ++ "." ++ name) "이미 사용 중인 값입니다.") <$> names)
       (problem ("/problems/" ++ type) title 409 detail code path)) [].

(** [_safe_validation_message]; an error of the framework's validation is its
    type and location. *)
Record ValidationError := mkValidationError { ve_type : string; ve_loc : list string }.
Definition _safe_validation_message (e : ValidationError) : string :=
  if (ve_type e =? "missing")%string then "필수 필드입니다."
  else if (ve_type e =? "string_too_short")%string then "허용된 길이보다 짧은 문자열입니다."
  else if (ve_type e =? "string_too_long")%string then "허용된 길이보다 긴 문자열입니다."
  else "유효하지 않은 값입니다.".
Definition validation_error_handler (errors : list ValidationError) : JSONResponse :=
  let missing_required_if_match :=
    existsb (λ e, (ve_type e =? "missing")%string && bool_decide (ve_loc e = ["header"; "If-Match"]%string)) errors in
  if bool_decide (hr_if_match request = []) && ((hr_method request =? "PATCH")%string || missing_required_if_match)
  then precondition_required_handler
  else validation_problem ((λ e, mkFieldViolation (String.concat "." (ve_loc e)) (_safe_validation_message e)) <$> errors).

Definition unexpected_error_handler : JSONResponse :=
  problem_response
    (problem "/problems/internal-error" "서버 내부 오류" 500
       "서비스에서 예상하지 못한 오류가 발생했습니다." "INTERNAL_ERROR" path)
    (if hr_auth_no_store request then [("Cache-Control", "no-store")] else []).

Inductive dimension_lifecycle_error := InUse | NotDeleted | NotFound | Unavailable.
Definition dimension_lifecycle_error_handler (e : dimension_lifecycle_error) : JSONResponse :=
  let '(status, code, title, detail) :=
    match e with
    | InUse => (409, "DIMENSION_IN_USE", "사용 중인 Dimension",
                "활성 MasterCode가 참조하는 Dimension은 삭제할 수 없습니다.")
    | NotDeleted => (409, "DIMENSION_NOT_DELETED", "삭제되지 않은 Dimension",
                     "활성 Dimension은 삭제 상태 조회 또는 복원의 대상이 아닙니다.")
    | NotFound => (404, "DIMENSION_NOT_FOUND", "Dimension을 찾을 수 없음",
                   "요청한 경로에서 조회할 수 있는 Dimension이 없습니다.")
    | Unavailable => (503, "SERVICE_UNAVAILABLE", "서비스를 사용할 수 없음",
                      "일시적인 오류로 요청을 처리할 수 없습니다. 잠시 후 다시 시도해 주세요.")
    end%string in
  problem_response (problem (problem_type code) title status detail code path) [].

(** The argument is [exc.fields] of [MasterCodeReferenceInactive], [None] for
    [MasterCodeNotDeleted]. *)
Definition master_code_lifecycle_error_handler (inactive : option (list string)) : JSONResponse :=
  match inactive with
  | Some fields =>
      problem_response
        (with_violations ((λ field, mkFieldViolation field "삭제된 Dimension 참조입니다.") <$> fields)
           (problem (problem_type "MASTER_CODE_REFERENCE_INACTIVE") "복원할 수 없는 MasterCode 참조" 409
              "삭제된 Dimension 참조가 있어 MasterCode를 복원할 수 없습니다." "MASTER_CODE_REFERENCE_INACTIVE" path)) []
  | None =>
      problem_response
        (problem (problem_type "MASTER_CODE_NOT_DELETED") "삭제되지 않은 MasterCode" 409
           "요청한 MasterCode가 삭제 상태가 아닙니다." "MASTER_CODE_NOT_DELETED" path) []
  end.

(** ** The handlers of the other routers *)

(** [CHANGE_REQUEST_ERRORS] and [change_request_error_handler] *)
Inductive change_request_error :=
| RequestNotFound | AlreadyReviewed | NoEffect | StaleTarget | RestoreMismatch | InvalidReview (message : string).
Definition CHANGE_REQUEST_ERRORS (e : change_request_error) : Z * string * string :=
  match e with
  | RequestNotFound => (404, "CHANGE_REQUEST_NOT_FOUND", "요청을 찾을 수 없습니다.")
  | AlreadyReviewed => (409, "CHANGE_REQUEST_ALREADY_REVIEWED", "이미 승인 또는 거절된 요청입니다.")
  | NoEffect =>
      (409, "CHANGE_REQUEST_NO_EFFECT",
       "적용할 변경이 없습니다. 요청은 PENDING으로 유지되며 메시지를 포함한 별도 거절이 필요합니다.")
  | StaleTarget =>
      (409, "CHANGE_REQUEST_STALE_TARGET",
       "대상 상태가 적용 기준 ETag와 다릅니다. 최신 상태를 검토한 뒤 수정 승인하거나 거절해 주세요.")
  | RestoreMismatch =>
      (409, "CHANGE_REQUEST_RESTORE_MISMATCH", "복원 적용안의 참조 조합이 대상 삭제 행과 다릅니다.")
  | InvalidReview _ => (422, "VALIDATION_ERROR", "변경 요청 또는 검토 입력이 유효하지 않습니다.")
  end%string.
Definition change_request_error_handler (e : change_request_error) : JSONResponse :=
  let '(status, code, detail) := CHANGE_REQUEST_ERRORS e in
  let detail := match e with InvalidReview message => message | _ => detail end in
  problem_response (problem (problem_type code) "변경 요청 처리 오류" status detail code path) [].

(** [_PROBLEMS] and [_ERRORS] of the routers of users *)
Inductive user_error := UserMissing | UserInvalid (field message : string) | UsersUnavailable.
Definition user_problem (status : Z) (code title detail : string) : ProblemDetails :=
  problem (problem_type code) title status detail code path.
Definition admin_user_error_handler (e : user_error) : JSONResponse :=
  problem_response
    (match e with
     | UserMissing => user_problem 404 "USER_NOT_FOUND" "사용자를 찾을 수 없음" "조회할 수 있는 사용자가 없습니다."
     | UserInvalid field message =>
         with_violations [mkFieldViolation field message]
           (user_problem 422 "VALIDATION_ERROR" "유효하지 않은 요청" "하나 이상의 요청 필드가 유효하지 않습니다.")
     | UsersUnavailable =>
         user_problem 503 "SERVICE_UNAVAILABLE" "서비스를 사용할 수 없음"
           "요청을 일시적으로 처리할 수 없습니다. 잠시 후 다시 시도해 주세요."
     end) [].
Definition user_management_unavailable_handler : JSONResponse :=
  problem_response
    (user_problem 503 "SERVICE_UNAVAILABLE" "서비스를 사용할 수 없음"
       "요청을 일시적으로 처리할 수 없습니다. 잠시 후 다시 시도해 주세요.") [].

Definition audit_log_unavailable_handler : JSONResponse :=
  problem_response
    (problem "/problems/service-unavailable" "서비스를 사용할 수 없음" 503
       "감사 로그를 일시적으로 조회할 수 없습니다. 잠시 후 다시 시도해 주세요." "SERVICE_UNAVAILABLE" path) [].

(** ** Registration

    The framework picks the handler of the exception's own class; the handler
    of [Exception] serves every class without one of its own. *)
Definition exception_response (e : exn) : JSONResponse :=
  match e with
  | InvalidAccessToken => invalid_access_token_handler
  | AuthorizationDenied => authorization_denied_handler
  | DimensionValidationError field message => dimension_validation_error_handler field message
  | ChangeRequestNotFound => change_request_error_handler RequestNotFound
  | ChangeRequestAlreadyReviewed => change_request_error_handler AlreadyReviewed
  | ChangeRequestNoEffect => change_request_error_handler NoEffect
  | ChangeRequestStaleTarget => change_request_error_handler StaleTarget
  | ChangeRequestRestoreMismatch => change_request_error_handler RestoreMismatch
  | ChangeRequestValidationError message => change_request_error_handler (InvalidReview message)
  | PreconditionRequired => precondition_required_handler
  | InvalidIfMatch => invalid_if_match_handler
  | PreconditionFailed => precondition_failed_handler
  | CompanyNotFound => company_not_found_handler
  | CompanyRepositoryUnavailable => company_repository_unavailable_handler
  | CompanyCodeConflict => company_conflict_handler CodeConflict
  | CompanyValueConflict => company_conflict_handler ValueConflict
  | CompanyMultipleConflicts => company_conflict_handler MultipleConflicts
  | StringDimensionNotFound name => string_dimension_not_found_handler name
  | StringDimensionRepositoryUnavailable => string_dimension_repository_unavailable_handler
  | StringDimensionCodeConflict name => string_dimension_conflict_handler name CodeConflict
  | StringDimensionValueConflict name => string_dimension_conflict_handler name ValueConflict
  | StringDimensionMultipleConflicts name => string_dimension_conflict_handler name MultipleConflicts
  | NumericDimensionNotFound name => numeric_dimension_not_found_handler name
  | NumericDimensionRepositoryUnavailable => numeric_dimension_repository_unavailable_handler
  | NumericDimensionCodeConflict name => numeric_dimension_conflict_handler name CodeConflict
  | NumericDimensionValueConflict name => numeric_dimension_conflict_handler name ValueConflict
  | NumericDimensionMultipleConflicts name => numeric_dimension_conflict_handler name MultipleConflicts
  | MemoryDimensionNotFound => memory_dimension_not_found_handler
  | MemoryDimensionRepositoryUnavailable => memory_dimension_repository_unavailable_handler
  | MemoryDimensionCodeConflict => memory_dimension_conflict_handler CodeConflict
  | MemoryDimensionValueConflict => memory_dimension_conflict_handler ValueConflict
  | MemoryDimensionMultipleConflicts => memory_dimension_conflict_handler MultipleConflicts
  | MasterCodeNotDeleted => master_code_lifecycle_error_handler None
  | MasterCodeReferenceInactive fields => master_code_lifecycle_error_handler (Some fields)
  | MasterCodeNotFound => master_code_not_found_handler
  | MasterCodeRepositoryUnavailable => master_code_repository_unavailable_handler
  | InvalidDimensionReference fields => invalid_dimension_reference_handler fields
  | MasterCodeConflict => master_code_conflict_handler
  | InlineDimensionConflict field in_code in_value => inline_dimension_conflict_handler field in_code in_value
  | ReadinessUnavailable => readiness_unavailable_handler
  | DimensionInUse => dimension_lifecycle_error_handler InUse
  | DimensionNotDeleted => dimension_lifecycle_error_handler NotDeleted
  | DimensionLifecycleNotFound => dimension_lifecycle_error_handler NotFound
  | DimensionLifecycleUnavailable => dimension_lifecycle_error_handler Unavailable
  | UserNotFound => admin_user_error_handler UserMissing
  | UserQueryUnavailable => admin_user_error_handler UsersUnavailable
  | UserQueryValidationError field message => admin_user_error_handler (UserInvalid field message)
  | UserManagementUnavailable => user_management_unavailable_handler
  | AuditLogRepositoryUnavailable => audit_log_unavailable_handler
  | _ => unexpected_error_handler
  end.
End handlers.

(** ** What every problem satisfies *)

(** The status an error code stands for. *)
Definition code_status (code : string) : option Z :=
  snd <$> find (λ p, (p.1 =? code)%string)
    [("INVALID_ACCESS_TOKEN", 401); ("AUTHORIZATION_DENIED", 403); ("SERVICE_UNAVAILABLE", 503);
     ("VALIDATION_ERROR", 422); ("PRECONDITION_REQUIRED", 428); ("INVALID_IF_MATCH", 400);
     ("PRECONDITION_FAILED", 412); ("DIMENSION_NOT_FOUND", 404); ("DIMENSION_CODE_CONFLICT", 409);
     ("DIMENSION_VALUE_CONFLICT", 409); ("DIMENSION_MULTIPLE_CONFLICTS", 409); ("DIMENSION_IN_USE", 409);
     ("DIMENSION_NOT_DELETED", 409); ("MASTER_CODE_NOT_FOUND", 404); ("INVALID_DIMENSION_REFERENCE", 422);
     ("MASTER_CODE_CONFLICT", 409); ("MASTER_CODE_NOT_DELETED", 409); ("MASTER_CODE_REFERENCE_INACTIVE", 409);
     ("CHANGE_REQUEST_NOT_FOUND", 404); ("CHANGE_REQUEST_ALREADY_REVIEWED", 409); ("CHANGE_REQUEST_NO_EFFECT", 409);
     ("CHANGE_REQUEST_STALE_TARGET", 409); ("CHANGE_REQUEST_RESTORE_MISMATCH", 409); ("USER_NOT_FOUND", 404);
     ("INTERNAL_ERROR", 500)]%string.

(** [^/problems/[a-z0-9]+(?:-[a-z0-9]+)*$] *)
Fixpoint slug_pattern (after_word : bool) (s : string) : bool :=
  match s with
  | EmptyString => after_word
  | String a s =>
      let n := Ascii.nat_of_ascii a in
      if (((97 <=? n) && (n <=? 122)) || ((48 <=? n) && (n <=? 57)))%nat then slug_pattern true s
      else (n =? 45)%nat && after_word && slug_pattern false s
  end.
Definition type_pattern (s : string) : bool :=
  (String.substring 0 10 s =? "/problems/")%string && slug_pattern false (String.substring 10 (String.length s) s).

(** C23: whatever exception leaves an endpoint, its problem names the request
    path as its instance, its type is a valid one and is the code in lower
    case with hyphens, its status is the one its code stands for, and only an exception
    without a handler is an internal error, which tells nothing about it. *)
Theorem problems_are_well_formed (request : HttpRequest) (e : exn) :
  let p := jr_problem (exception_response request e) in
  pd_instance p = Some (hr_path request) ∧ type_pattern (pd_type p) = true ∧ pd_type p = problem_type (pd_code p) ∧
  code_status (pd_code p) = Some (pd_status p) ∧
  (pd_status p = 500 ↔ exception_response request e = unexpected_error_handler request) ∧
  (pd_status p = 401 ↔ ("WWW-Authenticate", "Bearer")%string ∈ jr_headers (exception_response request e)).
Proof.
  cbv zeta. destruct e; try destruct code, value; (split_and!; [reflexivity|vm_compute; reflexivity..| |]).
  all: split; [|].
  all: lazymatch goal with
       | |- _ = 500 → _ => intros H; first [discriminate H | reflexivity]
       | |- _ → _ = 500 => intros H; apply (f_equal (λ r, pd_status (jr_problem r))) in H; exact H
       | |- _ = 401 → _ => intros H; first [discriminate H | by left]
       | |- _ → _ = 401 => intros H; first [reflexivity | exfalso; apply list_elem_of_In in H; cbn in H;
                                destruct (hr_auth_no_store request); cbn in H; intuition discriminate]
       end.
Qed.
