(* ===== verification/Preconditions.v ===== *)
(** * If-Match and ETag headers
    ([src/src/mdm/api/preconditions.py], the ETags of the Dimension routers and
    [_parse_master_code_if_match_values] of [src/src/mdm/api/master_codes.py]) *)

From S2P Require Import Prelude Python Exceptions Dimensions MasterCodes Store ChangeRequests.
Local Open Scope Z_scope.

(** [_etag] of the Dimension routers *)
Definition version_etag (version : Z) : pystr := [quote] ++ str_of_Z version ++ [quote].

(** The group of [_DIMENSION_ETAG.fullmatch] *)
Definition dimension_etag_digits (value : pystr) : option pystr :=
  match value with
  | q :: rest =>
      let '(digits, rest) := span_digits rest in
      if (q =? quote) && match digits with d :: _ => negb (d =? 48) | [] => false end && bool_decide (rest = [quote])
      then Some digits else None
  | [] => None
  end.

Definition parse_dimension_if_match (value : option pystr) : res Z :=
  match value with
  | None => Raise PreconditionRequired
  | Some value =>
      match dimension_etag_digits value with
      | None => Raise InvalidIfMatch
      | Some digits =>
          _ ← raise_if (10 <? length digits)%nat InvalidIfMatch;
          let version := decimal_value digits in
          _ ← raise_if (2147483647 <? version) InvalidIfMatch;
          Ok version
      end
  end.
Definition parse_dimension_if_match_values (values : list pystr) : res Z :=
  match values with
  | [] => Raise PreconditionRequired
  | [value] => parse_dimension_if_match (Some value)
  | _ => Raise InvalidIfMatch
  end.

Definition _parse_master_code_if_match_values (values : list pystr) : res pystr :=
  match values with
  | [] => Raise PreconditionRequired
  | [value] => if etag_pattern value then Ok value else Raise InvalidIfMatch
  | _ => Raise InvalidIfMatch
  end.

(** ** Round trips *)

Lemma span_digits_app (ds s : pystr) c :
  Forall (λ c, is_digit c = true) ds → is_digit c = false → span_digits (ds ++ c :: s) = (ds, c :: s).
Proof.
  intros Hds Hc. induction Hds as [|d ds Hd _ IH]; cbn [app span_digits]; [by rewrite Hc|]. by rewrite Hd, IH.
Qed.

Lemma span_digits_spec s : s = (span_digits s).1 ++ (span_digits s).2 ∧ Forall (λ c, is_digit c = true) (span_digits s).1.
Proof.
  induction s as [|c s [IH Hall]]; [done|]. cbn [span_digits]. destruct (is_digit c) eqn:E; [|done].
  destruct (span_digits s) as [d r]. cbn in *. split; [by f_equal|by constructor].
Qed.

Lemma digits_uint (ds : pystr) : Forall (λ c, is_digit c = true) ds → ∃ d, ds = uint_digits d.
Proof.
  induction 1 as [|c ds Hc _ [d ->]]; [by exists Decimal.Nil|].
  assert (c = 48 ∨ c = 49 ∨ c = 50 ∨ c = 51 ∨ c = 52 ∨ c = 53 ∨ c = 54 ∨ c = 55 ∨ c = 56 ∨ c = 57) as Hcs
    by (unfold is_digit, in_range in Hc; lia).
  destruct Hcs as [->|[->|[->|[->|[->|[->|[->|[->|[->| ->]]]]]]]]];
    [by exists (Decimal.D0 d)|by exists (Decimal.D1 d)|by exists (Decimal.D2 d)|by exists (Decimal.D3 d)
    |by exists (Decimal.D4 d)|by exists (Decimal.D5 d)|by exists (Decimal.D6 d)|by exists (Decimal.D7 d)
    |by exists (Decimal.D8 d)|by exists (Decimal.D9 d)].
Qed.

(** The digits of a positive number start with another digit than zero, and no
    other digits without a leading zero have its value. *)
Lemma decimal_digits_str (ds : pystr) :
  Forall (λ c, is_digit c = true) ds → ds ≠ [] → head ds ≠ Some 48 → str_of_Z (decimal_value ds) = ds ∧ 1 ≤ decimal_value ds.
Proof.
  intros Hds Hne Hhead. destruct (digits_uint ds Hds) as [d ->].
  assert (Decimal.unorm d = d) as Hn by by destruct d.
  assert (N.to_uint (N.of_uint d) = d) as Hto by by rewrite DecimalN.Unsigned.to_of.
  rewrite decimal_value_uint. split.
  - unfold str_of_Z. rewrite (proj2 (Z.ltb_ge _ 0)) by lia. by rewrite N2Z.id, Hto.
  - destruct (N.of_uint d) as [|n] eqn:E; [|lia]. cbn in Hto. by subst d.
Qed.

Lemma dimension_etag_digits_Some v digits :
  dimension_etag_digits v = Some digits →
  v = [quote] ++ digits ++ [quote] ∧ Forall (λ c, is_digit c = true) digits ∧ digits ≠ [] ∧ head digits ≠ Some 48.
Proof.
  unfold dimension_etag_digits. destruct v as [|q rest]; [done|].
  destruct (span_digits_spec rest) as [Hrest Hall]. destruct (span_digits rest) as [ds tail]. cbn in *.
  destruct ((q =? quote) && _ && _) eqn:E; [|done]. intros [= <-].
  apply andb_true_iff in E as [[Hq%Z.eqb_eq Hd]%andb_true_iff Ht%bool_decide_eq_true]. subst.
  split_and!; [done|done|by destruct ds|]. destruct ds as [|d ds]; [done|]. cbn in *. intros [= ->]. done.
Qed.

Lemma str_of_Z_head z : 1 ≤ z → head (str_of_Z z) ≠ Some 48.
Proof.
  intros Hz Hh. assert (decimal_value (str_of_Z z) = z) as Hv by (apply decimal_value_str; lia).
  assert (str_of_Z z = uint_digits (N.to_uint (Z.to_N z))) as Hs
    by (unfold str_of_Z; by rewrite (proj2 (Z.ltb_ge z 0)) by lia).
  assert (Decimal.unorm (N.to_uint (Z.to_N z)) = N.to_uint (Z.to_N z)) as Hn
    by (rewrite <- DecimalN.Unsigned.to_of, DecimalN.Unsigned.of_to; done).
  rewrite Hs in Hh. destruct (N.to_uint (Z.to_N z)) as [|d|d|d|d|d|d|d|d|d|d] eqn:E; try done.
  unfold Decimal.unorm in Hn. cbn [Decimal.nzhead] in Hn.
  assert (d = Decimal.Nil) as ->.
  { destruct (Decimal.nzhead d) as [|x|x|x|x|x|x|x|x|x|x] eqn:En; try done; [by injection Hn|].
    exfalso. revert En. clear. induction d; cbn; try done. }
  rewrite Hs in Hv. cbn in Hv. lia.
Qed.

Lemma dimension_etag_digits_etag z : 1 ≤ z → dimension_etag_digits (version_etag z) = Some (str_of_Z z).
Proof.
  intros Hz. unfold version_etag, dimension_etag_digits. cbn [app].
  rewrite span_digits_app by (done || (apply str_of_Z_digits; lia)).
  pose proof (str_of_Z_head z Hz) as Hh. pose proof (str_of_Z_nonempty z) as Hne.
  destruct (str_of_Z z) as [|d ds]; [done|]. cbn in Hh.
  rewrite (proj2 (Z.eqb_neq d 48)) by congruence. by rewrite bool_decide_eq_true_2 by done.
Qed.

(** Ten digits hold a 32-bit version. *)
Lemma decimal_fold_ge (ds : pystr) acc :
  Forall (λ c, is_digit c = true) ds → 0 ≤ acc →
  acc * 10 ^ Z.of_nat (length ds) ≤ fold_left (λ acc c, 10 * acc + (c - 48)) ds acc.
Proof.
  intros Hds. revert acc. induction Hds as [|c ds Hc _ IH]; intros acc Hacc; cbn [length fold_left]; [lia|].
  unfold is_digit, in_range in Hc. specialize (IH (10 * acc + (c - 48)) ltac:(lia)).
  rewrite Nat2Z.inj_succ, Z.pow_succ_r by lia.
  pose proof (Z.pow_pos_nonneg 10 (Z.of_nat (length ds)) ltac:(lia) ltac:(lia)). nia.
Qed.

Lemma version_length z : 1 ≤ z ≤ 2147483647 → (length (str_of_Z z) ≤ 10)%nat.
Proof.
  intros Hz. pose proof (str_of_Z_head z ltac:(lia)) as Hh. pose proof (str_of_Z_digits z ltac:(lia)) as Hds.
  assert (decimal_value (str_of_Z z) = z) as Hv by (apply decimal_value_str; lia).
  destruct (str_of_Z z) as [|d ds]; [cbn; lia|]. apply Forall_cons in Hds as [Hd Hds].
  unfold decimal_value in Hv. cbn [fold_left] in Hv. cbn in Hh. unfold is_digit, in_range in Hd.
  pose proof (decimal_fold_ge ds (10 * 0 + (d - 48)) Hds ltac:(lia)) as Hge. rewrite Hv in Hge.
  assert (d ≠ 48) by congruence. cbn [length]. destruct (decide (10 ≤ length ds)%nat) as [Hl|]; [exfalso|lia].
  assert (10 ^ 10 ≤ 10 ^ Z.of_nat (length ds)) by (apply Z.pow_le_mono_r; lia). nia.
Qed.

Lemma parse_etag version :
  1 ≤ version ≤ 2147483647 → parse_dimension_if_match_values [version_etag version] = Ok version.
Proof.
  intros Hv. cbn [parse_dimension_if_match_values parse_dimension_if_match]. rewrite dimension_etag_digits_etag by lia.
  rewrite (proj2 (Nat.ltb_ge 10 _)) by (apply version_length; lia). cbn [raise_if mbind result_bind].
  rewrite decimal_value_str by lia. by rewrite (proj2 (Z.ltb_ge _ _)) by lia.
Qed.

(** A Dimension's If-Match is accepted exactly when the request carries one
    value and it is the ETag of a positive 32-bit version, which is what
    parsing returns; so the ETag a response carries is accepted by the next
    request and means the version it was made of.  Anything else is a missing
    or an invalid precondition. *)
Theorem if_match_round_trip (values : list pystr) (version : Z) :
  (parse_dimension_if_match_values values = Ok version ↔
     values = [version_etag version] ∧ 1 ≤ version ≤ 2147483647) ∧
  (values = [] ↔ parse_dimension_if_match_values values = Raise PreconditionRequired) ∧
  (∀ e, parse_dimension_if_match_values values = Raise e → e = PreconditionRequired ∨ e = InvalidIfMatch).
Proof.
  split; [|split].
  - destruct values as [|v [|v2 l]]; [by split; [|intros [[=] _]]| |by split; [|intros [[=] _]]].
    cbn [parse_dimension_if_match_values parse_dimension_if_match]. split.
    + intros Hok. destruct (dimension_etag_digits v) as [digits|] eqn:Hd; [|done].
      apply dimension_etag_digits_Some in Hd as (-> & Hall & Hne & Hh).
      apply bind_Ok in Hok as (_ & _ & Hok). apply bind_Ok in Hok as (_ & Hmax%raise_if_Ok & [= <-]).
      destruct (decimal_digits_str digits Hall Hne Hh) as [Hs H1]. unfold version_etag. rewrite Hs.
      split; [done|]. lia.
    + intros [[= ->] Hv]. exact (parse_etag version Hv).
  - destruct values as [|v [|v2 l]]; [done| |done]. split; [done|].
    cbn. destruct (dimension_etag_digits v); [|done]. destruct (10 <? _)%nat; [done|]. cbn. by destruct (_ <? _).
  - intros e. destruct values as [|v [|v2 l]]; cbn; [intros [= <-]; by left| |intros [= <-]; by right].
    destruct (dimension_etag_digits v); [|intros [= <-]; by right].
    destruct (10 <? _)%nat; cbn; [intros [= <-]; by right|]. destruct (_ <? _); [intros [= <-]; by right|done].
Qed.

Lemma if_match_round_trip_witness :
  parse_dimension_if_match_values [version_etag 2147483647] = Ok 2147483647 ∧
  parse_dimension_if_match_values [[quote] ++ py "07" ++ [quote]] = Raise InvalidIfMatch.
Proof.
  split.
  - apply (proj2 (proj1 (if_match_round_trip [version_etag 2147483647] 2147483647))). split; [reflexivity|lia].
  - reflexivity.
Defined.
