(* ===== verification/Json.v ===== *)
(** * JSON texts
    ([json.loads] and [json.dumps] of Python's standard library)

    The cursors of the listings are JSON objects.  [json_loads] reads bytes:
    it detects their encoding as [json.detect_encoding] does, decodes them and
    scans one value.  [json_dumps] writes ASCII with the separators the program
    passes.  What is written reads back. *)

From Stdlib Require Import Ascii String.
From S2P Require Import Prelude Python Uuids.
Local Open Scope Z_scope.

(** ** Bytes as text *)

Definition surrogate (c : Z) : bool := in_range 55296 57343 c.
Definition high_surrogate (c : Z) : bool := in_range 55296 56319 c.
Definition low_surrogate (c : Z) : bool := in_range 56320 57343 c.
Definition join_surrogates (c d : Z) : Z := 65536 + (c - 55296) * 1024 + (d - 56320).
Definition trailing (b : Z) : bool := in_range 128 191 b.

(** [bytes.decode] with [errors="surrogatepass"] *)
Fixpoint utf8_decode (bytes : list Z) : option pystr :=
  match bytes with
  | [] => Some []
  | a :: rest =>
      if a <? 128 then s ← utf8_decode rest; Some (a :: s)
      else match rest with
      | b :: rest =>
          if in_range 194 223 a then
            if trailing b then s ← utf8_decode rest; Some ((a - 192) * 64 + (b - 128) :: s) else None
          else match rest with
          | c :: rest =>
              if in_range 224 239 a then
                if trailing b && trailing c && (negb (a =? 224) || (160 <=? b)) then
                  s ← utf8_decode rest; Some (((a - 224) * 64 + (b - 128)) * 64 + (c - 128) :: s)
                else None
              else match rest with
              | d :: rest =>
                  if in_range 240 244 a && trailing b && trailing c && trailing d
                     && (negb (a =? 240) || (144 <=? b)) && (negb (a =? 244) || (b <=? 143)) then
                    s ← utf8_decode rest;
                    Some ((((a - 240) * 64 + (b - 128)) * 64 + (c - 128)) * 64 + (d - 128) :: s)
                  else None
              | [] => None
              end
          | [] => None
          end
      | [] => None
      end
  end.

(** Code units of two and of four bytes. *)
Fixpoint units16 (big : bool) (bytes : list Z) : option (list Z) :=
  match bytes with
  | [] => Some []
  | a :: b :: rest => s ← units16 big rest; Some ((if big then a * 256 + b else b * 256 + a) :: s)
  | _ => None
  end.
Fixpoint units32 (big : bool) (bytes : list Z) : option (list Z) :=
  match bytes with
  | [] => Some []
  | a :: b :: c :: d :: rest =>
      s ← units32 big rest;
      Some ((if big then ((a * 256 + b) * 256 + c) * 256 + d else ((d * 256 + c) * 256 + b) * 256 + a) :: s)
  | _ => None
  end.
Fixpoint pair_surrogates (units : list Z) : pystr :=
  match units with
  | c :: ((d :: rest) as tail) =>
      if high_surrogate c && low_surrogate d then join_surrogates c d :: pair_surrogates rest
      else c :: pair_surrogates tail
  | _ => units
  end.
Definition utf16_decode (big : bool) (bytes : list Z) : option pystr := pair_surrogates <$> units16 big bytes.
Definition utf32_decode (big : bool) (bytes : list Z) : option pystr :=
  s ← units32 big bytes; if forallb (in_range 0 1114111) s then Some s else None.

(** [json.detect_encoding], and the decoding [json.loads] does with it *)
Definition decode_detected (bytes : list Z) : option pystr :=
  match strip_prefix [0; 0; 254; 255] bytes, strip_prefix [255; 254; 0; 0] bytes,
        strip_prefix [254; 255] bytes, strip_prefix [255; 254] bytes, strip_prefix [239; 187; 191] bytes with
  | Some rest, _, _, _, _ => utf32_decode true rest
  | None, Some rest, _, _, _ => utf32_decode false rest
  | None, None, Some rest, _, _ => utf16_decode true rest
  | None, None, None, Some rest, _ => utf16_decode false rest
  | None, None, None, None, Some rest => utf8_decode rest
  | None, None, None, None, None =>
      match bytes with
      | a :: b :: c :: d :: _ =>
          if a =? 0 then if b =? 0 then utf32_decode true bytes else utf16_decode true bytes
          else if b =? 0 then if (c =? 0) && (d =? 0) then utf32_decode false bytes else utf16_decode false bytes
          else utf8_decode bytes
      | [a; b] =>
          if a =? 0 then utf16_decode true bytes else if b =? 0 then utf16_decode false bytes else utf8_decode bytes
      | _ => utf8_decode bytes
      end
  end.

(** ** Scanning *)

Definition json_space (c : Z) : bool := (c =? 32) || (c =? 9) || (c =? 10) || (c =? 13).
Fixpoint skip_json_space (s : pystr) : pystr :=
  match s with c :: r => if json_space c then skip_json_space r else s | [] => [] end.

(** The longest prefix of characters of [p], and the rest. *)
Fixpoint span (p : Z → bool) (s : pystr) : pystr * pystr :=
  match s with
  | c :: r => if p c then let '(taken, rest) := span p r in (c :: taken, rest) else ([], s)
  | [] => ([], [])
  end.
Definition hex_any (c : Z) : option Z :=
  if is_digit c then Some (c - 48) else if in_range 97 102 c then Some (c - 87)
  else if in_range 65 70 c then Some (c - 55) else None.
Definition hex4 (a b c d : Z) : option Z :=
  x ← hex_any a; y ← hex_any b; z ← hex_any c; w ← hex_any d; Some (((x * 16 + y) * 16 + z) * 16 + w).
(** The character of a one-letter escape. *)
Definition escape_char (c : Z) : option Z :=
  if (c =? 34) || (c =? 92) || (c =? 47) then Some c
  else if c =? 98 then Some 8 else if c =? 102 then Some 12 else if c =? 110 then Some 10
  else if c =? 114 then Some 13 else if c =? 116 then Some 9 else None.

(** A string after its opening quote; control characters are refused. *)
Fixpoint scan_string (s : pystr) : option (pystr * pystr) :=
  match s with
  | [] => None
  | c :: r =>
      if c =? 34 then Some ([], r)
      else if c =? 92 then
        match r with
        | [] => None
        | e :: r1 =>
            if e =? 117 then
              match r1 with
              | a :: b :: c :: d :: r2 =>
                  x ← hex4 a b c d;
                  match r2 with
                  | p :: q :: a' :: b' :: c' :: d' :: r3 =>
                      if (p =? 92) && (q =? 117) && high_surrogate x then
                        y ← hex4 a' b' c' d';
                        if low_surrogate y then '(t, rest) ← scan_string r3; Some (join_surrogates x y :: t, rest)
                        else '(t, rest) ← scan_string r2; Some (x :: t, rest)
                      else '(t, rest) ← scan_string r2; Some (x :: t, rest)
                  | _ => '(t, rest) ← scan_string r2; Some (x :: t, rest)
                  end
              | _ => None
              end
            else x ← escape_char e; '(t, rest) ← scan_string r1; Some (x :: t, rest)
        end
      else if c <? 32 then None
      else '(t, rest) ← scan_string r; Some (c :: t, rest)
  end.

(** A number: an integer of at most 4300 digits, or the text of a float. *)
Definition scan_fraction (s : pystr) : pystr * pystr :=
  match s with
  | c :: r =>
      if c =? 46 then let '(ds, rest) := span is_digit r in match ds with [] => ([], s) | _ => (46 :: ds, rest) end
      else ([], s)
  | [] => ([], s)
  end.
Definition scan_exponent (s : pystr) : pystr * pystr :=
  match s with
  | e :: r =>
      if (e =? 101) || (e =? 69) then
        let '(sign, r') := match r with c :: r' => if (c =? 43) || (c =? 45) then ([c], r') else ([], r) | [] => ([], r) end in
        let '(ds, rest) := span is_digit r' in
        match ds with [] => ([], s) | _ => (e :: sign ++ ds, rest) end
      else ([], s)
  | [] => ([], s)
  end.
Definition scan_integer (s : pystr) : option (pystr * pystr) :=
  match s with
  | c :: r => if c =? 48 then Some ([48], r) else if is_digit c then Some (span is_digit s) else None
  | [] => None
  end.
Definition scan_number (s : pystr) : option (pyval * pystr) :=
  let '(sign, s1) := match s with c :: r => if c =? dash then ([dash], r) else ([], s) | [] => ([], s) end in
  '(whole, s2) ← scan_integer s1;
  let '(fraction, s3) := scan_fraction s2 in
  let '(exponent, s4) := scan_exponent s3 in
  match fraction, exponent with
  | [], [] =>
      if (length whole <=? 4300)%nat then
        Some (VInt (if present (head sign) then - decimal_value whole else decimal_value whole), s2)
      else None
  | _, _ => Some (VFloat (sign ++ whole ++ fraction ++ exponent), s4)
  end.

(** [d[key] = value] *)
Fixpoint dict_set (key : pystr) (value : pyval) (entries : list (pystr * pyval)) : list (pystr * pyval) :=
  match entries with
  | [] => [(key, value)]
  | p :: rest => if bool_decide (p.1 = key) then (key, value) :: rest else p :: dict_set key value rest
  end.

(** The values of an array and the members of an object after their first
    character, with the scanner of a value. *)
Section containers.
Context (value : pystr → option (pyval * pystr)).

Fixpoint scan_elements (fuel : nat) (s : pystr) : option (list pyval * pystr) :=
  match fuel with
  | O => None
  | S fuel' =>
      '(v, rest) ← value s;
      match skip_json_space rest with
      | c :: r =>
          if c =? 93 then Some ([v], r)
          else if c =? 44 then '(vs, rest) ← scan_elements fuel' (skip_json_space r); Some (v :: vs, rest)
          else None
      | [] => None
      end
  end.
Fixpoint scan_members (fuel : nat) (s : pystr) (entries : list (pystr * pyval)) : option (list (pystr * pyval) * pystr) :=
  match fuel, s with
  | S fuel', quote :: s =>
      '(key, rest) ← (if quote =? 34 then scan_string s else None);
      match skip_json_space rest with
      | colon :: rest =>
          '(v, rest) ← (if colon =? 58 then value (skip_json_space rest) else None);
          match skip_json_space rest with
          | c :: r =>
              if c =? 125 then Some (dict_set key v entries, r)
              else if c =? 44 then scan_members fuel' (skip_json_space r) (dict_set key v entries)
              else None
          | [] => None
          end
      | [] => None
      end
  | _, _ => None
  end.
End containers.

Definition constants : list (pystr * pyval) :=
  [(py "null", VNone); (py "true", VBool true); (py "false", VBool false); (py "NaN", VFloat (py "NaN"));
   (py "Infinity", VFloat (py "Infinity")); (py "-Infinity", VFloat (py "-Infinity"))].
Fixpoint scan_constant (l : list (pystr * pyval)) (s : pystr) : option (pyval * pystr) :=
  match l with
  | [] => None
  | (text, v) :: l' => match strip_prefix text s with Some rest => Some (v, rest) | None => scan_constant l' s end
  end.

Fixpoint scan_value (fuel : nat) (s : pystr) : option (pyval * pystr) :=
  match fuel, s with
  | S fuel', c :: r =>
      if c =? 34 then '(t, rest) ← scan_string r; Some (VStr t, rest)
      else if c =? 123 then
        let s' := skip_json_space r in
        match strip_prefix [125] s' with
        | Some rest => Some (VDict [], rest)
        | None => '(entries, rest) ← scan_members (scan_value fuel') fuel' s' []; Some (VDict entries, rest)
        end
      else if c =? 91 then
        let s' := skip_json_space r in
        match strip_prefix [93] s' with
        | Some rest => Some (VList [], rest)
        | None => '(vs, rest) ← scan_elements (scan_value fuel') fuel' s'; Some (VList vs, rest)
        end
      else match scan_constant constants s with Some result => Some result | None => scan_number s end
  | _, _ => None
  end.

Definition json_decode (s : pystr) : option pyval :=
  '(v, rest) ← scan_value (S (length s)) (skip_json_space s);
  match skip_json_space rest with [] => Some v | _ => None end.

(** [json.loads] of bytes; every failure is a [ValueError]. *)
Definition json_loads (bytes : list Z) : option pyval := s ← decode_detected bytes; json_decode s.

(** ** Writing

    With [separators=(",", ":")] and [ensure_ascii]; the program writes no
    floats. *)

Definition json_escape (c : Z) : pystr :=
  if (c =? 34) || (c =? 92) then [92; c]
  else if c =? 10 then py "\n" else if c =? 13 then py "\r" else if c =? 9 then py "\t"
  else if c =? 12 then py "\f" else if c =? 8 then py "\b"
  else if in_range 32 126 c then [c]
  else if c <? 65536 then py "\u" ++ hex_fixed 4 c
  else py "\u" ++ hex_fixed 4 (55296 + (c - 65536) / 1024) ++ py "\u" ++ hex_fixed 4 (56320 + (c - 65536) mod 1024).
Definition dumps_string (s : pystr) : pystr := 34 :: concat (map json_escape s) ++ [34].
Fixpoint json_dumps (v : pyval) : pystr :=
  match v with
  | VNone => py "null"
  | VBool b => if b then py "true" else py "false"
  | VInt z => str_of_Z z
  | VFloat literal => literal
  | VStr s => dumps_string s
  | VList l => 91 :: str_join [44] (map json_dumps l) ++ [93]
  | VDict entries => 123 :: str_join [44] (map (λ p, dumps_string p.1 ++ 58 :: json_dumps p.2) entries) ++ [125]
  end.

(** ** Fuel

    Every value consumes a character, so the length of the text is enough. *)

Lemma skip_json_space_length s : (length (skip_json_space s) ≤ length s)%nat.
Proof. induction s as [|c s IH]; [done|]. cbn. destruct (json_space c); cbn; lia. Qed.

Lemma span_length p s : (length (span p s).2 ≤ length s)%nat.
Proof. induction s as [|c s IH]; [done|]. cbn. destruct (p c); [|done]. destruct (span p s). cbn in *. lia. Qed.

Lemma strip_prefix_length pattern s rest :
  strip_prefix pattern s = Some rest → length s = (length pattern + length rest)%nat.
Proof.
  revert s. induction pattern as [|p pattern IH]; intros s; cbn; [by intros [= ->]|].
  destruct s as [|c s]; [done|]. destruct (p =? c); [|done]. intros Hs%IH. cbn. lia.
Qed.

(** A scanner that leaves less than it was given. *)
Definition shrinks {A} (m : option (A * pystr)) (n : nat) : Prop := ∀ v rest, m = Some (v, rest) → (length rest < n)%nat.

Lemma shrinks_bind {A B} (m : option (A * pystr)) (f : A * pystr → option (B * pystr)) n :
  (∀ v rest, m = Some (v, rest) → shrinks (f (v, rest)) n) → shrinks (m ≫= f) n.
Proof. intros Hf v rest ([a r] & Ha & Hr)%bind_Some. by eapply Hf. Qed.
Lemma shrinks_map {A B} (m : option (A * pystr)) (f : A → B) n k :
  shrinks m n → (n ≤ k)%nat → shrinks ('(v, rest) ← m; Some (f v, rest)) k.
Proof. intros Hm Hk v rest ([a r] & Ha & [= <- <-])%bind_Some. apply Hm in Ha. lia. Qed.
Lemma shrinks_pure {A} (v : A) rest n : (length rest < n)%nat → shrinks (Some (v, rest)) n.
Proof. by intros ? ? ? [= <- <-]. Qed.
Lemma shrinks_None {A} n : shrinks (A := A) None n.
Proof. done. Qed.
Hint Resolve shrinks_None : core.

Lemma scan_string_shorter s : shrinks (scan_string s) (length s).
Proof.
  induction s as [s IH] using (induction_ltof1 _ (@length Z)).
  assert (∀ r x, (length r < length s)%nat → shrinks ('(t0, rest0) ← scan_string r; Some (x :: t0, rest0)) (length s)) as Hgo.
  { intros r x Hr. apply (shrinks_map _ (λ t0, x :: t0) (length r)); [by apply IH|lia]. }
  destruct s as [|c r]; [done|]. cbn [scan_string].
  destruct (c =? 34); [apply shrinks_pure; cbn; lia|].
  destruct (c =? 92); [|destruct (c <? 32); [done|apply Hgo; cbn; lia]].
  destruct r as [|e r1]; [done|]. destruct (e =? 117).
  - destruct r1 as [|a [|b [|c' [|d r2]]]]; try done. destruct (hex4 a b c' d) as [x|]; [|done]. cbn [mbind option_bind].
    assert (shrinks ('(t0, rest0) ← scan_string r2; Some (x :: t0, rest0)) (length (c :: e :: a :: b :: c' :: d :: r2)))
      as H2 by (apply Hgo; cbn; lia).
    destruct r2 as [|p [|q [|a' [|b' [|c'' [|d' r3]]]]]]; try exact H2.
    destruct (_ && _); [|exact H2]. destruct (hex4 a' b' c'' d') as [y|]; [|done]. cbn [mbind option_bind].
    destruct (low_surrogate y); [apply Hgo; cbn; lia|exact H2].
  - destruct (escape_char e) as [x|]; [|done]. apply Hgo. cbn. lia.
Qed.

Lemma scan_integer_shorter s : shrinks (scan_integer s) (length s).
Proof.
  destruct s as [|c r]; [done|]. cbn [scan_integer]. destruct (c =? 48); [apply shrinks_pure; cbn; lia|].
  destruct (is_digit c) eqn:Hc; [|done]. intros v rest [= Hs]. cbn [span] in Hs. rewrite Hc in Hs.
  pose proof (span_length is_digit r). destruct (span is_digit r). injection Hs as <- <-. cbn in *. lia.
Qed.

Lemma scan_fraction_length s : (length (scan_fraction s).2 ≤ length s)%nat.
Proof.
  destruct s as [|c r]; [done|]. cbn [scan_fraction]. destruct (c =? 46); [|done].
  pose proof (span_length is_digit r). destruct (span is_digit r) as [[|d ds] rest]; cbn in *; lia.
Qed.
Lemma scan_exponent_length s : (length (scan_exponent s).2 ≤ length s)%nat.
Proof.
  destruct s as [|e r]; [done|]. cbn [scan_exponent]. destruct (_ || _); [|done].
  assert (∃ sign r', match r with c :: r' => if (c =? 43) || (c =? 45) then ([c], r') else ([], r) | [] => ([], r) end = (sign, r')
    ∧ (length r' ≤ length r)%nat) as (sign & r' & -> & Hr').
  { destruct r as [|c r']; [by exists [], []|]. destruct (_ || _); eexists _, _; (split; [done|cbn; lia]). }
  pose proof (span_length is_digit r'). destruct (span is_digit r') as [[|d ds] rest]; cbn in *; lia.
Qed.

Lemma scan_number_shorter s : shrinks (scan_number s) (length s).
Proof.
  unfold scan_number.
  assert (∃ sign s1, match s with c :: r => if c =? dash then ([dash], r) else ([], s) | [] => ([], s) end = (sign, s1)
    ∧ (length s1 ≤ length s)%nat) as (sign & s1 & -> & Hs1).
  { destruct s as [|c r]; [by exists [], []|]. destruct (_ =? _); eexists _, _; (split; [done|cbn; lia]). }
  apply shrinks_bind. intros whole s2 Hs2%scan_integer_shorter.
  pose proof (scan_fraction_length s2). destruct (scan_fraction s2) as [fraction s3].
  pose proof (scan_exponent_length s3). destruct (scan_exponent s3) as [exponent s4]. cbn [snd] in *.
  destruct fraction, exponent; [destruct (_ <=? _)%nat; [|done]|..]; apply shrinks_pure; lia.
Qed.

Lemma scan_constant_shorter l s : Forall (λ p, p.1 ≠ []) l → shrinks (scan_constant l s) (length s).
Proof.
  induction 1 as [|[text v] l Hne _ IH]; [done|]. cbn [scan_constant]. destruct (strip_prefix text s) as [rest|] eqn:E; [|done].
  apply strip_prefix_length in E. apply shrinks_pure. destruct text; cbn in *; [done|lia].
Qed.

Section container_lemmas.
Context (value : pystr → option (pyval * pystr)).
Hypothesis Hvalue : ∀ s, shrinks (value s) (length s).

Lemma scan_elements_shorter fuel s : shrinks (scan_elements value fuel s) (length s).
Proof.
  revert s. induction fuel as [|fuel IH]; intros s; [done|]. cbn [scan_elements].
  apply shrinks_bind. intros v rest Hv%Hvalue. pose proof (skip_json_space_length rest) as Hsk.
  destruct (skip_json_space rest) as [|c r]; [done|]. cbn in Hsk.
  destruct (c =? 93); [apply shrinks_pure; lia|]. destruct (c =? 44); [|done].
  pose proof (skip_json_space_length r). apply (shrinks_map _ (cons v) _ _ (IH _)). lia.
Qed.

Lemma scan_members_shorter fuel s entries : shrinks (scan_members value fuel s entries) (length s).
Proof.
  revert s entries. induction fuel as [|fuel IH]; intros s entries; [by destruct s|].
  destruct s as [|q s]; [done|]. cbn [scan_members]. apply shrinks_bind. intros key rest Hk.
  assert (length rest < length s)%nat by (destruct (q =? 34); [by apply scan_string_shorter in Hk|done]).
  pose proof (skip_json_space_length rest) as Hsk. destruct (skip_json_space rest) as [|colon rest']; [done|]. cbn in Hsk.
  apply shrinks_bind. intros v rest2 Hv.
  assert (length rest2 < length rest)%nat.
  { destruct (colon =? 58); [|done]. apply Hvalue in Hv. pose proof (skip_json_space_length rest'). lia. }
  pose proof (skip_json_space_length rest2) as Hsk2. destruct (skip_json_space rest2) as [|c r]; [done|]. cbn in Hsk2 |- *.
  destruct (c =? 125); [apply shrinks_pure; lia|]. destruct (c =? 44); [|done].
  pose proof (skip_json_space_length r). intros v' rest3 Hm%IH. lia.
Qed.
End container_lemmas.

Lemma scan_value_shorter fuel s : shrinks (scan_value fuel s) (length s).
Proof.
  revert s. induction fuel as [|fuel IH]; intros s; [by destruct s|]. destruct s as [|c r]; [done|]. cbn [scan_value].
  pose proof (skip_json_space_length r).
  destruct (c =? 34); [apply (shrinks_map _ VStr _ _ (scan_string_shorter r)); cbn; lia|].
  destruct (c =? 123).
  { cbv zeta. destruct (strip_prefix [125] _) as [rest|] eqn:E; [apply strip_prefix_length in E; apply shrinks_pure; cbn in *; lia|].
    apply (shrinks_map _ VDict _ _ (scan_members_shorter _ IH _ _ _)). cbn. lia. }
  destruct (c =? 91).
  { cbv zeta. destruct (strip_prefix [93] _) as [rest|] eqn:E; [apply strip_prefix_length in E; apply shrinks_pure; cbn in *; lia|].
    apply (shrinks_map _ VList _ _ (scan_elements_shorter _ IH _ _)). cbn. lia. }
  destruct (scan_constant constants (c :: r)) as [[v rest]|] eqn:E; [|apply scan_number_shorter].
  eapply shrinks_pure, (scan_constant_shorter constants); [|exact E]. repeat constructor; discriminate.
Qed.

Lemma bind_ext {A B} (m : option A) (f g : A → option B) : (∀ x, m = Some x → f x = g x) → m ≫= f = m ≫= g.
Proof. destruct m; cbn; auto. Qed.

Section fuel.
Context (value1 value2 : pystr → option (pyval * pystr)) (n : nat).
Hypothesis Hvalue : ∀ s, shrinks (value1 s) (length s).
Hypothesis Hsame : ∀ s, (length s ≤ n)%nat → value1 s = value2 s.

Lemma scan_elements_fuel fuel1 fuel2 s :
  (length s ≤ n)%nat → (length s ≤ fuel1)%nat → (length s ≤ fuel2)%nat →
  scan_elements value1 fuel1 s = scan_elements value2 fuel2 s.
Proof.
  assert (value1 [] = None) as Hnil by (destruct (value1 []) as [[v rest]|] eqn:E; [apply Hvalue in E; cbn in E; lia|done]).
  revert fuel2 s. induction fuel1 as [|fuel1 IH]; intros fuel2 s Hn H1 H2.
  { destruct s; [|cbn in H1; lia]. destruct fuel2; [done|]. cbn. by rewrite <- Hsame, Hnil by (cbn; lia). }
  destruct fuel2 as [|fuel2]; [destruct s; [cbn; by rewrite Hnil|cbn in H2; lia]|].
  cbn [scan_elements]. rewrite <- Hsame by done. apply bind_ext. intros [v rest] Hv%Hvalue.
  pose proof (skip_json_space_length rest) as Hsk. destruct (skip_json_space rest) as [|c r]; [done|]. cbn in Hsk.
  destruct (c =? 93), (c =? 44); try done. pose proof (skip_json_space_length r). rewrite (IH fuel2) by lia. done.
Qed.

Lemma scan_members_fuel fuel1 fuel2 s entries :
  (length s ≤ n)%nat → (length s ≤ fuel1)%nat → (length s ≤ fuel2)%nat →
  scan_members value1 fuel1 s entries = scan_members value2 fuel2 s entries.
Proof.
  revert fuel2 s entries. induction fuel1 as [|fuel1 IH]; intros fuel2 s entries Hn H1 H2.
  { destruct s; [by destruct fuel2|cbn in H1; lia]. }
  destruct s as [|q s]; [by destruct fuel2|]. destruct fuel2 as [|fuel2]; [cbn in H2; lia|].
  cbn [scan_members]. cbn in Hn, H1, H2. apply bind_ext. intros [key rest] Hk.
  assert (length rest < length s)%nat by (destruct (q =? 34); [by apply scan_string_shorter in Hk|done]).
  pose proof (skip_json_space_length rest) as Hsk. destruct (skip_json_space rest) as [|colon rest']; [done|]. cbn in Hsk.
  pose proof (skip_json_space_length rest').
  destruct (colon =? 58); [|done]. rewrite <- Hsame by lia. apply bind_ext. intros [v rest2] Hv%Hvalue.
  pose proof (skip_json_space_length rest2) as Hsk2. destruct (skip_json_space rest2) as [|c r]; [done|]. cbn in Hsk2.
  destruct (c =? 125), (c =? 44); try done. pose proof (skip_json_space_length r). apply IH; lia.
Qed.
End fuel.

(** More fuel than the length of the text changes nothing. *)
Lemma scan_value_fuel fuel1 fuel2 s :
  (length s ≤ fuel1)%nat → (length s ≤ fuel2)%nat → scan_value fuel1 s = scan_value fuel2 s.
Proof.
  revert fuel2 s. induction fuel1 as [|fuel1 IH]; intros fuel2 s H1 H2.
  { destruct s; [by destruct fuel2|cbn in H1; lia]. }
  destruct s as [|c r]; [by destruct fuel2|]. destruct fuel2 as [|fuel2]; [cbn in H2; lia|]. cbn in H1, H2.
  cbn [scan_value]. pose proof (skip_json_space_length r). cbv zeta.
  rewrite (scan_members_fuel (scan_value fuel1) (scan_value fuel2) (length r) (scan_value_shorter fuel1)
    ltac:(intros; apply IH; lia) fuel1 fuel2) by lia.
  rewrite (scan_elements_fuel (scan_value fuel1) (scan_value fuel2) (length r) (scan_value_shorter fuel1)
    ltac:(intros; apply IH; lia) fuel1 fuel2) by lia.
  done.
Qed.

(** ** What is written reads back

    For objects of the kind the program writes: texts of printable ASCII
    without quotes and backslashes, and digits. *)

Definition plain_char (c : Z) : bool := in_range 32 126 c && negb (c =? 34) && negb (c =? 92).
Definition scalar (v : pyval) : bool :=
  match v with VStr s => forallb plain_char s | VInt z => (0 <=? z) && (z <=? 9) | _ => false end.
Definition flat (entries : list (pystr * pyval)) : Prop :=
  NoDup entries.*1 ∧ Forall (λ p, forallb plain_char p.1 = true ∧ scalar p.2 = true) entries.

Lemma plain_char_inv c : plain_char c = true → 32 ≤ c ≤ 126 ∧ c ≠ 34 ∧ c ≠ 92.
Proof. unfold plain_char, in_range. intros H. bool_simpl. lia. Qed.

Lemma plain_escape c : plain_char c = true → json_escape c = [c].
Proof.
  intros (H1 & H2 & H3)%plain_char_inv. unfold json_escape, in_range.
  rewrite !(proj2 (Z.eqb_neq c _)) by lia. cbn [orb]. by rewrite !(proj2 (Z.leb_le _ _)) by lia.
Qed.

Lemma plain_string s : forallb plain_char s = true → dumps_string s = 34 :: s ++ [34].
Proof.
  intros Hs. unfold dumps_string. do 2 f_equal. induction s as [|c s IH]; [done|].
  cbn [forallb] in Hs. apply andb_true_iff in Hs as [Hc Hs]. cbn. by rewrite plain_escape, IH.
Qed.

Lemma scan_plain s rest : forallb plain_char s = true → scan_string (s ++ 34 :: rest) = Some (s, rest).
Proof.
  induction s as [|c s IH]; [done|]. cbn [forallb]. intros [(H1 & H2 & H3)%plain_char_inv Hs]%andb_true_iff.
  cbn [app scan_string]. rewrite !(proj2 (Z.eqb_neq c _)) by lia. rewrite (proj2 (Z.ltb_ge c 32)) by lia. by rewrite IH.
Qed.

(** A scalar in front of the end of its member. *)
Lemma scan_scalar fuel v c rest :
  scalar v = true → c = 44 ∨ c = 125 → scan_value (S fuel) (json_dumps v ++ c :: rest) = Some (v, c :: rest).
Proof.
  intros Hv Hc. destruct v as [| |z| |s| |]; try discriminate Hv; cbn [scalar json_dumps] in *.
  - apply andb_true_iff in Hv as [H0%Z.leb_le H9%Z.leb_le].
    assert (z = 0 ∨ z = 1 ∨ z = 2 ∨ z = 3 ∨ z = 4 ∨ z = 5 ∨ z = 6 ∨ z = 7 ∨ z = 8 ∨ z = 9) as Hz by lia.
    destruct Hc as [->| ->]; repeat (destruct Hz as [->|Hz]; [reflexivity|]); subst z; reflexivity.
  - rewrite plain_string by done. cbn [app]. rewrite <- app_assoc. cbn [app scan_value].
    rewrite scan_plain by done. reflexivity.
Qed.

Lemma scalar_no_space v rest : scalar v = true → skip_json_space (json_dumps v ++ rest) = json_dumps v ++ rest.
Proof.
  intros Hv. destruct v as [| |z| |s| |]; try discriminate Hv; cbn [scalar json_dumps] in *; [|reflexivity].
  apply andb_true_iff in Hv as [H0%Z.leb_le H9%Z.leb_le].
  assert (z = 0 ∨ z = 1 ∨ z = 2 ∨ z = 3 ∨ z = 4 ∨ z = 5 ∨ z = 6 ∨ z = 7 ∨ z = 8 ∨ z = 9) as Hz by lia.
  repeat (destruct Hz as [->|Hz]; [reflexivity|]). by subst z.
Qed.

Definition member (p : pystr * pyval) : pystr := dumps_string p.1 ++ 58 :: json_dumps p.2.

Lemma dict_set_new key v entries : key ∉ entries.*1 → dict_set key v entries = entries ++ [(key, v)].
Proof.
  induction entries as [|p entries IH]; [done|]. rewrite fmap_cons. intros [Hne Hin]%not_elem_of_cons. cbn [dict_set app].
  rewrite bool_decide_eq_false_2 by congruence. by rewrite IH.
Qed.

(** One member up to the character behind it. *)
Lemma scan_member fuel n k v c rest acc :
  forallb plain_char k = true → scalar v = true → c = 44 ∨ c = 125 →
  scan_members (scan_value (S fuel)) (S n) (member (k, v) ++ c :: rest) acc =
    if c =? 125 then Some (dict_set k v acc, rest)
    else scan_members (scan_value (S fuel)) n (skip_json_space rest) (dict_set k v acc).
Proof.
  intros Hk Hv Hc. unfold member. cbn [fst snd]. rewrite plain_string by done. cbn [app]. rewrite <- !app_assoc.
  cbn [app scan_members]. rewrite Z.eqb_refl, scan_plain by done. cbn [mbind option_bind skip_json_space].
  change (json_space 58) with false. cbv iota. rewrite Z.eqb_refl, scalar_no_space, scan_scalar by done.
  cbn [mbind option_bind skip_json_space]. by destruct Hc as [->| ->].
Qed.

Lemma flat_next acc p entries : flat (acc ++ p :: entries) →
  forallb plain_char p.1 = true ∧ scalar p.2 = true ∧ (p.1 ∉ acc.*1) ∧ flat ((acc ++ [p]) ++ entries).
Proof.
  intros [Hnd Hall]. pose proof Hall as [_ [[Hk Hv] _]%Forall_cons]%Forall_app. split_and!; [done|done| |].
  - rewrite fmap_app in Hnd. apply NoDup_app in Hnd as (_ & Hd & _). intros Hin. apply (Hd _ Hin). cbn. by left.
  - by rewrite <- app_assoc.
Qed.

Lemma scan_flat fuel n p entries acc rest :
  flat (acc ++ p :: entries) → (length entries < n)%nat →
  scan_members (scan_value (S fuel)) n (str_join [44] (map member (p :: entries)) ++ 125 :: rest) acc =
    Some (acc ++ p :: entries, rest).
Proof.
  revert p acc n. induction entries as [|q entries IH]; intros [k v] acc n Hflat Hn;
    (destruct n as [|n]; [cbn in Hn; lia|]); destruct (flat_next _ _ _ Hflat) as (Hk & Hv & Hnew & Hnext).
  - change (str_join [44] (map member [(k, v)])) with (member (k, v)).
    rewrite scan_member by auto. cbn [Z.eqb Pos.eqb]. by rewrite dict_set_new.
  - change (str_join [44] (map member ((k, v) :: q :: entries))) with
      (member (k, v) ++ 44 :: str_join [44] (map member (q :: entries))).
    rewrite <- app_assoc. cbn [app]. rewrite scan_member by auto. cbn [Z.eqb Pos.eqb].
    assert (∃ r, str_join [44] (map member (q :: entries)) = 34 :: r) as [r Hr].
    { cbn [map]. unfold member at 1, dumps_string at 1. destruct (map member entries); cbn; eexists; reflexivity. }
    assert (skip_json_space (str_join [44] (map member (q :: entries)) ++ 125 :: rest) =
      str_join [44] (map member (q :: entries)) ++ 125 :: rest) as -> by by rewrite Hr.
    rewrite dict_set_new, IH by (done || (cbn in Hn; lia)). by rewrite <- app_assoc.
Qed.

Lemma utf8_decode_ascii s : Forall (λ c, 0 ≤ c < 128) s → utf8_decode s = Some s.
Proof. induction 1 as [|c s Hc _ IH]; [done|]. cbn [utf8_decode]. rewrite (proj2 (Z.ltb_lt c 128)) by lia. by rewrite IH. Qed.

Lemma json_dumps_flat p entries : flat (p :: entries) → json_decode (json_dumps (VDict (p :: entries))) = Some (VDict (p :: entries)).
Proof.
  intros Hflat. set (text := str_join [44] (map member (p :: entries))).
  assert (json_dumps (VDict (p :: entries)) = 123 :: text ++ [125]) as -> by reflexivity.
  assert (∃ r, text = 34 :: r) as [r Hr].
  { unfold text. cbn [map]. unfold member at 1, dumps_string at 1. destruct (map member entries); cbn; eexists; reflexivity. }
  unfold json_decode. change (skip_json_space (123 :: text ++ [125])) with (123 :: text ++ [125]).
  assert (∀ fuel, (length (text ++ [125%Z]) ≤ fuel)%nat →
    scan_value (S fuel) (123 :: text ++ [125]) = Some (VDict (p :: entries), [])) as Hscan.
  { intros fuel Hf. cbn [scan_value]. change (123 =? 34) with false. change (123 =? 123) with true. cbv iota.
    assert (skip_json_space (text ++ [125]) = text ++ [125]) as -> by by rewrite Hr.
    assert (strip_prefix [125] (text ++ [125]) = None) as -> by by rewrite Hr.
    rewrite length_app in Hf. change (length [125]) with 1%nat in Hf. destruct fuel as [|fuel]; [exfalso; lia|]. unfold text.
    rewrite (scan_flat fuel _ p entries []); [done|done|]. fold text.
    assert (length entries ≤ length text)%nat; [|lia]. unfold text. clear.
    revert p. induction entries as [|q entries IH]; intros p; [cbn; lia|].
    change (str_join [44] (map member (p :: q :: entries))) with (member p ++ 44 :: str_join [44] (map member (q :: entries))).
    rewrite length_app. cbn [length]. specialize (IH q). lia. }
  rewrite Hscan; [done|]. cbn. lia.
Qed.

Lemma flat_ascii p entries : flat (p :: entries) → Forall (λ c, 0 ≤ c < 128) (json_dumps (VDict (p :: entries))).
Proof.
  intros [_ Hall]. assert (Forall (λ q, Forall (λ c, 0 ≤ c < 128) (member q)) (p :: entries)) as Hm.
  { eapply Forall_impl; [exact Hall|]. intros [k v] [Hk Hv]. cbn [fst snd] in *. unfold member. cbn [fst snd].
    assert (∀ s, forallb plain_char s = true → Forall (λ c, 0 ≤ c < 128) (dumps_string s)) as Hs.
    { intros s Hs. rewrite plain_string by done. constructor; [lia|]. apply Forall_app_2; [|constructor; [lia|done]].
      apply forallb_Forall in Hs. eapply Forall_impl; [exact Hs|]. intros c ?%plain_char_inv. lia. }
    apply Forall_app_2; [by apply Hs|]. constructor; [lia|]. destruct v as [| |z| |s| |]; try discriminate Hv; [|by apply Hs].
    cbn [scalar json_dumps] in *. apply andb_true_iff in Hv as [H0%Z.leb_le _].
    eapply Forall_impl; [by apply str_of_Z_digits|]. intros c Hc. cbv beta in Hc. unfold is_digit, in_range in Hc. lia. }
  change (json_dumps (VDict (p :: entries))) with (123 :: str_join [44] (map member (p :: entries)) ++ [125]).
  constructor; [lia|]. apply Forall_app_2; [|constructor; [lia|done]]. clear Hall. revert p Hm.
  induction entries as [|q entries IH]; intros p [Hp Hm]%Forall_cons; [exact Hp|].
  change (str_join [44] (map member (p :: q :: entries))) with (member p ++ 44 :: str_join [44] (map member (q :: entries))).
  apply Forall_app_2; [done|]. constructor; [lia|by apply IH].
Qed.

(** The text of an object reads back, as bytes. *)
Lemma json_loads_dumps p entries :
  flat (p :: entries) → json_loads (json_dumps (VDict (p :: entries))) = Some (VDict (p :: entries)).
Proof.
  intros Hflat. unfold json_loads.
  assert (decode_detected (json_dumps (VDict (p :: entries))) = Some (json_dumps (VDict (p :: entries)))) as ->.
  2: { exact (json_dumps_flat p entries Hflat). }
  pose proof (flat_ascii p entries Hflat) as Hascii. pose proof (utf8_decode_ascii _ Hascii) as Hutf.
  pose proof Hflat as [_ [[Hk Hv] _]%Forall_cons].
  assert (∃ c d rest, json_dumps (VDict (p :: entries)) = 123 :: 34 :: c :: d :: rest) as (c & d & rest & E).
  { change (json_dumps (VDict (p :: entries))) with (123 :: str_join [44] (map member (p :: entries)) ++ [125]).
    cbn [map]. unfold member at 1. rewrite plain_string by done. destruct p as [[|k0 [|k1 k]] v]; cbn [fst snd app];
      destruct (map member entries) as [|m ms]; cbn [str_join app]; rewrite <- ?app_assoc; cbn [app]; repeat eexists. }
  rewrite E in *. exact Hutf.
Qed.

(** Single quotes stand for double ones. *)
Definition quoted (s : string) : pystr := map (λ c, if c =? 39 then 34 else c) (py s).
Example json_1 : json_loads (quoted " { 'a' : [1, -2.5e3, null] , 'b' : 'x\u00e9\n' , 'a' : true } ") =
  Some (VDict [(py "a", VBool true); (py "b", VStr [120; 233; 10])]).
Proof. vm_compute. reflexivity. Qed.
Example json_2 : json_loads (quoted "[1, 2,]") = None ∧ json_loads (quoted "{'a':01}") = None ∧
  json_loads (255 :: 254 :: concat (map (λ c, [c; 0]) (quoted "[[],{},0]"))) = Some (VList [VList []; VDict []; VInt 0]).
Proof. vm_compute. done. Qed.
Example json_3 : json_dumps (VDict [(py "k", VList [VInt (-3); VNone]); ([233; 128512], VStr (py "\"))]) =
  quoted "{'k':[-3,null],'\u00e9\ud83d\ude00':'\\'}".
Proof. vm_compute. reflexivity. Qed.
