(* ===== verification/Cursors.v ===== *)
(** * The text of list cursors
    ([_encode_cursor] and [_decode_cursor] of the routers of Dimensions,
    MasterCodes and change requests)

    A cursor is the position behind an item, written as a JSON object of the
    ISO time and the UUID in unpadded base64url.  [fromisoformat], the reading
    of times, is a parameter: it is only supposed to read what [isoformat]
    writes, and everything it may accept besides reaches the cursors. *)

From Stdlib Require Import Ascii String.
From S2P Require Import Prelude Python Exceptions Uuids Pagination Credentials Json.
Local Open Scope Z_scope.

(** ** Times *)

(** The date of a day counted from 1970-01-01, in the proleptic Gregorian
    calendar: years that begin in March, in eras of 400. *)
Definition civil_of_era_day (doe : Z) : Z * Z * Z :=
  let yoe := (doe - doe / 1460 + doe / 36524 - doe / 146096) / 365 in
  let doy := doe - (365 * yoe + yoe / 4 - yoe / 100) in
  let mp := (5 * doy + 2) / 153 in
  let month := if mp <? 10 then mp + 3 else mp - 9 in
  (yoe + (if month <=? 2 then 1 else 0), month, doy - (153 * mp + 2) / 5 + 1).
Definition civil_of_days (z : Z) : Z * Z * Z :=
  let '(y, m, d) := civil_of_era_day ((z + 719468) mod 146097) in (y + (z + 719468) / 146097 * 400, m, d).

Definition DAY : Z := 86400000000.
(** Decimal digits of a fixed width. *)
Fixpoint dec_fixed (width : nat) (n : Z) : pystr :=
  match width with O => [] | S w => dec_fixed w (n / 10) ++ [48 + n mod 10] end.

(** [datetime.isoformat] of a time in UTC *)
Definition isoformat (t : Z) : pystr :=
  let '(year, month, day) := civil_of_days (t / DAY) in
  let us := t mod DAY in
  dec_fixed 4 year ++ [dash] ++ dec_fixed 2 month ++ [dash] ++ dec_fixed 2 day ++ py "T"
  ++ dec_fixed 2 (us / 3600000000) ++ py ":" ++ dec_fixed 2 (us / 60000000 mod 60) ++ py ":"
  ++ dec_fixed 2 (us / 1000000 mod 60)
  ++ (if us mod 1000000 =? 0 then [] else py "." ++ dec_fixed 6 (us mod 1000000)) ++ py "+00:00".
(** The times a [datetime] can hold. *)
Definition in_calendar (t : Z) : Prop := -62135596800000000 ≤ t < 253402300800000000.

Example iso_1 : isoformat 0 = py "1970-01-01T00:00:00+00:00" ∧
  isoformat 1789084799000001 = py "2026-09-10T23:59:59.000001+00:00" ∧
  isoformat (-62135596800000000) = py "0001-01-01T00:00:00+00:00" ∧
  isoformat 253402300799999999 = py "9999-12-31T23:59:59.999999+00:00".
Proof. vm_compute. done. Qed.

(** [str.replace] of a non-empty pattern *)
Fixpoint replace_go (fuel : nat) (pattern new s : pystr) : pystr :=
  match fuel, s with
  | S fuel', c :: r =>
      match strip_prefix pattern s with
      | Some rest => new ++ replace_go fuel' pattern new rest
      | None => c :: replace_go fuel' pattern new r
      end
  | _, _ => s
  end.
Definition replace (pattern new s : pystr) : pystr := replace_go (length s) pattern new s.

(** ** base64 *)

(** [base64.b64decode(s, altchars=b"-_", validate=True)]: the two alternative
    characters are translated and those they replace remain valid; anything
    else outside the alphabet, and any other padding than that of the last
    group, is refused. *)
Definition b64decode_validated (s : pystr) : option (list Z) :=
  match urlsafe_b64decode (map (λ c, if c =? 43 then dash else if c =? 47 then underscore else c) s) with
  | Ok raw => Some raw
  | Raise _ => None
  end.
(** ["=" * (-len(encoded) % 4)] *)
Definition b64_padding (encoded : pystr) : pystr := repeat pad (Z.to_nat (- Z.of_nat (length encoded) mod 4)).

(** ** The payload *)

(** [x == 1], where [True] and every float that rounds to [1.0] count. *)
Definition float_equals_one (literal : pystr) : bool :=
  let '(whole, rest) := span is_digit literal in
  let '(fraction, rest) := match rest with c :: r => if c =? 46 then span is_digit r else ([], rest) | [] => ([], []) end in
  let exponent := match rest with
                  | _ :: c :: r => if c =? dash then - decimal_value r else decimal_value (if c =? 43 then r else c :: r)
                  | _ => 0
                  end in
  let digits := whole ++ fraction in
  let mantissa := decimal_value digits in
  let e := exponent - Z.of_nat (length fraction) in
  (e <=? 0) && (0 <=? Z.of_nat (length digits) + e)
  && ((2 ^ 54 - 1) * 10 ^ (- e) <=? mantissa * 2 ^ 54) && (mantissa * 2 ^ 54 <=? (2 ^ 54 + 2) * 10 ^ (- e)).
Definition equals_one (v : pyval) : bool :=
  match v with
  | VInt z => z =? 1
  | VBool b => b
  | VFloat literal => float_equals_one literal
  | _ => false
  end.
Example equals_one_1 : map float_equals_one [py "1.0"; py "10e-1"; py "0.1e1"; py "1.00000000000000000001"; py "1.0000001"; py "NaN"; py "-1.0"]
  = [true; true; true; true; false; false; false].
Proof. vm_compute. reflexivity. Qed.

Section codec.
Context `{UnicodeData} (fromisoformat : pystr → option datetime).

(** [datetime.fromisoformat] of a payload's value; the cursor classes and the
    parsers refuse a time without an offset. *)
Definition aware_time (text : pystr) : option Z :=
  d ← fromisoformat text; if is_naive d then None else Some (instant d).

(** *** Dimensions and MasterCodes

    [_encode_cursor] and [_decode_cursor] of [dimensions.py],
    [string_dimensions.py], [numeric_dimensions.py], [memory_dimensions.py] and
    [master_codes.py], which are the same text. *)
Definition _encode_cursor (cursor : Z * UUID) : pystr :=
  b64encode (json_dumps (VDict
    [(py "i", VStr (uuid_str cursor.2)); (py "t", VStr (replace (py "+00:00") (py "Z") (isoformat cursor.1)));
     (py "v", VInt 1)])).

Definition cursor_of_payload (payload : pyval) : option (Z * UUID) :=
  match payload with
  | VDict entries =>
      if keys_are [py "v"; py "t"; py "i"] entries then
        match dict_get (py "v") entries, dict_get (py "t") entries, dict_get (py "i") entries with
        | Some v, Some (VStr t), Some (VStr i) =>
            if equals_one v then
              timestamp ← aware_time (replace (py "Z") (py "+00:00") t);
              id ← parse_UUID (VStr i);
              Some (timestamp, id)
            else None
        | _, _, _ => None
        end
      else None
  | _ => None
  end.
Definition _decode_cursor (encoded : pystr) : res (Z * UUID) :=
  match raw ← b64decode_validated (encoded ++ b64_padding encoded); payload ← json_loads raw; cursor_of_payload payload with
  | Some cursor => Ok cursor
  | None => Raise (DimensionValidationError "query.cursor" "유효하지 않은 cursor입니다.")
  end.

(** *** Change requests

    [_page] and [_decode_cursor] of [change_requests.py] *)
Definition request_cursor_text (cursor : Z * UUID) : pystr :=
  b64encode (json_dumps (VDict
    [(py "v", VInt 1); (py "t", VStr (isoformat cursor.1)); (py "i", VStr (uuid_str cursor.2))])).

Definition request_cursor_of_payload (payload : pyval) : option (Z * UUID) :=
  match payload with
  | VDict entries =>
      if keys_are [py "v"; py "t"; py "i"] entries then
        match dict_get (py "v") entries, dict_get (py "t") entries, dict_get (py "i") entries with
        | Some (VInt v), Some (VStr t), Some i =>
            if v =? 1 then timestamp ← aware_time t; id ← parse_UUID i; Some (timestamp, id) else None
        | _, _, _ => None
        end
      else None
  | _ => None
  end.
Definition decode_request_cursor (encoded : pystr) : res (Z * UUID) :=
  match raw ← b64decode_validated (encoded ++ b64_padding encoded); payload ← json_loads raw; request_cursor_of_payload payload with
  | Some cursor => Ok cursor
  | None => Raise (ChangeRequestValidationError "유효하지 않은 cursor입니다.")
  end.

(** [None if cursor is None else _decode_cursor(cursor)] *)
Definition decoded (decode : pystr → res (Z * UUID)) (cursor : option pystr) : res (option (Z * UUID)) :=
  match cursor with None => Ok None | Some text => position ← decode text; Ok (Some position) end.
End codec.

(** A query the framework let through.  The driver converts the time of a
    position to UTC, and fails where that leaves the calendar. *)
Definition listing_query (decode : pystr → res (Z * UUID)) (cursor : option pystr) (limit : Z) : Prop :=
  1 ≤ limit ≤ 100 ∧ ∀ text position, cursor = Some text → decode text = Ok position → in_calendar position.1.

Lemma decoded_raises (P : exn → Prop) decode cursor :
  (∀ text, raises_only P (decode text)) → raises_only P (decoded decode cursor).
Proof.
  intros Hd. destruct cursor as [text|]; [|apply raises_Ok]. apply raises_bind; [apply Hd|intros; apply raises_Ok].
Qed.

Lemma decode_cursor_raises `{UnicodeData} fromisoformat text :
  raises_only (eq (DimensionValidationError "query.cursor" "유효하지 않은 cursor입니다.")) (_decode_cursor fromisoformat text).
Proof. unfold _decode_cursor. destruct (_ ≫= _); [apply raises_Ok|by apply raises_Raise]. Qed.

Lemma request_cursor_raises `{UnicodeData} fromisoformat text :
  raises_only (eq (ChangeRequestValidationError "유효하지 않은 cursor입니다.")) (decode_request_cursor fromisoformat text).
Proof. unfold decode_request_cursor. destruct (_ ≫= _); [apply raises_Ok|by apply raises_Raise]. Qed.

(** The cursor behind the last item, when another page follows. *)
Definition following_cursor {B} (encode : Z * UUID → pystr) (position : B → Z * UUID) (page : Page B) : option pystr :=
  if page_has_more page then encode ∘ position <$> last (page_items page) else None.

(** The field [next_cursor] of the list models of Dimensions and MasterCodes;
    the framework refuses a longer text with an error of its own. *)
Definition next_cursor_field (cursor : option pystr) : res (option pystr) :=
  _ ← raise_if (match cursor with Some text => (512 <? length text)%nat | None => false end) (ValueError "validation error");
  Ok cursor.

(** ** base64 reads back *)

Lemma b64_char_translated v : 0 ≤ v < 64 →
  (if b64_char v =? 43 then dash else if b64_char v =? 47 then underscore else b64_char v) = b64_char v.
Proof.
  intros Hv. rewrite !(proj2 (Z.eqb_neq (b64_char v) _)); [done|intros E; pose proof (b64_value_char v Hv) as H; by rewrite E in H..].
Qed.

Lemma b64encode_translated raw :
  Forall is_byte raw → map (λ c, if c =? 43 then dash else if c =? 47 then underscore else c) (b64encode raw) = b64encode raw.
Proof.
  induction raw as [|a|a b|a b c raw IH] using triples_ind; intros Hb; repeat (apply Forall_cons in Hb as [? Hb]); [done| | |].
  - destruct (sextets a 0 0) as (? & ? & _); [done|unfold is_byte; lia..|]. rewrite Z.div_0_l, Z.add_0_r in * by lia.
    cbn [b64encode map]. by rewrite !b64_char_translated.
  - destruct (sextets a b 0) as (? & ? & ? & _); [done|done|unfold is_byte; lia|]. rewrite Z.div_0_l, Z.add_0_r in * by lia.
    cbn [b64encode map]. by rewrite !b64_char_translated.
  - destruct (sextets a b c) as (? & ? & ? & ? & _); [done..|]. cbn [b64encode map]. by rewrite !b64_char_translated, IH.
Qed.

Lemma padding_cons4 a b c d s : b64_padding (a :: b :: c :: d :: s) = b64_padding s.
Proof.
  unfold b64_padding. do 2 f_equal. cbn [length]. replace (- Z.of_nat (S (S (S (S (length s)))))) with (- Z.of_nat (length s) + (-1) * 4) by lia.
  by rewrite Z.mod_add by lia.
Qed.

Lemma b64decode_padded raw : Forall is_byte raw → urlsafe_b64decode (b64encode raw ++ b64_padding (b64encode raw)) = Ok raw.
Proof.
  induction raw as [|a|a b|a b c raw IH] using triples_ind; intros Hb; repeat (apply Forall_cons in Hb as [? Hb]); [done| | |].
  - destruct (sextets a 0 0) as (? & ? & _ & _ & Ha & _); [done|unfold is_byte; lia..|]. rewrite Z.div_0_l, Z.add_0_r in * by lia.
    change (b64_padding (b64encode [a])) with [pad; pad]. cbn. rewrite !b64_value_char by done. cbn. by rewrite Ha.
  - destruct (sextets a b 0) as (? & ? & ? & _ & Ha & Hb2 & _); [done|done|unfold is_byte; lia|]. rewrite Z.div_0_l, Z.add_0_r in * by lia.
    change (b64_padding (b64encode [a; b])) with [pad]. cbn. rewrite !b64_value_char by done. cbn. by rewrite Ha, Hb2.
  - destruct (sextets a b c) as (? & ? & ? & ? & Ha & Hb2 & Hc); [done..|].
    cbn [b64encode]. rewrite padding_cons4. cbn [app urlsafe_b64decode]. rewrite !b64_value_char by done.
    rewrite IH by done. cbn. by rewrite Ha, Hb2, Hc.
Qed.

Lemma b64_validated raw :
  Forall is_byte raw → b64decode_validated (b64encode raw ++ b64_padding (b64encode raw)) = Some raw.
Proof.
  intros Hb. unfold b64decode_validated. rewrite map_app, b64encode_translated by done.
  assert (∀ n, map (λ c, if c =? 43 then dash else if c =? 47 then underscore else c) (repeat pad n) = repeat pad n) as Hp.
  { induction n as [|n IH]; [done|]. cbn [repeat map]. by rewrite IH. }
  unfold b64_padding at 1. rewrite Hp. fold (b64_padding (b64encode raw)). by rewrite b64decode_padded.
Qed.

(** ** Times are plain text *)

Lemma dec_fixed_digits w n : Forall (λ c, is_digit c = true) (dec_fixed w n).
Proof.
  revert n. induction w as [|w IH]; intros n; [constructor|]. cbn [dec_fixed]. apply Forall_app_2; [apply IH|].
  apply Forall_singleton. unfold is_digit, in_range. pose proof (Z.mod_pos_bound n 10). lia.
Qed.

Definition iso_char (c : Z) : Prop := is_digit c = true ∨ c = dash ∨ c = 84 ∨ c = 58 ∨ c = 46.
Definition iso_front (t : Z) : pystr := take (length (isoformat t) - 6) (isoformat t).

Lemma isoformat_shape t : ∃ front, isoformat t = front ++ py "+00:00" ∧ Forall iso_char front.
Proof.
  unfold isoformat. destruct (civil_of_days (t / DAY)) as [[year month] day]. cbv zeta. set (us := t mod DAY).
  eexists. split.
  - rewrite !app_assoc. reflexivity.
  - assert (∀ w n, Forall iso_char (dec_fixed w n)) as Hd.
    { intros w n. eapply Forall_impl; [apply dec_fixed_digits|]. intros c Hc. by left. }
    assert (∀ c, iso_char c → Forall iso_char [c]) as H1 by (intros; by constructor).
    rewrite !Forall_app. split_and!; try apply Hd; try (apply H1; unfold iso_char, dash; tauto).
    destruct (us mod 1000000 =? 0); [constructor|]. apply Forall_app_2; [apply H1; unfold iso_char; tauto|apply Hd].
Qed.

Lemma iso_char_range c : iso_char c → c = 45 ∨ c = 46 ∨ 48 ≤ c ≤ 58 ∨ c = 84.
Proof. unfold iso_char, is_digit, in_range, dash. lia. Qed.

(** Replacing what does not occur, and what occurs once at the end. *)
Lemma replace_go_front p pattern new front s fuel :
  p ∉ front → replace_go (length front + fuel) (p :: pattern) new (front ++ s) = front ++ replace_go fuel (p :: pattern) new s.
Proof.
  induction front as [|c front IH]; [done|]. intros [Hne Hin]%not_elem_of_cons. cbn [length Nat.add app replace_go].
  cbn [strip_prefix]. rewrite (proj2 (Z.eqb_neq p c)) by done. by rewrite IH.
Qed.

Lemma isoformat_z t : ∃ front, isoformat t = front ++ py "+00:00" ∧ Forall iso_char front ∧
  replace (py "+00:00") (py "Z") (isoformat t) = front ++ py "Z" ∧
  replace (py "Z") (py "+00:00") (front ++ py "Z") = isoformat t.
Proof.
  destruct (isoformat_shape t) as (front & Hiso & Hfront). exists front. rewrite Hiso. split_and!; [done|done|..].
  - unfold replace. rewrite length_app. change (py "+00:00") with (43 :: py "00:00"). rewrite replace_go_front; [done|].
    intros Hin. rewrite Forall_forall in Hfront. apply Hfront, iso_char_range in Hin. lia.
  - unfold replace. rewrite length_app. change (replace_go (length front + length (py "Z")) (py "Z")) with
      (replace_go (length front + length (py "Z")) (90 :: [])). rewrite replace_go_front; [done|].
    intros Hin. rewrite Forall_forall in Hfront. apply Hfront, iso_char_range in Hin. lia.
Qed.

Lemma plain_iso s : Forall iso_char s → forallb plain_char s = true.
Proof.
  intros Hs. apply forallb_Forall. eapply Forall_impl; [exact Hs|]. intros c Hc%iso_char_range.
  unfold plain_char, in_range. lia.
Qed.

Lemma plain_uuid u : forallb plain_char (uuid_str u) = true.
Proof.
  apply forallb_Forall. eapply Forall_impl; [apply uuid_str_hex_or_dash|]. intros c Hc.
  assert (hex_char c) as Hh%hex_char_range by done. unfold plain_char, in_range. lia.
Qed.

(** ** Cursors are short *)

Lemma b64encode_length raw : (length (b64encode raw) ≤ 2 * length raw)%nat.
Proof. induction raw as [|a|a b|a b c raw IH] using triples_ind; cbn [b64encode length]; lia. Qed.

Lemma dec_fixed_length w n : length (dec_fixed w n) = w.
Proof. revert n. induction w as [|w IH]; intros n; [done|]. cbn [dec_fixed]. rewrite length_app, IH. cbn. lia. Qed.

Lemma isoformat_length t : (length (isoformat t) ≤ 32)%nat.
Proof.
  unfold isoformat. destruct (civil_of_days (t / DAY)) as [[year month] day]. cbv zeta.
  rewrite !length_app, !dec_fixed_length. destruct (_ =? 0); rewrite ?length_app, ?dec_fixed_length; cbn; lia.
Qed.

Lemma plain_string_length s : forallb plain_char s = true → length (dumps_string s) = (length s + 2)%nat.
Proof. intros Hs. rewrite plain_string by done. cbn. rewrite length_app. cbn. lia. Qed.

Lemma encoded_cursor_length cursor : (length (_encode_cursor cursor) ≤ 512)%nat.
Proof.
  unfold _encode_cursor. destruct (isoformat_z cursor.1) as (front & Hiso & Hfront & -> & _).
  assert (length (front ++ py "Z") ≤ 32)%nat as Hlen.
  { pose proof (isoformat_length cursor.1) as H. rewrite Hiso in H. rewrite length_app in *. cbn in *. lia. }
  assert (forallb plain_char (front ++ py "Z") = true) as Hplain by by rewrite forallb_app, plain_iso.
  generalize dependent (front ++ py "Z"). clear. intros z Hlen Hplain.
  rewrite b64encode_length. cbn [json_dumps map str_join fst snd]. rewrite ?length_app. cbn [length]. rewrite ?length_app.
  cbn [length]. rewrite !plain_string_length by (done || apply plain_uuid). rewrite uuid_str_length.
  change (length (str_of_Z 1)) with 1%nat. cbn. lia.
Qed.

Lemma next_cursor_fits {A} (cursor : option pystr) (key : A → Z * UUID) :
  (∀ text, cursor = Some text → ∃ x, text = _encode_cursor (key x)) → next_cursor_field cursor = Ok cursor.
Proof.
  intros Hc. unfold next_cursor_field. destruct cursor as [text|]; [|done]. destruct (Hc text eq_refl) as [x ->].
  pose proof (encoded_cursor_length (key x)). by rewrite (proj2 (Nat.ltb_ge 512 _)).
Qed.

(** ** Cursors read back *)

Section reads_back.
Context `{UnicodeData} (fromisoformat : pystr → option datetime).
(** The inverse of [isoformat]. *)
Hypothesis Hiso : ∀ t, in_calendar t → fromisoformat (isoformat t) = Some (utc t).

Lemma cursor_text_decodes entries p : flat (p :: entries) →
  let text := b64encode (json_dumps (VDict (p :: entries))) in
  (raw ← b64decode_validated (text ++ b64_padding text); json_loads raw) = Some (VDict (p :: entries)).
Proof.
  intros Hflat text. unfold text. rewrite b64_validated; [cbn [mbind option_bind]; by apply json_loads_dumps|].
  eapply Forall_impl; [by apply flat_ascii|]. unfold is_byte. lia.
Qed.

Lemma cursor_decodes t id :
  in_calendar t → uuid_ok id → _decode_cursor fromisoformat (_encode_cursor (t, id)) = Ok (t, id).
Proof.
  intros Ht Hid. destruct (isoformat_z t) as (front & _ & Hfront & Hz & Hback).
  unfold _decode_cursor, _encode_cursor. cbn [fst snd]. rewrite Hz.
  assert (flat [(py "i", VStr (uuid_str id)); (py "t", VStr (front ++ py "Z")); (py "v", VInt 1)]) as Hflat.
  { split; [apply (bool_decide_unpack _); vm_compute; exact I|]. repeat constructor; cbn [snd scalar]; [apply plain_uuid|].
    rewrite forallb_app, plain_iso by done. done. }
  pose proof (cursor_text_decodes _ _ Hflat) as Hd. cbv zeta in Hd.
  destruct (b64decode_validated _) as [raw|]; [|done]. cbn [mbind option_bind] in Hd |- *. rewrite Hd. cbn [mbind option_bind].
  assert (cursor_of_payload fromisoformat
    (VDict [(py "i", VStr (uuid_str id)); (py "t", VStr (front ++ py "Z")); (py "v", VInt 1)]) =
    (timestamp ← aware_time fromisoformat (replace (py "Z") (py "+00:00") (front ++ py "Z"));
     id ← parse_UUID (VStr (uuid_str id)); Some (timestamp, id))) as -> by reflexivity.
  rewrite Hback. unfold aware_time. rewrite Hiso, parse_UUID_str by done. reflexivity.
Qed.

Lemma request_cursor_decodes t id :
  in_calendar t → uuid_ok id → decode_request_cursor fromisoformat (request_cursor_text (t, id)) = Ok (t, id).
Proof.
  intros Ht Hid. destruct (isoformat_shape t) as (front & Hf & Hfront).
  unfold decode_request_cursor, request_cursor_text. cbn [fst snd].
  assert (flat [(py "v", VInt 1); (py "t", VStr (isoformat t)); (py "i", VStr (uuid_str id))]) as Hflat.
  { split; [apply (bool_decide_unpack _); vm_compute; exact I|]. repeat constructor; cbn [snd scalar]; [|apply plain_uuid].
    rewrite Hf, forallb_app, plain_iso by done. done. }
  pose proof (cursor_text_decodes _ _ Hflat) as Hd. cbv zeta in Hd.
  destruct (b64decode_validated _) as [raw|]; [|done]. cbn [mbind option_bind] in Hd |- *. rewrite Hd. cbn [mbind option_bind].
  assert (request_cursor_of_payload fromisoformat
    (VDict [(py "v", VInt 1); (py "t", VStr (isoformat t)); (py "i", VStr (uuid_str id))]) =
    (timestamp ← aware_time fromisoformat (isoformat t); id ← parse_UUID (VStr (uuid_str id)); Some (timestamp, id)))
    as -> by reflexivity.
  unfold aware_time. rewrite Hiso, parse_UUID_str by done. reflexivity.
Qed.
End reads_back.

(** ** Listings

    What a page shows of the rows of its table: the next [limit] of the rows
    behind the position, newest first, and a cursor exactly when there are
    more, which decodes to the position of the last one shown. *)

Section listing.
Context {A B C : Type} (key : A → Z * UUID) (decode : pystr → res (Z * UUID)) (shown : A → C → Prop).

Definition rows_listed (rows : list A) (after : option (Z * UUID)) (limit : nat) (items : list C) (next : option pystr) : Prop :=
  let rest := remaining key after rows in
  Forall2 shown (take limit rest) items ∧
  if (length rest <=? limit)%nat then next = None
  else ∃ text x, next = Some text ∧ last (take limit rest) = Some x ∧ decode text = Ok (key x).

Lemma listing_shown (read : A → res B) (serialize : B → res C) (position : B → Z * UUID) encode rows after limit :
  distinct_keys key rows → (1 ≤ limit)%nat →
  (∀ x, x ∈ rows → ∃ d c, read x = Ok d ∧ serialize d = Ok c ∧ shown x c ∧ position d = key x ∧
     decode (encode (key x)) = Ok (key x)) →
  let p := page key after limit rows in
  ∃ ds cs, mapR read (page_items p) = Ok ds ∧ mapR serialize ds = Ok cs ∧
    let next := following_cursor encode position (mkPage ds (page_has_more p)) in
    rows_listed rows after limit cs next ∧ ∀ text, next = Some text → ∃ x, text = encode (key x).
Proof.
  intros Hnd Hlimit Hrows p.
  assert (∀ l, (∀ x, x ∈ l → x ∈ rows) → ∃ ds cs, mapR read l = Ok ds ∧ mapR serialize ds = Ok cs ∧ Forall2 shown l cs ∧
    position <$> last ds = key <$> last l) as Hread.
  { clear p. induction l as [|x l IH]; intros Hl; [by exists [], []|].
    destruct (Hrows x (Hl x ltac:(by left))) as (d & c & Hd & Hc & Hs & Hp & _).
    destruct IH as (ds & cs & Hds & Hcs & Hall & Hlast); [intros y Hy; apply Hl; by right|].
    exists (d :: ds), (c :: cs). cbn [mapR]. rewrite Hd, Hds. cbn [mbind result_bind mapR]. rewrite Hc, Hcs.
    split_and!; [done|done|by constructor|].
    apply mapR_Ok, Forall2_length in Hds. destruct ds as [|d' ds], l as [|x' l]; try done. cbn. by rewrite Hp. }
  destruct (Hread (page_items p)) as (ds & cs & Hds & Hcs & Hall & Hlast).
  { intros x. apply page_items_elem. }
  exists ds, cs. cbv zeta. split_and!; [done|done| |].
  2: { unfold following_cursor. cbn [page_has_more page_items]. intros text. destruct (page_has_more p); [|done].
    destruct (last ds) as [d|]; [|done]. destruct (last (page_items p)) as [y|]; [|done]. injection Hlast as Hpos.
    intros [= <-]. exists y. cbn. by rewrite Hpos. }
  destruct (page_slice key after limit rows Hnd) as [Hitems Hmore].
  unfold rows_listed. cbv zeta. fold p in Hitems, Hmore. rewrite Hitems in Hall, Hlast. split; [done|].
  unfold following_cursor. cbn [page_has_more page_items]. rewrite Hmore.
  set (rest := remaining key after rows) in *. rewrite Nat.leb_antisym.
  destruct (limit <? length rest)%nat eqn:E; cbn [negb]; [|done]. apply Nat.ltb_lt in E.
  destruct (last (take limit rest)) as [x|] eqn:Hx.
  - assert (x ∈ rows) as Hin.
    { apply last_Some in Hx as [l Hl]. assert (x ∈ take limit rest) as Hx by (rewrite Hl; set_solver).
      apply (page_items_elem key after limit). fold p. by rewrite Hitems. }
    destruct (Hrows x Hin) as (_ & _ & _ & _ & _ & _ & Hdecode). destruct (last ds) as [d|]; [|done].
    injection Hlast as Hpos. exists (encode (key x)), x. cbn. by rewrite Hpos.
  - apply last_None in Hx. apply (f_equal length) in Hx. rewrite length_take in Hx. cbn in Hx. lia.
Qed.
End listing.

(** ** A reading of times

    The calendar read backwards: a reader of exactly what [isoformat] writes,
    at which the theorems are instantiated. *)

Definition days_of_civil (y m d : Z) : Z :=
  let y' := y - (if m <=? 2 then 1 else 0) in
  let mp := if 2 <? m then m - 3 else m + 9 in
  let yoe := y' mod 400 in
  y' / 400 * 146097 + (365 * yoe + yoe / 4 - yoe / 100 + (153 * mp + 2) / 5 + d - 1) - 719468.

Lemma civil_of_era_day_spec doe y m d :
  0 ≤ doe < 146097 → civil_of_era_day doe = (y, m, d) →
  1 ≤ m ≤ 12 ∧ 1 ≤ d ≤ 31 ∧ 0 ≤ y - (if m <=? 2 then 1 else 0) < 400 ∧
  days_of_civil y m d = doe - 719468.
Proof.
  intros Hdoe. unfold civil_of_era_day. cbv zeta.
  set (yoe := (doe - doe / 1460 + doe / 36524 - doe / 146096) / 365).
  set (doy := doe - (365 * yoe + yoe / 4 - yoe / 100)).
  assert (0 ≤ yoe < 400 ∧ 0 ≤ doy ≤ 365) as [Hyoe Hdoy]
    by (unfold doy, yoe; Z.to_euclidean_division_equations; lia).
  assert (doe = 365 * yoe + yoe / 4 - yoe / 100 + doy) as Hsum by (unfold doy; lia).
  clearbody doy yoe. set (mp := (5 * doy + 2) / 153).
  assert (0 ≤ mp ≤ 11 ∧ 1 ≤ doy - (153 * mp + 2) / 5 + 1 ≤ 31) as [Hmp Hd]
    by (unfold mp; Z.to_euclidean_division_equations; lia).
  clearbody mp. intros [= <- <- <-]. unfold days_of_civil. cbv zeta.
  set (month := if mp <? 10 then mp + 3 else mp - 9).
  assert (1 ≤ month ≤ 12 ∧ (if 2 <? month then month - 3 else month + 9) = mp) as [Hmonth Hback].
  { unfold month. destruct (mp <? 10) eqn:E; [apply Z.ltb_lt in E|apply Z.ltb_ge in E];
      (destruct (2 <? _) eqn:E2; [apply Z.ltb_lt in E2|apply Z.ltb_ge in E2]); lia. }
  rewrite Hback. set (carry := if month <=? 2 then 1 else 0). replace (yoe + carry - carry) with yoe by lia.
  rewrite (Z.mod_small yoe), (Z.div_small yoe) by lia. split_and!; lia.
Qed.

Lemma civil_of_days_spec z y m d :
  civil_of_days z = (y, m, d) → 1 ≤ m ≤ 12 ∧ 1 ≤ d ≤ 31 ∧ days_of_civil y m d = z ∧
  400 * ((z + 719468) / 146097) ≤ y ≤ 400 * ((z + 719468) / 146097) + 400.
Proof.
  unfold civil_of_days. destruct (civil_of_era_day _) as [[y0 m0] d0] eqn:E. intros [= <- <- <-].
  pose proof (Z.mod_pos_bound (z + 719468) 146097 eq_refl) as Hb.
  apply civil_of_era_day_spec in E as (Hm & Hd & Hy & Hdays); [|done]. set (era := (z + 719468) / 146097) in *.
  assert (z + 719468 = 146097 * era + (z + 719468) mod 146097) as Hz by (apply Z.div_mod; lia).
  split_and!; [lia..| |destruct (m0 <=? 2); lia|destruct (m0 <=? 2); lia].
  unfold days_of_civil in *. cbv zeta in *. set (carry := if m0 <=? 2 then 1 else 0) in *.
  replace (y0 + era * 400 - carry) with (y0 - carry + era * 400) by lia.
  rewrite Z.mod_add, Z.div_add by lia. rewrite (Z.div_small (y0 - carry)) in * by lia. lia.
Qed.

(** Fields of digits, separators, and the whole. *)
Definition read_dec (w : nat) (s : pystr) : option (Z * pystr) :=
  let digits := take w s in
  if (length digits =? w)%nat && forallb is_digit digits then Some (decimal_value digits, drop w s) else None.
Definition read_char (c : Z) (s : pystr) : option pystr := strip_prefix [c] s.
Definition read_iso (s : pystr) : option datetime :=
  '(year, s) ← read_dec 4 s; s ← read_char dash s; '(month, s) ← read_dec 2 s; s ← read_char dash s;
  '(day, s) ← read_dec 2 s; s ← read_char 84 s;
  '(hour, s) ← read_dec 2 s; s ← read_char 58 s; '(minute, s) ← read_dec 2 s; s ← read_char 58 s;
  '(second, s) ← read_dec 2 s;
  '(us, s) ← match read_char 46 s with Some s => read_dec 6 s | None => Some (0, s) end;
  if bool_decide (s = py "+00:00") then
    Some (utc (days_of_civil year month day * DAY + ((hour * 60 + minute) * 60 + second) * 1000000 + us))
  else None.

Lemma read_char_app c s : read_char c ([c] ++ s) = Some s.
Proof. unfold read_char. cbn. by rewrite Z.eqb_refl. Qed.

Lemma dec_fixed_value w n : 0 ≤ n < 10 ^ Z.of_nat w → decimal_value (dec_fixed w n) = n.
Proof.
  revert n. induction w as [|w IH]; intros n Hn; [cbn in *; lia|]. cbn [dec_fixed]. unfold decimal_value in *.
  rewrite fold_left_app. cbn [fold_left]. rewrite IH; [|].
  - rewrite (Z.div_mod n 10) at 3 by lia. lia.
  - rewrite Nat2Z.inj_succ, Z.pow_succ_r in Hn by lia. split; [apply Z.div_pos; lia|apply Z.div_lt_upper_bound; lia].
Qed.

Lemma read_dec_fixed w n s : 0 ≤ n < 10 ^ Z.of_nat w → read_dec w (dec_fixed w n ++ s) = Some (n, s).
Proof.
  intros Hn. unfold read_dec. rewrite (take_app_length' _ _ w), (drop_app_length' _ _ w) by by rewrite dec_fixed_length.
  rewrite dec_fixed_length, Nat.eqb_refl, (proj2 (forallb_Forall _ _)) by apply dec_fixed_digits. cbn [andb].
  by rewrite dec_fixed_value.
Qed.

Lemma read_isoformat t : in_calendar t → read_iso (isoformat t) = Some (utc t).
Proof.
  unfold in_calendar. intros Ht. unfold isoformat. destruct (civil_of_days (t / DAY)) as [[y m] d] eqn:E. cbv zeta.
  set (us := t mod DAY). assert (0 ≤ us < DAY) as Hus by (apply Z.mod_pos_bound; done).
  assert (t = DAY * (t / DAY) + us) as Hsum by (apply Z.div_mod; done).
  assert (-719162 ≤ t / DAY < 2932897) as Hdays by (unfold DAY in *; Z.to_euclidean_division_equations; lia).
  apply civil_of_days_spec in E as (Hm & Hd & Hback & Hy).
  assert (0 ≤ y < 10000) as Hyear.
  { split; [Z.to_euclidean_division_equations; lia|]. destruct (decide (y = 10000)) as [->|Hne].
    - exfalso. unfold days_of_civil in Hback. cbv zeta in Hback. destruct (m <=? 2) eqn:E2; [apply Z.leb_le in E2|apply Z.leb_gt in E2].
      + rewrite (proj2 (Z.ltb_ge 2 m)) in Hback by lia. change ((10000 - 1) mod 400) with 399 in Hback.
        change ((10000 - 1) / 400) with 24 in Hback. Z.to_euclidean_division_equations; lia.
      + rewrite (proj2 (Z.ltb_lt 2 m)) in Hback by lia. change ((10000 - 0) mod 400) with 0 in Hback.
        change ((10000 - 0) / 400) with 25 in Hback. Z.to_euclidean_division_equations; lia.
    - Z.to_euclidean_division_equations; lia. }
  assert (0 ≤ us / 3600000000 < 24 ∧ 0 ≤ us / 60000000 mod 60 < 60 ∧ 0 ≤ us / 1000000 mod 60 < 60 ∧ 0 ≤ us mod 1000000 < 1000000 ∧
    ((us / 3600000000 * 60 + us / 60000000 mod 60) * 60 + us / 1000000 mod 60) * 1000000 + us mod 1000000 = us)
    as (Hhour & Hminute & Hsecond & Hmicro & Htime) by (unfold DAY in Hus; Z.to_euclidean_division_equations; lia).
  unfold read_iso. change (py "T") with [84]. change (py ":") with [58].
  do 5 (rewrite read_dec_fixed by (cbn; lia); cbn [mbind option_bind]; rewrite read_char_app; cbn [mbind option_bind]).
  rewrite read_dec_fixed by (cbn; lia). cbn [mbind option_bind].
  assert (∃ v, (match read_char 46 ((if us mod 1000000 =? 0 then [] else py "." ++ dec_fixed 6 (us mod 1000000)) ++ py "+00:00") with
      | Some s => read_dec 6 s
      | None => Some (0, (if us mod 1000000 =? 0 then [] else py "." ++ dec_fixed 6 (us mod 1000000)) ++ py "+00:00")
      end) = Some (v, py "+00:00") ∧ v = us mod 1000000) as (v & -> & ->).
  { destruct (us mod 1000000 =? 0) eqn:E0; [apply Z.eqb_eq in E0; exists 0; by rewrite E0|].
    exists (us mod 1000000). split; [|done]. change (py ".") with [46]. rewrite <- app_assoc, read_char_app.
    by rewrite read_dec_fixed by (cbn; lia). }
  cbn [mbind option_bind]. rewrite bool_decide_eq_true_2 by done. unfold utc. do 2 f_equal. rewrite Hback. lia.
Qed.
