(* ===== verification/Endpoints.v ===== *)
(** * What the endpoints share
    ([src/src/mdm/api])

    A response, how an exception becomes one, the guard of a route, values in
    bodies, and the responses a route documents.  A route authorizes its
    principal, parses the precondition, runs its use case and serializes the
    result.  The bodies are the models after the framework's validation, which
    is not part of the repository.  An exception raised after the use case
    returned leaves its transaction committed. *)

From Stdlib Require Import Ascii String.
From S2P Require Import Prelude Python Exceptions Auth MutationAudit Dimensions MasterCodes Store Records DimensionRepos Problems Preconditions.
Local Open Scope Z_scope.

(** ** Responses *)

Inductive Content (A : Type) := ProblemContent (p : ProblemDetails) | BodyContent (body : A).
Arguments ProblemContent {A}. Arguments BodyContent {A}.
Record HttpResponse (A : Type) := mkHttpResponse {
  rs_status : Z; rs_headers : list (string * pystr); rs_content : Content A;
}.
Arguments mkHttpResponse {A}. Arguments rs_status {A}. Arguments rs_headers {A}. Arguments rs_content {A}.

(** What a route returns or raises, and the state it leaves. *)
Abbreviation outcome St A := (res (HttpResponse A) * St)%type.
Definition error_response {A} (request : HttpRequest) (e : exn) : HttpResponse A :=
  let r := exception_response request e in
  mkHttpResponse (pd_status (jr_problem r)) ((λ h, (h.1, py h.2)) <$> jr_headers r) (ProblemContent (jr_problem r)).
Definition respond {St A} (request : HttpRequest) (o : outcome St A) : HttpResponse A * St :=
  (match o.1 with Ok r => r | Raise e => error_response request e end, o.2).

(** A use case, then what the route does with its result. *)
Definition after {St X A} (m : res (X * St)) (db : St) (k : X → res (HttpResponse A)) : outcome St A :=
  match m with Ok (x, db') => (k x, db') | Raise e => (Raise e, db) end.
(** [except DimensionValidationError]: the field is one of the body. *)
Definition body_field {A} (m : res A) : res A :=
  catch m (λ e, match e with
                | DimensionValidationError field message => Raise (DimensionValidationError ("body." ++ field) message)
                | _ => Raise e
                end).

(** [build_authorization_guard] over the principal dependency. *)
Definition guard (authenticated : res HumanPrincipal) (action : AuthorizationAction) : res HumanPrincipal :=
  p ← authenticated; authorize p action.

Definition etag_headers (version : Z) : list (string * pystr) := [("ETag"%string, version_etag version)].

(** *** Values *)

(** The field [value] of the response classes. *)
Inductive ValueResponse :=
| StringValue (value : pystr)
| IntegerValue (value : Z)
| MemoryValueResponse (amount : Z) (unit : pystr) (capacity_mb : Z).
Definition value_response (v : dim_value) : ValueResponse :=
  match v with
  | CompanyValue s | ModelValue s | BrandValue s | CountryValue s | CategoryValue s => StringValue s
  | YearValue z => IntegerValue z
  | NetworkGeneration g => IntegerValue (network_value g)
  | MemoryValue m => MemoryValueResponse (amount m) (unit_str (unit_of m)) (capacity_mb m)
  end.

(** The value field of the bodies: a string, an integer, or [MemoryValueInput]. *)
Inductive ValueInput :=
| StringInput (value : pystr)
| IntegerInput (value : Z)
| MemoryValueInput (amount : Z) (unit : pystr).
Definition value_argument (v : ValueInput) : pyval :=
  match v with StringInput s => VStr s | IntegerInput z => VInt z | MemoryValueInput amount _ => VInt amount end.
Definition unit_argument (v : ValueInput) : pyval :=
  match v with MemoryValueInput _ unit => VStr unit | _ => VNone end.

(** What the server supplies to one execution. *)
Record Execution := mkExecution { ex_env : Env; ex_seen : DB; ex_change_set_id : UUID }.

(** ** Documented responses

    The [responses] a route declares: its statuses, and for those of an error
    the examples of its problem (without the violations of the example). *)

Abbreviation Responses := (list (Z * list ProblemDetails)).
Definition example (type title : string) (status : Z) (detail code : string) : ProblemDetails :=
  mkProblemDetails type title status detail code None None.
Definition success (status : Z) : Z * list ProblemDetails := (status, []).

(** [INVALID_ACCESS_TOKEN_RESPONSE], [AUTHORIZATION_DENIED_RESPONSE] *)
Definition INVALID_ACCESS_TOKEN_RESPONSE : Z * list ProblemDetails :=
  (401, [example "/problems/invalid-access-token" "유효하지 않은 액세스 토큰" 401
           "유효한 Bearer 액세스 토큰이 필요합니다." "INVALID_ACCESS_TOKEN"]).
Definition AUTHORIZATION_DENIED_RESPONSE : Z * list ProblemDetails :=
  (403, [example "/problems/authorization-denied" "권한 없음" 403
           "현재 역할로는 이 작업을 수행할 수 없습니다." "AUTHORIZATION_DENIED"]).

(** A response that the declarations of its route list: its status, and for a
    problem an example that is the [same]: of the same type, title and code,
    and of the same text, but for the pairs of a returned and a documented text
    that [reworded] lists. *)
Definition same_problem (reworded : list (string * string)) (p q : ProblemDetails) : Prop :=
  pd_type p = pd_type q ∧ pd_title p = pd_title q ∧ pd_status p = pd_status q ∧ pd_code p = pd_code q ∧
  (pd_detail p = pd_detail q ∨ (pd_detail p, pd_detail q) ∈ reworded).
(** Every text is the documented one. *)
Definition exact_texts : list (string * string) := [].
Definition documented {A} (same : ProblemDetails → ProblemDetails → Prop) (docs : Responses) (r : HttpResponse A) : Prop :=
  ∃ examples, (rs_status r, examples) ∈ docs ∧
    match rs_content r with
    | ProblemContent p => pd_status p = rs_status r ∧ Exists (same p) examples
    | BodyContent _ => True
    end.
