(* ===== verification/EndpointSpecs.v ===== *)
(** * What the endpoints promise alike

    A route whose use case raises only exceptions with a documented problem,
    and whose successes are documented, has documented responses only.  The
    lemmas are stated for any class of exceptions, so that a route also can
    be shown to raise none that concerns its precondition. *)

From Stdlib Require Import Ascii String.
From S2P Require Import Prelude Python Exceptions Auth MutationAudit Dimensions MasterCodes Store Records Invariant Consistency DimensionRepos Transactions Commands CommandSpecs Problems Preconditions Endpoints.
Local Open Scope Z_scope.

(** ** Documented errors *)

Section documented.
Context (same : ProblemDetails → ProblemDetails → Prop) (request : HttpRequest) (docs : Responses).

Definition documented_error (e : exn) : Prop :=
  let p := jr_problem (exception_response request e) in
  ∃ examples, (pd_status p, examples) ∈ docs ∧ Exists (same p) examples.

Lemma documented_error_response {A} e :
  documented_error e → documented same docs (error_response (A := A) request e).
Proof. intros (examples & Hin & Hex). exists examples. by split; [|split]. Qed.

Lemma documented_error_intro e examples :
  let p := jr_problem (exception_response request e) in
  (pd_status p, examples) ∈ docs → Exists (same p) examples → documented_error e.
Proof. intros p Hin Hex. by exists examples. Qed.

Lemma documented_success {A} status headers (body : A) :
  success status ∈ docs → documented same docs (mkHttpResponse status headers (BodyContent body)).
Proof. intros Hin. exists []. by split. Qed.

Lemma after_documented {St X A} (m : res (X * St)) db (k : X → res (HttpResponse A)) :
  raises_only documented_error m →
  (∀ x db', m = Ok (x, db') → ∃ r, k x = Ok r ∧ documented same docs r) →
  documented same docs (respond request (after m db k)).1.
Proof.
  intros He Hk. unfold respond, after. destruct m as [[x db']|e]; cbn.
  - destruct (Hk x db' eq_refl) as (r & -> & Hr). exact Hr.
  - by apply documented_error_response, He.
Qed.

Lemma documented_not_500 {A} (r : HttpResponse A) :
  Forall (λ d, d.1 ≠ 500) docs → documented same docs r → rs_status r ≠ 500.
Proof. rewrite Forall_forall. intros Hall (ex & Hin & _). exact (Hall _ Hin). Qed.
End documented.

Ltac listed := apply list_elem_of_In; cbn; tauto.
Ltac documents :=
  eapply documented_error_intro; [listed|];
  repeat first [apply Exists_cons_hd; split_and!; cbn; (reflexivity || (by left) || (right; listed)) | apply Exists_cons_tl].

Lemma problem_status_error request e : 400 ≤ pd_status (jr_problem (exception_response request e)).
Proof. destruct e; try destruct code, value; vm_compute; discriminate. Qed.

(** The errors every mutation documents. *)
Definition common_documents same (request : HttpRequest) (docs : Responses) : Prop :=
  documented_error same request docs InvalidAccessToken ∧ documented_error same request docs AuthorizationDenied ∧
  ∀ field message, documented_error same request docs (DimensionValidationError field message).
Definition precondition_documents same (request : HttpRequest) (docs : Responses) : Prop :=
  documented_error same request docs PreconditionRequired ∧ documented_error same request docs InvalidIfMatch ∧
  documented_error same request docs PreconditionFailed.

(** ** What a route raises before and around its use case *)

(** The principal dependency accepts the token or raises [InvalidAccessToken]. *)
Definition token_checked (authenticated : res HumanPrincipal) : Prop :=
  raises_only (eq InvalidAccessToken) authenticated.
Definition server_ready (x : Execution) (db : DB) : Prop := db_ok db ∧ served (ex_env x) (ex_seen x) db.

Lemma body_field_raises {A} (m : res A) (P : exn → Prop) :
  raises_only (λ e, invalid_argument e ∨ P e) m → (∀ field message, P (DimensionValidationError field message)) →
  raises_only P (body_field m).
Proof.
  intros Hm HP. apply raises_catch. intros e He. destruct (Hm e He) as [(f & msg & ->)|Hp]; [by apply raises_Raise|].
  destruct e; apply raises_Raise; auto.
Qed.

Lemma body_field_Ok {A} (m : res A) x : body_field m = Ok x → m = Ok x.
Proof. intros [Hm|(e & _ & He)]%catch_Ok; [done|by destruct e]. Qed.

Lemma guard_raises authenticated (P : exn → Prop) action :
  token_checked authenticated → P InvalidAccessToken → (action ≠ READ_DATA → P AuthorizationDenied) →
  raises_only P (guard authenticated action).
Proof.
  intros Htoken Hi Ha. apply raises_bind; [eapply raises_impl; [exact Htoken|by intros e <-]|].
  intros p _ e He. destruct (decide (action = READ_DATA)) as [->|Hne].
  - by rewrite authorize_read in He.
  - unfold authorize in He. destruct (negb _); [|done]. injection He as <-. auto.
Qed.

Lemma command_raises {A} (P : exn → Prop) p (m : res A) :
  P AuthorizationDenied → raises_only P m → raises_only P (_ ← authorize p MUTATE_DATA; m).
Proof.
  intros Ha Hm. apply raises_bind; [|by intros].
  rewrite authorize_mutation. case_bool_decide; [by apply raises_Raise|apply raises_Ok].
Qed.

Ltac argument lemma := eapply (raises_impl invalid_argument); [apply lemma|by left].

(** A read is a use case that leaves the state. *)
Lemma read_as_after {St A X} (db : St) (m : res X) (k : X → res (HttpResponse A)) :
  (m ≫= k, db) = after (y ← m; Ok (y, db)) db k.
Proof. by destruct m. Qed.

(** ** Responses of a route *)

Section response.
Context {St A : Type} (request : HttpRequest) (db : St).

Lemma after_Ok {X} (m : res (X * St)) (k : X → res (HttpResponse A)) :
  rs_status (respond request (after m db k)).1 < 400 → ∃ y db', m = Ok (y, db').
Proof.
  unfold respond, after. destruct m as [[y db']|e]; [by exists y, db'|]. cbn.
  pose proof (problem_status_error request e). lia.
Qed.

(** The response of an exception that concerns no precondition. *)
Definition no_precondition (e : exn) : Prop :=
  rs_status (error_response (A := A) request e) ∉ [400; 412; 428].

Lemma success_no_precondition : (200 : Z) ∉ [400; 412; 428].
Proof. rewrite !not_elem_of_cons. split_and!; (lia || apply not_elem_of_nil). Qed.

Lemma after_status {X} (m : res (X * St)) (k : X → res (HttpResponse A)) :
  raises_only no_precondition m → (∀ y db', m = Ok (y, db') → raises_only no_precondition (k y)) →
  (∀ y r, k y = Ok r → rs_status r = 200) →
  rs_status (respond request (after m db k)).1 ∉ [400; 412; 428].
Proof.
  intros Hm Hk Hr. unfold respond, after. destruct m as [[y db']|e]; cbn [fst].
  - specialize (Hk y db' eq_refl). destruct (k y) as [r|e] eqn:E; [|by apply Hk].
    rewrite (Hr y r E). apply success_no_precondition.
  - by apply Hm.
Qed.
End response.
Arguments no_precondition : clear implicits.

Ltac not_listed := rewrite !not_elem_of_cons; split_and!; (lia || apply not_elem_of_nil).
Ltac no_precondition_status := unfold no_precondition; cbn; not_listed.

(** ** What a route promises

    Its response is documented and never an internal error, the state it leaves
    satisfies [inv], an error leaves the state it found, and a success satisfies
    [served] with the state it leaves. *)
Section promise.
Context {St A : Type} (same : ProblemDetails → ProblemDetails → Prop) (docs : Responses) (inv : St → Prop) (served : St → HttpResponse A → Prop).

Definition route_promise (db : St) (o : HttpResponse A * St) : Prop :=
  documented same docs o.1 ∧ rs_status o.1 ≠ 500 ∧ inv o.2 ∧ (400 ≤ rs_status o.1 → o.2 = db) ∧
  (rs_status o.1 < 400 → served o.2 o.1).

Lemma route_promised {X} request db (m : res (X * St)) (k : X → res (HttpResponse A)) :
  inv db → Forall (λ d, d.1 ≠ 500) docs → raises_only (documented_error same request docs) m →
  (∀ y db', m = Ok (y, db') → ∃ r, k y = Ok r ∧ documented same docs r ∧ rs_status r < 400 ∧ inv db' ∧ served db' r) →
  route_promise db (respond request (after m db k)).
Proof.
  intros Hdb H500 He Hk. assert (documented same docs (respond request (after m db k)).1) as Hdoc.
  { apply after_documented; [exact He|]. intros y db' Hm. destruct (Hk y db' Hm) as (r & ? & ? & _). eauto. }
  split; [exact Hdoc|]. split; [by eapply documented_not_500|].
  unfold respond, after. destruct m as [[y db']|e]; cbn.
  - destruct (Hk y db' eq_refl) as (r & -> & _ & Hs & Hok & Hd). cbn. split_and!; [done|lia|done].
  - pose proof (problem_status_error request e). split_and!; [done|done|lia].
Qed.
End promise.

Lemma page_limit_Ok resource limit : 1 ≤ limit ≤ 100 → page_limit resource (VInt limit) = Ok (Z.to_nat limit).
Proof. intros Hl. cbn. rewrite (proj2 (Z.leb_le 1 limit)), (proj2 (Z.leb_le limit 100)) by lia. done. Qed.

(** ** What a listing promises

    Its response is documented and never an internal error, and the state stays
    as it is.  A caller that is not [authorized] and a cursor that does not
    decode get the response of their error; any other request gets a page of
    what is listed behind the position of its cursor. *)
Section listing.
Context {St A : Type} (same : ProblemDetails → ProblemDetails → Prop) (docs : Responses) (request : HttpRequest)
  (authorized : res HumanPrincipal) (position : res (option (Z * UUID))).

Definition listing_promise (listed : HumanPrincipal → option (Z * UUID) → A → Prop) (db : St) (o : HttpResponse A * St) : Prop :=
  documented same docs o.1 ∧ rs_status o.1 ≠ 500 ∧ o.2 = db ∧
  match authorized, position with
  | Raise e, _ => o.1 = error_response request e
  | Ok p, Raise e => rs_status o.1 = 422 ∧ o.1 = error_response request e
  | Ok p, Ok after => ∃ body, o.1 = mkHttpResponse 200 [] (BodyContent body) ∧ listed p after body
  end.

Lemma listing_promised {X} (listed : HumanPrincipal → option (Z * UUID) → A → Prop) db (list : HumanPrincipal → option (Z * UUID) → res X)
    (show : X → res A) :
  success 200 ∈ docs → Forall (λ d, d.1 ≠ 500) docs →
  raises_only (documented_error same request docs) authorized →
  raises_only (λ e, documented_error same request docs e ∧ rs_status (error_response (A := A) request e) = 422) position →
  (∀ p after, authorized = Ok p → position = Ok after → ∃ page body, list p after = Ok page ∧ show page = Ok body ∧ listed p after body) →
  listing_promise listed db (respond request
    (p ← authorized; after ← position; page ← list p after; body ← show page;
     Ok (mkHttpResponse 200 [] (BodyContent body)), db)).
Proof.
  intros H200 H500 Ha Hp Hlist. unfold listing_promise.
  assert (∀ r : HttpResponse A, documented same docs r → documented same docs r ∧ rs_status r ≠ 500) as Hdoc
    by (intros r Hr; split; [done|by eapply documented_not_500]).
  destruct authorized as [p|e]; cbn [mbind result_bind respond fst snd].
  2: { destruct (Hdoc (error_response request e)); [by apply documented_error_response, Ha|]. by split_and!. }
  destruct position as [after|e]; cbn [mbind result_bind fst snd].
  2: { destruct (Hp e eq_refl). destruct (Hdoc (error_response request e)); [by apply documented_error_response|]. by split_and!. }
  destruct (Hlist p after eq_refl eq_refl) as (page & body & -> & Hshow & Hl). cbn [mbind result_bind]. rewrite Hshow.
  cbn [mbind result_bind]. destruct (Hdoc (mkHttpResponse 200 [] (BodyContent body))); [by apply documented_success|].
  split_and!; [done..|]. by exists body.
Qed.
End listing.
