(* ===== verification/DimensionEndpoints.v ===== *)
(** * The endpoints of Dimensions
    ([src/src/mdm/api/dimensions.py], [string_dimensions.py],
    [numeric_dimensions.py], [memory_dimensions.py], [dimension_lifecycle.py])

    Creation, reads, listings, updates, deletion and restoration, with the
    responses they document.  [fromisoformat] reads the time of a cursor. *)

From Stdlib Require Import Ascii String.
From S2P Require Import Prelude Python Exceptions Auth MutationAudit Dimensions MasterCodes Store Records Pagination DimensionRepos Commands Problems Preconditions Cursors Endpoints.
Local Open Scope Z_scope.

(** ** Responses *)

(** [CompanyResponse] and the other [...Response] classes. *)
Record DimensionResponse := mkDimensionResponse {
  ds_id : UUID; ds_code : pystr; ds_value : ValueResponse; ds_version : Z;
  ds_created_at : datetime; ds_updated_at : datetime; ds_deleted_at : option datetime;
}.

(** *** Serialization *)

Definition dimension_fields (d : Dimension) : DimensionResponse :=
  mkDimensionResponse (dim_id d) (code_value (dim_code d)) (value_response (dim_value_of d)) (dim_version d)
    (dim_created_at d) (dim_updated_at d) (dim_deleted_at d).

(** [_company_response], and [_response] of the other routers *)
Definition active_response (resource : string) (d : Dimension) : res DimensionResponse :=
  _ ← raise_if (present (dim_deleted_at d)) (ValueError ("inactive " ++ resource ++ " cannot be serialized"));
  Ok (dimension_fields d).
Definition _company_response := active_response "Company".
Definition string_response := active_response "string Dimension".
Definition numeric_response := active_response "numeric Dimension".
Definition memory_response := active_response "Memory Dimension".
Definition slot_response (s : slot) : Dimension → res DimensionResponse :=
  match s with
  | Company => _company_response
  | Year | Network => numeric_response
  | Memory => memory_response
  | Brand | Model | Category | Country => string_response
  end.

(** The constraints the tombstone models declare; the framework refuses other
    values with an error of its own. *)
Definition tombstone_value_ok (s : slot) (v : ValueResponse) : bool :=
  match s, v with
  | Year, IntegerValue z => (2000 <=? z) && (z <=? 2999)
  | Network, IntegerValue z => (1 <=? z) && (z <=? 5)
  | Memory, MemoryValueResponse _ _ _ => true
  | (Company | Brand | Model | Category | Country), StringValue v =>
      (1 <=? length v)%nat && (length v <=? 128)%nat && string_value_pattern v
  | _, _ => false
  end.
Definition _DeletedDimensionResponse_ok (r : DimensionResponse) : bool :=
  (1 <=? length (ds_code r))%nat && (length (ds_code r) <=? 32)%nat && forallb is_upper_alnum (ds_code r)
  && (1 <=? ds_version r) && (ds_version r <=? 2147483647) && present (ds_deleted_at r).
(** [_serialize] with the tombstone and with the active model *)
Definition serialize_tombstone (s : slot) (d : Dimension) : res DimensionResponse :=
  let r := dimension_fields d in
  _ ← raise_if (negb (_DeletedDimensionResponse_ok r && tombstone_value_ok s (ds_value r))) (ValueError "validation error");
  Ok r.
Definition serialize_active (s : slot) (d : Dimension) : res DimensionResponse :=
  let r := dimension_fields d in
  _ ← raise_if (present (ds_deleted_at r)) (ValueError "validation error");
  Ok r.

(** *** Pages *)

(** [CompanyListResponse] and the other list models *)
Record DimensionListResponse := mkDimensionListResponse {
  dl_items : list DimensionResponse; dl_next_cursor : option pystr;
}.
(** [CompanyCursor(created_at=last.created_at, id=last.id)] *)
Definition dimension_position (d : Dimension) : Z * UUID := (instant (dim_created_at d), dim_id d).
Definition _page_response (s : slot) (page : Page Dimension) : res DimensionListResponse :=
  items ← mapR (slot_response s) (page_items page);
  cursor ← next_cursor_field (following_cursor _encode_cursor dimension_position page);
  Ok (mkDimensionListResponse items cursor).

(** ** Requests *)

(** [CompanyCreateRequest] and the other creation bodies *)
Record DimensionCreateRequest := mkDimensionCreateRequest {
  cq_code : pystr; cq_value : ValueInput; cq_reason : option pystr;
}.
(** [CompanyValueUpdateRequest] and the other update bodies; a field that was
    not set is [None]. *)
Record DimensionUpdateRequest := mkDimensionUpdateRequest {
  uq_code : option pystr; uq_value : option ValueInput; uq_reason : option pystr;
}.
(** [require_business_field] *)
Definition require_business_field (q : DimensionUpdateRequest) : res DimensionUpdateRequest :=
  _ ← raise_if (absent (uq_code q) && absent (uq_value q))
        (ValueError "code 또는 value 중 하나 이상을 입력해야 합니다.");
  Ok q.
Definition or_none {A} (f : A → pyval) (o : option A) : pyval := match o with Some x => f x | None => VNone end.

Section routes.
Context `{UnicodeData} (fromisoformat : pystr → option datetime).
Context (x : Execution) (authenticated : res HumanPrincipal) (request : HttpRequest) (db : DB).
Abbreviation repository s := (sql_repository s (ex_env x) (ex_seen x)).

(** ** Create, read and update *)

Definition create_route (s : slot) (payload : DimensionCreateRequest) : outcome DB DimensionResponse :=
  after (p ← guard authenticated MUTATE_DATA;
         body_field (create_dimension_command s (repository s) (ex_change_set_id x) p (VStr (cq_code payload))
           (value_argument (cq_value payload)) (unit_argument (cq_value payload)) (cq_reason payload) db)) db
    (λ d, r ← slot_response s d; Ok (mkHttpResponse 201 (etag_headers (dim_version d)) (BodyContent r))).
Definition create_company_dimension := create_route Company.
Definition create_string_route (s : slot) := create_route s.
Definition create_numeric_route (s : slot) := create_route s.
Definition create_memory_route := create_route Memory.

Definition get_route (s : slot) (id : UUID) : outcome DB DimensionResponse :=
  (p ← guard authenticated READ_DATA;
   d ← GetDimension (repository s) p id db;
   r ← slot_response s d;
   Ok (mkHttpResponse 200 (etag_headers (dim_version d)) (BodyContent r)), db).
Definition get_company_dimension := get_route Company.
Definition get_string_route (s : slot) := get_route s.
Definition get_numeric_route (s : slot) := get_route s.
Definition get_memory_route := get_route Memory.

(** The listing use case of a router. *)
Definition slot_list (s : slot) : DimensionRepository DB → HumanPrincipal → option page_key → pyval → DB → res (Page Dimension) :=
  match s with
  | Company => ListCompanies
  | Year | Network => ListNumericDimensions
  | Memory => ListMemories
  | Brand | Model | Category | Country => ListStringDimensions
  end.
Definition list_route (s : slot) (cursor : option pystr) (limit : Z) : outcome DB DimensionListResponse :=
  (p ← guard authenticated READ_DATA;
   after ← decoded (_decode_cursor fromisoformat) cursor;
   page ← slot_list s (repository s) p after (VInt limit) db;
   body ← _page_response s page;
   Ok (mkHttpResponse 200 [] (BodyContent body)), db).
Definition list_company_dimensions := list_route Company.
Definition list_string_route (s : slot) := list_route s.
Definition list_numeric_route (s : slot) := list_route s.
Definition list_memory_route := list_route Memory.

Definition update_route (s : slot) (id : UUID) (payload : DimensionUpdateRequest) : outcome DB DimensionResponse :=
  after (p ← guard authenticated MUTATE_DATA;
         expected_version ← parse_dimension_if_match_values (hr_if_match request);
         body_field (update_dimension_command s (repository s) (ex_change_set_id x) p id (VInt expected_version)
           (or_none value_argument (uq_value payload)) (or_none unit_argument (uq_value payload))
           (or_none VStr (uq_code payload)) (uq_reason payload) db)) db
    (λ d, r ← slot_response s d; Ok (mkHttpResponse 200 (etag_headers (dim_version d)) (BodyContent r))).
Definition update_company_dimension_value := update_route Company.
Definition update_string_route (s : slot) := update_route s.
Definition update_numeric_route (s : slot) := update_route s.
Definition update_memory_route := update_route Memory.

(** ** Delete, tombstone and restore *)

Definition delete_dimension (s : slot) (id : UUID) (reason : option pystr) : outcome DB DimensionResponse :=
  after (p ← guard authenticated MUTATE_DATA;
         version ← parse_dimension_if_match_values (hr_if_match request);
         body_field (DeleteDimension s (ex_env x) (ex_change_set_id x) p id (VInt version) reason db)) db
    (λ d, r ← serialize_tombstone s d; Ok (mkHttpResponse 200 (etag_headers (dim_version d)) (BodyContent r))).

Definition get_deleted_dimension (s : slot) (id : UUID) : outcome DB DimensionResponse :=
  (p ← guard authenticated READ_TOMBSTONE;
   d ← GetDimensionTombstone s p id db;
   r ← serialize_tombstone s d;
   Ok (mkHttpResponse 200 (etag_headers (dim_version d)) (BodyContent r)), db).

Definition restore_dimension (s : slot) (id : UUID) (reason : option pystr) : outcome DB DimensionResponse :=
  after (p ← guard authenticated MUTATE_DATA;
         version ← parse_dimension_if_match_values (hr_if_match request);
         body_field (RestoreDimension s (ex_env x) (ex_change_set_id x) p id (VInt version) reason db)) db
    (λ d, r ← serialize_active s d; Ok (mkHttpResponse 200 (etag_headers (dim_version d)) (BodyContent r))).
End routes.

(** [_validation_response], [_service_unavailable_response] and the 404 of the
    Dimension routers *)
Definition _validation_response : Z * list ProblemDetails :=
  (422, [example "/problems/validation-error" "유효하지 않은 요청" 422
           "하나 이상의 요청 필드가 유효하지 않습니다." "VALIDATION_ERROR"]).
Definition _service_unavailable_response : Z * list ProblemDetails :=
  (503, [example "/problems/service-unavailable" "서비스를 사용할 수 없음" 503
           "요청을 일시적으로 처리할 수 없습니다. 잠시 후 다시 시도해 주세요." "SERVICE_UNAVAILABLE"]).
Definition _not_found_response (name : string) : Z * list ProblemDetails :=
  (404, [example "/problems/dimension-not-found" "Dimension을 찾을 수 없음" 404
           ("요청한 활성 " ++ name ++ " Dimension을 찾을 수 없습니다.") "DIMENSION_NOT_FOUND"]).

(** [dimension_precondition_responses] *)
Definition dimension_precondition_responses : Responses :=
  [(400, [example "/problems/invalid-if-match" "유효하지 않은 If-Match" 400
            "If-Match에는 따옴표로 감싼 강한 정수 ETag 하나를 입력해야 합니다." "INVALID_IF_MATCH"]);
   (412, [example "/problems/precondition-failed" "사전 조건 불일치" 412
            "Dimension이 조회 이후 변경되었습니다. 최신 상태와 ETag를 다시 조회해 주세요." "PRECONDITION_FAILED"]);
   (428, [example "/problems/precondition-required" "사전 조건 필요" 428
            "Dimension을 변경하려면 직전 단건 응답의 ETag를 If-Match로 제공해야 합니다." "PRECONDITION_REQUIRED"])].

(** [CONFLICT_RESPONSE] and [_conflict_response] *)
Definition conflict_examples (code_detail value_detail multiple_detail : string) : list ProblemDetails :=
  [example "/problems/dimension-code-conflict" "Dimension 대표 코드 충돌" 409 code_detail "DIMENSION_CODE_CONFLICT";
   example "/problems/dimension-value-conflict" "Dimension 값 충돌" 409 value_detail "DIMENSION_VALUE_CONFLICT";
   example "/problems/dimension-multiple-conflicts" "여러 Dimension 필드 충돌" 409 multiple_detail
     "DIMENSION_MULTIPLE_CONFLICTS"].
Definition company_CONFLICT_RESPONSE : list ProblemDetails :=
  conflict_examples "정규화된 Company 대표 코드가 이미 사용 중입니다." "정규화된 Company 값이 이미 사용 중입니다."
    "정규화된 Company 대표 코드와 값이 모두 이미 사용 중입니다.".
Definition string_conflict_response (name : string) : list ProblemDetails :=
  conflict_examples ("정규화된 " ++ name ++ " 대표 코드가 이미 사용 중입니다.")
    ("정규화된 " ++ name ++ " 값이 이미 사용 중입니다.") ("정규화된 " ++ name ++ " 대표 코드와 값이 모두 이미 사용 중입니다.").
Definition numeric_conflict_response (name : string) : list ProblemDetails :=
  conflict_examples ("정규화된 " ++ name ++ " 대표 코드가 이미 사용 중입니다.") (name ++ " 값이 이미 사용 중입니다.")
    (name ++ " 대표 코드와 값이 모두 이미 사용 중입니다.").
Definition memory_conflict_response : list ProblemDetails :=
  conflict_examples "정규화된 Memory 대표 코드가 이미 사용 중입니다." "동등한 Memory 용량이 이미 사용 중입니다."
    "Memory 대표 코드와 동등한 용량이 모두 이미 사용 중입니다.".
(** The example the updates add. *)
Definition master_code_conflict_example : ProblemDetails :=
  example "/problems/master-code-conflict" "MasterCode 충돌" 409
    "같은 참조 조합 또는 합성 코드의 MasterCode가 이미 존재합니다." "MASTER_CODE_CONFLICT".

(** The names in the configurations of the routers. *)
Definition display_name (s : slot) : string :=
  match s with
  | Company => "Company" | Brand => "Brand" | Model => "Model" | Category => "Category"
  | Year => "Year" | Memory => "Memory" | Network => "Network" | Country => "Country"
  end.
Definition conflict_response (s : slot) : list ProblemDetails :=
  match s with
  | Company => company_CONFLICT_RESPONSE
  | Year | Network => numeric_conflict_response (display_name s)
  | Memory => memory_conflict_response
  | Brand | Model | Category | Country => string_conflict_response (display_name s)
  end.

Definition _create_responses (s : slot) : Responses :=
  [success 201; INVALID_ACCESS_TOKEN_RESPONSE; AUTHORIZATION_DENIED_RESPONSE; (409, conflict_response s);
   _validation_response; _service_unavailable_response].
Definition _list_responses : Responses :=
  [success 200; INVALID_ACCESS_TOKEN_RESPONSE; _validation_response; _service_unavailable_response].
Definition _get_responses (s : slot) : Responses :=
  [success 200; INVALID_ACCESS_TOKEN_RESPONSE; _not_found_response (display_name s); _validation_response;
   _service_unavailable_response].
Definition _update_responses (s : slot) : Responses :=
  [success 200; INVALID_ACCESS_TOKEN_RESPONSE; AUTHORIZATION_DENIED_RESPONSE; _not_found_response (display_name s);
   (409, conflict_response s ++ [master_code_conflict_example]); _validation_response; _service_unavailable_response]
  ++ dimension_precondition_responses.

(** The responses of [build_dimension_lifecycle_router] *)
Definition lifecycle_problem (status : Z) (code title detail : string) : Z * list ProblemDetails :=
  (status, [example (problem_type code) title status detail code]).
Definition NOT_DELETED_RESPONSE : Z * list ProblemDetails :=
  lifecycle_problem 409 "DIMENSION_NOT_DELETED" "삭제되지 않은 Dimension"
    "활성 Dimension은 삭제 상태 조회 또는 복원의 대상이 아닙니다.".
Definition IN_USE_RESPONSE : Z * list ProblemDetails :=
  lifecycle_problem 409 "DIMENSION_IN_USE" "사용 중인 Dimension" "활성 MasterCode가 참조하는 Dimension은 삭제할 수 없습니다.".
Definition lifecycle_common : Responses :=
  [INVALID_ACCESS_TOKEN_RESPONSE; AUTHORIZATION_DENIED_RESPONSE;
   lifecycle_problem 404 "DIMENSION_NOT_FOUND" "Dimension을 찾을 수 없음" "요청한 경로에서 조회할 수 있는 Dimension이 없습니다.";
   lifecycle_problem 422 "VALIDATION_ERROR" "유효하지 않은 요청" "경로의 UUID 또는 JSON 객체 본문이 유효하지 않습니다.";
   lifecycle_problem 503 "SERVICE_UNAVAILABLE" "서비스를 사용할 수 없음"
     "일시적인 오류로 요청을 처리할 수 없습니다. 잠시 후 다시 시도해 주세요."].
Definition delete_responses : Responses :=
  lifecycle_common ++ dimension_precondition_responses ++ [success 200; IN_USE_RESPONSE].
(** Its 422 replaces the common one. *)
Definition tombstone_responses : Responses :=
  List.filter (λ r, negb (r.1 =? 422)) lifecycle_common ++
  [success 200; NOT_DELETED_RESPONSE;
   lifecycle_problem 422 "VALIDATION_ERROR" "유효하지 않은 요청" "경로의 Dimension UUID가 유효하지 않습니다."].
Definition restore_responses : Responses :=
  lifecycle_common ++ dimension_precondition_responses ++ [success 200; NOT_DELETED_RESPONSE].

(** Where a returned text is not the documented one: the lifecycle routes word
    the 422 after their inputs, and the documented 428 of a Dimension says
    "Dimension을" where the handler renders "Dimension를". *)
Definition reworded : list (string * string) :=
  [("하나 이상의 요청 필드가 유효하지 않습니다.", "경로의 UUID 또는 JSON 객체 본문이 유효하지 않습니다.");
   ("하나 이상의 요청 필드가 유효하지 않습니다.", "경로의 Dimension UUID가 유효하지 않습니다.");
   ("Dimension를 변경하려면 직전 단건 응답의 ETag를 If-Match로 제공해야 합니다.",
    "Dimension을 변경하려면 직전 단건 응답의 ETag를 If-Match로 제공해야 합니다.")]%string.
