(* ===== verification/DimensionEndpointSpecs.v ===== *)
(** * What the endpoints of Dimensions promise

    On every consistent database a request of a Dimension route gets one of the
    responses the route documents, in particular never an internal error; the
    ETag of a success is the precondition the next change expects. *)

From Stdlib Require Import Ascii String.
From S2P Require Import Prelude Python Exceptions Auth MutationAudit Dimensions MasterCodes Store Records Invariant Consistency Pagination DimensionRepos DimensionSpecs DimensionLifecycle MasterCodeRepo MasterCodeSpecs Transactions Commands CommandSpecs UseCases Problems Preconditions Cursors Endpoints EndpointSpecs DimensionEndpoints.
Local Open Scope Z_scope.

(** ** Documented errors *)

(** The routes of Dimensions. *)
Definition dimension_path (request : HttpRequest) : Prop := is_master_code (hr_path request) = false.
Abbreviation documented_error := (documented_error (same_problem reworded)).
Abbreviation common_documents := (common_documents (same_problem reworded)).
Abbreviation precondition_documents := (precondition_documents (same_problem reworded)).

Lemma create_documents request s :
  common_documents request (_create_responses s) ∧
  documented_error request (_create_responses s) (cf_code_conflict (repository_of s)) ∧
  documented_error request (_create_responses s) (cf_value_conflict (repository_of s)) ∧
  documented_error request (_create_responses s) (cf_multiple_conflicts (repository_of s)).
Proof. unfold common_documents. split_and!; intros; destruct s; documents. Qed.

Lemma get_documents request s :
  documented_error request (_get_responses s) InvalidAccessToken ∧
  documented_error request (_get_responses s) (cf_not_found (repository_of s)).
Proof. split_and!; destruct s; documents. Qed.

(** The three errors of a precondition, on a Dimension route. *)
Lemma precondition_documented request docs :
  dimension_path request → dimension_precondition_responses ⊆ docs → precondition_documents request docs.
Proof.
  intros Hpath Hsub. unfold precondition_documents, dimension_path in *.
  assert (∀ e p examples, jr_problem (exception_response request e) = p → (pd_status p, examples) ∈ docs →
    Exists (same_problem reworded p) examples → documented_error request docs e) as Hdoc.
  { intros e p examples <- Hin Hex. by eapply documented_error_intro. }
  split_and!; (eapply Hdoc; [cbn; rewrite Hpath; reflexivity|apply Hsub; cbn; listed|]); cbn;
    apply Exists_cons_hd; split_and!; cbn; (reflexivity || (by left) || (right; listed)).
Qed.

(** The two texts of the 428 of a Dimension. *)
Example precondition_required_texts request :
  dimension_path request →
  pd_detail (jr_problem (precondition_required_handler request)) =
    "Dimension를 변경하려면 직전 단건 응답의 ETag를 If-Match로 제공해야 합니다."%string ∧
  ∃ p, (428, [p]) ∈ dimension_precondition_responses ∧
    pd_detail p = "Dimension을 변경하려면 직전 단건 응답의 ETag를 If-Match로 제공해야 합니다."%string.
Proof.
  intros Hpath. unfold dimension_path in Hpath. split; [cbn; by rewrite Hpath|].
  eexists. split; [apply list_elem_of_In; cbn; right; right; left; reflexivity|reflexivity].
Qed.

Lemma update_documents request s :
  common_documents request (_update_responses s) ∧
  documented_error request (_update_responses s) (cf_not_found (repository_of s)) ∧
  documented_error request (_update_responses s) (cf_code_conflict (repository_of s)) ∧
  documented_error request (_update_responses s) (cf_value_conflict (repository_of s)) ∧
  documented_error request (_update_responses s) (cf_multiple_conflicts (repository_of s)).
Proof. unfold common_documents. split_and!; intros; destruct s; documents. Qed.

Lemma delete_documents request :
  common_documents request delete_responses ∧ documented_error request delete_responses DimensionLifecycleNotFound ∧
  documented_error request delete_responses DimensionInUse.
Proof. unfold common_documents. split_and!; intros; documents. Qed.

Lemma tombstone_documents request :
  common_documents request tombstone_responses ∧
  documented_error request tombstone_responses DimensionLifecycleNotFound ∧
  documented_error request tombstone_responses DimensionNotDeleted.
Proof. unfold common_documents. split_and!; intros; documents. Qed.

Lemma restore_documents request :
  common_documents request restore_responses ∧ documented_error request restore_responses DimensionLifecycleNotFound ∧
  documented_error request restore_responses DimensionNotDeleted.
Proof. unfold common_documents. split_and!; intros; documents. Qed.

(** ** What the use cases of a route raise *)

Section routes.
Context `{UnicodeData} (x : Execution) (authenticated : res HumanPrincipal) (request : HttpRequest) (db : DB).
Hypothesis Hready : server_ready x db.
Hypothesis Htoken : token_checked authenticated.
Hypothesis Hpath : dimension_path request.

Lemma if_match_raises (P : exn → Prop) values :
  P PreconditionRequired → P InvalidIfMatch → raises_only P (parse_dimension_if_match_values values).
Proof.
  intros ??. unfold parse_dimension_if_match_values, parse_dimension_if_match. raises; done.
Qed.

Lemma if_match_positive values version : parse_dimension_if_match_values values = Ok version → 1 ≤ version ≤ 2147483647.
Proof.
  destruct values as [|v [|v2 l]]; [done| |done]. cbn. destruct (dimension_etag_digits v) as [ds|] eqn:E; [|done].
  apply dimension_etag_digits_Some in E as (_ & Hds & Hne & Hh). intros (_ & _ & Hok)%bind_Ok.
  apply bind_Ok in Hok as (_ & Hmax%raise_if_Ok & [= <-]). destruct (decimal_digits_str ds Hds Hne Hh). lia.
Qed.

Lemma create_command_raises (P : exn → Prop) s cs p code value unit reason :
  P AuthorizationDenied → P (cf_code_conflict (repository_of s)) → P (cf_value_conflict (repository_of s)) →
  P (cf_multiple_conflicts (repository_of s)) →
  raises_only (λ e, invalid_argument e ∨ P e)
    (create_dimension_command s (sql_repository s (ex_env x) (ex_seen x)) cs p code value unit reason db).
Proof.
  intros ????. rewrite create_dimension_command_parse. apply command_raises; [by right|].
  apply raises_bind; [argument DimensionCode_raises|intros c Hc].
  apply raises_bind; [argument (vp_raises _ _ (slot_parser_ok s unit))|intros v Hv].
  apply raises_bind; [argument create_audit_raises|intros md [Hops _]%create_audit_Ok].
  apply create_dimension_raises; try (by right); [apply Hready|by rewrite Hops|by eapply DimensionCode_init_wf
    |by eapply slot_parser_ok|apply Hready].
Qed.

Lemma update_command_raises (P : exn → Prop) s cs p id version value unit code reason :
  1 ≤ version → provided code || provided value = true →
  P AuthorizationDenied → P (cf_not_found (repository_of s)) →
  (∀ r, dims db !! (s, id) = Some r → r_version r ≠ version → P PreconditionFailed) →
  P (cf_code_conflict (repository_of s)) → P (cf_value_conflict (repository_of s)) →
  P (cf_multiple_conflicts (repository_of s)) →
  raises_only (λ e, invalid_argument e ∨ P e)
    (UpdateDimensionValue (sql_repository s (ex_env x) (ex_seen x)) (slot_parser s unit) cs p id (VInt version) value
       code reason db).
Proof.
  intros Hv Hp ?? Hpre ???. apply command_raises; [by right|]. cbn [positive_version].
  rewrite (proj2 (Z.ltb_ge version 1)) by lia. cbn [mbind result_bind].
  assert (negb (provided code) && negb (provided value) = false) as -> by by rewrite <- negb_orb, Hp.
  cbn [raise_if mbind result_bind].
  apply raises_bind; [eapply (raises_impl invalid_argument); [apply optional_raises, DimensionCode_raises|by left]
    |intros c Hc%optional_Ok].
  apply raises_bind; [eapply (raises_impl invalid_argument); [apply optional_raises, slot_parser_ok|by left]
    |intros v Hval%optional_Ok].
  apply raises_bind; [argument create_audit_raises|intros md [Hops _]%create_audit_Ok].
  apply update_value_raises; try (by right); rewrite ?Hops; [apply Hready|done|by destruct c|..].
  3: { intros r [Hr _]%active_row_Some ?. right. by eapply Hpre. }
  - intros c' ->. by eapply DimensionCode_init_wf, Hc.
  - intros v' ->. by eapply slot_parser_ok, Hval.
Qed.

Lemma lifecycle_command_raises (P : exn → Prop) (deleting : bool) s cs p id version reason :
  1 ≤ version → P AuthorizationDenied → P DimensionLifecycleNotFound →
  (∀ r, dims db !! (s, id) = Some r → r_version r ≠ version → P PreconditionFailed) →
  (deleting = false → P DimensionNotDeleted) → (deleting = true → P DimensionInUse) →
  raises_only (λ e, invalid_argument e ∨ P e)
    (MutateDimensionLifecycle (if deleting then DIM_DELETE else DIM_RESTORE) s (ex_env x) cs p id (VInt version)
       reason db).
Proof.
  intros Hv ?????. apply command_raises; [by right|]. cbn [positive_version].
  rewrite (proj2 (Z.ltb_ge version 1)) by lia. cbn [mbind result_bind].
  apply raises_bind; [argument create_audit_raises|intros md [Hops _]%create_audit_Ok].
  destruct deleting; apply lifecycle_raises; rewrite ?Hops; eauto; apply Hready.
Qed.
End routes.

(** ** Serialization of stored Dimensions *)

Section serialization.
Context `{UnicodeData}.

Lemma stored_fields db s id r d :
  db_ok db → dims db !! (s, id) = Some r → row_to_domain s r = Ok d →
  dim_id d = id ∧ dim_version d = r_version r ∧ dim_deleted_at d = utc <$> r_deleted_at r ∧
  code_wf (dim_code d) = true ∧ value_wf (dim_value_of d) = true ∧ slot_of_value (dim_value_of d) = s ∧
  1 ≤ dim_version d.
Proof.
  intros Hdb Hr Hd. destruct (so_dim _ (proj1 Hdb) _ _ _ Hr) as [Hid Hwf].
  destruct (row_to_domain_wf s r Hwf) as (d' & Hrow & Hd' & Hval & Hc & Hv & Hs).
  assert (d' = d) as -> by congruence. apply row_dimension_fields in Hrow as (Hi & _ & Hver & _ & _ & _ & _ & Hdel & _).
  destruct Hval. split_and!; congruence || done.
Qed.

Lemma active_serializes s d : dim_deleted_at d = None → slot_response s d = Ok (dimension_fields d).
Proof. intros Hd. destruct s; unfold slot_response, _company_response, numeric_response, memory_response, string_response, active_response; by rewrite Hd. Qed.

Lemma get_active_fields db s id d :
  db_ok db → DimensionRepos.get_active (repository_of s) db id = Ok d → dim_deleted_at d = None ∧ dim_id d = id.
Proof.
  intros Hdb Hget. unfold DimensionRepos.get_active in Hget. rewrite cf_slot_repository in Hget.
  destruct (active_row s id db) as [r|] eqn:Er; [|done]. apply active_row_Some in Er as [Hr Hdel].
  destruct (stored_fields db s id r d Hdb Hr Hget) as (? & _ & Hd & _). rewrite Hdel in Hd. done.
Qed.

Lemma tombstone_serializes s d :
  code_wf (dim_code d) = true → value_wf (dim_value_of d) = true → slot_of_value (dim_value_of d) = s →
  1 ≤ dim_version d ≤ 2147483647 → present (dim_deleted_at d) = true →
  serialize_tombstone s d = Ok (dimension_fields d).
Proof.
  intros Hc Hv <- Hver Hdel. unfold serialize_tombstone.
  assert (_DeletedDimensionResponse_ok (dimension_fields d) = true) as ->.
  { unfold code_wf, code_pattern in Hc. apply andb_true_iff in Hc as [[[Ha Hl]%andb_true_iff Hu]%andb_true_iff _].
    unfold _DeletedDimensionResponse_ok. cbn [ds_code ds_version ds_deleted_at dimension_fields].
    rewrite Ha, Hl, Hu, Hdel, !andb_true_r. cbn [andb]. lia. }
  assert (tombstone_value_ok (slot_of_value (dim_value_of d)) (ds_value (dimension_fields d)) = true) as ->; [|done].
  cbn [dimension_fields ds_value]. destruct (dim_value_of d) as [v|v|v|v|v|z|g|m]; cbn in Hv |- *; try done.
  1-5: apply andb_true_iff in Hv as [Hl Hp]; rewrite Hl, Hp; by destruct v.
  by destruct g.
Qed.
End serialization.

(** ** The routes *)

Inductive dimension_call :=
| CallCreate (s : slot) (payload : DimensionCreateRequest)
| CallGet (s : slot) (id : UUID)
| CallUpdate (s : slot) (id : UUID) (payload : DimensionUpdateRequest)
| CallDelete (s : slot) (id : UUID) (reason : option pystr)
| CallTombstone (s : slot) (id : UUID)
| CallRestore (s : slot) (id : UUID) (reason : option pystr).

Definition serve `{UnicodeData} (x : Execution) (authenticated : res HumanPrincipal) (request : HttpRequest) (db : DB)
    (call : dimension_call) : outcome DB DimensionResponse :=
  match call with
  | CallCreate s payload => create_route x authenticated db s payload
  | CallGet s id => get_route x authenticated db s id
  | CallUpdate s id payload => update_route x authenticated request db s id payload
  | CallDelete s id reason => delete_dimension x authenticated request db s id reason
  | CallTombstone s id => get_deleted_dimension authenticated db s id
  | CallRestore s id reason => restore_dimension x authenticated request db s id reason
  end.
Definition call_responses (call : dimension_call) : Responses :=
  match call with
  | CallCreate s _ => _create_responses s | CallGet s _ => _get_responses s | CallUpdate s _ _ => _update_responses s
  | CallDelete _ _ _ => delete_responses | CallTombstone _ _ => tombstone_responses | CallRestore _ _ _ => restore_responses
  end.

Definition call_deletes (call : dimension_call) : bool :=
  match call with CallDelete _ _ _ | CallTombstone _ _ => true | _ => false end.

Definition call_slot (call : dimension_call) : slot :=
  match call with
  | CallCreate s _ | CallGet s _ | CallUpdate s _ _ | CallDelete s _ _ | CallTombstone s _ | CallRestore s _ _ => s
  end.

(** A body the framework let through: an update has a field and Memory is given
    as amount and unit.  The versions of the rows have not run through the
    integer column. *)
Definition memory_input (s : slot) (v : ValueInput) : Prop :=
  s = Memory → ∃ amount unit, v = MemoryValueInput amount unit.
Definition call_valid (db : DB) (call : dimension_call) : Prop :=
  match call with
  | CallUpdate s _ payload =>
      require_business_field payload = Ok payload ∧ (∀ v, uq_value payload = Some v → memory_input s v)
  | CallTombstone s id => ∀ r, dims db !! (s, id) = Some r → r_version r ≤ 2147483647
  | CallDelete s id _ => ∀ r, dims db !! (s, id) = Some r → r_version r < 2147483647
  | _ => True
  end.

(** What a success says of the Dimension and the database it leaves. *)
Definition served_dimension `{UnicodeData} (db : DB) (r : HttpResponse DimensionResponse) (s : slot) (deleted : bool)
    : Prop :=
  ∃ d row, rs_content r = BodyContent (dimension_fields d) ∧ rs_headers r = etag_headers (dim_version d) ∧
    present (dim_deleted_at d) = deleted ∧ dims db !! (s, dim_id d) = Some row ∧ row_to_domain s row = Ok d.

Section served.
Context `{UnicodeData} (x : Execution) (authenticated : res HumanPrincipal) (request : HttpRequest) (db : DB).
Hypothesis Hready : server_ready x db.

(** A use case that returned an active Dimension. *)
Lemma active_served s db' id d status :
  db_ok db' → DimensionRepos.get_active (repository_of s) db' id = Ok d →
  served_dimension db' (mkHttpResponse status (etag_headers (dim_version d)) (BodyContent (dimension_fields d))) s false.
Proof.
  intros Hdb Hget. destruct (get_active_fields db' s id d Hdb Hget) as [Hdel Hid].
  unfold DimensionRepos.get_active in Hget. rewrite cf_slot_repository in Hget.
  destruct (active_row s id db') as [r|] eqn:Er; [|done]. apply active_row_Some in Er as [Hr _].
  exists d, r. rewrite Hdel, Hid. by split_and!.
Qed.

(** What creation and update leave, with the Dimension they return. *)
Lemma create_command_ok s cs p code value unit reason d db' :
  create_dimension_command s (sql_repository s (ex_env x) (ex_seen x)) cs p code value unit reason db = Ok (d, db') →
  db_ok db' ∧ DimensionRepos.get_active (repository_of s) db' (dim_id d) = Ok d.
Proof.
  rewrite create_dimension_command_parse. intros Hok.
  destruct (CreateDimension_spec s (sql_repository s (ex_env x) (ex_seen x)) _ (slot_parser_ok s unit) cs p reason
    code value db) as [_ Hspec]; [split; apply Hready|].
  apply Hspec in Hok as (_ & _ & _ & _ & Hget & md & _ & Hc). split; [exact (repo_step_ok _ _ (proj1 Hready) (cm_step _ _ _ Hc))|].
  specialize (Hget p). unfold GetDimension in Hget. by rewrite authorize_read in Hget.
Qed.

Lemma update_command_ok s cs p id version value unit code reason d db' :
  UpdateDimensionValue (sql_repository s (ex_env x) (ex_seen x)) (slot_parser s unit) cs p id version value code
    reason db = Ok (d, db') →
  db_ok db' ∧ DimensionRepos.get_active (repository_of s) db' (dim_id d) = Ok d.
Proof.
  intros Hok.
  destruct (UpdateDimensionValue_spec s (sql_repository s (ex_env x) (ex_seen x)) _ (slot_parser_ok s unit) cs p reason
    id version value code db) as [_ Hspec]; [split; apply Hready|].
  apply Hspec in Hok as (_ & -> & _ & _ & _ & Hget & md & _ & Hc).
  split; [exact (repo_step_ok _ _ (proj1 Hready) (cm_step _ _ _ Hc))|].
  specialize (Hget p). unfold GetDimension in Hget. by rewrite authorize_read in Hget.
Qed.

(** The update use case of a valid body. *)
Lemma update_command_of_body s cs p id version payload db0 :
  (∀ v, uq_value payload = Some v → memory_input s v) →
  update_dimension_command s (sql_repository s (ex_env x) (ex_seen x)) cs p id (VInt version)
    (or_none value_argument (uq_value payload)) (or_none unit_argument (uq_value payload))
    (or_none VStr (uq_code payload)) (uq_reason payload) db0 =
  UpdateDimensionValue (sql_repository s (ex_env x) (ex_seen x)) (slot_parser s (or_none unit_argument (uq_value payload)))
    cs p id (VInt version) (or_none value_argument (uq_value payload)) (or_none VStr (uq_code payload))
    (uq_reason payload) db0.
Proof.
  intros Hm. destruct (decide (s = Memory)) as [->|Hs]; [|by destruct s].
  unfold update_dimension_command, UpdateMemoryValue, UpdateDimensionValue.
  destruct (authorize p MUTATE_DATA); [|done]. cbn [mbind result_bind].
  destruct (positive_version (VInt version)); [|done]. cbn [mbind result_bind].
  destruct (uq_value payload) as [v|] eqn:Ev.
  - destruct (Hm v eq_refl eq_refl) as (a & u & ->). cbn. by destruct (uq_code payload).
  - cbn. by destruct (uq_code payload).
Qed.

Lemma body_provided payload :
  require_business_field payload = Ok payload →
  provided (or_none VStr (uq_code payload)) || provided (or_none value_argument (uq_value payload)) = true.
Proof.
  unfold require_business_field. intros (_ & Hc%raise_if_Ok & _)%bind_Ok.
  destruct (uq_code payload); [done|]. by destruct (uq_value payload) as [[]|].
Qed.

(** Deletion and restoration. *)
Lemma lifecycle_command_ok (deleting : bool) s cs p id version reason d db' :
  MutateDimensionLifecycle (if deleting then DIM_DELETE else DIM_RESTORE) s (ex_env x) cs p id (VInt version) reason db =
    Ok (d, db') →
  db_ok db' ∧ (∃ r, dims db !! (s, id) = Some r ∧ dim_version d = r_version r + 1) ∧
  present (dim_deleted_at d) = deleting ∧ code_wf (dim_code d) = true ∧ value_wf (dim_value_of d) = true ∧
  slot_of_value (dim_value_of d) = s ∧ 1 ≤ dim_version d ∧ dim_id d = id ∧
  ∃ row, dims db' !! (s, id) = Some row ∧ row_to_domain s row = Ok d.
Proof.
  intros Hok. destruct (MutateDimensionLifecycle_spec deleting s (ex_env x) cs p id (VInt version) reason db) as [_ Hspec];
    [apply Hready|].
  apply Hspec in Hok as (_ & _ & v & md & _ & Hm & Hop). rewrite lifecycle_rows in Hm by (done || apply Hready).
  apply bind_Ok in Hm as ([row db1] & Hs & Hm). apply bind_Ok in Hm as (d' & Hd & [= -> ->]).
  apply lifecycle_spec_ok in Hs as (Hdb' & Hdims & Hdel & r & Hr & <- & Hver); [|apply Hready|done].
  assert (dims db' !! (s, id) = Some row) as Hrow by by rewrite Hdims, lookup_insert_eq.
  destruct (stored_fields db' s id row d Hdb' Hrow Hd) as (Hid & Hv & Hdeleted & Hc & Hval & Hslot & H1).
  split_and!; try done.
  - exists r. split; [done|]. congruence.
  - rewrite Hdeleted. unfold row_deleted in Hdel. destruct (r_deleted_at row); by destruct deleting.
  - by exists row.
Qed.
End served.

(** What the response of a route promises. *)
Definition dimension_promise `{UnicodeData} (docs : Responses) (s : slot) (deleted : bool) (db : DB)
    (o : HttpResponse DimensionResponse * DB) : Prop :=
  route_promise (same_problem reworded) docs db_ok (λ db r, served_dimension db r s deleted) db o.

Section promises.
Context `{UnicodeData} (x : Execution) (authenticated : res HumanPrincipal) (request : HttpRequest) (db : DB).
Hypothesis Hready : server_ready x db.
Hypothesis Htoken : token_checked authenticated.
Hypothesis Hpath : dimension_path request.

Lemma no_500 call : Forall (λ d, d.1 ≠ 500) (call_responses call).
Proof. by destruct call as [[]|[]|[]| | |]; repeat constructor. Qed.

Lemma create_promised s payload :
  dimension_promise (_create_responses s) s false db (respond request (create_route x authenticated db s payload)).
Proof.
  destruct (create_documents request s) as ((Hi & Ha & Hv) & Hc & Hval & Hm).
  apply route_promised; [exact (proj1 Hready)|exact (no_500 (CallCreate s payload))| |].
  - apply raises_bind; [by apply (guard_raises _ _ _ Htoken)|]. intros p _. apply body_field_raises; [|exact Hv].
    by apply create_command_raises.
  - intros d db' (p & _ & Hok)%bind_Ok. apply body_field_Ok in Hok.
    destruct (create_command_ok x db Hready s _ p _ _ _ _ d db' Hok) as [Hdb' Hget].
    destruct (get_active_fields db' s _ d Hdb' Hget) as [Hdel _].
    rewrite active_serializes by done. eexists. split; [reflexivity|].
    split_and!; [apply documented_success; listed|done|done|by eapply active_served].
Qed.

Lemma update_promised s id payload :
  require_business_field payload = Ok payload → (∀ v, uq_value payload = Some v → memory_input s v) →
  dimension_promise (_update_responses s) s false db (respond request (update_route x authenticated request db s id payload)).
Proof.
  intros Hreq Hmem. destruct (update_documents request s) as ((Hi & Ha & Hv) & Hn & Hc & Hval & Hm).
  destruct (precondition_documented request (_update_responses s) Hpath) as (H428 & H400 & H412).
  { intros d Hd. apply elem_of_app. by right. }
  apply route_promised; [exact (proj1 Hready)|exact (no_500 (CallUpdate s id payload))| |].
  - apply raises_bind; [by apply (guard_raises _ _ _ Htoken)|]. intros p _.
    apply raises_bind; [by apply if_match_raises|]. intros version Hver%if_match_positive.
    apply body_field_raises; [|exact Hv]. rewrite update_command_of_body by done.
    apply update_command_raises; try done; [lia|by apply body_provided].
  - intros d db' (p & _ & Hok)%bind_Ok. apply bind_Ok in Hok as (version & _ & Hok).
    apply body_field_Ok in Hok. rewrite update_command_of_body in Hok by done.
    destruct (update_command_ok x db Hready s _ p id _ _ _ _ _ d db' Hok) as [Hdb' Hget].
    destruct (get_active_fields db' s _ d Hdb' Hget) as [Hdel _].
    rewrite active_serializes by done. eexists. split; [reflexivity|].
    split_and!; [apply documented_success; listed|done|done|by eapply active_served].
Qed.

Lemma get_promised s id :
  dimension_promise (_get_responses s) s false db (respond request (get_route x authenticated db s id)).
Proof.
  destruct (get_documents request s) as [Hi Hn].
  assert (get_route x authenticated db s id =
    after (d ← (p ← guard authenticated READ_DATA; GetDimension (sql_repository s (ex_env x) (ex_seen x)) p id db);
           Ok (d, db)) db
      (λ d, r ← slot_response s d; Ok (mkHttpResponse 200 (etag_headers (dim_version d)) (BodyContent r)))) as ->.
  { rewrite <- read_as_after. unfold get_route. f_equal. by destruct (guard authenticated READ_DATA). }
  assert (∀ p, raises_only (documented_error request (_get_responses s))
    (GetDimension (sql_repository s (ex_env x) (ex_seen x)) p id db)) as Hget.
  { intros p. unfold GetDimension. rewrite authorize_read. cbn [mbind result_bind repo_get_active sql_repository].
    unfold DimensionRepos.get_active. rewrite cf_slot_repository. destruct (active_row s id db) as [r|] eqn:Er;
      [|by apply raises_Raise].
    apply active_row_Some in Er as [Hr _]. destruct (stored_domain db s id r (proj1 Hready) Hr) as (d & -> & _).
    apply raises_Ok. }
  apply route_promised; [exact (proj1 Hready)|exact (no_500 (CallGet s id))| |].
  - apply raises_bind; [|intros; apply raises_Ok]. apply raises_bind; [by apply (guard_raises _ _ _ Htoken)|]. intros; apply Hget.
  - intros d db' (d' & Hok & [= -> <-])%bind_Ok. apply bind_Ok in Hok as (p & _ & Hok).
    unfold GetDimension in Hok. rewrite authorize_read in Hok.
    assert (db_ok db) as Hdb by exact (proj1 Hready).
    assert (DimensionRepos.get_active (repository_of s) db id = Ok d) as Hget' by exact Hok.
    destruct (get_active_fields db s id d Hdb Hget') as [Hdel _].
    rewrite active_serializes by done. eexists. split; [reflexivity|].
    split_and!; [apply documented_success; listed|done|done|by eapply active_served].
Qed.

(** A success of the lifecycle routes. *)
Lemma lifecycle_served docs s id d db' (deleted : bool) :
  success 200 ∈ docs → db_ok db' → present (dim_deleted_at d) = deleted → dim_id d = id → (∃ row, dims db' !! (s, id) = Some row ∧ row_to_domain s row = Ok d) →
  let r := mkHttpResponse 200 (etag_headers (dim_version d)) (BodyContent (dimension_fields d)) in
  documented (same_problem reworded) docs r ∧ rs_status r < 400 ∧ db_ok db' ∧ served_dimension db' r s deleted.
Proof.
  intros Hin Hdb Hdel <- (row & Hr & Hd). split_and!; [by apply documented_success|done|done|]. by exists d, row.
Qed.

Lemma delete_promised s id reason :
  (∀ r, dims db !! (s, id) = Some r → r_version r < 2147483647) →
  dimension_promise delete_responses s true db (respond request (delete_dimension x authenticated request db s id reason)).
Proof.
  intros Hmax. destruct (delete_documents request) as ((Hi & Ha & Hv) & Hn & Hu).
  destruct (precondition_documented request delete_responses Hpath) as (H428 & H400 & H412).
  { intros d Hd. apply elem_of_app. right. apply elem_of_app. by left. }
  apply route_promised; [exact (proj1 Hready)|exact (no_500 (CallDelete s id reason))| |].
  - apply raises_bind; [by apply (guard_raises _ _ _ Htoken)|]. intros p _.
    apply raises_bind; [by apply if_match_raises|]. intros version Hver%if_match_positive.
    apply body_field_raises; [|exact Hv]. apply (lifecycle_command_raises x db Hready _ true); (done || lia).
  - intros d db' (p & _ & Hok)%bind_Ok. apply bind_Ok in Hok as (version & _ & Hok).
    apply body_field_Ok in Hok.
    destruct (lifecycle_command_ok x db Hready true s _ p id version reason d db' Hok)
      as (Hdb' & (r & Hr & Hver) & Hdel & Hc & Hval & Hs & H1 & Hid & Hrow).
    specialize (Hmax r Hr). rewrite tombstone_serializes by (done || lia). eexists. split; [reflexivity|].
    eapply lifecycle_served; try done. listed.
Qed.

Lemma restore_promised s id reason :
  dimension_promise restore_responses s false db (respond request (restore_dimension x authenticated request db s id reason)).
Proof.
  destruct (restore_documents request) as ((Hi & Ha & Hv) & Hn & Hu).
  destruct (precondition_documented request restore_responses Hpath) as (H428 & H400 & H412).
  { intros d Hd. apply elem_of_app. right. apply elem_of_app. by left. }
  apply route_promised; [exact (proj1 Hready)|exact (no_500 (CallRestore s id reason))| |].
  - apply raises_bind; [by apply (guard_raises _ _ _ Htoken)|]. intros p _.
    apply raises_bind; [by apply if_match_raises|]. intros version Hver%if_match_positive.
    apply body_field_raises; [|exact Hv]. apply (lifecycle_command_raises x db Hready _ false); (done || lia).
  - intros d db' (p & _ & Hok)%bind_Ok. apply bind_Ok in Hok as (version & _ & Hok).
    apply body_field_Ok in Hok.
    destruct (lifecycle_command_ok x db Hready false s _ p id version reason d db' Hok)
      as (Hdb' & _ & Hdel & Hc & Hval & Hs & H1 & Hid & Hrow).
    assert (serialize_active s d = Ok (dimension_fields d)) as ->.
    { unfold serialize_active. cbn [ds_deleted_at dimension_fields]. by rewrite Hdel. }
    eexists. split; [reflexivity|]. eapply lifecycle_served; try done. listed.
Qed.

Lemma tombstone_promised s id :
  (∀ r, dims db !! (s, id) = Some r → r_version r ≤ 2147483647) →
  dimension_promise tombstone_responses s true db (respond request (get_deleted_dimension authenticated db s id)).
Proof.
  intros Hmax. destruct (tombstone_documents request) as ((Hi & Ha & Hv) & Hn & Hd).
  assert (get_deleted_dimension authenticated db s id =
    after (d ← (p ← guard authenticated READ_TOMBSTONE; GetDimensionTombstone s p id db); Ok (d, db)) db
      (λ d, r ← serialize_tombstone s d; Ok (mkHttpResponse 200 (etag_headers (dim_version d)) (BodyContent r)))) as ->.
  { rewrite <- read_as_after. unfold get_deleted_dimension. f_equal. by destruct (guard authenticated READ_TOMBSTONE). }
  apply route_promised; [exact (proj1 Hready)|exact (no_500 (CallTombstone s id))| |].
  - apply raises_bind; [|intros; apply raises_Ok]. apply raises_bind; [by apply (guard_raises _ _ _ Htoken)|]. intros p _.
    unfold GetDimensionTombstone. apply raises_bind.
    { unfold authorize. by raises. }
    intros _ _. unfold DimensionLifecycle.get_tombstone. destruct (dims db !! (s, id)) as [r|] eqn:Hr; [|by apply raises_Raise].
    case_bool_decide; [by apply raises_Raise|].
    destruct (stored_domain db s id r (proj1 Hready) Hr) as (d & -> & _). apply raises_Ok.
  - intros d db' (d' & Hok & [= -> <-])%bind_Ok. apply bind_Ok in Hok as (p & _ & Hok).
    apply bind_Ok in Hok as (_ & _ & Hok). unfold DimensionLifecycle.get_tombstone in Hok.
    destruct (dims db !! (s, id)) as [r|] eqn:Hr; [|done]. case_bool_decide as Hdel; [done|].
    assert (db_ok db) as Hdb by exact (proj1 Hready).
    destruct (stored_fields db s id r d Hdb Hr Hok) as (Hid & Hver & Hdeleted & Hc & Hval & Hs & H1).
    assert (present (dim_deleted_at d) = true) as Hp by (rewrite Hdeleted; by destruct (r_deleted_at r)).
    specialize (Hmax r eq_refl). rewrite tombstone_serializes by (done || lia). eexists. split; [reflexivity|].
    eapply lifecycle_served; try done; [listed|]. by exists r.
Qed.
End promises.

Lemma dimension_call_promised `{UnicodeData} x authenticated request db call :
  server_ready x db → token_checked authenticated → dimension_path request → call_valid db call →
  dimension_promise (call_responses call) (call_slot call) (call_deletes call) db
    (respond request (serve x authenticated request db call)).
Proof.
  intros Hready Htoken Hpath Hvalid.
  destruct call as [s payload|s id|s id payload|s id reason|s id|s id reason];
    cbn [serve call_responses call_slot call_deletes call_valid] in *.
  - exact (create_promised x authenticated request db Hready Htoken s payload).
  - exact (get_promised x authenticated request db Hready Htoken s id).
  - destruct Hvalid. exact (update_promised x authenticated request db Hready Htoken Hpath s id payload ltac:(assumption) ltac:(assumption)).
  - exact (delete_promised x authenticated request db Hready Htoken Hpath s id reason Hvalid).
  - exact (tombstone_promised x authenticated request db Hready Htoken s id Hvalid).
  - exact (restore_promised x authenticated request db Hready Htoken Hpath s id reason).
Qed.

(** *** The listings *)

(** A row and the Dimension shown of it. *)
Definition shown_dimension `{UnicodeData} (s : slot) (r : DimRow) (item : DimensionResponse) : Prop :=
  ∃ d, row_to_domain s r = Ok d ∧ item = dimension_fields d.
(** The times of the rows are dates of the calendar, and their keys UUIDs. *)
Definition slot_dated (db : DB) (s : slot) : Prop :=
  ∀ id r, dims db !! (s, id) = Some r → in_calendar (r_created_at r) ∧ uuid_ok id.

(** What the listing of a slot promises: a page of its active rows. *)
Definition dimension_listing_promise `{UnicodeData} fromisoformat authenticated request db s cursor limit
    (o : HttpResponse DimensionListResponse * DB) : Prop :=
  listing_promise (same_problem reworded) _list_responses request (guard authenticated READ_DATA)
    (decoded (_decode_cursor fromisoformat) cursor)
    (λ _ after body, rows_listed dim_key (_decode_cursor fromisoformat) (shown_dimension s) (active_rows s db) after
                     (Z.to_nat limit) (dl_items body) (dl_next_cursor body)) db o.

Section listing.
Context `{UnicodeData} (fromisoformat : pystr → option datetime).
Hypothesis Hiso : ∀ t, in_calendar t → fromisoformat (isoformat t) = Some (utc t).

Lemma slot_list_page x s p after limit db :
  1 ≤ limit ≤ 100 →
  slot_list s (sql_repository s (ex_env x) (ex_seen x)) p after (VInt limit) db =
  (let pg := page dim_key after (Z.to_nat limit) (active_rows s db) in
   items ← mapR (row_to_domain s) (page_items pg); Ok (mkPage items (page_has_more pg))).
Proof.
  intros Hl. assert (∀ resource, ListDimensions (sql_repository s (ex_env x) (ex_seen x)) resource p after (VInt limit) db =
    DimensionRepos.list_active (repository_of s) db after (Z.to_nat limit)) as Hlist.
  { intros resource. unfold ListDimensions. rewrite authorize_read. cbn [mbind result_bind]. by rewrite page_limit_Ok. }
  assert (slot_list s (sql_repository s (ex_env x) (ex_seen x)) p after (VInt limit) db =
    DimensionRepos.list_active (repository_of s) db after (Z.to_nat limit)) as -> by (destruct s; apply Hlist).
  unfold DimensionRepos.list_active. by rewrite cf_slot_repository.
Qed.

Lemma list_promised x authenticated request db s cursor limit :
  server_ready x db → token_checked authenticated → slot_dated db s → 1 ≤ limit ≤ 100 →
  dimension_listing_promise fromisoformat authenticated request db s cursor limit
    (respond request (list_route fromisoformat x authenticated db s cursor limit)).
Proof.
  intros [Hdb _] Htoken Hdated Hl.
  assert (∀ e, e = InvalidAccessToken ∨ (∃ f m, e = DimensionValidationError f m) →
    documented_error request _list_responses e) as Hdoc by (intros e [->|(f & m & ->)]; documents).
  apply listing_promised.
  - listed.
  - by repeat constructor.
  - apply guard_raises; [done|by apply Hdoc; left|done].
  - apply decoded_raises. intros text. eapply raises_impl; [apply decode_cursor_raises|].
    intros e <-. split; [apply Hdoc; right; eauto|reflexivity].
  - intros p after _ _. rewrite slot_list_page by done. cbv zeta.
    destruct (listing_shown dim_key (_decode_cursor fromisoformat) (shown_dimension s) (row_to_domain s) (slot_response s)
      dimension_position _encode_cursor (active_rows s db) after (Z.to_nat limit)) as (ds & cs & Hds & Hcs & Hlisted & Hnext).
    + apply (distinct_keys_ids _ r_id); [done|]. apply NoDup_fmap_filter, rows_of_NoDup, Hdb.
    + lia.
    + intros r [[k Hr]%elem_of_rows_of Hdel%bool_decide_eq_true]%elem_of_filter_bool.
      destruct (Hdated k r Hr) as [Hcal Hid]. destruct (so_dim _ (proj1 Hdb) _ _ _ Hr) as [<- Hwf].
      destruct (row_to_domain_wf s r Hwf) as (d & Hrow & Hd & _). apply row_dimension_fields in Hrow as (Hi & _ & _ & _ & Hc & _ & _ & Hdeleted & _).
      exists d, (dimension_fields d). rewrite active_serializes by by rewrite Hdeleted, Hdel.
      split_and!; [done|done|by exists d|unfold dimension_position, dim_key; by rewrite Hi, Hc|by apply cursor_decodes].
    + rewrite Hds. eexists _, _. split; [reflexivity|]. unfold _page_response. cbn [page_items]. rewrite Hcs.
      rewrite (next_cursor_fits _ dim_key) by exact Hnext. split; [reflexivity|]. exact Hlisted.
Qed.
End listing.


(** ** Conditional requests *)

(** The Dimension a call is conditional on. *)
Definition conditional_on (call : dimension_call) : option (slot * UUID) :=
  match call with
  | CallUpdate s id _ | CallDelete s id _ | CallRestore s id _ => Some (s, id)
  | _ => None
  end.

Section conditional.
Context `{UnicodeData} (x : Execution) (p : HumanPrincipal) (request : HttpRequest) (db : DB).
Hypothesis Hready : server_ready x db.
Context (version : Z).
Hypothesis Hmatch : hr_if_match request = [version_etag version].
Hypothesis Hversion : 1 ≤ version ≤ 2147483647.

Lemma if_match_version : parse_dimension_if_match_values (hr_if_match request) = Ok version.
Proof. rewrite Hmatch. by apply parse_etag. Qed.

Lemma call_transition call s id :
  call_valid db call → conditional_on call = Some (s, id) →
  rs_status (respond request (serve x (Ok p) request db call)).1 < 400 →
  ∃ row, dims db !! (s, id) = Some row ∧ r_version row = version.
Proof.
  intros Hvalid Hcond.
  assert (∀ (m : HumanPrincipal → Z → res (Dimension * DB)) (k : Dimension → res (HttpResponse DimensionResponse)),
    rs_status (respond request (after (p ← guard (Ok p) MUTATE_DATA;
      v ← parse_dimension_if_match_values (hr_if_match request); body_field (m p v)) db k)).1 < 400 →
    ∃ p d db', m p version = Ok (d, db')) as Hgo.
  { intros m k Hs. apply after_Ok in Hs as (d & db' & Hok). apply bind_Ok in Hok as (q & _ & Hok).
    rewrite if_match_version in Hok. apply catch_Ok in Hok as [Hok|(e & _ & He)]; [by exists q, d, db'|by destruct e]. }
  assert (∀ d db', transition s id (VInt version) d db db' → ∃ row, dims db !! (s, id) = Some row ∧ r_version row = version)
    as Htrans by (intros d db' (row & row' & [= ->] & Hrow & _); by exists row).
  destruct call as [| |s' id' payload|s' id' reason| |s' id' reason]; try discriminate Hcond; injection Hcond as -> ->.
  - intros (q & d & db' & Hok)%(Hgo (λ q v, update_dimension_command s _ _ q id (VInt v) _ _ _ _ db)).
    rewrite update_command_of_body in Hok by apply Hvalid.
    eapply Htrans, update_transition; [exact (proj1 Hready)|exact Hok].
  - intros (q & d & db' & Hok)%(Hgo (λ q v, DeleteDimension s _ _ q id (VInt v) _ db)).
    eapply Htrans, (lifecycle_transition true); [exact (proj1 Hready)|exact Hok].
  - intros (q & d & db' & Hok)%(Hgo (λ q v, RestoreDimension s _ _ q id (VInt v) _ db)).
    eapply Htrans, (lifecycle_transition false); [exact (proj1 Hready)|exact Hok].
Qed.

Abbreviation no_precondition := (no_precondition DimensionResponse request).

Lemma guarded_no_precondition {A} (m : HumanPrincipal → Z → res A) :
  (∀ q, raises_only (λ e, invalid_argument e ∨ no_precondition e) (m q version)) →
  raises_only no_precondition (q ← guard (Ok p) MUTATE_DATA;
    v ← parse_dimension_if_match_values (hr_if_match request); body_field (m q v)).
Proof.
  intros Hm. apply raises_bind; [apply guard_raises|intros q _].
  - by intros e [=].
  - no_precondition_status.
  - intros _. no_precondition_status.
  - rewrite if_match_version. cbn [mbind result_bind]. apply body_field_raises; [apply Hm|].
    intros. no_precondition_status.
Qed.

Lemma serialized_no_precondition s (serialize : Dimension → res DimensionResponse) d :
  serialize = slot_response s ∨ serialize = serialize_tombstone s ∨ serialize = serialize_active s →
  raises_only no_precondition (r ← serialize d; Ok (mkHttpResponse 200 (etag_headers (dim_version d)) (BodyContent r))).
Proof.
  intros Hs. apply raises_bind; [|intros; apply raises_Ok].
  destruct Hs as [->|[->| ->]].
  - destruct s; unfold slot_response, _company_response, numeric_response, memory_response, string_response,
      active_response; raises; no_precondition_status.
  - unfold serialize_tombstone. raises. no_precondition_status.
  - unfold serialize_active. raises. no_precondition_status.
Qed.

Lemma serialized_status (serialize : Dimension → res DimensionResponse) d r :
  (r' ← serialize d; Ok (mkHttpResponse 200 (etag_headers (dim_version d)) (BodyContent r'))) = Ok r → rs_status r = 200.
Proof. by intros (r' & _ & [= <-])%bind_Ok. Qed.

(** With the current version nothing is said against the precondition. *)
Lemma call_fresh call s id :
  call_valid db call → conditional_on call = Some (s, id) →
  (∀ r, dims db !! (s, id) = Some r → r_version r = version) →
  rs_status (respond request (serve x (Ok p) request db call)).1 ∉ [400; 412; 428].
Proof.
  intros Hvalid Hcond Hrow.
  assert (∀ r, dims db !! (s, id) = Some r → r_version r ≠ version → no_precondition PreconditionFailed) as Hpre
    by (intros r Hr Hne; by rewrite (Hrow r Hr) in Hne).
  destruct call as [| |s' id' payload|s' id' reason| |s' id' reason]; try discriminate Hcond; injection Hcond as -> ->;
    cbn [serve]; apply after_status;
    try (intros d db' _; eapply serialized_no_precondition; by eauto);
    try (intros d r; apply serialized_status).
  - apply (guarded_no_precondition (λ q v, update_dimension_command s _ _ q id (VInt v) _ _ _ _ db)). intros q.
    rewrite update_command_of_body by apply Hvalid.
    apply update_command_raises; try exact Hpre; [exact Hready|lia|by apply body_provided, Hvalid|..];
      try no_precondition_status; destruct s; no_precondition_status.
  - apply (guarded_no_precondition (λ q v, DeleteDimension s _ _ q id (VInt v) _ db)). intros q.
    apply (lifecycle_command_raises x db Hready _ true); try exact Hpre; [lia|..]; intros; no_precondition_status.
  - apply (guarded_no_precondition (λ q v, RestoreDimension s _ _ q id (VInt v) _ db)). intros q.
    apply (lifecycle_command_raises x db Hready _ false); try exact Hpre; [lia|..]; intros; no_precondition_status.
Qed.
End conditional.

(** C22: the ETag of any success of a Dimension route guards the next change,
    whatever commands committed in between: a change conditional on it succeeds
    only if the row is still the one that response showed, so no update is lost; and
    while the row is that one, the precondition is never refused. *)
Theorem etag_guards_changes `{UnicodeData} x0 x authenticated p request0 request db0 db call0 call s id body :
  server_ready x0 db0 → token_checked authenticated → dimension_path request0 → call_valid db0 call0 →
  let o := respond request0 (serve x0 authenticated request0 db0 call0) in
  rs_status o.1 < 400 → rs_content o.1 = BodyContent body → call_slot call0 = s → ds_id body = id →
  1 ≤ ds_version body ≤ 2147483647 → rtc command_step o.2 db → server_ready x db →
  (λ v, ("ETag"%string, v)) <$> hr_if_match request = rs_headers o.1 →
  conditional_on call = Some (s, id) → call_valid db call →
  let r := (respond request (serve x (Ok p) request db call)).1 in
  (rs_status r < 400 → dims db !! (s, id) = dims o.2 !! (s, id)) ∧
  (dims db !! (s, id) = dims o.2 !! (s, id) → rs_status r ∉ [400; 412; 428]).
Proof.
  intros Hready0 Htoken Hpath Hvalid0 o Hs Hbody Hslot Hid Hver Hrtc Hready Htag Hcond Hvalid r. subst r.
  destruct (dimension_call_promised x0 authenticated request0 db0 call0 Hready0 Htoken Hpath Hvalid0)
    as (_ & _ & Hdb & _ & Hserved). fold o in Hdb, Hserved.
  destruct (Hserved Hs) as (d & row & Hd & Hh & _ & Hrow & Hdom). rewrite Hslot in Hrow, Hdom.
  rewrite Hbody in Hd. injection Hd as ->. cbn [ds_id ds_version dimension_fields] in *. subst id.
  rewrite Hh in Htag. unfold etag_headers in Htag.
  assert (hr_if_match request = [version_etag (dim_version d)]) as Hmatch.
  { destruct (hr_if_match request) as [|v [|v2 l]]; try done. cbn in Htag. by injection Htag as ->. }
  destruct (stored_fields o.2 s (dim_id d) row d Hdb Hrow Hdom) as (_ & Hversion & _).
  destruct (command_steps_keep _ _ Hdb Hrtc) as [_ Hprog]. destruct (Hprog _ _ _ Hrow) as (row' & Hrow' & Hor).
  split.
  - intros Hok. destruct (call_transition x p request db Hready (dim_version d) Hmatch Hver call s (dim_id d) Hvalid Hcond Hok)
      as (row2 & Hrow2 & Hv2). rewrite Hrow. destruct Hor as [->|Hlt]; [done|].
    assert (row2 = row') as -> by congruence. lia.
  - intros Heq. apply (call_fresh x p request db Hready (dim_version d) Hmatch Hver call s (dim_id d)); try done.
    intros r2 Hr2. rewrite Heq, Hrow in Hr2. by injection Hr2 as <-.
Qed.

(** ** Witnesses *)

#[local] Existing Instance ascii_data.

Definition sample_execution : Execution := mkExecution (sample_env 200 77 88) sample_db (test_uuid7 2).
Definition sample_principal : HumanPrincipal := mkHumanPrincipal 5 ADMIN.
Definition sample_http (version : Z) : HttpRequest :=
  mkHttpRequest (py "/api/v1/dimensions/companies/00000000-0000-0000-0000-000000000001") "PATCH" [version_etag version] false.
Definition sample_update : dimension_call :=
  CallUpdate Company 1 (mkDimensionUpdateRequest (Some (py "ssg")) None None).

Lemma sample_ready : server_ready sample_execution sample_db.
Proof. split; [exact sample_db_ok|exact (sample_served 200)]. Qed.

Lemma sample_update_valid db : call_valid db sample_update.
Proof. by split. Qed.

Abbreviation sample_list cursor := (list_route read_iso sample_execution (Ok sample_principal) sample_db Company cursor 1).
Lemma sample_companies_dated : slot_dated sample_db Company.
Proof.
  assert (map_Forall (λ k (r : DimRow), in_calendar (r_created_at r) ∧ uuid_ok k.2) (dims sample_db)) as Hall.
  { unfold in_calendar, uuid_ok. apply (bool_decide_unpack _). vm_compute. exact I. }
  intros id r Hr. exact (Hall (Company, id) r Hr).
Qed.


Lemma etag_guards_changes_witness :
  rs_status (respond (sample_http 1) (serve sample_execution (Ok sample_principal) (sample_http 1) sample_db sample_update)).1
    ∉ [400; 412; 428].
Proof.
  destruct (respond (sample_http 1) (serve sample_execution (Ok sample_principal) (sample_http 1) sample_db (CallGet Company 1)))
    as [r db0] eqn:Hget.
  assert (db0 = sample_db) as ->.
  { apply (f_equal snd) in Hget. symmetry. exact Hget. }
  destruct (rs_content r) as [pr|body] eqn:Hbody.
  { exfalso. apply (f_equal fst) in Hget. cbn [fst] in Hget. subst r. revert Hbody. vm_compute. discriminate. }
  assert (ds_id body = 1 ∧ ds_version body = 1 ∧ rs_status r = 200 ∧ rs_headers r = etag_headers 1) as (Hid & Hver & Hs & Hh).
  { apply (f_equal fst) in Hget. cbn [fst] in Hget. subst r. revert Hbody. vm_compute. intros [= <-]. by split_and!. }
  destruct (etag_guards_changes sample_execution sample_execution (Ok sample_principal) sample_principal (sample_http 1)
    (sample_http 1) sample_db sample_db (CallGet Company 1) sample_update Company 1 body sample_ready) as [_ Hfresh].
  - by intros e [=].
  - reflexivity.
  - exact I.
  - rewrite Hget. cbn [fst]. lia.
  - rewrite Hget. exact Hbody.
  - reflexivity.
  - exact Hid.
  - lia.
  - rewrite Hget. apply rtc_refl.
  - exact sample_ready.
  - rewrite Hget. cbn [fst]. rewrite Hh. reflexivity.
  - reflexivity.
  - apply sample_update_valid.
  - apply Hfresh. rewrite Hget. reflexivity.
Defined.
