(* ===== verification/MasterCodeEndpoints.v ===== *)
(** * The endpoints of MasterCodes
    ([src/src/mdm/api/master_codes.py], [master_code_lifecycle.py])

    Creation from eight selections, reads, listings, reference updates,
    deletion and restoration, with the responses they document.
    [fromisoformat] reads the time of a cursor. *)

From Stdlib Require Import Ascii String.
From S2P Require Import Prelude Python Exceptions Auth MutationAudit Dimensions MasterCodes Store Records Pagination DimensionRepos MasterCodeRepo Commands Problems Preconditions Cursors Endpoints.
Local Open Scope Z_scope.

(** ** Requests *)

(** A slot of [MasterCodeDimensionsInput]: [ReferenceInput], one of the creation
    inputs [StringCreateInput], [YearCreateInput], [NetworkCreateInput] and
    [MasterCodeMemoryCreateInput], or [NotApplicableInput]. *)
Inductive SelectionBody :=
| ReferenceSelected (id : UUID)
| CreateSelected (code : pystr) (value : ValueInput)
| NotApplicableSelected.
Record MasterCodeCreateRequest := mkMasterCodeCreateRequest {
  mq_dimensions : Slots SelectionBody; mq_reason : option pystr;
}.

Definition _selection (value : SelectionBody) : SelectionInput :=
  match value with
  | ReferenceSelected id => ExistingInput id
  | NotApplicableSelected => NotApplicableInput
  | CreateSelected code (MemoryValueInput amount unit) =>
      InlineInput (inl (VStr code)) (MemoryCreateValue (VInt amount) (VStr unit))
  | CreateSelected code value => InlineInput (inl (VStr code)) (PlainValue (value_argument value))
  end.
Definition _create_input (value : Slots SelectionBody) : MasterCodeCreateInput :=
  slots_of (λ s, _selection (at_slot value s)).

(** A slot of [MasterCodeReferenceUpdatesInput]: [None] outside
    [model_fields_set], [Some None] when the body says null. *)
Inductive ReferenceBody := ReferenceChange (id : UUID) | NotApplicableChange.
Abbreviation MasterCodeReferenceUpdatesInput := (Slots (option (option ReferenceBody))).
Record MasterCodeReferenceUpdateRequest := mkMasterCodeReferenceUpdateRequest {
  rq_dimensions : MasterCodeReferenceUpdatesInput; rq_update_reason : option pystr;
}.
Definition require_one_non_null_change (value : MasterCodeReferenceUpdatesInput) : res MasterCodeReferenceUpdatesInput :=
  _ ← raise_if (forallb (λ s, absent (at_slot value s)) ORDER
                || existsb (λ s, match at_slot value s with Some None => true | _ => false end) ORDER)
        (ValueError "하나 이상의 REFERENCE 또는 NOT_APPLICABLE 자리를 입력해야 합니다.");
  Ok value.
Definition _reference_selection (value : option ReferenceBody) : ReferenceSelection :=
  match value with Some (ReferenceChange id) => RefExisting id | _ => RefNotApplicable end.
Definition _reference_update_input (value : MasterCodeReferenceUpdatesInput) : res MasterCodeReferenceUpdate :=
  MasterCodeReferenceUpdate_init (slots_of (λ s, _reference_selection <$> at_slot value s)).

(** ** Responses *)

(** [StringDimensionReferenceResponse] and the numeric and Memory ones *)
Record DimensionReferenceResponse := mkDimensionReferenceResponse {
  dr_id : UUID; dr_code : pystr; dr_value : ValueResponse;
}.
(** [MasterCodeResponse] and [MasterCodeTombstoneResponse] *)
Record MasterCodeResponse := mkMasterCodeResponse {
  mr_id : UUID; mr_code : pystr; mr_version : Z; mr_created_at : datetime; mr_updated_at : datetime;
  mr_deleted_at : option datetime; mr_dimensions : Slots (option DimensionReferenceResponse);
}.

Definition _dimension_response (dimension : option Dimension) : option DimensionReferenceResponse :=
  (λ d, mkDimensionReferenceResponse (dim_id d) (code_value (dim_code d)) (value_response (dim_value_of d))) <$> dimension.

(** The class [MasterCodeDimensionsResponse] declares for a slot; the framework
    refuses others with an error of its own. *)
Definition reference_response_ok (s : slot) (r : option DimensionReferenceResponse) : bool :=
  match s, dr_value <$> r with
  | _, None => true
  | (Company | Brand | Model | Category | Country), Some (StringValue _) => true
  | (Year | Network), Some (IntegerValue _) => true
  | Memory, Some (MemoryValueResponse _ _ _) => true
  | _, _ => false
  end.
Definition MasterCodeDimensionsResponse_init (dimensions : MasterCodeDimensions)
    : res (Slots (option DimensionReferenceResponse)) :=
  let r := slots_of (λ s, _dimension_response (get_slot dimensions s)) in
  _ ← raise_if (negb (forallb (λ s, reference_response_ok s (at_slot r s)) ORDER)) (ValueError "validation error");
  Ok r.

Definition master_code_response (master_code : MasterCode) (dimensions : Slots (option DimensionReferenceResponse))
    : MasterCodeResponse :=
  mkMasterCodeResponse (mc_id master_code) (mc_code master_code) (mc_version master_code) (mc_created_at master_code)
    (mc_updated_at master_code) (mc_deleted_at master_code) dimensions.
Definition _response (master_code : MasterCode) : res MasterCodeResponse :=
  _ ← raise_if (present (mc_deleted_at master_code)) (ValueError "inactive MasterCode cannot be serialized");
  dimensions ← MasterCodeDimensionsResponse_init (mc_dimensions master_code);
  Ok (master_code_response master_code dimensions).
Definition _tombstone_response (current : MasterCode) : res MasterCodeResponse :=
  _ ← raise_if (absent (mc_deleted_at current)) (ValueError "a MasterCode tombstone must be deleted");
  dimensions ← MasterCodeDimensionsResponse_init (mc_dimensions current);
  Ok (master_code_response current dimensions).

(** [response.headers["ETag"] = master_code.etag()] and the body *)
Definition etag_response (status : Z) (serialize : MasterCode → res MasterCodeResponse) (master_code : MasterCode)
    : res (HttpResponse MasterCodeResponse) :=
  r ← serialize master_code;
  Ok (mkHttpResponse status [("ETag"%string, etag master_code)] (BodyContent r)).

(** [MasterCodeListResponse] *)
Record MasterCodeListResponse := mkMasterCodeListResponse {
  ml_items : list MasterCodeResponse; ml_next_cursor : option pystr;
}.
(** [MasterCodeCursor(created_at=last.created_at, id=last.id)] *)
Definition master_code_position (master_code : MasterCode) : Z * UUID :=
  (instant (mc_created_at master_code), mc_id master_code).
Definition _page_response (page : Page MasterCode) : res MasterCodeListResponse :=
  items ← mapR _response (page_items page);
  cursor ← next_cursor_field (following_cursor _encode_cursor master_code_position page);
  Ok (mkMasterCodeListResponse items cursor).

(** ** Routes *)

Section routes.
Context `{UnicodeData} (fromisoformat : pystr → option datetime).
Context (x : Execution) (requery : DB) (authenticated : res HumanPrincipal) (request : HttpRequest) (db : DB).

Definition create_master_code_route (payload : MasterCodeCreateRequest) : outcome DB MasterCodeResponse :=
  after (p ← guard authenticated MUTATE_DATA;
         body_field (CreateMasterCode (ex_env x) (ex_seen x) requery (ex_change_set_id x) p
           (_create_input (mq_dimensions payload)) (mq_reason payload) db)) db
    (etag_response 201 _response).

Definition update_master_code_references_route (master_code_id : UUID) (payload : MasterCodeReferenceUpdateRequest)
    : outcome DB MasterCodeResponse :=
  after (p ← guard authenticated MUTATE_DATA;
         expected_etag ← _parse_master_code_if_match_values (hr_if_match request);
         changes ← _reference_update_input (rq_dimensions payload);
         body_field (UpdateMasterCodeReferences (ex_env x) (ex_seen x) (ex_change_set_id x) p master_code_id changes
           expected_etag (rq_update_reason payload) db)) db
    (etag_response 200 _response).

Definition get_master_code_route (master_code_id : UUID) : outcome DB MasterCodeResponse :=
  (p ← guard authenticated READ_DATA;
   master_code ← GetMasterCode p master_code_id db;
   etag_response 200 _response master_code, db).

Definition list_master_codes_route (cursor : option pystr) (limit : Z) : outcome DB MasterCodeListResponse :=
  (p ← guard authenticated READ_DATA;
   after ← decoded (_decode_cursor fromisoformat) cursor;
   page ← ListMasterCodes p after (VInt limit) db;
   body ← _page_response page;
   Ok (mkHttpResponse 200 [] (BodyContent body)), db).

(** *** Lifecycle *)

Definition tombstone_route (master_code_id : UUID) : outcome DB MasterCodeResponse :=
  (p ← guard authenticated READ_TOMBSTONE;
   current ← GetMasterCodeTombstone p master_code_id db;
   etag_response 200 _tombstone_response current, db).

Definition delete_route (master_code_id : UUID) (reason : option pystr) : outcome DB MasterCodeResponse :=
  after (p ← guard authenticated MUTATE_DATA;
         expected ← _parse_master_code_if_match_values (hr_if_match request);
         body_field (DeleteMasterCode (ex_env x) (ex_seen x) (ex_change_set_id x) p master_code_id expected reason db)) db
    (etag_response 200 _tombstone_response).

Definition restore_route (master_code_id : UUID) (reason : option pystr) : outcome DB MasterCodeResponse :=
  after (p ← guard authenticated MUTATE_DATA;
         expected ← _parse_master_code_if_match_values (hr_if_match request);
         body_field (RestoreMasterCode (ex_env x) (ex_seen x) (ex_change_set_id x) p master_code_id expected reason db)) db
    (etag_response 200 _response).
End routes.

(** ** Documented responses *)

Definition validation_example : ProblemDetails :=
  example "/problems/validation-error" "유효하지 않은 요청" 422 "하나 이상의 요청 필드가 유효하지 않습니다." "VALIDATION_ERROR".
Definition invalid_reference_example : ProblemDetails :=
  example "/problems/invalid-dimension-reference" "유효하지 않은 Dimension 참조" 422
    "하나 이상의 Dimension 참조가 없거나 활성 상태가 아닙니다." "INVALID_DIMENSION_REFERENCE".
Definition conflict_example : ProblemDetails :=
  example "/problems/master-code-conflict" "MasterCode 충돌" 409
    "같은 참조 조합 또는 합성 코드의 MasterCode가 이미 존재합니다." "MASTER_CODE_CONFLICT".

Definition _validation_response : Z * list ProblemDetails := (422, [validation_example]).
Definition _create_validation_response : Z * list ProblemDetails :=
  (422, [validation_example; invalid_reference_example]).
Definition _reference_update_validation_response : Z * list ProblemDetails :=
  (422, [validation_example; invalid_reference_example]).
Definition _master_code_precondition_response (status_code : Z) : Z * list ProblemDetails :=
  (status_code,
   [if status_code =? 400 then
      example "/problems/invalid-if-match" "유효하지 않은 If-Match" status_code
        "If-Match에는 직전 MasterCode 응답에서 받은, 문서에 제시된 형식의 강한 ETag 하나를 입력해야 합니다." "INVALID_IF_MATCH"
    else if status_code =? 412 then
      example "/problems/precondition-failed" "사전 조건 불일치" status_code
        "MasterCode 또는 참조 Dimension이 조회 이후 변경되었습니다. 최신 상태와 ETag를 다시 조회해 주세요." "PRECONDITION_FAILED"
    else
      example "/problems/precondition-required" "사전 조건 필요" status_code
        "MasterCode를 변경하려면 직전 단건 응답의 ETag를 If-Match로 제공해야 합니다." "PRECONDITION_REQUIRED"]).
Definition _not_found_response : Z * list ProblemDetails :=
  (404, [example "/problems/master-code-not-found" "MasterCode를 찾을 수 없음" 404 "요청한 MasterCode를 찾을 수 없습니다."
           "MASTER_CODE_NOT_FOUND"]).
Definition _conflict_response : Z * list ProblemDetails :=
  (409, [conflict_example;
         example "/problems/dimension-code-conflict" "Dimension 대표 코드 충돌" 409
           "mode: CREATE로 생성하려는 Dimension의 대표 코드가 이미 사용 중입니다." "DIMENSION_CODE_CONFLICT";
         example "/problems/dimension-value-conflict" "Dimension 값 충돌" 409
           "mode: CREATE로 생성하려는 Dimension의 값이 이미 사용 중입니다." "DIMENSION_VALUE_CONFLICT";
         example "/problems/dimension-multiple-conflicts" "여러 Dimension 필드 충돌" 409
           "mode: CREATE로 생성하려는 Dimension의 대표 코드와 값이 모두 이미 사용 중입니다." "DIMENSION_MULTIPLE_CONFLICTS"]).
Definition _reference_update_conflict_response : Z * list ProblemDetails := (409, [conflict_example]).
Definition _service_unavailable_response : Z * list ProblemDetails :=
  (503, [example "/problems/service-unavailable" "서비스를 사용할 수 없음" 503
           "요청을 일시적으로 처리할 수 없습니다. 잠시 후 다시 시도해 주세요." "SERVICE_UNAVAILABLE"]).

Definition create_responses : Responses :=
  [success 201; INVALID_ACCESS_TOKEN_RESPONSE; AUTHORIZATION_DENIED_RESPONSE; _conflict_response;
   _create_validation_response; _service_unavailable_response].
Definition update_references_responses : Responses :=
  [success 200; _master_code_precondition_response 400; INVALID_ACCESS_TOKEN_RESPONSE; AUTHORIZATION_DENIED_RESPONSE;
   _not_found_response; _reference_update_conflict_response; _master_code_precondition_response 412;
   _reference_update_validation_response; _master_code_precondition_response 428; _service_unavailable_response].
(** [_list_success_response] and [_pagination_validation_response] *)
Definition list_responses : Responses :=
  [success 200; INVALID_ACCESS_TOKEN_RESPONSE; _validation_response; _service_unavailable_response].
Definition get_responses : Responses :=
  [success 200; INVALID_ACCESS_TOKEN_RESPONSE; _not_found_response; _validation_response; _service_unavailable_response].

(** [_conflict] of the lifecycle router *)
Definition _conflict (inactive : bool) : Z * list ProblemDetails :=
  (409, example "/problems/master-code-not-deleted" "삭제되지 않은 MasterCode" 409 "요청한 MasterCode가 삭제 상태가 아닙니다."
          "MASTER_CODE_NOT_DELETED" ::
        if inactive then [example "/problems/master-code-reference-inactive" "복원할 수 없는 MasterCode 참조" 409
          "삭제된 Dimension 참조가 있어 MasterCode를 복원할 수 없습니다." "MASTER_CODE_REFERENCE_INACTIVE"] else []).
Inductive lifecycle_action := Tombstone | Delete | RestoreAction.
#[export] Instance lifecycle_action_eq_dec : EqDecision lifecycle_action.
Proof. solve_decision. Defined.
(** [_responses] *)
Definition lifecycle_responses (action : lifecycle_action) : Responses :=
  [success 200; INVALID_ACCESS_TOKEN_RESPONSE; AUTHORIZATION_DENIED_RESPONSE; _not_found_response; _validation_response;
   _service_unavailable_response]
  ++ (if bool_decide (action = Delete) then [] else [_conflict (bool_decide (action = RestoreAction))])
  ++ (if bool_decide (action = Tombstone) then [] else _master_code_precondition_response <$> [400; 412; 428]).
