(* ===== verification/MasterCodeEndpointSpecs.v ===== *)
(** * What the endpoints of MasterCodes promise

    On every consistent database a request of a MasterCode route gets one of
    the responses the route documents; the ETag of a success guards the next
    change of the MasterCode and of the Dimensions it references. *)

From Stdlib Require Import Ascii String.
From S2P Require Import Prelude Python Exceptions Uuids Sha256 Auth MutationAudit Dimensions MasterCodes Store Records Invariant Consistency Pagination DimensionRepos MasterCodeRepo MasterCodeSpecs Transactions Commands CommandSpecs UseCases ChangeRequests Problems Preconditions Cursors Endpoints EndpointSpecs MasterCodeEndpoints.
Local Open Scope Z_scope.

(** ** Documented errors *)

(** The routes of MasterCodes. *)
Definition master_code_path (request : HttpRequest) : Prop := is_master_code (hr_path request) = true.
Abbreviation documented_error := (documented_error (same_problem exact_texts)).
Abbreviation common_documents := (common_documents (same_problem exact_texts)).
Abbreviation precondition_documents := (precondition_documents (same_problem exact_texts)).

Lemma create_documented request :
  common_documents request create_responses ∧ documented_error request create_responses MasterCodeConflict ∧
  (∀ fields, documented_error request create_responses (InvalidDimensionReference fields)) ∧
  ∀ f c v, documented_error request create_responses (InlineDimensionConflict f c v).
Proof. unfold common_documents. split_and!; intros; try destruct c, v; documents. Qed.

Lemma get_documented request :
  documented_error request get_responses InvalidAccessToken ∧ documented_error request get_responses MasterCodeNotFound.
Proof. split; documents. Qed.

Lemma update_documented request :
  common_documents request update_references_responses ∧
  documented_error request update_references_responses MasterCodeNotFound ∧
  documented_error request update_references_responses MasterCodeConflict ∧
  ∀ fields, documented_error request update_references_responses (InvalidDimensionReference fields).
Proof. unfold common_documents. split_and!; intros; documents. Qed.

(** The lifecycle routes. *)
Lemma lifecycle_responses_cases action :
  lifecycle_responses action =
  [success 200; INVALID_ACCESS_TOKEN_RESPONSE; AUTHORIZATION_DENIED_RESPONSE; _not_found_response; _validation_response;
   _service_unavailable_response]
  ++ match action with Delete => [] | Tombstone => [_conflict false] | RestoreAction => [_conflict true] end
  ++ match action with Tombstone => [] | _ => _master_code_precondition_response <$> [400; 412; 428] end.
Proof. by destruct action. Qed.

Lemma lifecycle_documented request action :
  common_documents request (lifecycle_responses action) ∧
  documented_error request (lifecycle_responses action) MasterCodeNotFound ∧
  (action ≠ Delete → documented_error request (lifecycle_responses action) MasterCodeNotDeleted) ∧
  (action = RestoreAction → ∀ fields, documented_error request (lifecycle_responses action) (MasterCodeReferenceInactive fields)).
Proof.
  unfold common_documents. rewrite lifecycle_responses_cases. split_and!; intros; destruct action; try done; documents.
Qed.

Lemma preconditions_documented request docs :
  master_code_path request → _master_code_precondition_response <$> [400; 412; 428] ⊆ docs → precondition_documents request docs.
Proof.
  intros Hpath Hsub. unfold precondition_documents, master_code_path in *.
  assert (∀ e p examples, jr_problem (exception_response request e) = p → (pd_status p, examples) ∈ docs →
    Exists (same_problem exact_texts p) examples → documented_error request docs e) as Hdoc.
  { intros e p examples <- Hin Hex. by eapply documented_error_intro. }
  split_and!; (eapply Hdoc; [cbn; rewrite Hpath; reflexivity|apply Hsub; cbn; listed|]); cbn;
    apply Exists_cons_hd; split_and!; cbn; (reflexivity || (by left)).
Qed.

(** ** Stored MasterCodes and their serialization *)

Section stored.
Context `{UnicodeData}.

Definition dimension_responses (dimensions : MasterCodeDimensions) : Slots (option DimensionReferenceResponse) :=
  slots_of (λ s, _dimension_response (get_slot dimensions s)).
(** The aggregate a row is stored as. *)
Definition stored_mc (db : DB) (m : McRow) : MasterCode := mc_of m (joined_dims db m).
Definition returns_stored (db : DB) (deleted : bool) (mc : MasterCode) : Prop :=
  ∃ m, mcs db !! m_id m = Some m ∧ mc = stored_mc db m ∧ present (m_deleted_at m) = deleted.

(** What a success says of the MasterCode and the database it leaves. *)
Definition served_master_code (deleted : bool) (db : DB) (r : HttpResponse MasterCodeResponse) : Prop :=
  ∃ m, mcs db !! m_id m = Some m ∧ present (m_deleted_at m) = deleted ∧
    rs_headers r = [("ETag"%string, etag (stored_mc db m))] ∧
    rs_content r = BodyContent (master_code_response (stored_mc db m) (dimension_responses (joined_dims db m))).

(** A stored reference has the class its slot declares. *)
Lemma stored_dimensions_serialize db m :
  store_ok db → MasterCodeDimensionsResponse_init (joined_dims db m) = Ok (dimension_responses (joined_dims db m)).
Proof.
  intros Hok. unfold MasterCodeDimensionsResponse_init. fold (dimension_responses (joined_dims db m)).
  assert (forallb (λ s, reference_response_ok s (at_slot (dimension_responses (joined_dims db m)) s)) ORDER = true) as ->;
    [|done].
  apply forallb_Forall, Forall_forall. intros s _. unfold dimension_responses. rewrite at_slots_of.
  pose proof (joined_dims_slot db m s Hok) as Hj. destruct (joined_slot db m s) as [r|].
  - destruct Hj as (d & -> & _ & _ & _ & Hs). cbn. by destruct (dim_value_of d), s.
  - rewrite Hj. by destruct s.
Qed.

Definition serializer (deleted : bool) : MasterCode → res MasterCodeResponse :=
  if deleted then _tombstone_response else _response.

Lemma stored_served db (deleted : bool) status mc :
  db_ok db → returns_stored db deleted mc →
  ∃ r, etag_response status (serializer deleted) mc = Ok r ∧ rs_status r = status ∧ served_master_code deleted db r.
Proof.
  intros [Hok _] (m & Hm & -> & Hdel). unfold etag_response, serializer.
  assert ((if deleted then _tombstone_response else _response) (stored_mc db m) =
    Ok (master_code_response (stored_mc db m) (dimension_responses (joined_dims db m)))) as ->.
  { unfold _tombstone_response, _response, stored_mc, mc_of. cbn [mc_deleted_at mc_dimensions].
    destruct (m_deleted_at m); cbn in Hdel; subst deleted; cbn [present absent option_fmap option_map fmap raise_if mbind
      result_bind mc_deleted_at mc_dimensions]; by rewrite stored_dimensions_serialize by done. }
  eexists. split; [reflexivity|]. split; [done|]. by exists m.
Qed.

(** A row written without touching the Dimensions. *)
Lemma written_stored db db' id row (deleted : bool) :
  db_ok db' → dims db' = dims db → mcs db' !! id = Some row → present (m_deleted_at row) = deleted →
  returns_stored db' deleted (mc_of row (joined_dims db row)).
Proof.
  intros Hdb' Hdims Hrow Hdel. destruct (so_mc _ (proj1 Hdb') _ _ Hrow) as [<- _].
  exists row. unfold stored_mc. by rewrite (joined_dims_ext db db' row Hdims).
Qed.
End stored.

(** ** What the use cases of a route raise and return *)

Section routes.
Context `{UnicodeData} (x : Execution) (db : DB).
Hypothesis Hready : server_ready x db.

Ltac argument lemma := eapply (raises_impl invalid_argument); [apply lemma|by left].

Lemma create_input_wf dimensions : input_wf (_create_input dimensions).
Proof.
  intros s c v Hs. unfold _create_input in Hs. rewrite at_slots_of in Hs.
  destruct (at_slot dimensions s) as [i|code [| |]|]; discriminate Hs.
Qed.

Lemma etag_values_raise (P : exn → Prop) values :
  P PreconditionRequired → P InvalidIfMatch → raises_only P (_parse_master_code_if_match_values values).
Proof. intros ??. unfold _parse_master_code_if_match_values. raises; done. Qed.

Lemma update_input_Ok value :
  require_one_non_null_change value = Ok value → ∃ changes, _reference_update_input value = Ok changes.
Proof.
  intros (_ & [Habsent _]%raise_if_Ok%orb_false_iff & _)%bind_Ok. unfold _reference_update_input, MasterCodeReferenceUpdate_init.
  match goal with |- context [forallb ?f ORDER] => assert (forallb f ORDER = false) as -> end; [|by eexists].
  etransitivity; [|exact Habsent]. clear. induction ORDER as [|s l IH]; cbn [forallb]; [done|]. rewrite IH, at_slots_of.
  by destruct (at_slot value s).
Qed.

Lemma mc_update_command_raises (P : exn → Prop) cs p id changes expected_etag reason :
  P AuthorizationDenied → P MasterCodeNotFound → P MasterCodeConflict →
  (∀ fields, P (InvalidDimensionReference fields)) →
  (¬ etag_current (ex_seen x) db id expected_etag → P PreconditionFailed) →
  raises_only (λ e, invalid_argument e ∨ P e)
    (UpdateMasterCodeReferences (ex_env x) (ex_seen x) cs p id changes expected_etag reason db).
Proof.
  intros. apply command_raises; [by right|]. apply raises_bind; [argument create_audit_raises|].
  intros md [Hops _]%create_audit_Ok.
  apply update_references_raises; try apply Hready; try (by right; auto). by rewrite Hops.
Qed.

Lemma mc_lifecycle_command_raises (P : exn → Prop) (deleting : bool) cs p id expected_etag reason :
  P AuthorizationDenied → P MasterCodeNotFound → (deleting = false → P MasterCodeNotDeleted) →
  (deleting = false → ∀ fields, P (MasterCodeReferenceInactive fields)) →
  (¬ etag_current (ex_seen x) db id expected_etag → P PreconditionFailed) →
  raises_only (λ e, invalid_argument e ∨ P e)
    (MutateMasterCodeLifecycle (if deleting then MC_DELETE else MC_RESTORE) (ex_env x) (ex_seen x) cs p id expected_etag
       reason db).
Proof.
  intros. apply command_raises; [by right|]. apply raises_bind; [argument create_audit_raises|].
  intros md [Hops _]%create_audit_Ok.
  destruct deleting; apply change_lifecycle_raises; try apply Hready; try (by right; auto); by rewrite Hops.
Qed.

Lemma mc_create_command_ok requery cs p input reason mc db' :
  input_wf input → CreateMasterCode (ex_env x) (ex_seen x) requery cs p input reason db = Ok (mc, db') →
  db_ok db' ∧ returns_stored db' false mc.
Proof.
  intros Hwf (_ & plan & md & _ & Hop & Hinline & Hok)%CreateMasterCode_Ok; [|done].
  assert (db_ok db) as Hdb by exact (proj1 Hready).
  assert (served (ex_env x) (ex_seen x) db) as Hserved by exact (proj2 Hready).
  rewrite create_rows in Hok; [|done|done|apply Hserved|].
  2: { intros s code value Hs. destruct (Hinline _ _ _ Hs) as (? & ? & ?). split_and!; try done. apply Hserved. }
  apply bind_Ok in Hok as ([row db1] & Hspec & [= <- <-]).
  apply create_mc_spec_ok in Hspec as (Hdb' & Hmcs & Hid & _ & _ & Hdel & _); [|try done..].
  - split; [done|]. exists row. rewrite Hmcs, Hid, lookup_insert_eq. by rewrite Hdel.
  - apply Hserved.
  - intros s code value Hs. destruct (Hinline _ _ _ Hs) as (? & ? & ?). split_and!; try done. apply Hserved.
Qed.

(** What a conditional change found and left. *)
Definition conditional_change (id : UUID) (expected_etag : pystr) (deleted : bool) (mc : MasterCode) (db' : DB) : Prop :=
  db_ok db' ∧ returns_stored db' deleted mc ∧ ∃ m, mcs db !! id = Some m ∧ etag (stored_mc db m) = expected_etag.

Lemma mc_update_command_ok cs p id changes expected_etag reason mc db' :
  UpdateMasterCodeReferences (ex_env x) (ex_seen x) cs p id changes expected_etag reason db = Ok (mc, db') →
  conditional_change id expected_etag false mc db'.
Proof.
  intros [_ Hok]%command_allowed. apply bind_Ok in Hok as (md & [Hops _]%create_audit_Ok & Hok).
  assert (db_ok db) as Hdb by exact (proj1 Hready). destruct (proj2 Hready) as [Hseen Hbefore _ _].
  rewrite update_references_rows in Hok by (done || by rewrite Hops).
  apply bind_Ok in Hok as ([row db1] & Hspec & [= <- <-]). pose proof Hspec as Hrow.
  apply reference_spec_ok in Hspec as (Hdb' & m & Hm & Hdel & Het & Hdims & Hmcs & _ & _ & _); [|done..|by rewrite Hops].
  split; [done|]. split; [|by exists m]. eapply written_stored; [done|done|by rewrite Hmcs, lookup_insert_eq|].
  unfold reference_spec in Hrow. destruct (active_mc _ _); [|done]. rewrite Hm in Hrow.
  do 4 apply bind_Ok in Hrow as (_ & _ & Hrow). destruct (bool_decide _).
  - injection Hrow as <- _. by rewrite Hdel.
  - by apply bind_Ok in Hrow as (_ & _ & [= <- _]).
Qed.

Lemma mc_lifecycle_command_ok (deleting : bool) cs p id expected_etag reason mc db' :
  MutateMasterCodeLifecycle (if deleting then MC_DELETE else MC_RESTORE) (ex_env x) (ex_seen x) cs p id expected_etag
    reason db = Ok (mc, db') →
  conditional_change id expected_etag deleting mc db'.
Proof.
  intros [_ Hok]%command_allowed. apply bind_Ok in Hok as (md & [Hops _]%create_audit_Ok & Hok).
  assert (db_ok db) as Hdb by exact (proj1 Hready). destruct (proj2 Hready) as [Hseen Hbefore _ _].
  assert (change_lifecycle (ex_env x) (ex_seen x) db id expected_etag md (negb deleting) = Ok (mc, db')) as Hc
    by by destruct deleting.
  assert (op_master_code (md_operations md) = Some (if negb deleting then MC_RESTORE else MC_DELETE)) as Hop
    by (rewrite Hops; by destruct deleting).
  rewrite change_lifecycle_rows in Hc by done. apply bind_Ok in Hc as ([row db1] & Hspec & [= <- <-]).
  apply mc_lifecycle_spec_ok in Hspec as (Hdb' & m & Hm & Het & -> & Hdims & Hmcs); [|done..].
  split; [done|]. split; [|by exists m]. eapply written_stored; [done|done|by rewrite Hmcs, lookup_insert_eq|].
  by destruct deleting.
Qed.
End routes.

(** ** The routes *)

Inductive mc_call :=
| McCreate (payload : MasterCodeCreateRequest)
| McGet (id : UUID)
| McUpdateReferences (id : UUID) (payload : MasterCodeReferenceUpdateRequest)
| McDelete (id : UUID) (reason : option pystr)
| McTombstone (id : UUID)
| McRestore (id : UUID) (reason : option pystr).

(** A request: the committed state a failed creation looks its conflicts up in,
    the principal, the headers and the call. *)
Definition mc_serve `{UnicodeData} (x : Execution) (requery : DB) (authenticated : res HumanPrincipal)
    (request : HttpRequest) (db : DB) (call : mc_call) : outcome DB MasterCodeResponse :=
  match call with
  | McCreate payload => create_master_code_route x requery authenticated db payload
  | McGet id => get_master_code_route authenticated db id
  | McUpdateReferences id payload => update_master_code_references_route x authenticated request db id payload
  | McDelete id reason => delete_route x authenticated request db id reason
  | McTombstone id => tombstone_route authenticated db id
  | McRestore id reason => restore_route x authenticated request db id reason
  end.
Definition mc_responses (call : mc_call) : Responses :=
  match call with
  | McCreate _ => create_responses | McGet _ => get_responses | McUpdateReferences _ _ => update_references_responses
  | McDelete _ _ => lifecycle_responses Delete | McTombstone _ => lifecycle_responses Tombstone
  | McRestore _ _ => lifecycle_responses RestoreAction
  end.
Definition mc_deletes (call : mc_call) : bool :=
  match call with McDelete _ _ | McTombstone _ => true | _ => false end.

(** A body the framework let through. *)
Definition mc_call_valid (call : mc_call) : Prop :=
  match call with
  | McUpdateReferences _ payload => require_one_non_null_change (rq_dimensions payload) = Ok (rq_dimensions payload)
  | _ => True
  end.

Definition mc_promise `{UnicodeData} (docs : Responses) (deleted : bool) (db : DB)
    (o : HttpResponse MasterCodeResponse * DB) : Prop :=
  route_promise (same_problem exact_texts) docs db_ok (served_master_code deleted) db o.

Section promises.
Context `{UnicodeData} (x : Execution) (requery : DB) (authenticated : res HumanPrincipal) (request : HttpRequest) (db : DB).
Hypothesis Hready : server_ready x db.
Hypothesis Htoken : token_checked authenticated.
Hypothesis Hpath : master_code_path request.

Lemma mc_promised docs (deleted : bool) status m :
  Forall (λ d, d.1 ≠ 500) docs → success status ∈ docs → status < 400 →
  raises_only (documented_error request docs) m →
  (∀ mc db', m = Ok (mc, db') → db_ok db' ∧ returns_stored db' deleted mc) →
  mc_promise docs deleted db (respond request (after m db (etag_response status (serializer deleted)))).
Proof.
  intros H500 Hin Hstatus He Hok. apply route_promised; [exact (proj1 Hready)|done|done|].
  intros mc db' [Hdb' Hmc]%Hok.
  destruct (stored_served db' deleted status mc Hdb' Hmc) as (r & -> & Hs & Hserved). exists r.
  split_and!; [done| |lia|done|done]. exists []. rewrite Hs. split; [done|].
  destruct Hserved as (? & _ & _ & _ & ->). done.
Qed.

(** A read. *)
Lemma mc_read_promised docs (deleted : bool) (read : HumanPrincipal → res MasterCode) action :
  Forall (λ d, d.1 ≠ 500) docs → success 200 ∈ docs → documented_error request docs InvalidAccessToken →
  (action ≠ READ_DATA → documented_error request docs AuthorizationDenied) →
  (∀ p, raises_only (documented_error request docs) (read p)) →
  (∀ p mc, read p = Ok mc → returns_stored db deleted mc) →
  mc_promise docs deleted db (respond request
    ((p ← guard authenticated action; mc ← read p; etag_response 200 (serializer deleted) mc), db)).
Proof.
  intros H500 Hin Hi Ha Hr Hok.
  assert (((p ← guard authenticated action; mc ← read p; etag_response 200 (serializer deleted) mc), db) =
    after (mc ← (p ← guard authenticated action; read p); Ok (mc, db)) db (etag_response 200 (serializer deleted))) as ->.
  { rewrite <- read_as_after. f_equal. by destruct (guard authenticated action). }
  apply mc_promised; [done|done|lia| |].
  - apply raises_bind; [|intros; apply raises_Ok]. apply raises_bind; [by apply (guard_raises _ _ _ Htoken)|].
    intros p _. apply Hr.
  - intros mc db' (mc' & Hm & [= -> <-])%bind_Ok. apply bind_Ok in Hm as (p & _ & Hm).
    split; [exact (proj1 Hready)|by eapply Hok].
Qed.

(** A conditional change. *)
Lemma mc_conditional_promised docs (deleted : bool) (change : HumanPrincipal → pystr → res (MasterCode * DB)) :
  Forall (λ d, d.1 ≠ 500) docs → success 200 ∈ docs → common_documents request docs → precondition_documents request docs →
  (∀ p tag, raises_only (λ e, invalid_argument e ∨ documented_error request docs e) (change p tag)) →
  (∀ p tag mc db', change p tag = Ok (mc, db') → db_ok db' ∧ returns_stored db' deleted mc) →
  mc_promise docs deleted db (respond request (after
    (p ← guard authenticated MUTATE_DATA; tag ← _parse_master_code_if_match_values (hr_if_match request);
     body_field (change p tag)) db (etag_response 200 (serializer deleted)))).
Proof.
  intros H500 Hin (Hi & Ha & Hv) (H428 & H400 & H412) He Hok. apply mc_promised; [done|done|lia| |].
  - apply raises_bind; [by apply (guard_raises _ _ _ Htoken)|]. intros p _.
    apply raises_bind; [by apply etag_values_raise|]. intros tag _. by apply body_field_raises.
  - intros mc db' (p & _ & Hm)%bind_Ok. apply bind_Ok in Hm as (tag & _ & Hm). apply body_field_Ok in Hm.
    by eapply Hok.
Qed.

Lemma mc_no_500 call : Forall (λ d, d.1 ≠ 500) (mc_responses call).
Proof. destruct call; cbn [mc_responses]; rewrite ?lifecycle_responses_cases; repeat constructor; discriminate. Qed.

Lemma lifecycle_lists action :
  success 200 ∈ lifecycle_responses action ∧
  (action ≠ Tombstone → precondition_documents request (lifecycle_responses action)).
Proof.
  split; [rewrite lifecycle_responses_cases; by left|]. intros Ha. apply preconditions_documented; [done|].
  rewrite lifecycle_responses_cases. intros d Hd. do 2 (apply elem_of_app; right). by destruct action.
Qed.

Lemma mc_create_promised payload :
  mc_promise create_responses false db (respond request (create_master_code_route x requery authenticated db payload)).
Proof.
  destruct (create_documented request) as ((Hi & Ha & Hv) & Hc & Hr & Hin).
  apply (mc_promised _ false 201); [exact (mc_no_500 (McCreate payload))|by left|lia| |].
  - apply raises_bind; [by apply (guard_raises _ _ _ Htoken)|]. intros p _. apply body_field_raises; [|exact Hv].
    apply CreateMasterCode_raises; try done; [apply Hready|apply Hready|apply create_input_wf].
  - intros mc db' (p & _ & Hm)%bind_Ok. apply body_field_Ok in Hm.
    by eapply mc_create_command_ok, Hm; [|apply create_input_wf].
Qed.

Lemma mc_get_promised id :
  mc_promise get_responses false db (respond request (get_master_code_route authenticated db id)).
Proof.
  destruct (get_documented request) as [Hi Hn].
  assert (∀ m, active_mc db id = Some m → joined_to_domain db m = Ok (stored_mc db m)) as Hdom.
  { intros m [Hm _]%active_mc_Some. exact (joined_to_domain_ok id m db (proj1 Hready) Hm). }
  apply (mc_read_promised _ false (λ p, GetMasterCode p id db)); [exact (mc_no_500 (McGet id))|by left|done|done|..];
    intros p; unfold GetMasterCode; rewrite authorize_read; cbn [mbind result_bind]; unfold MasterCodeRepo.get_active.
  - destruct (active_mc db id) as [m|]; [rewrite (Hdom m) by done; apply raises_Ok|by apply raises_Raise].
  - intros mc Hok. destruct (active_mc db id) as [m|] eqn:E; [|done]. rewrite (Hdom m) in Hok by done.
    injection Hok as <-. apply active_mc_Some in E as [Hm Hdel].
    destruct (so_mc _ (proj1 (proj1 Hready)) _ _ Hm) as [<- _]. exists m. by rewrite Hdel.
Qed.

Lemma mc_tombstone_promised id :
  mc_promise (lifecycle_responses Tombstone) true db (respond request (tombstone_route authenticated db id)).
Proof.
  destruct (lifecycle_documented request Tombstone) as ((Hi & Ha & Hv) & Hn & Hd & _).
  assert (∀ m, mcs db !! id = Some m → joined_to_domain db m = Ok (stored_mc db m)) as Hdom.
  { intros m Hm. exact (joined_to_domain_ok id m db (proj1 Hready) Hm). }
  apply (mc_read_promised _ true (λ p, GetMasterCodeTombstone p id db));
    [exact (mc_no_500 (McTombstone id))|by left|done|done|..];
    intros p; unfold GetMasterCodeTombstone, MasterCodeRepo.get_tombstone.
  - apply raises_bind; [unfold authorize; by raises|]. intros _ _.
    destruct (mcs db !! id) as [m|]; [rewrite (Hdom m) by done|by apply raises_Raise].
    raises. by apply Hd.
  - intros mc (_ & _ & Hok)%bind_Ok. destruct (mcs db !! id) as [m|] eqn:Hm; [|done]. rewrite (Hdom m) in Hok by done.
    apply bind_Ok in Hok as (c & [= <-] & Hok). apply bind_Ok in Hok as (_ & Hdel%raise_if_Ok%negb_false_iff & [= <-]).
    destruct (so_mc _ (proj1 (proj1 Hready)) _ _ Hm) as [<- _]. exists m. split_and!; [done|done|].
    unfold mc_is_deleted, stored_mc, mc_of in Hdel. cbn [mc_deleted_at] in Hdel. by destruct (m_deleted_at m).
Qed.

Lemma mc_update_promised id payload :
  require_one_non_null_change (rq_dimensions payload) = Ok (rq_dimensions payload) →
  mc_promise update_references_responses false db
    (respond request (update_master_code_references_route x authenticated request db id payload)).
Proof.
  intros [changes Hch]%update_input_Ok. destruct (update_documented request) as (Hcommon & Hn & Hc & Hr).
  assert (precondition_documents request update_references_responses) as Hpre.
  { apply preconditions_documented; [done|]. intros d Hd. apply list_elem_of_In in Hd. cbn in Hd. listed. }
  unfold update_master_code_references_route. rewrite Hch. cbn [mbind result_bind].
  apply (mc_conditional_promised _ false (λ p tag, UpdateMasterCodeReferences (ex_env x) (ex_seen x) _ p id changes tag _ db));
    try done; [exact (mc_no_500 (McUpdateReferences id payload))|by left|..].
  - intros p tag. apply mc_update_command_raises; try done; [apply Hcommon|]. intros _. apply Hpre.
  - intros p tag mc db' Hm. destruct (mc_update_command_ok x db Hready _ p id _ _ _ _ _ Hm) as (? & ? & _). done.
Qed.

Lemma mc_lifecycle_promised (deleting : bool) id reason action :
  action = (if deleting then Delete else RestoreAction) →
  mc_promise (lifecycle_responses action) deleting db (respond request (after
    (p ← guard authenticated MUTATE_DATA; tag ← _parse_master_code_if_match_values (hr_if_match request);
     body_field (MutateMasterCodeLifecycle (if deleting then MC_DELETE else MC_RESTORE) (ex_env x) (ex_seen x)
       (ex_change_set_id x) p id tag reason db)) db (etag_response 200 (serializer deleting)))).
Proof.
  intros Haction. destruct (lifecycle_documented request action) as (Hcommon & Hn & Hd & Hi).
  destruct (lifecycle_lists action) as [Hin Hpre].
  apply (mc_conditional_promised _ deleting (λ p tag, MutateMasterCodeLifecycle _ (ex_env x) (ex_seen x) _ p id tag reason db));
    try done.
  - destruct deleting; subst action; [exact (mc_no_500 (McDelete id reason))|exact (mc_no_500 (McRestore id reason))].
  - apply Hpre. by destruct deleting; subst action.
  - intros p tag. apply mc_lifecycle_command_raises; try done; [apply Hcommon|..].
    + intros ->. by apply Hd; subst action.
    + intros ->. by apply Hi.
    + intros _. apply Hpre. by destruct deleting; subst action.
  - intros p tag mc db' Hm. destruct (mc_lifecycle_command_ok x db Hready deleting _ p id _ _ _ _ Hm) as (? & ? & _). done.
Qed.

End promises.

(** The MasterCode a call is conditional on. *)
Definition mc_target (call : mc_call) : option UUID :=
  match call with
  | McUpdateReferences id _ | McDelete id _ | McRestore id _ => Some id
  | _ => None
  end.

Lemma mc_call_promised `{UnicodeData} x requery authenticated request db call :
  server_ready x db → token_checked authenticated → (is_Some (mc_target call) → master_code_path request) →
  mc_call_valid call →
  mc_promise (mc_responses call) (mc_deletes call) db (respond request (mc_serve x requery authenticated request db call)).
Proof.
  intros Hready Htoken Hpath Hvalid. destruct call as [payload|id|id payload|id reason|id|id reason].
  - by apply mc_create_promised.
  - by apply (mc_get_promised x).
  - apply mc_update_promised; try done. by apply Hpath.
  - apply (mc_lifecycle_promised x authenticated request db Hready Htoken ltac:(by apply Hpath) true); done.
  - by apply (mc_tombstone_promised x).
  - apply (mc_lifecycle_promised x authenticated request db Hready Htoken ltac:(by apply Hpath) false); done.
Qed.

(** *** The listing *)

(** A row and the MasterCode shown of it, with its Dimensions. *)
Definition shown_master_code (db : DB) (m : McRow) (item : MasterCodeResponse) : Prop :=
  item = master_code_response (stored_mc db m) (dimension_responses (joined_dims db m)).
(** The times of the rows are dates of the calendar, and their keys UUIDs. *)
Definition master_codes_dated (db : DB) : Prop :=
  ∀ id m, mcs db !! id = Some m → in_calendar (m_created_at m) ∧ uuid_ok (m_id m).

Definition mc_listing_promise `{UnicodeData} fromisoformat authenticated request db cursor limit
    (o : HttpResponse MasterCodeListResponse * DB) : Prop :=
  listing_promise (same_problem exact_texts) list_responses request (guard authenticated READ_DATA)
    (decoded (_decode_cursor fromisoformat) cursor)
    (λ _ after body, rows_listed mc_key (_decode_cursor fromisoformat) (shown_master_code db) (active_mc_rows db) after
                     (Z.to_nat limit) (ml_items body) (ml_next_cursor body)) db o.

Lemma mc_list_promised `{UnicodeData} fromisoformat authenticated request db cursor limit :
  (∀ t, in_calendar t → fromisoformat (isoformat t) = Some (utc t)) →
  db_ok db → token_checked authenticated → master_codes_dated db → 1 ≤ limit ≤ 100 →
  mc_listing_promise fromisoformat authenticated request db cursor limit
    (respond request (list_master_codes_route fromisoformat authenticated db cursor limit)).
Proof.
  intros Hiso Hdb Htoken Hdated Hl.
  assert (∀ e, e = InvalidAccessToken ∨ (∃ f m, e = DimensionValidationError f m) →
    documented_error request list_responses e) as Hdoc by (intros e [->|(f & m & ->)]; documents).
  apply listing_promised.
  - listed.
  - by repeat constructor.
  - apply guard_raises; [done|by apply Hdoc; left|done].
  - apply decoded_raises. intros text. eapply raises_impl; [apply decode_cursor_raises|].
    intros e <-. split; [apply Hdoc; right; eauto|reflexivity].
  - intros p after _ _. unfold ListMasterCodes. rewrite authorize_read. cbn [mbind result_bind].
    rewrite page_limit_Ok by done. cbn [mbind result_bind]. unfold MasterCodeRepo.list_active. cbv zeta.
    destruct (listing_shown mc_key (_decode_cursor fromisoformat) (shown_master_code db) (joined_to_domain db) _response
      master_code_position _encode_cursor (active_mc_rows db) after (Z.to_nat limit)) as (ds & cs & Hds & Hcs & Hlisted & Hnext).
    + apply (distinct_keys_ids _ m_id); [done|]. apply NoDup_fmap_filter, mc_rows_NoDup, Hdb.
    + lia.
    + intros m [[k Hm]%elem_of_mc_rows Hdel%bool_decide_eq_true]%elem_of_filter_bool.
      destruct (Hdated k m Hm) as [Hcal Hid]. exists (stored_mc db m), (master_code_response (stored_mc db m) (dimension_responses (joined_dims db m))).
      split_and!; [by eapply joined_to_domain_ok| |done|done|by apply cursor_decodes].
      unfold _response, stored_mc, mc_of. cbn [mc_deleted_at mc_dimensions]. rewrite Hdel.
      cbn [fmap option_fmap option_map present raise_if mbind result_bind]. by rewrite stored_dimensions_serialize by apply Hdb.
    + rewrite Hds. eexists _, _. split; [reflexivity|]. unfold _page_response. cbn [page_items]. rewrite Hcs.
      cbn [mbind result_bind]. rewrite (next_cursor_fits _ mc_key) by exact Hnext. split; [reflexivity|]. exact Hlisted.
Qed.


(** ** Conditional requests *)

Section tags.
Context `{UnicodeData}.

(** Two states show one MasterCode alike: its row and its references. *)
Definition same_representation (db db' : DB) (id : UUID) : Prop :=
  ∃ m, mcs db !! id = Some m ∧ mcs db' !! id = Some m ∧ ∀ s, joined_slot db m s = joined_slot db' m s.
(** The identifier column holds 128-bit identifiers. *)
Definition dimension_ids_ok (db : DB) : Prop := ∀ s id r, dims db !! (s, id) = Some r → uuid_ok id.

Lemma etag_matches_pattern m : etag_pattern (etag m) = true.
Proof.
  destruct (sha256_hexdigest_shape (etag_payload m)) as [Hlen Hhex].
  assert (etag m = (quote :: py "mc-") ++ [49] ++ dash :: sha256_hexdigest (etag_payload m) ++ [quote]) as -> by done.
  unfold etag_pattern. assert (∀ p s : pystr, Uuids.strip_prefix p (p ++ s) = Some s) as Hstrip.
  { intros p s. induction p as [|c p IH]; cbn; [done|]. by rewrite Z.eqb_refl. }
  rewrite Hstrip, span_digits_app by (done || by repeat constructor). cbn [negb Z.eqb andb].
  rewrite take_app_length', drop_app_length' by done. rewrite Hlen.
  rewrite (proj2 (forallb_Forall _ _)) by done. by rewrite bool_decide_eq_true_2.
Qed.

Lemma stored_ids_ok db m : store_ok db → dimension_ids_ok db → dims_ids_ok (joined_dims db m).
Proof.
  intros Hok Hids s d Hd. pose proof (joined_dims_slot db m s Hok) as Hj.
  destruct (joined_slot db m s) as [r|] eqn:E; [|by rewrite Hj in Hd].
  destruct Hj as (d' & Hd' & Hrow & _). assert (d' = d) as -> by congruence.
  apply row_dimension_fields in Hrow as [-> _]. apply joined_slot_Some in E as (ref & _ & Hr).
  destruct (so_dim _ Hok _ _ _ Hr) as [-> _]. by eapply Hids.
Qed.

(** The key of a slot is the reference and the version of its row. *)
Lemma stored_slot_key db m s :
  store_ok db → slot_key (get_slot (joined_dims db m) s) = (λ r, (r_id r, r_version r)) <$> joined_slot db m s.
Proof.
  intros Hok. pose proof (joined_dims_slot db m s Hok) as Hj. destruct (joined_slot db m s) as [r|]; [|by rewrite Hj].
  destruct Hj as (d & -> & Hrow & _). apply row_dimension_fields in Hrow as (Hi & _ & Hv & _). cbn. by rewrite Hi, Hv.
Qed.

Lemma same_representation_etag db db' id m :
  store_ok db → store_ok db' → mcs db !! id = Some m → same_representation db db' id →
  mcs db' !! id = Some m ∧ etag (stored_mc db' m) = etag (stored_mc db m).
Proof.
  intros Hok Hok' Hm (m' & Hm' & Hn & Hs). assert (m' = m) as -> by congruence. split; [done|].
  apply etag_digest_inj. rewrite (etag_payload_ext (stored_mc db' m) (stored_mc db m)); [done|done|].
  intros s. unfold stored_mc, mc_of. cbn [mc_dimensions]. by rewrite !stored_slot_key, Hs.
Qed.

(** Along any commands, equal ETags mean the same representation. *)
Lemma etag_same_representation db db' id m m' :
  db_ok db → rtc command_step db db' → dimension_ids_ok db → dimension_ids_ok db' →
  mcs db !! id = Some m → mcs db' !! id = Some m' → etag (stored_mc db m) = etag (stored_mc db' m') →
  same_representation db db' id ∨ sha256_collision (etag_payload (stored_mc db m)) (etag_payload (stored_mc db' m')).
Proof.
  intros Hdb Hrtc Hids Hids' Hm Hm' Heq%etag_digest_inj. destruct (command_steps_keep _ _ Hdb Hrtc) as [Hdb' Hprog].
  destruct (decide (etag_payload (stored_mc db m) = etag_payload (stored_mc db' m'))) as [Hp|Hp]; [left|by right].
  apply etag_payload_inj in Hp as [Hv Hk]; [|apply stored_ids_ok; [apply Hdb|done]|apply stored_ids_ok; [apply Hdb'|done]].
  destruct (command_steps_mcs _ _ Hdb Hrtc _ _ Hm) as (m2 & Hm2 & _ & Hsame). assert (m2 = m') as -> by congruence.
  unfold stored_mc, mc_of in Hv. cbn [mc_version] in Hv. rewrite Hsame in * by done.
  exists m. split_and!; [done|done|]. intros s. specialize (Hk s).
  unfold stored_mc, mc_of in Hk. cbn [mc_dimensions] in Hk.
  rewrite !stored_slot_key in Hk by (apply Hdb || apply Hdb').
  destruct (joined_slot db m s) as [r|] eqn:Er; [|by destruct (joined_slot db' m s)].
  destruct (joined_slot db' m s) as [r'|] eqn:Er'; [|done]. injection Hk as Hid Hver.
  apply joined_slot_Some in Er as (ref & Href & Hr). apply joined_slot_Some in Er' as (ref' & Href' & Hr').
  assert (ref' = ref) as -> by congruence. destruct (Hprog _ _ _ Hr) as (r2 & Hr2 & Hcase).
  assert (r2 = r') as -> by congruence. destruct Hcase as [->|Hlt]; [done|lia].
Qed.
End tags.

Section conditional.
Context `{UnicodeData} (x : Execution) (requery : DB) (p : HumanPrincipal) (request : HttpRequest) (db : DB) (tag : pystr).
Hypothesis Hready : server_ready x db.
Hypothesis Hmatch : hr_if_match request = [tag].
Hypothesis Htag : etag_pattern tag = true.

Lemma if_match_tag : _parse_master_code_if_match_values (hr_if_match request) = Ok tag.
Proof. rewrite Hmatch. cbn. by rewrite Htag. Qed.

(** A change that succeeds found the representation with that ETag. *)
Lemma mc_call_found call id :
  mc_call_valid call → mc_target call = Some id →
  rs_status (respond request (mc_serve x requery (Ok p) request db call)).1 < 400 →
  ∃ m, mcs db !! id = Some m ∧ etag (stored_mc db m) = tag.
Proof.
  intros Hvalid Hcond.
  assert (∀ (m : HumanPrincipal → pystr → res (MasterCode * DB)) (k : MasterCode → res (HttpResponse MasterCodeResponse)),
    rs_status (respond request (after (p ← guard (Ok p) MUTATE_DATA;
      v ← _parse_master_code_if_match_values (hr_if_match request); body_field (m p v)) db k)).1 < 400 →
    ∃ p mc db', m p tag = Ok (mc, db')) as Hgo.
  { intros m k Hs. apply after_Ok in Hs as (mc & db' & Hok). apply bind_Ok in Hok as (q & _ & Hok).
    rewrite if_match_tag in Hok. apply body_field_Ok in Hok. by exists q, mc, db'. }
  destruct call as [|id' |id' payload|id' reason| |id' reason]; try discriminate Hcond; injection Hcond as ->;
    unfold mc_serve.
  - destruct (update_input_Ok _ Hvalid) as [changes Hch]. unfold update_master_code_references_route. rewrite Hch.
    intros (q & mc & db' & Hok)%(Hgo (λ q v, UpdateMasterCodeReferences _ _ _ q id changes v _ db)).
    eapply mc_update_command_ok in Hok as (_ & _ & ?); done.
  - intros (q & mc & db' & Hok)%(Hgo (λ q v, DeleteMasterCode _ _ _ q id v _ db)).
    eapply (mc_lifecycle_command_ok x db Hready true) in Hok as (_ & _ & ?); done.
  - intros (q & mc & db' & Hok)%(Hgo (λ q v, RestoreMasterCode _ _ _ q id v _ db)).
    eapply (mc_lifecycle_command_ok x db Hready false) in Hok as (_ & _ & ?); done.
Qed.

Abbreviation no_precondition := (no_precondition MasterCodeResponse request).

Lemma mc_guarded (deleted : bool) (m : HumanPrincipal → pystr → res (MasterCode * DB)) :
  (∀ q, raises_only (λ e, invalid_argument e ∨ no_precondition e) (m q tag)) →
  rs_status (respond request (after (q ← guard (Ok p) MUTATE_DATA;
    v ← _parse_master_code_if_match_values (hr_if_match request); body_field (m q v)) db
    (etag_response 200 (serializer deleted)))).1 ∉ [400; 412; 428].
Proof.
  intros Hm. apply after_status.
  - apply raises_bind; [apply guard_raises|intros q _].
    + by intros e [=].
    + no_precondition_status.
    + intros _. no_precondition_status.
    + rewrite if_match_tag. cbn [mbind result_bind]. apply body_field_raises; [apply Hm|].
      intros. no_precondition_status.
  - intros mc db' _. apply raises_bind; [|intros; apply raises_Ok].
    destruct deleted; unfold serializer, _tombstone_response, _response, MasterCodeDimensionsResponse_init; raises;
      no_precondition_status.
  - by intros mc r (r' & _ & [= <-])%bind_Ok.
Qed.

Lemma mc_call_fresh call id :
  mc_call_valid call → mc_target call = Some id → etag_current (ex_seen x) db id tag →
  rs_status (respond request (mc_serve x requery (Ok p) request db call)).1 ∉ [400; 412; 428].
Proof.
  intros Hvalid Hcond Hcur. assert (¬ etag_current (ex_seen x) db id tag → no_precondition PreconditionFailed) as Hpre by done.
  destruct call as [|id' |id' payload|id' reason| |id' reason]; try discriminate Hcond; injection Hcond as ->;
    unfold mc_serve.
  - destruct (update_input_Ok _ Hvalid) as [changes Hch]. unfold update_master_code_references_route. rewrite Hch.
    apply (mc_guarded false (λ q v, UpdateMasterCodeReferences _ _ _ q id changes v _ db)). intros q.
    apply mc_update_command_raises; try done; intros; no_precondition_status.
  - apply (mc_guarded true (λ q v, DeleteMasterCode _ _ _ q id v _ db)). intros q.
    apply (mc_lifecycle_command_raises x db Hready _ true); try done; intros; no_precondition_status.
  - apply (mc_guarded false (λ q v, RestoreMasterCode _ _ _ q id v _ db)). intros q.
    apply (mc_lifecycle_command_raises x db Hready _ false); try done; intros; no_precondition_status.
Qed.
End conditional.

(** C35: the ETag of any success of a MasterCode route guards the next change of
    that MasterCode, whatever commands committed in between: a change
    conditional on it succeeds only if the row and every Dimension it references
    are still the ones that response showed (or two explicit payloads collide
    under SHA-256), so neither its own updates nor those of its Dimensions are
    overlooked; and while they are, and the unlocked read sees the row, the
    precondition is never refused. *)
Theorem master_code_etag_guards `{UnicodeData} x0 x requery0 requery authenticated p request0 request db0 db call0 call
    body id :
  server_ready x0 db0 → token_checked authenticated → (is_Some (mc_target call0) → master_code_path request0) →
  mc_call_valid call0 →
  let o := respond request0 (mc_serve x0 requery0 authenticated request0 db0 call0) in
  rs_status o.1 < 400 → rs_content o.1 = BodyContent body → mr_id body = id →
  rtc command_step o.2 db → server_ready x db → dimension_ids_ok o.2 → dimension_ids_ok db →
  (λ v, ("ETag"%string, v)) <$> hr_if_match request = rs_headers o.1 →
  mc_target call = Some id → mc_call_valid call →
  let r := (respond request (mc_serve x requery (Ok p) request db call)).1 in
  (rs_status r < 400 → same_representation o.2 db id ∨
     ∃ m m', mcs o.2 !! id = Some m ∧ mcs db !! id = Some m' ∧
       sha256_collision (etag_payload (stored_mc o.2 m)) (etag_payload (stored_mc db m'))) ∧
  (same_representation o.2 db id → mcs (ex_seen x) !! id = mcs db !! id → rs_status r ∉ [400; 412; 428]).
Proof.
  intros Hready0 Htoken Hpath Hvalid0 o Hs Hbody Hid Hrtc Hready Hids0 Hids Htag Hcond Hvalid r. subst r.
  destruct (mc_call_promised x0 requery0 authenticated request0 db0 call0 Hready0 Htoken Hpath Hvalid0)
    as (_ & _ & Hdb & _ & Hserved). fold o in Hdb, Hserved.
  destruct (Hserved Hs) as (m & Hm & _ & Hh & Hc). rewrite Hbody in Hc. injection Hc as ->.
  cbn [mr_id master_code_response stored_mc mc_of mc_id] in Hid. change (m_id m = id) in Hid. rewrite Hid in Hm.
  rewrite Hh in Htag.
  assert (hr_if_match request = [etag (stored_mc o.2 m)]) as Hmatch.
  { destruct (hr_if_match request) as [|v [|v2 l]]; try done. cbn in Htag. by injection Htag as ->. }
  pose proof (etag_matches_pattern (stored_mc o.2 m)) as Hpat. split.
  - intros Hok. destruct (mc_call_found x requery p request db _ Hready Hmatch Hpat call id Hvalid Hcond Hok)
      as (m' & Hm' & Heq).
    destruct (etag_same_representation o.2 db id m m' Hdb Hrtc Hids0 Hids Hm Hm' (eq_sym Heq)); [by left|].
    right. by exists m, m'.
  - intros Hsame Hseen. eapply mc_call_fresh; try done. exists m.
    destruct (same_representation_etag o.2 db id m) as [Hm' He]; [apply Hdb|apply Hready|done|done|].
    rewrite Hseen. done.
Qed.

(** ** Witnesses *)

#[local] Existing Instance ascii_data.

Definition mc_execution : Execution := mkExecution (sample_env 200 77 88) sample_db (test_uuid7 2).
Definition mc_principal : HumanPrincipal := mkHumanPrincipal 5 ADMIN.
Definition mc_request (tag : pystr) : HttpRequest :=
  mkHttpRequest (py "/api/v1/master-codes/00000000-0000-0000-0000-000000000009") "DELETE" [tag] false.
Definition mc_body : MasterCodeResponse :=
  master_code_response (stored_mc sample_db sample_mc) (dimension_responses (joined_dims sample_db sample_mc)).

Lemma mc_ready : server_ready mc_execution sample_db.
Proof. split; [exact sample_db_ok|exact (sample_served 200)]. Qed.

Lemma sample_ids_ok : dimension_ids_ok sample_db.
Proof.
  assert (map_Forall (λ k (_ : DimRow), uuid_ok k.2) (dims sample_db)) as Hall.
  { unfold uuid_ok. apply (bool_decide_unpack _). vm_compute. exact I. }
  intros s id r Hr. exact (Hall (s, id) r Hr).
Qed.

Abbreviation sample_mc_list cursor := (list_master_codes_route read_iso (Ok mc_principal) sample_db cursor 1).
Lemma sample_mcs_dated : master_codes_dated sample_db.
Proof.
  assert (map_Forall (λ _ (m : McRow), in_calendar (m_created_at m) ∧ uuid_ok (m_id m)) (mcs sample_db)) as Hall.
  { unfold in_calendar, uuid_ok. apply (bool_decide_unpack _). vm_compute. exact I. }
  intros id m Hm. exact (Hall id m Hm).
Qed.


Lemma master_code_etag_guards_witness :
  rs_status (respond (mc_request sample_etag) (mc_serve mc_execution sample_db (Ok mc_principal) (mc_request sample_etag)
    sample_db (McDelete 9 None))).1 ∉ [400; 412; 428].
Proof.
  apply (master_code_etag_guards mc_execution mc_execution sample_db sample_db (Ok mc_principal) mc_principal
    (mc_request sample_etag) (mc_request sample_etag) sample_db sample_db (McGet 9) (McDelete 9 None) mc_body 9 mc_ready).
  - by intros e [=].
  - reflexivity.
  - exact I.
  - vm_compute. reflexivity.
  - vm_compute. reflexivity.
  - reflexivity.
  - apply rtc_refl.
  - exact mc_ready.
  - exact sample_ids_ok.
  - exact sample_ids_ok.
  - vm_compute. reflexivity.
  - reflexivity.
  - exact I.
  - exists sample_mc. split_and!; [vm_compute; reflexivity|vm_compute; reflexivity|reflexivity].
  - reflexivity.
Defined.
