(* ===== verification/ChangeRequestEndpoints.v ===== *)
(** * The endpoints of change requests
    ([src/src/mdm/api/change_requests.py])

    Submission of a proposal, its reads and listings by the requester and by
    reviewers, its approval and its rejection, with the responses they
    document.  [fromisoformat] reads the time of a cursor.  A proposal
    is a body on the way in, a JSON object in the tables, and a body again in
    every response. *)

From Stdlib Require Import Ascii String.
From S2P Require Import Prelude Python Exceptions Uuids Auth MutationAudit Dimensions MasterCodes Store Records Pagination DimensionRepos MasterCodeRepo Commands ChangeRequests ChangeRequestRepo Problems Preconditions Cursors Endpoints MasterCodeEndpoints.
Local Open Scope Z_scope.

(** ** Bodies *)

(** [OriginalProposalInput], and [ApprovalProposalInput] with a restoration.
    The slots of an update are [ProposedReferenceChanges]: [None] outside
    [model_fields_set], [Some None] when the body says null. *)
Abbreviation ProposedReferenceChanges := (Slots (option (option SelectionBody))).
Inductive ProposalInput :=
| CreateChangeProposal (dimensions : Slots SelectionBody)
| UpdateChangeProposal (target_id : UUID) (expected_etag : pystr) (dimensions : ProposedReferenceChanges)
| DeleteChangeProposal (target_id : UUID) (expected_etag : pystr)
| RestoreChangeProposal (target_id : UUID) (expected_etag : pystr) (dimensions : Slots ReferenceBody).

Definition require_changes (value : ProposedReferenceChanges) : res ProposedReferenceChanges :=
  _ ← raise_if (forallb (λ s, absent (at_slot value s)) ORDER
                || existsb (λ s, match at_slot value s with Some None => true | _ => false end) ORDER)
        (ValueError "변경할 자리를 하나 이상 입력하며 null 대신 NOT_APPLICABLE을 사용해야 합니다.");
  Ok value.

Record SubmitChangeRequestInput := mkSubmitChangeRequestInput {
  sq_proposal : ProposalInput; sq_reason : option pystr;
}.
(** The fields of an approval: [None] outside [model_fields_set]. *)
Record ApproveChangeRequestInput := mkApproveChangeRequestInput {
  aq_approved_proposal : option (option ProposalInput); aq_review_message : option (option pystr);
}.
Definition validate_optional_fields (value : ApproveChangeRequestInput) : res ApproveChangeRequestInput :=
  _ ← raise_if (match aq_approved_proposal value with Some None => true | _ => false end
                || match aq_review_message value with Some None => true | _ => false end)
        (ValueError "선택 필드는 생략할 수 있지만 null은 허용하지 않습니다.");
  match aq_review_message value with
  | Some (Some message) => _ ← ReviewMessage_init message; Ok value
  | _ => Ok value
  end.

(** *** What the fields accept *)

(** [ExpectedEtag] has the pattern of [etag_pattern]; the codes 1 to 32
    characters; the unit the pattern of a unit between spaces. *)
Definition code_field (code : pystr) : bool := (1 <=? length code)%nat && (length code <=? 32)%nat.
Definition unit_field (unit : pystr) : bool :=
  match strip space unit with
  | [a; b] => existsb (Z.eqb a) (py "MmGgTtPp") && existsb (Z.eqb b) (py "Bb")
  | _ => false
  end.
(** [StringCreateInput], [YearCreateInput], [NetworkCreateInput] and
    [MasterCodeMemoryValueInput] *)
Definition value_field (s : slot) (value : ValueInput) : bool :=
  match s, value with
  | (Company | Brand | Model | Category | Country), StringInput text => (1 <=? length text)%nat
  | Year, IntegerInput z => (2000 <=? z) && (z <=? 2999)
  | Network, IntegerInput z => (1 <=? z) && (z <=? 5)
  | Memory, MemoryValueInput amount unit => (1 <=? amount) && (amount <=? 2147483647) && unit_field unit
  | _, _ => false
  end.
Definition selection_field (s : slot) (value : SelectionBody) : bool :=
  match value with CreateSelected code v => code_field code && value_field s v | _ => true end.
Definition change_field (s : slot) (value : option (option SelectionBody)) : bool :=
  match value with Some (Some v) => selection_field s v | _ => true end.

(** A body the models accept. *)
Definition proposal_field (value : ProposalInput) : bool :=
  match value with
  | CreateChangeProposal dimensions => forallb (λ s, selection_field s (at_slot dimensions s)) ORDER
  | UpdateChangeProposal _ tag dimensions =>
      etag_pattern tag && forallb (λ s, change_field s (at_slot dimensions s)) ORDER && is_ok (require_changes dimensions)
  | DeleteChangeProposal _ tag | RestoreChangeProposal _ tag _ => etag_pattern tag
  end.
Definition is_restoration (value : ProposalInput) : bool :=
  match value with RestoreChangeProposal _ _ _ => true | _ => false end.

(** ** Proposals as JSON *)

(** [model_dump(mode="json", exclude_unset=True)] *)
Definition value_json (value : ValueInput) : pyval :=
  match value with
  | StringInput text => VStr text
  | IntegerInput z => VInt z
  | MemoryValueInput amount unit => VDict [(py "amount", VInt amount); (py "unit", VStr unit)]
  end.
Definition selection_json (value : SelectionBody) : pyval :=
  VDict (match value with
         | ReferenceSelected id => [(py "mode", VStr (py "REFERENCE")); (py "id", VStr (uuid_str id))]
         | CreateSelected code v => [(py "mode", VStr (py "CREATE")); (py "code", VStr code); (py "value", value_json v)]
         | NotApplicableSelected => [(py "mode", VStr (py "NOT_APPLICABLE"))]
         end).
Definition reference_json (value : ReferenceBody) : pyval :=
  selection_json (match value with ReferenceChange id => ReferenceSelected id | NotApplicableChange => NotApplicableSelected end).
Definition slots_json (f : slot → option pyval) : list (pystr * pyval) :=
  [(py "dimensions", VDict (omap (λ s, v ← f s; Some (py (slot_name s), v)) ORDER))].
Definition change_json (value : option (option SelectionBody)) : option pyval :=
  match value with None => None | Some None => Some VNone | Some (Some v) => Some (selection_json v) end.
Definition payload_json (value : ProposalInput) : option (list (pystr * pyval)) :=
  match value with
  | CreateChangeProposal dimensions => Some (slots_json (λ s, Some (selection_json (at_slot dimensions s))))
  | UpdateChangeProposal _ _ dimensions => Some (slots_json (λ s, change_json (at_slot dimensions s)))
  | RestoreChangeProposal _ _ dimensions => Some (slots_json (λ s, Some (reference_json (at_slot dimensions s))))
  | DeleteChangeProposal _ _ => None
  end.

Definition proposal_operation (value : ProposalInput) : ChangeOperation :=
  match value with
  | CreateChangeProposal _ => OP_CREATE | UpdateChangeProposal _ _ _ => OP_REFERENCE_UPDATE
  | DeleteChangeProposal _ _ => OP_DELETE | RestoreChangeProposal _ _ _ => OP_RESTORE
  end.
Definition proposal_target (value : ProposalInput) : option (UUID * pystr) :=
  match value with
  | CreateChangeProposal _ => None
  | UpdateChangeProposal id tag _ | DeleteChangeProposal id tag | RestoreChangeProposal id tag _ => Some (id, tag)
  end.

Definition _to_proposal `{UnicodeData} (value : ProposalInput) : res ChangeProposal :=
  proposal ← ChangeProposal_init (mkChangeProposal (proposal_operation value) (fst <$> proposal_target value)
               (ProposalPayload_from_dict <$> payload_json value) (snd <$> proposal_target value));
  _ ← validate_proposal proposal;
  Ok proposal.

(** ** Proposals in responses

    [model_validate] over the fields the models declare.  [uuid_input] is the
    framework's reading of the text of a UUID. *)

Section validate.
Context (uuid_input : pystr → option UUID).

Definition value_of_json (v : pyval) : option ValueInput :=
  match v with
  | VStr text => Some (StringInput text)
  | VInt z => Some (IntegerInput z)
  | VDict entries =>
      if keys_are [py "amount"; py "unit"] entries then
        match dict_get (py "amount") entries, dict_get (py "unit") entries with
        | Some (VInt amount), Some (VStr unit) => Some (MemoryValueInput amount unit)
        | _, _ => None
        end
      else None
  | _ => None
  end.

(** The union of the inputs of a slot, by the discriminator [mode]. *)
Definition selection_of_json (s : slot) (v : pyval) : option SelectionBody :=
  match v with
  | VDict entries =>
      let mode := dict_get (py "mode") entries in
      if is_text mode "REFERENCE" && keys_are [py "mode"; py "id"] entries then
        match dict_get (py "id") entries with
        | Some (VStr text) => id ← uuid_input text; Some (ReferenceSelected id)
        | _ => None
        end
      else if is_text mode "CREATE" && keys_are [py "mode"; py "code"; py "value"] entries then
        match dict_get (py "code") entries, dict_get (py "value") entries with
        | Some (VStr code), Some raw =>
            value ← value_of_json raw;
            if code_field code && value_field s value then Some (CreateSelected code value) else None
        | _, _ => None
        end
      else if is_text mode "NOT_APPLICABLE" && keys_are [py "mode"] entries then Some NotApplicableSelected
      else None
  | _ => None
  end.
(** [ReferenceUpdateSelectionInput] has no creation. *)
Definition reference_of_json (s : slot) (v : pyval) : option ReferenceBody :=
  match selection_of_json s v with
  | Some (ReferenceSelected id) => Some (ReferenceChange id)
  | Some NotApplicableSelected => Some NotApplicableChange
  | _ => None
  end.
Definition change_of_json (s : slot) (v : option pyval) : option (option (option SelectionBody)) :=
  match v with
  | None => Some None
  | Some VNone => Some (Some None)
  | Some v => x ← selection_of_json s v; Some (Some (Some x))
  end.

(** The eight slots of [dimensions], and no other key. *)
Definition every_slot {A} (f : slot → option A) : option (Slots A) :=
  company ← f Company; brand ← f Brand; model ← f Model; category ← f Category;
  year ← f Year; memory ← f Memory; network ← f Network; country ← f Country;
  Some (mkSlots company brand model category year memory network country).
Definition dimensions_of_json {A} (f : slot → option pyval → option A) (payload : option (list (pystr * pyval)))
    : option (Slots A) :=
  match payload with
  | Some [(key, VDict dimensions)] =>
      if bool_decide (key = py "dimensions") && forallb (λ p, present (slot_of_name p.1)) dimensions
      then every_slot (λ s, f s (dict_get (py (slot_name s)) dimensions))
      else None
  | _ => None
  end.
Definition required {A} (f : pyval → option A) (v : option pyval) : option A := v ≫= f.

(** [_proposal_dict] and its validation as a member of the union. *)
Definition proposal_of_json (restorable : bool) (proposal : ChangeProposal) : option ProposalInput :=
  let payload := ProposalPayload_to_dict <$> cp_payload proposal in
  match cp_operation proposal, cp_target_id proposal, cp_expected_etag proposal with
  | OP_CREATE, None, None =>
      dimensions ← dimensions_of_json (λ s, required (selection_of_json s)) payload;
      Some (CreateChangeProposal dimensions)
  | OP_CREATE, _, _ => None
  | operation, Some target, Some tag =>
      if negb (etag_pattern tag) then None
      else match operation with
           | OP_REFERENCE_UPDATE =>
               dimensions ← dimensions_of_json change_of_json payload;
               if is_ok (require_changes dimensions) then Some (UpdateChangeProposal target tag dimensions) else None
           | OP_DELETE => if absent payload then Some (DeleteChangeProposal target tag) else None
           | OP_RESTORE =>
               if restorable then
                 dimensions ← dimensions_of_json (λ s, required (reference_of_json s)) payload;
                 Some (RestoreChangeProposal target tag dimensions)
               else None
           | OP_CREATE => None
           end
  | _, _, _ => None
  end.

(** ** Responses *)

Record ChangeRequestResponse := mkChangeRequestResponse {
  qr_id : UUID; qr_status : ChangeRequestStatus; qr_original : ProposalInput; qr_requester_id : UUID;
  qr_reason : option pystr; qr_created_at : datetime; qr_approved_proposal : option ProposalInput;
  qr_reviewer_id : option UUID; qr_reviewed_at : option datetime; qr_review_message : option pystr;
  qr_applied_change_set_id : option UUID;
}.
(** The response classes; [SubmittedChangeRequestResponse] has a constant status. *)
Inductive ChangeRequestBody :=
| SubmittedChangeRequestResponse (id : UUID) (created_at : datetime)
| ShownChangeRequest (response : ChangeRequestResponse).

Definition validated_proposal (restorable : bool) (proposal : ChangeProposal) : res ProposalInput :=
  match proposal_of_json restorable proposal with
  | Some value => Ok value
  | None => Raise (ValueError "validation error")
  end.
Definition _response (request : ChangeRequest) : res ChangeRequestResponse :=
  original ← validated_proposal false (cr_original request);
  approved ← match cr_approved request with
             | None => Ok None
             | Some proposal => value ← validated_proposal true proposal; Ok (Some value)
             end;
  Ok (mkChangeRequestResponse (cr_id request) (cr_status request) original (cr_requester_id request) (cr_reason request)
        (cr_created_at request) approved (cr_reviewer_id request) (cr_reviewed_at request) (cr_review_message request)
        (cr_applied_change_set_id request)).
Definition shown (request : ChangeRequest) : res (HttpResponse ChangeRequestBody) :=
  response ← _response request;
  Ok (mkHttpResponse 200 [] (BodyContent (ShownChangeRequest response))).

(** [ChangeRequestListResponse] *)
Record ChangeRequestListResponse := mkChangeRequestListResponse {
  cl_items : list ChangeRequestResponse; cl_next_cursor : option pystr;
}.
Definition request_position (request : ChangeRequest) : Z * UUID := (instant (cr_created_at request), cr_id request).
Definition _page (page : Page ChangeRequest) : res ChangeRequestListResponse :=
  items ← mapR _response (page_items page);
  Ok (mkChangeRequestListResponse items (following_cursor request_cursor_text request_position page)).
(** [_decode_cursor(cursor) if cursor else None] *)
Definition request_after `{UnicodeData} (fromisoformat : pystr → option datetime) (cursor : option pystr)
    : res (option (Z * UUID)) :=
  decoded (decode_request_cursor fromisoformat) (match cursor with Some [] => None | _ => cursor end).

(** ** Routes *)

(** What the server supplies: to an approval its execution, the state a
    failure is explained with, and the clock of the review; to a submission the
    identifier of the request. *)
Record ReviewExecution := mkReviewExecution {
  re_execution : Execution; re_requery : DB; re_clock : Z; re_request_id : UUID;
}.

Section routes.
Context `{UnicodeData} (fromisoformat : pystr → option datetime).
Context (x : ReviewExecution) (authenticated : res HumanPrincipal) (request : HttpRequest) (st : RDB).

Definition submit_route (payload : SubmitChangeRequestInput) : outcome RDB ChangeRequestBody :=
  after (p ← guard authenticated SUBMIT_CREATE_REQUEST;
         proposal ← _to_proposal (sq_proposal payload);
         submit (re_request_id x) (re_clock x) p proposal (sq_reason payload) st) st
    (λ request, Ok (mkHttpResponse 201 []
       (BodyContent (SubmittedChangeRequestResponse (cr_id request) (cr_created_at request))))).

Definition get_own_route (request_id : UUID) : outcome RDB ChangeRequestBody :=
  (p ← guard authenticated READ_DATA;
   request ← get_own p request_id st;
   shown request, st).

Definition get_review_route (request_id : UUID) : outcome RDB ChangeRequestBody :=
  (p ← guard authenticated REVIEW_CHANGE_REQUEST;
   request ← get_for_review p request_id st;
   shown request, st).

(** What the two listings share; [OriginalOperation] has no restoration. *)
Definition list_requests_route (for_review : bool) (status : option ChangeRequestStatus) (operation : option ChangeOperation)
    (cursor : option pystr) (limit : Z) : outcome RDB ChangeRequestListResponse :=
  (p ← guard authenticated (if for_review then REVIEW_CHANGE_REQUEST else READ_DATA);
   after ← request_after fromisoformat cursor;
   page ← list_change_requests p for_review status operation after (VInt limit) st;
   body ← _page page;
   Ok (mkHttpResponse 200 [] (BodyContent body)), st).
Definition list_own := list_requests_route false.
Definition list_review (status : ChangeRequestStatus) := list_requests_route true (Some status).

Definition approve_route (request_id : UUID) (payload : ApproveChangeRequestInput) : outcome RDB ChangeRequestBody :=
  after (p ← guard authenticated REVIEW_CHANGE_REQUEST;
         proposal ← match aq_approved_proposal payload with
                    | Some (Some value) => proposal ← _to_proposal value; Ok (Some proposal)
                    | _ => Ok None
                    end;
         message ← match aq_review_message payload with
                   | Some (Some text) => message ← ReviewMessage_init text; Ok (Some message)
                   | _ => Ok None
                   end;
         approve (ex_env (re_execution x)) (ex_seen (re_execution x)) (re_requery x) (re_clock x)
           (ex_change_set_id (re_execution x)) p request_id proposal message st) st
    shown.

Definition reject_route (request_id : UUID) (review_message : pystr) : outcome RDB ChangeRequestBody :=
  after (p ← guard authenticated REVIEW_CHANGE_REQUEST;
         message ← ReviewMessage_init review_message;
         reject (re_clock x) p request_id message st) st
    shown.
End routes.
End validate.

(** ** Documented responses *)

(** [dict.setdefault] by status, then the example under its code. *)
Fixpoint add_example (p : ProblemDetails) (responses : Responses) : Responses :=
  match responses with
  | [] => [(pd_status p, [p])]
  | (status, examples) :: rest =>
      if status =? pd_status p then (status, examples ++ [p]) :: rest else (status, examples) :: add_example p rest
  end.
Definition error_example (entry : Z * string * string) : ProblemDetails :=
  let '(status, code, message) := entry in
  example (problem_type code) "요청 처리 오류" status message code.

(** [_errors] *)
Definition _errors (status : Z) (detail review approval : bool) : Responses :=
  let codes :=
    [(422, "VALIDATION_ERROR", "요청 입력이 유효하지 않습니다.");
     (503, "SERVICE_UNAVAILABLE", "일시적으로 요청을 처리할 수 없습니다.")]%string
    ++ (if detail || review then [CHANGE_REQUEST_ERRORS RequestNotFound] else [])
    ++ (if review then [CHANGE_REQUEST_ERRORS AlreadyReviewed] else [])
    ++ (if approval then
          [CHANGE_REQUEST_ERRORS NoEffect; CHANGE_REQUEST_ERRORS StaleTarget; CHANGE_REQUEST_ERRORS RestoreMismatch;
           (404, "MASTER_CODE_NOT_FOUND", "대상 MasterCode를 찾을 수 없습니다.");
           (409, "MASTER_CODE_CONFLICT", "MasterCode 조합이 이미 사용 중입니다.");
           (409, "MASTER_CODE_NOT_DELETED", "복원 대상이 삭제 상태가 아닙니다.");
           (409, "MASTER_CODE_REFERENCE_INACTIVE", "삭제된 Dimension 참조가 있어 복원할 수 없습니다.");
           (409, "DIMENSION_CODE_CONFLICT", "신규 Dimension code가 이미 사용 중입니다.");
           (409, "DIMENSION_VALUE_CONFLICT", "신규 Dimension value가 이미 사용 중입니다.");
           (409, "DIMENSION_MULTIPLE_CONFLICTS", "신규 Dimension code와 value가 이미 사용 중입니다.");
           (422, "INVALID_DIMENSION_REFERENCE", "존재하지 않거나 삭제된 Dimension 참조입니다.")]%string
        else []) in
  success status :: foldl (λ responses entry, add_example (error_example entry) responses)
    [INVALID_ACCESS_TOKEN_RESPONSE; AUTHORIZATION_DENIED_RESPONSE] codes.
