(* ===== verification/ChangeRequestEndpointSpecs.v ===== *)
(** * What the endpoints of change requests promise

    A proposal that a route accepts reads back from its JSON as the body it
    was; every response is one its route documents, an error leaves the state
    unchanged, and a success shows the request as it is stored. *)

From Stdlib Require Import Ascii String Sorted.
From S2P Require Import Prelude Python Exceptions Uuids Auth MutationAudit Dimensions MasterCodes Store Records Invariant Consistency Pagination DimensionRepos MasterCodeRepo MasterCodeSpecs Transactions Commands CommandSpecs UseCases ChangeRequests ChangeRequestRepo ChangeRequestSpecs Approvals Reviews ReviewErrors Problems Preconditions Cursors Endpoints EndpointSpecs MasterCodeEndpoints ChangeRequestEndpoints.
Local Open Scope Z_scope.
#[local] Arguments dict_get : simpl never.

(** ** Proposals read back from their JSON *)

Lemma dict_get_cons k p l : dict_get k (p :: l) = if bool_decide (p.1 = k) then Some p.2 else dict_get k l.
Proof. unfold dict_get. cbn. by case_bool_decide. Qed.

Lemma dict_get_insert k p l : p.1 ∉ l.*1 → dict_get k (insert_entry p l) = dict_get k (p :: l).
Proof.
  induction l as [|q l IH]; [done|]. rewrite fmap_cons. intros [Hne Hp]%not_elem_of_cons. cbn [insert_entry].
  destruct (str_leb p.1 q.1); [done|]. rewrite dict_get_cons, IH by done. rewrite !dict_get_cons.
  do 2 case_bool_decide; congruence.
Qed.

Lemma insert_entry_keys p l k : k ∈ (insert_entry p l).*1 ↔ k ∈ (p :: l).*1.
Proof.
  induction l as [|q l IH]; [done|]. cbn [insert_entry]. destruct (str_leb p.1 q.1); [done|].
  rewrite fmap_cons, elem_of_cons, IH. cbn. set_solver.
Qed.

Lemma sort_entries_keys l k : k ∈ (sort_entries l).*1 ↔ k ∈ l.*1.
Proof.
  induction l as [|p l IH]; [done|]. cbn. fold (sort_entries l). rewrite insert_entry_keys.
  rewrite !fmap_cons, !elem_of_cons, IH. done.
Qed.

(** Sorting the entries of a dictionary keeps what it holds. *)
Lemma dict_get_sorted k l : NoDup l.*1 → dict_get k (sort_entries l) = dict_get k l.
Proof.
  induction l as [|p l IH]; [done|]. rewrite fmap_cons. intros [Hp Hnd]%NoDup_cons.
  change (sort_entries (p :: l)) with (insert_entry p (sort_entries l)). rewrite dict_get_insert by by rewrite sort_entries_keys. by rewrite !dict_get_cons, IH.
Qed.

Lemma dict_get_map (f : pyval → pyval) k l : dict_get k (map (λ p, (p.1, f p.2)) l) = f <$> dict_get k l.
Proof. induction l as [|p l IH]; [done|]. cbn [map]. rewrite !dict_get_cons. cbn. by case_bool_decide. Qed.

Lemma slot_name_inj s s' : py (slot_name s) = py (slot_name s') → s = s'.
Proof. by destruct s, s'. Qed.
Lemma slot_of_slot_name s : slot_of_name (py (slot_name s)) = Some s.
Proof. by destruct s. Qed.

Abbreviation slot_entries f l := (omap (λ s, v ← f s; Some (py (slot_name s), v)) l).

Lemma slot_entries_key (f : slot → option pyval) l k : k ∈ (slot_entries f l).*1 → ∃ s, s ∈ l ∧ k = py (slot_name s).
Proof.
  intros ([k' v] & -> & (s & Hs & Hv)%list_elem_of_omap)%list_elem_of_fmap. exists s. split; [done|].
  by destruct (f s); simplify_eq/=.
Qed.

Lemma slot_entries_NoDup (f : slot → option pyval) l : NoDup l → NoDup (slot_entries f l).*1.
Proof.
  induction 1 as [|s l Hs _ IH]; [constructor|]. cbn. destruct (f s) as [v|]; cbn; [|done].
  constructor; [|done]. intros (s' & Hs' & E%slot_name_inj)%slot_entries_key. by subst.
Qed.

Lemma slot_entries_get (f : slot → option pyval) s l : s ∈ l → NoDup l → dict_get (py (slot_name s)) (slot_entries f l) = f s.
Proof.
  induction l as [|s' l IH]; [by intros ?%elem_of_nil|]. intros Hin [Hs' Hnd]%NoDup_cons. cbn.
  assert (s ∉ l → dict_get (py (slot_name s)) (slot_entries f l) = None) as Hnone.
  { intros Hs. unfold dict_get. destruct (find _ _) as [p|] eqn:E; [|done]. exfalso.
    apply find_some in E as [Hp Hk%bool_decide_eq_true]. apply list_elem_of_In in Hp.
    assert (p.1 ∈ (slot_entries f l).*1) as (s2 & Hs2 & E2)%slot_entries_key by by apply list_elem_of_fmap_2.
    rewrite Hk in E2. apply slot_name_inj in E2. by subst. }
  destruct (f s') as [v|] eqn:Hf; cbn.
  - rewrite dict_get_cons. cbn. case_bool_decide as E.
    + apply slot_name_inj in E. by subst.
    + apply elem_of_cons in Hin as [->|Hin]; [done|by apply IH].
  - apply elem_of_cons in Hin as [->|Hin]; [by rewrite Hnone, Hf|by apply IH].
Qed.

(** The canonical payload of a proposal. *)
Lemma payload_slots f :
  ProposalPayload_to_dict (ProposalPayload_from_dict (slots_json f)) =
  [(py "dimensions", VDict (sort_entries (map (λ p, (p.1, canonical p.2)) (slot_entries f ORDER))))].
Proof. reflexivity. Qed.

Section read_back.
Context (uuid_input : pystr → option UUID).
(** The framework reads the canonical text of a UUID. *)
Hypothesis Huuid : ∀ u, uuid_ok u → uuid_input (uuid_str u) = Some u.

Definition selection_ids_ok (value : SelectionBody) : Prop :=
  match value with ReferenceSelected id => uuid_ok id | _ => True end.

Lemma selection_reads_back s value :
  selection_field s value = true → selection_ids_ok value →
  selection_of_json uuid_input s (canonical (selection_json value)) = Some value.
Proof.
  destruct value as [id|code v|]; cbn [selection_field selection_ids_ok]; intros Hf Hid; [| |reflexivity].
  - change (canonical (selection_json (ReferenceSelected id))) with
      (VDict [(py "id", VStr (uuid_str id)); (py "mode", VStr (py "REFERENCE"))]).
    change (selection_of_json uuid_input s (VDict [(py "id", VStr (uuid_str id)); (py "mode", VStr (py "REFERENCE"))]))
      with (id ← uuid_input (uuid_str id); Some (ReferenceSelected id)). by rewrite Huuid.
  - assert (value_of_json (canonical (value_json v)) = Some v) as Hv by by destruct v.
    change (canonical (selection_json (CreateSelected code v))) with
      (VDict [(py "code", VStr code); (py "mode", VStr (py "CREATE")); (py "value", canonical (value_json v))]).
    change (selection_of_json uuid_input s (VDict [(py "code", VStr code); (py "mode", VStr (py "CREATE"));
        (py "value", canonical (value_json v))])) with
      (value ← value_of_json (canonical (value_json v));
       if code_field code && value_field s value then Some (CreateSelected code value) else None).
    rewrite Hv. cbn. by rewrite Hf.
Qed.

Lemma every_slot_Some {A} (f : slot → option A) x : (∀ s, f s = Some (at_slot x s)) → every_slot f = Some x.
Proof. intros Hf. unfold every_slot. rewrite !Hf. by destruct x. Qed.

Lemma dimensions_read_back {A} (g : slot → option pyval → option A) (f : slot → option pyval) (x : Slots A) :
  (∀ s, g s (canonical <$> f s) = Some (at_slot x s)) →
  dimensions_of_json g (Some (ProposalPayload_to_dict (ProposalPayload_from_dict (slots_json f)))) = Some x.
Proof.
  intros Hg. rewrite payload_slots. unfold dimensions_of_json.
  set (l := map _ _).
  assert (NoDup l.*1) as Hnd.
  { unfold l. replace (map (λ p, (p.1, canonical p.2)) (slot_entries f ORDER)).*1 with (slot_entries f ORDER).*1.
    - apply slot_entries_NoDup, ORDER_NoDup.
    - generalize (slot_entries f ORDER). intros k. induction k as [|p k IH]; [done|]. cbn. by rewrite IH. }
  rewrite bool_decide_eq_true_2 by done.
  assert (forallb (λ p : pystr * pyval, present (slot_of_name p.1)) (sort_entries l) = true) as ->.
  { apply forallb_Forall, Forall_forall. intros p Hp. assert (p.1 ∈ (sort_entries l).*1) as Hk by by apply list_elem_of_fmap_2.
    rewrite sort_entries_keys in Hk. unfold l in Hk. apply list_elem_of_fmap in Hk as (q & -> & Hq).
    apply list_elem_of_fmap in Hq as (q' & -> & Hq'). cbn [fst].
    assert (q'.1 ∈ (slot_entries f ORDER).*1) as (s & _ & ->)%slot_entries_key by by apply list_elem_of_fmap_2.
    by rewrite slot_of_slot_name. }
  cbn [andb]. apply every_slot_Some. intros s. rewrite dict_get_sorted by done. unfold l.
  rewrite dict_get_map, slot_entries_get by (apply slot_in_ORDER || apply ORDER_NoDup). apply Hg.
Qed.

(** The identifiers of a body are 128 bits. *)
Definition proposal_ids_ok (value : ProposalInput) : Prop :=
  match value with
  | CreateChangeProposal dimensions => ∀ s, selection_ids_ok (at_slot dimensions s)
  | UpdateChangeProposal _ _ dimensions => ∀ s x, at_slot dimensions s = Some (Some x) → selection_ids_ok x
  | RestoreChangeProposal _ _ dimensions => ∀ s id, at_slot dimensions s = ReferenceChange id → uuid_ok id
  | DeleteChangeProposal _ _ => True
  end.

Lemma forallb_slot (f : slot → bool) s : forallb f ORDER = true → f s = true.
Proof. intros Hall%forallb_Forall. rewrite Forall_forall in Hall. apply Hall, slot_in_ORDER. Qed.

(** A change that is given is no null. *)
Lemma require_changes_given dimensions s : is_ok (require_changes dimensions) = true → at_slot dimensions s ≠ Some None.
Proof.
  unfold require_changes. destruct (forallb _ ORDER); [done|]. cbn [orb].
  destruct (existsb _ ORDER) eqn:E; [done|]. intros _ Hs. apply (proj1 (existsb_elem_of_false _ _)) with (x := s) in E;
    [|apply slot_in_ORDER]. by rewrite Hs in E.
Qed.

Lemma created_of_json (operation : ChangeOperation) target payload tag p restorable value :
  proposal_operation value = operation → fst <$> proposal_target value = target → snd <$> proposal_target value = tag →
  payload = ProposalPayload_from_dict <$> payload_json value →
  proposal_field value = true → proposal_ids_ok value → (is_restoration value = true → restorable = true) →
  p = mkChangeProposal operation target payload tag → proposal_of_json uuid_input restorable p = Some value.
Proof.
  intros <- <- <- -> Hf Hids Hr ->. unfold proposal_of_json. cbn [cp_operation cp_target_id cp_expected_etag cp_payload].
  destruct value as [dimensions|id tg dimensions|id tg|id tg dimensions]; cbn [proposal_operation proposal_target payload_json
    proposal_field proposal_ids_ok is_restoration fmap option_fmap option_map fst snd] in *.
  - rewrite (dimensions_read_back _ _ dimensions); [done|]. intros s. cbn.
    apply selection_reads_back; [by apply (forallb_slot _ s) in Hf|done].
  - apply andb_true_iff in Hf as [[-> Hf]%andb_true_iff Hc]. cbn [negb].
    rewrite (dimensions_read_back _ _ dimensions); [cbn; by rewrite Hc|]. intros s.
    apply (forallb_slot _ s) in Hf. cbv beta in Hf. pose proof (require_changes_given _ s Hc) as Hne.
    destruct (at_slot dimensions s) as [[x|]|] eqn:Hs; [|done|done]. cbn [change_json fmap option_fmap option_map].
    assert (change_of_json uuid_input s (Some (canonical (selection_json x))) =
      (y ← selection_of_json uuid_input s (canonical (selection_json x)); Some (Some (Some y)))) as -> by by destruct x.
    rewrite selection_reads_back; [done|done|by eapply Hids].
  - by rewrite Hf.
  - rewrite Hf, (Hr eq_refl). cbn [negb].
    rewrite (dimensions_read_back _ _ dimensions); [done|]. intros s.
    cbn [required mbind option_bind fmap option_fmap option_map]. unfold reference_of_json, reference_json.
    destruct (at_slot dimensions s) as [i|] eqn:Hs; rewrite selection_reads_back; try done. by eapply Hids.
Qed.

Context `{UnicodeData}.

Lemma to_proposal_wf value p : _to_proposal value = Ok p → proposal_wf p ∧
  p = mkChangeProposal (proposal_operation value) (fst <$> proposal_target value)
        (ProposalPayload_from_dict <$> payload_json value) (snd <$> proposal_target value).
Proof.
  unfold _to_proposal. intros (q & Hq & Hok)%bind_Ok. apply bind_Ok in Hok as (_ & _ & [= ->]).
  pose proof (ChangeProposal_init_same _ _ Hq) as Hp. split; [|done]. split; [by rewrite Hp in Hq at 1 |- *|].
  intros payload Hpay. rewrite Hp in Hpay. cbn in Hpay. apply fmap_Some in Hpay as (l & _ & ->). apply payload_from_dict_wf.
Qed.

Lemma to_proposal_errors value : proposal_errors (_to_proposal value).
Proof.
  unfold _to_proposal. apply raises_bind; [unfold ChangeProposal_init; raises; done|]. intros p Hp.
  apply raises_bind; [|intros; apply raises_Ok]. apply validate_proposal_errors.
  pose proof (ChangeProposal_init_same _ _ Hp) as Heq. rewrite Heq in Hp |- *. split; [done|].
  intros payload Hpay. cbn in Hpay. apply fmap_Some in Hpay as (l & _ & ->). apply payload_from_dict_wf.
Qed.

Lemma proposal_reads_back value p restorable :
  proposal_field value = true → proposal_ids_ok value → (is_restoration value = true → restorable = true) →
  _to_proposal value = Ok p → proposal_of_json uuid_input restorable p = Some value.
Proof. intros ??? [_ Hp]%to_proposal_wf. by eapply created_of_json. Qed.
End read_back.

(** ** Requests that can be shown *)

Section shown.
Context (uuid_input : pystr → option UUID).

Definition shows (restorable : bool) (p : ChangeProposal) : Prop := is_Some (proposal_of_json uuid_input restorable p).

Lemma shows_weaken p : shows false p → shows true p.
Proof.
  unfold shows, proposal_of_json. intros [v Hv].
  destruct (cp_operation p), (cp_target_id p), (cp_expected_etag p); try done; by destruct (negb _).
Qed.

Definition presentable (r : ChangeRequest) : Prop :=
  shows false (cr_original r) ∧ ∀ p, cr_approved r = Some p → shows true p.
Definition requests_shown (t : Requests) : Prop :=
  ∀ id r req, t !! id = Some r → request_of r = Ok req → presentable req.

Lemma presentable_response r : presentable r → ∃ response, _response uuid_input r = Ok response ∧
  qr_id response = cr_id r ∧ qr_status response = cr_status r ∧ qr_requester_id response = cr_requester_id r ∧
  qr_reason response = cr_reason r ∧ proposal_of_json uuid_input false (cr_original r) = Some (qr_original response).
Proof.
  intros [[v Hv] Ha]. unfold _response, validated_proposal. rewrite Hv. cbn [mbind result_bind].
  destruct (cr_approved r) as [p|].
  - destruct (Ha p eq_refl) as [w ->]. cbn [mbind result_bind]. eexists. by split_and!.
  - eexists. by split_and!.
Qed.

Lemma requests_shown_update t t' id req :
  requests_shown t → (∀ k, k ≠ id → t' !! k = t !! k) → get_request id None t' = Ok req → presentable req →
  requests_shown t'.
Proof.
  intros Hshown Hsame Hget Hreq k r req' Hr Hreq'. destruct (decide (k = id)) as [->|Hne].
  - unfold get_request in Hget. rewrite Hr, Hreq' in Hget. by injection Hget as ->.
  - rewrite Hsame in Hr by done. by eapply Hshown.
Qed.

Lemma get_request_row id requester t req :
  get_request id requester t = Ok req → ∃ r, t !! id = Some r ∧ request_of r = Ok req ∧
  get_request id None t = Ok req ∧ match requester with None => True | Some u => rw_requester_id r = u end.
Proof.
  unfold get_request. destruct (t !! id) as [r|]; [|done]. intros Hget. exists r.
  destruct requester as [u|]; [|done]. destruct (rw_requester_id r =? u) eqn:E; [|done]. apply Z.eqb_eq in E. done.
Qed.

Lemma stored_request_id id t req : requests_ok t → get_request id None t = Ok req → cr_id req = id.
Proof.
  intros Hok (r & Hr & Hreq & _)%get_request_row. apply request_of_fields in Hreq as (_ & _ & -> & _).
  by destruct (Hok _ _ Hr).
Qed.

(** ** Calls and their documents *)

Inductive cr_call :=
| CrSubmit (payload : SubmitChangeRequestInput)
| CrGetOwn (id : UUID)
| CrGetReview (id : UUID)
| CrApprove (id : UUID) (payload : ApproveChangeRequestInput)
| CrReject (id : UUID) (review_message : pystr).

Definition cr_serve `{UnicodeData} (x : ReviewExecution) (authenticated : res HumanPrincipal) (st : RDB) (call : cr_call)
    : outcome RDB ChangeRequestBody :=
  match call with
  | CrSubmit payload => submit_route x authenticated st payload
  | CrGetOwn id => get_own_route uuid_input authenticated st id
  | CrGetReview id => get_review_route uuid_input authenticated st id
  | CrApprove id payload => approve_route uuid_input x authenticated st id payload
  | CrReject id review_message => reject_route uuid_input x authenticated st id review_message
  end.
Definition cr_responses (call : cr_call) : Responses :=
  match call with
  | CrSubmit _ => _errors 201 false false false
  | CrGetOwn _ | CrGetReview _ => _errors 200 true false false
  | CrApprove _ _ => _errors 200 false true true
  | CrReject _ _ => _errors 200 false true false
  end.
(** A body the framework let through. *)
Definition cr_call_valid (call : cr_call) : Prop :=
  match call with
  | CrSubmit payload =>
      let v := sq_proposal payload in proposal_field v = true ∧ is_restoration v = false ∧ proposal_ids_ok v
  | CrApprove _ payload =>
      validate_optional_fields payload = Ok payload ∧
      ∀ v, aq_approved_proposal payload = Some (Some v) → proposal_field v = true ∧ proposal_ids_ok v
  | _ => True
  end.

(** The example of a problem has its type, status and code; titles and texts
    are those of the handlers. *)
Definition same_code (p q : ProblemDetails) : Prop :=
  pd_type p = pd_type q ∧ pd_status p = pd_status q ∧ pd_code p = pd_code q.
Abbreviation documented_error := (documented_error same_code).

Lemma documented_code request docs e :
  let p := jr_problem (exception_response request e) in
  existsb (λ d, (d.1 =? pd_status p)
                && existsb (λ q, String.eqb (pd_type p) (pd_type q) && (pd_status p =? pd_status q) && String.eqb (pd_code p) (pd_code q))
                     d.2) docs = true →
  documented_error request docs e.
Proof.
  intros p ([status examples] & Hin & [Hs%Z.eqb_eq Hex]%andb_true_iff)%existsb_elem_of. cbn in Hs, Hex. subst status.
  eapply documented_error_intro; [exact Hin|]. apply existsb_elem_of in Hex as (q & Hq & Hsame).
  apply Exists_exists. exists q. split; [done|].
  rewrite !andb_true_iff, !String.eqb_eq, Z.eqb_eq in Hsame. by destruct Hsame as [[??]?].
Qed.

Lemma errors_documented request status detail review approval :
  let docs := _errors status detail review approval in
  documented_error request docs InvalidAccessToken ∧ documented_error request docs AuthorizationDenied ∧
  (∀ e, proposal_error e = true → documented_error request docs e) ∧
  (detail || review = true → documented_error request docs ChangeRequestNotFound) ∧
  (review = true → ∀ e, rejection_error e = true → documented_error request docs e) ∧
  (review = true → approval = true → ∀ e, review_error e = true → documented_error request docs e).
Proof.
  cbv zeta. destruct detail, review, approval; split_and!; try done; intros; apply documented_code.
  all: repeat match goal with e : exn |- _ => destruct e; try done end.
  all: repeat match goal with b : bool |- _ => destruct b end.
  all: cbn; rewrite ?andb_false_r, ?orb_true_r; reflexivity.
Qed.

(** ** The state between requests *)

Definition review_inv (st : RDB) : Prop :=
  system_ok st ∧ requests_valid (rd_requests st) ∧ requests_shown (rd_requests st).

(** New identifiers, and reads of some earlier committed state. *)
Definition review_ready (x : ReviewExecution) (st : RDB) : Prop :=
  let cs := ex_change_set_id (re_execution x) in
  served (ex_env (re_execution x)) (ex_seen (re_execution x)) (rd_db st) ∧
  uuid_version cs = Some 7 ∧ (∀ k r, rd_requests st !! k = Some r → rw_applied_change_set_id r ≠ Some cs) ∧
  rd_requests st !! re_request_id x = None.

(** The principal dependency returns the user of a valid token. *)
Definition caller_checked (authenticated : res HumanPrincipal) : Prop :=
  token_checked authenticated ∧ ∀ p, authenticated = Ok p → uuid_ok (principal_id p).

(** What a success says of the request and the state it leaves. *)
Definition served_request (st : RDB) (r : HttpResponse ChangeRequestBody) : Prop :=
  match rs_content r with
  | ProblemContent _ => False
  | BodyContent (SubmittedChangeRequestResponse id created_at) =>
      ∃ req, get_request id None (rd_requests st) = Ok req ∧ cr_status req = PENDING ∧ cr_created_at req = created_at
  | BodyContent (ShownChangeRequest response) =>
      ∃ req, get_request (qr_id response) None (rd_requests st) = Ok req ∧ _response uuid_input req = Ok response
  end.

Lemma shown_served st id req :
  review_inv st → get_request id None (rd_requests st) = Ok req →
  ∃ r, shown uuid_input req = Ok r ∧ rs_status r = 200 ∧ served_request st r ∧
    ∃ response, rs_content r = BodyContent (ShownChangeRequest response) ∧ _response uuid_input req = Ok response.
Proof.
  intros [[_ Hok] [_ Hshown]] Hget. destruct (get_request_row _ _ _ _ Hget) as (row & Hrow & Hreq & _).
  destruct (presentable_response req (Hshown _ _ _ Hrow Hreq)) as (response & Hr & Hid & _).
  unfold shown. rewrite Hr. cbn [mbind result_bind]. eexists. split; [done|]. split; [done|]. split.
  - exists req. by rewrite Hid, (stored_request_id _ _ _ Hok Hget).
  - by exists response.
Qed.

(** ** The routes *)

Hypothesis Huuid : ∀ u, uuid_ok u → uuid_input (uuid_str u) = Some u.

Section routes.
Context `{UnicodeData} (x : ReviewExecution) (authenticated : res HumanPrincipal) (request : HttpRequest) (st : RDB).
Hypothesis Hinv : review_inv st.
Hypothesis Hready : review_ready x st.
Hypothesis Hcaller : caller_checked authenticated.

Abbreviation promise docs o := (route_promise same_code docs review_inv served_request st o).

Lemma not_500 status detail review approval :
  status ≠ 500 → Forall (λ d : Z * list ProblemDetails, d.1 ≠ 500) (_errors status detail review approval).
Proof. intros Hs. destruct detail, review, approval; repeat constructor; done. Qed.

Lemma guard_documented status detail review approval action :
  raises_only (documented_error request (_errors status detail review approval)) (guard authenticated action).
Proof.
  destruct (errors_documented request status detail review approval) as (Ht & Hd & _).
  apply guard_raises; [apply Hcaller|done|done].
Qed.

Lemma guard_Ok action p : guard authenticated action = Ok p → authenticated = Ok p ∧ authorize p action = Ok p.
Proof. intros (q & Hq & Ha)%bind_Ok. pose proof (proj1 (authorize_Ok _ _ _) Ha) as [<- _]. done. Qed.

Lemma submit_promised payload :
  cr_call_valid (CrSubmit payload) →
  promise (cr_responses (CrSubmit payload)) (respond request (submit_route x authenticated st payload)).
Proof.
  intros (Hfield & Hno & Hids). destruct Hinv as [[Hdb Hok] [Hvalid Hshown]]. destruct Hready as (_ & _ & _ & Hfresh).
  destruct (errors_documented request 201 false false false) as (_ & Hd & Hp & _).
  apply route_promised; [done|by apply not_500| |].
  - apply raises_bind; [apply guard_documented|intros p _].
    apply raises_bind; [eapply raises_impl; [apply to_proposal_errors|exact Hp]|intros proposal Hprop].
    pose proof (to_proposal_wf _ _ Hprop) as [Hwf _].
    eapply raises_impl; [by apply submit_spec|]. intros [] He; try done; by apply Hp.
  - intros req st' (p & _ & Hm)%bind_Ok. apply bind_Ok in Hm as (proposal & Hprop & Hm).
    pose proof (to_proposal_wf _ _ Hprop) as [Hwf _].
    destruct (submit_spec (re_request_id x) (re_clock x) p proposal (sq_reason payload) st Hwf Hfresh) as [_ Hs].
    destruct (Hs _ _ Hm) as (Hvalid' & text & _ & Hreq). destruct (submit_result _ _ _ _ _ _ _ _ Hok Hm) as (Hrd & Hok' & _).
    unfold submit in Hm. apply bind_Ok in Hm as (reason & _ & Hm). apply bind_Ok in Hm as ([req' t'] & Hrow & [= -> <-]).
    apply submit_request_row in Hrow as (_ & _ & _ & Hget & Hsame); [|done].
    eexists. split; [done|]. split; [by apply documented_success; left|]. split; [cbn; lia|]. split; [split_and!|].
    + split; [done|]. done.
    + by apply Hvalid'.
    + eapply requests_shown_update; [exact Hshown|exact Hsame|exact Hget|]. rewrite Hreq. split; [|done]. cbn [cr_original].
      exists (sq_proposal payload). exact (proposal_reads_back uuid_input Huuid _ _ false Hfield Hids ltac:(by rewrite Hno) Hprop).
    + exists req. rewrite Hreq. cbn [cr_id cr_status cr_created_at]. rewrite <- Hreq. done.
Qed.
(** A route that shows a request of the state it leaves. *)
Lemma shown_promised detail review approval (m : res (ChangeRequest * RDB)) :
  let docs := _errors 200 detail review approval in
  raises_only (documented_error request docs) m →
  (∀ req st', m = Ok (req, st') → review_inv st' ∧ ∃ id, get_request id None (rd_requests st') = Ok req) →
  promise docs (respond request (after m st (shown uuid_input))).
Proof.
  intros docs He Hm. apply route_promised; [done|by apply not_500|done|].
  intros req st' Hok. destruct (Hm _ _ Hok) as (Hinv' & id & Hget).
  destruct (shown_served st' id req Hinv' Hget) as (r & Hr & Hs & Hserved & response & Hc & _).
  exists r. split; [done|]. split; [|split; [by rewrite Hs|done]].
  exists []. rewrite Hs, Hc. split; [|done]. unfold docs, _errors. by left.
Qed.

Lemma read_promised (guarded : res HumanPrincipal) (read : HumanPrincipal → res ChangeRequest) :
  let docs := _errors 200 true false false in
  raises_only (documented_error request docs) guarded →
  (∀ p, guarded = Ok p → raises_only (documented_error request docs) (read p) ∧
     ∀ req, read p = Ok req → ∃ id, get_request id None (rd_requests st) = Ok req) →
  promise docs (respond request (p ← guarded; req ← read p; shown uuid_input req, st)).
Proof.
  intros docs Hg Hread.
  assert ((p ← guarded; req ← read p; shown uuid_input req, st) =
    after (req ← (p ← guarded; read p); Ok (req, st)) st (shown uuid_input)) as ->.
  { destruct guarded as [p|e]; cbn; [|done]. by destruct (read p). }
  apply shown_promised.
  - apply raises_bind; [apply raises_bind; [done|intros p Hp; by apply Hread]|intros; apply raises_Ok].
  - intros req st' (req' & (p & Hp & Hr)%bind_Ok & [= -> <-])%bind_Ok. split; [done|]. by eapply Hread.
Qed.

Lemma request_read_promised requester id :
  raises_only (documented_error request (_errors 200 true false false)) (get_request id requester (rd_requests st)) ∧
  ∀ req, get_request id requester (rd_requests st) = Ok req → ∃ id, get_request id None (rd_requests st) = Ok req.
Proof.
  destruct (errors_documented request 200 true false false) as (_ & _ & _ & Hnf & _). split.
  - eapply raises_impl; [apply get_request_errors, Hinv|]. intros e <-. by apply Hnf.
  - intros req (_ & _ & _ & Hget & _)%get_request_row. by exists id.
Qed.

Lemma get_own_promised id : promise (cr_responses (CrGetOwn id)) (respond request (get_own_route uuid_input authenticated st id)).
Proof.
  apply read_promised; [apply guard_documented|]. intros p _. unfold get_own. rewrite authorize_read. apply request_read_promised.
Qed.

Lemma get_review_promised id :
  promise (cr_responses (CrGetReview id)) (respond request (get_review_route uuid_input authenticated st id)).
Proof.
  apply read_promised; [apply guard_documented|]. intros p [_ Ha]%guard_Ok. unfold get_for_review. rewrite Ha. apply request_read_promised.
Qed.

Lemma reject_promised id message :
  promise (cr_responses (CrReject id message)) (respond request (reject_route uuid_input x authenticated st id message)).
Proof.
  destruct Hinv as [[Hdb Hok] [Hvalid Hshown]].
  destruct (errors_documented request 200 false true false) as (_ & _ & Hp & _ & Hr & _).
  apply shown_promised.
  - apply raises_bind; [apply guard_documented|intros p _]. apply raises_bind.
    { eapply raises_impl; [apply ReviewMessage_errors|exact Hp]. }
    intros text Hm%ReviewMessage_init_Ok. eapply raises_impl; [by apply reject_spec|]. by apply Hr.
  - intros req st' (p & _ & Hm)%bind_Ok. apply bind_Ok in Hm as (text & Htext%ReviewMessage_init_Ok & Hm).
    destruct (reject_spec (re_clock x) p id text st Hok Hvalid Htext) as [_ Hv]. pose proof (Hv _ _ Hm) as Hvalid'.
    unfold reject in Hm. apply bind_Ok in Hm as (_ & _ & Hm). apply bind_Ok in Hm as ([req' t'] & Hrow & [= -> <-]).
    apply reject_request_row in Hrow as (r & original & Hr0 & Ho & Hreview & _ & _ & _ & Hna & Hok' & _ & Hsame & Hget & _); [|done..].
    split; [|by exists id]. split; [by split|]. split; [done|].
    eapply requests_shown_update; [exact Hshown|exact Hsame|exact Hget|]. split; [|by rewrite Hna].
    rewrite (rv_original _ _ Hreview). by apply (Hshown _ _ _ Hr0 Ho).
Qed.
Lemma approve_promised id payload :
  cr_call_valid (CrApprove id payload) →
  promise (cr_responses (CrApprove id payload)) (respond request (approve_route uuid_input x authenticated st id payload)).
Proof.
  intros [_ Hbody]. destruct Hinv as [[Hdb Hok] [Hvalid Hshown]]. destruct Hready as (Hserved & Hcs & Hfresh & _).
  destruct (errors_documented request 200 false true true) as (_ & _ & Hp & _ & _ & Hr).
  (* what the proposal and the message come to *)
  assert (∀ proposal, (match aq_approved_proposal payload with
      | Some (Some value) => proposal ← _to_proposal value; Ok (Some proposal) | _ => Ok None end) = Ok proposal →
    ∀ q, proposal = Some q → proposal_wf q ∧ shows true q) as Hproposal.
  { intros proposal Hm q ->. destruct (aq_approved_proposal payload) as [[value|]|]; try done.
    apply bind_Ok in Hm as (q' & Hq & [= ->]). destruct (Hbody value eq_refl) as [Hf Hids].
    split; [by apply to_proposal_wf in Hq as [? _]|]. exists value.
    by apply (proposal_reads_back uuid_input Huuid _ _ true Hf Hids). }
  assert (∀ message, (match aq_review_message payload with
      | Some (Some text) => message ← ReviewMessage_init text; Ok (Some message) | _ => Ok None end) = Ok message →
    message_wf message) as Hmessage.
  { intros message Hm text ->. destruct (aq_review_message payload) as [[raw|]|]; try done.
    apply bind_Ok in Hm as (t & Ht & [= ->]). by eapply ReviewMessage_init_Ok. }
  apply shown_promised.
  - apply raises_bind; [apply guard_documented|intros p [Hauth _]%guard_Ok]. apply raises_bind.
    { destruct (aq_approved_proposal payload) as [[value|]|]; try apply raises_Ok.
      apply raises_bind; [|intros; apply raises_Ok]. eapply raises_impl; [apply to_proposal_errors|exact Hp]. }
    intros proposal Hprop. apply raises_bind.
    { destruct (aq_review_message payload) as [[raw|]|]; try apply raises_Ok.
      apply raises_bind; [|intros; apply raises_Ok]. eapply raises_impl; [apply ReviewMessage_errors|exact Hp]. }
    intros message Hmsg. eapply raises_impl; [apply approve_spec; try done|by apply Hr].
    split; [by apply Hcaller|intros q Hq; by apply (Hproposal _ Hprop q)|by apply Hmessage].
  - intros req st' (p & Hg & Hm)%bind_Ok. apply guard_Ok in Hg as [Hauth _].
    apply bind_Ok in Hm as (proposal & Hprop & Hm). apply bind_Ok in Hm as (message & Hmsg & Hm).
    assert (review_input p proposal message) as Hinput
      by (split; [by apply Hcaller|intros q Hq; by apply (Hproposal _ Hprop q)|by apply Hmessage]).
    destruct (approve_spec _ _ (re_requery x) (re_clock x) _ p id proposal message st Hdb Hserved Hok Hvalid Hinput Hcs Hfresh)
      as [_ Hv]. pose proof (Hv _ _ Hm) as Hvalid'. destruct Hinput as [Hu Hpw Hmw].
    assert (store_ok (ex_seen (re_execution x))) as Hseen by apply Hserved.
    apply approve_result in Hm as (_ & original & plan & mc_id & before & row & Happ); [|done..].
    destruct (apv_requests _ _ _ _ _ _ _ _ _ _ _ _ _ _ Happ) as (Hok' & _ & Hsame & Hget & _).
    split; [|by exists id]. split; [|split; [done|]].
    + split; [|done]. apply (apv_applied _ _ _ _ _ _ _ _ _ _ _ _ _ _ Happ).
    + eapply requests_shown_update; [exact Hshown|exact Hsame|exact Hget|].
      destruct (apv_reviewed _ _ _ _ _ _ _ _ _ _ _ _ _ _ Happ) as [Hap _].
      pose proof (apv_original _ _ _ _ _ _ _ _ _ _ _ _ _ _ Happ) as Horig.
      apply bind_Ok in Horig as (r & Hlock & Ho). apply lock_request_Ok in Hlock as [Hr0 _].
      pose proof (Hshown _ _ _ Hr0 Ho) as [Hso _]. split.
      * by rewrite (rv_original _ _ (apv_review _ _ _ _ _ _ _ _ _ _ _ _ _ _ Happ)).
      * rewrite Hap. intros q [= <-]. destruct proposal as [q|]; [by apply (Hproposal _ Hprop q)|by apply shows_weaken].
Qed.
End routes.
End shown.

(** *** The listings *)

Section listing.
Context `{UnicodeData} (uuid_input : pystr → option UUID) (fromisoformat : pystr → option datetime).

(** The requests a listing ranges over: a requester's own, or everyone's, of
    the status and the operation asked for. *)
Definition requests_listed (for_review : bool) (status : option ChangeRequestStatus) (operation : option ChangeOperation)
    (p : HumanPrincipal) (t : Requests) : list CrRow :=
  List.filter (λ r, (for_review || (rw_requester_id r =? principal_id p))
                    && (absent status || bool_decide (status = Some (rw_status r)))
                    && (absent operation || bool_decide (operation = pc_operation (rw_original r))))
    (map_to_list t).*2.
(** A row and the request shown of it. *)
Definition shown_request (r : CrRow) (item : ChangeRequestResponse) : Prop :=
  ∃ req, request_of r = Ok req ∧ _response uuid_input req = Ok item.
(** The times of the rows are dates of the calendar, and their keys UUIDs. *)
Definition requests_dated (t : Requests) : Prop :=
  ∀ id r, t !! id = Some r → in_calendar (rw_created_at r) ∧ uuid_ok id.

Definition request_listing_promise authenticated request st (for_review : bool) status operation cursor limit
    (o : HttpResponse ChangeRequestListResponse * RDB) : Prop :=
  listing_promise same_code (_errors 200 false false false) request
    (guard authenticated (if for_review then REVIEW_CHANGE_REQUEST else READ_DATA)) (request_after fromisoformat cursor)
    (λ p after body, rows_listed cr_key (decode_request_cursor fromisoformat) shown_request
       (requests_listed for_review status operation p (rd_requests st)) after (Z.to_nat limit)
       (cl_items body) (cl_next_cursor body)) st o.

Hypothesis Hiso : ∀ t, in_calendar t → fromisoformat (isoformat t) = Some (utc t).

Lemma list_requests_page requester status operation after limit p (for_review : bool) t :
  requester = (if for_review then None else Some (principal_id p)) →
  list_requests requester status operation after limit t =
  (let pg := page cr_key after limit (requests_listed for_review status operation p t) in
   items ← mapR request_of (page_items pg); Ok (mkPage items (page_has_more pg))).
Proof.
  intros ->. unfold list_requests, requests_listed.
  erewrite (filter_ext _ (λ r, (for_review || (rw_requester_id r =? principal_id p))
                    && (absent status || bool_decide (status = Some (rw_status r)))
                    && (absent operation || bool_decide (operation = pc_operation (rw_original r))))); [done|].
  intros r. f_equal; [f_equal; [by destruct for_review|]|].
  - destruct status as [s|]; [|done]. cbn [absent present negb orb]. apply bool_decide_ext. naive_solver.
  - destruct operation as [o|]; [|done]. cbn [absent present negb orb]. apply bool_decide_ext. naive_solver.
Qed.

Lemma requests_distinct for_review status operation p t :
  requests_ok t → distinct_keys cr_key (requests_listed for_review status operation p t).
Proof.
  intros Hok. apply (distinct_keys_ids _ rw_id); [done|]. apply NoDup_fmap_filter. rewrite <- list_fmap_compose.
  rewrite (list_fmap_ext _ fst); [apply NoDup_fst_map_to_list|].
  intros i [k r] Hkr. cbn. apply list_elem_of_lookup_2, elem_of_map_to_list in Hkr. by destruct (Hok _ _ Hkr).
Qed.

Lemma list_requests_promised authenticated request st for_review status operation cursor limit :
  review_inv uuid_input st → caller_checked authenticated → requests_dated (rd_requests st) → 1 ≤ limit ≤ 100 →
  operation ≠ Some OP_RESTORE →
  request_listing_promise authenticated request st for_review status operation cursor limit
    (respond request (list_requests_route uuid_input fromisoformat authenticated st for_review status operation cursor limit)).
Proof.
  intros [[Hdb Hok] [_ Hshown]] Hcaller Hdated Hl Hop.
  destruct (errors_documented request 200 false false false) as (Ht & Hd & Hp & _).
  apply listing_promised.
  - by left.
  - by apply not_500.
  - by apply guard_documented.
  - apply decoded_raises. intros text. eapply raises_impl; [apply request_cursor_raises|].
    intros e <-. split; [by apply Hp|reflexivity].
  - intros p after [_ Ha]%guard_Ok _. unfold list_change_requests. rewrite Ha. cbn [mbind result_bind].
    rewrite (proj2 (Z.leb_le 1 limit)), (proj2 (Z.leb_le limit 100)) by lia. cbn [andb mbind result_bind].
    rewrite bool_decide_eq_false_2 by done. cbn [raise_if mbind result_bind].
    rewrite (list_requests_page _ _ _ _ _ p for_review) by done. cbv zeta.
    destruct (listing_shown cr_key (decode_request_cursor fromisoformat) shown_request request_of (_response uuid_input)
      request_position request_cursor_text (requests_listed for_review status operation p (rd_requests st)) after (Z.to_nat limit))
      as (ds & cs & Hds & Hcs & Hlisted & _).
    + by apply requests_distinct.
    + lia.
    + intros r [([k r'] & -> & Hr%elem_of_map_to_list)%list_elem_of_fmap _]%elem_of_filter_bool. cbn [snd].
      destruct (Hok _ _ Hr) as [Hid (req & Hreq)]. destruct (Hdated _ _ Hr) as [Hcal Hu].
      destruct (presentable_response uuid_input req (Hshown _ _ _ Hr Hreq)) as (response & Hresponse & _).
      pose proof (request_of_fields _ _ Hreq) as (_ & _ & Hi & _ & _ & Hc & _).
      exists req, response. split_and!; [done|done|by exists req|unfold request_position, cr_key; by rewrite Hi, Hc|].
      apply request_cursor_decodes; [done|done|]. by rewrite Hid.
    + rewrite Hds. eexists _, _. split; [reflexivity|]. unfold _page. cbn [page_items]. rewrite Hcs.
      split; [reflexivity|]. exact Hlisted.
Qed.
End listing.


(** ** Witnesses *)

#[local] Existing Instance ascii_data.

Definition sample_uuid_input (text : pystr) : option UUID := parse_UUID (VStr text).
Definition review_execution : ReviewExecution :=
  mkReviewExecution (mkExecution (sample_env 200 77 88) sample_db (test_uuid7 2)) sample_db 210 40.
Definition review_request : HttpRequest :=
  mkHttpRequest (py "/api/v1/master-code-change-requests") "POST" [] false.
Definition reviews_start : RDB := mkRDB sample_db ∅.
Definition requester : HumanPrincipal := mkHumanPrincipal 6 USER.
(** The company of the sample MasterCode is to be replaced by a new one. *)
Definition sample_change : ProposalInput :=
  UpdateChangeProposal 9 sample_etag
    (slots_of (λ s, if bool_decide (s = Company) then Some (Some (CreateSelected (py "acm") (StringInput (py "Acme")))) else None)).
Definition sample_submission : SubmitChangeRequestInput := mkSubmitChangeRequestInput sample_change (Some (py " new maker ")).

Lemma reviews_start_inv : review_inv sample_uuid_input reviews_start.
Proof.
  split; [exact system_start_ok|]. split; intros id r; cbn; by rewrite lookup_empty.
Qed.
Lemma reviews_ready : review_ready review_execution reviews_start.
Proof.
  split; [exact (sample_served 200)|]. split; [reflexivity|]. split; [|reflexivity].
  intros k r. cbn. by rewrite lookup_empty.
Qed.
Lemma requester_checked : caller_checked (Ok requester).
Proof. split; [by intros e [=]|]. intros p [= <-]. split; vm_compute; congruence. Qed.
Lemma sample_submission_valid : cr_call_valid (CrSubmit sample_submission).
Proof. split; [reflexivity|]. split; [reflexivity|]. intros s v. by destruct s; intros [= <-]. Qed.

(** After the submission, another execution lists what is stored. *)
Abbreviation submitted := (respond review_request (cr_serve sample_uuid_input review_execution (Ok requester) reviews_start
  (CrSubmit sample_submission))).
Definition listing_execution : ReviewExecution :=
  mkReviewExecution (mkExecution (sample_env 200 77 88) sample_db (test_uuid7 2)) sample_db 220 41.
Lemma submitted_ready : review_ready listing_execution submitted.2.
Proof.
  assert (rd_db submitted.2 = sample_db) as Hdb by (vm_compute; reflexivity).
  assert (map_Forall (λ _ (r : CrRow), rw_applied_change_set_id r ≠ Some (test_uuid7 2)) (rd_requests submitted.2)) as Hall
    by (apply (bool_decide_unpack _); vm_compute; exact I).
  split; [rewrite Hdb; exact (sample_served 200)|]. split; [reflexivity|]. split; [exact Hall|vm_compute; reflexivity].
Qed.
Lemma submitted_dated : requests_dated (rd_requests submitted.2).
Proof.
  assert (map_Forall (λ k (r : CrRow), in_calendar (rw_created_at r) ∧ uuid_ok k) (rd_requests submitted.2)) as Hall
    by (unfold in_calendar, uuid_ok; apply (bool_decide_unpack _); vm_compute; exact I).
  intros id r Hr. exact (Hall id r Hr).
Qed.

