(* ===== verification/ChangeRequestJourneys.v ===== *)
(** * What a requester can rely on

    From the submission of a proposal on, through any reviews, submissions and
    changes of the master data, its requester and the reviewers read the
    proposal back as it was submitted; nobody else reads it. *)

From Stdlib Require Import Ascii String.
From S2P Require Import Prelude Python Exceptions Uuids Auth MutationAudit Dimensions MasterCodes Store Records Invariant Consistency Pagination DimensionRepos MasterCodeRepo MasterCodeSpecs Transactions Commands CommandSpecs UseCases ChangeRequests ChangeRequestRepo ChangeRequestSpecs Approvals Reviews ReviewErrors Problems Preconditions Endpoints EndpointSpecs MasterCodeEndpoints ChangeRequestEndpoints ChangeRequestEndpointSpecs.
Local Open Scope Z_scope.

Section journey.
Context `{UnicodeData} (uuid_input : pystr → option UUID).
Hypothesis Huuid : ∀ u, uuid_ok u → uuid_input (uuid_str u) = Some u.

(** A request of the routes, or any consistent change of the master data. *)
Inductive review_step (st : RDB) : RDB → Prop :=
| step_request x authenticated request call :
    review_ready x st → caller_checked authenticated → cr_call_valid call →
    review_step st (respond request (cr_serve uuid_input x authenticated st call)).2
| step_data db' : db_ok db' → review_step st (mkRDB db' (rd_requests st)).

(** The state after a route is the one it found or the one its use case left. *)
Lemma after_state {X} request (m : res (X * RDB)) st (k : X → res (HttpResponse ChangeRequestBody)) (P : RDB → Prop) :
  P st → (∀ y st', m = Ok (y, st') → P st') → P (respond request (after m st k)).2.
Proof. intros Hst Hm. unfold respond, after. destruct m as [[y st']|e]; [by eapply Hm|done]. Qed.

Lemma call_progress x authenticated request st call :
  review_inv uuid_input st → review_ready x st → caller_checked authenticated → cr_call_valid call →
  requests_progress (rd_requests st) (rd_requests (respond request (cr_serve uuid_input x authenticated st call)).2).
Proof.
  intros [[Hdb Hok] _] [Hserved _] Hcaller Hvalid. destruct call as [payload|id|id|id payload|id message].
  - apply (after_state request _ st _ (λ st', requests_progress (rd_requests st) (rd_requests st')));
      [apply requests_progress_refl|].
    intros req st' (p & _ & Hm)%bind_Ok. apply bind_Ok in Hm as (proposal & _ & Hm). by eapply submit_result.
  - apply requests_progress_refl.
  - apply requests_progress_refl.
  - apply (after_state request _ st _ (λ st', requests_progress (rd_requests st) (rd_requests st')));
      [apply requests_progress_refl|].
    intros req st' (p & [Hauth _]%guard_Ok & Hm)%bind_Ok. apply bind_Ok in Hm as (proposal & Hprop & Hm).
    apply bind_Ok in Hm as (message & Hmsg & Hm).
    eapply approve_result in Hm as (_ & original & plan & mc_id & before & row & Happ);
      [by destruct (apv_requests _ _ _ _ _ _ _ _ _ _ _ _ _ _ Happ) as (_ & ? & _)|apply Hserved|done|done
      |by apply Hcaller| |].
    + intros text ->. destruct (aq_review_message payload) as [[raw|]|]; try done.
      apply bind_Ok in Hmsg as (t & Ht & [= ->]). by eapply ReviewMessage_init_Ok.
    + intros q ->. destruct (aq_approved_proposal payload) as [[value|]|]; try done.
      apply bind_Ok in Hprop as (q' & Hq & [= ->]). by apply to_proposal_wf in Hq as [? _].
  - apply (after_state request _ st _ (λ st', requests_progress (rd_requests st) (rd_requests st')));
      [apply requests_progress_refl|].
    intros req st' (p & _ & Hm)%bind_Ok. apply bind_Ok in Hm as (text & Htext%ReviewMessage_init_Ok & Hm).
    eapply reject_result in Hm as (_ & _ & ? & _); [done|done|]. by intros ? [= <-].
Qed.

Lemma review_step_keeps st st' :
  review_inv uuid_input st → review_step st st' →
  review_inv uuid_input st' ∧ requests_progress (rd_requests st) (rd_requests st').
Proof.
  intros Hinv Hstep. destruct Hstep as [x authenticated request call Hready Hcaller Hvalid|db' Hdb'].
  - split; [|by apply call_progress].
    assert (route_promise same_code (cr_responses call) (review_inv uuid_input) (served_request uuid_input) st
      (respond request (cr_serve uuid_input x authenticated st call))) as (_ & _ & Hkeep & _); [|done].
    destruct call; [by apply submit_promised|by apply get_own_promised|by apply get_review_promised
      |by apply approve_promised|by apply reject_promised].
  - split; [|apply requests_progress_refl]. destruct Hinv as [[_ Hok] Hrest]. by split.
Qed.

Lemma review_steps_keep st st' :
  review_inv uuid_input st → rtc review_step st st' →
  review_inv uuid_input st' ∧ requests_progress (rd_requests st) (rd_requests st').
Proof.
  intros Hinv Hrtc. induction Hrtc as [st|st1 st2 st3 Hstep _ IH]; [split; [done|apply requests_progress_refl]|].
  destruct (review_step_keeps _ _ Hinv Hstep) as [H2 ?]. destruct (IH H2) as [? ?].
  split; [done|by eapply requests_progress_trans].
Qed.

(** What a submission wrote. *)
Lemma submitted x p request payload st st1 id created_at :
  review_inv uuid_input st → review_ready x st → cr_call_valid (CrSubmit payload) →
  respond request (cr_serve uuid_input x (Ok p) st (CrSubmit payload)) =
    (mkHttpResponse 201 [] (BodyContent (SubmittedChangeRequestResponse id created_at)), st1) →
  ∃ r req, rd_requests st1 !! id = Some r ∧ request_of r = Ok req ∧
    proposal_of_json uuid_input false (cr_original req) = Some (sq_proposal payload) ∧
    cr_requester_id req = principal_id p ∧ cr_created_at req = created_at ∧
    normalize_reason (sq_reason payload) = Ok (cr_reason req).
Proof.
  intros [[_ Hok] _] (_ & _ & _ & Hfresh) (Hfield & Hno & Hids) Hresp. cbn [cr_serve] in Hresp.
  unfold submit_route in Hresp.
  match type of Hresp with context [after ?m _ _] => destruct m as [[req st']|e] eqn:Hm end.
  2: { apply (f_equal (λ o, rs_content o.1)) in Hresp. discriminate Hresp. }
  unfold respond, after in Hresp. cbn [fst snd] in Hresp. injection Hresp as Hid Hat Hst. subst id created_at st1.
  apply bind_Ok in Hm as (q & [Hq _]%guard_Ok & Hm). injection Hq as <-. apply bind_Ok in Hm as (proposal & Hprop & Hm).
  pose proof (to_proposal_wf _ _ Hprop) as [Hwf _].
  destruct (submit_spec (re_request_id x) (re_clock x) p proposal (sq_reason payload) st Hwf Hfresh) as [_ Hs].
  destruct (Hs _ _ Hm) as (_ & text & Hprep & Hreq).
  unfold submit in Hm. apply bind_Ok in Hm as (reason & _ & Hm). apply bind_Ok in Hm as ([req' t'] & Hrow & [= -> <-]).
  apply submit_request_row in Hrow as (_ & _ & _ & Hget & _); [|done]. cbn [rd_requests].
  assert (cr_id req = re_request_id x) as -> by by rewrite Hreq.
  destruct (get_request_row _ _ _ _ Hget) as (r & Hr & Hread & _). exists r, req. split_and!; try done; rewrite Hreq; cbn.
  - exact (proposal_reads_back uuid_input Huuid _ _ false Hfield Hids ltac:(by rewrite Hno) Hprop).
  - done.
  - unfold prepare_submission in Hprep. apply bind_Ok in Hprep as (action & _ & Hprep).
    do 2 apply bind_Ok in Hprep as (_ & _ & Hprep). apply catch_Ok in Hprep as [?|(e & _ & He)]; [done|by destruct e].
Qed.

(** The request as a reader of a later state gets it. *)
Definition reads_as_submitted (payload : SubmitChangeRequestInput) (p : HumanPrincipal) (id : UUID) (created_at : datetime)
    (response : ChangeRequestResponse) : Prop :=
  qr_id response = id ∧ qr_original response = sq_proposal payload ∧ qr_requester_id response = principal_id p ∧
  qr_created_at response = created_at ∧ normalize_reason (sq_reason payload) = Ok (qr_reason response).

Lemma later_response st1 st2 payload p id created_at r req :
  review_inv uuid_input st1 → rtc review_step st1 st2 → rd_requests st1 !! id = Some r → request_of r = Ok req →
  proposal_of_json uuid_input false (cr_original req) = Some (sq_proposal payload) →
  cr_requester_id req = principal_id p → cr_created_at req = created_at →
  normalize_reason (sq_reason payload) = Ok (cr_reason req) →
  ∃ r2 response, rd_requests st2 !! id = Some r2 ∧ rw_requester_id r2 = principal_id p ∧
    (request_of r2 ≫= shown uuid_input) = Ok (mkHttpResponse 200 [] (BodyContent (ShownChangeRequest response))) ∧
    reads_as_submitted payload p id created_at response.
Proof.
  intros Hinv Hsteps Hr Hreq Hoj Hrid Hat Hreason.
  destruct (review_steps_keep _ _ Hinv Hsteps) as [[[_ Hok2] [_ Hshown2]] Hprog].
  destruct (Hprog _ _ Hr) as (r2 & Hr2 & Hrp). destruct (Hok2 _ _ Hr2) as [Hid2 [req2 Hreq2]].
  pose proof (request_of_fields _ _ Hreq) as (_ & Ho & _ & Hq & Hre & Hc & _ & _).
  pose proof (request_of_fields _ _ Hreq2) as (_ & Ho2 & Hi2 & Hq2 & Hre2 & Hc2 & _ & _).
  assert (rw_original r2 = rw_original r ∧ rw_requester_id r2 = rw_requester_id r ∧ rw_reason r2 = rw_reason r ∧
    rw_created_at r2 = rw_created_at r) as (Eo & Eq & Ere & Ec)
    by (destruct Hrp as [->|(_ & _ & _ & ? & ? & ? & ?)]; done).
  rewrite Eo, Ho in Ho2. injection Ho2 as Horig.
  destruct (presentable_response uuid_input req2 (Hshown2 _ _ _ Hr2 Hreq2))
    as (response & Hresp & Rid & _ & Rreq & Rrea & Rorig).
  exists r2, response. split; [done|]. split; [congruence|]. split.
  - rewrite Hreq2. cbn [mbind result_bind]. unfold shown. by rewrite Hresp.
  - unfold reads_as_submitted. split_and!; [congruence| |congruence| |].
    + rewrite <- Horig, Hoj in Rorig. by injection Rorig.
    + unfold _response in Hresp. apply bind_Ok in Hresp as (o & _ & Hresp). apply bind_Ok in Hresp as (a & _ & [= <-]).
      cbn [qr_created_at]. congruence.
    + rewrite Rrea, Hre2, Ere, <- Hre. done.
Qed.
End journey.

(** C40: a submitted proposal stays what was submitted.  After a user's
    submission is accepted, and after any further submissions, approvals,
    rejections, reads and changes of the master data, the requester reads the
    request back with exactly the proposal of the body, the normalized reason,
    the requester and the time of the submission; reviewers read the same
    response; any other user gets 404, and a plain user is denied the
    reviewers' route. *)
Theorem submission_reads_back `{UnicodeData} uuid_input x p request payload st st1 st2 id created_at :
  (∀ u, uuid_ok u → uuid_input (uuid_str u) = Some u) →
  review_inv uuid_input st → review_ready x st → caller_checked (Ok p) → cr_call_valid (CrSubmit payload) →
  respond request (cr_serve uuid_input x (Ok p) st (CrSubmit payload)) =
    (mkHttpResponse 201 [] (BodyContent (SubmittedChangeRequestResponse id created_at)), st1) →
  rtc (review_step uuid_input) st1 st2 →
  ∃ response, reads_as_submitted payload p id created_at response ∧
  ∀ x' q request',
    let answer call := (respond request' (cr_serve uuid_input x' (Ok q) st2 call)).1 in
    let found := mkHttpResponse 200 [] (BodyContent (ShownChangeRequest response)) in
    (if decide (principal_id q = principal_id p) then answer (CrGetOwn id) = found else rs_status (answer (CrGetOwn id)) = 404) ∧
    (if decide (principal_role q = USER) then rs_status (answer (CrGetReview id)) = 403 else answer (CrGetReview id) = found).
Proof.
  intros Huuid Hinv Hready Hcaller Hvalid Hresp Hsteps.
  assert (review_inv uuid_input st1) as Hinv1.
  { refine (proj1 (review_step_keeps uuid_input Huuid st st1 Hinv _)). apply (f_equal snd) in Hresp. cbn [snd] in Hresp.
    rewrite <- Hresp. by apply step_request. }
  destruct (submitted uuid_input Huuid _ _ _ _ _ _ _ _ Hinv Hready Hvalid Hresp)
    as (r & req & Hr & Hreq & Hoj & Hrid & Hat & Hreason).
  destruct (later_response uuid_input Huuid st1 st2 payload p id created_at r req Hinv1 Hsteps Hr Hreq Hoj Hrid Hat Hreason)
    as (r2 & response & Hr2 & Hown & Hshown & Hread).
  exists response. split; [exact Hread|]. intros x' q request'. cbv zeta. cbn [cr_serve]. split.
  - unfold get_own_route, get_own, guard, get_request. cbn [mbind result_bind]. rewrite !authorize_read, Hr2.
    cbn [mbind result_bind]. rewrite Hown, authorize_read. cbn [mbind result_bind]. destruct (decide _) as [E|E].
    + rewrite E, Z.eqb_refl. change (λ y, shown uuid_input y) with (shown uuid_input). by rewrite Hshown.
    + rewrite (proj2 (Z.eqb_neq _ _)) by congruence. reflexivity.
  - unfold get_review_route, get_for_review, guard, get_request. cbn [mbind result_bind]. rewrite Hr2.
    destruct q as [i role]. cbn [principal_role]. destruct (decide (role = USER)) as [->|Hne]; [reflexivity|].
    assert (authorize (mkHumanPrincipal i role) REVIEW_CHANGE_REQUEST = Ok (mkHumanPrincipal i role)) as Ha by by destruct role.
    rewrite Ha. cbn [mbind result_bind]. rewrite Ha. cbn [mbind result_bind]. change (λ y, shown uuid_input y) with (shown uuid_input). by rewrite Hshown.
Qed.

(** ** Witness *)

#[local] Existing Instance ascii_data.

(** The sample submission is rejected, and its requester reads it. *)
Definition submitted_reviews : RDB :=
  (respond review_request (cr_serve sample_uuid_input review_execution (Ok requester) reviews_start
    (CrSubmit sample_submission))).2.
Definition reviewer : HumanPrincipal := mkHumanPrincipal 5 ADMIN.
Definition second_execution : ReviewExecution :=
  mkReviewExecution (mkExecution (sample_env 200 77 88) sample_db (test_uuid7 2)) sample_db 260 41.
Definition rejected_reviews : RDB :=
  (respond review_request (cr_serve sample_uuid_input second_execution (Ok reviewer) submitted_reviews
    (CrReject 40 (py "not now")))).2.

Lemma sample_submission_accepted :
  respond review_request (cr_serve sample_uuid_input review_execution (Ok requester) reviews_start (CrSubmit sample_submission)) =
  (mkHttpResponse 201 [] (BodyContent (SubmittedChangeRequestResponse 40 (utc 210))), submitted_reviews).
Proof. vm_compute. reflexivity. Qed.

Lemma rejected_step : review_step sample_uuid_input submitted_reviews rejected_reviews.
Proof.
  apply (step_request sample_uuid_input submitted_reviews second_execution (Ok reviewer) review_request (CrReject 40 (py "not now"))).
  - assert (rd_db submitted_reviews = sample_db) as Hdb by (vm_compute; reflexivity).
    assert (map_Forall (λ k r, k ≠ 41 ∧ rw_applied_change_set_id r ≠ Some (test_uuid7 2)) (rd_requests submitted_reviews)) as Hall.
    { apply (bool_decide_unpack _). vm_compute. exact I. }
    split; [rewrite Hdb; exact (sample_served 200)|]. split; [reflexivity|]. split.
    + intros k r Hr. exact (proj2 (Hall k r Hr)).
    + destruct (rd_requests submitted_reviews !! re_request_id second_execution) as [r|] eqn:E; [|done].
      exfalso. exact (proj1 (Hall _ _ E) eq_refl).
  - split; [by intros e [=]|]. intros p [= <-]. split; vm_compute; congruence.
  - exact I.
Qed.

Lemma submission_reads_back_witness :
  ∃ response, qr_original response = sample_change ∧ qr_reason response = Some (py "new maker") ∧
    (respond review_request (cr_serve sample_uuid_input second_execution (Ok requester) rejected_reviews (CrGetOwn 40))).1 =
      mkHttpResponse 200 [] (BodyContent (ShownChangeRequest response)).
Proof.
  destruct (submission_reads_back sample_uuid_input review_execution requester review_request sample_submission reviews_start
    submitted_reviews rejected_reviews 40 (utc 210) parse_UUID_str reviews_start_inv reviews_ready requester_checked sample_submission_valid
    sample_submission_accepted (rtc_once _ _ rejected_step)) as (response & (_ & Ho & _ & _ & Hr) & Hreads).
  exists response. split; [exact Ho|]. split.
  - assert (normalize_reason (Some (py " new maker ")) = Ok (Some (py "new maker"))) as Hn by (vm_compute; reflexivity).
    cbn [sq_reason sample_submission] in Hr. rewrite Hn in Hr. injection Hr as Hr. exact (eq_sym Hr).
  - exact (proj1 (Hreads second_execution requester review_request)).
Defined.
