(* ===== verification/AuthEndpoints.v ===== *)
(** * The authentication endpoints
    ([src/src/mdm/api/sessions.py], [api/registrations.py],
    [api/password_lifecycle.py], [api/session_errors.py], the routing boundary of
    [api/request_protection.py] and their composition in
    [src/src/mdm/auth_sessions.py])

    A protected route tests its request before it parses the body, answers a
    refusal itself and gives every answer the header Cache-Control: no-store.
    Its handler turns the exceptions it knows into problems of its router; any
    other one reaches the handlers of the application. *)

From Stdlib Require Import Ascii String.
From S2P Require Import Prelude Python Exceptions Auth MasterCodes Credentials RateLimits IpAddresses Origins Accounts Sessions Registrations Passwords AccessTokens RequestProtection Problems Endpoints.
Local Open Scope Z_scope.

(** ** Responses *)

Inductive AuthBody :=
| AccessTokenResponse (access_token token_type : pystr) (expires_in : Z)
| CurrentProfileResponse (id : UUID) (email name : pystr) (effective_role : UserRole)
| AcceptedResponse (message : string)
| NoBody.
(** A response and the cookie calls made on it. *)
Record AuthResponse := mkAuthResponse { ar_response : HttpResponse AuthBody; ar_cookies : list Cookie }.

Definition NO_STORE : string * pystr := ("Cache-Control"%string, py "no-store").
Definition problem_answer (p : ProblemDetails) (headers : list (string * pystr)) : AuthResponse :=
  mkAuthResponse (mkHttpResponse (pd_status p) headers (ProblemContent p)) [].

(** ** The tables of problems *)

(** An entry: its key, then status, title and detail. *)
Abbreviation problem_entry := (string * (Z * string * string))%type.
Definition table_problem (entry : problem_entry) (instance : option pystr) : ProblemDetails :=
  let '(code, (status, title, detail)) := entry in
  mkProblemDetails (problem_type code) title status detail code instance None.

(** [_PROBLEMS] of the sessions *)
Inductive session_failure := SessionCredentials | SessionConflict | SessionHash | SessionService.
Definition SESSION_PROBLEMS (f : session_failure) : problem_entry :=
  match f with
  | SessionCredentials => ("INVALID_CREDENTIALS", (401, "로그인 실패", "이메일 또는 비밀번호를 확인해 주세요."))
  | SessionConflict =>
      ("refresh_conflict",
       (409, "세션 갱신 충돌", "다른 요청이 세션을 갱신했습니다. 1초 뒤 새 cookie로 한 번만 재시도해 주세요."))
  | SessionHash =>
      ("AUTH_PASSWORD_HASH_UNAVAILABLE",
       (503, "인증 처리 일시 중단", "현재 비밀번호를 확인할 수 없습니다. 잠시 후 다시 시도해 주세요."))
  | SessionService =>
      ("SERVICE_UNAVAILABLE",
       (503, "서비스를 사용할 수 없음", "현재 세션 기능을 사용할 수 없습니다. 잠시 후 다시 시도해 주세요."))
  end%string.
Definition session_problem (f : session_failure) : option pystr → ProblemDetails := table_problem (SESSION_PROBLEMS f).

(** [_PROBLEMS] of the registrations *)
Inductive registration_failure :=
| RegistrationToken' | RegistrationDomain | RegistrationInvalid | RegistrationHash | RegistrationService.
Definition REGISTRATION_PROBLEMS (f : registration_failure) : problem_entry :=
  match f with
  | RegistrationToken' =>
      ("INVALID_REGISTRATION_TOKEN",
       (400, "유효하지 않은 가입 인증 링크", "유효하지 않거나 만료된 가입 인증 링크입니다. 가입을 다시 신청해 주세요."))
  | RegistrationDomain =>
      ("EMAIL_DOMAIN_NOT_ALLOWED", (422, "가입할 수 없는 이메일 도메인", "현재 가입이 허용된 이메일 도메인이 아닙니다."))
  | RegistrationInvalid =>
      ("VALIDATION_ERROR", (422, "유효하지 않은 요청", "하나 이상의 요청 필드가 유효하지 않습니다."))
  | RegistrationHash =>
      ("AUTH_PASSWORD_HASH_UNAVAILABLE",
       (503, "인증 처리 일시 중단", "현재 비밀번호를 처리할 수 없습니다. 잠시 후 다시 시도해 주세요."))
  | RegistrationService =>
      ("SERVICE_UNAVAILABLE",
       (503, "서비스를 사용할 수 없음", "현재 가입 기능을 사용할 수 없습니다. 잠시 후 다시 시도해 주세요."))
  end%string.
Definition registration_problem (f : registration_failure) : option pystr → ProblemDetails :=
  table_problem (REGISTRATION_PROBLEMS f).

(** [_PROBLEMS] of the password lifecycle *)
Inductive password_failure :=
| ResetToken | CurrentPassword | PasswordSession | PasswordInvalid | PasswordPolicy | PasswordHash | PasswordService.
Definition PASSWORD_PROBLEMS (f : password_failure) : problem_entry :=
  match f with
  | ResetToken =>
      ("INVALID_PASSWORD_RESET_TOKEN",
       (400, "유효하지 않은 비밀번호 재설정 링크",
        "유효하지 않거나 만료된 비밀번호 재설정 링크입니다. 재설정을 다시 신청해 주세요."))
  | CurrentPassword => ("INVALID_CURRENT_PASSWORD", (400, "현재 비밀번호 불일치", "현재 비밀번호를 확인해 주세요."))
  | PasswordSession =>
      ("INVALID_SESSION", (401, "유효하지 않은 로그인 세션", "유효한 로그인 세션이 없습니다. 다시 로그인해 주세요."))
  | PasswordInvalid =>
      ("VALIDATION_ERROR", (422, "유효하지 않은 요청", "하나 이상의 요청 필드가 유효하지 않습니다."))
  | PasswordPolicy =>
      ("PASSWORD_POLICY_VIOLATION", (422, "비밀번호 정책 위반", "새 비밀번호는 NFC 정규화 후 15~128자여야 합니다."))
  | PasswordHash =>
      ("AUTH_PASSWORD_HASH_UNAVAILABLE",
       (503, "인증 처리 일시 중단", "현재 비밀번호를 처리할 수 없습니다. 잠시 후 다시 시도해 주세요."))
  | PasswordService =>
      ("SERVICE_UNAVAILABLE",
       (503, "서비스를 사용할 수 없음", "현재 비밀번호 기능을 사용할 수 없습니다. 잠시 후 다시 시도해 주세요."))
  end%string.
Definition password_problem (f : password_failure) : option pystr → ProblemDetails :=
  table_problem (PASSWORD_PROBLEMS f).

(** [_PROBLEMS] of the protection, with the status the route gives each *)
Inductive refusal := RefusedOrigin | RefusedCsrf | RefusedRate.
Definition PROTECTION_PROBLEMS (f : refusal) : problem_entry :=
  match f with
  | RefusedOrigin => ("ORIGIN_NOT_ALLOWED", (403, "허용되지 않은 Origin", "허용된 Origin 하나가 필요합니다."))
  | RefusedCsrf =>
      ("CSRF_VALIDATION_FAILED",
       (403, "CSRF 검증 실패", "유효한 CSRF cookie와 X-CSRF-Token header가 일치해야 합니다."))
  | RefusedRate =>
      ("RATE_LIMIT_EXCEEDED",
       (429, "요청 횟수 제한", "인증 요청 횟수를 초과했습니다. Retry-After 이후 다시 시도해 주세요."))
  end%string.
Definition _problem (f : refusal) : option pystr → ProblemDetails := table_problem (PROTECTION_PROBLEMS f).

(** [_failure] of the routers, [unavailable_response] *)
Definition session_answer (f : session_failure) (path : pystr) : AuthResponse :=
  problem_answer (session_problem f (Some path)) [NO_STORE].
Definition unavailable_response : pystr → AuthResponse := session_answer SessionService.
Definition registration_answer (f : registration_failure) (path : pystr) : AuthResponse :=
  problem_answer (registration_problem f (Some path)) [NO_STORE].
Definition password_answer (f : password_failure) (path : pystr) : AuthResponse :=
  problem_answer (password_problem f (Some path)) [NO_STORE].

(** [invalid_session_response] *)
Definition invalid_session_response (secure : bool) (path : pystr) : AuthResponse :=
  mkAuthResponse
    (mkHttpResponse 401 [NO_STORE]
       (ProblemContent
          (problem "/problems/invalid-session" "유효하지 않은 로그인 세션" 401
             "유효한 로그인 세션이 없습니다. 다시 로그인해 주세요." "INVALID_SESSION" path)))
    (SessionCookies_clear secure).

(** ** Bodies *)

(** A body as the framework reads it: not JSON, of another shape, or the fields
    that the validators of its model get. *)
Inductive Body (A : Type) := Malformed (errors : list ValidationError) | Mistyped (errors : list ValidationError) | Fields (fields : A).
Arguments Malformed {A}. Arguments Mistyped {A}. Arguments Fields {A}.

(** A field validator; the value objects raise a [ValueError] only. *)
Definition field_validator {A} (field : string) (m : res A) : list ValidationError + A :=
  match m with
  | Ok x => inr x
  | Raise _ => inl [mkValidationError "value_error" ["body"; field]%string]
  end.
Definition both {A B} (x : list ValidationError + A) (y : list ValidationError + B) : list ValidationError + (A * B) :=
  match x, y with
  | inr a, inr b => inr (a, b)
  | inl e1, inl e2 => inl (e1 ++ e2)
  | inl e, _ | _, inl e => inl e
  end.

Section bodies.
Context `{UnicodeData} `{AuthServices}.

Definition LoginRequest_init (fields : pystr * pystr) : list ValidationError + (pystr * pystr) :=
  both (field_validator "email" (EmailAddress_init fields.1)) (field_validator "password" (PlainPassword_init fields.2)).
Definition RegistrationRequest_init (email : pystr) : list ValidationError + pystr :=
  field_validator "email" (EmailAddress_init email).
(** Token, name and password. *)
Definition RegistrationCompleteRequest_init (fields : pystr * (pystr * pystr))
    : list ValidationError + (pystr * (pystr * pystr)) :=
  both (inr fields.1)
    (both (field_validator "name" (DisplayName_init fields.2.1))
          (field_validator "password" (PlainPassword_init fields.2.2))).
Definition PasswordResetRequest_init (email : pystr) : list ValidationError + pystr :=
  field_validator "email" (EmailAddress_init email).
(** Token and new password. *)
Definition PasswordResetCompleteRequest_init (fields : pystr * pystr) : list ValidationError + (pystr * pystr) := inr fields.
(** Current and new password. *)
Definition PasswordChangeRequest_init (fields : pystr * pystr) : list ValidationError + (pystr * pystr) :=
  both (field_validator "current_password" (PlainPassword_init fields.1)) (inr fields.2).
End bodies.

(** ** The server, its requests and one execution *)

(** The settings and what the lifespan built: the hash for unknown addresses
    while it runs. *)
Record AuthServer := mkAuthServer {
  sr_sessions_enabled : bool;
  sr_registrations_enabled : bool;
  sr_password_resets_enabled : bool;
  sr_fake_hash : option pystr;
  sr_protection : AuthRequestProtection;
  sr_capacity : nat;
  sr_secure : bool;
  sr_allowed_domains : list pystr;
  sr_send : EmailDeliveryMessage → EmailDeliveryStatus;
}.
(** What a route reads of a request: the values of its headers, the address the
    resolver finds and what the principal dependency answers. *)
Record AuthRequest := mkAuthRequest {
  rq_http : HttpRequest;
  rq_origins : list pystr;
  rq_cookies : list pystr;
  rq_csrf_headers : list pystr;
  rq_client_ip : option ip_address;
  rq_principal : res HumanPrincipal;
}.
(** The clocks, draws and earlier reads of one execution. *)
Record AuthExecution := mkAuthExecution {
  ax_env : AuthEnv;
  ax_seen : ADB;
  ax_validated : ADB;
  ax_validated_at : Z;
  ax_csrf_random : list Z;
  ax_monotonic : Z;
  ax_clock : datetime;
}.

Inductive AuthCall :=
| auth_login (body : Body (pystr * pystr))
| auth_refresh_session
| auth_logout_session
| auth_get_current_profile
| auth_request_registration (body : Body pystr)
| auth_complete_registration (body : Body (pystr * (pystr * pystr)))
| auth_request_password_reset (body : Body pystr)
| auth_complete_password_reset (body : Body (pystr * pystr))
| auth_change_password (body : Body (pystr * pystr)).
Definition call_action (c : AuthCall) : AuthAction :=
  match c with
  | auth_login _ => LOGIN
  | auth_refresh_session => REFRESH
  | auth_logout_session => LOGOUT
  | auth_get_current_profile => ME
  | auth_request_registration _ => REGISTRATION_REQUEST
  | auth_complete_registration _ => REGISTRATION_COMPLETE
  | auth_request_password_reset _ => PASSWORD_RESET_REQUEST
  | auth_complete_password_reset _ => PASSWORD_RESET_COMPLETE
  | auth_change_password _ => PASSWORD_CHANGE
  end.

(** What [build_auth_sessions] composes: the use cases while the lifespan runs,
    and the router of an action, protected or unavailable. *)
Section composition.
Context (server : AuthServer).
Definition session_service : option pystr := if sr_sessions_enabled server then sr_fake_hash server else None.
Definition registration_service : bool := sr_registrations_enabled server && present session_service.
Definition reset_request_service : bool := sr_password_resets_enabled server && present session_service.

Inductive AuthRouter := Protected | Unavailable (answer : pystr → AuthResponse) | Open.
Definition router_for (action : AuthAction) : AuthRouter :=
  let protected_if (enabled : bool) answer :=
    if sr_sessions_enabled server && enabled then Protected else Unavailable answer in
  match action with
  | LOGIN | REFRESH | LOGOUT => protected_if true unavailable_response
  | REGISTRATION_REQUEST | REGISTRATION_COMPLETE =>
      protected_if (sr_registrations_enabled server) (registration_answer RegistrationService)
  | PASSWORD_RESET_REQUEST | PASSWORD_RESET_COMPLETE =>
      protected_if (sr_password_resets_enabled server) (password_answer PasswordService)
  | PASSWORD_CHANGE => protected_if true (password_answer PasswordService)
  | ME => Open
  end.
End composition.

(** ** The handlers *)

(** A use case on arguments built inside the same [try], with its handled
    exceptions, then what the handler does with its result. *)
Definition try_use_case {A B} (handled : exn → option AuthResponse) (arguments : res B) (use : B → Sessions.outcome A)
    (answer : A → res AuthResponse) (db : ADB) : Sessions.outcome AuthResponse :=
  let o := match arguments with Ok b => use b | Raise e => mkOutcome db [] (Raise e) end in
  mkOutcome (oc_db o) (oc_events o)
    (match oc_result o with
     | Ok x => answer x
     | Raise e => match handled e with Some r => Ok r | None => Raise e end
     end).
Definition answered (db : ADB) (r : AuthResponse) : Sessions.outcome AuthResponse := mkOutcome db [] (Ok r).

(** What the framework does before a handler: a body that is no JSON, then the
    dependencies, then the other errors of the body; [RequestValidationError]
    has a handler of the application. *)
Definition request_validation_error (request : HttpRequest) (errors : list ValidationError) : AuthResponse :=
  let r := validation_error_handler request errors in
  problem_answer (jr_problem r) ((λ h, (h.1, py h.2)) <$> jr_headers r).
Definition with_body {A B P} (request : HttpRequest) (body : Body A) (dependency : res P)
    (validate : A → list ValidationError + B) (db : ADB) (handler : P → B → Sessions.outcome AuthResponse) : Sessions.outcome AuthResponse :=
  match body with
  | Malformed errors => answered db (request_validation_error request errors)
  | Mistyped errors =>
      match dependency with
      | Raise e => mkOutcome db [] (Raise e)
      | Ok _ => answered db (request_validation_error request errors)
      end
  | Fields fields =>
      match dependency with
      | Raise e => mkOutcome db [] (Raise e)
      | Ok p =>
          match validate fields with
          | inl errors => answered db (request_validation_error request errors)
          | inr b => handler p b
          end
      end
  end.
Definition no_dependency : res unit := Ok tt.

Definition bearer : pystr := py "Bearer".
Definition empty_answer (headers : list (string * pystr)) (cookies : list Cookie) : AuthResponse :=
  mkAuthResponse (mkHttpResponse 204 headers (BodyContent NoBody)) cookies.

Section handlers.
Context `{UnicodeData} `{AuthServices} (server : AuthServer) (x : AuthExecution) (request : AuthRequest).
Abbreviation path := (hr_path (rq_http request)).
Abbreviation secure := (sr_secure server).

(** [_error] of the sessions *)
Definition _error (e : exn) : AuthResponse :=
  match e with
  | InvalidSession => invalid_session_response secure path
  | InvalidCredentials => session_answer SessionCredentials path
  | RefreshConflict =>
      problem_answer (session_problem SessionConflict (Some path)) [NO_STORE; ("Retry-After"%string, py "1")]
  | PasswordHashUnavailable => session_answer SessionHash path
  | _ => session_answer SessionService path
  end.

(** [_grant_body] and the same calls of the completed registration *)
Definition grant_body (status : Z) (grant : SessionGrant) : res AuthResponse :=
  cookies ← SessionCookies_issue secure (sg_refresh_token grant) (utc (sg_expires_at grant)) (utc (sg_issued_at grant))
              (ax_csrf_random x);
  Ok (mkAuthResponse
        (mkHttpResponse status [NO_STORE] (BodyContent (AccessTokenResponse (sg_access_token grant) bearer 900)))
        cookies).

Definition login_handler (body : Body (pystr * pystr)) (db : ADB) : Sessions.outcome AuthResponse :=
  with_body (rq_http request) body no_dependency LoginRequest_init db (λ _ '(email, password),
    match session_service server with
    | None => answered db (unavailable_response path)
    | Some fake =>
        try_use_case
          (λ e, match e with
                | InvalidCredentials | PasswordHashUnavailable | SessionUnavailable | UserPersistenceError => Some (_error e)
                | _ => None
                end)
          (email ← EmailAddress_init email; password ← PlainPassword_init password; Ok (email, password))
          (λ '(email, password), login (ax_env x) (ax_seen x) fake email password db)
          (grant_body 200) db
    end).

Definition refresh_handler (db : ADB) : Sessions.outcome AuthResponse :=
  match session_service server with
  | None => answered db (unavailable_response path)
  | Some _ =>
      match _refresh_cookie (rq_cookies request) with
      | Raise e => mkOutcome db [] (Raise e)
      | Ok None => answered db (invalid_session_response secure path)
      | Ok (Some token) =>
          try_use_case
            (λ e, match e with InvalidSession | RefreshConflict | SessionUnavailable => Some (_error e) | _ => None end)
            (Ok token) (λ token, refresh (ax_env x) (ax_seen x) token db) (grant_body 200) db
      end
  end.

Definition logout_handler (db : ADB) : Sessions.outcome AuthResponse :=
  let cleared := empty_answer [NO_STORE] (SessionCookies_clear secure) in
  match session_service server with
  | None => answered db (unavailable_response path)
  | Some _ =>
      match _refresh_cookie (rq_cookies request) with
      | Raise e => mkOutcome db [] (Raise e)
      | Ok None => answered db cleared
      | Ok (Some token) =>
          try_use_case (λ e, match e with SessionUnavailable => Some (_error e) | _ => None end)
            (Ok token) (λ token, logout (ax_env x) (ax_seen x) token db) (λ _, Ok cleared) db
      end
  end.

Definition me_handler (db : ADB) : Sessions.outcome AuthResponse :=
  match rq_principal request with
  | Raise e => mkOutcome db [] (Raise e)
  | Ok principal =>
      try_use_case (λ e, match e with SessionUnavailable | UserPersistenceError => Some (_error e) | _ => None end)
        (Ok principal) (λ p, mkOutcome db [] (get_current_profile p db))
        (λ current, Ok (mkAuthResponse
           (mkHttpResponse 200 [NO_STORE]
              (BodyContent (CurrentProfileResponse (cp_id current) (cp_email current) (cp_name current)
                 (cp_effective_role current)))) [])) db
  end.

Definition REGISTRATION_ACCEPTED : string :=
  "가입 가능한 이메일이면 인증 안내를 보냈습니다. 메일함을 확인해 주세요.".
Definition accepted (message : string) : AuthResponse :=
  mkAuthResponse (mkHttpResponse 202 [] (BodyContent (AcceptedResponse message))) [].

Definition request_registration_handler (body : Body pystr) (db : ADB) : Sessions.outcome AuthResponse :=
  with_body (rq_http request) body no_dependency RegistrationRequest_init db (λ _ email,
    if registration_service server then
      try_use_case
        (λ e, match e with
              | EmailDomainNotAllowed => Some (registration_answer RegistrationDomain path)
              | RegistrationUnavailable | OpaqueTokenCollision => Some (registration_answer RegistrationService path)
              | _ => None
              end)
        (EmailAddress_init email)
        (λ email, request_registration (ax_env x) (sr_send server) (sr_allowed_domains server) email db)
        (λ _, Ok (accepted REGISTRATION_ACCEPTED)) db
    else answered db (registration_answer RegistrationService path)).

Definition complete_registration_handler (body : Body (pystr * (pystr * pystr))) (db : ADB) : Sessions.outcome AuthResponse :=
  with_body (rq_http request) body no_dependency RegistrationCompleteRequest_init db (λ _ '(token, (name, password)),
    if registration_service server then
      try_use_case
        (λ e, match e with
              | InvalidOpaqueToken | InvalidRegistrationToken => Some (registration_answer RegistrationToken' path)
              | EmailDomainNotAllowed => Some (registration_answer RegistrationDomain path)
              | PasswordHashUnavailable => Some (registration_answer RegistrationHash path)
              | RegistrationUnavailable | OpaqueTokenCollision => Some (registration_answer RegistrationService path)
              | _ => None
              end)
        (token ← OpaqueToken_init token; name ← DisplayName_init name; password ← PlainPassword_init password;
         Ok (token, name, password))
        (λ '(token, name, password),
           complete_registration (ax_env x) (sr_allowed_domains server) (ax_seen x) token name password db)
        (grant_body 201) db
    else answered db (registration_answer RegistrationService path)).

Definition PASSWORD_RESET_ACCEPTED : string :=
  "비밀번호 재설정이 가능한 계정이면 안내 메일을 보냈습니다. 메일함을 확인해 주세요.".

Definition request_reset_handler (body : Body pystr) (db : ADB) : Sessions.outcome AuthResponse :=
  with_body (rq_http request) body no_dependency PasswordResetRequest_init db (λ _ email,
    if reset_request_service server then
      try_use_case
        (λ e, match e with
              | PasswordLifecycleUnavailable | OpaqueTokenCollision => Some (password_answer PasswordService path)
              | _ => None
              end)
        (EmailAddress_init email)
        (λ email, request_password_reset (ax_env x) (sr_send server) (ax_seen x) email db)
        (λ _, Ok (accepted PASSWORD_RESET_ACCEPTED)) db
    else answered db (password_answer PasswordService path)).

(** [PlainPassword(...)] of a new password, in a [try] of its own: the answer to
    one that is refused. *)
Definition new_password (refused : password_failure) (value : pystr) : pystr + AuthResponse :=
  match PlainPassword_init value with Ok p => inl p | Raise _ => inr (password_answer refused path) end.

Definition complete_reset_handler (body : Body (pystr * pystr)) (db : ADB) : Sessions.outcome AuthResponse :=
  with_body (rq_http request) body no_dependency PasswordResetCompleteRequest_init db (λ _ '(token, password),
    match session_service server with
    | None => answered db (password_answer PasswordService path)
    | Some _ =>
        match new_password PasswordInvalid password with
        | inr r => answered db r
        | inl password =>
            try_use_case
              (λ e, match e with
                    | InvalidOpaqueToken | InvalidPasswordResetToken => Some (password_answer ResetToken path)
                    | PasswordHashUnavailable => Some (password_answer PasswordHash path)
                    | PasswordLifecycleUnavailable => Some (password_answer PasswordService path)
                    | _ => None
                    end)
              (OpaqueToken_init token)
              (λ token, complete_reset (ax_env x) (ax_seen x) token password db)
              (λ _, Ok (empty_answer [NO_STORE] (SessionCookies_clear secure))) db
        end
    end).

Definition change_password_handler (body : Body (pystr * pystr)) (db : ADB) : Sessions.outcome AuthResponse :=
  with_body (rq_http request) body (rq_principal request) PasswordChangeRequest_init db (λ principal '(current, password),
    match session_service server with
    | None => answered db (password_answer PasswordService path)
    | Some _ =>
        match _refresh_cookie (rq_cookies request) with
        | Raise e => mkOutcome db [] (Raise e)
        | Ok None => answered db (invalid_session_response secure path)
        | Ok (Some token) =>
            match new_password PasswordPolicy password with
            | inr r => answered db r
            | inl password =>
                try_use_case
                  (λ e, match e with
                        | InvalidSession => Some (invalid_session_response secure path)
                        | InvalidCurrentPassword => Some (password_answer CurrentPassword path)
                        | PasswordHashUnavailable => Some (password_answer PasswordHash path)
                        | PasswordLifecycleUnavailable | OpaqueTokenCollision => Some (password_answer PasswordService path)
                        | _ => None
                        end)
                  (PlainPassword_init current)
                  (λ current, change_password (ax_env x) (ax_validated_at x) (ax_seen x) (ax_validated x) principal token
                                current password db)
                  (λ grant,
                     cookies ← SessionCookies_issue secure (pg_refresh_token grant) (utc (pg_expires_at grant))
                                 (utc (pg_issued_at grant)) (ax_csrf_random x);
                     Ok (empty_answer [NO_STORE] cookies)) db
            end
        end
    end).

Definition handler (c : AuthCall) : ADB → Sessions.outcome AuthResponse :=
  match c with
  | auth_login body => login_handler body
  | auth_refresh_session => refresh_handler
  | auth_logout_session => logout_handler
  | auth_get_current_profile => me_handler
  | auth_request_registration body => request_registration_handler body
  | auth_complete_registration body => complete_registration_handler body
  | auth_request_password_reset body => request_reset_handler body
  | auth_complete_password_reset body => complete_reset_handler body
  | auth_change_password body => change_password_handler body
  end.
End handlers.

(** ** The routing boundary ([protected_auth_router]) *)

Definition lower_ascii (a : ascii) : ascii :=
  let n := Ascii.nat_of_ascii a in
  if ((65 <=? n) && (n <=? 90))%nat then Ascii.ascii_of_nat (n + 32) else a.
Definition lower (s : string) : string := String.string_of_list_ascii (lower_ascii <$> String.list_ascii_of_string s).

(** [no_store_send] *)
Definition no_store_send (r : AuthResponse) : AuthResponse :=
  let h := ar_response r in
  mkAuthResponse
    (mkHttpResponse (rs_status h)
       (List.filter (λ p, negb (lower p.1 =? "cache-control")%string) (rs_headers h) ++ [("cache-control"%string, py "no-store")])
       (rs_content h))
    (ar_cookies r).
(** [scope["mdm.auth_no_store"] = True] *)
Definition auth_no_store (request : HttpRequest) : HttpRequest :=
  mkHttpRequest (hr_path request) (hr_method request) (hr_if_match request) true.

(** The answer to an exception the handlers of the application get. *)
Definition exception_answer (request : HttpRequest) (e : exn) : AuthResponse := mkAuthResponse (error_response request e) [].
(** The answer the client gets: the handler of [Exception] runs outside the
    route, the others inside. *)
Definition sent (request : HttpRequest) (result : res AuthResponse) : AuthResponse :=
  match result with
  | Ok r => no_store_send r
  | Raise e =>
      let r := exception_answer (auth_no_store request) e in
      if rs_status (ar_response r) =? 500 then r else no_store_send r
  end.

(** The [except] of [protected]. *)
Definition refused (path : pystr) (e : exn) : option AuthResponse :=
  match e with
  | OriginNotAllowed => Some (problem_answer (_problem RefusedOrigin (Some path)) [])
  | CsrfValidationFailed => Some (problem_answer (_problem RefusedCsrf (Some path)) [])
  | RateLimitExceeded retry_after =>
      Some (problem_answer (_problem RefusedRate (Some path)) [("Retry-After"%string, str_of_Z retry_after)])
  | _ => None
  end.

(** What an exchange leaves: the answer, both states and the events of the
    protection and of the use case. *)
Record Exchange := mkExchange {
  ec_response : AuthResponse;
  ec_db : ADB;
  ec_windows : Windows;
  ec_protection_events : list OperationalEvent;
  ec_events : list OperationalEventName;
}.

Definition exchange `{UnicodeData} `{AuthServices} (server : AuthServer) (x : AuthExecution) (request : AuthRequest)
    (c : AuthCall) (db : ADB) (windows : Windows) : Exchange :=
  let http := rq_http request in
  match router_for server (call_action c) with
  | Unavailable answer => mkExchange (answer (hr_path http)) db windows [] []
  | Open =>
      let o := handler server x request c db in
      mkExchange (match oc_result o with Ok r => r | Raise e => exception_answer http e end)
        (oc_db o) windows [] (oc_events o)
  | Protected =>
      let '(events, windows, checked) :=
        check (sr_protection server) (sr_capacity server) (ax_monotonic x) (ax_clock x) (call_action c)
          (rq_origins request) (csrf_cookie_values (rq_cookies request)) (rq_csrf_headers request)
          (rq_client_ip request) windows in
      match checked with
      | Raise e =>
          mkExchange (sent http (match refused (hr_path http) e with Some r => Ok r | None => Raise e end)) db windows events []
      | Ok _ =>
          let o := handler server x request c db in
          mkExchange (sent http (oc_result o)) (oc_db o) windows events (oc_events o)
      end
  end.

(** ** Documented responses *)

(** [_responses] of the three routers: an example per code under its status. *)
Fixpoint add_example (responses : Responses) (p : ProblemDetails) : Responses :=
  match responses with
  | [] => [(pd_status p, [p])]
  | (status, examples) :: rest =>
      if status =? pd_status p then (status, examples ++ [p]) :: rest else (status, examples) :: add_example rest p
  end.
Definition _responses (problems : list ProblemDetails) : Responses := foldl add_example [] problems.

(** [protection_responses] *)
Definition protection_responses (action : AuthAction) : Responses :=
  let policy := policy_for action in
  let codes := (if pp_origin policy then [_problem RefusedOrigin None] else [])
               ++ (if pp_csrf policy then [_problem RefusedCsrf None] else []) in
  (match codes with [] => [] | _ => [(403, codes)] end)
  ++ (if pp_rate_limit policy then [(429, [_problem RefusedRate None])] else []).

Definition INVALID_SESSION_EXAMPLE : ProblemDetails :=
  example "/problems/invalid-session" "유효하지 않은 로그인 세션" 401
    "유효한 로그인 세션이 없습니다. 다시 로그인해 주세요." "INVALID_SESSION".
Definition VALIDATION_EXAMPLE : ProblemDetails :=
  example "/problems/validation-error" "유효하지 않은 요청" 422 "하나 이상의 요청 필드가 유효하지 않습니다." "VALIDATION_ERROR".
(** The [responses] of the routes. *)
Definition session_responses (fs : list session_failure) : Responses := _responses ((λ f, session_problem f None) <$> fs).
Definition login_responses : Responses :=
  session_responses [SessionCredentials; SessionHash; SessionService] ++ [(422, [VALIDATION_EXAMPLE]); success 200].
Definition refresh_responses : Responses :=
  session_responses [SessionConflict; SessionService] ++ [success 200; (401, [INVALID_SESSION_EXAMPLE])].
Definition logout_responses : Responses := session_responses [SessionService] ++ [success 204].
Definition me_responses : Responses := [success 200; INVALID_ACCESS_TOKEN_RESPONSE] ++ session_responses [SessionService].
Definition registration_responses (fs : list registration_failure) : Responses :=
  _responses ((λ f, registration_problem f None) <$> fs).
Definition request_registration_responses : Responses :=
  registration_responses [RegistrationDomain; RegistrationInvalid; RegistrationService] ++ [success 202].
Definition complete_registration_responses : Responses :=
  registration_responses [RegistrationToken'; RegistrationDomain; RegistrationInvalid; RegistrationHash; RegistrationService]
  ++ [success 201].
Definition password_responses (fs : list password_failure) : Responses := _responses ((λ f, password_problem f None) <$> fs).
Definition request_reset_responses : Responses := password_responses [PasswordInvalid; PasswordService] ++ [success 202].
Definition complete_reset_responses : Responses :=
  password_responses [ResetToken; PasswordInvalid; PasswordHash; PasswordService] ++ [success 204].
Definition change_responses : Responses :=
  foldl add_example
    (password_responses [CurrentPassword; PasswordSession; PasswordInvalid; PasswordPolicy; PasswordHash; PasswordService])
    (INVALID_ACCESS_TOKEN_RESPONSE).2 ++ [success 204].

(** With those of the router. *)
Definition auth_responses (c : AuthCall) : Responses :=
  match c with
  | auth_login _ => login_responses
  | auth_refresh_session => refresh_responses
  | auth_logout_session => logout_responses
  | auth_get_current_profile => me_responses
  | auth_request_registration _ => request_registration_responses
  | auth_complete_registration _ => complete_registration_responses
  | auth_request_password_reset _ => request_reset_responses
  | auth_complete_password_reset _ => complete_reset_responses
  | auth_change_password _ => change_responses
  end ++ protection_responses (call_action c).
