(* ===== verification/AuthEndpointSpecs.v ===== *)
(** * What the authentication endpoints promise

    Every answer is one the route documents, is not to be stored, and touches
    the cookies of the browser exactly as far as its problem or success says;
    a browser that keeps what it is given stays signed in until it logs out. *)

From Stdlib Require Import Ascii String.
From S2P Require Import Prelude Python Exceptions Auth MasterCodes Credentials RateLimits IpAddresses Origins Accounts Sessions Registrations Passwords UserManagement AccountInvariant AccountSpecs SessionSpecs PasswordSpecs AccountClaims AccountErrors AccessTokens RequestProtection RequestProtectionSpecs Problems Endpoints EndpointSpecs AuthEndpoints.
Local Open Scope Z_scope.

(** ** Documented problems, by evaluation *)

Definition same_problem_b (p q : ProblemDetails) : bool :=
  ((pd_type p =? pd_type q) && (pd_title p =? pd_title q) && (pd_code p =? pd_code q) && (pd_detail p =? pd_detail q))%string
  && (pd_status p =? pd_status q).
Definition documents_b (docs : Responses) (p : ProblemDetails) : bool :=
  existsb (λ d, (d.1 =? pd_status p) && existsb (same_problem_b p) d.2) docs.

Lemma documents_b_documented docs p headers :
  documents_b docs p = true → documented (A := AuthBody) (same_problem exact_texts) docs (mkHttpResponse (pd_status p) headers (ProblemContent p)).
Proof.
  unfold documents_b. intros ([status examples] & Hin & [Hs He]%andb_true_iff)%existsb_exists. cbn [fst snd] in Hs, He.
  apply Z.eqb_eq in Hs. subst status. apply existsb_exists in He as (q & Hq & Hpq). exists examples. split; [by apply list_elem_of_In|].
  split; [done|]. apply Exists_exists. exists q. split; [by apply list_elem_of_In|].
  unfold same_problem_b in Hpq. rewrite !andb_true_iff, !String.eqb_eq in Hpq.
  destruct Hpq as [[[[Ht Hti] Hc] Hd] Hst]. apply Z.eqb_eq in Hst. split_and!; (done || by left).
Qed.

(** ** Headers *)

Definition cache_control {A} (r : HttpResponse A) : list pystr :=
  snd <$> List.filter (λ p, (lower p.1 =? "cache-control")%string) (rs_headers r).
Lemma no_store_cache_control r : cache_control (ar_response (no_store_send r)) = [py "no-store"].
Proof.
  unfold cache_control, no_store_send. cbn [ar_response rs_headers]. rewrite List.filter_app.
  assert (∀ l : list (string * pystr), List.filter (λ p, (lower p.1 =? "cache-control")%string)
    (List.filter (λ p, negb (lower p.1 =? "cache-control")%string) l) = []) as ->; [|reflexivity].
  induction l as [|p l IH]; [done|]. cbn. destruct (lower p.1 =? _)%string eqn:E; cbn; [done|]. by rewrite E.
Qed.

(** The headers of a problem that is sent, without the one the boundary rewrites. *)
Lemma sent_header name value r :
  (lower name =? "cache-control")%string = false → (name, value) ∈ rs_headers (ar_response r) →
  (name, value) ∈ rs_headers (ar_response (no_store_send r)).
Proof.
  intros Hn Hin. cbn. apply elem_of_app. left. apply list_elem_of_In, filter_In. split; [by apply list_elem_of_In|].
  cbv beta. cbn [fst]. by rewrite Hn.
Qed.

(** ** What an answer does to the cookies *)

Section services.
Context `{UnicodeData} `{AuthServices}.

(** The refresh token opens a session of the stored state that is alive. *)
Definition live_session (refresh_token : pystr) (expires_at : Z) (db : ADB) : Prop :=
  ∃ t r f, refresh_tokens db !! t = Some r ∧ rt_digest r = token_digest refresh_token ∧ rt_used_at r = None ∧
    families db !! rt_family_id r = Some f ∧ fr_status f = FAMILY_ACTIVE ∧ fr_expires_at f = expires_at.

Definition issues_session (c : AuthCall) : bool :=
  match c with
  | auth_login _ | auth_refresh_session | auth_complete_registration _ | auth_change_password _ => true
  | _ => false
  end.
Definition ends_session (c : AuthCall) : bool :=
  match c with auth_logout_session | auth_complete_password_reset _ => true | _ => false end.

(** A success that starts or continues a session issues both of its cookies, one
    that ends the session clears them; a problem keeps them, unless it says
    that the session is invalid. *)
Definition cookie_rule (server : AuthServer) (x : AuthExecution) (c : AuthCall) (r : AuthResponse) (db : ADB) : Prop :=
  match rs_content (ar_response r) with
  | ProblemContent p =>
      ar_cookies r = if (pd_code p =? "INVALID_SESSION")%string then SessionCookies_clear (sr_secure server) else []
  | BodyContent _ =>
      if issues_session c then
        ∃ refresh_token expires_at i,
          ar_cookies r =
            session_cookies (sr_secure server) refresh_token (b64encode (ax_csrf_random x))
              (Z.max 0 ((expires_at - ae_now (ax_env x)) / seconds 1)) (utc expires_at) ∧
          refresh_token = (ae_refresh (ax_env x) i).1 ∧
          (c = auth_refresh_session ∨ expires_at = ae_now (ax_env x) + days 7) ∧ live_session refresh_token expires_at db
      else ar_cookies r = if ends_session c then SessionCookies_clear (sr_secure server) else []
  end.

(** ** What a server needs to serve a request *)

Definition body_errors (c : AuthCall) : list ValidationError :=
  let errors {A} (b : Body A) := match b with Malformed e | Mistyped e => e | Fields _ => [] end in
  match c with
  | auth_login b => errors b
  | auth_request_registration b => errors b
  | auth_complete_registration b => errors b
  | auth_request_password_reset b => errors b
  | auth_complete_password_reset b => errors b
  | auth_change_password b => errors b
  | _ => []
  end.

Record auth_ready (server : AuthServer) (x : AuthExecution) (request : AuthRequest) (c : AuthCall) (db : ADB) : Prop := {
  ar_services : services_ok;
  ar_fake : ∀ fake, sr_fake_hash server = Some fake → verifiable fake;
  ar_seen : accounts_served (ax_seen x);
  ar_validated : accounts_served (ax_validated x);
  ar_db : accounts_served db;
  ar_random : Forall is_byte (ax_csrf_random x) ∧ List.length (ax_csrf_random x) = 32%nat;
  ar_principal : token_checked (rq_principal request);
  (* none of the routes is a PATCH, and none declares If-Match *)
  ar_method : (hr_method (rq_http request) =? "PATCH")%string = false;
  ar_body : Forall (λ e, ∃ l, ve_loc e = "body"%string :: l) (body_errors c);
}.

(** ** Answers of the handlers *)

(** A reply that is sent: documented, no internal error, with the cookies its
    content stands for; an error changes nothing, except that a refresh with a
    token used before clears the cookies and revokes the family of the token. *)
Definition good_answer (server : AuthServer) (x : AuthExecution) (request : AuthRequest) (c : AuthCall) (db : ADB) (r : AuthResponse) (db' : ADB) : Prop :=
  documented (same_problem exact_texts) (auth_responses c) (ar_response r) ∧ rs_status (ar_response r) ≠ 500 ∧
  cookie_rule server x c r db' ∧
  (400 ≤ rs_status (ar_response r) →
     db' = db ∨
     c = auth_refresh_session ∧ rs_status (ar_response r) = 401 ∧ ar_cookies r = SessionCookies_clear (sr_secure server) ∧
     ∃ token, _refresh_cookie (rq_cookies request) = Ok (Some token) ∧ reuse_revoked (ax_env x) token db db').
(** What a handler returns or raises, and the state it leaves. *)
Definition reply_ok (server : AuthServer) (x : AuthExecution) (request : AuthRequest) (c : AuthCall) (db : ADB) (result : res AuthResponse) (db' : ADB) : Prop :=
  match result with
  | Ok r => good_answer server x request c db r db' ∧ rs_status (ar_response r) ≠ 429
  | Raise e =>
      db' = db ∧
      (e = InvalidAccessToken ∧ (∀ http, documented_error (same_problem exact_texts) http (auth_responses c) InvalidAccessToken) ∨
       e = OpaqueTokenCollision ∧ (c = auth_refresh_session ∨ ∃ b, c = auth_login b))
  end.

Section replies.
Context (server : AuthServer) (x : AuthExecution) (request : AuthRequest) (c : AuthCall) (db : ADB).
Abbreviation reply := (reply_ok server x request c db).
Abbreviation path := (hr_path (rq_http request)).

(** A problem of a table, which is documented and keeps the cookies. *)
Lemma problem_reply p headers db' :
  documents_b (auth_responses c) p = true → (pd_code p =? "INVALID_SESSION")%string = false →
  pd_status p ≠ 500 ∧ pd_status p ≠ 429 → db' = db → reply (Ok (problem_answer p headers)) db'.
Proof.
  intros Hd Hc [H500 H429] ->. split; [|done]. split_and!; [by apply documents_b_documented|done| |by left].
  unfold cookie_rule. cbn. cbn in Hc. by rewrite Hc.
Qed.
Lemma invalid_session_reply db' :
  documents_b (auth_responses c) INVALID_SESSION_EXAMPLE = true →
  db' = db ∨ c = auth_refresh_session ∧ (∃ token, _refresh_cookie (rq_cookies request) = Ok (Some token) ∧ reuse_revoked (ax_env x) token db db') →
  reply (Ok (invalid_session_response (sr_secure server) path)) db'.
Proof.
  intros Hd Hdb. split; [|done]. split_and!; [|done|done|].
  - by apply (documents_b_documented _ (problem "/problems/invalid-session" "유효하지 않은 로그인 세션" 401
      "유효한 로그인 세션이 없습니다. 다시 로그인해 주세요." "INVALID_SESSION" path)).
  - intros _. destruct Hdb as [->|[-> Hreuse]]; [by left|by right].
Qed.
Lemma validation_reply errors :
  documents_b (auth_responses c) VALIDATION_EXAMPLE = true →
  (hr_method (rq_http request) =? "PATCH")%string = false → Forall (λ e, ∃ l, ve_loc e = "body"%string :: l) errors →
  reply (Ok (request_validation_error (rq_http request) errors)) db.
Proof.
  intros Hd Hm Hloc. unfold request_validation_error, validation_error_handler. rewrite Hm.
  assert (existsb (λ e, (ve_type e =? "missing")%string && bool_decide (ve_loc e = ["header"; "If-Match"]%string)) errors = false) as ->.
  { apply existsb_false. eapply Forall_impl; [exact Hloc|]. intros e [l ->]. cbv beta. by rewrite andb_false_r. }
  rewrite andb_false_r. by apply problem_reply.
Qed.

Lemma served_reply {A B} (E : exn → Prop) handled (arguments : res B) b (use : B → Sessions.outcome A) answer :
  arguments = Ok b → raises_only E (oc_result (use b)) →
  (∀ e, E e → oc_result (use b) = Raise e →
     reply (match handled e with Some r => Ok r | None => Raise e end) (oc_db (use b))) →
  (∀ a, oc_result (use b) = Ok a → reply (answer a) (oc_db (use b))) →
  reply (oc_result (try_use_case handled arguments use answer db)) (oc_db (try_use_case handled arguments use answer db)).
Proof.
  intros -> He Hh Ha. unfold try_use_case. cbn [oc_result oc_db]. destruct (oc_result (use b)) as [a|e] eqn:E'; [by apply Ha|].
  apply Hh; [by apply He|done].
Qed.

Lemma with_body_reply {A B P} (body : Body A) (dependency : res P) validate handler :
  documents_b (auth_responses c) VALIDATION_EXAMPLE = true →
  (hr_method (rq_http request) =? "PATCH")%string = false →
  Forall (λ e, ∃ l, ve_loc e = "body"%string :: l) (match body with Malformed e | Mistyped e => e | Fields _ => [] end) →
  (∀ f errors, validate f = inl errors → Forall (λ e, ∃ l, ve_loc e = "body"%string :: l) errors) →
  (∀ e, dependency = Raise e → reply (Raise e) db) →
  (∀ p f b, dependency = Ok p → body = Fields f → validate f = inr b → reply (oc_result (handler p b)) (oc_db (handler p b))) →
  let o := with_body (B := B) (rq_http request) body dependency validate db handler in
  reply (oc_result o) (oc_db o).
Proof.
  intros Hd Hm Hloc Hval Hdep Hh. unfold with_body.
  destruct body as [errors|errors|f]; [by apply validation_reply| |];
    (destruct dependency as [p|e]; [|by apply Hdep]); [by apply validation_reply|].
  destruct (validate f) as [errors|b] eqn:E; [|by eapply Hh]. apply validation_reply; [done|done|by eapply Hval].
Qed.
End replies.

(** ** The sessions that are started *)

Implicit Types db : ADB.

(** The token of a new session is one that was drawn. *)
Definition drawn (env : AuthEnv) (token : pystr) : Prop := ∃ i, token = (ae_refresh env i).1.
Lemma issue_refresh_drawn env family now db token id db' :
  issue_refresh env family now db = Ok ((token, id), db') → drawn env token.
Proof.
  intros Hi. pose proof (draw_until_spec (add_token family now db)
    (λ e, match e with RefreshDigestConflict => true | _ => false end) (ae_refresh env) 4 0) as Hs.
  unfold issue_refresh in Hi. rewrite Hi in Hs. destruct Hs as (i & _ & Heq & _). exists i. by rewrite <- Heq.
Qed.

Ltac next_ok H := let v := fresh in let Hv := fresh in apply bind_Ok in H as (v & Hv & H).
Lemma login_drawn env seen fake email password db g :
  oc_result (login env seen fake email password db) = Ok g → drawn env (sg_refresh_token g).
Proof.
  intros (db' & Hatt & _)%finish_Ok. apply bind_Ok in Hatt as ([s|] & _ & Hatt); next_ok Hatt; [|done]. next_ok Hatt.
  apply on_user_Ok in Hatt as ([u|] & _ & Htx); [|done]. do 3 next_ok Htx.
  apply bind_Ok in Htx as ([[token id] ?] & Hi & Htx). apply bind_Ok in Htx as (? & _ & [= <- _]).
  by eapply issue_refresh_drawn.
Qed.
Lemma refresh_drawn env seen token db g :
  accounts_ok db → oc_result (refresh env seen token db) = Ok g → drawn env (sg_refresh_token g).
Proof.
  intros Hok (target & u & _ & _ & Htx)%refresh_Ok; [|done]. next_ok Htx. apply bind_Ok in Htx as ([f t] & _ & Htx).
  next_ok Htx. destruct (rt_used_at t); [next_ok Htx; by next_ok Htx|].
  apply bind_Ok in Htx as ([[token' id] ?] & Hi & Htx). next_ok Htx. apply bind_Ok in Htx as (? & _ & [= <- _]).
  by eapply issue_refresh_drawn.
Qed.
Lemma complete_registration_drawn env domains seen token name password db g :
  accounts_ok db → oc_result (complete_registration env domains seen token name password db) = Ok g →
  drawn env (sg_refresh_token g).
Proof.
  intros Hok (target & hash & _ & _ & Htx)%complete_registration_Ok; [|done]. apply bind_Ok in Htx as ([c|] & _ & Htx); [|done].
  destruct (lock_registration_token _ _ _); [|done]. do 2 next_ok Htx. apply bind_Ok in Htx as ([u ?] & _ & Htx). next_ok Htx.
  apply bind_Ok in Htx as ([[token' id] ?] & Hi & Htx). next_ok Htx. apply bind_Ok in Htx as (? & _ & [= <- _]).
  by eapply issue_refresh_drawn.
Qed.
Lemma change_password_drawn env at_ seen validated p token current new db g :
  accounts_ok db → oc_result (change_password env at_ seen validated p token current new db) = Ok g →
  drawn env (pg_refresh_token g).
Proof.
  intros Hok (target & s & hash & r & u & _ & _ & _ & _ & _ & _ & _ & Htx)%change_password_Ok; [|done].
  do 5 next_ok Htx. apply bind_Ok in Htx as ([[token' id] ?] & Hi & Htx). next_ok Htx.
  apply bind_Ok in Htx as (? & _ & [= <- _]). by eapply issue_refresh_drawn.
Qed.

(** It is alive in the state the use case leaves. *)
Lemma new_session refresh_token env u expires_at id tokens fams db' :
  refresh_tokens db' = <[id := mkRefreshRow id (ae_family_id env) (token_digest refresh_token) (ae_now env) None None]> tokens →
  families db' = <[ae_family_id env := mkFamilyRow (ae_family_id env) u FAMILY_ACTIVE expires_at None (ae_now env) (ae_now env)]> fams →
  live_session refresh_token expires_at db'.
Proof.
  intros Ht Hf. exists id. eexists _, _. rewrite Ht, Hf. rewrite lookup_insert_eq. split; [done|]. cbn [rt_family_id].
  rewrite lookup_insert_eq. by split_and!.
Qed.
Lemma login_live env seen fake email password db g :
  accounts_ok db → oc_result (login env seen fake email password db) = Ok g →
  live_session (sg_refresh_token g) (sg_expires_at g) (oc_db (login env seen fake email password db)) ∧
  sg_issued_at g = ae_now env ∧ sg_expires_at g = ae_now env + days 7.
Proof.
  intros Hok (id0 & row0 & r & access & token & id & _ & _ & _ & _ & _ & _ & _ & _ & -> & _ & _ & _ & _ & ->)%login_Ok; [|done].
  split; [eapply new_session; reflexivity|done].
Qed.
Lemma refresh_live env seen token db g :
  accounts_ok db → oc_result (refresh env seen token db) = Ok g →
  live_session (sg_refresh_token g) (sg_expires_at g) (oc_db (refresh env seen token db)) ∧ sg_issued_at g = ae_now env.
Proof.
  intros Hok (target & u & _ & _ & Htx)%refresh_Ok; [|done].
  apply refresh_transaction_Ok in Htx as (f & t & Hf & Ht & _ & _ & _ & _ & Hact & _ & _ & _ & access & token' & next & -> & _ & Hn & ->);
    [|done].
  assert (tg_token_id target ≠ next) as Hne by congruence. split; [|done].
  exists next. eexists _, (touched (ae_now env) f). cbn. rewrite lookup_insert_ne by done. rewrite lookup_insert_eq. split; [done|].
  cbn. rewrite lookup_insert_eq. by split_and!.
Qed.
Lemma complete_registration_live env domains seen token name password db g :
  accounts_ok db → oc_result (complete_registration env domains seen token name password db) = Ok g →
  live_session (sg_refresh_token g) (sg_expires_at g) (oc_db (complete_registration env domains seen token name password db)) ∧
  sg_issued_at g = ae_now env ∧ sg_expires_at g = ae_now env + days 7.
Proof.
  intros Hok (target & hash & _ & _ & Htx)%complete_registration_Ok; [|done].
  apply complete_registration_transaction_Ok in Htx as (? & ? & _ & _ & _ & _ & _ & _ & _ & _ & _ & _ & _ & _ & _ &
    access & token' & id & -> & _ & Ht & Hf); [|done].
  split; [by eapply new_session|done].
Qed.
Lemma change_password_live env at_ seen validated p token current new db g :
  accounts_ok db → oc_result (change_password env at_ seen validated p token current new db) = Ok g →
  live_session (pg_refresh_token g) (pg_expires_at g) (oc_db (change_password env at_ seen validated p token current new db)) ∧
  pg_issued_at g = ae_now env ∧ pg_expires_at g = ae_now env + days 7.
Proof.
  intros Hok (target & s & hash & r & u & _ & _ & _ & _ & Hr & Hid & Hu & Htx)%change_password_Ok; [|done]. rewrite <- Hid in Hr.
  apply (change_password_transaction_Ok _ _ _ _ _ _ r) in Htx as (_ & _ & _ & _ & _ & _ & _ & _ & token' & id & -> & _ & Ht & Hf);
    [|done..].
  split; [by eapply new_session|done].
Qed.

(** ** The handlers *)

Lemma _refresh_cookie_total headers : ∃ token, _refresh_cookie headers = Ok token.
Proof.
  unfold _refresh_cookie. destruct (cookie_values _ _) as [|v [|]]; [by eexists| |by eexists].
  destruct (OpaqueToken_init_cases v) as [[-> _]|[-> _]]; by eexists.
Qed.
Lemma field_validator_body {A} field (m : res A) errors :
  field_validator field m = inl errors → Forall (λ e, ∃ l, ve_loc e = "body"%string :: l) errors.
Proof. unfold field_validator. destruct m; [done|]. intros [= <-]. apply Forall_singleton. by eexists. Qed.
Lemma both_body {A B} (a : list ValidationError + A) (b : list ValidationError + B) (P : list ValidationError → Prop) errors :
  both a b = inl errors → (∀ e, a = inl e → P e) → (∀ e, b = inl e → P e) → (∀ e1 e2, P e1 → P e2 → P (e1 ++ e2)) → P errors.
Proof. unfold both. destruct a, b; intros [= <-] Ha Hb Happ; auto. Qed.
Lemma both_Ok {A B} (a : list ValidationError + A) (b : list ValidationError + B) u v :
  both a b = inr (u, v) → a = inr u ∧ b = inr v.
Proof. unfold both. destruct a, b; intros [=]; by subst. Qed.
Lemma field_validator_Ok {A} field (m : res A) v : field_validator field m = inr v → m = Ok v.
Proof. unfold field_validator. destruct m; [|done]. by intros [= <-]. Qed.

Section handlers.
Context (server : AuthServer) (x : AuthExecution) (request : AuthRequest) (db : ADB).
Abbreviation reply c := (reply_ok server x request c db).
Abbreviation replied c o := (reply_ok server x request c db (oc_result o) (oc_db o)).
Abbreviation ready c := (auth_ready server x request c db).

Lemma body_reply c r headers status body db' :
  rs_status (ar_response r) = status → ar_response r = mkHttpResponse status headers (BodyContent body) →
  existsb (λ d, d.1 =? status) (auth_responses c) = true → status < 400 → cookie_rule server x c r db' →
  reply c (Ok r) db'.
Proof.
  intros _ Hr (d & Hin & Hd%Z.eqb_eq)%existsb_exists Hs Hc. unfold reply_ok, good_answer. rewrite Hr. cbn [rs_status].
  split; [|lia]. split_and!; [|lia|done|lia]. destruct d as [n ex]. cbn in Hd. subst n. exists ex.
  split; [by apply list_elem_of_In|done].
Qed.

Lemma issue_cookies c refresh_token expires_at issued_at :
  ready c → issued_at = ae_now (ax_env x) →
  SessionCookies_issue (sr_secure server) refresh_token (utc expires_at) (utc issued_at) (ax_csrf_random x) =
    Ok (session_cookies (sr_secure server) refresh_token (b64encode (ax_csrf_random x))
          (Z.max 0 ((expires_at - ae_now (ax_env x)) / seconds 1)) (utc expires_at)).
Proof.
  intros Hready ->. destruct (ar_random _ _ _ _ _ Hready) as [Hb Hl].
  exact (proj2 (SessionCookies_issue_Ok _ _ (utc expires_at) (utc (ae_now (ax_env x))) _ eq_refl eq_refl Hb Hl)).
Qed.
Lemma grant_reply c status grant db' :
  ready c → issues_session c = true → existsb (λ d, d.1 =? status) (auth_responses c) = true → status < 400 →
  drawn (ax_env x) (sg_refresh_token grant) → live_session (sg_refresh_token grant) (sg_expires_at grant) db' →
  sg_issued_at grant = ae_now (ax_env x) →
  c = auth_refresh_session ∨ sg_expires_at grant = ae_now (ax_env x) + days 7 → reply c (grant_body server x status grant) db'.
Proof.
  intros Hready Hissue Hdoc Hs [i Hdrawn] Hlive Hat Hexp. unfold grant_body. rewrite (issue_cookies c) by done. cbn [mbind result_bind].
  eapply body_reply; [reflexivity|reflexivity|done|done|]. unfold cookie_rule. cbn [ar_response rs_content]. rewrite Hissue.
  exists (sg_refresh_token grant), (sg_expires_at grant), i. by split_and!.
Qed.

Ltac table := apply problem_reply; [vm_compute; reflexivity|vm_compute; reflexivity|split; vm_compute; discriminate|].
Ltac collected := first [apply field_validator_body | by intros; apply Forall_app].

Lemma login_reply body : ready (auth_login body) → replied (auth_login body) (login_handler server x request body db).
Proof.
  intros Hready. pose proof (as_ok _ (ar_db _ _ _ _ _ Hready)) as Hok.
  apply with_body_reply; [vm_compute; reflexivity|apply Hready|exact (ar_body _ _ _ _ _ Hready)| |done|].
  { intros f errors Hf. by eapply (both_body _ _ _ _ Hf); try apply field_validator_body; intros; apply Forall_app. }
  intros [] f [email password] _ -> [He%field_validator_Ok Hp%field_validator_Ok]%both_Ok.
  destruct (session_service server) as [fake|] eqn:Hs; [|by table].
  assert (verifiable fake) as Hfake.
  { apply (ar_fake _ _ _ _ _ Hready). unfold session_service in Hs. by destruct (sr_sessions_enabled server). }
  assert ((email ← EmailAddress_init email; password ← PlainPassword_init password; Ok (email, password)) = Ok (email, password)) as Hargs.
  { rewrite (sv_email (ar_services _ _ _ _ _ Hready) _ _ He). cbn [mbind result_bind].
    by rewrite (sv_password (ar_services _ _ _ _ _ Hready) _ _ Hp). }
  eapply served_reply; [exact Hargs|apply (login_raises (ar_services _ _ _ _ _ Hready)); [apply Hready|done|done]| |].
  - intros e He' Hr%login_error_keeps. destruct He' as [->|[->|[->| ->]]]; [by table..|]. split; [done|]. right. split; [done|]. right. by eexists.
  - intros g Hg. destruct (login_live _ _ _ _ _ _ _ Hok Hg) as (Hlive & Hat & Hexp).
    apply grant_reply; [done|reflexivity|reflexivity|done|by eapply login_drawn|done|done|by right].
Qed.

Lemma refresh_reply : ready auth_refresh_session → replied auth_refresh_session (refresh_handler server x request db).
Proof.
  intros Hready. pose proof (as_ok _ (ar_db _ _ _ _ _ Hready)) as Hok. unfold refresh_handler.
  destruct (session_service server); [|by table].
  destruct (_refresh_cookie_total (rq_cookies request)) as [[token|] Hcookie]; rewrite Hcookie;
    [|apply invalid_session_reply; [vm_compute; reflexivity|by left]].
  eapply served_reply; [reflexivity|by apply (refresh_raises (ar_services _ _ _ _ _ Hready))| |].
  - intros e He Hr. pose proof (refresh_error_keeps _ _ _ _ _ Hr) as Hdb. destruct He as [->|[->|[->| ->]]].
    + apply invalid_session_reply; [vm_compute; reflexivity|].
      apply invalid_refresh_keeps in Hr as [Hr|Hr]; [by left|right|done]. split; [done|]. by exists token.
    + table. by apply Hdb.
    + table. by apply Hdb.
    + split; [by apply Hdb|]. right. split; [done|by left].
  - intros g Hg. destruct (refresh_live _ _ _ _ _ Hok Hg) as (Hlive & Hat).
    apply grant_reply; [done|reflexivity|reflexivity|done|by eapply refresh_drawn|done|done|by left].
Qed.

Lemma empty_reply c headers cookies db' :
  existsb (λ d, d.1 =? 204) (auth_responses c) = true → cookie_rule server x c (empty_answer headers cookies) db' →
  reply c (Ok (empty_answer headers cookies)) db'.
Proof. intros Hd Hc. by eapply body_reply. Qed.
Lemma logout_reply : ready auth_logout_session → replied auth_logout_session (logout_handler server x request db).
Proof.
  intros Hready. pose proof (as_ok _ (ar_db _ _ _ _ _ Hready)) as Hok. unfold logout_handler.
  destruct (session_service server); [|by table].
  destruct (_refresh_cookie_total (rq_cookies request)) as [[token|] ->]; [|by apply empty_reply].
  eapply served_reply; [reflexivity|by apply logout_raises| |by intros; apply empty_reply].
  intros e <- Hr%logout_error_keeps. by table.
Qed.

Lemma me_reply : ready auth_get_current_profile → replied auth_get_current_profile (me_handler server request db).
Proof.
  intros Hready. pose proof (as_ok _ (ar_db _ _ _ _ _ Hready)) as Hok. unfold me_handler.
  assert (∀ http, documented_error (same_problem exact_texts) http (auth_responses auth_get_current_profile) InvalidAccessToken) as Hdoc
    by (intros; documents).
  destruct (rq_principal request) as [p|e] eqn:Hp.
  2: { rewrite <- (ar_principal _ _ _ _ _ Hready e Hp). split; [done|]. by left. }
  eapply served_reply; [reflexivity|by apply profile_raises| |].
  - intros e <- _. split; [done|]. by left.
  - intros p' _. by eapply body_reply.
Qed.

Lemma request_registration_reply body :
  ready (auth_request_registration body) →
  replied (auth_request_registration body) (request_registration_handler server x request body db).
Proof.
  intros Hready.
  apply with_body_reply; [vm_compute; reflexivity|apply Hready|exact (ar_body _ _ _ _ _ Hready)| |done|].
  { intros f errors. apply field_validator_body. }
  intros [] f email _ -> He%field_validator_Ok. destruct (registration_service server); [|by table].
  assert (EmailAddress_init email = Ok email) as He' by (by eapply (sv_email (ar_services _ _ _ _ _ Hready))).
  eapply served_reply; [exact He'|apply request_registration_raises; [apply Hready|done]| |].
  - intros e Herr Hr%request_registration_error_keeps; [|apply Hready]. by destruct Herr as [->|[->| ->]]; table.
  - intros [] _. by eapply body_reply.
Qed.

Lemma complete_registration_reply body :
  ready (auth_complete_registration body) →
  replied (auth_complete_registration body) (complete_registration_handler server x request body db).
Proof.
  intros Hready. pose proof (as_ok _ (ar_db _ _ _ _ _ Hready)) as Hok.
  apply with_body_reply; [vm_compute; reflexivity|apply Hready|exact (ar_body _ _ _ _ _ Hready)| |done|].
  { intros f errors Hf. eapply (both_body _ _ _ _ Hf); [done| |intros; by apply Forall_app].
    intros e He. by eapply (both_body _ _ _ _ He); try apply field_validator_body; intros; apply Forall_app. }
  intros [] f [token [name password]] _ -> Hf. unfold RegistrationCompleteRequest_init in Hf.
  apply both_Ok in Hf as [_ [Hn%field_validator_Ok Hp%field_validator_Ok]%both_Ok].
  destruct (registration_service server); [|by table].
  apply (sv_name (ar_services _ _ _ _ _ Hready)) in Hn. apply (sv_password (ar_services _ _ _ _ _ Hready)) in Hp.
  destruct (OpaqueToken_init_cases token) as [[Ht _]|[Ht _]].
  2: { unfold try_use_case. rewrite Ht. cbn [mbind result_bind oc_result oc_db]. by table. }
  assert ((token ← OpaqueToken_init token; name ← DisplayName_init name; password ← PlainPassword_init password;
    Ok (token, name, password)) = Ok (token, name, password)) as Hargs.
  { rewrite Ht. cbn [mbind result_bind]. rewrite Hn. cbn [mbind result_bind]. by rewrite Hp. }
  eapply served_reply; [exact Hargs|apply (complete_registration_raises (ar_services _ _ _ _ _ Hready)); [apply Hready..|done]| |].
  - intros e Herr Hr%complete_registration_error_keeps. by destruct Herr as [[->|[->| ->]]|[->| ->]]; table.
  - intros g Hg. destruct (complete_registration_live _ _ _ _ _ _ _ _ Hok Hg) as (Hlive & Hat & Hexp).
    apply grant_reply; [done|reflexivity|reflexivity|done|by eapply complete_registration_drawn|done|done|by right].
Qed.

Lemma request_reset_reply body :
  ready (auth_request_password_reset body) →
  replied (auth_request_password_reset body) (request_reset_handler server x request body db).
Proof.
  intros Hready. pose proof (as_ok _ (ar_db _ _ _ _ _ Hready)) as Hok.
  pose proof (as_ok _ (ar_seen _ _ _ _ _ Hready)) as Hseen.
  apply with_body_reply; [vm_compute; reflexivity|apply Hready|exact (ar_body _ _ _ _ _ Hready)| |done|].
  { intros f errors. apply field_validator_body. }
  intros [] f email _ -> He%field_validator_Ok. destruct (reset_request_service server); [|by table].
  eapply served_reply; [by eapply (sv_email (ar_services _ _ _ _ _ Hready))|by apply request_password_reset_raises| |].
  - intros e Herr Hr%request_password_reset_error_keeps; [|done]. by destruct Herr as [->| ->]; table.
  - intros [] _. by eapply body_reply.
Qed.

Lemma new_password_refused failure value r :
  new_password request failure value = inr r → r = password_answer failure (hr_path (rq_http request)).
Proof. unfold new_password. destruct (PlainPassword_init value); [done|]. by intros [= <-]. Qed.

Lemma complete_reset_reply body :
  ready (auth_complete_password_reset body) →
  replied (auth_complete_password_reset body) (complete_reset_handler server x request body db).
Proof.
  intros Hready. pose proof (as_ok _ (ar_db _ _ _ _ _ Hready)) as Hok.
  pose proof (as_ok _ (ar_seen _ _ _ _ _ Hready)) as Hseen.
  apply with_body_reply; [vm_compute; reflexivity|apply Hready|exact (ar_body _ _ _ _ _ Hready)|done|done|].
  intros [] f [token password] _ -> _. destruct (session_service server); [|by table].
  destruct (new_password _ _ _) as [p|r] eqn:Hp; [|apply new_password_refused in Hp as ->; by table].
  destruct (OpaqueToken_init_cases token) as [[Ht _]|[Ht _]].
  2: { unfold try_use_case. rewrite Ht. by table. }
  eapply served_reply; [exact Ht|by apply (complete_reset_raises (ar_services _ _ _ _ _ Hready))| |by intros; apply empty_reply].
  intros e Herr Hr%complete_reset_error_keeps. by destruct Herr as [->|[->| ->]]; table.
Qed.

Lemma change_password_reply body :
  ready (auth_change_password body) →
  replied (auth_change_password body) (change_password_handler server x request body db).
Proof.
  intros Hready. pose proof (as_ok _ (ar_db _ _ _ _ _ Hready)) as Hok.
  apply with_body_reply; [vm_compute; reflexivity|apply Hready|exact (ar_body _ _ _ _ _ Hready)| | |].
  { intros f errors Hf. by eapply (both_body _ _ _ _ Hf); [apply field_validator_body| |intros; apply Forall_app]. }
  { intros e He. rewrite <- (ar_principal _ _ _ _ _ Hready e He). split; [done|]. left. split; [done|]. intros; documents. }
  intros p f [current password] _ -> Hf. unfold PasswordChangeRequest_init in Hf.
  apply both_Ok in Hf as [Hc%field_validator_Ok _]. destruct (session_service server); [|by table].
  destruct (_refresh_cookie_total (rq_cookies request)) as [[token|] ->];
    [|apply invalid_session_reply; [vm_compute; reflexivity|by left]].
  destruct (new_password _ _ _) as [new|r] eqn:Hp; [|apply new_password_refused in Hp as ->; by table].
  eapply served_reply; [by eapply (sv_password (ar_services _ _ _ _ _ Hready))
    |apply (change_password_raises (ar_services _ _ _ _ _ Hready)); [apply Hready|done]| |].
  - intros e Herr Hr%change_password_error_keeps. destruct Herr as [->|[->|[->|[->| ->]]]];
      [apply invalid_session_reply; [vm_compute; reflexivity|by left]|by table..].
  - intros g Hg. destruct (change_password_live _ _ _ _ _ _ _ _ _ _ Hok Hg) as (Hlive & Hat & Hexp).
    rewrite (issue_cookies _ _ _ _ Hready Hat). cbn [mbind result_bind]. apply empty_reply; [reflexivity|].
    apply change_password_drawn in Hg as [i Hi]; [|done]. exists (pg_refresh_token g), (pg_expires_at g), i. split_and!; (done || by right).
Qed.

Lemma handler_reply c : ready c → replied c (handler server x request c db).
Proof.
  destruct c; cbn [handler]; auto using login_reply, refresh_reply, logout_reply, me_reply, request_registration_reply,
    complete_registration_reply, request_reset_reply, complete_reset_reply, change_password_reply.
Qed.
End handlers.

(** ** The exchange *)

Section exchange.
Context (server : AuthServer) (x : AuthExecution) (request : AuthRequest) (c : AuthCall) (db : ADB).
Abbreviation http := (rq_http request).
Abbreviation good r db' := (good_answer server x request c db r db').

Lemma sent_good r db' : good r db' → good (no_store_send r) db'.
Proof. done. Qed.
Lemma exception_good http' db' :
  (∀ http, documented_error (same_problem exact_texts) http (auth_responses c) InvalidAccessToken) → db' = db →
  good (exception_answer http' InvalidAccessToken) db'.
Proof.
  intros Hd ->. split_and!; [|done|done|by left]. apply documented_error_response, Hd.
Qed.
Lemma refused_good e :
  (e = OriginNotAllowed ∧ pp_origin (policy_for (call_action c)) = true ∨
   e = CsrfValidationFailed ∧ pp_csrf (policy_for (call_action c)) = true ∨
   pp_rate_limit (policy_for (call_action c)) = true ∧ ∃ n, e = RateLimitExceeded n ∧ 1 ≤ n ≤ 60) →
  ∃ r, refused (hr_path http) e = Some r ∧ good r db ∧
    (rs_status (ar_response r) = 429 → ∃ n, 1 ≤ n ≤ 60 ∧ ("Retry-After"%string, str_of_Z n) ∈ rs_headers (ar_response r)).
Proof.
  assert (∀ f headers, documents_b (auth_responses c) (_problem f (Some (hr_path http))) = true →
    good (problem_answer (_problem f (Some (hr_path http))) headers) db) as Hgood.
  { intros f headers Hd. split_and!; [by apply documents_b_documented|by destruct f|by destruct f|by left]. }
  intros [[-> Hp]|[[-> Hp]|(Hp & n & -> & Hn)]]; (eexists; split; [reflexivity|]);
    (split; [apply Hgood; by destruct c|]); cbn; try done.
  intros _. exists n. split; [done|by left].
Qed.

(** The answer without one to a failed draw. *)
Definition answered_well (e : Exchange) : Prop :=
  good (ec_response e) (ec_db e) ∧
  (rs_status (ar_response (ec_response e)) = 429 →
     ∃ n, 1 ≤ n ≤ 60 ∧ ("Retry-After"%string, str_of_Z n) ∈ rs_headers (ar_response (ec_response e))).
(** Four draws in a row collided with stored tokens. *)
Definition draws_collided (e : Exchange) : Prop :=
  oc_result (handler server x request c db) = Raise OpaqueTokenCollision ∧
  (c = auth_refresh_session ∨ ∃ b, c = auth_login b) ∧
  rs_status (ar_response (ec_response e)) = 500 ∧ ec_db e = db.

Lemma reply_sent o :
  reply_ok server x request c db (oc_result o) (oc_db o) → oc_result o = oc_result (handler server x request c db) →
  ∀ windows pe ev,
  let e := mkExchange (sent http (oc_result o)) (oc_db o) windows pe ev in
  cache_control (ar_response (ec_response e)) = [py "no-store"] ∧ (answered_well e ∨ draws_collided e).
Proof.
  intros Hr Ho windows pe ev. cbn [ec_response]. unfold answered_well, draws_collided. cbn [ec_response ec_db]. rewrite <- Ho.
  destruct (oc_result o) as [r|e]; cbn [sent].
  - destruct Hr as [Hg H429]. split; [apply no_store_cache_control|]. left. split; [by apply sent_good|]. by intros ?%H429.
  - destruct Hr as [Hdb [[-> Hd]|[-> Hc]]].
    + split; [apply no_store_cache_control|]. left. split; [by apply sent_good, exception_good|done].
    + split; [reflexivity|]. by right.
Qed.
End exchange.

(** What every exchange satisfies. *)
Lemma exchange_answered server x request c db windows t :
  auth_ready server x request c db → windows_ok (sr_capacity server) t windows → t ≤ ax_monotonic x →
  (∀ a, rq_client_ip request = Some a → client_address a) →
  let e := exchange server x request c db windows in
  (c ≠ auth_get_current_profile → cache_control (ar_response (ec_response e)) = [py "no-store"]) ∧
  windows_ok (sr_capacity server) (ax_monotonic x) (ec_windows e) ∧
  (answered_well server x request c db e ∨ draws_collided server x request c db e).
Proof.
  intros Hready Hok Ht Hip. unfold exchange.
  assert (windows_ok (sr_capacity server) (ax_monotonic x) windows) as Hnow by by eapply (cleanup_ok _ 0).
  pose proof (handler_reply server x request db c Hready) as Hreply.
  destruct (router_for server (call_action c)) as [|answer|] eqn:Hrouter; cbv zeta.
  - destruct (check_result (sr_protection server) (sr_capacity server) t (ax_monotonic x) (ax_clock x) (call_action c)
      (rq_origins request) (csrf_cookie_values (rq_cookies request)) (rq_csrf_headers request) (rq_client_ip request) windows
      Hok Ht Hip) as (ev & w' & r & -> & Hw & Hr).
    destruct r as [[]|e].
    + destruct (reply_sent server x request c db (handler server x request c db) Hreply eq_refl w' ev
        (oc_events (handler server x request c db))) as [Hcc Hans]. by split_and!.
    + destruct (refused_good server x request c db e) as (r & -> & Hg & H429); [naive_solver|].
      split_and!; [intros _; apply no_store_cache_control|done|]. left. split; [by apply sent_good|].
      cbn [ec_response sent]. intros (n & Hn & Hin)%H429. exists n. split; [done|]. by apply sent_header.
  - assert (c ≠ auth_get_current_profile) as Hme by (intros ->; by cbn in Hrouter).
    assert (∃ p, answer (hr_path (rq_http request)) = problem_answer p [NO_STORE] ∧
      documents_b (auth_responses c) p = true ∧ (pd_code p =? "INVALID_SESSION")%string = false ∧ pd_status p = 503)
      as (p & -> & Hd & Hc & Hs).
    { revert Hrouter. unfold router_for. destruct c; cbn; repeat case_match; intros [= <-];
        (eexists; split_and!; [reflexivity|vm_compute; reflexivity..]). }
    split_and!; [done|done|]. left. destruct (problem_reply server x request c db p [NO_STORE] db Hd Hc) as [Hg H429]; [lia|done|].
    split; [exact Hg|]. by intros ?%H429.
  - assert (c = auth_get_current_profile) as -> by (by destruct c; cbn in Hrouter; repeat case_match).
    split_and!; [done|done|]. left. unfold answered_well. cbn [ec_response ec_db].
    destruct (oc_result _) as [r|e]; [destruct Hreply as [Hg H429]; split; [done|]; by intros ?%H429|].
    destruct Hreply as [Hdb [[-> Hd]|[_ [?|[? ?]]]]]; [|done..].
    by split; [apply exception_good|].
Qed.

(** C36: every exchange with an authentication route is answered by one of the
    responses its route documents, refusals of the protection, invalid bodies,
    switched-off features and unusable tokens included, and no answer but the
    profile's may be stored.  A success sets, clears or keeps the cookies as its
    operation says, and the cookies it sets are of a session that is alive in
    the state it leaves; an error keeps the cookies unless it is the invalid
    session, and leaves the accounts as they were, except that the 401 of a
    refresh with a token used over ten seconds before revokes its family; a client over its quota is told to come back in one to
    sixty seconds.  The one exception: login and refresh answer an undocumented
    internal error when four drawn tokens collide. *)
Theorem auth_routes_documented server x request c db windows t :
  auth_ready server x request c db → windows_ok (sr_capacity server) t windows → t ≤ ax_monotonic x →
  (∀ a, rq_client_ip request = Some a → client_address a) →
  let e := exchange server x request c db windows in
  (c ≠ auth_get_current_profile → cache_control (ar_response (ec_response e)) = [py "no-store"]) ∧
  windows_ok (sr_capacity server) (ax_monotonic x) (ec_windows e) ∧
  (answered_well server x request c db e ∨ draws_collided server x request c db e).
Proof. apply exchange_answered. Qed.
End services.

(** ** Witnesses *)

#[local] Existing Instance ascii_data.

(** One valid address, a hash that only marks the text, and an access token
    that names its user. *)
Definition one_user_services : AuthServices := {|
  validate_email s := if bool_decide (s = py "ann@x.io") then Some (py "ann", Some (py "x.io")) else None;
  password_hash p := Ok (py "H" ++ p);
  password_verify p h := Ok (bool_decide (h = py "H" ++ p));
  issue_access id role now := Ok (py "A" ++ str_of_Z id);
|}.
#[local] Existing Instance one_user_services.

Lemma strip_ws_idempotent s : strip_ws (strip_ws s) = strip_ws s.
Proof.
  assert (∀ s, lstrip_ws s = [] ∨ ∃ c u, lstrip_ws s = c :: u ∧ is_space c = false) as Hhead.
  { clear s. induction s as [|c s IH]; cbn; [by left|]. destruct (is_space c) eqn:E; [done|]. right. by exists c, s. }
  assert (∀ s, lstrip_ws (lstrip_ws s) = lstrip_ws s) as Hl.
  { clear s. intros s. destruct (Hhead s) as [->|(c & u & -> & Hc)]; [done|]. by apply lstrip_ws_id. }
  unfold strip_ws at 1. assert (lstrip_ws (strip_ws s) = strip_ws s) as ->.
  { unfold strip_ws. destruct (Hhead s) as [->|(c & u & -> & Hc)]; [done|].
    destruct (rstrip_ws_app [] c u Hc) as (u' & Hu & _). cbn [app] in Hu. rewrite Hu. by apply lstrip_ws_id. }
  unfold strip_ws. by rewrite reverse_involutive, Hl.
Qed.
Lemma one_user_services_ok : services_ok.
Proof.
  split.
  - intros v e. unfold EmailAddress_init, normalize_email. cbn [validate_email one_user_services].
    case_bool_decide; [|done]. vm_compute (raise_if _ _ ≫= _). intros [= <-]. vm_compute. reflexivity.
  - intros v n. unfold DisplayName_init. intros ([] & H1 & ([] & H2 & [= <-])%bind_Ok)%bind_Ok.
    cbn [ucd_nfc ascii_data] in *. rewrite strip_ws_idempotent, H1. cbn [mbind result_bind]. by rewrite H2.
  - intros v p ([] & H1 & [= <-])%bind_Ok. unfold PlainPassword_init. cbn [ucd_nfc ascii_data] in *. by rewrite H1.
  - intros p. apply raises_Ok.
  - intros p h [= <-]. split; [done|]. intros q. apply raises_Ok.
  - intros id role now. by eexists.
Qed.

Definition one_token (k : Z) : pystr := b64encode (repeat (k mod 256) 32).
Definition one_env (n : Z) : AuthEnv :=
  mkAuthEnv (seconds n) (100 + n) (200 + n) (300 + n) (400 + n)
    (λ k, (one_token (n + Z.of_nat k), 1000 + 10 * n + Z.of_nat k))
    (λ k, (one_token (100 + n + Z.of_nat k), 2000 + 10 * n + Z.of_nat k)).
Definition one_user : ADB :=
  oc_db (bootstrap (one_env 1) empty_adb empty_adb empty_adb (py "ann@x.io") (py "Ann") (py "correct horse battery") empty_adb).
Definition one_server : AuthServer :=
  mkAuthServer true true true (Some (py "Hfake")) (mkAuthRequestProtection [py "https://mdm.example.com:443"] (replicate 32 7))
    10 true [py "x.io"] test_send.
Definition one_execution (n : Z) (db : ADB) : AuthExecution :=
  mkAuthExecution (one_env n) db db (seconds n) (repeat 9 32) (n * second) (utc (seconds n)).
Definition one_request (cookies csrf_headers : list pystr) : AuthRequest :=
  mkAuthRequest (mkHttpRequest (py "/api/v1/auth") "POST" [] false) [py "https://mdm.example.com"] cookies csrf_headers None
    (Raise InvalidAccessToken).

(** Any later state of the only user is served. *)
Lemma one_user_served db : rtc account_step one_user db → registrations db = ∅ → accounts_served db.
Proof.
  intros Hsteps Hreg. split.
  - apply (account_steps_keep empty_adb db empty_accounts_ok). eapply rtc_l; [|exact Hsteps]. apply step_bootstrap.
  - intros id r _ password. apply raises_Ok.
  - intros id r. by rewrite Hreg, lookup_empty.
Qed.
Lemma one_ready n db c cookies csrf_headers :
  accounts_served db → body_errors c = [] → auth_ready one_server (one_execution n db) (one_request cookies csrf_headers) c db.
Proof.
  intros Hdb Hbody. split; try done.
  - exact one_user_services_ok.
  - split; [|reflexivity]. apply Forall_forall. intros b Hb%list_elem_of_In%repeat_spec. subst b. unfold is_byte. lia.
  - by intros e [= <-].
  - by rewrite Hbody.
Qed.

(** A wrong password. *)
Definition wrong_login : AuthCall := auth_login (Fields (py "ann@x.io", py "no such password at all")).
Lemma auth_routes_documented_witness :
  let e := exchange one_server (one_execution 5 one_user) (one_request [] []) wrong_login one_user [] in
  rs_status (ar_response (ec_response e)) = 401 ∧ cache_control (ar_response (ec_response e)) = [py "no-store"] ∧ ec_db e = one_user.
Proof.
  intros e. assert (accounts_served one_user) as Hs by by apply one_user_served.
  assert (windows_ok 10 0 []) as Hw by (split; [constructor|constructor|by intros ? ? ?%not_elem_of_nil|cbn; lia]).
  assert (rs_status (ar_response (ec_response e)) = 401) as H401 by (vm_compute; reflexivity).
  destruct (auth_routes_documented one_server (one_execution 5 one_user) (one_request [] []) wrong_login one_user [] 0
    (one_ready 5 one_user wrong_login [] [] Hs eq_refl) Hw ltac:(vm_compute; discriminate) ltac:(done)) as (Hcc & _ & Hans).
  fold e in Hcc, Hans. split; [exact H401|]. split; [by apply Hcc|].
  destruct Hans as [[(_ & _ & _ & Hdb) _]|(_ & _ & H500 & _)]; [|by rewrite H401 in H500].
  destruct Hdb as [?|[[=] _]]; [by rewrite H401|done].
Defined.
