(* ===== verification/AuthJourneys.v ===== *)
(** * A browser and its session

    A browser keeps the cookies the routes set, sends them back in whatever
    order, and echoes the CSRF cookie in its header.  Starting, rotating and
    ending a session are followed through the protection, the handlers, the
    accounts and the cookies. *)

From Stdlib Require Import Ascii String.
From S2P Require Import Prelude Python Exceptions Auth MasterCodes Credentials RateLimits IpAddresses Origins Accounts Sessions Registrations Passwords UserManagement AccountInvariant AccountSpecs SessionSpecs PasswordSpecs AccountClaims AccountErrors AccessTokens RequestProtection RequestProtectionSpecs Problems Endpoints EndpointSpecs AuthEndpoints AuthEndpointSpecs.
Local Open Scope Z_scope.

Section services.
Context `{UnicodeData} `{AuthServices}.
Implicit Types db : ADB.

(** The jar holds the cookies of a session that is alive in the state. *)
Definition signed_in (refresh_token csrf : pystr) (expires_at : Z) (jar : list (pystr * pystr)) (db : ADB) : Prop :=
  keeps_session refresh_token csrf jar ∧ (∃ raw, token_of raw csrf) ∧ live_session refresh_token expires_at db.

(** A request of the browser: its cookies in any order, the echoed CSRF token,
    and an allowed origin. *)
Definition browser_request (server : AuthServer) (csrf : pystr) (jar : list (pystr * pystr)) (request : AuthRequest) : Prop :=
  (∃ sent, sent ≡ₚ jar ∧ rq_cookies request = [cookie_header sent]) ∧ rq_csrf_headers request = [csrf] ∧
  origin_passes (ap_origins (sr_protection server)) (rq_origins request).
(** What the browser keeps of an answer. *)
Definition jar_after (jar : list (pystr * pystr)) (r : AuthResponse) : list (pystr * pystr) := foldl store_cookie jar (ar_cookies r).
(** The server draws tokens. *)
Definition draws_tokens (x : AuthExecution) : Prop := ∀ i, ∃ raw, token_of raw (ae_refresh (ax_env x) i).1.
Definition serving (server : AuthServer) : Prop := sr_sessions_enabled server = true ∧ is_Some (sr_fake_hash server).

(** Only errors are documented with a problem. *)
Lemma problem_answer_status c (r : HttpResponse AuthBody) p :
  documented (same_problem exact_texts) (auth_responses c) r → rs_content r = ProblemContent p → 400 ≤ rs_status r.
Proof.
  intros (ex & Hin & Hc) Hp. rewrite Hp in Hc. destruct Hc as [_ Hex].
  assert (forallb (λ d, match d.2 with [] => true | _ => 400 <=? d.1 end) (auth_responses c) = true) as Hall
    by (destruct c; vm_compute; reflexivity).
  rewrite forallb_forall in Hall. apply list_elem_of_In, Hall in Hin. cbn in Hin. destruct ex; [by apply Exists_nil in Hex|]. lia.
Qed.

Section journey.
Context (server : AuthServer) (x : AuthExecution) (request : AuthRequest) (c : AuthCall) (db : ADB) (windows : Windows) (t : Z).
Context (Hready : auth_ready server x request c db) (Hwindows : windows_ok (sr_capacity server) t windows).
Context (Ht : t ≤ ax_monotonic x) (Hip : ∀ a, rq_client_ip request = Some a → client_address a).
Abbreviation answer := (exchange server x request c db windows).

(** A success that starts or continues a session signs the browser in. *)
Lemma success_signs_in jar :
  draws_tokens x → Forall plain_cookie jar → issues_session c = true → answered_well server x request c db answer →
  rs_status (ar_response (ec_response answer)) < 400 →
  ∃ refresh_token csrf expires_at, live_session refresh_token expires_at (ec_db answer) ∧
    (c = auth_refresh_session ∨ expires_at = ae_now (ax_env x) + days 7) ∧
    (ae_now (ax_env x) + seconds 1 ≤ expires_at →
       signed_in refresh_token csrf expires_at (jar_after jar (ec_response answer)) (ec_db answer)).
Proof using Hready.
  intros Hdraws Hjar Hissue [(Hdoc & _ & Hcookies & _) _] Hs. unfold cookie_rule in Hcookies.
  destruct (rs_content (ar_response (ec_response answer))) as [p|body] eqn:Hc.
  - pose proof (problem_answer_status _ _ p Hdoc Hc). lia.
  - rewrite Hissue in Hcookies. destruct Hcookies as (refresh_token & expires_at & i & Hcookies & Hi & Hexp & Hlive).
    exists refresh_token, (b64encode (ax_csrf_random x)), expires_at. split_and!; [done|done|]. intros Hage.
    destruct (Hdraws i) as [raw Hraw]. rewrite <- Hi in Hraw. destruct (ar_random _ _ _ _ _ Hready) as [Hb Hl].
    destruct (generate_opaque_token_Ok _ Hb Hl) as [_ Hcsrf]. split; [|split; [by eexists|done]].
    unfold jar_after. rewrite Hcookies. eapply jar_keeps_session; [exact Hraw|exact Hcsrf| |done].
    unfold seconds in *. Z.to_euclidean_division_equations. lia.
Qed.

(** The protection grants the browser's requests, up to its quota. *)
Lemma browser_checked jar refresh_token csrf :
  keeps_session refresh_token csrf jar → (∃ raw, token_of raw csrf) → browser_request server csrf jar request →
  ∃ events windows' result,
    check (sr_protection server) (sr_capacity server) (ax_monotonic x) (ax_clock x) (call_action c) (rq_origins request)
      (csrf_cookie_values (rq_cookies request)) (rq_csrf_headers request) (rq_client_ip request) windows =
      (events, windows', result) ∧ _refresh_cookie (rq_cookies request) = Ok (Some refresh_token) ∧
    (result = Ok tt ∨
     pp_rate_limit (policy_for (call_action c)) = true ∧ ∃ n, result = Raise (RateLimitExceeded n) ∧ 1 ≤ n ≤ 60).
Proof using Hwindows Ht Hip.
  intros [_ Hkeeps] [raw Hcsrf] ((sent & Hperm & Hcookies) & Hheader & Horigin). destruct (Hkeeps sent Hperm) as [Hv Hr].
  destruct (check_result (sr_protection server) (sr_capacity server) t (ax_monotonic x) (ax_clock x) (call_action c)
    (rq_origins request) (csrf_cookie_values (rq_cookies request)) (rq_csrf_headers request) (rq_client_ip request) windows
    Hwindows Ht Hip) as (ev & w' & r & Heq & _ & Hcase).
  exists ev, w', r. split; [exact Heq|]. rewrite Hcookies in *. split; [exact Hr|].
  destruct Hcase as [(-> & _)|[(_ & _ & Hn)|[(_ & _ & Hn)|Hrate]]]; [by left|by destruct Hn| |by right].
  destruct Hn. exists raw, csrf. by rewrite Hv.
Qed.
End journey.

(** A live token rotates; its family keeps its expiry. *)
Lemma refresh_live_session env token expires_at db :
  accounts_ok db → fresh_session env db → (∀ k f, families db !! k = Some f → fr_created_at f ≤ ae_now env) →
  (∀ k r, refresh_tokens db !! k = Some r → rt_issued_at r ≤ ae_now env) → services_ok →
  live_session token expires_at db → ae_now env < expires_at →
  ∃ g, oc_result (refresh env db token db) = Ok g ∧ sg_expires_at g = expires_at.
Proof.
  intros Hok Hfresh Hclock Hissued Hsv (t & r & f & Hr & Hd & Hunused & Hf & Hact & <-) Hlive.
  assert (is_ok (oc_result (refresh env db token db)) = true) as Hsucc.
  { eapply refresh_succeeds; eauto. intros id role now. by destruct (sv_access Hsv id role now) as [? ->]. }
  destruct (oc_result (refresh env db token db)) as [g|] eqn:E; [|done]. exists g. split; [done|].
  destruct (refresh_Ok _ _ _ _ _ Hok E) as (target & u & Hfind & _ & Htx).
  destruct (find_refresh_spec _ _ _ (ac_tables _ Hok) Hr) as (f' & Hf' & Hfind'). rewrite Hd, Hfind in Hfind'.
  injection Hfind' as ->. apply refresh_transaction_Ok in Htx as (f2 & ? & Hf2 & _ & _ & _ & _ & _ & _ & _ & _ & _ & ? & ? & ? & -> & _); [|done].
  cbn in *. congruence.
Qed.

(** The session of a token has been ended; it stays so, and no refresh revives it. *)
Definition dead_session (token : pystr) (db : ADB) : Prop :=
  ∃ t r f, refresh_tokens db !! t = Some r ∧ rt_digest r = token_digest token ∧
    families db !! rt_family_id r = Some f ∧ fr_status f = FAMILY_REVOKED.
Lemma dead_session_stays token db db' : progress db db' → dead_session token db → dead_session token db'.
Proof.
  intros Hp (t & r & f & Hr & Hd & Hf & Hrev). destruct (pg_refresh _ _ Hp _ _ Hr) as (r' & Hr' & Hk).
  destruct (pg_families _ _ Hp _ _ Hf) as (f' & Hf' & _ & _ & _ & _ & Hstay). exists t, r', f'.
  assert (rt_digest r' = rt_digest r ∧ rt_family_id r' = rt_family_id r) as [Hd' Hfam]
    by (destruct Hk as [->|(_ & _ & _ & ? & ? & _)]; by split).
  rewrite Hd', Hfam. by split_and!; auto.
Qed.
Lemma refresh_dead_session env seen token db :
  accounts_ok db → dead_session token db →
  oc_result (refresh env seen token db) = Raise InvalidSession ∧ oc_db (refresh env seen token db) = db.
Proof.
  intros Hok (t & r & f & Hr & Hd & Hf & Hrev). unfold refresh. destruct (find_refresh _ seen) as [target|]; [|done]. cbv zeta.
  assert (session_transaction (tg_user_id target) (refresh_transaction env target token) db = Raise InvalidSession) as ->; [|done].
  unfold session_transaction. pose proof (get_by_id_total (tg_user_id target) db Hok) as Hget.
  destruct (users db !! tg_user_id target) as [row|]; [|by rewrite Hget].
  destruct Hget as (u & -> & _). cbn [mbind result_bind refresh_transaction].
  destruct (bool_decide (user_status u = ACTIVE)); [|done]. cbn [negb raise_if mbind result_bind].
  destruct (locked_refresh u target token db) as [[f' t']|e] eqn:E; [|by apply locked_refresh_error in E as ->].
  apply locked_refresh_Ok in E as (Hf' & Ht' & _ & _ & Htf & Htd); [|apply Hok].
  assert (tg_token_id target = t) as Heq.
  { eapply (tb_clash _ _ _ _ (to_refresh _ (ac_tables _ Hok))); [done|done|]. unfold same_digest. congruence. }
  assert (f' = f) as -> by congruence. cbn [mbind result_bind]. unfold family_active.
  by rewrite Hrev, bool_decide_eq_false_2.
Qed.

Lemma logout_live_session env token expires_at db :
  accounts_ok db → (∀ k f, families db !! k = Some f → fr_created_at f ≤ ae_now env) → live_session token expires_at db →
  ae_now env < expires_at →
  oc_result (logout env db token db) = Ok tt ∧ dead_session token (oc_db (logout env db token db)).
Proof.
  intros Hok Hclock (t & r & f & Hr & Hd & Hunused & Hf & Hact & <-) Hlive.
  destruct (find_refresh_spec _ _ _ (ac_tables _ Hok) Hr) as (f0 & Hf0 & Hfind). rewrite Hd in Hfind.
  assert (f0 = f) as -> by congruence. unfold logout. rewrite Hfind.
  destruct (to_family_user _ (ac_tables _ Hok) _ _ Hf) as [row Hrow].
  pose proof (get_by_id_total (fr_user_id f) db Hok) as Hget. rewrite Hrow in Hget.
  destruct Hget as (u & Hu & Hread). destruct (user_from_record_Ok _ _ Hread) as (Huid & _).
  destruct (tb_row _ _ _ _ (to_users _ (ac_tables _ Hok)) _ _ Hrow) as [Hkey _].
  destruct (tb_row _ _ _ _ (to_families _ (ac_tables _ Hok)) _ _ Hf) as [Hfid _].
  unfold session_transaction. cbn [tg_user_id]. rewrite Hu. cbn [mbind result_bind logout_transaction].
  rewrite (proj2 (locked_refresh_Ok u (mkRefreshTarget (fr_user_id f) (rt_family_id r) t) token db f r (ac_tables _ Hok)))
    by (cbn; split_and!; [done|done|congruence|done|done|done]).
  unfold family_active. rewrite Hact, bool_decide_eq_true_2, Hunused by done. apply Z.ltb_lt in Hlive. rewrite Hlive.
  cbn [andb present negb]. rewrite Hfid.
  destruct (revoke_succeeds (ae_now env) (rt_family_id r) f db (ac_tables _ Hok) Hf) as [db' Hrev]; [by eapply Hclock|].
  rewrite Hrev. cbn. split; [done|]. apply revoke_keeps in Hrev as [[_ Hp] Hrevd]; [|done].
  destruct (pg_families _ _ Hp _ _ Hf) as (f' & Hf' & _). destruct (pg_refresh _ _ Hp _ _ Hr) as (r' & Hr' & Hk).
  assert (rt_digest r' = rt_digest r ∧ rt_family_id r' = rt_family_id r) as [Hd' Hfam]
    by (destruct Hk as [->|(_ & _ & _ & ? & ? & _)]; by split).
  exists t, r', f'. rewrite Hd', Hfam. split_and!; [done|done|done|by apply Hrevd].
Qed.

(** ** A turn of a browser that is signed in *)

Record browser_turn (server : AuthServer) (x : AuthExecution) (request : AuthRequest) (c : AuthCall)
    (jar : list (pystr * pystr)) (refresh_token csrf : pystr) (db : ADB) (windows : Windows) : Prop := {
  bt_ready : auth_ready server x request c db;
  bt_serving : serving server;
  bt_windows : ∃ t, windows_ok (sr_capacity server) t windows ∧ t ≤ ax_monotonic x;
  bt_ip : ∀ a, rq_client_ip request = Some a → client_address a;
  bt_jar : keeps_session refresh_token csrf jar ∧ ∃ raw, token_of raw csrf;
  bt_request : browser_request server csrf jar request;
  bt_clock : ∀ k f, families db !! k = Some f → fr_created_at f ≤ ae_now (ax_env x);
}.

(** The exchange is the handler's, on the token of the jar, unless the quota is
    exhausted. *)
Lemma turn_exchange server x request c jar refresh_token csrf db windows :
  browser_turn server x request c jar refresh_token csrf db windows →
  c = auth_refresh_session ∨ c = auth_logout_session →
  let e := exchange server x request c db windows in
  let o := handler server x request c db in
  _refresh_cookie (rq_cookies request) = Ok (Some refresh_token) ∧ is_Some (session_service server) ∧
  (c = auth_refresh_session ∧ rs_status (ar_response (ec_response e)) = 429 ∧ ec_db e = db ∧ ar_cookies (ec_response e) = [] ∨
   ec_response e = sent (rq_http request) (oc_result o) ∧ ec_db e = oc_db o).
Proof.
  intros [_ [Henabled Hfake] (t & Hw & Ht) Hip [Hkeeps Hcsrf] Hreq _] Hc.
  destruct (browser_checked server x request c windows t Hw Ht Hip jar refresh_token csrf Hkeeps Hcsrf Hreq)
    as (ev & w' & r & Hcheck & Hcookie & Hr).
  split; [exact Hcookie|]. split; [unfold session_service; by rewrite Henabled|]. unfold exchange.
  assert (router_for server (call_action c) = Protected) as ->
    by (unfold router_for; destruct Hc as [->| ->]; cbn; by rewrite Henabled).
  rewrite Hcheck. destruct Hr as [->|(Hrate & n & -> & _)]; [by right|]. left.
  destruct Hc as [->| ->]; [by split_and!|done].
Qed.

(** C37: signing in and staying so.  A success of login, registration, password
    change or refresh leaves a browser that follows the Set-Cookie headers, next
    to any other cookies, with both cookies of a session that is alive, which
    lasts seven days from its start.  Its refresh then succeeds, in whatever
    order it sends its cookies and unless its client exceeded the quota: it is
    signed in again with new cookies and the same expiry. *)
Theorem browser_session_continues server x request jar db windows :
  draws_tokens x →
  (∀ c t, auth_ready server x request c db → windows_ok (sr_capacity server) t windows → t ≤ ax_monotonic x →
     (∀ a, rq_client_ip request = Some a → client_address a) → Forall plain_cookie jar → issues_session c = true →
     let e := exchange server x request c db windows in
     rs_status (ar_response (ec_response e)) < 400 →
     ∃ refresh_token csrf expires_at, live_session refresh_token expires_at (ec_db e) ∧
       (c = auth_refresh_session ∨ expires_at = ae_now (ax_env x) + days 7) ∧
       (ae_now (ax_env x) + seconds 1 ≤ expires_at →
          signed_in refresh_token csrf expires_at (jar_after jar (ec_response e)) (ec_db e))) ∧
  (∀ refresh_token csrf expires_at, browser_turn server x request auth_refresh_session jar refresh_token csrf db windows →
     live_session refresh_token expires_at db → ax_seen x = db → fresh_session (ax_env x) db →
     (∀ k r, refresh_tokens db !! k = Some r → rt_issued_at r ≤ ae_now (ax_env x)) →
     ae_now (ax_env x) + seconds 1 ≤ expires_at →
     let e := exchange server x request auth_refresh_session db windows in
     rs_status (ar_response (ec_response e)) = 429 ∧ ec_db e = db ∧ jar_after jar (ec_response e) = jar ∨
     rs_status (ar_response (ec_response e)) = 200 ∧
       ∃ refresh_token' csrf', signed_in refresh_token' csrf' expires_at (jar_after jar (ec_response e)) (ec_db e)).
Proof.
  intros Hdraws. split.
  - intros c t Hready Hw Ht Hip Hplain Hissue. cbv zeta. intros Hs.
    destruct (exchange_answered server x request c db windows t Hready Hw Ht Hip) as (_ & _ & [Hwell|(_ & _ & H500 & _)]); [|lia].
    by apply success_signs_in.
  - intros refresh_token csrf expires_at Hturn Hlive Hseen Hfresh Hissued Hage.
    pose proof (turn_exchange _ _ _ _ _ _ _ _ _ Hturn (or_introl eq_refl)) as (Hcookie & [fake Hservice] & Hcase). cbv zeta in *.
    destruct Hcase as [(_ & H429 & Hdb & Hc)|[Hresp Hdb]]; [left; unfold jar_after; by rewrite Hc|right].
    pose proof (bt_ready _ _ _ _ _ _ _ _ _ Hturn) as Hready. pose proof (as_ok _ (ar_db _ _ _ _ _ Hready)) as Hok.
    destruct (refresh_live_session (ax_env x) refresh_token expires_at db) as (g & Hg & Hexp); try done;
      [apply Hturn|apply Hready|unfold seconds in *; lia|].
    destruct (refresh_live _ _ _ _ _ Hok Hg) as [Hlive' Hat]. destruct (refresh_drawn _ _ _ _ _ Hok Hg) as [i Hi].
    rewrite Hresp, Hdb. cbn [handler]. unfold refresh_handler. rewrite Hservice, Hcookie. unfold try_use_case.
    cbn [oc_result oc_db]. rewrite Hseen, Hg. unfold grant_body. rewrite (issue_cookies _ _ _ _ _ _ _ _ Hready Hat).
    cbn [mbind result_bind sent no_store_send ar_response rs_status]. split; [done|].
    destruct (ar_random _ _ _ _ _ Hready) as [Hb Hl]. destruct (generate_opaque_token_Ok _ Hb Hl) as [_ Hcsrf].
    destruct (Hdraws i) as [raw Hraw]. rewrite <- Hi in Hraw.
    exists (sg_refresh_token g), (b64encode (ax_csrf_random x)). rewrite Hexp in *. split; [|split; [by eexists|done]].
    unfold jar_after. cbn [ar_cookies]. eapply jar_keeps_session; [exact Hraw|exact Hcsrf| |apply Hturn].
    unfold seconds in *. Z.to_euclidean_division_equations. lia.
Qed.

(** C38: logging out.  A signed-in browser is answered 204, whatever else its jar
    holds, keeps neither cookie, and its session is over: in every later state a
    refresh with the old cookies is answered 401 or, over the quota, 429, changes
    nothing and leaves a browser without either cookie or with its jar as it was. *)
Theorem browser_logs_out server x request jar refresh_token csrf expires_at db windows :
  browser_turn server x request auth_logout_session jar refresh_token csrf db windows →
  live_session refresh_token expires_at db → ax_seen x = db → ae_now (ax_env x) < expires_at →
  let e := exchange server x request auth_logout_session db windows in
  rs_status (ar_response (ec_response e)) = 204 ∧ no_session (jar_after jar (ec_response e)) ∧
  ∀ x' request' db' windows', rtc account_step (ec_db e) db' →
    browser_turn server x' request' auth_refresh_session jar refresh_token csrf db' windows' →
    let e' := exchange server x' request' auth_refresh_session db' windows' in
    ec_db e' = db' ∧
    (rs_status (ar_response (ec_response e')) = 401 ∧ no_session (jar_after jar (ec_response e')) ∨
     rs_status (ar_response (ec_response e')) = 429 ∧ jar_after jar (ec_response e') = jar).
Proof.
  intros Hturn Hlive Hseen Hnow.
  pose proof (turn_exchange _ _ _ _ _ _ _ _ _ Hturn (or_intror eq_refl)) as (Hcookie & [fake Hservice] & Hcase). cbv zeta in *.
  destruct Hcase as [([=] & _)|[Hresp Hdb]]. rewrite Hresp, Hdb.
  pose proof (bt_ready _ _ _ _ _ _ _ _ _ Hturn) as Hready. pose proof (as_ok _ (ar_db _ _ _ _ _ Hready)) as Hok.
  destruct (logout_live_session (ax_env x) refresh_token expires_at db Hok (bt_clock _ _ _ _ _ _ _ _ _ Hturn) Hlive Hnow)
    as [Hres Hdead].
  assert (Forall plain_cookie jar) as Hplain by apply Hturn.
  cbn [handler]. unfold logout_handler. rewrite Hservice, Hcookie. unfold try_use_case. cbn [oc_result oc_db]. rewrite Hseen, Hres.
  split; [done|]. split; [by apply clear_no_session|].
  intros x' request' db' windows' Hsteps Hturn'.
  pose proof (turn_exchange _ _ _ _ _ _ _ _ _ Hturn' (or_introl eq_refl)) as (Hcookie' & [fake' Hservice'] & Hcase'). cbv zeta in *.
  destruct Hcase' as [(_ & H429 & Hdb' & Hc)|[Hresp' Hdb']]; [split; [done|right]; unfold jar_after; by rewrite Hc|].
  destruct (account_steps_keep _ _ (proj1 (logout_keeps (ax_env x) db refresh_token db Hok)) Hsteps) as [Hok' Hp].
  destruct (refresh_dead_session (ax_env x') (ax_seen x') refresh_token db' Hok') as [Hres' Hsame];
    [by eapply dead_session_stays|].
  rewrite Hresp', Hdb'. cbn [handler]. unfold refresh_handler. rewrite Hservice', Hcookie'. unfold try_use_case.
  cbn [oc_result oc_db]. rewrite Hres'. split; [exact Hsame|]. left. split; [done|]. by apply clear_no_session.
Qed.
End services.

(** ** Witnesses *)

#[local] Existing Instance ascii_data.
#[local] Existing Instance one_user_services.

Definition right_login : AuthCall := auth_login (Fields (py "ann@x.io", py "correct horse battery")).
Definition one_login : Exchange :=
  exchange one_server (one_execution 5 one_user) (one_request [] []) right_login one_user [].
Definition one_csrf : pystr := b64encode (repeat 9 32).
Definition other_cookies : list (pystr * pystr) := [(py "theme", py "dark mode")].
Definition one_jar : list (pystr * pystr) := jar_after other_cookies (ec_response one_login).

Lemma one_token_of n : ∃ raw, token_of raw (one_token n).
Proof.
  exists (repeat (n mod 256) 32). split; [|split; [apply repeat_length|done]].
  apply Forall_forall. intros b Hb%list_elem_of_In%repeat_spec. subst b. unfold is_byte. apply Z.mod_pos_bound. lia.
Qed.
Lemma one_csrf_of : ∃ raw, token_of raw one_csrf.
Proof. exact (one_token_of 9). Qed.
Lemma other_cookies_plain : Forall plain_cookie other_cookies.
Proof. apply Forall_singleton. apply (bool_decide_unpack _). vm_compute. exact I. Qed.
Lemma no_windows_ok : windows_ok 10 0 [].
Proof. split; [constructor|constructor|by intros ? ? ?%not_elem_of_nil|cbn; lia]. Qed.

Lemma one_login_live : live_session (one_token 5) (seconds 5 + days 7) (ec_db one_login).
Proof. exists 1050. eexists _, _. split; [vm_compute; reflexivity|]. split_and!; vm_compute; reflexivity. Qed.
Lemma one_jar_keeps : keeps_session (one_token 5) one_csrf one_jar.
Proof.
  destruct (one_token_of 5) as [raw Hraw]. destruct one_csrf_of as [raw' Hcsrf].
  assert (one_jar = foldl store_cookie other_cookies
    (session_cookies true (one_token 5) one_csrf 604800 (utc (seconds 5 + days 7)))) as -> by (vm_compute; reflexivity).
  by eapply jar_keeps_session; [| | |exact other_cookies_plain].
Qed.
Lemma one_login_served db : rtc account_step (ec_db one_login) db → registrations db = ∅ → accounts_served db.
Proof.
  intros Hsteps. apply one_user_served. eapply rtc_l; [|exact Hsteps].
  assert (ec_db one_login = oc_db (login (one_env 5) one_user (py "Hfake") (py "ann@x.io") (py "correct horse battery") one_user))
    as -> by (vm_compute; reflexivity).
  apply step_login.
Qed.

(** The browser's next request, with the cookies in the other order. *)
Definition one_turn_request : AuthRequest := one_request [cookie_header (reverse one_jar)] [one_csrf].
Lemma one_turn n c db :
  accounts_served db → body_errors c = [] → 0 ≤ n → map_Forall (λ _ f, fr_created_at f ≤ seconds n) (families db) →
  browser_turn one_server (one_execution n db) one_turn_request c one_jar (one_token 5) one_csrf db [].
Proof.
  intros Hs Hbody Hn Hclock. split.
  - by apply one_ready.
  - split; [done|by eexists].
  - exists 0. split; [exact no_windows_ok|]. cbn. unfold second. lia.
  - done.
  - split; [exact one_jar_keeps|exact one_csrf_of].
  - split; [|split; [done|]].
    + exists (reverse one_jar). split; [apply reverse_Permutation|done].
    + exists (py "https://mdm.example.com"), (py "https://mdm.example.com:443"). split; [done|].
      split; [vm_compute; reflexivity|by left].
  - exact Hclock.
Qed.

(** A login of a browser with another cookie, and the refresh that follows. *)
Lemma browser_session_continues_witness :
  (∃ refresh_token csrf expires_at, signed_in refresh_token csrf expires_at one_jar (ec_db one_login)) ∧
  ∃ refresh_token csrf,
    let e := exchange one_server (one_execution 20 (ec_db one_login)) one_turn_request auth_refresh_session (ec_db one_login) [] in
    rs_status (ar_response (ec_response e)) = 200 ∧
    signed_in refresh_token csrf (seconds 5 + days 7) (jar_after one_jar (ec_response e)) (ec_db e).
Proof.
  assert (∀ n db, draws_tokens (one_execution n db)) as Hdraws by (intros n db i; apply one_token_of).
  split.
  - destruct (proj1 (browser_session_continues one_server (one_execution 5 one_user) (one_request [] []) other_cookies one_user []
      (Hdraws _ _)) right_login 0) as (r & csrf & e & _ & He & Hin).
    + by apply one_ready; [apply one_user_served|].
    + exact no_windows_ok.
    + vm_compute. discriminate.
    + done.
    + exact other_cookies_plain.
    + done.
    + vm_compute. reflexivity.
    + exists r, csrf, e. apply Hin. destruct He as [[=]| ->]. vm_compute. discriminate.
  - assert (accounts_served (ec_db one_login)) as Hs by (apply one_login_served; [done|vm_compute; reflexivity]).
    destruct (proj2 (browser_session_continues one_server (one_execution 20 (ec_db one_login)) one_turn_request one_jar
      (ec_db one_login) [] (Hdraws _ _)) (one_token 5) one_csrf (seconds 5 + days 7)) as [(H429 & _)|(H200 & r & csrf & Hin)].
    + apply one_turn; [done|done|lia|]. apply (bool_decide_unpack _). vm_compute. exact I.
    + exact one_login_live.
    + reflexivity.
    + split; [vm_compute; reflexivity|]. split; [vm_compute; reflexivity|]. split; [vm_compute; reflexivity|].
      apply map_Forall_to_list. vm_compute. repeat constructor; discriminate.
    + assert (map_Forall (λ _ r, rt_issued_at r ≤ ae_now (one_env 20)) (refresh_tokens (ec_db one_login))) as H; [|exact H].
      apply (bool_decide_unpack _). vm_compute. exact I.
    + vm_compute. discriminate.
    + exfalso. revert H429. vm_compute. discriminate.
    + exists r, csrf. by split.
Defined.

(** Logging out, and the old cookies afterwards. *)
Lemma browser_logs_out_witness :
  let e := exchange one_server (one_execution 20 (ec_db one_login)) one_turn_request auth_logout_session (ec_db one_login) [] in
  let e' := exchange one_server (one_execution 30 (ec_db e)) one_turn_request auth_refresh_session (ec_db e) [] in
  rs_status (ar_response (ec_response e)) = 204 ∧ no_session (jar_after one_jar (ec_response e)) ∧
  rs_status (ar_response (ec_response e')) = 401 ∧ no_session (jar_after one_jar (ec_response e')).
Proof.
  intros e e'. assert (accounts_served (ec_db one_login)) as Hs by (apply one_login_served; [done|vm_compute; reflexivity]).
  assert (ec_db e = oc_db (logout (one_env 20) (ec_db one_login) (one_token 5) (ec_db one_login))) as Hdb by (vm_compute; reflexivity).
  assert (accounts_served (ec_db e)) as Hs'.
  { apply one_login_served; [|vm_compute; reflexivity]. rewrite Hdb. apply rtc_once, step_logout. }
  destruct (browser_logs_out one_server (one_execution 20 (ec_db one_login)) one_turn_request one_jar (one_token 5) one_csrf
    (seconds 5 + days 7) (ec_db one_login) []) as (H204 & Hno & Hlater).
  - apply one_turn; [done|done|lia|]. apply (bool_decide_unpack _). vm_compute. exact I.
  - exact one_login_live.
  - reflexivity.
  - vm_compute. reflexivity.
  - destruct (Hlater (one_execution 30 (ec_db e)) one_turn_request (ec_db e) [] (rtc_refl _ _)) as (_ & [H401|[H429 _]]).
    + apply one_turn; [done|done|lia|]. apply (bool_decide_unpack _). vm_compute. exact I.
    + split; [exact H204|]. split; [exact Hno|]. exact H401.
    + exfalso. revert H429. vm_compute. discriminate.
Defined.

(** The login that [auth_routes_documented] excepts: its four draws are a stored
    token, and the answer is an internal error, which the route does not
    document. *)
Definition collided_env : AuthEnv :=
  mkAuthEnv (seconds 40) 140 240 340 440 (λ k, (one_token 5, 5000 + Z.of_nat k)) (λ k, (one_token 5, 6000 + Z.of_nat k)).
Lemma collided_login_internal_error :
  let x := mkAuthExecution collided_env (ec_db one_login) (ec_db one_login) (seconds 40) (repeat 9 32) (40 * second) (utc (seconds 40)) in
  let r := ar_response (ec_response (exchange one_server x (one_request [] []) right_login (ec_db one_login) [])) in
  rs_status r = 500 ∧ (∀ examples, (500, examples) ∉ auth_responses right_login).
Proof.
  split; [vm_compute; reflexivity|]. intros examples Hin. apply list_elem_of_In in Hin. vm_compute in Hin. intuition discriminate.
Qed.
